(* ===== verification/_CoqProject ===== *)
-Q . S2P
Prelude.v
GoStd.v
Sha256.v
JsonEncode.v
JsonDecode.v
JsonFuel.v
JsonRoundtrip.v
KubeTypes.v
V1alpha1Types.v
ArcTypes.v
DeepCopyMemory.v
DeepCopyV1alpha1.v
DeepCopyArc.v
Registry.v
RegistryOrder.v
RegistryArtifactWorkflow.v
RegistryEndpoint.v
RegistryArtifactType.v
ApiServer.v
Conversion.v
ConversionScheme.v
ApiScheme.v
Clientset.v
InformerFactory.v
InformerTheorems.v
OpenAPI.v
OpenAPIArc.v
OpenAPICore1.v
OpenAPICore2.v
OpenAPICore3.v
OpenAPICore4.v
OpenAPIMeta.v
OpenAPIDefinitions.v
OpenAPIClosure.v
OpenAPIValues.v
OpenAPIConform.v
OpenAPIShape.v
OpenAPIExamples.v
ServerStart.v
ApplyMeta.v
ApplyObject.v
ApplyParts.v
ApplyOrder.v
ApplyArtifactWorkflow.v
ApplyEndpoint.v
ApplyArtifactType.v
ApplyUtils.v
FakeClientset.v
Client.v
Cluster.v
Errors.v
ControllerRuntime.v
WorkflowParameters.v
WorkflowParameterTheorems.v
OrderController.v
OrderFetch.v
OrderApply.v
OrderFacts.v
OrderConverge.v
OrderTheorems.v
OrderExamples.v
OrderWatch.v
OrderHash.v
ArtifactWorkflowController.v
ArtifactWorkflowFacts.v
ArtifactWorkflowTheorems.v
ArtifactWorkflowSystem.v
ArtifactWorkflowExamples.v
ErrorTracing.v
Completion.v
Cleanup.v
ControllerSetup.v
GoFlag.v
Manager.v
TestSupport.v
Interleaving.v
InterleavingFacts.v
InterleavingInvariant.v
InterleavingTheorems.v
InterleavingPhases.v
