(* ===== verification/Prelude.v ===== *)
(** * Artifact Conduit (ARC): a verification development

    ** The program

    ARC lets users order artifacts to be moved between endpoints.  An Order lists
    artifacts, each with a source and a destination Endpoint; for each artifact the
    order controller creates an ArtifactWorkflow whose name carries a hash of all its
    inputs; for each ArtifactWorkflow the artifact workflow controller starts an Argo
    workflow from the template of the ArtifactType and follows its phase.  Orders,
    endpoints, types and artifact workflows are served by an API server of their own,
    which stores an internal version of the objects that the versioned ones are
    converted to and from.  The controllers share no memory: they interact through
    the API server only.

    ** Layout

    Foundations:
    - Prelude: notations, tactics, hint databases, lemmas on lists and maps.
    - GoStd: errors and their wrapping, outcomes (value, error, panic), strings,
      slices, and the unspecified order in which [range] visits a map ([GoRuntime]).
    - Sha256, JsonEncode, JsonDecode, JsonFuel, JsonRoundtrip: the parts of
      crypto/sha256, encoding/hex and encoding/json that the order controller uses,
      and that encoding loses nothing.
    - KubeTypes: the structs of Kubernetes and Argo, with the fields that are used.

    The API (src/api, src/pkg/registry, src/pkg/apiserver, src/client-go):
    - V1alpha1Types, ArcTypes: the versioned and the internal types
      (api/arc/v1alpha1/*_types.go and api/arc/*_types.go).
    - DeepCopyMemory, DeepCopyV1alpha1, DeepCopyArc: the functions of
      zz_generated.deepcopy.go of both packages, over a heap.
    - Registry, RegistryOrder, RegistryArtifactWorkflow, RegistryEndpoint,
      RegistryArtifactType: strategies and stores (pkg/registry).
    - ApiServer: the storage map, [New] and the version mapping (pkg/apiserver).
    - Conversion, ConversionScheme: zz_generated.conversion.go and its registration.
    - ApiScheme: the registration of types, conversions and defaults with a scheme
      (register.go, defaults.go, install.go and the init functions of the clientset and
      the API server); Modules Arc and V1alpha1 for the two packages.
    - Clientset: client-go/clientset; InformerFactory: client-go/informers and
      client-go/listers, with the goroutines an informer factory starts as part of its
      state; InformerTheorems the properties and witnesses;
      FakeClientset: the clientset for tests (client-go/clientset/versioned/fake).
    - OpenAPI: the structs of kube-openapi; OpenAPIArc, OpenAPICore1 to OpenAPICore4,
      OpenAPIMeta and OpenAPIDefinitions: the schemas of
      client-go/openapi/zz_generated.openapi.go, one definition per function;
      OpenAPIClosure: the references between them; OpenAPIShape: their form;
      OpenAPIValues: the fields of the API types with their tags, the schemas these ask
      for, their JSON encoding, and what it is to conform to a schema; OpenAPIConform:
      that the published schemas are these and which values conform; OpenAPIExamples.
    - ApplyMeta, ApplyObject, ApplyParts, ApplyOrder, ApplyArtifactWorkflow,
      ApplyEndpoint, ApplyArtifactType, ApplyUtils: the builders of
      client-go/applyconfigurations.

    The controllers (src/pkg/controller):
    - Client: a reconciler is a tree of API calls ([prog]); [exec] gives its traces
      under every answer, [run] executes it against a server, [wp] proves facts about
      all traces.
    - Cluster: the state of the cluster; [keeps] says what holds at every point of a run,
      also if it is cut off there; [serves] says what a healthy API server does with a
      call, built on the strategies and conversions above; the class
      [HealthyServer] is the interface the liveness theorems are proved against, and
      [memory_server] an instance.
    - Errors, ControllerRuntime: errors.go, the contract of SetControllerReference and
      what both controllers share.
    - WorkflowParameters, WorkflowParameterTheorems: [dawToParameters], [flattenMap].
    - OrderController: [Reconcile] of order_controller.go, split where the source has
      its commented steps (deletion, finalizer, fetch, compare, create, delete, phases,
      status).  OrderFetch, OrderApply and OrderFacts prove what each step does and the
      abstract specification [reconciled]; OrderConverge the effect on a cluster;
      OrderTheorems and OrderHash the properties, OrderWatch what the handler of the
      endpoint watch does; OrderExamples witnesses.
    - ArtifactWorkflowController: [Reconcile] of artifactworkflow_controller.go;
      ArtifactWorkflowFacts has the abstract specification [awReconciled],
      ArtifactWorkflowTheorems the safety properties, ArtifactWorkflowSystem the effect
      on a cluster, and ArtifactWorkflowExamples the witnesses.
    - ErrorTracing: which answer of the API server an error of a reconciler is.
    - Completion, Cleanup: the two controllers and Argo composed, under fair schedules in
      which reconciliations may also be cut off: an order completes, and a deleted order
      disappears.
    - ControllerSetup: SetupWithManager of both controllers and the requests it leads to.
    - GoFlag: packages flag and strconv and [time.ParseDuration], as far as the manager
      uses them.  Manager: main of cmd/arc-controller-manager, with its flags.

    The API server's process:
    - ServerStart: the options, configuration, admission initializer and run of the
      server (pkg/apiserver/start.go, pkg/admission/orderinitializer), and main of
      cmd/arc-apiserver.

    Test support:
    - TestSupport: the test environment (pkg/envtest) and the OCI registry (test/oci).

    Concurrency:
    - Interleaving: the whole system: any number of reconciliations of both controllers
      in progress, advancing one API call at a time, reading from caches that may be
      stale, with faults, lost answers and restarts, next to users and Argo.
      InterleavingFacts says which calls the programs make, InterleavingInvariant has
      the invariant, InterleavingTheorems the properties and a scheduler that runs the
      system from an order to a succeeded workflow, InterleavingPhases where phases come
      from.

    ** What the theorems show

    - The controllers together: if reconciliations go on and Argo completes what it is
      given, then from some point on and forever every artifact of an order has its
      artifact workflow and its Argo workflow, and the status of the order reports how
      it ended ([order_completes]).  A deleted order disappears with everything that was
      made for it ([order_vanishes]).  Both hold however often the manager is stopped in
      the middle of reconciliations in between.  The hypotheses of fairness say how often something
      is reconciled, not what is then done; computed round-robin schedules have them.
    - Errors: every error a reconciler returns is the first answer that is not tolerated,
      wrapped with the text of its call, and which errors are tolerated.
    - Order controller: every run refines the specification [reconciled]; creations,
      deletions and the removal of the finalizer are safe under every answer of the
      API server; nothing is written before all inputs were fetched; the status is
      exact; against a healthy server one reconciliation converges and a second one
      changes nothing; deletion cleans up; the hashed bytes determine the inputs.
      Three theorems show behaviour that is less than what is intended: a tracked
      artifact workflow that vanished is not recreated, artifact indices can be stale,
      and the endpoint watch never enqueues an order.
    - Artifact workflow controller: the same kinds of refinement, safety and liveness,
      with the template, the secrets and the parameters of what is started.  One theorem
      shows that the phase flaps while Argo has not set one, another that any workflow
      of the right name is adopted.
    - The interleaved system: what users own is never changed by the manager, a started
      Argo workflow never loses its artifact workflow, the manager never changes the
      phase of what has completed, and every phase that nobody else wrote is one that an
      Argo workflow of the name had.
    - Setup and command: what the controllers create is enqueued for its creator when it
      changes; the manager starts last, and without HTTP/2 unless asked for; its command
      line gives all its variables exactly what it says, or the defaults of the source;
      the API server's process ends well only after serving.
    - Parameters: exactly which parameters a spec gives, when this panics and when it
      is an error, and that colliding names make the value depend on map order.
    - API server: conversions there and back write a whole object into any other one and
      agree with the reinterpretation of memory used for slices; status updates keep the spec; the storage is complete or
      the server does not start; the version mapping is clamped and does not wrap; the
      scheme knows exactly the objects of the API; a server that serves was configured
      with its certificates, has all six resources installed, and its hook finds both
      informer factories.
    - Informers: an invariant of the factory under any interleaving, that shutdown ends,
      what synchronisation covers, and that informers are scoped as the factory is.  The
      fake clientset has the resources and types of the real one.
    - Test support: an environment stops what it started, also when starting fails; a
      request without the wanted authorization is answered 401 but carried out.
    - OpenAPI: the published schemas of the API types are exactly those their structs ask
      for, and which values conform to them (all, but for enumerations, 32-bit integers,
      raw JSON and nil slices); dependencies are the
      references of each schema; chains of references end; all definitions but 22, that
      lead to a missing one, can be expanded; the schemas are well formed.
    - Deep copies share no memory with the original and have its contents.
    - Apply configurations: what any chain of builder calls builds, and when it panics.

    ** Parameters and their hypotheses

    Code outside the repository is a parameter: map order ([GoRuntime]), the range and
    printing of float64 ([Float64]), SetControllerReference ([ControllerUtil]), the API
    server ([HealthyServer]), the generic registry ([GenericRegistry],
    [StoreCompletion]), version arithmetic ([Versions]), the scheme ([Scheme],
    [RuntimeScheme]), the deep copies of Kubernetes ([KubeMemory], [KubeCopy]), the REST
    client ([RestLibrary]), the cache of client-go ([CacheLibrary]), the handlers of
    controller-runtime ([ControllerHandlers]), the generic API server
    ([ServerLibrary]), the flags that other packages register ([FlagLibrary]), the
    object tracker of client-go ([TestingLibrary]) and two functions of kube-openapi
    ([OpenAPILibrary], [OpenAPILibraryLaws]); the encodings of metadata and raw JSON are
    arguments.  The witnesses are computed with concrete instances.

    ** Fuel and integers

    [parse_json] gives the decoder fuel of twice the length of the input plus two;
    JsonFuel proves that any larger amount gives the same result.  SHA-256 consumes one
    unit per block and starts with as many as there are words.  Words of SHA-256 are
    kept at 32 bits, the offset of the version mapping at 64 bits.  Conformance to a
    schema takes fuel for each schema passed through; twelve more than the metadata
    needs is enough for every type of the API.  Durations are 64-bit nanoseconds, with
    the overflow checks of [time.ParseDuration]; its fractions are computed in 64-bit
    floating point, its parts take fuel of the length of the string, of which each
    consumes at least one character.

    ** What is not modelled

    Cobra and the flags of k8s.io/apiserver, whose parsing is a parameter of the API
    server's main; the admission plugins themselves, which the repository does not have.
    Waiting until a test environment is ready only calls a library.  Descriptions are
    left out of the schemas.  Log lines are modelled only in errLogAndWrap.  A nil and an
    empty slice are one value except where the code distinguishes them; where the
    encoding does, it is an argument, given for each slice.  The informers that an
    informer factory is asked to make are new, as those of the repository are.  In the
    theorems of Completion and Cleanup a
    reconciliation is one step against a healthy server, or the part of it before it is
    cut off; the calls of different reconciliations do not interleave.  Interleaving call
    by call, stale reads and faults are the subject of the safety theorems of
    InterleavingTheorems.

    Next: whether the defaults of the published schemas conform to them, and completion
    with reconciliations that interleave call by call, with faults. *)

From stdpp Require Import base gmap sets list strings sorting.

(** ** Notation scope of the development *)

Declare Scope arc_scope.
Delimit Scope arc_scope with arc.

(** [e1 +++ e2] is Go's string concatenation. *)
Notation "s1 +++ s2" := (String.append s1 s2)
  (at level 60, right associativity) : arc_scope.

Open Scope arc_scope.

(** ** Hint databases

    [arc] collects the lemmas that close the routine goals of the components;
    [arc_rw] the rewriting rules that normalise them. *)

Create HintDb arc.
Create Rewrite HintDb arc_rw.

(** ** Tactics *)

(** Case on the scrutinee of a [match] in the goal, keeping the equation. *)
Ltac case_goal :=
  match goal with
  | |- context [match ?x with _ => _ end] => destruct x eqn:?
  end.

(** Case on the scrutinee of a [match] in a hypothesis, keeping the equation. *)
Ltac case_hyp H :=
  match type of H with
  | context [match ?x with _ => _ end] => destruct x eqn:?
  end.

(** Open existentials and conjunctions of the context. *)
Ltac open_all :=
  repeat match goal with
         | H : exists _, _ |- _ => destruct H
         | H : _ /\ _ |- _ => destruct H
         end.

(** Normalise with the rewriting database and close what is left. *)
Ltac arc_simpl := autorewrite with arc_rw; simpl; eauto with arc.

(** ** Lists *)

Section lists.
Context {A B : Type}.

(** Looking up in an indexed enumeration of a list. *)
Lemma fold_left_map {C : Type} (f : C -> B -> C) (g : A -> B) (l : list A) (c : C) :
  fold_left f (map g l) c = fold_left (fun c a => f c (g a)) l c.
Proof. revert c. induction l as [|a l IH]; intros c; simpl; auto. Qed.

Lemma filter_idemp (P : A -> Prop) `{!forall x, Decision (P x)} (l : list A) :
  filter P (filter P l) = filter P l.
Proof.
  induction l as [|a l IH]; [done|].
  rewrite filter_cons. case_decide; [|done].
  rewrite filter_cons_True by done. by f_equal.
Qed.

End lists.

(** ** Strings *)

Lemma append_assoc (s1 s2 s3 : string) : (s1 +++ s2) +++ s3 = s1 +++ s2 +++ s3.
Proof. induction s1 as [|c s1 IH]; [done|]. exact (f_equal (String c) IH). Qed.

Lemma append_nil_r (s : string) : s +++ String.EmptyString = s.
Proof. induction s as [|c s IH]; [done|]. exact (f_equal (String c) IH). Qed.

(** ** Finite maps *)

Section maps.
Context {V : Type}.

(** A fold of insertions into a map: the last binding of a key wins. *)
Lemma lookup_fold_insert (l : list (string * V)) (m : gmap string V) (k : string) :
  k ∉ l.*1 ->
  fold_left (fun m kv => <[kv.1 := kv.2]> m) l m !! k = m !! k.
Proof.
  revert m. induction l as [|[k' v] l IH]; intros m Hk; simpl; [done|].
  rewrite IH by set_solver. apply lookup_insert_ne. set_solver.
Qed.

Lemma dom_fold_insert (l : list (string * V)) (m : gmap string V) :
  dom (fold_left (fun m kv => <[kv.1 := kv.2]> m) l m) = list_to_set l.*1 ∪ dom m.
Proof.
  revert m. induction l as [|[k' v] l IH]; intros m; simpl; [set_solver|].
  rewrite IH, dom_insert_L. set_solver.
Qed.

(** With distinct keys, that is the union with the list read as a map. *)
Lemma fold_insert_union (l : list (string * V)) (m : gmap string V) :
  NoDup l.*1 ->
  fold_left (fun m kv => <[kv.1 := kv.2]> m) l m = list_to_map l ∪ m.
Proof.
  revert m. induction l as [|[k v] l IH]; intros m Hnd; simpl.
  - by rewrite map_empty_union.
  - apply NoDup_cons in Hnd as [Hk Hnd]. rewrite IH by done.
    rewrite <- insert_union_l, insert_union_r; [done|].
    by apply not_elem_of_list_to_map_1.
Qed.

End maps.
