(* ===== verification/GoStd.v ===== *)
(** * The parts of Go and its standard library that the sources use

    Byte strings and the [strings], [strconv], [slices] and [fmt] functions the
    controllers call, error values with their wrapping, the outcome of a Go call
    (a value, an error or a panic), and the order in which [range] visits a map. *)

From stdpp Require Import base gmap sets list strings sorting pretty.
From Stdlib Require Import Ascii String.
From S2P Require Import Prelude.

Local Open Scope string_scope.
Local Open Scope list_scope.

(** ** Error values

    An error of the API server carries a status reason; [fmt.Errorf] with [%w]
    wraps an error below a text.  A format text that has verbs of its own is kept
    as it is ([FormatError]): its rendering is not modelled and nothing below it
    is unwrapped. *)

Inductive StatusReason :=
| StatusReasonNotFound
| StatusReasonAlreadyExists
| StatusReasonConflict
| StatusReasonOther (reason : string).

Inductive error :=
| StatusError (reason : StatusReason) (message : string)
| PlainError (message : string)
| WrapError (text : string) (err : error)
| FormatError (format : string) (err : error).

#[export] Instance StatusReason_eq_dec : EqDecision StatusReason.
Proof. solve_decision. Defined.
#[export] Instance error_eq_dec : EqDecision error.
Proof. solve_decision. Defined.

(** [apierrors.ReasonForError]: the reason of the status error in the chain. *)
Fixpoint ReasonForError (err : error) : option StatusReason :=
  match err with
  | StatusError r _ => Some r
  | PlainError _ | FormatError _ _ => None
  | WrapError _ e => ReasonForError e
  end.

Definition IsNotFound (err : error) : bool :=
  bool_decide (ReasonForError err = Some StatusReasonNotFound).

Definition IsAlreadyExists (err : error) : bool :=
  bool_decide (ReasonForError err = Some StatusReasonAlreadyExists).

(** [client.IgnoreNotFound] and [client.IgnoreAlreadyExists] turn the error they
    ignore into nil. *)
Definition IgnoreNotFound (err : option error) : option error :=
  match err with
  | Some e => if IsNotFound e then None else Some e
  | None => None
  end.

Definition IgnoreAlreadyExists (err : option error) : option error :=
  match err with
  | Some e => if IsAlreadyExists e then None else Some e
  | None => None
  end.

(** ** Outcomes *)

Inductive outcome (A : Type) :=
| Ok (a : A)
| Err (e : error)
| Panic (msg : string).
Arguments Ok {A} a.
Arguments Err {A} e.
Arguments Panic {A} msg.

Definition obind {A B : Type} (m : outcome A) (f : A -> outcome B) : outcome B :=
  match m with
  | Ok a => f a
  | Err e => Err e
  | Panic s => Panic s
  end.

Notation "'let?' x := m 'in' k" := (obind m (fun x => k))
  (at level 10, x pattern, m at level 100, k at level 200) : arc_scope.

(** ** Strings *)

Definition byte_N (c : ascii) : N := N_of_ascii c.

Definition is_lower (c : ascii) : bool := (97 <=? byte_N c)%N && (byte_N c <=? 122)%N.

(** The UTF-8 encoding of U+FFFD, which [strings.ToUpper] substitutes for a byte
    that is not valid UTF-8 on its own. *)
Definition replacement_char : string :=
  String (ascii_of_N 239) (String (ascii_of_N 191) (String (ascii_of_N 189) EmptyString)).

(** [strings.ToUpper] of a string of one byte. *)
Definition ToUpper1 (c : ascii) : string :=
  if (byte_N c <? 128)%N then
    String (if is_lower c then ascii_of_N (byte_N c - 32)%N else c) EmptyString
  else replacement_char.

(** [strings.ToUpper(s[:1]) + s[1:]]: slicing an empty string panics. *)
Definition upperFirst (s : string) : outcome string :=
  match s with
  | EmptyString => Panic "runtime error: slice bounds out of range [:1] with length 0"
  | String c rest => Ok (ToUpper1 c +++ rest)
  end.

(** [strconv.Itoa] of a slice index. *)
Definition Itoa (n : nat) : string := pretty n.

(** [fmt.Sprintf("%v", b)] of a bool. *)
Definition Sprint_bool (b : bool) : string := if b then "true" else "false".

Definition string_nonempty (s : string) : bool :=
  match s with EmptyString => false | _ => true end.

(** Does a format text contain the start of a verb? *)
Fixpoint has_verb (s : string) : bool :=
  match s with
  | EmptyString => false
  | String c rest => bool_decide (c = "%"%char) || has_verb rest
  end.

(** [fmt.Errorf(text+": %w", err)]. *)
Definition Errorf_wrap (text : string) (err : error) : error :=
  if has_verb text then FormatError (text +++ ": %w") err else WrapError text err.

(** ** [slices] *)

Definition slices_Contains (l : list string) (x : string) : bool :=
  bool_decide (x ∈ l).

Definition slices_DeleteFunc {A : Type} (l : list A) (del : A -> bool) : list A :=
  List.filter (fun x => negb (del x)) l.

(** ** The order of [range] over a map and the numbers of [encoding/json]

    Go leaves the order in which [range] visits a map unspecified; a run is a
    choice of an order for each [range] statement, named by its site.  A JSON
    number becomes a float64: [float64_of_literal] tells whether the literal is in
    range and how [%v] prints the float64 it denotes. *)

Class GoRuntime := {
  range_entries : forall {V : Type}, string -> list (string * V) -> list (string * V);
  range_entries_perm : forall (V : Type) (site : string) (l : list (string * V)),
    range_entries site l ≡ₚ l;
}.

Class Float64 := {
  float64_of_literal : string -> option string;
}.

(** The entries of a map in the order in which the [range] statement visits them. *)
Definition range_order `{GoRuntime} {V : Type} (site : string) (m : gmap string V) :
  list (string * V) := range_entries site (map_to_list m).

(** A runtime that keeps the order of [map_to_list]. *)
Definition plain_runtime : GoRuntime := {|
  range_entries := fun V _ l => l;
  range_entries_perm := fun V _ l => Permutation_refl _;
|}.

(** Numbers that print the way they were written. *)
Definition plain_float64 : Float64 := {| float64_of_literal := fun lit => Some lit |}.

(** A runtime that visits maps in the reverse order. *)
Program Definition reverse_runtime : GoRuntime := {|
  range_entries := fun V _ l => reverse l;
|}.
Next Obligation. intros. apply reverse_Permutation. Qed.

(** ** Lemmas *)

Section runtime.
Context `{GoRuntime} {V : Type}.
Implicit Types (m : gmap string V) (site : string).

Lemma range_order_perm site m : range_order site m ≡ₚ map_to_list m.
Proof. apply range_entries_perm. Qed.

Lemma range_elem_of site m k v :
  (k, v) ∈ range_order site m <-> m !! k = Some v.
Proof. rewrite range_order_perm. apply elem_of_map_to_list. Qed.

Lemma range_keys_elem_of site m k :
  k ∈ (range_order site m).*1 <-> is_Some (m !! k).
Proof.
  rewrite list_elem_of_fmap. split.
  - intros [[k' v] [-> Hin]]. apply range_elem_of in Hin. by eexists.
  - intros [v Hv]. exists (k, v). by rewrite range_elem_of.
Qed.

Lemma range_NoDup_keys site m : NoDup (range_order site m).*1.
Proof. rewrite range_order_perm. apply NoDup_fst_map_to_list. Qed.

Lemma range_empty site : range_order site (∅ : gmap string V) = [].
Proof.
  apply Permutation_nil_r. by rewrite range_order_perm, map_to_list_empty.
Qed.

Lemma range_list_to_map site m : list_to_map (range_order site m) = m.
Proof.
  rewrite <- (list_to_map_to_list m) at 2.
  apply list_to_map_proper; [|apply range_order_perm].
  apply range_NoDup_keys.
Qed.

(** Storing the entries of a map one by one into an empty map gives the map. *)
Lemma range_fold_insert site m :
  fold_left (fun m kv => <[kv.1 := kv.2]> m) (range_order site m) ∅ = m.
Proof.
  rewrite fold_insert_union, map_union_empty, range_list_to_map; [done|].
  apply range_NoDup_keys.
Qed.

End runtime.

Lemma IgnoreNotFound_None e :
  IgnoreNotFound e = None <-> e = None \/ exists e', e = Some e' /\ IsNotFound e' = true.
Proof.
  destruct e as [e|]; simpl; [|by split; [left|]].
  destruct (IsNotFound e) eqn:He; split; try done.
  - intros _. right. by exists e.
  - by intros [?|(e' & [= <-] & He')]; [|rewrite He in He'].
Qed.

Lemma ReasonForError_wrap text err :
  has_verb text = false -> ReasonForError (Errorf_wrap text err) = ReasonForError err.
Proof. intros Hv. unfold Errorf_wrap. by rewrite Hv. Qed.

Lemma upperFirst_panics s :
  (exists msg, upperFirst s = Panic msg) <-> s = "".
Proof. destruct s; split; intros; open_all; simplify_eq/=; eauto. Qed.

Lemma Itoa_inj n1 n2 : Itoa n1 = Itoa n2 -> n1 = n2.
Proof. unfold Itoa. apply (inj pretty). Qed.

Lemma slices_Contains_true l x : slices_Contains l x = true <-> x ∈ l.
Proof. apply bool_decide_eq_true. Qed.

Lemma slices_DeleteFunc_elem {A} (l : list A) del x :
  x ∈ slices_DeleteFunc l del <-> x ∈ l /\ del x = false.
Proof.
  unfold slices_DeleteFunc. rewrite !list_elem_of_In, List.filter_In, negb_true_iff. done.
Qed.

#[export] Hint Rewrite @range_empty slices_Contains_true : arc_rw.
#[export] Hint Resolve range_NoDup_keys : arc.
