(* ===== verification/Sha256.v ===== *)
(** * SHA-256 and the hexadecimal digest

    [crypto/sha256] and [encoding/hex], which the order controller uses to name
    artifact workflows: FIPS 180-4 on 32-bit words, each word a [Z] below [2^32]
    with its wrap-around written out. *)

From stdpp Require Import base list strings.
From Stdlib Require Import ZArith Ascii Strings.Byte.
From S2P Require Import Prelude.

Local Open Scope Z_scope.
Local Open Scope list_scope.

(** ** Words of 32 bits *)

Definition mask32 : Z := 4294967295.
Definition w32 (x : Z) : Z := Z.land x mask32.
Definition add32 (x y : Z) : Z := w32 (x + y).
Definition rotr (n x : Z) : Z := w32 (Z.lor (Z.shiftr x n) (Z.shiftl x (32 - n))).
Definition shr (n x : Z) : Z := Z.shiftr x n.
Definition Ch (x y z : Z) : Z := Z.lxor (Z.land x y) (Z.land (Z.lxor x mask32) z).
Definition Maj (x y z : Z) : Z :=
  Z.lxor (Z.land x y) (Z.lxor (Z.land x z) (Z.land y z)).
Definition Sigma0 (x : Z) : Z := Z.lxor (rotr 2 x) (Z.lxor (rotr 13 x) (rotr 22 x)).
Definition Sigma1 (x : Z) : Z := Z.lxor (rotr 6 x) (Z.lxor (rotr 11 x) (rotr 25 x)).
Definition sigma0 (x : Z) : Z := Z.lxor (rotr 7 x) (Z.lxor (rotr 18 x) (shr 3 x)).
Definition sigma1 (x : Z) : Z := Z.lxor (rotr 17 x) (Z.lxor (rotr 19 x) (shr 10 x)).

(** ** Constants

    The round constants are the first 32 bits of the fractional parts of the cube
    roots of the first 64 primes, the initial hash those of the square roots of the
    first eight. *)

Definition primes : list Z :=
  List.filter (fun n => forallb (fun d => negb (n mod d =? 0)) (seqZ 2 (n - 2))) (seqZ 2 310).

(** The integer cube root, bit by bit from bit [k - 1]. *)
Fixpoint cube_root (k : nat) (n r : Z) : Z :=
  match k with
  | O => r
  | S k =>
      let r' := r + 2 ^ Z.of_nat k in
      cube_root k n (if r' * r' * r' <=? n then r' else r)
  end.

Definition K256 : list Z :=
  Eval vm_compute in map (fun p => w32 (cube_root 40 (p * 2 ^ 96) 0)) primes.

Record hstate := Hs { ha : Z; hb : Z; hc : Z; hd : Z; he : Z; hf : Z; hg : Z; hh : Z }.

Definition root_word (p : Z) : Z := w32 (Z.sqrt (p * 2 ^ 64)).

Definition H256 : hstate :=
  Eval vm_compute in
    Hs (root_word 2) (root_word 3) (root_word 5) (root_word 7)
       (root_word 11) (root_word 13) (root_word 17) (root_word 19).

(** ** Padding and parsing *)

Definition byte_Z (b : byte) : Z := Z.of_N (Byte.to_N b).

(** The eight big-endian bytes of the message length in bits. *)
Definition length_bytes (bits : Z) : list Z :=
  map (fun i => Z.land (Z.shiftr bits (8 * i)) 255) [7; 6; 5; 4; 3; 2; 1; 0].

(** The padded message: a one bit, zeros up to 56 modulo 64, the length. *)
Definition pad (msg : list Z) : list Z :=
  let n := Z.of_nat (length msg) in
  msg ++ [128] ++ replicate (Z.to_nat ((55 - n) mod 64)) 0 ++ length_bytes (8 * n).

Fixpoint words (bs : list Z) : list Z :=
  match bs with
  | b0 :: b1 :: b2 :: b3 :: rest =>
      (Z.shiftl b0 24 + Z.shiftl b1 16 + Z.shiftl b2 8 + b3) :: words rest
  | _ => []
  end.

(** ** The compression function *)

(** The message schedule, extended one word at a time; the window holds the last
    sixteen words, oldest first. *)
Definition next_word (win : list Z) : Z :=
  add32 (add32 (sigma1 (nth 14 win 0)) (nth 9 win 0))
        (add32 (sigma0 (nth 1 win 0)) (nth 0 win 0)).

Definition round (s : hstate) (k w : Z) : hstate :=
  let t1 := add32 (add32 (hh s) (Sigma1 (he s)))
                  (add32 (Ch (he s) (hf s) (hg s)) (add32 k w)) in
  let t2 := add32 (Sigma0 (ha s)) (Maj (ha s) (hb s) (hc s)) in
  Hs (add32 t1 t2) (ha s) (hb s) (hc s) (add32 (hd s) t1) (he s) (hf s) (hg s).

Fixpoint rounds (ks : list Z) (win : list Z) (s : hstate) : hstate :=
  match ks with
  | [] => s
  | k :: ks =>
      let w := nth 0 win 0 in
      rounds ks (tail win ++ [next_word win]) (round s k w)
  end.

Definition add_state (s t : hstate) : hstate :=
  Hs (add32 (ha s) (ha t)) (add32 (hb s) (hb t)) (add32 (hc s) (hc t))
     (add32 (hd s) (hd t)) (add32 (he s) (he t)) (add32 (hf s) (hf t))
     (add32 (hg s) (hg t)) (add32 (hh s) (hh t)).

(** Blocks of sixteen words; the fuel is the number of words. *)
Fixpoint blocks (fuel : nat) (ws : list Z) (s : hstate) : hstate :=
  match fuel, ws with
  | S fuel, _ :: _ =>
      blocks fuel (drop 16 ws) (add_state s (rounds K256 (take 16 ws) s))
  | _, _ => s
  end.

Definition state_words (s : hstate) : list Z :=
  [ha s; hb s; hc s; hd s; he s; hf s; hg s; hh s].

Definition word_bytes (w : Z) : list Z :=
  [Z.land (Z.shiftr w 24) 255; Z.land (Z.shiftr w 16) 255;
   Z.land (Z.shiftr w 8) 255; Z.land w 255].

Definition sum256 (msg : list Z) : list Z :=
  let ws := words (pad msg) in
  concat (map word_bytes (state_words (blocks (length ws) ws H256))).

(** ** Hexadecimal *)

Definition hex_digit (n : Z) : ascii :=
  if n <? 10 then ascii_of_N (Z.to_N (48 + n)) else ascii_of_N (Z.to_N (87 + n)).

Fixpoint hex_encode (bs : list Z) : string :=
  match bs with
  | [] => EmptyString
  | b :: bs => String (hex_digit (Z.shiftr b 4)) (String (hex_digit (Z.land b 15)) (hex_encode bs))
  end.

(** [hex.EncodeToString(h.Sum(nil))] after [h.Write(data)]. *)
Definition sha256_hex (data : list byte) : string :=
  hex_encode (sum256 (map byte_Z data)).

(** ** Test vectors of FIPS 180-4 *)

Example sha256_abc :
  sha256_hex [x61; x62; x63]%byte =
  "ba7816bf8f01cfea414140de5dae2223b00361a396177a9cb410ff61f20015ad"%string.
Proof. vm_compute. reflexivity. Qed.

Example sha256_empty :
  sha256_hex [] =
  "e3b0c44298fc1c149afbf4c8996fb92427ae41e4649b934ca495991b7852b855"%string.
Proof. vm_compute. reflexivity. Qed.

(** ** The digest has 64 characters *)

Lemma hex_encode_length bs : String.length (hex_encode bs) = (2 * length bs)%nat.
Proof. induction bs as [|b bs IH]; simpl; [done|]. rewrite IH. lia. Qed.

Lemma sum256_length msg : length (sum256 msg) = 32%nat.
Proof. reflexivity. Qed.

Lemma sha256_hex_length data : String.length (sha256_hex data) = 64%nat.
Proof. unfold sha256_hex. by rewrite hex_encode_length, sum256_length. Qed.
