(* ===== verification/JsonEncode.v ===== *)
(** * [json.Marshal] of the data an artifact workflow's name is computed from

    [encoding/json] on strings (with HTML escaping and the replacement of invalid
    UTF-8), on integers and on byte slices (standard base64), and the encoding of
    an array of such values.  JsonRoundtrip proves that it loses nothing on valid
    UTF-8. *)

From stdpp Require Import base list strings pretty.
From Stdlib Require Import ZArith Ascii Strings.Byte.
From S2P Require Import Prelude Sha256.

Local Open Scope Z_scope.
Local Open Scope list_scope.

(** ** Bytes *)

Definition bytes_of (s : string) : list byte := String.list_byte_of_string s.

Definition Z_byte (z : Z) : byte :=
  match Byte.of_N (Z.to_N z) with Some b => b | None => x00 end.

Definition between (lo hi : Z) (b : byte) : bool := (lo <=? byte_Z b) && (byte_Z b <=? hi).

(** ** UTF-8

    [utf8.DecodeRune]: the rune at the head of the bytes and its width, or [None]
    where Go returns [RuneError] with width 1. *)

Definition rune2 (b0 b1 : byte) : Z := (byte_Z b0 - 192) * 64 + (byte_Z b1 - 128).
Definition rune3 (b0 b1 b2 : byte) : Z :=
  (byte_Z b0 - 224) * 4096 + (byte_Z b1 - 128) * 64 + (byte_Z b2 - 128).
Definition rune4 (b0 b1 b2 b3 : byte) : Z :=
  (byte_Z b0 - 240) * 262144 + (byte_Z b1 - 128) * 4096
  + (byte_Z b2 - 128) * 64 + (byte_Z b3 - 128).

(** Is the byte after the lead byte in the range the lead byte accepts? *)
Definition second_ok (b0 b1 : byte) : bool :=
  if byte_Z b0 =? 224 then between 160 191 b1
  else if byte_Z b0 =? 237 then between 128 159 b1
  else if byte_Z b0 =? 240 then between 144 191 b1
  else if byte_Z b0 =? 244 then between 128 143 b1
  else between 128 191 b1.

Definition is2 (b0 b1 : byte) : bool := between 194 223 b0 && second_ok b0 b1.
Definition is3 (b0 b1 b2 : byte) : bool :=
  between 224 239 b0 && second_ok b0 b1 && between 128 191 b2.
Definition is4 (b0 b1 b2 b3 : byte) : bool :=
  between 240 244 b0 && second_ok b0 b1 && between 128 191 b2 && between 128 191 b3.

Definition DecodeRune (bs : list byte) : option (Z * nat) :=
  match bs with
  | [] => None
  | b0 :: bs =>
      if byte_Z b0 <? 128 then Some (byte_Z b0, 1%nat)
      else match bs with
      | [] => None
      | b1 :: bs =>
          if is2 b0 b1 then Some (rune2 b0 b1, 2%nat)
          else match bs with
          | [] => None
          | b2 :: bs =>
              if is3 b0 b1 b2 then Some (rune3 b0 b1 b2, 3%nat)
              else match bs with
              | [] => None
              | b3 :: _ =>
                  if is4 b0 b1 b2 b3 then Some (rune4 b0 b1 b2 b3, 4%nat) else None
              end
          end
      end
  end.

(** [utf8.EncodeRune]. *)
Definition EncodeRune (r : Z) : list byte :=
  if r <? 128 then [Z_byte r]
  else if r <? 2048 then [Z_byte (192 + r / 64); Z_byte (128 + r mod 64)]
  else if r <? 65536 then
    [Z_byte (224 + r / 4096); Z_byte (128 + r / 64 mod 64); Z_byte (128 + r mod 64)]
  else [Z_byte (240 + r / 262144); Z_byte (128 + r / 4096 mod 64);
        Z_byte (128 + r / 64 mod 64); Z_byte (128 + r mod 64)].

(** The bytes of one rune. *)
Inductive rune_bytes : list byte -> Prop :=
| rune_bytes1 b0 : byte_Z b0 < 128 -> rune_bytes [b0]
| rune_bytes2 b0 b1 : is2 b0 b1 = true -> rune_bytes [b0; b1]
| rune_bytes3 b0 b1 b2 : is3 b0 b1 b2 = true -> rune_bytes [b0; b1; b2]
| rune_bytes4 b0 b1 b2 b3 : is4 b0 b1 b2 b3 = true -> rune_bytes [b0; b1; b2; b3].

(** Valid UTF-8: a sequence of runes. *)
Inductive utf8_valid : list byte -> Prop :=
| utf8_nil : utf8_valid []
| utf8_cons c bs : rune_bytes c -> utf8_valid bs -> utf8_valid (c ++ bs).

(** ** Strings *)

Definition quote_byte : byte := x22.
Definition backslash : byte := x5c.

Definition hex_byte (n : Z) : byte :=
  if n <? 10 then Z_byte (48 + n) else Z_byte (87 + n).

(** A byte below 128 that is written as it is. *)
Definition html_safe (b : byte) : bool :=
  (32 <=? byte_Z b) &&
  negb (existsb (Byte.eqb b) [x22; x5c; x3c; x3e; x26]).

Definition escape_byte (b : byte) : list byte :=
  match b with
  | x5c | x22 => [backslash; b]
  | x08 => [backslash; x62]
  | x0c => [backslash; x66]
  | x0a => [backslash; x6e]
  | x0d => [backslash; x72]
  | x09 => [backslash; x74]
  | _ => [backslash; x75; x30; x30; hex_byte (byte_Z b / 16); hex_byte (byte_Z b mod 16)]
  end.

(** What [appendString] writes for the bytes of a string: [copy] more bytes belong
    to a rune that is copied, [skip] more to a rune already written. *)
Fixpoint escape (copy skip : nat) (bs : list byte) : list byte :=
  match bs with
  | [] => []
  | b :: rest =>
      match copy, skip with
      | S copy, _ => b :: escape copy skip rest
      | O, S skip => escape O skip rest
      | O, O =>
          if byte_Z b <? 128 then
            (if html_safe b then [b] else escape_byte b) ++ escape O O rest
          else match DecodeRune bs with
          | None => [backslash; x75; x66; x66; x66; x64] ++ escape O O rest
          | Some (r, size) =>
              if (r =? 8232) || (r =? 8233) then
                [backslash; x75; x32; x30; x32; hex_byte (r mod 16)]
                ++ escape O (size - 1) rest
              else b :: escape (size - 1) O rest
          end
      end
  end.

Definition quote (s : string) : list byte :=
  [quote_byte] ++ escape O O (bytes_of s) ++ [quote_byte].

(** ** Byte slices: standard base64 with padding *)

Definition b64_char (n : Z) : byte :=
  if n <? 26 then Z_byte (65 + n)
  else if n <? 52 then Z_byte (71 + n)
  else if n <? 62 then Z_byte (n - 4)
  else if n =? 62 then x2b else x2f.

Fixpoint base64 (bs : list byte) : list byte :=
  match bs with
  | b0 :: b1 :: b2 :: rest =>
      let v := byte_Z b0 * 65536 + byte_Z b1 * 256 + byte_Z b2 in
      b64_char (v / 262144) :: b64_char (v / 4096 mod 64)
      :: b64_char (v / 64 mod 64) :: b64_char (v mod 64) :: base64 rest
  | [b0; b1] =>
      let v := byte_Z b0 * 65536 + byte_Z b1 * 256 in
      [b64_char (v / 262144); b64_char (v / 4096 mod 64); b64_char (v / 64 mod 64); x3d]
  | [b0] =>
      let v := byte_Z b0 * 65536 in
      [b64_char (v / 262144); b64_char (v / 4096 mod 64); x3d; x3d]
  | [] => []
  end.

(** ** Values *)

(** The dynamic types that occur in the array: a string, an int64, and a byte
    slice, which may be nil. *)
Inductive any :=
| AnyString (s : string)
| AnyInt (z : Z)
| AnyBytes (raw : option (list byte)).

Definition Marshal_any (v : any) : list byte :=
  match v with
  | AnyString s => quote s
  | AnyInt z => bytes_of (pretty z)
  | AnyBytes None => [x6e; x75; x6c; x6c]
  | AnyBytes (Some raw) => [quote_byte] ++ base64 raw ++ [quote_byte]
  end.

Definition comma : byte := x2c.

(** [json.Marshal] of a []any with these elements; it cannot fail on them. *)
Fixpoint Marshal_elems (vs : list any) : list byte :=
  match vs with
  | [] => []
  | [v] => Marshal_any v
  | v :: vs => Marshal_any v ++ [comma] ++ Marshal_elems vs
  end.

Definition Marshal (vs : list any) : list byte :=
  [x5b] ++ Marshal_elems vs ++ [x5d].
