(* ===== verification/JsonDecode.v ===== *)
(** * [json.Unmarshal] into a [map[string]any]

    The grammar and the decoding of [encoding/json]: the whole input must be one
    JSON text, strings are unescaped (with U+FFFD for what is not valid UTF-8 or an
    unpaired surrogate), a later duplicate of a key replaces an earlier one, a
    number must be in the range of a float64, and nesting is limited to 10000.

    An object is kept as the list of its entries, with distinct keys, in the order
    of their first occurrence. *)

From stdpp Require Import base list strings.
From Stdlib Require Import ZArith Ascii Strings.Byte.
From S2P Require Import Prelude GoStd Sha256 JsonEncode.

Local Open Scope Z_scope.
Local Open Scope list_scope.

(** ** Values *)

Inductive json :=
| JNull
| JBool (b : bool)
| JNum (lit : string)
| JStr (s : string)
| JArr (vs : list json)
| JObj (kvs : list (string * json)).

(** Setting a key of a map kept as a list of entries. *)
Fixpoint kv_set {V : Type} (k : string) (v : V) (kvs : list (string * V)) :
  list (string * V) :=
  match kvs with
  | [] => [(k, v)]
  | (k', v') :: rest =>
      if bool_decide (k = k') then (k, v) :: rest else (k', v') :: kv_set k v rest
  end.

(** ** Lexical elements *)

Definition string_of (bs : list byte) : string := String.string_of_list_byte bs.

Definition is_ws (b : byte) : bool := existsb (Byte.eqb b) [x20; x09; x0a; x0d].

Fixpoint skip_ws (bs : list byte) : list byte :=
  match bs with
  | b :: rest => if is_ws b then skip_ws rest else bs
  | [] => []
  end.

Definition hex_value (b : byte) : option Z :=
  if between 48 57 b then Some (byte_Z b - 48)
  else if between 97 102 b then Some (byte_Z b - 87)
  else if between 65 70 b then Some (byte_Z b - 55)
  else None.

(** Four hexadecimal digits. *)
Definition hex4 (h0 h1 h2 h3 : byte) : option Z :=
  match hex_value h0, hex_value h1, hex_value h2, hex_value h3 with
  | Some a, Some b, Some c, Some d => Some (a * 4096 + b * 256 + c * 16 + d)
  | _, _, _, _ => None
  end.

Definition is_surrogate (r : Z) : bool := (55296 <=? r) && (r <? 57344).

(** [utf16.DecodeRune], [None] for U+FFFD. *)
Definition utf16_DecodeRune (r1 r2 : Z) : option Z :=
  if (55296 <=? r1) && (r1 <? 56320) && (56320 <=? r2) && (r2 <? 57344) then
    Some ((r1 - 55296) * 1024 + (r2 - 56320) + 65536)
  else None.

Definition rune_error : list byte := [xef; xbf; xbd].

(** The character a two-byte escape stands for. *)
Definition simple_escape (b : byte) : option byte :=
  match b with
  | x22 => Some x22 | x5c => Some x5c | x2f => Some x2f
  | x62 => Some x08 | x66 => Some x0c | x6e => Some x0a
  | x72 => Some x0d | x74 => Some x09
  | _ => None
  end.

Definition consumed {A B : Type} (bs : list A) (r : option (list A * B)) :
  option (list A * B) :=
  match r with
  | Some (out, rest) => Some (bs ++ out, rest)
  | None => None
  end.

(** The bytes after a given prefix. *)
Fixpoint strip (p bs : list byte) : option (list byte) :=
  match p, bs with
  | [], _ => Some bs
  | c :: p, b :: bs => if Byte.eqb c b then strip p bs else None
  | _ :: _, [] => None
  end.

(** What a [\u] escape with value [r] at the head of a literal denotes: the bytes,
    and how many further bytes a low surrogate after it takes; [None] when that
    low surrogate is malformed. *)
Definition unicode_escape (r : Z) (rest : list byte) : option (list byte * nat) :=
  if is_surrogate r then
    match rest with
    | e :: u :: g0 :: g1 :: g2 :: g3 :: _ =>
        if Byte.eqb e backslash && Byte.eqb u x75 then
          match hex4 g0 g1 g2 g3 with
          | None => None
          | Some r' =>
              match utf16_DecodeRune r r' with
              | Some dec => Some (EncodeRune dec, 6%nat)
              | None => Some (rune_error, O)
              end
          end
        else Some (rune_error, O)
    | _ => Some (rune_error, O)
    end
  else Some (EncodeRune r, O).

(** The rest of a string literal after its opening quote: the decoded bytes and
    what follows the closing quote.  [copy] more bytes belong to a rune that is
    copied, [skip] more to an escape already decoded. *)
Fixpoint parse_str (copy skip : nat) (bs : list byte) : option (list byte * list byte) :=
  match bs with
  | [] => None
  | b :: rest =>
      match copy, skip with
      | S copy, _ => consumed [b] (parse_str copy skip rest)
      | O, S skip => parse_str O skip rest
      | O, O =>
          if Byte.eqb b quote_byte then Some ([], rest)
          else if byte_Z b <? 32 then None
          else if Byte.eqb b backslash then
            match rest with
            | [] => None
            | e :: rest =>
                if Byte.eqb e x75 then
                  match rest with
                  | h0 :: h1 :: h2 :: h3 :: rest =>
                      match hex4 h0 h1 h2 h3 with
                      | None => None
                      | Some r =>
                          match unicode_escape r rest with
                          | None => None
                          | Some (out, skip) => consumed out (parse_str O skip rest)
                          end
                      end
                  | _ => None
                  end
                else match simple_escape e with
                | Some c => consumed [c] (parse_str O O rest)
                | None => None
                end
            end
          else if byte_Z b <? 128 then consumed [b] (parse_str O O rest)
          else match DecodeRune bs with
          | None => consumed rune_error (parse_str O O rest)
          | Some (_, size) => consumed [b] (parse_str (size - 1) O rest)
          end
      end
  end.

Definition is_digit (b : byte) : bool := between 48 57 b.

Fixpoint digits (bs : list byte) : list byte * list byte :=
  match bs with
  | b :: rest =>
      if is_digit b then let (ds, rest) := digits rest in (b :: ds, rest) else ([], bs)
  | [] => ([], [])
  end.

(** A nonempty run of digits. *)
Definition digits1 (bs : list byte) : option (list byte * list byte) :=
  match digits bs with
  | ([], _) => None
  | r => Some r
  end.

(** The integer part has no leading zero. *)
Definition int_part (bs : list byte) : option (list byte * list byte) :=
  match strip [x30] bs with
  | Some rest => Some ([x30], rest)
  | None => digits1 bs
  end.

Definition frac_part (bs : list byte) : option (list byte * list byte) :=
  match strip [x2e] bs with
  | Some rest => consumed [x2e] (digits1 rest)
  | None => Some ([], bs)
  end.

(** An optional byte of a set. *)
Definition opt_byte (set : list byte) (bs : list byte) : list byte * list byte :=
  match bs with
  | b :: rest => if existsb (Byte.eqb b) set then ([b], rest) else ([], bs)
  | [] => ([], [])
  end.

Definition exp_part (bs : list byte) : option (list byte * list byte) :=
  match opt_byte [x65; x45] bs with
  | ([], _) => Some ([], bs)
  | (e, rest) =>
      let (sgn, rest) := opt_byte [x2b; x2d] rest in
      consumed (e ++ sgn) (digits1 rest)
  end.

(** A number literal and what follows it. *)
Definition parse_num (bs : list byte) : option (list byte * list byte) :=
  let (sgn, bs) := opt_byte [x2d] bs in
  match int_part bs with
  | None => None
  | Some (i, bs) =>
      match frac_part bs with
      | None => None
      | Some (f, bs) =>
          match exp_part bs with
          | None => None
          | Some (e, bs) => Some (sgn ++ i ++ f ++ e, bs)
          end
      end
  end.

(** ** Values *)

Definition maxNestingDepth : Z := 10000.

Section decoder.
Context `{Float64}.

(** A literal name or a number. *)
Definition parse_scalar (bs : list byte) : option (json * list byte) :=
  match strip [x6e; x75; x6c; x6c] bs with
  | Some rest => Some (JNull, rest)
  | None =>
      match strip [x74; x72; x75; x65] bs with
      | Some rest => Some (JBool true, rest)
      | None =>
          match strip [x66; x61; x6c; x73; x65] bs with
          | Some rest => Some (JBool false, rest)
          | None =>
              match parse_num bs with
              | None => None
              | Some (lit, rest) =>
                  match float64_of_literal (string_of lit) with
                  | Some _ => Some (JNum (string_of lit), rest)
                  | None => None
                  end
              end
          end
      end
  end.

(** A member's key and its colon. *)
Definition parse_key (bs : list byte) : option (string * list byte) :=
  match strip [x22] bs with
  | None => None
  | Some rest =>
      match parse_str O O rest with
      | None => None
      | Some (k, rest) =>
          match strip [x3a] (skip_ws rest) with
          | None => None
          | Some rest => Some (string_of k, rest)
          end
      end
  end.

(** A value and what follows it; the elements of an array up to its closing
    bracket; the members of an object up to its closing brace, added to [acc].  [fuel] bounds the nesting of calls.
    [depth] counts the open arrays
    and objects. *)
Fixpoint parse_value (fuel : nat) (depth : Z) (bs : list byte) :
  option (json * list byte) :=
  match fuel with
  | O => None
  | S fuel =>
      match skip_ws bs with
      | [] => None
      | b :: rest =>
          if Byte.eqb b x22 then
            match parse_str O O rest with
            | Some (s, rest) => Some (JStr (string_of s), rest)
            | None => None
            end
          else if Byte.eqb b x5b then
            if maxNestingDepth <? depth + 1 then None
            else match strip [x5d] (skip_ws rest) with
            | Some rest => Some (JArr [], rest)
            | None =>
                match parse_elems fuel (depth + 1) rest with
                | Some (vs, rest) => Some (JArr vs, rest)
                | None => None
                end
            end
          else if Byte.eqb b x7b then
            if maxNestingDepth <? depth + 1 then None
            else match strip [x7d] (skip_ws rest) with
            | Some rest => Some (JObj [], rest)
            | None =>
                match parse_members fuel (depth + 1) [] rest with
                | Some (kvs, rest) => Some (JObj kvs, rest)
                | None => None
                end
            end
          else parse_scalar (b :: rest)
      end
  end
with parse_elems (fuel : nat) (depth : Z) (bs : list byte) :
  option (list json * list byte) :=
  match fuel with
  | O => None
  | S fuel =>
      match parse_value fuel depth bs with
      | None => None
      | Some (v, rest) =>
          match skip_ws rest with
          | [] => None
          | b :: rest =>
              if Byte.eqb b x5d then Some ([v], rest)
              else if Byte.eqb b x2c then
                match parse_elems fuel depth rest with
                | Some (vs, rest) => Some (v :: vs, rest)
                | None => None
                end
              else None
          end
      end
  end
with parse_members (fuel : nat) (depth : Z) (acc : list (string * json))
  (bs : list byte) : option (list (string * json) * list byte) :=
  match fuel with
  | O => None
  | S fuel =>
      match parse_key (skip_ws bs) with
      | None => None
      | Some (k, rest) =>
          match parse_value fuel depth rest with
          | None => None
          | Some (v, rest) =>
              let acc := kv_set k v acc in
              match skip_ws rest with
              | [] => None
              | b :: rest =>
                  if Byte.eqb b x7d then Some (acc, rest)
                  else if Byte.eqb b x2c then parse_members fuel depth acc rest
                  else None
              end
          end
      end
  end.

(** A whole JSON text. *)
Definition parse_json (bs : list byte) : option json :=
  match parse_value (2 * length bs + 2) 0 bs with
  | Some (v, rest) =>
      match skip_ws rest with
      | [] => Some v
      | _ => None
      end
  | None => None
  end.

(** [json.Unmarshal(raw, &spec)] for [spec map[string]any]: null makes the map
    nil, an object fills it, anything else is an error. *)
Definition Unmarshal_map (raw : list byte) : outcome (list (string * json)) :=
  match parse_json raw with
  | None => Err (PlainError "json: invalid input"%string)
  | Some JNull => Ok []
  | Some (JObj kvs) => Ok kvs
  | Some _ =>
      Err (PlainError "json: cannot unmarshal value into Go value of type map[string]interface {}"%string)
  end.

End decoder.

(** ** Examples

    [json_text] reads a text with single quotes for the double quotes of JSON. *)

Definition json_text (s : string) : list byte :=
  map (fun b => if Byte.eqb b x27 then x22 else b) (bytes_of s).

Example unmarshal_nested :
  Unmarshal_map (H := plain_float64)
    (json_text " { 'a' : [1, true , null], 'b':{'c':'x'}, 'a':-2.5e+3 } "%string) =
  Ok [("a", JNum "-2.5e+3"); ("b", JObj [("c", JStr "x")])]%string.
Proof. vm_compute. reflexivity. Qed.

Example unmarshal_surrogates :
  Unmarshal_map (H := plain_float64) (json_text "{'k':'\ud83d\ude00\ud83d!'}"%string) =
  Ok [("k"%string, JStr (string_of [xf0; x9f; x98; x80; xef; xbf; xbd; x21]))].
Proof. vm_compute. reflexivity. Qed.

Example unmarshal_trailing :
  Unmarshal_map (H := plain_float64) (json_text "{'k':1} x"%string) =
  Err (PlainError "json: invalid input"%string).
Proof. vm_compute. reflexivity. Qed.
