(* ===== verification/JsonFuel.v ===== *)
(** * The fuel of the JSON decoder is enough

    [parse_value] and its companions recurse on fuel.  Every call consumes input, so
    twice the length of the input (and two) is as good as any larger amount: the
    decoder never refuses a text because fuel ran out. *)

From stdpp Require Import base gmap list strings.
From Stdlib Require Import ZArith Strings.Byte.
From S2P Require Import Prelude GoStd JsonEncode JsonDecode.

Local Open Scope list_scope.
Local Open Scope nat_scope.

(** ** What is left is shorter *)

Definition shorter {A B : Type} (strict : bool) (bs : list A) (r : option (B * list A)) : Prop :=
  match r with
  | Some (_, rest) => if strict then length rest < length bs else length rest <= length bs
  | None => True
  end.

Lemma skip_ws_length bs : length (skip_ws bs) <= length bs.
Proof. induction bs as [|b bs IH]; simpl; [done|]. case_match; simpl; lia. Qed.

Lemma strip_length p bs rest :
  strip p bs = Some rest -> length bs = length p + length rest.
Proof.
  revert bs. induction p as [|c p IH]; intros [|b bs]; simpl; intros E; simplify_eq/=; try done.
  case_match; [|done]. apply IH in E. lia.
Qed.

Lemma consumed_shorter {A : Type} strict (bs out : list A) r :
  shorter strict bs r -> shorter strict bs (consumed out r).
Proof. by destruct r as [[? ?]|]. Qed.

Lemma shorter_weaken {A B} (bs bs' : list A) (r : option (B * list A)) :
  length bs < length bs' -> shorter true bs r -> shorter true bs' r.
Proof. destruct r as [[? ?]|]; simpl; [lia|done]. Qed.

Lemma parse_str_shorter copy skip bs : shorter true bs (parse_str copy skip bs).
Proof.
  remember (length bs) as n eqn:Hn. revert copy skip bs Hn.
  induction n as [n IH] using lt_wf_ind. intros copy skip [|b bs] ->; [done|].
  assert (forall copy skip out bs', length bs' <= length bs ->
            shorter true (b :: bs) (consumed out (parse_str copy skip bs'))) as Hrec.
  { intros c s out bs' Hl. apply consumed_shorter.
    apply (shorter_weaken bs'); [simpl; lia|]. eapply IH; [|done]. simpl. lia. }
  simpl. repeat case_match; subst; try done; try (apply Hrec; simpl; lia);
    try (simpl; lia).
  apply (shorter_weaken bs); [simpl; lia|]. eapply IH; [|done]. simpl. lia.
Qed.

Lemma digits_length bs ds rest : digits bs = (ds, rest) -> length bs = length ds + length rest.
Proof.
  revert ds rest. induction bs as [|b bs IH]; simpl; intros ds rest E; simplify_eq/=; [done|].
  case_match; [|by simplify_eq]. destruct (digits bs) as [ds' rest'] eqn:E'. simplify_eq/=.
  rewrite (IH ds' rest); [lia|done].
Qed.

Lemma digits1_shorter bs : shorter true bs (digits1 bs).
Proof.
  unfold digits1. destruct (digits bs) as [[|d ds] rest] eqn:E; [done|].
  apply digits_length in E. simpl in *. lia.
Qed.

Lemma opt_byte_length set bs out rest : opt_byte set bs = (out, rest) -> length rest <= length bs.
Proof. destruct bs as [|b bs]; simpl; intros E; simplify_eq/=; [done|]. case_match; simplify_eq/=; lia. Qed.

Lemma parse_num_shorter bs : shorter true bs (parse_num bs).
Proof.
  unfold parse_num. destruct (opt_byte [x2d] bs) as [sgn bs1] eqn:E1. apply opt_byte_length in E1.
  destruct (int_part bs1) as [[i bs2]|] eqn:E2; [|done].
  assert (length bs2 < length bs1) as H2.
  { unfold int_part in E2. destruct (strip [x30] bs1) eqn:Es; simplify_eq.
    - apply strip_length in Es. simpl in Es. lia.
    - pose proof (digits1_shorter bs1) as Hd. by rewrite E2 in Hd. }
  destruct (frac_part bs2) as [[f bs3]|] eqn:E3; [|done].
  assert (length bs3 <= length bs2) as H3.
  { unfold frac_part in E3. destruct (strip [x2e] bs2) as [r|] eqn:Es; [|by simplify_eq].
    apply strip_length in Es. pose proof (digits1_shorter r) as Hd. unfold consumed in E3.
    destruct (digits1 r) as [[? ?]|]; simplify_eq/=. lia. }
  destruct (exp_part bs3) as [[e bs4]|] eqn:E4; [|done].
  assert (length bs4 <= length bs3) as H4.
  { unfold exp_part in E4. destruct (opt_byte [x65; x45] bs3) as [[|e0 es] r1] eqn:Eo;
      [by simplify_eq|]. apply opt_byte_length in Eo.
    destruct (opt_byte [x2b; x2d] r1) as [sg r2] eqn:Eo2. apply opt_byte_length in Eo2.
    pose proof (digits1_shorter r2) as Hd. unfold consumed in E4.
    destruct (digits1 r2) as [[? ?]|]; simplify_eq/=. lia. }
  simpl. lia.
Qed.

Section decoder.
Context `{Float64}.

Lemma parse_scalar_shorter bs : shorter true bs (parse_scalar bs).
Proof.
  unfold parse_scalar. pose proof (parse_num_shorter bs) as Hn.
  repeat match goal with
  | |- context [strip ?p ?b] =>
      let E := fresh "E" in destruct (strip p b) eqn:E;
      [apply strip_length in E; simpl in *; lia|clear E]
  end.
  destruct (parse_num bs) as [[lit rest]|]; [|done]. by case_match.
Qed.

Lemma parse_key_shorter bs : shorter true bs (parse_key bs).
Proof.
  unfold parse_key. destruct (strip [x22] bs) as [r1|] eqn:E1; [|done].
  apply strip_length in E1. pose proof (parse_str_shorter 0 0 r1) as Hs.
  destruct (parse_str 0 0 r1) as [[k r2]|]; [|done]. simpl in Hs.
  destruct (strip [x3a] (skip_ws r2)) as [r3|] eqn:E3; [|done]. apply strip_length in E3.
  pose proof (skip_ws_length r2). simpl in *. lia.
Qed.

(** ** Every call consumes input *)

Lemma parse_shorter fuel :
  (forall depth bs, shorter true bs (parse_value fuel depth bs)) /\
  (forall depth bs, shorter true bs (parse_elems fuel depth bs)) /\
  (forall depth acc bs, shorter true bs (parse_members fuel depth acc bs)).
Proof.
  induction fuel as [|fuel (IHv & IHe & IHm)]; [done|]. split_and!.
  - intros depth bs. cbn [parse_value parse_elems parse_members]. pose proof (skip_ws_length bs) as Hw.
    destruct (skip_ws bs) as [|b rest]; [done|]. simpl in Hw.
    pose proof (skip_ws_length rest) as Hw'.
    case_match.
    { pose proof (parse_str_shorter 0 0 rest) as Hs.
      destruct (parse_str 0 0 rest) as [[s r]|]; simpl in *; [lia|done]. }
    case_match.
    { case_match; [done|]. destruct (strip [x5d] (skip_ws rest)) as [r|] eqn:E.
      - apply strip_length in E. simpl in *. lia.
      - specialize (IHe (depth + 1)%Z rest).
        destruct (parse_elems fuel _ rest) as [[vs r]|]; simpl in *; [lia|done]. }
    case_match.
    { case_match; [done|]. destruct (strip [x7d] (skip_ws rest)) as [r|] eqn:E.
      - apply strip_length in E. simpl in *. lia.
      - specialize (IHm (depth + 1)%Z [] rest).
        destruct (parse_members fuel _ _ rest) as [[vs r]|]; simpl in *; [lia|done]. }
    pose proof (parse_scalar_shorter (b :: rest)) as Hs.
    destruct (parse_scalar (b :: rest)) as [[v r]|]; simpl in *; [lia|done].
  - intros depth bs. cbn [parse_value parse_elems parse_members]. specialize (IHv depth bs).
    destruct (parse_value fuel depth bs) as [[v r]|]; [|done]. simpl in IHv.
    pose proof (skip_ws_length r) as Hw. destruct (skip_ws r) as [|b r']; [done|].
    simpl in Hw. case_match; [simpl; lia|]. case_match; [|done].
    specialize (IHe depth r'). destruct (parse_elems fuel depth r') as [[vs r2]|]; simpl in *; [lia|done].
  - intros depth acc bs. cbn [parse_value parse_elems parse_members]. pose proof (skip_ws_length bs) as Hw0.
    pose proof (parse_key_shorter (skip_ws bs)) as Hk.
    destruct (parse_key (skip_ws bs)) as [[k r0]|]; [|done]. simpl in Hk.
    specialize (IHv depth r0). destruct (parse_value fuel depth r0) as [[v r]|]; [|done].
    simpl in IHv. pose proof (skip_ws_length r) as Hw. destruct (skip_ws r) as [|b r']; [done|].
    simpl in Hw. case_match; [simpl; lia|]. case_match; [|done].
    specialize (IHm depth (kv_set k v acc) r').
    destruct (parse_members fuel depth _ r') as [[vs r2]|]; simpl in *; [lia|done].
Qed.

(** ** More fuel changes nothing *)

Lemma parse_stable fuel :
  (forall fuel' depth bs, 2 * length bs + 1 <= fuel -> fuel <= fuel' ->
     parse_value fuel' depth bs = parse_value fuel depth bs) /\
  (forall fuel' depth bs, 2 * length bs + 2 <= fuel -> fuel <= fuel' ->
     parse_elems fuel' depth bs = parse_elems fuel depth bs) /\
  (forall fuel' depth acc bs, 2 * length bs + 2 <= fuel -> fuel <= fuel' ->
     parse_members fuel' depth acc bs = parse_members fuel depth acc bs).
Proof.
  induction fuel as [|fuel (IHv & IHe & IHm)].
  { split_and!; intros; simpl in *; lia. }
  destruct (parse_shorter fuel) as (Hsv & _ & _).
  split_and!; intros fuel'; (destruct fuel' as [|fuel']; [intros; lia|]).
  - intros depth bs Hl Hf. cbn [parse_value parse_elems parse_members]. pose proof (skip_ws_length bs) as Hw.
    destruct (skip_ws bs) as [|b rest]; [done|]. simpl in Hw.
    case_match; [done|]. case_match; [|case_match; [|done]].
    + case_match; [done|]. case_match; [done|]. by rewrite IHe by lia.
    + case_match; [done|]. case_match; [done|]. by rewrite IHm by lia.
  - intros depth bs Hl Hf. cbn [parse_value parse_elems parse_members]. rewrite IHv by lia. specialize (Hsv depth bs).
    destruct (parse_value fuel depth bs) as [[v r]|]; [|done]. simpl in Hsv.
    pose proof (skip_ws_length r) as Hw. destruct (skip_ws r) as [|b r']; [done|].
    simpl in Hw. case_match; [done|]. case_match; [|done]. by rewrite IHe by lia.
  - intros depth acc bs Hl Hf. cbn [parse_value parse_elems parse_members]. pose proof (skip_ws_length bs) as Hw0.
    pose proof (parse_key_shorter (skip_ws bs)) as Hk.
    destruct (parse_key (skip_ws bs)) as [[k r0]|]; [|done]. simpl in Hk.
    rewrite IHv by lia. specialize (Hsv depth r0).
    destruct (parse_value fuel depth r0) as [[v r]|]; [|done]. simpl in Hsv.
    pose proof (skip_ws_length r) as Hw. destruct (skip_ws r) as [|b r']; [done|].
    simpl in Hw. case_match; [done|]. case_match; [|done]. by rewrite IHm by lia.
Qed.

(** The fuel [parse_json] starts with is as good as any larger amount. *)
Lemma parse_json_fuel fuel bs :
  2 * length bs + 2 <= fuel ->
  parse_value fuel 0 bs = parse_value (2 * length bs + 2) 0 bs.
Proof.
  intros Hf. destruct (parse_stable (2 * length bs + 2)) as (Hv & _ & _). apply Hv; lia.
Qed.

End decoder.
