(* ===== verification/JsonRoundtrip.v ===== *)
(** * The JSON encoding of the hashed data loses nothing

    Decoding the encoding of a string gives the string back ([parse_str_escape], on
    valid UTF-8), base64 and decimal numbers are injective, and so is [Marshal] on
    arrays of the same kinds of values. *)

From stdpp Require Import base list strings pretty.
From Stdlib Require Import ZArith Ascii Strings.Byte.
From S2P Require Import Prelude Sha256 JsonEncode JsonDecode.

Local Open Scope Z_scope.
Local Open Scope list_scope.

(** ** Bytes *)

Lemma byte_Z_inj b c : byte_Z b = byte_Z c -> b = c.
Proof.
  unfold byte_Z. intros E%N2Z.inj. pose proof (Byte.of_to_N b) as Hb.
  rewrite E, Byte.of_to_N in Hb. by injection Hb.
Qed.

Lemma byte_Z_range b : 0 <= byte_Z b < 256.
Proof. unfold byte_Z. pose proof (Byte.to_N_bounded b). lia. Qed.

Lemma byte_eqb_ne b c : byte_Z b <> byte_Z c -> Byte.eqb b c = false.
Proof.
  intros Hne. destruct (Byte.eqb b c) eqn:E; [|done].
  apply Byte.byte_dec_bl in E. by subst.
Qed.

Lemma bytes_of_inj s s' : bytes_of s = bytes_of s' -> s = s'.
Proof.
  intros E. apply (f_equal String.string_of_list_byte) in E. unfold bytes_of in E.
  by rewrite !String.string_of_list_byte_of_string in E.
Qed.

Lemma between_true lo hi b : between lo hi b = true <-> lo <= byte_Z b <= hi.
Proof. unfold between. rewrite andb_true_iff, !Z.leb_le. done. Qed.

Lemma second_ok_range b0 b1 : second_ok b0 b1 = true -> 128 <= byte_Z b1 <= 191.
Proof. unfold second_ok. repeat case_match; rewrite between_true; lia. Qed.

(** ** Runes *)

(** A lead byte of more than one byte is none of the special characters. *)
Lemma lead_byte b :
  128 <= byte_Z b ->
  Byte.eqb b quote_byte = false /\ (byte_Z b <? 32) = false /\
  Byte.eqb b backslash = false /\ (byte_Z b <? 128) = false.
Proof.
  intros Hb. split_and!; [apply byte_eqb_ne|apply Z.ltb_ge|apply byte_eqb_ne|apply Z.ltb_ge];
    try lia; change (byte_Z quote_byte) with 34; change (byte_Z backslash) with 92; lia.
Qed.

(** What a rune is decoded to, whatever follows. *)
Lemma DecodeRune_2 b0 b1 bs :
  is2 b0 b1 = true ->
  128 <= byte_Z b0 /\ DecodeRune (b0 :: b1 :: bs) = Some (rune2 b0 b1, 2%nat) /\
  rune2 b0 b1 < 2048.
Proof.
  unfold is2. intros H2. pose proof H2 as H2'. apply andb_true_iff in H2' as [Hb0 Hb1].
  apply between_true in Hb0. apply second_ok_range in Hb1. split_and!; [lia| |unfold rune2; lia].
  simpl. rewrite (proj2 (Z.ltb_ge _ _)) by lia. unfold is2. by rewrite H2.
Qed.

Lemma DecodeRune_3 b0 b1 b2 bs :
  is3 b0 b1 b2 = true ->
  128 <= byte_Z b0 /\ DecodeRune (b0 :: b1 :: b2 :: bs) = Some (rune3 b0 b1 b2, 3%nat) /\
  128 <= byte_Z b1 <= 191 /\ 128 <= byte_Z b2 <= 191 /\ 224 <= byte_Z b0 <= 239.
Proof.
  intros H3. pose proof H3 as H3'. unfold is3 in H3'.
  apply andb_true_iff in H3' as [[Hb0 Hb1]%andb_true_iff Hb2].
  apply between_true in Hb0, Hb2. apply second_ok_range in Hb1. split_and!; try lia.
  simpl. rewrite (proj2 (Z.ltb_ge _ _)) by lia.
  replace (is2 b0 b1) with false; [by rewrite H3|]. symmetry. unfold is2, between.
  rewrite (proj2 (Z.leb_gt (byte_Z b0) 223)) by lia. by rewrite andb_false_r.
Qed.

Lemma DecodeRune_4 b0 b1 b2 b3 bs :
  is4 b0 b1 b2 b3 = true ->
  128 <= byte_Z b0 /\
  DecodeRune (b0 :: b1 :: b2 :: b3 :: bs) = Some (rune4 b0 b1 b2 b3, 4%nat) /\
  65536 <= rune4 b0 b1 b2 b3.
Proof.
  intros H4. pose proof H4 as H4'. unfold is4 in H4'.
  apply andb_true_iff in H4' as [[[Hb0 Hs]%andb_true_iff Hb2]%andb_true_iff Hb3].
  apply between_true in Hb0, Hb2, Hb3. pose proof (second_ok_range _ _ Hs) as Hb1.
  split_and!; [lia| |].
  - simpl. rewrite (proj2 (Z.ltb_ge _ _)) by lia.
    replace (is2 b0 b1) with false; [replace (is3 b0 b1 b2) with false; [by rewrite H4|]|];
      symmetry; [unfold is3|unfold is2]; unfold between.
    + rewrite (proj2 (Z.leb_gt (byte_Z b0) 239)) by lia. by rewrite andb_false_r.
    + rewrite (proj2 (Z.leb_gt (byte_Z b0) 223)) by lia. by rewrite andb_false_r.
  - unfold rune4. destruct (Z.eqb_spec (byte_Z b0) 240) as [E|]; [|lia].
    unfold second_ok in Hs. rewrite E in Hs. simpl in Hs. apply between_true in Hs. lia.
Qed.

(** ** Strings *)

(** How a rune is written, and that it is read back. *)
Definition transparent (c : list byte) : Prop :=
  exists e, (forall bs, escape O O (c ++ bs) = e ++ escape O O bs) /\
            (forall t, parse_str O O (e ++ t) = consumed c (parse_str O O t)).

Lemma transparent_ascii b : byte_Z b < 128 -> transparent [b].
Proof.
  intros Hb. exists (if html_safe b then [b] else escape_byte b). split.
  - intros bs. simpl. by rewrite (proj2 (Z.ltb_lt _ _) Hb).
  - intros t. destruct b; try reflexivity; exfalso; vm_compute in Hb; discriminate Hb.
Qed.

Lemma consumed_consumed {A B} (c d : list A) (r : option (list A * B)) :
  consumed c (consumed d r) = consumed (c ++ d) r.
Proof. destruct r as [[out rest]|]; simpl; [by rewrite app_assoc|done]. Qed.

Lemma transparent_copied c :
  (exists b0 cs r, c = b0 :: cs /\ 128 <= byte_Z b0 /\ r <> 8232 /\ r <> 8233 /\
     (length cs <= 3)%nat /\
     forall bs, DecodeRune (c ++ bs) = Some (r, length c)) ->
  transparent c.
Proof.
  intros (b0 & cs & r & -> & Hb0 & Hr1 & Hr2 & Hlen & Hdec). exists (b0 :: cs).
  destruct (lead_byte b0 Hb0) as (Hq & Hctl & Hbs & Hascii).
  assert (forall bs, escape (length cs) O (cs ++ bs) = cs ++ escape O O bs) as Hesc.
  { intros bs. clear. induction cs as [|b cs IH]; simpl; [done|]. by rewrite IH. }
  assert (forall t, parse_str (length cs) O (cs ++ t) = consumed cs (parse_str O O t)) as Hps.
  { intros t. clear. induction cs as [|b cs IH]; simpl.
    - by destruct (parse_str 0 0 t) as [[? ?]|].
    - rewrite IH, consumed_consumed. done. }
  split.
  - intros bs. specialize (Hdec bs). cbn [app] in *. cbn [escape]. rewrite Hascii, Hdec.
    rewrite (proj2 (Z.eqb_neq r 8232)), (proj2 (Z.eqb_neq r 8233)) by done. simpl orb.
    cbv iota. replace (length (b0 :: cs) - 1)%nat with (length cs) by (simpl; lia).
    by rewrite Hesc.
  - intros t. specialize (Hdec t). cbn [app] in *. cbn [parse_str].
    rewrite Hq, Hctl, Hbs, Hascii, Hdec.
    replace (length (b0 :: cs) - 1)%nat with (length cs) by (simpl; lia).
    by rewrite Hps, consumed_consumed.
Qed.

Lemma rune_transparent c : rune_bytes c -> transparent c.
Proof.
  intros [b0 Hb|b0 b1 H2|b0 b1 b2 H3|b0 b1 b2 b3 H4].
  - by apply transparent_ascii.
  - apply transparent_copied. exists b0, [b1], (rune2 b0 b1).
    destruct (DecodeRune_2 b0 b1 [] H2) as (? & _ & ?). split_and!; [done|lia..|simpl; lia|].
    intros bs. exact (proj1 (proj2 (DecodeRune_2 b0 b1 bs H2))).
  - destruct (DecodeRune_3 b0 b1 b2 [] H3) as (Hb & _ & H1 & H2 & H0).
    destruct (decide (rune3 b0 b1 b2 = 8232 \/ rune3 b0 b1 b2 = 8233)) as [Hls|Hno].
    + assert (b0 = xe2 /\ b1 = x80 /\ (b2 = xa8 \/ b2 = xa9)) as (-> & -> & Hb2).
      { unfold rune3 in Hls. assert (byte_Z b0 = 226 /\ byte_Z b1 = 128 /\
          (byte_Z b2 = 168 \/ byte_Z b2 = 169)) as (E0 & E1 & E2) by lia.
        split_and!; [by apply byte_Z_inj|by apply byte_Z_inj|].
        destruct E2; [left|right]; by apply byte_Z_inj. }
      destruct Hb2 as [-> | ->].
      * exists [backslash; x75; x32; x30; x32; x38]. by split; intros; reflexivity.
      * exists [backslash; x75; x32; x30; x32; x39]. by split; intros; reflexivity.
    + apply transparent_copied. exists b0, [b1; b2], (rune3 b0 b1 b2).
      split_and!; [done|lia|tauto|tauto|simpl; lia|].
      intros bs. exact (proj1 (proj2 (DecodeRune_3 b0 b1 b2 bs H3))).
  - apply transparent_copied. exists b0, [b1; b2; b3], (rune4 b0 b1 b2 b3).
    destruct (DecodeRune_4 b0 b1 b2 b3 [] H4) as (? & _ & ?).
    split_and!; [done|lia..|simpl; lia|].
    intros bs. exact (proj1 (proj2 (DecodeRune_4 b0 b1 b2 b3 bs H4))).
Qed.

(** The round trip of strings. *)
Lemma parse_str_escape bs t :
  utf8_valid bs -> parse_str O O (escape O O bs ++ quote_byte :: t) = Some (bs, t).
Proof.
  induction 1 as [|c bs Hc _ IH]; [done|].
  destruct (rune_transparent c Hc) as (e & He & Hp).
  rewrite He, <- app_assoc, Hp, IH. done.
Qed.

Lemma quote_inj s s' t t' :
  utf8_valid (bytes_of s) -> utf8_valid (bytes_of s') ->
  quote s ++ t = quote s' ++ t' -> s = s' /\ t = t'.
Proof.
  intros Hs Hs' E. unfold quote in E. rewrite <- !app_assoc in E. simpl in E.
  injection E as E. apply (f_equal (parse_str O O)) in E.
  rewrite !parse_str_escape in E by done. injection E as E ->.
  split; [by apply bytes_of_inj|done].
Qed.

(** ** Base64 *)

Definition digits64 : list Z := seqZ 0 64.

(** The 64 characters differ from each other, from the padding and from a quote. *)
Lemma b64_char_table :
  forallb (fun n => forallb (fun m => implb (Byte.eqb (b64_char n) (b64_char m)) (n =? m))
                      digits64 &&
                    negb (Byte.eqb (b64_char n) x3d) && negb (Byte.eqb (b64_char n) quote_byte))
    digits64 = true.
Proof. vm_compute. reflexivity. Qed.

Lemma b64_char_facts n :
  0 <= n < 64 ->
  (forall m, 0 <= m < 64 -> b64_char n = b64_char m -> n = m) /\
  b64_char n <> x3d /\ b64_char n <> quote_byte.
Proof.
  intros Hn. pose proof b64_char_table as Ht. rewrite forallb_forall in Ht.
  assert (forall k, 0 <= k < 64 -> In k digits64) as Hin.
  { intros k Hk. apply list_elem_of_In, elem_of_seqZ. lia. }
  specialize (Ht n (Hin n Hn)). apply andb_true_iff in Ht as [[Ht H1]%andb_true_iff H2].
  rewrite forallb_forall in Ht. split_and!.
  - intros m Hm E. specialize (Ht m (Hin m Hm)). rewrite E in Ht.
    rewrite (Byte.byte_dec_lb eq_refl) in Ht. simpl in Ht. by apply Z.eqb_eq.
  - intros E. by rewrite E in H1.
  - intros E. by rewrite E in H2.
Qed.

(** A number of 24 bits and its four digits. *)
Lemma digits64_value v :
  v = v / 262144 * 262144 + v / 4096 mod 64 * 4096 + v / 64 mod 64 * 64 + v mod 64.
Proof. Z.to_euclidean_division_equations. lia. Qed.

Lemma digits64_range v :
  0 <= v < 16777216 ->
  0 <= v / 262144 < 64 /\ 0 <= v / 4096 mod 64 < 64 /\ 0 <= v / 64 mod 64 < 64 /\
  0 <= v mod 64 < 64.
Proof. intros Hv. split_and!; Z.to_euclidean_division_equations; lia. Qed.

(** The value three bytes are packed into. *)
Definition packed (b0 b1 b2 : byte) : Z := byte_Z b0 * 65536 + byte_Z b1 * 256 + byte_Z b2.

Lemma packed_range b0 b1 b2 : 0 <= packed b0 b1 b2 < 16777216.
Proof.
  unfold packed. pose proof (byte_Z_range b0). pose proof (byte_Z_range b1).
  pose proof (byte_Z_range b2). lia.
Qed.

Lemma packed_inj b0 b1 b2 c0 c1 c2 :
  packed b0 b1 b2 = packed c0 c1 c2 -> b0 = c0 /\ b1 = c1 /\ b2 = c2.
Proof.
  unfold packed. intros E. pose proof (byte_Z_range b0). pose proof (byte_Z_range b1).
  pose proof (byte_Z_range b2). pose proof (byte_Z_range c0). pose proof (byte_Z_range c1).
  pose proof (byte_Z_range c2). split_and!; apply byte_Z_inj; lia.
Qed.

(** Four, three or two equal characters make equal values. *)
Lemma packed_digit (f : Z -> Z) b0 b1 b2 c0 c1 c2 :
  (forall v, 0 <= v < 16777216 -> 0 <= f v < 64) ->
  b64_char (f (packed b0 b1 b2)) = b64_char (f (packed c0 c1 c2)) ->
  f (packed b0 b1 b2) = f (packed c0 c1 c2).
Proof.
  intros Hf E. destruct (b64_char_facts (f (packed b0 b1 b2))) as [Hinj _].
  { apply Hf, packed_range. }
  apply Hinj; [apply Hf, packed_range|done].
Qed.

Lemma packed_low b0 b1 : packed b0 b1 x00 mod 64 = 0.
Proof. unfold packed. change (byte_Z x00) with 0. Z.to_euclidean_division_equations. lia. Qed.

Lemma packed_low2 b0 : packed b0 x00 x00 / 64 mod 64 = 0.
Proof. unfold packed. change (byte_Z x00) with 0. Z.to_euclidean_division_equations. lia. Qed.

(** The groups of the encoding. *)
Lemma base64_3 b0 b1 b2 rest :
  base64 (b0 :: b1 :: b2 :: rest) =
  let v := packed b0 b1 b2 in
  b64_char (v / 262144) :: b64_char (v / 4096 mod 64) :: b64_char (v / 64 mod 64)
  :: b64_char (v mod 64) :: base64 rest.
Proof. done. Qed.

Lemma base64_2 b0 b1 :
  base64 [b0; b1] =
  let v := packed b0 b1 x00 in
  [b64_char (v / 262144); b64_char (v / 4096 mod 64); b64_char (v / 64 mod 64); x3d].
Proof. unfold packed. change (byte_Z x00) with 0. simpl. by rewrite Z.add_0_r. Qed.

Lemma base64_1 b0 :
  base64 [b0] =
  let v := packed b0 x00 x00 in
  [b64_char (v / 262144); b64_char (v / 4096 mod 64); x3d; x3d].
Proof. unfold packed. change (byte_Z x00) with 0. simpl. by rewrite !Z.add_0_r. Qed.

(** Induction over groups of three. *)
Lemma triples_ind (Q : list byte -> Prop) :
  Q [] -> (forall b0, Q [b0]) -> (forall b0 b1, Q [b0; b1]) ->
  (forall b0 b1 b2 rest, Q rest -> Q (b0 :: b1 :: b2 :: rest)) -> forall bs, Q bs.
Proof.
  intros H0 H1 H2 H3 bs. remember (length bs) as n eqn:Hn. revert bs Hn.
  induction n as [n IH] using lt_wf_ind. intros [|b0 [|b1 [|b2 rest]]] ->; auto.
  apply H3. apply (IH (length rest)); [simpl; lia|done].
Qed.

Lemma base64_no_quote bs : quote_byte ∉ base64 bs.
Proof.
  assert (forall v, 0 <= v < 16777216 ->
    b64_char (v / 262144) <> quote_byte /\ b64_char (v / 4096 mod 64) <> quote_byte /\
    b64_char (v / 64 mod 64) <> quote_byte /\ b64_char (v mod 64) <> quote_byte) as Hq.
  { intros v Hv. destruct (digits64_range v Hv) as (H1 & H2 & H3 & H4).
    split_and!; by apply b64_char_facts. }
  induction bs as [|b0|b0 b1|b0 b1 b2 rest IH] using triples_ind;
    rewrite ?base64_1, ?base64_2, ?base64_3; cbv zeta; rewrite ?elem_of_cons.
  - apply not_elem_of_nil.
  - destruct (Hq _ (packed_range b0 x00 x00)) as (H1 & H2 & H3 & H4).
    intros [E|[E|[E|[E|E%elem_of_nil]]]]; (congruence || discriminate E || done).
  - destruct (Hq _ (packed_range b0 b1 x00)) as (H1 & H2 & H3 & H4).
    intros [E|[E|[E|[E|E%elem_of_nil]]]]; (congruence || discriminate E || done).
  - destruct (Hq _ (packed_range b0 b1 b2)) as (H1 & H2 & H3 & H4).
    intros [E|[E|[E|[E|E]]]]; [by congruence..|done].
Qed.

Ltac digit_range :=
  let v := fresh "v" in let Hv := fresh "Hv" in
  intros v Hv; cbv beta; destruct (digits64_range v Hv) as (? & ? & ? & ?); assumption.

(** Equal characters of two groups. *)
Ltac same_digits b0 b1 b2 c0 c1 c2 :=
  repeat match goal with
  | E : b64_char (_ / 262144) = b64_char _ |- _ =>
      apply (packed_digit (fun v => v / 262144) b0 b1 b2 c0 c1 c2) in E;
      [|digit_range]
  | E : b64_char (_ / 4096 mod 64) = b64_char _ |- _ =>
      apply (packed_digit (fun v => v / 4096 mod 64) b0 b1 b2 c0 c1 c2) in E;
      [|digit_range]
  | E : b64_char (_ / 64 mod 64) = b64_char _ |- _ =>
      apply (packed_digit (fun v => v / 64 mod 64) b0 b1 b2 c0 c1 c2) in E;
      [|digit_range]
  | E : b64_char (_ mod 64) = b64_char _ |- _ =>
      apply (packed_digit (fun v => v mod 64) b0 b1 b2 c0 c1 c2) in E;
      [|digit_range]
  end.

(** A group with padding is not one with a character in its place. *)
Lemma b64_not_padding (f : Z -> Z) b0 b1 b2 :
  (forall v, 0 <= v < 16777216 -> 0 <= f v < 64) -> b64_char (f (packed b0 b1 b2)) <> x3d.
Proof. intros Hf. by apply b64_char_facts, Hf, packed_range. Qed.

Lemma digit2_not_padding b0 b1 b2 : b64_char (packed b0 b1 b2 / 64 mod 64) <> x3d.
Proof. apply (b64_not_padding (fun v => v / 64 mod 64)). digit_range. Qed.

Lemma digit3_not_padding b0 b1 b2 : b64_char (packed b0 b1 b2 mod 64) <> x3d.
Proof. apply (b64_not_padding (fun v => v mod 64)). digit_range. Qed.

Lemma base64_inj bs bs' : base64 bs = base64 bs' -> bs = bs'.
Proof.
  revert bs'. induction bs as [|b0|b0 b1|b0 b1 b2 rest IH] using triples_ind;
    intros [|c0 [|c1 [|c2 rest']]]; rewrite ?base64_1, ?base64_2, ?base64_3; cbv zeta;
    intros E; try done.
  - injection E as E1 E2. same_digits b0 x00 x00 c0 x00 x00.
    assert (packed b0 x00 x00 = packed c0 x00 x00) as Hv.
    { rewrite (digits64_value (packed b0 _ _)), (digits64_value (packed c0 _ _)).
      rewrite !packed_low, !packed_low2, E1, E2. done. }
    by apply packed_inj in Hv as (-> & _).
  - injection E as _ _ E. by apply eq_sym, digit2_not_padding in E.
  - injection E as _ _ E _. by apply eq_sym, digit2_not_padding in E.
  - injection E as _ _ E. by apply digit2_not_padding in E.
  - injection E as E1 E2 E3. same_digits b0 b1 x00 c0 c1 x00.
    assert (packed b0 b1 x00 = packed c0 c1 x00) as Hv.
    { rewrite (digits64_value (packed b0 _ _)), (digits64_value (packed c0 _ _)).
      rewrite !packed_low, E1, E2, E3. done. }
    by apply packed_inj in Hv as (-> & -> & _).
  - injection E as _ _ _ E _. by apply eq_sym, digit3_not_padding in E.
  - injection E as _ _ E _. by apply digit2_not_padding in E.
  - injection E as _ _ _ E _. by apply digit3_not_padding in E.
  - injection E as E1 E2 E3 E4 E. apply IH in E. subst.
    same_digits b0 b1 b2 c0 c1 c2.
    assert (packed b0 b1 b2 = packed c0 c1 c2) as Hv.
    { rewrite (digits64_value (packed b0 _ _)), (digits64_value (packed c0 _ _)).
      by rewrite E1, E2, E3, E4. }
    by apply packed_inj in Hv as (-> & -> & ->).
Qed.

(** ** Texts that end at a delimiter *)

Lemma delimited_inj (stop : byte -> Prop) bs bs' t t' d d' :
  Forall (fun b => ~ stop b) bs -> Forall (fun b => ~ stop b) bs' -> stop d -> stop d' ->
  bs ++ d :: t = bs' ++ d' :: t' -> bs = bs' /\ d :: t = d' :: t'.
Proof.
  intros Hbs Hbs' Hd Hd'. revert bs' Hbs'. induction Hbs as [|b bs Hb _ IH];
    intros [|b' bs'] Hbs' E; simpl in *; simplify_eq/=; try done.
  - by apply Forall_cons in Hbs' as [? _].
  - apply Forall_cons in Hbs' as [_ Hbs'].
    match goal with E : _ = _ |- _ => destruct (IH _ Hbs' E) as [-> ?] end. done.
Qed.

(** What follows a value in an array. *)
Definition stops (b : byte) : Prop := b = comma \/ b = x5d.

Lemma bytes_of_cons c s : bytes_of (String c s) = byte_of_ascii c :: bytes_of s.
Proof. done. Qed.

Lemma pretty_N_char_ok n : ~ stops (byte_of_ascii (pretty_N_char n)).
Proof.
  unfold pretty_N_char. repeat case_match; intros [E|E]; vm_compute in E; discriminate E.
Qed.

Lemma pretty_N_go_ok x s :
  Forall (fun b => ~ stops b) (bytes_of s) ->
  Forall (fun b => ~ stops b) (bytes_of (pretty_N_go x s)).
Proof.
  revert s. induction (N.lt_wf_0 x) as [x _ IH]. intros s Hs.
  destruct (decide (x = 0%N)) as [->|Hx]; [by rewrite pretty_N_go_0|].
  rewrite pretty_N_go_step by lia. apply IH; [apply N.div_lt; lia|].
  rewrite bytes_of_cons. constructor; [apply pretty_N_char_ok|done].
Qed.

Lemma pretty_Z_ok (z : Z) : Forall (fun b => ~ stops b) (bytes_of (pretty z)).
Proof.
  assert (forall x : N, Forall (fun b => ~ stops b) (bytes_of (pretty x))) as HN.
  { intros x. unfold pretty, pretty_N. case_decide.
    - repeat constructor. intros [E|E]; discriminate E.
    - apply pretty_N_go_ok. constructor. }
  destruct z as [|p|p]; unfold pretty, pretty_Z.
  - repeat constructor. intros [E|E]; discriminate E.
  - apply HN.
  - change (Forall (fun b => ~ stops b) (x2d :: bytes_of (pretty (Npos p)))).
    constructor; [intros [E|E]; discriminate E|apply HN].
Qed.

(** ** Arrays *)

(** Two values of the same dynamic type. *)
Definition same_kind (v v' : any) : Prop :=
  match v, v' with
  | AnyString _, AnyString _ | AnyInt _, AnyInt _ | AnyBytes _, AnyBytes _ => True
  | _, _ => False
  end.

(** Strings that are valid UTF-8. *)
Definition any_valid (v : any) : Prop :=
  match v with AnyString s => utf8_valid (bytes_of s) | _ => True end.

Lemma quoted_base64_inj raw raw' t t' :
  base64 raw ++ quote_byte :: t = base64 raw' ++ quote_byte :: t' -> raw = raw' /\ t = t'.
Proof.
  intros E.
  assert (forall r, Forall (fun b => quote_byte <> b) (base64 r)) as Hno.
  { intros r. apply Forall_forall. intros b Hb <-. by apply base64_no_quote in Hb. }
  destruct (delimited_inj (eq quote_byte) _ _ _ _ _ _ (Hno raw) (Hno raw') eq_refl eq_refl E)
    as [E1 E2].
  split; [by apply base64_inj|by injection E2].
Qed.

Lemma Marshal_any_inj v v' d d' t t' :
  same_kind v v' -> any_valid v -> any_valid v' -> stops d -> stops d' ->
  Marshal_any v ++ d :: t = Marshal_any v' ++ d' :: t' -> v = v' /\ d :: t = d' :: t'.
Proof.
  destruct v as [s|z|[raw|]], v' as [s'|z'|[raw'|]]; simpl; intros Hk Hv Hv' Hd Hd' E; try done.
  - apply quote_inj in E as [-> E]; [|done..]. done.
  - apply (delimited_inj stops) in E as [E Ht]; [|apply pretty_Z_ok..|done|done].
    apply bytes_of_inj in E. by apply (inj pretty) in E as ->.
  - injection E as E. rewrite <- !app_assoc in E. simpl in E.
    apply quoted_base64_inj in E as [-> E]. done.
  - by injection E as -> ->.
Qed.

Lemma Marshal_elems_cons v vs t :
  Marshal_elems (v :: vs) ++ x5d :: t =
  match vs with
  | [] => Marshal_any v ++ x5d :: t
  | _ => Marshal_any v ++ comma :: (Marshal_elems vs ++ x5d :: t)
  end.
Proof. destruct vs as [|v' vs]; [done|]. simpl. by rewrite <- app_assoc. Qed.

Lemma Marshal_inj vs vs' :
  Forall2 same_kind vs vs' -> Forall any_valid vs -> Forall any_valid vs' ->
  Marshal vs = Marshal vs' -> vs = vs'.
Proof.
  intros Hk Hv Hv' E. injection E as E. revert Hv Hv' E.
  induction Hk as [|v v' vs vs' Hvv Hk IH]; intros Hv Hv' E; [done|].
  apply Forall_cons in Hv as [Hv Hvs]. apply Forall_cons in Hv' as [Hv' Hvs'].
  rewrite !Marshal_elems_cons in E.
  destruct Hk as [|w w' vs vs' Hww Hk].
  - apply Marshal_any_inj in E as [-> _]; unfold stops; auto.
  - apply Marshal_any_inj in E as [-> E]; unfold stops; auto.
    injection E as E. by rewrite (IH Hvs Hvs' E).
Qed.
