(* ===== verification/KubeTypes.v ===== *)
(** * The Kubernetes and Argo structures the sources use

    [metav1], [corev1], [runtime] and Argo's [wfv1alpha1] are not part of the
    repository.  The records below have the fields of those structs that the
    sources read or write.  A nil and an empty slice are one value, because the
    sources only take lengths, range over slices and append to them; a pointer to a
    scalar is an [option].  A [Time] is a number of nanoseconds since Go's zero
    time, so the zero value is 0. *)

From stdpp Require Import base gmap list strings.
From Stdlib Require Import ZArith Strings.Byte.
From S2P Require Import Prelude GoStd.

Local Open Scope Z_scope.

(** ** metav1 *)

Definition Time : Type := Z.

(** The method [IsZero] of a pointer to a [metav1.Time], which accepts a nil pointer. *)
Definition Time_IsZero (t : option Time) : bool :=
  match t with
  | None => true
  | Some t => t =? 0
  end.

Record TypeMeta := mkTypeMeta {
  Kind : string;
  APIVersion : string;
}.

Record OwnerReference := mkOwnerReference {
  OwnerReference_APIVersion : string;
  OwnerReference_Kind : string;
  OwnerReference_Name : string;
  OwnerReference_UID : string;
  OwnerReference_Controller : option bool;
  OwnerReference_BlockOwnerDeletion : option bool;
}.

Record ObjectMeta := mkObjectMeta {
  Name : string;
  GenerateName : string;
  Namespace : string;
  UID : string;
  ResourceVersion : string;
  Generation : Z;
  CreationTimestamp : Time;
  DeletionTimestamp : option Time;
  DeletionGracePeriodSeconds : option Z;
  Labels : gmap string string;
  Annotations : gmap string string;
  OwnerReferences : list OwnerReference;
  Finalizers : list string;
}.

Record ListMeta := mkListMeta {
  ListMeta_ResourceVersion : string;
  ListMeta_Continue : string;
  ListMeta_RemainingItemCount : option Z;
}.

(** [metav1.ObjectMeta{Namespace: ns, Name: name}]. *)
Definition newObjectMeta (ns name : string) : ObjectMeta :=
  mkObjectMeta name "" ns "" "" 0 0 None None ∅ ∅ [] [].

Definition emptyTypeMeta : TypeMeta := mkTypeMeta "" "".

Definition set_Finalizers (m : ObjectMeta) (fs : list string) : ObjectMeta :=
  mkObjectMeta (Name m) (GenerateName m) (Namespace m) (UID m) (ResourceVersion m)
    (Generation m) (CreationTimestamp m) (DeletionTimestamp m)
    (DeletionGracePeriodSeconds m) (Labels m) (Annotations m) (OwnerReferences m) fs.

Definition set_OwnerReferences (m : ObjectMeta) (refs : list OwnerReference) : ObjectMeta :=
  mkObjectMeta (Name m) (GenerateName m) (Namespace m) (UID m) (ResourceVersion m)
    (Generation m) (CreationTimestamp m) (DeletionTimestamp m)
    (DeletionGracePeriodSeconds m) (Labels m) (Annotations m) refs (Finalizers m).

Definition set_DeletionTimestamp (m : ObjectMeta) (t : option Time) : ObjectMeta :=
  mkObjectMeta (Name m) (GenerateName m) (Namespace m) (UID m) (ResourceVersion m)
    (Generation m) (CreationTimestamp m) t
    (DeletionGracePeriodSeconds m) (Labels m) (Annotations m) (OwnerReferences m)
    (Finalizers m).

(** ** types, corev1, runtime *)

Record NamespacedName := mkNamespacedName {
  NN_Namespace : string;
  NN_Name : string;
}.

Record LocalObjectReference := mkLocalObjectReference { Ref_Name : string }.

(** [runtime.RawExtension]: the raw JSON, nil when absent. *)
Record RawExtension := mkRawExtension { Raw : option (list byte) }.

Record Secret := mkSecret { Secret_ObjectMeta : ObjectMeta }.

(** The zero value of a Secret, [&corev1.Secret{}]. *)
Definition emptySecret : Secret := mkSecret (newObjectMeta "" "").

Inductive VolumeSource :=
| EmptyDir
| SecretVolume (SecretName : string).

Record Volume := mkVolume {
  Volume_Name : string;
  Volume_VolumeSource : VolumeSource;
}.

(** ** Argo Workflows *)

Record WfParameter := mkWfParameter {
  WfParam_Name : string;
  WfParam_Value : option string;
}.

Record WorkflowTemplateRef := mkWorkflowTemplateRef {
  TemplateRef_Name : string;
  TemplateRef_ClusterScope : bool;
}.

Record WorkflowSpec := mkWorkflowSpec {
  WorkflowSpec_WorkflowTemplateRef : option WorkflowTemplateRef;
  WorkflowSpec_Volumes : list Volume;
  WorkflowSpec_Parameters : list WfParameter;
}.

Record Workflow := mkWorkflow {
  Workflow_ObjectMeta : ObjectMeta;
  Workflow_Spec : WorkflowSpec;
  Workflow_Phase : string;
}.

Definition set_Workflow_ObjectMeta (wf : Workflow) (m : ObjectMeta) : Workflow :=
  mkWorkflow m (Workflow_Spec wf) (Workflow_Phase wf).

(** ** Decidable equality *)

#[export] Instance TypeMeta_eq_dec : EqDecision TypeMeta.
Proof. solve_decision. Defined.
#[export] Instance OwnerReference_eq_dec : EqDecision OwnerReference.
Proof. solve_decision. Defined.
#[export] Instance ObjectMeta_eq_dec : EqDecision ObjectMeta.
Proof. solve_decision. Defined.
#[export] Instance ListMeta_eq_dec : EqDecision ListMeta.
Proof. solve_decision. Defined.
#[export] Instance NamespacedName_eq_dec : EqDecision NamespacedName.
Proof. solve_decision. Defined.
#[export] Instance LocalObjectReference_eq_dec : EqDecision LocalObjectReference.
Proof. solve_decision. Defined.
#[export] Instance byte_eq_dec : EqDecision byte := Byte.byte_eq_dec.
#[export] Instance RawExtension_eq_dec : EqDecision RawExtension.
Proof. solve_decision. Defined.
#[export] Instance Secret_eq_dec : EqDecision Secret.
Proof. solve_decision. Defined.

#[export] Instance NamespacedName_countable : Countable NamespacedName.
Proof.
  apply (inj_countable' (fun k => (NN_Namespace k, NN_Name k))
                        (fun p => mkNamespacedName p.1 p.2)).
  by intros [].
Defined.

(** The key of an object. *)
Definition meta_key (m : ObjectMeta) : NamespacedName :=
  mkNamespacedName (Namespace m) (Name m).
