(* ===== verification/V1alpha1Types.v ===== *)
(** * The API types of package [v1alpha1] (src/api/arc/v1alpha1)

    The versioned types: what clients send and receive and what the controllers work on. *)

From stdpp Require Import base gmap list strings.
From Stdlib Require Import ZArith.
From S2P Require Import Prelude GoStd KubeTypes.

Local Open Scope string_scope.

(** ** ArtifactWorkflow *)

(** A phase is a string; [WorkflowPhase] values other than the six constants can
    occur, since the API does not restrict them. *)
Definition WorkflowPhase : Type := string.

Definition WorkflowUnknown : WorkflowPhase := "".
Definition WorkflowPending : WorkflowPhase := "Pending".
Definition WorkflowRunning : WorkflowPhase := "Running".
Definition WorkflowSucceeded : WorkflowPhase := "Succeeded".
Definition WorkflowFailed : WorkflowPhase := "Failed".
Definition WorkflowError : WorkflowPhase := "Error".

Definition Completed (p : WorkflowPhase) : bool :=
  bool_decide (p = WorkflowSucceeded) || bool_decide (p = WorkflowFailed)
  || bool_decide (p = WorkflowError).

Definition InProgress (p : WorkflowPhase) : bool :=
  bool_decide (p = WorkflowPending) || bool_decide (p = WorkflowRunning).

Record ArtifactWorkflowParameter := mkArtifactWorkflowParameter {
  Param_Name : string;
  Param_Value : string;
}.

Record ArtifactWorkflowSpec := mkArtifactWorkflowSpec {
  AWSpec_Type : string;
  AWSpec_Parameters : list ArtifactWorkflowParameter;
  AWSpec_SrcSecretRef : LocalObjectReference;
  AWSpec_DstSecretRef : LocalObjectReference;
}.

Record ArtifactWorkflowStatus := mkArtifactWorkflowStatus {
  AWStatus_Phase : WorkflowPhase;
  AWStatus_Message : string;
}.

Record ArtifactWorkflow := mkArtifactWorkflow {
  AW_TypeMeta : TypeMeta;
  AW_ObjectMeta : ObjectMeta;
  AW_Spec : ArtifactWorkflowSpec;
  AW_Status : ArtifactWorkflowStatus;
}.

Record ArtifactWorkflowList := mkArtifactWorkflowList {
  AWList_TypeMeta : TypeMeta;
  AWList_ListMeta : ListMeta;
  AWList_Items : list ArtifactWorkflow;
}.

(** ** ArtifactType *)

Record ArtifactTypeRules := mkArtifactTypeRules {
  Rules_SrcTypes : list string;
  Rules_DstTypes : list string;
}.

Record ArtifactTypeSpec := mkArtifactTypeSpec {
  ATSpec_Rules : ArtifactTypeRules;
  ATSpec_Parameters : list ArtifactWorkflowParameter;
  ATSpec_WorkflowTemplateRef : LocalObjectReference;
}.

Inductive ArtifactTypeStatus := mkArtifactTypeStatus.

Record ArtifactType := mkArtifactType {
  AT_TypeMeta : TypeMeta;
  AT_ObjectMeta : ObjectMeta;
  AT_Spec : ArtifactTypeSpec;
  AT_Status : ArtifactTypeStatus;
}.

Record ArtifactTypeList := mkArtifactTypeList {
  ATList_TypeMeta : TypeMeta;
  ATList_ListMeta : ListMeta;
  ATList_Items : list ArtifactType;
}.

(** ** Endpoint *)

Definition EndpointUsage : Type := string.

Definition EndpointUsagePullOnly : EndpointUsage := "PullOnly".
Definition EndpointUsagePushOnly : EndpointUsage := "PushOnly".
Definition EndpointUsageAll : EndpointUsage := "All".

Record EndpointSpec := mkEndpointSpec {
  EPSpec_Type : string;
  EPSpec_RemoteURL : string;
  EPSpec_SecretRef : LocalObjectReference;
  EPSpec_Usage : EndpointUsage;
}.

Inductive EndpointStatus := mkEndpointStatus.

Record Endpoint := mkEndpoint {
  EP_TypeMeta : TypeMeta;
  EP_ObjectMeta : ObjectMeta;
  EP_Spec : EndpointSpec;
  EP_Status : EndpointStatus;
}.

Record EndpointList := mkEndpointList {
  EPList_TypeMeta : TypeMeta;
  EPList_ListMeta : ListMeta;
  EPList_Items : list Endpoint;
}.

(** ** Order *)

Record OrderDefaults := mkOrderDefaults {
  Defaults_SrcRef : LocalObjectReference;
  Defaults_DstRef : LocalObjectReference;
}.

Record OrderArtifact := mkOrderArtifact {
  Artifact_Type : string;
  Artifact_SrcRef : LocalObjectReference;
  Artifact_DstRef : LocalObjectReference;
  Artifact_Spec : RawExtension;
}.

Record OrderSpec := mkOrderSpec {
  OrderSpec_Defaults : OrderDefaults;
  OrderSpec_Artifacts : list OrderArtifact;
}.

Record OrderArtifactWorkflowStatus := mkOrderArtifactWorkflowStatus {
  OAWS_ArtifactIndex : Z;
  OAWS_Phase : WorkflowPhase;
  OAWS_Message : string;
}.

(** The map of the status is nil ([None]) until the controller first writes it. *)
Record OrderStatus := mkOrderStatus {
  OrderStatus_ArtifactWorkflows : option (gmap string OrderArtifactWorkflowStatus);
}.

Record Order := mkOrder {
  Order_TypeMeta : TypeMeta;
  Order_ObjectMeta : ObjectMeta;
  Order_Spec : OrderSpec;
  Order_Status : OrderStatus;
}.

Record OrderList := mkOrderList {
  OrderList_TypeMeta : TypeMeta;
  OrderList_ListMeta : ListMeta;
  OrderList_Items : list Order;
}.

(** ** Decidable equality *)

#[export] Instance ArtifactWorkflowParameter_eq_dec : EqDecision ArtifactWorkflowParameter.
Proof. solve_decision. Defined.
#[export] Instance ArtifactWorkflowSpec_eq_dec : EqDecision ArtifactWorkflowSpec.
Proof. solve_decision. Defined.
#[export] Instance OrderArtifactWorkflowStatus_eq_dec : EqDecision OrderArtifactWorkflowStatus.
Proof. unfold EqDecision, WorkflowPhase in *. solve_decision. Defined.

(** ** Field updates *)

Definition set_AW_ObjectMeta (aw : ArtifactWorkflow) (m : ObjectMeta) : ArtifactWorkflow :=
  mkArtifactWorkflow (AW_TypeMeta aw) m (AW_Spec aw) (AW_Status aw).

Definition set_AW_Phase (aw : ArtifactWorkflow) (p : WorkflowPhase) : ArtifactWorkflow :=
  mkArtifactWorkflow (AW_TypeMeta aw) (AW_ObjectMeta aw) (AW_Spec aw)
    (mkArtifactWorkflowStatus p (AWStatus_Message (AW_Status aw))).

Definition set_Order_ObjectMeta (o : Order) (m : ObjectMeta) : Order :=
  mkOrder (Order_TypeMeta o) m (Order_Spec o) (Order_Status o).

Definition set_Order_ArtifactWorkflows (o : Order)
  (st : option (gmap string OrderArtifactWorkflowStatus)) : Order :=
  mkOrder (Order_TypeMeta o) (Order_ObjectMeta o) (Order_Spec o) (mkOrderStatus st).

Definition set_OAWS_Phase (s : OrderArtifactWorkflowStatus) (p : WorkflowPhase) :=
  mkOrderArtifactWorkflowStatus (OAWS_ArtifactIndex s) p (OAWS_Message s).

Definition set_OAWS_ArtifactIndex (s : OrderArtifactWorkflowStatus) (i : Z) :=
  mkOrderArtifactWorkflowStatus i (OAWS_Phase s) (OAWS_Message s).

(** The zero value, which reading an absent key of the status map gives. *)
Definition emptyOAWS : OrderArtifactWorkflowStatus :=
  mkOrderArtifactWorkflowStatus 0 WorkflowUnknown "".

(** ** The phases *)

(** A phase is never both completed and in progress. *)
Lemma Completed_not_InProgress p : Completed p = true -> InProgress p = false.
Proof.
  unfold Completed, InProgress. rewrite !orb_true_iff, !bool_decide_eq_true.
  by intros [[->| ->]| ->].
Qed.
