(* ===== verification/DeepCopyMemory.v ===== *)
(** * Memory for the deep-copy functions

    zz_generated.deepcopy.go of both API packages copies structs that hold slices,
    maps and pointers.  Here a slice or map is the address of a block of memory (nil
    is [None]), a pointer the address of a struct, and a function that copies runs in
    a small state monad over the heap; [None] is a load from memory of another type,
    which Go's types exclude.  A slice covers the whole of its block.

    [shape] relates a value in memory to the API value it stands for and to the
    addresses it reaches; [copies] and [isolated] say what a deep copy promises. *)

From stdpp Require Import base gmap sets list strings.
From Stdlib Require Import ZArith Strings.Byte.
From S2P Require Import Prelude GoStd KubeTypes.

Local Open Scope list_scope.

(** ** Heaps *)

Definition loc : Type := positive.

(** A block holds data of the libraries or data of the package, of type [P]. *)
Inductive cell (P : Type) :=
| LibBytes (bs : list byte)
| LibStrings (m : gmap string string)
| Pkg (c : P).
Arguments LibBytes {P} bs.
Arguments LibStrings {P} m.
Arguments Pkg {P} c.

Abbreviation heap P := (gmap loc (cell P)).

(** A type of data a block can hold. *)
Class CellType (P T : Type) := {
  put : T -> cell P;
  get : cell P -> option T;
  get_put : forall t, get (put t) = Some t;
}.

#[export] Instance bytes_cell P : CellType P (list byte) := {|
  put := LibBytes;
  get := fun c => match c with LibBytes bs => Some bs | _ => None end;
  get_put := fun t => eq_refl;
|}.

#[export] Instance strings_cell P : CellType P (gmap string string) := {|
  put := LibStrings;
  get := fun c => match c with LibStrings m => Some m | _ => None end;
  get_put := fun t => eq_refl;
|}.

(** ** The monad *)

Definition mem (P A : Type) : Type := heap P -> option (heap P * A).

Definition mret' {P A : Type} (a : A) : mem P A := fun h => Some (h, a).

Definition mbind' {P A B : Type} (m : mem P A) (f : A -> mem P B) : mem P B :=
  fun h => match m h with
           | Some (h', a) => f a h'
           | None => None
           end.

Notation "'let*' x := m 'in' k" := (mbind' m (fun x => k))
  (at level 10, x pattern, m at level 100, k at level 200) : arc_scope.

Definition load {P T : Type} `{CellType P T} (l : loc) : mem P T :=
  fun h => match h !! l ≫= get with Some t => Some (h, t) | None => None end.

(** [make] and [new]: a block at an address that is not in use. *)
Definition alloc {P T : Type} `{CellType P T} (t : T) : mem P loc :=
  fun h => let l := fresh (dom h) in Some (<[l := put t]> h, l).

(** The elements of a slice one by one. *)
Fixpoint mapMem {P A : Type} (f : A -> mem P A) (l : list A) : mem P (list A) :=
  match l with
  | [] => mret' []
  | a :: l => let* a' := f a in let* l' := mapMem f l in mret' (a' :: l')
  end.

(** A slice that is not nil: [make] a slice of the same length, [copy] the elements. *)
Definition copySlice {P : Type} (T : Type) `{CellType P (list T)} (s : option loc) :
  mem P (option loc) :=
  match s with
  | None => mret' None
  | Some l => let* xs := load (T := list T) l in let* l' := alloc xs in mret' (Some l')
  end.

(** The same, with [DeepCopyInto] for every element instead of [copy]. *)
Definition copySliceInto {P T : Type} `{CellType P (list T)} (into : T -> mem P T)
  (s : option loc) : mem P (option loc) :=
  match s with
  | None => mret' None
  | Some l =>
      let* xs := load (T := list T) l in
      let* ys := mapMem into xs in
      let* l' := alloc ys in
      mret' (Some l')
  end.

(** A map that is not nil: [make] a map, store the entries as [range] visits them. *)
Definition copyMap {P : Type} (T : Type) `{GoRuntime} `{CellType P (gmap string T)}
  (site : string) (s : option loc) : mem P (option loc) :=
  match s with
  | None => mret' None
  | Some l =>
      let* m := load (T := gmap string T) l in
      let* l' := alloc (fold_left (fun m kv => <[kv.1 := kv.2]> m)
                          (range_order site m) (∅ : gmap string T)) in
      mret' (Some l')
  end.

(** The body of every [DeepCopy]. *)
Definition deepCopy {P T : Type} `{CellType P T} (into : T -> mem P T) (p : option loc) :
  mem P (option loc) :=
  match p with
  | None => mret' None
  | Some l =>
      let* t := load l in
      let* t' := into t in
      let* l' := alloc t' in
      mret' (Some l')
  end.

(** ** Shapes *)

Definition shape (P A V : Type) : Type := heap P -> A -> V -> gset loc -> Prop.

(** A shape looks at no memory but what is reachable, all of which is there. *)
Class Shape {P A V : Type} (S : shape P A V) : Prop := {
  shape_framed : forall h h' a v L,
    S h a v L -> (forall l, l ∈ L -> h' !! l = h !! l) -> S h' a v L;
  shape_bounded : forall h a v L, S h a v L -> L ⊆ dom h;
}.

(** Data without references. *)
Definition plain {P A : Type} : shape P A A := fun h a v L => v = a /\ L = ∅.

Definition stored {P T : Type} `{CellType P T} (h : heap P) (l : loc) (t : T) : Prop :=
  (h !! l ≫= get) = Some t.

(** A slice: nil stands for the empty list. *)
Definition slice_of {P A V : Type} `{CellType P (list A)} (S : shape P A V) :
  shape P (option loc) (list V) :=
  fun h s vs L =>
    match s with
    | None => vs = [] /\ L = ∅
    | Some l => exists xs Ls, stored h l xs /\ Forall3 (S h) xs vs Ls /\
                  L = {[l]} ∪ ⋃ Ls
    end.

(** A map whose values have no references; nil is kept. *)
Definition map_of {P : Type} (T : Type) `{CellType P (gmap string T)} :
  shape P (option loc) (option (gmap string T)) :=
  fun h s m L =>
    match s with
    | None => m = None /\ L = ∅
    | Some l => exists m', stored h l m' /\ m = Some m' /\ L = {[l]}
    end.

Definition ptr_to {P A V : Type} `{CellType P A} (S : shape P A V) :
  shape P (option loc) (option V) :=
  fun h p v L =>
    match p with
    | None => v = None /\ L = ∅
    | Some l => exists a v' L', stored h l a /\ S h a v' L' /\ v = Some v' /\ L = {[l]} ∪ L'
    end.

(** ** What a copy promises *)

(** The copy stands for the same value, and reaches only memory that did not exist
    before; existing memory keeps its contents. *)
Definition copies {P A V : Type} (f : A -> mem P A) (S : shape P A V) : Prop :=
  forall h a v L, S h a v L ->
    exists h' a' L', f a h = Some (h', a') /\ h ⊆ h' /\ S h' a' v L' /\ L' ## dom h.

(** In terms of later writes: whatever is written to the memory of the copy, the
    original keeps its value, and whatever is written elsewhere, the copy keeps
    its own. *)
Definition isolated {P A V : Type} (f : A -> mem P A) (S : shape P A V) : Prop :=
  forall h a v L, S h a v L ->
    exists h' a' L', f a h = Some (h', a') /\ S h' a' v L' /\ L ## L' /\
      (forall h'', (forall l, l ∉ L' -> h'' !! l = h' !! l) -> S h'' a v L) /\
      (forall h'', (forall l, l ∈ L' -> h'' !! l = h' !! l) -> S h'' a' v L').

(** [DeepCopyObject] runs [DeepCopy] and tags the address with the dynamic type. *)
Definition tagged {P R : Type} (tag : loc -> R)
  (copyObject : option loc -> mem P (option R)) (copy : option loc -> mem P (option loc)) :
  Prop :=
  forall p h, copyObject p h =
    match copy p h with
    | Some (h', p') => Some (h', tag <$> p')
    | None => None
    end.

Lemma tagged_object {P R} (tag : loc -> R) (copy : option loc -> mem P (option loc)) :
  tagged tag (fun p => let* c := copy p in
                       match c with
                       | Some l => mret' (Some (tag l))
                       | None => mret' None
                       end) copy.
Proof. intros p h. unfold mbind'. by destruct (copy p h) as [[h' [l|]]|]. Qed.

(** ** Shapes of the constructors *)

Section shapes.
Context {P : Type}.

Lemma stored_agree {T} `{CellType P T} (h h' : heap P) l t :
  h' !! l = h !! l -> stored h l t -> stored h' l t.
Proof. unfold stored. by intros ->. Qed.

Lemma stored_dom {T} `{CellType P T} (h : heap P) l t : stored h l t -> l ∈ dom h.
Proof. unfold stored. rewrite elem_of_dom. by destruct (h !! l). Qed.

Lemma stored_insert {T} `{CellType P T} (h : heap P) l (t : T) : stored (<[l := put t]> h) l t.
Proof. unfold stored. rewrite lookup_insert_eq. simpl. apply get_put. Qed.

Lemma load_stored {T} `{CellType P T} (h : heap P) l (t : T) :
  stored h l t -> load l h = Some (h, t).
Proof. unfold stored, load. by intros ->. Qed.

#[export] Instance plain_shape {A} : Shape (@plain P A).
Proof. split; [done|]. intros h a v L [_ ->]. set_solver. Qed.

#[export] Instance map_shape {T} `{CellType P (gmap string T)} : Shape (map_of (P := P) T).
Proof.
  split.
  - intros h h' [l|] v L; simpl; [|done]. intros (m & Hm & -> & ->) Hl.
    exists m. split; [|done]. eapply stored_agree; [|done]. set_solver.
  - intros h [l|] v L; simpl; [|by intros [_ ->]; set_solver].
    intros (m & Hm & _ & ->). apply stored_dom in Hm. set_solver.
Qed.

Lemma Forall3_framed {A V} (S : shape P A V) `{!Shape S} (h h' : heap P) xs vs Ls :
  Forall3 (S h) xs vs Ls -> (forall l, l ∈ ⋃ Ls -> h' !! l = h !! l) ->
  Forall3 (S h') xs vs Ls.
Proof.
  induction 1 as [|x v L' xs vs Ls HS _ IH]; intros Hl; simpl in *; constructor.
  - eapply shape_framed; [done|]. set_solver.
  - apply IH. set_solver.
Qed.

Lemma Forall3_bounded {A V} (S : shape P A V) `{!Shape S} (h : heap P) xs vs Ls :
  Forall3 (S h) xs vs Ls -> ⋃ Ls ⊆ dom h.
Proof.
  induction 1 as [|x v L' xs vs Ls HS _ IH]; simpl in *; [set_solver|].
  apply shape_bounded in HS. set_solver.
Qed.

#[export] Instance slice_shape {A V} `{CellType P (list A)} (S : shape P A V) `{!Shape S} :
  Shape (slice_of S).
Proof.
  split.
  - intros h h' [l|] v L; simpl; [|done]. intros (xs & Ls & Hs & HF & ->) Hl.
    exists xs, Ls. split_and!; [|eapply Forall3_framed; [done..|]|done].
    + eapply stored_agree; [|done]. set_solver.
    + set_solver.
  - intros h [l|] v L; simpl; [|by intros [_ ->]; set_solver].
    intros (xs & Ls & Hs & HF & ->). apply stored_dom in Hs.
    apply Forall3_bounded in HF; [|done]. set_solver.
Qed.

#[export] Instance ptr_shape {A V} `{CellType P A} (S : shape P A V) `{!Shape S} :
  Shape (ptr_to S).
Proof.
  split.
  - intros h h' [l|] v L; simpl; [|done]. intros (a & v' & L' & Hs & HS & -> & ->) Hl.
    exists a, v', L'. split_and!; [|eapply shape_framed; [done..|]|done|done].
    + eapply stored_agree; [|done]. set_solver.
    + set_solver.
  - intros h [l|] v L; simpl; [|by intros [_ ->]; set_solver].
    intros (a & v' & L' & Hs & HS & -> & ->). apply stored_dom in Hs.
    apply shape_bounded in HS. set_solver.
Qed.

(** A shape survives when memory is only added. *)
Lemma shape_mono {A V} (S : shape P A V) `{!Shape S} (h h' : heap P) a v L :
  S h a v L -> h ⊆ h' -> S h' a v L.
Proof.
  intros HS Hh. eapply shape_framed; [done|]. intros l Hl.
  apply shape_bounded in HS. apply HS in Hl. apply elem_of_dom in Hl as [c Hc].
  rewrite Hc. by eapply lookup_weaken.
Qed.

Lemma Forall3_mono {A V} (S : shape P A V) `{!Shape S} (h h' : heap P) xs vs Ls :
  Forall3 (S h) xs vs Ls -> h ⊆ h' -> Forall3 (S h') xs vs Ls.
Proof. intros HF Hh. eapply Forall3_impl; [done|]. intros. by eapply shape_mono. Qed.

End shapes.

(** ** Copies of the constructors *)

Section copies.
Context {P : Type}.

(** Allocation adds one block. *)
Lemma alloc_spec {T} `{CellType P T} (h : heap P) (t : T) :
  exists l, alloc t h = Some (<[l := put t]> h, l) /\ (l ∉ dom h) /\ h ⊆ (<[l := put t]> h).
Proof.
  exists (fresh (dom h)). split; [done|]. pose proof (is_fresh (dom h)) as Hf.
  split; [done|]. apply insert_subseteq. by apply not_elem_of_dom.
Qed.

(** Copying something and then storing the copy in a fresh block. *)
Lemma stored_copy {A V} (S : shape P A V) `{!Shape S} `{CellType P A} (h h1 : heap P) a v L :
  h ⊆ h1 -> S h1 a v L -> L ## dom h ->
  exists l, alloc a h1 = Some (<[l := put a]> h1, l) /\ h ⊆ <[l := put a]> h1 /\
    stored (<[l := put a]> h1) l a /\ S (<[l := put a]> h1) a v L /\ ({[l]} ∪ L) ## dom h.
Proof.
  intros Hh HS HL. destruct (alloc_spec h1 a) as (l & Ha & Hl & Hsub).
  exists l. split_and!; [done|by etrans|apply stored_insert|by eapply shape_mono|].
  apply subseteq_dom in Hh. set_solver.
Qed.

Lemma copies_plain {A} : copies (P := P) (A := A) mret' plain.
Proof. intros h a v L [-> ->]. exists h, a, ∅. split_and!; (done || set_solver). Qed.

Lemma copies_ptr {A V} `{CellType P A} (f : A -> mem P A) (S : shape P A V) `{!Shape S} :
  copies f S -> copies (deepCopy f) (ptr_to S).
Proof.
  intros Hf h [l|] v L; simpl.
  - intros (a & v' & L' & Hs & HS & -> & ->).
    destruct (Hf _ _ _ _ HS) as (h1 & a1 & L1 & E & Hsub & HS1 & HL1).
    destruct (stored_copy S h h1 a1 v' L1) as (l' & Ea & Hsub' & Hs' & HS' & HL'); [done..|].
    exists (<[l' := put a1]> h1), (Some l'), ({[l']} ∪ L1). split_and!; [|done| |done].
    + unfold mbind'. by rewrite (load_stored _ _ _ Hs), E, Ea.
    + exists a1, v', L1. done.
  - intros [-> ->]. exists h, None, ∅. split_and!; (done || set_solver).
Qed.

Lemma copies_mapMem {A V} (f : A -> mem P A) (S : shape P A V) `{!Shape S} (h : heap P) xs vs Ls :
  copies f S -> Forall3 (S h) xs vs Ls ->
  exists h' ys Ls', mapMem f xs h = Some (h', ys) /\ h ⊆ h' /\
    Forall3 (S h') ys vs Ls' /\ ⋃ Ls' ## dom h.
Proof.
  intros Hf HF. revert h Ls HF.
  induction xs as [|x xs IH] in vs |- *; intros h Ls HF; inversion HF; subst; simpl.
  - exists h, [], []. split_and!; [done|done|constructor|set_solver].
  - match goal with HS : S h x ?v ?L, HF' : Forall3 (S h) xs ?vs' ?Ls' |- _ =>
      rename HS into HSx; rename HF' into HFx end.
    destruct (Hf _ _ _ _ HSx) as (h1 & x1 & L1 & E1 & Hsub1 & HS1 & HL1).
    destruct (IH _ h1 _ (Forall3_mono S h h1 _ _ _ HFx Hsub1))
      as (h2 & ys & Ls2 & E2 & Hsub2 & HF2 & HL2).
    exists h2, (x1 :: ys), (L1 :: Ls2). split_and!.
    + unfold mbind'. by rewrite E1, E2.
    + by etrans.
    + constructor; [by eapply shape_mono|done].
    + apply subseteq_dom in Hsub1. set_solver.
Qed.

Lemma copies_slice_into {A V} `{CellType P (list A)} (f : A -> mem P A) (S : shape P A V)
  `{!Shape S} :
  copies f S -> copies (copySliceInto f) (slice_of S).
Proof.
  intros Hf h [l|] vs L; simpl.
  - intros (xs & Ls & Hs & HF & ->).
    destruct (copies_mapMem f S h xs vs Ls) as (h1 & ys & Ls1 & E & Hsub & HF1 & HL1); [done..|].
    destruct (alloc_spec h1 ys) as (l' & Ea & Hl' & Hsub').
    exists (<[l' := put ys]> h1), (Some l'), ({[l']} ∪ ⋃ Ls1). split_and!.
    + unfold mbind'. by rewrite (load_stored _ _ _ Hs), E, Ea.
    + by etrans.
    + exists ys, Ls1. split_and!; [apply stored_insert| |done].
      by eapply Forall3_mono.
    + apply subseteq_dom in Hsub. set_solver.
  - intros [-> ->]. exists h, None, ∅. split_and!; (done || set_solver).
Qed.

Lemma mapMem_plain {A} (l : list A) (h : heap P) : mapMem mret' l h = Some (h, l).
Proof. induction l as [|a l IH]; [done|]. simpl. unfold mbind'. simpl. by rewrite IH. Qed.

Lemma copies_slice {A} `{CellType P (list A)} : copies (copySlice (P := P) A) (slice_of plain).
Proof.
  intros h s vs L HS.
  destruct (copies_slice_into mret' plain copies_plain h s vs L HS)
    as (h' & s' & L' & E & Hrest).
  exists h', s', L'. split; [|done]. rewrite <- E. destruct s as [l|]; [|done]. simpl.
  unfold mbind'. destruct (load l h) as [[h1 xs]|]; [|done]. by rewrite mapMem_plain.
Qed.

Lemma copies_map {T} `{GoRuntime} `{CellType P (gmap string T)} site :
  copies (copyMap (P := P) T site) (map_of T).
Proof.
  intros h [l|] v L; simpl.
  - intros (m & Hs & -> & ->). unfold mbind'. rewrite (load_stored _ _ _ Hs).
    rewrite range_fold_insert. destruct (alloc_spec h m) as (l' & Ea & Hl' & Hsub').
    rewrite Ea. eexists _, _, {[l']}. split_and!; [done|done| |set_solver].
    simpl. exists m. split; [apply stored_insert|done].
  - intros [-> ->]. exists h, None, ∅. split_and!; (done || set_solver).
Qed.

(** A copy is isolated from the original. *)
Lemma copies_isolated {A V} (f : A -> mem P A) (S : shape P A V) `{!Shape S} :
  copies f S -> isolated f S.
Proof.
  intros Hf h a v L HS. destruct (Hf h a v L HS) as (h' & a' & L' & E & Hsub & HS' & HL').
  pose proof (shape_bounded _ _ _ _ HS) as HL.
  exists h', a', L'. split_and!; [done|done|set_solver| |].
  - intros h'' Hagree. eapply shape_framed; [eapply shape_mono; [done..|exact Hsub]|].
    intros l Hl. apply Hagree. set_solver.
  - intros h'' Hagree. by eapply shape_framed.
Qed.

End copies.

(** ** The interface of a copying function

    A function that copies values of a shape; the shape follows from the function. *)

Class Copier {P A V : Type} (f : A -> mem P A) (S : shape P A V) : Prop := {
  copier_shape : Shape S;
  copier_copies : copies f S;
}.

Section copiers.
Context {P : Type}.

#[export] Instance plain_copier {A} : Copier (P := P) (A := A) mret' plain.
Proof. split; [apply _|apply copies_plain]. Qed.

#[export] Instance slice_copier {A} `{CellType P (list A)} :
  Copier (copySlice (P := P) A) (slice_of plain).
Proof. split; [apply _|apply copies_slice]. Qed.

#[export] Instance slice_into_copier {A V} `{CellType P (list A)} (f : A -> mem P A)
  (S : shape P A V) `{Hf : !Copier f S} : Copier (copySliceInto f) (slice_of S).
Proof. destruct Hf. split; [apply _|by apply copies_slice_into]. Qed.

#[export] Instance map_copier {T} `{GoRuntime} `{CellType P (gmap string T)} site :
  Copier (copyMap (P := P) T site) (map_of T).
Proof. split; [apply _|apply copies_map]. Qed.

#[export] Instance ptr_copier {A V} `{CellType P A} (f : A -> mem P A) (S : shape P A V)
  `{Hf : !Copier f S} : Copier (deepCopy f) (ptr_to S).
Proof. destruct Hf. split; [apply _|by apply copies_ptr]. Qed.

(** A run that ends with a copy. *)
Definition ends {A V : Type} (h0 : heap P) (S : shape P A V) (v : V)
  (r : option (heap P * A)) : Prop :=
  exists h' a' L', r = Some (h', a') /\ h0 ⊆ h' /\ S h' a' v L' /\ L' ## dom h0.

(** One field of a struct: it is copied, and the rest goes on in more memory. *)
Lemma copy_field {A V B W} (f : A -> mem P A) (S : shape P A V) (HC : Copier f S)
  (k : A -> mem P B) (h0 h : heap P) a v L (S' : shape P B W) w :
  h0 ⊆ h -> S h0 a v L ->
  (forall h' a' L', h0 ⊆ h' -> h ⊆ h' -> S h' a' v L' -> L' ## dom h0 ->
     ends h0 S' w (k a' h')) ->
  ends h0 S' w (mbind' (f a) k h).
Proof.
  destruct HC as [HS Hf]. intros Hh Ha HQ. destruct (Hf h a v L) as (h' & a' & L' & E & Hsub & HS' & HL').
  { by eapply shape_mono. }
  unfold mbind'. rewrite E. apply (HQ h' a' L'); [by etrans|done|done|].
  apply subseteq_dom in Hh. set_solver.
Qed.

Lemma copier_mono {A V} (f : A -> mem P A) (S : shape P A V) (HC : Copier f S)
  (h h' : heap P) a v L : h ⊆ h' -> S h a v L -> S h' a v L.
Proof. destruct HC. intros. by eapply shape_mono. Qed.

Lemma copier_isolated {A V} (f : A -> mem P A) (S : shape P A V) (HC : Copier f S) :
  isolated f S.
Proof. destruct HC. by apply copies_isolated. Qed.

End copiers.

(** * The deep-copy functions of the Kubernetes libraries

    [metav1.ObjectMeta], [metav1.ListMeta] and [runtime.RawExtension] have deep-copy
    functions of their own, outside the repository.  Their memory representation and
    their functions are parameters; what the generated code relies on is that they
    copy.  A concrete instance keeps labels and raw bytes in memory. *)

(** The structs of the libraries in memory. *)
Class KubeMemory := {
  MetaG : Type;
  ListMetaG : Type;
  RawG : Type;
}.

Class KubeCopy `{KubeMemory} (P : Type) := {
  ObjectMeta_shape : shape P MetaG ObjectMeta;
  ObjectMeta_Shape :: Shape ObjectMeta_shape;
  ObjectMeta_DeepCopyInto : MetaG -> mem P MetaG;
  ObjectMeta_copies : copies ObjectMeta_DeepCopyInto ObjectMeta_shape;
  ListMeta_shape : shape P ListMetaG ListMeta;
  ListMeta_Shape :: Shape ListMeta_shape;
  ListMeta_DeepCopyInto : ListMetaG -> mem P ListMetaG;
  ListMeta_copies : copies ListMeta_DeepCopyInto ListMeta_shape;
  RawExtension_shape : shape P RawG RawExtension;
  RawExtension_Shape :: Shape RawExtension_shape;
  RawExtension_DeepCopyInto : RawG -> mem P RawG;
  RawExtension_copies : copies RawExtension_DeepCopyInto RawExtension_shape;
}.

#[export] Instance ObjectMeta_copier `{KubeCopy P} :
  Copier ObjectMeta_DeepCopyInto ObjectMeta_shape.
Proof. split; [apply _|apply ObjectMeta_copies]. Qed.

#[export] Instance ListMeta_copier `{KubeCopy P} : Copier ListMeta_DeepCopyInto ListMeta_shape.
Proof. split; [apply _|apply ListMeta_copies]. Qed.

#[export] Instance RawExtension_copier `{KubeCopy P} :
  Copier RawExtension_DeepCopyInto RawExtension_shape.
Proof. split; [apply _|apply RawExtension_copies]. Qed.

(** ** Tactics for structs

    A struct's shape is a conjunction of equations for its plain fields and shapes
    for the others, whose addresses are united. *)

Ltac open_shape :=
  repeat match goal with
         | H : exists _, _ |- _ => destruct H
         | H : _ /\ _ |- _ => destruct H
         end.

(** The shape of a struct looks only at what it reaches. *)
Ltac solve_shape :=
  lazymatch goal with |- Shape ?S => unfold S end;
  split;
  [ intros h h' a v L HS Hl; open_shape; try subst L;
    repeat match goal with |- exists _, _ => eexists | |- _ /\ _ => split end;
    try eassumption; try reflexivity;
    (eapply shape_framed; [eassumption|]; intros; apply Hl; set_solver)
  | intros h a v L HS; open_shape; try subst L;
    repeat match goal with H : _ h _ _ _ |- _ => apply shape_bounded in H end;
    set_solver ].

(** Copy the fields one after the other, then put the struct together. *)
Ltac copy_step :=
  lazymatch goal with
  | |- ends ?h0 _ _ (mbind' (?f ?a) ?k ?h) =>
      eapply (copy_field f _ _ k h0 h a); [first [reflexivity|assumption]|eassumption|];
      let h' := fresh "h" in let Hsub := fresh "Hsub" in
      intros h' ? ? ? Hsub ? ?; cbv beta;
      first [constr_eq h0 h
            |repeat match goal with
                    | H : ?S h ?x ?v ?L |- _ => eapply (copier_mono _ S _ h h') in H; [|exact Hsub]
                    end]
  end.

Ltac solve_copier :=
  lazymatch goal with |- Copier ?f ?S =>
    split; [apply _|];
    intros h a v L HS;
    change (ends h S v (f a h)); unfold f;
    unfold S in HS; open_shape; try subst L;
    repeat copy_step;
    eexists _, _, _; split; [reflexivity|]; split; [first [reflexivity|assumption]|];
    split;
    [ unfold S; repeat match goal with |- exists _, _ => eexists | |- _ /\ _ => split end;
      try eassumption; try reflexivity
    | set_solver ]
  end.

(** ** A concrete library *)

#[export] Instance plain_memory : KubeMemory := {|
  MetaG := ObjectMeta * option loc;
  ListMetaG := ListMeta;
  RawG := option loc;
|}.

Section library.
Context `{GoRuntime} {P : Type}.

(** Object metadata whose labels are in memory. *)
Definition set_Labels (m : ObjectMeta) (ls : gmap string string) : ObjectMeta :=
  mkObjectMeta (Name m) (GenerateName m) (Namespace m) (UID m) (ResourceVersion m)
    (Generation m) (CreationTimestamp m) (DeletionTimestamp m)
    (DeletionGracePeriodSeconds m) ls (Annotations m) (OwnerReferences m) (Finalizers m).

Definition plain_meta_shape : shape P (ObjectMeta * option loc) ObjectMeta :=
  fun h a v L => exists ls, map_of string h a.2 ls L /\ v = set_Labels a.1 (default ∅ ls).

Definition plain_meta_copy (a : ObjectMeta * option loc) : mem P (ObjectMeta * option loc) :=
  let* s := copyMap string "ObjectMeta.DeepCopyInto" a.2 in mret' (a.1, s).

Lemma plain_meta_copies : copies plain_meta_copy plain_meta_shape.
Proof.
  intros h [m s] v L (ls & Hm & ->).
  destruct (copies_map "ObjectMeta.DeepCopyInto" h s ls L Hm) as (h' & s' & L' & E & Hsub & HS & HL).
  exists h', (m, s'), L'. split_and!; [|done| |done].
  - unfold plain_meta_copy, mbind'. simpl. by rewrite E.
  - by exists ls.
Qed.

Definition plain_raw_shape : shape P (option loc) RawExtension :=
  fun h a v L => ptr_to (A := list byte) plain h a (Raw v) L.

Lemma plain_raw_copies : copies (deepCopy (T := list byte) mret') plain_raw_shape.
Proof. intros h a v L HS. by apply (copies_ptr _ _ copies_plain) in HS. Qed.

End library.

#[export] Program Instance plain_library `{GoRuntime} P : KubeCopy P := {|
  ObjectMeta_shape := plain_meta_shape;
  ObjectMeta_DeepCopyInto := plain_meta_copy;
  ObjectMeta_copies := plain_meta_copies;
  ListMeta_shape := plain;
  ListMeta_DeepCopyInto := mret';
  ListMeta_copies := copies_plain;
  RawExtension_shape := plain_raw_shape;
  RawExtension_DeepCopyInto := deepCopy (T := list byte) mret';
  RawExtension_copies := plain_raw_copies;
|}.
Next Obligation.
  intros ? P. split.
  - intros h h' a v L (ls & Hm & ->) Hl. exists ls. split; [|done]. by eapply shape_framed.
  - intros h a v L (ls & Hm & _). by apply shape_bounded in Hm.
Qed.
Next Obligation.
  intros ? P. unfold plain_raw_shape. split.
  - intros h h' a v L HS Hl. by eapply shape_framed.
  - intros h a v L HS. by apply shape_bounded in HS.
Qed.
