(* ===== verification/DeepCopyArc.v ===== *)
(** * Deep copies of package [arc] (api/arc/zz_generated.deepcopy.go)

    The structs in memory, the blocks they are kept in, and one definition per
    generated function.  [DeepCopyInto] gives the contents of [*out]; the fields it
    does not copy are those of [*out = *in].  Types without references are stored as
    they are. *)

From stdpp Require Import base gmap sets list strings.
From Stdlib Require Import ZArith Strings.Byte.
From S2P Require Import Prelude GoStd KubeTypes ArcTypes DeepCopyMemory.

Local Open Scope string_scope.
Local Open Scope list_scope.

(** ** Structs in memory *)

Section structs.
Context `{KubeMemory}.

Record ArtifactTypeRulesG := mkArtifactTypeRulesG {
  ArtifactTypeRulesG_SrcTypes : option loc;
  ArtifactTypeRulesG_DstTypes : option loc;
}.

Record ArtifactTypeSpecG := mkArtifactTypeSpecG {
  ArtifactTypeSpecG_Rules : ArtifactTypeRulesG;
  ArtifactTypeSpecG_Parameters : option loc;
  ArtifactTypeSpecG_WorkflowTemplateRef : LocalObjectReference;
}.

Record ArtifactTypeG := mkArtifactTypeG {
  ArtifactTypeG_TypeMeta : TypeMeta;
  ArtifactTypeG_ObjectMeta : MetaG;
  ArtifactTypeG_Spec : ArtifactTypeSpecG;
  ArtifactTypeG_Status : ArtifactTypeStatus;
}.

Record ArtifactTypeListG := mkArtifactTypeListG {
  ArtifactTypeListG_TypeMeta : TypeMeta;
  ArtifactTypeListG_ListMeta : ListMetaG;
  ArtifactTypeListG_Items : option loc;
}.

Record ArtifactWorkflowSpecG := mkArtifactWorkflowSpecG {
  ArtifactWorkflowSpecG_Type : string;
  ArtifactWorkflowSpecG_Parameters : option loc;
  ArtifactWorkflowSpecG_SrcSecretRef : LocalObjectReference;
  ArtifactWorkflowSpecG_DstSecretRef : LocalObjectReference;
}.

Record ArtifactWorkflowG := mkArtifactWorkflowG {
  ArtifactWorkflowG_TypeMeta : TypeMeta;
  ArtifactWorkflowG_ObjectMeta : MetaG;
  ArtifactWorkflowG_Spec : ArtifactWorkflowSpecG;
  ArtifactWorkflowG_Status : ArtifactWorkflowStatus;
}.

Record ArtifactWorkflowListG := mkArtifactWorkflowListG {
  ArtifactWorkflowListG_TypeMeta : TypeMeta;
  ArtifactWorkflowListG_ListMeta : ListMetaG;
  ArtifactWorkflowListG_Items : option loc;
}.

Record EndpointG := mkEndpointG {
  EndpointG_TypeMeta : TypeMeta;
  EndpointG_ObjectMeta : MetaG;
  EndpointG_Spec : EndpointSpec;
  EndpointG_Status : EndpointStatus;
}.

Record EndpointListG := mkEndpointListG {
  EndpointListG_TypeMeta : TypeMeta;
  EndpointListG_ListMeta : ListMetaG;
  EndpointListG_Items : option loc;
}.

Record OrderArtifactG := mkOrderArtifactG {
  OrderArtifactG_Type : string;
  OrderArtifactG_SrcRef : LocalObjectReference;
  OrderArtifactG_DstRef : LocalObjectReference;
  OrderArtifactG_Spec : RawG;
}.

Record OrderSpecG := mkOrderSpecG {
  OrderSpecG_Defaults : OrderDefaults;
  OrderSpecG_Artifacts : option loc;
}.

Record OrderStatusG := mkOrderStatusG {
  OrderStatusG_ArtifactWorkflows : option loc;
}.

Record OrderG := mkOrderG {
  OrderG_TypeMeta : TypeMeta;
  OrderG_ObjectMeta : MetaG;
  OrderG_Spec : OrderSpecG;
  OrderG_Status : OrderStatusG;
}.

Record OrderListG := mkOrderListG {
  OrderListG_TypeMeta : TypeMeta;
  OrderListG_ListMeta : ListMetaG;
  OrderListG_Items : option loc;
}.

(** The blocks: slices, maps and structs behind pointers. *)
Inductive block :=
| BStrings (x : list string)
| BParameters (x : list ArtifactWorkflowParameter)
| BStatuses (x : gmap string OrderArtifactWorkflowStatus)
| BOrderArtifacts (x : list OrderArtifactG)
| BArtifactTypes (x : list ArtifactTypeG)
| BArtifactWorkflows (x : list ArtifactWorkflowG)
| BEndpoints (x : list EndpointG)
| BOrders (x : list OrderG)
| BArtifactTypeRules (x : ArtifactTypeRulesG)
| BArtifactTypeSpec (x : ArtifactTypeSpecG)
| BArtifactType (x : ArtifactTypeG)
| BArtifactTypeList (x : ArtifactTypeListG)
| BArtifactWorkflowSpec (x : ArtifactWorkflowSpecG)
| BArtifactWorkflow (x : ArtifactWorkflowG)
| BArtifactWorkflowList (x : ArtifactWorkflowListG)
| BEndpoint (x : EndpointG)
| BEndpointList (x : EndpointListG)
| BOrderArtifact (x : OrderArtifactG)
| BOrderSpec (x : OrderSpecG)
| BOrderStatus (x : OrderStatusG)
| BOrder (x : OrderG)
| BOrderList (x : OrderListG)
| BArtifactTypeStatus (x : ArtifactTypeStatus)
| BArtifactWorkflowParameter (x : ArtifactWorkflowParameter)
| BArtifactWorkflowStatus (x : ArtifactWorkflowStatus)
| BEndpointSpec (x : EndpointSpec)
| BEndpointStatus (x : EndpointStatus)
| BOrderArtifactWorkflowStatus (x : OrderArtifactWorkflowStatus)
| BOrderDefaults (x : OrderDefaults).

#[export] Instance Strings_cell : CellType block (list string) := {|
  put := fun x => Pkg (BStrings x);
  get := fun c => match c with Pkg (BStrings x) => Some x | _ => None end;
  get_put := fun x => eq_refl;
|}.

#[export] Instance Parameters_cell : CellType block (list ArtifactWorkflowParameter) := {|
  put := fun x => Pkg (BParameters x);
  get := fun c => match c with Pkg (BParameters x) => Some x | _ => None end;
  get_put := fun x => eq_refl;
|}.

#[export] Instance Statuses_cell : CellType block (gmap string OrderArtifactWorkflowStatus) := {|
  put := fun x => Pkg (BStatuses x);
  get := fun c => match c with Pkg (BStatuses x) => Some x | _ => None end;
  get_put := fun x => eq_refl;
|}.

#[export] Instance OrderArtifacts_cell : CellType block (list OrderArtifactG) := {|
  put := fun x => Pkg (BOrderArtifacts x);
  get := fun c => match c with Pkg (BOrderArtifacts x) => Some x | _ => None end;
  get_put := fun x => eq_refl;
|}.

#[export] Instance ArtifactTypes_cell : CellType block (list ArtifactTypeG) := {|
  put := fun x => Pkg (BArtifactTypes x);
  get := fun c => match c with Pkg (BArtifactTypes x) => Some x | _ => None end;
  get_put := fun x => eq_refl;
|}.

#[export] Instance ArtifactWorkflows_cell : CellType block (list ArtifactWorkflowG) := {|
  put := fun x => Pkg (BArtifactWorkflows x);
  get := fun c => match c with Pkg (BArtifactWorkflows x) => Some x | _ => None end;
  get_put := fun x => eq_refl;
|}.

#[export] Instance Endpoints_cell : CellType block (list EndpointG) := {|
  put := fun x => Pkg (BEndpoints x);
  get := fun c => match c with Pkg (BEndpoints x) => Some x | _ => None end;
  get_put := fun x => eq_refl;
|}.

#[export] Instance Orders_cell : CellType block (list OrderG) := {|
  put := fun x => Pkg (BOrders x);
  get := fun c => match c with Pkg (BOrders x) => Some x | _ => None end;
  get_put := fun x => eq_refl;
|}.

#[export] Instance ArtifactTypeRules_cell : CellType block ArtifactTypeRulesG := {|
  put := fun x => Pkg (BArtifactTypeRules x);
  get := fun c => match c with Pkg (BArtifactTypeRules x) => Some x | _ => None end;
  get_put := fun x => eq_refl;
|}.

#[export] Instance ArtifactTypeSpec_cell : CellType block ArtifactTypeSpecG := {|
  put := fun x => Pkg (BArtifactTypeSpec x);
  get := fun c => match c with Pkg (BArtifactTypeSpec x) => Some x | _ => None end;
  get_put := fun x => eq_refl;
|}.

#[export] Instance ArtifactType_cell : CellType block ArtifactTypeG := {|
  put := fun x => Pkg (BArtifactType x);
  get := fun c => match c with Pkg (BArtifactType x) => Some x | _ => None end;
  get_put := fun x => eq_refl;
|}.

#[export] Instance ArtifactTypeList_cell : CellType block ArtifactTypeListG := {|
  put := fun x => Pkg (BArtifactTypeList x);
  get := fun c => match c with Pkg (BArtifactTypeList x) => Some x | _ => None end;
  get_put := fun x => eq_refl;
|}.

#[export] Instance ArtifactWorkflowSpec_cell : CellType block ArtifactWorkflowSpecG := {|
  put := fun x => Pkg (BArtifactWorkflowSpec x);
  get := fun c => match c with Pkg (BArtifactWorkflowSpec x) => Some x | _ => None end;
  get_put := fun x => eq_refl;
|}.

#[export] Instance ArtifactWorkflow_cell : CellType block ArtifactWorkflowG := {|
  put := fun x => Pkg (BArtifactWorkflow x);
  get := fun c => match c with Pkg (BArtifactWorkflow x) => Some x | _ => None end;
  get_put := fun x => eq_refl;
|}.

#[export] Instance ArtifactWorkflowList_cell : CellType block ArtifactWorkflowListG := {|
  put := fun x => Pkg (BArtifactWorkflowList x);
  get := fun c => match c with Pkg (BArtifactWorkflowList x) => Some x | _ => None end;
  get_put := fun x => eq_refl;
|}.

#[export] Instance Endpoint_cell : CellType block EndpointG := {|
  put := fun x => Pkg (BEndpoint x);
  get := fun c => match c with Pkg (BEndpoint x) => Some x | _ => None end;
  get_put := fun x => eq_refl;
|}.

#[export] Instance EndpointList_cell : CellType block EndpointListG := {|
  put := fun x => Pkg (BEndpointList x);
  get := fun c => match c with Pkg (BEndpointList x) => Some x | _ => None end;
  get_put := fun x => eq_refl;
|}.

#[export] Instance OrderArtifact_cell : CellType block OrderArtifactG := {|
  put := fun x => Pkg (BOrderArtifact x);
  get := fun c => match c with Pkg (BOrderArtifact x) => Some x | _ => None end;
  get_put := fun x => eq_refl;
|}.

#[export] Instance OrderSpec_cell : CellType block OrderSpecG := {|
  put := fun x => Pkg (BOrderSpec x);
  get := fun c => match c with Pkg (BOrderSpec x) => Some x | _ => None end;
  get_put := fun x => eq_refl;
|}.

#[export] Instance OrderStatus_cell : CellType block OrderStatusG := {|
  put := fun x => Pkg (BOrderStatus x);
  get := fun c => match c with Pkg (BOrderStatus x) => Some x | _ => None end;
  get_put := fun x => eq_refl;
|}.

#[export] Instance Order_cell : CellType block OrderG := {|
  put := fun x => Pkg (BOrder x);
  get := fun c => match c with Pkg (BOrder x) => Some x | _ => None end;
  get_put := fun x => eq_refl;
|}.

#[export] Instance OrderList_cell : CellType block OrderListG := {|
  put := fun x => Pkg (BOrderList x);
  get := fun c => match c with Pkg (BOrderList x) => Some x | _ => None end;
  get_put := fun x => eq_refl;
|}.

#[export] Instance ArtifactTypeStatus_cell : CellType block ArtifactTypeStatus := {|
  put := fun x => Pkg (BArtifactTypeStatus x);
  get := fun c => match c with Pkg (BArtifactTypeStatus x) => Some x | _ => None end;
  get_put := fun x => eq_refl;
|}.

#[export] Instance ArtifactWorkflowParameter_cell : CellType block ArtifactWorkflowParameter := {|
  put := fun x => Pkg (BArtifactWorkflowParameter x);
  get := fun c => match c with Pkg (BArtifactWorkflowParameter x) => Some x | _ => None end;
  get_put := fun x => eq_refl;
|}.

#[export] Instance ArtifactWorkflowStatus_cell : CellType block ArtifactWorkflowStatus := {|
  put := fun x => Pkg (BArtifactWorkflowStatus x);
  get := fun c => match c with Pkg (BArtifactWorkflowStatus x) => Some x | _ => None end;
  get_put := fun x => eq_refl;
|}.

#[export] Instance EndpointSpec_cell : CellType block EndpointSpec := {|
  put := fun x => Pkg (BEndpointSpec x);
  get := fun c => match c with Pkg (BEndpointSpec x) => Some x | _ => None end;
  get_put := fun x => eq_refl;
|}.

#[export] Instance EndpointStatus_cell : CellType block EndpointStatus := {|
  put := fun x => Pkg (BEndpointStatus x);
  get := fun c => match c with Pkg (BEndpointStatus x) => Some x | _ => None end;
  get_put := fun x => eq_refl;
|}.

#[export] Instance OrderArtifactWorkflowStatus_cell : CellType block OrderArtifactWorkflowStatus := {|
  put := fun x => Pkg (BOrderArtifactWorkflowStatus x);
  get := fun c => match c with Pkg (BOrderArtifactWorkflowStatus x) => Some x | _ => None end;
  get_put := fun x => eq_refl;
|}.

#[export] Instance OrderDefaults_cell : CellType block OrderDefaults := {|
  put := fun x => Pkg (BOrderDefaults x);
  get := fun c => match c with Pkg (BOrderDefaults x) => Some x | _ => None end;
  get_put := fun x => eq_refl;
|}.

End structs.

(** ** The functions *)

Section functions.
Context `{GoRuntime} `{KubeMemory} `{!KubeCopy block}.

Definition ArtifactTypeStatus_DeepCopyInto (inp : ArtifactTypeStatus) : mem block ArtifactTypeStatus := mret' inp.

Definition ArtifactTypeStatus_DeepCopy : option loc -> mem block (option loc) :=
  deepCopy ArtifactTypeStatus_DeepCopyInto.

Definition ArtifactWorkflowParameter_DeepCopyInto (inp : ArtifactWorkflowParameter) : mem block ArtifactWorkflowParameter := mret' inp.

Definition ArtifactWorkflowParameter_DeepCopy : option loc -> mem block (option loc) :=
  deepCopy ArtifactWorkflowParameter_DeepCopyInto.

Definition ArtifactWorkflowStatus_DeepCopyInto (inp : ArtifactWorkflowStatus) : mem block ArtifactWorkflowStatus := mret' inp.

Definition ArtifactWorkflowStatus_DeepCopy : option loc -> mem block (option loc) :=
  deepCopy ArtifactWorkflowStatus_DeepCopyInto.

Definition EndpointSpec_DeepCopyInto (inp : EndpointSpec) : mem block EndpointSpec := mret' inp.

Definition EndpointSpec_DeepCopy : option loc -> mem block (option loc) :=
  deepCopy EndpointSpec_DeepCopyInto.

Definition EndpointStatus_DeepCopyInto (inp : EndpointStatus) : mem block EndpointStatus := mret' inp.

Definition EndpointStatus_DeepCopy : option loc -> mem block (option loc) :=
  deepCopy EndpointStatus_DeepCopyInto.

Definition OrderArtifactWorkflowStatus_DeepCopyInto (inp : OrderArtifactWorkflowStatus) : mem block OrderArtifactWorkflowStatus := mret' inp.

Definition OrderArtifactWorkflowStatus_DeepCopy : option loc -> mem block (option loc) :=
  deepCopy OrderArtifactWorkflowStatus_DeepCopyInto.

Definition OrderDefaults_DeepCopyInto (inp : OrderDefaults) : mem block OrderDefaults := mret' inp.

Definition OrderDefaults_DeepCopy : option loc -> mem block (option loc) :=
  deepCopy OrderDefaults_DeepCopyInto.

Definition ArtifactTypeRules_DeepCopyInto (inp : ArtifactTypeRulesG) : mem block ArtifactTypeRulesG :=
  let* srcTypes := copySlice string (ArtifactTypeRulesG_SrcTypes inp) in
  let* dstTypes := copySlice string (ArtifactTypeRulesG_DstTypes inp) in
  mret' (mkArtifactTypeRulesG srcTypes dstTypes).

Definition ArtifactTypeRules_DeepCopy : option loc -> mem block (option loc) :=
  deepCopy ArtifactTypeRules_DeepCopyInto.

Definition ArtifactTypeSpec_DeepCopyInto (inp : ArtifactTypeSpecG) : mem block ArtifactTypeSpecG :=
  let* rules := ArtifactTypeRules_DeepCopyInto (ArtifactTypeSpecG_Rules inp) in
  let* parameters := copySlice ArtifactWorkflowParameter (ArtifactTypeSpecG_Parameters inp) in
  mret' (mkArtifactTypeSpecG rules parameters (ArtifactTypeSpecG_WorkflowTemplateRef inp)).

Definition ArtifactTypeSpec_DeepCopy : option loc -> mem block (option loc) :=
  deepCopy ArtifactTypeSpec_DeepCopyInto.

Definition ArtifactType_DeepCopyInto (inp : ArtifactTypeG) : mem block ArtifactTypeG :=
  let* objectMeta := ObjectMeta_DeepCopyInto (ArtifactTypeG_ObjectMeta inp) in
  let* spec := ArtifactTypeSpec_DeepCopyInto (ArtifactTypeG_Spec inp) in
  mret' (mkArtifactTypeG (ArtifactTypeG_TypeMeta inp) objectMeta spec (ArtifactTypeG_Status inp)).

Definition ArtifactType_DeepCopy : option loc -> mem block (option loc) :=
  deepCopy ArtifactType_DeepCopyInto.

Definition ArtifactTypeList_DeepCopyInto (inp : ArtifactTypeListG) : mem block ArtifactTypeListG :=
  let* listMeta := ListMeta_DeepCopyInto (ArtifactTypeListG_ListMeta inp) in
  let* items := copySliceInto ArtifactType_DeepCopyInto (ArtifactTypeListG_Items inp) in
  mret' (mkArtifactTypeListG (ArtifactTypeListG_TypeMeta inp) listMeta items).

Definition ArtifactTypeList_DeepCopy : option loc -> mem block (option loc) :=
  deepCopy ArtifactTypeList_DeepCopyInto.

Definition ArtifactWorkflowSpec_DeepCopyInto (inp : ArtifactWorkflowSpecG) : mem block ArtifactWorkflowSpecG :=
  let* parameters := copySlice ArtifactWorkflowParameter (ArtifactWorkflowSpecG_Parameters inp) in
  mret' (mkArtifactWorkflowSpecG (ArtifactWorkflowSpecG_Type inp) parameters (ArtifactWorkflowSpecG_SrcSecretRef inp) (ArtifactWorkflowSpecG_DstSecretRef inp)).

Definition ArtifactWorkflowSpec_DeepCopy : option loc -> mem block (option loc) :=
  deepCopy ArtifactWorkflowSpec_DeepCopyInto.

Definition ArtifactWorkflow_DeepCopyInto (inp : ArtifactWorkflowG) : mem block ArtifactWorkflowG :=
  let* objectMeta := ObjectMeta_DeepCopyInto (ArtifactWorkflowG_ObjectMeta inp) in
  let* spec := ArtifactWorkflowSpec_DeepCopyInto (ArtifactWorkflowG_Spec inp) in
  mret' (mkArtifactWorkflowG (ArtifactWorkflowG_TypeMeta inp) objectMeta spec (ArtifactWorkflowG_Status inp)).

Definition ArtifactWorkflow_DeepCopy : option loc -> mem block (option loc) :=
  deepCopy ArtifactWorkflow_DeepCopyInto.

Definition ArtifactWorkflowList_DeepCopyInto (inp : ArtifactWorkflowListG) : mem block ArtifactWorkflowListG :=
  let* listMeta := ListMeta_DeepCopyInto (ArtifactWorkflowListG_ListMeta inp) in
  let* items := copySliceInto ArtifactWorkflow_DeepCopyInto (ArtifactWorkflowListG_Items inp) in
  mret' (mkArtifactWorkflowListG (ArtifactWorkflowListG_TypeMeta inp) listMeta items).

Definition ArtifactWorkflowList_DeepCopy : option loc -> mem block (option loc) :=
  deepCopy ArtifactWorkflowList_DeepCopyInto.

Definition Endpoint_DeepCopyInto (inp : EndpointG) : mem block EndpointG :=
  let* objectMeta := ObjectMeta_DeepCopyInto (EndpointG_ObjectMeta inp) in
  mret' (mkEndpointG (EndpointG_TypeMeta inp) objectMeta (EndpointG_Spec inp) (EndpointG_Status inp)).

Definition Endpoint_DeepCopy : option loc -> mem block (option loc) :=
  deepCopy Endpoint_DeepCopyInto.

Definition EndpointList_DeepCopyInto (inp : EndpointListG) : mem block EndpointListG :=
  let* listMeta := ListMeta_DeepCopyInto (EndpointListG_ListMeta inp) in
  let* items := copySliceInto Endpoint_DeepCopyInto (EndpointListG_Items inp) in
  mret' (mkEndpointListG (EndpointListG_TypeMeta inp) listMeta items).

Definition EndpointList_DeepCopy : option loc -> mem block (option loc) :=
  deepCopy EndpointList_DeepCopyInto.

Definition OrderArtifact_DeepCopyInto (inp : OrderArtifactG) : mem block OrderArtifactG :=
  let* spec := RawExtension_DeepCopyInto (OrderArtifactG_Spec inp) in
  mret' (mkOrderArtifactG (OrderArtifactG_Type inp) (OrderArtifactG_SrcRef inp) (OrderArtifactG_DstRef inp) spec).

Definition OrderArtifact_DeepCopy : option loc -> mem block (option loc) :=
  deepCopy OrderArtifact_DeepCopyInto.

Definition OrderSpec_DeepCopyInto (inp : OrderSpecG) : mem block OrderSpecG :=
  let* artifacts := copySliceInto OrderArtifact_DeepCopyInto (OrderSpecG_Artifacts inp) in
  mret' (mkOrderSpecG (OrderSpecG_Defaults inp) artifacts).

Definition OrderSpec_DeepCopy : option loc -> mem block (option loc) :=
  deepCopy OrderSpec_DeepCopyInto.

Definition OrderStatus_DeepCopyInto (inp : OrderStatusG) : mem block OrderStatusG :=
  let* artifactWorkflows := copyMap OrderArtifactWorkflowStatus "OrderStatus.DeepCopyInto" (OrderStatusG_ArtifactWorkflows inp) in
  mret' (mkOrderStatusG artifactWorkflows).

Definition OrderStatus_DeepCopy : option loc -> mem block (option loc) :=
  deepCopy OrderStatus_DeepCopyInto.

Definition Order_DeepCopyInto (inp : OrderG) : mem block OrderG :=
  let* objectMeta := ObjectMeta_DeepCopyInto (OrderG_ObjectMeta inp) in
  let* spec := OrderSpec_DeepCopyInto (OrderG_Spec inp) in
  let* status := OrderStatus_DeepCopyInto (OrderG_Status inp) in
  mret' (mkOrderG (OrderG_TypeMeta inp) objectMeta spec status).

Definition Order_DeepCopy : option loc -> mem block (option loc) :=
  deepCopy Order_DeepCopyInto.

Definition OrderList_DeepCopyInto (inp : OrderListG) : mem block OrderListG :=
  let* listMeta := ListMeta_DeepCopyInto (OrderListG_ListMeta inp) in
  let* items := copySliceInto Order_DeepCopyInto (OrderListG_Items inp) in
  mret' (mkOrderListG (OrderListG_TypeMeta inp) listMeta items).

Definition OrderList_DeepCopy : option loc -> mem block (option loc) :=
  deepCopy OrderList_DeepCopyInto.

(** The dynamic type of a [runtime.Object] and its address. *)
Inductive runtimeObjectG :=
| ArtifactTypeObject (l : loc)
| ArtifactTypeListObject (l : loc)
| ArtifactWorkflowObject (l : loc)
| ArtifactWorkflowListObject (l : loc)
| EndpointObject (l : loc)
| EndpointListObject (l : loc)
| OrderObject (l : loc)
| OrderListObject (l : loc).

Definition ArtifactType_DeepCopyObject (p : option loc) : mem block (option runtimeObjectG) :=
  let* c := ArtifactType_DeepCopy p in
  match c with
  | Some l => mret' (Some (ArtifactTypeObject l))
  | None => mret' None
  end.

Definition ArtifactTypeList_DeepCopyObject (p : option loc) : mem block (option runtimeObjectG) :=
  let* c := ArtifactTypeList_DeepCopy p in
  match c with
  | Some l => mret' (Some (ArtifactTypeListObject l))
  | None => mret' None
  end.

Definition ArtifactWorkflow_DeepCopyObject (p : option loc) : mem block (option runtimeObjectG) :=
  let* c := ArtifactWorkflow_DeepCopy p in
  match c with
  | Some l => mret' (Some (ArtifactWorkflowObject l))
  | None => mret' None
  end.

Definition ArtifactWorkflowList_DeepCopyObject (p : option loc) : mem block (option runtimeObjectG) :=
  let* c := ArtifactWorkflowList_DeepCopy p in
  match c with
  | Some l => mret' (Some (ArtifactWorkflowListObject l))
  | None => mret' None
  end.

Definition Endpoint_DeepCopyObject (p : option loc) : mem block (option runtimeObjectG) :=
  let* c := Endpoint_DeepCopy p in
  match c with
  | Some l => mret' (Some (EndpointObject l))
  | None => mret' None
  end.

Definition EndpointList_DeepCopyObject (p : option loc) : mem block (option runtimeObjectG) :=
  let* c := EndpointList_DeepCopy p in
  match c with
  | Some l => mret' (Some (EndpointListObject l))
  | None => mret' None
  end.

Definition Order_DeepCopyObject (p : option loc) : mem block (option runtimeObjectG) :=
  let* c := Order_DeepCopy p in
  match c with
  | Some l => mret' (Some (OrderObject l))
  | None => mret' None
  end.

Definition OrderList_DeepCopyObject (p : option loc) : mem block (option runtimeObjectG) :=
  let* c := OrderList_DeepCopy p in
  match c with
  | Some l => mret' (Some (OrderListObject l))
  | None => mret' None
  end.

(** ** What the structs stand for *)

Definition ArtifactTypeRules_shape : shape block ArtifactTypeRulesG ArtifactTypeRules :=
  fun h a v L =>
    exists L1 L2,
    slice_of plain h (ArtifactTypeRulesG_SrcTypes a) (Rules_SrcTypes v) L1 /\
    slice_of plain h (ArtifactTypeRulesG_DstTypes a) (Rules_DstTypes v) L2 /\
    L = L1 ∪ L2.

Definition ArtifactTypeSpec_shape : shape block ArtifactTypeSpecG ArtifactTypeSpec :=
  fun h a v L =>
    exists L1 L2,
    ATSpec_WorkflowTemplateRef v = ArtifactTypeSpecG_WorkflowTemplateRef a /\
    ArtifactTypeRules_shape h (ArtifactTypeSpecG_Rules a) (ATSpec_Rules v) L1 /\
    slice_of plain h (ArtifactTypeSpecG_Parameters a) (ATSpec_Parameters v) L2 /\
    L = L1 ∪ L2.

Definition ArtifactType_shape : shape block ArtifactTypeG ArtifactType :=
  fun h a v L =>
    exists L1 L2,
    AT_TypeMeta v = ArtifactTypeG_TypeMeta a /\
    AT_Status v = ArtifactTypeG_Status a /\
    ObjectMeta_shape h (ArtifactTypeG_ObjectMeta a) (AT_ObjectMeta v) L1 /\
    ArtifactTypeSpec_shape h (ArtifactTypeG_Spec a) (AT_Spec v) L2 /\
    L = L1 ∪ L2.

Definition ArtifactTypeList_shape : shape block ArtifactTypeListG ArtifactTypeList :=
  fun h a v L =>
    exists L1 L2,
    ATList_TypeMeta v = ArtifactTypeListG_TypeMeta a /\
    ListMeta_shape h (ArtifactTypeListG_ListMeta a) (ATList_ListMeta v) L1 /\
    slice_of ArtifactType_shape h (ArtifactTypeListG_Items a) (ATList_Items v) L2 /\
    L = L1 ∪ L2.

Definition ArtifactWorkflowSpec_shape : shape block ArtifactWorkflowSpecG ArtifactWorkflowSpec :=
  fun h a v L =>
    AWSpec_Type v = ArtifactWorkflowSpecG_Type a /\
    AWSpec_SrcSecretRef v = ArtifactWorkflowSpecG_SrcSecretRef a /\
    AWSpec_DstSecretRef v = ArtifactWorkflowSpecG_DstSecretRef a /\
    slice_of plain h (ArtifactWorkflowSpecG_Parameters a) (AWSpec_Parameters v) L.

Definition ArtifactWorkflow_shape : shape block ArtifactWorkflowG ArtifactWorkflow :=
  fun h a v L =>
    exists L1 L2,
    AW_TypeMeta v = ArtifactWorkflowG_TypeMeta a /\
    AW_Status v = ArtifactWorkflowG_Status a /\
    ObjectMeta_shape h (ArtifactWorkflowG_ObjectMeta a) (AW_ObjectMeta v) L1 /\
    ArtifactWorkflowSpec_shape h (ArtifactWorkflowG_Spec a) (AW_Spec v) L2 /\
    L = L1 ∪ L2.

Definition ArtifactWorkflowList_shape : shape block ArtifactWorkflowListG ArtifactWorkflowList :=
  fun h a v L =>
    exists L1 L2,
    AWList_TypeMeta v = ArtifactWorkflowListG_TypeMeta a /\
    ListMeta_shape h (ArtifactWorkflowListG_ListMeta a) (AWList_ListMeta v) L1 /\
    slice_of ArtifactWorkflow_shape h (ArtifactWorkflowListG_Items a) (AWList_Items v) L2 /\
    L = L1 ∪ L2.

Definition Endpoint_shape : shape block EndpointG Endpoint :=
  fun h a v L =>
    EP_TypeMeta v = EndpointG_TypeMeta a /\
    EP_Spec v = EndpointG_Spec a /\
    EP_Status v = EndpointG_Status a /\
    ObjectMeta_shape h (EndpointG_ObjectMeta a) (EP_ObjectMeta v) L.

Definition EndpointList_shape : shape block EndpointListG EndpointList :=
  fun h a v L =>
    exists L1 L2,
    EPList_TypeMeta v = EndpointListG_TypeMeta a /\
    ListMeta_shape h (EndpointListG_ListMeta a) (EPList_ListMeta v) L1 /\
    slice_of Endpoint_shape h (EndpointListG_Items a) (EPList_Items v) L2 /\
    L = L1 ∪ L2.

Definition OrderArtifact_shape : shape block OrderArtifactG OrderArtifact :=
  fun h a v L =>
    Artifact_Type v = OrderArtifactG_Type a /\
    Artifact_SrcRef v = OrderArtifactG_SrcRef a /\
    Artifact_DstRef v = OrderArtifactG_DstRef a /\
    RawExtension_shape h (OrderArtifactG_Spec a) (Artifact_Spec v) L.

Definition OrderSpec_shape : shape block OrderSpecG OrderSpec :=
  fun h a v L =>
    OrderSpec_Defaults v = OrderSpecG_Defaults a /\
    slice_of OrderArtifact_shape h (OrderSpecG_Artifacts a) (OrderSpec_Artifacts v) L.

Definition OrderStatus_shape : shape block OrderStatusG OrderStatus :=
  fun h a v L =>
    map_of OrderArtifactWorkflowStatus h (OrderStatusG_ArtifactWorkflows a) (OrderStatus_ArtifactWorkflows v) L.

Definition Order_shape : shape block OrderG Order :=
  fun h a v L =>
    exists L1 L2 L3,
    Order_TypeMeta v = OrderG_TypeMeta a /\
    ObjectMeta_shape h (OrderG_ObjectMeta a) (Order_ObjectMeta v) L1 /\
    OrderSpec_shape h (OrderG_Spec a) (Order_Spec v) L2 /\
    OrderStatus_shape h (OrderG_Status a) (Order_Status v) L3 /\
    L = L1 ∪ L2 ∪ L3.

Definition OrderList_shape : shape block OrderListG OrderList :=
  fun h a v L =>
    exists L1 L2,
    OrderList_TypeMeta v = OrderListG_TypeMeta a /\
    ListMeta_shape h (OrderListG_ListMeta a) (OrderList_ListMeta v) L1 /\
    slice_of Order_shape h (OrderListG_Items a) (OrderList_Items v) L2 /\
    L = L1 ∪ L2.

(** ** They are copied *)

#[export] Instance ArtifactTypeStatus_copier : Copier ArtifactTypeStatus_DeepCopyInto plain.
Proof. exact plain_copier. Qed.

#[export] Instance ArtifactWorkflowParameter_copier : Copier ArtifactWorkflowParameter_DeepCopyInto plain.
Proof. exact plain_copier. Qed.

#[export] Instance ArtifactWorkflowStatus_copier : Copier ArtifactWorkflowStatus_DeepCopyInto plain.
Proof. exact plain_copier. Qed.

#[export] Instance EndpointSpec_copier : Copier EndpointSpec_DeepCopyInto plain.
Proof. exact plain_copier. Qed.

#[export] Instance EndpointStatus_copier : Copier EndpointStatus_DeepCopyInto plain.
Proof. exact plain_copier. Qed.

#[export] Instance OrderArtifactWorkflowStatus_copier : Copier OrderArtifactWorkflowStatus_DeepCopyInto plain.
Proof. exact plain_copier. Qed.

#[export] Instance OrderDefaults_copier : Copier OrderDefaults_DeepCopyInto plain.
Proof. exact plain_copier. Qed.

#[export] Instance ArtifactTypeRules_Shape : Shape ArtifactTypeRules_shape.
Proof. solve_shape. Qed.

#[export] Instance ArtifactTypeRules_copier : Copier ArtifactTypeRules_DeepCopyInto ArtifactTypeRules_shape.
Proof. solve_copier. Qed.

#[export] Instance ArtifactTypeSpec_Shape : Shape ArtifactTypeSpec_shape.
Proof. solve_shape. Qed.

#[export] Instance ArtifactTypeSpec_copier : Copier ArtifactTypeSpec_DeepCopyInto ArtifactTypeSpec_shape.
Proof. solve_copier. Qed.

#[export] Instance ArtifactType_Shape : Shape ArtifactType_shape.
Proof. solve_shape. Qed.

#[export] Instance ArtifactType_copier : Copier ArtifactType_DeepCopyInto ArtifactType_shape.
Proof. solve_copier. Qed.

#[export] Instance ArtifactTypeList_Shape : Shape ArtifactTypeList_shape.
Proof. solve_shape. Qed.

#[export] Instance ArtifactTypeList_copier : Copier ArtifactTypeList_DeepCopyInto ArtifactTypeList_shape.
Proof. solve_copier. Qed.

#[export] Instance ArtifactWorkflowSpec_Shape : Shape ArtifactWorkflowSpec_shape.
Proof. solve_shape. Qed.

#[export] Instance ArtifactWorkflowSpec_copier : Copier ArtifactWorkflowSpec_DeepCopyInto ArtifactWorkflowSpec_shape.
Proof. solve_copier. Qed.

#[export] Instance ArtifactWorkflow_Shape : Shape ArtifactWorkflow_shape.
Proof. solve_shape. Qed.

#[export] Instance ArtifactWorkflow_copier : Copier ArtifactWorkflow_DeepCopyInto ArtifactWorkflow_shape.
Proof. solve_copier. Qed.

#[export] Instance ArtifactWorkflowList_Shape : Shape ArtifactWorkflowList_shape.
Proof. solve_shape. Qed.

#[export] Instance ArtifactWorkflowList_copier : Copier ArtifactWorkflowList_DeepCopyInto ArtifactWorkflowList_shape.
Proof. solve_copier. Qed.

#[export] Instance Endpoint_Shape : Shape Endpoint_shape.
Proof. solve_shape. Qed.

#[export] Instance Endpoint_copier : Copier Endpoint_DeepCopyInto Endpoint_shape.
Proof. solve_copier. Qed.

#[export] Instance EndpointList_Shape : Shape EndpointList_shape.
Proof. solve_shape. Qed.

#[export] Instance EndpointList_copier : Copier EndpointList_DeepCopyInto EndpointList_shape.
Proof. solve_copier. Qed.

#[export] Instance OrderArtifact_Shape : Shape OrderArtifact_shape.
Proof. solve_shape. Qed.

#[export] Instance OrderArtifact_copier : Copier OrderArtifact_DeepCopyInto OrderArtifact_shape.
Proof. solve_copier. Qed.

#[export] Instance OrderSpec_Shape : Shape OrderSpec_shape.
Proof. solve_shape. Qed.

#[export] Instance OrderSpec_copier : Copier OrderSpec_DeepCopyInto OrderSpec_shape.
Proof. solve_copier. Qed.

#[export] Instance OrderStatus_Shape : Shape OrderStatus_shape.
Proof. solve_shape. Qed.

#[export] Instance OrderStatus_copier : Copier OrderStatus_DeepCopyInto OrderStatus_shape.
Proof. solve_copier. Qed.

#[export] Instance Order_Shape : Shape Order_shape.
Proof. solve_shape. Qed.

#[export] Instance Order_copier : Copier Order_DeepCopyInto Order_shape.
Proof. solve_copier. Qed.

#[export] Instance OrderList_Shape : Shape OrderList_shape.
Proof. solve_shape. Qed.

#[export] Instance OrderList_copier : Copier OrderList_DeepCopyInto OrderList_shape.
Proof. solve_copier. Qed.

(** For each of the eight object types of package arc, DeepCopy of any pointer (nil
    included) to a well-formed object succeeds and gives a pointer to an object with
    the same contents that shares no memory with the original: whatever is written
    into the copy's memory the original keeps its contents, and whatever is written
    anywhere else the copy keeps its own.  DeepCopyObject gives the same object, and
    the nil interface for a nil pointer. *)
Theorem deepcopy_arc_isolated :
  isolated ArtifactType_DeepCopy (ptr_to ArtifactType_shape) /\ tagged ArtifactTypeObject ArtifactType_DeepCopyObject ArtifactType_DeepCopy /\
  isolated ArtifactTypeList_DeepCopy (ptr_to ArtifactTypeList_shape) /\ tagged ArtifactTypeListObject ArtifactTypeList_DeepCopyObject ArtifactTypeList_DeepCopy /\
  isolated ArtifactWorkflow_DeepCopy (ptr_to ArtifactWorkflow_shape) /\ tagged ArtifactWorkflowObject ArtifactWorkflow_DeepCopyObject ArtifactWorkflow_DeepCopy /\
  isolated ArtifactWorkflowList_DeepCopy (ptr_to ArtifactWorkflowList_shape) /\ tagged ArtifactWorkflowListObject ArtifactWorkflowList_DeepCopyObject ArtifactWorkflowList_DeepCopy /\
  isolated Endpoint_DeepCopy (ptr_to Endpoint_shape) /\ tagged EndpointObject Endpoint_DeepCopyObject Endpoint_DeepCopy /\
  isolated EndpointList_DeepCopy (ptr_to EndpointList_shape) /\ tagged EndpointListObject EndpointList_DeepCopyObject EndpointList_DeepCopy /\
  isolated Order_DeepCopy (ptr_to Order_shape) /\ tagged OrderObject Order_DeepCopyObject Order_DeepCopy /\
  isolated OrderList_DeepCopy (ptr_to OrderList_shape) /\ tagged OrderListObject OrderList_DeepCopyObject OrderList_DeepCopy.
Proof.
  split_and!; (apply copier_isolated, ptr_copier; apply _) || apply tagged_object.
Qed.

End functions.

(** ** An order in memory

    Two addresses for the struct and its artifacts, one for the raw spec of the only
    artifact and one for the labels. *)

Definition order_heap : heap (@block plain_memory) :=
  {[ 1%positive := put (T := OrderG) (mkOrderG emptyTypeMeta (newObjectMeta "ns" "o", Some 3%positive)
        (mkOrderSpecG (mkOrderDefaults (mkLocalObjectReference "src") (mkLocalObjectReference "dst"))
           (Some 2%positive))
        (mkOrderStatusG None));
     2%positive := put (T := list OrderArtifactG) [mkOrderArtifactG "oci" (mkLocalObjectReference "") (mkLocalObjectReference "")
        (Some 4%positive : RawG)];
     3%positive := LibStrings {[ "app" := "arc" ]};
     4%positive := LibBytes [x7b; x7d] ]}.

Definition order_in_heap : Order :=
  mkOrder emptyTypeMeta (set_Labels (newObjectMeta "ns" "o") {[ "app" := "arc" ]})
    (mkOrderSpec (mkOrderDefaults (mkLocalObjectReference "src") (mkLocalObjectReference "dst"))
       [mkOrderArtifact "oci" (mkLocalObjectReference "") (mkLocalObjectReference "")
          (mkRawExtension (Some [x7b; x7d]))])
    (mkOrderStatus None).

Lemma order_heap_shape_arc : exists L,
  @ptr_to _ _ _ _ (@Order_shape plain_memory (@plain_library plain_runtime _))
    order_heap (Some 1%positive) (Some order_in_heap) L.
Proof.
  eexists. simpl. eexists _, _, _. split; [reflexivity|]. split; [|split; reflexivity].
  eexists _, _, _. split; [reflexivity|]. split.
  { simpl. exists (Some {[ "app" := "arc" ]}). split; [|reflexivity]. simpl.
    eexists. split; [reflexivity|]. split; reflexivity. }
  split; [|split; [split; reflexivity|reflexivity]].
  split; [reflexivity|]. simpl. eexists _, _. split; [reflexivity|].
  split; [|reflexivity]. constructor; [|constructor].
  split; [reflexivity|]. split; [reflexivity|]. split; [reflexivity|]. simpl.
  eexists _, _, _. split; [reflexivity|]. split; [split; reflexivity|]. split; reflexivity.
Qed.

Lemma deepcopy_arc_isolated_witness : exists h p L,
  @Order_DeepCopy plain_runtime plain_memory (@plain_library plain_runtime _)
    (Some 1%positive) order_heap = Some (h, p) /\
  @ptr_to _ _ _ _ (@Order_shape plain_memory (@plain_library plain_runtime _))
    h p (Some order_in_heap) L.
Proof.
  destruct order_heap_shape_arc as [L HL].
  destruct (@deepcopy_arc_isolated plain_runtime plain_memory (@plain_library plain_runtime _))
    as (_ & _ & _ & _ & _ & _ & _ & _ & _ & _ & _ & _ & Hiso & _).
  destruct (Hiso _ _ _ _ HL) as (h & p & L' & E & HS & _).
  exists h, p, L'. exact (conj E HS).
Defined.
