(* ===== verification/Registry.v ===== *)
(** * The storage interface of the API server (pkg/registry)

    The packages under pkg/registry give the generic registry of Kubernetes a
    strategy per resource.  [Strategy] has the methods those packages define, as
    functions on the internal objects; [Store] the fields of [genericregistry.Store]
    they fill in.  The generic registry is not part of the repository:
    [GenericRegistry] has what is used of it. *)

From stdpp Require Import base gmap list strings.
From S2P Require Import Prelude GoStd KubeTypes ArcTypes.

Local Open Scope string_scope.

(** ** Objects *)

(** [runtime.Object]: the internal types a store may be handed. *)
Inductive runtimeObject :=
| AnOrder (o : Order)
| AnOrderList (l : OrderList)
| AnArtifactWorkflow (aw : ArtifactWorkflow)
| AnArtifactWorkflowList (l : ArtifactWorkflowList)
| AnEndpoint (ep : Endpoint)
| AnEndpointList (l : EndpointList)
| AnArtifactType (at_ : ArtifactType)
| AnArtifactTypeList (l : ArtifactTypeList).

Definition noObjectMeta : ObjectMeta := newObjectMeta "" "".
Definition noListMeta : ListMeta := mkListMeta "" "" None.
Definition noRef : LocalObjectReference := mkLocalObjectReference "".

(** The zero values, [&arc.Order{}] and the like. *)
Definition zeroOrder : Order :=
  mkOrder emptyTypeMeta noObjectMeta (mkOrderSpec (mkOrderDefaults noRef noRef) [])
    (mkOrderStatus None).
Definition zeroArtifactWorkflow : ArtifactWorkflow :=
  mkArtifactWorkflow emptyTypeMeta noObjectMeta (mkArtifactWorkflowSpec "" [] noRef noRef)
    (mkArtifactWorkflowStatus "" "").
Definition zeroEndpoint : Endpoint :=
  mkEndpoint emptyTypeMeta noObjectMeta (mkEndpointSpec "" "" noRef "") mkEndpointStatus.
Definition zeroArtifactType : ArtifactType :=
  mkArtifactType emptyTypeMeta noObjectMeta
    (mkArtifactTypeSpec (mkArtifactTypeRules [] []) [] noRef) mkArtifactTypeStatus.

(** ** Group and resource (api/arc/register.go) *)

Definition GroupName : string := "arc.bwi.de".

Record GroupResource := mkGroupResource { GR_Group : string; GR_Resource : string }.

Definition Resource (resource : string) : GroupResource := mkGroupResource GroupName resource.

(** ** What is used of the generic registry *)

Class GenericRegistry := {
  ObjectTyper : Type;
  NameGenerator : Type;
  SimpleNameGenerator : NameGenerator;
  RESTOptionsGetter : Type;
  (** [generic.ObjectMetaFieldsSet(meta, true)]: the name and the namespace. *)
  ObjectMetaFieldsSet : ObjectMeta -> bool -> gmap string string;
  ObjectMetaFieldsSet_namespaced : forall m,
    ObjectMetaFieldsSet m true = {["metadata.name" := Name m; "metadata.namespace" := Namespace m]};
}.

(** ** Strategies *)

Definition labelsSet : Type := gmap string string.
Definition fieldsSet : Type := gmap string string.

Section strategies.
Context `{GenericRegistry}.

(** A method that asserts the type of its argument panics on another one. *)
Record Strategy := mkStrategy {
  typer : ObjectTyper;
  nameGenerator : NameGenerator;
  NamespaceScoped : bool;
  PrepareForCreate : runtimeObject -> outcome runtimeObject;
  PrepareForUpdate : runtimeObject -> runtimeObject -> outcome runtimeObject;
  Validate : runtimeObject -> list string;
  WarningsOnCreate : runtimeObject -> list string;
  AllowCreateOnUpdate : bool;
  AllowUnconditionalUpdate : bool;
  Canonicalize : runtimeObject -> outcome runtimeObject;
  ValidateUpdate : runtimeObject -> runtimeObject -> list string;
  WarningsOnUpdate : runtimeObject -> runtimeObject -> list string;
  (** The paths reset per API version; none for a strategy without the method. *)
  GetResetFields : list (string * list string);
}.

(** [storage.SelectionPredicate], for selectors on labels and on fields. *)
Record SelectionPredicate := mkSelectionPredicate {
  Label : labelsSet -> bool;
  Field : fieldsSet -> bool;
  GetAttrsFunc : runtimeObject -> outcome (labelsSet * fieldsSet);
}.

Record Store := mkStore {
  NewFunc : runtimeObject;
  NewListFunc : runtimeObject;
  PredicateFunc : (labelsSet -> bool) -> (fieldsSet -> bool) -> SelectionPredicate;
  DefaultQualifiedResource : GroupResource;
  SingularQualifiedResource : GroupResource;
  CreateStrategy : Strategy;
  UpdateStrategy : Strategy;
  DeleteStrategy : Strategy;
  ResetFieldsStrategy : option Strategy;
  TableConvertor : GroupResource;
}.

(** [generic.StoreOptions]. *)
Record StoreOptions := mkStoreOptions {
  RESTOptions : RESTOptionsGetter;
  AttrFunc : runtimeObject -> outcome (labelsSet * fieldsSet);
}.

(** [store.CompleteWithOptions]: it may fail; on success what was set stays. *)
Class StoreCompletion := {
  CompleteWithOptions : Store -> StoreOptions -> outcome Store;
  CompleteWithOptions_keeps : forall s opts s',
    CompleteWithOptions s opts = Ok s' ->
    UpdateStrategy s' = UpdateStrategy s /\ CreateStrategy s' = CreateStrategy s /\
    DefaultQualifiedResource s' = DefaultQualifiedResource s;
}.

(** ** registry.go *)

Record REST := mkREST { REST_Store : Store }.

Definition set_UpdateStrategy (r : REST) (st : Strategy) : REST :=
  let s := REST_Store r in
  mkREST (mkStore (NewFunc s) (NewListFunc s) (PredicateFunc s) (DefaultQualifiedResource s)
    (SingularQualifiedResource s) (CreateStrategy s) st (DeleteStrategy s)
    (ResetFieldsStrategy s) (TableConvertor s)).

Definition set_ResetFieldsStrategy (r : REST) (st : Strategy) : REST :=
  let s := REST_Store r in
  mkREST (mkStore (NewFunc s) (NewListFunc s) (PredicateFunc s) (DefaultQualifiedResource s)
    (SingularQualifiedResource s) (CreateStrategy s) (UpdateStrategy s) (DeleteStrategy s)
    (Some st) (TableConvertor s)).

(** The error is turned into a panic. *)
Definition RESTInPeace (r : outcome REST) : outcome REST :=
  match r with
  | Ok rest => Ok rest
  | Err _ => Panic "unable to create REST storage for a resource"
  | Panic m => Panic m
  end.

End strategies.
