(* ===== verification/RegistryArtifactWorkflow.v ===== *)
(** * The storage of ArtifactWorkflow objects (pkg/registry/artifactworkflow)

    The strategy, the attributes selectors see and the construction of the store. *)

From stdpp Require Import base gmap list strings.
From S2P Require Import Prelude GoStd KubeTypes ArcTypes Registry.

Local Open Scope string_scope.

Section storage.
Context `{GenericRegistry}.

(** ** strategy.go *)

Definition SelectableFields (obj : ArtifactWorkflow) : fieldsSet :=
  ObjectMetaFieldsSet (AW_ObjectMeta obj) true.

Definition GetAttrs (obj : runtimeObject) : outcome (labelsSet * fieldsSet) :=
  match obj with
  | AnArtifactWorkflow x => Ok (Labels (AW_ObjectMeta x), SelectableFields x)
  | _ => Err (PlainError "given object is not an ArtifactWorkflow")
  end.

Definition MatchArtifactWorkflow (label : labelsSet -> bool) (field : fieldsSet -> bool) :
  SelectionPredicate :=
  mkSelectionPredicate label field GetAttrs.

Definition fragmentStrategy (typer : ObjectTyper) (gen : NameGenerator) : Strategy := {|
  typer := typer;
  nameGenerator := gen;
  NamespaceScoped := true;
  PrepareForCreate := fun obj => Ok obj;
  PrepareForUpdate := fun obj old => Ok obj;
  Validate := fun obj => [];
  WarningsOnCreate := fun obj => [];
  AllowCreateOnUpdate := false;
  AllowUnconditionalUpdate := false;
  Canonicalize := fun obj => Ok obj;
  ValidateUpdate := fun obj old => [];
  WarningsOnUpdate := fun obj old => [];
  GetResetFields := [];
|}.

Definition NewStrategy (typer : ObjectTyper) : Strategy :=
  fragmentStrategy typer SimpleNameGenerator.

(** The status strategy embeds the strategy and overrides four methods. *)

Definition statusPrepareForUpdate (obj old : runtimeObject) : outcome runtimeObject :=
  match obj, old with
  | AnArtifactWorkflow new, AnArtifactWorkflow old =>
      Ok (AnArtifactWorkflow (mkArtifactWorkflow (AW_TypeMeta new) (AW_ObjectMeta new) (AW_Spec old)
                   (AW_Status new)))
  | _, _ => Panic "interface conversion"
  end.

Definition fragmentStatusStrategy (base : Strategy) : Strategy := {|
  typer := typer base;
  nameGenerator := nameGenerator base;
  NamespaceScoped := NamespaceScoped base;
  PrepareForCreate := PrepareForCreate base;
  PrepareForUpdate := statusPrepareForUpdate;
  Validate := Validate base;
  WarningsOnCreate := WarningsOnCreate base;
  AllowCreateOnUpdate := AllowCreateOnUpdate base;
  AllowUnconditionalUpdate := AllowUnconditionalUpdate base;
  Canonicalize := Canonicalize base;
  ValidateUpdate := fun obj old => [];
  WarningsOnUpdate := fun obj old => [];
  GetResetFields := [("arc.bwi.de/v1alpha1", ["spec"])];
|}.

Definition NewStatusStrategy (typer : ObjectTyper) : Strategy :=
  fragmentStatusStrategy (fragmentStrategy typer SimpleNameGenerator).

(** ** etcd.go *)

Context `{!StoreCompletion}.

Definition NewREST (scheme : ObjectTyper) (optsGetter : RESTOptionsGetter) : outcome REST :=
  let strategy := NewStrategy scheme in
  let store := {|
    NewFunc := AnArtifactWorkflow zeroArtifactWorkflow;
    NewListFunc := AnArtifactWorkflowList (mkArtifactWorkflowList emptyTypeMeta noListMeta []);
    PredicateFunc := MatchArtifactWorkflow;
    DefaultQualifiedResource := Resource "fragments";
    SingularQualifiedResource := Resource "fragment";
    CreateStrategy := strategy;
    UpdateStrategy := strategy;
    DeleteStrategy := strategy;
    ResetFieldsStrategy := None;
    TableConvertor := Resource "fragments";
  |} in
  let? store := CompleteWithOptions store (mkStoreOptions optsGetter GetAttrs) in
  Ok (mkREST store).

Definition NewStatusREST (scheme : ObjectTyper) (optsGetter : RESTOptionsGetter) :
  outcome REST :=
  let? rest := NewREST scheme optsGetter in
  let strategy := NewStatusStrategy scheme in
  let rest := set_UpdateStrategy rest strategy in
  let rest := set_ResetFieldsStrategy rest strategy in
  Ok rest.

End storage.
