(* ===== verification/RegistryEndpoint.v ===== *)
(** * The storage of Endpoint objects (pkg/registry/endpoint)

    The strategy, the attributes selectors see and the construction of the store. *)

From stdpp Require Import base gmap list strings.
From S2P Require Import Prelude GoStd KubeTypes ArcTypes Registry.

Local Open Scope string_scope.

Section storage.
Context `{GenericRegistry}.

(** ** strategy.go *)

Definition SelectableFields (obj : Endpoint) : fieldsSet :=
  ObjectMetaFieldsSet (EP_ObjectMeta obj) true.

Definition GetAttrs (obj : runtimeObject) : outcome (labelsSet * fieldsSet) :=
  match obj with
  | AnEndpoint x => Ok (Labels (EP_ObjectMeta x), SelectableFields x)
  | _ => Err (PlainError "given object is not an Endpoint")
  end.

Definition MatchEndpoint (label : labelsSet -> bool) (field : fieldsSet -> bool) :
  SelectionPredicate :=
  mkSelectionPredicate label field GetAttrs.

Definition endpointStrategy (typer : ObjectTyper) (gen : NameGenerator) : Strategy := {|
  typer := typer;
  nameGenerator := gen;
  NamespaceScoped := true;
  PrepareForCreate := fun obj => Ok obj;
  PrepareForUpdate := fun obj old => Ok obj;
  Validate := fun obj => [];
  WarningsOnCreate := fun obj => [];
  AllowCreateOnUpdate := false;
  AllowUnconditionalUpdate := false;
  Canonicalize := fun obj => Ok obj;
  ValidateUpdate := fun obj old => [];
  WarningsOnUpdate := fun obj old => [];
  GetResetFields := [];
|}.

Definition NewStrategy (typer : ObjectTyper) : Strategy :=
  endpointStrategy typer SimpleNameGenerator.

(** ** etcd.go *)

Context `{!StoreCompletion}.

Definition NewREST (scheme : ObjectTyper) (optsGetter : RESTOptionsGetter) : outcome REST :=
  let strategy := NewStrategy scheme in
  let store := {|
    NewFunc := AnEndpoint zeroEndpoint;
    NewListFunc := AnEndpointList (mkEndpointList emptyTypeMeta noListMeta []);
    PredicateFunc := MatchEndpoint;
    DefaultQualifiedResource := Resource "endpoints";
    SingularQualifiedResource := Resource "endpoint";
    CreateStrategy := strategy;
    UpdateStrategy := strategy;
    DeleteStrategy := strategy;
    ResetFieldsStrategy := None;
    TableConvertor := Resource "endpoints";
  |} in
  let? store := CompleteWithOptions store (mkStoreOptions optsGetter GetAttrs) in
  Ok (mkREST store).

End storage.
