(* ===== verification/RegistryArtifactType.v ===== *)
(** * The storage of ArtifactType objects (pkg/registry/artifacttype)

    The strategy, the attributes selectors see and the construction of the store. *)

From stdpp Require Import base gmap list strings.
From S2P Require Import Prelude GoStd KubeTypes ArcTypes Registry.

Local Open Scope string_scope.

Section storage.
Context `{GenericRegistry}.

(** ** strategy.go *)

Definition SelectableFields (obj : ArtifactType) : fieldsSet :=
  ObjectMetaFieldsSet (AT_ObjectMeta obj) true.

Definition GetAttrs (obj : runtimeObject) : outcome (labelsSet * fieldsSet) :=
  match obj with
  | AnArtifactType x => Ok (Labels (AT_ObjectMeta x), SelectableFields x)
  | _ => Err (PlainError "given object is not an ArtifactType")
  end.

Definition MatchArtifactType (label : labelsSet -> bool) (field : fieldsSet -> bool) :
  SelectionPredicate :=
  mkSelectionPredicate label field GetAttrs.

Definition artifactTypeDefinitionStrategy (typer : ObjectTyper) (gen : NameGenerator) : Strategy := {|
  typer := typer;
  nameGenerator := gen;
  NamespaceScoped := false;
  PrepareForCreate := fun obj => Ok obj;
  PrepareForUpdate := fun obj old => Ok obj;
  Validate := fun obj => [];
  WarningsOnCreate := fun obj => [];
  AllowCreateOnUpdate := false;
  AllowUnconditionalUpdate := false;
  Canonicalize := fun obj => Ok obj;
  ValidateUpdate := fun obj old => [];
  WarningsOnUpdate := fun obj old => [];
  GetResetFields := [];
|}.

Definition NewStrategy (typer : ObjectTyper) : Strategy :=
  artifactTypeDefinitionStrategy typer SimpleNameGenerator.

(** ** etcd.go *)

Context `{!StoreCompletion}.

Definition NewREST (scheme : ObjectTyper) (optsGetter : RESTOptionsGetter) : outcome REST :=
  let strategy := NewStrategy scheme in
  let store := {|
    NewFunc := AnArtifactType zeroArtifactType;
    NewListFunc := AnArtifactTypeList (mkArtifactTypeList emptyTypeMeta noListMeta []);
    PredicateFunc := MatchArtifactType;
    DefaultQualifiedResource := Resource "artifacttypedefinitions";
    SingularQualifiedResource := Resource "artifacttypedefinition";
    CreateStrategy := strategy;
    UpdateStrategy := strategy;
    DeleteStrategy := strategy;
    ResetFieldsStrategy := None;
    TableConvertor := Resource "artifacttypedefinitions";
  |} in
  let? store := CompleteWithOptions store (mkStoreOptions optsGetter GetAttrs) in
  Ok (mkREST store).

End storage.
