(* ===== verification/ApiServer.v ===== *)
(** * The construction of the API server (pkg/apiserver)

    [New] builds the storage of every resource and installs the API group; the
    generic API server is not part of the repository and is a parameter.
    [ARCVersionToKubeVersion] maps the emulated version of the component to a
    version of Kubernetes. *)

From stdpp Require Import base gmap list strings.
From Stdlib Require Import ZArith.
From S2P Require Import Prelude GoStd KubeTypes ArcTypes Registry.
From S2P Require Import RegistryOrder RegistryArtifactWorkflow RegistryEndpoint.
From S2P Require Import RegistryArtifactType.

Local Open Scope string_scope.

(** ** apiserver.go *)

Section server.
Context `{GenericRegistry} `{!StoreCompletion}.

(** The generic server, [c.GenericConfig.New] and [InstallAPIGroup]. *)
Context {GenericAPIServer : Type}.
Context (genericNew : string -> outcome GenericAPIServer).
Context (InstallAPIGroup : GenericAPIServer -> string -> gmap string (gmap string REST) ->
                           outcome GenericAPIServer).

Record ARCServer := mkARCServer { server : GenericAPIServer }.

(** The storage of version v1alpha1; a resource that cannot be built panics. *)
Definition v1alpha1storage (scheme : ObjectTyper) (opts : RESTOptionsGetter) :
  outcome (gmap string REST) :=
  let storage := ∅ in
  let? r := RESTInPeace (RegistryOrder.NewREST scheme opts) in
  let storage := <["orders" := r]> storage in
  let? r := RESTInPeace (RegistryOrder.NewStatusREST scheme opts) in
  let storage := <["orders/status" := r]> storage in
  let? r := RESTInPeace (RegistryArtifactWorkflow.NewREST scheme opts) in
  let storage := <["artifactworkflows" := r]> storage in
  let? r := RESTInPeace (RegistryArtifactWorkflow.NewStatusREST scheme opts) in
  let storage := <["artifactworkflows/status" := r]> storage in
  let? r := RESTInPeace (RegistryEndpoint.NewREST scheme opts) in
  let storage := <["endpoints" := r]> storage in
  let? r := RESTInPeace (RegistryArtifactType.NewREST scheme opts) in
  let storage := <["artifacttypes" := r]> storage in
  Ok storage.

Definition New (scheme : ObjectTyper) (opts : RESTOptionsGetter) : outcome ARCServer :=
  let? genericServer := genericNew "arc-apiserver" in
  let? storage := v1alpha1storage scheme opts in
  let? genericServer := InstallAPIGroup genericServer GroupName {["v1alpha1" := storage]} in
  Ok (mkARCServer genericServer).

(** *** Facts about the storage *)

(** All six resources are stored, each in its own store. *)
Lemma v1alpha1storage_Ok scheme opts st :
  v1alpha1storage scheme opts = Ok st ->
  exists o os a as_ e t,
    RegistryOrder.NewREST scheme opts = Ok o /\
    RegistryOrder.NewStatusREST scheme opts = Ok os /\
    RegistryArtifactWorkflow.NewREST scheme opts = Ok a /\
    RegistryArtifactWorkflow.NewStatusREST scheme opts = Ok as_ /\
    RegistryEndpoint.NewREST scheme opts = Ok e /\
    RegistryArtifactType.NewREST scheme opts = Ok t /\
    st = {["orders" := o; "orders/status" := os; "artifactworkflows" := a;
           "artifactworkflows/status" := as_; "endpoints" := e; "artifacttypes" := t]}.
Proof.
  unfold v1alpha1storage.
  repeat match goal with
  | |- context [RESTInPeace ?x] => destruct x eqn:?; simpl; try done
  end.
  intros [= <-]. do 6 eexists. split_and!; done.
Qed.

(** The update strategy of a store that was built. *)
Ltac built_store :=
  match goal with
  | Hr : _ = Ok _ |- _ =>
      destruct (CompleteWithOptions _ _) as [s| |] eqn:Hs; simplify_eq/=; try done
  end.

Lemma order_update_strategy scheme opts r :
  RegistryOrder.NewREST scheme opts = Ok r ->
  UpdateStrategy (REST_Store r) = RegistryOrder.NewStrategy scheme.
Proof.
  unfold RegistryOrder.NewREST. intros Hr. built_store.
  by apply CompleteWithOptions_keeps in Hs as (-> & _).
Qed.

Lemma order_status_update_strategy scheme opts r :
  RegistryOrder.NewStatusREST scheme opts = Ok r ->
  UpdateStrategy (REST_Store r) = RegistryOrder.NewStatusStrategy scheme.
Proof.
  unfold RegistryOrder.NewStatusREST. intros Hr.
  by destruct (RegistryOrder.NewREST scheme opts); simplify_eq/=.
Qed.

Lemma artifactworkflow_update_strategy scheme opts r :
  RegistryArtifactWorkflow.NewREST scheme opts = Ok r ->
  UpdateStrategy (REST_Store r) = RegistryArtifactWorkflow.NewStrategy scheme.
Proof.
  unfold RegistryArtifactWorkflow.NewREST. intros Hr. built_store.
  by apply CompleteWithOptions_keeps in Hs as (-> & _).
Qed.

Lemma artifactworkflow_status_update_strategy scheme opts r :
  RegistryArtifactWorkflow.NewStatusREST scheme opts = Ok r ->
  UpdateStrategy (REST_Store r) = RegistryArtifactWorkflow.NewStatusStrategy scheme.
Proof.
  unfold RegistryArtifactWorkflow.NewStatusREST. intros Hr.
  by destruct (RegistryArtifactWorkflow.NewREST scheme opts); simplify_eq/=.
Qed.

(** What a request sent to a resource of the storage stores for a new and an old
    object. *)
Definition prepared (st : gmap string REST) (resource : string) (new old : runtimeObject) :
  option (outcome runtimeObject) :=
  match st !! resource with
  | Some r => Some (PrepareForUpdate (UpdateStrategy (REST_Store r)) new old)
  | None => None
  end.

(** C28: when the storage is built it has exactly the six resources; an update of
    the status subresource of an order or an artifact workflow keeps the stored
    spec whatever was sent, takes the new metadata and status, and an update of the
    resource itself takes the whole new object, status included. *)
Theorem status_update_keeps_spec scheme opts st :
  v1alpha1storage scheme opts = Ok st ->
  dom st = {["orders"; "orders/status"; "artifactworkflows"; "artifactworkflows/status";
             "endpoints"; "artifacttypes"]} /\
  (forall new old,
     prepared st "orders/status" (AnOrder new) (AnOrder old) =
       Some (Ok (AnOrder (mkOrder (Order_TypeMeta new) (Order_ObjectMeta new)
                            (Order_Spec old) (Order_Status new)))) /\
     prepared st "orders" (AnOrder new) (AnOrder old) = Some (Ok (AnOrder new))) /\
  (forall new old,
     prepared st "artifactworkflows/status" (AnArtifactWorkflow new) (AnArtifactWorkflow old) =
       Some (Ok (AnArtifactWorkflow (mkArtifactWorkflow (AW_TypeMeta new) (AW_ObjectMeta new)
                                       (AW_Spec old) (AW_Status new)))) /\
     prepared st "artifactworkflows" (AnArtifactWorkflow new) (AnArtifactWorkflow old) =
       Some (Ok (AnArtifactWorkflow new))).
Proof.
  intros (o & os & a & as_ & e & t & Ho & Hos & Ha & Has & _ & _ & ->)%v1alpha1storage_Ok.
  apply order_update_strategy in Ho. apply order_status_update_strategy in Hos.
  apply artifactworkflow_update_strategy in Ha.
  apply artifactworkflow_status_update_strategy in Has.
  split; [set_solver|]. unfold prepared. split; intros new old.
  all: split; simplify_map_eq.
  - by rewrite Hos.
  - by rewrite Ho.
  - by rewrite Has.
  - by rewrite Ha.
Qed.

(** The storage is complete or the construction panics: no error of a store is
    returned and no resource is left out. *)
Theorem storage_complete_or_panics scheme opts :
  match v1alpha1storage scheme opts with
  | Ok st => size st = 6
  | Err _ => False
  | Panic _ => True
  end.
Proof.
  destruct (v1alpha1storage scheme opts) as [st|e|m] eqn:Hst; [| |done].
  - by apply v1alpha1storage_Ok in Hst as (o & os & a & as_ & e & t & _ & _ & _ & _ & _ & _ & ->).
  - unfold v1alpha1storage in Hst.
    repeat match type of Hst with
    | context [RESTInPeace ?x] => destruct x eqn:?; simpl in Hst; try done
    end.
Qed.

End server.

(** ** A concrete generic registry *)

#[export] Program Instance plain_registry : GenericRegistry := {|
  ObjectTyper := unit;
  NameGenerator := unit;
  SimpleNameGenerator := tt;
  RESTOptionsGetter := unit;
  ObjectMetaFieldsSet := fun m ns =>
    if ns then {["metadata.name" := Name m; "metadata.namespace" := Namespace m]}
    else {["metadata.name" := Name m]};
|}.
Next Obligation. done. Qed.

#[export] Program Instance plain_completion : StoreCompletion := {|
  CompleteWithOptions := fun s _ => Ok s;
|}.
Next Obligation. by intros s opts s' [= <-]. Qed.

Lemma status_update_keeps_spec_witness : exists st,
  v1alpha1storage (tt : ObjectTyper) (tt : RESTOptionsGetter) = Ok st /\
  prepared st "orders/status" (AnOrder zeroOrder) (AnOrder zeroOrder) =
    Some (Ok (AnOrder zeroOrder)).
Proof.
  eexists. split; [reflexivity|].
  exact (proj1 (proj1 (proj2 (status_update_keeps_spec (tt : ObjectTyper)
    (tt : RESTOptionsGetter) _ eq_refl)) zeroOrder zeroOrder)).
Defined.

Lemma storage_complete_or_panics_witness :
  match v1alpha1storage (tt : ObjectTyper) (tt : RESTOptionsGetter) with
  | Ok st => size st = 6
  | Err _ => False
  | Panic _ => True
  end.
Proof. exact (storage_complete_or_panics (tt : ObjectTyper) (tt : RESTOptionsGetter)). Defined.

(** ** start.go: the emulated version *)

(** [version.Version], of which major and minor are used: unsigned 64-bit numbers. *)
Record Version := mkVersion { Major : Z; Minor : Z }.

(** [int(n)] of an unsigned 64-bit number, and subtraction on 64-bit integers. *)
Definition int64_of (z : Z) : Z :=
  let w := (z mod 2 ^ 64)%Z in if (w <? 2 ^ 63)%Z then w else (w - 2 ^ 64)%Z.

(** The library of versions: [GreaterThan], [OffsetMinor], which stops at zero, and
    the version of Kubernetes the server is built with. *)
Class Versions := {
  GreaterThan : Version -> Version -> bool;
  GreaterThan_spec : forall v w, GreaterThan v w = true <->
    (Major w < Major v \/ (Major v = Major w /\ Minor w < Minor v))%Z;
  OffsetMinor : Version -> Z -> Version;
  OffsetMinor_spec : forall v d,
    OffsetMinor v d = mkVersion (Major v) (Z.max 0 (Minor v + d));
  DefaultKubeBinaryVersion : Version;
  DefaultKubeBinaryVersion_minor : (0 <= Minor DefaultKubeBinaryVersion)%Z;
}.

Section versions.
Context `{Versions}.

Definition ARCVersionToKubeVersion (ver : Version) : option Version :=
  if negb (Major ver =? 1)%Z then None
  else
    let kubeVer := DefaultKubeBinaryVersion in
    let offset := int64_of (int64_of (Minor ver) - 2) in
    let mappedVer := OffsetMinor kubeVer offset in
    if GreaterThan mappedVer kubeVer then Some kubeVer else Some mappedVer.

Lemma int64_of_small z : (- 2 ^ 63 <= z < 2 ^ 63)%Z -> int64_of z = z.
Proof.
  intros Hz. unfold int64_of. destruct (decide (0 <= z)%Z).
  - rewrite Z.mod_small by lia. destruct (Z.ltb_spec z (2 ^ 63)); lia.
  - rewrite <- (Z.mod_add z 1) by lia. rewrite Z.mod_small by lia.
    destruct (Z.ltb_spec (z + 1 * 2 ^ 64) (2 ^ 63)); lia.
Qed.

(** C39: a version of major 1 maps to the version of Kubernetes that is as many minor
    versions below the one the server is built with as it is below 1.2, stopping at
    minor 0, and every version above 1.2 to that one; another major has none.  The
    arithmetic of 64-bit integers does not wrap for a minor below the sign bit. *)
Theorem version_mapping_bounded (ver : Version) :
  (0 <= Minor ver < 2 ^ 63)%Z ->
  ARCVersionToKubeVersion ver =
  if (Major ver =? 1)%Z then
    Some (if (Minor ver <=? 2)%Z
          then mkVersion (Major DefaultKubeBinaryVersion)
                 (Z.max 0 (Minor DefaultKubeBinaryVersion - (2 - Minor ver)))
          else DefaultKubeBinaryVersion)
  else None.
Proof.
  intros Hm. unfold ARCVersionToKubeVersion. destruct (Major ver =? 1)%Z; [|done]. simpl.
  rewrite (int64_of_small (Minor ver)), int64_of_small by lia. rewrite OffsetMinor_spec.
  pose proof DefaultKubeBinaryVersion_minor as Hk.
  destruct (GreaterThan _ _) eqn:Hgt.
  - apply GreaterThan_spec in Hgt. simpl in Hgt.
    destruct (Z.leb_spec (Minor ver) 2); [lia|done].
  - apply not_true_iff_false in Hgt. rewrite GreaterThan_spec in Hgt. simpl in Hgt.
    destruct (Z.leb_spec (Minor ver) 2); [|lia].
    do 2 f_equal. lia.
Qed.

End versions.

#[export] Program Instance plain_versions : Versions := {|
  GreaterThan := fun v w =>
    ((Major w <? Major v) || ((Major v =? Major w) && (Minor w <? Minor v)))%Z;
  OffsetMinor := fun v d => mkVersion (Major v) (Z.max 0 (Minor v + d));
  DefaultKubeBinaryVersion := mkVersion 1 34;
|}.
Next Obligation.
  intros v w. rewrite orb_true_iff, andb_true_iff, !Z.ltb_lt, Z.eqb_eq. done.
Qed.
Next Obligation. done. Qed.
Next Obligation. simpl. lia. Qed.

Lemma version_mapping_bounded_witness :
  ARCVersionToKubeVersion (mkVersion 1 0) = Some (mkVersion 1 32).
Proof. rewrite (version_mapping_bounded (mkVersion 1 0)); [reflexivity|simpl; lia]. Defined.
