(* ===== verification/Conversion.v ===== *)
(** * Conversion between the versions (api/arc/v1alpha1/zz_generated.conversion.go)

    Every request passes through these functions: the API server decodes the
    versioned type, converts it to the internal one, and converts back to answer and
    to store.  A conversion writes into an object the caller provides, so it takes
    that object and gives its new value.  A slice or a map is not copied: its memory
    is reinterpreted, which is a [cast] of every element with all its fields. *)

From stdpp Require Import base gmap list strings.
From S2P Require Import Prelude GoStd KubeTypes V1alpha1Types ArcTypes.

(** ** The functions *)

(** *** ArtifactTypeRules *)

Definition cast_v1alpha1_ArtifactTypeRules_To_arc (inp : V1alpha1Types.ArtifactTypeRules) : ArcTypes.ArtifactTypeRules :=
  ArcTypes.mkArtifactTypeRules (V1alpha1Types.Rules_SrcTypes inp)
    (V1alpha1Types.Rules_DstTypes inp).

Definition cast_arc_ArtifactTypeRules_To_v1alpha1 (inp : ArcTypes.ArtifactTypeRules) : V1alpha1Types.ArtifactTypeRules :=
  V1alpha1Types.mkArtifactTypeRules (ArcTypes.Rules_SrcTypes inp)
    (ArcTypes.Rules_DstTypes inp).

Definition autoConvert_v1alpha1_ArtifactTypeRules_To_arc_ArtifactTypeRules
  (inp : V1alpha1Types.ArtifactTypeRules) (out : ArcTypes.ArtifactTypeRules) : outcome ArcTypes.ArtifactTypeRules :=
  Ok (ArcTypes.mkArtifactTypeRules (V1alpha1Types.Rules_SrcTypes inp)
    (V1alpha1Types.Rules_DstTypes inp)).

Definition Convert_v1alpha1_ArtifactTypeRules_To_arc_ArtifactTypeRules :=
  autoConvert_v1alpha1_ArtifactTypeRules_To_arc_ArtifactTypeRules.

Definition autoConvert_arc_ArtifactTypeRules_To_v1alpha1_ArtifactTypeRules
  (inp : ArcTypes.ArtifactTypeRules) (out : V1alpha1Types.ArtifactTypeRules) : outcome V1alpha1Types.ArtifactTypeRules :=
  Ok (V1alpha1Types.mkArtifactTypeRules (ArcTypes.Rules_SrcTypes inp)
    (ArcTypes.Rules_DstTypes inp)).

Definition Convert_arc_ArtifactTypeRules_To_v1alpha1_ArtifactTypeRules :=
  autoConvert_arc_ArtifactTypeRules_To_v1alpha1_ArtifactTypeRules.

(** *** ArtifactWorkflowParameter *)

Definition cast_v1alpha1_ArtifactWorkflowParameter_To_arc (inp : V1alpha1Types.ArtifactWorkflowParameter) : ArcTypes.ArtifactWorkflowParameter :=
  ArcTypes.mkArtifactWorkflowParameter (V1alpha1Types.Param_Name inp)
    (V1alpha1Types.Param_Value inp).

Definition cast_arc_ArtifactWorkflowParameter_To_v1alpha1 (inp : ArcTypes.ArtifactWorkflowParameter) : V1alpha1Types.ArtifactWorkflowParameter :=
  V1alpha1Types.mkArtifactWorkflowParameter (ArcTypes.Param_Name inp)
    (ArcTypes.Param_Value inp).

Definition autoConvert_v1alpha1_ArtifactWorkflowParameter_To_arc_ArtifactWorkflowParameter
  (inp : V1alpha1Types.ArtifactWorkflowParameter) (out : ArcTypes.ArtifactWorkflowParameter) : outcome ArcTypes.ArtifactWorkflowParameter :=
  Ok (ArcTypes.mkArtifactWorkflowParameter (V1alpha1Types.Param_Name inp)
    (V1alpha1Types.Param_Value inp)).

Definition Convert_v1alpha1_ArtifactWorkflowParameter_To_arc_ArtifactWorkflowParameter :=
  autoConvert_v1alpha1_ArtifactWorkflowParameter_To_arc_ArtifactWorkflowParameter.

Definition autoConvert_arc_ArtifactWorkflowParameter_To_v1alpha1_ArtifactWorkflowParameter
  (inp : ArcTypes.ArtifactWorkflowParameter) (out : V1alpha1Types.ArtifactWorkflowParameter) : outcome V1alpha1Types.ArtifactWorkflowParameter :=
  Ok (V1alpha1Types.mkArtifactWorkflowParameter (ArcTypes.Param_Name inp)
    (ArcTypes.Param_Value inp)).

Definition Convert_arc_ArtifactWorkflowParameter_To_v1alpha1_ArtifactWorkflowParameter :=
  autoConvert_arc_ArtifactWorkflowParameter_To_v1alpha1_ArtifactWorkflowParameter.

(** *** ArtifactTypeSpec *)

Definition cast_v1alpha1_ArtifactTypeSpec_To_arc (inp : V1alpha1Types.ArtifactTypeSpec) : ArcTypes.ArtifactTypeSpec :=
  ArcTypes.mkArtifactTypeSpec
    (cast_v1alpha1_ArtifactTypeRules_To_arc (V1alpha1Types.ATSpec_Rules inp))
    (map cast_v1alpha1_ArtifactWorkflowParameter_To_arc (V1alpha1Types.ATSpec_Parameters inp))
    (V1alpha1Types.ATSpec_WorkflowTemplateRef inp).

Definition cast_arc_ArtifactTypeSpec_To_v1alpha1 (inp : ArcTypes.ArtifactTypeSpec) : V1alpha1Types.ArtifactTypeSpec :=
  V1alpha1Types.mkArtifactTypeSpec
    (cast_arc_ArtifactTypeRules_To_v1alpha1 (ArcTypes.ATSpec_Rules inp))
    (map cast_arc_ArtifactWorkflowParameter_To_v1alpha1 (ArcTypes.ATSpec_Parameters inp))
    (ArcTypes.ATSpec_WorkflowTemplateRef inp).

Definition autoConvert_v1alpha1_ArtifactTypeSpec_To_arc_ArtifactTypeSpec
  (inp : V1alpha1Types.ArtifactTypeSpec) (out : ArcTypes.ArtifactTypeSpec) : outcome ArcTypes.ArtifactTypeSpec :=
  let? rules := Convert_v1alpha1_ArtifactTypeRules_To_arc_ArtifactTypeRules
      (V1alpha1Types.ATSpec_Rules inp) (ArcTypes.ATSpec_Rules out) in
  Ok (ArcTypes.mkArtifactTypeSpec rules
    (map cast_v1alpha1_ArtifactWorkflowParameter_To_arc (V1alpha1Types.ATSpec_Parameters inp))
    (V1alpha1Types.ATSpec_WorkflowTemplateRef inp)).

Definition Convert_v1alpha1_ArtifactTypeSpec_To_arc_ArtifactTypeSpec :=
  autoConvert_v1alpha1_ArtifactTypeSpec_To_arc_ArtifactTypeSpec.

Definition autoConvert_arc_ArtifactTypeSpec_To_v1alpha1_ArtifactTypeSpec
  (inp : ArcTypes.ArtifactTypeSpec) (out : V1alpha1Types.ArtifactTypeSpec) : outcome V1alpha1Types.ArtifactTypeSpec :=
  let? rules := Convert_arc_ArtifactTypeRules_To_v1alpha1_ArtifactTypeRules
      (ArcTypes.ATSpec_Rules inp) (V1alpha1Types.ATSpec_Rules out) in
  Ok (V1alpha1Types.mkArtifactTypeSpec rules
    (map cast_arc_ArtifactWorkflowParameter_To_v1alpha1 (ArcTypes.ATSpec_Parameters inp))
    (ArcTypes.ATSpec_WorkflowTemplateRef inp)).

Definition Convert_arc_ArtifactTypeSpec_To_v1alpha1_ArtifactTypeSpec :=
  autoConvert_arc_ArtifactTypeSpec_To_v1alpha1_ArtifactTypeSpec.

(** *** ArtifactTypeStatus *)

Definition cast_v1alpha1_ArtifactTypeStatus_To_arc (inp : V1alpha1Types.ArtifactTypeStatus) : ArcTypes.ArtifactTypeStatus :=
  ArcTypes.mkArtifactTypeStatus.

Definition cast_arc_ArtifactTypeStatus_To_v1alpha1 (inp : ArcTypes.ArtifactTypeStatus) : V1alpha1Types.ArtifactTypeStatus :=
  V1alpha1Types.mkArtifactTypeStatus.

Definition autoConvert_v1alpha1_ArtifactTypeStatus_To_arc_ArtifactTypeStatus
  (inp : V1alpha1Types.ArtifactTypeStatus) (out : ArcTypes.ArtifactTypeStatus) : outcome ArcTypes.ArtifactTypeStatus :=
  Ok out.

Definition Convert_v1alpha1_ArtifactTypeStatus_To_arc_ArtifactTypeStatus :=
  autoConvert_v1alpha1_ArtifactTypeStatus_To_arc_ArtifactTypeStatus.

Definition autoConvert_arc_ArtifactTypeStatus_To_v1alpha1_ArtifactTypeStatus
  (inp : ArcTypes.ArtifactTypeStatus) (out : V1alpha1Types.ArtifactTypeStatus) : outcome V1alpha1Types.ArtifactTypeStatus :=
  Ok out.

Definition Convert_arc_ArtifactTypeStatus_To_v1alpha1_ArtifactTypeStatus :=
  autoConvert_arc_ArtifactTypeStatus_To_v1alpha1_ArtifactTypeStatus.

(** *** ArtifactType *)

Definition cast_v1alpha1_ArtifactType_To_arc (inp : V1alpha1Types.ArtifactType) : ArcTypes.ArtifactType :=
  ArcTypes.mkArtifactType (V1alpha1Types.AT_TypeMeta inp)
    (V1alpha1Types.AT_ObjectMeta inp)
    (cast_v1alpha1_ArtifactTypeSpec_To_arc (V1alpha1Types.AT_Spec inp))
    (cast_v1alpha1_ArtifactTypeStatus_To_arc (V1alpha1Types.AT_Status inp)).

Definition cast_arc_ArtifactType_To_v1alpha1 (inp : ArcTypes.ArtifactType) : V1alpha1Types.ArtifactType :=
  V1alpha1Types.mkArtifactType (ArcTypes.AT_TypeMeta inp) (ArcTypes.AT_ObjectMeta inp)
    (cast_arc_ArtifactTypeSpec_To_v1alpha1 (ArcTypes.AT_Spec inp))
    (cast_arc_ArtifactTypeStatus_To_v1alpha1 (ArcTypes.AT_Status inp)).

Definition autoConvert_v1alpha1_ArtifactType_To_arc_ArtifactType
  (inp : V1alpha1Types.ArtifactType) (out : ArcTypes.ArtifactType) : outcome ArcTypes.ArtifactType :=
  let? spec := Convert_v1alpha1_ArtifactTypeSpec_To_arc_ArtifactTypeSpec
      (V1alpha1Types.AT_Spec inp) (ArcTypes.AT_Spec out) in
  let? status := Convert_v1alpha1_ArtifactTypeStatus_To_arc_ArtifactTypeStatus
      (V1alpha1Types.AT_Status inp) (ArcTypes.AT_Status out) in
  Ok (ArcTypes.mkArtifactType (ArcTypes.AT_TypeMeta out)
    (V1alpha1Types.AT_ObjectMeta inp) spec status).

Definition Convert_v1alpha1_ArtifactType_To_arc_ArtifactType :=
  autoConvert_v1alpha1_ArtifactType_To_arc_ArtifactType.

Definition autoConvert_arc_ArtifactType_To_v1alpha1_ArtifactType
  (inp : ArcTypes.ArtifactType) (out : V1alpha1Types.ArtifactType) : outcome V1alpha1Types.ArtifactType :=
  let? spec := Convert_arc_ArtifactTypeSpec_To_v1alpha1_ArtifactTypeSpec
      (ArcTypes.AT_Spec inp) (V1alpha1Types.AT_Spec out) in
  let? status := Convert_arc_ArtifactTypeStatus_To_v1alpha1_ArtifactTypeStatus
      (ArcTypes.AT_Status inp) (V1alpha1Types.AT_Status out) in
  Ok (V1alpha1Types.mkArtifactType (V1alpha1Types.AT_TypeMeta out)
    (ArcTypes.AT_ObjectMeta inp) spec status).

Definition Convert_arc_ArtifactType_To_v1alpha1_ArtifactType :=
  autoConvert_arc_ArtifactType_To_v1alpha1_ArtifactType.

(** *** ArtifactTypeList *)

Definition cast_v1alpha1_ArtifactTypeList_To_arc (inp : V1alpha1Types.ArtifactTypeList) : ArcTypes.ArtifactTypeList :=
  ArcTypes.mkArtifactTypeList (V1alpha1Types.ATList_TypeMeta inp)
    (V1alpha1Types.ATList_ListMeta inp)
    (map cast_v1alpha1_ArtifactType_To_arc (V1alpha1Types.ATList_Items inp)).

Definition cast_arc_ArtifactTypeList_To_v1alpha1 (inp : ArcTypes.ArtifactTypeList) : V1alpha1Types.ArtifactTypeList :=
  V1alpha1Types.mkArtifactTypeList (ArcTypes.ATList_TypeMeta inp)
    (ArcTypes.ATList_ListMeta inp)
    (map cast_arc_ArtifactType_To_v1alpha1 (ArcTypes.ATList_Items inp)).

Definition autoConvert_v1alpha1_ArtifactTypeList_To_arc_ArtifactTypeList
  (inp : V1alpha1Types.ArtifactTypeList) (out : ArcTypes.ArtifactTypeList) : outcome ArcTypes.ArtifactTypeList :=
  Ok (ArcTypes.mkArtifactTypeList (ArcTypes.ATList_TypeMeta out)
    (V1alpha1Types.ATList_ListMeta inp)
    (map cast_v1alpha1_ArtifactType_To_arc (V1alpha1Types.ATList_Items inp))).

Definition Convert_v1alpha1_ArtifactTypeList_To_arc_ArtifactTypeList :=
  autoConvert_v1alpha1_ArtifactTypeList_To_arc_ArtifactTypeList.

Definition autoConvert_arc_ArtifactTypeList_To_v1alpha1_ArtifactTypeList
  (inp : ArcTypes.ArtifactTypeList) (out : V1alpha1Types.ArtifactTypeList) : outcome V1alpha1Types.ArtifactTypeList :=
  Ok (V1alpha1Types.mkArtifactTypeList (V1alpha1Types.ATList_TypeMeta out)
    (ArcTypes.ATList_ListMeta inp)
    (map cast_arc_ArtifactType_To_v1alpha1 (ArcTypes.ATList_Items inp))).

Definition Convert_arc_ArtifactTypeList_To_v1alpha1_ArtifactTypeList :=
  autoConvert_arc_ArtifactTypeList_To_v1alpha1_ArtifactTypeList.

(** *** ArtifactWorkflowSpec *)

Definition cast_v1alpha1_ArtifactWorkflowSpec_To_arc (inp : V1alpha1Types.ArtifactWorkflowSpec) : ArcTypes.ArtifactWorkflowSpec :=
  ArcTypes.mkArtifactWorkflowSpec (V1alpha1Types.AWSpec_Type inp)
    (map cast_v1alpha1_ArtifactWorkflowParameter_To_arc (V1alpha1Types.AWSpec_Parameters inp))
    (V1alpha1Types.AWSpec_SrcSecretRef inp) (V1alpha1Types.AWSpec_DstSecretRef inp).

Definition cast_arc_ArtifactWorkflowSpec_To_v1alpha1 (inp : ArcTypes.ArtifactWorkflowSpec) : V1alpha1Types.ArtifactWorkflowSpec :=
  V1alpha1Types.mkArtifactWorkflowSpec (ArcTypes.AWSpec_Type inp)
    (map cast_arc_ArtifactWorkflowParameter_To_v1alpha1 (ArcTypes.AWSpec_Parameters inp))
    (ArcTypes.AWSpec_SrcSecretRef inp) (ArcTypes.AWSpec_DstSecretRef inp).

Definition autoConvert_v1alpha1_ArtifactWorkflowSpec_To_arc_ArtifactWorkflowSpec
  (inp : V1alpha1Types.ArtifactWorkflowSpec) (out : ArcTypes.ArtifactWorkflowSpec) : outcome ArcTypes.ArtifactWorkflowSpec :=
  Ok (ArcTypes.mkArtifactWorkflowSpec (V1alpha1Types.AWSpec_Type inp)
    (map cast_v1alpha1_ArtifactWorkflowParameter_To_arc (V1alpha1Types.AWSpec_Parameters inp))
    (V1alpha1Types.AWSpec_SrcSecretRef inp) (V1alpha1Types.AWSpec_DstSecretRef inp)).

Definition Convert_v1alpha1_ArtifactWorkflowSpec_To_arc_ArtifactWorkflowSpec :=
  autoConvert_v1alpha1_ArtifactWorkflowSpec_To_arc_ArtifactWorkflowSpec.

Definition autoConvert_arc_ArtifactWorkflowSpec_To_v1alpha1_ArtifactWorkflowSpec
  (inp : ArcTypes.ArtifactWorkflowSpec) (out : V1alpha1Types.ArtifactWorkflowSpec) : outcome V1alpha1Types.ArtifactWorkflowSpec :=
  Ok (V1alpha1Types.mkArtifactWorkflowSpec (ArcTypes.AWSpec_Type inp)
    (map cast_arc_ArtifactWorkflowParameter_To_v1alpha1 (ArcTypes.AWSpec_Parameters inp))
    (ArcTypes.AWSpec_SrcSecretRef inp) (ArcTypes.AWSpec_DstSecretRef inp)).

Definition Convert_arc_ArtifactWorkflowSpec_To_v1alpha1_ArtifactWorkflowSpec :=
  autoConvert_arc_ArtifactWorkflowSpec_To_v1alpha1_ArtifactWorkflowSpec.

(** *** ArtifactWorkflowStatus *)

Definition cast_v1alpha1_ArtifactWorkflowStatus_To_arc (inp : V1alpha1Types.ArtifactWorkflowStatus) : ArcTypes.ArtifactWorkflowStatus :=
  ArcTypes.mkArtifactWorkflowStatus (V1alpha1Types.AWStatus_Phase inp)
    (V1alpha1Types.AWStatus_Message inp).

Definition cast_arc_ArtifactWorkflowStatus_To_v1alpha1 (inp : ArcTypes.ArtifactWorkflowStatus) : V1alpha1Types.ArtifactWorkflowStatus :=
  V1alpha1Types.mkArtifactWorkflowStatus (ArcTypes.AWStatus_Phase inp)
    (ArcTypes.AWStatus_Message inp).

Definition autoConvert_v1alpha1_ArtifactWorkflowStatus_To_arc_ArtifactWorkflowStatus
  (inp : V1alpha1Types.ArtifactWorkflowStatus) (out : ArcTypes.ArtifactWorkflowStatus) : outcome ArcTypes.ArtifactWorkflowStatus :=
  Ok (ArcTypes.mkArtifactWorkflowStatus (V1alpha1Types.AWStatus_Phase inp)
    (V1alpha1Types.AWStatus_Message inp)).

Definition Convert_v1alpha1_ArtifactWorkflowStatus_To_arc_ArtifactWorkflowStatus :=
  autoConvert_v1alpha1_ArtifactWorkflowStatus_To_arc_ArtifactWorkflowStatus.

Definition autoConvert_arc_ArtifactWorkflowStatus_To_v1alpha1_ArtifactWorkflowStatus
  (inp : ArcTypes.ArtifactWorkflowStatus) (out : V1alpha1Types.ArtifactWorkflowStatus) : outcome V1alpha1Types.ArtifactWorkflowStatus :=
  Ok (V1alpha1Types.mkArtifactWorkflowStatus (ArcTypes.AWStatus_Phase inp)
    (ArcTypes.AWStatus_Message inp)).

Definition Convert_arc_ArtifactWorkflowStatus_To_v1alpha1_ArtifactWorkflowStatus :=
  autoConvert_arc_ArtifactWorkflowStatus_To_v1alpha1_ArtifactWorkflowStatus.

(** *** ArtifactWorkflow *)

Definition cast_v1alpha1_ArtifactWorkflow_To_arc (inp : V1alpha1Types.ArtifactWorkflow) : ArcTypes.ArtifactWorkflow :=
  ArcTypes.mkArtifactWorkflow (V1alpha1Types.AW_TypeMeta inp)
    (V1alpha1Types.AW_ObjectMeta inp)
    (cast_v1alpha1_ArtifactWorkflowSpec_To_arc (V1alpha1Types.AW_Spec inp))
    (cast_v1alpha1_ArtifactWorkflowStatus_To_arc (V1alpha1Types.AW_Status inp)).

Definition cast_arc_ArtifactWorkflow_To_v1alpha1 (inp : ArcTypes.ArtifactWorkflow) : V1alpha1Types.ArtifactWorkflow :=
  V1alpha1Types.mkArtifactWorkflow (ArcTypes.AW_TypeMeta inp)
    (ArcTypes.AW_ObjectMeta inp)
    (cast_arc_ArtifactWorkflowSpec_To_v1alpha1 (ArcTypes.AW_Spec inp))
    (cast_arc_ArtifactWorkflowStatus_To_v1alpha1 (ArcTypes.AW_Status inp)).

Definition autoConvert_v1alpha1_ArtifactWorkflow_To_arc_ArtifactWorkflow
  (inp : V1alpha1Types.ArtifactWorkflow) (out : ArcTypes.ArtifactWorkflow) : outcome ArcTypes.ArtifactWorkflow :=
  let? spec := Convert_v1alpha1_ArtifactWorkflowSpec_To_arc_ArtifactWorkflowSpec
      (V1alpha1Types.AW_Spec inp) (ArcTypes.AW_Spec out) in
  let? status := Convert_v1alpha1_ArtifactWorkflowStatus_To_arc_ArtifactWorkflowStatus
      (V1alpha1Types.AW_Status inp) (ArcTypes.AW_Status out) in
  Ok (ArcTypes.mkArtifactWorkflow (ArcTypes.AW_TypeMeta out)
    (V1alpha1Types.AW_ObjectMeta inp) spec status).

Definition Convert_v1alpha1_ArtifactWorkflow_To_arc_ArtifactWorkflow :=
  autoConvert_v1alpha1_ArtifactWorkflow_To_arc_ArtifactWorkflow.

Definition autoConvert_arc_ArtifactWorkflow_To_v1alpha1_ArtifactWorkflow
  (inp : ArcTypes.ArtifactWorkflow) (out : V1alpha1Types.ArtifactWorkflow) : outcome V1alpha1Types.ArtifactWorkflow :=
  let? spec := Convert_arc_ArtifactWorkflowSpec_To_v1alpha1_ArtifactWorkflowSpec
      (ArcTypes.AW_Spec inp) (V1alpha1Types.AW_Spec out) in
  let? status := Convert_arc_ArtifactWorkflowStatus_To_v1alpha1_ArtifactWorkflowStatus
      (ArcTypes.AW_Status inp) (V1alpha1Types.AW_Status out) in
  Ok (V1alpha1Types.mkArtifactWorkflow (V1alpha1Types.AW_TypeMeta out)
    (ArcTypes.AW_ObjectMeta inp) spec status).

Definition Convert_arc_ArtifactWorkflow_To_v1alpha1_ArtifactWorkflow :=
  autoConvert_arc_ArtifactWorkflow_To_v1alpha1_ArtifactWorkflow.

(** *** ArtifactWorkflowList *)

Definition cast_v1alpha1_ArtifactWorkflowList_To_arc (inp : V1alpha1Types.ArtifactWorkflowList) : ArcTypes.ArtifactWorkflowList :=
  ArcTypes.mkArtifactWorkflowList (V1alpha1Types.AWList_TypeMeta inp)
    (V1alpha1Types.AWList_ListMeta inp)
    (map cast_v1alpha1_ArtifactWorkflow_To_arc (V1alpha1Types.AWList_Items inp)).

Definition cast_arc_ArtifactWorkflowList_To_v1alpha1 (inp : ArcTypes.ArtifactWorkflowList) : V1alpha1Types.ArtifactWorkflowList :=
  V1alpha1Types.mkArtifactWorkflowList (ArcTypes.AWList_TypeMeta inp)
    (ArcTypes.AWList_ListMeta inp)
    (map cast_arc_ArtifactWorkflow_To_v1alpha1 (ArcTypes.AWList_Items inp)).

Definition autoConvert_v1alpha1_ArtifactWorkflowList_To_arc_ArtifactWorkflowList
  (inp : V1alpha1Types.ArtifactWorkflowList) (out : ArcTypes.ArtifactWorkflowList) : outcome ArcTypes.ArtifactWorkflowList :=
  Ok (ArcTypes.mkArtifactWorkflowList (ArcTypes.AWList_TypeMeta out)
    (V1alpha1Types.AWList_ListMeta inp)
    (map cast_v1alpha1_ArtifactWorkflow_To_arc (V1alpha1Types.AWList_Items inp))).

Definition Convert_v1alpha1_ArtifactWorkflowList_To_arc_ArtifactWorkflowList :=
  autoConvert_v1alpha1_ArtifactWorkflowList_To_arc_ArtifactWorkflowList.

Definition autoConvert_arc_ArtifactWorkflowList_To_v1alpha1_ArtifactWorkflowList
  (inp : ArcTypes.ArtifactWorkflowList) (out : V1alpha1Types.ArtifactWorkflowList) : outcome V1alpha1Types.ArtifactWorkflowList :=
  Ok (V1alpha1Types.mkArtifactWorkflowList (V1alpha1Types.AWList_TypeMeta out)
    (ArcTypes.AWList_ListMeta inp)
    (map cast_arc_ArtifactWorkflow_To_v1alpha1 (ArcTypes.AWList_Items inp))).

Definition Convert_arc_ArtifactWorkflowList_To_v1alpha1_ArtifactWorkflowList :=
  autoConvert_arc_ArtifactWorkflowList_To_v1alpha1_ArtifactWorkflowList.

(** *** EndpointSpec *)

Definition cast_v1alpha1_EndpointSpec_To_arc (inp : V1alpha1Types.EndpointSpec) : ArcTypes.EndpointSpec :=
  ArcTypes.mkEndpointSpec (V1alpha1Types.EPSpec_Type inp)
    (V1alpha1Types.EPSpec_RemoteURL inp) (V1alpha1Types.EPSpec_SecretRef inp)
    (V1alpha1Types.EPSpec_Usage inp).

Definition cast_arc_EndpointSpec_To_v1alpha1 (inp : ArcTypes.EndpointSpec) : V1alpha1Types.EndpointSpec :=
  V1alpha1Types.mkEndpointSpec (ArcTypes.EPSpec_Type inp)
    (ArcTypes.EPSpec_RemoteURL inp) (ArcTypes.EPSpec_SecretRef inp)
    (ArcTypes.EPSpec_Usage inp).

Definition autoConvert_v1alpha1_EndpointSpec_To_arc_EndpointSpec
  (inp : V1alpha1Types.EndpointSpec) (out : ArcTypes.EndpointSpec) : outcome ArcTypes.EndpointSpec :=
  Ok (ArcTypes.mkEndpointSpec (V1alpha1Types.EPSpec_Type inp)
    (V1alpha1Types.EPSpec_RemoteURL inp) (V1alpha1Types.EPSpec_SecretRef inp)
    (V1alpha1Types.EPSpec_Usage inp)).

Definition Convert_v1alpha1_EndpointSpec_To_arc_EndpointSpec :=
  autoConvert_v1alpha1_EndpointSpec_To_arc_EndpointSpec.

Definition autoConvert_arc_EndpointSpec_To_v1alpha1_EndpointSpec
  (inp : ArcTypes.EndpointSpec) (out : V1alpha1Types.EndpointSpec) : outcome V1alpha1Types.EndpointSpec :=
  Ok (V1alpha1Types.mkEndpointSpec (ArcTypes.EPSpec_Type inp)
    (ArcTypes.EPSpec_RemoteURL inp) (ArcTypes.EPSpec_SecretRef inp)
    (ArcTypes.EPSpec_Usage inp)).

Definition Convert_arc_EndpointSpec_To_v1alpha1_EndpointSpec :=
  autoConvert_arc_EndpointSpec_To_v1alpha1_EndpointSpec.

(** *** EndpointStatus *)

Definition cast_v1alpha1_EndpointStatus_To_arc (inp : V1alpha1Types.EndpointStatus) : ArcTypes.EndpointStatus :=
  ArcTypes.mkEndpointStatus.

Definition cast_arc_EndpointStatus_To_v1alpha1 (inp : ArcTypes.EndpointStatus) : V1alpha1Types.EndpointStatus :=
  V1alpha1Types.mkEndpointStatus.

Definition autoConvert_v1alpha1_EndpointStatus_To_arc_EndpointStatus
  (inp : V1alpha1Types.EndpointStatus) (out : ArcTypes.EndpointStatus) : outcome ArcTypes.EndpointStatus :=
  Ok out.

Definition Convert_v1alpha1_EndpointStatus_To_arc_EndpointStatus :=
  autoConvert_v1alpha1_EndpointStatus_To_arc_EndpointStatus.

Definition autoConvert_arc_EndpointStatus_To_v1alpha1_EndpointStatus
  (inp : ArcTypes.EndpointStatus) (out : V1alpha1Types.EndpointStatus) : outcome V1alpha1Types.EndpointStatus :=
  Ok out.

Definition Convert_arc_EndpointStatus_To_v1alpha1_EndpointStatus :=
  autoConvert_arc_EndpointStatus_To_v1alpha1_EndpointStatus.

(** *** Endpoint *)

Definition cast_v1alpha1_Endpoint_To_arc (inp : V1alpha1Types.Endpoint) : ArcTypes.Endpoint :=
  ArcTypes.mkEndpoint (V1alpha1Types.EP_TypeMeta inp) (V1alpha1Types.EP_ObjectMeta inp)
    (cast_v1alpha1_EndpointSpec_To_arc (V1alpha1Types.EP_Spec inp))
    (cast_v1alpha1_EndpointStatus_To_arc (V1alpha1Types.EP_Status inp)).

Definition cast_arc_Endpoint_To_v1alpha1 (inp : ArcTypes.Endpoint) : V1alpha1Types.Endpoint :=
  V1alpha1Types.mkEndpoint (ArcTypes.EP_TypeMeta inp) (ArcTypes.EP_ObjectMeta inp)
    (cast_arc_EndpointSpec_To_v1alpha1 (ArcTypes.EP_Spec inp))
    (cast_arc_EndpointStatus_To_v1alpha1 (ArcTypes.EP_Status inp)).

Definition autoConvert_v1alpha1_Endpoint_To_arc_Endpoint
  (inp : V1alpha1Types.Endpoint) (out : ArcTypes.Endpoint) : outcome ArcTypes.Endpoint :=
  let? spec := Convert_v1alpha1_EndpointSpec_To_arc_EndpointSpec
      (V1alpha1Types.EP_Spec inp) (ArcTypes.EP_Spec out) in
  let? status := Convert_v1alpha1_EndpointStatus_To_arc_EndpointStatus
      (V1alpha1Types.EP_Status inp) (ArcTypes.EP_Status out) in
  Ok (ArcTypes.mkEndpoint (ArcTypes.EP_TypeMeta out) (V1alpha1Types.EP_ObjectMeta inp)
    spec status).

Definition Convert_v1alpha1_Endpoint_To_arc_Endpoint :=
  autoConvert_v1alpha1_Endpoint_To_arc_Endpoint.

Definition autoConvert_arc_Endpoint_To_v1alpha1_Endpoint
  (inp : ArcTypes.Endpoint) (out : V1alpha1Types.Endpoint) : outcome V1alpha1Types.Endpoint :=
  let? spec := Convert_arc_EndpointSpec_To_v1alpha1_EndpointSpec
      (ArcTypes.EP_Spec inp) (V1alpha1Types.EP_Spec out) in
  let? status := Convert_arc_EndpointStatus_To_v1alpha1_EndpointStatus
      (ArcTypes.EP_Status inp) (V1alpha1Types.EP_Status out) in
  Ok (V1alpha1Types.mkEndpoint (V1alpha1Types.EP_TypeMeta out)
    (ArcTypes.EP_ObjectMeta inp) spec status).

Definition Convert_arc_Endpoint_To_v1alpha1_Endpoint :=
  autoConvert_arc_Endpoint_To_v1alpha1_Endpoint.

(** *** EndpointList *)

Definition cast_v1alpha1_EndpointList_To_arc (inp : V1alpha1Types.EndpointList) : ArcTypes.EndpointList :=
  ArcTypes.mkEndpointList (V1alpha1Types.EPList_TypeMeta inp)
    (V1alpha1Types.EPList_ListMeta inp)
    (map cast_v1alpha1_Endpoint_To_arc (V1alpha1Types.EPList_Items inp)).

Definition cast_arc_EndpointList_To_v1alpha1 (inp : ArcTypes.EndpointList) : V1alpha1Types.EndpointList :=
  V1alpha1Types.mkEndpointList (ArcTypes.EPList_TypeMeta inp)
    (ArcTypes.EPList_ListMeta inp)
    (map cast_arc_Endpoint_To_v1alpha1 (ArcTypes.EPList_Items inp)).

Definition autoConvert_v1alpha1_EndpointList_To_arc_EndpointList
  (inp : V1alpha1Types.EndpointList) (out : ArcTypes.EndpointList) : outcome ArcTypes.EndpointList :=
  Ok (ArcTypes.mkEndpointList (ArcTypes.EPList_TypeMeta out)
    (V1alpha1Types.EPList_ListMeta inp)
    (map cast_v1alpha1_Endpoint_To_arc (V1alpha1Types.EPList_Items inp))).

Definition Convert_v1alpha1_EndpointList_To_arc_EndpointList :=
  autoConvert_v1alpha1_EndpointList_To_arc_EndpointList.

Definition autoConvert_arc_EndpointList_To_v1alpha1_EndpointList
  (inp : ArcTypes.EndpointList) (out : V1alpha1Types.EndpointList) : outcome V1alpha1Types.EndpointList :=
  Ok (V1alpha1Types.mkEndpointList (V1alpha1Types.EPList_TypeMeta out)
    (ArcTypes.EPList_ListMeta inp)
    (map cast_arc_Endpoint_To_v1alpha1 (ArcTypes.EPList_Items inp))).

Definition Convert_arc_EndpointList_To_v1alpha1_EndpointList :=
  autoConvert_arc_EndpointList_To_v1alpha1_EndpointList.

(** *** OrderDefaults *)

Definition cast_v1alpha1_OrderDefaults_To_arc (inp : V1alpha1Types.OrderDefaults) : ArcTypes.OrderDefaults :=
  ArcTypes.mkOrderDefaults (V1alpha1Types.Defaults_SrcRef inp)
    (V1alpha1Types.Defaults_DstRef inp).

Definition cast_arc_OrderDefaults_To_v1alpha1 (inp : ArcTypes.OrderDefaults) : V1alpha1Types.OrderDefaults :=
  V1alpha1Types.mkOrderDefaults (ArcTypes.Defaults_SrcRef inp)
    (ArcTypes.Defaults_DstRef inp).

Definition autoConvert_v1alpha1_OrderDefaults_To_arc_OrderDefaults
  (inp : V1alpha1Types.OrderDefaults) (out : ArcTypes.OrderDefaults) : outcome ArcTypes.OrderDefaults :=
  Ok (ArcTypes.mkOrderDefaults (V1alpha1Types.Defaults_SrcRef inp)
    (V1alpha1Types.Defaults_DstRef inp)).

Definition Convert_v1alpha1_OrderDefaults_To_arc_OrderDefaults :=
  autoConvert_v1alpha1_OrderDefaults_To_arc_OrderDefaults.

Definition autoConvert_arc_OrderDefaults_To_v1alpha1_OrderDefaults
  (inp : ArcTypes.OrderDefaults) (out : V1alpha1Types.OrderDefaults) : outcome V1alpha1Types.OrderDefaults :=
  Ok (V1alpha1Types.mkOrderDefaults (ArcTypes.Defaults_SrcRef inp)
    (ArcTypes.Defaults_DstRef inp)).

Definition Convert_arc_OrderDefaults_To_v1alpha1_OrderDefaults :=
  autoConvert_arc_OrderDefaults_To_v1alpha1_OrderDefaults.

(** *** OrderArtifact *)

Definition cast_v1alpha1_OrderArtifact_To_arc (inp : V1alpha1Types.OrderArtifact) : ArcTypes.OrderArtifact :=
  ArcTypes.mkOrderArtifact (V1alpha1Types.Artifact_Type inp)
    (V1alpha1Types.Artifact_SrcRef inp) (V1alpha1Types.Artifact_DstRef inp)
    (V1alpha1Types.Artifact_Spec inp).

Definition cast_arc_OrderArtifact_To_v1alpha1 (inp : ArcTypes.OrderArtifact) : V1alpha1Types.OrderArtifact :=
  V1alpha1Types.mkOrderArtifact (ArcTypes.Artifact_Type inp)
    (ArcTypes.Artifact_SrcRef inp) (ArcTypes.Artifact_DstRef inp)
    (ArcTypes.Artifact_Spec inp).

Definition autoConvert_v1alpha1_OrderArtifact_To_arc_OrderArtifact
  (inp : V1alpha1Types.OrderArtifact) (out : ArcTypes.OrderArtifact) : outcome ArcTypes.OrderArtifact :=
  Ok (ArcTypes.mkOrderArtifact (V1alpha1Types.Artifact_Type inp)
    (V1alpha1Types.Artifact_SrcRef inp) (V1alpha1Types.Artifact_DstRef inp)
    (V1alpha1Types.Artifact_Spec inp)).

Definition Convert_v1alpha1_OrderArtifact_To_arc_OrderArtifact :=
  autoConvert_v1alpha1_OrderArtifact_To_arc_OrderArtifact.

Definition autoConvert_arc_OrderArtifact_To_v1alpha1_OrderArtifact
  (inp : ArcTypes.OrderArtifact) (out : V1alpha1Types.OrderArtifact) : outcome V1alpha1Types.OrderArtifact :=
  Ok (V1alpha1Types.mkOrderArtifact (ArcTypes.Artifact_Type inp)
    (ArcTypes.Artifact_SrcRef inp) (ArcTypes.Artifact_DstRef inp)
    (ArcTypes.Artifact_Spec inp)).

Definition Convert_arc_OrderArtifact_To_v1alpha1_OrderArtifact :=
  autoConvert_arc_OrderArtifact_To_v1alpha1_OrderArtifact.

(** *** OrderArtifactWorkflowStatus *)

Definition cast_v1alpha1_OrderArtifactWorkflowStatus_To_arc (inp : V1alpha1Types.OrderArtifactWorkflowStatus) : ArcTypes.OrderArtifactWorkflowStatus :=
  ArcTypes.mkOrderArtifactWorkflowStatus (V1alpha1Types.OAWS_ArtifactIndex inp)
    (V1alpha1Types.OAWS_Phase inp) (V1alpha1Types.OAWS_Message inp).

Definition cast_arc_OrderArtifactWorkflowStatus_To_v1alpha1 (inp : ArcTypes.OrderArtifactWorkflowStatus) : V1alpha1Types.OrderArtifactWorkflowStatus :=
  V1alpha1Types.mkOrderArtifactWorkflowStatus (ArcTypes.OAWS_ArtifactIndex inp)
    (ArcTypes.OAWS_Phase inp) (ArcTypes.OAWS_Message inp).

Definition autoConvert_v1alpha1_OrderArtifactWorkflowStatus_To_arc_OrderArtifactWorkflowStatus
  (inp : V1alpha1Types.OrderArtifactWorkflowStatus) (out : ArcTypes.OrderArtifactWorkflowStatus) : outcome ArcTypes.OrderArtifactWorkflowStatus :=
  Ok (ArcTypes.mkOrderArtifactWorkflowStatus (V1alpha1Types.OAWS_ArtifactIndex inp)
    (V1alpha1Types.OAWS_Phase inp) (V1alpha1Types.OAWS_Message inp)).

Definition Convert_v1alpha1_OrderArtifactWorkflowStatus_To_arc_OrderArtifactWorkflowStatus :=
  autoConvert_v1alpha1_OrderArtifactWorkflowStatus_To_arc_OrderArtifactWorkflowStatus.

Definition autoConvert_arc_OrderArtifactWorkflowStatus_To_v1alpha1_OrderArtifactWorkflowStatus
  (inp : ArcTypes.OrderArtifactWorkflowStatus) (out : V1alpha1Types.OrderArtifactWorkflowStatus) : outcome V1alpha1Types.OrderArtifactWorkflowStatus :=
  Ok (V1alpha1Types.mkOrderArtifactWorkflowStatus (ArcTypes.OAWS_ArtifactIndex inp)
    (ArcTypes.OAWS_Phase inp) (ArcTypes.OAWS_Message inp)).

Definition Convert_arc_OrderArtifactWorkflowStatus_To_v1alpha1_OrderArtifactWorkflowStatus :=
  autoConvert_arc_OrderArtifactWorkflowStatus_To_v1alpha1_OrderArtifactWorkflowStatus.

(** *** OrderSpec *)

Definition cast_v1alpha1_OrderSpec_To_arc (inp : V1alpha1Types.OrderSpec) : ArcTypes.OrderSpec :=
  ArcTypes.mkOrderSpec
    (cast_v1alpha1_OrderDefaults_To_arc (V1alpha1Types.OrderSpec_Defaults inp))
    (map cast_v1alpha1_OrderArtifact_To_arc (V1alpha1Types.OrderSpec_Artifacts inp)).

Definition cast_arc_OrderSpec_To_v1alpha1 (inp : ArcTypes.OrderSpec) : V1alpha1Types.OrderSpec :=
  V1alpha1Types.mkOrderSpec
    (cast_arc_OrderDefaults_To_v1alpha1 (ArcTypes.OrderSpec_Defaults inp))
    (map cast_arc_OrderArtifact_To_v1alpha1 (ArcTypes.OrderSpec_Artifacts inp)).

Definition autoConvert_v1alpha1_OrderSpec_To_arc_OrderSpec
  (inp : V1alpha1Types.OrderSpec) (out : ArcTypes.OrderSpec) : outcome ArcTypes.OrderSpec :=
  let? defaults := Convert_v1alpha1_OrderDefaults_To_arc_OrderDefaults
      (V1alpha1Types.OrderSpec_Defaults inp) (ArcTypes.OrderSpec_Defaults out) in
  Ok (ArcTypes.mkOrderSpec defaults
    (map cast_v1alpha1_OrderArtifact_To_arc (V1alpha1Types.OrderSpec_Artifacts inp))).

Definition Convert_v1alpha1_OrderSpec_To_arc_OrderSpec :=
  autoConvert_v1alpha1_OrderSpec_To_arc_OrderSpec.

Definition autoConvert_arc_OrderSpec_To_v1alpha1_OrderSpec
  (inp : ArcTypes.OrderSpec) (out : V1alpha1Types.OrderSpec) : outcome V1alpha1Types.OrderSpec :=
  let? defaults := Convert_arc_OrderDefaults_To_v1alpha1_OrderDefaults
      (ArcTypes.OrderSpec_Defaults inp) (V1alpha1Types.OrderSpec_Defaults out) in
  Ok (V1alpha1Types.mkOrderSpec defaults
    (map cast_arc_OrderArtifact_To_v1alpha1 (ArcTypes.OrderSpec_Artifacts inp))).

Definition Convert_arc_OrderSpec_To_v1alpha1_OrderSpec :=
  autoConvert_arc_OrderSpec_To_v1alpha1_OrderSpec.

(** *** OrderStatus *)

Definition cast_v1alpha1_OrderStatus_To_arc (inp : V1alpha1Types.OrderStatus) : ArcTypes.OrderStatus :=
  ArcTypes.mkOrderStatus
    (option_map (fmap (M := gmap string) cast_v1alpha1_OrderArtifactWorkflowStatus_To_arc) (V1alpha1Types.OrderStatus_ArtifactWorkflows inp)).

Definition cast_arc_OrderStatus_To_v1alpha1 (inp : ArcTypes.OrderStatus) : V1alpha1Types.OrderStatus :=
  V1alpha1Types.mkOrderStatus
    (option_map (fmap (M := gmap string) cast_arc_OrderArtifactWorkflowStatus_To_v1alpha1) (ArcTypes.OrderStatus_ArtifactWorkflows inp)).

Definition autoConvert_v1alpha1_OrderStatus_To_arc_OrderStatus
  (inp : V1alpha1Types.OrderStatus) (out : ArcTypes.OrderStatus) : outcome ArcTypes.OrderStatus :=
  Ok (ArcTypes.mkOrderStatus
    (option_map (fmap (M := gmap string) cast_v1alpha1_OrderArtifactWorkflowStatus_To_arc) (V1alpha1Types.OrderStatus_ArtifactWorkflows inp))).

Definition Convert_v1alpha1_OrderStatus_To_arc_OrderStatus :=
  autoConvert_v1alpha1_OrderStatus_To_arc_OrderStatus.

Definition autoConvert_arc_OrderStatus_To_v1alpha1_OrderStatus
  (inp : ArcTypes.OrderStatus) (out : V1alpha1Types.OrderStatus) : outcome V1alpha1Types.OrderStatus :=
  Ok (V1alpha1Types.mkOrderStatus
    (option_map (fmap (M := gmap string) cast_arc_OrderArtifactWorkflowStatus_To_v1alpha1) (ArcTypes.OrderStatus_ArtifactWorkflows inp))).

Definition Convert_arc_OrderStatus_To_v1alpha1_OrderStatus :=
  autoConvert_arc_OrderStatus_To_v1alpha1_OrderStatus.

(** *** Order *)

Definition cast_v1alpha1_Order_To_arc (inp : V1alpha1Types.Order) : ArcTypes.Order :=
  ArcTypes.mkOrder (V1alpha1Types.Order_TypeMeta inp)
    (V1alpha1Types.Order_ObjectMeta inp)
    (cast_v1alpha1_OrderSpec_To_arc (V1alpha1Types.Order_Spec inp))
    (cast_v1alpha1_OrderStatus_To_arc (V1alpha1Types.Order_Status inp)).

Definition cast_arc_Order_To_v1alpha1 (inp : ArcTypes.Order) : V1alpha1Types.Order :=
  V1alpha1Types.mkOrder (ArcTypes.Order_TypeMeta inp) (ArcTypes.Order_ObjectMeta inp)
    (cast_arc_OrderSpec_To_v1alpha1 (ArcTypes.Order_Spec inp))
    (cast_arc_OrderStatus_To_v1alpha1 (ArcTypes.Order_Status inp)).

Definition autoConvert_v1alpha1_Order_To_arc_Order
  (inp : V1alpha1Types.Order) (out : ArcTypes.Order) : outcome ArcTypes.Order :=
  let? spec := Convert_v1alpha1_OrderSpec_To_arc_OrderSpec
      (V1alpha1Types.Order_Spec inp) (ArcTypes.Order_Spec out) in
  let? status := Convert_v1alpha1_OrderStatus_To_arc_OrderStatus
      (V1alpha1Types.Order_Status inp) (ArcTypes.Order_Status out) in
  Ok (ArcTypes.mkOrder (ArcTypes.Order_TypeMeta out)
    (V1alpha1Types.Order_ObjectMeta inp) spec status).

Definition Convert_v1alpha1_Order_To_arc_Order :=
  autoConvert_v1alpha1_Order_To_arc_Order.

Definition autoConvert_arc_Order_To_v1alpha1_Order
  (inp : ArcTypes.Order) (out : V1alpha1Types.Order) : outcome V1alpha1Types.Order :=
  let? spec := Convert_arc_OrderSpec_To_v1alpha1_OrderSpec
      (ArcTypes.Order_Spec inp) (V1alpha1Types.Order_Spec out) in
  let? status := Convert_arc_OrderStatus_To_v1alpha1_OrderStatus
      (ArcTypes.Order_Status inp) (V1alpha1Types.Order_Status out) in
  Ok (V1alpha1Types.mkOrder (V1alpha1Types.Order_TypeMeta out)
    (ArcTypes.Order_ObjectMeta inp) spec status).

Definition Convert_arc_Order_To_v1alpha1_Order :=
  autoConvert_arc_Order_To_v1alpha1_Order.

(** *** OrderList *)

Definition cast_v1alpha1_OrderList_To_arc (inp : V1alpha1Types.OrderList) : ArcTypes.OrderList :=
  ArcTypes.mkOrderList (V1alpha1Types.OrderList_TypeMeta inp)
    (V1alpha1Types.OrderList_ListMeta inp)
    (map cast_v1alpha1_Order_To_arc (V1alpha1Types.OrderList_Items inp)).

Definition cast_arc_OrderList_To_v1alpha1 (inp : ArcTypes.OrderList) : V1alpha1Types.OrderList :=
  V1alpha1Types.mkOrderList (ArcTypes.OrderList_TypeMeta inp)
    (ArcTypes.OrderList_ListMeta inp)
    (map cast_arc_Order_To_v1alpha1 (ArcTypes.OrderList_Items inp)).

Definition autoConvert_v1alpha1_OrderList_To_arc_OrderList
  (inp : V1alpha1Types.OrderList) (out : ArcTypes.OrderList) : outcome ArcTypes.OrderList :=
  Ok (ArcTypes.mkOrderList (ArcTypes.OrderList_TypeMeta out)
    (V1alpha1Types.OrderList_ListMeta inp)
    (map cast_v1alpha1_Order_To_arc (V1alpha1Types.OrderList_Items inp))).

Definition Convert_v1alpha1_OrderList_To_arc_OrderList :=
  autoConvert_v1alpha1_OrderList_To_arc_OrderList.

Definition autoConvert_arc_OrderList_To_v1alpha1_OrderList
  (inp : ArcTypes.OrderList) (out : V1alpha1Types.OrderList) : outcome V1alpha1Types.OrderList :=
  Ok (V1alpha1Types.mkOrderList (V1alpha1Types.OrderList_TypeMeta out)
    (ArcTypes.OrderList_ListMeta inp)
    (map cast_arc_Order_To_v1alpha1 (ArcTypes.OrderList_Items inp))).

Definition Convert_arc_OrderList_To_v1alpha1_OrderList :=
  autoConvert_arc_OrderList_To_v1alpha1_OrderList.

(** ** The types by name *)

Inductive typeName :=
| TArtifactType
| TArtifactTypeList
| TArtifactTypeRules
| TArtifactTypeSpec
| TArtifactTypeStatus
| TArtifactWorkflow
| TArtifactWorkflowList
| TArtifactWorkflowParameter
| TArtifactWorkflowSpec
| TArtifactWorkflowStatus
| TEndpoint
| TEndpointList
| TEndpointSpec
| TEndpointStatus
| TOrder
| TOrderArtifact
| TOrderArtifactWorkflowStatus
| TOrderDefaults
| TOrderList
| TOrderSpec
| TOrderStatus.

#[export] Instance typeName_eq_dec : EqDecision typeName.
Proof. solve_decision. Defined.

Definition vtype (n : typeName) : Type :=
  match n with
  | TArtifactType => V1alpha1Types.ArtifactType
  | TArtifactTypeList => V1alpha1Types.ArtifactTypeList
  | TArtifactTypeRules => V1alpha1Types.ArtifactTypeRules
  | TArtifactTypeSpec => V1alpha1Types.ArtifactTypeSpec
  | TArtifactTypeStatus => V1alpha1Types.ArtifactTypeStatus
  | TArtifactWorkflow => V1alpha1Types.ArtifactWorkflow
  | TArtifactWorkflowList => V1alpha1Types.ArtifactWorkflowList
  | TArtifactWorkflowParameter => V1alpha1Types.ArtifactWorkflowParameter
  | TArtifactWorkflowSpec => V1alpha1Types.ArtifactWorkflowSpec
  | TArtifactWorkflowStatus => V1alpha1Types.ArtifactWorkflowStatus
  | TEndpoint => V1alpha1Types.Endpoint
  | TEndpointList => V1alpha1Types.EndpointList
  | TEndpointSpec => V1alpha1Types.EndpointSpec
  | TEndpointStatus => V1alpha1Types.EndpointStatus
  | TOrder => V1alpha1Types.Order
  | TOrderArtifact => V1alpha1Types.OrderArtifact
  | TOrderArtifactWorkflowStatus => V1alpha1Types.OrderArtifactWorkflowStatus
  | TOrderDefaults => V1alpha1Types.OrderDefaults
  | TOrderList => V1alpha1Types.OrderList
  | TOrderSpec => V1alpha1Types.OrderSpec
  | TOrderStatus => V1alpha1Types.OrderStatus
  end.

Definition atype (n : typeName) : Type :=
  match n with
  | TArtifactType => ArcTypes.ArtifactType
  | TArtifactTypeList => ArcTypes.ArtifactTypeList
  | TArtifactTypeRules => ArcTypes.ArtifactTypeRules
  | TArtifactTypeSpec => ArcTypes.ArtifactTypeSpec
  | TArtifactTypeStatus => ArcTypes.ArtifactTypeStatus
  | TArtifactWorkflow => ArcTypes.ArtifactWorkflow
  | TArtifactWorkflowList => ArcTypes.ArtifactWorkflowList
  | TArtifactWorkflowParameter => ArcTypes.ArtifactWorkflowParameter
  | TArtifactWorkflowSpec => ArcTypes.ArtifactWorkflowSpec
  | TArtifactWorkflowStatus => ArcTypes.ArtifactWorkflowStatus
  | TEndpoint => ArcTypes.Endpoint
  | TEndpointList => ArcTypes.EndpointList
  | TEndpointSpec => ArcTypes.EndpointSpec
  | TEndpointStatus => ArcTypes.EndpointStatus
  | TOrder => ArcTypes.Order
  | TOrderArtifact => ArcTypes.OrderArtifact
  | TOrderArtifactWorkflowStatus => ArcTypes.OrderArtifactWorkflowStatus
  | TOrderDefaults => ArcTypes.OrderDefaults
  | TOrderList => ArcTypes.OrderList
  | TOrderSpec => ArcTypes.OrderSpec
  | TOrderStatus => ArcTypes.OrderStatus
  end.

(** The conversion functions by type. *)
Definition to_arc (n : typeName) : vtype n -> atype n -> outcome (atype n) :=
  match n with
  | TArtifactType => Convert_v1alpha1_ArtifactType_To_arc_ArtifactType
  | TArtifactTypeList => Convert_v1alpha1_ArtifactTypeList_To_arc_ArtifactTypeList
  | TArtifactTypeRules => Convert_v1alpha1_ArtifactTypeRules_To_arc_ArtifactTypeRules
  | TArtifactTypeSpec => Convert_v1alpha1_ArtifactTypeSpec_To_arc_ArtifactTypeSpec
  | TArtifactTypeStatus => Convert_v1alpha1_ArtifactTypeStatus_To_arc_ArtifactTypeStatus
  | TArtifactWorkflow => Convert_v1alpha1_ArtifactWorkflow_To_arc_ArtifactWorkflow
  | TArtifactWorkflowList => Convert_v1alpha1_ArtifactWorkflowList_To_arc_ArtifactWorkflowList
  | TArtifactWorkflowParameter => Convert_v1alpha1_ArtifactWorkflowParameter_To_arc_ArtifactWorkflowParameter
  | TArtifactWorkflowSpec => Convert_v1alpha1_ArtifactWorkflowSpec_To_arc_ArtifactWorkflowSpec
  | TArtifactWorkflowStatus => Convert_v1alpha1_ArtifactWorkflowStatus_To_arc_ArtifactWorkflowStatus
  | TEndpoint => Convert_v1alpha1_Endpoint_To_arc_Endpoint
  | TEndpointList => Convert_v1alpha1_EndpointList_To_arc_EndpointList
  | TEndpointSpec => Convert_v1alpha1_EndpointSpec_To_arc_EndpointSpec
  | TEndpointStatus => Convert_v1alpha1_EndpointStatus_To_arc_EndpointStatus
  | TOrder => Convert_v1alpha1_Order_To_arc_Order
  | TOrderArtifact => Convert_v1alpha1_OrderArtifact_To_arc_OrderArtifact
  | TOrderArtifactWorkflowStatus => Convert_v1alpha1_OrderArtifactWorkflowStatus_To_arc_OrderArtifactWorkflowStatus
  | TOrderDefaults => Convert_v1alpha1_OrderDefaults_To_arc_OrderDefaults
  | TOrderList => Convert_v1alpha1_OrderList_To_arc_OrderList
  | TOrderSpec => Convert_v1alpha1_OrderSpec_To_arc_OrderSpec
  | TOrderStatus => Convert_v1alpha1_OrderStatus_To_arc_OrderStatus
  end.

Definition to_v1alpha1 (n : typeName) : atype n -> vtype n -> outcome (vtype n) :=
  match n with
  | TArtifactType => Convert_arc_ArtifactType_To_v1alpha1_ArtifactType
  | TArtifactTypeList => Convert_arc_ArtifactTypeList_To_v1alpha1_ArtifactTypeList
  | TArtifactTypeRules => Convert_arc_ArtifactTypeRules_To_v1alpha1_ArtifactTypeRules
  | TArtifactTypeSpec => Convert_arc_ArtifactTypeSpec_To_v1alpha1_ArtifactTypeSpec
  | TArtifactTypeStatus => Convert_arc_ArtifactTypeStatus_To_v1alpha1_ArtifactTypeStatus
  | TArtifactWorkflow => Convert_arc_ArtifactWorkflow_To_v1alpha1_ArtifactWorkflow
  | TArtifactWorkflowList => Convert_arc_ArtifactWorkflowList_To_v1alpha1_ArtifactWorkflowList
  | TArtifactWorkflowParameter => Convert_arc_ArtifactWorkflowParameter_To_v1alpha1_ArtifactWorkflowParameter
  | TArtifactWorkflowSpec => Convert_arc_ArtifactWorkflowSpec_To_v1alpha1_ArtifactWorkflowSpec
  | TArtifactWorkflowStatus => Convert_arc_ArtifactWorkflowStatus_To_v1alpha1_ArtifactWorkflowStatus
  | TEndpoint => Convert_arc_Endpoint_To_v1alpha1_Endpoint
  | TEndpointList => Convert_arc_EndpointList_To_v1alpha1_EndpointList
  | TEndpointSpec => Convert_arc_EndpointSpec_To_v1alpha1_EndpointSpec
  | TEndpointStatus => Convert_arc_EndpointStatus_To_v1alpha1_EndpointStatus
  | TOrder => Convert_arc_Order_To_v1alpha1_Order
  | TOrderArtifact => Convert_arc_OrderArtifact_To_v1alpha1_OrderArtifact
  | TOrderArtifactWorkflowStatus => Convert_arc_OrderArtifactWorkflowStatus_To_v1alpha1_OrderArtifactWorkflowStatus
  | TOrderDefaults => Convert_arc_OrderDefaults_To_v1alpha1_OrderDefaults
  | TOrderList => Convert_arc_OrderList_To_v1alpha1_OrderList
  | TOrderSpec => Convert_arc_OrderSpec_To_v1alpha1_OrderSpec
  | TOrderStatus => Convert_arc_OrderStatus_To_v1alpha1_OrderStatus
  end.

(** The reinterpretation of memory by type. *)
Definition cast_arc (n : typeName) : vtype n -> atype n :=
  match n with
  | TArtifactType => cast_v1alpha1_ArtifactType_To_arc
  | TArtifactTypeList => cast_v1alpha1_ArtifactTypeList_To_arc
  | TArtifactTypeRules => cast_v1alpha1_ArtifactTypeRules_To_arc
  | TArtifactTypeSpec => cast_v1alpha1_ArtifactTypeSpec_To_arc
  | TArtifactTypeStatus => cast_v1alpha1_ArtifactTypeStatus_To_arc
  | TArtifactWorkflow => cast_v1alpha1_ArtifactWorkflow_To_arc
  | TArtifactWorkflowList => cast_v1alpha1_ArtifactWorkflowList_To_arc
  | TArtifactWorkflowParameter => cast_v1alpha1_ArtifactWorkflowParameter_To_arc
  | TArtifactWorkflowSpec => cast_v1alpha1_ArtifactWorkflowSpec_To_arc
  | TArtifactWorkflowStatus => cast_v1alpha1_ArtifactWorkflowStatus_To_arc
  | TEndpoint => cast_v1alpha1_Endpoint_To_arc
  | TEndpointList => cast_v1alpha1_EndpointList_To_arc
  | TEndpointSpec => cast_v1alpha1_EndpointSpec_To_arc
  | TEndpointStatus => cast_v1alpha1_EndpointStatus_To_arc
  | TOrder => cast_v1alpha1_Order_To_arc
  | TOrderArtifact => cast_v1alpha1_OrderArtifact_To_arc
  | TOrderArtifactWorkflowStatus => cast_v1alpha1_OrderArtifactWorkflowStatus_To_arc
  | TOrderDefaults => cast_v1alpha1_OrderDefaults_To_arc
  | TOrderList => cast_v1alpha1_OrderList_To_arc
  | TOrderSpec => cast_v1alpha1_OrderSpec_To_arc
  | TOrderStatus => cast_v1alpha1_OrderStatus_To_arc
  end.

Definition cast_v1alpha1 (n : typeName) : atype n -> vtype n :=
  match n with
  | TArtifactType => cast_arc_ArtifactType_To_v1alpha1
  | TArtifactTypeList => cast_arc_ArtifactTypeList_To_v1alpha1
  | TArtifactTypeRules => cast_arc_ArtifactTypeRules_To_v1alpha1
  | TArtifactTypeSpec => cast_arc_ArtifactTypeSpec_To_v1alpha1
  | TArtifactTypeStatus => cast_arc_ArtifactTypeStatus_To_v1alpha1
  | TArtifactWorkflow => cast_arc_ArtifactWorkflow_To_v1alpha1
  | TArtifactWorkflowList => cast_arc_ArtifactWorkflowList_To_v1alpha1
  | TArtifactWorkflowParameter => cast_arc_ArtifactWorkflowParameter_To_v1alpha1
  | TArtifactWorkflowSpec => cast_arc_ArtifactWorkflowSpec_To_v1alpha1
  | TArtifactWorkflowStatus => cast_arc_ArtifactWorkflowStatus_To_v1alpha1
  | TEndpoint => cast_arc_Endpoint_To_v1alpha1
  | TEndpointList => cast_arc_EndpointList_To_v1alpha1
  | TEndpointSpec => cast_arc_EndpointSpec_To_v1alpha1
  | TEndpointStatus => cast_arc_EndpointStatus_To_v1alpha1
  | TOrder => cast_arc_Order_To_v1alpha1
  | TOrderArtifact => cast_arc_OrderArtifact_To_v1alpha1
  | TOrderArtifactWorkflowStatus => cast_arc_OrderArtifactWorkflowStatus_To_v1alpha1
  | TOrderDefaults => cast_arc_OrderDefaults_To_v1alpha1
  | TOrderList => cast_arc_OrderList_To_v1alpha1
  | TOrderSpec => cast_arc_OrderSpec_To_v1alpha1
  | TOrderStatus => cast_arc_OrderStatus_To_v1alpha1
  end.

(** A value with the TypeMeta of another one, for the types that have one. *)
Definition akeep (n : typeName) : atype n -> atype n -> atype n :=
  match n with
  | TArtifactType => fun out x =>
      ArcTypes.mkArtifactType (ArcTypes.AT_TypeMeta out) (ArcTypes.AT_ObjectMeta x)
        (ArcTypes.AT_Spec x) (ArcTypes.AT_Status x)
  | TArtifactTypeList => fun out x =>
      ArcTypes.mkArtifactTypeList (ArcTypes.ATList_TypeMeta out)
        (ArcTypes.ATList_ListMeta x) (ArcTypes.ATList_Items x)
  | TArtifactTypeRules => fun _ x => x
  | TArtifactTypeSpec => fun _ x => x
  | TArtifactTypeStatus => fun _ x => x
  | TArtifactWorkflow => fun out x =>
      ArcTypes.mkArtifactWorkflow (ArcTypes.AW_TypeMeta out) (ArcTypes.AW_ObjectMeta x)
        (ArcTypes.AW_Spec x) (ArcTypes.AW_Status x)
  | TArtifactWorkflowList => fun out x =>
      ArcTypes.mkArtifactWorkflowList (ArcTypes.AWList_TypeMeta out)
        (ArcTypes.AWList_ListMeta x) (ArcTypes.AWList_Items x)
  | TArtifactWorkflowParameter => fun _ x => x
  | TArtifactWorkflowSpec => fun _ x => x
  | TArtifactWorkflowStatus => fun _ x => x
  | TEndpoint => fun out x =>
      ArcTypes.mkEndpoint (ArcTypes.EP_TypeMeta out) (ArcTypes.EP_ObjectMeta x)
        (ArcTypes.EP_Spec x) (ArcTypes.EP_Status x)
  | TEndpointList => fun out x =>
      ArcTypes.mkEndpointList (ArcTypes.EPList_TypeMeta out)
        (ArcTypes.EPList_ListMeta x) (ArcTypes.EPList_Items x)
  | TEndpointSpec => fun _ x => x
  | TEndpointStatus => fun _ x => x
  | TOrder => fun out x =>
      ArcTypes.mkOrder (ArcTypes.Order_TypeMeta out) (ArcTypes.Order_ObjectMeta x)
        (ArcTypes.Order_Spec x) (ArcTypes.Order_Status x)
  | TOrderArtifact => fun _ x => x
  | TOrderArtifactWorkflowStatus => fun _ x => x
  | TOrderDefaults => fun _ x => x
  | TOrderList => fun out x =>
      ArcTypes.mkOrderList (ArcTypes.OrderList_TypeMeta out)
        (ArcTypes.OrderList_ListMeta x) (ArcTypes.OrderList_Items x)
  | TOrderSpec => fun _ x => x
  | TOrderStatus => fun _ x => x
  end.

Definition vkeep (n : typeName) : vtype n -> vtype n -> vtype n :=
  match n with
  | TArtifactType => fun out x =>
      V1alpha1Types.mkArtifactType (V1alpha1Types.AT_TypeMeta out)
        (V1alpha1Types.AT_ObjectMeta x) (V1alpha1Types.AT_Spec x)
        (V1alpha1Types.AT_Status x)
  | TArtifactTypeList => fun out x =>
      V1alpha1Types.mkArtifactTypeList (V1alpha1Types.ATList_TypeMeta out)
        (V1alpha1Types.ATList_ListMeta x) (V1alpha1Types.ATList_Items x)
  | TArtifactTypeRules => fun _ x => x
  | TArtifactTypeSpec => fun _ x => x
  | TArtifactTypeStatus => fun _ x => x
  | TArtifactWorkflow => fun out x =>
      V1alpha1Types.mkArtifactWorkflow (V1alpha1Types.AW_TypeMeta out)
        (V1alpha1Types.AW_ObjectMeta x) (V1alpha1Types.AW_Spec x)
        (V1alpha1Types.AW_Status x)
  | TArtifactWorkflowList => fun out x =>
      V1alpha1Types.mkArtifactWorkflowList (V1alpha1Types.AWList_TypeMeta out)
        (V1alpha1Types.AWList_ListMeta x) (V1alpha1Types.AWList_Items x)
  | TArtifactWorkflowParameter => fun _ x => x
  | TArtifactWorkflowSpec => fun _ x => x
  | TArtifactWorkflowStatus => fun _ x => x
  | TEndpoint => fun out x =>
      V1alpha1Types.mkEndpoint (V1alpha1Types.EP_TypeMeta out)
        (V1alpha1Types.EP_ObjectMeta x) (V1alpha1Types.EP_Spec x)
        (V1alpha1Types.EP_Status x)
  | TEndpointList => fun out x =>
      V1alpha1Types.mkEndpointList (V1alpha1Types.EPList_TypeMeta out)
        (V1alpha1Types.EPList_ListMeta x) (V1alpha1Types.EPList_Items x)
  | TEndpointSpec => fun _ x => x
  | TEndpointStatus => fun _ x => x
  | TOrder => fun out x =>
      V1alpha1Types.mkOrder (V1alpha1Types.Order_TypeMeta out)
        (V1alpha1Types.Order_ObjectMeta x) (V1alpha1Types.Order_Spec x)
        (V1alpha1Types.Order_Status x)
  | TOrderArtifact => fun _ x => x
  | TOrderArtifactWorkflowStatus => fun _ x => x
  | TOrderDefaults => fun _ x => x
  | TOrderList => fun out x =>
      V1alpha1Types.mkOrderList (V1alpha1Types.OrderList_TypeMeta out)
        (V1alpha1Types.OrderList_ListMeta x) (V1alpha1Types.OrderList_Items x)
  | TOrderSpec => fun _ x => x
  | TOrderStatus => fun _ x => x
  end.

(** ** Facts about all types *)

(** Reinterpreting there and back gives the same value. *)
Lemma map_cast_id {A B} (f : A -> B) (g : B -> A) l :
  (forall x, g (f x) = x) -> map g (map f l) = l.
Proof. intros Hgf. rewrite map_map. rewrite <- (map_id l) at 2. apply map_ext. auto. Qed.

Lemma fmap_cast_id {A B} (f : A -> B) (g : B -> A) (m : option (gmap string A)) :
  (forall x, g (f x) = x) -> option_map (fmap (M := gmap string) g) (option_map (fmap f) m) = m.
Proof.
  intros Hgf. destruct m as [m|]; [|done]. simpl. f_equal.
  rewrite <- map_fmap_compose. rewrite <- (map_fmap_id m) at 2.
  apply map_fmap_ext. intros i x _. apply Hgf.
Qed.

#[export] Hint Resolve map_cast_id fmap_cast_id : arc.

(** Casting there and back, type by type. *)

Ltac cast_id :=
  intros x; destruct x;
  match goal with |- ?f (?g _) = _ => unfold f, g end; cbn; f_equal; eauto with arc.

Lemma cast_ArtifactTypeRules_id : forall x,
  cast_arc_ArtifactTypeRules_To_v1alpha1 (cast_v1alpha1_ArtifactTypeRules_To_arc x) = x.
Proof. cast_id. Qed.
Lemma cast_ArtifactTypeRules_id' : forall x,
  cast_v1alpha1_ArtifactTypeRules_To_arc (cast_arc_ArtifactTypeRules_To_v1alpha1 x) = x.
Proof. cast_id. Qed.
#[local] Arguments cast_v1alpha1_ArtifactTypeRules_To_arc : simpl never.
#[local] Arguments cast_arc_ArtifactTypeRules_To_v1alpha1 : simpl never.
#[export] Hint Resolve cast_ArtifactTypeRules_id cast_ArtifactTypeRules_id' : arc.

Lemma cast_ArtifactWorkflowParameter_id : forall x,
  cast_arc_ArtifactWorkflowParameter_To_v1alpha1 (cast_v1alpha1_ArtifactWorkflowParameter_To_arc x) = x.
Proof. cast_id. Qed.
Lemma cast_ArtifactWorkflowParameter_id' : forall x,
  cast_v1alpha1_ArtifactWorkflowParameter_To_arc (cast_arc_ArtifactWorkflowParameter_To_v1alpha1 x) = x.
Proof. cast_id. Qed.
#[local] Arguments cast_v1alpha1_ArtifactWorkflowParameter_To_arc : simpl never.
#[local] Arguments cast_arc_ArtifactWorkflowParameter_To_v1alpha1 : simpl never.
#[export] Hint Resolve cast_ArtifactWorkflowParameter_id cast_ArtifactWorkflowParameter_id' : arc.

Lemma cast_ArtifactTypeSpec_id : forall x,
  cast_arc_ArtifactTypeSpec_To_v1alpha1 (cast_v1alpha1_ArtifactTypeSpec_To_arc x) = x.
Proof. cast_id. Qed.
Lemma cast_ArtifactTypeSpec_id' : forall x,
  cast_v1alpha1_ArtifactTypeSpec_To_arc (cast_arc_ArtifactTypeSpec_To_v1alpha1 x) = x.
Proof. cast_id. Qed.
#[local] Arguments cast_v1alpha1_ArtifactTypeSpec_To_arc : simpl never.
#[local] Arguments cast_arc_ArtifactTypeSpec_To_v1alpha1 : simpl never.
#[export] Hint Resolve cast_ArtifactTypeSpec_id cast_ArtifactTypeSpec_id' : arc.

Lemma cast_ArtifactTypeStatus_id : forall x,
  cast_arc_ArtifactTypeStatus_To_v1alpha1 (cast_v1alpha1_ArtifactTypeStatus_To_arc x) = x.
Proof. cast_id. Qed.
Lemma cast_ArtifactTypeStatus_id' : forall x,
  cast_v1alpha1_ArtifactTypeStatus_To_arc (cast_arc_ArtifactTypeStatus_To_v1alpha1 x) = x.
Proof. cast_id. Qed.
#[local] Arguments cast_v1alpha1_ArtifactTypeStatus_To_arc : simpl never.
#[local] Arguments cast_arc_ArtifactTypeStatus_To_v1alpha1 : simpl never.
#[export] Hint Resolve cast_ArtifactTypeStatus_id cast_ArtifactTypeStatus_id' : arc.

Lemma cast_ArtifactType_id : forall x,
  cast_arc_ArtifactType_To_v1alpha1 (cast_v1alpha1_ArtifactType_To_arc x) = x.
Proof. cast_id. Qed.
Lemma cast_ArtifactType_id' : forall x,
  cast_v1alpha1_ArtifactType_To_arc (cast_arc_ArtifactType_To_v1alpha1 x) = x.
Proof. cast_id. Qed.
#[local] Arguments cast_v1alpha1_ArtifactType_To_arc : simpl never.
#[local] Arguments cast_arc_ArtifactType_To_v1alpha1 : simpl never.
#[export] Hint Resolve cast_ArtifactType_id cast_ArtifactType_id' : arc.

Lemma cast_ArtifactTypeList_id : forall x,
  cast_arc_ArtifactTypeList_To_v1alpha1 (cast_v1alpha1_ArtifactTypeList_To_arc x) = x.
Proof. cast_id. Qed.
Lemma cast_ArtifactTypeList_id' : forall x,
  cast_v1alpha1_ArtifactTypeList_To_arc (cast_arc_ArtifactTypeList_To_v1alpha1 x) = x.
Proof. cast_id. Qed.
#[local] Arguments cast_v1alpha1_ArtifactTypeList_To_arc : simpl never.
#[local] Arguments cast_arc_ArtifactTypeList_To_v1alpha1 : simpl never.
#[export] Hint Resolve cast_ArtifactTypeList_id cast_ArtifactTypeList_id' : arc.

Lemma cast_ArtifactWorkflowSpec_id : forall x,
  cast_arc_ArtifactWorkflowSpec_To_v1alpha1 (cast_v1alpha1_ArtifactWorkflowSpec_To_arc x) = x.
Proof. cast_id. Qed.
Lemma cast_ArtifactWorkflowSpec_id' : forall x,
  cast_v1alpha1_ArtifactWorkflowSpec_To_arc (cast_arc_ArtifactWorkflowSpec_To_v1alpha1 x) = x.
Proof. cast_id. Qed.
#[local] Arguments cast_v1alpha1_ArtifactWorkflowSpec_To_arc : simpl never.
#[local] Arguments cast_arc_ArtifactWorkflowSpec_To_v1alpha1 : simpl never.
#[export] Hint Resolve cast_ArtifactWorkflowSpec_id cast_ArtifactWorkflowSpec_id' : arc.

Lemma cast_ArtifactWorkflowStatus_id : forall x,
  cast_arc_ArtifactWorkflowStatus_To_v1alpha1 (cast_v1alpha1_ArtifactWorkflowStatus_To_arc x) = x.
Proof. cast_id. Qed.
Lemma cast_ArtifactWorkflowStatus_id' : forall x,
  cast_v1alpha1_ArtifactWorkflowStatus_To_arc (cast_arc_ArtifactWorkflowStatus_To_v1alpha1 x) = x.
Proof. cast_id. Qed.
#[local] Arguments cast_v1alpha1_ArtifactWorkflowStatus_To_arc : simpl never.
#[local] Arguments cast_arc_ArtifactWorkflowStatus_To_v1alpha1 : simpl never.
#[export] Hint Resolve cast_ArtifactWorkflowStatus_id cast_ArtifactWorkflowStatus_id' : arc.

Lemma cast_ArtifactWorkflow_id : forall x,
  cast_arc_ArtifactWorkflow_To_v1alpha1 (cast_v1alpha1_ArtifactWorkflow_To_arc x) = x.
Proof. cast_id. Qed.
Lemma cast_ArtifactWorkflow_id' : forall x,
  cast_v1alpha1_ArtifactWorkflow_To_arc (cast_arc_ArtifactWorkflow_To_v1alpha1 x) = x.
Proof. cast_id. Qed.
#[local] Arguments cast_v1alpha1_ArtifactWorkflow_To_arc : simpl never.
#[local] Arguments cast_arc_ArtifactWorkflow_To_v1alpha1 : simpl never.
#[export] Hint Resolve cast_ArtifactWorkflow_id cast_ArtifactWorkflow_id' : arc.

Lemma cast_ArtifactWorkflowList_id : forall x,
  cast_arc_ArtifactWorkflowList_To_v1alpha1 (cast_v1alpha1_ArtifactWorkflowList_To_arc x) = x.
Proof. cast_id. Qed.
Lemma cast_ArtifactWorkflowList_id' : forall x,
  cast_v1alpha1_ArtifactWorkflowList_To_arc (cast_arc_ArtifactWorkflowList_To_v1alpha1 x) = x.
Proof. cast_id. Qed.
#[local] Arguments cast_v1alpha1_ArtifactWorkflowList_To_arc : simpl never.
#[local] Arguments cast_arc_ArtifactWorkflowList_To_v1alpha1 : simpl never.
#[export] Hint Resolve cast_ArtifactWorkflowList_id cast_ArtifactWorkflowList_id' : arc.

Lemma cast_EndpointSpec_id : forall x,
  cast_arc_EndpointSpec_To_v1alpha1 (cast_v1alpha1_EndpointSpec_To_arc x) = x.
Proof. cast_id. Qed.
Lemma cast_EndpointSpec_id' : forall x,
  cast_v1alpha1_EndpointSpec_To_arc (cast_arc_EndpointSpec_To_v1alpha1 x) = x.
Proof. cast_id. Qed.
#[local] Arguments cast_v1alpha1_EndpointSpec_To_arc : simpl never.
#[local] Arguments cast_arc_EndpointSpec_To_v1alpha1 : simpl never.
#[export] Hint Resolve cast_EndpointSpec_id cast_EndpointSpec_id' : arc.

Lemma cast_EndpointStatus_id : forall x,
  cast_arc_EndpointStatus_To_v1alpha1 (cast_v1alpha1_EndpointStatus_To_arc x) = x.
Proof. cast_id. Qed.
Lemma cast_EndpointStatus_id' : forall x,
  cast_v1alpha1_EndpointStatus_To_arc (cast_arc_EndpointStatus_To_v1alpha1 x) = x.
Proof. cast_id. Qed.
#[local] Arguments cast_v1alpha1_EndpointStatus_To_arc : simpl never.
#[local] Arguments cast_arc_EndpointStatus_To_v1alpha1 : simpl never.
#[export] Hint Resolve cast_EndpointStatus_id cast_EndpointStatus_id' : arc.

Lemma cast_Endpoint_id : forall x,
  cast_arc_Endpoint_To_v1alpha1 (cast_v1alpha1_Endpoint_To_arc x) = x.
Proof. cast_id. Qed.
Lemma cast_Endpoint_id' : forall x,
  cast_v1alpha1_Endpoint_To_arc (cast_arc_Endpoint_To_v1alpha1 x) = x.
Proof. cast_id. Qed.
#[local] Arguments cast_v1alpha1_Endpoint_To_arc : simpl never.
#[local] Arguments cast_arc_Endpoint_To_v1alpha1 : simpl never.
#[export] Hint Resolve cast_Endpoint_id cast_Endpoint_id' : arc.

Lemma cast_EndpointList_id : forall x,
  cast_arc_EndpointList_To_v1alpha1 (cast_v1alpha1_EndpointList_To_arc x) = x.
Proof. cast_id. Qed.
Lemma cast_EndpointList_id' : forall x,
  cast_v1alpha1_EndpointList_To_arc (cast_arc_EndpointList_To_v1alpha1 x) = x.
Proof. cast_id. Qed.
#[local] Arguments cast_v1alpha1_EndpointList_To_arc : simpl never.
#[local] Arguments cast_arc_EndpointList_To_v1alpha1 : simpl never.
#[export] Hint Resolve cast_EndpointList_id cast_EndpointList_id' : arc.

Lemma cast_OrderDefaults_id : forall x,
  cast_arc_OrderDefaults_To_v1alpha1 (cast_v1alpha1_OrderDefaults_To_arc x) = x.
Proof. cast_id. Qed.
Lemma cast_OrderDefaults_id' : forall x,
  cast_v1alpha1_OrderDefaults_To_arc (cast_arc_OrderDefaults_To_v1alpha1 x) = x.
Proof. cast_id. Qed.
#[local] Arguments cast_v1alpha1_OrderDefaults_To_arc : simpl never.
#[local] Arguments cast_arc_OrderDefaults_To_v1alpha1 : simpl never.
#[export] Hint Resolve cast_OrderDefaults_id cast_OrderDefaults_id' : arc.

Lemma cast_OrderArtifact_id : forall x,
  cast_arc_OrderArtifact_To_v1alpha1 (cast_v1alpha1_OrderArtifact_To_arc x) = x.
Proof. cast_id. Qed.
Lemma cast_OrderArtifact_id' : forall x,
  cast_v1alpha1_OrderArtifact_To_arc (cast_arc_OrderArtifact_To_v1alpha1 x) = x.
Proof. cast_id. Qed.
#[local] Arguments cast_v1alpha1_OrderArtifact_To_arc : simpl never.
#[local] Arguments cast_arc_OrderArtifact_To_v1alpha1 : simpl never.
#[export] Hint Resolve cast_OrderArtifact_id cast_OrderArtifact_id' : arc.

Lemma cast_OrderArtifactWorkflowStatus_id : forall x,
  cast_arc_OrderArtifactWorkflowStatus_To_v1alpha1 (cast_v1alpha1_OrderArtifactWorkflowStatus_To_arc x) = x.
Proof. cast_id. Qed.
Lemma cast_OrderArtifactWorkflowStatus_id' : forall x,
  cast_v1alpha1_OrderArtifactWorkflowStatus_To_arc (cast_arc_OrderArtifactWorkflowStatus_To_v1alpha1 x) = x.
Proof. cast_id. Qed.
#[local] Arguments cast_v1alpha1_OrderArtifactWorkflowStatus_To_arc : simpl never.
#[local] Arguments cast_arc_OrderArtifactWorkflowStatus_To_v1alpha1 : simpl never.
#[export] Hint Resolve cast_OrderArtifactWorkflowStatus_id cast_OrderArtifactWorkflowStatus_id' : arc.

Lemma cast_OrderSpec_id : forall x,
  cast_arc_OrderSpec_To_v1alpha1 (cast_v1alpha1_OrderSpec_To_arc x) = x.
Proof. cast_id. Qed.
Lemma cast_OrderSpec_id' : forall x,
  cast_v1alpha1_OrderSpec_To_arc (cast_arc_OrderSpec_To_v1alpha1 x) = x.
Proof. cast_id. Qed.
#[local] Arguments cast_v1alpha1_OrderSpec_To_arc : simpl never.
#[local] Arguments cast_arc_OrderSpec_To_v1alpha1 : simpl never.
#[export] Hint Resolve cast_OrderSpec_id cast_OrderSpec_id' : arc.

Lemma cast_OrderStatus_id : forall x,
  cast_arc_OrderStatus_To_v1alpha1 (cast_v1alpha1_OrderStatus_To_arc x) = x.
Proof. cast_id. Qed.
Lemma cast_OrderStatus_id' : forall x,
  cast_v1alpha1_OrderStatus_To_arc (cast_arc_OrderStatus_To_v1alpha1 x) = x.
Proof. cast_id. Qed.
#[local] Arguments cast_v1alpha1_OrderStatus_To_arc : simpl never.
#[local] Arguments cast_arc_OrderStatus_To_v1alpha1 : simpl never.
#[export] Hint Resolve cast_OrderStatus_id cast_OrderStatus_id' : arc.

Lemma cast_Order_id : forall x,
  cast_arc_Order_To_v1alpha1 (cast_v1alpha1_Order_To_arc x) = x.
Proof. cast_id. Qed.
Lemma cast_Order_id' : forall x,
  cast_v1alpha1_Order_To_arc (cast_arc_Order_To_v1alpha1 x) = x.
Proof. cast_id. Qed.
#[local] Arguments cast_v1alpha1_Order_To_arc : simpl never.
#[local] Arguments cast_arc_Order_To_v1alpha1 : simpl never.
#[export] Hint Resolve cast_Order_id cast_Order_id' : arc.

Lemma cast_OrderList_id : forall x,
  cast_arc_OrderList_To_v1alpha1 (cast_v1alpha1_OrderList_To_arc x) = x.
Proof. cast_id. Qed.
Lemma cast_OrderList_id' : forall x,
  cast_v1alpha1_OrderList_To_arc (cast_arc_OrderList_To_v1alpha1 x) = x.
Proof. cast_id. Qed.
#[local] Arguments cast_v1alpha1_OrderList_To_arc : simpl never.
#[local] Arguments cast_arc_OrderList_To_v1alpha1 : simpl never.
#[export] Hint Resolve cast_OrderList_id cast_OrderList_id' : arc.

(** ** Facts about all types *)

Lemma cast_v1alpha1_arc n v : cast_v1alpha1 n (cast_arc n v) = v.
Proof. destruct n; eauto with arc. Qed.

Lemma cast_arc_v1alpha1 n a : cast_arc n (cast_v1alpha1 n a) = a.
Proof. destruct n; eauto with arc. Qed.

(** A conversion never fails and gives what reinterpreting the memory gives, except
    that the TypeMeta of the target stays. *)
Lemma to_arc_cast n v out : to_arc n v out = Ok (akeep n out (cast_arc n v)).
Proof.
  destruct n; try reflexivity; try (by destruct v, out).
  all: by destruct out as [? ? ? []].
Qed.

Lemma to_v1alpha1_cast n a out : to_v1alpha1 n a out = Ok (vkeep n out (cast_v1alpha1 n a)).
Proof.
  destruct n; try reflexivity; try (by destruct a, out).
  all: by destruct out as [? ? ? []].
Qed.

Lemma vkeep_akeep n v out out' :
  vkeep n out (cast_v1alpha1 n (akeep n out' (cast_arc n v))) = vkeep n out v.
Proof.
  rewrite <- (cast_v1alpha1_arc n v) at 2.
  destruct n; try reflexivity; by destruct v.
Qed.

