(* ===== verification/ConversionScheme.v ===== *)
(** * The registration of the conversions (zz_generated.conversion.go, RegisterConversions)

    [runtime.Scheme] is not part of the repository: it is a class with the two
    operations that matter here, registering a conversion function for a pair of
    types and finding the function of a pair, and their laws.  Its functions take
    values of any type and assert the types they were registered for. *)

From stdpp Require Import base list sets strings.
From S2P Require Import Prelude GoStd KubeTypes V1alpha1Types ArcTypes Conversion.

Local Open Scope string_scope.
Local Open Scope list_scope.

(** ** Values of any type *)

Inductive typeId :=
| TypeV1alpha1 (n : typeName)
| TypeArc (n : typeName).

#[export] Instance typeId_eq_dec : EqDecision typeId.
Proof. solve_decision. Defined.

Inductive object :=
| ObjV1alpha1 (n : typeName) (v : vtype n)
| ObjArc (n : typeName) (a : atype n).

(** The type assertions. *)
Definition as_v1alpha1 (n : typeName) (o : object) : option (vtype n) :=
  match o with
  | ObjV1alpha1 n' v =>
      match decide (n' = n) with
      | left e => Some (eq_rect n' vtype v n e)
      | right _ => None
      end
  | ObjArc _ _ => None
  end.

Definition as_arc (n : typeName) (o : object) : option (atype n) :=
  match o with
  | ObjArc n' a =>
      match decide (n' = n) with
      | left e => Some (eq_rect n' atype a n e)
      | right _ => None
      end
  | ObjV1alpha1 _ _ => None
  end.

Definition convFunc : Type := object -> object -> outcome object.

(** ** The scheme *)

Class Scheme (S : Type) := {
  AddGeneratedConversionFunc : S -> typeId -> typeId -> convFunc -> outcome S;
  converter : S -> typeId -> typeId -> option convFunc;
  Add_total : forall s a b f, exists s', AddGeneratedConversionFunc s a b f = Ok s';
  Add_same : forall s a b f s',
    AddGeneratedConversionFunc s a b f = Ok s' -> converter s' a b = Some f;
  Add_other : forall s a b f s' a' b',
    AddGeneratedConversionFunc s a b f = Ok s' -> (a, b) <> (a', b') ->
    converter s' a' b' = converter s a' b';
}.

(** ** RegisterConversions *)

Definition registration : Type := typeId * typeId * convFunc.

Definition assertion_failed : outcome object := Panic "interface conversion".

Definition to_internal (n : typeName) : registration :=
  (TypeV1alpha1 n, TypeArc n, fun a b =>
     match as_v1alpha1 n a, as_arc n b with
     | Some a, Some b => let? r := to_arc n a b in Ok (ObjArc n r)
     | _, _ => assertion_failed
     end).

Definition to_external (n : typeName) : registration :=
  (TypeArc n, TypeV1alpha1 n, fun a b =>
     match as_arc n a, as_v1alpha1 n b with
     | Some a, Some b => let? r := to_v1alpha1 n a b in Ok (ObjV1alpha1 n r)
     | _, _ => assertion_failed
     end).

Section register.
Context {S : Type} `{Scheme S}.

Fixpoint registerAll (s : S) (l : list registration) : outcome S :=
  match l with
  | [] => Ok s
  | (a, b, f) :: l => let? s := AddGeneratedConversionFunc s a b f in registerAll s l
  end.

Definition RegisterConversions (s : S) : outcome S :=
  registerAll s
   [to_internal TArtifactType; to_external TArtifactType;
    to_internal TArtifactTypeList; to_external TArtifactTypeList;
    to_internal TArtifactTypeRules; to_external TArtifactTypeRules;
    to_internal TArtifactTypeSpec; to_external TArtifactTypeSpec;
    to_internal TArtifactTypeStatus; to_external TArtifactTypeStatus;
    to_internal TArtifactWorkflow; to_external TArtifactWorkflow;
    to_internal TArtifactWorkflowList; to_external TArtifactWorkflowList;
    to_internal TArtifactWorkflowParameter; to_external TArtifactWorkflowParameter;
    to_internal TArtifactWorkflowSpec; to_external TArtifactWorkflowSpec;
    to_internal TArtifactWorkflowStatus; to_external TArtifactWorkflowStatus;
    to_internal TEndpoint; to_external TEndpoint;
    to_internal TEndpointList; to_external TEndpointList;
    to_internal TEndpointSpec; to_external TEndpointSpec;
    to_internal TEndpointStatus; to_external TEndpointStatus;
    to_internal TOrder; to_external TOrder;
    to_internal TOrderArtifact; to_external TOrderArtifact;
    to_internal TOrderArtifactWorkflowStatus; to_external TOrderArtifactWorkflowStatus;
    to_internal TOrderDefaults; to_external TOrderDefaults;
    to_internal TOrderList; to_external TOrderList;
    to_internal TOrderSpec; to_external TOrderSpec;
    to_internal TOrderStatus; to_external TOrderStatus].

(** ** Every conversion is found *)

Lemma registerAll_total s l : exists s', registerAll s l = Ok s'.
Proof.
  revert s. induction l as [|[[a b] f] l IH]; intros s; simpl; [eauto|].
  destruct (Add_total s a b f) as [s' ->]. apply IH.
Qed.

Lemma registerAll_other s l s' a b :
  registerAll s l = Ok s' -> (a, b) ∉ l.*1 -> converter s' a b = converter s a b.
Proof.
  revert s. induction l as [|[[a' b'] f] l IH]; intros s Hs Hno; simpl in *; [congruence|].
  destruct (AddGeneratedConversionFunc s a' b' f) as [s1|e|m] eqn:Hadd; simpl in Hs; try done.
  rewrite (IH s1) by set_solver. eapply Add_other; [done|]. set_solver.
Qed.

(** Among distinct pairs each is found with its function. *)
Lemma registerAll_found s l s' a b f :
  registerAll s l = Ok s' -> NoDup l.*1 -> (a, b, f) ∈ l -> converter s' a b = Some f.
Proof.
  revert s. induction l as [|[[a' b'] f'] l IH]; intros s Hs Hnd Hin; [set_solver|].
  simpl in *. apply NoDup_cons in Hnd as [Hno Hnd].
  destruct (AddGeneratedConversionFunc s a' b' f') as [s1|e|m] eqn:Hadd; simpl in Hs; try done.
  apply elem_of_cons in Hin as [[= -> -> ->]|Hin]; [|by eapply IH].
  rewrite (registerAll_other s1 l s') by done. by eapply Add_same.
Qed.

Lemma RegisterConversions_found s s' n :
  RegisterConversions s = Ok s' ->
  converter s' (TypeV1alpha1 n) (TypeArc n) = Some (to_internal n).2 /\
  converter s' (TypeArc n) (TypeV1alpha1 n) = Some (to_external n).2.
Proof.
  intros Hs. split; eapply registerAll_found; try exact Hs.
  1,3: by apply (bool_decide_unpack _); vm_compute.
  all: apply list_elem_of_In; destruct n; simpl; tauto.
Qed.

Lemma to_internal_apply n v out :
  (to_internal n).2 (ObjV1alpha1 n v) (ObjArc n out) = Ok (ObjArc n (akeep n out (cast_arc n v))).
Proof.
  cbn. rewrite decide_True_pi with (HP := eq_refl). simpl.
  by rewrite to_arc_cast.
Qed.

Lemma to_external_apply n a out :
  (to_external n).2 (ObjArc n a) (ObjV1alpha1 n out)
  = Ok (ObjV1alpha1 n (vkeep n out (cast_v1alpha1 n a))).
Proof.
  cbn. rewrite decide_True_pi with (HP := eq_refl). simpl.
  by rewrite to_v1alpha1_cast.
Qed.

End register.

(** ** A concrete scheme: the registrations, the latest first *)

Fixpoint find_registration (a b : typeId) (l : list registration) : option convFunc :=
  match l with
  | [] => None
  | (a', b', f) :: l =>
      if bool_decide ((a, b) = (a', b')) then Some f else find_registration a b l
  end.

#[export] Program Instance list_scheme : Scheme (list registration) := {|
  AddGeneratedConversionFunc := fun s a b f => Ok ((a, b, f) :: s);
  converter := fun s a b => find_registration a b s;
|}.
Next Obligation. eauto. Qed.
Next Obligation. intros s a b f s' [= <-]. simpl. by rewrite bool_decide_true. Qed.
Next Obligation.
  intros s a b f s' a' b' [= <-] Hne. simpl. by rewrite bool_decide_false.
Qed.

(** ** What the registered conversions promise *)

(** C26: registering the conversions on any scheme succeeds, and for each of the 21
    types the scheme then finds a conversion in both directions; converting a
    versioned value into any internal object, and the result into any versioned object,
    writes the whole value into that object: only its TypeMeta is its own. *)
Theorem registered_roundtrip {S : Type} `{Scheme S} (s : S) (n : typeName) (v : vtype n)
  (out : atype n) (back : vtype n) :
  exists s', RegisterConversions s = Ok s' /\
  exists f g o, converter s' (TypeV1alpha1 n) (TypeArc n) = Some f
    /\ converter s' (TypeArc n) (TypeV1alpha1 n) = Some g
    /\ f (ObjV1alpha1 n v) (ObjArc n out) = Ok o
    /\ g o (ObjV1alpha1 n back) = Ok (ObjV1alpha1 n (vkeep n back v)).
Proof.
  destruct (registerAll_total s _ : exists s', RegisterConversions s = Ok s') as [s' Hs].
  destruct (RegisterConversions_found s s' n Hs) as [Hf Hg].
  exists s'. split; [done|]. do 3 eexists. split_and!; [exact Hf|exact Hg| |].
  - apply to_internal_apply.
  - by rewrite to_external_apply, vkeep_akeep.
Qed.

(** The registrations of the program on an empty scheme, an order converted into empty
    objects. *)
Definition converted_order : V1alpha1Types.Order :=
  V1alpha1Types.mkOrder (mkTypeMeta "Order" "arc.bwi.de/v1alpha1") (newObjectMeta "ns" "o")
    (V1alpha1Types.mkOrderSpec (V1alpha1Types.mkOrderDefaults
       (mkLocalObjectReference "src") (mkLocalObjectReference "dst")) [])
    (V1alpha1Types.mkOrderStatus None).

Definition empty_order : V1alpha1Types.Order :=
  V1alpha1Types.mkOrder emptyTypeMeta (newObjectMeta "" "")
    (V1alpha1Types.mkOrderSpec (V1alpha1Types.mkOrderDefaults
       (mkLocalObjectReference "") (mkLocalObjectReference "")) [])
    (V1alpha1Types.mkOrderStatus None).

Definition empty_internal_order : ArcTypes.Order :=
  ArcTypes.mkOrder emptyTypeMeta (newObjectMeta "" "")
    (ArcTypes.mkOrderSpec (ArcTypes.mkOrderDefaults
       (mkLocalObjectReference "") (mkLocalObjectReference "")) [])
    (ArcTypes.mkOrderStatus None).

Lemma registered_roundtrip_witness : exists s',
  RegisterConversions ([] : list registration) = Ok s' /\
  exists f g o, converter s' (TypeV1alpha1 TOrder) (TypeArc TOrder) = Some f
    /\ converter s' (TypeArc TOrder) (TypeV1alpha1 TOrder) = Some g
    /\ f (ObjV1alpha1 TOrder converted_order) (ObjArc TOrder empty_internal_order) = Ok o
    /\ g o (ObjV1alpha1 TOrder empty_order)
       = Ok (ObjV1alpha1 TOrder (V1alpha1Types.mkOrder emptyTypeMeta
               (V1alpha1Types.Order_ObjectMeta converted_order)
               (V1alpha1Types.Order_Spec converted_order)
               (V1alpha1Types.Order_Status converted_order))).
Proof. exact (registered_roundtrip [] TOrder converted_order empty_internal_order empty_order). Defined.

(** C27: the conversions field by field agree with the reinterpretation of memory
    that is used for the elements of slices and maps, for every type and in both
    directions; only the TypeMeta of the target object is kept. *)
Theorem conversion_agrees_with_cast (n : typeName) :
  (forall v out, to_arc n v out = Ok (akeep n out (cast_arc n v))) /\
  (forall a out, to_v1alpha1 n a out = Ok (vkeep n out (cast_v1alpha1 n a))) /\
  (forall v, cast_v1alpha1 n (cast_arc n v) = v) /\
  (forall a, cast_arc n (cast_v1alpha1 n a) = a).
Proof.
  split_and!; intros; [apply to_arc_cast|apply to_v1alpha1_cast
    |apply cast_v1alpha1_arc|apply cast_arc_v1alpha1].
Qed.
