(* ===== verification/ApiScheme.v ===== *)
(** * The registration of the API types and their defaults

    api/arc/register.go, api/arc/v1alpha1/register.go, defaults.go and
    zz_generated.defaults.go, api/arc/install/install.go, the scheme of the clientset
    (client-go/clientset/versioned/scheme/register.go) and the [init] of
    pkg/apiserver/apiserver.go.  [runtime.Scheme] is a class: the operations that are
    called and what they promise; [ConversionScheme] has the part about conversions. *)

From stdpp Require Import base list sets strings.
From S2P Require Import Prelude GoStd KubeTypes ArcTypes V1alpha1Types Conversion.
From S2P Require Import ConversionScheme Registry.

Local Open Scope string_scope.
Local Open Scope list_scope.

(** ** Group versions *)

Record GroupVersion := mkGroupVersion { GV_Group : string; GV_Version : string }.

#[export] Instance GroupVersion_eq_dec : EqDecision GroupVersion.
Proof. solve_decision. Defined.

Record GroupVersionResource := mkGroupVersionResource {
  GVR_Group : string;
  GVR_Version : string;
  GVR_Resource : string;
}.

#[export] Instance GroupVersionResource_eq_dec : EqDecision GroupVersionResource.
Proof. solve_decision. Defined.

Definition WithResource (gv : GroupVersion) (resource : string) : GroupVersionResource :=
  mkGroupVersionResource (GV_Group gv) (GV_Version gv) resource.

Definition GVR_GroupResource (gvr : GroupVersionResource) : GroupResource :=
  mkGroupResource (GVR_Group gvr) (GVR_Resource gvr).

(** [runtime.APIVersionInternal]. *)
Definition APIVersionInternal : string := "__internal".

(** ** The names of the types that are served *)

Definition kindName (n : typeName) : string :=
  match n with
  | TArtifactType => "ArtifactType"
  | TArtifactTypeList => "ArtifactTypeList"
  | TArtifactTypeRules => "ArtifactTypeRules"
  | TArtifactTypeSpec => "ArtifactTypeSpec"
  | TArtifactTypeStatus => "ArtifactTypeStatus"
  | TArtifactWorkflow => "ArtifactWorkflow"
  | TArtifactWorkflowList => "ArtifactWorkflowList"
  | TArtifactWorkflowParameter => "ArtifactWorkflowParameter"
  | TArtifactWorkflowSpec => "ArtifactWorkflowSpec"
  | TArtifactWorkflowStatus => "ArtifactWorkflowStatus"
  | TEndpoint => "Endpoint"
  | TEndpointList => "EndpointList"
  | TEndpointSpec => "EndpointSpec"
  | TEndpointStatus => "EndpointStatus"
  | TOrder => "Order"
  | TOrderArtifact => "OrderArtifact"
  | TOrderArtifactWorkflowStatus => "OrderArtifactWorkflowStatus"
  | TOrderDefaults => "OrderDefaults"
  | TOrderList => "OrderList"
  | TOrderSpec => "OrderSpec"
  | TOrderStatus => "OrderStatus"
  end.

(** The types of the API that are objects: the four kinds and their lists.  The other
    types are parts of them. *)
Definition isObject (n : typeName) : bool :=
  match n with
  | TOrder | TArtifactWorkflow | TEndpoint | TArtifactType => true
  | TOrderList | TArtifactWorkflowList | TEndpointList | TArtifactTypeList => true
  | _ => false
  end.

(** ** Defaults (defaults.go, zz_generated.defaults.go) *)

Definition SetDefaults_OrderSpec (obj : OrderSpec) : OrderSpec := obj.
Definition SetDefaults_ArtifactWorkflowSpec (obj : ArtifactWorkflowSpec) : ArtifactWorkflowSpec := obj.
Definition SetDefaults_EndpointSpec (obj : EndpointSpec) : EndpointSpec := obj.
Definition SetDefaults_ArtifactTypeSpec (obj : ArtifactTypeSpec) : ArtifactTypeSpec := obj.

Definition SetObjectDefaults_ArtifactType (inp : ArtifactType) : ArtifactType :=
  mkArtifactType (AT_TypeMeta inp) (AT_ObjectMeta inp)
    (SetDefaults_ArtifactTypeSpec (AT_Spec inp)) (AT_Status inp).

Definition SetObjectDefaults_ArtifactTypeList (inp : ArtifactTypeList) : ArtifactTypeList :=
  mkArtifactTypeList (ATList_TypeMeta inp) (ATList_ListMeta inp)
    (map SetObjectDefaults_ArtifactType (ATList_Items inp)).

Definition SetObjectDefaults_ArtifactWorkflow (inp : ArtifactWorkflow) : ArtifactWorkflow :=
  mkArtifactWorkflow (AW_TypeMeta inp) (AW_ObjectMeta inp)
    (SetDefaults_ArtifactWorkflowSpec (AW_Spec inp)) (AW_Status inp).

Definition SetObjectDefaults_ArtifactWorkflowList (inp : ArtifactWorkflowList) :
  ArtifactWorkflowList :=
  mkArtifactWorkflowList (AWList_TypeMeta inp) (AWList_ListMeta inp)
    (map SetObjectDefaults_ArtifactWorkflow (AWList_Items inp)).

Definition SetObjectDefaults_Endpoint (inp : Endpoint) : Endpoint :=
  mkEndpoint (EP_TypeMeta inp) (EP_ObjectMeta inp)
    (SetDefaults_EndpointSpec (EP_Spec inp)) (EP_Status inp).

Definition SetObjectDefaults_EndpointList (inp : EndpointList) : EndpointList :=
  mkEndpointList (EPList_TypeMeta inp) (EPList_ListMeta inp)
    (map SetObjectDefaults_Endpoint (EPList_Items inp)).

Definition SetObjectDefaults_Order (inp : Order) : Order :=
  mkOrder (Order_TypeMeta inp) (Order_ObjectMeta inp)
    (SetDefaults_OrderSpec (Order_Spec inp)) (Order_Status inp).

Definition SetObjectDefaults_OrderList (inp : OrderList) : OrderList :=
  mkOrderList (OrderList_TypeMeta inp) (OrderList_ListMeta inp)
    (map SetObjectDefaults_Order (OrderList_Items inp)).

(** A defaulting function of the scheme takes any object and asserts its type. *)
Definition defaultingFunc (n : typeName) (f : vtype n -> vtype n) (obj : object) :
  outcome object :=
  match as_v1alpha1 n obj with
  | Some v => Ok (ObjV1alpha1 n (f v))
  | None => Panic "interface conversion"
  end.

Definition defaultings : list (typeName * (object -> outcome object)) :=
  [ (TArtifactType, defaultingFunc TArtifactType SetObjectDefaults_ArtifactType);
    (TArtifactTypeList, defaultingFunc TArtifactTypeList SetObjectDefaults_ArtifactTypeList);
    (TArtifactWorkflow, defaultingFunc TArtifactWorkflow SetObjectDefaults_ArtifactWorkflow);
    (TArtifactWorkflowList,
      defaultingFunc TArtifactWorkflowList SetObjectDefaults_ArtifactWorkflowList);
    (TEndpoint, defaultingFunc TEndpoint SetObjectDefaults_Endpoint);
    (TEndpointList, defaultingFunc TEndpointList SetObjectDefaults_EndpointList);
    (TOrder, defaultingFunc TOrder SetObjectDefaults_Order);
    (TOrderList, defaultingFunc TOrderList SetObjectDefaults_OrderList) ].

(** ** The scheme *)

(** What [runtime.Scheme] promises: registering the types of a group version succeeds
    unless one of its kinds stands for another type already, and is found afterwards;
    nothing else changes.  [recognizes] gives the type of the two packages that a kind
    stands for, and [hasMeta] says whether it stands for a type of [metav1]; [reserved]
    are the kinds that [metav1.AddToGroupVersion] adds to a group version. *)
Class RuntimeScheme (S : Type) `{Scheme S} := {
  recognizes : S -> GroupVersion -> string -> option typeId;
  defaulter : S -> typeId -> option (object -> outcome object);
  prioritized : S -> string -> option string;
  hasMeta : S -> GroupVersion -> string -> bool;
  reserved : string -> bool;

  AddKnownTypes : S -> GroupVersion -> list (string * typeId) -> outcome S;
  AddToGroupVersion : S -> GroupVersion -> outcome S;
  AddUnversionedTypes : S -> GroupVersion -> list string -> outcome S;
  AddTypeDefaultingFunc : S -> typeId -> (object -> outcome object) -> S;
  SetVersionPriority : S -> GroupVersion -> outcome S;

  reserved_objects : forall n, isObject n = true -> reserved (kindName n) = false;
  AddKnownTypes_ok : forall s gv l,
    NoDup l.*1 -> GV_Version gv <> "" -> (forall k, k ∈ l.*1 -> reserved k = false) ->
    (forall k t, (k, t) ∈ l -> recognizes s gv k = None \/ recognizes s gv k = Some t) ->
    exists s', AddKnownTypes s gv l = Ok s' /\
      (forall k t, (k, t) ∈ l -> recognizes s' gv k = Some t) /\
      (forall gv' k, gv' <> gv \/ k ∉ l.*1 -> recognizes s' gv' k = recognizes s gv' k) /\
      (forall a b, converter s' a b = converter s a b) /\
      (forall t, defaulter s' t = defaulter s t);
  AddToGroupVersion_ok : forall s gv,
    (forall k t, recognizes s gv k = Some t -> reserved k = false) ->
    exists s', AddToGroupVersion s gv = Ok s' /\
      (forall k, reserved k = true -> hasMeta s' gv k = true) /\
      (forall gv' k, hasMeta s gv' k = true -> hasMeta s' gv' k = true) /\
      (forall gv' k, recognizes s' gv' k = recognizes s gv' k) /\
      (forall a b, converter s' a b = converter s a b) /\
      (forall t, defaulter s' t = defaulter s t) /\
      (forall g, prioritized s' g = prioritized s g);
  AddUnversionedTypes_ok : forall s gv ks,
    (forall k, k ∈ ks -> recognizes s gv k = None) ->
    exists s', AddUnversionedTypes s gv ks = Ok s' /\
      (forall k, k ∈ ks -> hasMeta s' gv k = true) /\
      (forall gv' k, hasMeta s gv' k = true -> hasMeta s' gv' k = true) /\
      (forall gv' k, recognizes s' gv' k = recognizes s gv' k) /\
      (forall a b, converter s' a b = converter s a b) /\
      (forall t, defaulter s' t = defaulter s t) /\
      (forall g, prioritized s' g = prioritized s g);
  AddTypeDefaultingFunc_same : forall s t f, defaulter (AddTypeDefaultingFunc s t f) t = Some f;
  AddTypeDefaultingFunc_other : forall s t f t', t' <> t ->
    defaulter (AddTypeDefaultingFunc s t f) t' = defaulter s t';
  AddTypeDefaultingFunc_frame : forall s t f,
    (forall gv k, recognizes (AddTypeDefaultingFunc s t f) gv k = recognizes s gv k) /\
    (forall gv k, hasMeta (AddTypeDefaultingFunc s t f) gv k = hasMeta s gv k) /\
    (forall a b, converter (AddTypeDefaultingFunc s t f) a b = converter s a b);
  AddGeneratedConversionFunc_frame : forall s a b f s',
    AddGeneratedConversionFunc s a b f = Ok s' ->
    (forall gv k, recognizes s' gv k = recognizes s gv k) /\
    (forall gv k, hasMeta s' gv k = hasMeta s gv k) /\
    (forall t, defaulter s' t = defaulter s t);
  SetVersionPriority_ok : forall s gv,
    GV_Version gv <> "" -> GV_Version gv <> APIVersionInternal ->
    exists s', SetVersionPriority s gv = Ok s' /\
      prioritized s' (GV_Group gv) = Some (GV_Version gv) /\
      (forall gv' k, hasMeta s' gv' k = hasMeta s gv' k) /\
      (forall gv' k, recognizes s' gv' k = recognizes s gv' k) /\
      (forall a b, converter s' a b = converter s a b) /\
      (forall t, defaulter s' t = defaulter s t);
}.

(** [utilruntime.Must]. *)
Definition Must {A : Type} (o : outcome A) : outcome A :=
  match o with
  | Err _ => Panic "utilruntime.Must"
  | _ => o
  end.

(** ** api/arc/register.go *)

Module Arc.
Definition SchemeGroupVersion : GroupVersion := mkGroupVersion GroupName APIVersionInternal.

(** [Resource]. *)
Definition Resource (resource : string) : GroupResource :=
  GVR_GroupResource (WithResource SchemeGroupVersion resource).

(** The types [addKnownTypes] registers. *)
Definition knownTypes : list typeName :=
  [TOrder;
   TOrderList;
   TArtifactWorkflow;
   TArtifactWorkflowList;
   TEndpoint;
   TEndpointList;
   TArtifactType;
   TArtifactTypeList].

Section register.
Context {S : Type} `{RuntimeScheme S}.

Definition addKnownTypes (scheme : S) : outcome S :=
  AddKnownTypes scheme SchemeGroupVersion (map (fun n => (kindName n, TypeArc n)) knownTypes).

(** [runtime.NewSchemeBuilder(addKnownTypes)] and its [AddToScheme]. *)
Definition SchemeBuilder : list (S -> outcome S) := [addKnownTypes].
End register.
End Arc.

(** [SchemeBuilder.AddToScheme]: all functions, up to the first that fails. *)
Fixpoint runBuilder {S : Type} (fs : list (S -> outcome S)) (s : S) : outcome S :=
  match fs with
  | [] => Ok s
  | f :: fs => let? s := f s in runBuilder fs s
  end.

Definition arc_AddToScheme {S : Type} `{RuntimeScheme S} : S -> outcome S :=
  runBuilder Arc.SchemeBuilder.

(** ** api/arc/v1alpha1/register.go *)

Module V1alpha1.
Definition SchemeGroupVersion : GroupVersion := mkGroupVersion GroupName "v1alpha1".

Definition Resource (resource : string) : GroupResource :=
  GVR_GroupResource (WithResource SchemeGroupVersion resource).

(** The types [addKnownTypes] registers. *)
Definition knownTypes : list typeName :=
  [TOrder;
   TOrderList;
   TArtifactWorkflow;
   TArtifactWorkflowList;
   TEndpoint;
   TEndpointList;
   TArtifactType;
   TArtifactTypeList].

Section register.
Context {S : Type} `{RuntimeScheme S}.

Definition addKnownTypes (scheme : S) : outcome S :=
  let? scheme := AddKnownTypes scheme SchemeGroupVersion
    (map (fun n => (kindName n, TypeV1alpha1 n)) knownTypes) in
  AddToGroupVersion scheme SchemeGroupVersion.

Definition RegisterDefaults (scheme : S) : outcome S :=
  Ok (fold_left (fun s d => AddTypeDefaultingFunc s (TypeV1alpha1 d.1) d.2) defaultings scheme).

Definition addDefaultingFuncs (scheme : S) : outcome S := RegisterDefaults scheme.

(** The [init] of register.go runs before that of zz_generated.conversion.go. *)
Definition SchemeBuilder : list (S -> outcome S) :=
  [addKnownTypes; addDefaultingFuncs] ++ [RegisterConversions].

Definition AddToScheme : S -> outcome S := runBuilder SchemeBuilder.
End register.
End V1alpha1.

(** ** api/arc/install/install.go, the clientset's scheme, the server's scheme *)

Section install.
Context {S : Type} `{RuntimeScheme S}.

Definition Install (scheme : S) : outcome S :=
  let? scheme := Must (arc_AddToScheme scheme) in
  let? scheme := Must (V1alpha1.AddToScheme scheme) in
  Must (SetVersionPriority scheme V1alpha1.SchemeGroupVersion).

(** The empty group with version v1. *)
Definition unversioned : GroupVersion := mkGroupVersion "" "v1".

(** The [init] of the scheme package of the clientset. *)
Definition clientset_scheme_init (scheme : S) : outcome S :=
  let? scheme := AddToGroupVersion scheme unversioned in
  Must (runBuilder [V1alpha1.AddToScheme] scheme).

(** The [init] of pkg/apiserver. *)
Definition apiserver_init (scheme : S) : outcome S :=
  let? scheme := Install scheme in
  let? scheme := AddToGroupVersion scheme unversioned in
  AddUnversionedTypes scheme unversioned
    ["Status"; "APIVersions"; "APIGroupList"; "APIGroup"; "APIResourceList"].

End install.

(** ** What is registered *)

Section facts.
Context {S : Type} `{RuntimeScheme S}.

(** The objects of a package are known under a group version, each as its own type,
    and no other type is. *)
Definition knows (s : S) (gv : GroupVersion) (t : typeName -> typeId) : Prop :=
  forall k x, recognizes s gv k = Some x <->
    exists n, isObject n = true /\ k = kindName n /\ x = t n.

(** All conversions of the versioned package are there. *)
Definition converts (s : S) : Prop :=
  forall n, converter s (TypeV1alpha1 n) (TypeArc n) = Some (to_internal n).2 /\
            converter s (TypeArc n) (TypeV1alpha1 n) = Some (to_external n).2.

(** Every versioned object has a defaulting function. *)
Definition defaults (s : S) : Prop :=
  forall n, isObject n = true -> exists f, defaulter s (TypeV1alpha1 n) = Some f /\
    forall v, f (ObjV1alpha1 n v) = Ok (ObjV1alpha1 n v).

Lemma kindName_inj n m : kindName n = kindName m -> n = m.
Proof. by destruct n, m. Qed.

(** The two lists of the code have the objects, each once. *)
Lemma arc_knownTypes_exact :
  NoDup Arc.knownTypes /\ forall n, n ∈ Arc.knownTypes <-> isObject n = true.
Proof.
  split; [apply (bool_decide_unpack _); by vm_compute|]. intros n.
  rewrite <- (bool_decide_spec (n ∈ Arc.knownTypes)), Is_true_true. by destruct n; vm_compute.
Qed.

Lemma v1alpha1_knownTypes_exact :
  NoDup V1alpha1.knownTypes /\ forall n, n ∈ V1alpha1.knownTypes <-> isObject n = true.
Proof.
  split; [apply (bool_decide_unpack _); by vm_compute|]. intros n.
  rewrite <- (bool_decide_spec (n ∈ V1alpha1.knownTypes)), Is_true_true.
  by destruct n; vm_compute.
Qed.

Section known.
Context (l : list typeName) (Hl : NoDup l /\ forall n, n ∈ l <-> isObject n = true).
Context (t : typeName -> typeId).
Let kinds := map (fun n => (kindName n, t n)) l.

Lemma known_kinds : kinds.*1 = map kindName l.
Proof. apply (map_map (fun n => (kindName n, t n)) fst). Qed.

Lemma known_kinds_NoDup : NoDup kinds.*1.
Proof.
  rewrite known_kinds. apply NoDup_fmap_2; [|apply Hl]. intros n m. apply kindName_inj.
Qed.

(** Registering the known types under a group version that has none of them. *)
Lemma known_registered s gv :
  GV_Version gv <> "" -> (forall k, recognizes s gv k = None) ->
  exists s', AddKnownTypes s gv kinds = Ok s' /\
    knows s' gv t /\ (forall k x, recognizes s' gv k = Some x -> reserved k = false) /\
    (forall gv' k, gv' <> gv -> recognizes s' gv' k = recognizes s gv' k) /\
    (forall a b, converter s' a b = converter s a b) /\
    (forall x, defaulter s' x = defaulter s x).
Proof.
  intros Hv Hnone. destruct Hl as [Hnd Hobj].
  destruct (AddKnownTypes_ok s gv kinds) as (s' & Hs & Hin & Hout & Hc & Hd);
    [apply known_kinds_NoDup|done| |by left|].
  { intros k. rewrite known_kinds. intros (n & -> & Hn)%list_elem_of_fmap.
    by apply reserved_objects, Hobj. }
  assert (knows s' gv t) as Hk.
  { intros k x. split.
    - intros Hk. destruct (decide (k ∈ kinds.*1)) as [Hkn|Hkn].
      + rewrite known_kinds in Hkn. apply list_elem_of_fmap in Hkn as (n & -> & Hn).
        exists n. split_and!; [by apply Hobj|done|].
        rewrite (Hin (kindName n) (t n)) in Hk; [congruence|].
        apply list_elem_of_fmap. by exists n.
      + rewrite Hout, Hnone in Hk; [done|by right].
    - intros (n & Hn & -> & ->). apply Hin. apply list_elem_of_fmap. exists n.
      by rewrite Hobj. }
  exists s'. split_and!; [done|done| |intros; apply Hout; by left|done|done].
  intros k x (n & Hn & -> & _)%Hk. by apply reserved_objects.
Qed.
End known.

Lemma registerAll_frame s l s' :
  registerAll s l = Ok s' ->
  (forall gv k, recognizes s' gv k = recognizes s gv k) /\
  (forall gv k, hasMeta s' gv k = hasMeta s gv k) /\
  (forall t, defaulter s' t = defaulter s t).
Proof.
  revert s. induction l as [|[[a b] f] l IH]; intros s; simpl; [by intros [= <-]|].
  destruct (AddGeneratedConversionFunc s a b f) as [s1|e|m] eqn:Hadd; simpl; try done.
  intros (Hr & Hm & Hd)%IH. apply AddGeneratedConversionFunc_frame in Hadd as (Hr' & Hm' & Hd').
  split_and!; intros; by rewrite ?Hr, ?Hr', ?Hm, ?Hm', ?Hd, ?Hd'.
Qed.

(** ** Defaults *)

Definition addDefaultings (l : list (typeName * (object -> outcome object))) (s : S) : S :=
  fold_left (fun s d => AddTypeDefaultingFunc s (TypeV1alpha1 d.1) d.2) l s.

Lemma addDefaultings_frame l s :
  (forall gv k, recognizes (addDefaultings l s) gv k = recognizes s gv k) /\
  (forall gv k, hasMeta (addDefaultings l s) gv k = hasMeta s gv k) /\
  (forall a b, converter (addDefaultings l s) a b = converter s a b) /\
  (forall t, t ∉ map TypeV1alpha1 l.*1 -> defaulter (addDefaultings l s) t = defaulter s t).
Proof.
  revert s. induction l as [|[n f] l IH]; intros s; simpl; [done|].
  destruct (IH (AddTypeDefaultingFunc s (TypeV1alpha1 n) f)) as (Hr & Hm & Hc & Hd).
  destruct (AddTypeDefaultingFunc_frame s (TypeV1alpha1 n) f) as (Hr' & Hm' & Hc').
  split_and!; intros.
  - by rewrite Hr.
  - by rewrite Hm.
  - by rewrite Hc.
  - rewrite Hd by set_solver. apply AddTypeDefaultingFunc_other. set_solver.
Qed.

Lemma addDefaultings_found l s n f :
  NoDup l.*1 -> (n, f) ∈ l -> defaulter (addDefaultings l s) (TypeV1alpha1 n) = Some f.
Proof.
  revert s. induction l as [|[n' f'] l IH]; intros s Hnd Hin; [set_solver|].
  simpl in Hnd. apply NoDup_cons in Hnd as [Hno Hnd].
  apply elem_of_cons in Hin as [[= <- <-]|Hin]; simpl; [|by apply IH].
  destruct (addDefaultings_frame l (AddTypeDefaultingFunc s (TypeV1alpha1 n) f))
    as (_ & _ & _ & ->); [apply AddTypeDefaultingFunc_same|].
  intros (n' & [= ->] & Hn')%list_elem_of_fmap. done.
Qed.

Lemma map_identity {A : Type} (f : A -> A) l : (forall x, f x = x) -> map f l = l.
Proof. intros Hf. induction l as [|x l IH]; simpl; [done|]. by rewrite Hf, IH. Qed.

(** The defaulting functions change nothing: the hooks they call are empty. *)
Lemma defaultings_identity n f v :
  (n, f) ∈ defaultings -> f (ObjV1alpha1 n v) = Ok (ObjV1alpha1 n v).
Proof.
  intros Hin. unfold defaultings in Hin.
  repeat (apply elem_of_cons in Hin as [[= -> ->]|Hin];
    [unfold defaultingFunc; simpl as_v1alpha1; cbn; rewrite ?decide_True_pi with (HP := eq_refl);
     simpl; do 2 f_equal|]); [..|by apply not_elem_of_nil in Hin].
  all: destruct v; try done.
  all: unfold SetObjectDefaults_ArtifactTypeList, SetObjectDefaults_ArtifactWorkflowList,
         SetObjectDefaults_EndpointList, SetObjectDefaults_OrderList; simpl; f_equal.
  all: apply map_identity; intros x; by destruct x.
Qed.

Lemma RegisterDefaults_ok s :
  exists s', V1alpha1.addDefaultingFuncs s = Ok s' /\ defaults s' /\
    (forall gv k, recognizes s' gv k = recognizes s gv k) /\
    (forall gv k, hasMeta s' gv k = hasMeta s gv k) /\
    (forall a b, converter s' a b = converter s a b).
Proof.
  exists (addDefaultings defaultings s). split; [done|].
  destruct (addDefaultings_frame defaultings s) as (Hr & Hm & Hc & _).
  split_and!; [|done|done|done].
  intros n Hn.
  assert (exists f, (n, f) ∈ defaultings) as [f Hf].
  { destruct n; try done.
    all: unfold defaultings; eexists; repeat (apply elem_of_cons; first [by left|right]). }
  exists f. split; [|intros v; by apply defaultings_identity].
  apply addDefaultings_found; [|done]. apply (bool_decide_unpack _). vm_compute. done.
Qed.

(** ** The two packages *)

Lemma arc_AddToScheme_ok s :
  (forall k, recognizes s Arc.SchemeGroupVersion k = None) ->
  exists s', arc_AddToScheme s = Ok s' /\ knows s' Arc.SchemeGroupVersion TypeArc /\
    (forall gv k, gv <> Arc.SchemeGroupVersion -> recognizes s' gv k = recognizes s gv k).
Proof.
  intros Hnone.
  destruct (known_registered _ arc_knownTypes_exact TypeArc s Arc.SchemeGroupVersion)
    as (s' & Hs & Hk & _ & Ho & _);
    [done|done|].
  exists s'. unfold arc_AddToScheme. simpl. unfold Arc.addKnownTypes. rewrite Hs. by simpl.
Qed.

(** The versioned package registers its types, their defaults and the conversions. *)
Lemma v1alpha1_AddToScheme_ok s :
  (forall k, recognizes s V1alpha1.SchemeGroupVersion k = None) ->
  exists s', V1alpha1.AddToScheme s = Ok s' /\
    knows s' V1alpha1.SchemeGroupVersion TypeV1alpha1 /\ converts s' /\ defaults s' /\
    (forall k, reserved k = true -> hasMeta s' V1alpha1.SchemeGroupVersion k = true) /\
    (forall gv k, gv <> V1alpha1.SchemeGroupVersion -> recognizes s' gv k = recognizes s gv k).
Proof.
  intros Hnone.
  destruct (known_registered _ v1alpha1_knownTypes_exact TypeV1alpha1 s V1alpha1.SchemeGroupVersion)
    as (s1 & Hs1 & Hk1 & Hres & Ho1 & _ & _); [done|done|].
  destruct (AddToGroupVersion_ok s1 V1alpha1.SchemeGroupVersion) as (s2 & Hs2 & Hm2 & _ & Hr2 & _);
    [done|].
  destruct (RegisterDefaults_ok s2) as (s3 & Hs3 & Hd3 & Hr3 & Hm3 & _).
  destruct (registerAll_total s3 _ : exists s', RegisterConversions s3 = Ok s') as [s4 Hs4].
  destruct (registerAll_frame _ _ _ Hs4) as (Hr4 & Hm4 & Hd4).
  exists s4. unfold V1alpha1.AddToScheme, V1alpha1.SchemeBuilder. cbn [app runBuilder].
  unfold V1alpha1.addKnownTypes. rewrite Hs1. cbn [obind]. rewrite Hs2. cbn [obind].
  rewrite Hs3. cbn [obind]. rewrite Hs4. cbn [obind].
  split_and!; [done| | | | |].
  - intros k x. rewrite Hr4, Hr3, Hr2. apply Hk1.
  - intros n. by apply (RegisterConversions_found s3).
  - intros n Hn. destruct (Hd3 n Hn) as (f & Hf & Hid). exists f. by rewrite Hd4.
  - intros k Hk. rewrite Hm4, Hm3. by apply Hm2.
  - intros gv k Hne. rewrite Hr4, Hr3, Hr2. by apply Ho1.
Qed.

(** C32: the API server starts with a complete scheme: on a scheme that knows nothing
    yet, the registrations of its [init] neither fail nor panic, and afterwards exactly
    the eight objects of the API, the four kinds and their lists, are known in the
    internal and in the versioned group version, each under its name as the type of
    that package; the kinds [metav1] needs are there in the versioned group version
    and in the unversioned one, and the five unversioned types as well; all 21 types
    convert in both directions; v1alpha1 is the preferred version; and every object has
    defaults, which leave it as it is. *)
Theorem apiserver_scheme_complete (s : S) :
  (forall gv k, recognizes s gv k = None) ->
  exists s', apiserver_init s = Ok s' /\
    knows s' (mkGroupVersion "arc.bwi.de" "__internal") TypeArc /\
    knows s' (mkGroupVersion "arc.bwi.de" "v1alpha1") TypeV1alpha1 /\ converts s' /\ defaults s' /\
    prioritized s' "arc.bwi.de" = Some "v1alpha1" /\
    (forall k, reserved k = true ->
       hasMeta s' (mkGroupVersion "arc.bwi.de" "v1alpha1") k = true /\
       hasMeta s' (mkGroupVersion "" "v1") k = true) /\
    (forall k, k ∈ ["Status"; "APIVersions"; "APIGroupList"; "APIGroup"; "APIResourceList"] ->
       hasMeta s' (mkGroupVersion "" "v1") k = true).
Proof.
  intros Hnone.
  destruct (arc_AddToScheme_ok s) as (s1 & Hs1 & Hk1 & Ho1); [done|].
  destruct (v1alpha1_AddToScheme_ok s1) as (s2 & Hs2 & Hk2 & Hc2 & Hd2 & Hm2 & Ho2).
  { intros k. by rewrite Ho1. }
  destruct (SetVersionPriority_ok s2 V1alpha1.SchemeGroupVersion)
    as (s3 & Hs3 & Hp3 & Hm3 & Hr3 & Hc3 & Hd3); [done|done|].
  assert (forall k, recognizes s3 unversioned k = None) as Hu3.
  { intros k. by rewrite Hr3, Ho2, Ho1. }
  destruct (AddToGroupVersion_ok s3 unversioned) as (s4 & Hs4 & Hm4 & Hf4 & Hr4 & Hc4 & Hd4 & Hp4).
  { intros k t. by rewrite Hu3. }
  destruct (AddUnversionedTypes_ok s4 unversioned
    ["Status"; "APIVersions"; "APIGroupList"; "APIGroup"; "APIResourceList"])
    as (s5 & Hs5 & Hm5 & Hf5 & Hr5 & Hc5 & Hd5 & Hp5); [intros k _; by rewrite Hr4|].
  exists s5. unfold apiserver_init, Install.
  rewrite Hs1. simpl. rewrite Hs2. simpl. rewrite Hs3. simpl. rewrite Hs4. simpl.
  split_and!; [done|..].
  - change (knows s5 Arc.SchemeGroupVersion TypeArc).
    intros k x. rewrite Hr5, Hr4, Hr3, Ho2 by done. apply Hk1.
  - intros k x. rewrite Hr5, Hr4, Hr3. apply Hk2.
  - intros n. rewrite !Hc5, !Hc4, !Hc3. apply Hc2.
  - intros n Hn. rewrite Hd5, Hd4, Hd3. by apply Hd2.
  - rewrite Hp5, Hp4. exact Hp3.
  - intros k Hk. split; apply Hf5; [|by apply Hm4]. apply Hf4. rewrite Hm3. by apply Hm2.
  - exact Hm5.
Qed.

(** The same of the scheme of the clientset, which has no internal types. *)
Theorem clientset_scheme_complete (s : S) :
  (forall gv k, recognizes s gv k = None) ->
  exists s', clientset_scheme_init s = Ok s' /\
    knows s' V1alpha1.SchemeGroupVersion TypeV1alpha1 /\ converts s' /\ defaults s' /\
    forall k, recognizes s' Arc.SchemeGroupVersion k = None.
Proof.
  intros Hnone.
  destruct (AddToGroupVersion_ok s unversioned) as (s1 & Hs1 & _ & _ & Hr1 & _);
    [intros k t; by rewrite Hnone|].
  destruct (v1alpha1_AddToScheme_ok s1) as (s2 & Hs2 & Hk2 & Hc2 & Hd2 & _ & Ho2).
  { intros k. by rewrite Hr1. }
  exists s2. unfold clientset_scheme_init. rewrite Hs1. simpl. rewrite Hs2. simpl.
  split_and!; [done..|]. intros k. by rewrite Ho2, Hr1.
Qed.

End facts.

(** ** A concrete scheme *)

Record listScheme := mkListScheme {
  ls_conversions : list registration;
  ls_types : list (GroupVersion * string * typeId);
  ls_defaults : list (typeId * (object -> outcome object));
  ls_priorities : list (string * string);
  ls_meta : list (GroupVersion * string);
}.

Definition emptyScheme : listScheme := mkListScheme [] [] [] [] [].

Fixpoint find_type (gv : GroupVersion) (k : string) (l : list (GroupVersion * string * typeId)) :
  option typeId :=
  match l with
  | [] => None
  | (gv', k', t) :: l => if bool_decide ((gv', k') = (gv, k)) then Some t else find_type gv k l
  end.

Fixpoint find_key {K V : Type} `{EqDecision K} (k : K) (l : list (K * V)) : option V :=
  match l with
  | [] => None
  | (k', v) :: l => if bool_decide (k' = k) then Some v else find_key k l
  end.

Definition compatible (s : listScheme) (gv : GroupVersion) (kt : string * typeId) : bool :=
  match find_type gv kt.1 (ls_types s) with
  | None => true
  | Some t => bool_decide (t = kt.2)
  end.

Definition reservedKinds : list string :=
  ["WatchEvent"; "ListOptions"; "GetOptions"; "DeleteOptions"; "CreateOptions";
   "UpdateOptions"; "PatchOptions"].

(** Add kinds that stand for types of [metav1]. *)
Definition ls_addMeta (s : listScheme) (gv : GroupVersion) (ks : list string) : listScheme :=
  mkListScheme (ls_conversions s) (ls_types s) (ls_defaults s) (ls_priorities s)
    (map (pair gv) ks ++ ls_meta s).

Definition ls_AddKnownTypes (s : listScheme) (gv : GroupVersion) (l : list (string * typeId)) :
  outcome listScheme :=
  if bool_decide (GV_Version gv = "") then Panic "version is required on all types"
  else if forallb (compatible s gv) l then
    Ok (mkListScheme (ls_conversions s) (map (fun kt => (gv, kt.1, kt.2)) l ++ ls_types s)
          (ls_defaults s) (ls_priorities s) (ls_meta s))
  else Panic "Double registration of different types".

Definition ls_SetVersionPriority (s : listScheme) (gv : GroupVersion) : outcome listScheme :=
  if bool_decide (GV_Version gv = "") || bool_decide (GV_Version gv = APIVersionInternal)
  then Err (PlainError "internal versions cannot be prioritized")
  else Ok (mkListScheme (ls_conversions s) (ls_types s) (ls_defaults s)
             ((GV_Group gv, GV_Version gv) :: ls_priorities s) (ls_meta s)).

Lemma find_type_app_in gv k t l m :
  NoDup l.*1 -> (k, t) ∈ l ->
  find_type gv k (map (fun kt => (gv, kt.1, kt.2)) l ++ m) = Some t.
Proof.
  induction l as [|[k' t'] l IH]; intros Hnd Hin; [set_solver|]. simpl in *.
  apply NoDup_cons in Hnd as [Hno Hnd].
  apply elem_of_cons in Hin as [[= -> ->]|Hin]; [by rewrite bool_decide_true|].
  rewrite bool_decide_false; [by apply IH|]. intros [= ->]. apply Hno.
  apply list_elem_of_fmap. by exists (k, t).
Qed.

Lemma find_type_app_out gv gv' k l m :
  gv' <> gv \/ k ∉ l.*1 ->
  find_type gv' k (map (fun kt => (gv, kt.1, kt.2)) l ++ m) = find_type gv' k m.
Proof.
  intros Hout. induction l as [|[k' t'] l IH]; [done|]. simpl in *.
  rewrite bool_decide_false.
  - apply IH. destruct Hout; [by left|right; set_solver].
  - intros [= -> ->]. destruct Hout; [done|set_solver].
Qed.

Lemma ls_addMeta_has s gv ks :
  (forall k, k ∈ ks -> bool_decide ((gv, k) ∈ ls_meta (ls_addMeta s gv ks)) = true) /\
  (forall gv' k, bool_decide ((gv', k) ∈ ls_meta s) = true ->
     bool_decide ((gv', k) ∈ ls_meta (ls_addMeta s gv ks)) = true).
Proof.
  unfold ls_addMeta. simpl. split.
  - intros k Hk. apply bool_decide_eq_true, elem_of_app. left.
    apply list_elem_of_fmap. by exists k.
  - intros gv' k Hk%bool_decide_eq_true. apply bool_decide_eq_true, elem_of_app. by right.
Qed.

#[export] Program Instance listScheme_scheme : Scheme listScheme := {|
  AddGeneratedConversionFunc := fun s a b f => Ok (mkListScheme ((a, b, f) :: ls_conversions s)
    (ls_types s) (ls_defaults s) (ls_priorities s) (ls_meta s));
  converter := fun s a b => find_registration a b (ls_conversions s);
|}.
Next Obligation. eauto. Qed.
Next Obligation. intros s a b f s' [= <-]. simpl. by rewrite bool_decide_true. Qed.
Next Obligation. intros s a b f s' a' b' [= <-] Hne. simpl. by rewrite bool_decide_false. Qed.

#[export] Program Instance listScheme_runtime : RuntimeScheme listScheme := {|
  recognizes := fun s gv k => find_type gv k (ls_types s);
  defaulter := fun s t => find_key t (ls_defaults s);
  prioritized := fun s g => find_key g (ls_priorities s);
  hasMeta := fun s gv k => bool_decide ((gv, k) ∈ ls_meta s);
  reserved := fun k => bool_decide (k ∈ reservedKinds);
  AddKnownTypes := ls_AddKnownTypes;
  AddToGroupVersion := fun s gv => Ok (ls_addMeta s gv reservedKinds);
  AddUnversionedTypes := fun s gv ks => Ok (ls_addMeta s gv ks);
  AddTypeDefaultingFunc := fun s t f => mkListScheme (ls_conversions s) (ls_types s)
    ((t, f) :: ls_defaults s) (ls_priorities s) (ls_meta s);
  SetVersionPriority := ls_SetVersionPriority;
|}.
Next Obligation. by intros []. Qed.
Next Obligation.
  intros s gv l Hnd Hv _ Hc. unfold ls_AddKnownTypes. rewrite bool_decide_false by done.
  assert (forallb (compatible s gv) l = true) as ->.
  { apply forallb_forall. intros [k t] Hin%list_elem_of_In. unfold compatible. simpl.
    destruct (Hc k t Hin) as [-> | ->]; [done|by apply bool_decide_true]. }
  eexists. split; [done|]. simpl. split_and!; [|by intros; apply find_type_app_out|done|done].
  intros k t Hin. by apply find_type_app_in.
Qed.
Next Obligation.
  intros s gv _. eexists. split; [done|]. destruct (ls_addMeta_has s gv reservedKinds) as [Hk Hf].
  split_and!; [|exact Hf|done..]. intros k Hr%bool_decide_eq_true. by apply Hk.
Qed.
Next Obligation.
  intros s gv ks _. eexists. split; [done|]. destruct (ls_addMeta_has s gv ks) as [Hk Hf]. done.
Qed.
Next Obligation. intros s t f. simpl. by rewrite bool_decide_true. Qed.
Next Obligation. intros s t f t' Hne. simpl. by rewrite bool_decide_false. Qed.
Next Obligation. done. Qed.
Next Obligation. by intros s a b f s' [= <-]. Qed.
Next Obligation.
  intros s gv Hv Hi. unfold ls_SetVersionPriority.
  rewrite (bool_decide_false _ Hv), (bool_decide_false _ Hi). simpl.
  eexists. split; [done|]. simpl. by rewrite bool_decide_true.
Qed.

Lemma apiserver_scheme_complete_witness : exists s',
  apiserver_init emptyScheme = Ok s' /\
  recognizes s' V1alpha1.SchemeGroupVersion "EndpointList" = Some (TypeV1alpha1 TEndpointList) /\
  recognizes s' Arc.SchemeGroupVersion "Order" = Some (TypeArc TOrder).
Proof.
  pose proof (apiserver_scheme_complete emptyScheme (fun _ _ => eq_refl)) as Hc.
  destruct Hc as (s' & Hs & Ha & Hv & _). exists s'. split; [exact Hs|]. split.
  - exact (proj2 (Hv _ _) (ex_intro _ TEndpointList (conj eq_refl (conj eq_refl eq_refl)))).
  - exact (proj2 (Ha _ _) (ex_intro _ TOrder (conj eq_refl (conj eq_refl eq_refl)))).
Defined.
