(* ===== verification/Clientset.v ===== *)
(** * The clientset (client-go/clientset/versioned)

    The clients of the API group, built from a configuration or from a REST client,
    and what their requests are about.  The REST client, the HTTP transport and the
    discovery client are not part of the repository and are parameters.  The client
    of a resource is a struct around [gentype.ClientWithListAndApply], of which the
    arguments of its constructor are kept. *)

From stdpp Require Import base list strings.
From Stdlib Require Import ZArith QArith.
From S2P Require Import Prelude GoStd Registry Conversion ConversionScheme ApiScheme.

Local Open Scope string_scope.
Local Open Scope list_scope.

(** ** What client-go provides *)

(** [rest.Config], with the fields that are read or written; [QPS] is a float32. *)
Record Config (RateLimiter : Type) := mkConfig {
  Config_Host : string;
  Config_APIPath : string;
  Config_GroupVersion : option GroupVersion;
  Config_NegotiatedSerializer : option string;
  Config_UserAgent : string;
  Config_QPS : Q;
  Config_Burst : Z;
  Config_RateLimiter : option RateLimiter;
}.
Arguments mkConfig {RateLimiter}.
Arguments Config_Host {RateLimiter}.
Arguments Config_APIPath {RateLimiter}.
Arguments Config_GroupVersion {RateLimiter}.
Arguments Config_NegotiatedSerializer {RateLimiter}.
Arguments Config_UserAgent {RateLimiter}.
Arguments Config_QPS {RateLimiter}.
Arguments Config_Burst {RateLimiter}.
Arguments Config_RateLimiter {RateLimiter}.

Definition set_UserAgent {R} (c : Config R) (ua : string) : Config R :=
  mkConfig (Config_Host c) (Config_APIPath c) (Config_GroupVersion c)
    (Config_NegotiatedSerializer c) ua (Config_QPS c) (Config_Burst c) (Config_RateLimiter c).
Definition set_RateLimiter {R} (c : Config R) (r : R) : Config R :=
  mkConfig (Config_Host c) (Config_APIPath c) (Config_GroupVersion c)
    (Config_NegotiatedSerializer c) (Config_UserAgent c) (Config_QPS c) (Config_Burst c) (Some r).

Class RestLibrary := {
  RateLimiter : Type;
  HttpClient : Type;
  RestClient : Type;
  DiscoveryClient : Type;
  DefaultKubernetesUserAgent : string;
  NewTokenBucketRateLimiter : Q -> Z -> RateLimiter;
  HTTPClientFor : Config RateLimiter -> error + HttpClient;
  RESTClientForConfigAndClient : Config RateLimiter -> HttpClient -> error + RestClient;
  NewDiscoveryClientForConfigAndClient : Config RateLimiter -> HttpClient -> error + DiscoveryClient;
  NewDiscoveryClient : RestClient -> DiscoveryClient;
}.

Section clients.
Context `{RestLibrary}.

(** ** The client of a resource (typed/arc/v1alpha1/*.go)

    The arguments of [gentype.NewClientWithListAndApply]: the resource, the REST
    client, the namespace, and the types of an object and of a list. *)

Record typedClient := mkTypedClient {
  tc_resource : string;
  tc_restClient : RestClient;
  tc_namespace : string;
  tc_object : typeName;
  tc_list : typeName;
}.

Record ArcV1alpha1Client := mkArcV1alpha1Client { restClient : RestClient }.

Definition newArtifactTypes (c : ArcV1alpha1Client) : typedClient :=
  mkTypedClient "artifacttypes" (restClient c) "" TArtifactType TArtifactTypeList.

Definition newArtifactWorkflows (c : ArcV1alpha1Client) (namespace : string) : typedClient :=
  mkTypedClient "artifactworkflows" (restClient c) namespace TArtifactWorkflow
    TArtifactWorkflowList.

Definition newEndpoints (c : ArcV1alpha1Client) (namespace : string) : typedClient :=
  mkTypedClient "endpoints" (restClient c) namespace TEndpoint TEndpointList.

Definition newOrders (c : ArcV1alpha1Client) (namespace : string) : typedClient :=
  mkTypedClient "orders" (restClient c) namespace TOrder TOrderList.

(** ** The client of the group version (arc_client.go)

    The interface is a record of its methods, so that informers work on a fake as
    well. *)

Record ArcV1alpha1Interface (C : Type) := mkArcV1alpha1Interface {
  ArtifactTypes : C;
  ArtifactWorkflows : string -> C;
  Endpoints : string -> C;
  Orders : string -> C;
}.

Definition ArcV1alpha1Client_Interface (c : ArcV1alpha1Client) :
  ArcV1alpha1Interface typedClient :=
  mkArcV1alpha1Interface typedClient (newArtifactTypes c) (newArtifactWorkflows c)
    (newEndpoints c) (newOrders c).

(** [setConfigDefaults]. *)
Definition setConfigDefaults (config : Config RateLimiter) : Config RateLimiter :=
  let ua := if string_nonempty (Config_UserAgent config) then Config_UserAgent config
            else DefaultKubernetesUserAgent in
  mkConfig (Config_Host config) "/apis" (Some V1alpha1.SchemeGroupVersion)
    (Some "clientset scheme without conversion") ua (Config_QPS config) (Config_Burst config)
    (Config_RateLimiter config).

Definition arc_NewForConfigAndClient (c : Config RateLimiter) (h : HttpClient) :
  error + ArcV1alpha1Client :=
  let config := setConfigDefaults c in
  match RESTClientForConfigAndClient config h with
  | inl err => inl err
  | inr client => inr (mkArcV1alpha1Client client)
  end.

Definition arc_NewForConfig (c : Config RateLimiter) : error + ArcV1alpha1Client :=
  let config := setConfigDefaults c in
  match HTTPClientFor config with
  | inl err => inl err
  | inr httpClient => arc_NewForConfigAndClient config httpClient
  end.

(** A constructor that panics on an error. *)
Definition OrDie {A : Type} (r : error + A) : outcome A :=
  match r with
  | inl _ => Panic "error in the config"
  | inr a => Ok a
  end.

Definition arc_NewForConfigOrDie (c : Config RateLimiter) : outcome ArcV1alpha1Client :=
  OrDie (arc_NewForConfig c).

Definition arc_New (c : RestClient) : ArcV1alpha1Client := mkArcV1alpha1Client c.

(** [RESTClient] of a client, which may be nil. *)
Definition arc_RESTClient (c : option ArcV1alpha1Client) : option RestClient :=
  match c with
  | None => None
  | Some c => Some (restClient c)
  end.

(** ** The clientset (clientset.go) *)

Record Clientset := mkClientset {
  cs_DiscoveryClient : DiscoveryClient;
  cs_arcV1alpha1 : ArcV1alpha1Client;
}.

Definition ArcV1alpha1 (c : Clientset) : ArcV1alpha1Interface typedClient :=
  ArcV1alpha1Client_Interface (cs_arcV1alpha1 c).

Definition Discovery (c : option Clientset) : option DiscoveryClient :=
  match c with
  | None => None
  | Some c => Some (cs_DiscoveryClient c)
  end.

Definition burstError : error :=
  PlainError "burst is required to be greater than 0 when RateLimiter is not set and QPS is set to greater than 0".

Definition QPS_positive (q : Q) : bool := negb (Qle_bool q 0).

Definition NewForConfigAndClient (c : Config RateLimiter) (httpClient : HttpClient) :
  error + Clientset :=
  let limited :=
    match Config_RateLimiter c with
    | None =>
        if QPS_positive (Config_QPS c) then
          if (Config_Burst c <=? 0)%Z then inl burstError
          else inr (set_RateLimiter c
                      (NewTokenBucketRateLimiter (Config_QPS c) (Config_Burst c)))
        else inr c
    | Some _ => inr c
    end in
  match limited with
  | inl err => inl err
  | inr configShallowCopy =>
      match arc_NewForConfigAndClient configShallowCopy httpClient with
      | inl err => inl err
      | inr arc =>
          match NewDiscoveryClientForConfigAndClient configShallowCopy httpClient with
          | inl err => inl err
          | inr discovery => inr (mkClientset discovery arc)
          end
      end
  end.

Definition NewForConfig (c : Config RateLimiter) : error + Clientset :=
  let configShallowCopy :=
    if string_nonempty (Config_UserAgent c) then c
    else set_UserAgent c DefaultKubernetesUserAgent in
  match HTTPClientFor configShallowCopy with
  | inl err => inl err
  | inr httpClient => NewForConfigAndClient configShallowCopy httpClient
  end.

Definition NewForConfigOrDie (c : Config RateLimiter) : outcome Clientset :=
  OrDie (NewForConfig c).

Definition New (c : RestClient) : Clientset := mkClientset (NewDiscoveryClient c) (arc_New c).

(** ** Facts *)

(** The configuration all clients of a clientset are built from. *)
Definition limitedConfig (c : Config RateLimiter) : Config RateLimiter :=
  match Config_RateLimiter c with
  | None => if QPS_positive (Config_QPS c)
            then set_RateLimiter c (NewTokenBucketRateLimiter (Config_QPS c) (Config_Burst c))
            else c
  | Some _ => c
  end.

Definition burstMissing (c : Config RateLimiter) : bool :=
  match Config_RateLimiter c with
  | None => QPS_positive (Config_QPS c) && (Config_Burst c <=? 0)%Z
  | Some _ => false
  end.

Lemma NewForConfigAndClient_cases c h :
  NewForConfigAndClient c h =
  if burstMissing c then inl burstError
  else match arc_NewForConfigAndClient (limitedConfig c) h,
             NewDiscoveryClientForConfigAndClient (limitedConfig c) h with
       | inl err, _ => inl err
       | inr _, inl err => inl err
       | inr arc, inr discovery => inr (mkClientset discovery arc)
       end.
Proof.
  unfold NewForConfigAndClient, burstMissing, limitedConfig.
  destruct (Config_RateLimiter c); simpl; [by destruct (arc_NewForConfigAndClient _ _)|].
  destruct (QPS_positive _); simpl; [|by destruct (arc_NewForConfigAndClient _ _)].
  destruct (_ <=? _)%Z; [done|]. by destruct (arc_NewForConfigAndClient _ _).
Qed.

(** A clientset that was built talks to arc.bwi.de/v1alpha1 under /apis with a user
    agent and the rate limit of the configuration. *)
Theorem NewForConfig_target c cs :
  NewForConfig c = inr cs ->
  exists config h, HTTPClientFor (if string_nonempty (Config_UserAgent c) then c
                                  else set_UserAgent c DefaultKubernetesUserAgent) = inr h /\
    RESTClientForConfigAndClient config h = inr (restClient (cs_arcV1alpha1 cs)) /\
    Config_GroupVersion config = Some (mkGroupVersion "arc.bwi.de" "v1alpha1") /\
    Config_APIPath config = "/apis" /\ Config_Host config = Config_Host c /\
    (Config_UserAgent config = "" -> DefaultKubernetesUserAgent = "") /\
    (Config_RateLimiter config = None ->
       Config_RateLimiter c = None /\ QPS_positive (Config_QPS c) = false).
Proof.
  unfold NewForConfig. set (c' := if string_nonempty _ then c else _).
  assert (Config_RateLimiter c' = Config_RateLimiter c /\ Config_QPS c' = Config_QPS c /\
          Config_Host c' = Config_Host c) as (Hr & Hq & Hh)
    by (unfold c'; by destruct (string_nonempty _)).
  assert (Config_UserAgent c' = "" -> DefaultKubernetesUserAgent = "") as Hua.
  { unfold c'. destruct (string_nonempty (Config_UserAgent c)) eqn:Hne; [|done].
    intros Hc. by rewrite Hc in Hne. }
  destruct (HTTPClientFor c') as [e|h] eqn:Hh'; [done|].
  rewrite NewForConfigAndClient_cases. destruct (burstMissing c'); [done|].
  unfold arc_NewForConfigAndClient.
  destruct (RESTClientForConfigAndClient (setConfigDefaults (limitedConfig c')) h)
    as [e|rc] eqn:Hrc; [done|].
  destruct (NewDiscoveryClientForConfigAndClient _ _) as [e|dc]; [done|].
  intros [= <-]. exists (setConfigDefaults (limitedConfig c')), h.
  assert (Config_UserAgent (limitedConfig c') = Config_UserAgent c' /\
          Config_Host (limitedConfig c') = Config_Host c') as [Hlu Hlh].
  { unfold limitedConfig. destruct (Config_RateLimiter c'); [done|]. by destruct (QPS_positive _). }
  split_and!; [done|done|done|done| | |].
  - simpl. by rewrite Hlh.
  - simpl. rewrite Hlu. destruct (string_nonempty (Config_UserAgent c')) eqn:Hne; [|done].
    intros Hc. by rewrite Hc in Hne.
  - simpl. unfold limitedConfig. rewrite Hr, Hq.
    destruct (Config_RateLimiter c) eqn:Hrc'; [by rewrite Hr|].
    destruct (QPS_positive _); [done|]. done.
Qed.

End clients.
