(* ===== verification/InformerFactory.v ===== *)
(** * The informers (client-go/informers/externalversions) and listers

    factory.go: the shared informer factory, its options and methods; generic.go and
    the accessors of the group (arc/interface.go, arc/v1alpha1/interface.go); the
    informers of the four kinds (arc/v1alpha1/*.go) and the listers
    (client-go/listers/arc/v1alpha1).

    An informer of client-go ([cache.SharedIndexInformer]) is an object behind a
    pointer: the heap maps pointers to the arguments it was made from and its
    transform.  A type is named as [reflect.TypeOf] prints it.  The methods of the
    factory hold its lock from beginning to end, except that [Shutdown] waits and
    [WaitForCacheSync] polls after they released it. *)

From stdpp Require Import base gmap list strings.
From Stdlib Require Import ZArith.
From S2P Require Import Prelude GoStd Registry Conversion ConversionScheme ApiScheme Clientset.

Local Open Scope string_scope.
Local Open Scope list_scope.

(** ** What client-go provides *)

(** List options and transform functions are values the factory passes on. *)
Class CacheLibrary := {
  ListOptions : Type;
  TransformFunc : Type;
}.

Definition TweakListOptionsFunc `{CacheLibrary} : Type := ListOptions -> ListOptions.

Definition pointer : Type := nat.
Definition channel : Type := nat.
(** [time.Duration], in nanoseconds. *)
Definition Duration : Type := Z.

(** [reflect.TypeOf] of a pointer to an object of the versioned package. *)
Definition TypeOf (n : typeName) : string := "*v1alpha1." +++ kindName n.

(** [cache.Indexers]: the index [namespace] by [MetaNamespaceIndexFunc]. *)
Definition NamespaceIndex : string := "namespace".
Definition Indexers : Type := list (string * string).

Section informers.
Context `{RestLibrary} `{CacheLibrary} `{GoRuntime}.

Definition versioned_Interface : Type := ArcV1alpha1Interface typedClient.

(** The context of a request: the background, or what the caller gave. *)
Inductive context :=
| Background
| Given (ctx : nat).

(** A request an informer makes through the clientset. *)
Inductive request :=
| List (c : typedClient) (ctx : context) (options : ListOptions)
| Watch (c : typedClient) (ctx : context) (options : ListOptions).

(** [cache.ListWatch]. *)
Record ListWatch := mkListWatch {
  ListFunc : ListOptions -> request;
  WatchFunc : ListOptions -> request;
  ListWithContextFunc : context -> ListOptions -> request;
  WatchFuncWithContext : context -> ListOptions -> request;
}.

(** [cache.NewSharedIndexInformer] and the transform set later. *)
Record SharedIndexInformer := mkSharedIndexInformer {
  si_listWatch : ListWatch;
  si_exampleObject : typeName;
  si_resync : Duration;
  si_indexers : Indexers;
  si_transform : option TransformFunc;
}.

Definition NewSharedIndexInformer (lw : ListWatch) (exampleObject : typeName)
  (resync : Duration) (indexers : Indexers) : SharedIndexInformer :=
  mkSharedIndexInformer lw exampleObject resync indexers None.

Definition NewInformerFunc : Type := versioned_Interface -> Duration -> SharedIndexInformer.

(** ** The factory *)

Record sharedInformerFactory := mkSharedInformerFactory {
  client : versioned_Interface;
  namespace : string;
  tweakListOptions : option TweakListOptionsFunc;
  defaultResync : Duration;
  customResync : gmap string Duration;
  transform : option TransformFunc;
  informers : gmap string pointer;
  startedInformers : gmap string bool;
  wg : nat;
  shuttingDown : bool;
}.

Definition set_informers (f : sharedInformerFactory) (m : gmap string pointer) :=
  mkSharedInformerFactory (client f) (namespace f) (tweakListOptions f) (defaultResync f)
    (customResync f) (transform f) m (startedInformers f) (wg f) (shuttingDown f).
Definition set_started (f : sharedInformerFactory) (m : gmap string bool) (n : nat) :=
  mkSharedInformerFactory (client f) (namespace f) (tweakListOptions f) (defaultResync f)
    (customResync f) (transform f) (informers f) m n (shuttingDown f).
Definition set_wg (f : sharedInformerFactory) (n : nat) := set_started f (startedInformers f) n.

(** A goroutine that runs an informer until a channel is closed. *)
Record goroutine := mkGoroutine { g_informer : pointer; g_stop : channel }.

(** The factory, the heap of informers and the goroutines that run. *)
Record World := mkWorld {
  factory : sharedInformerFactory;
  heap : gmap pointer SharedIndexInformer;
  next : pointer;
  goroutines : list goroutine;
}.

Definition set_factory (w : World) (f : sharedInformerFactory) : World :=
  mkWorld f (heap w) (next w) (goroutines w).

(** *** Options and constructors *)

Definition SharedInformerOption : Type := sharedInformerFactory -> sharedInformerFactory.

Definition WithCustomResyncConfig (resyncConfig : list (typeName * Duration)) :
  SharedInformerOption := fun f =>
  mkSharedInformerFactory (client f) (namespace f) (tweakListOptions f) (defaultResync f)
    (fold_left (fun m kv => <[TypeOf kv.1 := kv.2]> m) resyncConfig (customResync f))
    (transform f) (informers f) (startedInformers f) (wg f) (shuttingDown f).

Definition WithTweakListOptions (tweak : option TweakListOptionsFunc) : SharedInformerOption :=
  fun f =>
  mkSharedInformerFactory (client f) (namespace f) tweak (defaultResync f) (customResync f)
    (transform f) (informers f) (startedInformers f) (wg f) (shuttingDown f).

Definition WithNamespace (ns : string) : SharedInformerOption := fun f =>
  mkSharedInformerFactory (client f) ns (tweakListOptions f) (defaultResync f) (customResync f)
    (transform f) (informers f) (startedInformers f) (wg f) (shuttingDown f).

Definition WithTransform (t : option TransformFunc) : SharedInformerOption := fun f =>
  mkSharedInformerFactory (client f) (namespace f) (tweakListOptions f) (defaultResync f)
    (customResync f) t (informers f) (startedInformers f) (wg f) (shuttingDown f).

Definition NewSharedInformerFactoryWithOptions (c : versioned_Interface) (resync : Duration)
  (options : list SharedInformerOption) : sharedInformerFactory :=
  fold_left (fun f opt => opt f) options
    (mkSharedInformerFactory c "" None resync ∅ None ∅ ∅ 0 false).

Definition NewSharedInformerFactory (c : versioned_Interface) (resync : Duration) :
  sharedInformerFactory :=
  NewSharedInformerFactoryWithOptions c resync [].

Definition NewFilteredSharedInformerFactory (c : versioned_Interface) (resync : Duration)
  (ns : string) (tweak : option TweakListOptionsFunc) : sharedInformerFactory :=
  NewSharedInformerFactoryWithOptions c resync [WithNamespace ns; WithTweakListOptions tweak].

(** *** Methods *)

(** The body of the loop of [Start]. *)
Definition startOne (stopCh : channel) (w : World) (ti : string * pointer) : World :=
  let (informerType, informer) := ti in
  let f := factory w in
  if negb (default false (startedInformers f !! informerType)) then
    mkWorld (set_started f (<[informerType := true]> (startedInformers f)) (S (wg f)))
      (heap w) (next w) (goroutines w ++ [mkGoroutine informer stopCh])
  else w.

Definition Start (w : World) (stopCh : channel) : World :=
  if shuttingDown (factory w) then w
  else fold_left (startOne stopCh) (range_order "Start" (informers (factory w))) w.

(** [Shutdown] up to where it releases the lock; it then waits for [wg]. *)
Definition Shutdown_begin (w : World) : World :=
  let f := factory w in
  set_factory w (mkSharedInformerFactory (client f) (namespace f) (tweakListOptions f)
    (defaultResync f) (customResync f) (transform f) (informers f) (startedInformers f)
    (wg f) true).

Definition Shutdown_done (w : World) : bool := (wg (factory w) =? 0)%nat.

(** What a goroutine does when its informer returns: [wg.Done()]. *)
Definition goroutine_done (w : World) (before after : list goroutine) : World :=
  let f := factory w in
  mkWorld (set_wg f (wg f - 1)) (heap w) (next w) (before ++ after).

(** The informers [WaitForCacheSync] takes while it holds the lock. *)
Definition startedSnapshot (w : World) : gmap string pointer :=
  fold_left (fun m ti =>
      if default false (startedInformers (factory w) !! ti.1) then <[ti.1 := ti.2]> m else m)
    (range_order "snapshot" (informers (factory w))) ∅.

(** [cache.WaitForCacheSync] of one informer is the parameter [wait]. *)
Definition WaitForCacheSync (wait : channel -> pointer -> bool) (w : World) (stopCh : channel) :
  gmap string bool :=
  fold_left (fun m ti => <[ti.1 := wait stopCh ti.2]> m)
    (range_order "sync" (startedSnapshot w)) ∅.

(** What [newFunc] makes is a new informer, as that of every caller in the repository
    is; it gets a pointer of its own. *)
Definition InformerFor (w : World) (obj : typeName) (newFunc : NewInformerFunc) :
  World * pointer :=
  let f := factory w in
  let informerType := TypeOf obj in
  match informers f !! informerType with
  | Some informer => (w, informer)
  | None =>
      let resyncPeriod := default (defaultResync f) (customResync f !! informerType) in
      let i := newFunc (client f) resyncPeriod in
      let i := mkSharedIndexInformer (si_listWatch i) (si_exampleObject i) (si_resync i)
                 (si_indexers i) (transform f) in
      let p := next w in
      (mkWorld (set_informers f (<[informerType := p]> (informers f)))
         (<[p := i]> (heap w)) (S p) (goroutines w), p)
  end.

(** ** The informers of the kinds *)

(** The options after the tweak, if there is one. *)
Definition tweaked (tweak : option TweakListOptionsFunc) (options : ListOptions) : ListOptions :=
  match tweak with
  | None => options
  | Some f => f options
  end.

(** The four functions of a list-watch on a typed client. *)
Definition listWatch (tc : typedClient) (tweak : option TweakListOptionsFunc) : ListWatch :=
  mkListWatch
    (fun options => List tc Background (tweaked tweak options))
    (fun options => Watch tc Background (tweaked tweak options))
    (fun ctx options => List tc ctx (tweaked tweak options))
    (fun ctx options => Watch tc ctx (tweaked tweak options)).

Definition NewFilteredOrderInformer (c : versioned_Interface) (ns : string) (resync : Duration)
  (indexers : Indexers) (tweak : option TweakListOptionsFunc) : SharedIndexInformer :=
  NewSharedIndexInformer (listWatch (Orders _ c ns) tweak) TOrder resync indexers.

Definition NewOrderInformer c ns resync indexers : SharedIndexInformer :=
  NewFilteredOrderInformer c ns resync indexers None.

Definition NewFilteredEndpointInformer (c : versioned_Interface) (ns : string)
  (resync : Duration) (indexers : Indexers) (tweak : option TweakListOptionsFunc) :
  SharedIndexInformer :=
  NewSharedIndexInformer (listWatch (Endpoints _ c ns) tweak) TEndpoint resync indexers.

Definition NewEndpointInformer c ns resync indexers : SharedIndexInformer :=
  NewFilteredEndpointInformer c ns resync indexers None.

Definition NewFilteredArtifactWorkflowInformer (c : versioned_Interface) (ns : string)
  (resync : Duration) (indexers : Indexers) (tweak : option TweakListOptionsFunc) :
  SharedIndexInformer :=
  NewSharedIndexInformer (listWatch (ArtifactWorkflows _ c ns) tweak) TArtifactWorkflow resync
    indexers.

Definition NewArtifactWorkflowInformer c ns resync indexers : SharedIndexInformer :=
  NewFilteredArtifactWorkflowInformer c ns resync indexers None.

(** Artifact types are cluster-scoped. *)
Definition NewFilteredArtifactTypeInformer (c : versioned_Interface) (resync : Duration)
  (indexers : Indexers) (tweak : option TweakListOptionsFunc) : SharedIndexInformer :=
  NewSharedIndexInformer (listWatch (ArtifactTypes _ c) tweak) TArtifactType resync indexers.

Definition NewArtifactTypeInformer c resync indexers : SharedIndexInformer :=
  NewFilteredArtifactTypeInformer c resync indexers None.

Definition namespaceIndexers : Indexers := [(NamespaceIndex, "MetaNamespaceIndexFunc")].

(** The informer structs: the factory is reached through the world. *)
Record orderInformer := mkOrderInformer {
  oi_tweak : option TweakListOptionsFunc; oi_namespace : string }.
Record endpointInformer := mkEndpointInformer {
  ei_tweak : option TweakListOptionsFunc; ei_namespace : string }.
Record artifactWorkflowInformer := mkArtifactWorkflowInformer {
  awi_tweak : option TweakListOptionsFunc; awi_namespace : string }.
Record artifactTypeInformer := mkArtifactTypeInformer {
  ati_tweak : option TweakListOptionsFunc }.

Definition orderInformer_defaultInformer (f : orderInformer) : NewInformerFunc :=
  fun c resync => NewFilteredOrderInformer c (oi_namespace f) resync namespaceIndexers (oi_tweak f).
Definition endpointInformer_defaultInformer (f : endpointInformer) : NewInformerFunc :=
  fun c resync =>
    NewFilteredEndpointInformer c (ei_namespace f) resync namespaceIndexers (ei_tweak f).
Definition artifactWorkflowInformer_defaultInformer (f : artifactWorkflowInformer) :
  NewInformerFunc := fun c resync =>
    NewFilteredArtifactWorkflowInformer c (awi_namespace f) resync namespaceIndexers (awi_tweak f).
Definition artifactTypeInformer_defaultInformer (f : artifactTypeInformer) : NewInformerFunc :=
  fun c resync => NewFilteredArtifactTypeInformer c resync namespaceIndexers (ati_tweak f).

Definition orderInformer_Informer (f : orderInformer) (w : World) : World * pointer :=
  InformerFor w TOrder (orderInformer_defaultInformer f).
Definition endpointInformer_Informer (f : endpointInformer) (w : World) : World * pointer :=
  InformerFor w TEndpoint (endpointInformer_defaultInformer f).
Definition artifactWorkflowInformer_Informer (f : artifactWorkflowInformer) (w : World) :
  World * pointer :=
  InformerFor w TArtifactWorkflow (artifactWorkflowInformer_defaultInformer f).
Definition artifactTypeInformer_Informer (f : artifactTypeInformer) (w : World) :
  World * pointer :=
  InformerFor w TArtifactType (artifactTypeInformer_defaultInformer f).

(** ** Listers *)

(** [listers.New] and [listers.NewNamespaced]: the indexer of an informer, the
    resource for errors, the namespace it is limited to. *)
Record ResourceIndexer := mkResourceIndexer {
  ri_informer : pointer;
  ri_resource : GroupResource;
  ri_namespace : string;
}.

Definition NewNamespaced (parent : ResourceIndexer) (ns : string) : ResourceIndexer :=
  mkResourceIndexer (ri_informer parent) (ri_resource parent) ns.

Definition NewOrderLister (indexer : pointer) : ResourceIndexer :=
  mkResourceIndexer indexer (V1alpha1.Resource "order") "".
Definition NewEndpointLister (indexer : pointer) : ResourceIndexer :=
  mkResourceIndexer indexer (V1alpha1.Resource "endpoint") "".
Definition NewArtifactWorkflowLister (indexer : pointer) : ResourceIndexer :=
  mkResourceIndexer indexer (V1alpha1.Resource "artifactworkflow") "".
Definition NewArtifactTypeLister (indexer : pointer) : ResourceIndexer :=
  mkResourceIndexer indexer (V1alpha1.Resource "artifacttype") "".

(** The methods that limit a lister to a namespace. *)
Definition orderLister_Orders (s : ResourceIndexer) (ns : string) := NewNamespaced s ns.
Definition endpointLister_Endpoints (s : ResourceIndexer) (ns : string) := NewNamespaced s ns.
Definition artifactWorkflowLister_ArtifactWorkflows (s : ResourceIndexer) (ns : string) :=
  NewNamespaced s ns.

Definition orderInformer_Lister (f : orderInformer) (w : World) : World * ResourceIndexer :=
  let (w, p) := orderInformer_Informer f w in (w, NewOrderLister p).
Definition endpointInformer_Lister (f : endpointInformer) (w : World) : World * ResourceIndexer :=
  let (w, p) := endpointInformer_Informer f w in (w, NewEndpointLister p).
Definition artifactWorkflowInformer_Lister (f : artifactWorkflowInformer) (w : World) :
  World * ResourceIndexer :=
  let (w, p) := artifactWorkflowInformer_Informer f w in (w, NewArtifactWorkflowLister p).
Definition artifactTypeInformer_Lister (f : artifactTypeInformer) (w : World) :
  World * ResourceIndexer :=
  let (w, p) := artifactTypeInformer_Informer f w in (w, NewArtifactTypeLister p).

(** ** The accessors (arc/interface.go, arc/v1alpha1/interface.go) *)

(** The structs [group] and [version] hold the same fields. *)
Record scope := mkScope { sc_namespace : string; sc_tweak : option TweakListOptionsFunc }.

Definition group_New (ns : string) (tweak : option TweakListOptionsFunc) : scope :=
  mkScope ns tweak.
Definition group_V1alpha1 (g : scope) : scope := mkScope (sc_namespace g) (sc_tweak g).
Definition Arc (f : sharedInformerFactory) : scope := group_New (namespace f) (tweakListOptions f).

Definition version_Orders (v : scope) : orderInformer :=
  mkOrderInformer (sc_tweak v) (sc_namespace v).
Definition version_Endpoints (v : scope) : endpointInformer :=
  mkEndpointInformer (sc_tweak v) (sc_namespace v).
Definition version_ArtifactWorkflows (v : scope) : artifactWorkflowInformer :=
  mkArtifactWorkflowInformer (sc_tweak v) (sc_namespace v).
Definition version_ArtifactTypes (v : scope) : artifactTypeInformer :=
  mkArtifactTypeInformer (sc_tweak v).

(** ** generic.go *)

Record genericInformer := mkGenericInformer {
  gi_informer : pointer;
  gi_resource : GroupResource;
}.

(** [Lister] of a generic informer, [cache.NewGenericLister]. *)
Definition genericInformer_Lister (f : genericInformer) : ResourceIndexer :=
  mkResourceIndexer (gi_informer f) (gi_resource f) "".

Definition ForResource (w : World) (resource : GroupVersionResource) :
  World * (error + genericInformer) :=
  let v := group_V1alpha1 (Arc (factory w)) in
  let found (r : World * pointer) :=
    (r.1, inr (mkGenericInformer r.2 (GVR_GroupResource resource))) in
  if bool_decide (resource = WithResource V1alpha1.SchemeGroupVersion "artifacttypes") then
    found (artifactTypeInformer_Informer (version_ArtifactTypes v) w)
  else if bool_decide (resource = WithResource V1alpha1.SchemeGroupVersion "artifactworkflows") then
    found (artifactWorkflowInformer_Informer (version_ArtifactWorkflows v) w)
  else if bool_decide (resource = WithResource V1alpha1.SchemeGroupVersion "endpoints") then
    found (endpointInformer_Informer (version_Endpoints v) w)
  else if bool_decide (resource = WithResource V1alpha1.SchemeGroupVersion "orders") then
    found (orderInformer_Informer (version_Orders v) w)
  else (w, inl (PlainError ("no informer found for " +++ GVR_Group resource +++ "/"
                  +++ GVR_Version resource +++ ", Resource=" +++ GVR_Resource resource))).

End informers.
