(* ===== verification/InformerTheorems.v ===== *)
(** * The informer factory under concurrent use

    The calls of the factory's users, the informers' goroutines and the closing of
    stop channels as steps in any order; the invariant of the factory; what [Start],
    [Shutdown], [WaitForCacheSync], [InformerFor] and [ForResource] achieve. *)

From stdpp Require Import base gmap list strings relations sets.
From Stdlib Require Import ZArith.
From S2P Require Import Prelude GoStd Registry Conversion ConversionScheme ApiScheme Clientset.
From S2P Require Import InformerFactory.

Local Open Scope string_scope.
Local Open Scope list_scope.

Section theorems.
Context `{RestLibrary} `{CacheLibrary} `{GoRuntime}.

(** ** The system *)

(** [waiting] counts the calls of [Shutdown] that wait; [ran] are the informers that
    were ever run, in order. *)
Record FactorySystem := mkFactorySystem {
  world : World;
  closed : gset channel;
  waiting : nat;
  ran : list pointer;
}.

(** An informer's [Run] returns when its channel is closed; [wg.Wait] returns when
    the counter is zero. *)
Inductive factoryStep (y : FactorySystem) : FactorySystem -> Prop :=
| StepStart stopCh :
    let w := Start (world y) stopCh in
    factoryStep y (mkFactorySystem w (closed y) (waiting y)
      (ran y ++ drop (length (goroutines (world y))) (map g_informer (goroutines w))))
| StepInformerFor obj newFunc :
    factoryStep y (mkFactorySystem (InformerFor (world y) obj newFunc).1 (closed y) (waiting y)
      (ran y))
| StepShutdown :
    factoryStep y (mkFactorySystem (Shutdown_begin (world y)) (closed y) (S (waiting y)) (ran y))
| StepShutdownReturns n :
    waiting y = S n -> Shutdown_done (world y) = true ->
    factoryStep y (mkFactorySystem (world y) (closed y) n (ran y))
| StepClose ch :
    factoryStep y (mkFactorySystem (world y) ({[ch]} ∪ closed y) (waiting y) (ran y))
| StepRunReturns before g after :
    goroutines (world y) = before ++ g :: after -> g_stop g ∈ closed y ->
    factoryStep y (mkFactorySystem (goroutine_done (world y) before after) (closed y) (waiting y)
      (ran y)).

(** A factory that was just made. *)
Definition newSystem (f : sharedInformerFactory) : FactorySystem :=
  mkFactorySystem (mkWorld f ∅ 0 []) ∅ 0 [].

(** The options the package offers. *)
Definition factoryOption (opt : SharedInformerOption) : Prop :=
  (exists l, opt = WithCustomResyncConfig l) \/ (exists t, opt = WithTweakListOptions t) \/
  (exists ns, opt = WithNamespace ns) \/ (exists t, opt = WithTransform t).

Definition factoryReachable (y : FactorySystem) : Prop :=
  exists c resync options,
    Forall factoryOption options /\
    rtc factoryStep (newSystem (NewSharedInformerFactoryWithOptions c resync options)) y.

(** ** The invariant *)

Definition started (f : sharedInformerFactory) (t : string) : bool :=
  default false (startedInformers f !! t).

Record factoryInvariant (y : FactorySystem) : Prop := {
  (** the counter counts the goroutines *)
  fi_wg : wg (factory (world y)) = length (goroutines (world y));
  (** informers are distinct and allocated *)
  fi_heap : forall t p, informers (factory (world y)) !! t = Some p ->
    p < next (world y) /\ is_Some (heap (world y) !! p);
  fi_inj : forall t t' p, informers (factory (world y)) !! t = Some p ->
    informers (factory (world y)) !! t' = Some p -> t = t';
  (** exactly the started informers were run, each once *)
  fi_started : forall t, started (factory (world y)) t = true ->
    exists p, informers (factory (world y)) !! t = Some p /\ p ∈ ran y;
  fi_ran : forall p, p ∈ ran y -> exists t, informers (factory (world y)) !! t = Some p /\
    started (factory (world y)) t = true;
  fi_once : NoDup (ran y);
  fi_goroutines : forall g, g ∈ goroutines (world y) -> g_informer g ∈ ran y;
  fi_single : NoDup (map g_informer (goroutines (world y)));
  (** whoever waits has announced the shutdown *)
  fi_waiting : 0 < waiting y -> shuttingDown (factory (world y)) = true;
}.

(** *** [Start] *)

(** What the loop of [Start] does with the informers of a list. *)
Lemma startAll_spec stopCh l w :
  NoDup l.*1 ->
  let w' := fold_left (startOne stopCh) l w in
  let new := List.filter (fun ti => negb (started (factory w) ti.1)) l in
  heap w' = heap w /\ next w' = next w /\
  informers (factory w') = informers (factory w) /\
  shuttingDown (factory w') = shuttingDown (factory w) /\
  goroutines w' = goroutines w ++ map (fun ti => mkGoroutine ti.2 stopCh) new /\
  wg (factory w') = wg (factory w) + length new /\
  forall t, started (factory w') t = started (factory w) t || bool_decide (t ∈ l.*1).
Proof.
  revert w. induction l as [|[t p] l IH]; intros w Hnd; cbv zeta.
  { simpl. rewrite app_nil_r. split_and!; try done; try lia.
    intros t. by rewrite orb_false_r. }
  simpl in Hnd. apply NoDup_cons in Hnd as [Hno Hnd].
  simpl fold_left. unfold startOne at 2. fold (started (factory w) t).
  destruct (started (factory w) t) eqn:Hst; simpl negb; cbv iota.
  - destruct (IH w Hnd) as (Hh & Hn & Hi & Hs & Hg & Hw & Hall).
    simpl List.filter. rewrite Hst. simpl negb. cbv iota. split_and!; try done.
    intros t'. rewrite Hall. destruct (decide (t' = t)) as [->|Hne]; [by rewrite Hst|].
    f_equal. apply bool_decide_ext. set_solver.
  - set (w1 := mkWorld _ _ _ _).
    assert (forall t', started (factory w1) t' = started (factory w) t' || bool_decide (t' = t))
      as Hs1.
    { intros t'. unfold started. simpl. destruct (decide (t' = t)) as [->|Hne].
      - rewrite lookup_insert_eq, bool_decide_true by done. by rewrite orb_true_r.
      - by rewrite lookup_insert_ne, bool_decide_false, orb_false_r by done. }
    destruct (IH w1 Hnd) as (Hh & Hn & Hi & Hs & Hg & Hw & Hall).
    assert (List.filter (fun ti => negb (started (factory w1) ti.1)) l =
            List.filter (fun ti => negb (started (factory w) ti.1)) l) as Hf.
    { apply List.filter_ext_in. intros [t' p'] Hin%list_elem_of_In. simpl. rewrite Hs1.
      rewrite bool_decide_false, orb_false_r; [done|]. intros ->. apply Hno.
      apply list_elem_of_fmap. by exists (t, p'). }
    simpl List.filter. rewrite Hst. simpl negb. cbv iota. rewrite Hf in Hg, Hw.
    split_and!; try done.
    + rewrite Hg. simpl. by rewrite <- app_assoc.
    + rewrite Hw. simpl. lia.
    + intros t'. rewrite Hall, Hs1, <- orb_assoc. f_equal.
      rewrite <- bool_decide_or. apply bool_decide_ext. set_solver.
Qed.

(** The informers [Start] runs. *)
Definition toStart (w : World) : list (string * pointer) :=
  if shuttingDown (factory w) then []
  else List.filter (fun ti => negb (started (factory w) ti.1))
         (range_order "Start" (informers (factory w))).

Lemma Start_spec w stopCh :
  let w' := Start w stopCh in
  heap w' = heap w /\ next w' = next w /\
  informers (factory w') = informers (factory w) /\
  shuttingDown (factory w') = shuttingDown (factory w) /\
  goroutines w' = goroutines w ++ map (fun ti => mkGoroutine ti.2 stopCh) (toStart w) /\
  wg (factory w') = wg (factory w) + length (toStart w) /\
  forall t, started (factory w') t =
    started (factory w) t ||
    (negb (shuttingDown (factory w)) && bool_decide (is_Some (informers (factory w) !! t))).
Proof.
  cbv zeta. unfold Start, toStart. destruct (shuttingDown (factory w)) eqn:Hsd.
  - simpl. rewrite app_nil_r, Hsd. split_and!; try done; try lia.
    intros t. by rewrite orb_false_r.
  - destruct (startAll_spec stopCh (range_order "Start" (informers (factory w))) w)
      as (Hh & Hn & Hi & Hs & Hg & Hw & Hall); [apply range_NoDup_keys|].
    rewrite Hs, Hsd. split_and!; try done. intros t. rewrite Hall. f_equal.
    apply bool_decide_ext. apply range_keys_elem_of.
Qed.

Lemma toStart_elem w t p :
  (t, p) ∈ toStart w <->
  shuttingDown (factory w) = false /\ informers (factory w) !! t = Some p /\
  started (factory w) t = false.
Proof.
  unfold toStart. destruct (shuttingDown (factory w)).
  - split; [by intros ?%not_elem_of_nil|by intros [? _]].
  - rewrite list_elem_of_In, List.filter_In, <- list_elem_of_In, range_elem_of.
    simpl. rewrite negb_true_iff. tauto.
Qed.

(** *** [InformerFor] *)

Lemma InformerFor_spec w obj newFunc :
  let w' := (InformerFor w obj newFunc).1 in
  goroutines w' = goroutines w /\ wg (factory w') = wg (factory w) /\
  shuttingDown (factory w') = shuttingDown (factory w) /\
  startedInformers (factory w') = startedInformers (factory w) /\
  (w' = w \/
   informers (factory w) !! TypeOf obj = None /\ next w' = S (next w) /\
   informers (factory w') = <[TypeOf obj := next w]> (informers (factory w)) /\
   exists i, heap w' = <[next w := i]> (heap w)).
Proof.
  cbv zeta. unfold InformerFor. destruct (informers (factory w) !! TypeOf obj) eqn:Hi; simpl.
  - split_and!; try done. by left.
  - split_and!; try done. right. split_and!; try done. eauto.
Qed.

(** *** Every step keeps it *)

Lemma NoDup_snd_inj (m : gmap string pointer) (l : list (string * pointer)) :
  (forall t t' p, m !! t = Some p -> m !! t' = Some p -> t = t') ->
  NoDup l -> (forall t p, (t, p) ∈ l -> m !! t = Some p) -> NoDup l.*2.
Proof.
  intros Hinj Hnd Hin. induction l as [|[t p] l IH]; [constructor|].
  apply NoDup_cons in Hnd as [Hno Hnd]. simpl. apply NoDup_cons. split.
  - intros ([t' p'] & Heq & Hl)%list_elem_of_fmap. simpl in Heq. subst p'. apply Hno.
    assert (t = t') as <- by (apply (Hinj _ _ p); apply Hin; set_solver). done.
  - apply IH; [done|]. intros t' p' Hl. apply Hin. set_solver.
Qed.

Lemma toStart_NoDup w : NoDup (toStart w).
Proof.
  unfold toStart. destruct (shuttingDown _); [constructor|].
  apply NoDup_ListNoDup, List.NoDup_filter, NoDup_ListNoDup.
  eapply NoDup_fmap_1. apply range_NoDup_keys.
Qed.

Lemma toStart_map w stopCh :
  map g_informer (map (fun ti => mkGoroutine ti.2 stopCh) (toStart w)) = (toStart w).*2.
Proof. by rewrite map_map. Qed.

Lemma start_ran w stopCh :
  drop (length (goroutines w)) (map g_informer (goroutines (Start w stopCh))) = (toStart w).*2.
Proof.
  destruct (Start_spec w stopCh) as (_ & _ & _ & _ & Hg & _ & _).
  rewrite Hg, map_app, drop_app_length' by (by rewrite length_map). apply toStart_map.
Qed.

Lemma StepStart_inv y stopCh :
  factoryInvariant y ->
  factoryInvariant (mkFactorySystem (Start (world y) stopCh) (closed y) (waiting y)
    (ran y ++ (toStart (world y)).*2)).
Proof.
  intros [Hwg Hheap Hinj Hst Hran Honce Hgo Hsi Hwait].
  destruct (Start_spec (world y) stopCh) as (Hh & Hn & Hi & Hs & Hg & Hw & Hall).
  assert (forall t p, (t, p) ∈ toStart (world y) -> informers (factory (world y)) !! t = Some p)
    as Hin by (by intros t p (_ & Hl & _)%toStart_elem).
  assert (forall p, p ∈ (toStart (world y)).*2 -> p ∉ ran y) as Hdis.
  { intros p ([t p'] & -> & Hl)%list_elem_of_fmap (t' & Ht' & Hs')%Hran. simpl in Ht'.
    apply toStart_elem in Hl as (_ & Ht & Hf). rewrite (Hinj _ _ _ Ht' Ht) in Hs'. congruence. }
  assert (NoDup (toStart (world y)).*2) as Hnd
    by (apply (NoDup_snd_inj _ _ Hinj (toStart_NoDup _) Hin)).
  split; simpl; rewrite ?Hi, ?Hs; try done.
  - by rewrite Hw, Hg, length_app, length_map, Hwg.
  - by rewrite Hn, Hh.
  - intros t Ht. rewrite Hall in Ht. destruct (started (factory (world y)) t) eqn:Hto.
    + destruct (Hst t Hto) as (p & Hp & Hpr). exists p. split; [done|]. set_solver.
    + simpl in Ht. apply andb_true_iff in Ht as [Hsd%negb_true_iff [p Hp]%bool_decide_eq_true].
      exists p. split; [done|]. apply elem_of_app. right. apply list_elem_of_fmap.
      exists (t, p). split; [done|]. by apply toStart_elem.
  - intros p [(t & Ht & Hs')%Hran|([t p'] & -> & Hl)%list_elem_of_fmap]%elem_of_app.
    + exists t. split; [done|]. by rewrite Hall, Hs'.
    + exists t. simpl. split; [by apply Hin|]. apply toStart_elem in Hl as (Hsd & Ht & Hf).
      rewrite Hall, Hsd, Hf, Ht. done.
  - apply NoDup_app. split_and!; [done| |done]. intros p Hp Hp'. by apply (Hdis p).
  - rewrite Hg. intros g [Hold%Hgo|Hnew]%elem_of_app; [set_solver|].
    apply list_elem_of_fmap in Hnew as ([t p] & -> & Hl). apply elem_of_app. right.
    apply list_elem_of_fmap. by exists (t, p).
  - rewrite Hg, map_app, toStart_map. apply NoDup_app. split_and!; [done| |done].
    intros p (g & -> & Hgin)%list_elem_of_fmap Hp. apply (Hdis _ Hp). by apply Hgo.
Qed.

Lemma StepInformerFor_inv y obj newFunc :
  factoryInvariant y ->
  factoryInvariant (mkFactorySystem (InformerFor (world y) obj newFunc).1 (closed y) (waiting y)
    (ran y)).
Proof.
  intros Hinv. pose proof Hinv as [Hwg Hheap Hinj Hst Hran Honce Hgo Hsi Hwait].
  destruct (InformerFor_spec (world y) obj newFunc)
    as (Hg & Hw & Hs & Hstd & [->|(Hnone & Hn & Hi & i & Hh)]); [by destruct y|].
  assert (forall t, started (factory (InformerFor (world y) obj newFunc).1) t =
                    started (factory (world y)) t) as Hsame by (intros t; unfold started; by rewrite Hstd).
  split; simpl; rewrite ?Hg, ?Hw, ?Hs; try done.
  - rewrite Hi, Hn, Hh. intros t p [[<- <-]|[_ Hl]]%lookup_insert_Some.
    + split; [lia|]. rewrite lookup_insert_eq. by eexists.
    + destruct (Hheap t p Hl) as [Hlt Hsome]. split; [lia|]. rewrite lookup_insert_ne by lia. done.
  - rewrite Hi. intros t t' p Ht Ht'.
    apply lookup_insert_Some in Ht as [[<- <-]|[_ Ht]];
      apply lookup_insert_Some in Ht' as [[<- Heq]|[_ Ht']]; try done.
    + apply Hheap in Ht' as [? _]. lia.
    + subst p. apply Hheap in Ht as [? _]. lia.
    + by apply (Hinj t t' p).
  - intros t Ht. rewrite Hsame in Ht. destruct (Hst t Ht) as (p & Hp & Hr). exists p.
    split; [|done]. rewrite Hi, lookup_insert_ne; [done|]. intros <-. by rewrite Hnone in Hp.
  - intros p (t & Ht & Hs')%Hran. exists t. rewrite Hsame. split; [|done].
    rewrite Hi, lookup_insert_ne; [done|]. intros <-. by rewrite Hnone in Ht.
Qed.

Lemma StepRunReturns_inv y before g after :
  factoryInvariant y -> goroutines (world y) = before ++ g :: after ->
  factoryInvariant (mkFactorySystem (goroutine_done (world y) before after) (closed y) (waiting y)
    (ran y)).
Proof.
  intros [Hwg Hheap Hinj Hst Hran Honce Hgo Hsi Hwait] Hg.
  rewrite Hg in *. split; simpl; try done.
  - rewrite Hwg, !length_app. simpl. lia.
  - intros g' Hg'. apply Hgo. set_solver.
  - rewrite map_app in *. simpl in Hsi. apply NoDup_app in Hsi as (Hb & Hd & Ha).
    apply NoDup_cons in Ha as [_ Ha]. apply NoDup_app. split_and!; [done| |done].
    intros p Hp Hp'. apply (Hd p Hp). set_solver.
Qed.

Lemma factoryStep_inv y y' : factoryInvariant y -> factoryStep y y' -> factoryInvariant y'.
Proof.
  intros Hinv [stopCh w|obj newFunc| |n Hn Hd|ch|before g after Hg Hc].
  - unfold w. rewrite start_ran. by apply StepStart_inv.
  - by apply StepInformerFor_inv.
  - destruct Hinv. by split.
  - destruct Hinv as [? ? ? ? ? ? ? ? Hw]. split; try done. simpl. intros _. apply Hw. lia.
  - destruct Hinv. by split.
  - by apply (StepRunReturns_inv y before g after).
Qed.

(** The options change none of the fields that the invariant is about. *)
Lemma new_factory c resync options :
  Forall factoryOption options ->
  let f := NewSharedInformerFactoryWithOptions c resync options in
  informers f = ∅ /\ startedInformers f = ∅ /\ wg f = 0 /\ shuttingDown f = false.
Proof.
  unfold NewSharedInformerFactoryWithOptions.
  set (f0 := mkSharedInformerFactory _ _ _ _ _ _ _ _ _ _). intros Hall.
  assert (informers f0 = ∅ /\ startedInformers f0 = ∅ /\ wg f0 = 0 /\ shuttingDown f0 = false)
    as Hf0 by done.
  clearbody f0. revert f0 Hf0. induction Hall as [|opt l Ho _ IH]; intros f0 Hf0; simpl; [done|].
  apply IH. by destruct Ho as [(x & ->)|[(x & ->)|[(x & ->)|(x & ->)]]].
Qed.

Lemma factoryReachable_inv y : factoryReachable y -> factoryInvariant y.
Proof.
  intros (c & resync & options & Hall & Hr).
  destruct (new_factory c resync options Hall) as (Hi & Hs & Hw & Hsd).
  assert (factoryInvariant (newSystem (NewSharedInformerFactoryWithOptions c resync options)))
    as Hinv.
  { split; simpl; rewrite ?Hi; try done; try by constructor.
    - intros t. unfold started. by rewrite Hs.
    - intros p ?%not_elem_of_nil. done.
    - intros g ?%not_elem_of_nil. done.
    - lia. }
  clear -Hinv Hr. induction Hr as [|y0 y1 y Hstep _ IH]; [done|].
  by eapply IH, factoryStep_inv.
Qed.

(** C36: however the calls of the factory, the informers and the closing of channels
    interleave: no informer is ever run twice, the informers that run or ran are
    exactly the started ones, different types have different informers, the wait
    group counts the goroutines that run, and only a factory that is shutting down is
    waited for. *)
Theorem factory_invariant y : factoryReachable y -> factoryInvariant y.
Proof. apply factoryReachable_inv. Qed.

(** ** [Shutdown] *)

(** Once a shutdown was announced nothing starts: the goroutines of a later state are
    some of those that ran, and the announcement stays. *)
Lemma shutdown_shrinks y y' :
  shuttingDown (factory (world y)) = true -> factoryStep y y' ->
  shuttingDown (factory (world y')) = true /\
  goroutines (world y') `sublist_of` goroutines (world y) /\ ran y' = ran y /\
  (closed y ⊆ closed y').
Proof.
  intros Hsd [stopCh w|obj newFunc| |n Hn Hd|ch|before g after Hg Hc]; simpl.
  - unfold w. rewrite start_ran.
    destruct (Start_spec (world y) stopCh) as (_ & _ & _ & Hs & Hg & _).
    unfold toStart in *. rewrite Hsd in *. rewrite Hs, Hg. simpl. by rewrite !app_nil_r.
  - destruct (InformerFor_spec (world y) obj newFunc) as (Hg & _ & Hs & _). by rewrite Hg, Hs.
  - done.
  - done.
  - split_and!; [done|done|done|set_solver].
  - rewrite Hg. split_and!; [done| |done|done]. by apply sublist_app, sublist_cons.
Qed.

Lemma shutdown_shrinks_rtc y y' :
  shuttingDown (factory (world y)) = true -> rtc factoryStep y y' ->
  shuttingDown (factory (world y')) = true /\
  goroutines (world y') `sublist_of` goroutines (world y) /\ ran y' = ran y /\
  (closed y ⊆ closed y').
Proof.
  intros Hsd Hr. induction Hr as [y|y y1 y2 Hstep _ IH]; [done|].
  destruct (shutdown_shrinks _ _ Hsd Hstep) as (Hsd1 & Hg1 & Hr1 & Hc1).
  destruct (IH Hsd1) as (Hsd2 & Hg2 & Hr2 & Hc2).
  split_and!; [done|by etrans|congruence|set_solver].
Qed.

(** The steps in which an informer returns. *)
Inductive returnStep (y : FactorySystem) : FactorySystem -> Prop :=
| ReturnStep before g after :
    goroutines (world y) = before ++ g :: after -> g_stop g ∈ closed y ->
    returnStep y (mkFactorySystem (goroutine_done (world y) before after) (closed y) (waiting y)
      (ran y)).

Lemma returnStep_step y y' : returnStep y y' -> factoryStep y y'.
Proof. intros [before g after Hg Hc]. by apply StepRunReturns with g. Qed.

Lemma returnStep_length y y' :
  returnStep y y' -> length (goroutines (world y)) = S (length (goroutines (world y'))).
Proof. intros [before g after Hg Hc]. rewrite Hg. simpl. rewrite !length_app. simpl. lia. Qed.

(** All the channels the goroutines wait for are closed. *)
Definition stopped (y : FactorySystem) : Prop :=
  forall g, g ∈ goroutines (world y) -> g_stop g ∈ closed y.

Lemma stopped_return y :
  stopped y -> goroutines (world y) <> [] -> exists y', returnStep y y'.
Proof.
  intros Hst Hne. destruct (goroutines (world y)) as [|g gs] eqn:Hg; [done|].
  eexists. apply (ReturnStep y [] g gs); [done|]. apply Hst. rewrite Hg. set_solver.
Qed.

(** C37: [Shutdown] returns once the stop channels are closed.  From any state of a
    factory that is shutting down and whose goroutines have closed channels: nothing
    that happens starts an informer or re-opens a channel; every return of an informer
    lowers the wait group, so there are at most as many as goroutines; while the wait
    group is not zero some informer can return; and when it is zero, which n returns
    lead to, every waiting call of [Shutdown] can return, and so it stays. *)
Theorem shutdown_terminates y y' :
  factoryReachable y -> shuttingDown (factory (world y)) = true -> stopped y ->
  rtc factoryStep y y' ->
  stopped y' /\ ran y' = ran y /\
  wg (factory (world y')) <= wg (factory (world y)) /\
  (forall n y'', nsteps returnStep n y' y'' ->
     n + wg (factory (world y'')) = wg (factory (world y'))) /\
  (Shutdown_done (world y') = false -> exists y'', returnStep y' y'') /\
  exists z, nsteps returnStep (wg (factory (world y'))) y' z /\ Shutdown_done (world z) = true /\
    forall z', rtc factoryStep z z' -> Shutdown_done (world z') = true.
Proof.
  intros Hreach Hsd Hst Hr.
  assert (factoryInvariant y') as Hinv'.
  { destruct Hreach as (c & re & os & Ho & Hr0). apply factoryReachable_inv.
    exists c, re, os. split; [done|]. by etrans. }
  pose proof (factoryReachable_inv y Hreach) as Hinv.
  destruct (shutdown_shrinks_rtc y y' Hsd Hr) as (Hsd' & Hsub & Hran & Hcl).
  assert (stopped y') as Hst'.
  { intros g Hg. apply Hcl, Hst. by eapply sublist_subseteq. }
  split_and!; [done|done| | | |].
  - rewrite (fi_wg y Hinv), (fi_wg y' Hinv'). by apply sublist_length.
  - intros n y'' Hn. clear -Hn Hinv' H1. induction Hn as [y'|n y' y1 y'' Hstep _ IH]; [done|].
    assert (factoryInvariant y1) as Hinv1 by (by eapply factoryStep_inv, returnStep_step).
    specialize (IH Hinv1). apply returnStep_length in Hstep.
    rewrite (fi_wg y' Hinv'), Hstep, <- (fi_wg y1 Hinv1). lia.
  - intros Hnd. apply stopped_return; [done|]. intros Hnil. unfold Shutdown_done in Hnd.
    rewrite (fi_wg y' Hinv'), Hnil in Hnd. done.
  - assert (exists z, nsteps returnStep (wg (factory (world y'))) y' z /\
              goroutines (world z) = []) as (z & Hz & Hnil).
    { rewrite (fi_wg y' Hinv'). clear -Hst' H1.
      remember (length (goroutines (world y'))) as n eqn:Hn. revert y' Hn Hst'.
      induction n as [|n IH]; intros y Hn Hst.
      - exists y. split; [constructor|]. by apply nil_length_inv.
      - destruct (stopped_return y Hst) as [y1 Hy1]; [intros Hnil; by rewrite Hnil in Hn|].
        pose proof (returnStep_length _ _ Hy1) as Hl.
        destruct (IH y1) as (z & Hz & Hnil); [lia| |].
        + destruct Hy1 as [before g after Hg Hc]. intros g' Hg'. simpl in *. apply Hst.
          rewrite Hg. set_solver.
        + exists z. split; [by econstructor|done]. }
    assert (rtc factoryStep y' z) as Hrz.
    { apply rtc_nsteps_2 in Hz. eapply rtc_subrel, Hz. apply returnStep_step. }
    assert (forall z', rtc factoryStep z z' -> Shutdown_done (world z') = true) as Hall.
    { intros z' Hz'. destruct (shutdown_shrinks_rtc y' z Hsd' Hrz) as (Hsdz & _).
      destruct (shutdown_shrinks_rtc z z' Hsdz Hz') as (_ & Hs & _).
      rewrite Hnil in Hs. apply sublist_nil_r in Hs.
      assert (factoryInvariant z') as Hz0.
      { destruct Hreach as (c & re & os & Ho & Hr0). apply factoryReachable_inv.
        exists c, re, os. split; [done|]. by repeat (etrans; [done|]). }
      unfold Shutdown_done. by rewrite (fi_wg z' Hz0), Hs. }
    exists z. split_and!; [done|by apply Hall|done].
Qed.

(** ** [WaitForCacheSync] *)

Lemma fold_filter_insert (keep : string -> bool) (l : list (string * pointer))
  (m : gmap string pointer) :
  fold_left (fun m ti => if keep ti.1 then <[ti.1 := ti.2]> m else m) l m =
  fold_left (fun m kv => <[kv.1 := kv.2]> m) (List.filter (fun ti => keep ti.1) l) m.
Proof.
  revert m. induction l as [|[t p] l IH]; intros m; simpl; [done|].
  destruct (keep t); simpl; apply IH.
Qed.

Lemma startedSnapshot_lookup w t :
  startedSnapshot w !! t =
  if started (factory w) t then informers (factory w) !! t else None.
Proof.
  unfold startedSnapshot. fold (started (factory w)).
  rewrite (fold_filter_insert (started (factory w))).
  set (l := List.filter _ _).
  assert (NoDup l.*1) as Hnd.
  { unfold l. generalize (range_NoDup_keys "snapshot" (informers (factory w))).
    induction (range_order "snapshot" (informers (factory w))) as [|[k p] r IH]; simpl; [done|].
    intros [Hno Hr]%NoDup_cons. destruct (started (factory w) k); simpl; [|by apply IH].
    apply NoDup_cons. split; [|by apply IH]. intros (x & -> & Hx)%list_elem_of_fmap. apply Hno.
    apply list_elem_of_fmap. exists x. split; [done|].
    apply list_elem_of_In, List.filter_In in Hx as [Hx _]. by apply list_elem_of_In. }
  assert (forall k p, (k, p) ∈ l <-> informers (factory w) !! k = Some p /\
            started (factory w) k = true) as Hin.
  { intros k p. unfold l. by rewrite list_elem_of_In, List.filter_In, <- list_elem_of_In,
      range_elem_of. }
  rewrite fold_insert_union, map_union_empty by done.
  apply option_eq. intros p. rewrite <- elem_of_list_to_map, Hin by done.
  destruct (started (factory w) t); naive_solver.
Qed.

Lemma fold_insert_map {V : Type} (g : pointer -> V) (m : gmap string pointer) site :
  fold_left (fun r ti => <[ti.1 := g ti.2]> r) (range_order site m) ∅ = g <$> m.
Proof.
  rewrite <- (fold_left_map (fun r (kv : string * V) => <[kv.1 := kv.2]> r)
                (fun ti => (ti.1, g ti.2))).
  rewrite fold_insert_union, map_union_empty.
  - rewrite <- (range_list_to_map site m) at 2. rewrite <- list_to_map_fmap. f_equal.
  - rewrite <- list_fmap_compose. apply range_NoDup_keys.
Qed.

(** [WaitForCacheSync] reports exactly the informers that were started, each with
    what waiting for it gave; so after a [Start] that is not too late it covers every
    informer requested so far, and none requested later until the next [Start]. *)
Theorem sync_covers_started wait w ch ch' :
  (forall t, WaitForCacheSync wait w ch !! t =
     if started (factory w) t then wait ch <$> informers (factory w) !! t else None) /\
  (shuttingDown (factory w) = false ->
     WaitForCacheSync wait (Start w ch') ch = wait ch <$> informers (factory w)).
Proof.
  assert (forall w t, WaitForCacheSync wait w ch !! t =
     if started (factory w) t then wait ch <$> informers (factory w) !! t else None) as Hall.
  { intros w0 t. unfold WaitForCacheSync. rewrite (fold_insert_map (wait ch)).
    rewrite lookup_fmap, startedSnapshot_lookup. by destruct (started (factory w0) t). }
  split; [apply Hall|]. intros Hsd. apply map_eq. intros t. rewrite Hall, lookup_fmap.
  destruct (Start_spec w ch') as (_ & _ & Hi & _ & _ & _ & Hst). rewrite Hi, Hst, Hsd.
  destruct (informers (factory w) !! t) as [p|] eqn:Hp.
  - by rewrite (bool_decide_true (is_Some (Some p))), orb_true_r by done.
  - by destruct (_ || _).
Qed.

(** ** [InformerFor] and [ForResource] *)

(** The name under which a kind is served. *)
Definition resourceOf (n : typeName) : option string :=
  match n with
  | TArtifactType => Some "artifacttypes"
  | TArtifactWorkflow => Some "artifactworkflows"
  | TEndpoint => Some "endpoints"
  | TOrder => Some "orders"
  | _ => None
  end.

(** The type of the lists of a kind. *)
Definition listOf (n : typeName) : typeName :=
  match n with
  | TArtifactType => TArtifactTypeList
  | TArtifactWorkflow => TArtifactWorkflowList
  | TEndpoint => TEndpointList
  | TOrder => TOrderList
  | _ => n
  end.

(** The client the informer of a kind lists and watches with. *)
Definition scopedClient (c : ArcV1alpha1Client) (n : typeName) (ns : string) : typedClient :=
  match n with
  | TArtifactType => newArtifactTypes c
  | TArtifactWorkflow => newArtifactWorkflows c ns
  | TEndpoint => newEndpoints c ns
  | _ => newOrders c ns
  end.

Lemma ForResource_kind w n r :
  resourceOf n = Some r ->
  exists newFunc, ForResource w (WithResource V1alpha1.SchemeGroupVersion r) =
    ((InformerFor w n newFunc).1,
     inr (mkGenericInformer (InformerFor w n newFunc).2 (mkGroupResource "arc.bwi.de" r))) /\
    forall c resync, client (factory w) = ArcV1alpha1Client_Interface c ->
      newFunc (client (factory w)) resync =
      mkSharedIndexInformer
        (listWatch (scopedClient c n (namespace (factory w))) (tweakListOptions (factory w)))
        n resync namespaceIndexers None.
Proof.
  destruct n; intros Hr; try done; injection Hr as <-; eexists; split;
    [reflexivity|intros c resync ->; reflexivity|reflexivity|intros c resync ->; reflexivity
    |reflexivity|intros c resync ->; reflexivity|reflexivity|intros c resync ->; reflexivity].
Qed.

(** C38: [ForResource] on the first request for one of the four served resources makes
    an informer all four of whose functions, with and without a context, list and watch
    that resource with the factory's tweak, in the factory's namespace (artifact types
    without one), indexed by namespace, with the custom resync period of its type or the
    default, and with the factory's transform; a second request
    gives the same informer and changes nothing. *)
Theorem informer_scoped w n r c :
  resourceOf n = Some r -> client (factory w) = ArcV1alpha1Client_Interface c ->
  informers (factory w) !! TypeOf n = None ->
  let gvr := mkGroupVersionResource "arc.bwi.de" "v1alpha1" r in
  exists w' p i, ForResource w gvr = (w', inr (mkGenericInformer p (mkGroupResource "arc.bwi.de" r))) /\
    heap w' !! p = Some i /\ informers (factory w') !! TypeOf n = Some p /\
    si_exampleObject i = n /\ si_transform i = transform (factory w) /\
    si_resync i = default (defaultResync (factory w)) (customResync (factory w) !! TypeOf n) /\
    si_indexers i = [("namespace", "MetaNamespaceIndexFunc")] /\
    (forall ctx o,
       let o' := match tweakListOptions (factory w) with Some f => f o | None => o end in
       let ns := match n with TArtifactType => "" | _ => namespace (factory w) end in
       let typed := mkTypedClient r (restClient c) ns n (listOf n) in
       ListFunc (si_listWatch i) o = List typed Background o' /\
       WatchFunc (si_listWatch i) o = Watch typed Background o' /\
       ListWithContextFunc (si_listWatch i) ctx o = List typed ctx o' /\
       WatchFuncWithContext (si_listWatch i) ctx o = Watch typed ctx o') /\
    ForResource w' gvr = (w', inr (mkGenericInformer p (mkGroupResource "arc.bwi.de" r))).
Proof.
  intros Hr Hc Hnone gvr.
  destruct (ForResource_kind w n r Hr) as (newFunc & HF & Hnew). specialize (Hnew c).
  change gvr with (WithResource V1alpha1.SchemeGroupVersion r). rewrite HF.
  unfold InformerFor. rewrite Hnone. cbv zeta. rewrite Hnew by done. simpl.
  do 3 eexists. split_and!; [reflexivity|..]; simpl.
  - apply lookup_insert_eq.
  - apply lookup_insert_eq.
  - done.
  - done.
  - done.
  - done.
  - intros ctx o. by destruct n; simplify_eq/=.
  - set (w' := mkWorld _ _ _ _). destruct (ForResource_kind w' n r Hr) as (newFunc' & HF' & _).
    unfold w' in *. rewrite HF'. unfold InformerFor. simpl. by rewrite lookup_insert_eq.
Qed.

(** Any other resource is refused, and nothing is made. *)
Theorem ForResource_other w gvr :
  (forall n r, resourceOf n = Some r -> gvr <> mkGroupVersionResource "arc.bwi.de" "v1alpha1" r) ->
  exists e, ForResource w gvr = (w, inl e).
Proof.
  intros Hno. unfold ForResource. rewrite !bool_decide_false; [by eexists|..].
  - by apply (Hno TOrder).
  - by apply (Hno TEndpoint).
  - by apply (Hno TArtifactWorkflow).
  - by apply (Hno TArtifactType).
Qed.

End theorems.

(** * A concrete informer factory

    A factory limited to a namespace, an informer for orders, its start and its
    shutdown. *)

(** ** Libraries without behaviour *)

#[local] Instance plain_rest : RestLibrary := {|
  RateLimiter := unit;
  HttpClient := unit;
  RestClient := string;
  DiscoveryClient := unit;
  DefaultKubernetesUserAgent := "arc";
  NewTokenBucketRateLimiter := fun _ _ => tt;
  HTTPClientFor := fun _ => inr tt;
  RESTClientForConfigAndClient := fun c _ => inr (Config_Host c);
  NewDiscoveryClientForConfigAndClient := fun _ _ => inr tt;
  NewDiscoveryClient := fun _ => tt;
|}.

#[local] Instance plain_cache : CacheLibrary := {|
  ListOptions := list (string * string);
  TransformFunc := unit;
|}.

#[local] Existing Instance plain_runtime.

(** ** The factory *)

Definition arcClient : ArcV1alpha1Client := arc_New "https://localhost".

Definition onlyLabelled : TweakListOptionsFunc := fun o => ("labelSelector", "team=a") :: o.

Definition exFactory : sharedInformerFactory :=
  NewSharedInformerFactoryWithOptions (ArcV1alpha1Client_Interface arcClient) 10%Z
    [WithNamespace "ns"; WithTweakListOptions (Some onlyLabelled);
     WithCustomResyncConfig [(TOrder, 3%Z)]].

Definition exWorld : World := mkWorld exFactory ∅ 0 [].

(** The informer of orders lists the orders of the namespace, filtered. *)
Example order_informer_lists :
  option_map (fun i => (si_resync i, ListFunc (si_listWatch i) []))
    (heap (ForResource exWorld (mkGroupVersionResource "arc.bwi.de" "v1alpha1" "orders")).1 !! 0)
  = Some (3%Z, List (newOrders arcClient "ns") Background [("labelSelector", "team=a")]).
Proof. vm_compute. reflexivity. Qed.

Lemma informer_scoped_witness :
  exists w' p i,
    ForResource exWorld (mkGroupVersionResource "arc.bwi.de" "v1alpha1" "orders")
      = (w', inr (mkGenericInformer p (mkGroupResource "arc.bwi.de" "orders"))) /\
    heap w' !! p = Some i /\ si_resync i = 3%Z /\
    WatchFunc (si_listWatch i) []
      = Watch (newOrders arcClient "ns") Background [("labelSelector", "team=a")].
Proof.
  destruct (informer_scoped exWorld TOrder "orders" arcClient eq_refl eq_refl eq_refl)
    as (w' & p & i & Hf & Hi & _ & _ & _ & Hres & _ & Hlw & _).
  exists w', p, i. split; [exact Hf|]. split; [exact Hi|].
  split; [rewrite Hres; vm_compute; reflexivity|].
  exact (proj1 (proj2 (Hlw Background []))).
Defined.

(** ** Start and shutdown *)

Definition orderInformerMade : World :=
  (ForResource exWorld (mkGroupVersionResource "arc.bwi.de" "v1alpha1" "orders")).1.

Definition exOptions : list SharedInformerOption :=
  [WithNamespace "ns"; WithTweakListOptions (Some onlyLabelled);
   WithCustomResyncConfig [(TOrder, 3%Z)]].

Lemma exOptions_ok : Forall factoryOption exOptions.
Proof.
  unfold exOptions, factoryOption. rewrite !Forall_cons. split_and!.
  - right. right. left. by eexists.
  - right. left. by eexists.
  - left. by eexists.
  - constructor.
Qed.

Definition made : FactorySystem := mkFactorySystem orderInformerMade ∅ 0 [].
Definition running : FactorySystem := mkFactorySystem (Start orderInformerMade 7) ∅ 0 [0].
Definition channelClosed : FactorySystem :=
  mkFactorySystem (world running) ({[7]} ∪ closed running) (waiting running) (ran running).
Definition closing : FactorySystem :=
  mkFactorySystem (Shutdown_begin (world channelClosed)) (closed channelClosed)
    (S (waiting channelClosed)) (ran channelClosed).

Lemma made_step : factoryStep (newSystem exFactory) made.
Proof.
  exact (StepInformerFor (newSystem exFactory) TOrder
           (orderInformer_defaultInformer (mkOrderInformer (Some onlyLabelled) "ns"))).
Qed.

Lemma running_step : factoryStep made running.
Proof. exact (StepStart made 7). Qed.

Lemma closing_steps : rtc factoryStep running closing.
Proof.
  eapply rtc_l; [exact (StepClose running 7)|]. apply rtc_once. exact (StepShutdown channelClosed).
Qed.

Lemma running_reachable : factoryReachable running.
Proof.
  exists (ArcV1alpha1Client_Interface arcClient), 10%Z, exOptions. split; [exact exOptions_ok|].
  eapply rtc_l; [exact made_step|]. apply rtc_once. exact running_step.
Qed.

Lemma factory_invariant_witness : wg (factory (world running)) = 1 /\ NoDup (ran running).
Proof.
  split; [vm_compute; reflexivity|].
  exact (fi_once running (factory_invariant running running_reachable)).
Defined.

Lemma closing_reachable : factoryReachable closing.
Proof.
  destruct running_reachable as (c & re & os & Ho & Hr). exists c, re, os.
  split; [exact Ho|]. etrans; [exact Hr|exact closing_steps].
Qed.

Lemma shutdown_terminates_witness :
  Shutdown_done (world closing) = false /\
  exists z, nsteps returnStep 1 closing z /\ Shutdown_done (world z) = true.
Proof.
  assert (stopped closing) as Hst.
  { intros g Hg. change (goroutines (world closing)) with [mkGoroutine 0 7] in Hg.
    apply list_elem_of_singleton in Hg as ->. vm_compute. done. }
  split; [vm_compute; reflexivity|].
  destruct (shutdown_terminates closing closing closing_reachable eq_refl Hst
              (rtc_refl factoryStep closing)) as (_ & _ & _ & _ & _ & z & Hz & Hd & _).
  exists z. split; [exact Hz|exact Hd].
Defined.

Lemma sync_covers_started_witness :
  WaitForCacheSync (fun _ _ => true) (Start orderInformerMade 7) 8
    = {["*v1alpha1.Order" := true]}.
Proof.
  destruct (sync_covers_started (fun _ _ => true) orderInformerMade 8 7) as [_ Hs].
  rewrite (Hs eq_refl). vm_compute. reflexivity.
Defined.
