(* ===== verification/OpenAPI.v ===== *)
(** * The schemas of package [openapi] (src/client-go/openapi)

    The structs of kube-openapi that zz_generated.openapi.go builds its definitions
    from: [common.OpenAPIDefinition], [spec.Schema] and the values an [interface{}]
    field holds.  A schema is written as the source writes it, as the list of the keys
    it sets, applied to the zero schema; the one key left out is [Description], prose
    that nothing reads.  A map literal is the list of its entries in source order; a
    [spec.SchemaOrArray] always holds a schema here, and a [spec.SchemaOrBool] has
    [Allows] set.  What [ref] returns is a type of kube-openapi, the parameter [R]. *)

From stdpp Require Import base list strings.
From Stdlib Require Import ZArith.
From S2P Require Import Prelude.

Local Open Scope string_scope.

(** ** Values of type [interface{}] *)

Inductive Any :=
| ANull
| ABool (b : bool)
| AInt (z : Z)
| AString (s : string)
| ASlice (xs : list Any)
| AMap (m : list (string * Any)).

(** ** [spec.Schema] *)

Inductive Schema (R : Type) := mkSchema {
  schema_Type : list string;
  schema_Format : string;
  schema_Default : option Any;
  schema_Enum : list Any;
  schema_Ref : option R;
  schema_Required : list string;
  schema_Items : option (Schema R);
  schema_AdditionalProperties : option (Schema R);
  schema_Properties : list (string * Schema R);
  schema_OneOf : list (Schema R);
  schema_Extensions : list (string * Any);
}.

Arguments mkSchema {R}.
Arguments schema_Type {R}.
Arguments schema_Format {R}.
Arguments schema_Default {R}.
Arguments schema_Enum {R}.
Arguments schema_Ref {R}.
Arguments schema_Required {R}.
Arguments schema_Items {R}.
Arguments schema_AdditionalProperties {R}.
Arguments schema_Properties {R}.
Arguments schema_OneOf {R}.
Arguments schema_Extensions {R}.

(** [common.OpenAPIDefinition]. *)
Record OpenAPIDefinition (R : Type) := mkOpenAPIDefinition {
  definition_Schema : Schema R;
  definition_Dependencies : list string;
}.

Arguments mkOpenAPIDefinition {R}.
Arguments definition_Schema {R}.
Arguments definition_Dependencies {R}.

(** ** Keyed literals *)

Section Keys.
Context {R : Type}.

Definition zeroSchema : Schema R := mkSchema [] "" None [] None [] None None [] [] [].

(** [spec.Schema{key: value, ...}]. *)
Definition schema (keys : list (Schema R -> Schema R)) : Schema R :=
  foldl (fun s key => key s) zeroSchema keys.

Definition Type_ (x : list string) (s : Schema R) : Schema R :=
  let '(mkSchema _ f d e r q i a p o t) := s in mkSchema x f d e r q i a p o t.
Definition Format (x : string) (s : Schema R) : Schema R :=
  let '(mkSchema y _ d e r q i a p o t) := s in mkSchema y x d e r q i a p o t.
Definition Default (x : Any) (s : Schema R) : Schema R :=
  let '(mkSchema y f _ e r q i a p o t) := s in mkSchema y f (Some x) e r q i a p o t.
Definition Enum (x : list Any) (s : Schema R) : Schema R :=
  let '(mkSchema y f d _ r q i a p o t) := s in mkSchema y f d x r q i a p o t.
Definition Ref (x : R) (s : Schema R) : Schema R :=
  let '(mkSchema y f d e _ q i a p o t) := s in mkSchema y f d e (Some x) q i a p o t.
Definition Required (x : list string) (s : Schema R) : Schema R :=
  let '(mkSchema y f d e r _ i a p o t) := s in mkSchema y f d e r x i a p o t.
Definition Items (x : Schema R) (s : Schema R) : Schema R :=
  let '(mkSchema y f d e r q _ a p o t) := s in mkSchema y f d e r q (Some x) a p o t.
Definition AdditionalProperties (x : Schema R) (s : Schema R) : Schema R :=
  let '(mkSchema y f d e r q i _ p o t) := s in mkSchema y f d e r q i (Some x) p o t.
Definition Properties (x : list (string * Schema R)) (s : Schema R) : Schema R :=
  let '(mkSchema y f d e r q i a _ o t) := s in mkSchema y f d e r q i a x o t.
Definition OneOf (x : list (Schema R)) (s : Schema R) : Schema R :=
  let '(mkSchema y f d e r q i a p _ t) := s in mkSchema y f d e r q i a p x t.
Definition Extensions (x : list (string * Any)) (s : Schema R) : Schema R :=
  let '(mkSchema y f d e r q i a p o _) := s in mkSchema y f d e r q i a p o x.
End Keys.

(** ** What the definitions take from other modules

    The constants and methods of k8s.io/api and k8s.io/apimachinery that the
    definitions mention, and two functions of kube-openapi. *)
Class OpenAPILibrary (R : Type) := {
  Quantity_OpenAPISchemaType : list string;
  Quantity_OpenAPISchemaFormat : string;
  Quantity_OpenAPIV3OneOfTypes : list string;
  Duration_OpenAPISchemaType : list string;
  Duration_OpenAPISchemaFormat : string;
  MicroTime_OpenAPISchemaType : list string;
  MicroTime_OpenAPISchemaFormat : string;
  Time_OpenAPISchemaType : list string;
  Time_OpenAPISchemaFormat : string;
  AzureSharedBlobDisk : string;
  AzureDataDiskCachingReadWrite : string;
  GenerateOpenAPIV3OneOfSchema : list string -> list (Schema R);
  EmbedOpenAPIDefinitionIntoV2Extension :
    OpenAPIDefinition R -> OpenAPIDefinition R -> OpenAPIDefinition R;
}.
