(* ===== verification/OpenAPIArc.v ===== *)
(** * The schemas of the types of package v1alpha1 *)

From stdpp Require Import base list strings.
From Stdlib Require Import ZArith.
From S2P Require Import Prelude OpenAPI.

Local Open Scope string_scope.

(** ** The model names: [OpenAPIModelName] of src/api/arc/v1alpha1/zz_generated.openapi.go *)

Definition ArtifactType_OpenAPIModelName : string := "de.bwi.arc.v1alpha1.ArtifactType".
Definition ArtifactTypeList_OpenAPIModelName : string := "de.bwi.arc.v1alpha1.ArtifactTypeList".
Definition ArtifactTypeRules_OpenAPIModelName : string := "de.bwi.arc.v1alpha1.ArtifactTypeRules".
Definition ArtifactTypeSpec_OpenAPIModelName : string := "de.bwi.arc.v1alpha1.ArtifactTypeSpec".
Definition ArtifactTypeStatus_OpenAPIModelName : string := "de.bwi.arc.v1alpha1.ArtifactTypeStatus".
Definition ArtifactWorkflow_OpenAPIModelName : string := "de.bwi.arc.v1alpha1.ArtifactWorkflow".
Definition ArtifactWorkflowList_OpenAPIModelName : string := "de.bwi.arc.v1alpha1.ArtifactWorkflowList".
Definition ArtifactWorkflowParameter_OpenAPIModelName : string := "de.bwi.arc.v1alpha1.ArtifactWorkflowParameter".
Definition ArtifactWorkflowSpec_OpenAPIModelName : string := "de.bwi.arc.v1alpha1.ArtifactWorkflowSpec".
Definition ArtifactWorkflowStatus_OpenAPIModelName : string := "de.bwi.arc.v1alpha1.ArtifactWorkflowStatus".
Definition Endpoint_OpenAPIModelName : string := "de.bwi.arc.v1alpha1.Endpoint".
Definition EndpointList_OpenAPIModelName : string := "de.bwi.arc.v1alpha1.EndpointList".
Definition EndpointSpec_OpenAPIModelName : string := "de.bwi.arc.v1alpha1.EndpointSpec".
Definition EndpointStatus_OpenAPIModelName : string := "de.bwi.arc.v1alpha1.EndpointStatus".
Definition Order_OpenAPIModelName : string := "de.bwi.arc.v1alpha1.Order".
Definition OrderArtifact_OpenAPIModelName : string := "de.bwi.arc.v1alpha1.OrderArtifact".
Definition OrderArtifactWorkflowStatus_OpenAPIModelName : string := "de.bwi.arc.v1alpha1.OrderArtifactWorkflowStatus".
Definition OrderDefaults_OpenAPIModelName : string := "de.bwi.arc.v1alpha1.OrderDefaults".
Definition OrderList_OpenAPIModelName : string := "de.bwi.arc.v1alpha1.OrderList".
Definition OrderSpec_OpenAPIModelName : string := "de.bwi.arc.v1alpha1.OrderSpec".
Definition OrderStatus_OpenAPIModelName : string := "de.bwi.arc.v1alpha1.OrderStatus".

(** ** The schemas *)

Section Definitions.
Context {R : Type} {library : OpenAPILibrary R} (ref : string -> R).

(** Lines 336-381. *)
Definition schema_arc_api_arc_v1alpha1_ArtifactType : OpenAPIDefinition R :=
    mkOpenAPIDefinition
      (schema [
        Type_ ["object"];
        Properties [
          ("kind", schema [Type_ ["string"]; Format ""]);
          ("apiVersion", schema [Type_ ["string"]; Format ""]);
          ("metadata", schema [Default (AMap []); Ref (ref "k8s.io/apimachinery/pkg/apis/meta/v1.ObjectMeta")]);
          ("spec", schema [Default (AMap []); Ref (ref ArtifactTypeSpec_OpenAPIModelName)]);
          ("status", schema [Default (AMap []); Ref (ref ArtifactTypeStatus_OpenAPIModelName)])]])
        [ArtifactTypeSpec_OpenAPIModelName; ArtifactTypeStatus_OpenAPIModelName;
         "k8s.io/apimachinery/pkg/apis/meta/v1.ObjectMeta"].

(** Lines 383-430. *)
Definition schema_arc_api_arc_v1alpha1_ArtifactTypeList : OpenAPIDefinition R :=
    mkOpenAPIDefinition
      (schema [
        Type_ ["object"];
        Properties [
          ("kind", schema [Type_ ["string"]; Format ""]);
          ("apiVersion", schema [Type_ ["string"]; Format ""]);
          ("metadata", schema [Default (AMap []); Ref (ref "k8s.io/apimachinery/pkg/apis/meta/v1.ListMeta")]);
          ("items", schema [
                      Type_ ["array"];
                      Items (schema [Default (AMap []); Ref (ref ArtifactType_OpenAPIModelName)])])];
        Required ["items"]])
      [ArtifactType_OpenAPIModelName; "k8s.io/apimachinery/pkg/apis/meta/v1.ListMeta"].

(** Lines 432-473. *)
Definition schema_arc_api_arc_v1alpha1_ArtifactTypeRules : OpenAPIDefinition R :=
    mkOpenAPIDefinition
      (schema [
        Type_ ["object"];
        Properties [
          ("srcTypes", schema [Type_ ["array"]; Items (schema [Default (AString ""); Type_ ["string"]; Format ""])]);
          ("dstTypes", schema [Type_ ["array"]; Items (schema [Default (AString ""); Type_ ["string"]; Format ""])])]])
      [].

(** Lines 475-517. *)
Definition schema_arc_api_arc_v1alpha1_ArtifactTypeSpec : OpenAPIDefinition R :=
    mkOpenAPIDefinition
      (schema [
        Type_ ["object"];
        Properties [
          ("rules", schema [Default (AMap []); Ref (ref ArtifactTypeRules_OpenAPIModelName)]);
          ("parameters", schema [
                           Type_ ["array"];
                           Items (schema [Default (AMap []); Ref (ref ArtifactWorkflowParameter_OpenAPIModelName)])]);
          ("workflowTemplateRef", schema [Default (AMap []); Ref (ref "k8s.io/api/core/v1.LocalObjectReference")])];
        Required ["rules"; "parameters"; "workflowTemplateRef"]])
        [ArtifactTypeRules_OpenAPIModelName; ArtifactWorkflowParameter_OpenAPIModelName;
         "k8s.io/api/core/v1.LocalObjectReference"].

(** Lines 519-528. *)
Definition schema_arc_api_arc_v1alpha1_ArtifactTypeStatus : OpenAPIDefinition R :=
    mkOpenAPIDefinition
      (schema [Type_ ["object"]])
      [].

(** Lines 530-575. *)
Definition schema_arc_api_arc_v1alpha1_ArtifactWorkflow : OpenAPIDefinition R :=
    mkOpenAPIDefinition
      (schema [
        Type_ ["object"];
        Properties [
          ("kind", schema [Type_ ["string"]; Format ""]);
          ("apiVersion", schema [Type_ ["string"]; Format ""]);
          ("metadata", schema [Default (AMap []); Ref (ref "k8s.io/apimachinery/pkg/apis/meta/v1.ObjectMeta")]);
          ("spec", schema [Default (AMap []); Ref (ref ArtifactWorkflowSpec_OpenAPIModelName)]);
          ("status", schema [Default (AMap []); Ref (ref ArtifactWorkflowStatus_OpenAPIModelName)])]])
        [ArtifactWorkflowSpec_OpenAPIModelName; ArtifactWorkflowStatus_OpenAPIModelName;
         "k8s.io/apimachinery/pkg/apis/meta/v1.ObjectMeta"].

(** Lines 577-624. *)
Definition schema_arc_api_arc_v1alpha1_ArtifactWorkflowList : OpenAPIDefinition R :=
    mkOpenAPIDefinition
      (schema [
        Type_ ["object"];
        Properties [
          ("kind", schema [Type_ ["string"]; Format ""]);
          ("apiVersion", schema [Type_ ["string"]; Format ""]);
          ("metadata", schema [Default (AMap []); Ref (ref "k8s.io/apimachinery/pkg/apis/meta/v1.ListMeta")]);
          ("items", schema [
                      Type_ ["array"];
                      Items (schema [Default (AMap []); Ref (ref ArtifactWorkflow_OpenAPIModelName)])])];
        Required ["items"]])
      [ArtifactWorkflow_OpenAPIModelName; "k8s.io/apimachinery/pkg/apis/meta/v1.ListMeta"].

(** Lines 626-654. *)
Definition schema_arc_api_arc_v1alpha1_ArtifactWorkflowParameter : OpenAPIDefinition R :=
    mkOpenAPIDefinition
      (schema [
        Type_ ["object"];
        Properties [
          ("name", schema [Default (AString ""); Type_ ["string"]; Format ""]);
          ("value", schema [Default (AString ""); Type_ ["string"]; Format ""])];
        Required ["name"; "value"]])
      [].

(** Lines 656-706. *)
Definition schema_arc_api_arc_v1alpha1_ArtifactWorkflowSpec : OpenAPIDefinition R :=
    mkOpenAPIDefinition
      (schema [
        Type_ ["object"];
        Properties [
          ("type", schema [Default (AString ""); Type_ ["string"]; Format ""]);
          ("parameters", schema [
                           Type_ ["array"];
                           Items (schema [Default (AMap []); Ref (ref ArtifactWorkflowParameter_OpenAPIModelName)])]);
          ("srcSecretRef", schema [Default (AMap []); Ref (ref "k8s.io/api/core/v1.LocalObjectReference")]);
          ("dstSecretRef", schema [Default (AMap []); Ref (ref "k8s.io/api/core/v1.LocalObjectReference")])];
        Required ["type"; "srcSecretRef"; "dstSecretRef"]])
      [ArtifactWorkflowParameter_OpenAPIModelName; "k8s.io/api/core/v1.LocalObjectReference"].

(** Lines 708-734. *)
Definition schema_arc_api_arc_v1alpha1_ArtifactWorkflowStatus : OpenAPIDefinition R :=
    mkOpenAPIDefinition
      (schema [
        Type_ ["object"];
        Properties [
          ("phase", schema [
                      Type_ ["string"];
                      Format "";
                      Enum 
                        [AString ""; AString "Error"; AString "Failed"; AString "Pending";
                         AString "Running"; AString "Succeeded"]]);
          ("message", schema [Type_ ["string"]; Format ""])]])
      [].

(** Lines 736-781. *)
Definition schema_arc_api_arc_v1alpha1_Endpoint : OpenAPIDefinition R :=
    mkOpenAPIDefinition
      (schema [
        Type_ ["object"];
        Properties [
          ("kind", schema [Type_ ["string"]; Format ""]);
          ("apiVersion", schema [Type_ ["string"]; Format ""]);
          ("metadata", schema [Default (AMap []); Ref (ref "k8s.io/apimachinery/pkg/apis/meta/v1.ObjectMeta")]);
          ("spec", schema [Default (AMap []); Ref (ref EndpointSpec_OpenAPIModelName)]);
          ("status", schema [Default (AMap []); Ref (ref EndpointStatus_OpenAPIModelName)])]])
        [EndpointSpec_OpenAPIModelName; EndpointStatus_OpenAPIModelName;
         "k8s.io/apimachinery/pkg/apis/meta/v1.ObjectMeta"].

(** Lines 783-830. *)
Definition schema_arc_api_arc_v1alpha1_EndpointList : OpenAPIDefinition R :=
    mkOpenAPIDefinition
      (schema [
        Type_ ["object"];
        Properties [
          ("kind", schema [Type_ ["string"]; Format ""]);
          ("apiVersion", schema [Type_ ["string"]; Format ""]);
          ("metadata", schema [Default (AMap []); Ref (ref "k8s.io/apimachinery/pkg/apis/meta/v1.ListMeta")]);
          ("items", schema [
                      Type_ ["array"];
                      Items (schema [Default (AMap []); Ref (ref Endpoint_OpenAPIModelName)])])];
        Required ["items"]])
      [Endpoint_OpenAPIModelName; "k8s.io/apimachinery/pkg/apis/meta/v1.ListMeta"].

(** Lines 832-878. *)
Definition schema_arc_api_arc_v1alpha1_EndpointSpec : OpenAPIDefinition R :=
    mkOpenAPIDefinition
      (schema [
        Type_ ["object"];
        Properties [
          ("type", schema [Default (AString ""); Type_ ["string"]; Format ""]);
          ("remoteURL", schema [Default (AString ""); Type_ ["string"]; Format ""]);
          ("secretRef", schema [Default (AMap []); Ref (ref "k8s.io/api/core/v1.LocalObjectReference")]);
          ("usage", schema [
                      Default (AString "");
                      Type_ ["string"];
                      Format "";
                      Enum [AString "All"; AString "PullOnly"; AString "PushOnly"]])];
        Required ["type"; "remoteURL"; "usage"]])
      ["k8s.io/api/core/v1.LocalObjectReference"].

(** Lines 880-889. *)
Definition schema_arc_api_arc_v1alpha1_EndpointStatus : OpenAPIDefinition R :=
    mkOpenAPIDefinition
      (schema [Type_ ["object"]])
      [].

(** Lines 891-936. *)
Definition schema_arc_api_arc_v1alpha1_Order : OpenAPIDefinition R :=
    mkOpenAPIDefinition
      (schema [
        Type_ ["object"];
        Properties [
          ("kind", schema [Type_ ["string"]; Format ""]);
          ("apiVersion", schema [Type_ ["string"]; Format ""]);
          ("metadata", schema [Default (AMap []); Ref (ref "k8s.io/apimachinery/pkg/apis/meta/v1.ObjectMeta")]);
          ("spec", schema [Default (AMap []); Ref (ref OrderSpec_OpenAPIModelName)]);
          ("status", schema [Default (AMap []); Ref (ref OrderStatus_OpenAPIModelName)])]])
        [OrderSpec_OpenAPIModelName; OrderStatus_OpenAPIModelName;
         "k8s.io/apimachinery/pkg/apis/meta/v1.ObjectMeta"].

(** Lines 938-980. *)
Definition schema_arc_api_arc_v1alpha1_OrderArtifact : OpenAPIDefinition R :=
    mkOpenAPIDefinition
      (schema [
        Type_ ["object"];
        Properties [
          ("type", schema [Default (AString ""); Type_ ["string"]; Format ""]);
          ("srcRef", schema [Default (AMap []); Ref (ref "k8s.io/api/core/v1.LocalObjectReference")]);
          ("dstRef", schema [Default (AMap []); Ref (ref "k8s.io/api/core/v1.LocalObjectReference")]);
          ("spec", schema [Ref (ref "k8s.io/apimachinery/pkg/runtime.RawExtension")])];
        Required ["type"]])
      ["k8s.io/api/core/v1.LocalObjectReference"; "k8s.io/apimachinery/pkg/runtime.RawExtension"].

(** Lines 982-1017. *)
Definition schema_arc_api_arc_v1alpha1_OrderArtifactWorkflowStatus : OpenAPIDefinition R :=
    mkOpenAPIDefinition
      (schema [
        Type_ ["object"];
        Properties [
          ("artifactIndex", schema [Default (AInt 0); Type_ ["integer"]; Format "int32"]);
          ("phase", schema [
                      Default (AString "");
                      Type_ ["string"];
                      Format "";
                      Enum 
                        [AString ""; AString "Error"; AString "Failed"; AString "Pending";
                         AString "Running"; AString "Succeeded"]]);
          ("message", schema [Type_ ["string"]; Format ""])];
        Required ["artifactIndex"; "phase"]])
      [].

(** Lines 1019-1046. *)
Definition schema_arc_api_arc_v1alpha1_OrderDefaults : OpenAPIDefinition R :=
    mkOpenAPIDefinition
      (schema [
        Type_ ["object"];
        Properties [
          ("srcRef", schema [Default (AMap []); Ref (ref "k8s.io/api/core/v1.LocalObjectReference")]);
          ("dstRef", schema [Default (AMap []); Ref (ref "k8s.io/api/core/v1.LocalObjectReference")])]])
      ["k8s.io/api/core/v1.LocalObjectReference"].

(** Lines 1048-1095. *)
Definition schema_arc_api_arc_v1alpha1_OrderList : OpenAPIDefinition R :=
    mkOpenAPIDefinition
      (schema [
        Type_ ["object"];
        Properties [
          ("kind", schema [Type_ ["string"]; Format ""]);
          ("apiVersion", schema [Type_ ["string"]; Format ""]);
          ("metadata", schema [Default (AMap []); Ref (ref "k8s.io/apimachinery/pkg/apis/meta/v1.ListMeta")]);
          ("items", schema [Type_ ["array"]; Items (schema [Default (AMap []); Ref (ref Order_OpenAPIModelName)])])];
        Required ["items"]])
      [Order_OpenAPIModelName; "k8s.io/apimachinery/pkg/apis/meta/v1.ListMeta"].

(** Lines 1097-1131. *)
Definition schema_arc_api_arc_v1alpha1_OrderSpec : OpenAPIDefinition R :=
    mkOpenAPIDefinition
      (schema [
        Type_ ["object"];
        Properties [
          ("defaults", schema [Default (AMap []); Ref (ref OrderDefaults_OpenAPIModelName)]);
          ("artifacts", schema [
                          Type_ ["array"];
                          Items (schema [Default (AMap []); Ref (ref OrderArtifact_OpenAPIModelName)])])]])
      [OrderArtifact_OpenAPIModelName; OrderDefaults_OpenAPIModelName].

(** Lines 1133-1161. *)
Definition schema_arc_api_arc_v1alpha1_OrderStatus : OpenAPIDefinition R :=
    mkOpenAPIDefinition
      (schema [
        Type_ ["object"];
        Properties [
          ("artifactWorkflows", schema [
                                  Type_ ["object"];
                                  AdditionalProperties (schema [
                                                          Default (AMap []);
                                                          Ref (ref OrderArtifactWorkflowStatus_OpenAPIModelName)])])]])
      [OrderArtifactWorkflowStatus_OpenAPIModelName].

(** The entries of [GetOpenAPIDefinitions] for the above. *)
Definition arcDefinitions : list (string * OpenAPIDefinition R) :=
  [ (ArtifactType_OpenAPIModelName, schema_arc_api_arc_v1alpha1_ArtifactType);
    (ArtifactTypeList_OpenAPIModelName, schema_arc_api_arc_v1alpha1_ArtifactTypeList);
    (ArtifactTypeRules_OpenAPIModelName, schema_arc_api_arc_v1alpha1_ArtifactTypeRules);
    (ArtifactTypeSpec_OpenAPIModelName, schema_arc_api_arc_v1alpha1_ArtifactTypeSpec);
    (ArtifactTypeStatus_OpenAPIModelName, schema_arc_api_arc_v1alpha1_ArtifactTypeStatus);
    (ArtifactWorkflow_OpenAPIModelName, schema_arc_api_arc_v1alpha1_ArtifactWorkflow);
    (ArtifactWorkflowList_OpenAPIModelName, schema_arc_api_arc_v1alpha1_ArtifactWorkflowList);
    (ArtifactWorkflowParameter_OpenAPIModelName, schema_arc_api_arc_v1alpha1_ArtifactWorkflowParameter);
    (ArtifactWorkflowSpec_OpenAPIModelName, schema_arc_api_arc_v1alpha1_ArtifactWorkflowSpec);
    (ArtifactWorkflowStatus_OpenAPIModelName, schema_arc_api_arc_v1alpha1_ArtifactWorkflowStatus);
    (Endpoint_OpenAPIModelName, schema_arc_api_arc_v1alpha1_Endpoint);
    (EndpointList_OpenAPIModelName, schema_arc_api_arc_v1alpha1_EndpointList);
    (EndpointSpec_OpenAPIModelName, schema_arc_api_arc_v1alpha1_EndpointSpec);
    (EndpointStatus_OpenAPIModelName, schema_arc_api_arc_v1alpha1_EndpointStatus);
    (Order_OpenAPIModelName, schema_arc_api_arc_v1alpha1_Order);
    (OrderArtifact_OpenAPIModelName, schema_arc_api_arc_v1alpha1_OrderArtifact);
    (OrderArtifactWorkflowStatus_OpenAPIModelName, schema_arc_api_arc_v1alpha1_OrderArtifactWorkflowStatus);
    (OrderDefaults_OpenAPIModelName, schema_arc_api_arc_v1alpha1_OrderDefaults);
    (OrderList_OpenAPIModelName, schema_arc_api_arc_v1alpha1_OrderList);
    (OrderSpec_OpenAPIModelName, schema_arc_api_arc_v1alpha1_OrderSpec);
    (OrderStatus_OpenAPIModelName, schema_arc_api_arc_v1alpha1_OrderStatus) ].

End Definitions.
