(* ===== verification/OpenAPICore1.v ===== *)
(** * The schemas of k8s.io/api/core/v1, from AWSElasticBlockStoreVolumeSource to EphemeralContainerCommon *)

From stdpp Require Import base list strings.
From Stdlib Require Import ZArith.
From S2P Require Import Prelude OpenAPI.

Local Open Scope string_scope.

Section Definitions.
Context {R : Type} {library : OpenAPILibrary R} (ref : string -> R).

(** Lines 1163-1204. *)
Definition schema_k8sio_api_core_v1_AWSElasticBlockStoreVolumeSource : OpenAPIDefinition R :=
    mkOpenAPIDefinition
      (schema [
        Type_ ["object"];
        Properties [
          ("volumeID", schema [Default (AString ""); Type_ ["string"]; Format ""]);
          ("fsType", schema [Type_ ["string"]; Format ""]);
          ("partition", schema [Type_ ["integer"]; Format "int32"]);
          ("readOnly", schema [Type_ ["boolean"]; Format ""])];
        Required ["volumeID"]])
      [].

(** Lines 1206-1237. *)
Definition schema_k8sio_api_core_v1_Affinity : OpenAPIDefinition R :=
    mkOpenAPIDefinition
      (schema [
        Type_ ["object"];
        Properties [
          ("nodeAffinity", schema [Ref (ref "k8s.io/api/core/v1.NodeAffinity")]);
          ("podAffinity", schema [Ref (ref "k8s.io/api/core/v1.PodAffinity")]);
          ("podAntiAffinity", schema [Ref (ref "k8s.io/api/core/v1.PodAntiAffinity")])]])
        ["k8s.io/api/core/v1.NodeAffinity"; "k8s.io/api/core/v1.PodAffinity";
         "k8s.io/api/core/v1.PodAntiAffinity"].

(** Lines 1239-1279. *)
Definition schema_k8sio_api_core_v1_AppArmorProfile : OpenAPIDefinition R :=
    mkOpenAPIDefinition
      (schema [
        Type_ ["object"];
        Properties [
          ("type", schema [
                     Default (AString "");
                     Type_ ["string"];
                     Format "";
                     Enum [AString "Localhost"; AString "RuntimeDefault"; AString "Unconfined"]]);
          ("localhostProfile", schema [Type_ ["string"]; Format ""])];
        Required ["type"];
        Extensions [
          ("x-kubernetes-unions", ASlice [
                                    AMap [
                                      ("discriminator", AString "type");
                                      ("fields-to-discriminateBy", AMap [
                                                                     ("localhostProfile", AString "LocalhostProfile")])]])]])
      [].

(** Lines 1281-1309. *)
Definition schema_k8sio_api_core_v1_AttachedVolume : OpenAPIDefinition R :=
    mkOpenAPIDefinition
      (schema [
        Type_ ["object"];
        Properties [
          ("name", schema [Default (AString ""); Type_ ["string"]; Format ""]);
          ("devicePath", schema [Default (AString ""); Type_ ["string"]; Format ""])];
        Required ["name"; "devicePath"]])
      [].

(** Lines 1311-1343. *)
Definition schema_k8sio_api_core_v1_AvoidPods : OpenAPIDefinition R :=
    mkOpenAPIDefinition
      (schema [
        Type_ ["object"];
        Properties [
          ("preferAvoidPods", schema [
                                Extensions [("x-kubernetes-list-type", AString "atomic")];
                                Type_ ["array"];
                                Items (schema [
                                         Default (AMap []);
                                         Ref (ref "k8s.io/api/core/v1.PreferAvoidPodsEntry")])])]])
      ["k8s.io/api/core/v1.PreferAvoidPodsEntry"].

(** Lines 1345-1407. *)
Definition schema_k8sio_api_core_v1_AzureDiskVolumeSource : OpenAPIDefinition R :=
    mkOpenAPIDefinition
      (schema [
        Type_ ["object"];
        Properties [
          ("diskName", schema [Default (AString ""); Type_ ["string"]; Format ""]);
          ("diskURI", schema [Default (AString ""); Type_ ["string"]; Format ""]);
          ("cachingMode", schema [
                            Default (AString AzureDataDiskCachingReadWrite);
                            Type_ ["string"];
                            Format "";
                            Enum [AString "None"; AString "ReadOnly"; AString "ReadWrite"]]);
          ("fsType", schema [Default (AString "ext4"); Type_ ["string"]; Format ""]);
          ("readOnly", schema [Default (ABool false); Type_ ["boolean"]; Format ""]);
          ("kind", schema [
                     Default (AString AzureSharedBlobDisk);
                     Type_ ["string"];
                     Format "";
                     Enum [AString "Dedicated"; AString "Managed"; AString "Shared"]])];
        Required ["diskName"; "diskURI"]])
      [].

(** Lines 1409-1451. *)
Definition schema_k8sio_api_core_v1_AzureFilePersistentVolumeSource : OpenAPIDefinition R :=
    mkOpenAPIDefinition
      (schema [
        Type_ ["object"];
        Properties [
          ("secretName", schema [Default (AString ""); Type_ ["string"]; Format ""]);
          ("shareName", schema [Default (AString ""); Type_ ["string"]; Format ""]);
          ("readOnly", schema [Type_ ["boolean"]; Format ""]);
          ("secretNamespace", schema [Type_ ["string"]; Format ""])];
        Required ["secretName"; "shareName"]])
      [].

(** Lines 1453-1488. *)
Definition schema_k8sio_api_core_v1_AzureFileVolumeSource : OpenAPIDefinition R :=
    mkOpenAPIDefinition
      (schema [
        Type_ ["object"];
        Properties [
          ("secretName", schema [Default (AString ""); Type_ ["string"]; Format ""]);
          ("shareName", schema [Default (AString ""); Type_ ["string"]; Format ""]);
          ("readOnly", schema [Type_ ["boolean"]; Format ""])];
        Required ["secretName"; "shareName"]])
      [].

(** Lines 1490-1532. *)
Definition schema_k8sio_api_core_v1_Binding : OpenAPIDefinition R :=
    mkOpenAPIDefinition
      (schema [
        Type_ ["object"];
        Properties [
          ("kind", schema [Type_ ["string"]; Format ""]);
          ("apiVersion", schema [Type_ ["string"]; Format ""]);
          ("metadata", schema [Default (AMap []); Ref (ref "k8s.io/apimachinery/pkg/apis/meta/v1.ObjectMeta")]);
          ("target", schema [Default (AMap []); Ref (ref "k8s.io/api/core/v1.ObjectReference")])];
        Required ["target"]])
      ["k8s.io/api/core/v1.ObjectReference"; "k8s.io/apimachinery/pkg/apis/meta/v1.ObjectMeta"].

(** Lines 1534-1624. *)
Definition schema_k8sio_api_core_v1_CSIPersistentVolumeSource : OpenAPIDefinition R :=
    mkOpenAPIDefinition
      (schema [
        Type_ ["object"];
        Properties [
          ("driver", schema [Default (AString ""); Type_ ["string"]; Format ""]);
          ("volumeHandle", schema [Default (AString ""); Type_ ["string"]; Format ""]);
          ("readOnly", schema [Type_ ["boolean"]; Format ""]);
          ("fsType", schema [Type_ ["string"]; Format ""]);
          ("volumeAttributes", schema [
                                 Type_ ["object"];
                                 AdditionalProperties (schema [Default (AString ""); Type_ ["string"]; Format ""])]);
          ("controllerPublishSecretRef", schema [Ref (ref "k8s.io/api/core/v1.SecretReference")]);
          ("nodeStageSecretRef", schema [Ref (ref "k8s.io/api/core/v1.SecretReference")]);
          ("nodePublishSecretRef", schema [Ref (ref "k8s.io/api/core/v1.SecretReference")]);
          ("controllerExpandSecretRef", schema [Ref (ref "k8s.io/api/core/v1.SecretReference")]);
          ("nodeExpandSecretRef", schema [Ref (ref "k8s.io/api/core/v1.SecretReference")])];
        Required ["driver"; "volumeHandle"]])
      ["k8s.io/api/core/v1.SecretReference"].

(** Lines 1626-1684. *)
Definition schema_k8sio_api_core_v1_CSIVolumeSource : OpenAPIDefinition R :=
    mkOpenAPIDefinition
      (schema [
        Type_ ["object"];
        Properties [
          ("driver", schema [Default (AString ""); Type_ ["string"]; Format ""]);
          ("readOnly", schema [Type_ ["boolean"]; Format ""]);
          ("fsType", schema [Type_ ["string"]; Format ""]);
          ("volumeAttributes", schema [
                                 Type_ ["object"];
                                 AdditionalProperties (schema [Default (AString ""); Type_ ["string"]; Format ""])]);
          ("nodePublishSecretRef", schema [Ref (ref "k8s.io/api/core/v1.LocalObjectReference")])];
        Required ["driver"]])
      ["k8s.io/api/core/v1.LocalObjectReference"].

(** Lines 1686-1737. *)
Definition schema_k8sio_api_core_v1_Capabilities : OpenAPIDefinition R :=
    mkOpenAPIDefinition
      (schema [
        Type_ ["object"];
        Properties [
          ("add", schema [
                    Extensions [("x-kubernetes-list-type", AString "atomic")];
                    Type_ ["array"];
                    Items (schema [Default (AString ""); Type_ ["string"]; Format ""])]);
          ("drop", schema [
                     Extensions [("x-kubernetes-list-type", AString "atomic")];
                     Type_ ["array"];
                     Items (schema [Default (AString ""); Type_ ["string"]; Format ""])])]])
      [].

(** Lines 1739-1807. *)
Definition schema_k8sio_api_core_v1_CephFSPersistentVolumeSource : OpenAPIDefinition R :=
    mkOpenAPIDefinition
      (schema [
        Type_ ["object"];
        Properties [
          ("monitors", schema [
                         Extensions [("x-kubernetes-list-type", AString "atomic")];
                         Type_ ["array"];
                         Items (schema [Default (AString ""); Type_ ["string"]; Format ""])]);
          ("path", schema [Type_ ["string"]; Format ""]);
          ("user", schema [Type_ ["string"]; Format ""]);
          ("secretFile", schema [Type_ ["string"]; Format ""]);
          ("secretRef", schema [Ref (ref "k8s.io/api/core/v1.SecretReference")]);
          ("readOnly", schema [Type_ ["boolean"]; Format ""])];
        Required ["monitors"]])
      ["k8s.io/api/core/v1.SecretReference"].

(** Lines 1809-1877. *)
Definition schema_k8sio_api_core_v1_CephFSVolumeSource : OpenAPIDefinition R :=
    mkOpenAPIDefinition
      (schema [
        Type_ ["object"];
        Properties [
          ("monitors", schema [
                         Extensions [("x-kubernetes-list-type", AString "atomic")];
                         Type_ ["array"];
                         Items (schema [Default (AString ""); Type_ ["string"]; Format ""])]);
          ("path", schema [Type_ ["string"]; Format ""]);
          ("user", schema [Type_ ["string"]; Format ""]);
          ("secretFile", schema [Type_ ["string"]; Format ""]);
          ("secretRef", schema [Ref (ref "k8s.io/api/core/v1.LocalObjectReference")]);
          ("readOnly", schema [Type_ ["boolean"]; Format ""])];
        Required ["monitors"]])
      ["k8s.io/api/core/v1.LocalObjectReference"].

(** Lines 1879-1921. *)
Definition schema_k8sio_api_core_v1_CinderPersistentVolumeSource : OpenAPIDefinition R :=
    mkOpenAPIDefinition
      (schema [
        Type_ ["object"];
        Properties [
          ("volumeID", schema [Default (AString ""); Type_ ["string"]; Format ""]);
          ("fsType", schema [Type_ ["string"]; Format ""]);
          ("readOnly", schema [Type_ ["boolean"]; Format ""]);
          ("secretRef", schema [Ref (ref "k8s.io/api/core/v1.SecretReference")])];
        Required ["volumeID"]])
      ["k8s.io/api/core/v1.SecretReference"].

(** Lines 1923-1965. *)
Definition schema_k8sio_api_core_v1_CinderVolumeSource : OpenAPIDefinition R :=
    mkOpenAPIDefinition
      (schema [
        Type_ ["object"];
        Properties [
          ("volumeID", schema [Default (AString ""); Type_ ["string"]; Format ""]);
          ("fsType", schema [Type_ ["string"]; Format ""]);
          ("readOnly", schema [Type_ ["boolean"]; Format ""]);
          ("secretRef", schema [Ref (ref "k8s.io/api/core/v1.LocalObjectReference")])];
        Required ["volumeID"]])
      ["k8s.io/api/core/v1.LocalObjectReference"].

(** Lines 1967-1985. *)
Definition schema_k8sio_api_core_v1_ClientIPConfig : OpenAPIDefinition R :=
    mkOpenAPIDefinition
      (schema [Type_ ["object"]; Properties [("timeoutSeconds", schema [Type_ ["integer"]; Format "int32"])]])
      [].

(** Lines 1987-2036. *)
Definition schema_k8sio_api_core_v1_ClusterTrustBundleProjection : OpenAPIDefinition R :=
    mkOpenAPIDefinition
      (schema [
        Type_ ["object"];
        Properties [
          ("name", schema [Type_ ["string"]; Format ""]);
          ("signerName", schema [Type_ ["string"]; Format ""]);
          ("labelSelector", schema [Ref (ref "k8s.io/apimachinery/pkg/apis/meta/v1.LabelSelector")]);
          ("optional", schema [Type_ ["boolean"]; Format ""]);
          ("path", schema [Default (AString ""); Type_ ["string"]; Format ""])];
        Required ["path"]])
      ["k8s.io/apimachinery/pkg/apis/meta/v1.LabelSelector"].

(** Lines 2038-2080. *)
Definition schema_k8sio_api_core_v1_ComponentCondition : OpenAPIDefinition R :=
    mkOpenAPIDefinition
      (schema [
        Type_ ["object"];
        Properties [
          ("type", schema [Default (AString ""); Type_ ["string"]; Format ""]);
          ("status", schema [Default (AString ""); Type_ ["string"]; Format ""]);
          ("message", schema [Type_ ["string"]; Format ""]);
          ("error", schema [Type_ ["string"]; Format ""])];
        Required ["type"; "status"]])
      [].

(** Lines 2082-2140. *)
Definition schema_k8sio_api_core_v1_ComponentStatus : OpenAPIDefinition R :=
    mkOpenAPIDefinition
      (schema [
        Type_ ["object"];
        Properties [
          ("kind", schema [Type_ ["string"]; Format ""]);
          ("apiVersion", schema [Type_ ["string"]; Format ""]);
          ("metadata", schema [Default (AMap []); Ref (ref "k8s.io/apimachinery/pkg/apis/meta/v1.ObjectMeta")]);
          ("conditions", schema [
                           Extensions [
                             ("x-kubernetes-list-map-keys", ASlice [AString "type"]);
                             ("x-kubernetes-list-type", AString "map");
                             ("x-kubernetes-patch-merge-key", AString "type");
                             ("x-kubernetes-patch-strategy", AString "merge")];
                           Type_ ["array"];
                           Items (schema [Default (AMap []); Ref (ref "k8s.io/api/core/v1.ComponentCondition")])])]])
      ["k8s.io/api/core/v1.ComponentCondition"; "k8s.io/apimachinery/pkg/apis/meta/v1.ObjectMeta"].

(** Lines 2142-2191. *)
Definition schema_k8sio_api_core_v1_ComponentStatusList : OpenAPIDefinition R :=
    mkOpenAPIDefinition
      (schema [
        Type_ ["object"];
        Properties [
          ("kind", schema [Type_ ["string"]; Format ""]);
          ("apiVersion", schema [Type_ ["string"]; Format ""]);
          ("metadata", schema [Default (AMap []); Ref (ref "k8s.io/apimachinery/pkg/apis/meta/v1.ListMeta")]);
          ("items", schema [
                      Type_ ["array"];
                      Items (schema [Default (AMap []); Ref (ref "k8s.io/api/core/v1.ComponentStatus")])])];
        Required ["items"]])
      ["k8s.io/api/core/v1.ComponentStatus"; "k8s.io/apimachinery/pkg/apis/meta/v1.ListMeta"].

(** Lines 2193-2265. *)
Definition schema_k8sio_api_core_v1_ConfigMap : OpenAPIDefinition R :=
    mkOpenAPIDefinition
      (schema [
        Type_ ["object"];
        Properties [
          ("kind", schema [Type_ ["string"]; Format ""]);
          ("apiVersion", schema [Type_ ["string"]; Format ""]);
          ("metadata", schema [Default (AMap []); Ref (ref "k8s.io/apimachinery/pkg/apis/meta/v1.ObjectMeta")]);
          ("immutable", schema [Type_ ["boolean"]; Format ""]);
          ("data", schema [
                     Type_ ["object"];
                     AdditionalProperties (schema [Default (AString ""); Type_ ["string"]; Format ""])]);
          ("binaryData", schema [Type_ ["object"]; AdditionalProperties (schema [Type_ ["string"]; Format "byte"])])]])
      ["k8s.io/apimachinery/pkg/apis/meta/v1.ObjectMeta"].

(** Lines 2267-2293. *)
Definition schema_k8sio_api_core_v1_ConfigMapEnvSource : OpenAPIDefinition R :=
    mkOpenAPIDefinition
      (schema [
        Type_ ["object"];
        Properties [
          ("name", schema [Default (AString ""); Type_ ["string"]; Format ""]);
          ("optional", schema [Type_ ["boolean"]; Format ""])]])
      [].

(** Lines 2295-2335. *)
Definition schema_k8sio_api_core_v1_ConfigMapKeySelector : OpenAPIDefinition R :=
    mkOpenAPIDefinition
      (schema [
        Type_ ["object"];
        Properties [
          ("name", schema [Default (AString ""); Type_ ["string"]; Format ""]);
          ("key", schema [Default (AString ""); Type_ ["string"]; Format ""]);
          ("optional", schema [Type_ ["boolean"]; Format ""])];
        Required ["key"];
        Extensions [("x-kubernetes-map-type", AString "atomic")]])
      [].

(** Lines 2337-2386. *)
Definition schema_k8sio_api_core_v1_ConfigMapList : OpenAPIDefinition R :=
    mkOpenAPIDefinition
      (schema [
        Type_ ["object"];
        Properties [
          ("kind", schema [Type_ ["string"]; Format ""]);
          ("apiVersion", schema [Type_ ["string"]; Format ""]);
          ("metadata", schema [Default (AMap []); Ref (ref "k8s.io/apimachinery/pkg/apis/meta/v1.ListMeta")]);
          ("items", schema [
                      Type_ ["array"];
                      Items (schema [Default (AMap []); Ref (ref "k8s.io/api/core/v1.ConfigMap")])])];
        Required ["items"]])
      ["k8s.io/api/core/v1.ConfigMap"; "k8s.io/apimachinery/pkg/apis/meta/v1.ListMeta"].

(** Lines 2388-2438. *)
Definition schema_k8sio_api_core_v1_ConfigMapNodeConfigSource : OpenAPIDefinition R :=
    mkOpenAPIDefinition
      (schema [
        Type_ ["object"];
        Properties [
          ("namespace", schema [Default (AString ""); Type_ ["string"]; Format ""]);
          ("name", schema [Default (AString ""); Type_ ["string"]; Format ""]);
          ("uid", schema [Type_ ["string"]; Format ""]);
          ("resourceVersion", schema [Type_ ["string"]; Format ""]);
          ("kubeletConfigKey", schema [Default (AString ""); Type_ ["string"]; Format ""])];
        Required ["namespace"; "name"; "kubeletConfigKey"]])
      [].

(** Lines 2440-2487. *)
Definition schema_k8sio_api_core_v1_ConfigMapProjection : OpenAPIDefinition R :=
    mkOpenAPIDefinition
      (schema [
        Type_ ["object"];
        Properties [
          ("name", schema [Default (AString ""); Type_ ["string"]; Format ""]);
          ("items", schema [
                      Extensions [("x-kubernetes-list-type", AString "atomic")];
                      Type_ ["array"];
                      Items (schema [Default (AMap []); Ref (ref "k8s.io/api/core/v1.KeyToPath")])]);
          ("optional", schema [Type_ ["boolean"]; Format ""])]])
      ["k8s.io/api/core/v1.KeyToPath"].

(** Lines 2489-2543. *)
Definition schema_k8sio_api_core_v1_ConfigMapVolumeSource : OpenAPIDefinition R :=
    mkOpenAPIDefinition
      (schema [
        Type_ ["object"];
        Properties [
          ("name", schema [Default (AString ""); Type_ ["string"]; Format ""]);
          ("items", schema [
                      Extensions [("x-kubernetes-list-type", AString "atomic")];
                      Type_ ["array"];
                      Items (schema [Default (AMap []); Ref (ref "k8s.io/api/core/v1.KeyToPath")])]);
          ("defaultMode", schema [Type_ ["integer"]; Format "int32"]);
          ("optional", schema [Type_ ["boolean"]; Format ""])]])
      ["k8s.io/api/core/v1.KeyToPath"].

(** Lines 2545-2863. *)
Definition schema_k8sio_api_core_v1_Container : OpenAPIDefinition R :=
    mkOpenAPIDefinition
      (schema [
        Type_ ["object"];
        Properties [
          ("name", schema [Default (AString ""); Type_ ["string"]; Format ""]);
          ("image", schema [Type_ ["string"]; Format ""]);
          ("command", schema [
                        Extensions [("x-kubernetes-list-type", AString "atomic")];
                        Type_ ["array"];
                        Items (schema [Default (AString ""); Type_ ["string"]; Format ""])]);
          ("args", schema [
                     Extensions [("x-kubernetes-list-type", AString "atomic")];
                     Type_ ["array"];
                     Items (schema [Default (AString ""); Type_ ["string"]; Format ""])]);
          ("workingDir", schema [Type_ ["string"]; Format ""]);
          ("ports", schema [
                      Extensions [
                        ("x-kubernetes-list-map-keys", ASlice [AString "containerPort"; AString "protocol"]);
                        ("x-kubernetes-list-type", AString "map");
                        ("x-kubernetes-patch-merge-key", AString "containerPort");
                        ("x-kubernetes-patch-strategy", AString "merge")];
                      Type_ ["array"];
                      Items (schema [Default (AMap []); Ref (ref "k8s.io/api/core/v1.ContainerPort")])]);
          ("envFrom", schema [
                        Extensions [("x-kubernetes-list-type", AString "atomic")];
                        Type_ ["array"];
                        Items (schema [Default (AMap []); Ref (ref "k8s.io/api/core/v1.EnvFromSource")])]);
          ("env", schema [
                    Extensions [
                      ("x-kubernetes-list-map-keys", ASlice [AString "name"]);
                      ("x-kubernetes-list-type", AString "map");
                      ("x-kubernetes-patch-merge-key", AString "name");
                      ("x-kubernetes-patch-strategy", AString "merge")];
                    Type_ ["array"];
                    Items (schema [Default (AMap []); Ref (ref "k8s.io/api/core/v1.EnvVar")])]);
          ("resources", schema [Default (AMap []); Ref (ref "k8s.io/api/core/v1.ResourceRequirements")]);
          ("resizePolicy", schema [
                             Extensions [("x-kubernetes-list-type", AString "atomic")];
                             Type_ ["array"];
                             Items (schema [
                                      Default (AMap []);
                                      Ref (ref "k8s.io/api/core/v1.ContainerResizePolicy")])]);
          ("restartPolicy", schema [Type_ ["string"]; Format ""]);
          ("restartPolicyRules", schema [
                                   Extensions [("x-kubernetes-list-type", AString "atomic")];
                                   Type_ ["array"];
                                   Items (schema [
                                            Default (AMap []);
                                            Ref (ref "k8s.io/api/core/v1.ContainerRestartRule")])]);
          ("volumeMounts", schema [
                             Extensions [
                               ("x-kubernetes-list-map-keys", ASlice [AString "mountPath"]);
                               ("x-kubernetes-list-type", AString "map");
                               ("x-kubernetes-patch-merge-key", AString "mountPath");
                               ("x-kubernetes-patch-strategy", AString "merge")];
                             Type_ ["array"];
                             Items (schema [Default (AMap []); Ref (ref "k8s.io/api/core/v1.VolumeMount")])]);
          ("volumeDevices", schema [
                              Extensions [
                                ("x-kubernetes-list-map-keys", ASlice [AString "devicePath"]);
                                ("x-kubernetes-list-type", AString "map");
                                ("x-kubernetes-patch-merge-key", AString "devicePath");
                                ("x-kubernetes-patch-strategy", AString "merge")];
                              Type_ ["array"];
                              Items (schema [Default (AMap []); Ref (ref "k8s.io/api/core/v1.VolumeDevice")])]);
          ("livenessProbe", schema [Ref (ref "k8s.io/api/core/v1.Probe")]);
          ("readinessProbe", schema [Ref (ref "k8s.io/api/core/v1.Probe")]);
          ("startupProbe", schema [Ref (ref "k8s.io/api/core/v1.Probe")]);
          ("lifecycle", schema [Ref (ref "k8s.io/api/core/v1.Lifecycle")]);
          ("terminationMessagePath", schema [Type_ ["string"]; Format ""]);
          ("terminationMessagePolicy", schema [
                                         Type_ ["string"];
                                         Format "";
                                         Enum [AString "FallbackToLogsOnError"; AString "File"]]);
          ("imagePullPolicy", schema [
                                Type_ ["string"];
                                Format "";
                                Enum [AString "Always"; AString "IfNotPresent"; AString "Never"]]);
          ("securityContext", schema [Ref (ref "k8s.io/api/core/v1.SecurityContext")]);
          ("stdin", schema [Type_ ["boolean"]; Format ""]);
          ("stdinOnce", schema [Type_ ["boolean"]; Format ""]);
          ("tty", schema [Type_ ["boolean"]; Format ""])];
        Required ["name"]])
        ["k8s.io/api/core/v1.ContainerPort"; "k8s.io/api/core/v1.ContainerResizePolicy";
         "k8s.io/api/core/v1.ContainerRestartRule"; "k8s.io/api/core/v1.EnvFromSource";
         "k8s.io/api/core/v1.EnvVar"; "k8s.io/api/core/v1.Lifecycle"; "k8s.io/api/core/v1.Probe";
         "k8s.io/api/core/v1.ResourceRequirements"; "k8s.io/api/core/v1.SecurityContext";
         "k8s.io/api/core/v1.VolumeDevice"; "k8s.io/api/core/v1.VolumeMount"].

(** Lines 2865-2901. *)
Definition schema_k8sio_api_core_v1_ContainerExtendedResourceRequest : OpenAPIDefinition R :=
    mkOpenAPIDefinition
      (schema [
        Type_ ["object"];
        Properties [
          ("containerName", schema [Default (AString ""); Type_ ["string"]; Format ""]);
          ("resourceName", schema [Default (AString ""); Type_ ["string"]; Format ""]);
          ("requestName", schema [Default (AString ""); Type_ ["string"]; Format ""])];
        Required ["containerName"; "resourceName"; "requestName"]])
      [].

(** Lines 2903-2941. *)
Definition schema_k8sio_api_core_v1_ContainerImage : OpenAPIDefinition R :=
    mkOpenAPIDefinition
      (schema [
        Type_ ["object"];
        Properties [
          ("names", schema [
                      Extensions [("x-kubernetes-list-type", AString "atomic")];
                      Type_ ["array"];
                      Items (schema [Default (AString ""); Type_ ["string"]; Format ""])]);
          ("sizeBytes", schema [Type_ ["integer"]; Format "int64"])]])
      [].

(** Lines 2943-2993. *)
Definition schema_k8sio_api_core_v1_ContainerPort : OpenAPIDefinition R :=
    mkOpenAPIDefinition
      (schema [
        Type_ ["object"];
        Properties [
          ("name", schema [Type_ ["string"]; Format ""]);
          ("hostPort", schema [Type_ ["integer"]; Format "int32"]);
          ("containerPort", schema [Default (AInt 0); Type_ ["integer"]; Format "int32"]);
          ("protocol", schema [
                         Default (AString "TCP");
                         Type_ ["string"];
                         Format "";
                         Enum [AString "SCTP"; AString "TCP"; AString "UDP"]]);
          ("hostIP", schema [Type_ ["string"]; Format ""])];
        Required ["containerPort"]])
      [].

(** Lines 2995-3023. *)
Definition schema_k8sio_api_core_v1_ContainerResizePolicy : OpenAPIDefinition R :=
    mkOpenAPIDefinition
      (schema [
        Type_ ["object"];
        Properties [
          ("resourceName", schema [Default (AString ""); Type_ ["string"]; Format ""]);
          ("restartPolicy", schema [Default (AString ""); Type_ ["string"]; Format ""])];
        Required ["resourceName"; "restartPolicy"]])
      [].

(** Lines 3025-3052. *)
Definition schema_k8sio_api_core_v1_ContainerRestartRule : OpenAPIDefinition R :=
    mkOpenAPIDefinition
      (schema [
        Type_ ["object"];
        Properties [
          ("action", schema [Type_ ["string"]; Format ""]);
          ("exitCodes", schema [Ref (ref "k8s.io/api/core/v1.ContainerRestartRuleOnExitCodes")])];
        Required ["action"]])
      ["k8s.io/api/core/v1.ContainerRestartRuleOnExitCodes"].

(** Lines 3054-3093. *)
Definition schema_k8sio_api_core_v1_ContainerRestartRuleOnExitCodes : OpenAPIDefinition R :=
    mkOpenAPIDefinition
      (schema [
        Type_ ["object"];
        Properties [
          ("operator", schema [Type_ ["string"]; Format ""]);
          ("values", schema [
                       Extensions [("x-kubernetes-list-type", AString "set")];
                       Type_ ["array"];
                       Items (schema [Default (AInt 0); Type_ ["integer"]; Format "int32"])])];
        Required ["operator"]])
      [].

(** Lines 3095-3126. *)
Definition schema_k8sio_api_core_v1_ContainerState : OpenAPIDefinition R :=
    mkOpenAPIDefinition
      (schema [
        Type_ ["object"];
        Properties [
          ("waiting", schema [Ref (ref "k8s.io/api/core/v1.ContainerStateWaiting")]);
          ("running", schema [Ref (ref "k8s.io/api/core/v1.ContainerStateRunning")]);
          ("terminated", schema [Ref (ref "k8s.io/api/core/v1.ContainerStateTerminated")])]])
        ["k8s.io/api/core/v1.ContainerStateRunning"; "k8s.io/api/core/v1.ContainerStateTerminated";
         "k8s.io/api/core/v1.ContainerStateWaiting"].

(** Lines 3128-3147. *)
Definition schema_k8sio_api_core_v1_ContainerStateRunning : OpenAPIDefinition R :=
    mkOpenAPIDefinition
      (schema [
        Type_ ["object"];
        Properties [("startedAt", schema [Ref (ref "k8s.io/apimachinery/pkg/apis/meta/v1.Time")])]])
      ["k8s.io/apimachinery/pkg/apis/meta/v1.Time"].

(** Lines 3149-3211. *)
Definition schema_k8sio_api_core_v1_ContainerStateTerminated : OpenAPIDefinition R :=
    mkOpenAPIDefinition
      (schema [
        Type_ ["object"];
        Properties [
          ("exitCode", schema [Default (AInt 0); Type_ ["integer"]; Format "int32"]);
          ("signal", schema [Type_ ["integer"]; Format "int32"]);
          ("reason", schema [Type_ ["string"]; Format ""]);
          ("message", schema [Type_ ["string"]; Format ""]);
          ("startedAt", schema [Ref (ref "k8s.io/apimachinery/pkg/apis/meta/v1.Time")]);
          ("finishedAt", schema [Ref (ref "k8s.io/apimachinery/pkg/apis/meta/v1.Time")]);
          ("containerID", schema [Type_ ["string"]; Format ""])];
        Required ["exitCode"]])
      ["k8s.io/apimachinery/pkg/apis/meta/v1.Time"].

(** Lines 3213-3238. *)
Definition schema_k8sio_api_core_v1_ContainerStateWaiting : OpenAPIDefinition R :=
    mkOpenAPIDefinition
      (schema [
        Type_ ["object"];
        Properties [
          ("reason", schema [Type_ ["string"]; Format ""]);
          ("message", schema [Type_ ["string"]; Format ""])]])
      [].

(** Lines 3240-3404. *)
Definition schema_k8sio_api_core_v1_ContainerStatus : OpenAPIDefinition R :=
    mkOpenAPIDefinition
      (schema [
        Type_ ["object"];
        Properties [
          ("name", schema [Default (AString ""); Type_ ["string"]; Format ""]);
          ("state", schema [Default (AMap []); Ref (ref "k8s.io/api/core/v1.ContainerState")]);
          ("lastState", schema [Default (AMap []); Ref (ref "k8s.io/api/core/v1.ContainerState")]);
          ("ready", schema [Default (ABool false); Type_ ["boolean"]; Format ""]);
          ("restartCount", schema [Default (AInt 0); Type_ ["integer"]; Format "int32"]);
          ("image", schema [Default (AString ""); Type_ ["string"]; Format ""]);
          ("imageID", schema [Default (AString ""); Type_ ["string"]; Format ""]);
          ("containerID", schema [Type_ ["string"]; Format ""]);
          ("started", schema [Type_ ["boolean"]; Format ""]);
          ("allocatedResources", schema [
                                   Type_ ["object"];
                                   AdditionalProperties (schema 
                                                           [
                                                            Ref (ref "k8s.io/apimachinery/pkg/api/resource.Quantity")])]);
          ("resources", schema [Ref (ref "k8s.io/api/core/v1.ResourceRequirements")]);
          ("volumeMounts", schema [
                             Extensions [
                               ("x-kubernetes-list-map-keys", ASlice [AString "mountPath"]);
                               ("x-kubernetes-list-type", AString "map");
                               ("x-kubernetes-patch-merge-key", AString "mountPath");
                               ("x-kubernetes-patch-strategy", AString "merge")];
                             Type_ ["array"];
                             Items (schema [Default (AMap []); Ref (ref "k8s.io/api/core/v1.VolumeMountStatus")])]);
          ("user", schema [Ref (ref "k8s.io/api/core/v1.ContainerUser")]);
          ("allocatedResourcesStatus", schema [
                                         Extensions [
                                           ("x-kubernetes-list-map-keys", ASlice [AString "name"]);
                                           ("x-kubernetes-list-type", AString "map");
                                           ("x-kubernetes-patch-merge-key", AString "name");
                                           ("x-kubernetes-patch-strategy", AString "merge")];
                                         Type_ ["array"];
                                         Items (schema [
                                                  Default (AMap []);
                                                  Ref (ref "k8s.io/api/core/v1.ResourceStatus")])]);
          ("stopSignal", schema [
                           Type_ ["string"];
                           Format "";
                           Enum 
                             [AString "SIGABRT"; AString "SIGALRM"; AString "SIGBUS"; AString "SIGCHLD";
                              AString "SIGCLD"; AString "SIGCONT"; AString "SIGFPE"; AString "SIGHUP";
                              AString "SIGILL"; AString "SIGINT"; AString "SIGIO"; AString "SIGIOT";
                              AString "SIGKILL"; AString "SIGPIPE"; AString "SIGPOLL"; AString "SIGPROF";
                              AString "SIGPWR"; AString "SIGQUIT"; AString "SIGRTMAX";
                              AString "SIGRTMAX-1"; AString "SIGRTMAX-10"; AString "SIGRTMAX-11";
                              AString "SIGRTMAX-12"; AString "SIGRTMAX-13"; AString "SIGRTMAX-14";
                              AString "SIGRTMAX-2"; AString "SIGRTMAX-3"; AString "SIGRTMAX-4";
                              AString "SIGRTMAX-5"; AString "SIGRTMAX-6"; AString "SIGRTMAX-7";
                              AString "SIGRTMAX-8"; AString "SIGRTMAX-9"; AString "SIGRTMIN";
                              AString "SIGRTMIN+1"; AString "SIGRTMIN+10"; AString "SIGRTMIN+11";
                              AString "SIGRTMIN+12"; AString "SIGRTMIN+13"; AString "SIGRTMIN+14";
                              AString "SIGRTMIN+15"; AString "SIGRTMIN+2"; AString "SIGRTMIN+3";
                              AString "SIGRTMIN+4"; AString "SIGRTMIN+5"; AString "SIGRTMIN+6";
                              AString "SIGRTMIN+7"; AString "SIGRTMIN+8"; AString "SIGRTMIN+9";
                              AString "SIGSEGV"; AString "SIGSTKFLT"; AString "SIGSTOP"; AString "SIGSYS";
                              AString "SIGTERM"; AString "SIGTRAP"; AString "SIGTSTP"; AString "SIGTTIN";
                              AString "SIGTTOU"; AString "SIGURG"; AString "SIGUSR1"; AString "SIGUSR2";
                              AString "SIGVTALRM"; AString "SIGWINCH"; AString "SIGXCPU"; AString "SIGXFSZ"]])];
        Required ["name"; "ready"; "restartCount"; "image"; "imageID"]])
        ["k8s.io/api/core/v1.ContainerState"; "k8s.io/api/core/v1.ContainerUser";
         "k8s.io/api/core/v1.ResourceRequirements"; "k8s.io/api/core/v1.ResourceStatus";
         "k8s.io/api/core/v1.VolumeMountStatus"; "k8s.io/apimachinery/pkg/api/resource.Quantity"].

(** Lines 3406-3425. *)
Definition schema_k8sio_api_core_v1_ContainerUser : OpenAPIDefinition R :=
    mkOpenAPIDefinition
      (schema [Type_ ["object"]; Properties [("linux", schema [Ref (ref "k8s.io/api/core/v1.LinuxContainerUser")])]])
      ["k8s.io/api/core/v1.LinuxContainerUser"].

(** Lines 3427-3447. *)
Definition schema_k8sio_api_core_v1_DaemonEndpoint : OpenAPIDefinition R :=
    mkOpenAPIDefinition
      (schema [
        Type_ ["object"];
        Properties [("Port", schema [Default (AInt 0); Type_ ["integer"]; Format "int32"])];
        Required ["Port"]])
      [].

(** Lines 3449-3481. *)
Definition schema_k8sio_api_core_v1_DownwardAPIProjection : OpenAPIDefinition R :=
    mkOpenAPIDefinition
      (schema [
        Type_ ["object"];
        Properties [
          ("items", schema [
                      Extensions [("x-kubernetes-list-type", AString "atomic")];
                      Type_ ["array"];
                      Items (schema [Default (AMap []); Ref (ref "k8s.io/api/core/v1.DownwardAPIVolumeFile")])])]])
      ["k8s.io/api/core/v1.DownwardAPIVolumeFile"].

(** Lines 3483-3524. *)
Definition schema_k8sio_api_core_v1_DownwardAPIVolumeFile : OpenAPIDefinition R :=
    mkOpenAPIDefinition
      (schema [
        Type_ ["object"];
        Properties [
          ("path", schema [Default (AString ""); Type_ ["string"]; Format ""]);
          ("fieldRef", schema [Ref (ref "k8s.io/api/core/v1.ObjectFieldSelector")]);
          ("resourceFieldRef", schema [Ref (ref "k8s.io/api/core/v1.ResourceFieldSelector")]);
          ("mode", schema [Type_ ["integer"]; Format "int32"])];
        Required ["path"]])
      ["k8s.io/api/core/v1.ObjectFieldSelector"; "k8s.io/api/core/v1.ResourceFieldSelector"].

(** Lines 3526-3565. *)
Definition schema_k8sio_api_core_v1_DownwardAPIVolumeSource : OpenAPIDefinition R :=
    mkOpenAPIDefinition
      (schema [
        Type_ ["object"];
        Properties [
          ("items", schema [
                      Extensions [("x-kubernetes-list-type", AString "atomic")];
                      Type_ ["array"];
                      Items (schema [Default (AMap []); Ref (ref "k8s.io/api/core/v1.DownwardAPIVolumeFile")])]);
          ("defaultMode", schema [Type_ ["integer"]; Format "int32"])]])
      ["k8s.io/api/core/v1.DownwardAPIVolumeFile"].

(** Lines 3567-3593. *)
Definition schema_k8sio_api_core_v1_EmptyDirVolumeSource : OpenAPIDefinition R :=
    mkOpenAPIDefinition
      (schema [
        Type_ ["object"];
        Properties [
          ("medium", schema [Type_ ["string"]; Format ""]);
          ("sizeLimit", schema [Ref (ref "k8s.io/apimachinery/pkg/api/resource.Quantity")])]])
      ["k8s.io/apimachinery/pkg/api/resource.Quantity"].

(** Lines 3595-3642. *)
Definition schema_k8sio_api_core_v1_EndpointAddress : OpenAPIDefinition R :=
    mkOpenAPIDefinition
      (schema [
        Type_ ["object"];
        Properties [
          ("ip", schema [Default (AString ""); Type_ ["string"]; Format ""]);
          ("hostname", schema [Type_ ["string"]; Format ""]);
          ("nodeName", schema [Type_ ["string"]; Format ""]);
          ("targetRef", schema [Ref (ref "k8s.io/api/core/v1.ObjectReference")])];
        Required ["ip"];
        Extensions [("x-kubernetes-map-type", AString "atomic")]])
      ["k8s.io/api/core/v1.ObjectReference"].

(** Lines 3644-3691. *)
Definition schema_k8sio_api_core_v1_EndpointPort : OpenAPIDefinition R :=
    mkOpenAPIDefinition
      (schema [
        Type_ ["object"];
        Properties [
          ("name", schema [Type_ ["string"]; Format ""]);
          ("port", schema [Default (AInt 0); Type_ ["integer"]; Format "int32"]);
          ("protocol", schema [Type_ ["string"]; Format ""; Enum [AString "SCTP"; AString "TCP"; AString "UDP"]]);
          ("appProtocol", schema [Type_ ["string"]; Format ""])];
        Required ["port"];
        Extensions [("x-kubernetes-map-type", AString "atomic")]])
      [].

(** Lines 3693-3763. *)
Definition schema_k8sio_api_core_v1_EndpointSubset : OpenAPIDefinition R :=
    mkOpenAPIDefinition
      (schema [
        Type_ ["object"];
        Properties [
          ("addresses", schema [
                          Extensions [("x-kubernetes-list-type", AString "atomic")];
                          Type_ ["array"];
                          Items (schema [Default (AMap []); Ref (ref "k8s.io/api/core/v1.EndpointAddress")])]);
          ("notReadyAddresses", schema [
                                  Extensions [("x-kubernetes-list-type", AString "atomic")];
                                  Type_ ["array"];
                                  Items (schema [Default (AMap []); Ref (ref "k8s.io/api/core/v1.EndpointAddress")])]);
          ("ports", schema [
                      Extensions [("x-kubernetes-list-type", AString "atomic")];
                      Type_ ["array"];
                      Items (schema [Default (AMap []); Ref (ref "k8s.io/api/core/v1.EndpointPort")])])]])
      ["k8s.io/api/core/v1.EndpointAddress"; "k8s.io/api/core/v1.EndpointPort"].

(** Lines 3765-3818. *)
Definition schema_k8sio_api_core_v1_Endpoints : OpenAPIDefinition R :=
    mkOpenAPIDefinition
      (schema [
        Type_ ["object"];
        Properties [
          ("kind", schema [Type_ ["string"]; Format ""]);
          ("apiVersion", schema [Type_ ["string"]; Format ""]);
          ("metadata", schema [Default (AMap []); Ref (ref "k8s.io/apimachinery/pkg/apis/meta/v1.ObjectMeta")]);
          ("subsets", schema [
                        Extensions [("x-kubernetes-list-type", AString "atomic")];
                        Type_ ["array"];
                        Items (schema [Default (AMap []); Ref (ref "k8s.io/api/core/v1.EndpointSubset")])])]])
      ["k8s.io/api/core/v1.EndpointSubset"; "k8s.io/apimachinery/pkg/apis/meta/v1.ObjectMeta"].

(** Lines 3820-3869. *)
Definition schema_k8sio_api_core_v1_EndpointsList : OpenAPIDefinition R :=
    mkOpenAPIDefinition
      (schema [
        Type_ ["object"];
        Properties [
          ("kind", schema [Type_ ["string"]; Format ""]);
          ("apiVersion", schema [Type_ ["string"]; Format ""]);
          ("metadata", schema [Default (AMap []); Ref (ref "k8s.io/apimachinery/pkg/apis/meta/v1.ListMeta")]);
          ("items", schema [
                      Type_ ["array"];
                      Items (schema [Default (AMap []); Ref (ref "k8s.io/api/core/v1.Endpoints")])])];
        Required ["items"]])
      ["k8s.io/api/core/v1.Endpoints"; "k8s.io/apimachinery/pkg/apis/meta/v1.ListMeta"].

(** Lines 3871-3903. *)
Definition schema_k8sio_api_core_v1_EnvFromSource : OpenAPIDefinition R :=
    mkOpenAPIDefinition
      (schema [
        Type_ ["object"];
        Properties [
          ("prefix", schema [Type_ ["string"]; Format ""]);
          ("configMapRef", schema [Ref (ref "k8s.io/api/core/v1.ConfigMapEnvSource")]);
          ("secretRef", schema [Ref (ref "k8s.io/api/core/v1.SecretEnvSource")])]])
      ["k8s.io/api/core/v1.ConfigMapEnvSource"; "k8s.io/api/core/v1.SecretEnvSource"].

(** Lines 3905-3940. *)
Definition schema_k8sio_api_core_v1_EnvVar : OpenAPIDefinition R :=
    mkOpenAPIDefinition
      (schema [
        Type_ ["object"];
        Properties [
          ("name", schema [Default (AString ""); Type_ ["string"]; Format ""]);
          ("value", schema [Type_ ["string"]; Format ""]);
          ("valueFrom", schema [Ref (ref "k8s.io/api/core/v1.EnvVarSource")])];
        Required ["name"]])
      ["k8s.io/api/core/v1.EnvVarSource"].

(** Lines 3942-3985. *)
Definition schema_k8sio_api_core_v1_EnvVarSource : OpenAPIDefinition R :=
    mkOpenAPIDefinition
      (schema [
        Type_ ["object"];
        Properties [
          ("fieldRef", schema [Ref (ref "k8s.io/api/core/v1.ObjectFieldSelector")]);
          ("resourceFieldRef", schema [Ref (ref "k8s.io/api/core/v1.ResourceFieldSelector")]);
          ("configMapKeyRef", schema [Ref (ref "k8s.io/api/core/v1.ConfigMapKeySelector")]);
          ("secretKeyRef", schema [Ref (ref "k8s.io/api/core/v1.SecretKeySelector")]);
          ("fileKeyRef", schema [Ref (ref "k8s.io/api/core/v1.FileKeySelector")])]])
        ["k8s.io/api/core/v1.ConfigMapKeySelector"; "k8s.io/api/core/v1.FileKeySelector";
         "k8s.io/api/core/v1.ObjectFieldSelector"; "k8s.io/api/core/v1.ResourceFieldSelector";
         "k8s.io/api/core/v1.SecretKeySelector"].

(** Lines 3987-4312. *)
Definition schema_k8sio_api_core_v1_EphemeralContainer : OpenAPIDefinition R :=
    mkOpenAPIDefinition
      (schema [
        Type_ ["object"];
        Properties [
          ("name", schema [Default (AString ""); Type_ ["string"]; Format ""]);
          ("image", schema [Type_ ["string"]; Format ""]);
          ("command", schema [
                        Extensions [("x-kubernetes-list-type", AString "atomic")];
                        Type_ ["array"];
                        Items (schema [Default (AString ""); Type_ ["string"]; Format ""])]);
          ("args", schema [
                     Extensions [("x-kubernetes-list-type", AString "atomic")];
                     Type_ ["array"];
                     Items (schema [Default (AString ""); Type_ ["string"]; Format ""])]);
          ("workingDir", schema [Type_ ["string"]; Format ""]);
          ("ports", schema [
                      Extensions [
                        ("x-kubernetes-list-map-keys", ASlice [AString "containerPort"; AString "protocol"]);
                        ("x-kubernetes-list-type", AString "map");
                        ("x-kubernetes-patch-merge-key", AString "containerPort");
                        ("x-kubernetes-patch-strategy", AString "merge")];
                      Type_ ["array"];
                      Items (schema [Default (AMap []); Ref (ref "k8s.io/api/core/v1.ContainerPort")])]);
          ("envFrom", schema [
                        Extensions [("x-kubernetes-list-type", AString "atomic")];
                        Type_ ["array"];
                        Items (schema [Default (AMap []); Ref (ref "k8s.io/api/core/v1.EnvFromSource")])]);
          ("env", schema [
                    Extensions [
                      ("x-kubernetes-list-map-keys", ASlice [AString "name"]);
                      ("x-kubernetes-list-type", AString "map");
                      ("x-kubernetes-patch-merge-key", AString "name");
                      ("x-kubernetes-patch-strategy", AString "merge")];
                    Type_ ["array"];
                    Items (schema [Default (AMap []); Ref (ref "k8s.io/api/core/v1.EnvVar")])]);
          ("resources", schema [Default (AMap []); Ref (ref "k8s.io/api/core/v1.ResourceRequirements")]);
          ("resizePolicy", schema [
                             Extensions [("x-kubernetes-list-type", AString "atomic")];
                             Type_ ["array"];
                             Items (schema [
                                      Default (AMap []);
                                      Ref (ref "k8s.io/api/core/v1.ContainerResizePolicy")])]);
          ("restartPolicy", schema [Type_ ["string"]; Format ""]);
          ("restartPolicyRules", schema [
                                   Extensions [("x-kubernetes-list-type", AString "atomic")];
                                   Type_ ["array"];
                                   Items (schema [
                                            Default (AMap []);
                                            Ref (ref "k8s.io/api/core/v1.ContainerRestartRule")])]);
          ("volumeMounts", schema [
                             Extensions [
                               ("x-kubernetes-list-map-keys", ASlice [AString "mountPath"]);
                               ("x-kubernetes-list-type", AString "map");
                               ("x-kubernetes-patch-merge-key", AString "mountPath");
                               ("x-kubernetes-patch-strategy", AString "merge")];
                             Type_ ["array"];
                             Items (schema [Default (AMap []); Ref (ref "k8s.io/api/core/v1.VolumeMount")])]);
          ("volumeDevices", schema [
                              Extensions [
                                ("x-kubernetes-list-map-keys", ASlice [AString "devicePath"]);
                                ("x-kubernetes-list-type", AString "map");
                                ("x-kubernetes-patch-merge-key", AString "devicePath");
                                ("x-kubernetes-patch-strategy", AString "merge")];
                              Type_ ["array"];
                              Items (schema [Default (AMap []); Ref (ref "k8s.io/api/core/v1.VolumeDevice")])]);
          ("livenessProbe", schema [Ref (ref "k8s.io/api/core/v1.Probe")]);
          ("readinessProbe", schema [Ref (ref "k8s.io/api/core/v1.Probe")]);
          ("startupProbe", schema [Ref (ref "k8s.io/api/core/v1.Probe")]);
          ("lifecycle", schema [Ref (ref "k8s.io/api/core/v1.Lifecycle")]);
          ("terminationMessagePath", schema [Type_ ["string"]; Format ""]);
          ("terminationMessagePolicy", schema [
                                         Type_ ["string"];
                                         Format "";
                                         Enum [AString "FallbackToLogsOnError"; AString "File"]]);
          ("imagePullPolicy", schema [
                                Type_ ["string"];
                                Format "";
                                Enum [AString "Always"; AString "IfNotPresent"; AString "Never"]]);
          ("securityContext", schema [Ref (ref "k8s.io/api/core/v1.SecurityContext")]);
          ("stdin", schema [Type_ ["boolean"]; Format ""]);
          ("stdinOnce", schema [Type_ ["boolean"]; Format ""]);
          ("tty", schema [Type_ ["boolean"]; Format ""]);
          ("targetContainerName", schema [Type_ ["string"]; Format ""])];
        Required ["name"]])
        ["k8s.io/api/core/v1.ContainerPort"; "k8s.io/api/core/v1.ContainerResizePolicy";
         "k8s.io/api/core/v1.ContainerRestartRule"; "k8s.io/api/core/v1.EnvFromSource";
         "k8s.io/api/core/v1.EnvVar"; "k8s.io/api/core/v1.Lifecycle"; "k8s.io/api/core/v1.Probe";
         "k8s.io/api/core/v1.ResourceRequirements"; "k8s.io/api/core/v1.SecurityContext";
         "k8s.io/api/core/v1.VolumeDevice"; "k8s.io/api/core/v1.VolumeMount"].

(** Lines 4314-4632. *)
Definition schema_k8sio_api_core_v1_EphemeralContainerCommon : OpenAPIDefinition R :=
    mkOpenAPIDefinition
      (schema [
        Type_ ["object"];
        Properties [
          ("name", schema [Default (AString ""); Type_ ["string"]; Format ""]);
          ("image", schema [Type_ ["string"]; Format ""]);
          ("command", schema [
                        Extensions [("x-kubernetes-list-type", AString "atomic")];
                        Type_ ["array"];
                        Items (schema [Default (AString ""); Type_ ["string"]; Format ""])]);
          ("args", schema [
                     Extensions [("x-kubernetes-list-type", AString "atomic")];
                     Type_ ["array"];
                     Items (schema [Default (AString ""); Type_ ["string"]; Format ""])]);
          ("workingDir", schema [Type_ ["string"]; Format ""]);
          ("ports", schema [
                      Extensions [
                        ("x-kubernetes-list-map-keys", ASlice [AString "containerPort"; AString "protocol"]);
                        ("x-kubernetes-list-type", AString "map");
                        ("x-kubernetes-patch-merge-key", AString "containerPort");
                        ("x-kubernetes-patch-strategy", AString "merge")];
                      Type_ ["array"];
                      Items (schema [Default (AMap []); Ref (ref "k8s.io/api/core/v1.ContainerPort")])]);
          ("envFrom", schema [
                        Extensions [("x-kubernetes-list-type", AString "atomic")];
                        Type_ ["array"];
                        Items (schema [Default (AMap []); Ref (ref "k8s.io/api/core/v1.EnvFromSource")])]);
          ("env", schema [
                    Extensions [
                      ("x-kubernetes-list-map-keys", ASlice [AString "name"]);
                      ("x-kubernetes-list-type", AString "map");
                      ("x-kubernetes-patch-merge-key", AString "name");
                      ("x-kubernetes-patch-strategy", AString "merge")];
                    Type_ ["array"];
                    Items (schema [Default (AMap []); Ref (ref "k8s.io/api/core/v1.EnvVar")])]);
          ("resources", schema [Default (AMap []); Ref (ref "k8s.io/api/core/v1.ResourceRequirements")]);
          ("resizePolicy", schema [
                             Extensions [("x-kubernetes-list-type", AString "atomic")];
                             Type_ ["array"];
                             Items (schema [
                                      Default (AMap []);
                                      Ref (ref "k8s.io/api/core/v1.ContainerResizePolicy")])]);
          ("restartPolicy", schema [Type_ ["string"]; Format ""]);
          ("restartPolicyRules", schema [
                                   Extensions [("x-kubernetes-list-type", AString "atomic")];
                                   Type_ ["array"];
                                   Items (schema [
                                            Default (AMap []);
                                            Ref (ref "k8s.io/api/core/v1.ContainerRestartRule")])]);
          ("volumeMounts", schema [
                             Extensions [
                               ("x-kubernetes-list-map-keys", ASlice [AString "mountPath"]);
                               ("x-kubernetes-list-type", AString "map");
                               ("x-kubernetes-patch-merge-key", AString "mountPath");
                               ("x-kubernetes-patch-strategy", AString "merge")];
                             Type_ ["array"];
                             Items (schema [Default (AMap []); Ref (ref "k8s.io/api/core/v1.VolumeMount")])]);
          ("volumeDevices", schema [
                              Extensions [
                                ("x-kubernetes-list-map-keys", ASlice [AString "devicePath"]);
                                ("x-kubernetes-list-type", AString "map");
                                ("x-kubernetes-patch-merge-key", AString "devicePath");
                                ("x-kubernetes-patch-strategy", AString "merge")];
                              Type_ ["array"];
                              Items (schema [Default (AMap []); Ref (ref "k8s.io/api/core/v1.VolumeDevice")])]);
          ("livenessProbe", schema [Ref (ref "k8s.io/api/core/v1.Probe")]);
          ("readinessProbe", schema [Ref (ref "k8s.io/api/core/v1.Probe")]);
          ("startupProbe", schema [Ref (ref "k8s.io/api/core/v1.Probe")]);
          ("lifecycle", schema [Ref (ref "k8s.io/api/core/v1.Lifecycle")]);
          ("terminationMessagePath", schema [Type_ ["string"]; Format ""]);
          ("terminationMessagePolicy", schema [
                                         Type_ ["string"];
                                         Format "";
                                         Enum [AString "FallbackToLogsOnError"; AString "File"]]);
          ("imagePullPolicy", schema [
                                Type_ ["string"];
                                Format "";
                                Enum [AString "Always"; AString "IfNotPresent"; AString "Never"]]);
          ("securityContext", schema [Ref (ref "k8s.io/api/core/v1.SecurityContext")]);
          ("stdin", schema [Type_ ["boolean"]; Format ""]);
          ("stdinOnce", schema [Type_ ["boolean"]; Format ""]);
          ("tty", schema [Type_ ["boolean"]; Format ""])];
        Required ["name"]])
        ["k8s.io/api/core/v1.ContainerPort"; "k8s.io/api/core/v1.ContainerResizePolicy";
         "k8s.io/api/core/v1.ContainerRestartRule"; "k8s.io/api/core/v1.EnvFromSource";
         "k8s.io/api/core/v1.EnvVar"; "k8s.io/api/core/v1.Lifecycle"; "k8s.io/api/core/v1.Probe";
         "k8s.io/api/core/v1.ResourceRequirements"; "k8s.io/api/core/v1.SecurityContext";
         "k8s.io/api/core/v1.VolumeDevice"; "k8s.io/api/core/v1.VolumeMount"].

(** The entries of [GetOpenAPIDefinitions] for the above. *)
Definition coreDefinitions1 : list (string * OpenAPIDefinition R) :=
  [ ("k8s.io/api/core/v1.AWSElasticBlockStoreVolumeSource", schema_k8sio_api_core_v1_AWSElasticBlockStoreVolumeSource);
    ("k8s.io/api/core/v1.Affinity", schema_k8sio_api_core_v1_Affinity);
    ("k8s.io/api/core/v1.AppArmorProfile", schema_k8sio_api_core_v1_AppArmorProfile);
    ("k8s.io/api/core/v1.AttachedVolume", schema_k8sio_api_core_v1_AttachedVolume);
    ("k8s.io/api/core/v1.AvoidPods", schema_k8sio_api_core_v1_AvoidPods);
    ("k8s.io/api/core/v1.AzureDiskVolumeSource", schema_k8sio_api_core_v1_AzureDiskVolumeSource);
    ("k8s.io/api/core/v1.AzureFilePersistentVolumeSource", schema_k8sio_api_core_v1_AzureFilePersistentVolumeSource);
    ("k8s.io/api/core/v1.AzureFileVolumeSource", schema_k8sio_api_core_v1_AzureFileVolumeSource);
    ("k8s.io/api/core/v1.Binding", schema_k8sio_api_core_v1_Binding);
    ("k8s.io/api/core/v1.CSIPersistentVolumeSource", schema_k8sio_api_core_v1_CSIPersistentVolumeSource);
    ("k8s.io/api/core/v1.CSIVolumeSource", schema_k8sio_api_core_v1_CSIVolumeSource);
    ("k8s.io/api/core/v1.Capabilities", schema_k8sio_api_core_v1_Capabilities);
    ("k8s.io/api/core/v1.CephFSPersistentVolumeSource", schema_k8sio_api_core_v1_CephFSPersistentVolumeSource);
    ("k8s.io/api/core/v1.CephFSVolumeSource", schema_k8sio_api_core_v1_CephFSVolumeSource);
    ("k8s.io/api/core/v1.CinderPersistentVolumeSource", schema_k8sio_api_core_v1_CinderPersistentVolumeSource);
    ("k8s.io/api/core/v1.CinderVolumeSource", schema_k8sio_api_core_v1_CinderVolumeSource);
    ("k8s.io/api/core/v1.ClientIPConfig", schema_k8sio_api_core_v1_ClientIPConfig);
    ("k8s.io/api/core/v1.ClusterTrustBundleProjection", schema_k8sio_api_core_v1_ClusterTrustBundleProjection);
    ("k8s.io/api/core/v1.ComponentCondition", schema_k8sio_api_core_v1_ComponentCondition);
    ("k8s.io/api/core/v1.ComponentStatus", schema_k8sio_api_core_v1_ComponentStatus);
    ("k8s.io/api/core/v1.ComponentStatusList", schema_k8sio_api_core_v1_ComponentStatusList);
    ("k8s.io/api/core/v1.ConfigMap", schema_k8sio_api_core_v1_ConfigMap);
    ("k8s.io/api/core/v1.ConfigMapEnvSource", schema_k8sio_api_core_v1_ConfigMapEnvSource);
    ("k8s.io/api/core/v1.ConfigMapKeySelector", schema_k8sio_api_core_v1_ConfigMapKeySelector);
    ("k8s.io/api/core/v1.ConfigMapList", schema_k8sio_api_core_v1_ConfigMapList);
    ("k8s.io/api/core/v1.ConfigMapNodeConfigSource", schema_k8sio_api_core_v1_ConfigMapNodeConfigSource);
    ("k8s.io/api/core/v1.ConfigMapProjection", schema_k8sio_api_core_v1_ConfigMapProjection);
    ("k8s.io/api/core/v1.ConfigMapVolumeSource", schema_k8sio_api_core_v1_ConfigMapVolumeSource);
    ("k8s.io/api/core/v1.Container", schema_k8sio_api_core_v1_Container);
    ("k8s.io/api/core/v1.ContainerExtendedResourceRequest", schema_k8sio_api_core_v1_ContainerExtendedResourceRequest);
    ("k8s.io/api/core/v1.ContainerImage", schema_k8sio_api_core_v1_ContainerImage);
    ("k8s.io/api/core/v1.ContainerPort", schema_k8sio_api_core_v1_ContainerPort);
    ("k8s.io/api/core/v1.ContainerResizePolicy", schema_k8sio_api_core_v1_ContainerResizePolicy);
    ("k8s.io/api/core/v1.ContainerRestartRule", schema_k8sio_api_core_v1_ContainerRestartRule);
    ("k8s.io/api/core/v1.ContainerRestartRuleOnExitCodes", schema_k8sio_api_core_v1_ContainerRestartRuleOnExitCodes);
    ("k8s.io/api/core/v1.ContainerState", schema_k8sio_api_core_v1_ContainerState);
    ("k8s.io/api/core/v1.ContainerStateRunning", schema_k8sio_api_core_v1_ContainerStateRunning);
    ("k8s.io/api/core/v1.ContainerStateTerminated", schema_k8sio_api_core_v1_ContainerStateTerminated);
    ("k8s.io/api/core/v1.ContainerStateWaiting", schema_k8sio_api_core_v1_ContainerStateWaiting);
    ("k8s.io/api/core/v1.ContainerStatus", schema_k8sio_api_core_v1_ContainerStatus);
    ("k8s.io/api/core/v1.ContainerUser", schema_k8sio_api_core_v1_ContainerUser);
    ("k8s.io/api/core/v1.DaemonEndpoint", schema_k8sio_api_core_v1_DaemonEndpoint);
    ("k8s.io/api/core/v1.DownwardAPIProjection", schema_k8sio_api_core_v1_DownwardAPIProjection);
    ("k8s.io/api/core/v1.DownwardAPIVolumeFile", schema_k8sio_api_core_v1_DownwardAPIVolumeFile);
    ("k8s.io/api/core/v1.DownwardAPIVolumeSource", schema_k8sio_api_core_v1_DownwardAPIVolumeSource);
    ("k8s.io/api/core/v1.EmptyDirVolumeSource", schema_k8sio_api_core_v1_EmptyDirVolumeSource);
    ("k8s.io/api/core/v1.EndpointAddress", schema_k8sio_api_core_v1_EndpointAddress);
    ("k8s.io/api/core/v1.EndpointPort", schema_k8sio_api_core_v1_EndpointPort);
    ("k8s.io/api/core/v1.EndpointSubset", schema_k8sio_api_core_v1_EndpointSubset);
    ("k8s.io/api/core/v1.Endpoints", schema_k8sio_api_core_v1_Endpoints);
    ("k8s.io/api/core/v1.EndpointsList", schema_k8sio_api_core_v1_EndpointsList);
    ("k8s.io/api/core/v1.EnvFromSource", schema_k8sio_api_core_v1_EnvFromSource);
    ("k8s.io/api/core/v1.EnvVar", schema_k8sio_api_core_v1_EnvVar);
    ("k8s.io/api/core/v1.EnvVarSource", schema_k8sio_api_core_v1_EnvVarSource);
    ("k8s.io/api/core/v1.EphemeralContainer", schema_k8sio_api_core_v1_EphemeralContainer);
    ("k8s.io/api/core/v1.EphemeralContainerCommon", schema_k8sio_api_core_v1_EphemeralContainerCommon) ].

End Definitions.
