(* ===== verification/OpenAPICore2.v ===== *)
(** * The schemas of k8s.io/api/core/v1, from EphemeralVolumeSource to PersistentVolumeClaimStatus *)

From stdpp Require Import base list strings.
From Stdlib Require Import ZArith.
From S2P Require Import Prelude OpenAPI.

Local Open Scope string_scope.

Section Definitions.
Context {R : Type} {library : OpenAPILibrary R} (ref : string -> R).

(** Lines 4634-4653. *)
Definition schema_k8sio_api_core_v1_EphemeralVolumeSource : OpenAPIDefinition R :=
    mkOpenAPIDefinition
      (schema [
        Type_ ["object"];
        Properties [("volumeClaimTemplate", schema [Ref (ref "k8s.io/api/core/v1.PersistentVolumeClaimTemplate")])]])
      ["k8s.io/api/core/v1.PersistentVolumeClaimTemplate"].

(** Lines 4655-4785. *)
Definition schema_k8sio_api_core_v1_Event : OpenAPIDefinition R :=
    mkOpenAPIDefinition
      (schema [
        Type_ ["object"];
        Properties [
          ("kind", schema [Type_ ["string"]; Format ""]);
          ("apiVersion", schema [Type_ ["string"]; Format ""]);
          ("metadata", schema [Default (AMap []); Ref (ref "k8s.io/apimachinery/pkg/apis/meta/v1.ObjectMeta")]);
          ("involvedObject", schema [Default (AMap []); Ref (ref "k8s.io/api/core/v1.ObjectReference")]);
          ("reason", schema [Type_ ["string"]; Format ""]);
          ("message", schema [Type_ ["string"]; Format ""]);
          ("source", schema [Default (AMap []); Ref (ref "k8s.io/api/core/v1.EventSource")]);
          ("firstTimestamp", schema [Ref (ref "k8s.io/apimachinery/pkg/apis/meta/v1.Time")]);
          ("lastTimestamp", schema [Ref (ref "k8s.io/apimachinery/pkg/apis/meta/v1.Time")]);
          ("count", schema [Type_ ["integer"]; Format "int32"]);
          ("type", schema [Type_ ["string"]; Format ""]);
          ("eventTime", schema [Ref (ref "k8s.io/apimachinery/pkg/apis/meta/v1.MicroTime")]);
          ("series", schema [Ref (ref "k8s.io/api/core/v1.EventSeries")]);
          ("action", schema [Type_ ["string"]; Format ""]);
          ("related", schema [Ref (ref "k8s.io/api/core/v1.ObjectReference")]);
          ("reportingComponent", schema [Default (AString ""); Type_ ["string"]; Format ""]);
          ("reportingInstance", schema [Default (AString ""); Type_ ["string"]; Format ""])];
        Required ["metadata"; "involvedObject"]])
        ["k8s.io/api/core/v1.EventSeries"; "k8s.io/api/core/v1.EventSource";
         "k8s.io/api/core/v1.ObjectReference"; "k8s.io/apimachinery/pkg/apis/meta/v1.MicroTime";
         "k8s.io/apimachinery/pkg/apis/meta/v1.ObjectMeta"; "k8s.io/apimachinery/pkg/apis/meta/v1.Time"].

(** Lines 4787-4836. *)
Definition schema_k8sio_api_core_v1_EventList : OpenAPIDefinition R :=
    mkOpenAPIDefinition
      (schema [
        Type_ ["object"];
        Properties [
          ("kind", schema [Type_ ["string"]; Format ""]);
          ("apiVersion", schema [Type_ ["string"]; Format ""]);
          ("metadata", schema [Default (AMap []); Ref (ref "k8s.io/apimachinery/pkg/apis/meta/v1.ListMeta")]);
          ("items", schema [
                      Type_ ["array"];
                      Items (schema [Default (AMap []); Ref (ref "k8s.io/api/core/v1.Event")])])];
        Required ["items"]])
      ["k8s.io/api/core/v1.Event"; "k8s.io/apimachinery/pkg/apis/meta/v1.ListMeta"].

(** Lines 4838-4864. *)
Definition schema_k8sio_api_core_v1_EventSeries : OpenAPIDefinition R :=
    mkOpenAPIDefinition
      (schema [
        Type_ ["object"];
        Properties [
          ("count", schema [Type_ ["integer"]; Format "int32"]);
          ("lastObservedTime", schema [Ref (ref "k8s.io/apimachinery/pkg/apis/meta/v1.MicroTime")])]])
      ["k8s.io/apimachinery/pkg/apis/meta/v1.MicroTime"].

(** Lines 4866-4891. *)
Definition schema_k8sio_api_core_v1_EventSource : OpenAPIDefinition R :=
    mkOpenAPIDefinition
      (schema [
        Type_ ["object"];
        Properties [
          ("component", schema [Type_ ["string"]; Format ""]);
          ("host", schema [Type_ ["string"]; Format ""])]])
      [].

(** Lines 4893-4924. *)
Definition schema_k8sio_api_core_v1_ExecAction : OpenAPIDefinition R :=
    mkOpenAPIDefinition
      (schema [
        Type_ ["object"];
        Properties [
          ("command", schema [
                        Extensions [("x-kubernetes-list-type", AString "atomic")];
                        Type_ ["array"];
                        Items (schema [Default (AString ""); Type_ ["string"]; Format ""])])]])
      [].

(** Lines 4926-4998. *)
Definition schema_k8sio_api_core_v1_FCVolumeSource : OpenAPIDefinition R :=
    mkOpenAPIDefinition
      (schema [
        Type_ ["object"];
        Properties [
          ("targetWWNs", schema [
                           Extensions [("x-kubernetes-list-type", AString "atomic")];
                           Type_ ["array"];
                           Items (schema [Default (AString ""); Type_ ["string"]; Format ""])]);
          ("lun", schema [Type_ ["integer"]; Format "int32"]);
          ("fsType", schema [Type_ ["string"]; Format ""]);
          ("readOnly", schema [Type_ ["boolean"]; Format ""]);
          ("wwids", schema [
                      Extensions [("x-kubernetes-list-type", AString "atomic")];
                      Type_ ["array"];
                      Items (schema [Default (AString ""); Type_ ["string"]; Format ""])])]])
      [].

(** Lines 5000-5049. *)
Definition schema_k8sio_api_core_v1_FileKeySelector : OpenAPIDefinition R :=
    mkOpenAPIDefinition
      (schema [
        Type_ ["object"];
        Properties [
          ("volumeName", schema [Default (AString ""); Type_ ["string"]; Format ""]);
          ("path", schema [Default (AString ""); Type_ ["string"]; Format ""]);
          ("key", schema [Default (AString ""); Type_ ["string"]; Format ""]);
          ("optional", schema [Default (ABool false); Type_ ["boolean"]; Format ""])];
        Required ["volumeName"; "path"; "key"];
        Extensions [("x-kubernetes-map-type", AString "atomic")]])
      [].

(** Lines 5051-5109. *)
Definition schema_k8sio_api_core_v1_FlexPersistentVolumeSource : OpenAPIDefinition R :=
    mkOpenAPIDefinition
      (schema [
        Type_ ["object"];
        Properties [
          ("driver", schema [Default (AString ""); Type_ ["string"]; Format ""]);
          ("fsType", schema [Type_ ["string"]; Format ""]);
          ("secretRef", schema [Ref (ref "k8s.io/api/core/v1.SecretReference")]);
          ("readOnly", schema [Type_ ["boolean"]; Format ""]);
          ("options", schema [
                        Type_ ["object"];
                        AdditionalProperties (schema [Default (AString ""); Type_ ["string"]; Format ""])])];
        Required ["driver"]])
      ["k8s.io/api/core/v1.SecretReference"].

(** Lines 5111-5169. *)
Definition schema_k8sio_api_core_v1_FlexVolumeSource : OpenAPIDefinition R :=
    mkOpenAPIDefinition
      (schema [
        Type_ ["object"];
        Properties [
          ("driver", schema [Default (AString ""); Type_ ["string"]; Format ""]);
          ("fsType", schema [Type_ ["string"]; Format ""]);
          ("secretRef", schema [Ref (ref "k8s.io/api/core/v1.LocalObjectReference")]);
          ("readOnly", schema [Type_ ["boolean"]; Format ""]);
          ("options", schema [
                        Type_ ["object"];
                        AdditionalProperties (schema [Default (AString ""); Type_ ["string"]; Format ""])])];
        Required ["driver"]])
      ["k8s.io/api/core/v1.LocalObjectReference"].

(** Lines 5171-5196. *)
Definition schema_k8sio_api_core_v1_FlockerVolumeSource : OpenAPIDefinition R :=
    mkOpenAPIDefinition
      (schema [
        Type_ ["object"];
        Properties [
          ("datasetName", schema [Type_ ["string"]; Format ""]);
          ("datasetUUID", schema [Type_ ["string"]; Format ""])]])
      [].

(** Lines 5198-5239. *)
Definition schema_k8sio_api_core_v1_GCEPersistentDiskVolumeSource : OpenAPIDefinition R :=
    mkOpenAPIDefinition
      (schema [
        Type_ ["object"];
        Properties [
          ("pdName", schema [Default (AString ""); Type_ ["string"]; Format ""]);
          ("fsType", schema [Type_ ["string"]; Format ""]);
          ("partition", schema [Type_ ["integer"]; Format "int32"]);
          ("readOnly", schema [Type_ ["boolean"]; Format ""])];
        Required ["pdName"]])
      [].

(** Lines 5241-5269. *)
Definition schema_k8sio_api_core_v1_GRPCAction : OpenAPIDefinition R :=
    mkOpenAPIDefinition
      (schema [
        Type_ ["object"];
        Properties [
          ("port", schema [Default (AInt 0); Type_ ["integer"]; Format "int32"]);
          ("service", schema [Default (AString ""); Type_ ["string"]; Format ""])];
        Required ["port"]])
      [].

(** Lines 5271-5305. *)
Definition schema_k8sio_api_core_v1_GitRepoVolumeSource : OpenAPIDefinition R :=
    mkOpenAPIDefinition
      (schema [
        Type_ ["object"];
        Properties [
          ("repository", schema [Default (AString ""); Type_ ["string"]; Format ""]);
          ("revision", schema [Type_ ["string"]; Format ""]);
          ("directory", schema [Type_ ["string"]; Format ""])];
        Required ["repository"]])
      [].

(** Lines 5307-5349. *)
Definition schema_k8sio_api_core_v1_GlusterfsPersistentVolumeSource : OpenAPIDefinition R :=
    mkOpenAPIDefinition
      (schema [
        Type_ ["object"];
        Properties [
          ("endpoints", schema [Default (AString ""); Type_ ["string"]; Format ""]);
          ("path", schema [Default (AString ""); Type_ ["string"]; Format ""]);
          ("readOnly", schema [Type_ ["boolean"]; Format ""]);
          ("endpointsNamespace", schema [Type_ ["string"]; Format ""])];
        Required ["endpoints"; "path"]])
      [].

(** Lines 5351-5386. *)
Definition schema_k8sio_api_core_v1_GlusterfsVolumeSource : OpenAPIDefinition R :=
    mkOpenAPIDefinition
      (schema [
        Type_ ["object"];
        Properties [
          ("endpoints", schema [Default (AString ""); Type_ ["string"]; Format ""]);
          ("path", schema [Default (AString ""); Type_ ["string"]; Format ""]);
          ("readOnly", schema [Type_ ["boolean"]; Format ""])];
        Required ["endpoints"; "path"]])
      [].

(** Lines 5388-5449. *)
Definition schema_k8sio_api_core_v1_HTTPGetAction : OpenAPIDefinition R :=
    mkOpenAPIDefinition
      (schema [
        Type_ ["object"];
        Properties [
          ("path", schema [Type_ ["string"]; Format ""]);
          ("port", schema [Ref (ref "k8s.io/apimachinery/pkg/util/intstr.IntOrString")]);
          ("host", schema [Type_ ["string"]; Format ""]);
          ("scheme", schema [Type_ ["string"]; Format ""; Enum [AString "HTTP"; AString "HTTPS"]]);
          ("httpHeaders", schema [
                            Extensions [("x-kubernetes-list-type", AString "atomic")];
                            Type_ ["array"];
                            Items (schema [Default (AMap []); Ref (ref "k8s.io/api/core/v1.HTTPHeader")])])];
        Required ["port"]])
      ["k8s.io/api/core/v1.HTTPHeader"; "k8s.io/apimachinery/pkg/util/intstr.IntOrString"].

(** Lines 5451-5479. *)
Definition schema_k8sio_api_core_v1_HTTPHeader : OpenAPIDefinition R :=
    mkOpenAPIDefinition
      (schema [
        Type_ ["object"];
        Properties [
          ("name", schema [Default (AString ""); Type_ ["string"]; Format ""]);
          ("value", schema [Default (AString ""); Type_ ["string"]; Format ""])];
        Required ["name"; "value"]])
      [].

(** Lines 5481-5521. *)
Definition schema_k8sio_api_core_v1_HostAlias : OpenAPIDefinition R :=
    mkOpenAPIDefinition
      (schema [
        Type_ ["object"];
        Properties [
          ("ip", schema [Default (AString ""); Type_ ["string"]; Format ""]);
          ("hostnames", schema [
                          Extensions [("x-kubernetes-list-type", AString "atomic")];
                          Type_ ["array"];
                          Items (schema [Default (AString ""); Type_ ["string"]; Format ""])])];
        Required ["ip"]])
      [].

(** Lines 5523-5543. *)
Definition schema_k8sio_api_core_v1_HostIP : OpenAPIDefinition R :=
    mkOpenAPIDefinition
      (schema [
        Type_ ["object"];
        Properties [("ip", schema [Default (AString ""); Type_ ["string"]; Format ""])];
        Required ["ip"]])
      [].

(** Lines 5545-5573. *)
Definition schema_k8sio_api_core_v1_HostPathVolumeSource : OpenAPIDefinition R :=
    mkOpenAPIDefinition
      (schema [
        Type_ ["object"];
        Properties [
          ("path", schema [Default (AString ""); Type_ ["string"]; Format ""]);
          ("type", schema [
                     Type_ ["string"];
                     Format "";
                     Enum 
                       [AString ""; AString "BlockDevice"; AString "CharDevice"; AString "Directory";
                        AString "DirectoryOrCreate"; AString "File"; AString "FileOrCreate";
                        AString "Socket"]])];
        Required ["path"]])
      [].

(** Lines 5575-5682. *)
Definition schema_k8sio_api_core_v1_ISCSIPersistentVolumeSource : OpenAPIDefinition R :=
    mkOpenAPIDefinition
      (schema [
        Type_ ["object"];
        Properties [
          ("targetPortal", schema [Default (AString ""); Type_ ["string"]; Format ""]);
          ("iqn", schema [Default (AString ""); Type_ ["string"]; Format ""]);
          ("lun", schema [Default (AInt 0); Type_ ["integer"]; Format "int32"]);
          ("iscsiInterface", schema [Default (AString "default"); Type_ ["string"]; Format ""]);
          ("fsType", schema [Type_ ["string"]; Format ""]);
          ("readOnly", schema [Type_ ["boolean"]; Format ""]);
          ("portals", schema [
                        Extensions [("x-kubernetes-list-type", AString "atomic")];
                        Type_ ["array"];
                        Items (schema [Default (AString ""); Type_ ["string"]; Format ""])]);
          ("chapAuthDiscovery", schema [Type_ ["boolean"]; Format ""]);
          ("chapAuthSession", schema [Type_ ["boolean"]; Format ""]);
          ("secretRef", schema [Ref (ref "k8s.io/api/core/v1.SecretReference")]);
          ("initiatorName", schema [Type_ ["string"]; Format ""])];
        Required ["targetPortal"; "iqn"; "lun"]])
      ["k8s.io/api/core/v1.SecretReference"].

(** Lines 5684-5791. *)
Definition schema_k8sio_api_core_v1_ISCSIVolumeSource : OpenAPIDefinition R :=
    mkOpenAPIDefinition
      (schema [
        Type_ ["object"];
        Properties [
          ("targetPortal", schema [Default (AString ""); Type_ ["string"]; Format ""]);
          ("iqn", schema [Default (AString ""); Type_ ["string"]; Format ""]);
          ("lun", schema [Default (AInt 0); Type_ ["integer"]; Format "int32"]);
          ("iscsiInterface", schema [Default (AString "default"); Type_ ["string"]; Format ""]);
          ("fsType", schema [Type_ ["string"]; Format ""]);
          ("readOnly", schema [Type_ ["boolean"]; Format ""]);
          ("portals", schema [
                        Extensions [("x-kubernetes-list-type", AString "atomic")];
                        Type_ ["array"];
                        Items (schema [Default (AString ""); Type_ ["string"]; Format ""])]);
          ("chapAuthDiscovery", schema [Type_ ["boolean"]; Format ""]);
          ("chapAuthSession", schema [Type_ ["boolean"]; Format ""]);
          ("secretRef", schema [Ref (ref "k8s.io/api/core/v1.LocalObjectReference")]);
          ("initiatorName", schema [Type_ ["string"]; Format ""])];
        Required ["targetPortal"; "iqn"; "lun"]])
      ["k8s.io/api/core/v1.LocalObjectReference"].

(** Lines 5793-5819. *)
Definition schema_k8sio_api_core_v1_ImageVolumeSource : OpenAPIDefinition R :=
    mkOpenAPIDefinition
      (schema [
        Type_ ["object"];
        Properties [
          ("reference", schema [Type_ ["string"]; Format ""]);
          ("pullPolicy", schema [
                           Type_ ["string"];
                           Format "";
                           Enum [AString "Always"; AString "IfNotPresent"; AString "Never"]])]])
      [].

(** Lines 5821-5856. *)
Definition schema_k8sio_api_core_v1_KeyToPath : OpenAPIDefinition R :=
    mkOpenAPIDefinition
      (schema [
        Type_ ["object"];
        Properties [
          ("key", schema [Default (AString ""); Type_ ["string"]; Format ""]);
          ("path", schema [Default (AString ""); Type_ ["string"]; Format ""]);
          ("mode", schema [Type_ ["integer"]; Format "int32"])];
        Required ["key"; "path"]])
      [].

(** Lines 5858-5891. *)
Definition schema_k8sio_api_core_v1_Lifecycle : OpenAPIDefinition R :=
    mkOpenAPIDefinition
      (schema [
        Type_ ["object"];
        Properties [
          ("postStart", schema [Ref (ref "k8s.io/api/core/v1.LifecycleHandler")]);
          ("preStop", schema [Ref (ref "k8s.io/api/core/v1.LifecycleHandler")]);
          ("stopSignal", schema [
                           Type_ ["string"];
                           Format "";
                           Enum 
                             [AString "SIGABRT"; AString "SIGALRM"; AString "SIGBUS"; AString "SIGCHLD";
                              AString "SIGCLD"; AString "SIGCONT"; AString "SIGFPE"; AString "SIGHUP";
                              AString "SIGILL"; AString "SIGINT"; AString "SIGIO"; AString "SIGIOT";
                              AString "SIGKILL"; AString "SIGPIPE"; AString "SIGPOLL"; AString "SIGPROF";
                              AString "SIGPWR"; AString "SIGQUIT"; AString "SIGRTMAX";
                              AString "SIGRTMAX-1"; AString "SIGRTMAX-10"; AString "SIGRTMAX-11";
                              AString "SIGRTMAX-12"; AString "SIGRTMAX-13"; AString "SIGRTMAX-14";
                              AString "SIGRTMAX-2"; AString "SIGRTMAX-3"; AString "SIGRTMAX-4";
                              AString "SIGRTMAX-5"; AString "SIGRTMAX-6"; AString "SIGRTMAX-7";
                              AString "SIGRTMAX-8"; AString "SIGRTMAX-9"; AString "SIGRTMIN";
                              AString "SIGRTMIN+1"; AString "SIGRTMIN+10"; AString "SIGRTMIN+11";
                              AString "SIGRTMIN+12"; AString "SIGRTMIN+13"; AString "SIGRTMIN+14";
                              AString "SIGRTMIN+15"; AString "SIGRTMIN+2"; AString "SIGRTMIN+3";
                              AString "SIGRTMIN+4"; AString "SIGRTMIN+5"; AString "SIGRTMIN+6";
                              AString "SIGRTMIN+7"; AString "SIGRTMIN+8"; AString "SIGRTMIN+9";
                              AString "SIGSEGV"; AString "SIGSTKFLT"; AString "SIGSTOP"; AString "SIGSYS";
                              AString "SIGTERM"; AString "SIGTRAP"; AString "SIGTSTP"; AString "SIGTTIN";
                              AString "SIGTTOU"; AString "SIGURG"; AString "SIGUSR1"; AString "SIGUSR2";
                              AString "SIGVTALRM"; AString "SIGWINCH"; AString "SIGXCPU"; AString "SIGXFSZ"]])]])
      ["k8s.io/api/core/v1.LifecycleHandler"].

(** Lines 5893-5930. *)
Definition schema_k8sio_api_core_v1_LifecycleHandler : OpenAPIDefinition R :=
    mkOpenAPIDefinition
      (schema [
        Type_ ["object"];
        Properties [
          ("exec", schema [Ref (ref "k8s.io/api/core/v1.ExecAction")]);
          ("httpGet", schema [Ref (ref "k8s.io/api/core/v1.HTTPGetAction")]);
          ("tcpSocket", schema [Ref (ref "k8s.io/api/core/v1.TCPSocketAction")]);
          ("sleep", schema [Ref (ref "k8s.io/api/core/v1.SleepAction")])]])
        ["k8s.io/api/core/v1.ExecAction"; "k8s.io/api/core/v1.HTTPGetAction";
         "k8s.io/api/core/v1.SleepAction"; "k8s.io/api/core/v1.TCPSocketAction"].

(** Lines 5932-5973. *)
Definition schema_k8sio_api_core_v1_LimitRange : OpenAPIDefinition R :=
    mkOpenAPIDefinition
      (schema [
        Type_ ["object"];
        Properties [
          ("kind", schema [Type_ ["string"]; Format ""]);
          ("apiVersion", schema [Type_ ["string"]; Format ""]);
          ("metadata", schema [Default (AMap []); Ref (ref "k8s.io/apimachinery/pkg/apis/meta/v1.ObjectMeta")]);
          ("spec", schema [Default (AMap []); Ref (ref "k8s.io/api/core/v1.LimitRangeSpec")])]])
      ["k8s.io/api/core/v1.LimitRangeSpec"; "k8s.io/apimachinery/pkg/apis/meta/v1.ObjectMeta"].

(** Lines 5975-6067. *)
Definition schema_k8sio_api_core_v1_LimitRangeItem : OpenAPIDefinition R :=
    mkOpenAPIDefinition
      (schema [
        Type_ ["object"];
        Properties [
          ("type", schema [Default (AString ""); Type_ ["string"]; Format ""]);
          ("max", schema [
                    Type_ ["object"];
                    AdditionalProperties (schema [Ref (ref "k8s.io/apimachinery/pkg/api/resource.Quantity")])]);
          ("min", schema [
                    Type_ ["object"];
                    AdditionalProperties (schema [Ref (ref "k8s.io/apimachinery/pkg/api/resource.Quantity")])]);
          ("default", schema [
                        Type_ ["object"];
                        AdditionalProperties (schema [Ref (ref "k8s.io/apimachinery/pkg/api/resource.Quantity")])]);
          ("defaultRequest", schema [
                               Type_ ["object"];
                               AdditionalProperties (schema 
                                                       [
                                                        Ref (ref "k8s.io/apimachinery/pkg/api/resource.Quantity")])]);
          ("maxLimitRequestRatio", schema [
                                     Type_ ["object"];
                                     AdditionalProperties (schema 
                                                             [
                                                              Ref (ref "k8s.io/apimachinery/pkg/api/resource.Quantity")])])];
        Required ["type"]])
      ["k8s.io/apimachinery/pkg/api/resource.Quantity"].

(** Lines 6069-6118. *)
Definition schema_k8sio_api_core_v1_LimitRangeList : OpenAPIDefinition R :=
    mkOpenAPIDefinition
      (schema [
        Type_ ["object"];
        Properties [
          ("kind", schema [Type_ ["string"]; Format ""]);
          ("apiVersion", schema [Type_ ["string"]; Format ""]);
          ("metadata", schema [Default (AMap []); Ref (ref "k8s.io/apimachinery/pkg/apis/meta/v1.ListMeta")]);
          ("items", schema [
                      Type_ ["array"];
                      Items (schema [Default (AMap []); Ref (ref "k8s.io/api/core/v1.LimitRange")])])];
        Required ["items"]])
      ["k8s.io/api/core/v1.LimitRange"; "k8s.io/apimachinery/pkg/apis/meta/v1.ListMeta"].

(** Lines 6120-6153. *)
Definition schema_k8sio_api_core_v1_LimitRangeSpec : OpenAPIDefinition R :=
    mkOpenAPIDefinition
      (schema [
        Type_ ["object"];
        Properties [
          ("limits", schema [
                       Extensions [("x-kubernetes-list-type", AString "atomic")];
                       Type_ ["array"];
                       Items (schema [Default (AMap []); Ref (ref "k8s.io/api/core/v1.LimitRangeItem")])])];
        Required ["limits"]])
      ["k8s.io/api/core/v1.LimitRangeItem"].

(** Lines 6155-6203. *)
Definition schema_k8sio_api_core_v1_LinuxContainerUser : OpenAPIDefinition R :=
    mkOpenAPIDefinition
      (schema [
        Type_ ["object"];
        Properties [
          ("uid", schema [Default (AInt 0); Type_ ["integer"]; Format "int64"]);
          ("gid", schema [Default (AInt 0); Type_ ["integer"]; Format "int64"]);
          ("supplementalGroups", schema [
                                   Extensions [("x-kubernetes-list-type", AString "atomic")];
                                   Type_ ["array"];
                                   Items (schema [Default (AInt 0); Type_ ["integer"]; Format "int64"])])];
        Required ["uid"; "gid"]])
      [].

(** Lines 6205-6253. *)
Definition schema_k8sio_api_core_v1_List : OpenAPIDefinition R :=
    mkOpenAPIDefinition
      (schema [
        Type_ ["object"];
        Properties [
          ("kind", schema [Type_ ["string"]; Format ""]);
          ("apiVersion", schema [Type_ ["string"]; Format ""]);
          ("metadata", schema [Default (AMap []); Ref (ref "k8s.io/apimachinery/pkg/apis/meta/v1.ListMeta")]);
          ("items", schema [
                      Type_ ["array"];
                      Items (schema [Ref (ref "k8s.io/apimachinery/pkg/runtime.RawExtension")])])];
        Required ["items"]])
      ["k8s.io/apimachinery/pkg/apis/meta/v1.ListMeta"; "k8s.io/apimachinery/pkg/runtime.RawExtension"].

(** Lines 6255-6308. *)
Definition schema_k8sio_api_core_v1_LoadBalancerIngress : OpenAPIDefinition R :=
    mkOpenAPIDefinition
      (schema [
        Type_ ["object"];
        Properties [
          ("ip", schema [Type_ ["string"]; Format ""]);
          ("hostname", schema [Type_ ["string"]; Format ""]);
          ("ipMode", schema [Type_ ["string"]; Format ""]);
          ("ports", schema [
                      Extensions [("x-kubernetes-list-type", AString "atomic")];
                      Type_ ["array"];
                      Items (schema [Default (AMap []); Ref (ref "k8s.io/api/core/v1.PortStatus")])])]])
      ["k8s.io/api/core/v1.PortStatus"].

(** Lines 6310-6342. *)
Definition schema_k8sio_api_core_v1_LoadBalancerStatus : OpenAPIDefinition R :=
    mkOpenAPIDefinition
      (schema [
        Type_ ["object"];
        Properties [
          ("ingress", schema [
                        Extensions [("x-kubernetes-list-type", AString "atomic")];
                        Type_ ["array"];
                        Items (schema [Default (AMap []); Ref (ref "k8s.io/api/core/v1.LoadBalancerIngress")])])]])
      ["k8s.io/api/core/v1.LoadBalancerIngress"].

(** Lines 6344-6368. *)
Definition schema_k8sio_api_core_v1_LocalObjectReference : OpenAPIDefinition R :=
    mkOpenAPIDefinition
      (schema [
        Type_ ["object"];
        Properties [("name", schema [Default (AString ""); Type_ ["string"]; Format ""])];
        Extensions [("x-kubernetes-map-type", AString "atomic")]])
      [].

(** Lines 6370-6397. *)
Definition schema_k8sio_api_core_v1_LocalVolumeSource : OpenAPIDefinition R :=
    mkOpenAPIDefinition
      (schema [
        Type_ ["object"];
        Properties [
          ("path", schema [Default (AString ""); Type_ ["string"]; Format ""]);
          ("fsType", schema [Type_ ["string"]; Format ""])];
        Required ["path"]])
      [].

(** Lines 6399-6427. *)
Definition schema_k8sio_api_core_v1_ModifyVolumeStatus : OpenAPIDefinition R :=
    mkOpenAPIDefinition
      (schema [
        Type_ ["object"];
        Properties [
          ("targetVolumeAttributesClassName", schema [Type_ ["string"]; Format ""]);
          ("status", schema [
                       Default (AString "");
                       Type_ ["string"];
                       Format "";
                       Enum [AString "InProgress"; AString "Infeasible"; AString "Pending"]])];
        Required ["status"]])
      [].

(** Lines 6429-6464. *)
Definition schema_k8sio_api_core_v1_NFSVolumeSource : OpenAPIDefinition R :=
    mkOpenAPIDefinition
      (schema [
        Type_ ["object"];
        Properties [
          ("server", schema [Default (AString ""); Type_ ["string"]; Format ""]);
          ("path", schema [Default (AString ""); Type_ ["string"]; Format ""]);
          ("readOnly", schema [Type_ ["boolean"]; Format ""])];
        Required ["server"; "path"]])
      [].

(** Lines 6466-6514. *)
Definition schema_k8sio_api_core_v1_Namespace : OpenAPIDefinition R :=
    mkOpenAPIDefinition
      (schema [
        Type_ ["object"];
        Properties [
          ("kind", schema [Type_ ["string"]; Format ""]);
          ("apiVersion", schema [Type_ ["string"]; Format ""]);
          ("metadata", schema [Default (AMap []); Ref (ref "k8s.io/apimachinery/pkg/apis/meta/v1.ObjectMeta")]);
          ("spec", schema [Default (AMap []); Ref (ref "k8s.io/api/core/v1.NamespaceSpec")]);
          ("status", schema [Default (AMap []); Ref (ref "k8s.io/api/core/v1.NamespaceStatus")])]])
        ["k8s.io/api/core/v1.NamespaceSpec"; "k8s.io/api/core/v1.NamespaceStatus";
         "k8s.io/apimachinery/pkg/apis/meta/v1.ObjectMeta"].

(** Lines 6516-6566. *)
Definition schema_k8sio_api_core_v1_NamespaceCondition : OpenAPIDefinition R :=
    mkOpenAPIDefinition
      (schema [
        Type_ ["object"];
        Properties [
          ("type", schema [Default (AString ""); Type_ ["string"]; Format ""]);
          ("status", schema [Default (AString ""); Type_ ["string"]; Format ""]);
          ("lastTransitionTime", schema [Ref (ref "k8s.io/apimachinery/pkg/apis/meta/v1.Time")]);
          ("reason", schema [Type_ ["string"]; Format ""]);
          ("message", schema [Type_ ["string"]; Format ""])];
        Required ["type"; "status"]])
      ["k8s.io/apimachinery/pkg/apis/meta/v1.Time"].

(** Lines 6568-6617. *)
Definition schema_k8sio_api_core_v1_NamespaceList : OpenAPIDefinition R :=
    mkOpenAPIDefinition
      (schema [
        Type_ ["object"];
        Properties [
          ("kind", schema [Type_ ["string"]; Format ""]);
          ("apiVersion", schema [Type_ ["string"]; Format ""]);
          ("metadata", schema [Default (AMap []); Ref (ref "k8s.io/apimachinery/pkg/apis/meta/v1.ListMeta")]);
          ("items", schema [
                      Type_ ["array"];
                      Items (schema [Default (AMap []); Ref (ref "k8s.io/api/core/v1.Namespace")])])];
        Required ["items"]])
      ["k8s.io/api/core/v1.Namespace"; "k8s.io/apimachinery/pkg/apis/meta/v1.ListMeta"].

(** Lines 6619-6650. *)
Definition schema_k8sio_api_core_v1_NamespaceSpec : OpenAPIDefinition R :=
    mkOpenAPIDefinition
      (schema [
        Type_ ["object"];
        Properties [
          ("finalizers", schema [
                           Extensions [("x-kubernetes-list-type", AString "atomic")];
                           Type_ ["array"];
                           Items (schema [Default (AString ""); Type_ ["string"]; Format ""])])]])
      [].

(** Lines 6652-6697. *)
Definition schema_k8sio_api_core_v1_NamespaceStatus : OpenAPIDefinition R :=
    mkOpenAPIDefinition
      (schema [
        Type_ ["object"];
        Properties [
          ("phase", schema [Type_ ["string"]; Format ""; Enum [AString "Active"; AString "Terminating"]]);
          ("conditions", schema [
                           Extensions [
                             ("x-kubernetes-list-map-keys", ASlice [AString "type"]);
                             ("x-kubernetes-list-type", AString "map");
                             ("x-kubernetes-patch-merge-key", AString "type");
                             ("x-kubernetes-patch-strategy", AString "merge")];
                           Type_ ["array"];
                           Items (schema [Default (AMap []); Ref (ref "k8s.io/api/core/v1.NamespaceCondition")])])]])
      ["k8s.io/api/core/v1.NamespaceCondition"].

(** Lines 6699-6747. *)
Definition schema_k8sio_api_core_v1_Node : OpenAPIDefinition R :=
    mkOpenAPIDefinition
      (schema [
        Type_ ["object"];
        Properties [
          ("kind", schema [Type_ ["string"]; Format ""]);
          ("apiVersion", schema [Type_ ["string"]; Format ""]);
          ("metadata", schema [Default (AMap []); Ref (ref "k8s.io/apimachinery/pkg/apis/meta/v1.ObjectMeta")]);
          ("spec", schema [Default (AMap []); Ref (ref "k8s.io/api/core/v1.NodeSpec")]);
          ("status", schema [Default (AMap []); Ref (ref "k8s.io/api/core/v1.NodeStatus")])]])
        ["k8s.io/api/core/v1.NodeSpec"; "k8s.io/api/core/v1.NodeStatus";
         "k8s.io/apimachinery/pkg/apis/meta/v1.ObjectMeta"].

(** Lines 6749-6777. *)
Definition schema_k8sio_api_core_v1_NodeAddress : OpenAPIDefinition R :=
    mkOpenAPIDefinition
      (schema [
        Type_ ["object"];
        Properties [
          ("type", schema [Default (AString ""); Type_ ["string"]; Format ""]);
          ("address", schema [Default (AString ""); Type_ ["string"]; Format ""])];
        Required ["type"; "address"]])
      [].

(** Lines 6779-6817. *)
Definition schema_k8sio_api_core_v1_NodeAffinity : OpenAPIDefinition R :=
    mkOpenAPIDefinition
      (schema [
        Type_ ["object"];
        Properties [
          ("requiredDuringSchedulingIgnoredDuringExecution", schema [Ref (ref "k8s.io/api/core/v1.NodeSelector")]);
          ("preferredDuringSchedulingIgnoredDuringExecution", schema [
                                                                Extensions [
                                                                  ("x-kubernetes-list-type", AString "atomic")];
                                                                Type_ ["array"];
                                                                Items (schema [
                                                                         Default (AMap []);
                                                                         Ref (ref "k8s.io/api/core/v1.PreferredSchedulingTerm")])])]])
      ["k8s.io/api/core/v1.NodeSelector"; "k8s.io/api/core/v1.PreferredSchedulingTerm"].

(** Lines 6819-6875. *)
Definition schema_k8sio_api_core_v1_NodeCondition : OpenAPIDefinition R :=
    mkOpenAPIDefinition
      (schema [
        Type_ ["object"];
        Properties [
          ("type", schema [Default (AString ""); Type_ ["string"]; Format ""]);
          ("status", schema [Default (AString ""); Type_ ["string"]; Format ""]);
          ("lastHeartbeatTime", schema [Ref (ref "k8s.io/apimachinery/pkg/apis/meta/v1.Time")]);
          ("lastTransitionTime", schema [Ref (ref "k8s.io/apimachinery/pkg/apis/meta/v1.Time")]);
          ("reason", schema [Type_ ["string"]; Format ""]);
          ("message", schema [Type_ ["string"]; Format ""])];
        Required ["type"; "status"]])
      ["k8s.io/apimachinery/pkg/apis/meta/v1.Time"].

(** Lines 6877-6896. *)
Definition schema_k8sio_api_core_v1_NodeConfigSource : OpenAPIDefinition R :=
    mkOpenAPIDefinition
      (schema [
        Type_ ["object"];
        Properties [("configMap", schema [Ref (ref "k8s.io/api/core/v1.ConfigMapNodeConfigSource")])]])
      ["k8s.io/api/core/v1.ConfigMapNodeConfigSource"].

(** Lines 6898-6936. *)
Definition schema_k8sio_api_core_v1_NodeConfigStatus : OpenAPIDefinition R :=
    mkOpenAPIDefinition
      (schema [
        Type_ ["object"];
        Properties [
          ("assigned", schema [Ref (ref "k8s.io/api/core/v1.NodeConfigSource")]);
          ("active", schema [Ref (ref "k8s.io/api/core/v1.NodeConfigSource")]);
          ("lastKnownGood", schema [Ref (ref "k8s.io/api/core/v1.NodeConfigSource")]);
          ("error", schema [Type_ ["string"]; Format ""])]])
      ["k8s.io/api/core/v1.NodeConfigSource"].

(** Lines 6938-6958. *)
Definition schema_k8sio_api_core_v1_NodeDaemonEndpoints : OpenAPIDefinition R :=
    mkOpenAPIDefinition
      (schema [
        Type_ ["object"];
        Properties [("kubeletEndpoint", schema [Default (AMap []); Ref (ref "k8s.io/api/core/v1.DaemonEndpoint")])]])
      ["k8s.io/api/core/v1.DaemonEndpoint"].

(** Lines 6960-6978. *)
Definition schema_k8sio_api_core_v1_NodeFeatures : OpenAPIDefinition R :=
    mkOpenAPIDefinition
      (schema [Type_ ["object"]; Properties [("supplementalGroupsPolicy", schema [Type_ ["boolean"]; Format ""])]])
      [].

(** Lines 6980-7029. *)
Definition schema_k8sio_api_core_v1_NodeList : OpenAPIDefinition R :=
    mkOpenAPIDefinition
      (schema [
        Type_ ["object"];
        Properties [
          ("kind", schema [Type_ ["string"]; Format ""]);
          ("apiVersion", schema [Type_ ["string"]; Format ""]);
          ("metadata", schema [Default (AMap []); Ref (ref "k8s.io/apimachinery/pkg/apis/meta/v1.ListMeta")]);
          ("items", schema [
                      Type_ ["array"];
                      Items (schema [Default (AMap []); Ref (ref "k8s.io/api/core/v1.Node")])])];
        Required ["items"]])
      ["k8s.io/api/core/v1.Node"; "k8s.io/apimachinery/pkg/apis/meta/v1.ListMeta"].

(** Lines 7031-7063. *)
Definition schema_k8sio_api_core_v1_NodeProxyOptions : OpenAPIDefinition R :=
    mkOpenAPIDefinition
      (schema [
        Type_ ["object"];
        Properties [
          ("kind", schema [Type_ ["string"]; Format ""]);
          ("apiVersion", schema [Type_ ["string"]; Format ""]);
          ("path", schema [Type_ ["string"]; Format ""])]])
      [].

(** Lines 7065-7092. *)
Definition schema_k8sio_api_core_v1_NodeRuntimeHandler : OpenAPIDefinition R :=
    mkOpenAPIDefinition
      (schema [
        Type_ ["object"];
        Properties [
          ("name", schema [Default (AString ""); Type_ ["string"]; Format ""]);
          ("features", schema [Ref (ref "k8s.io/api/core/v1.NodeRuntimeHandlerFeatures")])]])
      ["k8s.io/api/core/v1.NodeRuntimeHandlerFeatures"].

(** Lines 7094-7119. *)
Definition schema_k8sio_api_core_v1_NodeRuntimeHandlerFeatures : OpenAPIDefinition R :=
    mkOpenAPIDefinition
      (schema [
        Type_ ["object"];
        Properties [
          ("recursiveReadOnlyMounts", schema [Type_ ["boolean"]; Format ""]);
          ("userNamespaces", schema [Type_ ["boolean"]; Format ""])]])
      [].

(** Lines 7121-7159. *)
Definition schema_k8sio_api_core_v1_NodeSelector : OpenAPIDefinition R :=
    mkOpenAPIDefinition
      (schema [
        Type_ ["object"];
        Properties [
          ("nodeSelectorTerms", schema [
                                  Extensions [("x-kubernetes-list-type", AString "atomic")];
                                  Type_ ["array"];
                                  Items (schema [
                                           Default (AMap []);
                                           Ref (ref "k8s.io/api/core/v1.NodeSelectorTerm")])])];
        Required ["nodeSelectorTerms"];
        Extensions [("x-kubernetes-map-type", AString "atomic")]])
      ["k8s.io/api/core/v1.NodeSelectorTerm"].

(** Lines 7161-7210. *)
Definition schema_k8sio_api_core_v1_NodeSelectorRequirement : OpenAPIDefinition R :=
    mkOpenAPIDefinition
      (schema [
        Type_ ["object"];
        Properties [
          ("key", schema [Default (AString ""); Type_ ["string"]; Format ""]);
          ("operator", schema [
                         Default (AString "");
                         Type_ ["string"];
                         Format "";
                         Enum 
                           [AString "DoesNotExist"; AString "Exists"; AString "Gt"; AString "In";
                            AString "Lt"; AString "NotIn"]]);
          ("values", schema [
                       Extensions [("x-kubernetes-list-type", AString "atomic")];
                       Type_ ["array"];
                       Items (schema [Default (AString ""); Type_ ["string"]; Format ""])])];
        Required ["key"; "operator"]])
      [].

(** Lines 7212-7268. *)
Definition schema_k8sio_api_core_v1_NodeSelectorTerm : OpenAPIDefinition R :=
    mkOpenAPIDefinition
      (schema [
        Type_ ["object"];
        Properties [
          ("matchExpressions", schema [
                                 Extensions [("x-kubernetes-list-type", AString "atomic")];
                                 Type_ ["array"];
                                 Items (schema [
                                          Default (AMap []);
                                          Ref (ref "k8s.io/api/core/v1.NodeSelectorRequirement")])]);
          ("matchFields", schema [
                            Extensions [("x-kubernetes-list-type", AString "atomic")];
                            Type_ ["array"];
                            Items (schema [
                                     Default (AMap []);
                                     Ref (ref "k8s.io/api/core/v1.NodeSelectorRequirement")])])];
        Extensions [("x-kubernetes-map-type", AString "atomic")]])
      ["k8s.io/api/core/v1.NodeSelectorRequirement"].

(** Lines 7270-7357. *)
Definition schema_k8sio_api_core_v1_NodeSpec : OpenAPIDefinition R :=
    mkOpenAPIDefinition
      (schema [
        Type_ ["object"];
        Properties [
          ("podCIDR", schema [Type_ ["string"]; Format ""]);
          ("podCIDRs", schema [
                         Extensions [
                           ("x-kubernetes-list-type", AString "set");
                           ("x-kubernetes-patch-strategy", AString "merge")];
                         Type_ ["array"];
                         Items (schema [Default (AString ""); Type_ ["string"]; Format ""])]);
          ("providerID", schema [Type_ ["string"]; Format ""]);
          ("unschedulable", schema [Type_ ["boolean"]; Format ""]);
          ("taints", schema [
                       Extensions [("x-kubernetes-list-type", AString "atomic")];
                       Type_ ["array"];
                       Items (schema [Default (AMap []); Ref (ref "k8s.io/api/core/v1.Taint")])]);
          ("configSource", schema [Ref (ref "k8s.io/api/core/v1.NodeConfigSource")]);
          ("externalID", schema [Type_ ["string"]; Format ""])]])
      ["k8s.io/api/core/v1.NodeConfigSource"; "k8s.io/api/core/v1.Taint"].

(** Lines 7359-7559. *)
Definition schema_k8sio_api_core_v1_NodeStatus : OpenAPIDefinition R :=
    mkOpenAPIDefinition
      (schema [
        Type_ ["object"];
        Properties [
          ("capacity", schema [
                         Type_ ["object"];
                         AdditionalProperties (schema [Ref (ref "k8s.io/apimachinery/pkg/api/resource.Quantity")])]);
          ("allocatable", schema [
                            Type_ ["object"];
                            AdditionalProperties (schema 
                                                    [
                                                     Ref (ref "k8s.io/apimachinery/pkg/api/resource.Quantity")])]);
          ("phase", schema [
                      Type_ ["string"];
                      Format "";
                      Enum [AString "Pending"; AString "Running"; AString "Terminated"]]);
          ("conditions", schema [
                           Extensions [
                             ("x-kubernetes-list-map-keys", ASlice [AString "type"]);
                             ("x-kubernetes-list-type", AString "map");
                             ("x-kubernetes-patch-merge-key", AString "type");
                             ("x-kubernetes-patch-strategy", AString "merge")];
                           Type_ ["array"];
                           Items (schema [Default (AMap []); Ref (ref "k8s.io/api/core/v1.NodeCondition")])]);
          ("addresses", schema [
                          Extensions [
                            ("x-kubernetes-list-map-keys", ASlice [AString "type"]);
                            ("x-kubernetes-list-type", AString "map");
                            ("x-kubernetes-patch-merge-key", AString "type");
                            ("x-kubernetes-patch-strategy", AString "merge")];
                          Type_ ["array"];
                          Items (schema [Default (AMap []); Ref (ref "k8s.io/api/core/v1.NodeAddress")])]);
          ("daemonEndpoints", schema [Default (AMap []); Ref (ref "k8s.io/api/core/v1.NodeDaemonEndpoints")]);
          ("nodeInfo", schema [Default (AMap []); Ref (ref "k8s.io/api/core/v1.NodeSystemInfo")]);
          ("images", schema [
                       Extensions [("x-kubernetes-list-type", AString "atomic")];
                       Type_ ["array"];
                       Items (schema [Default (AMap []); Ref (ref "k8s.io/api/core/v1.ContainerImage")])]);
          ("volumesInUse", schema [
                             Extensions [("x-kubernetes-list-type", AString "atomic")];
                             Type_ ["array"];
                             Items (schema [Default (AString ""); Type_ ["string"]; Format ""])]);
          ("volumesAttached", schema [
                                Extensions [("x-kubernetes-list-type", AString "atomic")];
                                Type_ ["array"];
                                Items (schema [Default (AMap []); Ref (ref "k8s.io/api/core/v1.AttachedVolume")])]);
          ("config", schema [Ref (ref "k8s.io/api/core/v1.NodeConfigStatus")]);
          ("runtimeHandlers", schema [
                                Extensions [("x-kubernetes-list-type", AString "atomic")];
                                Type_ ["array"];
                                Items (schema [
                                         Default (AMap []);
                                         Ref (ref "k8s.io/api/core/v1.NodeRuntimeHandler")])]);
          ("features", schema [Ref (ref "k8s.io/api/core/v1.NodeFeatures")])]])
        ["k8s.io/api/core/v1.AttachedVolume"; "k8s.io/api/core/v1.ContainerImage";
         "k8s.io/api/core/v1.NodeAddress"; "k8s.io/api/core/v1.NodeCondition";
         "k8s.io/api/core/v1.NodeConfigStatus"; "k8s.io/api/core/v1.NodeDaemonEndpoints";
         "k8s.io/api/core/v1.NodeFeatures"; "k8s.io/api/core/v1.NodeRuntimeHandler";
         "k8s.io/api/core/v1.NodeSystemInfo"; "k8s.io/apimachinery/pkg/api/resource.Quantity"].

(** Lines 7561-7579. *)
Definition schema_k8sio_api_core_v1_NodeSwapStatus : OpenAPIDefinition R :=
    mkOpenAPIDefinition
      (schema [Type_ ["object"]; Properties [("capacity", schema [Type_ ["integer"]; Format "int64"])]])
      [].

(** Lines 7581-7681. *)
Definition schema_k8sio_api_core_v1_NodeSystemInfo : OpenAPIDefinition R :=
    mkOpenAPIDefinition
      (schema [
        Type_ ["object"];
        Properties [
          ("machineID", schema [Default (AString ""); Type_ ["string"]; Format ""]);
          ("systemUUID", schema [Default (AString ""); Type_ ["string"]; Format ""]);
          ("bootID", schema [Default (AString ""); Type_ ["string"]; Format ""]);
          ("kernelVersion", schema [Default (AString ""); Type_ ["string"]; Format ""]);
          ("osImage", schema [Default (AString ""); Type_ ["string"]; Format ""]);
          ("containerRuntimeVersion", schema [Default (AString ""); Type_ ["string"]; Format ""]);
          ("kubeletVersion", schema [Default (AString ""); Type_ ["string"]; Format ""]);
          ("kubeProxyVersion", schema [Default (AString ""); Type_ ["string"]; Format ""]);
          ("operatingSystem", schema [Default (AString ""); Type_ ["string"]; Format ""]);
          ("architecture", schema [Default (AString ""); Type_ ["string"]; Format ""]);
          ("swap", schema [Ref (ref "k8s.io/api/core/v1.NodeSwapStatus")])];
        Required 
          ["machineID"; "systemUUID"; "bootID"; "kernelVersion"; "osImage"; "containerRuntimeVersion";
           "kubeletVersion"; "kubeProxyVersion"; "operatingSystem"; "architecture"]])
      ["k8s.io/api/core/v1.NodeSwapStatus"].

(** Lines 7683-7715. *)
Definition schema_k8sio_api_core_v1_ObjectFieldSelector : OpenAPIDefinition R :=
    mkOpenAPIDefinition
      (schema [
        Type_ ["object"];
        Properties [
          ("apiVersion", schema [Type_ ["string"]; Format ""]);
          ("fieldPath", schema [Default (AString ""); Type_ ["string"]; Format ""])];
        Required ["fieldPath"];
        Extensions [("x-kubernetes-map-type", AString "atomic")]])
      [].

(** Lines 7717-7782. *)
Definition schema_k8sio_api_core_v1_ObjectReference : OpenAPIDefinition R :=
    mkOpenAPIDefinition
      (schema [
        Type_ ["object"];
        Properties [
          ("kind", schema [Type_ ["string"]; Format ""]);
          ("namespace", schema [Type_ ["string"]; Format ""]);
          ("name", schema [Type_ ["string"]; Format ""]);
          ("uid", schema [Type_ ["string"]; Format ""]);
          ("apiVersion", schema [Type_ ["string"]; Format ""]);
          ("resourceVersion", schema [Type_ ["string"]; Format ""]);
          ("fieldPath", schema [Type_ ["string"]; Format ""])];
        Extensions [("x-kubernetes-map-type", AString "atomic")]])
      [].

(** Lines 7784-7832. *)
Definition schema_k8sio_api_core_v1_PersistentVolume : OpenAPIDefinition R :=
    mkOpenAPIDefinition
      (schema [
        Type_ ["object"];
        Properties [
          ("kind", schema [Type_ ["string"]; Format ""]);
          ("apiVersion", schema [Type_ ["string"]; Format ""]);
          ("metadata", schema [Default (AMap []); Ref (ref "k8s.io/apimachinery/pkg/apis/meta/v1.ObjectMeta")]);
          ("spec", schema [Default (AMap []); Ref (ref "k8s.io/api/core/v1.PersistentVolumeSpec")]);
          ("status", schema [Default (AMap []); Ref (ref "k8s.io/api/core/v1.PersistentVolumeStatus")])]])
        ["k8s.io/api/core/v1.PersistentVolumeSpec"; "k8s.io/api/core/v1.PersistentVolumeStatus";
         "k8s.io/apimachinery/pkg/apis/meta/v1.ObjectMeta"].

(** Lines 7834-7882. *)
Definition schema_k8sio_api_core_v1_PersistentVolumeClaim : OpenAPIDefinition R :=
    mkOpenAPIDefinition
      (schema [
        Type_ ["object"];
        Properties [
          ("kind", schema [Type_ ["string"]; Format ""]);
          ("apiVersion", schema [Type_ ["string"]; Format ""]);
          ("metadata", schema [Default (AMap []); Ref (ref "k8s.io/apimachinery/pkg/apis/meta/v1.ObjectMeta")]);
          ("spec", schema [Default (AMap []); Ref (ref "k8s.io/api/core/v1.PersistentVolumeClaimSpec")]);
          ("status", schema [Default (AMap []); Ref (ref "k8s.io/api/core/v1.PersistentVolumeClaimStatus")])]])
        ["k8s.io/api/core/v1.PersistentVolumeClaimSpec"; "k8s.io/api/core/v1.PersistentVolumeClaimStatus";
         "k8s.io/apimachinery/pkg/apis/meta/v1.ObjectMeta"].

(** Lines 7884-7940. *)
Definition schema_k8sio_api_core_v1_PersistentVolumeClaimCondition : OpenAPIDefinition R :=
    mkOpenAPIDefinition
      (schema [
        Type_ ["object"];
        Properties [
          ("type", schema [Default (AString ""); Type_ ["string"]; Format ""]);
          ("status", schema [Default (AString ""); Type_ ["string"]; Format ""]);
          ("lastProbeTime", schema [Ref (ref "k8s.io/apimachinery/pkg/apis/meta/v1.Time")]);
          ("lastTransitionTime", schema [Ref (ref "k8s.io/apimachinery/pkg/apis/meta/v1.Time")]);
          ("reason", schema [Type_ ["string"]; Format ""]);
          ("message", schema [Type_ ["string"]; Format ""])];
        Required ["type"; "status"]])
      ["k8s.io/apimachinery/pkg/apis/meta/v1.Time"].

(** Lines 7942-7991. *)
Definition schema_k8sio_api_core_v1_PersistentVolumeClaimList : OpenAPIDefinition R :=
    mkOpenAPIDefinition
      (schema [
        Type_ ["object"];
        Properties [
          ("kind", schema [Type_ ["string"]; Format ""]);
          ("apiVersion", schema [Type_ ["string"]; Format ""]);
          ("metadata", schema [Default (AMap []); Ref (ref "k8s.io/apimachinery/pkg/apis/meta/v1.ListMeta")]);
          ("items", schema [
                      Type_ ["array"];
                      Items (schema [Default (AMap []); Ref (ref "k8s.io/api/core/v1.PersistentVolumeClaim")])])];
        Required ["items"]])
      ["k8s.io/api/core/v1.PersistentVolumeClaim"; "k8s.io/apimachinery/pkg/apis/meta/v1.ListMeta"].

(** Lines 7993-8081. *)
Definition schema_k8sio_api_core_v1_PersistentVolumeClaimSpec : OpenAPIDefinition R :=
    mkOpenAPIDefinition
      (schema [
        Type_ ["object"];
        Properties [
          ("accessModes", schema [
                            Extensions [("x-kubernetes-list-type", AString "atomic")];
                            Type_ ["array"];
                            Items (schema [
                                     Default (AString "");
                                     Type_ ["string"];
                                     Format "";
                                     Enum 
                                       [AString "ReadOnlyMany"; AString "ReadWriteMany";
                                        AString "ReadWriteOnce"; AString "ReadWriteOncePod"]])]);
          ("selector", schema [Ref (ref "k8s.io/apimachinery/pkg/apis/meta/v1.LabelSelector")]);
          ("resources", schema [Default (AMap []); Ref (ref "k8s.io/api/core/v1.VolumeResourceRequirements")]);
          ("volumeName", schema [Type_ ["string"]; Format ""]);
          ("storageClassName", schema [Type_ ["string"]; Format ""]);
          ("volumeMode", schema [Type_ ["string"]; Format ""; Enum [AString "Block"; AString "Filesystem"]]);
          ("dataSource", schema [Ref (ref "k8s.io/api/core/v1.TypedLocalObjectReference")]);
          ("dataSourceRef", schema [Ref (ref "k8s.io/api/core/v1.TypedObjectReference")]);
          ("volumeAttributesClassName", schema [Type_ ["string"]; Format ""])]])
        ["k8s.io/api/core/v1.TypedLocalObjectReference"; "k8s.io/api/core/v1.TypedObjectReference";
         "k8s.io/api/core/v1.VolumeResourceRequirements";
         "k8s.io/apimachinery/pkg/apis/meta/v1.LabelSelector"].

(** Lines 8083-8212. *)
Definition schema_k8sio_api_core_v1_PersistentVolumeClaimStatus : OpenAPIDefinition R :=
    mkOpenAPIDefinition
      (schema [
        Type_ ["object"];
        Properties [
          ("phase", schema [Type_ ["string"]; Format ""; Enum [AString "Bound"; AString "Lost"; AString "Pending"]]);
          ("accessModes", schema [
                            Extensions [("x-kubernetes-list-type", AString "atomic")];
                            Type_ ["array"];
                            Items (schema [
                                     Default (AString "");
                                     Type_ ["string"];
                                     Format "";
                                     Enum 
                                       [AString "ReadOnlyMany"; AString "ReadWriteMany";
                                        AString "ReadWriteOnce"; AString "ReadWriteOncePod"]])]);
          ("capacity", schema [
                         Type_ ["object"];
                         AdditionalProperties (schema [Ref (ref "k8s.io/apimachinery/pkg/api/resource.Quantity")])]);
          ("conditions", schema [
                           Extensions [
                             ("x-kubernetes-list-map-keys", ASlice [AString "type"]);
                             ("x-kubernetes-list-type", AString "map");
                             ("x-kubernetes-patch-merge-key", AString "type");
                             ("x-kubernetes-patch-strategy", AString "merge")];
                           Type_ ["array"];
                           Items (schema [
                                    Default (AMap []);
                                    Ref (ref "k8s.io/api/core/v1.PersistentVolumeClaimCondition")])]);
          ("allocatedResources", schema [
                                   Type_ ["object"];
                                   AdditionalProperties (schema 
                                                           [
                                                            Ref (ref "k8s.io/apimachinery/pkg/api/resource.Quantity")])]);
          ("allocatedResourceStatuses", schema [
                                          Extensions [("x-kubernetes-map-type", AString "granular")];
                                          Type_ ["object"];
                                          AdditionalProperties (schema [
                                                                  Default (AString "");
                                                                  Type_ ["string"];
                                                                  Format "";
                                                                  Enum 
                                                                    [AString "ControllerResizeInProgress";
                                                                     AString "ControllerResizeInfeasible";
                                                                     AString "NodeResizeInProgress";
                                                                     AString "NodeResizeInfeasible";
                                                                     AString "NodeResizePending"]])]);
          ("currentVolumeAttributesClassName", schema [Type_ ["string"]; Format ""]);
          ("modifyVolumeStatus", schema [Ref (ref "k8s.io/api/core/v1.ModifyVolumeStatus")])]])
        ["k8s.io/api/core/v1.ModifyVolumeStatus"; "k8s.io/api/core/v1.PersistentVolumeClaimCondition";
         "k8s.io/apimachinery/pkg/api/resource.Quantity"].

(** The entries of [GetOpenAPIDefinitions] for the above. *)
Definition coreDefinitions2 : list (string * OpenAPIDefinition R) :=
  [ ("k8s.io/api/core/v1.EphemeralVolumeSource", schema_k8sio_api_core_v1_EphemeralVolumeSource);
    ("k8s.io/api/core/v1.Event", schema_k8sio_api_core_v1_Event);
    ("k8s.io/api/core/v1.EventList", schema_k8sio_api_core_v1_EventList);
    ("k8s.io/api/core/v1.EventSeries", schema_k8sio_api_core_v1_EventSeries);
    ("k8s.io/api/core/v1.EventSource", schema_k8sio_api_core_v1_EventSource);
    ("k8s.io/api/core/v1.ExecAction", schema_k8sio_api_core_v1_ExecAction);
    ("k8s.io/api/core/v1.FCVolumeSource", schema_k8sio_api_core_v1_FCVolumeSource);
    ("k8s.io/api/core/v1.FileKeySelector", schema_k8sio_api_core_v1_FileKeySelector);
    ("k8s.io/api/core/v1.FlexPersistentVolumeSource", schema_k8sio_api_core_v1_FlexPersistentVolumeSource);
    ("k8s.io/api/core/v1.FlexVolumeSource", schema_k8sio_api_core_v1_FlexVolumeSource);
    ("k8s.io/api/core/v1.FlockerVolumeSource", schema_k8sio_api_core_v1_FlockerVolumeSource);
    ("k8s.io/api/core/v1.GCEPersistentDiskVolumeSource", schema_k8sio_api_core_v1_GCEPersistentDiskVolumeSource);
    ("k8s.io/api/core/v1.GRPCAction", schema_k8sio_api_core_v1_GRPCAction);
    ("k8s.io/api/core/v1.GitRepoVolumeSource", schema_k8sio_api_core_v1_GitRepoVolumeSource);
    ("k8s.io/api/core/v1.GlusterfsPersistentVolumeSource", schema_k8sio_api_core_v1_GlusterfsPersistentVolumeSource);
    ("k8s.io/api/core/v1.GlusterfsVolumeSource", schema_k8sio_api_core_v1_GlusterfsVolumeSource);
    ("k8s.io/api/core/v1.HTTPGetAction", schema_k8sio_api_core_v1_HTTPGetAction);
    ("k8s.io/api/core/v1.HTTPHeader", schema_k8sio_api_core_v1_HTTPHeader);
    ("k8s.io/api/core/v1.HostAlias", schema_k8sio_api_core_v1_HostAlias);
    ("k8s.io/api/core/v1.HostIP", schema_k8sio_api_core_v1_HostIP);
    ("k8s.io/api/core/v1.HostPathVolumeSource", schema_k8sio_api_core_v1_HostPathVolumeSource);
    ("k8s.io/api/core/v1.ISCSIPersistentVolumeSource", schema_k8sio_api_core_v1_ISCSIPersistentVolumeSource);
    ("k8s.io/api/core/v1.ISCSIVolumeSource", schema_k8sio_api_core_v1_ISCSIVolumeSource);
    ("k8s.io/api/core/v1.ImageVolumeSource", schema_k8sio_api_core_v1_ImageVolumeSource);
    ("k8s.io/api/core/v1.KeyToPath", schema_k8sio_api_core_v1_KeyToPath);
    ("k8s.io/api/core/v1.Lifecycle", schema_k8sio_api_core_v1_Lifecycle);
    ("k8s.io/api/core/v1.LifecycleHandler", schema_k8sio_api_core_v1_LifecycleHandler);
    ("k8s.io/api/core/v1.LimitRange", schema_k8sio_api_core_v1_LimitRange);
    ("k8s.io/api/core/v1.LimitRangeItem", schema_k8sio_api_core_v1_LimitRangeItem);
    ("k8s.io/api/core/v1.LimitRangeList", schema_k8sio_api_core_v1_LimitRangeList);
    ("k8s.io/api/core/v1.LimitRangeSpec", schema_k8sio_api_core_v1_LimitRangeSpec);
    ("k8s.io/api/core/v1.LinuxContainerUser", schema_k8sio_api_core_v1_LinuxContainerUser);
    ("k8s.io/api/core/v1.List", schema_k8sio_api_core_v1_List);
    ("k8s.io/api/core/v1.LoadBalancerIngress", schema_k8sio_api_core_v1_LoadBalancerIngress);
    ("k8s.io/api/core/v1.LoadBalancerStatus", schema_k8sio_api_core_v1_LoadBalancerStatus);
    ("k8s.io/api/core/v1.LocalObjectReference", schema_k8sio_api_core_v1_LocalObjectReference);
    ("k8s.io/api/core/v1.LocalVolumeSource", schema_k8sio_api_core_v1_LocalVolumeSource);
    ("k8s.io/api/core/v1.ModifyVolumeStatus", schema_k8sio_api_core_v1_ModifyVolumeStatus);
    ("k8s.io/api/core/v1.NFSVolumeSource", schema_k8sio_api_core_v1_NFSVolumeSource);
    ("k8s.io/api/core/v1.Namespace", schema_k8sio_api_core_v1_Namespace);
    ("k8s.io/api/core/v1.NamespaceCondition", schema_k8sio_api_core_v1_NamespaceCondition);
    ("k8s.io/api/core/v1.NamespaceList", schema_k8sio_api_core_v1_NamespaceList);
    ("k8s.io/api/core/v1.NamespaceSpec", schema_k8sio_api_core_v1_NamespaceSpec);
    ("k8s.io/api/core/v1.NamespaceStatus", schema_k8sio_api_core_v1_NamespaceStatus);
    ("k8s.io/api/core/v1.Node", schema_k8sio_api_core_v1_Node);
    ("k8s.io/api/core/v1.NodeAddress", schema_k8sio_api_core_v1_NodeAddress);
    ("k8s.io/api/core/v1.NodeAffinity", schema_k8sio_api_core_v1_NodeAffinity);
    ("k8s.io/api/core/v1.NodeCondition", schema_k8sio_api_core_v1_NodeCondition);
    ("k8s.io/api/core/v1.NodeConfigSource", schema_k8sio_api_core_v1_NodeConfigSource);
    ("k8s.io/api/core/v1.NodeConfigStatus", schema_k8sio_api_core_v1_NodeConfigStatus);
    ("k8s.io/api/core/v1.NodeDaemonEndpoints", schema_k8sio_api_core_v1_NodeDaemonEndpoints);
    ("k8s.io/api/core/v1.NodeFeatures", schema_k8sio_api_core_v1_NodeFeatures);
    ("k8s.io/api/core/v1.NodeList", schema_k8sio_api_core_v1_NodeList);
    ("k8s.io/api/core/v1.NodeProxyOptions", schema_k8sio_api_core_v1_NodeProxyOptions);
    ("k8s.io/api/core/v1.NodeRuntimeHandler", schema_k8sio_api_core_v1_NodeRuntimeHandler);
    ("k8s.io/api/core/v1.NodeRuntimeHandlerFeatures", schema_k8sio_api_core_v1_NodeRuntimeHandlerFeatures);
    ("k8s.io/api/core/v1.NodeSelector", schema_k8sio_api_core_v1_NodeSelector);
    ("k8s.io/api/core/v1.NodeSelectorRequirement", schema_k8sio_api_core_v1_NodeSelectorRequirement);
    ("k8s.io/api/core/v1.NodeSelectorTerm", schema_k8sio_api_core_v1_NodeSelectorTerm);
    ("k8s.io/api/core/v1.NodeSpec", schema_k8sio_api_core_v1_NodeSpec);
    ("k8s.io/api/core/v1.NodeStatus", schema_k8sio_api_core_v1_NodeStatus);
    ("k8s.io/api/core/v1.NodeSwapStatus", schema_k8sio_api_core_v1_NodeSwapStatus);
    ("k8s.io/api/core/v1.NodeSystemInfo", schema_k8sio_api_core_v1_NodeSystemInfo);
    ("k8s.io/api/core/v1.ObjectFieldSelector", schema_k8sio_api_core_v1_ObjectFieldSelector);
    ("k8s.io/api/core/v1.ObjectReference", schema_k8sio_api_core_v1_ObjectReference);
    ("k8s.io/api/core/v1.PersistentVolume", schema_k8sio_api_core_v1_PersistentVolume);
    ("k8s.io/api/core/v1.PersistentVolumeClaim", schema_k8sio_api_core_v1_PersistentVolumeClaim);
    ("k8s.io/api/core/v1.PersistentVolumeClaimCondition", schema_k8sio_api_core_v1_PersistentVolumeClaimCondition);
    ("k8s.io/api/core/v1.PersistentVolumeClaimList", schema_k8sio_api_core_v1_PersistentVolumeClaimList);
    ("k8s.io/api/core/v1.PersistentVolumeClaimSpec", schema_k8sio_api_core_v1_PersistentVolumeClaimSpec);
    ("k8s.io/api/core/v1.PersistentVolumeClaimStatus", schema_k8sio_api_core_v1_PersistentVolumeClaimStatus) ].

End Definitions.
