(* ===== verification/OpenAPICore3.v ===== *)
(** * The schemas of k8s.io/api/core/v1, from PersistentVolumeClaimTemplate to ReplicationControllerSpec *)

From stdpp Require Import base list strings.
From Stdlib Require Import ZArith.
From S2P Require Import Prelude OpenAPI.

Local Open Scope string_scope.

Section Definitions.
Context {R : Type} {library : OpenAPILibrary R} (ref : string -> R).

(** Lines 8214-8242. *)
Definition schema_k8sio_api_core_v1_PersistentVolumeClaimTemplate : OpenAPIDefinition R :=
    mkOpenAPIDefinition
      (schema [
        Type_ ["object"];
        Properties [
          ("metadata", schema [Default (AMap []); Ref (ref "k8s.io/apimachinery/pkg/apis/meta/v1.ObjectMeta")]);
          ("spec", schema [Default (AMap []); Ref (ref "k8s.io/api/core/v1.PersistentVolumeClaimSpec")])];
        Required ["spec"]])
      ["k8s.io/api/core/v1.PersistentVolumeClaimSpec"; "k8s.io/apimachinery/pkg/apis/meta/v1.ObjectMeta"].

(** Lines 8244-8271. *)
Definition schema_k8sio_api_core_v1_PersistentVolumeClaimVolumeSource : OpenAPIDefinition R :=
    mkOpenAPIDefinition
      (schema [
        Type_ ["object"];
        Properties [
          ("claimName", schema [Default (AString ""); Type_ ["string"]; Format ""]);
          ("readOnly", schema [Type_ ["boolean"]; Format ""])];
        Required ["claimName"]])
      [].

(** Lines 8273-8322. *)
Definition schema_k8sio_api_core_v1_PersistentVolumeList : OpenAPIDefinition R :=
    mkOpenAPIDefinition
      (schema [
        Type_ ["object"];
        Properties [
          ("kind", schema [Type_ ["string"]; Format ""]);
          ("apiVersion", schema [Type_ ["string"]; Format ""]);
          ("metadata", schema [Default (AMap []); Ref (ref "k8s.io/apimachinery/pkg/apis/meta/v1.ListMeta")]);
          ("items", schema [
                      Type_ ["array"];
                      Items (schema [Default (AMap []); Ref (ref "k8s.io/api/core/v1.PersistentVolume")])])];
        Required ["items"]])
      ["k8s.io/api/core/v1.PersistentVolume"; "k8s.io/apimachinery/pkg/apis/meta/v1.ListMeta"].

(** Lines 8324-8469. *)
Definition schema_k8sio_api_core_v1_PersistentVolumeSource : OpenAPIDefinition R :=
    mkOpenAPIDefinition
      (schema [
        Type_ ["object"];
        Properties [
          ("gcePersistentDisk", schema [Ref (ref "k8s.io/api/core/v1.GCEPersistentDiskVolumeSource")]);
          ("awsElasticBlockStore", schema [Ref (ref "k8s.io/api/core/v1.AWSElasticBlockStoreVolumeSource")]);
          ("hostPath", schema [Ref (ref "k8s.io/api/core/v1.HostPathVolumeSource")]);
          ("glusterfs", schema [Ref (ref "k8s.io/api/core/v1.GlusterfsPersistentVolumeSource")]);
          ("nfs", schema [Ref (ref "k8s.io/api/core/v1.NFSVolumeSource")]);
          ("rbd", schema [Ref (ref "k8s.io/api/core/v1.RBDPersistentVolumeSource")]);
          ("iscsi", schema [Ref (ref "k8s.io/api/core/v1.ISCSIPersistentVolumeSource")]);
          ("cinder", schema [Ref (ref "k8s.io/api/core/v1.CinderPersistentVolumeSource")]);
          ("cephfs", schema [Ref (ref "k8s.io/api/core/v1.CephFSPersistentVolumeSource")]);
          ("fc", schema [Ref (ref "k8s.io/api/core/v1.FCVolumeSource")]);
          ("flocker", schema [Ref (ref "k8s.io/api/core/v1.FlockerVolumeSource")]);
          ("flexVolume", schema [Ref (ref "k8s.io/api/core/v1.FlexPersistentVolumeSource")]);
          ("azureFile", schema [Ref (ref "k8s.io/api/core/v1.AzureFilePersistentVolumeSource")]);
          ("vsphereVolume", schema [Ref (ref "k8s.io/api/core/v1.VsphereVirtualDiskVolumeSource")]);
          ("quobyte", schema [Ref (ref "k8s.io/api/core/v1.QuobyteVolumeSource")]);
          ("azureDisk", schema [Ref (ref "k8s.io/api/core/v1.AzureDiskVolumeSource")]);
          ("photonPersistentDisk", schema [Ref (ref "k8s.io/api/core/v1.PhotonPersistentDiskVolumeSource")]);
          ("portworxVolume", schema [Ref (ref "k8s.io/api/core/v1.PortworxVolumeSource")]);
          ("scaleIO", schema [Ref (ref "k8s.io/api/core/v1.ScaleIOPersistentVolumeSource")]);
          ("local", schema [Ref (ref "k8s.io/api/core/v1.LocalVolumeSource")]);
          ("storageos", schema [Ref (ref "k8s.io/api/core/v1.StorageOSPersistentVolumeSource")]);
          ("csi", schema [Ref (ref "k8s.io/api/core/v1.CSIPersistentVolumeSource")])]])
        ["k8s.io/api/core/v1.AWSElasticBlockStoreVolumeSource"; "k8s.io/api/core/v1.AzureDiskVolumeSource";
         "k8s.io/api/core/v1.AzureFilePersistentVolumeSource";
         "k8s.io/api/core/v1.CSIPersistentVolumeSource"; "k8s.io/api/core/v1.CephFSPersistentVolumeSource";
         "k8s.io/api/core/v1.CinderPersistentVolumeSource"; "k8s.io/api/core/v1.FCVolumeSource";
         "k8s.io/api/core/v1.FlexPersistentVolumeSource"; "k8s.io/api/core/v1.FlockerVolumeSource";
         "k8s.io/api/core/v1.GCEPersistentDiskVolumeSource";
         "k8s.io/api/core/v1.GlusterfsPersistentVolumeSource"; "k8s.io/api/core/v1.HostPathVolumeSource";
         "k8s.io/api/core/v1.ISCSIPersistentVolumeSource"; "k8s.io/api/core/v1.LocalVolumeSource";
         "k8s.io/api/core/v1.NFSVolumeSource"; "k8s.io/api/core/v1.PhotonPersistentDiskVolumeSource";
         "k8s.io/api/core/v1.PortworxVolumeSource"; "k8s.io/api/core/v1.QuobyteVolumeSource";
         "k8s.io/api/core/v1.RBDPersistentVolumeSource";
         "k8s.io/api/core/v1.ScaleIOPersistentVolumeSource";
         "k8s.io/api/core/v1.StorageOSPersistentVolumeSource";
         "k8s.io/api/core/v1.VsphereVirtualDiskVolumeSource"].

(** Lines 8471-8718. *)
Definition schema_k8sio_api_core_v1_PersistentVolumeSpec : OpenAPIDefinition R :=
    mkOpenAPIDefinition
      (schema [
        Type_ ["object"];
        Properties [
          ("capacity", schema [
                         Type_ ["object"];
                         AdditionalProperties (schema [Ref (ref "k8s.io/apimachinery/pkg/api/resource.Quantity")])]);
          ("gcePersistentDisk", schema [Ref (ref "k8s.io/api/core/v1.GCEPersistentDiskVolumeSource")]);
          ("awsElasticBlockStore", schema [Ref (ref "k8s.io/api/core/v1.AWSElasticBlockStoreVolumeSource")]);
          ("hostPath", schema [Ref (ref "k8s.io/api/core/v1.HostPathVolumeSource")]);
          ("glusterfs", schema [Ref (ref "k8s.io/api/core/v1.GlusterfsPersistentVolumeSource")]);
          ("nfs", schema [Ref (ref "k8s.io/api/core/v1.NFSVolumeSource")]);
          ("rbd", schema [Ref (ref "k8s.io/api/core/v1.RBDPersistentVolumeSource")]);
          ("iscsi", schema [Ref (ref "k8s.io/api/core/v1.ISCSIPersistentVolumeSource")]);
          ("cinder", schema [Ref (ref "k8s.io/api/core/v1.CinderPersistentVolumeSource")]);
          ("cephfs", schema [Ref (ref "k8s.io/api/core/v1.CephFSPersistentVolumeSource")]);
          ("fc", schema [Ref (ref "k8s.io/api/core/v1.FCVolumeSource")]);
          ("flocker", schema [Ref (ref "k8s.io/api/core/v1.FlockerVolumeSource")]);
          ("flexVolume", schema [Ref (ref "k8s.io/api/core/v1.FlexPersistentVolumeSource")]);
          ("azureFile", schema [Ref (ref "k8s.io/api/core/v1.AzureFilePersistentVolumeSource")]);
          ("vsphereVolume", schema [Ref (ref "k8s.io/api/core/v1.VsphereVirtualDiskVolumeSource")]);
          ("quobyte", schema [Ref (ref "k8s.io/api/core/v1.QuobyteVolumeSource")]);
          ("azureDisk", schema [Ref (ref "k8s.io/api/core/v1.AzureDiskVolumeSource")]);
          ("photonPersistentDisk", schema [Ref (ref "k8s.io/api/core/v1.PhotonPersistentDiskVolumeSource")]);
          ("portworxVolume", schema [Ref (ref "k8s.io/api/core/v1.PortworxVolumeSource")]);
          ("scaleIO", schema [Ref (ref "k8s.io/api/core/v1.ScaleIOPersistentVolumeSource")]);
          ("local", schema [Ref (ref "k8s.io/api/core/v1.LocalVolumeSource")]);
          ("storageos", schema [Ref (ref "k8s.io/api/core/v1.StorageOSPersistentVolumeSource")]);
          ("csi", schema [Ref (ref "k8s.io/api/core/v1.CSIPersistentVolumeSource")]);
          ("accessModes", schema [
                            Extensions [("x-kubernetes-list-type", AString "atomic")];
                            Type_ ["array"];
                            Items (schema [
                                     Default (AString "");
                                     Type_ ["string"];
                                     Format "";
                                     Enum 
                                       [AString "ReadOnlyMany"; AString "ReadWriteMany";
                                        AString "ReadWriteOnce"; AString "ReadWriteOncePod"]])]);
          ("claimRef", schema [
                         Extensions [("x-kubernetes-map-type", AString "granular")];
                         Ref (ref "k8s.io/api/core/v1.ObjectReference")]);
          ("persistentVolumeReclaimPolicy", schema [
                                              Type_ ["string"];
                                              Format "";
                                              Enum [AString "Delete"; AString "Recycle"; AString "Retain"]]);
          ("storageClassName", schema [Type_ ["string"]; Format ""]);
          ("mountOptions", schema [
                             Extensions [("x-kubernetes-list-type", AString "atomic")];
                             Type_ ["array"];
                             Items (schema [Default (AString ""); Type_ ["string"]; Format ""])]);
          ("volumeMode", schema [Type_ ["string"]; Format ""; Enum [AString "Block"; AString "Filesystem"]]);
          ("nodeAffinity", schema [Ref (ref "k8s.io/api/core/v1.VolumeNodeAffinity")]);
          ("volumeAttributesClassName", schema [Type_ ["string"]; Format ""])]])
        ["k8s.io/api/core/v1.AWSElasticBlockStoreVolumeSource"; "k8s.io/api/core/v1.AzureDiskVolumeSource";
         "k8s.io/api/core/v1.AzureFilePersistentVolumeSource";
         "k8s.io/api/core/v1.CSIPersistentVolumeSource"; "k8s.io/api/core/v1.CephFSPersistentVolumeSource";
         "k8s.io/api/core/v1.CinderPersistentVolumeSource"; "k8s.io/api/core/v1.FCVolumeSource";
         "k8s.io/api/core/v1.FlexPersistentVolumeSource"; "k8s.io/api/core/v1.FlockerVolumeSource";
         "k8s.io/api/core/v1.GCEPersistentDiskVolumeSource";
         "k8s.io/api/core/v1.GlusterfsPersistentVolumeSource"; "k8s.io/api/core/v1.HostPathVolumeSource";
         "k8s.io/api/core/v1.ISCSIPersistentVolumeSource"; "k8s.io/api/core/v1.LocalVolumeSource";
         "k8s.io/api/core/v1.NFSVolumeSource"; "k8s.io/api/core/v1.ObjectReference";
         "k8s.io/api/core/v1.PhotonPersistentDiskVolumeSource"; "k8s.io/api/core/v1.PortworxVolumeSource";
         "k8s.io/api/core/v1.QuobyteVolumeSource"; "k8s.io/api/core/v1.RBDPersistentVolumeSource";
         "k8s.io/api/core/v1.ScaleIOPersistentVolumeSource";
         "k8s.io/api/core/v1.StorageOSPersistentVolumeSource"; "k8s.io/api/core/v1.VolumeNodeAffinity";
         "k8s.io/api/core/v1.VsphereVirtualDiskVolumeSource";
         "k8s.io/apimachinery/pkg/api/resource.Quantity"].

(** Lines 8720-8761. *)
Definition schema_k8sio_api_core_v1_PersistentVolumeStatus : OpenAPIDefinition R :=
    mkOpenAPIDefinition
      (schema [
        Type_ ["object"];
        Properties [
          ("phase", schema [
                      Type_ ["string"];
                      Format "";
                      Enum 
                        [AString "Available"; AString "Bound"; AString "Failed"; AString "Pending";
                         AString "Released"]]);
          ("message", schema [Type_ ["string"]; Format ""]);
          ("reason", schema [Type_ ["string"]; Format ""]);
          ("lastPhaseTransitionTime", schema [Ref (ref "k8s.io/apimachinery/pkg/apis/meta/v1.Time")])]])
      ["k8s.io/apimachinery/pkg/apis/meta/v1.Time"].

(** Lines 8763-8790. *)
Definition schema_k8sio_api_core_v1_PhotonPersistentDiskVolumeSource : OpenAPIDefinition R :=
    mkOpenAPIDefinition
      (schema [
        Type_ ["object"];
        Properties [
          ("pdID", schema [Default (AString ""); Type_ ["string"]; Format ""]);
          ("fsType", schema [Type_ ["string"]; Format ""])];
        Required ["pdID"]])
      [].

(** Lines 8792-8840. *)
Definition schema_k8sio_api_core_v1_Pod : OpenAPIDefinition R :=
    mkOpenAPIDefinition
      (schema [
        Type_ ["object"];
        Properties [
          ("kind", schema [Type_ ["string"]; Format ""]);
          ("apiVersion", schema [Type_ ["string"]; Format ""]);
          ("metadata", schema [Default (AMap []); Ref (ref "k8s.io/apimachinery/pkg/apis/meta/v1.ObjectMeta")]);
          ("spec", schema [Default (AMap []); Ref (ref "k8s.io/api/core/v1.PodSpec")]);
          ("status", schema [Default (AMap []); Ref (ref "k8s.io/api/core/v1.PodStatus")])]])
        ["k8s.io/api/core/v1.PodSpec"; "k8s.io/api/core/v1.PodStatus";
         "k8s.io/apimachinery/pkg/apis/meta/v1.ObjectMeta"].

(** Lines 8842-8893. *)
Definition schema_k8sio_api_core_v1_PodAffinity : OpenAPIDefinition R :=
    mkOpenAPIDefinition
      (schema [
        Type_ ["object"];
        Properties [
          ("requiredDuringSchedulingIgnoredDuringExecution", schema [
                                                               Extensions [
                                                                 ("x-kubernetes-list-type", AString "atomic")];
                                                               Type_ ["array"];
                                                               Items (schema [
                                                                        Default (AMap []);
                                                                        Ref (ref "k8s.io/api/core/v1.PodAffinityTerm")])]);
          ("preferredDuringSchedulingIgnoredDuringExecution", schema [
                                                                Extensions [
                                                                  ("x-kubernetes-list-type", AString "atomic")];
                                                                Type_ ["array"];
                                                                Items (schema [
                                                                         Default (AMap []);
                                                                         Ref (ref "k8s.io/api/core/v1.WeightedPodAffinityTerm")])])]])
      ["k8s.io/api/core/v1.PodAffinityTerm"; "k8s.io/api/core/v1.WeightedPodAffinityTerm"].

(** Lines 8895-8989. *)
Definition schema_k8sio_api_core_v1_PodAffinityTerm : OpenAPIDefinition R :=
    mkOpenAPIDefinition
      (schema [
        Type_ ["object"];
        Properties [
          ("labelSelector", schema [Ref (ref "k8s.io/apimachinery/pkg/apis/meta/v1.LabelSelector")]);
          ("namespaces", schema [
                           Extensions [("x-kubernetes-list-type", AString "atomic")];
                           Type_ ["array"];
                           Items (schema [Default (AString ""); Type_ ["string"]; Format ""])]);
          ("topologyKey", schema [Default (AString ""); Type_ ["string"]; Format ""]);
          ("namespaceSelector", schema [Ref (ref "k8s.io/apimachinery/pkg/apis/meta/v1.LabelSelector")]);
          ("matchLabelKeys", schema [
                               Extensions [("x-kubernetes-list-type", AString "atomic")];
                               Type_ ["array"];
                               Items (schema [Default (AString ""); Type_ ["string"]; Format ""])]);
          ("mismatchLabelKeys", schema [
                                  Extensions [("x-kubernetes-list-type", AString "atomic")];
                                  Type_ ["array"];
                                  Items (schema [Default (AString ""); Type_ ["string"]; Format ""])])];
        Required ["topologyKey"]])
      ["k8s.io/apimachinery/pkg/apis/meta/v1.LabelSelector"].

(** Lines 8991-9042. *)
Definition schema_k8sio_api_core_v1_PodAntiAffinity : OpenAPIDefinition R :=
    mkOpenAPIDefinition
      (schema [
        Type_ ["object"];
        Properties [
          ("requiredDuringSchedulingIgnoredDuringExecution", schema [
                                                               Extensions [
                                                                 ("x-kubernetes-list-type", AString "atomic")];
                                                               Type_ ["array"];
                                                               Items (schema [
                                                                        Default (AMap []);
                                                                        Ref (ref "k8s.io/api/core/v1.PodAffinityTerm")])]);
          ("preferredDuringSchedulingIgnoredDuringExecution", schema [
                                                                Extensions [
                                                                  ("x-kubernetes-list-type", AString "atomic")];
                                                                Type_ ["array"];
                                                                Items (schema [
                                                                         Default (AMap []);
                                                                         Ref (ref "k8s.io/api/core/v1.WeightedPodAffinityTerm")])])]])
      ["k8s.io/api/core/v1.PodAffinityTerm"; "k8s.io/api/core/v1.WeightedPodAffinityTerm"].

(** Lines 9044-9104. *)
Definition schema_k8sio_api_core_v1_PodAttachOptions : OpenAPIDefinition R :=
    mkOpenAPIDefinition
      (schema [
        Type_ ["object"];
        Properties [
          ("kind", schema [Type_ ["string"]; Format ""]);
          ("apiVersion", schema [Type_ ["string"]; Format ""]);
          ("stdin", schema [Type_ ["boolean"]; Format ""]);
          ("stdout", schema [Type_ ["boolean"]; Format ""]);
          ("stderr", schema [Type_ ["boolean"]; Format ""]);
          ("tty", schema [Type_ ["boolean"]; Format ""]);
          ("container", schema [Type_ ["string"]; Format ""])]])
      [].

(** Lines 9106-9160. *)
Definition schema_k8sio_api_core_v1_PodCertificateProjection : OpenAPIDefinition R :=
    mkOpenAPIDefinition
      (schema [
        Type_ ["object"];
        Properties [
          ("signerName", schema [Type_ ["string"]; Format ""]);
          ("keyType", schema [Type_ ["string"]; Format ""]);
          ("maxExpirationSeconds", schema [Type_ ["integer"]; Format "int32"]);
          ("credentialBundlePath", schema [Type_ ["string"]; Format ""]);
          ("keyPath", schema [Type_ ["string"]; Format ""]);
          ("certificateChainPath", schema [Type_ ["string"]; Format ""])];
        Required ["signerName"; "keyType"]])
      [].

(** Lines 9162-9225. *)
Definition schema_k8sio_api_core_v1_PodCondition : OpenAPIDefinition R :=
    mkOpenAPIDefinition
      (schema [
        Type_ ["object"];
        Properties [
          ("type", schema [Default (AString ""); Type_ ["string"]; Format ""]);
          ("observedGeneration", schema [Type_ ["integer"]; Format "int64"]);
          ("status", schema [Default (AString ""); Type_ ["string"]; Format ""]);
          ("lastProbeTime", schema [Ref (ref "k8s.io/apimachinery/pkg/apis/meta/v1.Time")]);
          ("lastTransitionTime", schema [Ref (ref "k8s.io/apimachinery/pkg/apis/meta/v1.Time")]);
          ("reason", schema [Type_ ["string"]; Format ""]);
          ("message", schema [Type_ ["string"]; Format ""])];
        Required ["type"; "status"]])
      ["k8s.io/apimachinery/pkg/apis/meta/v1.Time"].

(** Lines 9227-9299. *)
Definition schema_k8sio_api_core_v1_PodDNSConfig : OpenAPIDefinition R :=
    mkOpenAPIDefinition
      (schema [
        Type_ ["object"];
        Properties [
          ("nameservers", schema [
                            Extensions [("x-kubernetes-list-type", AString "atomic")];
                            Type_ ["array"];
                            Items (schema [Default (AString ""); Type_ ["string"]; Format ""])]);
          ("searches", schema [
                         Extensions [("x-kubernetes-list-type", AString "atomic")];
                         Type_ ["array"];
                         Items (schema [Default (AString ""); Type_ ["string"]; Format ""])]);
          ("options", schema [
                        Extensions [("x-kubernetes-list-type", AString "atomic")];
                        Type_ ["array"];
                        Items (schema [Default (AMap []); Ref (ref "k8s.io/api/core/v1.PodDNSConfigOption")])])]])
      ["k8s.io/api/core/v1.PodDNSConfigOption"].

(** Lines 9301-9326. *)
Definition schema_k8sio_api_core_v1_PodDNSConfigOption : OpenAPIDefinition R :=
    mkOpenAPIDefinition
      (schema [
        Type_ ["object"];
        Properties [("name", schema [Type_ ["string"]; Format ""]); ("value", schema [Type_ ["string"]; Format ""])]])
      [].

(** Lines 9328-9409. *)
Definition schema_k8sio_api_core_v1_PodExecOptions : OpenAPIDefinition R :=
    mkOpenAPIDefinition
      (schema [
        Type_ ["object"];
        Properties [
          ("kind", schema [Type_ ["string"]; Format ""]);
          ("apiVersion", schema [Type_ ["string"]; Format ""]);
          ("stdin", schema [Type_ ["boolean"]; Format ""]);
          ("stdout", schema [Type_ ["boolean"]; Format ""]);
          ("stderr", schema [Type_ ["boolean"]; Format ""]);
          ("tty", schema [Type_ ["boolean"]; Format ""]);
          ("container", schema [Type_ ["string"]; Format ""]);
          ("command", schema [
                        Extensions [("x-kubernetes-list-type", AString "atomic")];
                        Type_ ["array"];
                        Items (schema [Default (AString ""); Type_ ["string"]; Format ""])])];
        Required ["command"]])
      [].

(** Lines 9411-9452. *)
Definition schema_k8sio_api_core_v1_PodExtendedResourceClaimStatus : OpenAPIDefinition R :=
    mkOpenAPIDefinition
      (schema [
        Type_ ["object"];
        Properties [
          ("requestMappings", schema [
                                Extensions [("x-kubernetes-list-type", AString "atomic")];
                                Type_ ["array"];
                                Items (schema [
                                         Default (AMap []);
                                         Ref (ref "k8s.io/api/core/v1.ContainerExtendedResourceRequest")])]);
          ("resourceClaimName", schema [Default (AString ""); Type_ ["string"]; Format ""])];
        Required ["requestMappings"; "resourceClaimName"]])
      ["k8s.io/api/core/v1.ContainerExtendedResourceRequest"].

(** Lines 9454-9474. *)
Definition schema_k8sio_api_core_v1_PodIP : OpenAPIDefinition R :=
    mkOpenAPIDefinition
      (schema [
        Type_ ["object"];
        Properties [("ip", schema [Default (AString ""); Type_ ["string"]; Format ""])];
        Required ["ip"]])
      [].

(** Lines 9476-9525. *)
Definition schema_k8sio_api_core_v1_PodList : OpenAPIDefinition R :=
    mkOpenAPIDefinition
      (schema [
        Type_ ["object"];
        Properties [
          ("kind", schema [Type_ ["string"]; Format ""]);
          ("apiVersion", schema [Type_ ["string"]; Format ""]);
          ("metadata", schema [Default (AMap []); Ref (ref "k8s.io/apimachinery/pkg/apis/meta/v1.ListMeta")]);
          ("items", schema [
                      Type_ ["array"];
                      Items (schema [Default (AMap []); Ref (ref "k8s.io/api/core/v1.Pod")])])];
        Required ["items"]])
      ["k8s.io/api/core/v1.Pod"; "k8s.io/apimachinery/pkg/apis/meta/v1.ListMeta"].

(** Lines 9527-9623. *)
Definition schema_k8sio_api_core_v1_PodLogOptions : OpenAPIDefinition R :=
    mkOpenAPIDefinition
      (schema [
        Type_ ["object"];
        Properties [
          ("kind", schema [Type_ ["string"]; Format ""]);
          ("apiVersion", schema [Type_ ["string"]; Format ""]);
          ("container", schema [Type_ ["string"]; Format ""]);
          ("follow", schema [Type_ ["boolean"]; Format ""]);
          ("previous", schema [Type_ ["boolean"]; Format ""]);
          ("sinceSeconds", schema [Type_ ["integer"]; Format "int64"]);
          ("sinceTime", schema [Ref (ref "k8s.io/apimachinery/pkg/apis/meta/v1.Time")]);
          ("timestamps", schema [Type_ ["boolean"]; Format ""]);
          ("tailLines", schema [Type_ ["integer"]; Format "int64"]);
          ("limitBytes", schema [Type_ ["integer"]; Format "int64"]);
          ("insecureSkipTLSVerifyBackend", schema [Type_ ["boolean"]; Format ""]);
          ("stream", schema [Type_ ["string"]; Format ""])]])
      ["k8s.io/apimachinery/pkg/apis/meta/v1.Time"].

(** Lines 9625-9645. *)
Definition schema_k8sio_api_core_v1_PodOS : OpenAPIDefinition R :=
    mkOpenAPIDefinition
      (schema [
        Type_ ["object"];
        Properties [("name", schema [Default (AString ""); Type_ ["string"]; Format ""])];
        Required ["name"]])
      [].

(** Lines 9647-9692. *)
Definition schema_k8sio_api_core_v1_PodPortForwardOptions : OpenAPIDefinition R :=
    mkOpenAPIDefinition
      (schema [
        Type_ ["object"];
        Properties [
          ("kind", schema [Type_ ["string"]; Format ""]);
          ("apiVersion", schema [Type_ ["string"]; Format ""]);
          ("ports", schema [
                      Extensions [("x-kubernetes-list-type", AString "atomic")];
                      Type_ ["array"];
                      Items (schema [Default (AInt 0); Type_ ["integer"]; Format "int32"])])]])
      [].

(** Lines 9694-9726. *)
Definition schema_k8sio_api_core_v1_PodProxyOptions : OpenAPIDefinition R :=
    mkOpenAPIDefinition
      (schema [
        Type_ ["object"];
        Properties [
          ("kind", schema [Type_ ["string"]; Format ""]);
          ("apiVersion", schema [Type_ ["string"]; Format ""]);
          ("path", schema [Type_ ["string"]; Format ""])]])
      [].

(** Lines 9728-9748. *)
Definition schema_k8sio_api_core_v1_PodReadinessGate : OpenAPIDefinition R :=
    mkOpenAPIDefinition
      (schema [
        Type_ ["object"];
        Properties [("conditionType", schema [Default (AString ""); Type_ ["string"]; Format ""])];
        Required ["conditionType"]])
      [].

(** Lines 9750-9784. *)
Definition schema_k8sio_api_core_v1_PodResourceClaim : OpenAPIDefinition R :=
    mkOpenAPIDefinition
      (schema [
        Type_ ["object"];
        Properties [
          ("name", schema [Default (AString ""); Type_ ["string"]; Format ""]);
          ("resourceClaimName", schema [Type_ ["string"]; Format ""]);
          ("resourceClaimTemplateName", schema [Type_ ["string"]; Format ""])];
        Required ["name"]])
      [].

(** Lines 9786-9813. *)
Definition schema_k8sio_api_core_v1_PodResourceClaimStatus : OpenAPIDefinition R :=
    mkOpenAPIDefinition
      (schema [
        Type_ ["object"];
        Properties [
          ("name", schema [Default (AString ""); Type_ ["string"]; Format ""]);
          ("resourceClaimName", schema [Type_ ["string"]; Format ""])];
        Required ["name"]])
      [].

(** Lines 9815-9835. *)
Definition schema_k8sio_api_core_v1_PodSchedulingGate : OpenAPIDefinition R :=
    mkOpenAPIDefinition
      (schema [
        Type_ ["object"];
        Properties [("name", schema [Default (AString ""); Type_ ["string"]; Format ""])];
        Required ["name"]])
      [].

(** Lines 9837-9964. *)
Definition schema_k8sio_api_core_v1_PodSecurityContext : OpenAPIDefinition R :=
    mkOpenAPIDefinition
      (schema [
        Type_ ["object"];
        Properties [
          ("seLinuxOptions", schema [Ref (ref "k8s.io/api/core/v1.SELinuxOptions")]);
          ("windowsOptions", schema [Ref (ref "k8s.io/api/core/v1.WindowsSecurityContextOptions")]);
          ("runAsUser", schema [Type_ ["integer"]; Format "int64"]);
          ("runAsGroup", schema [Type_ ["integer"]; Format "int64"]);
          ("runAsNonRoot", schema [Type_ ["boolean"]; Format ""]);
          ("supplementalGroups", schema [
                                   Extensions [("x-kubernetes-list-type", AString "atomic")];
                                   Type_ ["array"];
                                   Items (schema [Default (AInt 0); Type_ ["integer"]; Format "int64"])]);
          ("supplementalGroupsPolicy", schema [
                                         Type_ ["string"];
                                         Format "";
                                         Enum [AString "Merge"; AString "Strict"]]);
          ("fsGroup", schema [Type_ ["integer"]; Format "int64"]);
          ("sysctls", schema [
                        Extensions [("x-kubernetes-list-type", AString "atomic")];
                        Type_ ["array"];
                        Items (schema [Default (AMap []); Ref (ref "k8s.io/api/core/v1.Sysctl")])]);
          ("fsGroupChangePolicy", schema [
                                    Type_ ["string"];
                                    Format "";
                                    Enum [AString "Always"; AString "OnRootMismatch"]]);
          ("seccompProfile", schema [Ref (ref "k8s.io/api/core/v1.SeccompProfile")]);
          ("appArmorProfile", schema [Ref (ref "k8s.io/api/core/v1.AppArmorProfile")]);
          ("seLinuxChangePolicy", schema [Type_ ["string"]; Format ""])]])
        ["k8s.io/api/core/v1.AppArmorProfile"; "k8s.io/api/core/v1.SELinuxOptions";
         "k8s.io/api/core/v1.SeccompProfile"; "k8s.io/api/core/v1.Sysctl";
         "k8s.io/api/core/v1.WindowsSecurityContextOptions"].

(** Lines 9966-9985. *)
Definition schema_k8sio_api_core_v1_PodSignature : OpenAPIDefinition R :=
    mkOpenAPIDefinition
      (schema [
        Type_ ["object"];
        Properties [("podController", schema [Ref (ref "k8s.io/apimachinery/pkg/apis/meta/v1.OwnerReference")])]])
      ["k8s.io/apimachinery/pkg/apis/meta/v1.OwnerReference"].

(** Lines 9987-10485. *)
Definition schema_k8sio_api_core_v1_PodSpec : OpenAPIDefinition R :=
    mkOpenAPIDefinition
      (schema [
        Type_ ["object"];
        Properties [
          ("volumes", schema [
                        Extensions [
                          ("x-kubernetes-list-map-keys", ASlice [AString "name"]);
                          ("x-kubernetes-list-type", AString "map");
                          ("x-kubernetes-patch-merge-key", AString "name");
                          ("x-kubernetes-patch-strategy", AString "merge,retainKeys")];
                        Type_ ["array"];
                        Items (schema [Default (AMap []); Ref (ref "k8s.io/api/core/v1.Volume")])]);
          ("initContainers", schema [
                               Extensions [
                                 ("x-kubernetes-list-map-keys", ASlice [AString "name"]);
                                 ("x-kubernetes-list-type", AString "map");
                                 ("x-kubernetes-patch-merge-key", AString "name");
                                 ("x-kubernetes-patch-strategy", AString "merge")];
                               Type_ ["array"];
                               Items (schema [Default (AMap []); Ref (ref "k8s.io/api/core/v1.Container")])]);
          ("containers", schema [
                           Extensions [
                             ("x-kubernetes-list-map-keys", ASlice [AString "name"]);
                             ("x-kubernetes-list-type", AString "map");
                             ("x-kubernetes-patch-merge-key", AString "name");
                             ("x-kubernetes-patch-strategy", AString "merge")];
                           Type_ ["array"];
                           Items (schema [Default (AMap []); Ref (ref "k8s.io/api/core/v1.Container")])]);
          ("ephemeralContainers", schema [
                                    Extensions [
                                      ("x-kubernetes-list-map-keys", ASlice [AString "name"]);
                                      ("x-kubernetes-list-type", AString "map");
                                      ("x-kubernetes-patch-merge-key", AString "name");
                                      ("x-kubernetes-patch-strategy", AString "merge")];
                                    Type_ ["array"];
                                    Items (schema [
                                             Default (AMap []);
                                             Ref (ref "k8s.io/api/core/v1.EphemeralContainer")])]);
          ("restartPolicy", schema [
                              Type_ ["string"];
                              Format "";
                              Enum [AString "Always"; AString "Never"; AString "OnFailure"]]);
          ("terminationGracePeriodSeconds", schema [Type_ ["integer"]; Format "int64"]);
          ("activeDeadlineSeconds", schema [Type_ ["integer"]; Format "int64"]);
          ("dnsPolicy", schema [
                          Type_ ["string"];
                          Format "";
                          Enum 
                            [AString "ClusterFirst"; AString "ClusterFirstWithHostNet"; AString "Default";
                             AString "None"]]);
          ("nodeSelector", schema [
                             Extensions [("x-kubernetes-map-type", AString "atomic")];
                             Type_ ["object"];
                             AdditionalProperties (schema [Default (AString ""); Type_ ["string"]; Format ""])]);
          ("serviceAccountName", schema [Type_ ["string"]; Format ""]);
          ("serviceAccount", schema [Type_ ["string"]; Format ""]);
          ("automountServiceAccountToken", schema [Type_ ["boolean"]; Format ""]);
          ("nodeName", schema [Type_ ["string"]; Format ""]);
          ("hostNetwork", schema [Type_ ["boolean"]; Format ""]);
          ("hostPID", schema [Type_ ["boolean"]; Format ""]);
          ("hostIPC", schema [Type_ ["boolean"]; Format ""]);
          ("shareProcessNamespace", schema [Type_ ["boolean"]; Format ""]);
          ("securityContext", schema [Ref (ref "k8s.io/api/core/v1.PodSecurityContext")]);
          ("imagePullSecrets", schema [
                                 Extensions [
                                   ("x-kubernetes-list-map-keys", ASlice [AString "name"]);
                                   ("x-kubernetes-list-type", AString "map");
                                   ("x-kubernetes-patch-merge-key", AString "name");
                                   ("x-kubernetes-patch-strategy", AString "merge")];
                                 Type_ ["array"];
                                 Items (schema [
                                          Default (AMap []);
                                          Ref (ref "k8s.io/api/core/v1.LocalObjectReference")])]);
          ("hostname", schema [Type_ ["string"]; Format ""]);
          ("subdomain", schema [Type_ ["string"]; Format ""]);
          ("affinity", schema [Ref (ref "k8s.io/api/core/v1.Affinity")]);
          ("schedulerName", schema [Type_ ["string"]; Format ""]);
          ("tolerations", schema [
                            Extensions [("x-kubernetes-list-type", AString "atomic")];
                            Type_ ["array"];
                            Items (schema [Default (AMap []); Ref (ref "k8s.io/api/core/v1.Toleration")])]);
          ("hostAliases", schema [
                            Extensions [
                              ("x-kubernetes-list-map-keys", ASlice [AString "ip"]);
                              ("x-kubernetes-list-type", AString "map");
                              ("x-kubernetes-patch-merge-key", AString "ip");
                              ("x-kubernetes-patch-strategy", AString "merge")];
                            Type_ ["array"];
                            Items (schema [Default (AMap []); Ref (ref "k8s.io/api/core/v1.HostAlias")])]);
          ("priorityClassName", schema [Type_ ["string"]; Format ""]);
          ("priority", schema [Type_ ["integer"]; Format "int32"]);
          ("dnsConfig", schema [Ref (ref "k8s.io/api/core/v1.PodDNSConfig")]);
          ("readinessGates", schema [
                               Extensions [("x-kubernetes-list-type", AString "atomic")];
                               Type_ ["array"];
                               Items (schema [Default (AMap []); Ref (ref "k8s.io/api/core/v1.PodReadinessGate")])]);
          ("runtimeClassName", schema [Type_ ["string"]; Format ""]);
          ("enableServiceLinks", schema [Type_ ["boolean"]; Format ""]);
          ("preemptionPolicy", schema [
                                 Type_ ["string"];
                                 Format "";
                                 Enum [AString "Never"; AString "PreemptLowerPriority"]]);
          ("overhead", schema [
                         Type_ ["object"];
                         AdditionalProperties (schema [Ref (ref "k8s.io/apimachinery/pkg/api/resource.Quantity")])]);
          ("topologySpreadConstraints", schema [
                                          Extensions [
                                            ("x-kubernetes-list-map-keys", ASlice 
                                                                             [AString "topologyKey";
                                                                              AString "whenUnsatisfiable"]);
                                            ("x-kubernetes-list-type", AString "map");
                                            ("x-kubernetes-patch-merge-key", AString "topologyKey");
                                            ("x-kubernetes-patch-strategy", AString "merge")];
                                          Type_ ["array"];
                                          Items (schema [
                                                   Default (AMap []);
                                                   Ref (ref "k8s.io/api/core/v1.TopologySpreadConstraint")])]);
          ("setHostnameAsFQDN", schema [Type_ ["boolean"]; Format ""]);
          ("os", schema [Ref (ref "k8s.io/api/core/v1.PodOS")]);
          ("hostUsers", schema [Type_ ["boolean"]; Format ""]);
          ("schedulingGates", schema [
                                Extensions [
                                  ("x-kubernetes-list-map-keys", ASlice [AString "name"]);
                                  ("x-kubernetes-list-type", AString "map");
                                  ("x-kubernetes-patch-merge-key", AString "name");
                                  ("x-kubernetes-patch-strategy", AString "merge")];
                                Type_ ["array"];
                                Items (schema [Default (AMap []); Ref (ref "k8s.io/api/core/v1.PodSchedulingGate")])]);
          ("resourceClaims", schema [
                               Extensions [
                                 ("x-kubernetes-list-map-keys", ASlice [AString "name"]);
                                 ("x-kubernetes-list-type", AString "map");
                                 ("x-kubernetes-patch-merge-key", AString "name");
                                 ("x-kubernetes-patch-strategy", AString "merge,retainKeys")];
                               Type_ ["array"];
                               Items (schema [Default (AMap []); Ref (ref "k8s.io/api/core/v1.PodResourceClaim")])]);
          ("resources", schema [Ref (ref "k8s.io/api/core/v1.ResourceRequirements")]);
          ("hostnameOverride", schema [Type_ ["string"]; Format ""])];
        Required ["containers"]])
        ["k8s.io/api/core/v1.Affinity"; "k8s.io/api/core/v1.Container";
         "k8s.io/api/core/v1.EphemeralContainer"; "k8s.io/api/core/v1.HostAlias";
         "k8s.io/api/core/v1.LocalObjectReference"; "k8s.io/api/core/v1.PodDNSConfig";
         "k8s.io/api/core/v1.PodOS"; "k8s.io/api/core/v1.PodReadinessGate";
         "k8s.io/api/core/v1.PodResourceClaim"; "k8s.io/api/core/v1.PodSchedulingGate";
         "k8s.io/api/core/v1.PodSecurityContext"; "k8s.io/api/core/v1.ResourceRequirements";
         "k8s.io/api/core/v1.Toleration"; "k8s.io/api/core/v1.TopologySpreadConstraint";
         "k8s.io/api/core/v1.Volume"; "k8s.io/apimachinery/pkg/api/resource.Quantity"].

(** Lines 10487-10727. *)
Definition schema_k8sio_api_core_v1_PodStatus : OpenAPIDefinition R :=
    mkOpenAPIDefinition
      (schema [
        Type_ ["object"];
        Properties [
          ("observedGeneration", schema [Type_ ["integer"]; Format "int64"]);
          ("phase", schema [
                      Type_ ["string"];
                      Format "";
                      Enum 
                        [AString "Failed"; AString "Pending"; AString "Running"; AString "Succeeded";
                         AString "Unknown"]]);
          ("conditions", schema [
                           Extensions [
                             ("x-kubernetes-list-map-keys", ASlice [AString "type"]);
                             ("x-kubernetes-list-type", AString "map");
                             ("x-kubernetes-patch-merge-key", AString "type");
                             ("x-kubernetes-patch-strategy", AString "merge")];
                           Type_ ["array"];
                           Items (schema [Default (AMap []); Ref (ref "k8s.io/api/core/v1.PodCondition")])]);
          ("message", schema [Type_ ["string"]; Format ""]);
          ("reason", schema [Type_ ["string"]; Format ""]);
          ("nominatedNodeName", schema [Type_ ["string"]; Format ""]);
          ("hostIP", schema [Type_ ["string"]; Format ""]);
          ("hostIPs", schema [
                        Extensions [
                          ("x-kubernetes-list-type", AString "atomic");
                          ("x-kubernetes-patch-merge-key", AString "ip");
                          ("x-kubernetes-patch-strategy", AString "merge")];
                        Type_ ["array"];
                        Items (schema [Default (AMap []); Ref (ref "k8s.io/api/core/v1.HostIP")])]);
          ("podIP", schema [Type_ ["string"]; Format ""]);
          ("podIPs", schema [
                       Extensions [
                         ("x-kubernetes-list-map-keys", ASlice [AString "ip"]);
                         ("x-kubernetes-list-type", AString "map");
                         ("x-kubernetes-patch-merge-key", AString "ip");
                         ("x-kubernetes-patch-strategy", AString "merge")];
                       Type_ ["array"];
                       Items (schema [Default (AMap []); Ref (ref "k8s.io/api/core/v1.PodIP")])]);
          ("startTime", schema [Ref (ref "k8s.io/apimachinery/pkg/apis/meta/v1.Time")]);
          ("initContainerStatuses", schema [
                                      Extensions [("x-kubernetes-list-type", AString "atomic")];
                                      Type_ ["array"];
                                      Items (schema [
                                               Default (AMap []);
                                               Ref (ref "k8s.io/api/core/v1.ContainerStatus")])]);
          ("containerStatuses", schema [
                                  Extensions [("x-kubernetes-list-type", AString "atomic")];
                                  Type_ ["array"];
                                  Items (schema [Default (AMap []); Ref (ref "k8s.io/api/core/v1.ContainerStatus")])]);
          ("qosClass", schema [
                         Type_ ["string"];
                         Format "";
                         Enum [AString "BestEffort"; AString "Burstable"; AString "Guaranteed"]]);
          ("ephemeralContainerStatuses", schema [
                                           Extensions [("x-kubernetes-list-type", AString "atomic")];
                                           Type_ ["array"];
                                           Items (schema [
                                                    Default (AMap []);
                                                    Ref (ref "k8s.io/api/core/v1.ContainerStatus")])]);
          ("resize", schema [Type_ ["string"]; Format ""]);
          ("resourceClaimStatuses", schema [
                                      Extensions [
                                        ("x-kubernetes-list-map-keys", ASlice [AString "name"]);
                                        ("x-kubernetes-list-type", AString "map");
                                        ("x-kubernetes-patch-merge-key", AString "name");
                                        ("x-kubernetes-patch-strategy", AString "merge,retainKeys")];
                                      Type_ ["array"];
                                      Items (schema [
                                               Default (AMap []);
                                               Ref (ref "k8s.io/api/core/v1.PodResourceClaimStatus")])]);
          ("extendedResourceClaimStatus", schema [Ref (ref "k8s.io/api/core/v1.PodExtendedResourceClaimStatus")])]])
        ["k8s.io/api/core/v1.ContainerStatus"; "k8s.io/api/core/v1.HostIP";
         "k8s.io/api/core/v1.PodCondition"; "k8s.io/api/core/v1.PodExtendedResourceClaimStatus";
         "k8s.io/api/core/v1.PodIP"; "k8s.io/api/core/v1.PodResourceClaimStatus";
         "k8s.io/apimachinery/pkg/apis/meta/v1.Time"].

(** Lines 10729-10770. *)
Definition schema_k8sio_api_core_v1_PodStatusResult : OpenAPIDefinition R :=
    mkOpenAPIDefinition
      (schema [
        Type_ ["object"];
        Properties [
          ("kind", schema [Type_ ["string"]; Format ""]);
          ("apiVersion", schema [Type_ ["string"]; Format ""]);
          ("metadata", schema [Default (AMap []); Ref (ref "k8s.io/apimachinery/pkg/apis/meta/v1.ObjectMeta")]);
          ("status", schema [Default (AMap []); Ref (ref "k8s.io/api/core/v1.PodStatus")])]])
      ["k8s.io/api/core/v1.PodStatus"; "k8s.io/apimachinery/pkg/apis/meta/v1.ObjectMeta"].

(** Lines 10772-10813. *)
Definition schema_k8sio_api_core_v1_PodTemplate : OpenAPIDefinition R :=
    mkOpenAPIDefinition
      (schema [
        Type_ ["object"];
        Properties [
          ("kind", schema [Type_ ["string"]; Format ""]);
          ("apiVersion", schema [Type_ ["string"]; Format ""]);
          ("metadata", schema [Default (AMap []); Ref (ref "k8s.io/apimachinery/pkg/apis/meta/v1.ObjectMeta")]);
          ("template", schema [Default (AMap []); Ref (ref "k8s.io/api/core/v1.PodTemplateSpec")])]])
      ["k8s.io/api/core/v1.PodTemplateSpec"; "k8s.io/apimachinery/pkg/apis/meta/v1.ObjectMeta"].

(** Lines 10815-10864. *)
Definition schema_k8sio_api_core_v1_PodTemplateList : OpenAPIDefinition R :=
    mkOpenAPIDefinition
      (schema [
        Type_ ["object"];
        Properties [
          ("kind", schema [Type_ ["string"]; Format ""]);
          ("apiVersion", schema [Type_ ["string"]; Format ""]);
          ("metadata", schema [Default (AMap []); Ref (ref "k8s.io/apimachinery/pkg/apis/meta/v1.ListMeta")]);
          ("items", schema [
                      Type_ ["array"];
                      Items (schema [Default (AMap []); Ref (ref "k8s.io/api/core/v1.PodTemplate")])])];
        Required ["items"]])
      ["k8s.io/api/core/v1.PodTemplate"; "k8s.io/apimachinery/pkg/apis/meta/v1.ListMeta"].

(** Lines 10866-10893. *)
Definition schema_k8sio_api_core_v1_PodTemplateSpec : OpenAPIDefinition R :=
    mkOpenAPIDefinition
      (schema [
        Type_ ["object"];
        Properties [
          ("metadata", schema [Default (AMap []); Ref (ref "k8s.io/apimachinery/pkg/apis/meta/v1.ObjectMeta")]);
          ("spec", schema [Default (AMap []); Ref (ref "k8s.io/api/core/v1.PodSpec")])]])
      ["k8s.io/api/core/v1.PodSpec"; "k8s.io/apimachinery/pkg/apis/meta/v1.ObjectMeta"].

(** Lines 10895-10931. *)
Definition schema_k8sio_api_core_v1_PortStatus : OpenAPIDefinition R :=
    mkOpenAPIDefinition
      (schema [
        Type_ ["object"];
        Properties [
          ("port", schema [Default (AInt 0); Type_ ["integer"]; Format "int32"]);
          ("protocol", schema [
                         Default (AString "");
                         Type_ ["string"];
                         Format "";
                         Enum [AString "SCTP"; AString "TCP"; AString "UDP"]]);
          ("error", schema [Type_ ["string"]; Format ""])];
        Required ["port"; "protocol"]])
      [].

(** Lines 10933-10967. *)
Definition schema_k8sio_api_core_v1_PortworxVolumeSource : OpenAPIDefinition R :=
    mkOpenAPIDefinition
      (schema [
        Type_ ["object"];
        Properties [
          ("volumeID", schema [Default (AString ""); Type_ ["string"]; Format ""]);
          ("fsType", schema [Type_ ["string"]; Format ""]);
          ("readOnly", schema [Type_ ["boolean"]; Format ""])];
        Required ["volumeID"]])
      [].

(** Lines 10969-11010. *)
Definition schema_k8sio_api_core_v1_PreferAvoidPodsEntry : OpenAPIDefinition R :=
    mkOpenAPIDefinition
      (schema [
        Type_ ["object"];
        Properties [
          ("podSignature", schema [Default (AMap []); Ref (ref "k8s.io/api/core/v1.PodSignature")]);
          ("evictionTime", schema [Ref (ref "k8s.io/apimachinery/pkg/apis/meta/v1.Time")]);
          ("reason", schema [Type_ ["string"]; Format ""]);
          ("message", schema [Type_ ["string"]; Format ""])];
        Required ["podSignature"]])
      ["k8s.io/api/core/v1.PodSignature"; "k8s.io/apimachinery/pkg/apis/meta/v1.Time"].

(** Lines 11012-11041. *)
Definition schema_k8sio_api_core_v1_PreferredSchedulingTerm : OpenAPIDefinition R :=
    mkOpenAPIDefinition
      (schema [
        Type_ ["object"];
        Properties [
          ("weight", schema [Default (AInt 0); Type_ ["integer"]; Format "int32"]);
          ("preference", schema [Default (AMap []); Ref (ref "k8s.io/api/core/v1.NodeSelectorTerm")])];
        Required ["weight"; "preference"]])
      ["k8s.io/api/core/v1.NodeSelectorTerm"].

(** Lines 11043-11122. *)
Definition schema_k8sio_api_core_v1_Probe : OpenAPIDefinition R :=
    mkOpenAPIDefinition
      (schema [
        Type_ ["object"];
        Properties [
          ("exec", schema [Ref (ref "k8s.io/api/core/v1.ExecAction")]);
          ("httpGet", schema [Ref (ref "k8s.io/api/core/v1.HTTPGetAction")]);
          ("tcpSocket", schema [Ref (ref "k8s.io/api/core/v1.TCPSocketAction")]);
          ("grpc", schema [Ref (ref "k8s.io/api/core/v1.GRPCAction")]);
          ("initialDelaySeconds", schema [Type_ ["integer"]; Format "int32"]);
          ("timeoutSeconds", schema [Type_ ["integer"]; Format "int32"]);
          ("periodSeconds", schema [Type_ ["integer"]; Format "int32"]);
          ("successThreshold", schema [Type_ ["integer"]; Format "int32"]);
          ("failureThreshold", schema [Type_ ["integer"]; Format "int32"]);
          ("terminationGracePeriodSeconds", schema [Type_ ["integer"]; Format "int64"])]])
        ["k8s.io/api/core/v1.ExecAction"; "k8s.io/api/core/v1.GRPCAction";
         "k8s.io/api/core/v1.HTTPGetAction"; "k8s.io/api/core/v1.TCPSocketAction"].

(** Lines 11124-11161. *)
Definition schema_k8sio_api_core_v1_ProbeHandler : OpenAPIDefinition R :=
    mkOpenAPIDefinition
      (schema [
        Type_ ["object"];
        Properties [
          ("exec", schema [Ref (ref "k8s.io/api/core/v1.ExecAction")]);
          ("httpGet", schema [Ref (ref "k8s.io/api/core/v1.HTTPGetAction")]);
          ("tcpSocket", schema [Ref (ref "k8s.io/api/core/v1.TCPSocketAction")]);
          ("grpc", schema [Ref (ref "k8s.io/api/core/v1.GRPCAction")])]])
        ["k8s.io/api/core/v1.ExecAction"; "k8s.io/api/core/v1.GRPCAction";
         "k8s.io/api/core/v1.HTTPGetAction"; "k8s.io/api/core/v1.TCPSocketAction"].

(** Lines 11163-11202. *)
Definition schema_k8sio_api_core_v1_ProjectedVolumeSource : OpenAPIDefinition R :=
    mkOpenAPIDefinition
      (schema [
        Type_ ["object"];
        Properties [
          ("sources", schema [
                        Extensions [("x-kubernetes-list-type", AString "atomic")];
                        Type_ ["array"];
                        Items (schema [Default (AMap []); Ref (ref "k8s.io/api/core/v1.VolumeProjection")])]);
          ("defaultMode", schema [Type_ ["integer"]; Format "int32"])]])
      ["k8s.io/api/core/v1.VolumeProjection"].

(** Lines 11204-11260. *)
Definition schema_k8sio_api_core_v1_QuobyteVolumeSource : OpenAPIDefinition R :=
    mkOpenAPIDefinition
      (schema [
        Type_ ["object"];
        Properties [
          ("registry", schema [Default (AString ""); Type_ ["string"]; Format ""]);
          ("volume", schema [Default (AString ""); Type_ ["string"]; Format ""]);
          ("readOnly", schema [Type_ ["boolean"]; Format ""]);
          ("user", schema [Type_ ["string"]; Format ""]);
          ("group", schema [Type_ ["string"]; Format ""]);
          ("tenant", schema [Type_ ["string"]; Format ""])];
        Required ["registry"; "volume"]])
      [].

(** Lines 11262-11348. *)
Definition schema_k8sio_api_core_v1_RBDPersistentVolumeSource : OpenAPIDefinition R :=
    mkOpenAPIDefinition
      (schema [
        Type_ ["object"];
        Properties [
          ("monitors", schema [
                         Extensions [("x-kubernetes-list-type", AString "atomic")];
                         Type_ ["array"];
                         Items (schema [Default (AString ""); Type_ ["string"]; Format ""])]);
          ("image", schema [Default (AString ""); Type_ ["string"]; Format ""]);
          ("fsType", schema [Type_ ["string"]; Format ""]);
          ("pool", schema [Default (AString "rbd"); Type_ ["string"]; Format ""]);
          ("user", schema [Default (AString "admin"); Type_ ["string"]; Format ""]);
          ("keyring", schema [Default (AString "/etc/ceph/keyring"); Type_ ["string"]; Format ""]);
          ("secretRef", schema [Ref (ref "k8s.io/api/core/v1.SecretReference")]);
          ("readOnly", schema [Type_ ["boolean"]; Format ""])];
        Required ["monitors"; "image"]])
      ["k8s.io/api/core/v1.SecretReference"].

(** Lines 11350-11436. *)
Definition schema_k8sio_api_core_v1_RBDVolumeSource : OpenAPIDefinition R :=
    mkOpenAPIDefinition
      (schema [
        Type_ ["object"];
        Properties [
          ("monitors", schema [
                         Extensions [("x-kubernetes-list-type", AString "atomic")];
                         Type_ ["array"];
                         Items (schema [Default (AString ""); Type_ ["string"]; Format ""])]);
          ("image", schema [Default (AString ""); Type_ ["string"]; Format ""]);
          ("fsType", schema [Type_ ["string"]; Format ""]);
          ("pool", schema [Default (AString "rbd"); Type_ ["string"]; Format ""]);
          ("user", schema [Default (AString "admin"); Type_ ["string"]; Format ""]);
          ("keyring", schema [Default (AString "/etc/ceph/keyring"); Type_ ["string"]; Format ""]);
          ("secretRef", schema [Ref (ref "k8s.io/api/core/v1.LocalObjectReference")]);
          ("readOnly", schema [Type_ ["boolean"]; Format ""])];
        Required ["monitors"; "image"]])
      ["k8s.io/api/core/v1.LocalObjectReference"].

(** Lines 11438-11488. *)
Definition schema_k8sio_api_core_v1_RangeAllocation : OpenAPIDefinition R :=
    mkOpenAPIDefinition
      (schema [
        Type_ ["object"];
        Properties [
          ("kind", schema [Type_ ["string"]; Format ""]);
          ("apiVersion", schema [Type_ ["string"]; Format ""]);
          ("metadata", schema [Default (AMap []); Ref (ref "k8s.io/apimachinery/pkg/apis/meta/v1.ObjectMeta")]);
          ("range", schema [Default (AString ""); Type_ ["string"]; Format ""]);
          ("data", schema [Type_ ["string"]; Format "byte"])];
        Required ["range"; "data"]])
      ["k8s.io/apimachinery/pkg/apis/meta/v1.ObjectMeta"].

(** Lines 11490-11538. *)
Definition schema_k8sio_api_core_v1_ReplicationController : OpenAPIDefinition R :=
    mkOpenAPIDefinition
      (schema [
        Type_ ["object"];
        Properties [
          ("kind", schema [Type_ ["string"]; Format ""]);
          ("apiVersion", schema [Type_ ["string"]; Format ""]);
          ("metadata", schema [Default (AMap []); Ref (ref "k8s.io/apimachinery/pkg/apis/meta/v1.ObjectMeta")]);
          ("spec", schema [Default (AMap []); Ref (ref "k8s.io/api/core/v1.ReplicationControllerSpec")]);
          ("status", schema [Default (AMap []); Ref (ref "k8s.io/api/core/v1.ReplicationControllerStatus")])]])
        ["k8s.io/api/core/v1.ReplicationControllerSpec"; "k8s.io/api/core/v1.ReplicationControllerStatus";
         "k8s.io/apimachinery/pkg/apis/meta/v1.ObjectMeta"].

(** Lines 11540-11590. *)
Definition schema_k8sio_api_core_v1_ReplicationControllerCondition : OpenAPIDefinition R :=
    mkOpenAPIDefinition
      (schema [
        Type_ ["object"];
        Properties [
          ("type", schema [Default (AString ""); Type_ ["string"]; Format ""]);
          ("status", schema [Default (AString ""); Type_ ["string"]; Format ""]);
          ("lastTransitionTime", schema [Ref (ref "k8s.io/apimachinery/pkg/apis/meta/v1.Time")]);
          ("reason", schema [Type_ ["string"]; Format ""]);
          ("message", schema [Type_ ["string"]; Format ""])];
        Required ["type"; "status"]])
      ["k8s.io/apimachinery/pkg/apis/meta/v1.Time"].

(** Lines 11592-11641. *)
Definition schema_k8sio_api_core_v1_ReplicationControllerList : OpenAPIDefinition R :=
    mkOpenAPIDefinition
      (schema [
        Type_ ["object"];
        Properties [
          ("kind", schema [Type_ ["string"]; Format ""]);
          ("apiVersion", schema [Type_ ["string"]; Format ""]);
          ("metadata", schema [Default (AMap []); Ref (ref "k8s.io/apimachinery/pkg/apis/meta/v1.ListMeta")]);
          ("items", schema [
                      Type_ ["array"];
                      Items (schema [Default (AMap []); Ref (ref "k8s.io/api/core/v1.ReplicationController")])])];
        Required ["items"]])
      ["k8s.io/api/core/v1.ReplicationController"; "k8s.io/apimachinery/pkg/apis/meta/v1.ListMeta"].

(** Lines 11643-11699. *)
Definition schema_k8sio_api_core_v1_ReplicationControllerSpec : OpenAPIDefinition R :=
    mkOpenAPIDefinition
      (schema [
        Type_ ["object"];
        Properties [
          ("replicas", schema [Default (AInt 1); Type_ ["integer"]; Format "int32"]);
          ("minReadySeconds", schema [Default (AInt 0); Type_ ["integer"]; Format "int32"]);
          ("selector", schema [
                         Extensions [("x-kubernetes-map-type", AString "atomic")];
                         Type_ ["object"];
                         AdditionalProperties (schema [Default (AString ""); Type_ ["string"]; Format ""])]);
          ("template", schema [Ref (ref "k8s.io/api/core/v1.PodTemplateSpec")])]])
      ["k8s.io/api/core/v1.PodTemplateSpec"].

(** The entries of [GetOpenAPIDefinitions] for the above. *)
Definition coreDefinitions3 : list (string * OpenAPIDefinition R) :=
  [ ("k8s.io/api/core/v1.PersistentVolumeClaimTemplate", schema_k8sio_api_core_v1_PersistentVolumeClaimTemplate);
    ("k8s.io/api/core/v1.PersistentVolumeClaimVolumeSource", schema_k8sio_api_core_v1_PersistentVolumeClaimVolumeSource);
    ("k8s.io/api/core/v1.PersistentVolumeList", schema_k8sio_api_core_v1_PersistentVolumeList);
    ("k8s.io/api/core/v1.PersistentVolumeSource", schema_k8sio_api_core_v1_PersistentVolumeSource);
    ("k8s.io/api/core/v1.PersistentVolumeSpec", schema_k8sio_api_core_v1_PersistentVolumeSpec);
    ("k8s.io/api/core/v1.PersistentVolumeStatus", schema_k8sio_api_core_v1_PersistentVolumeStatus);
    ("k8s.io/api/core/v1.PhotonPersistentDiskVolumeSource", schema_k8sio_api_core_v1_PhotonPersistentDiskVolumeSource);
    ("k8s.io/api/core/v1.Pod", schema_k8sio_api_core_v1_Pod);
    ("k8s.io/api/core/v1.PodAffinity", schema_k8sio_api_core_v1_PodAffinity);
    ("k8s.io/api/core/v1.PodAffinityTerm", schema_k8sio_api_core_v1_PodAffinityTerm);
    ("k8s.io/api/core/v1.PodAntiAffinity", schema_k8sio_api_core_v1_PodAntiAffinity);
    ("k8s.io/api/core/v1.PodAttachOptions", schema_k8sio_api_core_v1_PodAttachOptions);
    ("k8s.io/api/core/v1.PodCertificateProjection", schema_k8sio_api_core_v1_PodCertificateProjection);
    ("k8s.io/api/core/v1.PodCondition", schema_k8sio_api_core_v1_PodCondition);
    ("k8s.io/api/core/v1.PodDNSConfig", schema_k8sio_api_core_v1_PodDNSConfig);
    ("k8s.io/api/core/v1.PodDNSConfigOption", schema_k8sio_api_core_v1_PodDNSConfigOption);
    ("k8s.io/api/core/v1.PodExecOptions", schema_k8sio_api_core_v1_PodExecOptions);
    ("k8s.io/api/core/v1.PodExtendedResourceClaimStatus", schema_k8sio_api_core_v1_PodExtendedResourceClaimStatus);
    ("k8s.io/api/core/v1.PodIP", schema_k8sio_api_core_v1_PodIP);
    ("k8s.io/api/core/v1.PodList", schema_k8sio_api_core_v1_PodList);
    ("k8s.io/api/core/v1.PodLogOptions", schema_k8sio_api_core_v1_PodLogOptions);
    ("k8s.io/api/core/v1.PodOS", schema_k8sio_api_core_v1_PodOS);
    ("k8s.io/api/core/v1.PodPortForwardOptions", schema_k8sio_api_core_v1_PodPortForwardOptions);
    ("k8s.io/api/core/v1.PodProxyOptions", schema_k8sio_api_core_v1_PodProxyOptions);
    ("k8s.io/api/core/v1.PodReadinessGate", schema_k8sio_api_core_v1_PodReadinessGate);
    ("k8s.io/api/core/v1.PodResourceClaim", schema_k8sio_api_core_v1_PodResourceClaim);
    ("k8s.io/api/core/v1.PodResourceClaimStatus", schema_k8sio_api_core_v1_PodResourceClaimStatus);
    ("k8s.io/api/core/v1.PodSchedulingGate", schema_k8sio_api_core_v1_PodSchedulingGate);
    ("k8s.io/api/core/v1.PodSecurityContext", schema_k8sio_api_core_v1_PodSecurityContext);
    ("k8s.io/api/core/v1.PodSignature", schema_k8sio_api_core_v1_PodSignature);
    ("k8s.io/api/core/v1.PodSpec", schema_k8sio_api_core_v1_PodSpec);
    ("k8s.io/api/core/v1.PodStatus", schema_k8sio_api_core_v1_PodStatus);
    ("k8s.io/api/core/v1.PodStatusResult", schema_k8sio_api_core_v1_PodStatusResult);
    ("k8s.io/api/core/v1.PodTemplate", schema_k8sio_api_core_v1_PodTemplate);
    ("k8s.io/api/core/v1.PodTemplateList", schema_k8sio_api_core_v1_PodTemplateList);
    ("k8s.io/api/core/v1.PodTemplateSpec", schema_k8sio_api_core_v1_PodTemplateSpec);
    ("k8s.io/api/core/v1.PortStatus", schema_k8sio_api_core_v1_PortStatus);
    ("k8s.io/api/core/v1.PortworxVolumeSource", schema_k8sio_api_core_v1_PortworxVolumeSource);
    ("k8s.io/api/core/v1.PreferAvoidPodsEntry", schema_k8sio_api_core_v1_PreferAvoidPodsEntry);
    ("k8s.io/api/core/v1.PreferredSchedulingTerm", schema_k8sio_api_core_v1_PreferredSchedulingTerm);
    ("k8s.io/api/core/v1.Probe", schema_k8sio_api_core_v1_Probe);
    ("k8s.io/api/core/v1.ProbeHandler", schema_k8sio_api_core_v1_ProbeHandler);
    ("k8s.io/api/core/v1.ProjectedVolumeSource", schema_k8sio_api_core_v1_ProjectedVolumeSource);
    ("k8s.io/api/core/v1.QuobyteVolumeSource", schema_k8sio_api_core_v1_QuobyteVolumeSource);
    ("k8s.io/api/core/v1.RBDPersistentVolumeSource", schema_k8sio_api_core_v1_RBDPersistentVolumeSource);
    ("k8s.io/api/core/v1.RBDVolumeSource", schema_k8sio_api_core_v1_RBDVolumeSource);
    ("k8s.io/api/core/v1.RangeAllocation", schema_k8sio_api_core_v1_RangeAllocation);
    ("k8s.io/api/core/v1.ReplicationController", schema_k8sio_api_core_v1_ReplicationController);
    ("k8s.io/api/core/v1.ReplicationControllerCondition", schema_k8sio_api_core_v1_ReplicationControllerCondition);
    ("k8s.io/api/core/v1.ReplicationControllerList", schema_k8sio_api_core_v1_ReplicationControllerList);
    ("k8s.io/api/core/v1.ReplicationControllerSpec", schema_k8sio_api_core_v1_ReplicationControllerSpec) ].

End Definitions.
