(* ===== verification/OpenAPICore4.v ===== *)
(** * The schemas of k8s.io/api/core/v1, from ReplicationControllerStatus to WindowsSecurityContextOptions *)

From stdpp Require Import base list strings.
From Stdlib Require Import ZArith.
From S2P Require Import Prelude OpenAPI.

Local Open Scope string_scope.

Section Definitions.
Context {R : Type} {library : OpenAPILibrary R} (ref : string -> R).

(** Lines 11701-11775. *)
Definition schema_k8sio_api_core_v1_ReplicationControllerStatus : OpenAPIDefinition R :=
    mkOpenAPIDefinition
      (schema [
        Type_ ["object"];
        Properties [
          ("replicas", schema [Default (AInt 0); Type_ ["integer"]; Format "int32"]);
          ("fullyLabeledReplicas", schema [Type_ ["integer"]; Format "int32"]);
          ("readyReplicas", schema [Type_ ["integer"]; Format "int32"]);
          ("availableReplicas", schema [Type_ ["integer"]; Format "int32"]);
          ("observedGeneration", schema [Type_ ["integer"]; Format "int64"]);
          ("conditions", schema [
                           Extensions [
                             ("x-kubernetes-list-map-keys", ASlice [AString "type"]);
                             ("x-kubernetes-list-type", AString "map");
                             ("x-kubernetes-patch-merge-key", AString "type");
                             ("x-kubernetes-patch-strategy", AString "merge")];
                           Type_ ["array"];
                           Items (schema [
                                    Default (AMap []);
                                    Ref (ref "k8s.io/api/core/v1.ReplicationControllerCondition")])])];
        Required ["replicas"]])
      ["k8s.io/api/core/v1.ReplicationControllerCondition"].

(** Lines 11777-11804. *)
Definition schema_k8sio_api_core_v1_ResourceClaim : OpenAPIDefinition R :=
    mkOpenAPIDefinition
      (schema [
        Type_ ["object"];
        Properties [
          ("name", schema [Default (AString ""); Type_ ["string"]; Format ""]);
          ("request", schema [Type_ ["string"]; Format ""])];
        Required ["name"]])
      [].

(** Lines 11806-11846. *)
Definition schema_k8sio_api_core_v1_ResourceFieldSelector : OpenAPIDefinition R :=
    mkOpenAPIDefinition
      (schema [
        Type_ ["object"];
        Properties [
          ("containerName", schema [Type_ ["string"]; Format ""]);
          ("resource", schema [Default (AString ""); Type_ ["string"]; Format ""]);
          ("divisor", schema [Ref (ref "k8s.io/apimachinery/pkg/api/resource.Quantity")])];
        Required ["resource"];
        Extensions [("x-kubernetes-map-type", AString "atomic")]])
      ["k8s.io/apimachinery/pkg/api/resource.Quantity"].

(** Lines 11848-11875. *)
Definition schema_k8sio_api_core_v1_ResourceHealth : OpenAPIDefinition R :=
    mkOpenAPIDefinition
      (schema [
        Type_ ["object"];
        Properties [
          ("resourceID", schema [Default (AString ""); Type_ ["string"]; Format ""]);
          ("health", schema [Type_ ["string"]; Format ""])];
        Required ["resourceID"]])
      [].

(** Lines 11877-11925. *)
Definition schema_k8sio_api_core_v1_ResourceQuota : OpenAPIDefinition R :=
    mkOpenAPIDefinition
      (schema [
        Type_ ["object"];
        Properties [
          ("kind", schema [Type_ ["string"]; Format ""]);
          ("apiVersion", schema [Type_ ["string"]; Format ""]);
          ("metadata", schema [Default (AMap []); Ref (ref "k8s.io/apimachinery/pkg/apis/meta/v1.ObjectMeta")]);
          ("spec", schema [Default (AMap []); Ref (ref "k8s.io/api/core/v1.ResourceQuotaSpec")]);
          ("status", schema [Default (AMap []); Ref (ref "k8s.io/api/core/v1.ResourceQuotaStatus")])]])
        ["k8s.io/api/core/v1.ResourceQuotaSpec"; "k8s.io/api/core/v1.ResourceQuotaStatus";
         "k8s.io/apimachinery/pkg/apis/meta/v1.ObjectMeta"].

(** Lines 11927-11976. *)
Definition schema_k8sio_api_core_v1_ResourceQuotaList : OpenAPIDefinition R :=
    mkOpenAPIDefinition
      (schema [
        Type_ ["object"];
        Properties [
          ("kind", schema [Type_ ["string"]; Format ""]);
          ("apiVersion", schema [Type_ ["string"]; Format ""]);
          ("metadata", schema [Default (AMap []); Ref (ref "k8s.io/apimachinery/pkg/apis/meta/v1.ListMeta")]);
          ("items", schema [
                      Type_ ["array"];
                      Items (schema [Default (AMap []); Ref (ref "k8s.io/api/core/v1.ResourceQuota")])])];
        Required ["items"]])
      ["k8s.io/api/core/v1.ResourceQuota"; "k8s.io/apimachinery/pkg/apis/meta/v1.ListMeta"].

(** Lines 11978-12032. *)
Definition schema_k8sio_api_core_v1_ResourceQuotaSpec : OpenAPIDefinition R :=
    mkOpenAPIDefinition
      (schema [
        Type_ ["object"];
        Properties [
          ("hard", schema [
                     Type_ ["object"];
                     AdditionalProperties (schema [Ref (ref "k8s.io/apimachinery/pkg/api/resource.Quantity")])]);
          ("scopes", schema [
                       Extensions [("x-kubernetes-list-type", AString "atomic")];
                       Type_ ["array"];
                       Items (schema [
                                Default (AString "");
                                Type_ ["string"];
                                Format "";
                                Enum 
                                  [AString "BestEffort"; AString "CrossNamespacePodAffinity";
                                   AString "NotBestEffort"; AString "NotTerminating";
                                   AString "PriorityClass"; AString "Terminating";
                                   AString "VolumeAttributesClass"]])]);
          ("scopeSelector", schema [Ref (ref "k8s.io/api/core/v1.ScopeSelector")])]])
      ["k8s.io/api/core/v1.ScopeSelector"; "k8s.io/apimachinery/pkg/api/resource.Quantity"].

(** Lines 12034-12075. *)
Definition schema_k8sio_api_core_v1_ResourceQuotaStatus : OpenAPIDefinition R :=
    mkOpenAPIDefinition
      (schema [
        Type_ ["object"];
        Properties [
          ("hard", schema [
                     Type_ ["object"];
                     AdditionalProperties (schema [Ref (ref "k8s.io/apimachinery/pkg/api/resource.Quantity")])]);
          ("used", schema [
                     Type_ ["object"];
                     AdditionalProperties (schema [Ref (ref "k8s.io/apimachinery/pkg/api/resource.Quantity")])])]])
      ["k8s.io/apimachinery/pkg/api/resource.Quantity"].

(** Lines 12077-12140. *)
Definition schema_k8sio_api_core_v1_ResourceRequirements : OpenAPIDefinition R :=
    mkOpenAPIDefinition
      (schema [
        Type_ ["object"];
        Properties [
          ("limits", schema [
                       Type_ ["object"];
                       AdditionalProperties (schema [Ref (ref "k8s.io/apimachinery/pkg/api/resource.Quantity")])]);
          ("requests", schema [
                         Type_ ["object"];
                         AdditionalProperties (schema [Ref (ref "k8s.io/apimachinery/pkg/api/resource.Quantity")])]);
          ("claims", schema [
                       Extensions [
                         ("x-kubernetes-list-map-keys", ASlice [AString "name"]);
                         ("x-kubernetes-list-type", AString "map")];
                       Type_ ["array"];
                       Items (schema [Default (AMap []); Ref (ref "k8s.io/api/core/v1.ResourceClaim")])])]])
      ["k8s.io/api/core/v1.ResourceClaim"; "k8s.io/apimachinery/pkg/api/resource.Quantity"].

(** Lines 12142-12186. *)
Definition schema_k8sio_api_core_v1_ResourceStatus : OpenAPIDefinition R :=
    mkOpenAPIDefinition
      (schema [
        Type_ ["object"];
        Properties [
          ("name", schema [Default (AString ""); Type_ ["string"]; Format ""]);
          ("resources", schema [
                          Extensions [
                            ("x-kubernetes-list-map-keys", ASlice [AString "resourceID"]);
                            ("x-kubernetes-list-type", AString "map")];
                          Type_ ["array"];
                          Items (schema [Default (AMap []); Ref (ref "k8s.io/api/core/v1.ResourceHealth")])])];
        Required ["name"]])
      ["k8s.io/api/core/v1.ResourceHealth"].

(** Lines 12188-12227. *)
Definition schema_k8sio_api_core_v1_SELinuxOptions : OpenAPIDefinition R :=
    mkOpenAPIDefinition
      (schema [
        Type_ ["object"];
        Properties [
          ("user", schema [Type_ ["string"]; Format ""]);
          ("role", schema [Type_ ["string"]; Format ""]);
          ("type", schema [Type_ ["string"]; Format ""]);
          ("level", schema [Type_ ["string"]; Format ""])]])
      [].

(** Lines 12229-12316. *)
Definition schema_k8sio_api_core_v1_ScaleIOPersistentVolumeSource : OpenAPIDefinition R :=
    mkOpenAPIDefinition
      (schema [
        Type_ ["object"];
        Properties [
          ("gateway", schema [Default (AString ""); Type_ ["string"]; Format ""]);
          ("system", schema [Default (AString ""); Type_ ["string"]; Format ""]);
          ("secretRef", schema [Ref (ref "k8s.io/api/core/v1.SecretReference")]);
          ("sslEnabled", schema [Type_ ["boolean"]; Format ""]);
          ("protectionDomain", schema [Type_ ["string"]; Format ""]);
          ("storagePool", schema [Type_ ["string"]; Format ""]);
          ("storageMode", schema [Default (AString "ThinProvisioned"); Type_ ["string"]; Format ""]);
          ("volumeName", schema [Type_ ["string"]; Format ""]);
          ("fsType", schema [Default (AString "xfs"); Type_ ["string"]; Format ""]);
          ("readOnly", schema [Type_ ["boolean"]; Format ""])];
        Required ["gateway"; "system"; "secretRef"]])
      ["k8s.io/api/core/v1.SecretReference"].

(** Lines 12318-12405. *)
Definition schema_k8sio_api_core_v1_ScaleIOVolumeSource : OpenAPIDefinition R :=
    mkOpenAPIDefinition
      (schema [
        Type_ ["object"];
        Properties [
          ("gateway", schema [Default (AString ""); Type_ ["string"]; Format ""]);
          ("system", schema [Default (AString ""); Type_ ["string"]; Format ""]);
          ("secretRef", schema [Ref (ref "k8s.io/api/core/v1.LocalObjectReference")]);
          ("sslEnabled", schema [Type_ ["boolean"]; Format ""]);
          ("protectionDomain", schema [Type_ ["string"]; Format ""]);
          ("storagePool", schema [Type_ ["string"]; Format ""]);
          ("storageMode", schema [Default (AString "ThinProvisioned"); Type_ ["string"]; Format ""]);
          ("volumeName", schema [Type_ ["string"]; Format ""]);
          ("fsType", schema [Default (AString "xfs"); Type_ ["string"]; Format ""]);
          ("readOnly", schema [Type_ ["boolean"]; Format ""])];
        Required ["gateway"; "system"; "secretRef"]])
      ["k8s.io/api/core/v1.LocalObjectReference"].

(** Lines 12407-12444. *)
Definition schema_k8sio_api_core_v1_ScopeSelector : OpenAPIDefinition R :=
    mkOpenAPIDefinition
      (schema [
        Type_ ["object"];
        Properties [
          ("matchExpressions", schema [
                                 Extensions [("x-kubernetes-list-type", AString "atomic")];
                                 Type_ ["array"];
                                 Items (schema [
                                          Default (AMap []);
                                          Ref (ref "k8s.io/api/core/v1.ScopedResourceSelectorRequirement")])])];
        Extensions [("x-kubernetes-map-type", AString "atomic")]])
      ["k8s.io/api/core/v1.ScopedResourceSelectorRequirement"].

(** Lines 12446-12496. *)
Definition schema_k8sio_api_core_v1_ScopedResourceSelectorRequirement : OpenAPIDefinition R :=
    mkOpenAPIDefinition
      (schema [
        Type_ ["object"];
        Properties [
          ("scopeName", schema [
                          Default (AString "");
                          Type_ ["string"];
                          Format "";
                          Enum 
                            [AString "BestEffort"; AString "CrossNamespacePodAffinity";
                             AString "NotBestEffort"; AString "NotTerminating"; AString "PriorityClass";
                             AString "Terminating"; AString "VolumeAttributesClass"]]);
          ("operator", schema [
                         Default (AString "");
                         Type_ ["string"];
                         Format "";
                         Enum [AString "DoesNotExist"; AString "Exists"; AString "In"; AString "NotIn"]]);
          ("values", schema [
                       Extensions [("x-kubernetes-list-type", AString "atomic")];
                       Type_ ["array"];
                       Items (schema [Default (AString ""); Type_ ["string"]; Format ""])])];
        Required ["scopeName"; "operator"]])
      [].

(** Lines 12498-12538. *)
Definition schema_k8sio_api_core_v1_SeccompProfile : OpenAPIDefinition R :=
    mkOpenAPIDefinition
      (schema [
        Type_ ["object"];
        Properties [
          ("type", schema [
                     Default (AString "");
                     Type_ ["string"];
                     Format "";
                     Enum [AString "Localhost"; AString "RuntimeDefault"; AString "Unconfined"]]);
          ("localhostProfile", schema [Type_ ["string"]; Format ""])];
        Required ["type"];
        Extensions [
          ("x-kubernetes-unions", ASlice [
                                    AMap [
                                      ("discriminator", AString "type");
                                      ("fields-to-discriminateBy", AMap [
                                                                     ("localhostProfile", AString "LocalhostProfile")])]])]])
      [].

(** Lines 12540-12619. *)
Definition schema_k8sio_api_core_v1_Secret : OpenAPIDefinition R :=
    mkOpenAPIDefinition
      (schema [
        Type_ ["object"];
        Properties [
          ("kind", schema [Type_ ["string"]; Format ""]);
          ("apiVersion", schema [Type_ ["string"]; Format ""]);
          ("metadata", schema [Default (AMap []); Ref (ref "k8s.io/apimachinery/pkg/apis/meta/v1.ObjectMeta")]);
          ("immutable", schema [Type_ ["boolean"]; Format ""]);
          ("data", schema [Type_ ["object"]; AdditionalProperties (schema [Type_ ["string"]; Format "byte"])]);
          ("stringData", schema [
                           Type_ ["object"];
                           AdditionalProperties (schema [Default (AString ""); Type_ ["string"]; Format ""])]);
          ("type", schema [Type_ ["string"]; Format ""])]])
      ["k8s.io/apimachinery/pkg/apis/meta/v1.ObjectMeta"].

(** Lines 12621-12647. *)
Definition schema_k8sio_api_core_v1_SecretEnvSource : OpenAPIDefinition R :=
    mkOpenAPIDefinition
      (schema [
        Type_ ["object"];
        Properties [
          ("name", schema [Default (AString ""); Type_ ["string"]; Format ""]);
          ("optional", schema [Type_ ["boolean"]; Format ""])]])
      [].

(** Lines 12649-12689. *)
Definition schema_k8sio_api_core_v1_SecretKeySelector : OpenAPIDefinition R :=
    mkOpenAPIDefinition
      (schema [
        Type_ ["object"];
        Properties [
          ("name", schema [Default (AString ""); Type_ ["string"]; Format ""]);
          ("key", schema [Default (AString ""); Type_ ["string"]; Format ""]);
          ("optional", schema [Type_ ["boolean"]; Format ""])];
        Required ["key"];
        Extensions [("x-kubernetes-map-type", AString "atomic")]])
      [].

(** Lines 12691-12740. *)
Definition schema_k8sio_api_core_v1_SecretList : OpenAPIDefinition R :=
    mkOpenAPIDefinition
      (schema [
        Type_ ["object"];
        Properties [
          ("kind", schema [Type_ ["string"]; Format ""]);
          ("apiVersion", schema [Type_ ["string"]; Format ""]);
          ("metadata", schema [Default (AMap []); Ref (ref "k8s.io/apimachinery/pkg/apis/meta/v1.ListMeta")]);
          ("items", schema [
                      Type_ ["array"];
                      Items (schema [Default (AMap []); Ref (ref "k8s.io/api/core/v1.Secret")])])];
        Required ["items"]])
      ["k8s.io/api/core/v1.Secret"; "k8s.io/apimachinery/pkg/apis/meta/v1.ListMeta"].

(** Lines 12742-12789. *)
Definition schema_k8sio_api_core_v1_SecretProjection : OpenAPIDefinition R :=
    mkOpenAPIDefinition
      (schema [
        Type_ ["object"];
        Properties [
          ("name", schema [Default (AString ""); Type_ ["string"]; Format ""]);
          ("items", schema [
                      Extensions [("x-kubernetes-list-type", AString "atomic")];
                      Type_ ["array"];
                      Items (schema [Default (AMap []); Ref (ref "k8s.io/api/core/v1.KeyToPath")])]);
          ("optional", schema [Type_ ["boolean"]; Format ""])]])
      ["k8s.io/api/core/v1.KeyToPath"].

(** Lines 12791-12821. *)
Definition schema_k8sio_api_core_v1_SecretReference : OpenAPIDefinition R :=
    mkOpenAPIDefinition
      (schema [
        Type_ ["object"];
        Properties [
          ("name", schema [Type_ ["string"]; Format ""]);
          ("namespace", schema [Type_ ["string"]; Format ""])];
        Extensions [("x-kubernetes-map-type", AString "atomic")]])
      [].

(** Lines 12823-12876. *)
Definition schema_k8sio_api_core_v1_SecretVolumeSource : OpenAPIDefinition R :=
    mkOpenAPIDefinition
      (schema [
        Type_ ["object"];
        Properties [
          ("secretName", schema [Type_ ["string"]; Format ""]);
          ("items", schema [
                      Extensions [("x-kubernetes-list-type", AString "atomic")];
                      Type_ ["array"];
                      Items (schema [Default (AMap []); Ref (ref "k8s.io/api/core/v1.KeyToPath")])]);
          ("defaultMode", schema [Type_ ["integer"]; Format "int32"]);
          ("optional", schema [Type_ ["boolean"]; Format ""])]])
      ["k8s.io/api/core/v1.KeyToPath"].

(** Lines 12878-12971. *)
Definition schema_k8sio_api_core_v1_SecurityContext : OpenAPIDefinition R :=
    mkOpenAPIDefinition
      (schema [
        Type_ ["object"];
        Properties [
          ("capabilities", schema [Ref (ref "k8s.io/api/core/v1.Capabilities")]);
          ("privileged", schema [Type_ ["boolean"]; Format ""]);
          ("seLinuxOptions", schema [Ref (ref "k8s.io/api/core/v1.SELinuxOptions")]);
          ("windowsOptions", schema [Ref (ref "k8s.io/api/core/v1.WindowsSecurityContextOptions")]);
          ("runAsUser", schema [Type_ ["integer"]; Format "int64"]);
          ("runAsGroup", schema [Type_ ["integer"]; Format "int64"]);
          ("runAsNonRoot", schema [Type_ ["boolean"]; Format ""]);
          ("readOnlyRootFilesystem", schema [Type_ ["boolean"]; Format ""]);
          ("allowPrivilegeEscalation", schema [Type_ ["boolean"]; Format ""]);
          ("procMount", schema [Type_ ["string"]; Format ""; Enum [AString "Default"; AString "Unmasked"]]);
          ("seccompProfile", schema [Ref (ref "k8s.io/api/core/v1.SeccompProfile")]);
          ("appArmorProfile", schema [Ref (ref "k8s.io/api/core/v1.AppArmorProfile")])]])
        ["k8s.io/api/core/v1.AppArmorProfile"; "k8s.io/api/core/v1.Capabilities";
         "k8s.io/api/core/v1.SELinuxOptions"; "k8s.io/api/core/v1.SeccompProfile";
         "k8s.io/api/core/v1.WindowsSecurityContextOptions"].

(** Lines 12973-13007. *)
Definition schema_k8sio_api_core_v1_SerializedReference : OpenAPIDefinition R :=
    mkOpenAPIDefinition
      (schema [
        Type_ ["object"];
        Properties [
          ("kind", schema [Type_ ["string"]; Format ""]);
          ("apiVersion", schema [Type_ ["string"]; Format ""]);
          ("reference", schema [Default (AMap []); Ref (ref "k8s.io/api/core/v1.ObjectReference")])]])
      ["k8s.io/api/core/v1.ObjectReference"].

(** Lines 13009-13057. *)
Definition schema_k8sio_api_core_v1_Service : OpenAPIDefinition R :=
    mkOpenAPIDefinition
      (schema [
        Type_ ["object"];
        Properties [
          ("kind", schema [Type_ ["string"]; Format ""]);
          ("apiVersion", schema [Type_ ["string"]; Format ""]);
          ("metadata", schema [Default (AMap []); Ref (ref "k8s.io/apimachinery/pkg/apis/meta/v1.ObjectMeta")]);
          ("spec", schema [Default (AMap []); Ref (ref "k8s.io/api/core/v1.ServiceSpec")]);
          ("status", schema [Default (AMap []); Ref (ref "k8s.io/api/core/v1.ServiceStatus")])]])
        ["k8s.io/api/core/v1.ServiceSpec"; "k8s.io/api/core/v1.ServiceStatus";
         "k8s.io/apimachinery/pkg/apis/meta/v1.ObjectMeta"].

(** Lines 13059-13143. *)
Definition schema_k8sio_api_core_v1_ServiceAccount : OpenAPIDefinition R :=
    mkOpenAPIDefinition
      (schema [
        Type_ ["object"];
        Properties [
          ("kind", schema [Type_ ["string"]; Format ""]);
          ("apiVersion", schema [Type_ ["string"]; Format ""]);
          ("metadata", schema [Default (AMap []); Ref (ref "k8s.io/apimachinery/pkg/apis/meta/v1.ObjectMeta")]);
          ("secrets", schema [
                        Extensions [
                          ("x-kubernetes-list-map-keys", ASlice [AString "name"]);
                          ("x-kubernetes-list-type", AString "map");
                          ("x-kubernetes-patch-merge-key", AString "name");
                          ("x-kubernetes-patch-strategy", AString "merge")];
                        Type_ ["array"];
                        Items (schema [Default (AMap []); Ref (ref "k8s.io/api/core/v1.ObjectReference")])]);
          ("imagePullSecrets", schema [
                                 Extensions [("x-kubernetes-list-type", AString "atomic")];
                                 Type_ ["array"];
                                 Items (schema [
                                          Default (AMap []);
                                          Ref (ref "k8s.io/api/core/v1.LocalObjectReference")])]);
          ("automountServiceAccountToken", schema [Type_ ["boolean"]; Format ""])]])
        ["k8s.io/api/core/v1.LocalObjectReference"; "k8s.io/api/core/v1.ObjectReference";
         "k8s.io/apimachinery/pkg/apis/meta/v1.ObjectMeta"].

(** Lines 13145-13194. *)
Definition schema_k8sio_api_core_v1_ServiceAccountList : OpenAPIDefinition R :=
    mkOpenAPIDefinition
      (schema [
        Type_ ["object"];
        Properties [
          ("kind", schema [Type_ ["string"]; Format ""]);
          ("apiVersion", schema [Type_ ["string"]; Format ""]);
          ("metadata", schema [Default (AMap []); Ref (ref "k8s.io/apimachinery/pkg/apis/meta/v1.ListMeta")]);
          ("items", schema [
                      Type_ ["array"];
                      Items (schema [Default (AMap []); Ref (ref "k8s.io/api/core/v1.ServiceAccount")])])];
        Required ["items"]])
      ["k8s.io/api/core/v1.ServiceAccount"; "k8s.io/apimachinery/pkg/apis/meta/v1.ListMeta"].

(** Lines 13196-13230. *)
Definition schema_k8sio_api_core_v1_ServiceAccountTokenProjection : OpenAPIDefinition R :=
    mkOpenAPIDefinition
      (schema [
        Type_ ["object"];
        Properties [
          ("audience", schema [Type_ ["string"]; Format ""]);
          ("expirationSeconds", schema [Type_ ["integer"]; Format "int64"]);
          ("path", schema [Default (AString ""); Type_ ["string"]; Format ""])];
        Required ["path"]])
      [].

(** Lines 13232-13281. *)
Definition schema_k8sio_api_core_v1_ServiceList : OpenAPIDefinition R :=
    mkOpenAPIDefinition
      (schema [
        Type_ ["object"];
        Properties [
          ("kind", schema [Type_ ["string"]; Format ""]);
          ("apiVersion", schema [Type_ ["string"]; Format ""]);
          ("metadata", schema [Default (AMap []); Ref (ref "k8s.io/apimachinery/pkg/apis/meta/v1.ListMeta")]);
          ("items", schema [
                      Type_ ["array"];
                      Items (schema [Default (AMap []); Ref (ref "k8s.io/api/core/v1.Service")])])];
        Required ["items"]])
      ["k8s.io/api/core/v1.Service"; "k8s.io/apimachinery/pkg/apis/meta/v1.ListMeta"].

(** Lines 13283-13341. *)
Definition schema_k8sio_api_core_v1_ServicePort : OpenAPIDefinition R :=
    mkOpenAPIDefinition
      (schema [
        Type_ ["object"];
        Properties [
          ("name", schema [Type_ ["string"]; Format ""]);
          ("protocol", schema [
                         Default (AString "TCP");
                         Type_ ["string"];
                         Format "";
                         Enum [AString "SCTP"; AString "TCP"; AString "UDP"]]);
          ("appProtocol", schema [Type_ ["string"]; Format ""]);
          ("port", schema [Default (AInt 0); Type_ ["integer"]; Format "int32"]);
          ("targetPort", schema [Ref (ref "k8s.io/apimachinery/pkg/util/intstr.IntOrString")]);
          ("nodePort", schema [Type_ ["integer"]; Format "int32"])];
        Required ["port"]])
      ["k8s.io/apimachinery/pkg/util/intstr.IntOrString"].

(** Lines 13343-13375. *)
Definition schema_k8sio_api_core_v1_ServiceProxyOptions : OpenAPIDefinition R :=
    mkOpenAPIDefinition
      (schema [
        Type_ ["object"];
        Properties [
          ("kind", schema [Type_ ["string"]; Format ""]);
          ("apiVersion", schema [Type_ ["string"]; Format ""]);
          ("path", schema [Type_ ["string"]; Format ""])]])
      [].

(** Lines 13377-13619. *)
Definition schema_k8sio_api_core_v1_ServiceSpec : OpenAPIDefinition R :=
    mkOpenAPIDefinition
      (schema [
        Type_ ["object"];
        Properties [
          ("ports", schema [
                      Extensions [
                        ("x-kubernetes-list-map-keys", ASlice [AString "port"; AString "protocol"]);
                        ("x-kubernetes-list-type", AString "map");
                        ("x-kubernetes-patch-merge-key", AString "port");
                        ("x-kubernetes-patch-strategy", AString "merge")];
                      Type_ ["array"];
                      Items (schema [Default (AMap []); Ref (ref "k8s.io/api/core/v1.ServicePort")])]);
          ("selector", schema [
                         Extensions [("x-kubernetes-map-type", AString "atomic")];
                         Type_ ["object"];
                         AdditionalProperties (schema [Default (AString ""); Type_ ["string"]; Format ""])]);
          ("clusterIP", schema [Type_ ["string"]; Format ""]);
          ("clusterIPs", schema [
                           Extensions [("x-kubernetes-list-type", AString "atomic")];
                           Type_ ["array"];
                           Items (schema [Default (AString ""); Type_ ["string"]; Format ""])]);
          ("type", schema [
                     Type_ ["string"];
                     Format "";
                     Enum 
                       [AString "ClusterIP"; AString "ExternalName"; AString "LoadBalancer";
                        AString "NodePort"]]);
          ("externalIPs", schema [
                            Extensions [("x-kubernetes-list-type", AString "atomic")];
                            Type_ ["array"];
                            Items (schema [Default (AString ""); Type_ ["string"]; Format ""])]);
          ("sessionAffinity", schema [Type_ ["string"]; Format ""; Enum [AString "ClientIP"; AString "None"]]);
          ("loadBalancerIP", schema [Type_ ["string"]; Format ""]);
          ("loadBalancerSourceRanges", schema [
                                         Extensions [("x-kubernetes-list-type", AString "atomic")];
                                         Type_ ["array"];
                                         Items (schema [Default (AString ""); Type_ ["string"]; Format ""])]);
          ("externalName", schema [Type_ ["string"]; Format ""]);
          ("externalTrafficPolicy", schema [Type_ ["string"]; Format ""; Enum [AString "Cluster"; AString "Local"]]);
          ("healthCheckNodePort", schema [Type_ ["integer"]; Format "int32"]);
          ("publishNotReadyAddresses", schema [Type_ ["boolean"]; Format ""]);
          ("sessionAffinityConfig", schema [Ref (ref "k8s.io/api/core/v1.SessionAffinityConfig")]);
          ("ipFamilies", schema [
                           Extensions [("x-kubernetes-list-type", AString "atomic")];
                           Type_ ["array"];
                           Items (schema [
                                    Default (AString "");
                                    Type_ ["string"];
                                    Format "";
                                    Enum [AString ""; AString "IPv4"; AString "IPv6"]])]);
          ("ipFamilyPolicy", schema [
                               Type_ ["string"];
                               Format "";
                               Enum 
                                 [AString "PreferDualStack"; AString "RequireDualStack";
                                  AString "SingleStack"]]);
          ("allocateLoadBalancerNodePorts", schema [Type_ ["boolean"]; Format ""]);
          ("loadBalancerClass", schema [Type_ ["string"]; Format ""]);
          ("internalTrafficPolicy", schema [Type_ ["string"]; Format ""; Enum [AString "Cluster"; AString "Local"]]);
          ("trafficDistribution", schema [Type_ ["string"]; Format ""])]])
      ["k8s.io/api/core/v1.ServicePort"; "k8s.io/api/core/v1.SessionAffinityConfig"].

(** Lines 13621-13665. *)
Definition schema_k8sio_api_core_v1_ServiceStatus : OpenAPIDefinition R :=
    mkOpenAPIDefinition
      (schema [
        Type_ ["object"];
        Properties [
          ("loadBalancer", schema [Default (AMap []); Ref (ref "k8s.io/api/core/v1.LoadBalancerStatus")]);
          ("conditions", schema [
                           Extensions [
                             ("x-kubernetes-list-map-keys", ASlice [AString "type"]);
                             ("x-kubernetes-list-type", AString "map");
                             ("x-kubernetes-patch-merge-key", AString "type");
                             ("x-kubernetes-patch-strategy", AString "merge")];
                           Type_ ["array"];
                           Items (schema [
                                    Default (AMap []);
                                    Ref (ref "k8s.io/apimachinery/pkg/apis/meta/v1.Condition")])])]])
      ["k8s.io/api/core/v1.LoadBalancerStatus"; "k8s.io/apimachinery/pkg/apis/meta/v1.Condition"].

(** Lines 13667-13686. *)
Definition schema_k8sio_api_core_v1_SessionAffinityConfig : OpenAPIDefinition R :=
    mkOpenAPIDefinition
      (schema [Type_ ["object"]; Properties [("clientIP", schema [Ref (ref "k8s.io/api/core/v1.ClientIPConfig")])]])
      ["k8s.io/api/core/v1.ClientIPConfig"].

(** Lines 13688-13708. *)
Definition schema_k8sio_api_core_v1_SleepAction : OpenAPIDefinition R :=
    mkOpenAPIDefinition
      (schema [
        Type_ ["object"];
        Properties [("seconds", schema [Default (AInt 0); Type_ ["integer"]; Format "int64"])];
        Required ["seconds"]])
      [].

(** Lines 13710-13757. *)
Definition schema_k8sio_api_core_v1_StorageOSPersistentVolumeSource : OpenAPIDefinition R :=
    mkOpenAPIDefinition
      (schema [
        Type_ ["object"];
        Properties [
          ("volumeName", schema [Type_ ["string"]; Format ""]);
          ("volumeNamespace", schema [Type_ ["string"]; Format ""]);
          ("fsType", schema [Type_ ["string"]; Format ""]);
          ("readOnly", schema [Type_ ["boolean"]; Format ""]);
          ("secretRef", schema [Ref (ref "k8s.io/api/core/v1.ObjectReference")])]])
      ["k8s.io/api/core/v1.ObjectReference"].

(** Lines 13759-13806. *)
Definition schema_k8sio_api_core_v1_StorageOSVolumeSource : OpenAPIDefinition R :=
    mkOpenAPIDefinition
      (schema [
        Type_ ["object"];
        Properties [
          ("volumeName", schema [Type_ ["string"]; Format ""]);
          ("volumeNamespace", schema [Type_ ["string"]; Format ""]);
          ("fsType", schema [Type_ ["string"]; Format ""]);
          ("readOnly", schema [Type_ ["boolean"]; Format ""]);
          ("secretRef", schema [Ref (ref "k8s.io/api/core/v1.LocalObjectReference")])]])
      ["k8s.io/api/core/v1.LocalObjectReference"].

(** Lines 13808-13836. *)
Definition schema_k8sio_api_core_v1_Sysctl : OpenAPIDefinition R :=
    mkOpenAPIDefinition
      (schema [
        Type_ ["object"];
        Properties [
          ("name", schema [Default (AString ""); Type_ ["string"]; Format ""]);
          ("value", schema [Default (AString ""); Type_ ["string"]; Format ""])];
        Required ["name"; "value"]])
      [].

(** Lines 13838-13865. *)
Definition schema_k8sio_api_core_v1_TCPSocketAction : OpenAPIDefinition R :=
    mkOpenAPIDefinition
      (schema [
        Type_ ["object"];
        Properties [
          ("port", schema [Ref (ref "k8s.io/apimachinery/pkg/util/intstr.IntOrString")]);
          ("host", schema [Type_ ["string"]; Format ""])];
        Required ["port"]])
      ["k8s.io/apimachinery/pkg/util/intstr.IntOrString"].

(** Lines 13867-13911. *)
Definition schema_k8sio_api_core_v1_Taint : OpenAPIDefinition R :=
    mkOpenAPIDefinition
      (schema [
        Type_ ["object"];
        Properties [
          ("key", schema [Default (AString ""); Type_ ["string"]; Format ""]);
          ("value", schema [Type_ ["string"]; Format ""]);
          ("effect", schema [
                       Default (AString "");
                       Type_ ["string"];
                       Format "";
                       Enum [AString "NoExecute"; AString "NoSchedule"; AString "PreferNoSchedule"]]);
          ("timeAdded", schema [Ref (ref "k8s.io/apimachinery/pkg/apis/meta/v1.Time")])];
        Required ["key"; "effect"]])
      ["k8s.io/apimachinery/pkg/apis/meta/v1.Time"].

(** Lines 13913-13961. *)
Definition schema_k8sio_api_core_v1_Toleration : OpenAPIDefinition R :=
    mkOpenAPIDefinition
      (schema [
        Type_ ["object"];
        Properties [
          ("key", schema [Type_ ["string"]; Format ""]);
          ("operator", schema [Type_ ["string"]; Format ""; Enum [AString "Equal"; AString "Exists"]]);
          ("value", schema [Type_ ["string"]; Format ""]);
          ("effect", schema [
                       Type_ ["string"];
                       Format "";
                       Enum [AString "NoExecute"; AString "NoSchedule"; AString "PreferNoSchedule"]]);
          ("tolerationSeconds", schema [Type_ ["integer"]; Format "int64"])]])
      [].

(** Lines 13963-14003. *)
Definition schema_k8sio_api_core_v1_TopologySelectorLabelRequirement : OpenAPIDefinition R :=
    mkOpenAPIDefinition
      (schema [
        Type_ ["object"];
        Properties [
          ("key", schema [Default (AString ""); Type_ ["string"]; Format ""]);
          ("values", schema [
                       Extensions [("x-kubernetes-list-type", AString "atomic")];
                       Type_ ["array"];
                       Items (schema [Default (AString ""); Type_ ["string"]; Format ""])])];
        Required ["key"; "values"]])
      [].

(** Lines 14005-14042. *)
Definition schema_k8sio_api_core_v1_TopologySelectorTerm : OpenAPIDefinition R :=
    mkOpenAPIDefinition
      (schema [
        Type_ ["object"];
        Properties [
          ("matchLabelExpressions", schema [
                                      Extensions [("x-kubernetes-list-type", AString "atomic")];
                                      Type_ ["array"];
                                      Items (schema [
                                               Default (AMap []);
                                               Ref (ref "k8s.io/api/core/v1.TopologySelectorLabelRequirement")])])];
        Extensions [("x-kubernetes-map-type", AString "atomic")]])
      ["k8s.io/api/core/v1.TopologySelectorLabelRequirement"].

(** Lines 14044-14132. *)
Definition schema_k8sio_api_core_v1_TopologySpreadConstraint : OpenAPIDefinition R :=
    mkOpenAPIDefinition
      (schema [
        Type_ ["object"];
        Properties [
          ("maxSkew", schema [Default (AInt 0); Type_ ["integer"]; Format "int32"]);
          ("topologyKey", schema [Default (AString ""); Type_ ["string"]; Format ""]);
          ("whenUnsatisfiable", schema [
                                  Default (AString "");
                                  Type_ ["string"];
                                  Format "";
                                  Enum [AString "DoNotSchedule"; AString "ScheduleAnyway"]]);
          ("labelSelector", schema [Ref (ref "k8s.io/apimachinery/pkg/apis/meta/v1.LabelSelector")]);
          ("minDomains", schema [Type_ ["integer"]; Format "int32"]);
          ("nodeAffinityPolicy", schema [Type_ ["string"]; Format ""; Enum [AString "Honor"; AString "Ignore"]]);
          ("nodeTaintsPolicy", schema [Type_ ["string"]; Format ""; Enum [AString "Honor"; AString "Ignore"]]);
          ("matchLabelKeys", schema [
                               Extensions [("x-kubernetes-list-type", AString "atomic")];
                               Type_ ["array"];
                               Items (schema [Default (AString ""); Type_ ["string"]; Format ""])])];
        Required ["maxSkew"; "topologyKey"; "whenUnsatisfiable"]])
      ["k8s.io/apimachinery/pkg/apis/meta/v1.LabelSelector"].

(** Lines 14134-14174. *)
Definition schema_k8sio_api_core_v1_TypedLocalObjectReference : OpenAPIDefinition R :=
    mkOpenAPIDefinition
      (schema [
        Type_ ["object"];
        Properties [
          ("apiGroup", schema [Type_ ["string"]; Format ""]);
          ("kind", schema [Default (AString ""); Type_ ["string"]; Format ""]);
          ("name", schema [Default (AString ""); Type_ ["string"]; Format ""])];
        Required ["kind"; "name"];
        Extensions [("x-kubernetes-map-type", AString "atomic")]])
      [].

(** Lines 14176-14218. *)
Definition schema_k8sio_api_core_v1_TypedObjectReference : OpenAPIDefinition R :=
    mkOpenAPIDefinition
      (schema [
        Type_ ["object"];
        Properties [
          ("apiGroup", schema [Type_ ["string"]; Format ""]);
          ("kind", schema [Default (AString ""); Type_ ["string"]; Format ""]);
          ("name", schema [Default (AString ""); Type_ ["string"]; Format ""]);
          ("namespace", schema [Type_ ["string"]; Format ""])];
        Required ["kind"; "name"]])
      [].

(** Lines 14220-14422. *)
Definition schema_k8sio_api_core_v1_Volume : OpenAPIDefinition R :=
    mkOpenAPIDefinition
      (schema [
        Type_ ["object"];
        Properties [
          ("name", schema [Default (AString ""); Type_ ["string"]; Format ""]);
          ("hostPath", schema [Ref (ref "k8s.io/api/core/v1.HostPathVolumeSource")]);
          ("emptyDir", schema [Ref (ref "k8s.io/api/core/v1.EmptyDirVolumeSource")]);
          ("gcePersistentDisk", schema [Ref (ref "k8s.io/api/core/v1.GCEPersistentDiskVolumeSource")]);
          ("awsElasticBlockStore", schema [Ref (ref "k8s.io/api/core/v1.AWSElasticBlockStoreVolumeSource")]);
          ("gitRepo", schema [Ref (ref "k8s.io/api/core/v1.GitRepoVolumeSource")]);
          ("secret", schema [Ref (ref "k8s.io/api/core/v1.SecretVolumeSource")]);
          ("nfs", schema [Ref (ref "k8s.io/api/core/v1.NFSVolumeSource")]);
          ("iscsi", schema [Ref (ref "k8s.io/api/core/v1.ISCSIVolumeSource")]);
          ("glusterfs", schema [Ref (ref "k8s.io/api/core/v1.GlusterfsVolumeSource")]);
          ("persistentVolumeClaim", schema [Ref (ref "k8s.io/api/core/v1.PersistentVolumeClaimVolumeSource")]);
          ("rbd", schema [Ref (ref "k8s.io/api/core/v1.RBDVolumeSource")]);
          ("flexVolume", schema [Ref (ref "k8s.io/api/core/v1.FlexVolumeSource")]);
          ("cinder", schema [Ref (ref "k8s.io/api/core/v1.CinderVolumeSource")]);
          ("cephfs", schema [Ref (ref "k8s.io/api/core/v1.CephFSVolumeSource")]);
          ("flocker", schema [Ref (ref "k8s.io/api/core/v1.FlockerVolumeSource")]);
          ("downwardAPI", schema [Ref (ref "k8s.io/api/core/v1.DownwardAPIVolumeSource")]);
          ("fc", schema [Ref (ref "k8s.io/api/core/v1.FCVolumeSource")]);
          ("azureFile", schema [Ref (ref "k8s.io/api/core/v1.AzureFileVolumeSource")]);
          ("configMap", schema [Ref (ref "k8s.io/api/core/v1.ConfigMapVolumeSource")]);
          ("vsphereVolume", schema [Ref (ref "k8s.io/api/core/v1.VsphereVirtualDiskVolumeSource")]);
          ("quobyte", schema [Ref (ref "k8s.io/api/core/v1.QuobyteVolumeSource")]);
          ("azureDisk", schema [Ref (ref "k8s.io/api/core/v1.AzureDiskVolumeSource")]);
          ("photonPersistentDisk", schema [Ref (ref "k8s.io/api/core/v1.PhotonPersistentDiskVolumeSource")]);
          ("projected", schema [Ref (ref "k8s.io/api/core/v1.ProjectedVolumeSource")]);
          ("portworxVolume", schema [Ref (ref "k8s.io/api/core/v1.PortworxVolumeSource")]);
          ("scaleIO", schema [Ref (ref "k8s.io/api/core/v1.ScaleIOVolumeSource")]);
          ("storageos", schema [Ref (ref "k8s.io/api/core/v1.StorageOSVolumeSource")]);
          ("csi", schema [Ref (ref "k8s.io/api/core/v1.CSIVolumeSource")]);
          ("ephemeral", schema [Ref (ref "k8s.io/api/core/v1.EphemeralVolumeSource")]);
          ("image", schema [Ref (ref "k8s.io/api/core/v1.ImageVolumeSource")])];
        Required ["name"]])
        ["k8s.io/api/core/v1.AWSElasticBlockStoreVolumeSource"; "k8s.io/api/core/v1.AzureDiskVolumeSource";
         "k8s.io/api/core/v1.AzureFileVolumeSource"; "k8s.io/api/core/v1.CSIVolumeSource";
         "k8s.io/api/core/v1.CephFSVolumeSource"; "k8s.io/api/core/v1.CinderVolumeSource";
         "k8s.io/api/core/v1.ConfigMapVolumeSource"; "k8s.io/api/core/v1.DownwardAPIVolumeSource";
         "k8s.io/api/core/v1.EmptyDirVolumeSource"; "k8s.io/api/core/v1.EphemeralVolumeSource";
         "k8s.io/api/core/v1.FCVolumeSource"; "k8s.io/api/core/v1.FlexVolumeSource";
         "k8s.io/api/core/v1.FlockerVolumeSource"; "k8s.io/api/core/v1.GCEPersistentDiskVolumeSource";
         "k8s.io/api/core/v1.GitRepoVolumeSource"; "k8s.io/api/core/v1.GlusterfsVolumeSource";
         "k8s.io/api/core/v1.HostPathVolumeSource"; "k8s.io/api/core/v1.ISCSIVolumeSource";
         "k8s.io/api/core/v1.ImageVolumeSource"; "k8s.io/api/core/v1.NFSVolumeSource";
         "k8s.io/api/core/v1.PersistentVolumeClaimVolumeSource";
         "k8s.io/api/core/v1.PhotonPersistentDiskVolumeSource"; "k8s.io/api/core/v1.PortworxVolumeSource";
         "k8s.io/api/core/v1.ProjectedVolumeSource"; "k8s.io/api/core/v1.QuobyteVolumeSource";
         "k8s.io/api/core/v1.RBDVolumeSource"; "k8s.io/api/core/v1.ScaleIOVolumeSource";
         "k8s.io/api/core/v1.SecretVolumeSource"; "k8s.io/api/core/v1.StorageOSVolumeSource";
         "k8s.io/api/core/v1.VsphereVirtualDiskVolumeSource"].

(** Lines 14424-14452. *)
Definition schema_k8sio_api_core_v1_VolumeDevice : OpenAPIDefinition R :=
    mkOpenAPIDefinition
      (schema [
        Type_ ["object"];
        Properties [
          ("name", schema [Default (AString ""); Type_ ["string"]; Format ""]);
          ("devicePath", schema [Default (AString ""); Type_ ["string"]; Format ""])];
        Required ["name"; "devicePath"]])
      [].

(** Lines 14454-14518. *)
Definition schema_k8sio_api_core_v1_VolumeMount : OpenAPIDefinition R :=
    mkOpenAPIDefinition
      (schema [
        Type_ ["object"];
        Properties [
          ("name", schema [Default (AString ""); Type_ ["string"]; Format ""]);
          ("readOnly", schema [Type_ ["boolean"]; Format ""]);
          ("recursiveReadOnly", schema [Type_ ["string"]; Format ""]);
          ("mountPath", schema [Default (AString ""); Type_ ["string"]; Format ""]);
          ("subPath", schema [Type_ ["string"]; Format ""]);
          ("mountPropagation", schema [
                                 Type_ ["string"];
                                 Format "";
                                 Enum [AString "Bidirectional"; AString "HostToContainer"; AString "None"]]);
          ("subPathExpr", schema [Type_ ["string"]; Format ""])];
        Required ["name"; "mountPath"]])
      [].

(** Lines 14520-14562. *)
Definition schema_k8sio_api_core_v1_VolumeMountStatus : OpenAPIDefinition R :=
    mkOpenAPIDefinition
      (schema [
        Type_ ["object"];
        Properties [
          ("name", schema [Default (AString ""); Type_ ["string"]; Format ""]);
          ("mountPath", schema [Default (AString ""); Type_ ["string"]; Format ""]);
          ("readOnly", schema [Type_ ["boolean"]; Format ""]);
          ("recursiveReadOnly", schema [Type_ ["string"]; Format ""])];
        Required ["name"; "mountPath"]])
      [].

(** Lines 14564-14583. *)
Definition schema_k8sio_api_core_v1_VolumeNodeAffinity : OpenAPIDefinition R :=
    mkOpenAPIDefinition
      (schema [Type_ ["object"]; Properties [("required", schema [Ref (ref "k8s.io/api/core/v1.NodeSelector")])]])
      ["k8s.io/api/core/v1.NodeSelector"].

(** Lines 14585-14634. *)
Definition schema_k8sio_api_core_v1_VolumeProjection : OpenAPIDefinition R :=
    mkOpenAPIDefinition
      (schema [
        Type_ ["object"];
        Properties [
          ("secret", schema [Ref (ref "k8s.io/api/core/v1.SecretProjection")]);
          ("downwardAPI", schema [Ref (ref "k8s.io/api/core/v1.DownwardAPIProjection")]);
          ("configMap", schema [Ref (ref "k8s.io/api/core/v1.ConfigMapProjection")]);
          ("serviceAccountToken", schema [Ref (ref "k8s.io/api/core/v1.ServiceAccountTokenProjection")]);
          ("clusterTrustBundle", schema [Ref (ref "k8s.io/api/core/v1.ClusterTrustBundleProjection")]);
          ("podCertificate", schema [Ref (ref "k8s.io/api/core/v1.PodCertificateProjection")])]])
        ["k8s.io/api/core/v1.ClusterTrustBundleProjection"; "k8s.io/api/core/v1.ConfigMapProjection";
         "k8s.io/api/core/v1.DownwardAPIProjection"; "k8s.io/api/core/v1.PodCertificateProjection";
         "k8s.io/api/core/v1.SecretProjection"; "k8s.io/api/core/v1.ServiceAccountTokenProjection"].

(** Lines 14636-14677. *)
Definition schema_k8sio_api_core_v1_VolumeResourceRequirements : OpenAPIDefinition R :=
    mkOpenAPIDefinition
      (schema [
        Type_ ["object"];
        Properties [
          ("limits", schema [
                       Type_ ["object"];
                       AdditionalProperties (schema [Ref (ref "k8s.io/apimachinery/pkg/api/resource.Quantity")])]);
          ("requests", schema [
                         Type_ ["object"];
                         AdditionalProperties (schema [Ref (ref "k8s.io/apimachinery/pkg/api/resource.Quantity")])])]])
      ["k8s.io/apimachinery/pkg/api/resource.Quantity"].

(** Lines 14679-14872. *)
Definition schema_k8sio_api_core_v1_VolumeSource : OpenAPIDefinition R :=
    mkOpenAPIDefinition
      (schema [
        Type_ ["object"];
        Properties [
          ("hostPath", schema [Ref (ref "k8s.io/api/core/v1.HostPathVolumeSource")]);
          ("emptyDir", schema [Ref (ref "k8s.io/api/core/v1.EmptyDirVolumeSource")]);
          ("gcePersistentDisk", schema [Ref (ref "k8s.io/api/core/v1.GCEPersistentDiskVolumeSource")]);
          ("awsElasticBlockStore", schema [Ref (ref "k8s.io/api/core/v1.AWSElasticBlockStoreVolumeSource")]);
          ("gitRepo", schema [Ref (ref "k8s.io/api/core/v1.GitRepoVolumeSource")]);
          ("secret", schema [Ref (ref "k8s.io/api/core/v1.SecretVolumeSource")]);
          ("nfs", schema [Ref (ref "k8s.io/api/core/v1.NFSVolumeSource")]);
          ("iscsi", schema [Ref (ref "k8s.io/api/core/v1.ISCSIVolumeSource")]);
          ("glusterfs", schema [Ref (ref "k8s.io/api/core/v1.GlusterfsVolumeSource")]);
          ("persistentVolumeClaim", schema [Ref (ref "k8s.io/api/core/v1.PersistentVolumeClaimVolumeSource")]);
          ("rbd", schema [Ref (ref "k8s.io/api/core/v1.RBDVolumeSource")]);
          ("flexVolume", schema [Ref (ref "k8s.io/api/core/v1.FlexVolumeSource")]);
          ("cinder", schema [Ref (ref "k8s.io/api/core/v1.CinderVolumeSource")]);
          ("cephfs", schema [Ref (ref "k8s.io/api/core/v1.CephFSVolumeSource")]);
          ("flocker", schema [Ref (ref "k8s.io/api/core/v1.FlockerVolumeSource")]);
          ("downwardAPI", schema [Ref (ref "k8s.io/api/core/v1.DownwardAPIVolumeSource")]);
          ("fc", schema [Ref (ref "k8s.io/api/core/v1.FCVolumeSource")]);
          ("azureFile", schema [Ref (ref "k8s.io/api/core/v1.AzureFileVolumeSource")]);
          ("configMap", schema [Ref (ref "k8s.io/api/core/v1.ConfigMapVolumeSource")]);
          ("vsphereVolume", schema [Ref (ref "k8s.io/api/core/v1.VsphereVirtualDiskVolumeSource")]);
          ("quobyte", schema [Ref (ref "k8s.io/api/core/v1.QuobyteVolumeSource")]);
          ("azureDisk", schema [Ref (ref "k8s.io/api/core/v1.AzureDiskVolumeSource")]);
          ("photonPersistentDisk", schema [Ref (ref "k8s.io/api/core/v1.PhotonPersistentDiskVolumeSource")]);
          ("projected", schema [Ref (ref "k8s.io/api/core/v1.ProjectedVolumeSource")]);
          ("portworxVolume", schema [Ref (ref "k8s.io/api/core/v1.PortworxVolumeSource")]);
          ("scaleIO", schema [Ref (ref "k8s.io/api/core/v1.ScaleIOVolumeSource")]);
          ("storageos", schema [Ref (ref "k8s.io/api/core/v1.StorageOSVolumeSource")]);
          ("csi", schema [Ref (ref "k8s.io/api/core/v1.CSIVolumeSource")]);
          ("ephemeral", schema [Ref (ref "k8s.io/api/core/v1.EphemeralVolumeSource")]);
          ("image", schema [Ref (ref "k8s.io/api/core/v1.ImageVolumeSource")])]])
        ["k8s.io/api/core/v1.AWSElasticBlockStoreVolumeSource"; "k8s.io/api/core/v1.AzureDiskVolumeSource";
         "k8s.io/api/core/v1.AzureFileVolumeSource"; "k8s.io/api/core/v1.CSIVolumeSource";
         "k8s.io/api/core/v1.CephFSVolumeSource"; "k8s.io/api/core/v1.CinderVolumeSource";
         "k8s.io/api/core/v1.ConfigMapVolumeSource"; "k8s.io/api/core/v1.DownwardAPIVolumeSource";
         "k8s.io/api/core/v1.EmptyDirVolumeSource"; "k8s.io/api/core/v1.EphemeralVolumeSource";
         "k8s.io/api/core/v1.FCVolumeSource"; "k8s.io/api/core/v1.FlexVolumeSource";
         "k8s.io/api/core/v1.FlockerVolumeSource"; "k8s.io/api/core/v1.GCEPersistentDiskVolumeSource";
         "k8s.io/api/core/v1.GitRepoVolumeSource"; "k8s.io/api/core/v1.GlusterfsVolumeSource";
         "k8s.io/api/core/v1.HostPathVolumeSource"; "k8s.io/api/core/v1.ISCSIVolumeSource";
         "k8s.io/api/core/v1.ImageVolumeSource"; "k8s.io/api/core/v1.NFSVolumeSource";
         "k8s.io/api/core/v1.PersistentVolumeClaimVolumeSource";
         "k8s.io/api/core/v1.PhotonPersistentDiskVolumeSource"; "k8s.io/api/core/v1.PortworxVolumeSource";
         "k8s.io/api/core/v1.ProjectedVolumeSource"; "k8s.io/api/core/v1.QuobyteVolumeSource";
         "k8s.io/api/core/v1.RBDVolumeSource"; "k8s.io/api/core/v1.ScaleIOVolumeSource";
         "k8s.io/api/core/v1.SecretVolumeSource"; "k8s.io/api/core/v1.StorageOSVolumeSource";
         "k8s.io/api/core/v1.VsphereVirtualDiskVolumeSource"].

(** Lines 14874-14915. *)
Definition schema_k8sio_api_core_v1_VsphereVirtualDiskVolumeSource : OpenAPIDefinition R :=
    mkOpenAPIDefinition
      (schema [
        Type_ ["object"];
        Properties [
          ("volumePath", schema [Default (AString ""); Type_ ["string"]; Format ""]);
          ("fsType", schema [Type_ ["string"]; Format ""]);
          ("storagePolicyName", schema [Type_ ["string"]; Format ""]);
          ("storagePolicyID", schema [Type_ ["string"]; Format ""])];
        Required ["volumePath"]])
      [].

(** Lines 14917-14946. *)
Definition schema_k8sio_api_core_v1_WeightedPodAffinityTerm : OpenAPIDefinition R :=
    mkOpenAPIDefinition
      (schema [
        Type_ ["object"];
        Properties [
          ("weight", schema [Default (AInt 0); Type_ ["integer"]; Format "int32"]);
          ("podAffinityTerm", schema [Default (AMap []); Ref (ref "k8s.io/api/core/v1.PodAffinityTerm")])];
        Required ["weight"; "podAffinityTerm"]])
      ["k8s.io/api/core/v1.PodAffinityTerm"].

(** Lines 14948-14987. *)
Definition schema_k8sio_api_core_v1_WindowsSecurityContextOptions : OpenAPIDefinition R :=
    mkOpenAPIDefinition
      (schema [
        Type_ ["object"];
        Properties [
          ("gmsaCredentialSpecName", schema [Type_ ["string"]; Format ""]);
          ("gmsaCredentialSpec", schema [Type_ ["string"]; Format ""]);
          ("runAsUserName", schema [Type_ ["string"]; Format ""]);
          ("hostProcess", schema [Type_ ["boolean"]; Format ""])]])
      [].

(** The entries of [GetOpenAPIDefinitions] for the above. *)
Definition coreDefinitions4 : list (string * OpenAPIDefinition R) :=
  [ ("k8s.io/api/core/v1.ReplicationControllerStatus", schema_k8sio_api_core_v1_ReplicationControllerStatus);
    ("k8s.io/api/core/v1.ResourceClaim", schema_k8sio_api_core_v1_ResourceClaim);
    ("k8s.io/api/core/v1.ResourceFieldSelector", schema_k8sio_api_core_v1_ResourceFieldSelector);
    ("k8s.io/api/core/v1.ResourceHealth", schema_k8sio_api_core_v1_ResourceHealth);
    ("k8s.io/api/core/v1.ResourceQuota", schema_k8sio_api_core_v1_ResourceQuota);
    ("k8s.io/api/core/v1.ResourceQuotaList", schema_k8sio_api_core_v1_ResourceQuotaList);
    ("k8s.io/api/core/v1.ResourceQuotaSpec", schema_k8sio_api_core_v1_ResourceQuotaSpec);
    ("k8s.io/api/core/v1.ResourceQuotaStatus", schema_k8sio_api_core_v1_ResourceQuotaStatus);
    ("k8s.io/api/core/v1.ResourceRequirements", schema_k8sio_api_core_v1_ResourceRequirements);
    ("k8s.io/api/core/v1.ResourceStatus", schema_k8sio_api_core_v1_ResourceStatus);
    ("k8s.io/api/core/v1.SELinuxOptions", schema_k8sio_api_core_v1_SELinuxOptions);
    ("k8s.io/api/core/v1.ScaleIOPersistentVolumeSource", schema_k8sio_api_core_v1_ScaleIOPersistentVolumeSource);
    ("k8s.io/api/core/v1.ScaleIOVolumeSource", schema_k8sio_api_core_v1_ScaleIOVolumeSource);
    ("k8s.io/api/core/v1.ScopeSelector", schema_k8sio_api_core_v1_ScopeSelector);
    ("k8s.io/api/core/v1.ScopedResourceSelectorRequirement", schema_k8sio_api_core_v1_ScopedResourceSelectorRequirement);
    ("k8s.io/api/core/v1.SeccompProfile", schema_k8sio_api_core_v1_SeccompProfile);
    ("k8s.io/api/core/v1.Secret", schema_k8sio_api_core_v1_Secret);
    ("k8s.io/api/core/v1.SecretEnvSource", schema_k8sio_api_core_v1_SecretEnvSource);
    ("k8s.io/api/core/v1.SecretKeySelector", schema_k8sio_api_core_v1_SecretKeySelector);
    ("k8s.io/api/core/v1.SecretList", schema_k8sio_api_core_v1_SecretList);
    ("k8s.io/api/core/v1.SecretProjection", schema_k8sio_api_core_v1_SecretProjection);
    ("k8s.io/api/core/v1.SecretReference", schema_k8sio_api_core_v1_SecretReference);
    ("k8s.io/api/core/v1.SecretVolumeSource", schema_k8sio_api_core_v1_SecretVolumeSource);
    ("k8s.io/api/core/v1.SecurityContext", schema_k8sio_api_core_v1_SecurityContext);
    ("k8s.io/api/core/v1.SerializedReference", schema_k8sio_api_core_v1_SerializedReference);
    ("k8s.io/api/core/v1.Service", schema_k8sio_api_core_v1_Service);
    ("k8s.io/api/core/v1.ServiceAccount", schema_k8sio_api_core_v1_ServiceAccount);
    ("k8s.io/api/core/v1.ServiceAccountList", schema_k8sio_api_core_v1_ServiceAccountList);
    ("k8s.io/api/core/v1.ServiceAccountTokenProjection", schema_k8sio_api_core_v1_ServiceAccountTokenProjection);
    ("k8s.io/api/core/v1.ServiceList", schema_k8sio_api_core_v1_ServiceList);
    ("k8s.io/api/core/v1.ServicePort", schema_k8sio_api_core_v1_ServicePort);
    ("k8s.io/api/core/v1.ServiceProxyOptions", schema_k8sio_api_core_v1_ServiceProxyOptions);
    ("k8s.io/api/core/v1.ServiceSpec", schema_k8sio_api_core_v1_ServiceSpec);
    ("k8s.io/api/core/v1.ServiceStatus", schema_k8sio_api_core_v1_ServiceStatus);
    ("k8s.io/api/core/v1.SessionAffinityConfig", schema_k8sio_api_core_v1_SessionAffinityConfig);
    ("k8s.io/api/core/v1.SleepAction", schema_k8sio_api_core_v1_SleepAction);
    ("k8s.io/api/core/v1.StorageOSPersistentVolumeSource", schema_k8sio_api_core_v1_StorageOSPersistentVolumeSource);
    ("k8s.io/api/core/v1.StorageOSVolumeSource", schema_k8sio_api_core_v1_StorageOSVolumeSource);
    ("k8s.io/api/core/v1.Sysctl", schema_k8sio_api_core_v1_Sysctl);
    ("k8s.io/api/core/v1.TCPSocketAction", schema_k8sio_api_core_v1_TCPSocketAction);
    ("k8s.io/api/core/v1.Taint", schema_k8sio_api_core_v1_Taint);
    ("k8s.io/api/core/v1.Toleration", schema_k8sio_api_core_v1_Toleration);
    ("k8s.io/api/core/v1.TopologySelectorLabelRequirement", schema_k8sio_api_core_v1_TopologySelectorLabelRequirement);
    ("k8s.io/api/core/v1.TopologySelectorTerm", schema_k8sio_api_core_v1_TopologySelectorTerm);
    ("k8s.io/api/core/v1.TopologySpreadConstraint", schema_k8sio_api_core_v1_TopologySpreadConstraint);
    ("k8s.io/api/core/v1.TypedLocalObjectReference", schema_k8sio_api_core_v1_TypedLocalObjectReference);
    ("k8s.io/api/core/v1.TypedObjectReference", schema_k8sio_api_core_v1_TypedObjectReference);
    ("k8s.io/api/core/v1.Volume", schema_k8sio_api_core_v1_Volume);
    ("k8s.io/api/core/v1.VolumeDevice", schema_k8sio_api_core_v1_VolumeDevice);
    ("k8s.io/api/core/v1.VolumeMount", schema_k8sio_api_core_v1_VolumeMount);
    ("k8s.io/api/core/v1.VolumeMountStatus", schema_k8sio_api_core_v1_VolumeMountStatus);
    ("k8s.io/api/core/v1.VolumeNodeAffinity", schema_k8sio_api_core_v1_VolumeNodeAffinity);
    ("k8s.io/api/core/v1.VolumeProjection", schema_k8sio_api_core_v1_VolumeProjection);
    ("k8s.io/api/core/v1.VolumeResourceRequirements", schema_k8sio_api_core_v1_VolumeResourceRequirements);
    ("k8s.io/api/core/v1.VolumeSource", schema_k8sio_api_core_v1_VolumeSource);
    ("k8s.io/api/core/v1.VsphereVirtualDiskVolumeSource", schema_k8sio_api_core_v1_VsphereVirtualDiskVolumeSource);
    ("k8s.io/api/core/v1.WeightedPodAffinityTerm", schema_k8sio_api_core_v1_WeightedPodAffinityTerm);
    ("k8s.io/api/core/v1.WindowsSecurityContextOptions", schema_k8sio_api_core_v1_WindowsSecurityContextOptions) ].

End Definitions.
