(* ===== verification/OpenAPIMeta.v ===== *)
(** * The schemas of k8s.io/apimachinery *)

From stdpp Require Import base list strings.
From Stdlib Require Import ZArith.
From S2P Require Import Prelude OpenAPI.

Local Open Scope string_scope.

Section Definitions.
Context {R : Type} {library : OpenAPILibrary R} (ref : string -> R).

(** Lines 14989-15007. *)
Definition schema_apimachinery_pkg_api_resource_Quantity : OpenAPIDefinition R :=
    EmbedOpenAPIDefinitionIntoV2Extension
      (mkOpenAPIDefinition
        (schema 
          [OneOf (GenerateOpenAPIV3OneOfSchema Quantity_OpenAPIV3OneOfTypes);
           Format Quantity_OpenAPISchemaFormat])
        [])
      (mkOpenAPIDefinition
        (schema [Type_ Quantity_OpenAPISchemaType; Format Quantity_OpenAPISchemaFormat])
        []).

(** Lines 15009-15035. *)
Definition schema_apimachinery_pkg_api_resource_int64Amount : OpenAPIDefinition R :=
    mkOpenAPIDefinition
      (schema [
        Type_ ["object"];
        Properties [
          ("value", schema [Default (AInt 0); Type_ ["integer"]; Format "int64"]);
          ("scale", schema [Default (AInt 0); Type_ ["integer"]; Format "int32"])];
        Required ["value"; "scale"]])
      [].

(** Lines 15037-15118. *)
Definition schema_pkg_apis_meta_v1_APIGroup : OpenAPIDefinition R :=
    mkOpenAPIDefinition
      (schema [
        Type_ ["object"];
        Properties [
          ("kind", schema [Type_ ["string"]; Format ""]);
          ("apiVersion", schema [Type_ ["string"]; Format ""]);
          ("name", schema [Default (AString ""); Type_ ["string"]; Format ""]);
          ("versions", schema [
                         Extensions [("x-kubernetes-list-type", AString "atomic")];
                         Type_ ["array"];
                         Items (schema [
                                  Default (AMap []);
                                  Ref (ref "k8s.io/apimachinery/pkg/apis/meta/v1.GroupVersionForDiscovery")])]);
          ("preferredVersion", schema [
                                 Default (AMap []);
                                 Ref (ref "k8s.io/apimachinery/pkg/apis/meta/v1.GroupVersionForDiscovery")]);
          ("serverAddressByClientCIDRs", schema [
                                           Extensions [("x-kubernetes-list-type", AString "atomic")];
                                           Type_ ["array"];
                                           Items (schema [
                                                    Default (AMap []);
                                                    Ref (ref "k8s.io/apimachinery/pkg/apis/meta/v1.ServerAddressByClientCIDR")])])];
        Required ["name"; "versions"]])
        ["k8s.io/apimachinery/pkg/apis/meta/v1.GroupVersionForDiscovery";
         "k8s.io/apimachinery/pkg/apis/meta/v1.ServerAddressByClientCIDR"].

(** Lines 15120-15167. *)
Definition schema_pkg_apis_meta_v1_APIGroupList : OpenAPIDefinition R :=
    mkOpenAPIDefinition
      (schema [
        Type_ ["object"];
        Properties [
          ("kind", schema [Type_ ["string"]; Format ""]);
          ("apiVersion", schema [Type_ ["string"]; Format ""]);
          ("groups", schema [
                       Extensions [("x-kubernetes-list-type", AString "atomic")];
                       Type_ ["array"];
                       Items (schema [Default (AMap []); Ref (ref "k8s.io/apimachinery/pkg/apis/meta/v1.APIGroup")])])];
        Required ["groups"]])
      ["k8s.io/apimachinery/pkg/apis/meta/v1.APIGroup"].

(** Lines 15169-15289. *)
Definition schema_pkg_apis_meta_v1_APIResource : OpenAPIDefinition R :=
    mkOpenAPIDefinition
      (schema [
        Type_ ["object"];
        Properties [
          ("name", schema [Default (AString ""); Type_ ["string"]; Format ""]);
          ("singularName", schema [Default (AString ""); Type_ ["string"]; Format ""]);
          ("namespaced", schema [Default (ABool false); Type_ ["boolean"]; Format ""]);
          ("group", schema [Type_ ["string"]; Format ""]);
          ("version", schema [Type_ ["string"]; Format ""]);
          ("kind", schema [Default (AString ""); Type_ ["string"]; Format ""]);
          ("verbs", schema [Type_ ["array"]; Items (schema [Default (AString ""); Type_ ["string"]; Format ""])]);
          ("shortNames", schema [
                           Extensions [("x-kubernetes-list-type", AString "atomic")];
                           Type_ ["array"];
                           Items (schema [Default (AString ""); Type_ ["string"]; Format ""])]);
          ("categories", schema [
                           Extensions [("x-kubernetes-list-type", AString "atomic")];
                           Type_ ["array"];
                           Items (schema [Default (AString ""); Type_ ["string"]; Format ""])]);
          ("storageVersionHash", schema [Type_ ["string"]; Format ""])];
        Required ["name"; "singularName"; "namespaced"; "kind"; "verbs"]])
      [].

(** Lines 15291-15346. *)
Definition schema_pkg_apis_meta_v1_APIResourceList : OpenAPIDefinition R :=
    mkOpenAPIDefinition
      (schema [
        Type_ ["object"];
        Properties [
          ("kind", schema [Type_ ["string"]; Format ""]);
          ("apiVersion", schema [Type_ ["string"]; Format ""]);
          ("groupVersion", schema [Default (AString ""); Type_ ["string"]; Format ""]);
          ("resources", schema [
                          Extensions [("x-kubernetes-list-type", AString "atomic")];
                          Type_ ["array"];
                          Items (schema [
                                   Default (AMap []);
                                   Ref (ref "k8s.io/apimachinery/pkg/apis/meta/v1.APIResource")])])];
        Required ["groupVersion"; "resources"]])
      ["k8s.io/apimachinery/pkg/apis/meta/v1.APIResource"].

(** Lines 15348-15415. *)
Definition schema_pkg_apis_meta_v1_APIVersions : OpenAPIDefinition R :=
    mkOpenAPIDefinition
      (schema [
        Type_ ["object"];
        Properties [
          ("kind", schema [Type_ ["string"]; Format ""]);
          ("apiVersion", schema [Type_ ["string"]; Format ""]);
          ("versions", schema [
                         Extensions [("x-kubernetes-list-type", AString "atomic")];
                         Type_ ["array"];
                         Items (schema [Default (AString ""); Type_ ["string"]; Format ""])]);
          ("serverAddressByClientCIDRs", schema [
                                           Extensions [("x-kubernetes-list-type", AString "atomic")];
                                           Type_ ["array"];
                                           Items (schema [
                                                    Default (AMap []);
                                                    Ref (ref "k8s.io/apimachinery/pkg/apis/meta/v1.ServerAddressByClientCIDR")])])];
        Required ["versions"; "serverAddressByClientCIDRs"]])
      ["k8s.io/apimachinery/pkg/apis/meta/v1.ServerAddressByClientCIDR"].

(** Lines 15417-15479. *)
Definition schema_pkg_apis_meta_v1_ApplyOptions : OpenAPIDefinition R :=
    mkOpenAPIDefinition
      (schema [
        Type_ ["object"];
        Properties [
          ("kind", schema [Type_ ["string"]; Format ""]);
          ("apiVersion", schema [Type_ ["string"]; Format ""]);
          ("dryRun", schema [
                       Extensions [("x-kubernetes-list-type", AString "atomic")];
                       Type_ ["array"];
                       Items (schema [Default (AString ""); Type_ ["string"]; Format ""])]);
          ("force", schema [Default (ABool false); Type_ ["boolean"]; Format ""]);
          ("fieldManager", schema [Default (AString ""); Type_ ["string"]; Format ""])];
        Required ["force"; "fieldManager"]])
      [].

(** Lines 15481-15540. *)
Definition schema_pkg_apis_meta_v1_Condition : OpenAPIDefinition R :=
    mkOpenAPIDefinition
      (schema [
        Type_ ["object"];
        Properties [
          ("type", schema [Default (AString ""); Type_ ["string"]; Format ""]);
          ("status", schema [Default (AString ""); Type_ ["string"]; Format ""]);
          ("observedGeneration", schema [Type_ ["integer"]; Format "int64"]);
          ("lastTransitionTime", schema [Ref (ref "k8s.io/apimachinery/pkg/apis/meta/v1.Time")]);
          ("reason", schema [Default (AString ""); Type_ ["string"]; Format ""]);
          ("message", schema [Default (AString ""); Type_ ["string"]; Format ""])];
        Required ["type"; "status"; "lastTransitionTime"; "reason"; "message"]])
      ["k8s.io/apimachinery/pkg/apis/meta/v1.Time"].

(** Lines 15542-15601. *)
Definition schema_pkg_apis_meta_v1_CreateOptions : OpenAPIDefinition R :=
    mkOpenAPIDefinition
      (schema [
        Type_ ["object"];
        Properties [
          ("kind", schema [Type_ ["string"]; Format ""]);
          ("apiVersion", schema [Type_ ["string"]; Format ""]);
          ("dryRun", schema [
                       Extensions [("x-kubernetes-list-type", AString "atomic")];
                       Type_ ["array"];
                       Items (schema [Default (AString ""); Type_ ["string"]; Format ""])]);
          ("fieldManager", schema [Type_ ["string"]; Format ""]);
          ("fieldValidation", schema [Type_ ["string"]; Format ""])]])
      [].

(** Lines 15603-15684. *)
Definition schema_pkg_apis_meta_v1_DeleteOptions : OpenAPIDefinition R :=
    mkOpenAPIDefinition
      (schema [
        Type_ ["object"];
        Properties [
          ("kind", schema [Type_ ["string"]; Format ""]);
          ("apiVersion", schema [Type_ ["string"]; Format ""]);
          ("gracePeriodSeconds", schema [Type_ ["integer"]; Format "int64"]);
          ("preconditions", schema [Ref (ref "k8s.io/apimachinery/pkg/apis/meta/v1.Preconditions")]);
          ("orphanDependents", schema [Type_ ["boolean"]; Format ""]);
          ("propagationPolicy", schema [Type_ ["string"]; Format ""]);
          ("dryRun", schema [
                       Extensions [("x-kubernetes-list-type", AString "atomic")];
                       Type_ ["array"];
                       Items (schema [Default (AString ""); Type_ ["string"]; Format ""])]);
          ("ignoreStoreReadErrorWithClusterBreakingPotential", schema [Type_ ["boolean"]; Format ""])]])
      ["k8s.io/apimachinery/pkg/apis/meta/v1.Preconditions"].

(** Lines 15686-15696. *)
Definition schema_pkg_apis_meta_v1_Duration : OpenAPIDefinition R :=
    mkOpenAPIDefinition
      (schema [Type_ Duration_OpenAPISchemaType; Format Duration_OpenAPISchemaFormat])
      [].

(** Lines 15698-15746. *)
Definition schema_pkg_apis_meta_v1_FieldSelectorRequirement : OpenAPIDefinition R :=
    mkOpenAPIDefinition
      (schema [
        Type_ ["object"];
        Properties [
          ("key", schema [Default (AString ""); Type_ ["string"]; Format ""]);
          ("operator", schema [Default (AString ""); Type_ ["string"]; Format ""]);
          ("values", schema [
                       Extensions [("x-kubernetes-list-type", AString "atomic")];
                       Type_ ["array"];
                       Items (schema [Default (AString ""); Type_ ["string"]; Format ""])])];
        Required ["key"; "operator"]])
      [].

(** Lines 15748-15757. *)
Definition schema_pkg_apis_meta_v1_FieldsV1 : OpenAPIDefinition R :=
    mkOpenAPIDefinition
      (schema [Type_ ["object"]])
      [].

(** Lines 15759-15791. *)
Definition schema_pkg_apis_meta_v1_GetOptions : OpenAPIDefinition R :=
    mkOpenAPIDefinition
      (schema [
        Type_ ["object"];
        Properties [
          ("kind", schema [Type_ ["string"]; Format ""]);
          ("apiVersion", schema [Type_ ["string"]; Format ""]);
          ("resourceVersion", schema [Type_ ["string"]; Format ""])]])
      [].

(** Lines 15793-15819. *)
Definition schema_pkg_apis_meta_v1_GroupKind : OpenAPIDefinition R :=
    mkOpenAPIDefinition
      (schema [
        Type_ ["object"];
        Properties [
          ("group", schema [Default (AString ""); Type_ ["string"]; Format ""]);
          ("kind", schema [Default (AString ""); Type_ ["string"]; Format ""])];
        Required ["group"; "kind"]])
      [].

(** Lines 15821-15847. *)
Definition schema_pkg_apis_meta_v1_GroupResource : OpenAPIDefinition R :=
    mkOpenAPIDefinition
      (schema [
        Type_ ["object"];
        Properties [
          ("group", schema [Default (AString ""); Type_ ["string"]; Format ""]);
          ("resource", schema [Default (AString ""); Type_ ["string"]; Format ""])];
        Required ["group"; "resource"]])
      [].

(** Lines 15849-15875. *)
Definition schema_pkg_apis_meta_v1_GroupVersion : OpenAPIDefinition R :=
    mkOpenAPIDefinition
      (schema [
        Type_ ["object"];
        Properties [
          ("group", schema [Default (AString ""); Type_ ["string"]; Format ""]);
          ("version", schema [Default (AString ""); Type_ ["string"]; Format ""])];
        Required ["group"; "version"]])
      [].

(** Lines 15877-15905. *)
Definition schema_pkg_apis_meta_v1_GroupVersionForDiscovery : OpenAPIDefinition R :=
    mkOpenAPIDefinition
      (schema [
        Type_ ["object"];
        Properties [
          ("groupVersion", schema [Default (AString ""); Type_ ["string"]; Format ""]);
          ("version", schema [Default (AString ""); Type_ ["string"]; Format ""])];
        Required ["groupVersion"; "version"]])
      [].

(** Lines 15907-15940. *)
Definition schema_pkg_apis_meta_v1_GroupVersionKind : OpenAPIDefinition R :=
    mkOpenAPIDefinition
      (schema [
        Type_ ["object"];
        Properties [
          ("group", schema [Default (AString ""); Type_ ["string"]; Format ""]);
          ("version", schema [Default (AString ""); Type_ ["string"]; Format ""]);
          ("kind", schema [Default (AString ""); Type_ ["string"]; Format ""])];
        Required ["group"; "version"; "kind"]])
      [].

(** Lines 15942-15975. *)
Definition schema_pkg_apis_meta_v1_GroupVersionResource : OpenAPIDefinition R :=
    mkOpenAPIDefinition
      (schema [
        Type_ ["object"];
        Properties [
          ("group", schema [Default (AString ""); Type_ ["string"]; Format ""]);
          ("version", schema [Default (AString ""); Type_ ["string"]; Format ""]);
          ("resource", schema [Default (AString ""); Type_ ["string"]; Format ""])];
        Required ["group"; "version"; "resource"]])
      [].

(** Lines 15977-16001. *)
Definition schema_pkg_apis_meta_v1_InternalEvent : OpenAPIDefinition R :=
    mkOpenAPIDefinition
      (schema [
        Type_ ["object"];
        Properties [("Type", schema [Default (AString ""); Type_ ["string"]; Format ""]); ("Object", schema [])];
        Required ["Type"; "Object"]])
      [].

(** Lines 16003-16056. *)
Definition schema_pkg_apis_meta_v1_LabelSelector : OpenAPIDefinition R :=
    mkOpenAPIDefinition
      (schema [
        Type_ ["object"];
        Properties [
          ("matchLabels", schema [
                            Type_ ["object"];
                            AdditionalProperties (schema [Default (AString ""); Type_ ["string"]; Format ""])]);
          ("matchExpressions", schema [
                                 Extensions [("x-kubernetes-list-type", AString "atomic")];
                                 Type_ ["array"];
                                 Items (schema [
                                          Default (AMap []);
                                          Ref (ref "k8s.io/apimachinery/pkg/apis/meta/v1.LabelSelectorRequirement")])])];
        Extensions [("x-kubernetes-map-type", AString "atomic")]])
      ["k8s.io/apimachinery/pkg/apis/meta/v1.LabelSelectorRequirement"].

(** Lines 16058-16106. *)
Definition schema_pkg_apis_meta_v1_LabelSelectorRequirement : OpenAPIDefinition R :=
    mkOpenAPIDefinition
      (schema [
        Type_ ["object"];
        Properties [
          ("key", schema [Default (AString ""); Type_ ["string"]; Format ""]);
          ("operator", schema [Default (AString ""); Type_ ["string"]; Format ""]);
          ("values", schema [
                       Extensions [("x-kubernetes-list-type", AString "atomic")];
                       Type_ ["array"];
                       Items (schema [Default (AString ""); Type_ ["string"]; Format ""])])];
        Required ["key"; "operator"]])
      [].

(** Lines 16108-16156. *)
Definition schema_pkg_apis_meta_v1_List : OpenAPIDefinition R :=
    mkOpenAPIDefinition
      (schema [
        Type_ ["object"];
        Properties [
          ("kind", schema [Type_ ["string"]; Format ""]);
          ("apiVersion", schema [Type_ ["string"]; Format ""]);
          ("metadata", schema [Default (AMap []); Ref (ref "k8s.io/apimachinery/pkg/apis/meta/v1.ListMeta")]);
          ("items", schema [
                      Type_ ["array"];
                      Items (schema [Ref (ref "k8s.io/apimachinery/pkg/runtime.RawExtension")])])];
        Required ["items"]])
      ["k8s.io/apimachinery/pkg/apis/meta/v1.ListMeta"; "k8s.io/apimachinery/pkg/runtime.RawExtension"].

(** Lines 16158-16197. *)
Definition schema_pkg_apis_meta_v1_ListMeta : OpenAPIDefinition R :=
    mkOpenAPIDefinition
      (schema [
        Type_ ["object"];
        Properties [
          ("selfLink", schema [Type_ ["string"]; Format ""]);
          ("resourceVersion", schema [Type_ ["string"]; Format ""]);
          ("continue", schema [Type_ ["string"]; Format ""]);
          ("remainingItemCount", schema [Type_ ["integer"]; Format "int64"])]])
      [].

(** Lines 16199-16294. *)
Definition schema_pkg_apis_meta_v1_ListOptions : OpenAPIDefinition R :=
    mkOpenAPIDefinition
      (schema [
        Type_ ["object"];
        Properties [
          ("kind", schema [Type_ ["string"]; Format ""]);
          ("apiVersion", schema [Type_ ["string"]; Format ""]);
          ("labelSelector", schema [Type_ ["string"]; Format ""]);
          ("fieldSelector", schema [Type_ ["string"]; Format ""]);
          ("watch", schema [Type_ ["boolean"]; Format ""]);
          ("allowWatchBookmarks", schema [Type_ ["boolean"]; Format ""]);
          ("resourceVersion", schema [Type_ ["string"]; Format ""]);
          ("resourceVersionMatch", schema [Type_ ["string"]; Format ""]);
          ("timeoutSeconds", schema [Type_ ["integer"]; Format "int64"]);
          ("limit", schema [Type_ ["integer"]; Format "int64"]);
          ("continue", schema [Type_ ["string"]; Format ""]);
          ("sendInitialEvents", schema [Type_ ["boolean"]; Format ""])]])
      [].

(** Lines 16296-16356. *)
Definition schema_pkg_apis_meta_v1_ManagedFieldsEntry : OpenAPIDefinition R :=
    mkOpenAPIDefinition
      (schema [
        Type_ ["object"];
        Properties [
          ("manager", schema [Type_ ["string"]; Format ""]);
          ("operation", schema [Type_ ["string"]; Format ""]);
          ("apiVersion", schema [Type_ ["string"]; Format ""]);
          ("time", schema [Ref (ref "k8s.io/apimachinery/pkg/apis/meta/v1.Time")]);
          ("fieldsType", schema [Type_ ["string"]; Format ""]);
          ("fieldsV1", schema [Ref (ref "k8s.io/apimachinery/pkg/apis/meta/v1.FieldsV1")]);
          ("subresource", schema [Type_ ["string"]; Format ""])]])
      ["k8s.io/apimachinery/pkg/apis/meta/v1.FieldsV1"; "k8s.io/apimachinery/pkg/apis/meta/v1.Time"].

(** Lines 16358-16368. *)
Definition schema_pkg_apis_meta_v1_MicroTime : OpenAPIDefinition R :=
    mkOpenAPIDefinition
      (schema [Type_ MicroTime_OpenAPISchemaType; Format MicroTime_OpenAPISchemaFormat])
      [].

(** Lines 16370-16547. *)
Definition schema_pkg_apis_meta_v1_ObjectMeta : OpenAPIDefinition R :=
    mkOpenAPIDefinition
      (schema [
        Type_ ["object"];
        Properties [
          ("name", schema [Type_ ["string"]; Format ""]);
          ("generateName", schema [Type_ ["string"]; Format ""]);
          ("namespace", schema [Type_ ["string"]; Format ""]);
          ("selfLink", schema [Type_ ["string"]; Format ""]);
          ("uid", schema [Type_ ["string"]; Format ""]);
          ("resourceVersion", schema [Type_ ["string"]; Format ""]);
          ("generation", schema [Type_ ["integer"]; Format "int64"]);
          ("creationTimestamp", schema [Ref (ref "k8s.io/apimachinery/pkg/apis/meta/v1.Time")]);
          ("deletionTimestamp", schema [Ref (ref "k8s.io/apimachinery/pkg/apis/meta/v1.Time")]);
          ("deletionGracePeriodSeconds", schema [Type_ ["integer"]; Format "int64"]);
          ("labels", schema [
                       Type_ ["object"];
                       AdditionalProperties (schema [Default (AString ""); Type_ ["string"]; Format ""])]);
          ("annotations", schema [
                            Type_ ["object"];
                            AdditionalProperties (schema [Default (AString ""); Type_ ["string"]; Format ""])]);
          ("ownerReferences", schema [
                                Extensions [
                                  ("x-kubernetes-list-map-keys", ASlice [AString "uid"]);
                                  ("x-kubernetes-list-type", AString "map");
                                  ("x-kubernetes-patch-merge-key", AString "uid");
                                  ("x-kubernetes-patch-strategy", AString "merge")];
                                Type_ ["array"];
                                Items (schema [
                                         Default (AMap []);
                                         Ref (ref "k8s.io/apimachinery/pkg/apis/meta/v1.OwnerReference")])]);
          ("finalizers", schema [
                           Extensions [
                             ("x-kubernetes-list-type", AString "set");
                             ("x-kubernetes-patch-strategy", AString "merge")];
                           Type_ ["array"];
                           Items (schema [Default (AString ""); Type_ ["string"]; Format ""])]);
          ("managedFields", schema [
                              Extensions [("x-kubernetes-list-type", AString "atomic")];
                              Type_ ["array"];
                              Items (schema [
                                       Default (AMap []);
                                       Ref (ref "k8s.io/apimachinery/pkg/apis/meta/v1.ManagedFieldsEntry")])])]])
        ["k8s.io/apimachinery/pkg/apis/meta/v1.ManagedFieldsEntry";
         "k8s.io/apimachinery/pkg/apis/meta/v1.OwnerReference"; "k8s.io/apimachinery/pkg/apis/meta/v1.Time"].

(** Lines 16549-16612. *)
Definition schema_pkg_apis_meta_v1_OwnerReference : OpenAPIDefinition R :=
    mkOpenAPIDefinition
      (schema [
        Type_ ["object"];
        Properties [
          ("apiVersion", schema [Default (AString ""); Type_ ["string"]; Format ""]);
          ("kind", schema [Default (AString ""); Type_ ["string"]; Format ""]);
          ("name", schema [Default (AString ""); Type_ ["string"]; Format ""]);
          ("uid", schema [Default (AString ""); Type_ ["string"]; Format ""]);
          ("controller", schema [Type_ ["boolean"]; Format ""]);
          ("blockOwnerDeletion", schema [Type_ ["boolean"]; Format ""])];
        Required ["apiVersion"; "kind"; "name"; "uid"];
        Extensions [("x-kubernetes-map-type", AString "atomic")]])
      [].

(** Lines 16614-16648. *)
Definition schema_pkg_apis_meta_v1_PartialObjectMetadata : OpenAPIDefinition R :=
    mkOpenAPIDefinition
      (schema [
        Type_ ["object"];
        Properties [
          ("kind", schema [Type_ ["string"]; Format ""]);
          ("apiVersion", schema [Type_ ["string"]; Format ""]);
          ("metadata", schema [Default (AMap []); Ref (ref "k8s.io/apimachinery/pkg/apis/meta/v1.ObjectMeta")])]])
      ["k8s.io/apimachinery/pkg/apis/meta/v1.ObjectMeta"].

(** Lines 16650-16699. *)
Definition schema_pkg_apis_meta_v1_PartialObjectMetadataList : OpenAPIDefinition R :=
    mkOpenAPIDefinition
      (schema [
        Type_ ["object"];
        Properties [
          ("kind", schema [Type_ ["string"]; Format ""]);
          ("apiVersion", schema [Type_ ["string"]; Format ""]);
          ("metadata", schema [Default (AMap []); Ref (ref "k8s.io/apimachinery/pkg/apis/meta/v1.ListMeta")]);
          ("items", schema [
                      Type_ ["array"];
                      Items (schema [
                               Default (AMap []);
                               Ref (ref "k8s.io/apimachinery/pkg/apis/meta/v1.PartialObjectMetadata")])])];
        Required ["items"]])
        ["k8s.io/apimachinery/pkg/apis/meta/v1.ListMeta";
         "k8s.io/apimachinery/pkg/apis/meta/v1.PartialObjectMetadata"].

(** Lines 16701-16710. *)
Definition schema_pkg_apis_meta_v1_Patch : OpenAPIDefinition R :=
    mkOpenAPIDefinition
      (schema [Type_ ["object"]])
      [].

(** Lines 16712-16778. *)
Definition schema_pkg_apis_meta_v1_PatchOptions : OpenAPIDefinition R :=
    mkOpenAPIDefinition
      (schema [
        Type_ ["object"];
        Properties [
          ("kind", schema [Type_ ["string"]; Format ""]);
          ("apiVersion", schema [Type_ ["string"]; Format ""]);
          ("dryRun", schema [
                       Extensions [("x-kubernetes-list-type", AString "atomic")];
                       Type_ ["array"];
                       Items (schema [Default (AString ""); Type_ ["string"]; Format ""])]);
          ("force", schema [Type_ ["boolean"]; Format ""]);
          ("fieldManager", schema [Type_ ["string"]; Format ""]);
          ("fieldValidation", schema [Type_ ["string"]; Format ""])]])
      [].

(** Lines 16780-16805. *)
Definition schema_pkg_apis_meta_v1_Preconditions : OpenAPIDefinition R :=
    mkOpenAPIDefinition
      (schema [
        Type_ ["object"];
        Properties [
          ("uid", schema [Type_ ["string"]; Format ""]);
          ("resourceVersion", schema [Type_ ["string"]; Format ""])]])
      [].

(** Lines 16807-16839. *)
Definition schema_pkg_apis_meta_v1_RootPaths : OpenAPIDefinition R :=
    mkOpenAPIDefinition
      (schema [
        Type_ ["object"];
        Properties [
          ("paths", schema [
                      Extensions [("x-kubernetes-list-type", AString "atomic")];
                      Type_ ["array"];
                      Items (schema [Default (AString ""); Type_ ["string"]; Format ""])])];
        Required ["paths"]])
      [].

(** Lines 16841-16869. *)
Definition schema_pkg_apis_meta_v1_ServerAddressByClientCIDR : OpenAPIDefinition R :=
    mkOpenAPIDefinition
      (schema [
        Type_ ["object"];
        Properties [
          ("clientCIDR", schema [Default (AString ""); Type_ ["string"]; Format ""]);
          ("serverAddress", schema [Default (AString ""); Type_ ["string"]; Format ""])];
        Required ["clientCIDR"; "serverAddress"]])
      [].

(** Lines 16871-16944. *)
Definition schema_pkg_apis_meta_v1_Status : OpenAPIDefinition R :=
    mkOpenAPIDefinition
      (schema [
        Type_ ["object"];
        Properties [
          ("kind", schema [Type_ ["string"]; Format ""]);
          ("apiVersion", schema [Type_ ["string"]; Format ""]);
          ("metadata", schema [Default (AMap []); Ref (ref "k8s.io/apimachinery/pkg/apis/meta/v1.ListMeta")]);
          ("status", schema [Type_ ["string"]; Format ""]);
          ("message", schema [Type_ ["string"]; Format ""]);
          ("reason", schema [Type_ ["string"]; Format ""]);
          ("details", schema [
                        Extensions [("x-kubernetes-list-type", AString "atomic")];
                        Ref (ref "k8s.io/apimachinery/pkg/apis/meta/v1.StatusDetails")]);
          ("code", schema [Type_ ["integer"]; Format "int32"])]])
        ["k8s.io/apimachinery/pkg/apis/meta/v1.ListMeta";
         "k8s.io/apimachinery/pkg/apis/meta/v1.StatusDetails"].

(** Lines 16946-16978. *)
Definition schema_pkg_apis_meta_v1_StatusCause : OpenAPIDefinition R :=
    mkOpenAPIDefinition
      (schema [
        Type_ ["object"];
        Properties [
          ("reason", schema [Type_ ["string"]; Format ""]);
          ("message", schema [Type_ ["string"]; Format ""]);
          ("field", schema [Type_ ["string"]; Format ""])]])
      [].

(** Lines 16980-17047. *)
Definition schema_pkg_apis_meta_v1_StatusDetails : OpenAPIDefinition R :=
    mkOpenAPIDefinition
      (schema [
        Type_ ["object"];
        Properties [
          ("name", schema [Type_ ["string"]; Format ""]);
          ("group", schema [Type_ ["string"]; Format ""]);
          ("kind", schema [Type_ ["string"]; Format ""]);
          ("uid", schema [Type_ ["string"]; Format ""]);
          ("causes", schema [
                       Extensions [("x-kubernetes-list-type", AString "atomic")];
                       Type_ ["array"];
                       Items (schema [
                                Default (AMap []);
                                Ref (ref "k8s.io/apimachinery/pkg/apis/meta/v1.StatusCause")])]);
          ("retryAfterSeconds", schema [Type_ ["integer"]; Format "int32"])]])
      ["k8s.io/apimachinery/pkg/apis/meta/v1.StatusCause"].

(** Lines 17049-17122. *)
Definition schema_pkg_apis_meta_v1_Table : OpenAPIDefinition R :=
    mkOpenAPIDefinition
      (schema [
        Type_ ["object"];
        Properties [
          ("kind", schema [Type_ ["string"]; Format ""]);
          ("apiVersion", schema [Type_ ["string"]; Format ""]);
          ("metadata", schema [Default (AMap []); Ref (ref "k8s.io/apimachinery/pkg/apis/meta/v1.ListMeta")]);
          ("columnDefinitions", schema [
                                  Extensions [("x-kubernetes-list-type", AString "atomic")];
                                  Type_ ["array"];
                                  Items (schema [
                                           Default (AMap []);
                                           Ref (ref "k8s.io/apimachinery/pkg/apis/meta/v1.TableColumnDefinition")])]);
          ("rows", schema [
                     Extensions [("x-kubernetes-list-type", AString "atomic")];
                     Type_ ["array"];
                     Items (schema [Default (AMap []); Ref (ref "k8s.io/apimachinery/pkg/apis/meta/v1.TableRow")])])];
        Required ["columnDefinitions"; "rows"]])
        ["k8s.io/apimachinery/pkg/apis/meta/v1.ListMeta";
         "k8s.io/apimachinery/pkg/apis/meta/v1.TableColumnDefinition";
         "k8s.io/apimachinery/pkg/apis/meta/v1.TableRow"].

(** Lines 17124-17176. *)
Definition schema_pkg_apis_meta_v1_TableColumnDefinition : OpenAPIDefinition R :=
    mkOpenAPIDefinition
      (schema [
        Type_ ["object"];
        Properties [
          ("name", schema [Default (AString ""); Type_ ["string"]; Format ""]);
          ("type", schema [Default (AString ""); Type_ ["string"]; Format ""]);
          ("format", schema [Default (AString ""); Type_ ["string"]; Format ""]);
          ("description", schema [Default (AString ""); Type_ ["string"]; Format ""]);
          ("priority", schema [Default (AInt 0); Type_ ["integer"]; Format "int32"])];
        Required ["name"; "type"; "format"; "description"; "priority"]])
      [].

(** Lines 17178-17210. *)
Definition schema_pkg_apis_meta_v1_TableOptions : OpenAPIDefinition R :=
    mkOpenAPIDefinition
      (schema [
        Type_ ["object"];
        Properties [
          ("kind", schema [Type_ ["string"]; Format ""]);
          ("apiVersion", schema [Type_ ["string"]; Format ""]);
          ("includeObject", schema [Type_ ["string"]; Format ""])]])
      [].

(** Lines 17212-17270. *)
Definition schema_pkg_apis_meta_v1_TableRow : OpenAPIDefinition R :=
    mkOpenAPIDefinition
      (schema [
        Type_ ["object"];
        Properties [
          ("cells", schema [
                      Extensions [("x-kubernetes-list-type", AString "atomic")];
                      Type_ ["array"];
                      Items (schema [Type_ ["object"]; Format ""])]);
          ("conditions", schema [
                           Extensions [("x-kubernetes-list-type", AString "atomic")];
                           Type_ ["array"];
                           Items (schema [
                                    Default (AMap []);
                                    Ref (ref "k8s.io/apimachinery/pkg/apis/meta/v1.TableRowCondition")])]);
          ("object", schema [Ref (ref "k8s.io/apimachinery/pkg/runtime.RawExtension")])];
        Required ["cells"]])
        ["k8s.io/apimachinery/pkg/apis/meta/v1.TableRowCondition";
         "k8s.io/apimachinery/pkg/runtime.RawExtension"].

(** Lines 17272-17314. *)
Definition schema_pkg_apis_meta_v1_TableRowCondition : OpenAPIDefinition R :=
    mkOpenAPIDefinition
      (schema [
        Type_ ["object"];
        Properties [
          ("type", schema [Default (AString ""); Type_ ["string"]; Format ""]);
          ("status", schema [Default (AString ""); Type_ ["string"]; Format ""]);
          ("reason", schema [Type_ ["string"]; Format ""]);
          ("message", schema [Type_ ["string"]; Format ""])];
        Required ["type"; "status"]])
      [].

(** Lines 17316-17326. *)
Definition schema_pkg_apis_meta_v1_Time : OpenAPIDefinition R :=
    mkOpenAPIDefinition
      (schema [Type_ Time_OpenAPISchemaType; Format Time_OpenAPISchemaFormat])
      [].

(** Lines 17328-17356. *)
Definition schema_pkg_apis_meta_v1_Timestamp : OpenAPIDefinition R :=
    mkOpenAPIDefinition
      (schema [
        Type_ ["object"];
        Properties [
          ("seconds", schema [Default (AInt 0); Type_ ["integer"]; Format "int64"]);
          ("nanos", schema [Default (AInt 0); Type_ ["integer"]; Format "int32"])];
        Required ["seconds"; "nanos"]])
      [].

(** Lines 17358-17383. *)
Definition schema_pkg_apis_meta_v1_TypeMeta : OpenAPIDefinition R :=
    mkOpenAPIDefinition
      (schema [
        Type_ ["object"];
        Properties [
          ("kind", schema [Type_ ["string"]; Format ""]);
          ("apiVersion", schema [Type_ ["string"]; Format ""])]])
      [].

(** Lines 17385-17444. *)
Definition schema_pkg_apis_meta_v1_UpdateOptions : OpenAPIDefinition R :=
    mkOpenAPIDefinition
      (schema [
        Type_ ["object"];
        Properties [
          ("kind", schema [Type_ ["string"]; Format ""]);
          ("apiVersion", schema [Type_ ["string"]; Format ""]);
          ("dryRun", schema [
                       Extensions [("x-kubernetes-list-type", AString "atomic")];
                       Type_ ["array"];
                       Items (schema [Default (AString ""); Type_ ["string"]; Format ""])]);
          ("fieldManager", schema [Type_ ["string"]; Format ""]);
          ("fieldValidation", schema [Type_ ["string"]; Format ""])]])
      [].

(** Lines 17446-17473. *)
Definition schema_pkg_apis_meta_v1_WatchEvent : OpenAPIDefinition R :=
    mkOpenAPIDefinition
      (schema [
        Type_ ["object"];
        Properties [
          ("type", schema [Default (AString ""); Type_ ["string"]; Format ""]);
          ("object", schema [Ref (ref "k8s.io/apimachinery/pkg/runtime.RawExtension")])];
        Required ["type"; "object"]])
      ["k8s.io/apimachinery/pkg/runtime.RawExtension"].

(** Lines 17475-17484. *)
Definition schema_k8sio_apimachinery_pkg_runtime_RawExtension : OpenAPIDefinition R :=
    mkOpenAPIDefinition
      (schema [Type_ ["object"]])
      [].

(** Lines 17486-17509. *)
Definition schema_k8sio_apimachinery_pkg_runtime_TypeMeta : OpenAPIDefinition R :=
    mkOpenAPIDefinition
      (schema [
        Type_ ["object"];
        Properties [
          ("apiVersion", schema [Type_ ["string"]; Format ""]);
          ("kind", schema [Type_ ["string"]; Format ""])]])
      [].

(** Lines 17511-17551. *)
Definition schema_k8sio_apimachinery_pkg_runtime_Unknown : OpenAPIDefinition R :=
    mkOpenAPIDefinition
      (schema [
        Type_ ["object"];
        Properties [
          ("apiVersion", schema [Type_ ["string"]; Format ""]);
          ("kind", schema [Type_ ["string"]; Format ""]);
          ("ContentEncoding", schema [Default (AString ""); Type_ ["string"]; Format ""]);
          ("ContentType", schema [Default (AString ""); Type_ ["string"]; Format ""])];
        Required ["ContentEncoding"; "ContentType"]])
      [].

(** Lines 17553-17658. *)
Definition schema_k8sio_apimachinery_pkg_version_Info : OpenAPIDefinition R :=
    mkOpenAPIDefinition
      (schema [
        Type_ ["object"];
        Properties [
          ("major", schema [Default (AString ""); Type_ ["string"]; Format ""]);
          ("minor", schema [Default (AString ""); Type_ ["string"]; Format ""]);
          ("emulationMajor", schema [Type_ ["string"]; Format ""]);
          ("emulationMinor", schema [Type_ ["string"]; Format ""]);
          ("minCompatibilityMajor", schema [Type_ ["string"]; Format ""]);
          ("minCompatibilityMinor", schema [Type_ ["string"]; Format ""]);
          ("gitVersion", schema [Default (AString ""); Type_ ["string"]; Format ""]);
          ("gitCommit", schema [Default (AString ""); Type_ ["string"]; Format ""]);
          ("gitTreeState", schema [Default (AString ""); Type_ ["string"]; Format ""]);
          ("buildDate", schema [Default (AString ""); Type_ ["string"]; Format ""]);
          ("goVersion", schema [Default (AString ""); Type_ ["string"]; Format ""]);
          ("compiler", schema [Default (AString ""); Type_ ["string"]; Format ""]);
          ("platform", schema [Default (AString ""); Type_ ["string"]; Format ""])];
        Required 
          ["major"; "minor"; "gitVersion"; "gitCommit"; "gitTreeState"; "buildDate"; "goVersion";
           "compiler"; "platform"]])
      [].

(** The entries of [GetOpenAPIDefinitions] for the above. *)
Definition metaDefinitions : list (string * OpenAPIDefinition R) :=
  [ ("k8s.io/apimachinery/pkg/api/resource.Quantity", schema_apimachinery_pkg_api_resource_Quantity);
    ("k8s.io/apimachinery/pkg/apis/meta/v1.APIGroup", schema_pkg_apis_meta_v1_APIGroup);
    ("k8s.io/apimachinery/pkg/apis/meta/v1.APIGroupList", schema_pkg_apis_meta_v1_APIGroupList);
    ("k8s.io/apimachinery/pkg/apis/meta/v1.APIResource", schema_pkg_apis_meta_v1_APIResource);
    ("k8s.io/apimachinery/pkg/apis/meta/v1.APIResourceList", schema_pkg_apis_meta_v1_APIResourceList);
    ("k8s.io/apimachinery/pkg/apis/meta/v1.APIVersions", schema_pkg_apis_meta_v1_APIVersions);
    ("k8s.io/apimachinery/pkg/apis/meta/v1.ApplyOptions", schema_pkg_apis_meta_v1_ApplyOptions);
    ("k8s.io/apimachinery/pkg/apis/meta/v1.Condition", schema_pkg_apis_meta_v1_Condition);
    ("k8s.io/apimachinery/pkg/apis/meta/v1.CreateOptions", schema_pkg_apis_meta_v1_CreateOptions);
    ("k8s.io/apimachinery/pkg/apis/meta/v1.DeleteOptions", schema_pkg_apis_meta_v1_DeleteOptions);
    ("k8s.io/apimachinery/pkg/apis/meta/v1.Duration", schema_pkg_apis_meta_v1_Duration);
    ("k8s.io/apimachinery/pkg/apis/meta/v1.FieldSelectorRequirement", schema_pkg_apis_meta_v1_FieldSelectorRequirement);
    ("k8s.io/apimachinery/pkg/apis/meta/v1.FieldsV1", schema_pkg_apis_meta_v1_FieldsV1);
    ("k8s.io/apimachinery/pkg/apis/meta/v1.GetOptions", schema_pkg_apis_meta_v1_GetOptions);
    ("k8s.io/apimachinery/pkg/apis/meta/v1.GroupKind", schema_pkg_apis_meta_v1_GroupKind);
    ("k8s.io/apimachinery/pkg/apis/meta/v1.GroupResource", schema_pkg_apis_meta_v1_GroupResource);
    ("k8s.io/apimachinery/pkg/apis/meta/v1.GroupVersion", schema_pkg_apis_meta_v1_GroupVersion);
    ("k8s.io/apimachinery/pkg/apis/meta/v1.GroupVersionForDiscovery", schema_pkg_apis_meta_v1_GroupVersionForDiscovery);
    ("k8s.io/apimachinery/pkg/apis/meta/v1.GroupVersionKind", schema_pkg_apis_meta_v1_GroupVersionKind);
    ("k8s.io/apimachinery/pkg/apis/meta/v1.GroupVersionResource", schema_pkg_apis_meta_v1_GroupVersionResource);
    ("k8s.io/apimachinery/pkg/apis/meta/v1.InternalEvent", schema_pkg_apis_meta_v1_InternalEvent);
    ("k8s.io/apimachinery/pkg/apis/meta/v1.LabelSelector", schema_pkg_apis_meta_v1_LabelSelector);
    ("k8s.io/apimachinery/pkg/apis/meta/v1.LabelSelectorRequirement", schema_pkg_apis_meta_v1_LabelSelectorRequirement);
    ("k8s.io/apimachinery/pkg/apis/meta/v1.List", schema_pkg_apis_meta_v1_List);
    ("k8s.io/apimachinery/pkg/apis/meta/v1.ListMeta", schema_pkg_apis_meta_v1_ListMeta);
    ("k8s.io/apimachinery/pkg/apis/meta/v1.ListOptions", schema_pkg_apis_meta_v1_ListOptions);
    ("k8s.io/apimachinery/pkg/apis/meta/v1.ManagedFieldsEntry", schema_pkg_apis_meta_v1_ManagedFieldsEntry);
    ("k8s.io/apimachinery/pkg/apis/meta/v1.MicroTime", schema_pkg_apis_meta_v1_MicroTime);
    ("k8s.io/apimachinery/pkg/apis/meta/v1.ObjectMeta", schema_pkg_apis_meta_v1_ObjectMeta);
    ("k8s.io/apimachinery/pkg/apis/meta/v1.OwnerReference", schema_pkg_apis_meta_v1_OwnerReference);
    ("k8s.io/apimachinery/pkg/apis/meta/v1.PartialObjectMetadata", schema_pkg_apis_meta_v1_PartialObjectMetadata);
    ("k8s.io/apimachinery/pkg/apis/meta/v1.PartialObjectMetadataList", schema_pkg_apis_meta_v1_PartialObjectMetadataList);
    ("k8s.io/apimachinery/pkg/apis/meta/v1.Patch", schema_pkg_apis_meta_v1_Patch);
    ("k8s.io/apimachinery/pkg/apis/meta/v1.PatchOptions", schema_pkg_apis_meta_v1_PatchOptions);
    ("k8s.io/apimachinery/pkg/apis/meta/v1.Preconditions", schema_pkg_apis_meta_v1_Preconditions);
    ("k8s.io/apimachinery/pkg/apis/meta/v1.RootPaths", schema_pkg_apis_meta_v1_RootPaths);
    ("k8s.io/apimachinery/pkg/apis/meta/v1.ServerAddressByClientCIDR", schema_pkg_apis_meta_v1_ServerAddressByClientCIDR);
    ("k8s.io/apimachinery/pkg/apis/meta/v1.Status", schema_pkg_apis_meta_v1_Status);
    ("k8s.io/apimachinery/pkg/apis/meta/v1.StatusCause", schema_pkg_apis_meta_v1_StatusCause);
    ("k8s.io/apimachinery/pkg/apis/meta/v1.StatusDetails", schema_pkg_apis_meta_v1_StatusDetails);
    ("k8s.io/apimachinery/pkg/apis/meta/v1.Table", schema_pkg_apis_meta_v1_Table);
    ("k8s.io/apimachinery/pkg/apis/meta/v1.TableColumnDefinition", schema_pkg_apis_meta_v1_TableColumnDefinition);
    ("k8s.io/apimachinery/pkg/apis/meta/v1.TableOptions", schema_pkg_apis_meta_v1_TableOptions);
    ("k8s.io/apimachinery/pkg/apis/meta/v1.TableRow", schema_pkg_apis_meta_v1_TableRow);
    ("k8s.io/apimachinery/pkg/apis/meta/v1.TableRowCondition", schema_pkg_apis_meta_v1_TableRowCondition);
    ("k8s.io/apimachinery/pkg/apis/meta/v1.Time", schema_pkg_apis_meta_v1_Time);
    ("k8s.io/apimachinery/pkg/apis/meta/v1.Timestamp", schema_pkg_apis_meta_v1_Timestamp);
    ("k8s.io/apimachinery/pkg/apis/meta/v1.TypeMeta", schema_pkg_apis_meta_v1_TypeMeta);
    ("k8s.io/apimachinery/pkg/apis/meta/v1.UpdateOptions", schema_pkg_apis_meta_v1_UpdateOptions);
    ("k8s.io/apimachinery/pkg/apis/meta/v1.WatchEvent", schema_pkg_apis_meta_v1_WatchEvent);
    ("k8s.io/apimachinery/pkg/runtime.RawExtension", schema_k8sio_apimachinery_pkg_runtime_RawExtension);
    ("k8s.io/apimachinery/pkg/runtime.TypeMeta", schema_k8sio_apimachinery_pkg_runtime_TypeMeta);
    ("k8s.io/apimachinery/pkg/runtime.Unknown", schema_k8sio_apimachinery_pkg_runtime_Unknown);
    ("k8s.io/apimachinery/pkg/version.Info", schema_k8sio_apimachinery_pkg_version_Info) ].

End Definitions.
