(* ===== verification/OpenAPIDefinitions.v ===== *)
(** * [GetOpenAPIDefinitions] *)

From stdpp Require Import base list strings.
From Stdlib Require Import ZArith.
From S2P Require Import Prelude OpenAPI OpenAPIArc OpenAPICore1 OpenAPICore2 OpenAPICore3 OpenAPICore4 OpenAPIMeta.

Local Open Scope string_scope.

(** The map literal, in the order of the source. *)
Definition GetOpenAPIDefinitions {R : Type} {library : OpenAPILibrary R} (ref : string -> R)
  : list (string * OpenAPIDefinition R) :=
  arcDefinitions ref ++ coreDefinitions1 ref ++ coreDefinitions2 ref ++ coreDefinitions3 ref ++ coreDefinitions4 ref
  ++ metaDefinitions ref.
