(* ===== verification/OpenAPIClosure.v ===== *)
(** * References between the definitions of [GetOpenAPIDefinitions]

    A builder of an OpenAPI document expands a definition by looking up, in the map of
    definitions, every name of [Dependencies], and fails on a name the map does not
    have.  This file computes the graph of references and proves that the dependencies
    are the references of the schema, that expansion ends, and which definitions can be
    expanded. *)

From stdpp Require Import base pmap gmap list strings.
From Stdlib Require Import Lia.
From S2P Require Import Prelude OpenAPI OpenAPIArc OpenAPICore1 OpenAPICore2 OpenAPICore3 OpenAPICore4.
From S2P Require Import OpenAPIMeta OpenAPIDefinitions.

Local Open Scope string_scope.

(** ** The references of a schema *)

Fixpoint refs {R} (s : Schema R) : list R :=
  let sub (o : option (Schema R)) := match o with Some t => refs t | None => [] end in
  match schema_Ref s with Some r => [r] | None => [] end
  ++ sub (schema_Items s) ++ sub (schema_AdditionalProperties s)
  ++ concat (map (fun p => refs p.2) (schema_Properties s))
  ++ concat (map refs (schema_OneOf s)).

(** What is relied on of kube-openapi's two functions: embedding the version 2 form
    of a definition only adds extensions, and the alternatives of a [oneOf] are plain
    types. *)
Class OpenAPILibraryLaws (R : Type) (library : OpenAPILibrary R) := {
  embed_extends main v2 : exists extensions,
    EmbedOpenAPIDefinitionIntoV2Extension main v2
    = mkOpenAPIDefinition (Extensions extensions (definition_Schema main))
        (definition_Dependencies main);
  oneOf_refs types : concat (map refs (GenerateOpenAPIV3OneOfSchema types)) = [];
}.

(** An instance, with the values k8s.io/apimachinery documents. *)
Definition exampleLibrary (R : Type) : OpenAPILibrary R := {|
  Quantity_OpenAPISchemaType := ["string"];
  Quantity_OpenAPISchemaFormat := "";
  Quantity_OpenAPIV3OneOfTypes := ["string"; "number"];
  Duration_OpenAPISchemaType := ["string"];
  Duration_OpenAPISchemaFormat := "";
  MicroTime_OpenAPISchemaType := ["string"];
  MicroTime_OpenAPISchemaFormat := "date-time";
  Time_OpenAPISchemaType := ["string"];
  Time_OpenAPISchemaFormat := "date-time";
  AzureSharedBlobDisk := "Shared";
  AzureDataDiskCachingReadWrite := "ReadWrite";
  GenerateOpenAPIV3OneOfSchema types := map (fun t => schema [Type_ [t]]) types;
  EmbedOpenAPIDefinitionIntoV2Extension main v2 :=
    mkOpenAPIDefinition
      (Extensions (schema_Extensions (definition_Schema main)
                   ++ [("x-openapi-v2-schema", AMap [])]) (definition_Schema main))
      (definition_Dependencies main);
|}.

#[export] Instance exampleLibrary_laws R : OpenAPILibraryLaws R (exampleLibrary R).
Proof.
  split.
  - intros main v2. by eexists.
  - intros types. induction types as [|t types IH]; [done|]. simpl in *. by rewrite IH.
Qed.

(** ** The graph *)

(** A name, its dependencies, and the references of its schema. *)
Definition node {R} (e : string * OpenAPIDefinition R) : string * list string * list R :=
  (e.1, definition_Dependencies e.2, refs (definition_Schema e.2)).

Definition rename {R} (ref : string -> R) (e : string * list string * list string)
  : string * list string * list R := (e.1, map ref e.2).

(** The graph, with the references as names. *)
Definition graph : list (string * list string * list string) :=
  Eval vm_compute in
    map node (@GetOpenAPIDefinitions string (exampleLibrary string) (fun name => name)).

Definition missing : string := "k8s.io/apimachinery/pkg/util/intstr.IntOrString".

(** The definitions that refer, in some number of steps, to the missing one. *)
Definition dangling : list string :=
  ["k8s.io/api/core/v1.Container";
   "k8s.io/api/core/v1.EphemeralContainer";
   "k8s.io/api/core/v1.EphemeralContainerCommon";
   "k8s.io/api/core/v1.HTTPGetAction";
   "k8s.io/api/core/v1.Lifecycle";
   "k8s.io/api/core/v1.LifecycleHandler";
   "k8s.io/api/core/v1.Pod";
   "k8s.io/api/core/v1.PodList";
   "k8s.io/api/core/v1.PodSpec";
   "k8s.io/api/core/v1.PodTemplate";
   "k8s.io/api/core/v1.PodTemplateList";
   "k8s.io/api/core/v1.PodTemplateSpec";
   "k8s.io/api/core/v1.Probe";
   "k8s.io/api/core/v1.ProbeHandler";
   "k8s.io/api/core/v1.ReplicationController";
   "k8s.io/api/core/v1.ReplicationControllerList";
   "k8s.io/api/core/v1.ReplicationControllerSpec";
   "k8s.io/api/core/v1.Service";
   "k8s.io/api/core/v1.ServiceList";
   "k8s.io/api/core/v1.ServicePort";
   "k8s.io/api/core/v1.ServiceSpec";
   "k8s.io/api/core/v1.TCPSocketAction"].

(** ** Resolution *)

Inductive Resolvable {R} (defs : list (string * OpenAPIDefinition R)) : string -> Prop :=
| resolve name d :
    (name, d) ∈ defs ->
    (forall m, m ∈ definition_Dependencies d -> Resolvable defs m) ->
    Resolvable defs name.

Inductive Chain {R} (defs : list (string * OpenAPIDefinition R)) : list string -> Prop :=
| chain_one name : Chain defs [name]
| chain_step name d m rest :
    (name, d) ∈ defs -> m ∈ definition_Dependencies d ->
    Chain defs (m :: rest) -> Chain defs (name :: m :: rest).

(** ** Sets of names, as tries *)

Definition to_set (names : list string) : Pmap unit :=
  list_to_map (map (fun n => (encode n, tt)) names).

Definition known (set : Pmap unit) (n : string) : bool :=
  match set !! encode n with Some _ => true | None => false end.

Lemma known_spec names n : known (to_set names) n = true <-> n ∈ names.
Proof.
  unfold known, to_set. split.
  - destruct (list_to_map _ !! encode n) as [[]|] eqn:E; [intros _|done].
    apply elem_of_list_to_map_2, list_elem_of_fmap in E as (m & [= E] & Hm).
    by apply (inj encode) in E as ->.
  - intros Hn. destruct (list_to_map _ !! encode n) eqn:E; [done|exfalso].
    apply not_elem_of_list_to_map_2 in E. apply E.
    rewrite <- list_fmap_compose. by apply (list_elem_of_fmap_2 encode).
Qed.

Lemma unknown_spec names n : known (to_set names) n = false <-> n ∉ names.
Proof. rewrite <- known_spec. by destruct (known _ n); split. Qed.

Definition names : list string := map (fun e => e.1.1) graph.

Definition name_set : Pmap unit := to_set names.
Definition dangling_set : Pmap unit := to_set dangling.

Lemma known_name n : known name_set n = true <-> n ∈ names.
Proof. exact (known_spec names n). Qed.
Lemma unknown_name n : known name_set n = false <-> n ∉ names.
Proof. exact (unknown_spec names n). Qed.
Lemma known_dangling n : known dangling_set n = true <-> n ∈ dangling.
Proof. exact (known_spec dangling n). Qed.
Lemma unknown_dangling n : known dangling_set n = false <-> n ∉ dangling.
Proof. exact (unknown_spec dangling n). Qed.

(** ** The checks on the graph *)

(** The length of the longest chain of references from each name. *)
Definition deepen (ranks : Pmap nat) : Pmap nat :=
  list_to_map (map (fun e =>
    (encode e.1.1,
     S (max_list (map (fun m => default 0 (ranks !! encode m)) e.1.2)))) graph).

Definition ranks : Pmap nat := Eval vm_compute in Nat.iter 12 deepen ∅.

Definition rank (name : string) : nat := default 0 (ranks !! encode name).

(** A name refers to names of lower rank; a dangling one to a missing or a dangling
    one, another one to neither. *)
Definition node_ok (e : string * list string * list string) : bool :=
  let '(name, deps, _) := e in
  forallb (fun m => rank m <? rank name)%nat deps
  && (rank name <=? 12)%nat
  && if known dangling_set name
     then existsb (fun m => known dangling_set m || negb (known name_set m)) deps
     else forallb (fun m => known name_set m && negb (known dangling_set m)) deps.

Lemma graph_ok : forallb node_ok graph = true.
Proof. vm_compute. reflexivity. Qed.

(** The references of a schema are, as a set, its dependencies. *)
Definition exact (e : string * list string * list string) : bool :=
  let '(_, deps, rs) := e in
  let d := to_set deps in
  let r := to_set rs in
  forallb (known d) rs && forallb (known r) deps.

Lemma all_exact : forallb exact graph = true.
Proof. vm_compute. reflexivity. Qed.

Lemma graph_exact n deps rs : (n, deps, rs) ∈ graph -> forall m, m ∈ rs <-> m ∈ deps.
Proof.
  intros Hin m. pose proof all_exact as H. rewrite forallb_forall in H.
  apply list_elem_of_In, H in Hin. cbv beta iota zeta delta [exact] in Hin.
  rewrite andb_true_iff, !forallb_forall in Hin. destruct Hin as [A B].
  split; intros Hm%list_elem_of_In.
  - by apply known_spec, A.
  - by apply known_spec, B.
Qed.

(** The graph does not depend on the library or the callback: it is that of the
    definitions, up to the callback. *)
Section Graph.
Context {R : Type} {library : OpenAPILibrary R} {laws : OpenAPILibraryLaws R library}.
Context (ref : string -> R).

Let defs := GetOpenAPIDefinitions ref.

Lemma quantity_node name :
  node (name, schema_apimachinery_pkg_api_resource_Quantity) = (name, [], []).
Proof using laws.
  unfold node, schema_apimachinery_pkg_api_resource_Quantity. simpl fst. simpl snd.
  match goal with |- context [EmbedOpenAPIDefinitionIntoV2Extension ?m ?v] =>
    destruct (embed_extends m v) as [x ->] end.
  simpl. by rewrite oneOf_refs.
Qed.

Lemma nodes : map node defs = map (rename ref) graph.
Proof using laws.
  unfold defs, GetOpenAPIDefinitions. rewrite !map_app.
  unfold metaDefinitions. cbn [map]. rewrite quantity_node. vm_compute. reflexivity.
Qed.

Lemma node_of name d :
  (name, d) ∈ defs ->
  exists rs, (name, definition_Dependencies d, rs) ∈ graph
             /\ refs (definition_Schema d) = map ref rs.
Proof using laws.
  intros Hd. apply (list_elem_of_fmap_2 node) in Hd.
  change (node <$> defs) with (map node defs) in Hd. rewrite nodes in Hd.
  apply list_elem_of_fmap in Hd as ([[n deps] rs] & [= -> Hdeps Hrs] & Hin).
  exists rs. by rewrite Hdeps.
Qed.

Lemma definition_of name : name ∈ names -> exists d, (name, d) ∈ defs.
Proof using laws.
  intros ([[n deps] rs] & -> & Hin)%list_elem_of_fmap.
  apply (list_elem_of_fmap_2 (rename ref)) in Hin.
  change (rename ref <$> graph) with (map (rename ref) graph) in Hin. rewrite <- nodes in Hin.
  apply list_elem_of_fmap in Hin as ([n' d] & [= <- _ _] & Hin). by exists d.
Qed.

Lemma name_of name d : (name, d) ∈ defs -> name ∈ names.
Proof using laws.
  intros (rs & Hin & _)%node_of. exact (list_elem_of_fmap_2 (fun e => e.1.1) _ _ Hin).
Qed.

Lemma node_checked name d :
  (name, d) ∈ defs ->
  (forall m, m ∈ definition_Dependencies d -> (rank m < rank name)%nat)
  /\ (rank name <= 12)%nat
  /\ (name ∈ dangling ->
      exists m, m ∈ definition_Dependencies d
                /\ (m ∈ dangling \/ m ∉ names))
  /\ (name ∉ dangling ->
      forall m, m ∈ definition_Dependencies d ->
                m ∈ names /\ m ∉ dangling).
Proof using laws.
  intros (rs & Hin & _)%node_of. pose proof graph_ok as Hok.
  rewrite forallb_forall in Hok. apply list_elem_of_In, Hok in Hin.
  cbv beta iota delta [node_ok] in Hin.
  apply andb_prop in Hin as [[Hr Hl]%andb_prop Hd].
  rewrite forallb_forall in Hr. apply Nat.leb_le in Hl.
  split_and!; [|done|..].
  - intros m Hm%list_elem_of_In. by apply Nat.ltb_lt, Hr.
  - intros Hn. apply known_dangling in Hn. rewrite Hn in Hd.
    apply existsb_exists in Hd as (m & Hm & Hk). exists m. rewrite orb_true_iff, negb_true_iff in Hk.
    rewrite known_dangling, unknown_name in Hk. by rewrite list_elem_of_In.
  - intros Hn. apply unknown_dangling in Hn. rewrite Hn in Hd.
    rewrite forallb_forall in Hd. intros m Hm%list_elem_of_In.
    apply Hd in Hm.
    rewrite andb_true_iff, negb_true_iff, known_name, unknown_dangling in Hm. done.
Qed.

Lemma chain_rank name rest :
  Chain defs (name :: rest) -> rest = [] \/ (length rest <= rank name <= 12)%nat.
Proof using laws.
  intros H. remember (name :: rest) as l eqn:E. revert name rest E.
  induction H as [n|n d m l Hd Hm H IH]; intros name rest [= <- <-]; [by left|right].
  apply node_checked in Hd as (Hr & Hl & _). specialize (Hr m Hm).
  destruct (IH m l eq_refl) as [->|Hlen]; simpl; lia.
Qed.

Lemma resolvable_not_dangling name : Resolvable defs name -> name ∉ dangling.
Proof using laws.
  induction 1 as [name d Hd Hres IH]. intros Hn.
  apply node_checked in Hd as (_ & _ & Hex & _). apply Hex in Hn as (m & Hm & [Hk|Hk]).
  - by apply (IH m).
  - apply Hk. destruct (Hres m Hm) as [m d' Hd' _]. by eapply name_of.
Qed.

Lemma not_dangling_resolvable name k :
  (rank name <= k)%nat -> (exists d, (name, d) ∈ defs) -> name ∉ dangling ->
  Resolvable defs name.
Proof using laws.
  revert name. induction k as [|k IH]; intros name Hk [d Hd] Hn;
    apply (resolve _ name d Hd); intros m Hm;
    apply node_checked in Hd as (Hr & _ & _ & Hnot); specialize (Hr m Hm); [lia|].
  destruct (Hnot Hn m Hm). apply IH; [lia|by apply definition_of|done].
Qed.
End Graph.

(** ** The properties *)

(** Whatever callback is given and for every definition, the references of the
    schema (in properties, items and map values, at any depth) are those of the names
    listed in [Dependencies]: a builder that follows the dependencies loads every
    definition the schema points to and no other. *)
Theorem openapi_dependencies_exact {R} {library : OpenAPILibrary R}
  (laws : OpenAPILibraryLaws R library) (ref : string -> R) name d :
  (name, d) ∈ GetOpenAPIDefinitions ref ->
  forall r, r ∈ refs (definition_Schema d)
            <-> exists m, m ∈ definition_Dependencies d /\ r = ref m.
Proof.
  intros (rs & Hin & ->)%node_of r.
  assert (He : forall m, m ∈ rs <-> m ∈ definition_Dependencies d) by (intros m; by eapply graph_exact).
  rewrite list_elem_of_fmap. split; intros (m & A & B); exists m; firstorder.
Qed.

(** Expanding definitions ends: a chain of references, each a dependency of the
    one before, has at most 13 names, the last of which may be missing. *)
Theorem openapi_expansion_terminates {R} {library : OpenAPILibrary R}
  (laws : OpenAPILibraryLaws R library) (ref : string -> R) chain :
  Chain (GetOpenAPIDefinitions ref) chain -> (length chain <= 13)%nat.
Proof.
  destruct chain as [|name rest]; [simpl; lia|].
  intros H. apply (chain_rank ref) in H as [E|H]; [|simpl; lia].
  rewrite E. simpl. lia.
Qed.

(** C34: the definitions that can be expanded completely are all but the 22 listed in
    [dangling], those that lead to [HTTPGetAction], [ServicePort] or
    [TCPSocketAction]: these three depend on [intstr.IntOrString], which has no
    definition.  In particular every type of the ARC API can be expanded. *)
Theorem openapi_resolves_exactly {R} {library : OpenAPILibrary R}
  (laws : OpenAPILibraryLaws R library) (ref : string -> R) name d :
  (name, d) ∈ GetOpenAPIDefinitions ref ->
  (Resolvable (GetOpenAPIDefinitions ref) name <-> name ∉ dangling).
Proof.
  intros Hin. split.
  - intros H. by apply (resolvable_not_dangling ref).
  - apply (not_dangling_resolvable ref name (rank name)); [lia|by eexists].
Qed.
