(* ===== verification/OpenAPIValues.v ===== *)
(** * The ARC objects in JSON, and their schemas

    The structs of api/arc/v1alpha1/*_types.go with their tags and the schemas these ask
    for, the encoding of their values by encoding/json, and what it means that a value
    conforms to a schema.
    The encodings of [ObjectMeta] and [ListMeta], which are not structs of the
    repository, and the value that raw JSON denotes are parameters. *)

From stdpp Require Import base gmap list strings.
From Stdlib Require Import ZArith Bool Strings.Byte.
From S2P Require Import Prelude GoStd KubeTypes V1alpha1Types Conversion ApiScheme.
From S2P Require Import OpenAPI OpenAPIArc OpenAPICore2 OpenAPIMeta OpenAPIDefinitions.

Local Open Scope string_scope.

(** ** The structs

    The fields of the 21 structs by their JSON names, in the order of the source, with
    their types and markers.  A type is a string, with the constants of its enumeration
    if it is marked as one, an integer, a struct by its model name, a type that encodes
    itself, a slice or a map from strings. *)

Inductive goType :=
| GoString (enum : list string)
| GoInt
| GoStruct (name : string)
| GoMarshaler (name : string)
| GoSlice (t : goType)
| GoMap (t : goType).

(** [json:"name,omitempty"] and [+optional]. *)
Record structField := mkStructField {
  f_name : string;
  f_type : goType;
  f_omitempty : bool;
  f_optional : bool;
}.

Definition plainField (name : string) (t : goType) : structField :=
  mkStructField name t false false.
Definition omitField (name : string) (t : goType) : structField :=
  mkStructField name t true false.

Definition arcStruct (n : typeName) : goType :=
  GoStruct ("de.bwi.arc.v1alpha1." ++ kindName n).
Definition referenceType : goType := GoStruct "k8s.io/api/core/v1.LocalObjectReference".
Definition usageType : goType :=
  GoString [EndpointUsageAll; EndpointUsagePullOnly; EndpointUsagePushOnly].
Definition phaseType : goType :=
  GoString [WorkflowUnknown; WorkflowError; WorkflowFailed; WorkflowPending; WorkflowRunning;
            WorkflowSucceeded].

(** The inlined [metav1.TypeMeta], and the metadata. *)
Definition objectFields (meta : string) : list structField :=
  [omitField "kind" (GoString []); omitField "apiVersion" (GoString []);
   omitField "metadata" (GoStruct ("k8s.io/apimachinery/pkg/apis/meta/v1." ++ meta))].

Definition kindFields (spec status : typeName) : list structField :=
  objectFields "ObjectMeta"
  ++ [omitField "spec" (arcStruct spec); omitField "status" (arcStruct status)].

Definition listFields (item : typeName) : list structField :=
  objectFields "ListMeta" ++ [plainField "items" (GoSlice (arcStruct item))].

Definition ArtifactType_fields : list structField :=
  kindFields TArtifactTypeSpec TArtifactTypeStatus.
Definition ArtifactTypeList_fields : list structField := listFields TArtifactType.
Definition ArtifactTypeRules_fields : list structField :=
  [omitField "srcTypes" (GoSlice (GoString [])); omitField "dstTypes" (GoSlice (GoString []))].
Definition ArtifactTypeSpec_fields : list structField :=
  [plainField "rules" (arcStruct TArtifactTypeRules);
   plainField "parameters" (GoSlice (arcStruct TArtifactWorkflowParameter));
   plainField "workflowTemplateRef" referenceType].
Definition ArtifactTypeStatus_fields : list structField := [].
Definition ArtifactWorkflow_fields : list structField :=
  kindFields TArtifactWorkflowSpec TArtifactWorkflowStatus.
Definition ArtifactWorkflowList_fields : list structField := listFields TArtifactWorkflow.
Definition ArtifactWorkflowParameter_fields : list structField :=
  [plainField "name" (GoString []); plainField "value" (GoString [])].
Definition ArtifactWorkflowSpec_fields : list structField :=
  [plainField "type" (GoString []);
   omitField "parameters" (GoSlice (arcStruct TArtifactWorkflowParameter));
   plainField "srcSecretRef" referenceType; plainField "dstSecretRef" referenceType].
Definition ArtifactWorkflowStatus_fields : list structField :=
  [omitField "phase" phaseType; omitField "message" (GoString [])].
Definition Endpoint_fields : list structField := kindFields TEndpointSpec TEndpointStatus.
Definition EndpointList_fields : list structField := listFields TEndpoint.
Definition EndpointSpec_fields : list structField :=
  [plainField "type" (GoString []); plainField "remoteURL" (GoString []);
   mkStructField "secretRef" referenceType false true; plainField "usage" usageType].
Definition EndpointStatus_fields : list structField := [].
Definition Order_fields : list structField := kindFields TOrderSpec TOrderStatus.
Definition OrderArtifact_fields : list structField :=
  [plainField "type" (GoString []);
   mkStructField "srcRef" referenceType true true;
   mkStructField "dstRef" referenceType true true;
   omitField "spec" (GoMarshaler "k8s.io/apimachinery/pkg/runtime.RawExtension")].
Definition OrderArtifactWorkflowStatus_fields : list structField :=
  [plainField "artifactIndex" GoInt; plainField "phase" phaseType;
   omitField "message" (GoString [])].
Definition OrderDefaults_fields : list structField :=
  [mkStructField "srcRef" referenceType true true;
   mkStructField "dstRef" referenceType true true].
Definition OrderList_fields : list structField := listFields TOrder.
Definition OrderSpec_fields : list structField :=
  [mkStructField "defaults" (arcStruct TOrderDefaults) true true;
   omitField "artifacts" (GoSlice (arcStruct TOrderArtifact))].
Definition OrderStatus_fields : list structField :=
  [omitField "artifactWorkflows" (GoMap (arcStruct TOrderArtifactWorkflowStatus))].

Definition structFields (n : typeName) : list structField :=
  match n with
  | TArtifactType => ArtifactType_fields
  | TArtifactTypeList => ArtifactTypeList_fields
  | TArtifactTypeRules => ArtifactTypeRules_fields
  | TArtifactTypeSpec => ArtifactTypeSpec_fields
  | TArtifactTypeStatus => ArtifactTypeStatus_fields
  | TArtifactWorkflow => ArtifactWorkflow_fields
  | TArtifactWorkflowList => ArtifactWorkflowList_fields
  | TArtifactWorkflowParameter => ArtifactWorkflowParameter_fields
  | TArtifactWorkflowSpec => ArtifactWorkflowSpec_fields
  | TArtifactWorkflowStatus => ArtifactWorkflowStatus_fields
  | TEndpoint => Endpoint_fields
  | TEndpointList => EndpointList_fields
  | TEndpointSpec => EndpointSpec_fields
  | TEndpointStatus => EndpointStatus_fields
  | TOrder => Order_fields
  | TOrderArtifact => OrderArtifact_fields
  | TOrderArtifactWorkflowStatus => OrderArtifactWorkflowStatus_fields
  | TOrderDefaults => OrderDefaults_fields
  | TOrderList => OrderList_fields
  | TOrderSpec => OrderSpec_fields
  | TOrderStatus => OrderStatus_fields
  end.

(** *** The schema a struct asks for

    A scalar that is not left out when empty and a struct have their zero value as the
    default, a struct stands for its own schema, and a field is required when it is
    neither left out nor optional. *)

Fixpoint typeSchema (kept : bool) (t : goType) : Schema string :=
  match t with
  | GoString enum =>
      mkSchema ["string"] "" (if kept then Some (AString "") else None) (map AString enum)
        None [] None None [] [] []
  | GoInt =>
      mkSchema ["integer"] "int32" (if kept then Some (AInt 0) else None) [] None [] None None
        [] [] []
  | GoStruct name => mkSchema [] "" (Some (AMap [])) [] (Some name) [] None None [] [] []
  | GoMarshaler name => mkSchema [] "" None [] (Some name) [] None None [] [] []
  | GoSlice t => mkSchema ["array"] "" None [] None [] (Some (typeSchema true t)) None [] [] []
  | GoMap t => mkSchema ["object"] "" None [] None [] None (Some (typeSchema true t)) [] [] []
  end.

Definition structSchema (n : typeName) : Schema string :=
  mkSchema ["object"] "" None [] None
    (map f_name (List.filter (fun f => negb (f_omitempty f || f_optional f)) (structFields n)))
    None None
    (map (fun f => (f_name f, typeSchema (negb (f_omitempty f)) (f_type f))) (structFields n))
    [] [].

(** ** Encoding *)

(** A field of a struct; with [omitempty] it is left out when empty. *)
Definition field (name : string) (v : Any) : list (string * Any) := [(name, v)].

Definition omitEmpty (name : string) (s : string) : list (string * Any) :=
  if String.eqb s "" then [] else field name (AString s).

Definition omitEmptySlice {A} (encode : A -> Any) (name : string) (xs : list A)
  : list (string * Any) :=
  match xs with [] => [] | _ => field name (ASlice (map encode xs)) end.

Section Encode.
Context (encodeMeta : ObjectMeta -> Any) (encodeListMeta : ListMeta -> Any).
Context (jsonValue : list byte -> Any).

(** A slice that is encoded when empty.  An empty one may be nil, which encodes as
    [null]; the types do not keep the difference, so it is said of each such slice. *)
Definition encodeSlice (isNil : bool) (vs : list Any) : Any :=
  match vs with
  | [] => if isNil then ANull else ASlice []
  | _ => ASlice vs
  end.

Definition encodeTypeMeta (t : TypeMeta) : list (string * Any) :=
  omitEmpty "kind" (Kind t) ++ omitEmpty "apiVersion" (APIVersion t).

Definition encodeReference (r : LocalObjectReference) : Any :=
  AMap (omitEmpty "name" (Ref_Name r)).

Definition encodeRawExtension (r : RawExtension) : Any :=
  match Raw r with None => ANull | Some raw => jsonValue raw end.

Definition encodeParameter (p : ArtifactWorkflowParameter) : Any :=
  AMap (field "name" (AString (Param_Name p)) ++ field "value" (AString (Param_Value p))).

Definition encodeAWSpec (s : ArtifactWorkflowSpec) : Any :=
  AMap (field "type" (AString (AWSpec_Type s))
        ++ omitEmptySlice encodeParameter "parameters" (AWSpec_Parameters s)
        ++ field "srcSecretRef" (encodeReference (AWSpec_SrcSecretRef s))
        ++ field "dstSecretRef" (encodeReference (AWSpec_DstSecretRef s))).

Definition encodeAWStatus (s : ArtifactWorkflowStatus) : Any :=
  AMap (omitEmpty "phase" (AWStatus_Phase s) ++ omitEmpty "message" (AWStatus_Message s)).

Definition encodeRules (r : ArtifactTypeRules) : Any :=
  AMap (omitEmptySlice AString "srcTypes" (Rules_SrcTypes r)
        ++ omitEmptySlice AString "dstTypes" (Rules_DstTypes r)).

Definition encodeATSpec (isNil : bool) (s : ArtifactTypeSpec) : Any :=
  AMap (field "rules" (encodeRules (ATSpec_Rules s))
        ++ field "parameters" (encodeSlice isNil (map encodeParameter (ATSpec_Parameters s)))
        ++ field "workflowTemplateRef" (encodeReference (ATSpec_WorkflowTemplateRef s))).

Definition encodeEndpointSpec (s : EndpointSpec) : Any :=
  AMap (field "type" (AString (EPSpec_Type s))
        ++ field "remoteURL" (AString (EPSpec_RemoteURL s))
        ++ field "secretRef" (encodeReference (EPSpec_SecretRef s))
        ++ field "usage" (AString (EPSpec_Usage s))).

Definition encodeDefaults (d : OrderDefaults) : Any :=
  AMap (field "srcRef" (encodeReference (Defaults_SrcRef d))
        ++ field "dstRef" (encodeReference (Defaults_DstRef d))).

Definition encodeArtifact (a : OrderArtifact) : Any :=
  AMap (field "type" (AString (Artifact_Type a))
        ++ field "srcRef" (encodeReference (Artifact_SrcRef a))
        ++ field "dstRef" (encodeReference (Artifact_DstRef a))
        ++ field "spec" (encodeRawExtension (Artifact_Spec a))).

Definition encodeOrderSpec (s : OrderSpec) : Any :=
  AMap (field "defaults" (encodeDefaults (OrderSpec_Defaults s))
        ++ omitEmptySlice encodeArtifact "artifacts" (OrderSpec_Artifacts s)).

Definition encodeOAWS (s : OrderArtifactWorkflowStatus) : Any :=
  AMap (field "artifactIndex" (AInt (OAWS_ArtifactIndex s))
        ++ field "phase" (AString (OAWS_Phase s))
        ++ omitEmpty "message" (OAWS_Message s)).

Definition encodeOrderStatus (s : OrderStatus) : Any :=
  AMap (match map_to_list (default ∅ (OrderStatus_ArtifactWorkflows s)) with
        | [] => []
        | m => field "artifactWorkflows" (AMap (map (fun e => (e.1, encodeOAWS e.2)) m))
        end).

(** An object: the inlined type, the metadata, [spec] and [status]. *)
Definition encodeObject (t : TypeMeta) (m : ObjectMeta) (spec status : Any) : Any :=
  AMap (encodeTypeMeta t ++ field "metadata" (encodeMeta m)
        ++ field "spec" spec ++ field "status" status).

Definition encodeList {A} (t : TypeMeta) (m : ListMeta) (isNil : bool)
  (encode : nat -> A -> Any) (xs : list A) : Any :=
  AMap (encodeTypeMeta t ++ field "metadata" (encodeListMeta m)
        ++ field "items" (encodeSlice isNil (imap encode xs))).

Definition encodeArtifactWorkflow (x : ArtifactWorkflow) : Any :=
  encodeObject (AW_TypeMeta x) (AW_ObjectMeta x)
    (encodeAWSpec (AW_Spec x)) (encodeAWStatus (AW_Status x)).
Definition encodeArtifactType (isNil : bool) (x : ArtifactType) : Any :=
  encodeObject (AT_TypeMeta x) (AT_ObjectMeta x) (encodeATSpec isNil (AT_Spec x)) (AMap []).
Definition encodeEndpoint (x : Endpoint) : Any :=
  encodeObject (EP_TypeMeta x) (EP_ObjectMeta x) (encodeEndpointSpec (EP_Spec x)) (AMap []).
Definition encodeOrder (x : Order) : Any :=
  encodeObject (Order_TypeMeta x) (Order_ObjectMeta x)
    (encodeOrderSpec (Order_Spec x)) (encodeOrderStatus (Order_Status x)).

(** Which slices are nil: that of the object itself, and that of the item of an index. *)
Context (isNil : option nat -> bool).

Definition encodeArtifactWorkflowList (x : ArtifactWorkflowList) : Any :=
  encodeList (AWList_TypeMeta x) (AWList_ListMeta x) (isNil None)
    (fun _ => encodeArtifactWorkflow) (AWList_Items x).
Definition encodeArtifactTypeList (x : ArtifactTypeList) : Any :=
  encodeList (ATList_TypeMeta x) (ATList_ListMeta x) (isNil None)
    (fun i => encodeArtifactType (isNil (Some i))) (ATList_Items x).
Definition encodeEndpointList (x : EndpointList) : Any :=
  encodeList (EPList_TypeMeta x) (EPList_ListMeta x) (isNil None)
    (fun _ => encodeEndpoint) (EPList_Items x).
Definition encodeOrderList (x : OrderList) : Any :=
  encodeList (OrderList_TypeMeta x) (OrderList_ListMeta x) (isNil None)
    (fun _ => encodeOrder) (OrderList_Items x).
End Encode.

(** ** Conformance *)

Definition assoc {A} (name : string) (l : list (string * A)) : option A :=
  match List.find (fun e => String.eqb e.1 name) l with Some e => Some e.2 | None => None end.

Definition has (name : string) (m : list (string * Any)) : bool :=
  existsb (fun e => String.eqb e.1 name) m.

Definition has_type (t : string) (s : Schema string) : bool :=
  existsb (String.eqb t) (schema_Type s).

(** No [enum], or the string is one of its values. *)
Definition in_enum (x : string) (s : Schema string) : bool :=
  match schema_Enum s with
  | [] => true
  | values => existsb (fun v => match v with AString y => String.eqb x y | _ => false end) values
  end.

Definition in_format (z : Z) (s : Schema string) : bool :=
  if String.eqb (schema_Format s) "int32" then (- 2 ^ 31 <=? z)%Z && (z <? 2 ^ 31)%Z
  else (- 2 ^ 63 <=? z)%Z && (z <? 2 ^ 63)%Z.

(** A field conforms to the property of its name, or to the schema of the map's values;
    an undeclared field is accepted where nothing is declared. *)
Definition member (conforms : Schema string -> Any -> bool) (s : Schema string)
  (e : string * Any) : bool :=
  match assoc e.1 (schema_Properties s), schema_AdditionalProperties s with
  | Some p, _ => conforms p e.2
  | None, Some p => conforms p e.2
  | None, None => match schema_Properties s with [] => true | _ => false end
  end.

Section Conforms.
Context {library : OpenAPILibrary string}.

(** Is [null] accepted as the absence of a value? *)
Context (nullable : bool).

(** The callback that keeps the name. *)
Definition byName (name : string) : string := name.

Definition definition_named (name : string) : option (OpenAPIDefinition string) :=
  assoc name (GetOpenAPIDefinitions byName).

Fixpoint conforms (fuel : nat) (s : Schema string) (v : Any) : bool :=
  match fuel with
  | O => false
  | S fuel =>
      match v, schema_Ref s with
      | ANull, _ => nullable
      | _, Some name =>
          match definition_named name with
          | Some d => conforms fuel (definition_Schema d) v
          | None => false
          end
      | ABool _, None => has_type "boolean" s
      | AInt z, None => has_type "integer" s && in_format z s
      | AString x, None => has_type "string" s && in_enum x s
      | ASlice xs, None =>
          has_type "array" s
          && match schema_Items s with Some t => forallb (conforms fuel t) xs | None => true end
      | AMap m, None =>
          has_type "object" s
          && forallb (fun k => has k m) (schema_Required s)
          && forallb (member (conforms fuel) s) m
      end
  end.

(** Conformance to a named definition. *)
Definition conformsTo (fuel : nat) (name : string) (v : Any) : bool :=
  match definition_named name with
  | Some d => conforms fuel (definition_Schema d) v
  | None => false
  end.
End Conforms.
