(* ===== verification/OpenAPIConform.v ===== *)
(** * Which ARC objects conform to the published schemas *)

From stdpp Require Import base gmap list strings.
From Stdlib Require Import ZArith Lia Bool Strings.Byte.
From S2P Require Import Prelude GoStd KubeTypes V1alpha1Types Conversion ApiScheme.
From S2P Require Import OpenAPI OpenAPIArc OpenAPICore2 OpenAPIMeta OpenAPIDefinitions OpenAPIValues.

Local Open Scope string_scope.

(** ** What the schemas ask of the values *)

Section Permitted.
Context (jsonValue : list byte -> Any) (nullable : bool).

Definition permittedPhase (p : WorkflowPhase) : bool :=
  existsb (String.eqb p)
    [WorkflowUnknown; WorkflowError; WorkflowFailed; WorkflowPending; WorkflowRunning;
     WorkflowSucceeded].

Definition permittedUsage (u : EndpointUsage) : bool :=
  existsb (String.eqb u) [EndpointUsageAll; EndpointUsagePullOnly; EndpointUsagePushOnly].

(** A slice that is encoded when empty is not nil, or null is accepted. *)
Definition permittedSlice {A} (isNil : bool) (xs : list A) : bool :=
  match xs with [] => negb isNil || nullable | _ => true end.

(** The parameters of an artifact are a JSON object, or absent where null is accepted. *)
Definition permittedRaw (r : RawExtension) : bool :=
  match encodeRawExtension jsonValue r with
  | AMap _ => true
  | ANull => nullable
  | _ => false
  end.

Definition permittedOAWS (s : OrderArtifactWorkflowStatus) : bool :=
  (- 2 ^ 31 <=? OAWS_ArtifactIndex s)%Z && (OAWS_ArtifactIndex s <? 2 ^ 31)%Z
  && permittedPhase (OAWS_Phase s).

Definition permittedArtifactWorkflow (x : ArtifactWorkflow) : bool :=
  permittedPhase (AWStatus_Phase (AW_Status x)).
Definition permittedArtifactType (isNil : bool) (x : ArtifactType) : bool :=
  permittedSlice isNil (ATSpec_Parameters (AT_Spec x)).
Definition permittedEndpoint (x : Endpoint) : bool :=
  permittedUsage (EPSpec_Usage (EP_Spec x)).
Definition permittedOrder (x : Order) : bool :=
  forallb (fun a => permittedRaw (Artifact_Spec a)) (OrderSpec_Artifacts (Order_Spec x))
  && forallb (fun e => permittedOAWS e.2)
       (map_to_list (default ∅ (OrderStatus_ArtifactWorkflows (Order_Status x)))).
End Permitted.

(** ** Lemmas on conformance *)

Section Facts.
Context {library : OpenAPILibrary string} (nullable : bool).

Lemma conforms_ref d n s name v :
  schema_Ref s = Some name -> definition_named name = Some d ->
  conforms nullable (S (S n)) s v = conforms nullable (S n) (definition_Schema d) v.
Proof.
  intros Hs Hd. remember (S n) as k eqn:Hk.
  destruct v; simpl; rewrite ?Hs, ?Hd; try done. by subst k.
Qed.

Lemma conforms_object n s m :
  schema_Ref s = None ->
  conforms nullable (S n) s (AMap m)
  = has_type "object" s
    && forallb (fun k => has k m) (schema_Required s)
    && forallb (member (conforms nullable n) s) m.
Proof. intros H. simpl. by rewrite H. Qed.

Lemma conforms_array n s t xs :
  schema_Ref s = None -> schema_Items s = Some t ->
  conforms nullable (S n) s (ASlice xs) = has_type "array" s && forallb (conforms nullable n t) xs.
Proof. intros H H'. simpl. by rewrite H, H'. Qed.

#[local] Arguments conforms : simpl never.

Lemma forallb_field f k v : forallb f (field k v) = f (k, v).
Proof. simpl. apply andb_true_r. Qed.

Lemma forallb_omitEmpty f k x :
  f (k, AString x) = true -> forallb f (omitEmpty k x) = true.
Proof. intros H. unfold omitEmpty. destruct (String.eqb x ""); [done|]. by rewrite forallb_field. Qed.

Lemma forallb_omitEmptySlice {A} (encode : A -> Any) f k xs :
  forallb f (omitEmptySlice encode k xs)
  = match xs with [] => true | _ => f (k, ASlice (map encode xs)) end.
Proof. destruct xs; [done|]. apply forallb_field. Qed.

Lemma forallb_map {A B} (f : B -> bool) (g : A -> B) xs :
  forallb f (map g xs) = forallb (fun x => f (g x)) xs.
Proof. induction xs as [|x xs IH]; [done|]. simpl. by rewrite IH. Qed.

Lemma forallb_ext {A} (f g : A -> bool) xs :
  (forall x, f x = g x) -> forallb f xs = forallb g xs.
Proof. intros H. induction xs as [|x xs IH]; [done|]. simpl. by rewrite H, IH. Qed.

Lemma has_app k l m : has k (l ++ m) = has k l || has k m.
Proof. apply existsb_app. Qed.

Lemma member_property k s v p n :
  assoc k (schema_Properties s) = Some p ->
  member (conforms nullable n) s (k, v) = conforms nullable n p v.
Proof. intros H. unfold member. simpl. by rewrite H. Qed.

(** The name that the items of an array refer to. *)
Definition item_ref (s : Schema string) : option string :=
  match schema_Items s with Some t => schema_Ref t | None => None end.

Lemma conforms_refs d n s name vs :
  schema_Ref s = None -> has_type "array" s = true -> item_ref s = Some name ->
  definition_named name = Some d ->
  conforms nullable (S (S (S n))) s (ASlice vs)
  = forallb (conforms nullable (S n) (definition_Schema d)) vs.
Proof.
  intros Hs Ht Hr Hd. unfold item_ref in Hr. destruct (schema_Items s) as [t|] eqn:Hi; [|done].
  rewrite (conforms_array _ _ _ _ Hs Hi), Ht.
  apply forallb_ext. intros x. by apply (conforms_ref _ _ _ _ _ Hr Hd).
Qed.

Lemma omitted_refs d n s name {A} (encode : A -> Any) xs :
  schema_Ref s = None -> has_type "array" s = true -> item_ref s = Some name ->
  definition_named name = Some d ->
  match xs with [] => true | _ => conforms nullable (S (S (S n))) s (ASlice (map encode xs)) end
  = forallb (fun x => conforms nullable (S n) (definition_Schema d) (encode x)) xs.
Proof.
  intros Hs Ht Hr Hd. destruct xs as [|x xs]; [done|].
  rewrite (conforms_refs d n s name) by done. apply forallb_map.
Qed.

(** Reduce the conformance of an object to that of its fields. *)
Ltac object :=
  rewrite conforms_object by done;
  rewrite ?forallb_app, ?forallb_field, ?forallb_omitEmptySlice;
  repeat (erewrite member_property by reflexivity);
  simpl schema_Required; simpl forallb; rewrite ?has_app; simpl has; rewrite ?orb_true_r;
  simpl snd.

(** Conformance to a reference is conformance to its definition. *)
Ltac follow_with v := erewrite (conforms_ref _ _ _ _ v) by reflexivity.

Lemma reference_conforms n s r :
  schema_Ref s = Some "k8s.io/api/core/v1.LocalObjectReference" ->
  conforms nullable (S (S (S n))) s (encodeReference r) = true.
Proof.
  intros Hs.
  rewrite (conforms_ref schema_k8sio_api_core_v1_LocalObjectReference _ _ _ _ Hs eq_refl).
  unfold encodeReference. object. by apply forallb_omitEmpty.
Qed.

Ltac references := repeat (rewrite reference_conforms by reflexivity).

Lemma parameters_conform n ps :
  forallb (fun p => conforms nullable (S (S n))
    (definition_Schema schema_arc_api_arc_v1alpha1_ArtifactWorkflowParameter)
    (encodeParameter p)) ps = true.
Proof. by apply forallb_forall. Qed.

Lemma awSpec_conforms n x :
  conforms nullable (S (S (S (S (S n)))))
    (definition_Schema (schema_arc_api_arc_v1alpha1_ArtifactWorkflowSpec byName))
    (encodeAWSpec x) = true.
Proof.
  unfold encodeAWSpec. object. references.
  erewrite omitted_refs by reflexivity. by rewrite parameters_conform.
Qed.

Lemma awStatus_conforms n x :
  conforms nullable (S (S n))
    (definition_Schema schema_arc_api_arc_v1alpha1_ArtifactWorkflowStatus)
    (encodeAWStatus x) = permittedPhase (AWStatus_Phase x).
Proof.
  unfold encodeAWStatus. object. rewrite (forallb_omitEmpty _ "message") by done.
  rewrite !andb_true_r. unfold omitEmpty.
  by destruct (String.eqb_spec (AWStatus_Phase x) "") as [->|];
    rewrite ?forallb_field.
Qed.

Lemma strings_conform n s t xs :
  schema_Ref s = None -> has_type "array" s = true -> schema_Items s = Some t ->
  schema_Ref t = None -> has_type "string" t = true -> schema_Enum t = [] ->
  match xs with [] => true | _ => conforms nullable (S (S n)) s (ASlice (map AString xs)) end
  = true.
Proof.
  intros Hs Ht Hi Hr Hx He. destruct xs as [|x xs]; [done|].
  rewrite (conforms_array _ _ _ _ Hs Hi), Ht, forallb_map. apply forallb_forall. intros y _.
  unfold conforms. rewrite Hr, Hx. unfold in_enum. by rewrite He.
Qed.

Lemma rules_conform n x :
  conforms nullable (S (S (S n)))
    (definition_Schema schema_arc_api_arc_v1alpha1_ArtifactTypeRules) (encodeRules x) = true.
Proof. unfold encodeRules. object. by rewrite !(strings_conform _ _ _ _) by reflexivity. Qed.

Lemma conforms_slice_refs isNil d n s name vs :
  schema_Ref s = None -> has_type "array" s = true -> item_ref s = Some name ->
  definition_named name = Some d ->
  conforms nullable (S (S (S n))) s (encodeSlice isNil vs)
  = permittedSlice nullable isNil vs
    && forallb (conforms nullable (S n) (definition_Schema d)) vs.
Proof.
  intros Hs Ht Hr Hd. destruct vs as [|v vs].
  - unfold item_ref in Hr. destruct (schema_Items s) as [t|] eqn:Hi; [|done].
    destruct isNil; unfold encodeSlice, permittedSlice; simpl.
    + by rewrite andb_true_r.
    + by rewrite (conforms_array _ _ _ [] Hs Hi), Ht.
  - by apply (conforms_refs d n s name (v :: vs)).
Qed.

Lemma permittedSlice_map {A B} isNil (f : A -> B) xs :
  permittedSlice nullable isNil (map f xs) = permittedSlice nullable isNil xs.
Proof. by destruct xs. Qed.

Lemma permittedSlice_imap {A B} isNil (f : nat -> A -> B) xs :
  permittedSlice nullable isNil (imap f xs) = permittedSlice nullable isNil xs.
Proof. by destruct xs. Qed.

Lemma forallb_imap {A} (f : Any -> bool) (g : nat -> A -> Any) (h : nat -> A -> bool) xs :
  (forall i x, f (g i x) = h i x) -> forallb f (imap g xs) = forallb id (imap h xs).
Proof.
  revert g h. induction xs as [|x xs IH]; intros g h H; [done|]. simpl. rewrite H.
  f_equal. apply IH. intros i y. apply H.
Qed.

Lemma atSpec_conforms isNil n x :
  conforms nullable (S (S (S (S (S n)))))
    (definition_Schema (schema_arc_api_arc_v1alpha1_ArtifactTypeSpec byName))
    (encodeATSpec isNil x) = permittedSlice nullable isNil (ATSpec_Parameters x).
Proof.
  unfold encodeATSpec. object. references. follow_with (encodeRules (ATSpec_Rules x)).
  rewrite rules_conform. erewrite conforms_slice_refs by reflexivity.
  by rewrite forallb_map, parameters_conform, permittedSlice_map, !andb_true_r.
Qed.

Lemma endpointSpec_conforms n x :
  conforms nullable (S (S (S (S n))))
    (definition_Schema (schema_arc_api_arc_v1alpha1_EndpointSpec byName))
    (encodeEndpointSpec x) = permittedUsage (EPSpec_Usage x).
Proof. unfold encodeEndpointSpec. object. by references. Qed.

Lemma defaults_conform n x :
  conforms nullable (S (S (S (S n))))
    (definition_Schema (schema_arc_api_arc_v1alpha1_OrderDefaults byName))
    (encodeDefaults x) = true.
Proof. unfold encodeDefaults. object. by references. Qed.

Lemma raw_conforms jsonValue n s r :
  schema_Ref s = Some "k8s.io/apimachinery/pkg/runtime.RawExtension" ->
  conforms nullable (S (S n)) s (encodeRawExtension jsonValue r)
  = permittedRaw jsonValue nullable r.
Proof.
  intros Hs. rewrite (conforms_ref schema_k8sio_apimachinery_pkg_runtime_RawExtension _ _ _ _ Hs eq_refl).
  unfold permittedRaw. destruct (encodeRawExtension jsonValue r); try done.
  rewrite conforms_object by done. by apply forallb_forall.
Qed.

Lemma artifact_conforms jsonValue n x :
  conforms nullable (S (S (S (S n))))
    (definition_Schema (schema_arc_api_arc_v1alpha1_OrderArtifact byName))
    (encodeArtifact jsonValue x) = permittedRaw jsonValue nullable (Artifact_Spec x).
Proof. unfold encodeArtifact. object. references. by erewrite raw_conforms by reflexivity. Qed.

Lemma orderSpec_conforms jsonValue n x :
  conforms nullable (S (S (S (S (S (S (S n)))))))
    (definition_Schema (schema_arc_api_arc_v1alpha1_OrderSpec byName))
    (encodeOrderSpec jsonValue x)
  = forallb (fun a => permittedRaw jsonValue nullable (Artifact_Spec a)) (OrderSpec_Artifacts x).
Proof.
  unfold encodeOrderSpec. object. follow_with (encodeDefaults (OrderSpec_Defaults x)).
  rewrite defaults_conform. erewrite omitted_refs by reflexivity.
  apply forallb_ext. intros a. apply artifact_conforms.
Qed.

Lemma oaws_conforms n x :
  conforms nullable (S (S n))
    (definition_Schema schema_arc_api_arc_v1alpha1_OrderArtifactWorkflowStatus)
    (encodeOAWS x) = permittedOAWS x.
Proof.
  unfold encodeOAWS. object. rewrite (forallb_omitEmpty _ "message") by done.
  by rewrite !andb_true_r.
Qed.

Lemma orderStatus_conforms n x :
  conforms nullable (S (S (S (S (S n)))))
    (definition_Schema (schema_arc_api_arc_v1alpha1_OrderStatus byName))
    (encodeOrderStatus x)
  = forallb (fun e => permittedOAWS e.2)
      (map_to_list (default ∅ (OrderStatus_ArtifactWorkflows x))).
Proof.
  unfold encodeOrderStatus. destruct (map_to_list _) as [|e m]; [done|].
  generalize (e :: m). intros l.
  object. rewrite conforms_object, forallb_map by done. simpl (_ && _).
  apply forallb_ext. intros [k s]. unfold member. simpl.
  follow_with (encodeOAWS s). apply oaws_conforms.
Qed.

Lemma conformsTo_named d n name v :
  definition_named name = Some d ->
  conformsTo nullable n name v = conforms nullable n (definition_Schema d) v.
Proof. intros H. unfold conformsTo. by rewrite H. Qed.

(** ** Objects and lists *)

Section Objects.
Context (encodeMeta : ObjectMeta -> Any) (encodeListMeta : ListMeta -> Any).
Context (jsonValue : list byte -> Any) (depth : nat).

(** Metadata conforms to the schemas of [metav1]. *)
Context (meta_conforms : forall n m, (depth <= n)%nat ->
  conforms nullable (S n) (definition_Schema (schema_pkg_apis_meta_v1_ObjectMeta byName))
    (encodeMeta m) = true).
Context (listMeta_conforms : forall n m, (depth <= n)%nat ->
  conforms nullable (S n) (definition_Schema schema_pkg_apis_meta_v1_ListMeta)
    (encodeListMeta m) = true).

Ltac arc_object x :=
  object; rewrite (forallb_omitEmpty _ "kind"), (forallb_omitEmpty _ "apiVersion") by done;
  follow_with (encodeMeta x); rewrite meta_conforms by lia.

Lemma artifactWorkflow_conforms n x :
  (depth <= n)%nat ->
  conforms nullable (9 + n)
    (definition_Schema (schema_arc_api_arc_v1alpha1_ArtifactWorkflow byName))
    (encodeArtifactWorkflow encodeMeta x) = permittedArtifactWorkflow x.
Proof using meta_conforms.
  intros Hn. unfold encodeArtifactWorkflow, encodeObject, encodeTypeMeta. simpl plus.
  arc_object (AW_ObjectMeta x).
  follow_with (encodeAWSpec (AW_Spec x)). follow_with (encodeAWStatus (AW_Status x)).
  by rewrite awSpec_conforms, awStatus_conforms.
Qed.

Lemma artifactType_conforms isNil n x :
  (depth <= n)%nat ->
  conforms nullable (9 + n)
    (definition_Schema (schema_arc_api_arc_v1alpha1_ArtifactType byName))
    (encodeArtifactType encodeMeta isNil x)
  = permittedArtifactType nullable isNil x.
Proof using meta_conforms.
  intros Hn. unfold encodeArtifactType, encodeObject, encodeTypeMeta. simpl plus.
  arc_object (AT_ObjectMeta x). follow_with (encodeATSpec isNil (AT_Spec x)).
  rewrite atSpec_conforms.
  follow_with (AMap []). by rewrite !andb_true_r.
Qed.

Lemma endpoint_conforms n x :
  (depth <= n)%nat ->
  conforms nullable (9 + n)
    (definition_Schema (schema_arc_api_arc_v1alpha1_Endpoint byName))
    (encodeEndpoint encodeMeta x) = permittedEndpoint x.
Proof using meta_conforms.
  intros Hn. unfold encodeEndpoint, encodeObject, encodeTypeMeta. simpl plus.
  arc_object (EP_ObjectMeta x). follow_with (encodeEndpointSpec (EP_Spec x)).
  rewrite endpointSpec_conforms.
  follow_with (AMap []). by rewrite !andb_true_r.
Qed.

Lemma order_conforms n x :
  (depth <= n)%nat ->
  conforms nullable (9 + n)
    (definition_Schema (schema_arc_api_arc_v1alpha1_Order byName))
    (encodeOrder encodeMeta jsonValue x) = permittedOrder jsonValue nullable x.
Proof using meta_conforms.
  intros Hn. unfold encodeOrder, encodeObject, encodeTypeMeta. simpl plus.
  arc_object (Order_ObjectMeta x).
  follow_with (encodeOrderSpec jsonValue (Order_Spec x)).
  follow_with (encodeOrderStatus (Order_Status x)).
  by rewrite orderSpec_conforms, orderStatus_conforms.
Qed.

(** A list conforms when [null] is not in place of its items and each item does. *)
Lemma list_conforms {A} (d : OpenAPIDefinition string) t name m isNil
  (encode : nat -> A -> Any) (permitted : nat -> A -> bool) xs n s :
  (depth <= n)%nat ->
  schema_Ref s = None -> has_type "object" s = true -> schema_Required s = ["items"] ->
  assoc "kind" (schema_Properties s) = Some (schema [Type_ ["string"]; Format ""]) ->
  assoc "apiVersion" (schema_Properties s) = Some (schema [Type_ ["string"]; Format ""]) ->
  assoc "metadata" (schema_Properties s)
  = Some (schema [Default (AMap []);
                  Ref (byName "k8s.io/apimachinery/pkg/apis/meta/v1.ListMeta")]) ->
  assoc "items" (schema_Properties s)
  = Some (schema [Type_ ["array"];
                  Items (schema [Default (AMap []); Ref (byName name)])]) ->
  definition_named name = Some d ->
  (forall i x, conforms nullable (9 + n) (definition_Schema d) (encode i x) = permitted i x) ->
  conforms nullable (12 + n) s (encodeList encodeListMeta t m isNil encode xs)
  = permittedSlice nullable isNil xs && forallb id (imap permitted xs).
Proof using listMeta_conforms.
  intros Hn Hs Ht Hq Hk Ha Hm Hi Hd Hp. unfold encodeList, encodeTypeMeta. simpl plus.
  rewrite conforms_object, Ht, Hq by done.
  rewrite !forallb_app, !forallb_field, (forallb_omitEmpty _ "kind"),
    (forallb_omitEmpty _ "apiVersion") by (by erewrite member_property by done).
  rewrite (member_property _ _ _ _ _ Hm), (member_property _ _ _ _ _ Hi).
  follow_with (encodeListMeta m). rewrite listMeta_conforms by lia.
  rewrite (conforms_slice_refs _ d _ _ name), permittedSlice_imap by done.
  rewrite (forallb_imap _ _ permitted) by done.
  simpl forallb. rewrite !has_app. simpl has. by rewrite !orb_true_r.
Qed.
End Objects.
End Facts.

(** ** The theorem *)

(** An object or list of the API group. *)
Inductive ArcObject :=
| AnArtifactWorkflow (x : ArtifactWorkflow)
| AnArtifactType (x : ArtifactType)
| AnEndpoint (x : Endpoint)
| AnOrder (x : Order)
| AnArtifactWorkflowList (x : ArtifactWorkflowList)
| AnArtifactTypeList (x : ArtifactTypeList)
| AnEndpointList (x : EndpointList)
| AnOrderList (x : OrderList).

Definition modelName (x : ArcObject) : string :=
  match x with
  | AnArtifactWorkflow _ => ArtifactWorkflow_OpenAPIModelName
  | AnArtifactType _ => ArtifactType_OpenAPIModelName
  | AnEndpoint _ => Endpoint_OpenAPIModelName
  | AnOrder _ => Order_OpenAPIModelName
  | AnArtifactWorkflowList _ => ArtifactWorkflowList_OpenAPIModelName
  | AnArtifactTypeList _ => ArtifactTypeList_OpenAPIModelName
  | AnEndpointList _ => EndpointList_OpenAPIModelName
  | AnOrderList _ => OrderList_OpenAPIModelName
  end.

Section ArcObjects.
Context (encodeMeta : ObjectMeta -> Any) (encodeListMeta : ListMeta -> Any).
Context (jsonValue : list byte -> Any) (isNil : option nat -> bool) (nullable : bool).

Definition encodeArc (x : ArcObject) : Any :=
  match x with
  | AnArtifactWorkflow x => encodeArtifactWorkflow encodeMeta x
  | AnArtifactType x => encodeArtifactType encodeMeta (isNil None) x
  | AnEndpoint x => encodeEndpoint encodeMeta x
  | AnOrder x => encodeOrder encodeMeta jsonValue x
  | AnArtifactWorkflowList x => encodeArtifactWorkflowList encodeMeta encodeListMeta isNil x
  | AnArtifactTypeList x => encodeArtifactTypeList encodeMeta encodeListMeta isNil x
  | AnEndpointList x => encodeEndpointList encodeMeta encodeListMeta isNil x
  | AnOrderList x => encodeOrderList encodeMeta encodeListMeta jsonValue isNil x
  end.

Definition permittedList {A} (permitted : nat -> A -> bool) (xs : list A) : bool :=
  permittedSlice nullable (isNil None) xs && forallb id (imap permitted xs).

Definition permittedArc (x : ArcObject) : bool :=
  match x with
  | AnArtifactWorkflow x => permittedArtifactWorkflow x
  | AnArtifactType x => permittedArtifactType nullable (isNil None) x
  | AnEndpoint x => permittedEndpoint x
  | AnOrder x => permittedOrder jsonValue nullable x
  | AnArtifactWorkflowList x =>
      permittedList (fun _ => permittedArtifactWorkflow) (AWList_Items x)
  | AnArtifactTypeList x =>
      permittedList (fun i => permittedArtifactType nullable (isNil (Some i))) (ATList_Items x)
  | AnEndpointList x => permittedList (fun _ => permittedEndpoint) (EPList_Items x)
  | AnOrderList x => permittedList (fun _ => permittedOrder jsonValue nullable) (OrderList_Items x)
  end.
End ArcObjects.

(** C33: the schemas that [GetOpenAPIDefinitions] publishes for the 21 types of the API
    are exactly those their structs ask for: under its model name each has the
    properties of its JSON fields and no others, in their order, with the types,
    references, enumerations and defaults of the fields, and it requires exactly the
    fields that are neither omitted when empty nor optional.  And the JSON encoding of
    an object or list of the group (by the struct tags) conforms to its schema exactly
    when the phases and usages are among the declared values, the artifact indices fit
    32 bits, the parameters of every artifact are a JSON object, and, for a reader that
    does not take [null] as absent, no artifact lacks parameters and no slice that is
    encoded when empty is nil.  The metadata is assumed to conform. *)
Theorem arc_values_conform {library : OpenAPILibrary string}
  encodeMeta encodeListMeta jsonValue isNil nullable depth fuel x :
  (forall n m, (depth <= n)%nat ->
     conformsTo nullable n "k8s.io/apimachinery/pkg/apis/meta/v1.ObjectMeta" (encodeMeta m)
     = true) ->
  (forall n m, (depth <= n)%nat ->
     conformsTo nullable n "k8s.io/apimachinery/pkg/apis/meta/v1.ListMeta" (encodeListMeta m)
     = true) ->
  (12 + depth <= fuel)%nat ->
  (forall n, definition_Schema <$> definition_named ("de.bwi.arc.v1alpha1." ++ kindName n)
             = Some (structSchema n)) /\
  conformsTo nullable fuel (modelName x)
    (encodeArc encodeMeta encodeListMeta jsonValue isNil x)
  = permittedArc jsonValue isNil nullable x.
Proof.
  intros Hm Hl Hf. split; [intros []; reflexivity|].
  assert (Hm' : forall n m, (depth <= n)%nat ->
    conforms nullable (S n) (definition_Schema (schema_pkg_apis_meta_v1_ObjectMeta byName))
      (encodeMeta m) = true) by
    (intros n m Hn; rewrite <- (Hm (S n) m) by lia; symmetry; by apply conformsTo_named).
  assert (Hl' : forall n m, (depth <= n)%nat ->
    conforms nullable (S n) (definition_Schema schema_pkg_apis_meta_v1_ListMeta)
      (encodeListMeta m) = true) by
    (intros n m Hn; rewrite <- (Hl (S n) m) by lia; symmetry; by apply conformsTo_named).
  assert (Hn : exists n, fuel = (12 + n)%nat /\ (depth <= n)%nat)
    by (exists (fuel - 12)%nat; lia).
  destruct Hn as (n & -> & Hn). clear Hf Hm Hl.
  destruct x; unfold encodeArc, permittedArc, permittedList; simpl modelName;
    erewrite conformsTo_named by reflexivity.
  - by apply (artifactWorkflow_conforms _ _ depth Hm' (3 + n)); lia.
  - by apply (artifactType_conforms _ _ depth Hm' _ (3 + n)); lia.
  - by apply (endpoint_conforms _ _ depth Hm' (3 + n)); lia.
  - by apply (order_conforms _ _ _ depth Hm' (3 + n)); lia.
  - eapply list_conforms; try done. intros _ y. by apply (artifactWorkflow_conforms _ _ depth).
  - eapply list_conforms; try done. intros i y. by apply (artifactType_conforms _ _ depth).
  - eapply list_conforms; try done. intros _ y. by apply (endpoint_conforms _ _ depth).
  - eapply list_conforms; try done. intros _ y. by apply (order_conforms _ _ _ depth).
Qed.
