(* ===== verification/OpenAPIShape.v ===== *)
(** * The shape of the published schemas

    What server-side apply relies on: a required property is declared, only arrays have
    items, and the keys by which a list is merged are properties of its items. *)

From stdpp Require Import base gmap list strings.
From Stdlib Require Import Bool.
From S2P Require Import Prelude OpenAPI OpenAPIArc OpenAPICore1 OpenAPICore2 OpenAPICore3 OpenAPICore4.
From S2P Require Import OpenAPIMeta OpenAPIDefinitions OpenAPIClosure OpenAPIValues.

Local Open Scope string_scope.

Section Shape.
Context {library : OpenAPILibrary string}.

(** The properties of a schema, through its reference. *)
Definition declared (s : Schema string) : list string :=
  let direct (s : Schema string) := map fst (schema_Properties s) in
  match schema_Ref s with
  | None => direct s
  | Some name =>
      match definition_named name with Some d => direct (definition_Schema d) | None => [] end
  end.

Definition mem (x : string) (xs : list string) : bool := existsb (String.eqb x) xs.

Definition is_declared (s : Schema string) (key : Any) : bool :=
  match key with AString k => mem k (declared s) | _ => false end.

(** The list extensions of an array [s] fit its items [t]: the keys of a list of type
    map, and the merge key of a strategic merge patch, are properties of the items; a
    set has strings or numbers. *)
Definition list_ok (s t : Schema string) : bool :=
  match assoc "x-kubernetes-list-type" (schema_Extensions s) with
  | Some (AString "map") =>
      match assoc "x-kubernetes-list-map-keys" (schema_Extensions s) with
      | Some (ASlice ((_ :: _) as keys)) => forallb (is_declared t) keys
      | _ => false
      end
  | Some (AString "set") => has_type "string" t || has_type "integer" t
  | Some (AString "atomic") | None => true
  | _ => false
  end
  && match assoc "x-kubernetes-patch-merge-key" (schema_Extensions s) with
     | Some key => is_declared t key
     | None => true
     end.

Fixpoint wellFormed (s : Schema string) : bool :=
  forallb (fun k => mem k (map fst (schema_Properties s))) (schema_Required s)
  && match schema_Items s with
     | Some t => has_type "array" s && list_ok s t && wellFormed t
     | None => true
     end
  && match schema_AdditionalProperties s with
     | Some t => has_type "object" s && wellFormed t
     | None => true
     end
  && forallb (fun p => wellFormed p.2) (schema_Properties s).

Lemma wellFormed_Extensions x s :
  schema_Items s = None -> wellFormed (Extensions x s) = wellFormed s.
Proof. destruct s. simpl. by intros ->. Qed.

Definition entry_ok (e : string * OpenAPIDefinition string) : bool :=
  wellFormed (definition_Schema e.2).

Lemma quantity_ok (laws : OpenAPILibraryLaws string library) name :
  entry_ok (name, schema_apimachinery_pkg_api_resource_Quantity) = true.
Proof.
  unfold entry_ok, schema_apimachinery_pkg_api_resource_Quantity. simpl snd.
  match goal with |- context [EmbedOpenAPIDefinitionIntoV2Extension ?m ?v] =>
    destruct (embed_extends m v) as [x ->] end.
  cbn [definition_Schema]. by rewrite wellFormed_Extensions.
Qed.
End Shape.

(** In every published schema each required property is declared, only arrays have
    items and only objects have typed values; a list merged by keys names at least one,
    and its keys are properties of the items, as is the key of a merge patch; a list
    merged as a set has strings or numbers. *)
Theorem openapi_wellformed {library : OpenAPILibrary string}
  (laws : OpenAPILibraryLaws string library) name d :
  (name, d) ∈ GetOpenAPIDefinitions byName -> wellFormed (definition_Schema d) = true.
Proof.
  intros Hin%list_elem_of_In. revert Hin. change (wellFormed _) with (entry_ok (name, d)).
  generalize (name, d). apply forallb_forall.
  unfold GetOpenAPIDefinitions. rewrite !forallb_app. unfold metaDefinitions. cbn [forallb].
  rewrite (quantity_ok laws). vm_compute. reflexivity.
Qed.
