(* ===== verification/OpenAPIExamples.v ===== *)
(** * The published schemas at concrete values *)

From stdpp Require Import base gmap list strings.
From Stdlib Require Import ZArith Lia Strings.Byte.
From S2P Require Import Prelude GoStd KubeTypes V1alpha1Types Conversion.
From S2P Require Import OpenAPI OpenAPIArc OpenAPICore1 OpenAPICore4.
From S2P Require Import OpenAPIMeta OpenAPIDefinitions OpenAPIClosure OpenAPIValues OpenAPIConform.
From S2P Require Import OpenAPIShape.

Local Open Scope string_scope.

(** ** Instances of the parameters *)

Definition namesOnly (m : ObjectMeta) : Any :=
  AMap (omitEmpty "name" (Name m) ++ omitEmpty "namespace" (Namespace m)).

Definition versionOnly (m : ListMeta) : Any :=
  AMap (omitEmpty "resourceVersion" (ListMeta_ResourceVersion m)).

(** Raw documents that are objects, and null. *)
Definition objectOrNull (raw : list byte) : Any :=
  match raw with x7b :: _ => AMap [] | _ => ANull end.

Definition example : OpenAPILibrary string := exampleLibrary string.

Lemma namesOnly_conforms n m :
  2 <= n ->
  conformsTo (library := example) true n "k8s.io/apimachinery/pkg/apis/meta/v1.ObjectMeta"
    (namesOnly m) = true.
Proof.
  intros Hn. destruct n as [|[|n]]; [lia|lia|]. unfold namesOnly, omitEmpty.
  by destruct (String.eqb (Name m) ""), (String.eqb (Namespace m) "").
Qed.

Lemma versionOnly_conforms n m :
  2 <= n ->
  conformsTo (library := example) true n "k8s.io/apimachinery/pkg/apis/meta/v1.ListMeta"
    (versionOnly m) = true.
Proof.
  intros Hn. destruct n as [|[|n]]; [lia|lia|]. unfold versionOnly, omitEmpty.
  by destruct (String.eqb _ "").
Qed.

(** ** Witnesses *)

Lemma endpointSpec_entry :
  (EndpointSpec_OpenAPIModelName, schema_arc_api_arc_v1alpha1_EndpointSpec byName)
  ∈ @GetOpenAPIDefinitions string example byName.
Proof. apply list_elem_of_In. do 12 right. by left. Qed.

Lemma openapi_dependencies_exact_witness :
  exists m, m ∈ definition_Dependencies (schema_arc_api_arc_v1alpha1_EndpointSpec byName)
            /\ "k8s.io/api/core/v1.LocalObjectReference" = m.
Proof.
  apply (openapi_dependencies_exact (library := example) (exampleLibrary_laws string) byName
           EndpointSpec_OpenAPIModelName (schema_arc_api_arc_v1alpha1_EndpointSpec byName)).
  - exact endpointSpec_entry.
  - by left.
Defined.

Lemma endpointSpec_chain :
  Chain (@GetOpenAPIDefinitions string example byName)
    [EndpointSpec_OpenAPIModelName; "k8s.io/api/core/v1.LocalObjectReference"].
Proof. eapply chain_step; [exact endpointSpec_entry|by left|constructor]. Qed.

Lemma openapi_expansion_terminates_witness :
  length [EndpointSpec_OpenAPIModelName; "k8s.io/api/core/v1.LocalObjectReference"] <= 13.
Proof.
  apply (openapi_expansion_terminates (library := example) (exampleLibrary_laws string) byName).
  exact endpointSpec_chain.
Defined.

Lemma openapi_resolves_exactly_witness :
  Resolvable (@GetOpenAPIDefinitions string example byName) EndpointSpec_OpenAPIModelName.
Proof.
  apply (openapi_resolves_exactly (library := example) (exampleLibrary_laws string) byName _ _ endpointSpec_entry).
  by apply unknown_dangling.
Defined.

Lemma openapi_wellformed_witness :
  wellFormed (library := example) (definition_Schema (schema_arc_api_arc_v1alpha1_EndpointSpec byName)) = true.
Proof.
  apply (openapi_wellformed (library := example) (exampleLibrary_laws string) EndpointSpec_OpenAPIModelName).
  exact endpointSpec_entry.
Defined.

(** An order of one artifact whose workflow runs. *)
Definition exampleOrder : Order :=
  mkOrder (mkTypeMeta "Order" "arc.bwi.de/v1alpha1") (newObjectMeta "default" "release")
    (mkOrderSpec (mkOrderDefaults (mkLocalObjectReference "src") (mkLocalObjectReference ""))
       [mkOrderArtifact "oci" (mkLocalObjectReference "") (mkLocalObjectReference "dst")
          (mkRawExtension (Some [x7b; x7d]))])
    (mkOrderStatus (Some {[ "5f2b" := mkOrderArtifactWorkflowStatus 0 "Running" "" ]})).

(** Artifact types of which the second one has no parameters, a nil slice. *)
Definition exampleTypes : ArtifactTypeList :=
  let at_ name ps := mkArtifactType emptyTypeMeta (newObjectMeta "" name)
    (mkArtifactTypeSpec (mkArtifactTypeRules [] []) ps (mkLocalObjectReference "t"))
    mkArtifactTypeStatus in
  mkArtifactTypeList emptyTypeMeta (mkListMeta "" "" None)
    [at_ "oci" [mkArtifactWorkflowParameter "p" "v"]; at_ "blob" []].

Lemma arc_values_conform_witness :
  definition_Schema <$> definition_named (library := example) "de.bwi.arc.v1alpha1.EndpointSpec"
    = Some (structSchema TEndpointSpec) /\
  conformsTo (library := example) true 14 Order_OpenAPIModelName
    (encodeOrder namesOnly objectOrNull exampleOrder) = true /\
  conformsTo (library := example) true 14 ArtifactTypeList_OpenAPIModelName
    (encodeArtifactTypeList namesOnly versionOnly (fun i => bool_decide (i = Some 1)) exampleTypes)
    = true.
Proof.
  pose proof (arc_values_conform (library := example) namesOnly versionOnly objectOrNull
                (fun i => bool_decide (i = Some 1)) true 2 14) as H.
  destruct (H (AnOrder exampleOrder) namesOnly_conforms versionOnly_conforms ltac:(lia))
    as [Hs Ho].
  destruct (H (AnArtifactTypeList exampleTypes) namesOnly_conforms versionOnly_conforms
              ltac:(lia)) as [_ Ht].
  split; [exact (Hs TEndpointSpec)|].
  split; [etransitivity; [exact Ho|] | etransitivity; [exact Ht|]]; vm_compute; reflexivity.
Defined.

(** ** The default of a required property that its enumeration excludes *)

(** The schema of [EndpointSpec] gives [usage] the default [""], which its own
    enumeration does not contain: filling in the default makes a value that does not
    conform. *)
Lemma usage_default_excluded n :
  match assoc "usage" (schema_Properties
    (definition_Schema (schema_arc_api_arc_v1alpha1_EndpointSpec byName))) with
  | Some p => match schema_Default p with
              | Some v => conforms (library := example) true (S n) p v = false
              | None => False
              end
  | None => False
  end.
Proof. reflexivity. Qed.
