(* ===== verification/ServerStart.v ===== *)
(** * Starting the API server (pkg/apiserver/start.go, cmd/arc-apiserver)

    The options, the command and the configuration of the server, and the admission
    initializer (pkg/admission/orderinitializer).  Flags, certificates, the generic
    server and the registry of component versions are in other modules: [ServerLibrary]
    has their types and the functions that are called.  A pointer receiver that the
    code assigns through is passed and returned. *)

From stdpp Require Import base gmap list strings.
From Stdlib Require Import ZArith QArith.
From S2P Require Import Prelude GoStd Registry ApiScheme Clientset InformerFactory ApiServer.
From S2P Require Import OpenAPI OpenAPIDefinitions OpenAPIClosure InformerTheorems.

Local Open Scope string_scope.
Local Open Scope list_scope.

(** ** What the server is built from *)

(** [rest.Config] of the loopback client, with its timeout. *)
Record LoopbackConfig `{RestLibrary} := mkLoopbackConfig {
  lc_Config : Config RateLimiter;
  lc_Timeout : Duration;
}.

(** The part of the OpenAPI configuration that is set. *)
Record openAPIConfig := mkOpenAPIConfig {
  GetDefinitions : list (string * OpenAPIDefinition string);
  Title : string;
  InfoVersion : string;
}.

(** [orderinitializer.pluginInitializer]. *)
Record pluginInitializer `{RestLibrary} `{CacheLibrary} := mkPluginInitializer {
  pi_informers : sharedInformerFactory;
}.

Arguments mkLoopbackConfig {_}.
Arguments lc_Config {_}.
Arguments lc_Timeout {_}.
Arguments mkPluginInitializer {_ _}.
Arguments pi_informers {_ _}.

(** [genericapiserver.RecommendedConfig], with the fields that are set or read. *)
Record RecommendedConfig (FeatureGate EffectiveVersion KubeFactory : Type) := mkRecommendedConfig {
  OpenAPIConfig : option openAPIConfig;
  OpenAPIV3Config : option openAPIConfig;
  rc_FeatureGate : option FeatureGate;
  rc_EffectiveVersion : option EffectiveVersion;
  rc_SharedInformerFactory : option KubeFactory;
}.
Arguments mkRecommendedConfig {_ _ _}.
Arguments OpenAPIConfig {_ _ _}.
Arguments OpenAPIV3Config {_ _ _}.
Arguments rc_FeatureGate {_ _ _}.
Arguments rc_EffectiveVersion {_ _ _}.
Arguments rc_SharedInformerFactory {_ _ _}.

(** How far a feature is in a version. *)
Inductive PreRelease := Alpha | Beta | GA.

Record VersionedSpec := mkVersionedSpec {
  vs_Version : string;
  vs_Default : bool;
  vs_PreRelease : PreRelease;
  vs_LockToDefault : bool;
}.

Class ServerLibrary `{RestLibrary} `{CacheLibrary} `{GenericRegistry} := {
  RecommendedOptions : Type;
  ComponentGlobalsRegistry : Type;
  FeatureGate : Type;
  EffectiveVersion : Type;
  KubeFactory : Type;
  Writer : Type;
  NewRecommendedOptions : string -> GroupVersion -> RecommendedOptions;
  set_EncodeVersioner : RecommendedOptions -> GroupVersion -> string -> RecommendedOptions;
  validateRecommended : RecommendedOptions -> list error;
  validateRegistry : ComponentGlobalsRegistry -> list error;
  (** [utilerrors.NewAggregate]. *)
  NewAggregate : list error -> option error;
  NewAggregate_nil : forall errs, NewAggregate errs = None <-> errs = [];
  DefaultComponentGlobalsRegistry : ComponentGlobalsRegistry;
  SetRegistry : ComponentGlobalsRegistry -> option error;
  (** Register a component under its version if it is not, and give its gate. *)
  ComponentGlobalsOrRegister : ComponentGlobalsRegistry -> string -> string ->
    ComponentGlobalsRegistry;
  AddVersioned : ComponentGlobalsRegistry -> string -> list (string * list VersionedSpec) ->
    outcome ComponentGlobalsRegistry;
  SetEmulationVersionMapping : ComponentGlobalsRegistry -> string -> string ->
    (Version -> option Version) -> outcome ComponentGlobalsRegistry;
  FeatureGateFor : ComponentGlobalsRegistry -> string -> option FeatureGate;
  EffectiveVersionFor : ComponentGlobalsRegistry -> string -> option EffectiveVersion;
  DefaultKubeComponent : string;
  DefaultKubeBinaryVersionString : string;
  MaybeDefaultWithSelfSignedCerts : RecommendedOptions -> string -> list string ->
    list string -> error + RecommendedOptions;
  (** [RecommendedOptions.ApplyTo]: it calls the extra admission initializers, which
      may change a state, once with the loopback configuration it made, fails if they
      do, and sets the informers of Kubernetes. *)
  ApplyTo : forall St : Type, RecommendedOptions ->
    (LoopbackConfig -> St -> (error + list pluginInitializer) * St) ->
    RecommendedConfig FeatureGate EffectiveVersion KubeFactory -> St ->
    (error + RecommendedConfig FeatureGate EffectiveVersion KubeFactory) * St;
  ApplyTo_initializes : forall St ro init rc (s : St) rc' s',
    ApplyTo St ro init rc s = (inr rc', s') ->
    (exists loopback plugins, init loopback s = (inr plugins, s'))
    /\ OpenAPIConfig rc' = OpenAPIConfig rc /\ OpenAPIV3Config rc' = OpenAPIV3Config rc
    /\ is_Some (rc_SharedInformerFactory rc');
  (** [RecommendedConfig.Complete], the storage options of the completed configuration
      and its [New]; [GenericAPIServer.InstallAPIGroup]. *)
  CompletedConfig : Type;
  completeGeneric : RecommendedConfig FeatureGate EffectiveVersion KubeFactory ->
    CompletedConfig;
  completedRESTOptions : CompletedConfig -> RESTOptionsGetter;
  GenericAPIServer : Type;
  genericNew : CompletedConfig -> string -> outcome GenericAPIServer;
  InstallAPIGroup : GenericAPIServer -> string -> gmap string (gmap string REST) ->
    outcome GenericAPIServer;
}.

(** ** Admission *)

Section Start.
Context `{RestLibrary} `{CacheLibrary} `{GenericRegistry} `{!StoreCompletion}.
Context `{!ServerLibrary} `{Versions}.
Context {openapi : OpenAPILibrary string}.

(** The package's [Scheme]; ApiScheme says what its [init] registers. *)
Context (apiScheme : ObjectTyper).

(** [orderinitializer.New]. *)
Definition newPluginInitializer (informers : sharedInformerFactory) : pluginInitializer :=
  mkPluginInitializer informers.

(** [Initialize] asks a plugin whether it implements the interface; one that does is
    given by how it takes the factory. *)
Definition Initialize {P : Type} (i : pluginInitializer)
  (wants : P -> option (sharedInformerFactory -> P)) (plugin : P) : P :=
  match wants plugin with
  | Some setInternalOrderInformerFactory => setInternalOrderInformerFactory (pi_informers i)
  | None => plugin
  end.

(** ** Options *)

Definition defaultEtcdPathPrefix : string := "/registry/arc.bwi.de".
Definition ARCComponentName : string := "arc".

Record ARCServerOptions := mkARCServerOptions {
  Recommended : RecommendedOptions;
  GlobalsRegistry : ComponentGlobalsRegistry;
  SharedInformerFactory : option sharedInformerFactory;
  StdOut : Writer;
  StdErr : Writer;
  AlternateDNS : list string;
}.

Definition set_Recommended (o : ARCServerOptions) (r : RecommendedOptions) : ARCServerOptions :=
  mkARCServerOptions r (GlobalsRegistry o) (SharedInformerFactory o) (StdOut o) (StdErr o)
    (AlternateDNS o).

Definition set_SharedInformerFactory (o : ARCServerOptions) (f : sharedInformerFactory)
  : ARCServerOptions :=
  mkARCServerOptions (Recommended o) (GlobalsRegistry o) (Some f) (StdOut o) (StdErr o)
    (AlternateDNS o).

Definition NewARCServerOptions (out errOut : Writer) : ARCServerOptions :=
  let gv := V1alpha1.SchemeGroupVersion in
  let o := mkARCServerOptions (NewRecommendedOptions defaultEtcdPathPrefix gv)
             DefaultComponentGlobalsRegistry None out errOut [] in
  set_Recommended o (set_EncodeVersioner (Recommended o) gv GroupName).

Definition Validate (o : ARCServerOptions) : option error :=
  NewAggregate (validateRecommended (Recommended o) ++ validateRegistry (GlobalsRegistry o)).

Definition Complete (o : ARCServerOptions) : option error := None.

(** The closure that [Config] installs as the extra admission initializers: it stores
    the factory in the options. *)
Definition extraAdmissionInitializers (c : LoopbackConfig) (o : ARCServerOptions)
  : (error + list pluginInitializer) * ARCServerOptions :=
  match NewForConfig (lc_Config c) with
  | inl err => (inl err, o)
  | inr client =>
      let informerFactory := NewSharedInformerFactory (ArcV1alpha1 client) (lc_Timeout c) in
      (inr [newPluginInitializer informerFactory], set_SharedInformerFactory o informerFactory)
  end.

Definition arcOpenAPIConfig : openAPIConfig :=
  mkOpenAPIConfig (GetOpenAPIDefinitions (fun name => name)) "ARC" "0.1".

Definition ARCConfig : Type := RecommendedConfig FeatureGate EffectiveVersion KubeFactory.

(** [Config], with the options it changes. *)
Definition OptionsConfig (o : ARCServerOptions) : (error + ARCConfig) * ARCServerOptions :=
  match MaybeDefaultWithSelfSignedCerts (Recommended o) "localhost" (AlternateDNS o)
          ["127.0.0.1"] with
  | inl err => (inl (Errorf_wrap "error creating self-signed certificates" err), o)
  | inr recommended =>
      let o := set_Recommended o recommended in
      let serverConfig := mkRecommendedConfig
        (Some arcOpenAPIConfig) (Some arcOpenAPIConfig)
        (FeatureGateFor (GlobalsRegistry o) DefaultKubeComponent)
        (EffectiveVersionFor (GlobalsRegistry o) ARCComponentName) None in
      ApplyTo _ (Recommended o) extraAdmissionInitializers serverConfig o
  end.

(** ** Running *)

(** A prepared server: what its post-start hook of the name starts. *)
Record PostStartHook := mkPostStartHook {
  hookName : string;
  hookKube : option KubeFactory;
  hookArc : option sharedInformerFactory;
}.

(** The hook: calling [Start] on a factory that is nil panics. *)
Definition runHook (h : PostStartHook) : outcome (KubeFactory * sharedInformerFactory) :=
  match hookKube h, hookArc h with
  | Some k, Some a => Ok (k, a)
  | _, _ => Panic "runtime error: invalid memory address or nil pointer dereference"
  end.

(** [config.Complete().New()]. *)
Definition newServer (config : ARCConfig) :
  outcome (ARCServer (GenericAPIServer := GenericAPIServer)) :=
  let c := completeGeneric config in
  New (genericNew c) InstallAPIGroup apiScheme (completedRESTOptions c).

Definition Served : Type :=
  option (ARCServer (GenericAPIServer := GenericAPIServer) * PostStartHook).

(** A server that was made has the API group with the storage of all resources. *)
Lemma newServer_Ok config arcServer :
  newServer config = Ok arcServer ->
  exists generic st, genericNew (completeGeneric config) "arc-apiserver" = Ok generic /\
    v1alpha1storage apiScheme (completedRESTOptions (completeGeneric config)) = Ok st /\
    dom st = {["orders"; "orders/status"; "artifactworkflows"; "artifactworkflows/status";
               "endpoints"; "artifacttypes"]} /\
    InstallAPIGroup generic "arc.bwi.de" {["v1alpha1" := st]} = Ok (ApiServer.server arcServer).
Proof.
  unfold newServer, New.
  destruct (genericNew _ _) as [generic|e|m] eqn:Hg; simpl; [|done..].
  destruct (v1alpha1storage _ _) as [st|e|m] eqn:Hst; simpl; [|done..].
  destruct (InstallAPIGroup generic _ _) as [server'|e|m] eqn:Hin; simpl; [|done..].
  intros [= <-]. exists generic, st. split_and!; try done.
  apply v1alpha1storage_Ok in Hst as (? & ? & ? & ? & ? & ? & _ & _ & _ & _ & _ & _ & ->).
  set_solver.
Qed.

(** [serve] adds the hook, or the process dies, prepares the generic server and runs it. *)
Section Run.
Context (serve : GenericAPIServer -> PostStartHook -> outcome unit).

(** [RunARCServer]: the server and hook that are served, if it comes to that, and the
    result. *)
Definition RunARCServer (o : ARCServerOptions) : Served * outcome unit :=
  let '(config, o) := OptionsConfig o in
  match config with
  | inl err => (None, Err err)
  | inr config =>
      match newServer config with
      | Err err => (None, Err err)
      | Panic msg => (None, Panic msg)
      | Ok server =>
          let hook := mkPostStartHook "start-sample-server-informers"
                        (rc_SharedInformerFactory config) (SharedInformerFactory o) in
          (Some (server, hook), serve (ApiServer.server server) hook)
      end
  end.

(** [RunE] of the command. *)
Definition RunE (o : ARCServerOptions) : Served * outcome unit :=
  match Complete o with
  | Some err => (None, Err err)
  | None =>
      match Validate o with
      | Some err => (None, Err err)
      | None => RunARCServer o
      end
  end.

(** When it does not come to serving, the command does not end well. *)
Lemma RunE_unserved o result : RunE o = (None, result) -> result <> Ok tt.
Proof.
  unfold RunE, RunARCServer. simpl. destruct (Validate o); [by intros [= <-]|].
  destruct (OptionsConfig o) as [[err|config] o']; [by intros [= <-]|].
  by destruct (newServer config); intros [= <-].
Qed.

(** ** The property *)

End Run.

(** ** The command *)

Definition defaultARCVersion : string := "1.2".

(** The versioned specifications of the example feature. *)
Definition BanFlunder : list (string * list VersionedSpec) :=
  [("BanFlunder", [mkVersionedSpec "1.0" false Alpha false;
                   mkVersionedSpec "1.1" true Beta false;
                   mkVersionedSpec "1.2" true GA true])].

(** [NewCommandStartARCServer], what it does with the registry: the component and that
    of Kubernetes are registered and the version mapping is set, or it panics. *)
Definition registerComponents (r : ComponentGlobalsRegistry) : outcome ComponentGlobalsRegistry :=
  let r := ComponentGlobalsOrRegister r ARCComponentName defaultARCVersion in
  let? r := Must (AddVersioned r ARCComponentName BanFlunder) in
  let r := ComponentGlobalsOrRegister r DefaultKubeComponent DefaultKubeBinaryVersionString in
  Must (SetEmulationVersionMapping r ARCComponentName DefaultKubeComponent
          ARCVersionToKubeVersion).

(** [PersistentPreRunE] of the command. *)
Definition PersistentPreRunE (skip : bool) (r : ComponentGlobalsRegistry) : option error :=
  if skip then None else SetRegistry r.

Section Main.
Context (serve : GenericAPIServer -> PostStartHook -> outcome unit).

(** The command: its two functions, and the options its flags are bound to. *)
Record Command := mkCommand {
  cmd_PersistentPreRunE : ComponentGlobalsRegistry -> option error;
  cmd_RunE : ARCServerOptions -> Served * outcome unit;
  cmd_options : ARCServerOptions;
}.

Definition set_GlobalsRegistry (o : ARCServerOptions) (r : ComponentGlobalsRegistry) :
  ARCServerOptions :=
  mkARCServerOptions (Recommended o) r (SharedInformerFactory o) (StdOut o) (StdErr o)
    (AlternateDNS o).

Definition NewCommandStartARCServer (defaults : ARCServerOptions) (skip : bool) :
  outcome Command :=
  let? r := registerComponents (GlobalsRegistry defaults) in
  Ok (mkCommand (PersistentPreRunE skip) (RunE serve) (set_GlobalsRegistry defaults r)).

(** [cli.Run]: it parses the flags into the options, which can fail, runs the command,
    and gives the code of the process; cobra runs [PersistentPreRunE] before [RunE]
    and stops at an error. *)
Definition cliRun (parseFlags : ARCServerOptions -> error + ARCServerOptions) (cmd : Command) :
  Served * outcome nat :=
  match parseFlags (cmd_options cmd) with
  | inl _ => (None, Ok 1%nat)
  | inr o =>
      match cmd_PersistentPreRunE cmd (GlobalsRegistry o) with
      | Some _ => (None, Ok 1%nat)
      | None =>
          let '(served, result) := cmd_RunE cmd o in
          (served, match result with Ok _ => Ok 0%nat | Err _ => Ok 1%nat | Panic m => Panic m end)
      end
  end.

(** [main] of cmd/arc-apiserver. *)
Definition main (stdout stderr : Writer)
  (parseFlags : ARCServerOptions -> error + ARCServerOptions) :
  Served * outcome nat :=
  match NewCommandStartARCServer (NewARCServerOptions stdout stderr) false with
  | Ok cmd => cliRun parseFlags cmd
  | Err e => (None, Err e)
  | Panic m => (None, Panic m)
  end.

(** The process ends well only if the components were registered and set, and the
    server was served and stopped without an error. *)
Theorem apiserver_exits_zero stdout stderr parseFlags served :
  main stdout stderr parseFlags = (served, Ok 0%nat) ->
  exists r o, registerComponents DefaultComponentGlobalsRegistry = Ok r
    /\ parseFlags (set_GlobalsRegistry (NewARCServerOptions stdout stderr) r) = inr o
    /\ SetRegistry (GlobalsRegistry o) = None
    /\ RunE serve o = (served, Ok tt) /\ is_Some served.
Proof.
  unfold main, NewCommandStartARCServer. simpl GlobalsRegistry.
  destruct (registerComponents _) as [r|e|m]; [|done..]. simpl. unfold cliRun. simpl.
  destruct (parseFlags _) as [e|o] eqn:Hp; [done|]. unfold PersistentPreRunE.
  destruct (SetRegistry _) eqn:Hset; [done|].
  destruct (RunE serve o) as [served' [[]|e|m]] eqn:Hrun; [|done..].
  intros [= <-]. exists r, o. split_and!; try done.
  destruct served' as [sv|]; [by eexists|]. by apply RunE_unserved in Hrun.
Qed.
End Main.
End Start.

(** ** An instance and a witness *)

#[local] Existing Instance plain_rest.
#[local] Existing Instance plain_cache.

(** A library in which everything succeeds. *)
#[local] Program Instance plain_server : ServerLibrary := {|
  RecommendedOptions := unit;
  ComponentGlobalsRegistry := unit;
  FeatureGate := unit;
  EffectiveVersion := unit;
  KubeFactory := unit;
  Writer := unit;
  NewRecommendedOptions _ _ := tt;
  set_EncodeVersioner o _ _ := o;
  validateRecommended _ := [];
  validateRegistry _ := [];
  NewAggregate errs := head errs;
  DefaultComponentGlobalsRegistry := tt;
  SetRegistry _ := None;
  ComponentGlobalsOrRegister r _ _ := r;
  AddVersioned r _ _ := Ok r;
  SetEmulationVersionMapping r _ _ _ := Ok r;
  FeatureGateFor _ _ := Some tt;
  EffectiveVersionFor _ _ := Some tt;
  DefaultKubeComponent := "kube";
  DefaultKubeBinaryVersionString := "1.34";
  MaybeDefaultWithSelfSignedCerts o _ _ _ := inr o;
  ApplyTo St _ init rc s :=
    match init (mkLoopbackConfig (mkConfig "https://localhost" "" None None "" 0%Q 0%Z None) 30%Z) s with
    | (inl err, s) => (inl err, s)
    | (inr _, s) =>
        (inr (mkRecommendedConfig (OpenAPIConfig rc) (OpenAPIV3Config rc) (rc_FeatureGate rc)
                (rc_EffectiveVersion rc) (Some tt)), s)
    end;
  CompletedConfig := unit;
  completeGeneric _ := tt;
  completedRESTOptions _ := (tt : RESTOptionsGetter);
  GenericAPIServer := list (string * gmap string (gmap string REST));
  genericNew _ _ := Ok [];
  InstallAPIGroup g name group := Ok (g ++ [(name, group)]);
|}.
Next Obligation. by destruct errs. Qed.
Next Obligation.
  match goal with Ha : _ = (inr _, _) |- _ => revert Ha end. intros Ha.
  destruct (init _ _) as [[err|plugins] s2] eqn:Hi; simplify_eq/=.
  split_and!; [by do 2 eexists|done|done|by eexists].
Qed.

Definition plainOptions : ARCServerOptions := NewARCServerOptions tt tt.

