(* ===== verification/ApplyMeta.v ===== *)
(** * Apply configurations: the metadata part and the building blocks

    client-go/applyconfigurations holds builders: a struct whose fields are all
    optional, and a method [With<Field>] per field that assigns it and returns the
    receiver.  The embedded metadata and owner-reference configurations belong to
    k8s.io/client-go; the records below have the fields the builders assign.

    A pointer to a scalar that a builder creates itself ([&value] of a parameter) is
    never shared, so it is an [option] of the value.  A pointer to another builder
    that a caller hands in and the receiver keeps is an address ([ref]): the callee
    stays shared with the caller.  A pointer whose target is copied during the call
    is an [option] of the value it has at that moment.  Nil maps are kept apart from
    empty ones, since assigning into a nil map panics. *)

From stdpp Require Import base gmap list strings.
From Stdlib Require Import ZArith.
From S2P Require Import Prelude GoStd KubeTypes.

Local Open Scope string_scope.
Local Open Scope list_scope.

(** ** Data *)

(** The address of a builder. *)
Definition ref : Type := positive.

Record TypeMetaApplyConfiguration := mkTypeMetaApplyConfiguration {
  TypeMetaAC_Kind : option string;
  TypeMetaAC_APIVersion : option string;
}.

Record OwnerReferenceApplyConfiguration := mkOwnerReferenceApplyConfiguration {
  OwnerRefAC_APIVersion : option string;
  OwnerRefAC_Kind : option string;
  OwnerRefAC_Name : option string;
  OwnerRefAC_UID : option string;
  OwnerRefAC_Controller : option bool;
  OwnerRefAC_BlockOwnerDeletion : option bool;
}.

Record ObjectMetaApplyConfiguration := mkObjectMetaApplyConfiguration {
  MetaAC_Name : option string;
  MetaAC_GenerateName : option string;
  MetaAC_Namespace : option string;
  MetaAC_UID : option string;
  MetaAC_ResourceVersion : option string;
  MetaAC_Generation : option Z;
  MetaAC_CreationTimestamp : option Time;
  MetaAC_DeletionTimestamp : option Time;
  MetaAC_DeletionGracePeriodSeconds : option Z;
  MetaAC_Labels : option (gmap string string);
  MetaAC_Annotations : option (gmap string string);
  MetaAC_OwnerReferences : list OwnerReferenceApplyConfiguration;
  MetaAC_Finalizers : list string;
}.

#[export] Instance OwnerReferenceAC_eq_dec : EqDecision OwnerReferenceApplyConfiguration.
Proof. solve_decision. Defined.

Definition emptyTypeMetaAC : TypeMetaApplyConfiguration :=
  mkTypeMetaApplyConfiguration None None.

Definition emptyObjectMetaAC : ObjectMetaApplyConfiguration :=
  mkObjectMetaApplyConfiguration None None None None None None None None None None None [] [].

Section setters.
Context (m : ObjectMetaApplyConfiguration).

Definition set_MetaAC_Name (v : option string) : ObjectMetaApplyConfiguration :=
  mkObjectMetaApplyConfiguration v (MetaAC_GenerateName m) (MetaAC_Namespace m)
    (MetaAC_UID m) (MetaAC_ResourceVersion m) (MetaAC_Generation m)
    (MetaAC_CreationTimestamp m) (MetaAC_DeletionTimestamp m)
    (MetaAC_DeletionGracePeriodSeconds m) (MetaAC_Labels m) (MetaAC_Annotations m)
    (MetaAC_OwnerReferences m) (MetaAC_Finalizers m).

Definition set_MetaAC_GenerateName (v : option string) : ObjectMetaApplyConfiguration :=
  mkObjectMetaApplyConfiguration (MetaAC_Name m) v (MetaAC_Namespace m) (MetaAC_UID m)
    (MetaAC_ResourceVersion m) (MetaAC_Generation m) (MetaAC_CreationTimestamp m)
    (MetaAC_DeletionTimestamp m) (MetaAC_DeletionGracePeriodSeconds m) (MetaAC_Labels m)
    (MetaAC_Annotations m) (MetaAC_OwnerReferences m) (MetaAC_Finalizers m).

Definition set_MetaAC_Namespace (v : option string) : ObjectMetaApplyConfiguration :=
  mkObjectMetaApplyConfiguration (MetaAC_Name m) (MetaAC_GenerateName m) v
    (MetaAC_UID m) (MetaAC_ResourceVersion m) (MetaAC_Generation m)
    (MetaAC_CreationTimestamp m) (MetaAC_DeletionTimestamp m)
    (MetaAC_DeletionGracePeriodSeconds m) (MetaAC_Labels m) (MetaAC_Annotations m)
    (MetaAC_OwnerReferences m) (MetaAC_Finalizers m).

Definition set_MetaAC_UID (v : option string) : ObjectMetaApplyConfiguration :=
  mkObjectMetaApplyConfiguration (MetaAC_Name m) (MetaAC_GenerateName m)
    (MetaAC_Namespace m) v (MetaAC_ResourceVersion m) (MetaAC_Generation m)
    (MetaAC_CreationTimestamp m) (MetaAC_DeletionTimestamp m)
    (MetaAC_DeletionGracePeriodSeconds m) (MetaAC_Labels m) (MetaAC_Annotations m)
    (MetaAC_OwnerReferences m) (MetaAC_Finalizers m).

Definition set_MetaAC_ResourceVersion (v : option string) : ObjectMetaApplyConfiguration :=
  mkObjectMetaApplyConfiguration (MetaAC_Name m) (MetaAC_GenerateName m)
    (MetaAC_Namespace m) (MetaAC_UID m) v (MetaAC_Generation m)
    (MetaAC_CreationTimestamp m) (MetaAC_DeletionTimestamp m)
    (MetaAC_DeletionGracePeriodSeconds m) (MetaAC_Labels m) (MetaAC_Annotations m)
    (MetaAC_OwnerReferences m) (MetaAC_Finalizers m).

Definition set_MetaAC_Generation (v : option Z) : ObjectMetaApplyConfiguration :=
  mkObjectMetaApplyConfiguration (MetaAC_Name m) (MetaAC_GenerateName m)
    (MetaAC_Namespace m) (MetaAC_UID m) (MetaAC_ResourceVersion m) v
    (MetaAC_CreationTimestamp m) (MetaAC_DeletionTimestamp m)
    (MetaAC_DeletionGracePeriodSeconds m) (MetaAC_Labels m) (MetaAC_Annotations m)
    (MetaAC_OwnerReferences m) (MetaAC_Finalizers m).

Definition set_MetaAC_CreationTimestamp (v : option Time) : ObjectMetaApplyConfiguration :=
  mkObjectMetaApplyConfiguration (MetaAC_Name m) (MetaAC_GenerateName m)
    (MetaAC_Namespace m) (MetaAC_UID m) (MetaAC_ResourceVersion m) (MetaAC_Generation m)
    v (MetaAC_DeletionTimestamp m) (MetaAC_DeletionGracePeriodSeconds m)
    (MetaAC_Labels m) (MetaAC_Annotations m) (MetaAC_OwnerReferences m)
    (MetaAC_Finalizers m).

Definition set_MetaAC_DeletionTimestamp (v : option Time) : ObjectMetaApplyConfiguration :=
  mkObjectMetaApplyConfiguration (MetaAC_Name m) (MetaAC_GenerateName m)
    (MetaAC_Namespace m) (MetaAC_UID m) (MetaAC_ResourceVersion m) (MetaAC_Generation m)
    (MetaAC_CreationTimestamp m) v (MetaAC_DeletionGracePeriodSeconds m)
    (MetaAC_Labels m) (MetaAC_Annotations m) (MetaAC_OwnerReferences m)
    (MetaAC_Finalizers m).

Definition set_MetaAC_DeletionGracePeriodSeconds (v : option Z) : ObjectMetaApplyConfiguration :=
  mkObjectMetaApplyConfiguration (MetaAC_Name m) (MetaAC_GenerateName m)
    (MetaAC_Namespace m) (MetaAC_UID m) (MetaAC_ResourceVersion m) (MetaAC_Generation m)
    (MetaAC_CreationTimestamp m) (MetaAC_DeletionTimestamp m) v (MetaAC_Labels m)
    (MetaAC_Annotations m) (MetaAC_OwnerReferences m) (MetaAC_Finalizers m).

Definition set_MetaAC_Labels (v : option (gmap string string)) : ObjectMetaApplyConfiguration :=
  mkObjectMetaApplyConfiguration (MetaAC_Name m) (MetaAC_GenerateName m)
    (MetaAC_Namespace m) (MetaAC_UID m) (MetaAC_ResourceVersion m) (MetaAC_Generation m)
    (MetaAC_CreationTimestamp m) (MetaAC_DeletionTimestamp m)
    (MetaAC_DeletionGracePeriodSeconds m) v (MetaAC_Annotations m)
    (MetaAC_OwnerReferences m) (MetaAC_Finalizers m).

Definition set_MetaAC_Annotations (v : option (gmap string string)) : ObjectMetaApplyConfiguration :=
  mkObjectMetaApplyConfiguration (MetaAC_Name m) (MetaAC_GenerateName m)
    (MetaAC_Namespace m) (MetaAC_UID m) (MetaAC_ResourceVersion m) (MetaAC_Generation m)
    (MetaAC_CreationTimestamp m) (MetaAC_DeletionTimestamp m)
    (MetaAC_DeletionGracePeriodSeconds m) (MetaAC_Labels m) v (MetaAC_OwnerReferences m)
    (MetaAC_Finalizers m).

Definition set_MetaAC_OwnerReferences (v : list OwnerReferenceApplyConfiguration) : ObjectMetaApplyConfiguration :=
  mkObjectMetaApplyConfiguration (MetaAC_Name m) (MetaAC_GenerateName m)
    (MetaAC_Namespace m) (MetaAC_UID m) (MetaAC_ResourceVersion m) (MetaAC_Generation m)
    (MetaAC_CreationTimestamp m) (MetaAC_DeletionTimestamp m)
    (MetaAC_DeletionGracePeriodSeconds m) (MetaAC_Labels m) (MetaAC_Annotations m) v
    (MetaAC_Finalizers m).

Definition set_MetaAC_Finalizers (v : list string) : ObjectMetaApplyConfiguration :=
  mkObjectMetaApplyConfiguration (MetaAC_Name m) (MetaAC_GenerateName m)
    (MetaAC_Namespace m) (MetaAC_UID m) (MetaAC_ResourceVersion m) (MetaAC_Generation m)
    (MetaAC_CreationTimestamp m) (MetaAC_DeletionTimestamp m)
    (MetaAC_DeletionGracePeriodSeconds m) (MetaAC_Labels m) (MetaAC_Annotations m)
    (MetaAC_OwnerReferences m) v.

End setters.
