(* ===== verification/ApplyObject.v ===== *)
(** * The contract of the builders of API objects

    The four object builders of client-go/applyconfigurations share their metadata
    methods word for word.  This file states what those methods promise: a call is
    a value of [call], its effect on the type and object metadata is [call_effect],
    and a builder type that keeps the promise is an instance of [ApplyObject].  What
    a chain of calls builds is proved against the interface. *)

From stdpp Require Import base gmap list strings.
From Stdlib Require Import ZArith.
From S2P Require Import Prelude GoStd KubeTypes ApplyMeta.

Local Open Scope string_scope.
Local Open Scope list_scope.

(** ** The statements the methods are made of *)

(** Reading through a pointer. *)
Definition deref {A : Type} (p : option A) : outcome A :=
  match p with
  | Some a => Ok a
  | None => Panic "invalid memory address or nil pointer dereference"
  end.

(** [m[k] = v]. *)
Definition storeEntry {V : Type} (m : option (gmap string V)) (kv : string * V) :
  outcome (option (gmap string V)) :=
  match m with
  | None => Panic "assignment to entry in nil map"
  | Some m => Ok (Some (<[kv.1 := kv.2]> m))
  end.

Fixpoint storeEntries {V : Type} (m : option (gmap string V)) (l : list (string * V)) :
  outcome (option (gmap string V)) :=
  match l with
  | [] => Ok m
  | kv :: l => let? m := storeEntry m kv in storeEntries m l
  end.

(** The body the methods of map fields share: make the map when there is something
    to put into a nil one, then store the entries as [range] visits them. *)
Definition mergeEntries `{GoRuntime} {V : Type} (site : string)
  (m : option (gmap string V)) (entries : gmap string V) : outcome (option (gmap string V)) :=
  let m := if bool_decide (m = None) && (0 <? size entries)%nat then Some ∅ else m in
  storeEntries m (range_order site entries).

(** The loop of the methods of slice fields that copy what the pointers point to. *)
Fixpoint appendDerefs {A : Type} (msg : string) (l : list A) (values : list (option A)) :
  outcome (list A) :=
  match values with
  | [] => Ok l
  | None :: _ => Panic msg
  | Some v :: values => appendDerefs msg (l ++ [v]) values
  end.

(** What the two loops compute. *)
Definition merged {V : Type} (m : option (gmap string V)) (entries : gmap string V) :
  option (gmap string V) :=
  if decide (entries = ∅) then m else Some (entries ∪ default ∅ m).

Lemma storeEntries_Some {V} (m : gmap string V) l :
  NoDup l.*1 -> storeEntries (Some m) l = Ok (Some (list_to_map l ∪ m)).
Proof.
  intros Hnd. rewrite <- fold_insert_union by done. clear Hnd. revert m.
  induction l as [|kv l IH]; intros m; simpl; [done|]. by rewrite IH.
Qed.

Lemma mergeEntries_merged `{GoRuntime} {V} site (m : option (gmap string V)) entries :
  mergeEntries site m entries = Ok (merged m entries).
Proof.
  unfold mergeEntries, merged. case_decide as He.
  - subst. rewrite map_size_empty, andb_false_r, range_empty. done.
  - assert (Hs : (0 <? size entries)%nat = true).
    { apply Nat.ltb_lt. destruct (size entries) eqn:E; [|lia].
      by apply map_size_empty_inv in E. }
    rewrite Hs, andb_true_r.
    destruct m as [m|]; simpl; rewrite storeEntries_Some, range_list_to_map;
      auto using range_NoDup_keys.
Qed.

Lemma merged_lookup {V} (m : option (gmap string V)) entries k :
  (merged m entries ≫= lookup k) = from_option Some (m ≫= lookup k) (entries !! k).
Proof.
  unfold merged. case_decide as He; [by subst; rewrite lookup_empty|].
  simpl. rewrite lookup_union. destruct m as [m|]; simpl;
    rewrite ?lookup_empty; by destruct (entries !! k), (m !! k) || destruct (entries !! k).
Qed.

Lemma appendDerefs_values {A} msg (l : list A) values :
  appendDerefs msg l values
  = match mapM id values with Some vs => Ok (l ++ vs) | None => Panic msg end.
Proof.
  revert l. induction values as [|[v|] values IH]; intros l; simpl.
  - by rewrite app_nil_r.
  - rewrite IH. destruct (mapM id values); simpl; [|done]. by rewrite <- app_assoc.
  - done.
Qed.

(** ** Calls and their effect *)

Inductive call :=
| CallWithKind (value : string)
| CallWithAPIVersion (value : string)
| CallWithName (value : string)
| CallWithGenerateName (value : string)
| CallWithNamespace (value : string)
| CallWithUID (value : string)
| CallWithResourceVersion (value : string)
| CallWithGeneration (value : Z)
| CallWithCreationTimestamp (value : Time)
| CallWithDeletionTimestamp (value : Time)
| CallWithDeletionGracePeriodSeconds (value : Z)
| CallWithLabels (entries : gmap string string)
| CallWithAnnotations (entries : gmap string string)
| CallWithOwnerReferences (values : list (option OwnerReferenceApplyConfiguration))
| CallWithFinalizers (values : list string).

(** The metadata a builder describes; a builder without object metadata describes
    the empty one. *)
Record config := mkConfig {
  config_type : TypeMetaApplyConfiguration;
  config_meta : ObjectMetaApplyConfiguration;
}.

Definition view_meta (m : option ObjectMetaApplyConfiguration) : ObjectMetaApplyConfiguration :=
  default emptyObjectMetaAC m.

Definition call_effect (c : call) (g : config) : outcome config :=
  let 'mkConfig ty m := g in
  match c with
  | CallWithKind v =>
      Ok (mkConfig (mkTypeMetaApplyConfiguration (Some v) (TypeMetaAC_APIVersion ty)) m)
  | CallWithAPIVersion v =>
      Ok (mkConfig (mkTypeMetaApplyConfiguration (TypeMetaAC_Kind ty) (Some v)) m)
  | CallWithName v => Ok (mkConfig ty (set_MetaAC_Name m (Some v)))
  | CallWithGenerateName v => Ok (mkConfig ty (set_MetaAC_GenerateName m (Some v)))
  | CallWithNamespace v => Ok (mkConfig ty (set_MetaAC_Namespace m (Some v)))
  | CallWithUID v => Ok (mkConfig ty (set_MetaAC_UID m (Some v)))
  | CallWithResourceVersion v => Ok (mkConfig ty (set_MetaAC_ResourceVersion m (Some v)))
  | CallWithGeneration v => Ok (mkConfig ty (set_MetaAC_Generation m (Some v)))
  | CallWithCreationTimestamp v => Ok (mkConfig ty (set_MetaAC_CreationTimestamp m (Some v)))
  | CallWithDeletionTimestamp v => Ok (mkConfig ty (set_MetaAC_DeletionTimestamp m (Some v)))
  | CallWithDeletionGracePeriodSeconds v => Ok (mkConfig ty (set_MetaAC_DeletionGracePeriodSeconds m (Some v)))
  | CallWithLabels e => Ok (mkConfig ty (set_MetaAC_Labels m (merged (MetaAC_Labels m) e)))
  | CallWithAnnotations e => Ok (mkConfig ty (set_MetaAC_Annotations m (merged (MetaAC_Annotations m) e)))
  | CallWithOwnerReferences vs =>
      match mapM id vs with
      | Some vs => Ok (mkConfig ty (set_MetaAC_OwnerReferences m (MetaAC_OwnerReferences m ++ vs)))
      | None => Panic "nil value passed to WithOwnerReferences"
      end
  | CallWithFinalizers vs =>
      Ok (mkConfig ty (set_MetaAC_Finalizers m (MetaAC_Finalizers m ++ vs)))
  end.

Definition omap_ok {A B : Type} (f : A -> B) (o : outcome A) : outcome B :=
  let? a := o in Ok (f a).

(** A builder type: its calls have the effect above on the metadata, and leave
    [rest], its other fields, alone. *)
Class ApplyObject (B : Type) := {
  do_call : call -> B -> outcome B;
  view : B -> config;
  Rest : Type;
  rest : B -> Rest;
  do_call_view : forall c b, omap_ok view (do_call c b) = call_effect c (view b);
  do_call_rest : forall c b b', do_call c b = Ok b' -> rest b' = rest b;
}.

(** How an instance proves the two laws, once builder and call are destructed. *)
Ltac solve_perform :=
  simpl; repeat (unfold omap_ok, obind; simpl);
  rewrite ?mergeEntries_merged, ?appendDerefs_values; simpl;
  repeat case_goal; simplify_eq/=; done.

Ltac solve_rest :=
  cbv beta iota zeta; let E := fresh in intros E; revert E;
  simpl; rewrite ?mergeEntries_merged, ?appendDerefs_values; simpl;
  repeat case_goal; simpl; intros; simplify_eq/=; done.

(** ** Fields *)

(** The fields a call assigns. *)
Inductive scalar : Type -> Type :=
| FKind : scalar string
| FAPIVersion : scalar string
| FName : scalar string
| FGenerateName : scalar string
| FNamespace : scalar string
| FUID : scalar string
| FResourceVersion : scalar string
| FGeneration : scalar Z
| FCreationTimestamp : scalar Time
| FDeletionTimestamp : scalar Time
| FDeletionGracePeriodSeconds : scalar Z.

Definition scalar_of {T : Type} (f : scalar T) (g : config) : option T :=
  match f in scalar T return option T with
  | FKind => TypeMetaAC_Kind (config_type g)
  | FAPIVersion => TypeMetaAC_APIVersion (config_type g)
  | FName => MetaAC_Name (config_meta g)
  | FGenerateName => MetaAC_GenerateName (config_meta g)
  | FNamespace => MetaAC_Namespace (config_meta g)
  | FUID => MetaAC_UID (config_meta g)
  | FResourceVersion => MetaAC_ResourceVersion (config_meta g)
  | FGeneration => MetaAC_Generation (config_meta g)
  | FCreationTimestamp => MetaAC_CreationTimestamp (config_meta g)
  | FDeletionTimestamp => MetaAC_DeletionTimestamp (config_meta g)
  | FDeletionGracePeriodSeconds => MetaAC_DeletionGracePeriodSeconds (config_meta g)
  end.

(** The value a call gives to a field. *)
Definition scalar_given {T : Type} (f : scalar T) (c : call) : option T :=
  match f in scalar T return option T with
  | FKind => match c with CallWithKind v => Some v | _ => None end
  | FAPIVersion => match c with CallWithAPIVersion v => Some v | _ => None end
  | FName => match c with CallWithName v => Some v | _ => None end
  | FGenerateName => match c with CallWithGenerateName v => Some v | _ => None end
  | FNamespace => match c with CallWithNamespace v => Some v | _ => None end
  | FUID => match c with CallWithUID v => Some v | _ => None end
  | FResourceVersion => match c with CallWithResourceVersion v => Some v | _ => None end
  | FGeneration => match c with CallWithGeneration v => Some v | _ => None end
  | FCreationTimestamp => match c with CallWithCreationTimestamp v => Some v | _ => None end
  | FDeletionTimestamp => match c with CallWithDeletionTimestamp v => Some v | _ => None end
  | FDeletionGracePeriodSeconds => match c with CallWithDeletionGracePeriodSeconds v => Some v | _ => None end
  end.

(** The fields a call merges entries into. *)
Inductive map_field := FLabels | FAnnotations.

Definition map_entry (f : map_field) (k : string) (g : config) : option string :=
  match f with
  | FLabels => MetaAC_Labels (config_meta g) ≫= lookup k
  | FAnnotations => MetaAC_Annotations (config_meta g) ≫= lookup k
  end.

Definition map_given (f : map_field) (k : string) (c : call) : option string :=
  match f, c with
  | FLabels, CallWithLabels e | FAnnotations, CallWithAnnotations e => e !! k
  | _, _ => None
  end.

Definition refs_given (c : call) : list (option OwnerReferenceApplyConfiguration) :=
  match c with CallWithOwnerReferences vs => vs | _ => [] end.

Definition finalizers_given (c : call) : list string :=
  match c with CallWithFinalizers vs => vs | _ => [] end.

(** The last value a chain of calls gives, or the one from before. *)
Fixpoint last_given {V : Type} (given : call -> option V) (calls : list call)
  (before : option V) : option V :=
  match calls with
  | [] => before
  | c :: calls => last_given given calls (from_option Some before (given c))
  end.

(** ** Chains of calls *)

Section chains.
Context `{ApplyObject B}.

Fixpoint chain (calls : list call) (b : B) : outcome B :=
  match calls with
  | [] => Ok b
  | c :: calls => let? b := do_call c b in chain calls b
  end.

(** What a chain of calls builds from [b]. *)
Record chain_result (calls : list call) (b b' : B) : Prop := mkChainResult {
  chain_scalar : forall T (f : scalar T),
    scalar_of f (view b') = last_given (scalar_given f) calls (scalar_of f (view b));
  chain_map : forall f k,
    map_entry f k (view b') = last_given (map_given f k) calls (map_entry f k (view b));
  chain_refs :
    Some <$> MetaAC_OwnerReferences (config_meta (view b'))
    = (Some <$> MetaAC_OwnerReferences (config_meta (view b))) ++ (calls ≫= refs_given);
  chain_finalizers :
    MetaAC_Finalizers (config_meta (view b'))
    = MetaAC_Finalizers (config_meta (view b)) ++ (calls ≫= finalizers_given);
  chain_rest : rest b' = rest b;
}.

Lemma do_call_effect c b b' :
  do_call c b = Ok b' -> call_effect c (view b) = Ok (view b').
Proof. intros E. by rewrite <- do_call_view, E. Qed.

Lemma mapM_id_Some {A} (l : list (option A)) vs : mapM id l = Some vs -> l = Some <$> vs.
Proof.
  intros E. apply mapM_Some in E. induction E; simpl; [done|].
  by f_equal.
Qed.

(** One call that succeeds. *)
Lemma call_effect_result c g g' :
  call_effect c g = Ok g' ->
  (forall T (f : scalar T),
     scalar_of f g' = from_option Some (scalar_of f g) (scalar_given f c)) /\
  (forall f k, map_entry f k g' = from_option Some (map_entry f k g) (map_given f k c)) /\
  Some <$> MetaAC_OwnerReferences (config_meta g')
    = (Some <$> MetaAC_OwnerReferences (config_meta g)) ++ refs_given c /\
  MetaAC_Finalizers (config_meta g')
    = MetaAC_Finalizers (config_meta g) ++ finalizers_given c.
Proof.
  destruct g as [ty m], c; simpl; intros E;
    try (case_hyp E; [apply mapM_id_Some in Heqo; subst|done]);
    simplify_eq/=; split_and!; rewrite ?app_nil_r, ?fmap_app; try done;
    try (intros T []; done); intros [] k; simpl; rewrite ?merged_lookup; done.
Qed.

(** A call fails only on a nil owner reference. *)
Lemma call_effect_total c g :
  if bool_decide (None ∈ refs_given c)
  then call_effect c g = Panic "nil value passed to WithOwnerReferences"
  else exists g', call_effect c g = Ok g'.
Proof.
  destruct g as [ty m], c; simpl; try (by eauto).
  case_bool_decide as Hn; destruct (mapM id values) as [vs|] eqn:E; eauto.
  - apply mapM_id_Some in E. subst. apply list_elem_of_fmap in Hn. by destruct Hn as (? & ? & ?).
  - exfalso. apply Hn. apply mapM_None in E. apply Exists_exists in E as (x & Hx & Ex).
    unfold id in Ex. by subst.
Qed.

(** The two laws on chains. *)
Lemma chain_builds calls b :
  None ∉ (calls ≫= refs_given) ->
  exists b', chain calls b = Ok b' /\ chain_result calls b b'.
Proof.
  revert b. induction calls as [|c calls IH]; intros b Hn; simpl.
  - exists b. split; [done|]. split; rewrite ?app_nil_r; done.
  - simpl in Hn. rewrite elem_of_app in Hn.
    pose proof (call_effect_total c (view b)) as Ht.
    rewrite bool_decide_false in Ht by tauto. destruct Ht as [g Hg].
    pose proof (do_call_view c b) as Hv. rewrite Hg in Hv.
    destruct (do_call c b) as [b1| |] eqn:Hb; simpl in Hv |- *; try done.
    injection Hv as <-. apply call_effect_result in Hg as (Hs & Hm & Hr & Hf).
    destruct (IH b1) as (b' & -> & [IHs IHm IHr IHf IHrest]); [tauto|].
    exists b'. split; [done|]. split; simpl; intros.
    + by rewrite IHs, Hs.
    + by rewrite IHm, Hm.
    + by rewrite IHr, Hr, app_assoc.
    + by rewrite IHf, Hf, app_assoc.
    + rewrite IHrest. by eapply do_call_rest.
Qed.

Lemma chain_panics calls b :
  None ∈ (calls ≫= refs_given) ->
  chain calls b = Panic "nil value passed to WithOwnerReferences".
Proof.
  revert b. induction calls as [|c calls IH]; intros b Hn; simpl in *; [set_solver|].
  pose proof (call_effect_total c (view b)) as Ht. pose proof (do_call_view c b) as Hv.
  case_bool_decide as Hc.
  - rewrite Ht in Hv. by destruct (do_call c b); simplify_eq/=.
  - destruct Ht as [g Hg]. rewrite Hg in Hv.
    destruct (do_call c b) as [b1| |]; simplify_eq/=.
    apply IH. apply elem_of_app in Hn. tauto.
Qed.

End chains.

(** The law of a builder type: every chain of calls panics when a nil owner
    reference is passed and otherwise builds what its calls say. *)
Definition builds (B : Type) `{ApplyObject B} : Prop :=
  forall calls (b : B),
    if decide (None ∈ (calls ≫= refs_given))
    then chain calls b = Panic "nil value passed to WithOwnerReferences"
    else exists b', chain calls b = Ok b' /\ chain_result calls b b'.

Lemma builds_all (B : Type) `{ApplyObject B} : builds B.
Proof.
  intros calls b. case_decide; [by apply chain_panics|by apply chain_builds].
Qed.
