(* ===== verification/ApplyParts.v ===== *)
(** * The apply configurations of the parts of the API objects
    (client-go/applyconfigurations/arc/v1alpha1, the files of the spec, status and
    element types)

    One record per struct and one definition per method, named after the receiver. *)

From stdpp Require Import base gmap list strings.
From Stdlib Require Import ZArith.
From S2P Require Import Prelude GoStd KubeTypes V1alpha1Types ApplyMeta ApplyObject.

Local Open Scope string_scope.
Local Open Scope list_scope.

(** ** orderdefaults.go *)

Record OrderDefaultsApplyConfiguration := mkOrderDefaultsApplyConfiguration {
  OrderDefaultsAC_SrcRef : option LocalObjectReference;
  OrderDefaultsAC_DstRef : option LocalObjectReference;
}.

Definition newOrderDefaults : OrderDefaultsApplyConfiguration :=
  mkOrderDefaultsApplyConfiguration None None.

Definition OrderDefaults_WithSrcRef (value : LocalObjectReference) (b : OrderDefaultsApplyConfiguration) :
  OrderDefaultsApplyConfiguration :=
  mkOrderDefaultsApplyConfiguration (Some value) (OrderDefaultsAC_DstRef b).

Definition OrderDefaults_WithDstRef (value : LocalObjectReference) (b : OrderDefaultsApplyConfiguration) :
  OrderDefaultsApplyConfiguration :=
  mkOrderDefaultsApplyConfiguration (OrderDefaultsAC_SrcRef b) (Some value).

(** ** orderartifact.go *)

Record OrderArtifactApplyConfiguration := mkOrderArtifactApplyConfiguration {
  OrderArtifactAC_Type : option string;
  OrderArtifactAC_SrcRef : option LocalObjectReference;
  OrderArtifactAC_DstRef : option LocalObjectReference;
  OrderArtifactAC_Spec : option RawExtension;
}.

Definition newOrderArtifact : OrderArtifactApplyConfiguration :=
  mkOrderArtifactApplyConfiguration None None None None.

Definition OrderArtifact_WithType (value : string) (b : OrderArtifactApplyConfiguration) :
  OrderArtifactApplyConfiguration :=
  mkOrderArtifactApplyConfiguration (Some value) (OrderArtifactAC_SrcRef b)
    (OrderArtifactAC_DstRef b) (OrderArtifactAC_Spec b).

Definition OrderArtifact_WithSrcRef (value : LocalObjectReference) (b : OrderArtifactApplyConfiguration) :
  OrderArtifactApplyConfiguration :=
  mkOrderArtifactApplyConfiguration (OrderArtifactAC_Type b) (Some value)
    (OrderArtifactAC_DstRef b) (OrderArtifactAC_Spec b).

Definition OrderArtifact_WithDstRef (value : LocalObjectReference) (b : OrderArtifactApplyConfiguration) :
  OrderArtifactApplyConfiguration :=
  mkOrderArtifactApplyConfiguration (OrderArtifactAC_Type b) (OrderArtifactAC_SrcRef b)
    (Some value) (OrderArtifactAC_Spec b).

Definition OrderArtifact_WithSpec (value : RawExtension) (b : OrderArtifactApplyConfiguration) :
  OrderArtifactApplyConfiguration :=
  mkOrderArtifactApplyConfiguration (OrderArtifactAC_Type b) (OrderArtifactAC_SrcRef b)
    (OrderArtifactAC_DstRef b) (Some value).

(** ** orderspec.go *)

Record OrderSpecApplyConfiguration := mkOrderSpecApplyConfiguration {
  OrderSpecAC_Defaults : option ref;
  OrderSpecAC_Artifacts : list OrderArtifactApplyConfiguration;
}.

Definition newOrderSpec : OrderSpecApplyConfiguration :=
  mkOrderSpecApplyConfiguration None [].

Definition OrderSpec_WithDefaults (value : option ref) (b : OrderSpecApplyConfiguration) :
  OrderSpecApplyConfiguration :=
  mkOrderSpecApplyConfiguration value (OrderSpecAC_Artifacts b).

Definition OrderSpec_WithArtifacts (values : list (option OrderArtifactApplyConfiguration))
  (b : OrderSpecApplyConfiguration) : outcome OrderSpecApplyConfiguration :=
  let? l := appendDerefs "nil value passed to WithArtifacts" (OrderSpecAC_Artifacts b) values in
  Ok (mkOrderSpecApplyConfiguration (OrderSpecAC_Defaults b) l).

(** ** orderartifactworkflowstatus.go *)

Record OrderArtifactWorkflowStatusApplyConfiguration := mkOrderArtifactWorkflowStatusApplyConfiguration {
  OrderArtifactWorkflowStatusAC_ArtifactIndex : option Z;
  OrderArtifactWorkflowStatusAC_Phase : option WorkflowPhase;
  OrderArtifactWorkflowStatusAC_Message : option string;
}.

Definition newOrderArtifactWorkflowStatus : OrderArtifactWorkflowStatusApplyConfiguration :=
  mkOrderArtifactWorkflowStatusApplyConfiguration None None None.

Definition OrderArtifactWorkflowStatus_WithArtifactIndex (value : Z) (b : OrderArtifactWorkflowStatusApplyConfiguration) :
  OrderArtifactWorkflowStatusApplyConfiguration :=
  mkOrderArtifactWorkflowStatusApplyConfiguration (Some value)
    (OrderArtifactWorkflowStatusAC_Phase b) (OrderArtifactWorkflowStatusAC_Message b).

Definition OrderArtifactWorkflowStatus_WithPhase (value : WorkflowPhase) (b : OrderArtifactWorkflowStatusApplyConfiguration) :
  OrderArtifactWorkflowStatusApplyConfiguration :=
  mkOrderArtifactWorkflowStatusApplyConfiguration
    (OrderArtifactWorkflowStatusAC_ArtifactIndex b) (Some value)
    (OrderArtifactWorkflowStatusAC_Message b).

Definition OrderArtifactWorkflowStatus_WithMessage (value : string) (b : OrderArtifactWorkflowStatusApplyConfiguration) :
  OrderArtifactWorkflowStatusApplyConfiguration :=
  mkOrderArtifactWorkflowStatusApplyConfiguration
    (OrderArtifactWorkflowStatusAC_ArtifactIndex b)
    (OrderArtifactWorkflowStatusAC_Phase b) (Some value).

(** ** orderstatus.go *)

Record OrderStatusApplyConfiguration := mkOrderStatusApplyConfiguration {
  OrderStatusAC_ArtifactWorkflows : option (gmap string OrderArtifactWorkflowStatusApplyConfiguration);
}.

Definition newOrderStatus : OrderStatusApplyConfiguration :=
  mkOrderStatusApplyConfiguration None.

Definition OrderStatus_WithArtifactWorkflows `{GoRuntime}
  (entries : gmap string OrderArtifactWorkflowStatusApplyConfiguration)
  (b : OrderStatusApplyConfiguration) : outcome OrderStatusApplyConfiguration :=
  let? m := mergeEntries "OrderStatus.WithArtifactWorkflows" (OrderStatusAC_ArtifactWorkflows b) entries in
  Ok (mkOrderStatusApplyConfiguration m).

(** ** artifactworkflowparameter.go *)

Record ArtifactWorkflowParameterApplyConfiguration := mkArtifactWorkflowParameterApplyConfiguration {
  ArtifactWorkflowParameterAC_Name : option string;
  ArtifactWorkflowParameterAC_Value : option string;
}.

Definition newArtifactWorkflowParameter : ArtifactWorkflowParameterApplyConfiguration :=
  mkArtifactWorkflowParameterApplyConfiguration None None.

Definition ArtifactWorkflowParameter_WithName (value : string) (b : ArtifactWorkflowParameterApplyConfiguration) :
  ArtifactWorkflowParameterApplyConfiguration :=
  mkArtifactWorkflowParameterApplyConfiguration (Some value)
    (ArtifactWorkflowParameterAC_Value b).

Definition ArtifactWorkflowParameter_WithValue (value : string) (b : ArtifactWorkflowParameterApplyConfiguration) :
  ArtifactWorkflowParameterApplyConfiguration :=
  mkArtifactWorkflowParameterApplyConfiguration (ArtifactWorkflowParameterAC_Name b)
    (Some value).

(** ** artifactworkflowspec.go *)

Record ArtifactWorkflowSpecApplyConfiguration := mkArtifactWorkflowSpecApplyConfiguration {
  ArtifactWorkflowSpecAC_Type : option string;
  ArtifactWorkflowSpecAC_Parameters : list ArtifactWorkflowParameterApplyConfiguration;
  ArtifactWorkflowSpecAC_SrcSecretRef : option LocalObjectReference;
  ArtifactWorkflowSpecAC_DstSecretRef : option LocalObjectReference;
}.

Definition newArtifactWorkflowSpec : ArtifactWorkflowSpecApplyConfiguration :=
  mkArtifactWorkflowSpecApplyConfiguration None [] None None.

Definition ArtifactWorkflowSpec_WithType (value : string) (b : ArtifactWorkflowSpecApplyConfiguration) :
  ArtifactWorkflowSpecApplyConfiguration :=
  mkArtifactWorkflowSpecApplyConfiguration (Some value)
    (ArtifactWorkflowSpecAC_Parameters b) (ArtifactWorkflowSpecAC_SrcSecretRef b)
    (ArtifactWorkflowSpecAC_DstSecretRef b).

Definition ArtifactWorkflowSpec_WithParameters (values : list (option ArtifactWorkflowParameterApplyConfiguration))
  (b : ArtifactWorkflowSpecApplyConfiguration) : outcome ArtifactWorkflowSpecApplyConfiguration :=
  let? l := appendDerefs "nil value passed to WithParameters" (ArtifactWorkflowSpecAC_Parameters b) values in
  Ok (mkArtifactWorkflowSpecApplyConfiguration (ArtifactWorkflowSpecAC_Type b) l
    (ArtifactWorkflowSpecAC_SrcSecretRef b) (ArtifactWorkflowSpecAC_DstSecretRef b)).

Definition ArtifactWorkflowSpec_WithSrcSecretRef (value : LocalObjectReference) (b : ArtifactWorkflowSpecApplyConfiguration) :
  ArtifactWorkflowSpecApplyConfiguration :=
  mkArtifactWorkflowSpecApplyConfiguration (ArtifactWorkflowSpecAC_Type b)
    (ArtifactWorkflowSpecAC_Parameters b) (Some value)
    (ArtifactWorkflowSpecAC_DstSecretRef b).

Definition ArtifactWorkflowSpec_WithDstSecretRef (value : LocalObjectReference) (b : ArtifactWorkflowSpecApplyConfiguration) :
  ArtifactWorkflowSpecApplyConfiguration :=
  mkArtifactWorkflowSpecApplyConfiguration (ArtifactWorkflowSpecAC_Type b)
    (ArtifactWorkflowSpecAC_Parameters b) (ArtifactWorkflowSpecAC_SrcSecretRef b)
    (Some value).

(** ** artifactworkflowstatus.go *)

Record ArtifactWorkflowStatusApplyConfiguration := mkArtifactWorkflowStatusApplyConfiguration {
  ArtifactWorkflowStatusAC_Phase : option WorkflowPhase;
  ArtifactWorkflowStatusAC_Message : option string;
}.

Definition newArtifactWorkflowStatus : ArtifactWorkflowStatusApplyConfiguration :=
  mkArtifactWorkflowStatusApplyConfiguration None None.

Definition ArtifactWorkflowStatus_WithPhase (value : WorkflowPhase) (b : ArtifactWorkflowStatusApplyConfiguration) :
  ArtifactWorkflowStatusApplyConfiguration :=
  mkArtifactWorkflowStatusApplyConfiguration (Some value)
    (ArtifactWorkflowStatusAC_Message b).

Definition ArtifactWorkflowStatus_WithMessage (value : string) (b : ArtifactWorkflowStatusApplyConfiguration) :
  ArtifactWorkflowStatusApplyConfiguration :=
  mkArtifactWorkflowStatusApplyConfiguration (ArtifactWorkflowStatusAC_Phase b)
    (Some value).

(** ** artifacttyperules.go *)

Record ArtifactTypeRulesApplyConfiguration := mkArtifactTypeRulesApplyConfiguration {
  ArtifactTypeRulesAC_SrcTypes : list string;
  ArtifactTypeRulesAC_DstTypes : list string;
}.

Definition newArtifactTypeRules : ArtifactTypeRulesApplyConfiguration :=
  mkArtifactTypeRulesApplyConfiguration [] [].

Definition ArtifactTypeRules_WithSrcTypes (values : list string) (b : ArtifactTypeRulesApplyConfiguration) :
  ArtifactTypeRulesApplyConfiguration :=
  mkArtifactTypeRulesApplyConfiguration (ArtifactTypeRulesAC_SrcTypes b ++ values)
    (ArtifactTypeRulesAC_DstTypes b).

Definition ArtifactTypeRules_WithDstTypes (values : list string) (b : ArtifactTypeRulesApplyConfiguration) :
  ArtifactTypeRulesApplyConfiguration :=
  mkArtifactTypeRulesApplyConfiguration (ArtifactTypeRulesAC_SrcTypes b)
    (ArtifactTypeRulesAC_DstTypes b ++ values).

(** ** artifacttypespec.go *)

Record ArtifactTypeSpecApplyConfiguration := mkArtifactTypeSpecApplyConfiguration {
  ArtifactTypeSpecAC_Rules : option ref;
  ArtifactTypeSpecAC_Parameters : list ArtifactWorkflowParameterApplyConfiguration;
  ArtifactTypeSpecAC_WorkflowTemplateRef : option LocalObjectReference;
}.

Definition newArtifactTypeSpec : ArtifactTypeSpecApplyConfiguration :=
  mkArtifactTypeSpecApplyConfiguration None [] None.

Definition ArtifactTypeSpec_WithRules (value : option ref) (b : ArtifactTypeSpecApplyConfiguration) :
  ArtifactTypeSpecApplyConfiguration :=
  mkArtifactTypeSpecApplyConfiguration value (ArtifactTypeSpecAC_Parameters b)
    (ArtifactTypeSpecAC_WorkflowTemplateRef b).

Definition ArtifactTypeSpec_WithParameters (values : list (option ArtifactWorkflowParameterApplyConfiguration))
  (b : ArtifactTypeSpecApplyConfiguration) : outcome ArtifactTypeSpecApplyConfiguration :=
  let? l := appendDerefs "nil value passed to WithParameters" (ArtifactTypeSpecAC_Parameters b) values in
  Ok (mkArtifactTypeSpecApplyConfiguration (ArtifactTypeSpecAC_Rules b) l
    (ArtifactTypeSpecAC_WorkflowTemplateRef b)).

Definition ArtifactTypeSpec_WithWorkflowTemplateRef (value : LocalObjectReference) (b : ArtifactTypeSpecApplyConfiguration) :
  ArtifactTypeSpecApplyConfiguration :=
  mkArtifactTypeSpecApplyConfiguration (ArtifactTypeSpecAC_Rules b)
    (ArtifactTypeSpecAC_Parameters b) (Some value).

(** ** endpointspec.go *)

Record EndpointSpecApplyConfiguration := mkEndpointSpecApplyConfiguration {
  EndpointSpecAC_Type : option string;
  EndpointSpecAC_RemoteURL : option string;
  EndpointSpecAC_SecretRef : option LocalObjectReference;
  EndpointSpecAC_Usage : option EndpointUsage;
}.

Definition newEndpointSpec : EndpointSpecApplyConfiguration :=
  mkEndpointSpecApplyConfiguration None None None None.

Definition EndpointSpec_WithType (value : string) (b : EndpointSpecApplyConfiguration) :
  EndpointSpecApplyConfiguration :=
  mkEndpointSpecApplyConfiguration (Some value) (EndpointSpecAC_RemoteURL b)
    (EndpointSpecAC_SecretRef b) (EndpointSpecAC_Usage b).

Definition EndpointSpec_WithRemoteURL (value : string) (b : EndpointSpecApplyConfiguration) :
  EndpointSpecApplyConfiguration :=
  mkEndpointSpecApplyConfiguration (EndpointSpecAC_Type b) (Some value)
    (EndpointSpecAC_SecretRef b) (EndpointSpecAC_Usage b).

Definition EndpointSpec_WithSecretRef (value : LocalObjectReference) (b : EndpointSpecApplyConfiguration) :
  EndpointSpecApplyConfiguration :=
  mkEndpointSpecApplyConfiguration (EndpointSpecAC_Type b) (EndpointSpecAC_RemoteURL b)
    (Some value) (EndpointSpecAC_Usage b).

Definition EndpointSpec_WithUsage (value : EndpointUsage) (b : EndpointSpecApplyConfiguration) :
  EndpointSpecApplyConfiguration :=
  mkEndpointSpecApplyConfiguration (EndpointSpecAC_Type b) (EndpointSpecAC_RemoteURL b)
    (EndpointSpecAC_SecretRef b) (Some value).
