(* ===== verification/ApplyOrder.v ===== *)
(** * The apply configuration of Order objects
    (client-go/applyconfigurations/arc/v1alpha1/order.go)

    The builder, one definition per method, and its instance of the interface
    [ApplyObject]. *)

From stdpp Require Import base gmap list strings.
From Stdlib Require Import ZArith.
From S2P Require Import Prelude GoStd KubeTypes ApplyMeta ApplyObject.

Local Open Scope string_scope.
Local Open Scope list_scope.

Record OrderApplyConfiguration := mkOrderApplyConfiguration {
  OrderAC_TypeMeta : TypeMetaApplyConfiguration;
  OrderAC_ObjectMeta : option ObjectMetaApplyConfiguration;
  OrderAC_Spec : option ref;
  OrderAC_Status : option ref;
}.

(** [&OrderApplyConfiguration{}]. *)
Definition emptyOrderApplyConfiguration : OrderApplyConfiguration :=
  mkOrderApplyConfiguration emptyTypeMetaAC None None None.

Section methods.
Context `{GoRuntime}.
Implicit Types b : OrderApplyConfiguration.

Definition ensureObjectMetaApplyConfigurationExists b : OrderApplyConfiguration :=
  match OrderAC_ObjectMeta b with
  | None =>
      mkOrderApplyConfiguration (OrderAC_TypeMeta b) (Some emptyObjectMetaAC)
        (OrderAC_Spec b) (OrderAC_Status b)
  | Some _ => b
  end.

(** Assign through the pointer to the metadata. *)
Definition onMeta (f : ObjectMetaApplyConfiguration -> outcome ObjectMetaApplyConfiguration)
  b : outcome OrderApplyConfiguration :=
  let? m := deref (OrderAC_ObjectMeta b) in
  let? m' := f m in
  Ok (mkOrderApplyConfiguration (OrderAC_TypeMeta b) (Some m')
        (OrderAC_Spec b) (OrderAC_Status b)).

Definition WithKind (value : string) b : outcome OrderApplyConfiguration :=
  Ok (mkOrderApplyConfiguration
        (mkTypeMetaApplyConfiguration (Some value) (TypeMetaAC_APIVersion (OrderAC_TypeMeta b)))
        (OrderAC_ObjectMeta b) (OrderAC_Spec b) (OrderAC_Status b)).

Definition WithAPIVersion (value : string) b : outcome OrderApplyConfiguration :=
  Ok (mkOrderApplyConfiguration
        (mkTypeMetaApplyConfiguration (TypeMetaAC_Kind (OrderAC_TypeMeta b)) (Some value))
        (OrderAC_ObjectMeta b) (OrderAC_Spec b) (OrderAC_Status b)).

Definition WithName (value : string) b : outcome OrderApplyConfiguration :=
  let b := ensureObjectMetaApplyConfigurationExists b in
  onMeta (fun m => Ok (set_MetaAC_Name m (Some value))) b.

Definition WithGenerateName (value : string) b : outcome OrderApplyConfiguration :=
  let b := ensureObjectMetaApplyConfigurationExists b in
  onMeta (fun m => Ok (set_MetaAC_GenerateName m (Some value))) b.

Definition WithNamespace (value : string) b : outcome OrderApplyConfiguration :=
  let b := ensureObjectMetaApplyConfigurationExists b in
  onMeta (fun m => Ok (set_MetaAC_Namespace m (Some value))) b.

Definition WithUID (value : string) b : outcome OrderApplyConfiguration :=
  let b := ensureObjectMetaApplyConfigurationExists b in
  onMeta (fun m => Ok (set_MetaAC_UID m (Some value))) b.

Definition WithResourceVersion (value : string) b : outcome OrderApplyConfiguration :=
  let b := ensureObjectMetaApplyConfigurationExists b in
  onMeta (fun m => Ok (set_MetaAC_ResourceVersion m (Some value))) b.

Definition WithGeneration (value : Z) b : outcome OrderApplyConfiguration :=
  let b := ensureObjectMetaApplyConfigurationExists b in
  onMeta (fun m => Ok (set_MetaAC_Generation m (Some value))) b.

Definition WithCreationTimestamp (value : Time) b : outcome OrderApplyConfiguration :=
  let b := ensureObjectMetaApplyConfigurationExists b in
  onMeta (fun m => Ok (set_MetaAC_CreationTimestamp m (Some value))) b.

Definition WithDeletionTimestamp (value : Time) b : outcome OrderApplyConfiguration :=
  let b := ensureObjectMetaApplyConfigurationExists b in
  onMeta (fun m => Ok (set_MetaAC_DeletionTimestamp m (Some value))) b.

Definition WithDeletionGracePeriodSeconds (value : Z) b : outcome OrderApplyConfiguration :=
  let b := ensureObjectMetaApplyConfigurationExists b in
  onMeta (fun m => Ok (set_MetaAC_DeletionGracePeriodSeconds m (Some value))) b.

Definition WithLabels (entries : gmap string string) b : outcome OrderApplyConfiguration :=
  let b := ensureObjectMetaApplyConfigurationExists b in
  onMeta (fun m =>
    let? l := mergeEntries "Order.WithLabels" (MetaAC_Labels m) entries in
    Ok (set_MetaAC_Labels m l)) b.

Definition WithAnnotations (entries : gmap string string) b : outcome OrderApplyConfiguration :=
  let b := ensureObjectMetaApplyConfigurationExists b in
  onMeta (fun m =>
    let? l := mergeEntries "Order.WithAnnotations" (MetaAC_Annotations m) entries in
    Ok (set_MetaAC_Annotations m l)) b.

Definition WithOwnerReferences (values : list (option OwnerReferenceApplyConfiguration)) b :
  outcome OrderApplyConfiguration :=
  let b := ensureObjectMetaApplyConfigurationExists b in
  onMeta (fun m =>
    let? l := appendDerefs "nil value passed to WithOwnerReferences"
                (MetaAC_OwnerReferences m) values in
    Ok (set_MetaAC_OwnerReferences m l)) b.

Definition WithFinalizers (values : list string) b : outcome OrderApplyConfiguration :=
  let b := ensureObjectMetaApplyConfigurationExists b in
  onMeta (fun m => Ok (set_MetaAC_Finalizers m (MetaAC_Finalizers m ++ values))) b.

Definition WithSpec (value : option ref) b : OrderApplyConfiguration :=
  mkOrderApplyConfiguration (OrderAC_TypeMeta b) (OrderAC_ObjectMeta b)
    value (OrderAC_Status b).

Definition WithStatus (value : option ref) b : OrderApplyConfiguration :=
  mkOrderApplyConfiguration (OrderAC_TypeMeta b) (OrderAC_ObjectMeta b)
    (OrderAC_Spec b) value.

Definition GetKind b : option string := TypeMetaAC_Kind (OrderAC_TypeMeta b).

Definition GetAPIVersion b : option string := TypeMetaAC_APIVersion (OrderAC_TypeMeta b).

(** The getters create the metadata of the receiver when it has none. *)
Definition GetName b : outcome (OrderApplyConfiguration * option string) :=
  let b := ensureObjectMetaApplyConfigurationExists b in
  let? m := deref (OrderAC_ObjectMeta b) in
  Ok (b, MetaAC_Name m).

Definition GetNamespace b : outcome (OrderApplyConfiguration * option string) :=
  let b := ensureObjectMetaApplyConfigurationExists b in
  let? m := deref (OrderAC_ObjectMeta b) in
  Ok (b, MetaAC_Namespace m).

(** The constructor function of the package. *)
Definition Order (name namespace : string) : outcome OrderApplyConfiguration :=
  let b := emptyOrderApplyConfiguration in
  let? b := WithName name b in
  let? b := WithNamespace namespace b in
  let? b := WithKind "Order" b in
  WithAPIVersion "arc.bwi.de/v1alpha1" b.

(** ** The interface *)

Definition perform (c : call) : OrderApplyConfiguration -> outcome OrderApplyConfiguration :=
  match c with
  | CallWithKind value => WithKind value
  | CallWithAPIVersion value => WithAPIVersion value
  | CallWithName value => WithName value
  | CallWithGenerateName value => WithGenerateName value
  | CallWithNamespace value => WithNamespace value
  | CallWithUID value => WithUID value
  | CallWithResourceVersion value => WithResourceVersion value
  | CallWithGeneration value => WithGeneration value
  | CallWithCreationTimestamp value => WithCreationTimestamp value
  | CallWithDeletionTimestamp value => WithDeletionTimestamp value
  | CallWithDeletionGracePeriodSeconds value => WithDeletionGracePeriodSeconds value
  | CallWithLabels entries => WithLabels entries
  | CallWithAnnotations entries => WithAnnotations entries
  | CallWithOwnerReferences values => WithOwnerReferences values
  | CallWithFinalizers values => WithFinalizers values
  end.

(** Unfold the methods. *)
Local Ltac unfold_methods :=
  unfold perform, WithKind, WithAPIVersion, WithName, WithGenerateName, WithNamespace,
    WithUID, WithResourceVersion, WithGeneration, WithCreationTimestamp,
    WithDeletionTimestamp, WithDeletionGracePeriodSeconds, WithLabels, WithAnnotations,
    WithOwnerReferences, WithFinalizers, onMeta, ensureObjectMetaApplyConfigurationExists.

Lemma Order_perform_view c b :
  omap_ok (fun b' => mkConfig (OrderAC_TypeMeta b') (view_meta (OrderAC_ObjectMeta b'))) (perform c b)
  = call_effect c (mkConfig (OrderAC_TypeMeta b) (view_meta (OrderAC_ObjectMeta b))).
Proof. destruct b as [ty [m|] sp st], c; unfold_methods; solve_perform. Qed.

Lemma Order_perform_rest c b b' :
  perform c b = Ok b' -> (OrderAC_Spec b', OrderAC_Status b') = (OrderAC_Spec b, OrderAC_Status b).
Proof. destruct b as [ty [m|] sp st], c; unfold_methods; solve_rest. Qed.

End methods.

#[export] Instance Order_ApplyObject `{GoRuntime} : ApplyObject OrderApplyConfiguration := {|
  do_call := perform;
  view := fun b => mkConfig (OrderAC_TypeMeta b) (view_meta (OrderAC_ObjectMeta b));
  Rest := option ref * option ref;
  rest := fun b => (OrderAC_Spec b, OrderAC_Status b);
  do_call_view := Order_perform_view;
  do_call_rest := Order_perform_rest;
|}.
