(* ===== verification/ApplyEndpoint.v ===== *)
(** * The apply configuration of Endpoint objects
    (client-go/applyconfigurations/arc/v1alpha1/endpoint.go)

    The builder, one definition per method, and its instance of the interface
    [ApplyObject]. *)

From stdpp Require Import base gmap list strings.
From Stdlib Require Import ZArith.
From S2P Require Import Prelude GoStd KubeTypes V1alpha1Types ApplyMeta ApplyObject.

Local Open Scope string_scope.
Local Open Scope list_scope.

Record EndpointApplyConfiguration := mkEndpointApplyConfiguration {
  EndpointAC_TypeMeta : TypeMetaApplyConfiguration;
  EndpointAC_ObjectMeta : option ObjectMetaApplyConfiguration;
  EndpointAC_Spec : option ref;
  EndpointAC_Status : option EndpointStatus;
}.

(** [&EndpointApplyConfiguration{}]. *)
Definition emptyEndpointApplyConfiguration : EndpointApplyConfiguration :=
  mkEndpointApplyConfiguration emptyTypeMetaAC None None None.

Section methods.
Context `{GoRuntime}.
Implicit Types b : EndpointApplyConfiguration.

Definition ensureObjectMetaApplyConfigurationExists b : EndpointApplyConfiguration :=
  match EndpointAC_ObjectMeta b with
  | None =>
      mkEndpointApplyConfiguration (EndpointAC_TypeMeta b) (Some emptyObjectMetaAC)
        (EndpointAC_Spec b) (EndpointAC_Status b)
  | Some _ => b
  end.

(** Assign through the pointer to the metadata. *)
Definition onMeta (f : ObjectMetaApplyConfiguration -> outcome ObjectMetaApplyConfiguration)
  b : outcome EndpointApplyConfiguration :=
  let? m := deref (EndpointAC_ObjectMeta b) in
  let? m' := f m in
  Ok (mkEndpointApplyConfiguration (EndpointAC_TypeMeta b) (Some m')
        (EndpointAC_Spec b) (EndpointAC_Status b)).

Definition WithKind (value : string) b : outcome EndpointApplyConfiguration :=
  Ok (mkEndpointApplyConfiguration
        (mkTypeMetaApplyConfiguration (Some value) (TypeMetaAC_APIVersion (EndpointAC_TypeMeta b)))
        (EndpointAC_ObjectMeta b) (EndpointAC_Spec b) (EndpointAC_Status b)).

Definition WithAPIVersion (value : string) b : outcome EndpointApplyConfiguration :=
  Ok (mkEndpointApplyConfiguration
        (mkTypeMetaApplyConfiguration (TypeMetaAC_Kind (EndpointAC_TypeMeta b)) (Some value))
        (EndpointAC_ObjectMeta b) (EndpointAC_Spec b) (EndpointAC_Status b)).

Definition WithName (value : string) b : outcome EndpointApplyConfiguration :=
  let b := ensureObjectMetaApplyConfigurationExists b in
  onMeta (fun m => Ok (set_MetaAC_Name m (Some value))) b.

Definition WithGenerateName (value : string) b : outcome EndpointApplyConfiguration :=
  let b := ensureObjectMetaApplyConfigurationExists b in
  onMeta (fun m => Ok (set_MetaAC_GenerateName m (Some value))) b.

Definition WithNamespace (value : string) b : outcome EndpointApplyConfiguration :=
  let b := ensureObjectMetaApplyConfigurationExists b in
  onMeta (fun m => Ok (set_MetaAC_Namespace m (Some value))) b.

Definition WithUID (value : string) b : outcome EndpointApplyConfiguration :=
  let b := ensureObjectMetaApplyConfigurationExists b in
  onMeta (fun m => Ok (set_MetaAC_UID m (Some value))) b.

Definition WithResourceVersion (value : string) b : outcome EndpointApplyConfiguration :=
  let b := ensureObjectMetaApplyConfigurationExists b in
  onMeta (fun m => Ok (set_MetaAC_ResourceVersion m (Some value))) b.

Definition WithGeneration (value : Z) b : outcome EndpointApplyConfiguration :=
  let b := ensureObjectMetaApplyConfigurationExists b in
  onMeta (fun m => Ok (set_MetaAC_Generation m (Some value))) b.

Definition WithCreationTimestamp (value : Time) b : outcome EndpointApplyConfiguration :=
  let b := ensureObjectMetaApplyConfigurationExists b in
  onMeta (fun m => Ok (set_MetaAC_CreationTimestamp m (Some value))) b.

Definition WithDeletionTimestamp (value : Time) b : outcome EndpointApplyConfiguration :=
  let b := ensureObjectMetaApplyConfigurationExists b in
  onMeta (fun m => Ok (set_MetaAC_DeletionTimestamp m (Some value))) b.

Definition WithDeletionGracePeriodSeconds (value : Z) b : outcome EndpointApplyConfiguration :=
  let b := ensureObjectMetaApplyConfigurationExists b in
  onMeta (fun m => Ok (set_MetaAC_DeletionGracePeriodSeconds m (Some value))) b.

Definition WithLabels (entries : gmap string string) b : outcome EndpointApplyConfiguration :=
  let b := ensureObjectMetaApplyConfigurationExists b in
  onMeta (fun m =>
    let? l := mergeEntries "Endpoint.WithLabels" (MetaAC_Labels m) entries in
    Ok (set_MetaAC_Labels m l)) b.

Definition WithAnnotations (entries : gmap string string) b : outcome EndpointApplyConfiguration :=
  let b := ensureObjectMetaApplyConfigurationExists b in
  onMeta (fun m =>
    let? l := mergeEntries "Endpoint.WithAnnotations" (MetaAC_Annotations m) entries in
    Ok (set_MetaAC_Annotations m l)) b.

Definition WithOwnerReferences (values : list (option OwnerReferenceApplyConfiguration)) b :
  outcome EndpointApplyConfiguration :=
  let b := ensureObjectMetaApplyConfigurationExists b in
  onMeta (fun m =>
    let? l := appendDerefs "nil value passed to WithOwnerReferences"
                (MetaAC_OwnerReferences m) values in
    Ok (set_MetaAC_OwnerReferences m l)) b.

Definition WithFinalizers (values : list string) b : outcome EndpointApplyConfiguration :=
  let b := ensureObjectMetaApplyConfigurationExists b in
  onMeta (fun m => Ok (set_MetaAC_Finalizers m (MetaAC_Finalizers m ++ values))) b.

Definition WithSpec (value : option ref) b : EndpointApplyConfiguration :=
  mkEndpointApplyConfiguration (EndpointAC_TypeMeta b) (EndpointAC_ObjectMeta b)
    value (EndpointAC_Status b).

Definition WithStatus (value : EndpointStatus) b : EndpointApplyConfiguration :=
  mkEndpointApplyConfiguration (EndpointAC_TypeMeta b) (EndpointAC_ObjectMeta b)
    (EndpointAC_Spec b) (Some value).

Definition GetKind b : option string := TypeMetaAC_Kind (EndpointAC_TypeMeta b).

Definition GetAPIVersion b : option string := TypeMetaAC_APIVersion (EndpointAC_TypeMeta b).

(** The getters create the metadata of the receiver when it has none. *)
Definition GetName b : outcome (EndpointApplyConfiguration * option string) :=
  let b := ensureObjectMetaApplyConfigurationExists b in
  let? m := deref (EndpointAC_ObjectMeta b) in
  Ok (b, MetaAC_Name m).

Definition GetNamespace b : outcome (EndpointApplyConfiguration * option string) :=
  let b := ensureObjectMetaApplyConfigurationExists b in
  let? m := deref (EndpointAC_ObjectMeta b) in
  Ok (b, MetaAC_Namespace m).

(** The constructor function of the package. *)
Definition Endpoint (name namespace : string) : outcome EndpointApplyConfiguration :=
  let b := emptyEndpointApplyConfiguration in
  let? b := WithName name b in
  let? b := WithNamespace namespace b in
  let? b := WithKind "Endpoint" b in
  WithAPIVersion "arc.bwi.de/v1alpha1" b.

(** ** The interface *)

Definition perform (c : call) : EndpointApplyConfiguration -> outcome EndpointApplyConfiguration :=
  match c with
  | CallWithKind value => WithKind value
  | CallWithAPIVersion value => WithAPIVersion value
  | CallWithName value => WithName value
  | CallWithGenerateName value => WithGenerateName value
  | CallWithNamespace value => WithNamespace value
  | CallWithUID value => WithUID value
  | CallWithResourceVersion value => WithResourceVersion value
  | CallWithGeneration value => WithGeneration value
  | CallWithCreationTimestamp value => WithCreationTimestamp value
  | CallWithDeletionTimestamp value => WithDeletionTimestamp value
  | CallWithDeletionGracePeriodSeconds value => WithDeletionGracePeriodSeconds value
  | CallWithLabels entries => WithLabels entries
  | CallWithAnnotations entries => WithAnnotations entries
  | CallWithOwnerReferences values => WithOwnerReferences values
  | CallWithFinalizers values => WithFinalizers values
  end.

(** Unfold the methods. *)
Local Ltac unfold_methods :=
  unfold perform, WithKind, WithAPIVersion, WithName, WithGenerateName, WithNamespace,
    WithUID, WithResourceVersion, WithGeneration, WithCreationTimestamp,
    WithDeletionTimestamp, WithDeletionGracePeriodSeconds, WithLabels, WithAnnotations,
    WithOwnerReferences, WithFinalizers, onMeta, ensureObjectMetaApplyConfigurationExists.

Lemma Endpoint_perform_view c b :
  omap_ok (fun b' => mkConfig (EndpointAC_TypeMeta b') (view_meta (EndpointAC_ObjectMeta b'))) (perform c b)
  = call_effect c (mkConfig (EndpointAC_TypeMeta b) (view_meta (EndpointAC_ObjectMeta b))).
Proof. destruct b as [ty [m|] sp st], c; unfold_methods; solve_perform. Qed.

Lemma Endpoint_perform_rest c b b' :
  perform c b = Ok b' -> (EndpointAC_Spec b', EndpointAC_Status b') = (EndpointAC_Spec b, EndpointAC_Status b).
Proof. destruct b as [ty [m|] sp st], c; unfold_methods; solve_rest. Qed.

End methods.

#[export] Instance Endpoint_ApplyObject `{GoRuntime} : ApplyObject EndpointApplyConfiguration := {|
  do_call := perform;
  view := fun b => mkConfig (EndpointAC_TypeMeta b) (view_meta (EndpointAC_ObjectMeta b));
  Rest := option ref * option EndpointStatus;
  rest := fun b => (EndpointAC_Spec b, EndpointAC_Status b);
  do_call_view := Endpoint_perform_view;
  do_call_rest := Endpoint_perform_rest;
|}.
