(* ===== verification/ApplyArtifactType.v ===== *)
(** * The apply configuration of ArtifactType objects
    (client-go/applyconfigurations/arc/v1alpha1/artifacttype.go)

    The builder, one definition per method, and its instance of the interface
    [ApplyObject]. *)

From stdpp Require Import base gmap list strings.
From Stdlib Require Import ZArith.
From S2P Require Import Prelude GoStd KubeTypes V1alpha1Types ApplyMeta ApplyObject.

Local Open Scope string_scope.
Local Open Scope list_scope.

Record ArtifactTypeApplyConfiguration := mkArtifactTypeApplyConfiguration {
  ArtifactTypeAC_TypeMeta : TypeMetaApplyConfiguration;
  ArtifactTypeAC_ObjectMeta : option ObjectMetaApplyConfiguration;
  ArtifactTypeAC_Spec : option ref;
  ArtifactTypeAC_Status : option ArtifactTypeStatus;
}.

(** [&ArtifactTypeApplyConfiguration{}]. *)
Definition emptyArtifactTypeApplyConfiguration : ArtifactTypeApplyConfiguration :=
  mkArtifactTypeApplyConfiguration emptyTypeMetaAC None None None.

Section methods.
Context `{GoRuntime}.
Implicit Types b : ArtifactTypeApplyConfiguration.

Definition ensureObjectMetaApplyConfigurationExists b : ArtifactTypeApplyConfiguration :=
  match ArtifactTypeAC_ObjectMeta b with
  | None =>
      mkArtifactTypeApplyConfiguration (ArtifactTypeAC_TypeMeta b) (Some emptyObjectMetaAC)
        (ArtifactTypeAC_Spec b) (ArtifactTypeAC_Status b)
  | Some _ => b
  end.

(** Assign through the pointer to the metadata. *)
Definition onMeta (f : ObjectMetaApplyConfiguration -> outcome ObjectMetaApplyConfiguration)
  b : outcome ArtifactTypeApplyConfiguration :=
  let? m := deref (ArtifactTypeAC_ObjectMeta b) in
  let? m' := f m in
  Ok (mkArtifactTypeApplyConfiguration (ArtifactTypeAC_TypeMeta b) (Some m')
        (ArtifactTypeAC_Spec b) (ArtifactTypeAC_Status b)).

Definition WithKind (value : string) b : outcome ArtifactTypeApplyConfiguration :=
  Ok (mkArtifactTypeApplyConfiguration
        (mkTypeMetaApplyConfiguration (Some value) (TypeMetaAC_APIVersion (ArtifactTypeAC_TypeMeta b)))
        (ArtifactTypeAC_ObjectMeta b) (ArtifactTypeAC_Spec b) (ArtifactTypeAC_Status b)).

Definition WithAPIVersion (value : string) b : outcome ArtifactTypeApplyConfiguration :=
  Ok (mkArtifactTypeApplyConfiguration
        (mkTypeMetaApplyConfiguration (TypeMetaAC_Kind (ArtifactTypeAC_TypeMeta b)) (Some value))
        (ArtifactTypeAC_ObjectMeta b) (ArtifactTypeAC_Spec b) (ArtifactTypeAC_Status b)).

Definition WithName (value : string) b : outcome ArtifactTypeApplyConfiguration :=
  let b := ensureObjectMetaApplyConfigurationExists b in
  onMeta (fun m => Ok (set_MetaAC_Name m (Some value))) b.

Definition WithGenerateName (value : string) b : outcome ArtifactTypeApplyConfiguration :=
  let b := ensureObjectMetaApplyConfigurationExists b in
  onMeta (fun m => Ok (set_MetaAC_GenerateName m (Some value))) b.

Definition WithNamespace (value : string) b : outcome ArtifactTypeApplyConfiguration :=
  let b := ensureObjectMetaApplyConfigurationExists b in
  onMeta (fun m => Ok (set_MetaAC_Namespace m (Some value))) b.

Definition WithUID (value : string) b : outcome ArtifactTypeApplyConfiguration :=
  let b := ensureObjectMetaApplyConfigurationExists b in
  onMeta (fun m => Ok (set_MetaAC_UID m (Some value))) b.

Definition WithResourceVersion (value : string) b : outcome ArtifactTypeApplyConfiguration :=
  let b := ensureObjectMetaApplyConfigurationExists b in
  onMeta (fun m => Ok (set_MetaAC_ResourceVersion m (Some value))) b.

Definition WithGeneration (value : Z) b : outcome ArtifactTypeApplyConfiguration :=
  let b := ensureObjectMetaApplyConfigurationExists b in
  onMeta (fun m => Ok (set_MetaAC_Generation m (Some value))) b.

Definition WithCreationTimestamp (value : Time) b : outcome ArtifactTypeApplyConfiguration :=
  let b := ensureObjectMetaApplyConfigurationExists b in
  onMeta (fun m => Ok (set_MetaAC_CreationTimestamp m (Some value))) b.

Definition WithDeletionTimestamp (value : Time) b : outcome ArtifactTypeApplyConfiguration :=
  let b := ensureObjectMetaApplyConfigurationExists b in
  onMeta (fun m => Ok (set_MetaAC_DeletionTimestamp m (Some value))) b.

Definition WithDeletionGracePeriodSeconds (value : Z) b : outcome ArtifactTypeApplyConfiguration :=
  let b := ensureObjectMetaApplyConfigurationExists b in
  onMeta (fun m => Ok (set_MetaAC_DeletionGracePeriodSeconds m (Some value))) b.

Definition WithLabels (entries : gmap string string) b : outcome ArtifactTypeApplyConfiguration :=
  let b := ensureObjectMetaApplyConfigurationExists b in
  onMeta (fun m =>
    let? l := mergeEntries "ArtifactType.WithLabels" (MetaAC_Labels m) entries in
    Ok (set_MetaAC_Labels m l)) b.

Definition WithAnnotations (entries : gmap string string) b : outcome ArtifactTypeApplyConfiguration :=
  let b := ensureObjectMetaApplyConfigurationExists b in
  onMeta (fun m =>
    let? l := mergeEntries "ArtifactType.WithAnnotations" (MetaAC_Annotations m) entries in
    Ok (set_MetaAC_Annotations m l)) b.

Definition WithOwnerReferences (values : list (option OwnerReferenceApplyConfiguration)) b :
  outcome ArtifactTypeApplyConfiguration :=
  let b := ensureObjectMetaApplyConfigurationExists b in
  onMeta (fun m =>
    let? l := appendDerefs "nil value passed to WithOwnerReferences"
                (MetaAC_OwnerReferences m) values in
    Ok (set_MetaAC_OwnerReferences m l)) b.

Definition WithFinalizers (values : list string) b : outcome ArtifactTypeApplyConfiguration :=
  let b := ensureObjectMetaApplyConfigurationExists b in
  onMeta (fun m => Ok (set_MetaAC_Finalizers m (MetaAC_Finalizers m ++ values))) b.

Definition WithSpec (value : option ref) b : ArtifactTypeApplyConfiguration :=
  mkArtifactTypeApplyConfiguration (ArtifactTypeAC_TypeMeta b) (ArtifactTypeAC_ObjectMeta b)
    value (ArtifactTypeAC_Status b).

Definition WithStatus (value : ArtifactTypeStatus) b : ArtifactTypeApplyConfiguration :=
  mkArtifactTypeApplyConfiguration (ArtifactTypeAC_TypeMeta b) (ArtifactTypeAC_ObjectMeta b)
    (ArtifactTypeAC_Spec b) (Some value).

Definition GetKind b : option string := TypeMetaAC_Kind (ArtifactTypeAC_TypeMeta b).

Definition GetAPIVersion b : option string := TypeMetaAC_APIVersion (ArtifactTypeAC_TypeMeta b).

(** The getters create the metadata of the receiver when it has none. *)
Definition GetName b : outcome (ArtifactTypeApplyConfiguration * option string) :=
  let b := ensureObjectMetaApplyConfigurationExists b in
  let? m := deref (ArtifactTypeAC_ObjectMeta b) in
  Ok (b, MetaAC_Name m).

Definition GetNamespace b : outcome (ArtifactTypeApplyConfiguration * option string) :=
  let b := ensureObjectMetaApplyConfigurationExists b in
  let? m := deref (ArtifactTypeAC_ObjectMeta b) in
  Ok (b, MetaAC_Namespace m).

(** The constructor function of the package. *)
Definition ArtifactType (name : string) : outcome ArtifactTypeApplyConfiguration :=
  let b := emptyArtifactTypeApplyConfiguration in
  let? b := WithName name b in
  let? b := WithKind "ArtifactType" b in
  WithAPIVersion "arc.bwi.de/v1alpha1" b.

(** ** The interface *)

Definition perform (c : call) : ArtifactTypeApplyConfiguration -> outcome ArtifactTypeApplyConfiguration :=
  match c with
  | CallWithKind value => WithKind value
  | CallWithAPIVersion value => WithAPIVersion value
  | CallWithName value => WithName value
  | CallWithGenerateName value => WithGenerateName value
  | CallWithNamespace value => WithNamespace value
  | CallWithUID value => WithUID value
  | CallWithResourceVersion value => WithResourceVersion value
  | CallWithGeneration value => WithGeneration value
  | CallWithCreationTimestamp value => WithCreationTimestamp value
  | CallWithDeletionTimestamp value => WithDeletionTimestamp value
  | CallWithDeletionGracePeriodSeconds value => WithDeletionGracePeriodSeconds value
  | CallWithLabels entries => WithLabels entries
  | CallWithAnnotations entries => WithAnnotations entries
  | CallWithOwnerReferences values => WithOwnerReferences values
  | CallWithFinalizers values => WithFinalizers values
  end.

(** Unfold the methods. *)
Local Ltac unfold_methods :=
  unfold perform, WithKind, WithAPIVersion, WithName, WithGenerateName, WithNamespace,
    WithUID, WithResourceVersion, WithGeneration, WithCreationTimestamp,
    WithDeletionTimestamp, WithDeletionGracePeriodSeconds, WithLabels, WithAnnotations,
    WithOwnerReferences, WithFinalizers, onMeta, ensureObjectMetaApplyConfigurationExists.

Lemma ArtifactType_perform_view c b :
  omap_ok (fun b' => mkConfig (ArtifactTypeAC_TypeMeta b') (view_meta (ArtifactTypeAC_ObjectMeta b'))) (perform c b)
  = call_effect c (mkConfig (ArtifactTypeAC_TypeMeta b) (view_meta (ArtifactTypeAC_ObjectMeta b))).
Proof. destruct b as [ty [m|] sp st], c; unfold_methods; solve_perform. Qed.

Lemma ArtifactType_perform_rest c b b' :
  perform c b = Ok b' -> (ArtifactTypeAC_Spec b', ArtifactTypeAC_Status b') = (ArtifactTypeAC_Spec b, ArtifactTypeAC_Status b).
Proof. destruct b as [ty [m|] sp st], c; unfold_methods; solve_rest. Qed.

End methods.

#[export] Instance ArtifactType_ApplyObject `{GoRuntime} : ApplyObject ArtifactTypeApplyConfiguration := {|
  do_call := perform;
  view := fun b => mkConfig (ArtifactTypeAC_TypeMeta b) (view_meta (ArtifactTypeAC_ObjectMeta b));
  Rest := option ref * option ArtifactTypeStatus;
  rest := fun b => (ArtifactTypeAC_Spec b, ArtifactTypeAC_Status b);
  do_call_view := ArtifactType_perform_view;
  do_call_rest := ArtifactType_perform_rest;
|}.
