(* ===== verification/ApplyUtils.v ===== *)
(** * Which apply configuration belongs to which kind
    (client-go/applyconfigurations/utils.go), and what the builders build *)

From stdpp Require Import base gmap list strings.
From Stdlib Require Import ZArith.
From S2P Require Import Prelude GoStd KubeTypes ApplyMeta ApplyObject ApplyParts.
From S2P Require Import ApplyOrder ApplyArtifactWorkflow ApplyEndpoint ApplyArtifactType.

Local Open Scope string_scope.
Local Open Scope list_scope.

(** ** ForKind *)

Record GroupVersionKind := mkGroupVersionKind {
  GVK_Group : string;
  GVK_Version : string;
  GVK_Kind : string;
}.

#[export] Instance GroupVersionKind_eq_dec : EqDecision GroupVersionKind.
Proof. solve_decision. Defined.

(** [v1alpha1.SchemeGroupVersion.WithKind]. *)
Definition SchemeGroupVersion_WithKind (kind : string) : GroupVersionKind :=
  mkGroupVersionKind "arc.bwi.de" "v1alpha1" kind.

(** A configuration behind [interface{}]: its dynamic type and its value. *)
Inductive applyConfiguration :=
| AC_ArtifactType (b : ArtifactTypeApplyConfiguration)
| AC_ArtifactTypeRules (b : ArtifactTypeRulesApplyConfiguration)
| AC_ArtifactTypeSpec (b : ArtifactTypeSpecApplyConfiguration)
| AC_ArtifactWorkflow (b : ArtifactWorkflowApplyConfiguration)
| AC_ArtifactWorkflowParameter (b : ArtifactWorkflowParameterApplyConfiguration)
| AC_ArtifactWorkflowSpec (b : ArtifactWorkflowSpecApplyConfiguration)
| AC_ArtifactWorkflowStatus (b : ArtifactWorkflowStatusApplyConfiguration)
| AC_Endpoint (b : EndpointApplyConfiguration)
| AC_EndpointSpec (b : EndpointSpecApplyConfiguration)
| AC_Order (b : OrderApplyConfiguration)
| AC_OrderArtifact (b : OrderArtifactApplyConfiguration)
| AC_OrderArtifactWorkflowStatus (b : OrderArtifactWorkflowStatusApplyConfiguration)
| AC_OrderDefaults (b : OrderDefaultsApplyConfiguration)
| AC_OrderSpec (b : OrderSpecApplyConfiguration)
| AC_OrderStatus (b : OrderStatusApplyConfiguration).

Definition ForKind (kind : GroupVersionKind) : option applyConfiguration :=
  if decide (kind = SchemeGroupVersion_WithKind "ArtifactType")
  then Some (AC_ArtifactType emptyArtifactTypeApplyConfiguration)
  else if decide (kind = SchemeGroupVersion_WithKind "ArtifactTypeRules")
  then Some (AC_ArtifactTypeRules newArtifactTypeRules)
  else if decide (kind = SchemeGroupVersion_WithKind "ArtifactTypeSpec")
  then Some (AC_ArtifactTypeSpec newArtifactTypeSpec)
  else if decide (kind = SchemeGroupVersion_WithKind "ArtifactWorkflow")
  then Some (AC_ArtifactWorkflow emptyArtifactWorkflowApplyConfiguration)
  else if decide (kind = SchemeGroupVersion_WithKind "ArtifactWorkflowParameter")
  then Some (AC_ArtifactWorkflowParameter newArtifactWorkflowParameter)
  else if decide (kind = SchemeGroupVersion_WithKind "ArtifactWorkflowSpec")
  then Some (AC_ArtifactWorkflowSpec newArtifactWorkflowSpec)
  else if decide (kind = SchemeGroupVersion_WithKind "ArtifactWorkflowStatus")
  then Some (AC_ArtifactWorkflowStatus newArtifactWorkflowStatus)
  else if decide (kind = SchemeGroupVersion_WithKind "Endpoint")
  then Some (AC_Endpoint emptyEndpointApplyConfiguration)
  else if decide (kind = SchemeGroupVersion_WithKind "EndpointSpec")
  then Some (AC_EndpointSpec newEndpointSpec)
  else if decide (kind = SchemeGroupVersion_WithKind "Order")
  then Some (AC_Order emptyOrderApplyConfiguration)
  else if decide (kind = SchemeGroupVersion_WithKind "OrderArtifact")
  then Some (AC_OrderArtifact newOrderArtifact)
  else if decide (kind = SchemeGroupVersion_WithKind "OrderArtifactWorkflowStatus")
  then Some (AC_OrderArtifactWorkflowStatus newOrderArtifactWorkflowStatus)
  else if decide (kind = SchemeGroupVersion_WithKind "OrderDefaults")
  then Some (AC_OrderDefaults newOrderDefaults)
  else if decide (kind = SchemeGroupVersion_WithKind "OrderSpec")
  then Some (AC_OrderSpec newOrderSpec)
  else if decide (kind = SchemeGroupVersion_WithKind "OrderStatus")
  then Some (AC_OrderStatus newOrderStatus)
  else None.

(** The kind a configuration type is for. *)
Definition kindOf (c : applyConfiguration) : string :=
  match c with
  | AC_ArtifactType _ => "ArtifactType"
  | AC_ArtifactTypeRules _ => "ArtifactTypeRules"
  | AC_ArtifactTypeSpec _ => "ArtifactTypeSpec"
  | AC_ArtifactWorkflow _ => "ArtifactWorkflow"
  | AC_ArtifactWorkflowParameter _ => "ArtifactWorkflowParameter"
  | AC_ArtifactWorkflowSpec _ => "ArtifactWorkflowSpec"
  | AC_ArtifactWorkflowStatus _ => "ArtifactWorkflowStatus"
  | AC_Endpoint _ => "Endpoint"
  | AC_EndpointSpec _ => "EndpointSpec"
  | AC_Order _ => "Order"
  | AC_OrderArtifact _ => "OrderArtifact"
  | AC_OrderArtifactWorkflowStatus _ => "OrderArtifactWorkflowStatus"
  | AC_OrderDefaults _ => "OrderDefaults"
  | AC_OrderSpec _ => "OrderSpec"
  | AC_OrderStatus _ => "OrderStatus"
  end.

(** The configuration with every field unset. *)
Definition blank (c : applyConfiguration) : applyConfiguration :=
  match c with
  | AC_ArtifactType _ => AC_ArtifactType emptyArtifactTypeApplyConfiguration
  | AC_ArtifactTypeRules _ => AC_ArtifactTypeRules newArtifactTypeRules
  | AC_ArtifactTypeSpec _ => AC_ArtifactTypeSpec newArtifactTypeSpec
  | AC_ArtifactWorkflow _ => AC_ArtifactWorkflow emptyArtifactWorkflowApplyConfiguration
  | AC_ArtifactWorkflowParameter _ => AC_ArtifactWorkflowParameter newArtifactWorkflowParameter
  | AC_ArtifactWorkflowSpec _ => AC_ArtifactWorkflowSpec newArtifactWorkflowSpec
  | AC_ArtifactWorkflowStatus _ => AC_ArtifactWorkflowStatus newArtifactWorkflowStatus
  | AC_Endpoint _ => AC_Endpoint emptyEndpointApplyConfiguration
  | AC_EndpointSpec _ => AC_EndpointSpec newEndpointSpec
  | AC_Order _ => AC_Order emptyOrderApplyConfiguration
  | AC_OrderArtifact _ => AC_OrderArtifact newOrderArtifact
  | AC_OrderArtifactWorkflowStatus _ => AC_OrderArtifactWorkflowStatus newOrderArtifactWorkflowStatus
  | AC_OrderDefaults _ => AC_OrderDefaults newOrderDefaults
  | AC_OrderSpec _ => AC_OrderSpec newOrderSpec
  | AC_OrderStatus _ => AC_OrderStatus newOrderStatus
  end.

Ltac for_kind_cases :=
  repeat match goal with
         | H : context [decide (?a = ?b)] |- _ => destruct (decide (a = b)); simplify_eq/=
         end.

(** ForKind answers a group, version and kind exactly when it belongs to the
    group version arc.bwi.de/v1alpha1 and one of the fifteen configuration types is
    for that kind, and then gives that type's configuration with every field unset. *)
Theorem forkind_exact (gvk : GroupVersionKind) (c : applyConfiguration) :
  ForKind gvk = Some c <->
  gvk = SchemeGroupVersion_WithKind (kindOf c) /\ c = blank c.
Proof.
  split.
  - unfold ForKind. intros E. for_kind_cases; done.
  - intros [-> ->]. destruct c; reflexivity.
Qed.

(** ** The builders *)

(** C40: on each of the four object builders, any chain of metadata calls on any
    receiver panics exactly when it passes a nil owner reference; otherwise every
    scalar field holds the value of the last call that gave one, every label and
    annotation the last value given for its key (in whatever order the maps are
    ranged over), owner references and finalizers are appended in order of the calls,
    and spec and status stay as they were. *)
Theorem apply_chain_builds `{GoRuntime} :
  builds OrderApplyConfiguration /\ builds ArtifactWorkflowApplyConfiguration /\
  builds EndpointApplyConfiguration /\ builds ArtifactTypeApplyConfiguration.
Proof. split_and!; apply builds_all. Qed.

(** What a configuration says about which object it is for. *)
Definition identifies (g : config) (kind name : string) (namespace : option string) : Prop :=
  scalar_of FKind g = Some kind /\ scalar_of FAPIVersion g = Some "arc.bwi.de/v1alpha1" /\
  scalar_of FName g = Some name /\ scalar_of FNamespace g = namespace.

Lemma last_given_none {V} (given : call -> option V) calls v :
  Forall (fun c => given c = None) calls -> last_given given calls v = v.
Proof. induction 1 as [|c calls Hc _ IH]; simpl; [done|]. by rewrite Hc. Qed.

(** A chain that leaves the four identifying fields alone keeps them. *)
Lemma chain_identifies `{ApplyObject B} calls (b b' : B) kind name namespace :
  chain_result calls b b' ->
  Forall (fun c => scalar_given FKind c = None /\ scalar_given FAPIVersion c = None /\
                   scalar_given FName c = None /\ scalar_given FNamespace c = None) calls ->
  identifies (view b) kind name namespace -> identifies (view b') kind name namespace.
Proof.
  intros Hb Hk (H1 & H2 & H3 & H4). unfold identifies.
  rewrite !(chain_scalar _ _ _ Hb), !last_given_none;
    [done|..]; (eapply Forall_impl; [exact Hk|]); simpl; tauto.
Qed.

(** A constructor function followed by any chain of calls without a nil owner
    reference and that sets neither kind, API version, name nor namespace gives a
    configuration that names its kind, version, name and (for the namespaced kinds)
    namespace. *)
Theorem apply_constructor_identifies `{GoRuntime} (name namespace : string) (calls : list call)
  (Hrefs : None ∉ (calls ≫= refs_given))
  (Hkeep : Forall (fun c => scalar_given FKind c = None /\ scalar_given FAPIVersion c = None /\
                    scalar_given FName c = None /\ scalar_given FNamespace c = None) calls) :
  (exists b, (let? b := ApplyOrder.Order name namespace in chain calls b) = Ok b /\
     identifies (view b) "Order" name (Some namespace)) /\
  (exists b, (let? b := ApplyArtifactWorkflow.ArtifactWorkflow name namespace in
              chain calls b) = Ok b /\
     identifies (view b) "ArtifactWorkflow" name (Some namespace)) /\
  (exists b, (let? b := ApplyEndpoint.Endpoint name namespace in chain calls b) = Ok b /\
     identifies (view b) "Endpoint" name (Some namespace)) /\
  (exists b, (let? b := ApplyArtifactType.ArtifactType name in chain calls b) = Ok b /\
     identifies (view b) "ArtifactType" name None).
Proof.
  split_and!;
    match goal with |- context [obind ?m _] => let x := eval cbv in m in change m with x end;
    cbn [obind];
    match goal with |- context [chain calls ?b] =>
      destruct (chain_builds calls b Hrefs) as (b' & -> & Hb) end;
    exists b'; (split; [done|]); by eapply chain_identifies.
Qed.

(** The slice methods that copy what their pointers point to. *)
Definition appends {B A : Type} (msg : string) (slice : B -> list A)
  (method : list (option A) -> B -> outcome B) : Prop :=
  forall values b,
    (None ∈ values -> method values b = Panic msg) /\
    (None ∉ values -> exists b', method values b = Ok b' /\
       Some <$> slice b' = (Some <$> slice b) ++ values).

Lemma appendDerefs_appends {A} msg (l : list A) values :
  (None ∈ values -> appendDerefs msg l values = Panic msg) /\
  (None ∉ values -> exists l', appendDerefs msg l values = Ok l' /\
     Some <$> l' = (Some <$> l) ++ values).
Proof.
  rewrite appendDerefs_values. destruct (mapM id values) as [vs|] eqn:E.
  - apply mapM_id_Some in E. subst. split.
    + intros Hn. apply list_elem_of_fmap in Hn. by destruct Hn as (? & ? & ?).
    + intros _. exists (l ++ vs). by rewrite fmap_app.
  - split; [done|]. intros Hn. exfalso. apply Hn.
    apply mapM_None in E. apply Exists_exists in E as (x & Hx & Ex). unfold id in Ex. by subst.
Qed.

Lemma appends_assign {A B} msg (slice : B -> list A) (assign : B -> list A -> B) :
  (forall b l, slice (assign b l) = l) ->
  appends msg slice (fun values b =>
    let? l := appendDerefs msg (slice b) values in Ok (assign b l)).
Proof.
  intros Hs values b. destruct (appendDerefs_appends msg (slice b) values) as [Hp Ho].
  split; intros Hn; [by rewrite (Hp Hn)|]. destruct (Ho Hn) as (l' & -> & Hl).
  exists (assign b l'). by rewrite Hs.
Qed.

(** The builders of the parts: artifacts of an order and parameters of a workflow
    or a type are appended in order and a nil among them panics; the per-workflow
    statuses of an order are merged, the new entry winning, without ever assigning
    into a nil map. *)
Theorem apply_parts_collect `{GoRuntime} :
  appends "nil value passed to WithArtifacts" OrderSpecAC_Artifacts OrderSpec_WithArtifacts /\
  appends "nil value passed to WithParameters" ArtifactWorkflowSpecAC_Parameters
    ArtifactWorkflowSpec_WithParameters /\
  appends "nil value passed to WithParameters" ArtifactTypeSpecAC_Parameters
    ArtifactTypeSpec_WithParameters /\
  (forall entries b, exists b', OrderStatus_WithArtifactWorkflows entries b = Ok b' /\
     forall k, (OrderStatusAC_ArtifactWorkflows b' ≫= lookup k)
       = from_option Some (OrderStatusAC_ArtifactWorkflows b ≫= lookup k) (entries !! k)).
Proof.
  split_and!.
  - by apply (appends_assign _ _ (fun b l =>
      mkOrderSpecApplyConfiguration (OrderSpecAC_Defaults b) l)).
  - by apply (appends_assign _ _ (fun b l =>
      mkArtifactWorkflowSpecApplyConfiguration (ArtifactWorkflowSpecAC_Type b) l
        (ArtifactWorkflowSpecAC_SrcSecretRef b) (ArtifactWorkflowSpecAC_DstSecretRef b))).
  - by apply (appends_assign _ _ (fun b l =>
      mkArtifactTypeSpecApplyConfiguration (ArtifactTypeSpecAC_Rules b) l
        (ArtifactTypeSpecAC_WorkflowTemplateRef b))).
  - intros entries b. unfold OrderStatus_WithArtifactWorkflows.
    rewrite mergeEntries_merged. simpl. eexists. split; [done|]. intros k. apply merged_lookup.
Qed.

(** A chain that labels twice and appends owner references and finalizers. *)
Definition sample_calls : list call :=
  [CallWithLabels {[ "app" := "arc"; "tier" := "core" ]};
   CallWithFinalizers ["a"];
   CallWithLabels {[ "tier" := "edge" ]};
   CallWithFinalizers ["b"; "a"];
   CallWithUID "u1"; CallWithUID "u2"].

Lemma apply_constructor_identifies_witness :
  exists b, (let? b := @ApplyOrder.Order "o" "ns" in
             @chain _ (@Order_ApplyObject plain_runtime) sample_calls b) = Ok b /\
    identifies (@view _ (@Order_ApplyObject plain_runtime) b) "Order" "o" (Some "ns").
Proof.
  refine (proj1 (@apply_constructor_identifies plain_runtime "o" "ns" sample_calls _ _)).
  - vm_compute. set_solver.
  - repeat constructor.
Defined.
