(* ===== verification/FakeClientset.v ===== *)
(** * The fake clientset (client-go/clientset/versioned/fake and typed/.../fake)

    The clientset for tests: the clients of the four kinds over a [testing.Fake] whose
    reactors answer from an object tracker.  Trackers, actions and the generic fake
    client are client-go's and are parameters; the arguments the constructor of a
    fake client gets are kept.  A reaction works on the state of the tracker. *)

From stdpp Require Import base list strings.
From S2P Require Import Prelude GoStd KubeTypes Registry V1alpha1Types.
From S2P Require Import Conversion ConversionScheme ApiScheme Clientset ApplyUtils.
From S2P Require InformerTheorems.

Local Open Scope string_scope.
Local Open Scope list_scope.

(** ** What client-go provides *)

Class TestingLibrary := {
  ObjectTracker : Type;
  Object : Type;
  Action : Type;
  WatchInterface : Type;
  ListOptions : Type;
  TypeConverter : Type;
  FakeDiscovery : Type;
  RESTClient : Type;
  noListOptions : ListOptions;
  NewObjectTracker : ObjectTracker;
  NewFieldManagedObjectTracker : TypeConverter -> ObjectTracker;
  tracker_Add : ObjectTracker -> Object -> error + ObjectTracker;
  tracker_Watch : ObjectTracker -> GroupVersionResource -> string -> ListOptions ->
    ObjectTracker * (error + WatchInterface);
  (** [testing.ObjectReaction]: handled or not, with an object or an error. *)
  ObjectReaction : Action -> ObjectTracker -> ObjectTracker * (bool * (error + option Object));
  GetResource : Action -> GroupVersionResource;
  GetNamespace : Action -> string;
  (** The list options of a [WatchActionImpl]. *)
  asWatchAction : Action -> option ListOptions;
  newFakeDiscovery : FakeDiscovery;
  (** The pointers of a slice and back. *)
  PointerSlice : Type -> Type;
  ToPointerSlice : forall {A : Type}, list A -> PointerSlice A;
  FromPointerSlice : forall {A : Type}, PointerSlice A -> list A;
  FromPointerSlice_ToPointerSlice : forall (A : Type) (l : list A),
    FromPointerSlice (ToPointerSlice l) = l;
}.

Section fake.
Context `{TestingLibrary}.

(** ** The fake clients of the kinds *)

(** The arguments of [gentype.NewFakeClientWithListAndApply]. *)
Record fakeTypedClient (O L : Type) := mkFakeTypedClient {
  ft_namespace : string;
  ft_resource : GroupVersionResource;
  ft_kind : GroupVersionKind;
  ft_object : typeName;
  ft_list : typeName;
  ft_newList : L;
  ft_copyListMeta : L -> L -> L;
  ft_toPointerSlice : L -> PointerSlice O;
  ft_fromPointerSlice : L -> PointerSlice O -> L;
}.
Arguments mkFakeTypedClient {O L}.
Arguments ft_namespace {O L}.
Arguments ft_resource {O L}.
Arguments ft_kind {O L}.
Arguments ft_object {O L}.
Arguments ft_list {O L}.
Arguments ft_newList {O L}.
Arguments ft_copyListMeta {O L}.
Arguments ft_toPointerSlice {O L}.
Arguments ft_fromPointerSlice {O L}.

Definition noListMeta : ListMeta := mkListMeta "" "" None.

Definition newFakeOrders (namespace : string) : fakeTypedClient Order OrderList :=
  mkFakeTypedClient namespace
    (WithResource V1alpha1.SchemeGroupVersion "orders") (SchemeGroupVersion_WithKind "Order")
    TOrder TOrderList (mkOrderList emptyTypeMeta noListMeta [])
    (fun dst src => mkOrderList (OrderList_TypeMeta dst) (OrderList_ListMeta src)
                      (OrderList_Items dst))
    (fun list => ToPointerSlice (OrderList_Items list))
    (fun list items => mkOrderList (OrderList_TypeMeta list) (OrderList_ListMeta list)
                         (FromPointerSlice items)).

Definition newFakeEndpoints (namespace : string) : fakeTypedClient Endpoint EndpointList :=
  mkFakeTypedClient namespace
    (WithResource V1alpha1.SchemeGroupVersion "endpoints") (SchemeGroupVersion_WithKind "Endpoint")
    TEndpoint TEndpointList (mkEndpointList emptyTypeMeta noListMeta [])
    (fun dst src => mkEndpointList (EPList_TypeMeta dst) (EPList_ListMeta src) (EPList_Items dst))
    (fun list => ToPointerSlice (EPList_Items list))
    (fun list items => mkEndpointList (EPList_TypeMeta list) (EPList_ListMeta list)
                         (FromPointerSlice items)).

Definition newFakeArtifactWorkflows (namespace : string) :
  fakeTypedClient ArtifactWorkflow ArtifactWorkflowList :=
  mkFakeTypedClient namespace
    (WithResource V1alpha1.SchemeGroupVersion "artifactworkflows")
    (SchemeGroupVersion_WithKind "ArtifactWorkflow")
    TArtifactWorkflow TArtifactWorkflowList (mkArtifactWorkflowList emptyTypeMeta noListMeta [])
    (fun dst src => mkArtifactWorkflowList (AWList_TypeMeta dst) (AWList_ListMeta src)
                      (AWList_Items dst))
    (fun list => ToPointerSlice (AWList_Items list))
    (fun list items => mkArtifactWorkflowList (AWList_TypeMeta list) (AWList_ListMeta list)
                         (FromPointerSlice items)).

Definition newFakeArtifactTypes : fakeTypedClient ArtifactType ArtifactTypeList :=
  mkFakeTypedClient ""
    (WithResource V1alpha1.SchemeGroupVersion "artifacttypes")
    (SchemeGroupVersion_WithKind "ArtifactType")
    TArtifactType TArtifactTypeList (mkArtifactTypeList emptyTypeMeta noListMeta [])
    (fun dst src => mkArtifactTypeList (ATList_TypeMeta dst) (ATList_ListMeta src)
                      (ATList_Items dst))
    (fun list => ToPointerSlice (ATList_Items list))
    (fun list items => mkArtifactTypeList (ATList_TypeMeta list) (ATList_ListMeta list)
                         (FromPointerSlice items)).

(** [FakeArcV1alpha1.RESTClient]: a nil pointer. *)
Definition fake_RESTClient : option RESTClient := None.

(** ** The clientset *)

Definition reaction (A : Type) : Type :=
  Action -> ObjectTracker -> ObjectTracker * (bool * (error + A)).

(** The reactors that were added, with the verb and the resource they are for, and the
    tracker. *)
Record FakeClientset := mkFakeClientset {
  reactors : list (string * string * reaction (option Object));
  watchReactors : list (string * reaction (option WatchInterface));
  fc_discovery : FakeDiscovery;
  fc_tracker : ObjectTracker;
}.

(** The reactor for watches: not handled when the tracker fails. *)
Definition watchReaction : reaction (option WatchInterface) := fun action o =>
  let opts := default noListOptions (asWatchAction action) in
  let gvr := GetResource action in
  let ns := GetNamespace action in
  match tracker_Watch o gvr ns opts with
  | (o, inl err) => (o, (false, inl err))
  | (o, inr watch) => (o, (true, inr (Some watch)))
  end.

(** Add the objects; the first that cannot be added panics. *)
Fixpoint addAll (o : ObjectTracker) (objects : list Object) : outcome ObjectTracker :=
  match objects with
  | [] => Ok o
  | obj :: objects =>
      match tracker_Add o obj with
      | inl _ => Panic "error of the tracker"
      | inr o => addAll o objects
      end
  end.

Definition clientsetOver (o : ObjectTracker) (objects : list Object) : outcome FakeClientset :=
  let? o := addAll o objects in
  Ok (mkFakeClientset [("*", "*", ObjectReaction)] [("*", watchReaction)] newFakeDiscovery o).

Definition NewSimpleClientset (objects : list Object) : outcome FakeClientset :=
  clientsetOver NewObjectTracker objects.

Definition fake_NewClientset (converter : TypeConverter) (objects : list Object) :
  outcome FakeClientset :=
  clientsetOver (NewFieldManagedObjectTracker converter) objects.

Definition fake_Discovery (c : FakeClientset) : FakeDiscovery := fc_discovery c.
Definition Tracker (c : FakeClientset) : ObjectTracker := fc_tracker c.

(** ** The properties *)

(** A fake client stands for a client: it is for the same resource, namespace and
    types, of a kind that has an apply configuration and the name of the type; its
    accessors take a list apart and put it together. *)
Record standsFor {R : RestLibrary} {O L : Type} (fake : fakeTypedClient O L)
  (real : typedClient) : Prop := {
  sf_namespace : ft_namespace fake = tc_namespace real;
  sf_resource : ft_resource fake = WithResource V1alpha1.SchemeGroupVersion (tc_resource real);
  sf_object : ft_object fake = tc_object real;
  sf_list : ft_list fake = tc_list real;
  sf_kind : ft_kind fake = SchemeGroupVersion_WithKind (kindName (tc_object real));
  sf_apply : ForKind (ft_kind fake) <> None;
  sf_items : forall l, ft_fromPointerSlice fake l (ft_toPointerSlice fake l) = l;
  sf_meta : forall dst src,
    ft_toPointerSlice fake (ft_copyListMeta fake dst src) = ft_toPointerSlice fake dst
    /\ ft_copyListMeta fake (ft_copyListMeta fake dst src) dst = dst;
}.

(** The adding of objects, as long as none fails. *)
Lemma addAll_Ok o objects o' :
  addAll o objects = Ok o' <->
  foldl (fun r obj => match r with inr o => tracker_Add o obj | inl e => inl e end) (inr o) objects
  = inr o'.
Proof.
  revert o. induction objects as [|obj objects IH]; intros o; simpl.
  - split; intros [= ->]; done.
  - destruct (tracker_Add o obj) as [e|o1]; [|apply IH]. split; [done|]. intros Hf. exfalso.
    clear IH. induction objects as [|x objects IH]; [done|]. by apply IH.
Qed.

(** The fake clientset stands for the real one.  For each of the four kinds the
    fake client is for the same resource, namespace and types as the client, of a kind
    that has an apply configuration, and its accessors lose nothing of a list.  A new
    fake clientset exists exactly when its tracker takes all the objects, and holds
    them; a watch of it is served from the tracker, in the namespace and with the
    options of the action, and is passed on to other reactors exactly when the tracker
    fails. *)
Theorem fake_clientset_stands_for {R : RestLibrary} (c : ArcV1alpha1Client) converter objects ns :
  standsFor (newFakeOrders ns) (newOrders c ns)
  /\ standsFor (newFakeEndpoints ns) (newEndpoints c ns)
  /\ standsFor (newFakeArtifactWorkflows ns) (newArtifactWorkflows c ns)
  /\ standsFor newFakeArtifactTypes (newArtifactTypes c)
  /\ (forall cs, fake_NewClientset converter objects = Ok cs <->
       foldl (fun r obj => match r with inr o => tracker_Add o obj | inl e => inl e end)
         (inr (NewFieldManagedObjectTracker converter)) objects = inr (Tracker cs)
       /\ cs = mkFakeClientset [("*", "*", ObjectReaction)] [("*", watchReaction)]
                newFakeDiscovery (Tracker cs))
  /\ (forall action o o' handled r, watchReaction action o = (o', (handled, r)) ->
       let w := tracker_Watch o (GetResource action) (GetNamespace action)
                  (default noListOptions (asWatchAction action)) in
       o' = w.1 /\ (handled = true <-> exists watch, w.2 = inr watch /\ r = inr (Some watch))
       /\ (handled = false <-> exists e, w.2 = inl e)).
Proof.
  split_and!.
  1-4: split; try done; intros []; simpl; try (by rewrite FromPointerSlice_ToPointerSlice).
  1-4: by intros [].
  - intros cs. unfold fake_NewClientset, clientsetOver.
    rewrite <- addAll_Ok. destruct (addAll _ objects) as [o|e|m]; simpl.
    + split; [by intros [= <-]|]. intros [[= ->] ->]. done.
    + split; [done|]. by intros [? _].
    + split; [done|]. by intros [? _].
  - intros action o o' handled r. unfold watchReaction.
    destruct (tracker_Watch _ _ _ _) as [o1 [e|w]]; intros [= <- <- <-]; simpl; split_and!; try done.
    + split; [done|]. by intros (w & ? & _).
    + split; [by eexists|done].
    + split; [by eexists|done].
    + split; [done|]. by intros (e & ?).
Qed.

End fake.

(** ** The scheme of the fake clientset (fake/register.go) *)

Definition fake_scheme_init {S : Type} `{RuntimeScheme S} (scheme : S) : outcome S :=
  let? scheme := AddToGroupVersion scheme unversioned in
  Must (runBuilder [V1alpha1.AddToScheme] scheme).

(** It registers what the scheme of the clientset registers. *)
Lemma fake_scheme_same {S : Type} `{RuntimeScheme S} (scheme : S) :
  fake_scheme_init scheme = clientset_scheme_init scheme.
Proof. reflexivity. Qed.

(** ** An instance and a witness *)

(** Objects are named by numbers and added once; a watch is its namespace. *)
#[local] Program Instance plain_testing : TestingLibrary := {|
  ObjectTracker := list nat;
  Object := nat;
  Action := string;
  WatchInterface := string;
  ListOptions := unit;
  TypeConverter := unit;
  FakeDiscovery := unit;
  RESTClient := unit;
  noListOptions := tt;
  NewObjectTracker := [];
  NewFieldManagedObjectTracker _ := [];
  tracker_Add o x := if bool_decide (x ∈ o) then inl (PlainError "already exists") else inr (x :: o);
  tracker_Watch o _ ns _ := (o, if String.eqb ns "" then inl (PlainError "no namespace") else inr ns);
  ObjectReaction _ o := (o, (true, inr (head o)));
  GetResource _ := WithResource V1alpha1.SchemeGroupVersion "orders";
  GetNamespace action := action;
  asWatchAction _ := None;
  newFakeDiscovery := tt;
  PointerSlice A := list A;
  ToPointerSlice _ l := l;
  FromPointerSlice _ l := l;
|}.
Next Obligation. done. Qed.

#[local] Existing Instance InformerTheorems.plain_rest.

Definition plainClient : ArcV1alpha1Client := mkArcV1alpha1Client ("rest" : RestClient).

Lemma fake_clientset_stands_for_witness :
  @standsFor plain_testing _ _ _ (newFakeOrders "ns") (newOrders plainClient "ns")
  /\ @fake_NewClientset plain_testing tt [1; 2]
     = Ok (@mkFakeClientset plain_testing [("*", "*", ObjectReaction)] [("*", watchReaction)] tt [2; 1]).
Proof.
  destruct (@fake_clientset_stands_for plain_testing _ plainClient tt [1; 2] "ns")
    as (Ho & _ & _ & _ & Hnew & _).
  split; [exact Ho|]. apply Hnew. split; reflexivity.
Defined.
