(* ===== verification/Client.v ===== *)
(** * Programs that talk to the API server

    The controllers reach the cluster only through [client.Client], which is not
    part of the repository: its calls are the constructors of [call], what a call
    answers is [reply], and a reconciler is a [prog]: a tree of calls whose
    branches are the possible answers.  Nothing is assumed of the answers here.
    [exec] relates a program to the traces it can produce whatever the server
    answers; [run] executes it against a given handler.  [wp] is the predicate
    transformer used to prove facts about all traces. *)

From stdpp Require Import base gmap list strings.
From S2P Require Import Prelude GoStd KubeTypes V1alpha1Types.

Local Open Scope list_scope.

(** ** Calls and replies *)

Inductive call :=
| GetOrder (key : NamespacedName)
| GetEndpoint (key : NamespacedName)
| GetSecret (key : NamespacedName)
| GetArtifactType (key : NamespacedName)
| GetArtifactWorkflow (key : NamespacedName)
| GetWorkflow (key : NamespacedName)
| ListOrders (fieldSelector : list (string * string)) (namespace : string)
| CreateArtifactWorkflow (aw : ArtifactWorkflow)
| CreateWorkflow (wf : Workflow)
| UpdateOrder (order : Order)
| UpdateArtifactWorkflow (aw : ArtifactWorkflow)
| UpdateOrderStatus (order : Order)
| UpdateArtifactWorkflowStatus (aw : ArtifactWorkflow)
| DeleteArtifactWorkflow (meta : ObjectMeta)
| DeleteWorkflow (meta : ObjectMeta).

(** A read answers an error or an object, a write an error or nil.  (The object a
    write sends back is not looked at by the controllers.) *)
Definition reply (c : call) : Type :=
  match c with
  | GetOrder _ => error + Order
  | GetEndpoint _ => error + Endpoint
  | GetSecret _ => error + Secret
  | GetArtifactType _ => error + ArtifactType
  | GetArtifactWorkflow _ => error + ArtifactWorkflow
  | GetWorkflow _ => error + Workflow
  | ListOrders _ _ => error + list Order
  | _ => option error
  end.

(** Does the call ask for a change? *)
Definition mutating (c : call) : bool :=
  match c with
  | GetOrder _ | GetEndpoint _ | GetSecret _ | GetArtifactType _
  | GetArtifactWorkflow _ | GetWorkflow _ | ListOrders _ _ => false
  | _ => true
  end.

Definition event : Type := {c : call & reply c}.
Definition ev (c : call) (r : reply c) : event := existT c r.
Definition ev_call (e : event) : call := projT1 e.

(** The calls of a trace that ask for a change, in order. *)
Definition writes (t : list event) : list call :=
  List.filter mutating (map ev_call t).

(** ** Programs *)

Inductive prog (A : Type) : Type :=
| Ret (a : A)
| Fail (e : error)
| Crash (msg : string)
| Call (c : call) (k : reply c -> prog A).
Arguments Ret {A} a.
Arguments Fail {A} e.
Arguments Crash {A} msg.
Arguments Call {A} c k.

Fixpoint bind {A B : Type} (p : prog A) (f : A -> prog B) : prog B :=
  match p with
  | Ret a => f a
  | Fail e => Fail e
  | Crash s => Crash s
  | Call c k => Call c (fun r => bind (k r) f)
  end.

Notation "'let!' x := p 'in' k" := (bind p (fun x => k))
  (at level 10, x pattern, p at level 100, k at level 200) : arc_scope.

Definition do_call (c : call) : prog (reply c) := Call c Ret.

(** A pure Go function inside a program. *)
Definition lift {A : Type} (o : outcome A) : prog A :=
  match o with
  | Ok a => Ret a
  | Err e => Fail e
  | Panic s => Crash s
  end.

(** A loop over a slice; the body gives the next state of the variables it
    assigns. *)
Fixpoint for_each {A St : Type} (l : list A) (body : A -> St -> prog St) (st : St) :
  prog St :=
  match l with
  | [] => Ret st
  | x :: l => let! st' := body x st in for_each l body st'
  end.

(** ** Execution *)

(** The traces and outcomes of a program under all answers. *)
Fixpoint exec {A : Type} (p : prog A) (t : list event) (o : outcome A) : Prop :=
  match p with
  | Ret a => t = [] /\ o = Ok a
  | Fail e => t = [] /\ o = Err e
  | Crash s => t = [] /\ o = Panic s
  | Call c k => exists r t', t = ev c r :: t' /\ exec (k r) t' o
  end.

(** Execution against a handler of calls over a state. *)
Definition handler (S : Type) : Type := forall c : call, S -> S * reply c.

Fixpoint run {S A : Type} (h : handler S) (p : prog A) (s : S) : S * outcome A :=
  match p with
  | Ret a => (s, Ok a)
  | Fail e => (s, Err e)
  | Crash m => (s, Panic m)
  | Call c k => let (s', r) := h c s in run h (k r) s'
  end.

(** The trace of an execution against a handler. *)
Fixpoint run_trace {S A : Type} (h : handler S) (p : prog A) (s : S) : list event :=
  match p with
  | Call c k => let (s', r) := h c s in ev c r :: run_trace h (k r) s'
  | _ => []
  end.

(** [wp p Q t]: after the trace [t], every run of [p] ends with a trace and an
    outcome that satisfy [Q]. *)
Fixpoint wp {A : Type} (p : prog A) (Q : list event -> outcome A -> Prop)
  (t : list event) : Prop :=
  match p with
  | Ret a => Q t (Ok a)
  | Fail e => Q t (Err e)
  | Crash s => Q t (Panic s)
  | Call c k => forall r, wp (k r) Q (t ++ [ev c r])
  end.

(** ** Rules *)

Section rules.
Context {A : Type}.
Implicit Types (p : prog A) (Q : list event -> outcome A -> Prop).

Lemma wp_exec p Q t :
  wp p Q t <-> forall t' o, exec p t' o -> Q (t ++ t') o.
Proof.
  revert t. induction p as [a|e|m|c k IH]; intros t; simpl.
  1-3: split; [by intros HQ t' o [-> ->]; rewrite app_nil_r
              |intros HQ; rewrite <- (app_nil_r t); by apply HQ].
  split.
  - intros HQ t' o (r & t'' & -> & Hex).
    specialize (HQ r). apply IH with (o := o) (t' := t'') in HQ; [|done].
    by rewrite <- app_assoc in HQ.
  - intros HQ r. apply IH. intros t' o Hex.
    rewrite <- app_assoc. apply HQ. by exists r, t'.
Qed.

(** To prove something of every execution, prove the [wp] from the empty trace. *)
Lemma exec_wp p Q : wp p Q [] -> forall t o, exec p t o -> Q t o.
Proof. intros Hwp t o Hex. by apply (proj1 (wp_exec p Q []) Hwp t o). Qed.

Lemma wp_mono p Q Q' t :
  (forall t o, Q t o -> Q' t o) -> wp p Q t -> wp p Q' t.
Proof. intros HQ. revert t. induction p; simpl; auto. Qed.

Lemma wp_bind {B : Type} p (f : A -> prog B) (Q : list event -> outcome B -> Prop) t :
  wp p (fun t o => match o with
                   | Ok a => wp (f a) Q t
                   | Err e => Q t (Err e)
                   | Panic m => Q t (Panic m)
                   end) t ->
  wp (bind p f) Q t.
Proof. revert t. induction p; simpl; auto. Qed.

(** What a run adds to a trace does not depend on the trace. *)
Lemma wp_shift p Q t : wp p (fun t' o => Q (t ++ t') o) [] -> wp p Q t.
Proof. rewrite !wp_exec. auto. Qed.

Lemma exec_run {S : Type} (h : handler S) p s :
  exec p (run_trace h p s) (run h p s).2.
Proof.
  revert s. induction p as [a|e|m|c k IH]; intros s; simpl; auto.
  destruct (h c s) as [s' r]. eauto.
Qed.

Lemma run_bind {S B : Type} (h : handler S) p (f : A -> prog B) s :
  run h (bind p f) s =
  match run h p s with
  | (s', Ok a) => run h (f a) s'
  | (s', Err e) => (s', Err e)
  | (s', Panic m) => (s', Panic m)
  end.
Proof.
  revert s. induction p as [a|e|m|c k IH]; intros s; simpl; auto.
  destruct (h c s) as [s' r]. auto.
Qed.

End rules.

Lemma wp_lift {A} (o : outcome A) Q t : Q t o -> wp (lift o) Q t.
Proof. by destruct o. Qed.

(** The rule for loops: an invariant over the elements already visited. *)
Lemma wp_for_each {A St : Type} (Inv : list A -> St -> list event -> Prop)
  (l : list A) (body : A -> St -> prog St) (st : St) Q t :
  Inv [] st t ->
  (forall done x rest st t, l = done ++ x :: rest -> Inv done st t ->
     wp (body x st)
        (fun t o => match o with
                    | Ok st => Inv (done ++ [x]) st t
                    | Err e => Q t (Err e)
                    | Panic m => Q t (Panic m)
                    end) t) ->
  (forall st t, Inv l st t -> Q t (Ok st)) ->
  wp (for_each l body st) Q t.
Proof.
  intros H0 Hbody HQ.
  enough (forall rest done st t, l = done ++ rest -> Inv done st t ->
            wp (for_each rest body st) Q t) as Hgo by (by apply (Hgo l [])).
  induction rest as [|x rest IH]; intros done st' t' Hl Hinv; simpl.
  - apply HQ. by rewrite Hl, app_nil_r.
  - apply wp_bind. eapply wp_mono; [|by eapply Hbody].
    intros t'' [st''|e|m] Ho; try done.
    apply (IH (done ++ [x])); [|done]. by rewrite <- app_assoc.
Qed.

Lemma writes_app t1 t2 : writes (t1 ++ t2) = writes t1 ++ writes t2.
Proof. unfold writes. by rewrite map_app, List.filter_app. Qed.

(** The trace after one more call. *)
Lemma writes_write t e :
  mutating (ev_call e) = true -> writes (t ++ [e]) = writes t ++ [ev_call e].
Proof. intros He. rewrite writes_app. unfold writes at 2. simpl. by rewrite He. Qed.

Lemma writes_read t e : mutating (ev_call e) = false -> writes (t ++ [e]) = writes t.
Proof.
  intros He. rewrite writes_app. unfold writes at 2. simpl. by rewrite He, app_nil_r.
Qed.

#[export] Hint Rewrite writes_app : arc_rw.

(** Step through the head of a [wp] goal. *)
Ltac wp_step :=
  lazymatch goal with
  | |- wp (bind (do_call _) _) _ _ => intros ?
  | |- wp (Call _ _) _ _ => intros ?
  | |- wp (bind _ _) _ _ => apply wp_bind
  | |- wp (lift _) _ _ => apply wp_lift
  | |- wp (match ?x with _ => _ end) _ _ => destruct x eqn:?
  | |- wp (let _ := _ in _) _ _ => cbv zeta
  end.
