(* ===== verification/Cluster.v ===== *)
(** * The cluster behind the client

    What the controllers rely on of the API server, as a relation [serves] between a
    request, the objects stored before and after it, and the answer.  A healthy
    server is any state machine whose steps are in that relation; storing an update
    goes through the conversions and the registry strategies of the repository.
    [memory_server] is a concrete one. *)

From stdpp Require Import base gmap list strings.
From S2P Require Import Prelude GoStd KubeTypes ArcTypes Registry RegistryOrder.
From S2P Require Import RegistryArtifactWorkflow ApiServer Conversion V1alpha1Types.
From S2P Require Import Client.

Local Open Scope string_scope.

(** ** The stored objects *)

Record Cluster := mkCluster {
  orders : gmap NamespacedName Order;
  endpoints : gmap NamespacedName Endpoint;
  secrets : gmap NamespacedName Secret;
  artifactTypes : gmap NamespacedName ArtifactType;
  artifactWorkflows : gmap NamespacedName ArtifactWorkflow;
  workflows : gmap NamespacedName Workflow;
}.

Definition set_orders (c : Cluster) (m : gmap NamespacedName Order) : Cluster :=
  mkCluster m (endpoints c) (secrets c) (artifactTypes c) (artifactWorkflows c) (workflows c).
Definition set_artifactWorkflows (c : Cluster) (m : gmap NamespacedName ArtifactWorkflow) :
  Cluster :=
  mkCluster (orders c) (endpoints c) (secrets c) (artifactTypes c) m (workflows c).
Definition set_workflows (c : Cluster) (m : gmap NamespacedName Workflow) : Cluster :=
  mkCluster (orders c) (endpoints c) (secrets c) (artifactTypes c) (artifactWorkflows c) m.

(** ** Storing an update

    The object sent and the stored one are converted to the internal version, the
    strategy of the resource prepares the update, and the result is converted back. *)

Definition storedOrder (prepare : runtimeObject -> runtimeObject -> outcome runtimeObject)
  (new old : Order) : outcome Order :=
  let? n := Convert_v1alpha1_Order_To_arc_Order new zeroOrder in
  let? o := Convert_v1alpha1_Order_To_arc_Order old zeroOrder in
  let? r := prepare (AnOrder n) (AnOrder o) in
  match r with
  | AnOrder x =>
      Convert_arc_Order_To_v1alpha1_Order x
        (mkOrder emptyTypeMeta noObjectMeta (mkOrderSpec (mkOrderDefaults noRef noRef) [])
           (mkOrderStatus None))
  | _ => Panic "interface conversion"
  end.

Definition storedArtifactWorkflow
  (prepare : runtimeObject -> runtimeObject -> outcome runtimeObject)
  (new old : ArtifactWorkflow) : outcome ArtifactWorkflow :=
  let? n := Convert_v1alpha1_ArtifactWorkflow_To_arc_ArtifactWorkflow new zeroArtifactWorkflow in
  let? o := Convert_v1alpha1_ArtifactWorkflow_To_arc_ArtifactWorkflow old zeroArtifactWorkflow in
  let? r := prepare (AnArtifactWorkflow n) (AnArtifactWorkflow o) in
  match r with
  | AnArtifactWorkflow x =>
      Convert_arc_ArtifactWorkflow_To_v1alpha1_ArtifactWorkflow x
        (mkArtifactWorkflow emptyTypeMeta noObjectMeta
           (mkArtifactWorkflowSpec "" [] noRef noRef) (mkArtifactWorkflowStatus "" ""))
  | _ => Panic "interface conversion"
  end.

(** The strategies of the four resources that are updated. *)
Definition prepareOrder := PrepareForUpdate (RegistryOrder.NewStrategy (tt : ObjectTyper)).
Definition prepareOrderStatus :=
  PrepareForUpdate (RegistryOrder.NewStatusStrategy (tt : ObjectTyper)).
Definition prepareArtifactWorkflow :=
  PrepareForUpdate (RegistryArtifactWorkflow.NewStrategy (tt : ObjectTyper)).
Definition prepareArtifactWorkflowStatus :=
  PrepareForUpdate (RegistryArtifactWorkflow.NewStatusStrategy (tt : ObjectTyper)).

Lemma storedOrder_main new old :
  storedOrder prepareOrder new old =
  Ok (mkOrder emptyTypeMeta (Order_ObjectMeta new) (Order_Spec new) (Order_Status new)).
Proof.
  destruct new as [tm m [[s d] arts] [aws]]. unfold storedOrder. cbn. do 3 f_equal.
  - f_equal. apply map_cast_id. apply cast_OrderArtifact_id.
  - f_equal. apply fmap_cast_id. apply cast_OrderArtifactWorkflowStatus_id.
Qed.

Lemma storedOrder_status new old :
  storedOrder prepareOrderStatus new old =
  Ok (mkOrder emptyTypeMeta (Order_ObjectMeta new) (Order_Spec old) (Order_Status new)).
Proof.
  destruct new as [tm m sp [aws]], old as [tm' m' [[s d] arts] st'].
  unfold storedOrder. cbn. do 3 f_equal.
  - f_equal. apply map_cast_id. apply cast_OrderArtifact_id.
  - f_equal. apply fmap_cast_id. apply cast_OrderArtifactWorkflowStatus_id.
Qed.

Lemma storedArtifactWorkflow_main new old :
  storedArtifactWorkflow prepareArtifactWorkflow new old =
  Ok (mkArtifactWorkflow emptyTypeMeta (AW_ObjectMeta new) (AW_Spec new) (AW_Status new)).
Proof.
  destruct new as [tm m [ty ps s d] [ph msg]]. unfold storedArtifactWorkflow. cbn. do 3 f_equal.
  apply map_cast_id. apply cast_ArtifactWorkflowParameter_id.
Qed.

Lemma storedArtifactWorkflow_status new old :
  storedArtifactWorkflow prepareArtifactWorkflowStatus new old =
  Ok (mkArtifactWorkflow emptyTypeMeta (AW_ObjectMeta new) (AW_Spec old) (AW_Status new)).
Proof.
  destruct new as [tm m sp [ph msg]], old as [tm' m' [ty ps s d] st'].
  unfold storedArtifactWorkflow. cbn. do 3 f_equal.
  apply map_cast_id. apply cast_ArtifactWorkflowParameter_id.
Qed.

(** ** Metadata the server maintains *)

(** The server fills in identity, version, generation and creation time; the rest of
    the metadata is the client's. *)
Definition maintained (sent stored : ObjectMeta) : Prop :=
  Name stored = Name sent /\ Namespace stored = Namespace sent /\
  Labels stored = Labels sent /\ Annotations stored = Annotations sent /\
  OwnerReferences stored = OwnerReferences sent /\ Finalizers stored = Finalizers sent /\
  DeletionTimestamp stored = DeletionTimestamp sent.

Lemma maintained_refl m : maintained m m.
Proof. by split_and!. Qed.

(** The metadata of an object that was marked for deletion at a time. *)
Lemma maintained_marked m t md :
  Time_IsZero (Some t) = false -> maintained (set_DeletionTimestamp m (Some t)) md ->
  Time_IsZero (DeletionTimestamp md) = false.
Proof. by intros Ht (_ & _ & _ & _ & _ & _ & ->). Qed.

(** An object that is being deleted goes away with its last finalizer. *)
Definition released (m : ObjectMeta) : bool :=
  negb (Time_IsZero (DeletionTimestamp m)) && bool_decide (Finalizers m = []).

Lemma released_maintained m md : maintained m md -> released md = released m.
Proof. intros (_ & _ & _ & _ & _ & Hf & Hd). unfold released. by rewrite Hf, Hd. Qed.

Lemma released_live m : Time_IsZero (DeletionTimestamp m) = true -> released m = false.
Proof. unfold released. by intros ->. Qed.

(** ** Requests *)

Definition NotFoundError : error := StatusError StatusReasonNotFound "not found".

Definition answer {A : Type} (o : option A) : error + A :=
  match o with
  | Some a => inr a
  | None => inl NotFoundError
  end.

Definition refused (reason : StatusReason) (r : option error) : Prop :=
  exists e, r = Some e /\ ReasonForError e = Some reason.

(** An update of a stored object: it must exist, and the version that was read must
    be the stored one. *)
Definition updates {A : Type} (meta : A -> ObjectMeta) (set_meta : A -> ObjectMeta -> A)
  (stored : A -> A -> outcome A) (new : A) (m m' : gmap NamespacedName A) (r : option error) :
  Prop :=
  let k := meta_key (meta new) in
  match m !! k with
  | None => m' = m /\ refused StatusReasonNotFound r
  | Some old =>
      if bool_decide (ResourceVersion (meta new) = ResourceVersion (meta old)) then
        r = None /\ exists x md, stored new old = Ok x /\ maintained (meta x) md /\
          m' = if released md then delete k m else <[k := set_meta x md]> m
      else m' = m /\ refused StatusReasonConflict r
  end.

Definition creates_in {A : Type} (meta : A -> ObjectMeta) (set_meta : A -> ObjectMeta -> A)
  (new : A) (m m' : gmap NamespacedName A) (r : option error) : Prop :=
  let k := meta_key (meta new) in
  match m !! k with
  | Some _ => m' = m /\ refused StatusReasonAlreadyExists r
  | None => r = None /\ exists md, maintained (meta new) md /\ m' = <[k := set_meta new md]> m
  end.

(** A deletion marks an object that has finalizers and removes another one. *)
Definition deletes_in {A : Type} (meta : A -> ObjectMeta) (set_meta : A -> ObjectMeta -> A)
  (k : NamespacedName) (m m' : gmap NamespacedName A) (r : option error) : Prop :=
  match m !! k with
  | None => m' = m /\ refused StatusReasonNotFound r
  | Some old =>
      r = None /\
      if bool_decide (Finalizers (meta old) = []) then m' = delete k m
      else exists t md, Time_IsZero (Some t) = false /\
             maintained (set_DeletionTimestamp (meta old) (Some t)) md /\
             m' = <[k := set_meta old md]> m
  end.

(** The fields of an order that a field selector can name. *)
Definition orderFields (o : Order) : fieldsSet :=
  match Convert_v1alpha1_Order_To_arc_Order o zeroOrder with
  | Ok x => RegistryOrder.SelectableFields x
  | _ => ∅
  end.

Definition selected (sel : list (string * string)) (ns : string) (o : Order) : Prop :=
  Namespace (Order_ObjectMeta o) = ns /\ Forall (fun kv => orderFields o !! kv.1 = Some kv.2) sel.

#[export] Instance selected_dec sel ns o : Decision (selected sel ns o).
Proof. unfold selected. apply _. Defined.

(** The labels of a selector are among the fields the registry gives. *)
Definition selectable (sel : list (string * string)) : Prop :=
  Forall (fun kv => is_Some (RegistryOrder.SelectableFields zeroOrder !! kv.1)) sel.

#[export] Instance selectable_dec sel : Decision (selectable sel).
Proof. unfold selectable. apply _. Defined.

(** A selector with a label that is not a field of the resource is refused: by the API
    server, where no conversion of field labels is registered for the type, and by the
    cache of the manager, which has no index for it.  The cache may refuse other
    selectors as well. *)
Definition lists_orders (sel : list (string * string)) (ns : string)
  (m : gmap NamespacedName Order) (r : error + list Order) : Prop :=
  match r with
  | inl _ => True
  | inr l => selectable sel /\ l ≡ₚ filter (selected sel ns) (map_to_list m).*2
  end.

Definition serves (c : call) (s s' : Cluster) : reply c -> Prop :=
  match c return reply c -> Prop with
  | GetOrder k => fun r => s' = s /\ r = answer (orders s !! k)
  | GetEndpoint k => fun r => s' = s /\ r = answer (endpoints s !! k)
  | GetSecret k => fun r => s' = s /\ r = answer (secrets s !! k)
  | GetArtifactType k => fun r => s' = s /\ r = answer (artifactTypes s !! k)
  | GetArtifactWorkflow k => fun r => s' = s /\ r = answer (artifactWorkflows s !! k)
  | GetWorkflow k => fun r => s' = s /\ r = answer (workflows s !! k)
  | ListOrders sel ns => fun r => s' = s /\ lists_orders sel ns (orders s) r
  | CreateArtifactWorkflow aw => fun r => exists m, s' = set_artifactWorkflows s m /\
      creates_in AW_ObjectMeta set_AW_ObjectMeta aw (artifactWorkflows s) m r
  | CreateWorkflow wf => fun r => exists m, s' = set_workflows s m /\
      creates_in Workflow_ObjectMeta set_Workflow_ObjectMeta wf (workflows s) m r
  | UpdateOrder o => fun r => exists m, s' = set_orders s m /\
      updates Order_ObjectMeta set_Order_ObjectMeta (storedOrder prepareOrder) o (orders s) m r
  | UpdateOrderStatus o => fun r => exists m, s' = set_orders s m /\
      updates Order_ObjectMeta set_Order_ObjectMeta (storedOrder prepareOrderStatus) o
        (orders s) m r
  | UpdateArtifactWorkflow aw => fun r => exists m, s' = set_artifactWorkflows s m /\
      updates AW_ObjectMeta set_AW_ObjectMeta (storedArtifactWorkflow prepareArtifactWorkflow)
        aw (artifactWorkflows s) m r
  | UpdateArtifactWorkflowStatus aw => fun r => exists m, s' = set_artifactWorkflows s m /\
      updates AW_ObjectMeta set_AW_ObjectMeta
        (storedArtifactWorkflow prepareArtifactWorkflowStatus) aw (artifactWorkflows s) m r
  | DeleteArtifactWorkflow md => fun r => exists m, s' = set_artifactWorkflows s m /\
      deletes_in AW_ObjectMeta set_AW_ObjectMeta (meta_key md) (artifactWorkflows s) m r
  | DeleteWorkflow md => fun r => exists m, s' = set_workflows s m /\
      deletes_in Workflow_ObjectMeta set_Workflow_ObjectMeta (meta_key md) (workflows s) m r
  end.

(** A server without faults, used by one client. *)
Class HealthyServer (S : Type) := {
  serve : handler S;
  view : S -> Cluster;
  serve_serves : forall c s, serves c (view s) (view (serve c s).1) (serve c s).2;
}.

(** ** A server in memory *)

Section memory.
Context {A : Type} (meta : A -> ObjectMeta) (set_meta : A -> ObjectMeta -> A).
Context (stamp : ObjectMeta -> ObjectMeta).

Definition mem_update (stored : A -> A -> outcome A) (new : A) (m : gmap NamespacedName A) :
  gmap NamespacedName A * option error :=
  let k := meta_key (meta new) in
  match m !! k with
  | None => (m, Some NotFoundError)
  | Some old =>
      if bool_decide (ResourceVersion (meta new) = ResourceVersion (meta old)) then
        match stored new old with
        | Ok x =>
            let md := stamp (meta x) in
            (if released md then delete k m else <[k := set_meta x md]> m, None)
        | _ => (m, None)
        end
      else (m, Some (StatusError StatusReasonConflict "conflict"))
  end.

Definition mem_create (new : A) (m : gmap NamespacedName A) :
  gmap NamespacedName A * option error :=
  let k := meta_key (meta new) in
  match m !! k with
  | Some _ => (m, Some (StatusError StatusReasonAlreadyExists "already exists"))
  | None => (<[k := set_meta new (stamp (meta new))]> m, None)
  end.

Definition mem_delete (k : NamespacedName) (m : gmap NamespacedName A) :
  gmap NamespacedName A * option error :=
  match m !! k with
  | None => (m, Some NotFoundError)
  | Some old =>
      if bool_decide (Finalizers (meta old) = []) then (delete k m, None)
      else
        let md := stamp (set_DeletionTimestamp (meta old) (Some 1%Z)) in
        (<[k := set_meta old md]> m, None)
  end.

Context (stamp_maintained : forall m, maintained m (stamp m)).

Lemma mem_update_updates stored new m :
  (forall old, exists x, stored new old = Ok x) ->
  updates meta set_meta stored new m (mem_update stored new m).1 (mem_update stored new m).2.
Proof.
  intros Hst. unfold updates, mem_update. destruct (m !! _) as [old|]; simpl.
  - case_bool_decide; simpl; [|split; [done|by eexists]].
    destruct (Hst old) as [x ->]. simpl. split; [done|].
    exists x, (stamp (meta x)). by split_and!.
  - split; [done|by eexists].
Qed.

Lemma mem_create_creates new m :
  creates_in meta set_meta new m (mem_create new m).1 (mem_create new m).2.
Proof.
  unfold creates_in, mem_create. destruct (m !! _) as [old|]; simpl.
  - split; [done|by eexists].
  - split; [done|]. exists (stamp (meta new)). by split.
Qed.

Lemma mem_delete_deletes k m :
  deletes_in meta set_meta k m (mem_delete k m).1 (mem_delete k m).2.
Proof.
  unfold deletes_in, mem_delete. destruct (m !! k) as [old|]; simpl; [|by split; [|eexists]].
  case_bool_decide; simpl; [done|]. split; [done|].
  eexists 1%Z, _. split_and!; [done|apply stamp_maintained|done].
Qed.

End memory.

(** Every write is stamped with new server metadata. *)
Definition stamping_serve (stamp : ObjectMeta -> ObjectMeta) (c : call) (s : Cluster) : Cluster * reply c :=
  match c return Cluster * reply c with
  | GetOrder k => (s, answer (orders s !! k))
  | GetEndpoint k => (s, answer (endpoints s !! k))
  | GetSecret k => (s, answer (secrets s !! k))
  | GetArtifactType k => (s, answer (artifactTypes s !! k))
  | GetArtifactWorkflow k => (s, answer (artifactWorkflows s !! k))
  | GetWorkflow k => (s, answer (workflows s !! k))
  | ListOrders sel ns =>
      (s, if decide (selectable sel)
          then inr (filter (selected sel ns) (map_to_list (orders s)).*2)
          else inl (PlainError "field label not supported"))
  | CreateArtifactWorkflow aw =>
      let (m, r) := mem_create AW_ObjectMeta set_AW_ObjectMeta stamp aw (artifactWorkflows s) in
      (set_artifactWorkflows s m, r)
  | CreateWorkflow wf =>
      let (m, r) := mem_create Workflow_ObjectMeta set_Workflow_ObjectMeta stamp wf (workflows s) in
      (set_workflows s m, r)
  | UpdateOrder o =>
      let (m, r) := mem_update Order_ObjectMeta set_Order_ObjectMeta stamp (storedOrder prepareOrder)
                      o (orders s) in
      (set_orders s m, r)
  | UpdateOrderStatus o =>
      let (m, r) := mem_update Order_ObjectMeta set_Order_ObjectMeta stamp
                      (storedOrder prepareOrderStatus) o (orders s) in
      (set_orders s m, r)
  | UpdateArtifactWorkflow aw =>
      let (m, r) := mem_update AW_ObjectMeta set_AW_ObjectMeta stamp
                      (storedArtifactWorkflow prepareArtifactWorkflow) aw (artifactWorkflows s) in
      (set_artifactWorkflows s m, r)
  | UpdateArtifactWorkflowStatus aw =>
      let (m, r) := mem_update AW_ObjectMeta set_AW_ObjectMeta stamp
                      (storedArtifactWorkflow prepareArtifactWorkflowStatus) aw
                      (artifactWorkflows s) in
      (set_artifactWorkflows s m, r)
  | DeleteArtifactWorkflow md =>
      let (m, r) := mem_delete AW_ObjectMeta set_AW_ObjectMeta stamp (meta_key md)
                      (artifactWorkflows s) in
      (set_artifactWorkflows s m, r)
  | DeleteWorkflow md =>
      let (m, r) := mem_delete Workflow_ObjectMeta set_Workflow_ObjectMeta stamp (meta_key md)
                      (workflows s) in
      (set_workflows s m, r)
  end.

Lemma stamping_serves stamp c s :
  (forall m, maintained m (stamp m)) ->
  serves c s (stamping_serve stamp c s).1 (stamping_serve stamp c s).2.
Proof.
  intros Hstamp. destruct c; simpl; try done.
  1: { split; [done|]. by destruct (decide (selectable _)). }
  all: match goal with |- context [let (_, _) := ?x in _] => destruct x as [m r] eqn:Hx end.
  all: exists m; split; [done|].
  all: match type of Hx with ?x = _ => replace m with x.1 by (by rewrite Hx);
                                       replace r with x.2 by (by rewrite Hx) end.
  all: first [by apply mem_create_creates | by apply mem_delete_deletes
             | apply mem_update_updates; [done|]; intros old].
  - eexists. apply storedOrder_main.
  - eexists. apply storedArtifactWorkflow_main.
  - eexists. apply storedOrder_status.
  - eexists. apply storedArtifactWorkflow_status.
Qed.

Definition memory_serve : handler Cluster := stamping_serve (fun m => m).

#[export] Program Instance memory_server : HealthyServer Cluster := {|
  serve := memory_serve;
  view := fun s => s;
|}.
Next Obligation. intros c s. apply stamping_serves, maintained_refl. Qed.

(** ** Runs against a healthy server

    [leads p s t Q]: from the objects [s], after the trace [t], every run of [p]
    against a healthy server ends in objects, a trace and an outcome with [Q].  The
    run is total: a program is a finite tree, and a server answers every request. *)

Fixpoint leads {A : Type} (p : prog A) (s : Cluster) (t : list event)
  (Q : Cluster -> list event -> outcome A -> Prop) : Prop :=
  match p with
  | Ret a => Q s t (Ok a)
  | Fail e => Q s t (Err e)
  | Crash m => Q s t (Panic m)
  | Call c k => forall s' r, serves c s s' r -> leads (k r) s' (t ++ [ev c r])%list Q
  end.

(** The runs of a program against healthy servers, as a relation. *)
Fixpoint steps {A : Type} (p : prog A) (s s' : Cluster) (o : outcome A) : Prop :=
  match p with
  | Ret a => s' = s /\ o = Ok a
  | Fail e => s' = s /\ o = Err e
  | Crash m => s' = s /\ o = Panic m
  | Call c k => exists s1 r, serves c s s1 r /\ steps (k r) s1 s' o
  end.

Section leads.
Context {A : Type}.
Implicit Types (p : prog A) (Q : Cluster -> list event -> outcome A -> Prop).

Lemma leads_run {S : Type} `{HealthyServer S} p (s : S) t Q :
  leads p (view s) t Q ->
  Q (view (run serve p s).1) (t ++ run_trace serve p s)%list (run serve p s).2.
Proof.
  revert s t. induction p as [a|e|m|c k IH]; intros s t; simpl.
  1-3: by rewrite app_nil_r.
  intros Hl. pose proof (serve_serves c s) as Hs.
  destruct (serve c s) as [s' r]. simpl in *.
  specialize (IH r s' _ (Hl _ _ Hs)). by rewrite <- app_assoc in IH.
Qed.

Lemma leads_steps p s t Q s' o :
  leads p s t Q -> steps p s s' o -> exists t', Q s' t' o.
Proof.
  revert s t. induction p as [a|e|m|c k IH]; intros s t; simpl.
  1-3: intros HQ [-> ->]; eauto.
  intros Hl (s1 & r & Hs & Hst). by eapply IH; [apply Hl|].
Qed.

(** The run against a server is one of them. *)
Lemma run_steps {S : Type} `{HealthyServer S} p (s : S) :
  steps p (view s) (view (run serve p s).1) (run serve p s).2.
Proof.
  revert s. induction p as [a|e|m|c k IH]; intros s; simpl; [done..|].
  pose proof (serve_serves c s) as Hs. destruct (serve c s) as [s1 r]. eauto.
Qed.

Lemma leads_mono p s t Q Q' :
  (forall s t o, Q s t o -> Q' s t o) -> leads p s t Q -> leads p s t Q'.
Proof. intros HQ. revert s t. induction p; simpl; eauto. Qed.

Lemma leads_bind {B : Type} p (f : A -> prog B) s t
  (Q : Cluster -> list event -> outcome B -> Prop) :
  leads p s t (fun s t o => match o with
                            | Ok a => leads (f a) s t Q
                            | Err e => Q s t (Err e)
                            | Panic m => Q s t (Panic m)
                            end) ->
  leads (bind p f) s t Q.
Proof. revert s t. induction p; simpl; eauto. Qed.

End leads.

(** The rule for loops: an invariant over the elements already visited. *)
Lemma leads_for_each_exit {A St : Type} (Inv : list A -> St -> Cluster -> list event -> Prop)
  (l : list A) (body : A -> St -> prog St) (st : St) s t Q :
  Inv []%list st s t ->
  (forall done x rest st s t, l = (done ++ x :: rest)%list -> Inv done st s t ->
     leads (body x st) s t
       (fun s t o => match o with
                     | Ok st => Inv (done ++ [x])%list st s t
                     | Err e => Q s t (Err e)
                     | Panic m => Q s t (Panic m)
                     end)) ->
  (forall st s t, Inv l st s t -> Q s t (Ok st)) ->
  leads (for_each l body st) s t Q.
Proof.
  intros H0 Hbody HQ.
  enough (forall rest done st s t, l = (done ++ rest)%list -> Inv done st s t ->
            leads (for_each rest body st) s t Q) as Hgo by (by apply (Hgo l []%list)).
  induction rest as [|x rest IH]; intros done st' s' t' Hl Hinv; simpl.
  - apply HQ. by rewrite Hl, app_nil_r.
  - apply leads_bind. eapply leads_mono; [|by eapply Hbody].
    intros s'' t'' [st''|e|m] Ho; [|done..].
    apply (IH (done ++ [x])%list); [|done]. by rewrite <- app_assoc.
Qed.

(** The same for a loop that does not stop early. *)
Lemma leads_for_each {A St : Type} (Inv : list A -> St -> Cluster -> list event -> Prop)
  (l : list A) (body : A -> St -> prog St) (st : St) s t Q :
  Inv []%list st s t ->
  (forall done x rest st s t, l = (done ++ x :: rest)%list -> Inv done st s t ->
     leads (body x st) s t
       (fun s t o => exists st, o = Ok st /\ Inv (done ++ [x])%list st s t)) ->
  (forall st s t, Inv l st s t -> Q s t (Ok st)) ->
  leads (for_each l body st) s t Q.
Proof.
  intros H0 Hbody HQ. apply (leads_for_each_exit Inv); [done| |done].
  intros done x rest st' s' t' Hl Hinv. eapply leads_mono; [|by eapply Hbody].
  by intros s'' t'' o (st'' & -> & Hinv').
Qed.

(** ** Runs that are cut off

    A process can stop between any two calls.  [partial p s s'] says that a run of [p]
    from [s] can be at [s'] at some point; [keeps I p s Q] that [I] holds at every
    point of every run from [s], and [Q] of where it ends. *)

Fixpoint partial {A : Type} (p : prog A) (s s' : Cluster) : Prop :=
  s' = s \/
  match p with
  | Call c k => exists s1 r, serves c s s1 r /\ partial (k r) s1 s'
  | _ => False
  end.

Fixpoint keeps {A : Type} (I : Cluster -> Prop) (p : prog A) (s : Cluster)
  (Q : Cluster -> outcome A -> Prop) : Prop :=
  I s /\
  match p with
  | Ret a => Q s (Ok a)
  | Fail e => Q s (Err e)
  | Crash m => Q s (Panic m)
  | Call c k => forall s' r, serves c s s' r -> keeps I (k r) s' Q
  end.

(** The first calls of a run. *)
Fixpoint runFor {S A : Type} `{HealthyServer S} (n : nat) (p : prog A) (s : S) : S :=
  match n, p with
  | Datatypes.S n, Call c k => let (s', r) := serve c s in runFor n (k r) s'
  | _, _ => s
  end.

Lemma runFor_partial {S A : Type} `{HealthyServer S} n (p : prog A) (s : S) :
  partial p (view s) (view (runFor n p s)).
Proof.
  revert p s. induction n as [|n IH]; intros p s; [destruct p; by left|].
  destruct p as [a|e|m|c k]; [by left..|]. simpl.
  pose proof (serve_serves c s) as Hs. destruct (serve c s) as [s' r]. right. eauto.
Qed.

(** A run that has ended is one that was cut off at its end. *)
Lemma steps_partial {A : Type} (p : prog A) s s' o : steps p s s' o -> partial p s s'.
Proof.
  revert s. induction p as [a|e|m|c k IH]; intros s; simpl.
  1-3: by intros [-> _]; left.
  intros (s1 & r & Hs & Hst). right. eauto.
Qed.

(** The programs that only read, and those that make at most one call. *)
Fixpoint readonly {A : Type} (p : prog A) : Prop :=
  match p with
  | Call c k => mutating c = false /\ forall r, readonly (k r)
  | _ => True
  end.

Definition silent {A : Type} (p : prog A) : Prop :=
  match p with Call _ _ => False | _ => True end.

Definition single {A : Type} (p : prog A) : Prop :=
  match p with Call _ k => forall r, silent (k r) | _ => True end.

Lemma readonly_bind {A B : Type} (p : prog A) (f : A -> prog B) :
  readonly p -> (forall a, readonly (f a)) -> readonly (bind p f).
Proof. intros Hp Hf. induction p as [a|e|m|c k IH]; simpl in *; [by apply Hf|done..|]. naive_solver. Qed.

Lemma readonly_for_each {A St : Type} (l : list A) (body : A -> St -> prog St) st :
  (forall x st, readonly (body x st)) -> readonly (for_each l body st).
Proof.
  intros Hb. revert st. induction l as [|x l IH]; intros st; simpl; [done|].
  apply readonly_bind; auto.
Qed.

Lemma serves_read c s s' r : mutating c = false -> serves c s s' r -> s' = s.
Proof. destruct c; simpl; naive_solver. Qed.

Section keeps.
Context {A : Type} (I : Cluster -> Prop).
Implicit Types (p : prog A) (Q : Cluster -> outcome A -> Prop).

Lemma keeps_partial p s Q s' : keeps I p s Q -> partial p s s' -> I s'.
Proof.
  revert s. induction p as [a|e|m|c k IH]; intros s [HI Hp]; simpl in *.
  1-3: by intros [->|[]].
  intros [->|(s1 & r & Hs & Hst)]; [done|]. by eapply IH; [apply Hp|].
Qed.

Lemma keeps_leads p s t Q : keeps I p s Q -> leads p s t (fun s' _ o => Q s' o).
Proof.
  revert s t. induction p as [a|e|m|c k IH]; intros s t [_ Hp]; simpl in *; [done..|]. eauto.
Qed.

Lemma keeps_mono p s Q Q' : (forall s o, Q s o -> Q' s o) -> keeps I p s Q -> keeps I p s Q'.
Proof.
  intros HQ. revert s. induction p as [a|e|m|c k IH]; intros s [HI Hp]; simpl in *.
  all: split; eauto.
Qed.

Lemma keeps_readonly p s t Q :
  readonly p -> I s -> leads p s t (fun s' _ o => s' = s -> Q s' o) -> keeps I p s Q.
Proof.
  intros Hr HI. revert t. induction p as [a|e|m|c k IH]; intros t Hl; simpl in *; [auto..|].
  destruct Hr as [Hc Hr]. split; [done|]. intros s' r Hs.
  pose proof (serves_read _ _ _ _ Hc Hs) as ->. eapply IH; [done|]. by apply Hl.
Qed.

Lemma keeps_single p s t Q :
  single p -> I s -> leads p s t (fun s' _ o => I s' /\ Q s' o) -> keeps I p s Q.
Proof.
  intros Hp HI Hl. destruct p as [a|e|m|c k]; simpl in *; [naive_solver..|].
  split; [done|]. intros s' r Hs. specialize (Hl s' r Hs). specialize (Hp r).
  by destruct (k r); simpl in *; naive_solver.
Qed.

Lemma keeps_bind {B : Type} p (f : A -> prog B) s (Q : Cluster -> outcome B -> Prop) :
  keeps I p s (fun s o => match o with
                          | Ok a => keeps I (f a) s Q
                          | Err e => Q s (Err e)
                          | Panic m => Q s (Panic m)
                          end) ->
  keeps I (bind p f) s Q.
Proof.
  revert s. induction p as [a|e|m|c k IH]; intros s [HI Hp]; simpl in *; [done|split; done..|].
  split; [done|]. eauto.
Qed.

End keeps.

Lemma keeps_weaken {A : Type} (I I' : Cluster -> Prop) (p : prog A) s Q :
  (forall s, I s -> I' s) -> keeps I p s Q -> keeps I' p s Q.
Proof.
  intros HI. revert s. induction p as [a|e|m|c k IH]; intros s [Hs Hp]; simpl in *.
  all: split; eauto.
Qed.

(** The rule for loops that do not stop early. *)
Lemma keeps_for_each {A St : Type} (I : Cluster -> Prop) (Inv : list A -> St -> Cluster -> Prop)
  (l : list A) (body : A -> St -> prog St) (st : St) s Q :
  Inv []%list st s ->
  (forall done st s, Inv done st s -> I s) ->
  (forall done x rest st s, l = (done ++ x :: rest)%list -> Inv done st s ->
     keeps I (body x st) s (fun s o => exists st, o = Ok st /\ Inv (done ++ [x])%list st s)) ->
  (forall st s, Inv l st s -> Q s (Ok st)) ->
  keeps I (for_each l body st) s Q.
Proof.
  intros H0 HI Hbody HQ.
  enough (forall rest done st s, l = (done ++ rest)%list -> Inv done st s ->
            keeps I (for_each rest body st) s Q) as Hgo by (by apply (Hgo l []%list)).
  induction rest as [|x rest IH]; intros done st' s' Hl Hinv; simpl.
  - split; [by eapply HI|]. apply HQ. by rewrite Hl, app_nil_r.
  - apply keeps_bind. eapply keeps_mono; [|by eapply Hbody].
    intros s'' o (st'' & -> & Hinv'). apply (IH (done ++ [x])%list); [|done].
    by rewrite <- app_assoc.
Qed.
