(* ===== verification/Errors.v ===== *)
(** * pkg/controller/errors.go

    Logging and wrapping of errors.  The log line is part of the result. *)

From stdpp Require Import base strings.
From Stdlib Require Import Ascii.
From S2P Require Import Prelude GoStd.

Local Open Scope string_scope.

(** [errLogAndWrap(log, err, text)]: the text given to [log.Error], if any, and
    the error returned. *)
Definition errLogAndWrap (err : error) (text : string) : option string * error :=
  match text with
  | EmptyString => (None, err)
  | String c EmptyString => (Some (ToUpper1 c), Errorf_wrap text err)
  | String c rest => (Some (ToUpper1 c +++ rest), Errorf_wrap text err)
  end.

(** The error alone. *)
Definition wrapped (err : error) (text : string) : error := (errLogAndWrap err text).2.

(** Wrapping with a text that has no verb keeps the reason, so a caller can still
    ask whether the object was not found. *)
Lemma wrapped_reason err text :
  has_verb text = false -> ReasonForError (wrapped err text) = ReasonForError err.
Proof.
  intros Hv. unfold wrapped, errLogAndWrap.
  destruct text as [|c [|c' rest]]; [done| |]; by apply ReasonForError_wrap.
Qed.

(** The error that is returned for a text without verbs. *)
Lemma wrapped_eq err text :
  text <> "" -> has_verb text = false -> wrapped err text = WrapError text err.
Proof.
  intros Ht Hv. unfold wrapped, errLogAndWrap, Errorf_wrap.
  destruct text as [|c [|c' rest]]; [done| |]; cbn [snd]; by rewrite Hv.
Qed.
