(* ===== verification/ControllerRuntime.v ===== *)
(** * What the two controllers share

    [ctrl.Result], the contract of [controllerutil.SetControllerReference], which is
    not part of the repository, [namespacedName] of order_controller.go, and the two
    ways an error of a call is turned into the error of [Reconcile]. *)

From stdpp Require Import base gmap list strings.
From S2P Require Import Prelude GoStd KubeTypes Client Errors.

Local Open Scope string_scope.
Local Open Scope list_scope.

(** [ctrl.Result]. *)
Record Result := mkResult { Requeue : bool }.

(** [controllerutil.SetControllerReference(owner, controlled, scheme)]: the owner's
    kind and metadata, and the controlled object's metadata.  For an object without
    owner references, success changes nothing but those references: the owner is the
    only one, as the controller.  Such an object in the owner's namespace can be
    owned. *)
Class ControllerUtil := {
  SetControllerReference : string -> ObjectMeta -> ObjectMeta -> error + ObjectMeta;
  SetControllerReference_frame : forall kind owner m m',
    OwnerReferences m = [] -> SetControllerReference kind owner m = inr m' ->
    exists ref, m' = set_OwnerReferences m [ref]
      /\ OwnerReference_Kind ref = kind
      /\ OwnerReference_Name ref = Name owner
      /\ OwnerReference_UID ref = UID owner
      /\ OwnerReference_Controller ref = Some true;
  SetControllerReference_fresh : forall kind owner m,
    OwnerReferences m = [] -> Namespace m = Namespace owner ->
    exists m', SetControllerReference kind owner m = inr m';
}.

(** ** Helpers *)

Definition namespacedName (namespace name : string) : NamespacedName :=
  mkNamespacedName namespace name.

(** A call whose error is logged, wrapped and returned. *)
Definition must {A : Type} (text : string) (r : error + A) : prog A :=
  match r with
  | inl err => Fail (wrapped err text)
  | inr a => Ret a
  end.

Definition check (text : string) (r : option error) : prog unit :=
  match r with
  | Some err => Fail (wrapped err text)
  | None => Ret tt
  end.

(** ** A concrete [SetControllerReference]

    It appends the reference, and refuses an object that has a controller already or
    lives in another namespace. *)

Definition plain_SetControllerReference (kind : string) (owner m : ObjectMeta) :
  error + ObjectMeta :=
  if bool_decide (Namespace m = Namespace owner)
     && forallb (fun r => negb (default false (OwnerReference_Controller r))) (OwnerReferences m)
  then inr (set_OwnerReferences m (OwnerReferences m ++
              [mkOwnerReference "arc.bwi.de/v1alpha1" kind (Name owner) (UID owner)
                 (Some true) (Some true)]))
  else inl (PlainError "cannot own the object").

Program Definition plain_util : ControllerUtil := {|
  SetControllerReference := plain_SetControllerReference;
|}.
Next Obligation.
  unfold plain_SetControllerReference. intros kind owner m m' Href Hm.
  case_match; simplify_eq. rewrite Href. by eexists.
Qed.
Next Obligation.
  unfold plain_SetControllerReference. intros kind owner m Href Hns.
  rewrite bool_decide_true by done. rewrite Href. simpl. by eexists.
Qed.

(** ** Rules for the helpers *)

Lemma wp_must {A} text (r : error + A) Q t :
  (forall e, r = inl e -> Q t (Err (wrapped e text))) ->
  (forall a, r = inr a -> Q t (Ok a)) ->
  wp (must text r) Q t.
Proof. destruct r; simpl; auto. Qed.

Lemma wp_check text r Q t :
  (forall e, r = Some e -> Q t (Err (wrapped e text))) ->
  (r = None -> Q t (Ok tt)) ->
  wp (check text r) Q t.
Proof. destruct r; simpl; auto. Qed.
