(* ===== verification/WorkflowParameters.v ===== *)
(** * The parameters of an artifact workflow (pkg/controller/order_controller.go)

    [desiredAW], [paramName], [flattenMap], [dawToParameters] and
    [hydrateArtifactWorkflow]: how the endpoints and the free-form spec of an
    ordered artifact become the string parameters of its ArtifactWorkflow. *)

From stdpp Require Import base gmap list strings sorting.
From Stdlib Require Import Strings.Byte.
From S2P Require Import Prelude GoStd JsonEncode JsonDecode KubeTypes V1alpha1Types.

Local Open Scope string_scope.
Local Open Scope list_scope.

(** ** Data *)

Record desiredAW := mkDesiredAW {
  index : nat;
  objectMeta : ObjectMeta;
  artifact : OrderArtifact;
  srcEndpoint : Endpoint;
  dstEndpoint : Endpoint;
  srcSecret : Secret;
  dstSecret : Secret;
}.

Section parameters.
Context `{GoRuntime} `{Float64}.

(** ** [fmt.Sprintf("%v", value)] of a decoded JSON value

    A nil interface prints as <nil>, a slice as [[a b]], and a map as
    [map[k:v ...]] with its keys in order. *)

Fixpoint join (sep : string) (l : list string) : string :=
  match l with
  | [] => ""
  | [s] => s
  | s :: l => s +++ sep +++ join sep l
  end.

Fixpoint insert_key (k : string) (v : string) (l : list (string * string)) :
  list (string * string) :=
  match l with
  | [] => [(k, v)]
  | (k', v') :: rest =>
      if String.leb k k' then (k, v) :: l else (k', v') :: insert_key k v rest
  end.

Fixpoint Sprint_any (v : json) : string :=
  match v with
  | JNull => "<nil>"
  | JBool b => Sprint_bool b
  | JNum lit => default lit (float64_of_literal lit)
  | JStr s => s
  | JArr vs => "[" +++ join " " (map Sprint_any vs) +++ "]"
  | JObj kvs =>
      let sorted := foldr (fun kv acc => insert_key kv.1 kv.2 acc) []
                      (map (fun kv => (kv.1, Sprint_any kv.2)) kvs) in
      "map[" +++ join " " (map (fun kv => kv.1 +++ ":" +++ kv.2) sorted) +++ "]"
  end.

(** ** [paramName] *)

Definition paramName (prefix suffix : string) : outcome string :=
  let? s := upperFirst suffix in Ok (prefix +++ s).

(** ** [flattenMap] *)

(** [for i, av := range child { dst[prefix+kt+strconv.Itoa(i)] = av }] *)
Fixpoint flattenSlice (prefix kt : string) (i : nat) (child : list json)
  (dst : gmap string json) : gmap string json :=
  match child with
  | [] => dst
  | av :: child =>
      flattenSlice prefix kt (S i) child (<[prefix +++ kt +++ Itoa i := av]> dst)
  end.

(** The body of the loop of [flattenMap] for one entry: the name is capitalised
    first, which panics on an empty key. *)
Fixpoint flattenEntry (prefix k : string) (v : json) (dst : gmap string json) :
  outcome (gmap string json) :=
  let? kt := upperFirst k in
  match v with
  | JObj child =>
      (fix go (src : list (string * json)) (dst : gmap string json) :=
         match src with
         | [] => Ok dst
         | (k', v') :: src =>
             let? dst' := flattenEntry (prefix +++ k) k' v' dst in go src dst'
         end) child dst
  | JArr child => Ok (flattenSlice prefix kt 0 child dst)
  | _ => Ok (<[prefix +++ kt := v]> dst)
  end.

Fixpoint flattenMap (prefix : string) (src : list (string * json))
  (dst : gmap string json) : outcome (gmap string json) :=
  match src with
  | [] => Ok dst
  | (k, v) :: src =>
      let? dst' := flattenEntry prefix k v dst in flattenMap prefix src dst'
  end.

(** The entries of a decoded object in the order in which the [range] of
    [flattenMap] visits them, and so for the objects below it. *)
Fixpoint visited (v : json) : json :=
  match v with
  | JObj kvs =>
      JObj (range_entries "flattenMap" (map (fun kv => (kv.1, visited kv.2)) kvs))
  | _ => v
  end.

Definition visitedMap (src : list (string * json)) : list (string * json) :=
  range_entries "flattenMap" (map (fun kv => (kv.1, visited kv.2)) src).

(** ** [dawToParameters] *)

Definition hasSecret (ep : Endpoint) : bool :=
  string_nonempty (Ref_Name (EPSpec_SecretRef (EP_Spec ep))).

Definition dawToParameters (daw : desiredAW) : outcome (list ArtifactWorkflowParameter) :=
  let src := EP_Spec (srcEndpoint daw) in
  let dst := EP_Spec (dstEndpoint daw) in
  let? srcType := paramName "src" "type" in
  let? srcRemoteURL := paramName "src" "remoteURL" in
  let? dstType := paramName "dst" "type" in
  let? dstRemoteURL := paramName "dst" "remoteURL" in
  let params :=
    [ mkArtifactWorkflowParameter srcType (EPSpec_Type src);
      mkArtifactWorkflowParameter srcRemoteURL (EPSpec_RemoteURL src);
      mkArtifactWorkflowParameter dstType (EPSpec_Type dst);
      mkArtifactWorkflowParameter dstRemoteURL (EPSpec_RemoteURL dst);
      mkArtifactWorkflowParameter "srcSecret" (Sprint_bool (hasSecret (srcEndpoint daw)));
      mkArtifactWorkflowParameter "dstSecret" (Sprint_bool (hasSecret (dstEndpoint daw))) ] in
  let raw := default [] (Raw (Artifact_Spec (artifact daw))) in
  let raw := if bool_decide (length raw = 0) then bytes_of "{}" else raw in
  let? spec := Unmarshal_map raw in
  let? flattened := flattenMap "spec" (visitedMap spec) ∅ in
  Ok (params ++
      map (fun nv => mkArtifactWorkflowParameter nv.1 (Sprint_any nv.2))
          (range_order ("dawToParameters/" +++ Name (objectMeta daw)) flattened)).

(** ** [hydrateArtifactWorkflow] *)

Definition hydrateArtifactWorkflow (daw : desiredAW) : outcome ArtifactWorkflow :=
  let? params := dawToParameters daw in
  Ok (mkArtifactWorkflow emptyTypeMeta (objectMeta daw)
        (mkArtifactWorkflowSpec (Artifact_Type (artifact daw)) params
           (EPSpec_SecretRef (EP_Spec (srcEndpoint daw)))
           (EPSpec_SecretRef (EP_Spec (dstEndpoint daw))))
        (mkArtifactWorkflowStatus WorkflowUnknown "")).

End parameters.
