(* ===== verification/WorkflowParameterTheorems.v ===== *)
(** * The parameters of an artifact workflow: facts and theorems

    [assignments] lists what [flattenMap] assigns, in order: the map it fills is the
    result of these assignments, it panics exactly on an empty key, and where the
    assigned names differ the order in which Go visits maps does not matter. *)

From stdpp Require Import base gmap list strings sorting.
From Stdlib Require Import Strings.Byte.
From S2P Require Import Prelude GoStd JsonEncode JsonDecode KubeTypes V1alpha1Types.
From S2P Require Import WorkflowParameters.

Local Open Scope string_scope.
Local Open Scope list_scope.

(** ** Induction on JSON values *)

Section json_ind.
Context (P : json -> Prop).
Hypothesis HNull : P JNull.
Hypothesis HBool : forall b, P (JBool b).
Hypothesis HNum : forall lit, P (JNum lit).
Hypothesis HStr : forall s, P (JStr s).
Hypothesis HArr : forall vs, P (JArr vs).
Hypothesis HObj : forall kvs, Forall (fun kv => P kv.2) kvs -> P (JObj kvs).

Fixpoint json_object_ind (v : json) : P v :=
  match v with
  | JNull => HNull
  | JBool b => HBool b
  | JNum lit => HNum lit
  | JStr s => HStr s
  | JArr vs => HArr vs
  | JObj kvs =>
      HObj kvs ((fix go (kvs : list (string * json)) : Forall (fun kv => P kv.2) kvs :=
                   match kvs with
                   | [] => Forall_nil_2 _
                   | kv :: kvs => Forall_cons_2 _ kv kvs (json_object_ind kv.2) (go kvs)
                   end) kvs)
  end.
End json_ind.

(** ** Specification *)

(** [strings.ToUpper(k[:1]) + k[1:]] of a nonempty key. *)
Definition capitalised (k : string) : string :=
  match k with
  | EmptyString => ""
  | String c rest => ToUpper1 c +++ rest
  end.

Definition indexed (name : string) (vs : list json) : list (string * json) :=
  imap (fun i v => (name +++ Itoa i, v)) vs.

(** The assignments for one entry of an object, in order. *)
Fixpoint assignsEntry (prefix k : string) (v : json) : list (string * json) :=
  match v with
  | JObj child => concat (map (fun kv => assignsEntry (prefix +++ k) kv.1 kv.2) child)
  | JArr child => indexed (prefix +++ capitalised k) child
  | _ => [(prefix +++ capitalised k, v)]
  end.

Definition assignments (prefix : string) (src : list (string * json)) : list (string * json) :=
  concat (map (fun kv => assignsEntry prefix kv.1 kv.2) src).

(** Is there an empty key, in the object or in an object below it?  The keys of
    objects inside arrays do not count: arrays are not descended into. *)
Fixpoint emptyKeyEntry (k : string) (v : json) : bool :=
  negb (string_nonempty k) ||
  match v with
  | JObj child => existsb (fun kv => emptyKeyEntry kv.1 kv.2) child
  | _ => false
  end.

Definition emptyKey (src : list (string * json)) : bool :=
  existsb (fun kv => emptyKeyEntry kv.1 kv.2) src.

Definition assign (l : list (string * json)) (dst : gmap string json) : gmap string json :=
  fold_left (fun m kv => <[kv.1 := kv.2]> m) l dst.

(** ** The code follows the specification *)

Lemma assign_app l1 l2 dst : assign (l1 ++ l2) dst = assign l2 (assign l1 dst).
Proof. apply fold_left_app. Qed.

Lemma flattenSlice_assign prefix kt child dst :
  flattenSlice prefix kt 0 child dst = assign (indexed (prefix +++ kt) child) dst.
Proof.
  unfold indexed. enough (forall i dst, flattenSlice prefix kt i child dst =
    assign (imap (fun j v => (prefix +++ kt +++ Itoa (i + j), v)) child) dst) as Hgo.
  { rewrite Hgo. f_equal. apply imap_ext. intros j v _. by rewrite append_assoc. }
  induction child as [|v child IH]; intros i d; [done|]. simpl. rewrite IH, Nat.add_0_r.
  unfold assign. f_equal. apply imap_ext. intros j w _. simpl. by rewrite Nat.add_succ_r.
Qed.

Lemma upperFirst_Ok k : string_nonempty k = true -> upperFirst k = Ok (capitalised k).
Proof. by destruct k. Qed.

Lemma upperFirst_empty k : string_nonempty k = false -> exists m, upperFirst k = Panic m.
Proof. destruct k; [|done]. by eexists. Qed.

(** The loop over the entries of an object inside [flattenEntry] is [flattenMap]. *)
Lemma flattenEntry_obj prefix k child dst :
  flattenEntry prefix k (JObj child) dst =
  match upperFirst k with
  | Ok _ => flattenMap (prefix +++ k) child dst
  | Err e => Err e
  | Panic m => Panic m
  end.
Proof.
  simpl. destruct (upperFirst k); simpl; [|done..]. revert dst.
  induction child as [|[k' v'] child IH]; intros dst; simpl; [done|].
  destruct (flattenEntry (prefix +++ k) k' v' dst); simpl; [apply IH|done..].
Qed.

(** Without empty keys the map is the result of the assignments, with one it is a
    panic. *)
Definition flattens (o : outcome (gmap string json)) (bad : bool) (l : list (string * json))
  (dst : gmap string json) : Prop :=
  if bad then exists m, o = Panic m else o = Ok (assign l dst).

Lemma flattenMap_of_entries prefix src dst :
  Forall (fun kv => forall dst,
    flattens (flattenEntry prefix kv.1 kv.2 dst) (emptyKeyEntry kv.1 kv.2)
      (assignsEntry prefix kv.1 kv.2) dst) src ->
  flattens (flattenMap prefix src dst) (emptyKey src) (assignments prefix src) dst.
Proof.
  intros Hall. revert dst. induction Hall as [|[k v] src Hkv _ IH]; intros dst; [done|].
  unfold flattens, emptyKey, assignments in *. simpl in *. specialize (Hkv dst).
  destruct (emptyKeyEntry k v); simpl in *.
  - destruct Hkv as [m ->]. by exists m.
  - rewrite Hkv. simpl. specialize (IH (assign (assignsEntry prefix k v) dst)).
    by rewrite assign_app.
Qed.

Lemma flattenEntry_flattens v : forall prefix k dst,
  flattens (flattenEntry prefix k v dst) (emptyKeyEntry k v) (assignsEntry prefix k v) dst.
Proof.
  unfold flattens.
  induction v as [|b|lit|s|vs|kvs IH] using json_object_ind; intros prefix k dst.
  6: { rewrite flattenEntry_obj. simpl emptyKeyEntry. destruct (string_nonempty k) eqn:Hk.
    - rewrite upperFirst_Ok by done.
      apply (flattenMap_of_entries (prefix +++ k) kvs dst).
      eapply Forall_impl; [exact IH|]. intros [k' v'] Hv dst'. apply Hv.
    - destruct (upperFirst_empty k Hk) as [m ->]. by exists m. }
  all: simpl; destruct (string_nonempty k) eqn:Hk; simpl;
    [rewrite upperFirst_Ok by done|destruct (upperFirst_empty k Hk) as [m ->]; by exists m].
  1-4: done.
  simpl. by rewrite flattenSlice_assign.
Qed.

Lemma flattenMap_flattens prefix src dst :
  flattens (flattenMap prefix src dst) (emptyKey src) (assignments prefix src) dst.
Proof.
  apply flattenMap_of_entries. apply Forall_forall. intros [k v] _ dst'.
  apply flattenEntry_flattens.
Qed.

(** Distinct names can be assigned in any order. *)
Lemma assign_lookup l dst k :
  NoDup l.*1 ->
  assign l dst !! k = match (list_to_map l : gmap string json) !! k with
                      | Some v => Some v
                      | None => dst !! k
                      end.
Proof.
  revert dst. induction l as [|[k' v] l IH]; intros dst Hnd; [done|].
  simpl in Hnd. apply NoDup_cons in Hnd as [Hno Hnd]. cbn. fold (assign l (<[k':=v]> dst)).
  rewrite IH by done. destruct (decide (k' = k)) as [->|Hne].
  - rewrite lookup_insert_eq. by rewrite not_elem_of_list_to_map_1, lookup_insert_eq.
  - by rewrite !lookup_insert_ne by done.
Qed.

Lemma assign_perm l1 l2 : NoDup l1.*1 -> l1 ≡ₚ l2 -> assign l1 ∅ = assign l2 ∅.
Proof.
  intros Hnd Hp. apply map_eq. intros k.
  rewrite !assign_lookup by (done || by rewrite <- Hp).
  by rewrite (list_to_map_proper l1 l2).
Qed.

(** ** The order of [range] *)

Section visited.
Context `{GoRuntime}.

Lemma concat_map_perm {A B} (f : A -> list B) l1 l2 :
  l1 ≡ₚ l2 -> concat (map f l1) ≡ₚ concat (map f l2).
Proof.
  intros Hp. induction Hp as [|x l1 l2 _ IH|x y l|l1 l2 l3 _ IH1 _ IH2]; simpl.
  - done.
  - by rewrite IH.
  - rewrite !app_assoc. by rewrite (Permutation_app_comm (f y)).
  - by rewrite IH1.
Qed.

Lemma concat_map_Forall_perm {A B C} (f : A -> list C) (g : B -> list C) (h : A -> B) l :
  Forall (fun a => g (h a) ≡ₚ f a) l -> concat (map g (map h l)) ≡ₚ concat (map f l).
Proof. induction 1 as [|a l Ha _ IH]; simpl; [done|]. by rewrite Ha, IH. Qed.

Lemma assignsEntry_visited v : forall prefix k,
  assignsEntry prefix k (visited v) ≡ₚ assignsEntry prefix k v.
Proof.
  induction v as [|b|lit|s|vs|kvs IH] using json_object_ind; intros prefix k; try done.
  simpl. rewrite (concat_map_perm _ _ _ (range_entries_perm _ "flattenMap" _)).
  apply concat_map_Forall_perm. eapply Forall_impl; [exact IH|]. intros [k' v'] Hv. apply Hv.
Qed.

Lemma assignments_visited prefix src :
  assignments prefix (visitedMap src) ≡ₚ assignments prefix src.
Proof.
  unfold assignments, visitedMap.
  rewrite (concat_map_perm _ _ _ (range_entries_perm _ "flattenMap" _)).
  apply concat_map_Forall_perm. apply Forall_forall. intros [k v] _. apply assignsEntry_visited.
Qed.

Lemma existsb_perm {A} (f : A -> bool) l1 l2 : l1 ≡ₚ l2 -> existsb f l1 = existsb f l2.
Proof.
  intros Hp. apply eq_true_iff_eq. rewrite !existsb_exists.
  setoid_rewrite <- list_elem_of_In. by setoid_rewrite Hp.
Qed.

Lemma emptyKeyEntry_visited v : forall k, emptyKeyEntry k (visited v) = emptyKeyEntry k v.
Proof.
  induction v as [|b|lit|s|vs|kvs IH] using json_object_ind; intros k; try done.
  simpl. f_equal. rewrite (existsb_perm _ _ _ (range_entries_perm _ "flattenMap" _)).
  induction IH as [|[k' v'] kvs Hv _ IH]; simpl; [done|]. by rewrite Hv, IH.
Qed.

Lemma emptyKey_visited src : emptyKey (visitedMap src) = emptyKey src.
Proof.
  unfold emptyKey, visitedMap. rewrite (existsb_perm _ _ _ (range_entries_perm _ "flattenMap" _)).
  induction src as [|[k v] src IH]; simpl; [done|]. by rewrite emptyKeyEntry_visited, IH.
Qed.

End visited.

(** * The parameters of an artifact workflow *)

Section theorems.
Context `{GoRuntime} `{Float64}.

(** The raw spec that is decoded. *)
Definition rawSpec (daw : desiredAW) : list byte :=
  let raw := default [] (Raw (Artifact_Spec (artifact daw))) in
  if bool_decide (length raw = 0) then bytes_of "{}" else raw.

Definition toParam (nv : string * json) : ArtifactWorkflowParameter :=
  mkArtifactWorkflowParameter nv.1 (Sprint_any nv.2).

(** The parameters every artifact workflow has. *)
Definition endpointParams (daw : desiredAW) : list ArtifactWorkflowParameter :=
  let src := EP_Spec (srcEndpoint daw) in
  let dst := EP_Spec (dstEndpoint daw) in
  [ mkArtifactWorkflowParameter "srcType" (EPSpec_Type src);
    mkArtifactWorkflowParameter "srcRemoteURL" (EPSpec_RemoteURL src);
    mkArtifactWorkflowParameter "dstType" (EPSpec_Type dst);
    mkArtifactWorkflowParameter "dstRemoteURL" (EPSpec_RemoteURL dst);
    mkArtifactWorkflowParameter "srcSecret"
      (if decide (Ref_Name (EPSpec_SecretRef src) = "") then "false" else "true");
    mkArtifactWorkflowParameter "dstSecret"
      (if decide (Ref_Name (EPSpec_SecretRef dst) = "") then "false" else "true") ].

Lemma Sprint_hasSecret ep :
  Sprint_bool (hasSecret ep) =
  if decide (Ref_Name (EPSpec_SecretRef (EP_Spec ep)) = "") then "false" else "true".
Proof. unfold hasSecret. by destruct (Ref_Name _). Qed.

(** [dawToParameters] after the spec was decoded. *)
Lemma dawToParameters_decoded daw spec :
  Unmarshal_map (rawSpec daw) = Ok spec ->
  dawToParameters daw =
  match flattenMap "spec" (visitedMap spec) ∅ with
  | Ok m => Ok (endpointParams daw ++
                map toParam (range_order ("dawToParameters/" +++ Name (objectMeta daw)) m))
  | Err e => Err e
  | Panic m => Panic m
  end.
Proof.
  intros Hspec. unfold dawToParameters. simpl. fold (rawSpec daw). rewrite Hspec. simpl.
  destruct (flattenMap _ _ _) as [m| |]; simpl; [|done..].
  unfold endpointParams. by rewrite !Sprint_hasSecret.
Qed.

(** C25: with a spec that decodes, computing the parameters panics exactly when the
    spec has an empty key in an object that is flattened (objects inside arrays are
    not); otherwise it succeeds. *)
Theorem parameters_panic_iff daw spec :
  Unmarshal_map (rawSpec daw) = Ok spec ->
  if emptyKey spec then exists m, dawToParameters daw = Panic m
  else exists ps, dawToParameters daw = Ok ps.
Proof.
  intros Hspec. rewrite (dawToParameters_decoded daw spec Hspec).
  pose proof (flattenMap_flattens "spec" (visitedMap spec) ∅) as Hf.
  rewrite emptyKey_visited in Hf. unfold flattens in Hf. destruct (emptyKey spec).
  - destruct Hf as [m ->]. by exists m.
  - rewrite Hf. by eexists.
Qed.

(** C24: where a spec decodes, no key in it is empty and its flattened names differ
    from each other, the parameters are those of the two endpoints, in their order,
    followed by one parameter per flattened leaf, with its printed value, in some order;
    so under these conditions which parameters there are does not depend on the order in
    which maps are visited. *)
Theorem parameters_exact daw spec :
  Unmarshal_map (rawSpec daw) = Ok spec -> emptyKey spec = false ->
  NoDup (assignments "spec" spec).*1 ->
  exists rest, dawToParameters daw = Ok (endpointParams daw ++ rest)
    /\ rest ≡ₚ map toParam (assignments "spec" spec).
Proof.
  intros Hspec Hempty Hnd. rewrite (dawToParameters_decoded daw spec Hspec).
  pose proof (flattenMap_flattens "spec" (visitedMap spec) ∅) as Hf.
  rewrite emptyKey_visited, Hempty in Hf. simpl in Hf. rewrite Hf.
  eexists. split; [done|]. apply Permutation_map.
  rewrite range_order_perm, <- (assign_perm (assignments "spec" spec)).
  - replace (assign (assignments "spec" spec) ∅)
      with (list_to_map (assignments "spec" spec) : gmap string json).
    + by apply map_to_list_to_map.
    + apply map_eq. intros k. rewrite assign_lookup by done.
      by destruct (list_to_map _ !! k).
  - done.
  - symmetry. apply assignments_visited.
Qed.

(** Computing the parameters returns an error exactly when the raw spec does not
    decode as a JSON object or null (flattening itself never does), and it is then
    the error of the decoder. *)
Theorem parameters_error daw e :
  dawToParameters daw = Err e <-> Unmarshal_map (rawSpec daw) = Err e.
Proof.
  destruct (Unmarshal_map (rawSpec daw)) as [spec|e'|m] eqn:Hspec.
  - rewrite (dawToParameters_decoded daw spec Hspec).
    pose proof (flattenMap_flattens "spec" (visitedMap spec) ∅) as Hf. unfold flattens in Hf.
    destruct (emptyKey _); [destruct Hf as [m ->]|rewrite Hf]; by split.
  - unfold dawToParameters. simpl. fold (rawSpec daw). rewrite Hspec. split; intros; by simplify_eq/=.
  - unfold Unmarshal_map in Hspec. by repeat case_match.
Qed.

End theorems.

(** ** Examples *)

Definition paramEndpoint (type secret : string) : Endpoint :=
  mkEndpoint emptyTypeMeta (newObjectMeta "ns" "ep")
    (mkEndpointSpec type "https://host" (mkLocalObjectReference secret) "All") mkEndpointStatus.

Definition paramDAW (spec : string) : desiredAW :=
  mkDesiredAW 0 (newObjectMeta "ns" "order-1")
    (mkOrderArtifact "oci" (mkLocalObjectReference "") (mkLocalObjectReference "")
       (mkRawExtension (Some (json_text spec))))
    (paramEndpoint "oci" "credentials") (paramEndpoint "s3" "") emptySecret emptySecret.

Lemma parameters_panic_iff_witness :
  Unmarshal_map (H := plain_float64) (rawSpec (paramDAW "{'a':{'':1}}"))
    = Ok [("a", JObj [("", JNum "1")])] /\
  exists m, dawToParameters (H := plain_runtime) (H0 := plain_float64)
              (paramDAW "{'a':{'':1}}") = Panic m.
Proof.
  split; [vm_compute; reflexivity|].
  exact (parameters_panic_iff (H := plain_runtime) (H0 := plain_float64)
    (paramDAW "{'a':{'':1}}") [("a", JObj [("", JNum "1")])]
    ltac:(vm_compute; reflexivity)).
Defined.

(** The names of a nested spec: the keys above a leaf keep their case. *)
Example parameters_nested :
  assignments "spec" [("image", JObj [("tag", JStr "v1")]); ("list", JArr [JNum "1"; JNull])]
  = [("specimageTag", JStr "v1"); ("specList0", JNum "1"); ("specList1", JNull)].
Proof. reflexivity. Qed.

Lemma parameters_exact_witness :
  exists rest, dawToParameters (H := reverse_runtime) (H0 := plain_float64)
      (paramDAW "{'image':{'tag':'v1'},'list':[1,null]}")
      = Ok (endpointParams (paramDAW "{'image':{'tag':'v1'},'list':[1,null]}") ++ rest)
    /\ rest ≡ₚ [mkArtifactWorkflowParameter "specimageTag" "v1";
                mkArtifactWorkflowParameter "specList0" "1";
                mkArtifactWorkflowParameter "specList1" "<nil>"].
Proof.
  refine (parameters_exact (H := reverse_runtime) (H0 := plain_float64)
    (paramDAW "{'image':{'tag':'v1'},'list':[1,null]}")
    [("image", JObj [("tag", JStr "v1")]); ("list", JArr [JNum "1"; JNull])] _ _ _).
  - vm_compute. reflexivity.
  - reflexivity.
  - apply (bool_decide_unpack _). vm_compute. exact I.
Defined.

(** An array is refused. *)
Example parameters_array_refused :
  exists e, dawToParameters (H := plain_runtime) (H0 := plain_float64) (paramDAW "[1]") = Err e.
Proof. eexists. vm_compute. reflexivity. Qed.

(** The value of a parameter by its name. *)
Fixpoint paramValue (name : string) (ps : list ArtifactWorkflowParameter) : option string :=
  match ps with
  | [] => None
  | p :: ps => if bool_decide (Param_Name p = name) then Some (Param_Value p)
               else paramValue name ps
  end.

(** Two keys of a spec can flatten to one name; then the value of the parameter
    depends on the order in which the map is visited: one run gives the one value,
    another run the other. *)
Theorem parameters_collision :
  exists daw ps1 ps2,
    dawToParameters (H := plain_runtime) (H0 := plain_float64) daw = Ok ps1
    /\ dawToParameters (H := reverse_runtime) (H0 := plain_float64) daw = Ok ps2
    /\ paramValue "specTag" ps1 = Some "new" /\ paramValue "specTag" ps2 = Some "old".
Proof.
  exists (paramDAW "{'tag':'old','Tag':'new'}"). do 2 eexists.
  split; [vm_compute; reflexivity|]. split; [vm_compute; reflexivity|].
  split; vm_compute; reflexivity.
Qed.
