(* ===== verification/OrderController.v ===== *)
(** * The order controller (pkg/controller/order_controller.go)

    [OrderReconciler.Reconcile] in the steps of the source: deletion, finalizer,
    fetching and hashing of every artifact's inputs, the comparison with the
    status, creation, deletion, the synchronisation of phases and the update of the
    status. *)

From stdpp Require Import base gmap list strings.
From Stdlib Require Import Strings.Byte.
From S2P Require Import Prelude GoStd Sha256 JsonEncode JsonDecode KubeTypes.
From S2P Require Import V1alpha1Types Client Errors ControllerRuntime WorkflowParameters.

Local Open Scope string_scope.
Local Open Scope list_scope.

(** ** Names *)

Definition orderFinalizer : string := "arc.bwi.de/order-finalizer".

Definition awName (order : Order) (sha : string) : string :=
  Name (Order_ObjectMeta order) +++ "-" +++ sha.

Definition awObjectMeta (order : Order) (sha : string) : ObjectMeta :=
  newObjectMeta (Namespace (Order_ObjectMeta order)) (awName order sha).

Definition tracked (order : Order) : gmap string OrderArtifactWorkflowStatus :=
  default ∅ (OrderStatus_ArtifactWorkflows (Order_Status order)).

(** ** The hash of an artifact's inputs *)

Definition hashData (order : Order) (art : OrderArtifact) (srcEP dstEP : Endpoint)
  (srcSec dstSec : Secret) : list any :=
  [ AnyString (Namespace (Order_ObjectMeta order));
    AnyString (Artifact_Type art); AnyBytes (Raw (Artifact_Spec art));
    AnyString (Name (EP_ObjectMeta srcEP)); AnyInt (Generation (EP_ObjectMeta srcEP));
    AnyString (Name (EP_ObjectMeta dstEP)); AnyInt (Generation (EP_ObjectMeta dstEP));
    AnyString (Name (Secret_ObjectMeta srcSec)); AnyInt (Generation (Secret_ObjectMeta srcSec));
    AnyString (Name (Secret_ObjectMeta dstSec)); AnyInt (Generation (Secret_ObjectMeta dstSec)) ].

(** [hex.EncodeToString(h.Sum(nil))[:16]]. *)
Definition shaOf (data : list any) : string :=
  String.substring 0 16 (sha256_hex (Marshal data)).

Section controller.
Context `{GoRuntime} `{Float64} `{ControllerUtil}.

(** ** Deletion (lines 73-103) *)

(** Delete every tracked artifact workflow, ignoring errors, and forget it. *)
Definition deleteTracked (order : Order) (sha : string)
  (aws : gmap string OrderArtifactWorkflowStatus) :
  prog (gmap string OrderArtifactWorkflowStatus) :=
  let! _ := do_call (DeleteArtifactWorkflow (awObjectMeta order sha)) in
  Ret (delete sha aws).

Definition reconcileDelete (order : Order) : prog Result :=
  if (0 <? size (tracked order))%nat then
    let! aws := for_each (range_order "delete" (tracked order)).*1
                  (deleteTracked order) (tracked order) in
    let! err := do_call (UpdateOrderStatus (set_Order_ArtifactWorkflows order (Some aws))) in
    let! _ := check "failed to update order status" err in
    Ret (mkResult true)
  else
    if slices_Contains (Finalizers (Order_ObjectMeta order)) orderFinalizer then
      let order := set_Order_ObjectMeta order
        (set_Finalizers (Order_ObjectMeta order)
           (slices_DeleteFunc (Finalizers (Order_ObjectMeta order))
              (fun f => bool_decide (f = orderFinalizer)))) in
      let! err := do_call (UpdateOrder order) in
      let! _ := check "failed to remove finalizer" err in
      Ret (mkResult false)
    else Ret (mkResult false).

(** ** Fetching the inputs of an artifact (lines 121-187) *)

(** The name of an endpoint: the artifact's own reference, or the default. *)
Definition refName (own fallback : LocalObjectReference) : string :=
  if string_nonempty (Ref_Name own) then Ref_Name own else Ref_Name fallback.

(** The secret an endpoint refers to, or the zero value. *)
Definition fetchSecret (ns : string) (ep : Endpoint) (text : string) : prog Secret :=
  if string_nonempty (Ref_Name (EPSpec_SecretRef (EP_Spec ep))) then
    let! r := do_call (GetSecret (namespacedName ns (Ref_Name (EPSpec_SecretRef (EP_Spec ep))))) in
    must text r
  else Ret emptySecret.

Definition fetchArtifact (order : Order) (ia : nat * OrderArtifact)
  (desiredAWs : gmap string desiredAW) : prog (gmap string desiredAW) :=
  let (i, artifact) := ia in
  let ns := Namespace (Order_ObjectMeta order) in
  let defaults := OrderSpec_Defaults (Order_Spec order) in
  let srcRefName := refName (Artifact_SrcRef artifact) (Defaults_SrcRef defaults) in
  let dstRefName := refName (Artifact_DstRef artifact) (Defaults_DstRef defaults) in
  let! r := do_call (GetEndpoint (namespacedName ns srcRefName)) in
  let! srcEndpoint := must "failed to fetch endpoint for source" r in
  let! r := do_call (GetEndpoint (namespacedName ns dstRefName)) in
  let! dstEndpoint := must "failed to fetch endpoint for destination" r in
  let! srcSecret := fetchSecret ns srcEndpoint "failed to fetch secret for source" in
  let! dstSecret := fetchSecret ns dstEndpoint "failed to fetch secret for destination" in
  let sha := shaOf (hashData order artifact srcEndpoint dstEndpoint srcSecret dstSecret) in
  Ret (<[sha := mkDesiredAW i (awObjectMeta order sha) artifact srcEndpoint dstEndpoint
                  srcSecret dstSecret]> desiredAWs).

Definition desiredState (order : Order) : prog (gmap string desiredAW) :=
  for_each (imap pair (OrderSpec_Artifacts (Order_Spec order))) (fetchArtifact order) ∅.

(** ** Comparison with the status (lines 189-212) *)

(** The keys of a map that another map does not have, in the order of [range]. *)
Definition missingKeys {V W : Type} (site : string) (m : gmap string V)
  (other : gmap string W) : list string :=
  List.filter (fun sha => bool_decide (other !! sha = None)) (range_order site m).*1.

(** ** Creation (lines 214-241) *)

Definition createOne (order : Order) (desiredAWs : gmap string desiredAW) (sha : string)
  (aws : gmap string OrderArtifactWorkflowStatus) :
  prog (gmap string OrderArtifactWorkflowStatus) :=
  match desiredAWs !! sha with
  | None => Crash "runtime error: invalid memory address or nil pointer dereference"
  | Some daw =>
      match hydrateArtifactWorkflow daw with
      | Panic m => Crash m
      | Err err => Fail (wrapped err "failed to hydrate artifact workflow")
      | Ok aw =>
          let! meta := must "failed to set controller reference"
            (SetControllerReference "Order" (Order_ObjectMeta order) (AW_ObjectMeta aw)) in
          let! err := do_call (CreateArtifactWorkflow (set_AW_ObjectMeta aw meta)) in
          match err with
          | Some err =>
              if IsAlreadyExists err then Ret aws
              else Fail (wrapped err "failed to create artifact workflow")
          | None =>
              Ret (<[sha := mkOrderArtifactWorkflowStatus (Z.of_nat (index daw))
                              WorkflowUnknown ""]> aws)
          end
      end
  end.

(** ** Deletion of what is not desired any more (lines 243-254) *)

Definition deleteOne (order : Order) (sha : string)
  (aws : gmap string OrderArtifactWorkflowStatus) :
  prog (gmap string OrderArtifactWorkflowStatus) :=
  let! err := do_call (DeleteArtifactWorkflow (awObjectMeta order sha)) in
  let! _ := check "failed to delete artifact workflow" (IgnoreNotFound err) in
  Ret (delete sha aws).

(** ** Synchronisation of the phases (lines 256-272) *)

Definition syncOne (createAWs : list string) (sd : string * desiredAW)
  (st : gmap string OrderArtifactWorkflowStatus * bool) :
  prog (gmap string OrderArtifactWorkflowStatus * bool) :=
  let (sha, daw) := sd in
  let (aws, anyPhaseChanged) := st in
  if slices_Contains createAWs sha then Ret (aws, anyPhaseChanged)
  else
    let! r := do_call (GetArtifactWorkflow
      (namespacedName (Namespace (objectMeta daw)) (Name (objectMeta daw)))) in
    let! aw := must "failed to get artifact workflow" r in
    let old := default emptyOAWS (aws !! sha) in
    if bool_decide (OAWS_Phase old = AWStatus_Phase (AW_Status aw)) then
      Ret (aws, anyPhaseChanged)
    else Ret (<[sha := set_OAWS_Phase old (AWStatus_Phase (AW_Status aw))]> aws, true).

(** ** Indices (lines 277-282) *)

Definition setIndices (l : list (string * desiredAW))
  (aws : gmap string OrderArtifactWorkflowStatus) :
  gmap string OrderArtifactWorkflowStatus :=
  fold_left (fun aws sd =>
    <[sd.1 := set_OAWS_ArtifactIndex (default emptyOAWS (aws !! sd.1))
                (Z.of_nat (index sd.2))]> aws) l aws.

(** ** [Reconcile] *)

(** Lines 189-288: bring the artifact workflows and the status of an order in line
    with its desired state. *)
Definition applyDesired (order : Order) (desiredAWs : gmap string desiredAW) : prog Result :=
  let createAWs := missingKeys "create" desiredAWs (tracked order) in
  let aws := tracked order in
  let deleteAWs := missingKeys "obsolete" aws desiredAWs in
  let! aws := for_each createAWs (createOne order desiredAWs) aws in
  let! aws := for_each deleteAWs (deleteOne order) aws in
  let! (aws, anyPhaseChanged) :=
    for_each (range_order "phases" desiredAWs) (syncOne createAWs) (aws, false) in
  if (0 <? length createAWs)%nat || (0 <? length deleteAWs)%nat || anyPhaseChanged then
    let aws := setIndices (range_order "indices" desiredAWs) aws in
    let! err := do_call (UpdateOrderStatus (set_Order_ArtifactWorkflows order (Some aws))) in
    let! _ := check "failed to update status" err in
    Ret (mkResult false)
  else Ret (mkResult false).

Definition Reconcile (req : NamespacedName) : prog Result :=
  let! r := do_call (GetOrder req) in
  match r with
  | inl err =>
      if IsNotFound err then Ret (mkResult false)
      else Fail (wrapped err "failed to get object")
  | inr order =>
      if negb (Time_IsZero (DeletionTimestamp (Order_ObjectMeta order))) then
        reconcileDelete order
      else if negb (slices_Contains (Finalizers (Order_ObjectMeta order)) orderFinalizer) then
        let order := set_Order_ObjectMeta order
          (set_Finalizers (Order_ObjectMeta order)
             (Finalizers (Order_ObjectMeta order) ++ [orderFinalizer])) in
        let! err := do_call (UpdateOrder order) in
        let! _ := check "failed to add finalizer" err in
        Ret (mkResult false)
      else
        let! desiredAWs := desiredState order in
        applyDesired order desiredAWs
  end.

(** ** [generateReconcileRequestsForEndpoint] (lines 312-335) *)

Definition generateReconcileRequestsForEndpoint (endpoint : Endpoint) :
  prog (list NamespacedName) :=
  let meta := EP_ObjectMeta endpoint in
  let! r := do_call (ListOrders [(".spec.srcRef.name", Name meta);
                                 (".spec.dstRef.name", Name meta)] (Namespace meta)) in
  match r with
  | inl _ => Ret []
  | inr items =>
      Ret (map (fun item => namespacedName (Namespace (Order_ObjectMeta item))
                                           (Name (Order_ObjectMeta item))) items)
  end.

End controller.
