(* ===== verification/OrderFetch.v ===== *)
(** * The desired state of an order

    What the fetching loop of [OrderReconciler.Reconcile] computes: a pure function
    [desiredFrom] of the fetched inputs, refined by the program [desiredState]. *)

From stdpp Require Import base gmap list strings.
From S2P Require Import Prelude GoStd Sha256 JsonEncode JsonDecode KubeTypes.
From S2P Require Import V1alpha1Types Client Errors ControllerRuntime WorkflowParameters.
From S2P Require Import OrderController.

Local Open Scope string_scope.
Local Open Scope list_scope.

(** ** Specification *)

(** The objects fetched for one artifact. *)
Record inputs := mkInputs {
  in_src : Endpoint;
  in_dst : Endpoint;
  in_srcSecret : Secret;
  in_dstSecret : Secret;
}.

Definition artifactSha (order : Order) (art : OrderArtifact) (ins : inputs) : string :=
  shaOf (hashData order art (in_src ins) (in_dst ins) (in_srcSecret ins) (in_dstSecret ins)).

Definition desiredEntry (order : Order) (x : nat * OrderArtifact * inputs) : string * desiredAW :=
  let '(i, art, ins) := x in
  let sha := artifactSha order art ins in
  (sha, mkDesiredAW i (awObjectMeta order sha) art (in_src ins) (in_dst ins)
          (in_srcSecret ins) (in_dstSecret ins)).

(** The desired state: one entry per hash, the last artifact of a hash wins. *)
Definition desiredFrom (order : Order) (l : list (nat * OrderArtifact * inputs)) :
  gmap string desiredAW :=
  fold_left (fun m kv => <[kv.1 := kv.2]> m) (map (desiredEntry order) l) ∅.

(** The names of the endpoints of an artifact. *)
Definition srcKey (order : Order) (art : OrderArtifact) : NamespacedName :=
  namespacedName (Namespace (Order_ObjectMeta order))
    (refName (Artifact_SrcRef art) (Defaults_SrcRef (OrderSpec_Defaults (Order_Spec order)))).
Definition dstKey (order : Order) (art : OrderArtifact) : NamespacedName :=
  namespacedName (Namespace (Order_ObjectMeta order))
    (refName (Artifact_DstRef art) (Defaults_DstRef (OrderSpec_Defaults (Order_Spec order)))).
Definition secretKey (order : Order) (ep : Endpoint) : NamespacedName :=
  namespacedName (Namespace (Order_ObjectMeta order)) (Ref_Name (EPSpec_SecretRef (EP_Spec ep))).

(** The events of fetching the secret of an endpoint. *)
Definition secretEvents (order : Order) (ep : Endpoint) (sec : Secret) : list event :=
  if hasSecret ep then [ev (GetSecret (secretKey order ep)) (inr sec)] else [].

(** The secret is the zero value when the endpoint refers to none. *)
Definition secretOk (ep : Endpoint) (sec : Secret) : Prop :=
  hasSecret ep = false -> sec = emptySecret.

Definition inputsOk (ins : inputs) : Prop :=
  secretOk (in_src ins) (in_srcSecret ins) /\ secretOk (in_dst ins) (in_dstSecret ins).

(** The events of fetching the inputs of one artifact, all successful. *)
Definition fetchEvents (order : Order) (art : OrderArtifact) (ins : inputs) : list event :=
  [ev (GetEndpoint (srcKey order art)) (inr (in_src ins));
   ev (GetEndpoint (dstKey order art)) (inr (in_dst ins))]
  ++ secretEvents order (in_src ins) (in_srcSecret ins)
  ++ secretEvents order (in_dst ins) (in_dstSecret ins).

Definition allFetchEvents (order : Order) (l : list (nat * OrderArtifact * inputs)) : list event :=
  concat (map (fun x => fetchEvents order x.1.2 x.2) l).

(** ** The program refines the specification *)

Section fetch.
Context `{GoRuntime} `{Float64} `{ControllerUtil}.

Lemma writes_secretEvents order ep sec : writes (secretEvents order ep sec) = [].
Proof. unfold secretEvents. by destruct (hasSecret ep). Qed.

Lemma writes_fetchEvents order art ins : writes (fetchEvents order art ins) = [].
Proof. unfold fetchEvents. by rewrite !writes_app, !writes_secretEvents. Qed.

Lemma writes_allFetchEvents order l : writes (allFetchEvents order l) = [].
Proof.
  unfold allFetchEvents. induction l as [|x l IH]; [done|].
  cbn [map concat]. by rewrite writes_app, writes_fetchEvents, IH.
Qed.

(** A fetch that does not succeed asks for no change and does not panic. *)
Definition fetchFailed {A} (t0 : list event) (t : list event) (o : outcome A) : Prop :=
  writes t = writes t0 /\ exists e, o = Err e.

Lemma wp_fetchSecret order ep text (Q : list event -> outcome Secret -> Prop) t0 t :
  writes t = writes t0 ->
  (forall t e, writes t = writes t0 -> Q t (Err e)) ->
  (forall sec, secretOk ep sec -> Q (t ++ secretEvents order ep sec) (Ok sec)) ->
  wp (fetchSecret (Namespace (Order_ObjectMeta order)) ep text) Q t.
Proof.
  intros Hw HE HO. unfold fetchSecret, secretEvents, secretOk, hasSecret in *.
  destruct (string_nonempty _).
  - intros r. apply wp_must; intros x ->; simpl.
    + apply HE. by rewrite writes_app, Hw, app_nil_r.
    + by apply HO.
  - simpl. specialize (HO emptySecret (fun _ => eq_refl)). by rewrite app_nil_r in HO.
Qed.

Lemma wp_fetchArtifact order i art m (Q : list event -> outcome (gmap string desiredAW) -> Prop) t :
  (forall t' e, writes t' = writes t -> Q t' (Err e)) ->
  (forall ins, inputsOk ins ->
     Q (t ++ fetchEvents order art ins)
       (Ok (<[(desiredEntry order (i, art, ins)).1 :=
              (desiredEntry order (i, art, ins)).2]> m))) ->
  wp (fetchArtifact order (i, art) m) Q t.
Proof.
  intros HE HO. unfold fetchArtifact. intros r1. simpl. apply wp_bind.
  apply wp_must; intros srcEP ->.
  { apply HE. by rewrite writes_app, app_nil_r. }
  intros r2. simpl. apply wp_bind. apply wp_must; intros dstEP ->.
  { apply HE. by rewrite !writes_app, !app_nil_r. }
  apply wp_bind. eapply (wp_fetchSecret order _ _ _ t).
  { by rewrite !writes_app, !app_nil_r. }
  { auto. }
  intros srcSec HsrcSec. apply wp_bind. eapply (wp_fetchSecret order _ _ _ t).
  { by rewrite !writes_app, writes_secretEvents, !app_nil_r. }
  { auto. }
  intros dstSec HdstSec. simpl.
  specialize (HO (mkInputs srcEP dstEP srcSec dstSec) (conj HsrcSec HdstSec)).
  unfold fetchEvents in HO. simpl in HO.
  by rewrite <- !app_assoc.
Qed.

(** The first artifacts with the inputs fetched for them. *)
Definition fetched (done : list (nat * OrderArtifact))
  (l : list (nat * OrderArtifact * inputs)) : Prop :=
  map fst l = done /\ Forall (fun x => inputsOk x.2) l.

(** The trace begins with the fetches of all artifacts: [l] is what they answered, and
    [t'] is what happened after them. *)
Definition fetchedFirst (order : Order) (l : list (nat * OrderArtifact * inputs))
  (t t' : list event) : Prop :=
  fetched (imap pair (OrderSpec_Artifacts (Order_Spec order))) l /\
  t = allFetchEvents order l ++ t'.

Lemma fetchedFirst_writes order l t t' : fetchedFirst order l t t' -> writes t = writes t'.
Proof. intros [_ ->]. by rewrite writes_app, writes_allFetchEvents. Qed.

(** The endpoints of a fetched artifact are those the API server answered for it. *)
Lemma fetchedFirst_endpoints order l t t' i art ins :
  fetchedFirst order l t t' -> (i, art, ins) ∈ l ->
  ev (GetEndpoint (srcKey order art)) (inr (in_src ins)) ∈ t /\
  ev (GetEndpoint (dstKey order art)) (inr (in_dst ins)) ∈ t.
Proof.
  intros [_ ->] (l1 & l2 & ->)%list_elem_of_split. unfold allFetchEvents.
  rewrite map_app, concat_app. simpl. unfold fetchEvents. set_solver.
Qed.

Lemma wp_desiredState order (Q : list event -> outcome (gmap string desiredAW) -> Prop) t :
  (forall t' e, writes t' = writes t -> Q t' (Err e)) ->
  (forall l, fetched (imap pair (OrderSpec_Artifacts (Order_Spec order))) l ->
     Q (t ++ allFetchEvents order l) (Ok (desiredFrom order l))) ->
  wp (desiredState order) Q t.
Proof.
  intros HE HO. unfold desiredState.
  apply (wp_for_each (fun done m t' => exists l, fetched done l
           /\ t' = t ++ allFetchEvents order l /\ m = desiredFrom order l)).
  - exists []. split; [split; [done|constructor]|]. by rewrite app_nil_r.
  - intros done [i art] rest m t' _ (l & [Hl Hok] & -> & ->).
    apply wp_fetchArtifact.
    + intros t'' e Hw. apply HE. rewrite Hw, writes_app, writes_allFetchEvents.
      by rewrite app_nil_r.
    + intros ins Hins. exists (l ++ [(i, art, ins)]). split; [split|split].
      * by rewrite map_app, Hl.
      * apply Forall_app. auto.
      * unfold allFetchEvents. rewrite map_app, concat_app. simpl.
        by rewrite app_nil_r, <- app_assoc.
      * unfold desiredFrom. by rewrite map_app, fold_left_app.
  - intros m t' (l & Hl & -> & ->). by apply HO.
Qed.

End fetch.

(** ** The desired state *)

Lemma desiredFrom_app order l x :
  desiredFrom order (l ++ [x]) =
  <[(desiredEntry order x).1 := (desiredEntry order x).2]> (desiredFrom order l).
Proof. unfold desiredFrom. by rewrite map_app, fold_left_app. Qed.

(** The entry under a hash is that of the last artifact with the hash. *)
Lemma desiredFrom_lookup order l sha daw :
  desiredFrom order l !! sha = Some daw <->
  exists l1 x l2, l = l1 ++ x :: l2 /\ desiredEntry order x = (sha, daw)
    /\ Forall (fun y => (desiredEntry order y).1 <> sha) l2.
Proof.
  induction l as [|x l IH] using rev_ind.
  { split; [done|]. intros (l1 & x & l2 & Hl & _). by destruct l1. }
  rewrite desiredFrom_app. destruct (decide ((desiredEntry order x).1 = sha)) as [<-|Hne].
  - rewrite lookup_insert_eq. split.
    + intros [= <-]. exists l, x, []. split_and!; [done| |constructor].
      by destruct (desiredEntry order x).
    + intros (l1 & y & l2 & Hl & Hy & Hl2).
      destruct l2 as [|z l2 _] using rev_ind.
      * apply app_inj_tail in Hl as [_ <-]. by rewrite Hy.
      * rewrite app_comm_cons, app_assoc in Hl. apply app_inj_tail in Hl as [_ <-].
        apply Forall_app in Hl2 as [_ Hl2]. by inversion Hl2.
  - rewrite lookup_insert_ne by done. rewrite IH. split.
    + intros (l1 & y & l2 & -> & Hy & Hl2). exists l1, y, (l2 ++ [x]).
      rewrite <- app_assoc. split_and!; [done|done|]. apply Forall_app. auto.
    + intros (l1 & y & l2 & Hl & Hy & Hl2).
      destruct l2 as [|z l2 _] using rev_ind.
      * apply app_inj_tail in Hl as [_ <-]. by rewrite Hy in Hne.
      * rewrite app_comm_cons, app_assoc in Hl. apply app_inj_tail in Hl as [-> <-].
        apply Forall_app in Hl2 as [Hl2 _]. eauto 10.
Qed.

Lemma desiredEntry_meta order x sha daw :
  desiredEntry order x = (sha, daw) -> objectMeta daw = awObjectMeta order sha.
Proof. destruct x as [[i art] ins]. by intros [= <- <-]. Qed.

Lemma desiredFrom_meta order l sha daw :
  desiredFrom order l !! sha = Some daw -> objectMeta daw = awObjectMeta order sha.
Proof. intros (l1 & x & l2 & _ & Hx & _)%desiredFrom_lookup. by eapply desiredEntry_meta. Qed.

#[export] Hint Resolve desiredFrom_meta desiredEntry_meta : arc.
#[export] Hint Rewrite writes_allFetchEvents writes_fetchEvents writes_secretEvents : arc_rw.
