(* ===== verification/OrderApply.v ===== *)
(** * Bringing the cluster in line with the desired state

    What lines 189-288 of order_controller.go do, stated without loops: the calls a
    successful run makes, in order, and the status it writes.  [applyDesired]
    refines this specification whatever the API server answers. *)

From stdpp Require Import base gmap list strings.
From S2P Require Import Prelude GoStd KubeTypes V1alpha1Types Client Errors.
From S2P Require Import ControllerRuntime WorkflowParameters OrderController.

Local Open Scope string_scope.
Local Open Scope list_scope.

Section apply.
Context `{GoRuntime} `{Float64} `{ControllerUtil}.

(** ** Specification *)

(** The call that creates the artifact workflow of a hash. *)
Definition creates (order : Order) (desiredAWs : gmap string desiredAW)
  (sha : string) (c : call) : Prop :=
  exists daw aw meta, desiredAWs !! sha = Some daw
    /\ hydrateArtifactWorkflow daw = Ok aw
    /\ SetControllerReference "Order" (Order_ObjectMeta order) (AW_ObjectMeta aw) = inr meta
    /\ c = CreateArtifactWorkflow (set_AW_ObjectMeta aw meta).

Definition deletes (order : Order) (sha : string) : call :=
  DeleteArtifactWorkflow (awObjectMeta order sha).

(** The status entry of a hash: the index of its artifact, and the phase that was
    read for it when it was tracked already. *)
Definition finalEntry (order : Order) (phases : gmap string WorkflowPhase)
  (sha : string) (daw : desiredAW) : OrderArtifactWorkflowStatus :=
  match tracked order !! sha with
  | Some old => mkOrderArtifactWorkflowStatus (Z.of_nat (index daw))
                  (default (OAWS_Phase old) (phases !! sha)) (OAWS_Message old)
  | None => mkOrderArtifactWorkflowStatus (Z.of_nat (index daw)) WorkflowUnknown ""
  end.

Definition finalStatus (order : Order) (phases : gmap string WorkflowPhase)
  (desiredAWs : gmap string desiredAW) : gmap string OrderArtifactWorkflowStatus :=
  map_imap (fun sha daw => Some (finalEntry order phases sha daw)) desiredAWs.

(** The phases were read in the trace, one for every desired hash that is tracked. *)
Definition phasesRead (order : Order) (desiredAWs : gmap string desiredAW)
  (phases : gmap string WorkflowPhase) (t : list event) : Prop :=
  dom phases = dom desiredAWs ∩ dom (tracked order) /\
  forall sha daw p, desiredAWs !! sha = Some daw -> phases !! sha = Some p ->
    exists aw, ev (GetArtifactWorkflow (meta_key (objectMeta daw))) (inr aw) ∈ t
      /\ AWStatus_Phase (AW_Status aw) = p.

(** Is there anything to write to the status? *)
Definition statusDue (order : Order) (desiredAWs : gmap string desiredAW)
  (phases : gmap string WorkflowPhase) : Prop :=
  dom desiredAWs <> dom (tracked order) \/
  exists sha old p, tracked order !! sha = Some old /\ phases !! sha = Some p
    /\ OAWS_Phase old <> p.

(** ** The keys to create and to delete *)

Lemma missingKeys_elem_of {V W} site (m : gmap string V) (other : gmap string W) sha :
  sha ∈ missingKeys site m other <-> is_Some (m !! sha) /\ other !! sha = None.
Proof.
  unfold missingKeys.
  rewrite list_elem_of_In, List.filter_In, <- list_elem_of_In, bool_decide_eq_true.
  by rewrite range_keys_elem_of.
Qed.

Lemma missingKeys_kept {V W} site (m : gmap string V) (other : gmap string W) sha :
  is_Some (m !! sha) -> sha ∉ missingKeys site m other -> is_Some (other !! sha).
Proof.
  intros Hm Hno. apply not_eq_None_Some. intros Ho. apply Hno. by apply missingKeys_elem_of.
Qed.

Lemma missingKeys_present {V W} site (m : gmap string V) (other : gmap string W) sha :
  is_Some (other !! sha) -> sha ∉ missingKeys site m other.
Proof. intros Ho [_ Hno]%missingKeys_elem_of. rewrite Hno in Ho. by destruct Ho. Qed.

Lemma missingKeys_NoDup {V W} site (m : gmap string V) (other : gmap string W) :
  NoDup (missingKeys site m other).
Proof.
  unfold missingKeys. rewrite NoDup_ListNoDup.
  apply List.NoDup_filter. rewrite <- NoDup_ListNoDup. apply range_NoDup_keys.
Qed.

Lemma missingKeys_length {V W} site (m : gmap string V) (other : gmap string W) :
  (0 <? length (missingKeys site m other))%nat = false <-> dom m ⊆ dom other.
Proof.
  rewrite Nat.ltb_ge, Nat.le_0_r, length_zero_iff_nil. split.
  - intros Hnil sha Hsha. apply elem_of_dom in Hsha. apply elem_of_dom.
    destruct (other !! sha) eqn:Ho; [by eexists|].
    assert (sha ∈ missingKeys site m other) as Hin by by apply missingKeys_elem_of.
    rewrite Hnil in Hin. by apply not_elem_of_nil in Hin.
  - intros Hsub. apply elem_of_nil_inv. intros sha [Hm Ho]%missingKeys_elem_of.
    apply elem_of_dom, Hsub, elem_of_dom in Hm. rewrite Ho in Hm. by destruct Hm.
Qed.

(** ** The loops *)

(** The status after the creations of [done]. *)
Definition afterCreate (order : Order) (desiredAWs : gmap string desiredAW)
  (done : list string) (aws : gmap string OrderArtifactWorkflowStatus) : Prop :=
  forall sha, aws !! sha = tracked order !! sha \/
    (sha ∈ done /\ exists daw, desiredAWs !! sha = Some daw /\
       aws !! sha = Some (mkOrderArtifactWorkflowStatus (Z.of_nat (index daw))
                            WorkflowUnknown "")).

Lemma wp_createOne order desiredAWs sha aws
  (Q : list event -> outcome (gmap string OrderArtifactWorkflowStatus) -> Prop) t :
  (forall c r, creates order desiredAWs sha c -> ev_call r = c ->
     forall aws', aws' = aws \/ (exists daw, desiredAWs !! sha = Some daw /\
        aws' = <[sha := mkOrderArtifactWorkflowStatus (Z.of_nat (index daw))
                          WorkflowUnknown ""]> aws) ->
     Q (t ++ [r]) (Ok aws')) ->
  (forall e, Q t (Err e)) -> (forall m, Q t (Panic m)) ->
  (forall c r e, creates order desiredAWs sha c -> ev_call r = c ->
     Q (t ++ [r]) (Err e)) ->
  wp (createOne order desiredAWs sha aws) Q t.
Proof.
  intros HO HE HP HC. unfold createOne.
  destruct (desiredAWs !! sha) as [daw|] eqn:Hdaw; [|by apply HP].
  destruct (hydrateArtifactWorkflow daw) as [aw|e|m] eqn:Haw; [|by apply HE|by apply HP].
  apply wp_bind. apply wp_must; [by intros; apply HE|]. intros meta Hmeta.
  assert (creates order desiredAWs sha (CreateArtifactWorkflow (set_AW_ObjectMeta aw meta)))
    as Hc by (by exists daw, aw, meta).
  intros r. simpl. destruct r as [err|]; [destruct (IsAlreadyExists err)|].
  - eapply HO; [done|done|]. by left.
  - by eapply HC.
  - eapply HO; [done|done|]. right. eauto.
Qed.

Lemma wp_deleteOne order sha aws
  (Q : list event -> outcome (gmap string OrderArtifactWorkflowStatus) -> Prop) t :
  (forall r, ev_call r = deletes order sha ->
     Q (t ++ [r]) (Ok (delete sha aws)) /\ forall e, Q (t ++ [r]) (Err e)) ->
  wp (deleteOne order sha aws) Q t.
Proof.
  intros HQ. unfold deleteOne. intros r. simpl. apply wp_bind.
  destruct (HQ (ev (deletes order sha) r) eq_refl) as [HO HE].
  by apply wp_check; intros; [apply HE|].
Qed.

(** The status after the phases of [done] were read: the hashes of [createAWs] are
    skipped. *)
Definition afterSync (createAWs : list string) (done : list (string * desiredAW))
  (aws0 : gmap string OrderArtifactWorkflowStatus) (phases : gmap string WorkflowPhase)
  (st : gmap string OrderArtifactWorkflowStatus * bool) : Prop :=
  (forall sha, is_Some (phases !! sha) <-> sha ∈ done.*1 /\ sha ∉ createAWs) /\
  (forall sha, st.1 !! sha =
     match phases !! sha with
     | Some p => Some (set_OAWS_Phase (default emptyOAWS (aws0 !! sha)) p)
     | None => aws0 !! sha
     end) /\
  (st.2 = true <-> exists sha p, phases !! sha = Some p
     /\ OAWS_Phase (default emptyOAWS (aws0 !! sha)) <> p).

Lemma set_OAWS_Phase_same s : set_OAWS_Phase s (OAWS_Phase s) = s.
Proof. by destruct s. Qed.

(** One more phase read. *)
Lemma afterSync_read createAWs done aws0 phases st sha daw p :
  afterSync createAWs done aws0 phases st ->
  sha ∉ done.*1 -> sha ∉ createAWs -> is_Some (aws0 !! sha) ->
  afterSync createAWs (done ++ [(sha, daw)]) aws0 (<[sha := p]> phases)
    (if bool_decide (OAWS_Phase (default emptyOAWS (st.1 !! sha)) = p) then st
     else (<[sha := set_OAWS_Phase (default emptyOAWS (st.1 !! sha)) p]> st.1, true)).
Proof.
  intros (Hd & Hl & Hb) Hnew Hcr [old Hold].
  assert (phases !! sha = None) as Hnone.
  { apply eq_None_not_Some. rewrite Hd. naive_solver. }
  rewrite (Hl sha), Hnone, Hold. simpl. split; [|split].
  - intros sha'. rewrite fmap_app, elem_of_app. simpl. rewrite list_elem_of_singleton.
    destruct (decide (sha = sha')) as [<-|Hne].
    + rewrite lookup_insert_eq. naive_solver.
    + rewrite lookup_insert_ne by done. rewrite Hd. naive_solver.
  - intros sha'. destruct (decide (sha = sha')) as [<-|Hne].
    + rewrite lookup_insert_eq, Hold. simpl. case_bool_decide as Hp.
      * rewrite Hl, Hnone, Hold, <- Hp. by rewrite set_OAWS_Phase_same.
      * simpl. by rewrite lookup_insert_eq.
    + rewrite lookup_insert_ne by done. rewrite <- Hl. case_bool_decide; [done|].
      simpl. by rewrite lookup_insert_ne.
  - case_bool_decide as Hp.
    + rewrite Hb. split; intros (sha' & p' & Hp' & Hne').
      * exists sha', p'. rewrite lookup_insert_ne by naive_solver. done.
      * destruct (decide (sha = sha')) as [<-|Hne].
        -- rewrite lookup_insert_eq in Hp'. rewrite Hold in Hne'. naive_solver.
        -- rewrite lookup_insert_ne in Hp' by done. eauto.
    + simpl. split; [intros _|done]. exists sha, p. by rewrite lookup_insert_eq, Hold.
Qed.

Lemma afterSync_skip createAWs done aws0 phases st sha daw :
  afterSync createAWs done aws0 phases st -> sha ∈ createAWs ->
  afterSync createAWs (done ++ [(sha, daw)]) aws0 phases st.
Proof.
  intros (Hd & Hl & Hb) Hcr. split; [|split]; [|done|done].
  intros sha'. rewrite Hd, fmap_app, elem_of_app. simpl.
  rewrite list_elem_of_singleton. naive_solver.
Qed.

(** The write requests that bringing an order in line may make. *)
Definition allowedWrite (order : Order) (desiredAWs : gmap string desiredAW) (c : call) : Prop :=
  (exists sha, tracked order !! sha = None /\ creates order desiredAWs sha c) \/
  (exists sha, is_Some (tracked order !! sha) /\ desiredAWs !! sha = None
     /\ c = deletes order sha) \/
  (exists phases, c = UpdateOrderStatus (set_Order_ArtifactWorkflows order
     (Some (finalStatus order phases desiredAWs)))).

(** A run that stops early has made only such requests since [t]. *)
Definition stoppedEarly (order : Order) (desiredAWs : gmap string desiredAW)
  (t t' : list event) : Prop :=
  exists ws, writes t' = writes t ++ ws /\ Forall (allowedWrite order desiredAWs) ws.

Lemma stoppedEarly_step order desiredAWs t t' r :
  stoppedEarly order desiredAWs t t' -> allowedWrite order desiredAWs (ev_call r) ->
  mutating (ev_call r) = true -> stoppedEarly order desiredAWs t (t' ++ [r]).
Proof.
  intros (ws & Hw & Hws) Hr Hm. exists (ws ++ [ev_call r]). split.
  - by rewrite writes_write, Hw, <- app_assoc.
  - apply Forall_app; auto.
Qed.

Lemma creates_mutating order desiredAWs sha c :
  creates order desiredAWs sha c -> mutating c = true.
Proof. by intros (daw & aw & meta & _ & _ & _ & ->). Qed.

Lemma creates_desired order desiredAWs sha c :
  creates order desiredAWs sha c -> is_Some (desiredAWs !! sha).
Proof. intros (daw & aw & meta & -> & _). by eexists. Qed.

Lemma stoppedEarly_create order desiredAWs t t' r sha :
  stoppedEarly order desiredAWs t t' ->
  sha ∈ missingKeys "create" desiredAWs (tracked order) ->
  creates order desiredAWs sha (ev_call r) -> stoppedEarly order desiredAWs t (t' ++ [r]).
Proof.
  intros Hs [_ Hno]%missingKeys_elem_of Hc. eapply stoppedEarly_step; [done| |].
  - left. eauto.
  - by eapply creates_mutating.
Qed.

Lemma stoppedEarly_delete order desiredAWs t t' r sha :
  stoppedEarly order desiredAWs t t' ->
  sha ∈ missingKeys "obsolete" (tracked order) desiredAWs ->
  ev_call r = deletes order sha -> stoppedEarly order desiredAWs t (t' ++ [r]).
Proof.
  intros Hs [Htr Hno]%missingKeys_elem_of Hc.
  eapply stoppedEarly_step; [done| |by rewrite Hc].
  right. left. eauto.
Qed.

Lemma wp_createAll order desiredAWs
  (Q : list event -> outcome (gmap string OrderArtifactWorkflowStatus) -> Prop) t :
  let createAWs := missingKeys "create" desiredAWs (tracked order) in
  (forall t' aws cs, stoppedEarly order desiredAWs t t' ->
     Forall2 (creates order desiredAWs) createAWs cs -> writes t' = writes t ++ cs ->
     afterCreate order desiredAWs createAWs aws -> Q t' (Ok aws)) ->
  (forall t' e, stoppedEarly order desiredAWs t t' -> Q t' (Err e)) ->
  (forall t' m, stoppedEarly order desiredAWs t t' -> Q t' (Panic m)) ->
  wp (for_each createAWs (createOne order desiredAWs) (tracked order)) Q t.
Proof.
  intros createAWs HO HE HP.
  apply (wp_for_each (fun done aws t' => stoppedEarly order desiredAWs t t'
    /\ afterCreate order desiredAWs done aws
    /\ exists cs, Forall2 (creates order desiredAWs) done cs /\ writes t' = writes t ++ cs)).
  - split_and!.
    + exists []. by rewrite app_nil_r.
    + intros sha. by left.
    + exists []. by rewrite app_nil_r.
  - intros done sha rest aws t' Hl (Hs & Ha & cs & Hcs & Hw).
    assert (sha ∈ createAWs) as Hin by (rewrite Hl; set_solver).
    apply wp_createOne.
    + intros c r Hc <- aws' Haws'. split_and!.
      * by eapply stoppedEarly_create.
      * intros sha'. destruct Haws' as [->|(daw & Hdaw & ->)].
        -- destruct (Ha sha') as [?|(? & ?)]; [by left|]. right. set_solver.
        -- destruct (decide (sha = sha')) as [<-|Hne].
           ++ right. split; [set_solver|]. exists daw. by rewrite lookup_insert_eq.
           ++ rewrite lookup_insert_ne by done.
              destruct (Ha sha') as [?|(? & ?)]; [by left|]. right. set_solver.
      * exists (cs ++ [ev_call r]). split; [by apply Forall2_app; auto|].
        rewrite writes_write by (by eapply creates_mutating). by rewrite Hw, <- app_assoc.
    + intros e. by apply HE.
    + intros m. by apply HP.
    + intros c r e Hc <-. apply HE. by eapply stoppedEarly_create.
  - intros aws t' (Hs & Ha & cs & Hcs & Hw). eauto.
Qed.

Lemma wp_deleteAll order desiredAWs aws0
  (Q : list event -> outcome (gmap string OrderArtifactWorkflowStatus) -> Prop) t t1 :
  let deleteAWs := missingKeys "obsolete" (tracked order) desiredAWs in
  stoppedEarly order desiredAWs t t1 ->
  (forall t' aws, stoppedEarly order desiredAWs t t' ->
     writes t' = writes t1 ++ map (deletes order) deleteAWs ->
     (forall sha, aws !! sha = if bool_decide (sha ∈ deleteAWs) then None else aws0 !! sha) ->
     Q t' (Ok aws)) ->
  (forall t' e, stoppedEarly order desiredAWs t t' -> Q t' (Err e)) ->
  wp (for_each deleteAWs (deleteOne order) aws0) Q t1.
Proof.
  intros deleteAWs Hs1 HO HE.
  apply (wp_for_each (fun done aws t' => stoppedEarly order desiredAWs t t'
    /\ writes t' = writes t1 ++ map (deletes order) done
    /\ forall sha, aws !! sha = if bool_decide (sha ∈ done) then None else aws0 !! sha)).
  - split_and!; [done|by rewrite app_nil_r|done].
  - intros done sha rest aws t' Hl (Hs & Hw & Ha). apply wp_deleteOne. intros r Hr.
    assert (sha ∈ deleteAWs) as Hin by (rewrite Hl; set_solver).
    assert (stoppedEarly order desiredAWs t (t' ++ [r])) as Hs'
      by (by eapply stoppedEarly_delete).
    split; [|by intros e; apply HE]. split_and!; [done| |].
    + rewrite writes_write by (by rewrite Hr). by rewrite Hw, <- app_assoc, map_app, Hr.
    + intros sha'. destruct (decide (sha = sha')) as [<-|Hne].
      * rewrite lookup_delete_eq, bool_decide_true by set_solver. done.
      * rewrite lookup_delete_ne, Ha by done. by rewrite (bool_decide_ext (sha' ∈ done ++ [sha]) (sha' ∈ done)) by set_solver.
  - intros aws t' (Hs & Hw & Ha). by apply HO.
Qed.

Lemma stoppedEarly_read order desiredAWs t t' r :
  stoppedEarly order desiredAWs t t' -> mutating (ev_call r) = false ->
  stoppedEarly order desiredAWs t (t' ++ [r]).
Proof. intros (ws & Hw & Hws) Hr. exists ws. by rewrite writes_read. Qed.

(** The phases of the entries of [done] were read in the trace. *)
Definition readIn (done : list (string * desiredAW)) (phases : gmap string WorkflowPhase)
  (t : list event) : Prop :=
  forall sha daw p, (sha, daw) ∈ done -> phases !! sha = Some p ->
    exists aw, ev (GetArtifactWorkflow (meta_key (objectMeta daw))) (inr aw) ∈ t
      /\ AWStatus_Phase (AW_Status aw) = p.

Lemma readIn_step done phases t sha daw aw :
  readIn done phases t -> sha ∉ done.*1 ->
  readIn (done ++ [(sha, daw)]) (<[sha := AWStatus_Phase (AW_Status aw)]> phases)
    (t ++ [ev (GetArtifactWorkflow (meta_key (objectMeta daw))) (inr aw)]).
Proof.
  intros Hrd Hnew sha' daw' p [Hin|[= -> ->]%list_elem_of_singleton]%elem_of_app Hp.
  - assert (sha <> sha') as Hne.
    { intros <-. apply Hnew. apply list_elem_of_fmap. by exists (sha, daw'). }
    rewrite lookup_insert_ne in Hp by done.
    destruct (Hrd _ _ _ Hin Hp) as (aw' & Hev & <-). exists aw'. set_solver.
  - rewrite lookup_insert_eq in Hp. simplify_eq. exists aw. set_solver.
Qed.

Lemma NoDup_fst_middle {V} (l done rest : list (string * V)) k v :
  NoDup l.*1 -> l = done ++ (k, v) :: rest -> k ∉ done.*1.
Proof.
  intros Hnd ->. rewrite fmap_app, fmap_cons in Hnd.
  apply NoDup_app in Hnd as (_ & Hdis & _). intros Hin. apply (Hdis k Hin). set_solver.
Qed.

Lemma wp_syncAll order desiredAWs createAWs aws0
  (Q : list event -> outcome (gmap string OrderArtifactWorkflowStatus * bool) -> Prop) t t1 :
  let l := range_order "phases" desiredAWs in
  stoppedEarly order desiredAWs t t1 ->
  (forall sha, is_Some (desiredAWs !! sha) -> sha ∉ createAWs -> is_Some (aws0 !! sha)) ->
  (forall t' st phases, stoppedEarly order desiredAWs t t' -> writes t' = writes t1 ->
     afterSync createAWs l aws0 phases st -> readIn l phases t' -> Q t' (Ok st)) ->
  (forall t' e, stoppedEarly order desiredAWs t t' -> Q t' (Err e)) ->
  wp (for_each l (syncOne createAWs) (aws0, false)) Q t1.
Proof.
  intros l Hs1 Haws HO HE.
  apply (wp_for_each (fun done st t' => stoppedEarly order desiredAWs t t'
    /\ writes t' = writes t1
    /\ exists phases, afterSync createAWs done aws0 phases st /\ readIn done phases t')).
  - split_and!; [done|done|]. exists ∅. split; [|by intros ? ? ? ?%not_elem_of_nil].
    split_and!; simpl; setoid_rewrite lookup_empty; set_solver.
  - intros done [sha daw] rest [aws b] t' Hl (Hs & Hw & phases & Ha & Hrd).
    assert (sha ∉ done.*1) as Hnew
      by (by eapply NoDup_fst_middle; [apply range_NoDup_keys|]).
    unfold syncOne. destruct (slices_Contains createAWs sha) eqn:Hcr.
    + apply slices_Contains_true in Hcr. simpl. split_and!; [done|done|].
      exists phases. split; [by apply afterSync_skip|].
      intros sha' daw' p [Hin|[= -> ->]%list_elem_of_singleton]%elem_of_app Hp; [by eapply Hrd|].
      destruct (proj1 (proj1 Ha sha)) as [_ Hno]; [by eexists|]. done.
    + assert (sha ∉ createAWs) as Hcr' by (rewrite <- slices_Contains_true; congruence).
      assert (is_Some (aws0 !! sha)) as Hsome.
      { apply Haws; [|done]. exists daw. apply (range_elem_of "phases").
        fold l. rewrite Hl. set_solver. }
      intros r. simpl. apply wp_bind. apply wp_must.
      * intros e ->. apply HE. by apply stoppedEarly_read.
      * intros aw ->.
        pose proof (afterSync_read _ _ _ _ _ _ daw (AWStatus_Phase (AW_Status aw))
                      Ha Hnew Hcr' Hsome) as Ha'.
        pose proof (readIn_step _ _ _ _ daw aw Hrd Hnew) as Hrd'.
        simpl in Ha'. case_bool_decide; simpl.
        all: split_and!; [by apply stoppedEarly_read|by rewrite writes_read|by eauto].
  - intros st t' (Hs & Hw & phases & Ha & Hrd). eauto.
Qed.

Lemma setIndices_lookup l aws sha :
  NoDup l.*1 ->
  setIndices l aws !! sha =
  match (list_to_map l : gmap string desiredAW) !! sha with
  | Some daw => Some (set_OAWS_ArtifactIndex (default emptyOAWS (aws !! sha))
                        (Z.of_nat (index daw)))
  | None => aws !! sha
  end.
Proof.
  unfold setIndices. revert aws. induction l as [|[k daw] l IH]; intros aws Hnd; [done|].
  simpl in Hnd. apply NoDup_cons in Hnd as [Hk Hnd]. simpl. rewrite IH by done.
  destruct (decide (k = sha)) as [<-|Hne].
  - rewrite lookup_insert_eq, (not_elem_of_list_to_map_1 l k) by done.
    by rewrite lookup_insert_eq.
  - by rewrite !lookup_insert_ne by done.
Qed.

(** ** The three loops together *)

Section final.
Context (order : Order) (desiredAWs : gmap string desiredAW).
Context (phases : gmap string WorkflowPhase).
Context (aws1 aws2 : gmap string OrderArtifactWorkflowStatus).
Context (st : gmap string OrderArtifactWorkflowStatus * bool).
Let createAWs := missingKeys "create" desiredAWs (tracked order).
Let deleteAWs := missingKeys "obsolete" (tracked order) desiredAWs.
Hypothesis Hcreate : afterCreate order desiredAWs createAWs aws1.
Hypothesis Hdelete : forall sha,
  aws2 !! sha = if bool_decide (sha ∈ deleteAWs) then None else aws1 !! sha.

(** A tracked hash that is still desired keeps its entry up to here. *)
Lemma kept_entry sha :
  is_Some (desiredAWs !! sha) -> sha ∉ createAWs -> aws2 !! sha = tracked order !! sha.
Proof.
  intros Hd Hcr. rewrite Hdelete, bool_decide_false.
  - by destruct (Hcreate sha) as [?|[? _]].
  - unfold deleteAWs. rewrite missingKeys_elem_of. intros [_ Hn]. rewrite Hn in Hd.
    by destruct Hd.
Qed.

Hypothesis Hsync : afterSync createAWs (range_order "phases" desiredAWs) aws2 phases st.

Lemma phases_dom : dom phases = dom desiredAWs ∩ dom (tracked order).
Proof.
  apply set_eq. intros sha. rewrite elem_of_intersection, !elem_of_dom.
  rewrite (proj1 Hsync), range_keys_elem_of. split; intros [Hd Hx]; split; try done.
  - by eapply missingKeys_kept.
  - by apply missingKeys_present.
Qed.

(** An entry that is not desired is gone. *)
Lemma not_desired_gone sha : desiredAWs !! sha = None -> aws2 !! sha = None.
Proof.
  intros Hno. rewrite Hdelete. case_bool_decide as Hdel; [done|].
  destruct (Hcreate sha) as [->|(_ & daw & Hd & _)]; [|by rewrite Hno in Hd].
  apply eq_None_not_Some. intros Htr. apply Hdel. by apply missingKeys_elem_of.
Qed.

Lemma setIndices_final :
  setIndices (range_order "indices" desiredAWs) st.1 = finalStatus order phases desiredAWs.
Proof.
  destruct Hsync as (Hp & Hl & _). apply map_eq. intros sha.
  rewrite setIndices_lookup, range_list_to_map by apply range_NoDup_keys.
  unfold finalStatus. rewrite map_lookup_imap, Hl.
  destruct (desiredAWs !! sha) as [daw|] eqn:Hd; simpl.
  - unfold finalEntry. destruct (tracked order !! sha) as [old|] eqn:Htr.
    + assert (sha ∉ createAWs) as Hcr by (apply missingKeys_present; by eexists).
      rewrite kept_entry, Htr by (by eexists || done). simpl.
      by destruct (phases !! sha).
    + assert (phases !! sha = None) as ->.
      { apply eq_None_not_Some. rewrite Hp, range_keys_elem_of.
        intros [Hx Hcr]. eapply missingKeys_kept in Hcr; [|done]. rewrite Htr in Hcr.
        by destruct Hcr. }
      rewrite Hdelete, bool_decide_false.
      * destruct (Hcreate sha) as [->|(_ & daw' & Hd' & ->)]; [by rewrite Htr|].
        by rewrite Hd in Hd'; simplify_eq.
      * unfold deleteAWs. rewrite missingKeys_elem_of, Hd. by intros [_ ?].
  - assert (phases !! sha = None) as ->.
    { apply eq_None_not_Some. rewrite Hp, range_keys_elem_of, Hd. by intros [[] _]. }
    by rewrite not_desired_gone.
Qed.

(** The flag says whether a phase that was read differs from the tracked one. *)
Lemma flag_final :
  st.2 = true <-> exists sha old p, tracked order !! sha = Some old
    /\ phases !! sha = Some p /\ OAWS_Phase old <> p.
Proof.
  destruct Hsync as (Hp & _ & ->). split.
  - intros (sha & p & Hph & Hne). destruct (proj1 (Hp sha)) as [Hd Hcr]; [by eexists|].
    apply range_keys_elem_of in Hd. rewrite kept_entry in Hne by done.
    eapply missingKeys_kept in Hcr as [old Hold]; [|done].
    rewrite Hold in Hne. eauto 10.
  - intros (sha & old & p & Hold & Hph & Hne). exists sha, p. split; [done|].
    destruct (proj1 (Hp sha)) as [Hd Hcr]; [by eexists|].
    apply range_keys_elem_of in Hd. by rewrite kept_entry, Hold by done.
Qed.

(** The condition of line 275. *)
Lemma due_final :
  (0 <? length createAWs)%nat || (0 <? length deleteAWs)%nat || st.2 = true <->
  statusDue order desiredAWs phases.
Proof.
  rewrite !orb_true_iff, flag_final. unfold statusDue.
  pose proof (missingKeys_length "create" desiredAWs (tracked order)) as Hc.
  pose proof (missingKeys_length "obsolete" (tracked order) desiredAWs) as Hd.
  fold createAWs in Hc. fold deleteAWs in Hd.
  destruct (0 <? length createAWs)%nat; destruct (0 <? length deleteAWs)%nat.
  4: assert (dom desiredAWs = dom (tracked order)) by
       (apply set_eq_subseteq; split; [by apply Hc|by apply Hd]); intuition congruence.
  all: assert (dom desiredAWs <> dom (tracked order)) by
         (intros Heq; rewrite Heq in *; assert (dom (tracked order) ⊆ dom (tracked order)) by done;
          intuition congruence); tauto.
Qed.

End final.

(** ** The refinement *)

(** What a successful run has done since [t]: the missing artifact workflows are
    created, then the obsolete ones deleted, then the status is written if anything
    in it is due. *)
Definition applied (order : Order) (desiredAWs : gmap string desiredAW)
  (t t' : list event) : Prop :=
  exists phases cs us, phasesRead order desiredAWs phases t'
    /\ Forall2 (creates order desiredAWs)
         (missingKeys "create" desiredAWs (tracked order)) cs
    /\ writes t' = writes t ++ cs
         ++ map (deletes order) (missingKeys "obsolete" (tracked order) desiredAWs) ++ us
    /\ let update := UpdateOrderStatus (set_Order_ArtifactWorkflows order
                       (Some (finalStatus order phases desiredAWs))) in
       (statusDue order desiredAWs phases /\ us = [update] /\ ev update None ∈ t') \/
       (~ statusDue order desiredAWs phases /\ us = []).

Lemma wp_applyDesired order desiredAWs (Q : list event -> outcome Result -> Prop) t :
  (forall t', applied order desiredAWs t t' -> Q t' (Ok (mkResult false))) ->
  (forall t' e, stoppedEarly order desiredAWs t t' -> Q t' (Err e)) ->
  (forall t' m, stoppedEarly order desiredAWs t t' -> Q t' (Panic m)) ->
  wp (applyDesired order desiredAWs) Q t.
Proof.
  intros HO HE HP. unfold applyDesired. apply wp_bind, wp_createAll; [|done|done].
  intros t1 aws1 cs Hs1 Hcs Hw1 Hcreate.
  apply wp_bind, (wp_deleteAll order desiredAWs aws1 _ t t1); [done| |done].
  intros t2 aws2 Hs2 Hw2 Hdelete.
  apply wp_bind, (wp_syncAll order desiredAWs _ aws2 _ t t2); [done| | |done].
  { intros sha Hd Hcr. rewrite (kept_entry _ _ _ _ Hcreate Hdelete) by done.
    by eapply missingKeys_kept. }
  intros t3 [aws3 changed] phases Hs3 Hw3 Hsync Hread.
  assert (phasesRead order desiredAWs phases t3) as Hphases.
  { split; [by eapply phases_dom|]. intros sha daw p Hd Hp.
    eapply Hread; [|done]. by apply range_elem_of. }
  pose proof (due_final _ _ _ _ _ _ Hcreate Hdelete Hsync) as Hdue.
  pose proof (setIndices_final _ _ _ _ _ _ Hcreate Hdelete Hsync) as Hidx. simpl in Hdue, Hidx.
  destruct (_ || changed).
  - rewrite Hidx. intros r. cbn [bind].
    apply wp_bind, wp_check; [intros e _|intros ->].
    + apply HE. eapply stoppedEarly_step; [done| |done]. right. right. by eexists.
    + apply HO. exists phases, cs, [UpdateOrderStatus (set_Order_ArtifactWorkflows order
        (Some (finalStatus order phases desiredAWs)))]. split_and!.
      * destruct Hphases as [Hd Hev]. split; [done|]. intros sha daw p Hdaw Hp.
        destruct (Hev _ _ _ Hdaw Hp) as (aw & Hin & ?). exists aw. set_solver.
      * done.
      * rewrite writes_write by done. by rewrite Hw3, Hw2, Hw1, <- !app_assoc.
      * left. split_and!; [by apply Hdue|done|set_solver].
  - apply HO. exists phases, cs, []. split_and!; [done|done| |].
    + by rewrite Hw3, Hw2, Hw1, app_nil_r, <- !app_assoc.
    + right. split; [|done]. intros Hd. by apply Hdue in Hd.
Qed.

End apply.
