(* ===== verification/OrderFacts.v ===== *)
(** * What a reconciliation of an order does

    [reconciled] describes every run of [OrderReconciler.Reconcile], whatever the
    API server answers: which branch is taken, which requests are made in which
    order and what is returned.  [Reconcile] refines it; the theorems about single
    behaviours follow from it. *)

From stdpp Require Import base gmap list strings.
From S2P Require Import Prelude GoStd Sha256 JsonEncode JsonDecode KubeTypes.
From S2P Require Import V1alpha1Types Client Errors ControllerRuntime WorkflowParameters.
From S2P Require Import OrderController OrderFetch OrderApply.

Local Open Scope string_scope.
Local Open Scope list_scope.

(** ** States of an order *)

Definition deleting (order : Order) : bool :=
  negb (Time_IsZero (DeletionTimestamp (Order_ObjectMeta order))).

Definition claimed (order : Order) : bool :=
  slices_Contains (Finalizers (Order_ObjectMeta order)) orderFinalizer.

Definition withFinalizer (order : Order) : Order :=
  set_Order_ObjectMeta order (set_Finalizers (Order_ObjectMeta order)
    (Finalizers (Order_ObjectMeta order) ++ [orderFinalizer])).

Definition withoutFinalizer (order : Order) : Order :=
  set_Order_ObjectMeta order (set_Finalizers (Order_ObjectMeta order)
    (slices_DeleteFunc (Finalizers (Order_ObjectMeta order))
       (fun f => bool_decide (f = orderFinalizer)))).

(** The outcome of a last request whose error is wrapped. *)
Definition closing (text : string) (res : Result) (r : option error) : outcome Result :=
  match r with
  | None => Ok res
  | Some e => Err (wrapped e text)
  end.

Definition numbered (order : Order) : list (nat * OrderArtifact) :=
  imap pair (OrderSpec_Artifacts (Order_Spec order)).

Section facts.
Context `{GoRuntime} `{Float64} `{ControllerUtil}.

(** ** The specification *)

(** What happens after the order was read. *)
Inductive course (order : Order) : list event -> outcome Result -> Prop :=
| Cleanup t r :
    deleting order = true -> tracked order <> ∅ ->
    map ev_call t = map (deletes order) (range_order "delete" (tracked order)).*1 ->
    course order
      (t ++ [ev (UpdateOrderStatus (set_Order_ArtifactWorkflows order (Some ∅))) r])
      (closing "failed to update order status" (mkResult true) r)
| Release r :
    deleting order = true -> tracked order = ∅ -> claimed order = true ->
    course order [ev (UpdateOrder (withoutFinalizer order)) r]
      (closing "failed to remove finalizer" (mkResult false) r)
| Released :
    deleting order = true -> tracked order = ∅ -> claimed order = false ->
    course order [] (Ok (mkResult false))
| Claim r :
    deleting order = false -> claimed order = false ->
    course order [ev (UpdateOrder (withFinalizer order)) r]
      (closing "failed to add finalizer" (mkResult false) r)
| FetchFailed t e :
    deleting order = false -> claimed order = true -> writes t = [] ->
    course order t (Err e)
| Stopped l t o :
    deleting order = false -> claimed order = true -> fetched (numbered order) l ->
    stoppedEarly order (desiredFrom order l) [] t ->
    (forall res, o <> Ok res) ->
    course order (allFetchEvents order l ++ t) o
| Applied l t :
    deleting order = false -> claimed order = true -> fetched (numbered order) l ->
    applied order (desiredFrom order l) [] t ->
    course order (allFetchEvents order l ++ t) (Ok (mkResult false)).

Inductive reconciled (req : NamespacedName) : list event -> outcome Result -> Prop :=
| Gone e : IsNotFound e = true ->
    reconciled req [ev (GetOrder req) (inl e)] (Ok (mkResult false))
| GetFailed e : IsNotFound e = false ->
    reconciled req [ev (GetOrder req) (inl e)] (Err (wrapped e "failed to get object"))
| Found order t o : course order t o ->
    reconciled req (ev (GetOrder req) (inr order) :: t) o.

(** The order an event reads, if it reads one. *)
Definition orderRead (e : event) : option Order :=
  match e with
  | existT (GetOrder _) (inr o) => Some o
  | _ => None
  end.

Lemma reconciled_course req order t o :
  reconciled req (ev (GetOrder req) (inr order) :: t) o -> course order t o.
Proof.
  intros Hr. remember (ev (GetOrder req) (inr order) :: t) as tr eqn:Htr.
  destruct Hr as [e He|e He|order' t' o Hc].
  1-2: apply (f_equal (fun l => head l ≫= orderRead)) in Htr; discriminate Htr.
  assert (order' = order) as ->.
  { apply (f_equal (fun l => head l ≫= orderRead)) in Htr. by injection Htr. }
  by apply (f_equal tail) in Htr; simpl in Htr; subst.
Qed.

(** ** The deletion of an order *)

Lemma wp_deleteAllTracked order (Q : list event -> outcome _ -> Prop) t :
  (forall t', map ev_call t' = map (deletes order) (range_order "delete" (tracked order)).*1 ->
     Q (t ++ t') (Ok ∅)) ->
  wp (for_each (range_order "delete" (tracked order)).*1 (deleteTracked order)
        (tracked order)) Q t.
Proof.
  intros HQ. set (keys := (range_order "delete" (tracked order)).*1).
  apply (wp_for_each (fun done aws t' =>
    (exists t1, t' = t ++ t1 /\ map ev_call t1 = map (deletes order) done) /\
    forall sha, aws !! sha = if bool_decide (sha ∈ done) then None else tracked order !! sha)).
  - split; [|done]. exists []. by rewrite app_nil_r.
  - intros done sha rest aws t' _ ((t1 & -> & Ht1) & Haws) r. simpl. split.
    + exists (t1 ++ [ev (deletes order sha) r]). rewrite <- app_assoc. split; [done|].
      by rewrite !map_app, Ht1.
    + intros sha'. destruct (decide (sha = sha')) as [<-|Hne].
      * by rewrite lookup_delete_eq, bool_decide_true by set_solver.
      * rewrite lookup_delete_ne, Haws by done.
        by rewrite (bool_decide_ext (sha' ∈ done ++ [sha]) (sha' ∈ done)) by set_solver.
  - intros aws t' ((t1 & -> & Ht1) & Haws).
    assert (aws = ∅) as ->; [|by apply HQ].
    apply map_empty. intros sha. rewrite Haws. case_bool_decide as Hin; [done|].
    apply eq_None_not_Some. intros Hs. apply Hin. by apply range_keys_elem_of.
Qed.

Lemma reconcileDelete_refines order :
  deleting order = true -> wp (reconcileDelete order) (course order) [].
Proof.
  intros Hdel. unfold reconcileDelete. destruct (0 <? size (tracked order))%nat eqn:Hsize.
  - apply Nat.ltb_lt in Hsize. apply wp_bind, wp_deleteAllTracked. intros t Ht r.
    simpl.
    assert (tracked order <> ∅) as Hne.
    { intros Hnil. rewrite Hnil, map_size_empty in Hsize. lia. }
    destruct r; [eapply (Cleanup _ _ (Some _))|eapply (Cleanup _ _ None)]; done.
  - apply Nat.ltb_ge in Hsize.
    assert (tracked order = ∅) as Hnil by (apply map_size_empty_inv; lia).
    destruct (slices_Contains _ _) eqn:Hfin; [intros r|by apply Released].
    destruct r; [by apply (Release _ (Some _))|by apply (Release _ None)].
Qed.

(** ** The refinement *)

Lemma Reconcile_wp req : wp (Reconcile req) (reconciled req) [].
Proof.
  unfold Reconcile. intros r. simpl. destruct r as [e|order].
  { destruct (IsNotFound e) eqn:He; [by apply Gone|by apply GetFailed]. }
  apply wp_shift. apply wp_mono with (Q := course order); [intros t o; apply Found|].
  destruct (negb (Time_IsZero _)) eqn:Hdel; [by apply reconcileDelete_refines|].
  destruct (slices_Contains _ _) eqn:Hfin; simpl.
  2: intros r; destruct r; [by apply (Claim _ (Some _))|by apply (Claim _ None)].
  apply wp_bind, wp_desiredState.
  { intros t e Hw. by apply FetchFailed. }
  intros l Hl. apply wp_shift, wp_applyDesired.
  - intros t Ht. by apply Applied.
  - intros t e Ht. by apply Stopped.
  - intros t m Ht. by apply Stopped.
Qed.

Lemma Reconcile_reconciled req t o : exec (Reconcile req) t o -> reconciled req t o.
Proof. apply exec_wp, Reconcile_wp. Qed.

(** ** What may be requested *)

(** The requests a reconciliation of a fetched order may make, in a run with the
    given events. *)
Inductive permitted (order : Order) (t : list event) : call -> Prop :=
| PermitCleanup sha :
    deleting order = true -> is_Some (tracked order !! sha) ->
    permitted order t (deletes order sha)
| PermitForget :
    deleting order = true ->
    permitted order t (UpdateOrderStatus (set_Order_ArtifactWorkflows order (Some ∅)))
| PermitRelease :
    deleting order = true -> tracked order = ∅ ->
    permitted order t (UpdateOrder (withoutFinalizer order))
| PermitClaim :
    deleting order = false -> claimed order = false ->
    permitted order t (UpdateOrder (withFinalizer order))
| PermitApply l t' c :
    deleting order = false -> claimed order = true -> fetchedFirst order l t t' ->
    allowedWrite order (desiredFrom order l) c -> permitted order t c.

Lemma applied_allowed order desiredAWs t :
  applied order desiredAWs [] t -> Forall (allowedWrite order desiredAWs) (writes t).
Proof.
  intros (phases & cs & us & _ & Hcs & -> & Hus). simpl.
  rewrite !Forall_app. split_and!.
  - apply Forall_forall. intros c Hc. apply list_elem_of_lookup_1 in Hc as [i Hi].
    destruct (Forall2_lookup_r _ _ _ _ _ Hcs Hi) as (sha & Hsha & Hcr).
    left. exists sha. split; [|done].
    apply list_elem_of_lookup_2, missingKeys_elem_of in Hsha as [_ ?]. done.
  - apply Forall_forall. intros c (sha & -> & Hsha)%list_elem_of_fmap.
    apply missingKeys_elem_of in Hsha as [Hs Hn]. right. left. by exists sha.
  - destruct Hus as [(_ & -> & _)|[_ ->]]; constructor; [|constructor].
    right. right. by eexists.
Qed.

Lemma writes_calls t cs :
  map ev_call t = cs -> Forall (fun c => mutating c = true) cs -> writes t = cs.
Proof.
  intros <- Hm. unfold writes. induction t as [|e t IH]; [done|]. simpl in *.
  inversion Hm as [|? ? He Ht]; subst. rewrite He. f_equal. by apply IH.
Qed.

Lemma writes_cons_read e t : mutating (ev_call e) = false -> writes (e :: t) = writes t.
Proof. intros He. unfold writes. simpl. by rewrite He. Qed.

Lemma writes_cleanup order t :
  map ev_call t = map (deletes order) (range_order "delete" (tracked order)).*1 ->
  writes t = map (deletes order) (range_order "delete" (tracked order)).*1.
Proof.
  intros Ht. apply writes_calls; [done|]. apply Forall_forall.
  by intros c (sha & -> & _)%list_elem_of_fmap.
Qed.

(** Every request of a reconciliation is one of these. *)
Lemma course_permitted order t o c : course order t o -> c ∈ writes t -> permitted order t c.
Proof.
  intros Hr Hc. destruct Hr as [t r Hd Hne Ht|r Hd Hno Hcl|Hd Hno Hcl
    |r Hd Hcl|t e Hd Hcl Hw|l t o Hd Hcl Hl Hs Ho|l t Hd Hcl Hl Ha].
  - rewrite writes_app, (writes_cleanup order) in Hc by done.
    apply elem_of_app in Hc as [(sha & -> & Hsha)%list_elem_of_fmap|Hc].
    + apply PermitCleanup; [done|]. by apply range_keys_elem_of in Hsha.
    + apply list_elem_of_singleton in Hc as ->. by apply PermitForget.
  - apply list_elem_of_singleton in Hc as ->. by apply PermitRelease.
  - by apply not_elem_of_nil in Hc.
  - apply list_elem_of_singleton in Hc as ->. by apply PermitClaim.
  - rewrite Hw in Hc. by apply not_elem_of_nil in Hc.
  - rewrite writes_app, writes_allFetchEvents in Hc.
    destruct Hs as (ws & Hws & Hall). simpl in Hc, Hws. rewrite Hws in Hc.
    apply (PermitApply _ _ l t); [done..|]. by eapply Forall_forall in Hall.
  - rewrite writes_app, writes_allFetchEvents in Hc. simpl in Hc.
    apply applied_allowed in Ha. apply (PermitApply _ _ l t); [done..|].
    by eapply Forall_forall in Ha.
Qed.

Lemma reconciled_permitted req t o c :
  reconciled req t o -> c ∈ writes t ->
  exists order t', t = ev (GetOrder req) (inr order) :: t' /\ permitted order t' c.
Proof.
  intros Hr Hc. destruct Hr as [e He|e He|order t o Hcourse].
  1-2: by apply not_elem_of_nil in Hc.
  do 2 eexists. split; [reflexivity|]. rewrite writes_cons_read in Hc by done.
  by eapply course_permitted.
Qed.

Lemma exec_permitted req t o c :
  exec (Reconcile req) t o -> c ∈ writes t ->
  exists order t', t = ev (GetOrder req) (inr order) :: t' /\ permitted order t' c.
Proof. intros Hex. by apply reconciled_permitted with (o := o), Reconcile_reconciled. Qed.

End facts.
