(* ===== verification/OrderConverge.v ===== *)
(** * Convergence of orders

    Against a healthy API server one reconciliation of an order whose inputs exist
    succeeds and brings the cluster in line with it: the desired artifact workflows
    exist, the obsolete ones are gone or being deleted, and the status tracks
    exactly the desired ones with their phases.  From there a further reconciliation
    requests no change. *)

From stdpp Require Import base gmap list strings.
From S2P Require Import Prelude GoStd Sha256 JsonEncode JsonDecode KubeTypes.
From S2P Require Import V1alpha1Types Client Cluster Errors ControllerRuntime.
From S2P Require Import WorkflowParameters OrderController OrderFetch OrderApply.
From S2P Require Import OrderFacts.

Local Open Scope string_scope.
Local Open Scope list_scope.

(** ** Specification *)

Definition awKey (order : Order) (sha : string) : NamespacedName :=
  meta_key (awObjectMeta order sha).

Definition secretIn (s : Cluster) (order : Order) (ep : Endpoint) (sec : Secret) : Prop :=
  if hasSecret ep then secrets s !! secretKey order ep = Some sec else sec = emptySecret.

(** The inputs of an artifact as they are stored. *)
Definition inputsIn (s : Cluster) (order : Order) (art : OrderArtifact) (ins : inputs) : Prop :=
  endpoints s !! srcKey order art = Some (in_src ins) /\
  endpoints s !! dstKey order art = Some (in_dst ins) /\
  secretIn s order (in_src ins) (in_srcSecret ins) /\
  secretIn s order (in_dst ins) (in_dstSecret ins).

(** Every artifact of the order has its inputs. *)
Definition available (s : Cluster) (order : Order) (l : list (nat * OrderArtifact * inputs)) : Prop :=
  map fst l = numbered order /\ Forall (fun x => inputsIn s order x.1.2 x.2) l.

(** The status tracks exactly the desired artifact workflows, which exist, with
    their phases. *)
Definition inLine (s : Cluster) (order : Order) (desiredAWs : gmap string desiredAW) : Prop :=
  dom (tracked order) = dom desiredAWs /\
  forall sha st, tracked order !! sha = Some st ->
    exists aw, artifactWorkflows s !! awKey order sha = Some aw
      /\ AWStatus_Phase (AW_Status aw) = OAWS_Phase st.

(** An artifact workflow that is not wanted: it does not exist, or is being deleted. *)
Definition goneOrDeleting (s : Cluster) (k : NamespacedName) : Prop :=
  forall aw, artifactWorkflows s !! k = Some aw ->
    Time_IsZero (DeletionTimestamp (AW_ObjectMeta aw)) = false.

Lemma awKey_inj order sha1 sha2 : awKey order sha1 = awKey order sha2 -> sha1 = sha2.
Proof.
  unfold awKey, meta_key, awObjectMeta, awName. simpl. intros [= Heq].
  by apply (inj (String.append _)), (inj (String.append _)) in Heq.
Qed.

Section converge.
Context `{GoRuntime} `{Float64} `{ControllerUtil}.

(** What a reconciliation needs: the order is stored, live and claimed, its inputs
    exist and can be turned into parameters, and the artifact workflows it tracks exist. *)
Record prepared (s : Cluster) (order : Order) (l : list (nat * OrderArtifact * inputs)) : Prop := {
  ready_stored : orders s !! meta_key (Order_ObjectMeta order) = Some order;
  ready_live : deleting order = false;
  ready_claimed : claimed order = true;
  ready_inputs : available s order l;
  ready_hydrates : forall sha daw, desiredFrom order l !! sha = Some daw ->
    exists aw, hydrateArtifactWorkflow daw = Ok aw;
  ready_tracked : forall sha, is_Some (desiredFrom order l !! sha) ->
    is_Some (tracked order !! sha) -> is_Some (artifactWorkflows s !! awKey order sha);
}.

(** No earlier reconciliation was cut off: what it does not track is not there yet. *)
Record ready (s : Cluster) (order : Order) (l : list (nat * OrderArtifact * inputs)) : Prop := {
  ready_prepared : prepared s order l;
  ready_fresh : forall sha, is_Some (desiredFrom order l !! sha) ->
    tracked order !! sha = None -> artifactWorkflows s !! awKey order sha = None;
}.

(** An artifact workflow as it is created for a hash: what its artifact asks for,
    under the name of the hash, unclaimed and without a phase. *)
Definition asOrdered (order : Order) (desiredAWs : gmap string desiredAW) (sha : string)
  (aw : ArtifactWorkflow) : Prop :=
  exists daw aw0, desiredAWs !! sha = Some daw /\ hydrateArtifactWorkflow daw = Ok aw0
    /\ AW_Spec aw = AW_Spec aw0 /\ AW_Status aw = mkArtifactWorkflowStatus WorkflowUnknown ""
    /\ meta_key (AW_ObjectMeta aw) = awKey order sha
    /\ Finalizers (AW_ObjectMeta aw) = [] /\ DeletionTimestamp (AW_ObjectMeta aw) = None.

(** An artifact workflow that is created unless there is one. *)
Definition ensured (order : Order) (desiredAWs : gmap string desiredAW) (sha : string)
  (old new : option ArtifactWorkflow) : Prop :=
  match old with
  | Some _ => new = old
  | None => exists aw, new = Some aw /\ asOrdered order desiredAWs sha aw
  end.

(** ** Fetching *)

Lemma leads_fetchSecret s order ep sec text t Q :
  secretIn s order ep sec -> Q s (t ++ secretEvents order ep sec) (Ok sec) ->
  leads (fetchSecret (Namespace (Order_ObjectMeta order)) ep text) s t Q.
Proof.
  unfold secretIn, fetchSecret, secretEvents. fold (hasSecret ep).
  destruct (hasSecret ep); intros Hs HQ.
  - intros s' r [-> ->]. simpl. unfold secretKey, namespacedName in *. by rewrite Hs.
  - simpl. subst. by rewrite app_nil_r in HQ.
Qed.

Lemma leads_fetchArtifact s order i art ins m t Q :
  inputsIn s order art ins ->
  Q s (t ++ fetchEvents order art ins)
    (Ok (<[(desiredEntry order (i, art, ins)).1 := (desiredEntry order (i, art, ins)).2]> m)) ->
  leads (fetchArtifact order (i, art) m) s t Q.
Proof.
  intros (Hs & Hd & Hss & Hds) HQ. unfold fetchArtifact.
  intros s1 r1 [-> ->]. unfold srcKey, dstKey in *. rewrite Hs. simpl.
  intros s2 r2 [-> ->]. rewrite Hd. simpl.
  apply leads_bind. eapply leads_fetchSecret; [exact Hss|].
  apply leads_bind. eapply leads_fetchSecret; [exact Hds|].
  simpl. unfold fetchEvents in HQ. simpl in HQ. unfold srcKey, dstKey in HQ.
  by rewrite <- !app_assoc.
Qed.

Lemma leads_desiredState s order l t Q :
  available s order l ->
  Q s (t ++ allFetchEvents order l) (Ok (desiredFrom order l)) ->
  leads (desiredState order) s t Q.
Proof.
  intros [Hfst Hall] HQ. unfold desiredState.
  apply (leads_for_each (fun done m s' t' => s' = s /\ exists l1 l2, l = l1 ++ l2
    /\ map fst l1 = done /\ t' = t ++ allFetchEvents order l1 /\ m = desiredFrom order l1)).
  - split; [done|]. exists [], l. by rewrite app_nil_r.
  - intros done [i art] rest m s' t' Hl (-> & l1 & l2 & -> & <- & -> & ->).
    unfold numbered in Hfst. rewrite Hl, map_app in Hfst.
    apply app_inv_head in Hfst. destruct l2 as [|[[i' art'] ins] l2]; [done|].
    simpl in Hfst. injection Hfst as -> -> _.
    apply Forall_app in Hall as [_ Hall]. apply Forall_cons in Hall as [Hins _].
    apply (leads_fetchArtifact _ _ _ _ ins); [done|].
    eexists. split; [done|]. split; [done|]. exists (l1 ++ [(i, art, ins)]), l2.
    rewrite <- app_assoc, map_app. split_and!; [done|done| |].
    + unfold allFetchEvents. rewrite map_app, concat_app. simpl.
      by rewrite app_nil_r, <- app_assoc.
    + by rewrite desiredFrom_app.
  - intros m s' t' (-> & l1 & l2 & -> & Hf & -> & ->).
    assert (l2 = []) as ->; [|by rewrite app_nil_r in HQ].
    unfold numbered in Hfst. rewrite map_app, Hf in Hfst.
    rewrite <- (app_nil_r (imap _ _)) in Hfst at 2. apply app_inv_head in Hfst.
    by destruct l2.
Qed.

(** ** The loops *)

Section loops.
Context (s0 : Cluster) (order : Order) (l : list (nat * OrderArtifact * inputs)).
Hypothesis Hready : prepared s0 order l.
Let desiredAWs := desiredFrom order l.
Let createAWs := missingKeys "create" desiredAWs (tracked order).
Let deleteAWs := missingKeys "obsolete" (tracked order) desiredAWs.
Context (I : Cluster -> Prop).

(** The artifact workflows after the creations of [done]. *)
Definition created (done : list string) (m : gmap NamespacedName ArtifactWorkflow) : Prop :=
  (forall k, k ∉ map (awKey order) done -> m !! k = artifactWorkflows s0 !! k) /\
  (forall sha, sha ∈ done -> ensured order desiredAWs sha
     (artifactWorkflows s0 !! awKey order sha) (m !! awKey order sha)).

Lemma awKey_done sha done : awKey order sha ∈ map (awKey order) done -> sha ∈ done.
Proof.
  intros (sha' & Heq & Hin)%list_elem_of_fmap. by apply awKey_inj in Heq as <-.
Qed.

(** The artifact workflow of a hash can be created: it hydrates, can be owned by the
    order, and has the name of its hash. *)
Lemma creation_possible sha daw :
  desiredAWs !! sha = Some daw ->
  exists aw meta, hydrateArtifactWorkflow daw = Ok aw
    /\ SetControllerReference "Order" (Order_ObjectMeta order) (AW_ObjectMeta aw) = inr meta
    /\ meta_key meta = awKey order sha
    /\ forall md, maintained meta md -> asOrdered order desiredAWs sha (set_AW_ObjectMeta aw md).
Proof.
  intros Hdaw. destruct (ready_hydrates _ _ _ Hready sha daw Hdaw) as [aw Haw].
  assert (AW_ObjectMeta aw = awObjectMeta order sha /\
          AW_Status aw = mkArtifactWorkflowStatus WorkflowUnknown "") as [Hmeta Hst].
  { rewrite <- (desiredFrom_meta _ _ _ _ Hdaw). unfold hydrateArtifactWorkflow in Haw.
    destruct (dawToParameters daw); simplify_eq/=. done. }
  destruct (SetControllerReference_fresh "Order" (Order_ObjectMeta order) (AW_ObjectMeta aw))
    as [meta Hset]; [by rewrite Hmeta|by rewrite Hmeta|].
  exists aw, meta. split; [done|]. split; [done|].
  apply SetControllerReference_frame in Hset as (ref & -> & _); [|by rewrite Hmeta].
  rewrite Hmeta. split; [done|]. intros md (Hn & Hns & _ & _ & _ & Hf & Hd).
  exists daw, aw. split_and!; try done. simpl. unfold awKey, meta_key. by rewrite Hn, Hns.
Qed.

Lemma set_artifactWorkflows_twice c m m' :
  set_artifactWorkflows (set_artifactWorkflows c m) m' = set_artifactWorkflows c m'.
Proof. done. Qed.

Lemma set_artifactWorkflows_same c : set_artifactWorkflows c (artifactWorkflows c) = c.
Proof. by destruct c. Qed.

(** One creation. *)
Lemma leads_createOne done sha aws m t Q :
  sha ∈ createAWs -> sha ∉ done -> created done m ->
  afterCreate order desiredAWs done aws ->
  (forall m' aws' t', created (done ++ [sha]) m' ->
     afterCreate order desiredAWs (done ++ [sha]) aws' ->
     Q (set_artifactWorkflows s0 m') t' (Ok aws')) ->
  leads (createOne order desiredAWs sha aws) (set_artifactWorkflows s0 m) t Q.
Proof.
  intros Hin Hfresh [Hold Hnew] Haws HQ.
  apply missingKeys_elem_of in Hin as [[daw Hdaw] Hno].
  destruct (creation_possible sha daw Hdaw) as (aw & meta & Haw & Hset & Hkey & Hasked).
  unfold createOne. rewrite Hdaw, Haw, Hset. simpl.
  intros s' r (m' & -> & Hcr). unfold creates_in in Hcr. simpl in Hcr. rewrite Hkey in Hcr.
  rewrite set_artifactWorkflows_twice.
  assert (m !! awKey order sha = artifactWorkflows s0 !! awKey order sha) as Heq
    by (apply Hold; by intros ?%awKey_done).
  rewrite Heq in Hcr.
  assert (afterCreate order desiredAWs (done ++ [sha]) aws) as Haws'.
  { intros sha'. destruct (Haws sha') as [?|(? & ?)]; [by left|]. right. set_solver. }
  destruct (artifactWorkflows s0 !! awKey order sha) as [old|] eqn:Hs0.
  - destruct Hcr as (-> & e & -> & He). unfold IsAlreadyExists.
    rewrite He, bool_decide_true by done. apply HQ; [|done]. split.
    + intros k Hk. apply Hold. rewrite map_app in Hk. set_solver.
    + intros sha' [Hd| ->%list_elem_of_singleton]%elem_of_app; [by apply Hnew|].
      by rewrite Hs0, Heq.
  - destruct Hcr as (-> & md & Hmd & ->). apply HQ.
    + split.
      * intros k Hk. rewrite map_app in Hk. rewrite lookup_insert_ne, Hold; set_solver.
      * intros sha' [Hd| ->%list_elem_of_singleton]%elem_of_app.
        -- rewrite lookup_insert_ne; [by apply Hnew|]. intros Hk%awKey_inj. by subst.
        -- rewrite Hs0, lookup_insert_eq. eexists. split; [done|]. by apply Hasked.
    + intros sha'. destruct (decide (sha = sha')) as [<-|Hne].
      * right. split; [set_solver|]. exists daw. by rewrite lookup_insert_eq.
      * rewrite lookup_insert_ne by done. apply Haws'.
Qed.

Lemma single_createOne sha aws : single (createOne order desiredAWs sha aws).
Proof.
  unfold createOne. destruct (desiredAWs !! sha) as [daw|]; [|done].
  destruct (hydrateArtifactWorkflow daw) as [aw|e|m]; [|done..].
  destruct (SetControllerReference _ _ _) as [e|meta]; [done|].
  intros [err|]; simpl; [destruct (IsAlreadyExists err)|]; done.
Qed.

Lemma keeps_createAll Q :
  (forall done m, (forall sha, sha ∈ done -> sha ∈ createAWs) -> created done m ->
     I (set_artifactWorkflows s0 m)) ->
  (forall m aws, created createAWs m -> afterCreate order desiredAWs createAWs aws ->
     Q (set_artifactWorkflows s0 m) (Ok aws)) ->
  keeps I (for_each createAWs (createOne order desiredAWs) (tracked order)) s0 Q.
Proof.
  intros HI HQ. apply (keeps_for_each _ (fun done aws s => exists m,
    s = set_artifactWorkflows s0 m /\ created done m /\ afterCreate order desiredAWs done aws
    /\ forall sha, sha ∈ done -> sha ∈ createAWs)).
  - exists (artifactWorkflows s0). rewrite set_artifactWorkflows_same.
    split_and!; [done|split; [done|set_solver]|by intros sha; left|set_solver].
  - intros done aws s (m & -> & Hm & _ & Hsub). exact (HI _ _ Hsub Hm).
  - intros done sha rest aws s Hl (m & -> & Hm & Haws & Hsub).
    assert (sha ∈ createAWs) as Hin by (rewrite Hl; set_solver).
    assert (sha ∉ done) as Hfresh.
    { pose proof (missingKeys_NoDup "create" desiredAWs (tracked order)) as Hnd.
      fold createAWs in Hnd. rewrite Hl in Hnd. apply NoDup_app in Hnd as (_ & Hdis & _).
      intros Hd. apply (Hdis sha Hd). set_solver. }
    assert (forall sha', sha' ∈ done ++ [sha] -> sha' ∈ createAWs) as Hsub' by set_solver.
    apply (keeps_single _ _ _ []); [apply single_createOne|exact (HI _ _ Hsub Hm)|].
    apply (leads_createOne done); [done..|]. intros m' aws' t' Hm' Haws'.
    split; [exact (HI _ _ Hsub' Hm')|]. eauto 10.
  - intros aws s (m & -> & Hm & Haws & _). by apply HQ.
Qed.

(** The artifact workflows after the deletions of [done]. *)
Definition cleaned (done : list string) (m1 m : gmap NamespacedName ArtifactWorkflow) : Prop :=
  (forall k, k ∉ map (awKey order) done -> m !! k = m1 !! k) /\
  (forall sha, sha ∈ done -> goneOrDeleting (set_artifactWorkflows s0 m) (awKey order sha)).

Lemma leads_deleteOne done sha aws m1 m t Q :
  cleaned done m1 m ->
  (forall m' t', cleaned (done ++ [sha]) m1 m' ->
     Q (set_artifactWorkflows s0 m') t' (Ok (delete sha aws))) ->
  leads (deleteOne order sha aws) (set_artifactWorkflows s0 m) t Q.
Proof.
  intros [Hold Hnew] HQ. unfold deleteOne.
  intros s' r (m' & -> & Hdel). rewrite set_artifactWorkflows_twice. simpl.
  fold (awKey order sha) in Hdel. unfold deletes_in in Hdel. simpl in Hdel.
  assert (IgnoreNotFound r = None /\
          (forall k, k <> awKey order sha -> m' !! k = m !! k) /\
          goneOrDeleting (set_artifactWorkflows s0 m') (awKey order sha)) as (-> & Hk & Hg).
  { destruct (m !! awKey order sha) as [old|] eqn:Ho.
    - destruct Hdel as [-> Hdel]. case_bool_decide.
      + subst. split_and!; [done|by intros; apply lookup_delete_ne|].
        intros aw Haw. simpl in Haw. by rewrite lookup_delete_eq in Haw.
      + destruct Hdel as (tm & md & Htm & Hmd & ->).
        split_and!; [done|by intros; apply lookup_insert_ne|].
        intros aw Haw. simpl in Haw. rewrite lookup_insert_eq in Haw. simplify_eq.
        by apply (maintained_marked _ _ _ Htm Hmd).
    - destruct Hdel as (-> & e & -> & He). split_and!; [|done|].
      + simpl. unfold IsNotFound. by rewrite He, bool_decide_true.
      + intros aw Haw. simpl in Haw. by rewrite Ho in Haw. }
  simpl. apply HQ. split.
  - intros k Hk'. rewrite map_app in Hk'. rewrite Hk, Hold; set_solver.
  - intros sha' [Hd| ->%list_elem_of_singleton]%elem_of_app; [|done].
    destruct (decide (sha = sha')) as [<-|Hne]; [done|].
    intros aw Haw. simpl in Haw. rewrite Hk in Haw by (by intros ?%awKey_inj).
    by apply (Hnew sha' Hd aw).
Qed.

Lemma single_deleteOne sha aws : single (deleteOne order sha aws).
Proof. simpl. intros r. by destruct (IgnoreNotFound r). Qed.

Lemma keeps_deleteAll m1 aws1 Q :
  (forall done m, (forall sha, sha ∈ done -> sha ∈ deleteAWs) -> cleaned done m1 m ->
     I (set_artifactWorkflows s0 m)) ->
  (forall m aws, cleaned deleteAWs m1 m ->
     (forall sha, aws !! sha = if bool_decide (sha ∈ deleteAWs) then None else aws1 !! sha) ->
     Q (set_artifactWorkflows s0 m) (Ok aws)) ->
  keeps I (for_each deleteAWs (deleteOne order) aws1) (set_artifactWorkflows s0 m1) Q.
Proof.
  intros HI HQ. apply (keeps_for_each _ (fun done aws s => exists m,
    s = set_artifactWorkflows s0 m /\ cleaned done m1 m
    /\ (forall sha, aws !! sha = if bool_decide (sha ∈ done) then None else aws1 !! sha)
    /\ forall sha, sha ∈ done -> sha ∈ deleteAWs)).
  - exists m1. split_and!; [done|split; [done|set_solver]|done|set_solver].
  - intros done aws s (m & -> & Hm & _ & Hsub). exact (HI _ _ Hsub Hm).
  - intros done sha rest aws s Hl (m & -> & Hm & Haws & Hsub).
    assert (forall sha', sha' ∈ done ++ [sha] -> sha' ∈ deleteAWs) as Hsub'
      by (rewrite Hl; set_solver).
    apply (keeps_single _ _ _ []); [apply single_deleteOne|exact (HI _ _ Hsub Hm)|].
    apply (leads_deleteOne done _ _ m1); [done|]. intros m' t' Hm'. split; [exact (HI _ _ Hsub' Hm')|].
    eexists. split; [done|]. exists m'. split_and!; [done|done| |done].
    intros sha'. destruct (decide (sha = sha')) as [<-|Hne].
    + by rewrite lookup_delete_eq, bool_decide_true by set_solver.
    + rewrite lookup_delete_ne, Haws by done.
      by rewrite (bool_decide_ext (sha' ∈ done ++ [sha]) (sha' ∈ done)) by set_solver.
  - intros aws s (m & -> & Hm & Haws & _). by apply HQ.
Qed.

End loops.

(** The phases are those of the stored artifact workflows. *)
Definition phasesOf (s : Cluster) (order : Order) (phases : gmap string WorkflowPhase) : Prop :=
  forall sha p, phases !! sha = Some p ->
    exists aw, artifactWorkflows s !! awKey order sha = Some aw
      /\ AWStatus_Phase (AW_Status aw) = p.

Lemma leads_syncAll s order desiredAWs createAWs aws0 t Q :
  let l := range_order "phases" desiredAWs in
  (forall sha daw, desiredAWs !! sha = Some daw -> objectMeta daw = awObjectMeta order sha) ->
  (forall sha, is_Some (desiredAWs !! sha) -> sha ∉ createAWs ->
     is_Some (aws0 !! sha) /\ is_Some (artifactWorkflows s !! awKey order sha)) ->
  (forall t' st phases, writes t' = writes t -> afterSync createAWs l aws0 phases st ->
     phasesOf s order phases -> Q s t' (Ok st)) ->
  leads (for_each l (syncOne createAWs) (aws0, false)) s t Q.
Proof.
  intros l Hmeta Hsome HQ.
  apply (leads_for_each (fun done st s' t' => s' = s /\ writes t' = writes t /\
    exists phases, afterSync createAWs done aws0 phases st /\ phasesOf s order phases)).
  - split_and!; [done|done|]. exists ∅. split; [|by intros sha p Hp].
    split_and!; simpl; setoid_rewrite lookup_empty; set_solver.
  - intros done [sha daw] rest [aws b] s' t' Hl (-> & Hw & phases & Ha & Hph).
    assert (desiredAWs !! sha = Some daw) as Hd.
    { apply (range_elem_of "phases"). fold l. rewrite Hl. set_solver. }
    unfold syncOne. destruct (slices_Contains createAWs sha) eqn:Hcr.
    + apply slices_Contains_true in Hcr. eexists. split; [done|].
      split_and!; [done|done|]. exists phases. split; [by apply afterSync_skip|done].
    + assert (sha ∉ createAWs) as Hcr' by (rewrite <- slices_Contains_true; congruence).
      destruct (Hsome sha) as [Hold [aw Haw]]; [by eexists|done|].
      intros s' r [-> ->]. rewrite (Hmeta sha daw Hd).
      change (namespacedName _ _) with (awKey order sha). rewrite Haw. simpl.
      pose proof (afterSync_read _ _ _ _ _ _ daw (AWStatus_Phase (AW_Status aw)) Ha
        (NoDup_fst_middle _ _ _ _ _ (range_NoDup_keys "phases" desiredAWs) Hl) Hcr' Hold) as Ha'.
      assert (phasesOf s order (<[sha:=AWStatus_Phase (AW_Status aw)]> phases)) as Hph'.
      { intros sha' p Hp. apply lookup_insert_Some in Hp as [[<- <-]|[_ Hp]]; eauto. }
      simpl in Ha'. case_bool_decide.
      all: eexists; split; [done|]; split_and!; [done|by rewrite writes_read|by eauto].
  - intros st s' t' (-> & Hw & phases & Ha & Hph). eauto.
Qed.

(** ** The status update *)

Lemma leads_updateStatus s order st t (Q : Cluster -> list event -> outcome Result -> Prop)
  text res :
  orders s !! meta_key (Order_ObjectMeta order) = Some order ->
  released (Order_ObjectMeta order) = false ->
  (forall t' md, maintained (Order_ObjectMeta order) md ->
     Q (set_orders s (<[meta_key (Order_ObjectMeta order) :=
          mkOrder emptyTypeMeta md (Order_Spec order) (mkOrderStatus st)]> (orders s)))
       t' (Ok res)) ->
  leads (let! err := do_call (UpdateOrderStatus (set_Order_ArtifactWorkflows order st)) in
         let! _ := check text err in Ret res) s t Q.
Proof.
  intros Hst Hkept HQ s' r (m & -> & Hup). unfold updates in Hup. simpl in Hup.
  rewrite Hst, bool_decide_true in Hup by done.
  destruct Hup as (-> & x & md & Hx & Hmd & ->). rewrite storedOrder_status in Hx. simplify_eq.
  simpl in Hmd. rewrite (released_maintained _ _ Hmd), Hkept. by apply HQ.
Qed.

(** ** The convergence *)

(** The cluster after a reconciliation of [order] from [s0]. *)
Definition converged (s0 : Cluster) (order : Order) (desiredAWs : gmap string desiredAW)
  (s : Cluster) : Prop :=
  exists order', orders s !! meta_key (Order_ObjectMeta order) = Some order'
    /\ Order_Spec order' = Order_Spec order
    /\ maintained (Order_ObjectMeta order) (Order_ObjectMeta order')
    /\ inLine s order' desiredAWs
    /\ (forall sha, is_Some (tracked order !! sha) -> desiredAWs !! sha = None ->
          goneOrDeleting s (awKey order sha))
    /\ (forall sha, is_Some (desiredAWs !! sha) -> tracked order !! sha = None ->
          exists aw, artifactWorkflows s !! awKey order sha = Some aw
            /\ asOrdered order desiredAWs sha aw)
    /\ (forall k, (forall sha, k = awKey order sha ->
             (is_Some (desiredAWs !! sha) <-> is_Some (tracked order !! sha))) ->
          artifactWorkflows s !! k = artifactWorkflows s0 !! k)
    /\ endpoints s = endpoints s0 /\ secrets s = secrets s0
    /\ artifactTypes s = artifactTypes s0 /\ workflows s = workflows s0
    /\ (forall k, k <> meta_key (Order_ObjectMeta order) -> orders s !! k = orders s0 !! k).

(** The same when earlier reconciliations may have been cut off: an artifact workflow
    that was there without being tracked is left alone, and the status may be behind
    its phase. *)
Definition settled (s0 : Cluster) (order : Order) (desiredAWs : gmap string desiredAW)
  (s : Cluster) : Prop :=
  exists order', orders s !! meta_key (Order_ObjectMeta order) = Some order'
    /\ Order_Spec order' = Order_Spec order
    /\ maintained (Order_ObjectMeta order) (Order_ObjectMeta order')
    /\ dom (tracked order') = dom desiredAWs
    /\ (forall sha st, tracked order' !! sha = Some st ->
          exists aw, artifactWorkflows s !! awKey order sha = Some aw
            /\ (is_Some (tracked order !! sha) \/ artifactWorkflows s0 !! awKey order sha = None ->
                AWStatus_Phase (AW_Status aw) = OAWS_Phase st))
    /\ (forall sha, is_Some (tracked order !! sha) -> desiredAWs !! sha = None ->
          goneOrDeleting s (awKey order sha))
    /\ (forall sha, is_Some (desiredAWs !! sha) -> tracked order !! sha = None ->
          ensured order desiredAWs sha (artifactWorkflows s0 !! awKey order sha)
            (artifactWorkflows s !! awKey order sha))
    /\ (forall k, (forall sha, k = awKey order sha ->
             (is_Some (desiredAWs !! sha) <-> is_Some (tracked order !! sha))) ->
          artifactWorkflows s !! k = artifactWorkflows s0 !! k)
    /\ endpoints s = endpoints s0 /\ secrets s = secrets s0
    /\ artifactTypes s = artifactTypes s0 /\ workflows s = workflows s0
    /\ (forall k, k <> meta_key (Order_ObjectMeta order) -> orders s !! k = orders s0 !! k).

(** What the cluster may look like when a reconciliation is cut off before it writes
    the status: desired artifact workflows are there or not. *)
Record midway (s0 : Cluster) (order : Order) (desiredAWs : gmap string desiredAW)
  (s : Cluster) : Prop := {
  midway_orders : orders s = orders s0;
  midway_endpoints : endpoints s = endpoints s0;
  midway_secrets : secrets s = secrets s0;
  midway_types : artifactTypes s = artifactTypes s0;
  midway_workflows : workflows s = workflows s0;
  midway_desired : forall sha, is_Some (desiredAWs !! sha) ->
    artifactWorkflows s !! awKey order sha = artifactWorkflows s0 !! awKey order sha
    \/ tracked order !! sha = None
       /\ ensured order desiredAWs sha (artifactWorkflows s0 !! awKey order sha)
            (artifactWorkflows s !! awKey order sha);
}.

Lemma midway_refl s order desiredAWs : midway s order desiredAWs s.
Proof. split; try done. by left. Qed.

Lemma awKey_maintained order order' sha :
  maintained (Order_ObjectMeta order) (Order_ObjectMeta order') ->
  awKey order' sha = awKey order sha.
Proof.
  intros (Hn & Hns & _). unfold awKey, awObjectMeta, awName, meta_key. by rewrite Hn, Hns.
Qed.

Section final.
Context (s0 : Cluster) (order : Order) (l : list (nat * OrderArtifact * inputs)).
Hypothesis Hready : prepared s0 order l.
Let desiredAWs := desiredFrom order l.
Let createAWs := missingKeys "create" desiredAWs (tracked order).
Let deleteAWs := missingKeys "obsolete" (tracked order) desiredAWs.

(** Between the calls. *)
Lemma created_midway done m :
  (forall sha, sha ∈ done -> sha ∈ createAWs) -> created s0 order l done m ->
  midway s0 order desiredAWs (set_artifactWorkflows s0 m).
Proof.
  intros Hsub [Hold Hnew]. split; try done. intros sha Hd. simpl.
  destruct (decide (sha ∈ done)) as [Hin|Hno]; [right|left; apply Hold; by intros ?%awKey_done].
  split; [|by apply Hnew]. by apply Hsub, missingKeys_elem_of in Hin as [_ Htr].
Qed.

Lemma cleaned_midway done m1 m :
  (forall sha, sha ∈ done -> sha ∈ deleteAWs) -> created s0 order l createAWs m1 ->
  cleaned s0 order done m1 m -> midway s0 order desiredAWs (set_artifactWorkflows s0 m).
Proof.
  intros Hsub Hm1 [Hold _]. split; try done. intros sha [daw Hd]. simpl.
  rewrite Hold.
  - apply (midway_desired _ _ _ _ (created_midway createAWs m1 (fun _ Hx => Hx) Hm1)). by eexists.
  - intros Hin%awKey_done. apply Hsub, missingKeys_elem_of in Hin as [_ Hno]. congruence.
Qed.

Context (m1 m : gmap NamespacedName ArtifactWorkflow).
Context (phases : gmap string WorkflowPhase).
Hypothesis Hm1 : created s0 order l createAWs m1.
Hypothesis Hm : cleaned s0 order deleteAWs m1 m.

(** The artifact workflow of a desired hash is not touched by the deletions. *)
Lemma desired_kept sha :
  is_Some (desiredAWs !! sha) -> m !! awKey order sha = m1 !! awKey order sha.
Proof.
  intros Hd. apply (proj1 Hm). intros Hin%awKey_done.
  apply missingKeys_elem_of in Hin as [_ Hno]. rewrite Hno in Hd. by destruct Hd.
Qed.

Lemma tracked_exists sha :
  is_Some (desiredAWs !! sha) -> sha ∉ createAWs -> is_Some (m !! awKey order sha).
Proof.
  intros Hd Hcr. rewrite desired_kept by done.
  rewrite (proj1 Hm1) by (by intros ?%awKey_done).
  apply (ready_tracked _ _ _ Hready); [done|]. by eapply missingKeys_kept.
Qed.

Hypothesis Hphases : phasesOf (set_artifactWorkflows s0 m) order phases.
Hypothesis Hdom : dom phases = dom desiredAWs ∩ dom (tracked order).

Lemma desired_created sha :
  is_Some (desiredAWs !! sha) -> tracked order !! sha = None ->
  ensured order desiredAWs sha (artifactWorkflows s0 !! awKey order sha) (m !! awKey order sha).
Proof.
  intros Hd Htr. rewrite desired_kept by done. apply (proj2 Hm1).
  apply missingKeys_elem_of. eauto.
Qed.

(** Only what is either desired or tracked, not both, is touched. *)
Lemma others_kept k :
  (forall sha, k = awKey order sha ->
     (is_Some (desiredAWs !! sha) <-> is_Some (tracked order !! sha))) ->
  m !! k = artifactWorkflows s0 !! k.
Proof.
  intros Hk. rewrite (proj1 Hm), (proj1 Hm1); [done|..].
  all: intros (sha & -> & [Hs Hno]%missingKeys_elem_of)%list_elem_of_fmap.
  all: by apply (Hk sha eq_refl) in Hs as [? ?]; simplify_eq.
Qed.

(** The phase of the status entry that is written is the phase of the artifact
    workflow, unless that was there without being tracked. *)
Lemma finalEntry_phase sha daw :
  desiredAWs !! sha = Some daw ->
  exists aw, m !! awKey order sha = Some aw
    /\ (is_Some (tracked order !! sha) \/ artifactWorkflows s0 !! awKey order sha = None ->
        AWStatus_Phase (AW_Status aw) = OAWS_Phase (finalEntry order phases sha daw)).
Proof.
  intros Hd. unfold finalEntry. destruct (tracked order !! sha) as [old|] eqn:Htr.
  - assert (is_Some (phases !! sha)) as [p Hp].
    { apply elem_of_dom. rewrite Hdom. apply elem_of_intersection. rewrite !elem_of_dom. eauto. }
    destruct (Hphases sha p Hp) as (aw & Haw & Hph). exists aw. by rewrite Hp.
  - pose proof (desired_created sha ltac:(by eexists) Htr) as Hen. unfold ensured in Hen.
    destruct (artifactWorkflows s0 !! awKey order sha) as [aw|].
    + exists aw. split; [done|]. by intros [[? ?]|?].
    + destruct Hen as (aw & Haw & daw' & aw0 & _ & _ & _ & Hs & _). exists aw. by rewrite Hs.
Qed.

Lemma obsolete_cleaned sha :
  is_Some (tracked order !! sha) -> desiredAWs !! sha = None ->
  goneOrDeleting (set_artifactWorkflows s0 m) (awKey order sha).
Proof. intros Htr Hd. apply (proj2 Hm). by apply missingKeys_elem_of. Qed.

(** With the status written. *)
Lemma settled_written md :
  maintained (Order_ObjectMeta order) md ->
  settled s0 order desiredAWs
    (set_orders (set_artifactWorkflows s0 m)
       (<[meta_key (Order_ObjectMeta order) :=
          mkOrder emptyTypeMeta md (Order_Spec order)
            (mkOrderStatus (Some (finalStatus order phases desiredAWs)))]> (orders s0))).
Proof.
  intros Hmd. eexists. split; [apply lookup_insert_eq|].
  split_and!; [done|done| | |exact obsolete_cleaned|exact desired_created|exact others_kept|done..|].
  3: by intros k Hk; apply lookup_insert_ne.
  - apply set_eq. intros sha. rewrite !elem_of_dom. unfold tracked, finalStatus. simpl.
    rewrite map_lookup_imap. destruct (desiredAWs !! sha); simpl; split; intros []; eauto; done.
  - intros sha st Hst.
    unfold tracked, finalStatus in Hst. simpl in Hst. rewrite map_lookup_imap in Hst.
    destruct (desiredAWs !! sha) as [daw|] eqn:Hd; simplify_eq/=.
    by apply finalEntry_phase.
Qed.

(** With nothing to write. *)
Lemma settled_unwritten :
  ~ statusDue order desiredAWs phases ->
  settled s0 order desiredAWs (set_artifactWorkflows s0 m).
Proof.
  intros Hdue.
  assert (dom (tracked order) = dom desiredAWs) as Heq.
  { destruct (decide (dom desiredAWs = dom (tracked order))); [done|].
    exfalso. apply Hdue. by left. }
  exists order. split_and!; [apply (ready_stored _ _ _ Hready)|done|apply maintained_refl|done| |
    exact obsolete_cleaned|exact desired_created|exact others_kept|done..].
  intros sha st Hst.
  assert (is_Some (desiredAWs !! sha)) as [daw Hd].
  { apply elem_of_dom. rewrite <- Heq. apply elem_of_dom. by eexists. }
  destruct (finalEntry_phase sha daw Hd) as (aw & Haw & Hph). exists aw. split; [done|].
  intros Hor. rewrite (Hph Hor). unfold finalEntry. rewrite Hst. simpl.
  destruct (phases !! sha) as [p|] eqn:Hp; [|done]. simpl.
  destruct (decide (OAWS_Phase st = p)); [done|]. exfalso. apply Hdue. right. eauto 10.
Qed.

End final.

Lemma readonly_fetchSecret ns ep text : readonly (fetchSecret ns ep text).
Proof. unfold fetchSecret. case_match; [|done]. split; [done|]. by intros []. Qed.

Lemma readonly_desiredState order : readonly (desiredState order).
Proof.
  apply readonly_for_each. intros [i art] m. unfold fetchArtifact.
  split; [done|]. intros [e|src]; [done|]. split; [done|]. intros [e|dst]; [done|]. simpl.
  apply readonly_bind; [apply readonly_fetchSecret|]. intros srcSec.
  by apply readonly_bind; [apply readonly_fetchSecret|].
Qed.

Lemma readonly_syncAll l createAWs st : readonly (for_each l (syncOne createAWs) st).
Proof.
  apply readonly_for_each. intros [sha daw] [aws b]. unfold syncOne.
  case_match; [done|]. split; [done|]. intros [e|aw]; [done|]. simpl. by case_match.
Qed.

(** Every point of a reconciliation is midway or at the end. *)
Lemma keeps_applyDesired (I : Cluster -> Prop) s0 order l :
  prepared s0 order l ->
  (forall s, midway s0 order (desiredFrom order l) s -> I s) ->
  (forall s, settled s0 order (desiredFrom order l) s -> I s) ->
  keeps I (applyDesired order (desiredFrom order l)) s0
    (fun s o => o = Ok (mkResult false) /\ settled s0 order (desiredFrom order l) s).
Proof.
  intros Hready Hmid Hend. unfold applyDesired.
  apply keeps_bind, (keeps_createAll s0 order l Hready).
  { intros done m Hsub Hm. by eapply Hmid, created_midway. }
  intros m1 aws1 Hm1 Hcreate.
  apply keeps_bind, (keeps_deleteAll s0 order l Hready).
  { intros done m Hsub Hm. by eapply Hmid, cleaned_midway. }
  intros m aws2 Hm Hdelete.
  assert (I (set_artifactWorkflows s0 m)) as HI by (by eapply Hmid, cleaned_midway).
  apply keeps_bind, (keeps_readonly _ _ _ []); [apply readonly_syncAll|exact HI|].
  apply (leads_syncAll _ order).
  { intros sha daw. apply desiredFrom_meta. }
  { intros sha Hd Hcr. split.
    - rewrite (kept_entry _ _ _ _ Hcreate Hdelete) by done. by eapply missingKeys_kept.
    - by eapply (tracked_exists s0 order l Hready m1 m). }
  intros t3 [aws3 changed] phases _ Hsync Hphases _.
  pose proof (due_final _ _ _ _ _ _ Hcreate Hdelete Hsync) as Hdue.
  pose proof (setIndices_final _ _ _ _ _ _ Hcreate Hdelete Hsync) as Hidx. simpl in Hdue, Hidx.
  pose proof (phases_dom _ _ _ _ _ Hsync) as Hdom.
  destruct (_ || changed).
  - rewrite Hidx. apply (keeps_single _ _ _ []); [by intros []|exact HI|].
    apply leads_updateStatus.
    + apply (ready_stored _ _ _ Hready).
    + apply released_live, negb_false_iff, (ready_live _ _ _ Hready).
    + intros t' md Hmd.
      change (orders (set_artifactWorkflows s0 m)) with (orders s0).
      assert (Hs := settled_written s0 order l m1 m phases Hm1 Hm Hphases Hdom md Hmd).
      split; [by apply Hend|by split].
  - split; [exact HI|]. split; [done|]. eapply settled_unwritten; [done..|].
    intros Hd. by apply Hdue in Hd.
Qed.

Lemma keeps_Reconcile (I : Cluster -> Prop) s0 order l :
  prepared s0 order l ->
  (forall s, midway s0 order (desiredFrom order l) s -> I s) ->
  (forall s, settled s0 order (desiredFrom order l) s -> I s) ->
  keeps I (Reconcile (meta_key (Order_ObjectMeta order))) s0
    (fun s o => o = Ok (mkResult false) /\ settled s0 order (desiredFrom order l) s).
Proof.
  intros Hready Hmid Hend. assert (I s0) as HI by apply Hmid, midway_refl.
  unfold Reconcile. split; [exact HI|]. intros s r [-> ->].
  rewrite (ready_stored _ _ _ Hready). simpl.
  pose proof (ready_live _ _ _ Hready) as Hlive. unfold deleting in Hlive. rewrite Hlive.
  pose proof (ready_claimed _ _ _ Hready) as Hcl. unfold claimed in Hcl. rewrite Hcl. simpl.
  apply keeps_bind, (keeps_readonly _ _ _ []); [apply readonly_desiredState|exact HI|].
  eapply leads_desiredState; [apply (ready_inputs _ _ _ Hready)|]. intros _.
  by apply keeps_applyDesired.
Qed.

(** If no earlier one was cut off, the status has all phases. *)
Lemma settled_converged s0 order l s :
  ready s0 order l -> settled s0 order (desiredFrom order l) s ->
  converged s0 order (desiredFrom order l) s.
Proof.
  intros Hready (order' & Hst & Hsp & Hmd & Hdom & Htr & Hobs & Hnew & Hrest).
  exists order'. split_and!; [done|done|done| |done| |apply Hrest..].
  - split; [done|]. intros sha st Hs. rewrite (awKey_maintained order) by done.
    destruct (Htr sha st Hs) as (aw & Haw & Hph). exists aw. split; [done|]. apply Hph.
    destruct (tracked order !! sha) eqn:Ht; [left; by eexists|right].
    apply (ready_fresh _ _ _ Hready); [|done]. apply elem_of_dom. rewrite <- Hdom.
    apply elem_of_dom. by eexists.
  - intros sha Hd Ht. specialize (Hnew sha Hd Ht). unfold ensured in Hnew.
    by rewrite (ready_fresh _ _ _ Hready sha Hd Ht) in Hnew.
Qed.

Lemma leads_Reconcile s0 order l t :
  ready s0 order l ->
  leads (Reconcile (meta_key (Order_ObjectMeta order))) s0 t
    (fun s _ o => o = Ok (mkResult false) /\ converged s0 order (desiredFrom order l) s).
Proof.
  intros Hready. eapply leads_mono; [|apply (keeps_leads (fun _ => True)), keeps_Reconcile;
    [apply Hready|done|done]].
  intros s t' o [-> Hs]. split; [done|]. by apply settled_converged.
Qed.

(** ** Stability *)

Lemma missingKeys_same {V W} site (m : gmap string V) (other : gmap string W) :
  dom m = dom other -> missingKeys site m other = [].
Proof.
  intros Hdom. apply length_zero_iff_nil.
  pose proof (proj2 (missingKeys_length site m other)) as Hz.
  destruct (length (missingKeys site m other)) as [|n]; [done|].
  simpl in Hz. discriminate Hz. by rewrite Hdom.
Qed.

(** From a cluster that is in line nothing is requested and nothing changes. *)
Lemma leads_stable s order l t :
  orders s !! meta_key (Order_ObjectMeta order) = Some order ->
  deleting order = false -> claimed order = true -> available s order l ->
  inLine s order (desiredFrom order l) ->
  leads (Reconcile (meta_key (Order_ObjectMeta order))) s t
    (fun s' t' o => o = Ok (mkResult false) /\ s' = s /\ writes t' = writes t).
Proof.
  intros Hst Hlive Hcl Hav [Hdom Hin]. unfold Reconcile. intros s1 r [-> ->]. rewrite Hst.
  simpl. unfold deleting in Hlive. unfold claimed in Hcl. rewrite Hlive, Hcl. simpl.
  apply leads_bind. eapply leads_desiredState; [done|]. unfold applyDesired.
  rewrite !missingKeys_same by done. simpl. apply leads_bind, (leads_syncAll _ order).
  { intros sha daw. apply desiredFrom_meta. }
  { intros sha Hd%elem_of_dom _. rewrite <- Hdom in Hd. apply elem_of_dom in Hd as [st Hd].
    destruct (Hin sha st Hd) as (aw & Haw & _). eauto. }
  intros t' [aws changed] phases Hw (Hp & _ & Hb) Hph. simpl in Hb.
  rewrite writes_app, writes_allFetchEvents, app_nil_r, writes_read in Hw by done.
  destruct changed; [|done]. exfalso. destruct (proj1 Hb eq_refl) as (sha & p & Hsha & Hne).
  destruct (Hph sha p Hsha) as (aw & Haw & <-).
  destruct (proj1 (Hp sha)) as [Hd _]; [by eexists|].
  apply range_keys_elem_of, elem_of_dom in Hd. rewrite <- Hdom in Hd.
  apply elem_of_dom in Hd as [st Hd]. rewrite Hd in Hne. simpl in Hne.
  destruct (Hin sha st Hd) as (aw' & Haw' & Hph'). rewrite Haw in Haw'. by simplify_eq.
Qed.

(** ** An artifact workflow that disappears *)

(** When the status tracks exactly the desired hashes but the artifact workflow of
    one of them is gone, the run fails and requests nothing. *)
Lemma leads_stuck s order l sha t :
  orders s !! meta_key (Order_ObjectMeta order) = Some order ->
  deleting order = false -> claimed order = true -> available s order l ->
  dom (tracked order) = dom (desiredFrom order l) ->
  is_Some (desiredFrom order l !! sha) -> artifactWorkflows s !! awKey order sha = None ->
  leads (Reconcile (meta_key (Order_ObjectMeta order))) s t
    (fun s' t' o => (exists e, o = Err e) /\ s' = s /\ writes t' = writes t).
Proof.
  intros Hst Hlive Hcl Hav Hdom [daw Hsha] Hgone. unfold Reconcile. intros s1 r [-> ->].
  rewrite Hst. simpl. unfold deleting in Hlive. unfold claimed in Hcl. rewrite Hlive, Hcl.
  simpl. apply leads_bind. eapply leads_desiredState; [done|]. unfold applyDesired.
  rewrite !missingKeys_same by done. simpl. apply leads_bind.
  apply (leads_for_each_exit (fun done _ s' t' => s' = s /\ writes t' = writes t
           /\ (sha, daw) ∉ done)).
  - split_and!; [done| |apply not_elem_of_nil].
    by rewrite writes_app, writes_allFetchEvents, app_nil_r, writes_read.
  - intros done [sha' daw'] rest [aws b] s' t' Hl (-> & Hw & Hno). simpl.
    intros s' r [-> ->].
    assert (desiredFrom order l !! sha' = Some daw') as Hd.
    { apply (range_elem_of "phases"). rewrite Hl. set_solver. }
    rewrite (desiredFrom_meta _ _ _ _ Hd). change (namespacedName _ _) with (awKey order sha').
    destruct (artifactWorkflows s !! awKey order sha') as [aw|] eqn:Haw; simpl.
    + assert ((sha, daw) ∉ done ++ [(sha', daw')]) as Hno'.
      { rewrite elem_of_app, list_elem_of_singleton. intros [?|[= -> ->]]; [done|].
        by rewrite Hgone in Haw. }
      case_bool_decide; simpl; split_and!; (done || by rewrite writes_read).
    + split_and!; [by eexists|done|by rewrite writes_read].
  - intros st s' t' (_ & _ & Hno). exfalso. apply Hno. by apply range_elem_of.
Qed.

(** The desired state only depends on the spec, the name and the namespace. *)
Lemma same_order_desired order order' l :
  maintained (Order_ObjectMeta order) (Order_ObjectMeta order') ->
  desiredFrom order' l = desiredFrom order l.
Proof.
  intros (Hn & Hns & _). unfold desiredFrom. f_equal. apply map_ext. intros [[i art] ins].
  unfold desiredEntry, artifactSha, hashData, awObjectMeta, awName. by rewrite Hn, Hns.
Qed.

Lemma same_order_available s s' order order' l :
  maintained (Order_ObjectMeta order) (Order_ObjectMeta order') ->
  Order_Spec order' = Order_Spec order ->
  endpoints s' = endpoints s -> secrets s' = secrets s ->
  available s order l -> available s' order' l.
Proof.
  intros (Hn & Hns & _) Hsp He Hse [Hf Hall]. split.
  - unfold numbered. by rewrite Hsp.
  - eapply Forall_impl; [exact Hall|]. intros x.
    unfold inputsIn, secretIn, srcKey, dstKey, secretKey. by rewrite Hns, Hsp, He, Hse.
Qed.

(** After a reconciliation the order, as it is stored then, is ready. *)
Lemma settled_ready s0 order l s :
  prepared s0 order l -> settled s0 order (desiredFrom order l) s ->
  exists order', ready s order' l /\ dom (tracked order') = dom (desiredFrom order l)
    /\ Order_Spec order' = Order_Spec order
    /\ maintained (Order_ObjectMeta order) (Order_ObjectMeta order').
Proof.
  intros Hready (order' & Hst & Hsp & Hmd & Hdom & Hin & _ & _ & _ & He & Hse & _).
  exists order'. split; [|done].
  assert (meta_key (Order_ObjectMeta order') = meta_key (Order_ObjectMeta order)) as Hkey.
  { destruct Hmd as (Hn & Hns & _). unfold meta_key. by rewrite Hn, Hns. }
  split; [split|]; rewrite ?Hkey, ?(same_order_desired order) by done.
  - done.
  - pose proof (ready_live _ _ _ Hready). unfold deleting in *.
    by destruct Hmd as (_ & _ & _ & _ & _ & _ & ->).
  - pose proof (ready_claimed _ _ _ Hready). unfold claimed in *.
    by destruct Hmd as (_ & _ & _ & _ & _ & -> & _).
  - eapply same_order_available; [done..|]. apply (ready_inputs _ _ _ Hready).
  - apply (ready_hydrates _ _ _ Hready).
  - intros sha _ [st Htr]. rewrite (awKey_maintained order) by done.
    destruct (Hin sha st Htr) as (aw & Haw & _). eauto.
  - intros sha Hd%elem_of_dom Htr. rewrite <- Hdom, elem_of_dom, Htr in Hd. by destruct Hd.
Qed.

Lemma converged_stable s0 order l s t :
  ready s0 order l -> converged s0 order (desiredFrom order l) s ->
  leads (Reconcile (meta_key (Order_ObjectMeta order))) s t
    (fun s' t' o => o = Ok (mkResult false) /\ s' = s /\ writes t' = writes t).
Proof.
  intros [Hready _] (order' & Hst & Hsp & Hmd & Hline & _ & _ & _ & He & Hse & _).
  assert (meta_key (Order_ObjectMeta order) = meta_key (Order_ObjectMeta order')) as Hkey.
  { destruct Hmd as (Hn & Hns & _). unfold meta_key. by rewrite Hn, Hns. }
  rewrite Hkey in *. apply (leads_stable s order' l).
  - done.
  - pose proof (ready_live _ _ _ Hready). unfold deleting in *.
    by destruct Hmd as (_ & _ & _ & _ & _ & _ & ->).
  - pose proof (ready_claimed _ _ _ Hready). unfold claimed in *.
    by destruct Hmd as (_ & _ & _ & _ & _ & -> & _).
  - eapply same_order_available; [done..|]. apply (ready_inputs _ _ _ Hready).
  - by rewrite (same_order_desired order).
Qed.

(** ** Theorems *)

(** C3: against any healthy API server, reconciling a live, claimed order that is
    ready (its inputs exist, the specs of its artifacts decode into parameters, the
    artifact workflows it still wants and tracks exist, and those it wants and does not
    track do not) succeeds without requeue and
    brings the cluster in line: every
    desired artifact workflow exists, a new one with the type, secrets and parameters
    of its artifact, every obsolete one is gone or being deleted, the status tracks
    exactly the desired hashes with the phases of their artifact workflows, and
    nothing else is changed. *)
Theorem order_converges {S : Type} `{HealthyServer S} (s : S) order l :
  ready (view s) order l ->
  let result := run serve (Reconcile (meta_key (Order_ObjectMeta order))) s in
  result.2 = Ok (mkResult false) /\
  converged (view s) order (desiredFrom order l) (view result.1).
Proof. intros Hready. exact (leads_run _ s [] _ (leads_Reconcile _ _ _ [] Hready)). Qed.

(** C14: against any healthy API server, reconciling an order that is ready (live,
    claimed, with inputs that exist, specs that decode into parameters, the artifact
    workflows it wants and tracks, and none of those it wants and does not track) a
    second time succeeds, requests no change and leaves the cluster as it is. *)
Theorem order_reconcile_idempotent {S : Type} `{HealthyServer S} (s : S) order l :
  ready (view s) order l ->
  let req := meta_key (Order_ObjectMeta order) in
  let s1 := (run serve (Reconcile req) s).1 in
  (run serve (Reconcile req) s1).2 = Ok (mkResult false) /\
  view (run serve (Reconcile req) s1).1 = view s1 /\
  writes (run_trace serve (Reconcile req) s1) = [].
Proof.
  intros Hready req s1.
  destruct (leads_run _ s [] _ (leads_Reconcile _ _ _ [] Hready)) as [_ Hc].
  exact (leads_run _ s1 [] _ (converged_stable _ _ _ _ [] Hready Hc)).
Qed.

End converge.
