(* ===== verification/OrderTheorems.v ===== *)
(** * Theorems about the order controller

    The properties of [OrderReconciler.Reconcile] that follow from its
    specification: for every answer of the API server ([exec]), and against a
    healthy one ([run]). *)

From stdpp Require Import base gmap list strings.
From S2P Require Import Prelude GoStd Sha256 JsonEncode JsonDecode KubeTypes.
From S2P Require Import V1alpha1Types Client Cluster Errors ControllerRuntime.
From S2P Require Import WorkflowParameters OrderController OrderFetch OrderApply.
From S2P Require Import OrderFacts OrderConverge.

Local Open Scope string_scope.
Local Open Scope list_scope.

Section theorems.
Context `{GoRuntime} `{Float64} `{ControllerUtil}.

(** ** Lemmas *)

(** What is known of an artifact workflow that is created. *)
Lemma creates_content order desiredAWs sha aw :
  (forall daw, desiredAWs !! sha = Some daw -> OwnerReferences (objectMeta daw) = []) ->
  creates order desiredAWs sha (CreateArtifactWorkflow aw) ->
  exists daw ref, desiredAWs !! sha = Some daw
    /\ AW_ObjectMeta aw =
         set_OwnerReferences (objectMeta daw) [ref]
    /\ OwnerReference_Kind ref = "Order"
    /\ OwnerReference_Name ref = Name (Order_ObjectMeta order)
    /\ OwnerReference_UID ref = UID (Order_ObjectMeta order)
    /\ OwnerReference_Controller ref = Some true
    /\ AWSpec_Type (AW_Spec aw) = Artifact_Type (artifact daw)
    /\ AWSpec_SrcSecretRef (AW_Spec aw) = EPSpec_SecretRef (EP_Spec (srcEndpoint daw))
    /\ AWSpec_DstSecretRef (AW_Spec aw) = EPSpec_SecretRef (EP_Spec (dstEndpoint daw))
    /\ dawToParameters daw = Ok (AWSpec_Parameters (AW_Spec aw)).
Proof.
  intros Href (daw & aw' & meta & Hdaw & Haw & Hset & Heq). injection Heq as ->.
  unfold hydrateArtifactWorkflow in Haw.
  destruct (dawToParameters daw) as [ps| |] eqn:Hps; simplify_eq/=.
  apply SetControllerReference_frame in Hset as (ref & -> & Hk & Hn & Hu & Hc); [|by apply Href].
  exists daw, ref. by split_and!.
Qed.

(** The entry of a hash in the desired state is the last artifact with the hash. *)
Lemma desired_last order l sha daw :
  fetched (numbered order) l -> desiredFrom order l !! sha = Some daw ->
  OrderSpec_Artifacts (Order_Spec order) !! index daw = Some (artifact daw) /\
  exists ins, artifactSha order (artifact daw) ins = sha /\
    (index daw, artifact daw, ins) ∈ l /\
    forall i art ins', (i, art, ins') ∈ l -> artifactSha order art ins' = sha -> i <= index daw.
Proof.
  intros [Hf _] (l1 & [[i art] ins] & l2 & -> & Hx & Hl2)%desiredFrom_lookup.
  injection Hx as <- <-. simpl.
  assert (forall n x, (l1 ++ (i, art, ins) :: l2) !! n = Some x ->
            x.1.1 = n /\ OrderSpec_Artifacts (Order_Spec order) !! n = Some x.1.2) as Hidx.
  { intros n x Hn. assert (numbered order !! n = Some x.1) as Hm.
    { rewrite <- Hf. by rewrite list_lookup_fmap, Hn. }
    unfold numbered in Hm. rewrite list_lookup_imap in Hm.
    apply fmap_Some in Hm as (a & Ha & Hx). rewrite Ha, Hx. done. }
  destruct (Hidx (length l1) (i, art, ins)) as [Hi Ha]; [by rewrite list_lookup_middle|].
  simpl in Hi, Ha. subst i. split; [done|]. exists ins. split_and!; [done|set_solver|].
  intros i art' ins' Hin Hsha. apply list_elem_of_lookup_1 in Hin as [n Hn].
  destruct (Hidx n _ Hn) as [Hi _]. simpl in Hi. subst i.
  destruct (decide (n <= length l1)); [done|]. exfalso.
  rewrite lookup_app_r in Hn by lia. destruct (n - length l1) as [|k] eqn:Hk; [lia|].
  simpl in Hn. eapply Forall_lookup in Hl2; [|exact Hn]. by apply Hl2.
Qed.

(** The hashes that are desired are those of the artifacts. *)
Lemma dom_desiredFrom order l :
  dom (desiredFrom order l) = list_to_set (map (fun x => artifactSha order x.1.2 x.2) l).
Proof.
  unfold desiredFrom. rewrite dom_fold_insert, dom_empty_L, union_empty_r_L.
  f_equal. rewrite <- list_fmap_compose. apply map_ext. by intros [[i art] ins].
Qed.

(** A desired artifact is one of the order, with the endpoints that were fetched. *)
Lemma desired_inputs order l t t' sha daw :
  fetchedFirst order l t t' -> desiredFrom order l !! sha = Some daw ->
  OrderSpec_Artifacts (Order_Spec order) !! index daw = Some (artifact daw)
  /\ ev (GetEndpoint (srcKey order (artifact daw))) (inr (srcEndpoint daw)) ∈ t
  /\ ev (GetEndpoint (dstKey order (artifact daw))) (inr (dstEndpoint daw)) ∈ t.
Proof.
  intros Hf Hdaw. destruct (desired_last order l sha daw (proj1 Hf) Hdaw) as (Ha & _).
  split; [done|].
  apply desiredFrom_lookup in Hdaw as (l1 & [[i art] ins] & l2 & -> & Hx & _).
  injection Hx as _ <-. simpl. apply (fetchedFirst_endpoints order _ t t' i art ins Hf).
  apply elem_of_app. right. by left.
Qed.

(** ** Safety under every answer *)

(** C4: every run of a reconciliation, whatever the API server answers, takes one of
    the courses of [reconciled]: the branch fits the state of the order that
    was read, the requests are made in that order, and the result is as given. *)
Theorem order_reconcile_refines req t o :
  exec (Reconcile req) t o -> reconciled req t o.
Proof. apply Reconcile_reconciled. Qed.

(** A created artifact workflow was due in the order that was read, with the inputs
    that were fetched for it. *)
Lemma order_created req t o aw :
  exec (Reconcile req) t o -> CreateArtifactWorkflow aw ∈ writes t ->
  exists order t1 t2 l sha,
    t = ev (GetOrder req) (inr order) :: t1 /\ fetchedFirst order l t1 t2
    /\ deleting order = false /\ claimed order = true /\ tracked order !! sha = None
    /\ creates order (desiredFrom order l) sha (CreateArtifactWorkflow aw).
Proof.
  intros Hex Hc. destruct (exec_permitted _ _ _ _ Hex Hc) as (order & t1 & -> & Hp).
  inversion Hp as [sha0 ? ? Heq|? Heq|? ? Heq|? ? Heq|l t2 c Hd Hcl Hl Ha]; try discriminate Heq.
  destruct Ha as [(sha & Hno & Hcr)|[(sha & _ & _ & [=])|(ph & [=])]]. subst c.
  by exists order, t1, t2, l, sha.
Qed.

(** C8: an artifact workflow is only ever created for an order that is not being
    deleted and carries the finalizer, after the inputs of all its artifacts were
    fetched ([allFetchEvents], with the answers [l]), for a hash that the status does
    not track and that one of the artifacts has with the inputs fetched for it; it
    lives in the order's namespace under the name of its hash, is controlled by the
    order, and has the type, the secrets and the parameters of its artifact, whose
    source and destination endpoints are the answers for the names it refers to. *)
Theorem order_create_safe req t o aw :
  exec (Reconcile req) t o -> CreateArtifactWorkflow aw ∈ writes t ->
  exists order l t' sha daw ref,
    t = ev (GetOrder req) (inr order) :: allFetchEvents order l ++ t'
    /\ CreateArtifactWorkflow aw ∈ writes t'
    /\ deleting order = false /\ claimed order = true
    /\ fetched (numbered order) l /\ desiredFrom order l !! sha = Some daw
    /\ tracked order !! sha = None
    /\ OrderSpec_Artifacts (Order_Spec order) !! index daw = Some (artifact daw)
    /\ ev (GetEndpoint (srcKey order (artifact daw))) (inr (srcEndpoint daw)) ∈ t
    /\ ev (GetEndpoint (dstKey order (artifact daw))) (inr (dstEndpoint daw)) ∈ t
    /\ AW_ObjectMeta aw = set_OwnerReferences (awObjectMeta order sha) [ref]
    /\ OwnerReference_Kind ref = "Order"
    /\ OwnerReference_Name ref = Name (Order_ObjectMeta order)
    /\ OwnerReference_UID ref = UID (Order_ObjectMeta order)
    /\ OwnerReference_Controller ref = Some true
    /\ AWSpec_Type (AW_Spec aw) = Artifact_Type (artifact daw)
    /\ AWSpec_SrcSecretRef (AW_Spec aw) = EPSpec_SecretRef (EP_Spec (srcEndpoint daw))
    /\ AWSpec_DstSecretRef (AW_Spec aw) = EPSpec_SecretRef (EP_Spec (dstEndpoint daw))
    /\ dawToParameters daw = Ok (AWSpec_Parameters (AW_Spec aw)).
Proof.
  intros Hex Hin. destruct (order_created _ _ _ _ Hex Hin)
    as (order & t1 & t2 & l & sha & -> & Hf & Hd & Hcl & Hno & Hcr).
  destruct (creates_content order (desiredFrom order l) sha aw) as (daw & ref & Hdaw & Hm & Hrest).
  { intros daw Hdaw. by rewrite (desiredFrom_meta _ _ _ _ Hdaw). }
  { done. }
  rewrite (desiredFrom_meta _ _ _ _ Hdaw) in Hm.
  destruct (desired_inputs _ _ _ _ _ _ Hf Hdaw) as (Hart & Hsrc & Hdst).
  rewrite writes_cons_read, (fetchedFirst_writes _ _ _ _ Hf) in Hin by done.
  destruct Hf as [Hl ->].
  exists order, l, t2, sha, daw, ref. split_and!; try done; try apply Hrest.
  all: apply elem_of_cons; by right.
Qed.

(** C9: an artifact workflow is only ever deleted under the name of a hash that the
    status of the order tracks, and only if the order is being deleted or, after the
    inputs of all its artifacts were fetched ([allFetchEvents], with the answers [l]),
    no artifact has the hash with the inputs fetched for it. *)
Theorem order_delete_safe req t o m :
  exec (Reconcile req) t o -> DeleteArtifactWorkflow m ∈ writes t ->
  exists order t1 sha,
    t = ev (GetOrder req) (inr order) :: t1
    /\ m = awObjectMeta order sha /\ is_Some (tracked order !! sha)
    /\ (deleting order = true \/
        exists l t2, t1 = allFetchEvents order l ++ t2 /\ DeleteArtifactWorkflow m ∈ writes t2
          /\ fetched (numbered order) l
          /\ forall i art ins, (i, art, ins) ∈ l -> artifactSha order art ins <> sha).
Proof.
  intros Hex Hc. destruct (exec_permitted _ _ _ _ Hex Hc) as (order & t1 & -> & Hp).
  inversion Hp as [sha Hd Htr Heq|? Heq|? ? Heq|? ? Heq|l t2 c Hd Hcl Hf Ha]; try discriminate Heq.
  - exists order, t1, sha. by split_and!; [| | |left].
  - destruct Ha as [(sha & _ & (? & ? & ? & _ & _ & _ & [=]))
                   |[(sha & Htr & Hno & [= ->])|(ph & [=])]].
    rewrite writes_cons_read, (fetchedFirst_writes _ _ _ _ Hf) in Hc by done.
    destruct Hf as [Hl ->]. exists order, (allFetchEvents order l ++ t2), sha.
    split_and!; [done..|]. right. exists l, t2. split_and!; [done..|].
    intros i art ins Hin Hsha. apply not_elem_of_dom in Hno. apply Hno.
    rewrite dom_desiredFrom, elem_of_list_to_set. apply list_elem_of_fmap.
    by exists (i, art, ins).
Qed.

(** C10: the finalizer of an order is removed only when the order is being deleted
    and its status tracks nothing any more. *)
Theorem order_finalizer_last req t o order' :
  exec (Reconcile req) t o -> UpdateOrder order' ∈ writes t ->
  orderFinalizer ∉ Finalizers (Order_ObjectMeta order') ->
  exists order t', t = ev (GetOrder req) (inr order) :: t'
    /\ deleting order = true /\ tracked order = ∅ /\ order' = withoutFinalizer order.
Proof.
  intros Hex Hc Hfin. destruct (exec_permitted _ _ _ _ Hex Hc) as (order & t' & -> & Hp).
  inversion Hp as [? ? ? Heq|? Heq|Hd Hno Heq|Hd Hno Heq|l t2 c Hd Hcl Hl Ha];
    try discriminate Heq.
  - eauto 10.
  - exfalso. apply Hfin. subst. simpl. set_solver.
  - by destruct Ha as [(sha & _ & (? & ? & ? & _ & _ & _ & [=]))|[(sha & _ & _ & [=])|(ph & [=])]].
Qed.

(** A reconciliation that changes anything for a live, claimed order has fetched
    the endpoints and secrets of all its artifacts before, each successfully; so a
    failed fetch of any of them leaves the cluster untouched. *)
Theorem order_all_inputs_first req order t o :
  exec (Reconcile req) (ev (GetOrder req) (inr order) :: t) o ->
  deleting order = false -> claimed order = true -> writes t <> [] ->
  exists l t', fetched (numbered order) l /\ t = allFetchEvents order l ++ t'
    /\ writes (allFetchEvents order l) = [].
Proof.
  intros Hex%Reconcile_reconciled%reconciled_course Hd Hcl Hw.
  destruct Hex as [| | | |t e _ _ Hno|l t o _ _ Hl _ _|l t _ _ Hl _]; try congruence.
  all: eexists _, _; split_and!; [done|done|apply writes_allFetchEvents].
Qed.

(** C12: the status a reconciliation writes for a live order, after it has fetched the
    inputs of all artifacts ([allFetchEvents], with the answers [l]), tracks exactly the
    hashes of its artifacts with these inputs; each entry points to the last artifact
    with the hash, and the phase of a hash that was not tracked before is unknown. *)
Theorem order_status_exact req t o order' :
  exec (Reconcile req) t o -> UpdateOrderStatus order' ∈ writes t ->
  deleting order' = false ->
  exists order l t', t = ev (GetOrder req) (inr order) :: allFetchEvents order l ++ t'
    /\ UpdateOrderStatus order' ∈ writes t' /\ fetched (numbered order) l
    /\ Order_Spec order' = Order_Spec order /\ Order_ObjectMeta order' = Order_ObjectMeta order
    /\ dom (tracked order') = list_to_set (map (fun x => artifactSha order x.1.2 x.2) l)
    /\ forall sha st, tracked order' !! sha = Some st ->
         (exists i art ins, OAWS_ArtifactIndex st = Z.of_nat i
            /\ OrderSpec_Artifacts (Order_Spec order) !! i = Some art
            /\ (i, art, ins) ∈ l /\ artifactSha order art ins = sha
            /\ forall j art' ins', (j, art', ins') ∈ l -> artifactSha order art' ins' = sha ->
                 j <= i)
         /\ (tracked order !! sha = None -> OAWS_Phase st = WorkflowUnknown).
Proof.
  intros Hex Hc Hlive. destruct (exec_permitted _ _ _ _ Hex Hc) as (order & t1 & -> & Hp).
  inversion Hp as [? ? ? Heq|Hd Heq|? ? Heq|? ? Heq|l t2 c Hd Hcl Hf Ha]; try discriminate Heq.
  { subst. unfold deleting in *. simpl in Hlive. congruence. }
  destruct Ha as [(sha & _ & (? & ? & ? & _ & _ & _ & [=]))|[(sha & _ & _ & [=])|(ph & [= ->])]].
  rewrite writes_cons_read, (fetchedFirst_writes _ _ _ _ Hf) in Hc by done.
  destruct Hf as [Hl ->]. exists order, l, t2. unfold tracked at 1 2. simpl.
  split_and!; [done..| |].
  - unfold finalStatus. rewrite dom_imap_L with (X := dom (desiredFrom order l)).
    + apply dom_desiredFrom.
    + intros sha. rewrite elem_of_dom. split; [intros [daw Hdaw]|intros (daw & Hdaw & _)]; eauto.
  - intros sha st Hst. unfold finalStatus in Hst. rewrite map_lookup_imap in Hst.
    destruct (desiredFrom order l !! sha) as [daw|] eqn:Hdaw; simplify_eq/=. split.
    + destruct (desired_last _ _ _ _ Hl Hdaw) as (Ha & ins & Hsha & Hin & Hlast).
      exists (index daw), (artifact daw), ins. split_and!; [|done..].
      unfold finalEntry. by destruct (tracked order !! sha).
    + intros Hno. unfold finalEntry. by rewrite Hno.
Qed.

(** C11: a reconciliation of an order that is being deleted and tracks artifact
    workflows deletes each of them exactly once, whatever the deletions answer, then
    writes an empty status, and asks to be called again unless that write failed. *)
Theorem order_cleanup req order t o :
  exec (Reconcile req) (ev (GetOrder req) (inr order) :: t) o ->
  deleting order = true -> tracked order <> ∅ ->
  exists shas r, shas ≡ₚ elements (dom (tracked order))
    /\ map ev_call t = map (fun sha => DeleteArtifactWorkflow (awObjectMeta order sha)) shas
         ++ [UpdateOrderStatus (set_Order_ArtifactWorkflows order (Some ∅))]
    /\ o = match r with
           | None => Ok (mkResult true)
           | Some e => Err (wrapped e "failed to update order status")
           end.
Proof.
  intros Hex%Reconcile_reconciled%reconciled_course Hd Hne.
  destruct Hex as [t r Hd' Hne' Ht| | | | | |]; try congruence.
  exists (range_order "delete" (tracked order)).*1, r. split_and!.
  - rewrite range_order_perm. apply NoDup_Permutation.
    + apply NoDup_fst_map_to_list.
    + apply NoDup_elements.
    + intros sha. rewrite elem_of_elements, elem_of_dom.
      rewrite <- (range_keys_elem_of (H := plain_runtime) "delete"). done.
  - by rewrite map_app, Ht.
  - by destruct r.
Qed.

(** ** Two limits of the reconciliation *)

(** C15: once an artifact workflow that is tracked and still desired has disappeared,
    reconciling fails and requests no change, so it fails again in the same way: the
    artifact workflow is not created anew. *)
Theorem order_missing_not_recreated {S : Type} `{HealthyServer S} (s : S) order l sha :
  orders (view s) !! meta_key (Order_ObjectMeta order) = Some order ->
  deleting order = false -> claimed order = true -> available (view s) order l ->
  dom (tracked order) = dom (desiredFrom order l) ->
  is_Some (desiredFrom order l !! sha) ->
  artifactWorkflows (view s) !! awKey order sha = None ->
  let result := run serve (Reconcile (meta_key (Order_ObjectMeta order))) s in
  (exists e, result.2 = Err e) /\ view result.1 = view s /\
  writes (run_trace serve (Reconcile (meta_key (Order_ObjectMeta order))) s) = [].
Proof.
  intros Hst Hlive Hcl Hav Hdom Hsha Hgone.
  exact (leads_run _ s [] _ (leads_stuck _ _ _ _ [] Hst Hlive Hcl Hav Hdom Hsha Hgone)).
Qed.

(** When the status tracks exactly the desired hashes with the phases of their
    artifact workflows, a reconciliation changes nothing, whatever artifact indices
    the status has: reordering the artifacts of an order leaves the indices stale. *)
Theorem order_reordering_keeps_indices {S : Type} `{HealthyServer S} (s : S) order l :
  orders (view s) !! meta_key (Order_ObjectMeta order) = Some order ->
  deleting order = false -> claimed order = true -> available (view s) order l ->
  inLine (view s) order (desiredFrom order l) ->
  orders (view (run serve (Reconcile (meta_key (Order_ObjectMeta order))) s).1)
    !! meta_key (Order_ObjectMeta order) = Some order.
Proof.
  intros Hst Hlive Hcl Hav Hin.
  destruct (leads_run _ s [] _ (leads_stable _ _ _ [] Hst Hlive Hcl Hav Hin)) as (_ & -> & _).
  done.
Qed.

End theorems.
