(* ===== verification/OrderExamples.v ===== *)
(** * Concrete runs of the order controller

    A small cluster with one order of two artifacts, on which the theorems about the
    order controller are applied and the definitions are evaluated. *)

From stdpp Require Import base gmap list strings.
From S2P Require Import Prelude GoStd Sha256 JsonEncode JsonDecode KubeTypes.
From S2P Require Import V1alpha1Types Client Cluster Errors ControllerRuntime.
From S2P Require Import WorkflowParameters OrderController OrderFetch OrderApply.
From S2P Require Import OrderFacts OrderConverge OrderTheorems.

Local Open Scope string_scope.
Local Open Scope list_scope.

#[local] Existing Instance plain_runtime.
#[local] Existing Instance plain_float64.
#[local] Existing Instance plain_util.

(** ** The objects *)

Definition ref (name : string) : LocalObjectReference := mkLocalObjectReference name.

Definition exSource : Endpoint :=
  mkEndpoint emptyTypeMeta (newObjectMeta "ns" "src")
    (mkEndpointSpec "oci" "https://source" (ref "credentials") "PullOnly") mkEndpointStatus.

Definition exTarget : Endpoint :=
  mkEndpoint emptyTypeMeta (newObjectMeta "ns" "dst")
    (mkEndpointSpec "s3" "https://target" (ref "") "PushOnly") mkEndpointStatus.

Definition exSecret : Secret := mkSecret (newObjectMeta "ns" "credentials").

Definition exArtifact (image : string) : OrderArtifact :=
  mkOrderArtifact "oci" (ref "src") (ref "")
    (mkRawExtension (Some (json_text ("{'image':'" +++ image +++ "','tags':['a','b']}")))).

Definition exMeta (deletion : option Time) (finalizers : list string) : ObjectMeta :=
  mkObjectMeta "order" "" "ns" "uid-1" "7" 1%Z 5%Z deletion None ∅ ∅ [] finalizers.

Definition exOrder (deletion : option Time) (finalizers : list string)
  (arts : list OrderArtifact) (st : gmap string OrderArtifactWorkflowStatus) : Order :=
  mkOrder emptyTypeMeta (exMeta deletion finalizers)
    (mkOrderSpec (mkOrderDefaults (ref "") (ref "dst")) arts) (mkOrderStatus (Some st)).

(** A hash that no artifact of the examples has. *)
Definition oldSha : string := "0123456789abcdef".

(** The order tracks an artifact workflow that is obsolete. *)
Definition order1 : Order :=
  exOrder None [orderFinalizer] [exArtifact "one"; exArtifact "two"]
    {[oldSha := mkOrderArtifactWorkflowStatus 0 WorkflowSucceeded ""]}.

Definition exWorkflow (order : Order) (sha : string) (phase : WorkflowPhase) : ArtifactWorkflow :=
  mkArtifactWorkflow emptyTypeMeta (awObjectMeta order sha)
    (mkArtifactWorkflowSpec "oci" [] (ref "") (ref "")) (mkArtifactWorkflowStatus phase "").

Definition exCluster (order : Order) (aws : gmap NamespacedName ArtifactWorkflow) : Cluster :=
  mkCluster {[meta_key (Order_ObjectMeta order) := order]}
    {[mkNamespacedName "ns" "src" := exSource; mkNamespacedName "ns" "dst" := exTarget]}
    {[mkNamespacedName "ns" "credentials" := exSecret]} ∅ aws ∅.

Definition cluster1 : Cluster :=
  exCluster order1 {[awKey order1 oldSha := exWorkflow order1 oldSha WorkflowSucceeded]}.

Definition exInputs : inputs := mkInputs exSource exTarget exSecret emptySecret.

Definition inputs1 : list (nat * OrderArtifact * inputs) :=
  [(0, exArtifact "one", exInputs); (1, exArtifact "two", exInputs)].

Definition req1 : NamespacedName := mkNamespacedName "ns" "order".

(** The run: two artifact workflows are created, the obsolete one is deleted, and
    the status is written. *)
Example run1_writes :
  map (fun c => match c with
                | CreateArtifactWorkflow aw => ("create", length (AWSpec_Parameters (AW_Spec aw)))
                | DeleteArtifactWorkflow _ => ("delete", 0)
                | UpdateOrderStatus o => ("status", size (tracked o))
                | _ => ("other", 0)
                end) (writes (run_trace memory_serve (Reconcile req1) cluster1))
  = [("create", 9); ("create", 9); ("delete", 0); ("status", 2)].
Proof. vm_compute. reflexivity. Qed.

(** ** The order is ready *)

Definition hydratesb (m : gmap string desiredAW) : bool :=
  forallb (fun kv => match hydrateArtifactWorkflow kv.2 with Ok _ => true | _ => false end)
    (map_to_list m).

Lemma hydratesb_spec m : hydratesb m = true ->
  forall sha daw, m !! sha = Some daw -> exists aw, hydrateArtifactWorkflow daw = Ok aw.
Proof.
  unfold hydratesb. rewrite forallb_forall. intros Hall sha daw Hdaw.
  specialize (Hall (sha, daw)). rewrite <- list_elem_of_In, elem_of_map_to_list in Hall.
  specialize (Hall Hdaw). simpl in Hall.
  destruct (hydrateArtifactWorkflow daw) as [aw| |]; [by exists aw|done..].
Qed.

Lemma available1 aws : available (exCluster order1 aws) order1 inputs1.
Proof. split; [reflexivity|]. repeat constructor. Qed.

Lemma ready1 : ready cluster1 order1 inputs1.
Proof.
  assert (desiredFrom order1 inputs1 !! oldSha = None) as Hold by (vm_compute; reflexivity).
  split; [split; [vm_compute; reflexivity|reflexivity|reflexivity|apply available1| |]|].
  - apply hydratesb_spec. vm_compute. reflexivity.
  - intros sha Hd Htr. change (tracked order1) with
      ({[oldSha := mkOrderArtifactWorkflowStatus 0 WorkflowSucceeded ""]}
        : gmap string OrderArtifactWorkflowStatus) in Htr.
    apply lookup_singleton_is_Some in Htr as <-. rewrite Hold in Hd.
    destruct Hd as [? [=]].
  - intros sha _ Htr. change (tracked order1) with
      ({[oldSha := mkOrderArtifactWorkflowStatus 0 WorkflowSucceeded ""]}
        : gmap string OrderArtifactWorkflowStatus) in Htr.
    apply lookup_singleton_None in Htr. apply lookup_singleton_None.
    intros Heq%awKey_inj. exact (Htr Heq).
Qed.

(** ** Witnesses of the theorems against a healthy server *)

Lemma order_converges_witness :
  ready cluster1 order1 inputs1 /\
  (run memory_serve (Reconcile req1) cluster1).2 = Ok (mkResult false) /\
  converged cluster1 order1 (desiredFrom order1 inputs1)
    (run memory_serve (Reconcile req1) cluster1).1.
Proof. split; [exact ready1|]. exact (order_converges cluster1 order1 inputs1 ready1). Defined.

Lemma order_reconcile_idempotent_witness :
  let s1 := (run memory_serve (Reconcile req1) cluster1).1 in
  (run memory_serve (Reconcile req1) s1).2 = Ok (mkResult false) /\
  (run memory_serve (Reconcile req1) s1).1 = s1 /\
  writes (run_trace memory_serve (Reconcile req1) s1) = [].
Proof. exact (order_reconcile_idempotent cluster1 order1 inputs1 ready1). Defined.

(** ** Witnesses of the theorems under every answer *)

Definition trace1 : list event := run_trace memory_serve (Reconcile req1) cluster1.
Definition outcome1 : outcome Result := (run memory_serve (Reconcile req1) cluster1).2.

Lemma exec1 : exec (Reconcile req1) trace1 outcome1.
Proof. apply exec_run. Qed.

Lemma order_reconcile_refines_witness : reconciled req1 trace1 outcome1.
Proof. exact (order_reconcile_refines req1 trace1 outcome1 exec1). Defined.

(** The first artifact workflow the run creates. *)
Definition created1 : ArtifactWorkflow :=
  match writes trace1 !! 0 with
  | Some (CreateArtifactWorkflow aw) => aw
  | _ => exWorkflow order1 oldSha ""
  end.

Lemma created1_in : CreateArtifactWorkflow created1 ∈ writes trace1.
Proof. apply (list_elem_of_lookup_2 _ 0). vm_compute. reflexivity. Qed.

Lemma order_create_safe_witness :
  CreateArtifactWorkflow created1 ∈ writes trace1 /\
  exists order sha r, deleting order = false /\ claimed order = true /\
    AW_ObjectMeta created1 = set_OwnerReferences (awObjectMeta order sha) [r].
Proof.
  split; [exact created1_in|].
  destruct (order_create_safe req1 trace1 outcome1 created1 exec1 created1_in)
    as (order & l & t & sha & daw & r & _ & _ & Hd & Hc & _ & _ & _ & _ & _ & _ & Hm & _).
  exists order, sha, r. split_and!; assumption.
Defined.

Lemma deleted1_in : DeleteArtifactWorkflow (awObjectMeta order1 oldSha) ∈ writes trace1.
Proof. apply (list_elem_of_lookup_2 _ 2). vm_compute. reflexivity. Qed.

Lemma order_delete_safe_witness :
  DeleteArtifactWorkflow (awObjectMeta order1 oldSha) ∈ writes trace1 /\
  exists order sha, awObjectMeta order1 oldSha = awObjectMeta order sha
    /\ is_Some (tracked order !! sha).
Proof.
  split; [exact deleted1_in|].
  destruct (order_delete_safe req1 trace1 outcome1 _ exec1 deleted1_in)
    as (order & t & sha & _ & Hm & Htr & _).
  exists order, sha. split; assumption.
Defined.

(** An order without the finalizer label that is being deleted and tracks nothing. *)
Definition order2 : Order := exOrder (Some 9%Z) [orderFinalizer; "other"] [] ∅.
Definition cluster2 : Cluster := exCluster order2 ∅.
Definition trace2 : list event := run_trace memory_serve (Reconcile req1) cluster2.

Lemma order_finalizer_last_witness :
  UpdateOrder (withoutFinalizer order2) ∈ writes trace2 /\
  exists order t', trace2 = ev (GetOrder req1) (inr order) :: t' /\ deleting order = true
    /\ tracked order = ∅ /\ withoutFinalizer order2 = withoutFinalizer order.
Proof.
  assert (UpdateOrder (withoutFinalizer order2) ∈ writes trace2) as Hin
    by (apply (list_elem_of_lookup_2 _ 0); vm_compute; reflexivity).
  split; [exact Hin|].
  apply (order_finalizer_last req1 trace2 _ (withoutFinalizer order2)
           (exec_run memory_serve (Reconcile req1) cluster2) Hin).
  apply (bool_decide_unpack _). vm_compute. exact I.
Defined.

Lemma trace1_read : trace1 = ev (GetOrder req1) (inr order1) :: tail trace1.
Proof. vm_compute. reflexivity. Qed.

Lemma order_all_inputs_first_witness :
  writes (tail trace1) <> [] /\
  exists l t', fetched (numbered order1) l /\ tail trace1 = allFetchEvents order1 l ++ t'
    /\ writes (allFetchEvents order1 l) = [].
Proof.
  assert (writes (tail trace1) <> []) as Hne by (vm_compute; discriminate).
  split; [exact Hne|].
  apply (order_all_inputs_first req1 order1 (tail trace1) outcome1);
    [|reflexivity|reflexivity|exact Hne].
  rewrite <- trace1_read. exact exec1.
Defined.

(** The order with the status that the first run writes. *)
Definition written1 : Order :=
  match writes trace1 !! 3 with
  | Some (UpdateOrderStatus o) => o
  | _ => order1
  end.

Lemma written1_in : UpdateOrderStatus written1 ∈ writes trace1.
Proof. apply (list_elem_of_lookup_2 _ 3). vm_compute. reflexivity. Qed.

Lemma order_status_exact_witness :
  UpdateOrderStatus written1 ∈ writes trace1 /\ deleting written1 = false /\
  exists order l, fetched (numbered order) l /\
    dom (tracked written1) = list_to_set (map (fun x => artifactSha order x.1.2 x.2) l).
Proof.
  split; [exact written1_in|]. split; [vm_compute; reflexivity|].
  destruct (order_status_exact req1 trace1 outcome1 written1 exec1 written1_in)
    as (order & l & t & _ & _ & Hl & _ & _ & Hdom & _); [vm_compute; reflexivity|].
  exists order, l. split; assumption.
Defined.

(** An order that is being deleted and tracks two artifact workflows. *)
Definition order3 : Order :=
  exOrder (Some 9%Z) [orderFinalizer] [exArtifact "one"]
    {["a" := emptyOAWS; "b" := emptyOAWS]}.
Definition cluster3 : Cluster := exCluster order3 ∅.
Definition trace3 : list event := run_trace memory_serve (Reconcile req1) cluster3.

Lemma order_cleanup_witness :
  tracked order3 <> ∅ /\
  exists shas, shas ≡ₚ elements (dom (tracked order3)) /\
    map ev_call (tail trace3) =
    map (fun sha => DeleteArtifactWorkflow (awObjectMeta order3 sha)) shas
    ++ [UpdateOrderStatus (set_Order_ArtifactWorkflows order3 (Some ∅))].
Proof.
  assert (tracked order3 <> ∅) as Hne by (vm_compute; discriminate).
  split; [exact Hne|].
  destruct (order_cleanup req1 order3 (tail trace3)
              (run memory_serve (Reconcile req1) cluster3).2) as (shas & r & Hp & Hm & _).
  - exact (exec_run memory_serve (Reconcile req1) cluster3).
  - reflexivity.
  - exact Hne.
  - exists shas. split; assumption.
Defined.

(** ** The two limits *)

(** The order after the first run, with its artifacts swapped. *)
Definition swapped1 : Order :=
  mkOrder emptyTypeMeta (Order_ObjectMeta written1)
    (mkOrderSpec (mkOrderDefaults (ref "") (ref "dst")) [exArtifact "two"; exArtifact "one"])
    (Order_Status written1).

Definition inputsSwapped : list (nat * OrderArtifact * inputs) :=
  [(0, exArtifact "two", exInputs); (1, exArtifact "one", exInputs)].

Definition clusterSwapped : Cluster :=
  exCluster swapped1 (artifactWorkflows (run memory_serve (Reconcile req1) cluster1).1).

Definition inLineb (s : Cluster) (order : Order) (desiredAWs : gmap string desiredAW) : bool :=
  bool_decide (dom (tracked order) = dom desiredAWs) &&
  forallb (fun kv => match artifactWorkflows s !! awKey order kv.1 with
                     | Some aw => String.eqb (AWStatus_Phase (AW_Status aw)) (OAWS_Phase kv.2)
                     | None => false
                     end) (map_to_list (tracked order)).

Lemma inLineb_spec s order desiredAWs :
  inLineb s order desiredAWs = true -> inLine s order desiredAWs.
Proof.
  unfold inLineb. rewrite andb_true_iff, bool_decide_eq_true, forallb_forall.
  intros [Hdom Hall]. split; [done|]. intros sha st Hst.
  specialize (Hall (sha, st)). rewrite <- list_elem_of_In, elem_of_map_to_list in Hall.
  specialize (Hall Hst). simpl in Hall.
  destruct (artifactWorkflows s !! awKey order sha) as [aw|]; [|done].
  exists aw. split; [done|]. by apply String.eqb_eq.
Qed.

(** The artifact "one" is at position 1 now, and its entry still says 0. *)
Lemma order_reordering_keeps_indices_witness :
  orders (run memory_serve (Reconcile req1) clusterSwapped).1 !! req1 = Some swapped1 /\
  exists st, tracked swapped1 !! artifactSha order1 (exArtifact "one") exInputs = Some st /\
    OAWS_ArtifactIndex st = 0%Z /\
    OrderSpec_Artifacts (Order_Spec swapped1) !! 1 = Some (exArtifact "one") /\
    OrderSpec_Artifacts (Order_Spec swapped1) !! 0 <> Some (exArtifact "one").
Proof.
  assert (meta_key (Order_ObjectMeta swapped1) = req1) as Hkey by (vm_compute; reflexivity).
  split.
  - pose proof (order_reordering_keeps_indices clusterSwapped swapped1 inputsSwapped) as Hkeep.
    rewrite Hkey in Hkeep. apply Hkeep; clear Hkeep.
    + vm_compute; reflexivity.
    + vm_compute; reflexivity.
    + vm_compute; reflexivity.
    + split; [vm_compute; reflexivity|]. repeat constructor; vm_compute; reflexivity.
    + apply inLineb_spec. vm_compute. reflexivity.
  - eexists. split; [vm_compute; reflexivity|]. split; [reflexivity|].
    split; [reflexivity|]. vm_compute. discriminate.
Defined.

(** The artifact workflows are gone after the first run. *)
Definition clusterLost : Cluster := exCluster written1 ∅.

Lemma order_missing_not_recreated_witness :
  (exists e, (run memory_serve (Reconcile req1) clusterLost).2 = Err e) /\
  (run memory_serve (Reconcile req1) clusterLost).1 = clusterLost /\
  writes (run_trace memory_serve (Reconcile req1) clusterLost) = [].
Proof.
  assert (meta_key (Order_ObjectMeta written1) = req1) as Hkey by (vm_compute; reflexivity).
  pose proof (order_missing_not_recreated clusterLost written1 inputs1
           (artifactSha order1 (exArtifact "one") exInputs)) as Hstuck.
  rewrite Hkey in Hstuck. apply Hstuck; clear Hstuck.
  - vm_compute; reflexivity.
  - vm_compute; reflexivity.
  - vm_compute; reflexivity.
  - split; [vm_compute; reflexivity|]. repeat constructor; vm_compute; reflexivity.
  - apply (bool_decide_unpack _). vm_compute. exact I.
  - eexists. vm_compute. reflexivity.
  - apply lookup_empty.
Defined.
