(* ===== verification/OrderWatch.v ===== *)
(** * The endpoint watch of the order controller

    [generateReconcileRequestsForEndpoint] maps a changed endpoint to the orders to
    reconcile.  It lists orders by two field labels that no field of the registry
    bears, so the server refuses the list and no order is ever enqueued. *)

From stdpp Require Import base gmap list strings.
From S2P Require Import Prelude GoStd KubeTypes V1alpha1Types Client Errors.
From S2P Require Import ControllerRuntime OrderController Cluster.

Local Open Scope string_scope.
Local Open Scope list_scope.

(** The selector of the watch: both references must bear the name of the endpoint. *)
Definition watchSelector (endpoint : Endpoint) : list (string * string) :=
  [(".spec.srcRef.name", Name (EP_ObjectMeta endpoint));
   (".spec.dstRef.name", Name (EP_ObjectMeta endpoint))].

Lemma watchSelector_refused endpoint : ~ selectable (watchSelector endpoint).
Proof. intros [[v Hv] _]%Forall_cons. vm_compute in Hv. done. Qed.

(** C31: the watch of the endpoints never enqueues an order.  The handler makes one
    list call, with the field labels .spec.srcRef.name and .spec.dstRef.name, both the
    name of the endpoint, in its namespace; it enqueues the orders that are answered, in
    their order, and nothing when the call fails.  The registry has no such fields, so
    every healthy server refuses the call: whatever orders use the endpoint, the handler
    returns no request and changes nothing. *)
Theorem endpoint_watch_never_fires endpoint :
  (forall t o, exec (generateReconcileRequestsForEndpoint endpoint) t o ->
     exists r,
       t = [ev (ListOrders [(".spec.srcRef.name", Name (EP_ObjectMeta endpoint));
                            (".spec.dstRef.name", Name (EP_ObjectMeta endpoint))]
                  (Namespace (EP_ObjectMeta endpoint))) r] /\
       o = Ok (match r with
               | inl _ => []
               | inr items => (fun x => meta_key (Order_ObjectMeta x)) <$> items
               end)) /\
  (forall (S : Type) (server : HealthyServer S) (s : S),
     (run serve (generateReconcileRequestsForEndpoint endpoint) s).2 = Ok [] /\
     view (run serve (generateReconcileRequestsForEndpoint endpoint) s).1 = view s).
Proof.
  split.
  - intros t o (r & t' & -> & Hex). exists r. destruct r; destruct Hex as [-> ->]; done.
  - intros S server s. eapply (leads_run _ s [] (fun s' _ o => o = Ok [] /\ s' = view s)).
    intros s' r [-> Hr]. destruct r as [e|l]; [by simpl|].
    exfalso. by eapply watchSelector_refused, Hr.
Qed.

(** ** Example: an endpoint that an order has on both sides *)

Definition watched_endpoint : Endpoint :=
  mkEndpoint emptyTypeMeta (newObjectMeta "ns" "here")
    (mkEndpointSpec "oci" "" (mkLocalObjectReference "") EndpointUsageAll) mkEndpointStatus.

Definition order_using_it : Order :=
  mkOrder emptyTypeMeta (newObjectMeta "ns" "o")
    (mkOrderSpec (mkOrderDefaults (mkLocalObjectReference "here") (mkLocalObjectReference "here"))
       [])
    (mkOrderStatus None).

Definition watched_cluster : Cluster :=
  mkCluster {[mkNamespacedName "ns" "o" := order_using_it]}
    {[mkNamespacedName "ns" "here" := watched_endpoint]} ∅ ∅ ∅ ∅.

(** Its change is not seen, although the order uses it twice; the same server does
    find the order by its own name. *)
Lemma endpoint_watch_never_fires_witness :
  (run serve (generateReconcileRequestsForEndpoint watched_endpoint) watched_cluster).2 = Ok [] /\
  exists r, r = inr [order_using_it] /\
    (serve (ListOrders [("metadata.name", "o")] "ns") watched_cluster).2 = r.
Proof.
  split.
  - exact (proj1 (proj2 (endpoint_watch_never_fires watched_endpoint) Cluster memory_server
             watched_cluster)).
  - eexists. split; reflexivity.
Defined.
