(* ===== verification/OrderHash.v ===== *)
(** * The hash of an artifact's inputs

    The name of an artifact workflow carries a hash of its inputs.  What is hashed
    determines the inputs: different inputs can only share a name when the truncated
    SHA-256 collides. *)

From stdpp Require Import base gmap list strings.
From Stdlib Require Import ZArith Strings.Byte.
From S2P Require Import Prelude GoStd Sha256 JsonEncode JsonRoundtrip KubeTypes.
From S2P Require Import V1alpha1Types OrderController.

Local Open Scope string_scope.
Local Open Scope list_scope.

(** What of the inputs the controller looks at when it names an artifact workflow. *)
Definition hashed (order : Order) (art : OrderArtifact) (srcEP dstEP : Endpoint)
  (srcSec dstSec : Secret) :=
  (Namespace (Order_ObjectMeta order), Artifact_Type art, Raw (Artifact_Spec art),
   (Name (EP_ObjectMeta srcEP), Generation (EP_ObjectMeta srcEP)),
   (Name (EP_ObjectMeta dstEP), Generation (EP_ObjectMeta dstEP)),
   (Name (Secret_ObjectMeta srcSec), Generation (Secret_ObjectMeta srcSec)),
   (Name (Secret_ObjectMeta dstSec), Generation (Secret_ObjectMeta dstSec))).

(** C16: for strings that are valid UTF-8, the bytes that are hashed determine the
    namespace, the type and raw spec of the artifact (nil told apart from empty) and
    the names and generations of both endpoints and both secrets; so two artifacts
    get one hash only for equal inputs or through a collision of the digest. *)
Theorem hash_preimage_injective o o' art art' src src' dst dst' ss ss' ds ds' :
  Forall any_valid (hashData o art src dst ss ds) ->
  Forall any_valid (hashData o' art' src' dst' ss' ds') ->
  Marshal (hashData o art src dst ss ds) = Marshal (hashData o' art' src' dst' ss' ds') ->
  hashed o art src dst ss ds = hashed o' art' src' dst' ss' ds'.
Proof.
  intros Hv Hv' E. apply Marshal_inj in E; [|by repeat constructor|done|done].
  unfold hashData in E. unfold hashed. injection E. intros. congruence.
Qed.

(** ** Example *)

Definition hash_order : Order :=
  mkOrder emptyTypeMeta (newObjectMeta "ns" "o")
    (mkOrderSpec (mkOrderDefaults (mkLocalObjectReference "a") (mkLocalObjectReference "b")) [])
    (mkOrderStatus None).

Definition hash_artifact (spec : option (list byte)) : OrderArtifact :=
  mkOrderArtifact "oci" (mkLocalObjectReference "") (mkLocalObjectReference "")
    (mkRawExtension spec).

Definition hash_endpoint (name : string) : Endpoint :=
  mkEndpoint emptyTypeMeta (newObjectMeta "ns" name)
    (mkEndpointSpec "oci" "" (mkLocalObjectReference "") EndpointUsageAll) mkEndpointStatus.

Definition hash_sample (spec : option (list byte)) : list any :=
  hashData hash_order (hash_artifact spec) (hash_endpoint "a") (hash_endpoint "b")
    emptySecret emptySecret.

(** ASCII text is valid UTF-8. *)
Lemma ascii_valid bs : forallb (fun b => byte_Z b <? 128)%Z bs = true -> utf8_valid bs.
Proof.
  induction bs as [|b bs IH]; simpl; [constructor|]. intros [Hb Hbs]%andb_true_iff.
  apply (utf8_cons [b]); [apply rune_bytes1; by apply Z.ltb_lt|by apply IH].
Qed.

Lemma hash_preimage_injective_witness :
  Forall any_valid (hash_sample (Some [x7b; x7d])) /\
  hashed hash_order (hash_artifact (Some [x7b; x7d])) (hash_endpoint "a") (hash_endpoint "b")
    emptySecret emptySecret =
  hashed hash_order (hash_artifact (Some [x7b; x7d])) (hash_endpoint "a") (hash_endpoint "b")
    emptySecret emptySecret.
Proof.
  assert (Forall any_valid (hash_sample (Some [x7b; x7d]))) as Hv.
  { repeat constructor; apply ascii_valid; reflexivity. }
  split; [exact Hv|].
  exact (hash_preimage_injective hash_order hash_order _ _ _ _ _ _ _ _ _ _ Hv Hv eq_refl).
Defined.

(** A nil spec and an empty one are hashed differently. *)
Example hash_nil_empty : shaOf (hash_sample None) <> shaOf (hash_sample (Some [])).
Proof. vm_compute. discriminate. Qed.
