(* ===== verification/ArtifactWorkflowController.v ===== *)
(** * The artifact workflow controller (pkg/controller/artifactworkflow_controller.go)

    [ArtifactWorkflowReconciler.Reconcile]: deletion of the Argo workflow and of the
    finalizer, creation of the Argo workflow while the phase is unknown, and the
    copy of the Argo workflow's phase while it is in progress. *)

From stdpp Require Import base gmap list strings.
From S2P Require Import Prelude GoStd KubeTypes V1alpha1Types Client Errors.
From S2P Require Import ControllerRuntime.

Local Open Scope string_scope.
Local Open Scope list_scope.

Definition artifactWorkflowFinalizer : string := "arc.bwi.de/artifact-workflow-finalizer".

(** ** [hydrateArgoWorkflow] *)

(** The volume for a secret: an emptyDir when there is none. *)
Definition secretVolume (name : string) (secret : Secret) : Volume :=
  if string_nonempty (Name (Secret_ObjectMeta secret)) then
    mkVolume name (SecretVolume (Name (Secret_ObjectMeta secret)))
  else mkVolume name EmptyDir.

Definition argoParameters (ps : list ArtifactWorkflowParameter) : list WfParameter :=
  map (fun p => mkWfParameter (Param_Name p) (Some (Param_Value p))) ps.

Definition hydrateArgoWorkflow (aw : ArtifactWorkflow) (artifactType : ArtifactType)
  (srcSecret dstSecret : Secret) : Workflow :=
  let srcVolume := secretVolume "src-secret-vol" srcSecret in
  let dstVolume := secretVolume "dst-secret-vol" dstSecret in
  let parameters := argoParameters (AWSpec_Parameters (AW_Spec aw))
                    ++ argoParameters (ATSpec_Parameters (AT_Spec artifactType)) in
  mkWorkflow
    (newObjectMeta (Namespace (AW_ObjectMeta aw)) (Name (AW_ObjectMeta aw)))
    (mkWorkflowSpec
       (Some (mkWorkflowTemplateRef
                (Ref_Name (ATSpec_WorkflowTemplateRef (AT_Spec artifactType))) true))
       [srcVolume; dstVolume]
       parameters)
    "".

Section controller.
Context `{ControllerUtil}.

(** ** [createArgoWorkflow] *)

Definition fetchSecretRef (ns : string) (ref : LocalObjectReference) (text : string) :
  prog Secret :=
  if string_nonempty (Ref_Name ref) then
    let! r := do_call (GetSecret (namespacedName ns (Ref_Name ref))) in
    must text r
  else Ret emptySecret.

Definition createArgoWorkflow (aw : ArtifactWorkflow) : prog Result :=
  let ns := Namespace (AW_ObjectMeta aw) in
  let! r := do_call (GetArtifactType (namespacedName "" (AWSpec_Type (AW_Spec aw)))) in
  let! artifactType := must "failed to retrieve artifact type" r in
  let! srcSecret := fetchSecretRef ns (AWSpec_SrcSecretRef (AW_Spec aw))
                      "failed to fetch secret for source" in
  let! dstSecret := fetchSecretRef ns (AWSpec_DstSecretRef (AW_Spec aw))
                      "failed to fetch secret for destination" in
  let wf := hydrateArgoWorkflow aw artifactType srcSecret dstSecret in
  let! meta := must "failed to set controller reference"
    (SetControllerReference "ArtifactWorkflow" (AW_ObjectMeta aw) (Workflow_ObjectMeta wf)) in
  let! err := do_call (CreateWorkflow (set_Workflow_ObjectMeta wf meta)) in
  let! _ := check "failed to create argo workflow" (IgnoreAlreadyExists err) in
  let! err := do_call (UpdateArtifactWorkflowStatus (set_AW_Phase aw WorkflowPending)) in
  let! _ := check "failed to update status" err in
  Ret (mkResult false).

(** ** [checkArgoWorkflow] *)

Definition checkArgoWorkflow (aw : ArtifactWorkflow) : prog Result :=
  let! r := do_call (GetWorkflow (namespacedName (Namespace (AW_ObjectMeta aw))
                                                 (Name (AW_ObjectMeta aw)))) in
  let! wf := must "failed to get workflow" r in
  let! err := do_call (UpdateArtifactWorkflowStatus (set_AW_Phase aw (Workflow_Phase wf))) in
  let! _ := check "failed to update status" err in
  Ret (mkResult false).

(** ** Deletion (lines 51-74) *)

Definition reconcileDelete (aw : ArtifactWorkflow) : prog Result :=
  let! err := do_call (DeleteWorkflow
    (newObjectMeta (Namespace (AW_ObjectMeta aw)) (Name (AW_ObjectMeta aw)))) in
  let! _ := check "workflow deletion failed" (IgnoreNotFound err) in
  if slices_Contains (Finalizers (AW_ObjectMeta aw)) artifactWorkflowFinalizer then
    let aw := set_AW_ObjectMeta aw
      (set_Finalizers (AW_ObjectMeta aw)
         (slices_DeleteFunc (Finalizers (AW_ObjectMeta aw))
            (fun f => bool_decide (f = artifactWorkflowFinalizer)))) in
    let! err := do_call (UpdateArtifactWorkflow aw) in
    let! _ := check "failed to remove finalizer" err in
    Ret (mkResult false)
  else Ret (mkResult false).

(** ** [Reconcile] *)

Definition Reconcile (req : NamespacedName) : prog Result :=
  let! r := do_call (GetArtifactWorkflow req) in
  match r with
  | inl err =>
      if IsNotFound err then Ret (mkResult false)
      else Fail (wrapped err "failed to get object")
  | inr aw =>
      if negb (Time_IsZero (DeletionTimestamp (AW_ObjectMeta aw))) then
        reconcileDelete aw
      else if negb (slices_Contains (Finalizers (AW_ObjectMeta aw)) artifactWorkflowFinalizer) then
        let aw := set_AW_ObjectMeta aw
          (set_Finalizers (AW_ObjectMeta aw)
             (Finalizers (AW_ObjectMeta aw) ++ [artifactWorkflowFinalizer])) in
        let! err := do_call (UpdateArtifactWorkflow aw) in
        let! _ := check "failed to add finalizer" err in
        Ret (mkResult false)
      else
        let phase := AWStatus_Phase (AW_Status aw) in
        if Completed phase then Ret (mkResult false)
        else if bool_decide (phase = WorkflowUnknown) then createArgoWorkflow aw
        else if InProgress phase then checkArgoWorkflow aw
        else Ret (mkResult false)
  end.

End controller.
