(* ===== verification/ArtifactWorkflowFacts.v ===== *)
(** * What a reconciliation of an artifact workflow does

    [awReconciled] describes every run of [ArtifactWorkflowReconciler.Reconcile]
    whatever the API server answers, and [Reconcile] refines it. *)

From stdpp Require Import base gmap list strings.
From S2P Require Import Prelude GoStd KubeTypes V1alpha1Types Client Cluster Errors.
From S2P Require Import ControllerRuntime ArtifactWorkflowController.

Local Open Scope string_scope.
Local Open Scope list_scope.

(** ** States of an artifact workflow *)

Definition awDeleting (aw : ArtifactWorkflow) : bool :=
  negb (Time_IsZero (DeletionTimestamp (AW_ObjectMeta aw))).

Definition awClaimed (aw : ArtifactWorkflow) : bool :=
  slices_Contains (Finalizers (AW_ObjectMeta aw)) artifactWorkflowFinalizer.

Definition awPhase (aw : ArtifactWorkflow) : WorkflowPhase := AWStatus_Phase (AW_Status aw).

Definition awWithFinalizer (aw : ArtifactWorkflow) : ArtifactWorkflow :=
  set_AW_ObjectMeta aw (set_Finalizers (AW_ObjectMeta aw)
    (Finalizers (AW_ObjectMeta aw) ++ [artifactWorkflowFinalizer])).

Definition awWithoutFinalizer (aw : ArtifactWorkflow) : ArtifactWorkflow :=
  set_AW_ObjectMeta aw (set_Finalizers (AW_ObjectMeta aw)
    (slices_DeleteFunc (Finalizers (AW_ObjectMeta aw))
       (fun f => bool_decide (f = artifactWorkflowFinalizer)))).

(** The metadata and the key of the Argo workflow of an artifact workflow. *)
Definition wfMeta (aw : ArtifactWorkflow) : ObjectMeta :=
  newObjectMeta (Namespace (AW_ObjectMeta aw)) (Name (AW_ObjectMeta aw)).
Definition wfKey (aw : ArtifactWorkflow) : NamespacedName :=
  namespacedName (Namespace (AW_ObjectMeta aw)) (Name (AW_ObjectMeta aw)).

(** The outcome of a last request whose error is wrapped. *)
Definition awClosing (text : string) (r : option error) : outcome Result :=
  match r with
  | None => Ok (mkResult false)
  | Some e => Err (wrapped e text)
  end.

Definition typeKey (aw : ArtifactWorkflow) : NamespacedName :=
  namespacedName "" (AWSpec_Type (AW_Spec aw)).

Definition secretRefKey (aw : ArtifactWorkflow) (ref : LocalObjectReference) : NamespacedName :=
  namespacedName (Namespace (AW_ObjectMeta aw)) (Ref_Name ref).

(** The events of fetching a secret that is referred to, or none. *)
Definition secretRefEvents (aw : ArtifactWorkflow) (ref : LocalObjectReference) (sec : Secret) :
  list event :=
  if string_nonempty (Ref_Name ref) then [ev (GetSecret (secretRefKey aw ref)) (inr sec)] else [].

(** The events before an Argo workflow is created. *)
Definition prepareEvents (aw : ArtifactWorkflow) (artifactType : ArtifactType)
  (srcSec dstSec : Secret) : list event :=
  ev (GetArtifactType (typeKey aw)) (inr artifactType)
  :: secretRefEvents aw (AWSpec_SrcSecretRef (AW_Spec aw)) srcSec
  ++ secretRefEvents aw (AWSpec_DstSecretRef (AW_Spec aw)) dstSec.

Definition secretRefOk (ref : LocalObjectReference) (sec : Secret) : Prop :=
  string_nonempty (Ref_Name ref) = false -> sec = emptySecret.

Section facts.
Context `{ControllerUtil}.

(** ** The specification *)

(** The workflow that is created: hydrated from what was fetched, owned by the
    artifact workflow. *)
Definition owned (aw : ArtifactWorkflow) (artifactType : ArtifactType) (srcSec dstSec : Secret)
  (wf : Workflow) : Prop :=
  exists meta, SetControllerReference "ArtifactWorkflow" (AW_ObjectMeta aw) (wfMeta aw) = inr meta
    /\ wf = set_Workflow_ObjectMeta (hydrateArgoWorkflow aw artifactType srcSec dstSec) meta
    /\ secretRefOk (AWSpec_SrcSecretRef (AW_Spec aw)) srcSec
    /\ secretRefOk (AWSpec_DstSecretRef (AW_Spec aw)) dstSec.

Inductive awCourse (aw : ArtifactWorkflow) : list event -> outcome Result -> Prop :=
| AWCleanupFailed r e :
    awDeleting aw = true -> IgnoreNotFound r = Some e ->
    awCourse aw [ev (DeleteWorkflow (wfMeta aw)) r] (Err (wrapped e "workflow deletion failed"))
| AWCleanup r u :
    awDeleting aw = true -> IgnoreNotFound r = None -> awClaimed aw = true ->
    awCourse aw [ev (DeleteWorkflow (wfMeta aw)) r;
                 ev (UpdateArtifactWorkflow (awWithoutFinalizer aw)) u]
      (awClosing "failed to remove finalizer" u)
| AWCleaned r :
    awDeleting aw = true -> IgnoreNotFound r = None -> awClaimed aw = false ->
    awCourse aw [ev (DeleteWorkflow (wfMeta aw)) r] (Ok (mkResult false))
| AWClaim u :
    awDeleting aw = false -> awClaimed aw = false ->
    awCourse aw [ev (UpdateArtifactWorkflow (awWithFinalizer aw)) u]
      (awClosing "failed to add finalizer" u)
| AWIdle :
    awDeleting aw = false -> awClaimed aw = true ->
    awPhase aw <> WorkflowUnknown -> InProgress (awPhase aw) = false ->
    awCourse aw [] (Ok (mkResult false))
| AWPrepareFailed t e :
    awDeleting aw = false -> awClaimed aw = true -> awPhase aw = WorkflowUnknown ->
    writes t = [] -> awCourse aw t (Err e)
| AWCreateFailed artifactType srcSec dstSec wf r e :
    awDeleting aw = false -> awClaimed aw = true -> awPhase aw = WorkflowUnknown ->
    owned aw artifactType srcSec dstSec wf -> IgnoreAlreadyExists r = Some e ->
    awCourse aw (prepareEvents aw artifactType srcSec dstSec ++ [ev (CreateWorkflow wf) r])
      (Err (wrapped e "failed to create argo workflow"))
| AWCreate artifactType srcSec dstSec wf r u :
    awDeleting aw = false -> awClaimed aw = true -> awPhase aw = WorkflowUnknown ->
    owned aw artifactType srcSec dstSec wf -> IgnoreAlreadyExists r = None ->
    awCourse aw (prepareEvents aw artifactType srcSec dstSec ++
                 [ev (CreateWorkflow wf) r;
                  ev (UpdateArtifactWorkflowStatus (set_AW_Phase aw WorkflowPending)) u])
      (awClosing "failed to update status" u)
| AWCheckFailed e :
    awDeleting aw = false -> awClaimed aw = true -> InProgress (awPhase aw) = true ->
    awCourse aw [ev (GetWorkflow (wfKey aw)) (inl e)] (Err (wrapped e "failed to get workflow"))
| AWCheck wf u :
    awDeleting aw = false -> awClaimed aw = true -> InProgress (awPhase aw) = true ->
    awCourse aw [ev (GetWorkflow (wfKey aw)) (inr wf);
                 ev (UpdateArtifactWorkflowStatus (set_AW_Phase aw (Workflow_Phase wf))) u]
      (awClosing "failed to update status" u).

Inductive awReconciled (req : NamespacedName) : list event -> outcome Result -> Prop :=
| AWGone e : IsNotFound e = true ->
    awReconciled req [ev (GetArtifactWorkflow req) (inl e)] (Ok (mkResult false))
| AWGetFailed e : IsNotFound e = false ->
    awReconciled req [ev (GetArtifactWorkflow req) (inl e)]
      (Err (wrapped e "failed to get object"))
| AWFound aw t o : awCourse aw t o ->
    awReconciled req (ev (GetArtifactWorkflow req) (inr aw) :: t) o.

(** ** The refinement *)

Lemma wp_fetchSecretRef aw ref text (Q : list event -> outcome Secret -> Prop) t :
  (forall t' e, writes t' = writes t -> Q t' (Err e)) ->
  (forall sec, secretRefOk ref sec -> Q (t ++ secretRefEvents aw ref sec) (Ok sec)) ->
  wp (fetchSecretRef (Namespace (AW_ObjectMeta aw)) ref text) Q t.
Proof.
  intros HE HO. unfold fetchSecretRef, secretRefEvents, secretRefOk in *.
  destruct (string_nonempty _).
  - intros r. apply wp_must; intros x ->; simpl; [|by apply HO].
    apply HE. by rewrite writes_read.
  - specialize (HO emptySecret (fun _ => eq_refl)). by rewrite app_nil_r in HO.
Qed.

Lemma writes_secretRefEvents aw ref sec : writes (secretRefEvents aw ref sec) = [].
Proof. unfold secretRefEvents. by destruct (string_nonempty _). Qed.

Lemma createArgoWorkflow_refines aw :
  awDeleting aw = false -> awClaimed aw = true -> awPhase aw = WorkflowUnknown ->
  wp (createArgoWorkflow aw) (awCourse aw) [].
Proof.
  intros Hd Hc Hp. unfold createArgoWorkflow. intros r1. simpl. apply wp_bind, wp_must.
  { intros e ->. by apply AWPrepareFailed. }
  intros at_ ->. apply wp_bind, wp_fetchSecretRef.
  { intros t e Hw. by apply AWPrepareFailed. }
  intros src Hsrc. apply wp_bind, wp_fetchSecretRef.
  { intros t e Hw. apply AWPrepareFailed; [done..|].
    by rewrite Hw, writes_app, writes_secretRefEvents. }
  intros dst Hdst. apply wp_bind, wp_must.
  { intros e _. apply AWPrepareFailed; [done..|].
    by rewrite !writes_app, !writes_secretRefEvents. }
  intros meta Hmeta. simpl app. change (?e :: ?l) with (prepareEvents aw at_ src dst).
  intros r2. cbn [bind].
  assert (owned aw at_ src dst
            (set_Workflow_ObjectMeta (hydrateArgoWorkflow aw at_ src dst) meta)) as Ho
    by (by exists meta).
  apply wp_bind, wp_check; [intros e He|intros He].
  - apply (AWCreateFailed aw at_ src dst _ r2); done.
  - intros r3. cbn [bind]. rewrite <- app_assoc. apply wp_bind, wp_check; [intros e ->|intros ->].
    + apply (AWCreate aw at_ src dst _ r2 (Some e)); done.
    + apply (AWCreate aw at_ src dst _ r2 None); done.
Qed.

Lemma Reconcile_awReconciled_wp req : wp (Reconcile req) (awReconciled req) [].
Proof.
  unfold Reconcile. intros r. simpl. destruct r as [e|aw].
  { destruct (IsNotFound e) eqn:He; [by apply AWGone|by apply AWGetFailed]. }
  apply wp_shift. apply wp_mono with (Q := awCourse aw); [intros t o; apply AWFound|].
  destruct (negb (Time_IsZero _)) eqn:Hd.
  { intros r. simpl. apply wp_bind, wp_check; [intros e He; by apply AWCleanupFailed|].
    intros He. destruct (slices_Contains _ _) eqn:Hf; [|by apply AWCleaned].
    intros u. destruct u; [by apply (AWCleanup _ _ (Some _))|by apply (AWCleanup _ _ None)]. }
  destruct (slices_Contains _ _) eqn:Hf; simpl.
  2: intros u; destruct u; [by apply (AWClaim _ (Some _))|by apply (AWClaim _ None)].
  destruct (Completed _) eqn:Hcomp.
  { apply AWIdle; [done..| |by apply Completed_not_InProgress].
    intros Hu. unfold awPhase in Hu. by rewrite Hu in Hcomp. }
  case_bool_decide as Hu; [by apply createArgoWorkflow_refines|].
  destruct (InProgress _) eqn:Hip; [|by apply AWIdle].
  intros r. simpl. apply wp_bind, wp_must; [intros e ->; by apply AWCheckFailed|].
  intros wf -> u. destruct u; [by apply (AWCheck _ _ (Some _))|by apply (AWCheck _ _ None)].
Qed.

Lemma Reconcile_awReconciled req t o : exec (Reconcile req) t o -> awReconciled req t o.
Proof. apply exec_wp, Reconcile_awReconciled_wp. Qed.

(** The artifact workflow an event reads, if it reads one. *)
Definition awRead (e : event) : option ArtifactWorkflow :=
  match e with
  | existT (GetArtifactWorkflow _) (inr aw) => Some aw
  | _ => None
  end.

Lemma awReconciled_course req aw t o :
  awReconciled req (ev (GetArtifactWorkflow req) (inr aw) :: t) o -> awCourse aw t o.
Proof.
  intros Hr. remember (ev (GetArtifactWorkflow req) (inr aw) :: t) as tr eqn:Htr.
  destruct Hr as [e He|e He|aw' t' o Hc].
  1-2: apply (f_equal (fun l => head l ≫= awRead)) in Htr; discriminate Htr.
  assert (aw' = aw) as ->.
  { apply (f_equal (fun l => head l ≫= awRead)) in Htr. by injection Htr. }
  by apply (f_equal tail) in Htr; simpl in Htr; subst.
Qed.

Lemma writes_prepareEvents aw at_ src dst : writes (prepareEvents aw at_ src dst) = [].
Proof.
  unfold prepareEvents. change (?e :: ?l) with ([e] ++ l).
  by rewrite !writes_app, !writes_secretRefEvents.
Qed.

End facts.
