(* ===== verification/ArtifactWorkflowTheorems.v ===== *)
(** * Theorems about the artifact workflow controller *)

From stdpp Require Import base gmap list strings.
From S2P Require Import Prelude GoStd KubeTypes V1alpha1Types Client Cluster Errors.
From S2P Require Import ControllerRuntime ArtifactWorkflowController.
From S2P Require Import ArtifactWorkflowFacts.

Local Open Scope string_scope.
Local Open Scope list_scope.

(** Close a goal from a request that is not in a list of other requests. *)
Ltac no_write Hin :=
  exfalso; cbn in Hin;
  repeat (apply elem_of_cons in Hin as [Hin|Hin]; [discriminate Hin|]);
  by apply not_elem_of_nil in Hin.

Section theorems.
Context `{ControllerUtil}.

(** ** Safety under every answer *)

(** C17: every run of a reconciliation of an artifact workflow, whatever the API
    server answers, takes one of the courses of [awReconciled]. *)
Theorem aw_reconcile_refines req t o :
  exec (Reconcile req) t o -> awReconciled req t o.
Proof. apply Reconcile_awReconciled. Qed.

(** C19: the status of an artifact workflow is only written when it is live, carries
    the finalizer and has not completed: as Pending after the request to create its
    Argo workflow was answered with success or with already-exists, or as the phase
    of the Argo workflow that was just read. *)
Theorem aw_status_justified req t o aw' :
  exec (Reconcile req) t o -> UpdateArtifactWorkflowStatus aw' ∈ writes t ->
  exists aw t1 u, awDeleting aw = false /\ awClaimed aw = true
    /\ Completed (awPhase aw) = false
    /\ t = ev (GetArtifactWorkflow req) (inr aw) :: t1
             ++ [ev (UpdateArtifactWorkflowStatus aw') u]
    /\ ((exists wf r t2, aw' = set_AW_Phase aw WorkflowPending /\ awPhase aw = WorkflowUnknown
           /\ t1 = t2 ++ [ev (CreateWorkflow wf) r] /\ IgnoreAlreadyExists r = None)
        \/ (exists wf, aw' = set_AW_Phase aw (Workflow_Phase wf)
              /\ t1 = [ev (GetWorkflow (wfKey aw)) (inr wf)])).
Proof.
  intros Hex%Reconcile_awReconciled Hin.
  destruct Hex as [e He|e He|aw t o Hc]; [by apply not_elem_of_nil in Hin..|].
  assert (forall p, InProgress p = true -> Completed p = false) as Hip.
  { intros p Hp. destruct (Completed p) eqn:Hcp; [|done].
    by rewrite (Completed_not_InProgress p Hcp) in Hp. }
  change (writes (ev _ _ :: t)) with (writes t) in Hin.
  destruct Hc as [| | | | |t e ? ? ? Hw|at_ src dst wf r e ? ? ? Ho
    |at_ src dst wf r u ? ? Hp Ho| |wf u]; try (by no_write Hin).
  - rewrite Hw in Hin. by apply not_elem_of_nil in Hin.
  - rewrite writes_app, writes_prepareEvents in Hin. no_write Hin.
  - rewrite writes_app, writes_prepareEvents in Hin. cbn in Hin.
    apply elem_of_cons in Hin as [[=]|Heq%list_elem_of_singleton]. injection Heq as ->.
    exists aw, (prepareEvents aw at_ src dst ++ [ev (CreateWorkflow wf) r]), u.
    rewrite Hp, <- app_assoc. split_and!; [done..|]. left. eauto 10.
  - apply list_elem_of_singleton in Hin. injection Hin as ->.
    exists aw, [ev (GetWorkflow (wfKey aw)) (inr wf)], u.
    split_and!; [done|done|by apply Hip|done|]. right. eauto.
Qed.

(** A created Argo workflow was prepared for the artifact workflow that was read. *)
Lemma argo_created req t o wf :
  exec (Reconcile req) t o -> CreateWorkflow wf ∈ writes t ->
  exists aw at_ src dst r t',
    t = ev (GetArtifactWorkflow req) (inr aw)
          :: prepareEvents aw at_ src dst ++ ev (CreateWorkflow wf) r :: t'
    /\ awDeleting aw = false /\ awClaimed aw = true /\ awPhase aw = WorkflowUnknown
    /\ owned aw at_ src dst wf.
Proof.
  intros Hex%Reconcile_awReconciled Hin.
  destruct Hex as [e He|e He|aw t o Hc]; [by apply not_elem_of_nil in Hin..|].
  change (writes (ev _ _ :: t)) with (writes t) in Hin. exists aw.
  destruct Hc as [| | | | |t e ? ? ? Hw| at_ src dst wf' r e ? ? ? Ho
    |at_ src dst wf' r u ? ? ? Ho| |]; try (by no_write Hin).
  - rewrite Hw in Hin. by apply not_elem_of_nil in Hin.
  - rewrite writes_app, writes_prepareEvents in Hin.
    apply list_elem_of_singleton in Hin. injection Hin as ->. eauto 15.
  - rewrite writes_app, writes_prepareEvents in Hin. cbn in Hin.
    apply elem_of_cons in Hin as [Heq|[=]%list_elem_of_singleton]. injection Heq as ->.
    eauto 15.
Qed.

(** The secret of a reference: what the API server answered for its name, or the empty
    secret if there is no name. *)
Definition secretOf (aw : ArtifactWorkflow) (ref : LocalObjectReference) (t : list event)
  (sec : Secret) : Prop :=
  if string_nonempty (Ref_Name ref) then ev (GetSecret (secretRefKey aw ref)) (inr sec) ∈ t
  else sec = emptySecret.

Lemma secretOf_events aw ref sec t :
  secretRefOk ref sec -> (forall e, e ∈ secretRefEvents aw ref sec -> e ∈ t) ->
  secretOf aw ref t sec.
Proof.
  unfold secretOf, secretRefOk, secretRefEvents. destruct (string_nonempty _); [|auto].
  intros _ Hin. apply Hin, list_elem_of_here.
Qed.


End theorems.
