(* ===== verification/ArtifactWorkflowSystem.v ===== *)
(** * Artifact workflows and Argo workflows over time

    The artifact workflow controller against a healthy API server: what one
    reconciliation achieves, at its end and at every point where it may be cut off. *)

From stdpp Require Import base gmap list strings relations.
From S2P Require Import Prelude GoStd KubeTypes V1alpha1Types Client Cluster Errors.
From S2P Require Import ControllerRuntime ArtifactWorkflowController.
From S2P Require Import ArtifactWorkflowFacts.

Local Open Scope string_scope.
Local Open Scope list_scope.

(** ** One reconciliation *)

(** At most the artifact workflow and the Argo workflow of a key differ. *)
Record touches (k : NamespacedName) (s s' : Cluster) : Prop := {
  touches_orders : orders s' = orders s;
  touches_endpoints : endpoints s' = endpoints s;
  touches_secrets : secrets s' = secrets s;
  touches_types : artifactTypes s' = artifactTypes s;
  touches_aws : forall k', k' <> k -> artifactWorkflows s' !! k' = artifactWorkflows s !! k';
  touches_workflows : forall k', k' <> k -> workflows s' !! k' = workflows s !! k';
}.

Lemma touches_refl k s : touches k s s.
Proof. done. Qed.

Lemma touches_aw k s aw :
  touches k s (set_artifactWorkflows s (<[k := aw]> (artifactWorkflows s))).
Proof. split; try done. intros k' Hk. by apply lookup_insert_ne. Qed.

Section one.
Context `{ControllerUtil}.

Lemma wfKey_meta aw : wfKey aw = meta_key (AW_ObjectMeta aw).
Proof. done. Qed.

(** The artifact workflow with the metadata and the phase that were stored. *)
Definition storedAW (aw : ArtifactWorkflow) (md : ObjectMeta) (p : WorkflowPhase) :
  ArtifactWorkflow :=
  mkArtifactWorkflow emptyTypeMeta md (AW_Spec aw)
    (mkArtifactWorkflowStatus p (AWStatus_Message (AW_Status aw))).

Lemma leads_awStatus s aw p t (Q : Cluster -> list event -> outcome Result -> Prop) :
  artifactWorkflows s !! wfKey aw = Some aw -> awDeleting aw = false ->
  (forall t' md, maintained (AW_ObjectMeta aw) md ->
     Q (set_artifactWorkflows s (<[wfKey aw := storedAW aw md p]> (artifactWorkflows s)))
       t' (Ok (mkResult false))) ->
  leads (let! err := do_call (UpdateArtifactWorkflowStatus (set_AW_Phase aw p)) in
         let! _ := check "failed to update status" err in Ret (mkResult false)) s t Q.
Proof.
  intros Hst Hlive HQ s' r (m & -> & Hup). unfold updates in Hup. cbv zeta in Hup.
  change (meta_key (AW_ObjectMeta (set_AW_Phase aw p))) with (wfKey aw) in Hup.
  rewrite Hst, bool_decide_true in Hup by done.
  destruct Hup as (-> & x & md & Hx & Hmd & ->).
  rewrite storedArtifactWorkflow_status in Hx. simplify_eq.
  simpl in Hmd. destruct (released md) eqn:Hrel; [|by apply HQ].
  unfold released in Hrel. destruct Hmd as (_ & _ & _ & _ & _ & _ & Hdt).
  unfold awDeleting in Hlive. rewrite Hdt, Hlive in Hrel. done.
Qed.

Lemma keeps_awStatus (I : Cluster -> Prop) s aw p (Q : Cluster -> outcome Result -> Prop) :
  artifactWorkflows s !! wfKey aw = Some aw -> awDeleting aw = false -> I s ->
  (forall md, maintained (AW_ObjectMeta aw) md ->
     let s' := set_artifactWorkflows s (<[wfKey aw := storedAW aw md p]> (artifactWorkflows s)) in
     I s' /\ Q s' (Ok (mkResult false))) ->
  keeps I (let! err := do_call (UpdateArtifactWorkflowStatus (set_AW_Phase aw p)) in
           let! _ := check "failed to update status" err in Ret (mkResult false)) s Q.
Proof.
  intros Hst Hlive HI HQ. apply (keeps_single _ _ _ []); [by intros []|done|].
  apply leads_awStatus; [done..|]. intros t' md Hmd. by apply HQ.
Qed.

(** A secret that is referred to exists. *)
Definition secretRefIn (s : Cluster) (aw : ArtifactWorkflow) (ref : LocalObjectReference)
  (sec : Secret) : Prop :=
  if string_nonempty (Ref_Name ref) then secrets s !! secretRefKey aw ref = Some sec
  else sec = emptySecret.

Lemma leads_fetchSecretRef s aw ref sec text t Q :
  secretRefIn s aw ref sec -> (forall t', Q s t' (Ok sec)) ->
  leads (fetchSecretRef (Namespace (AW_ObjectMeta aw)) ref text) s t Q.
Proof.
  unfold secretRefIn, fetchSecretRef. destruct (string_nonempty _); intros Hs HQ.
  - intros s' r [-> ->]. unfold secretRefKey in Hs. rewrite Hs. apply HQ.
  - simpl. subst. apply HQ.
Qed.

Lemma readonly_fetchSecretRef ns ref text : readonly (fetchSecretRef ns ref text).
Proof. unfold fetchSecretRef. destruct (string_nonempty _); [|done]. split; [done|]. by intros []. Qed.

(** The reconciliation of a live, claimed artifact workflow gets to its phase. *)
Lemma leads_phase s aw t Q :
  artifactWorkflows s !! wfKey aw = Some aw -> awDeleting aw = false -> awClaimed aw = true ->
  (forall t', leads
     (if Completed (awPhase aw) then Ret (mkResult false)
      else if bool_decide (awPhase aw = WorkflowUnknown) then createArgoWorkflow aw
      else if InProgress (awPhase aw) then checkArgoWorkflow aw
      else Ret (mkResult false)) s t' Q) ->
  leads (Reconcile (wfKey aw)) s t Q.
Proof.
  intros Hst Hd Hc HQ. unfold Reconcile. intros s' r [-> ->]. rewrite Hst. simpl.
  unfold awDeleting in Hd. unfold awClaimed in Hc. rewrite Hd, Hc. apply HQ.
Qed.

Lemma keeps_phase (I : Cluster -> Prop) s aw Q :
  artifactWorkflows s !! wfKey aw = Some aw -> awDeleting aw = false -> awClaimed aw = true ->
  I s ->
  keeps I (if Completed (awPhase aw) then Ret (mkResult false)
           else if bool_decide (awPhase aw = WorkflowUnknown) then createArgoWorkflow aw
           else if InProgress (awPhase aw) then checkArgoWorkflow aw
           else Ret (mkResult false)) s Q ->
  keeps I (Reconcile (wfKey aw)) s Q.
Proof.
  intros Hst Hd Hc HI HQ. unfold Reconcile. split; [done|]. intros s' r [-> ->].
  rewrite Hst. simpl. unfold awDeleting in Hd. unfold awClaimed in Hc. rewrite Hd, Hc. apply HQ.
Qed.

(** What the creation of an Argo workflow needs. *)
Record startable (s : Cluster) (aw : ArtifactWorkflow) (artifactType : ArtifactType)
  (srcSec dstSec : Secret) : Prop := {
  st_stored : artifactWorkflows s !! wfKey aw = Some aw;
  st_live : awDeleting aw = false;
  st_claimed : awClaimed aw = true;
  st_phase : awPhase aw = WorkflowUnknown;
  st_type : artifactTypes s !! typeKey aw = Some artifactType;
  st_src : secretRefIn s aw (AWSpec_SrcSecretRef (AW_Spec aw)) srcSec;
  st_dst : secretRefIn s aw (AWSpec_DstSecretRef (AW_Spec aw)) dstSec;
}.

(** The Argo workflow of an artifact workflow is there: the one that was there
    before, or the hydrated one. *)
Definition hasWorkflow (s0 s : Cluster) (aw : ArtifactWorkflow) (artifactType : ArtifactType)
  (srcSec dstSec : Secret) : Prop :=
  exists wf, workflows s !! wfKey aw = Some wf /\
    match workflows s0 !! wfKey aw with
    | Some old => wf = old
    | None => Workflow_Spec wf = Workflow_Spec (hydrateArgoWorkflow aw artifactType srcSec dstSec)
              /\ Workflow_Phase wf = ""
    end.

(** The creation in two writes: the Argo workflow, then the phase. *)
Lemma keeps_start (I : Cluster -> Prop) s aw artifactType srcSec dstSec :
  startable s aw artifactType srcSec dstSec -> I s ->
  (forall s', hasWorkflow s s' aw artifactType srcSec dstSec -> touches (wfKey aw) s s' ->
     artifactWorkflows s' !! wfKey aw = Some aw -> I s') ->
  (forall s', hasWorkflow s s' aw artifactType srcSec dstSec -> touches (wfKey aw) s s' ->
     (exists md, maintained (AW_ObjectMeta aw) md /\
        artifactWorkflows s' !! wfKey aw = Some (storedAW aw md WorkflowPending)) -> I s') ->
  keeps I (Reconcile (wfKey aw)) s
    (fun s' o => o = Ok (mkResult false) /\ hasWorkflow s s' aw artifactType srcSec dstSec /\
       touches (wfKey aw) s s' /\
       exists md, maintained (AW_ObjectMeta aw) md /\
         artifactWorkflows s' !! wfKey aw = Some (storedAW aw md WorkflowPending)).
Proof.
  intros [Hst Hd Hc Hp Ht Hsrc Hdst] HI Hmid Hend. apply keeps_phase; [done..|].
  rewrite Hp. simpl. unfold createArgoWorkflow. split; [done|]. intros s1 r1 [-> ->].
  unfold typeKey in Ht. rewrite Ht. simpl.
  apply keeps_bind, (keeps_readonly _ _ _ []); [apply readonly_fetchSecretRef|done|].
  apply (leads_fetchSecretRef _ _ _ srcSec); [done|]. intros _ _.
  apply keeps_bind, (keeps_readonly _ _ _ []); [apply readonly_fetchSecretRef|done|].
  apply (leads_fetchSecretRef _ _ _ dstSec); [done|]. intros _ _.
  destruct (SetControllerReference_fresh "ArtifactWorkflow" (AW_ObjectMeta aw) (wfMeta aw))
    as [meta Hset]; [done|done|].
  simpl Workflow_ObjectMeta. fold (wfMeta aw). rewrite Hset. simpl.
  apply SetControllerReference_frame in Hset as (ref & -> & _); [|done].
  split; [done|]. intros s2 r2 (m & -> & Hcr). unfold creates_in in Hcr. cbv zeta in Hcr.
  change (meta_key (Workflow_ObjectMeta _)) with (wfKey aw) in Hcr.
  assert (IgnoreAlreadyExists r2 = None /\
          hasWorkflow s (set_workflows s m) aw artifactType srcSec dstSec /\
          forall k', k' <> wfKey aw -> m !! k' = workflows s !! k') as (-> & Hhas & Hm).
  { unfold hasWorkflow. simpl. destruct (workflows s !! wfKey aw) as [old|] eqn:Hw.
    - destruct Hcr as (-> & e & -> & He). split_and!; [|by exists old|done].
      simpl. unfold IsAlreadyExists. by rewrite He, bool_decide_true.
    - destruct Hcr as (-> & md & _ & ->).
      split_and!; [done| |by intros; apply lookup_insert_ne].
      eexists. rewrite lookup_insert_eq. done. }
  apply keeps_awStatus; [done..|by apply Hmid|]. intros md Hmd.
  set (s' := set_artifactWorkflows _ _).
  assert (touches (wfKey aw) s s') as Htouch.
  { split; try done. intros k' Hk'. by apply lookup_insert_ne. }
  assert (exists md, maintained (AW_ObjectMeta aw) md /\
            artifactWorkflows s' !! wfKey aw = Some (storedAW aw md WorkflowPending)) as Haw.
  { exists md. split; [done|]. apply lookup_insert_eq. }
  split; [by apply Hend|done].
Qed.

Lemma leads_start s aw artifactType srcSec dstSec t :
  startable s aw artifactType srcSec dstSec ->
  leads (Reconcile (wfKey aw)) s t
    (fun s' _ o => o = Ok (mkResult false) /\ hasWorkflow s s' aw artifactType srcSec dstSec /\
       touches (wfKey aw) s s' /\
       exists md, maintained (AW_ObjectMeta aw) md /\
         artifactWorkflows s' !! wfKey aw = Some (storedAW aw md WorkflowPending)).
Proof. intros Hs. by apply (keeps_leads (fun _ => True)), keeps_start. Qed.

Lemma keeps_follow (I : Cluster -> Prop) s aw wf :
  artifactWorkflows s !! wfKey aw = Some aw -> awDeleting aw = false -> awClaimed aw = true ->
  InProgress (awPhase aw) = true -> workflows s !! wfKey aw = Some wf -> I s ->
  (forall md, maintained (AW_ObjectMeta aw) md ->
     I (set_artifactWorkflows s (<[wfKey aw := storedAW aw md (Workflow_Phase wf)]>
          (artifactWorkflows s)))) ->
  keeps I (Reconcile (wfKey aw)) s
    (fun s' o => o = Ok (mkResult false) /\
       exists md, maintained (AW_ObjectMeta aw) md /\
         s' = set_artifactWorkflows s (<[wfKey aw := storedAW aw md (Workflow_Phase wf)]>
                (artifactWorkflows s))).
Proof.
  intros Hst Hd Hc Hp Hw HI Hend. apply keeps_phase; [done..|].
  destruct (Completed (awPhase aw)) eqn:Hcomp.
  { by rewrite (Completed_not_InProgress _ Hcomp) in Hp. }
  rewrite bool_decide_false by (by intros Hu; rewrite Hu in Hp). rewrite Hp.
  unfold checkArgoWorkflow. split; [done|]. intros s1 r [-> ->].
  change (namespacedName (Namespace (AW_ObjectMeta aw)) (Name (AW_ObjectMeta aw)))
    with (wfKey aw). rewrite Hw. simpl.
  apply keeps_awStatus; [done..|]. intros md Hmd. split; [by apply Hend|eauto].
Qed.

Lemma leads_follow s aw wf t :
  artifactWorkflows s !! wfKey aw = Some aw -> awDeleting aw = false -> awClaimed aw = true ->
  InProgress (awPhase aw) = true -> workflows s !! wfKey aw = Some wf ->
  leads (Reconcile (wfKey aw)) s t
    (fun s' _ o => o = Ok (mkResult false) /\
       exists md, maintained (AW_ObjectMeta aw) md /\
         s' = set_artifactWorkflows s (<[wfKey aw := storedAW aw md (Workflow_Phase wf)]>
                (artifactWorkflows s))).
Proof. intros. by apply (keeps_leads (fun _ => True)), keeps_follow. Qed.

(** Against any healthy API server, reconciling a live, claimed artifact
    workflow of unknown phase whose type and secrets exist succeeds, leaves an Argo
    workflow of its name behind (the hydrated one if there was none), and makes the
    phase Pending; nothing else changes. *)
Theorem aw_starts {S : Type} `{HealthyServer S} (s : S) aw artifactType srcSec dstSec :
  startable (view s) aw artifactType srcSec dstSec ->
  let result := run serve (Reconcile (wfKey aw)) s in
  result.2 = Ok (mkResult false) /\
  hasWorkflow (view s) (view result.1) aw artifactType srcSec dstSec /\
  (exists aw', artifactWorkflows (view result.1) !! wfKey aw = Some aw' /\
     awPhase aw' = WorkflowPending /\ AW_Spec aw' = AW_Spec aw) /\
  touches (wfKey aw) (view s) (view result.1).
Proof.
  intros Hst. destruct (leads_run _ s [] _ (leads_start _ _ _ _ _ [] Hst))
    as (Ho & Hhas & Ht & md & _ & Haw).
  split_and!; [done|done| |done]. eexists. split; [exact Haw|done].
Qed.

(** Reconciling a live, claimed artifact workflow in progress succeeds and gives
    it exactly the phase of its Argo workflow; nothing else in the cluster changes. *)
Theorem aw_follows {S : Type} `{HealthyServer S} (s : S) aw wf :
  artifactWorkflows (view s) !! wfKey aw = Some aw ->
  awDeleting aw = false -> awClaimed aw = true -> InProgress (awPhase aw) = true ->
  workflows (view s) !! wfKey aw = Some wf ->
  let result := run serve (Reconcile (wfKey aw)) s in
  result.2 = Ok (mkResult false) /\
  exists aw', awPhase aw' = Workflow_Phase wf /\ AW_Spec aw' = AW_Spec aw /\
    view result.1 = set_artifactWorkflows (view s) (<[wfKey aw := aw']>
                      (artifactWorkflows (view s))).
Proof.
  intros Hst Hd Hc Hp Hw.
  destruct (leads_run _ s [] _ (leads_follow _ _ _ [] Hst Hd Hc Hp Hw)) as (Ho & md & _ & Hv).
  split; [done|]. eexists. split_and!; [| |exact Hv]; done.
Qed.

(** Deleting the Argo workflow: afterwards it is gone or being deleted. *)
Lemma deletes_workflow s aw m r :
  deletes_in Workflow_ObjectMeta set_Workflow_ObjectMeta (wfKey aw) (workflows s) m r ->
  IgnoreNotFound r = None
  /\ (forall wf, m !! wfKey aw = Some wf ->
        Time_IsZero (DeletionTimestamp (Workflow_ObjectMeta wf)) = false)
  /\ forall k', k' <> wfKey aw -> m !! k' = workflows s !! k'.
Proof.
  intros Hdel. unfold deletes_in in Hdel. destruct (workflows s !! wfKey aw) as [old|] eqn:Ho.
  - destruct Hdel as [-> Hdel]. split; [done|]. case_bool_decide.
    + subst. split; [intros wf Hwf; by rewrite lookup_delete_eq in Hwf|].
      intros k' Hk'. by apply lookup_delete_ne.
    + destruct Hdel as (tm & md & Htm & Hmd & ->). split; [|by intros; apply lookup_insert_ne].
      intros wf Hwf. rewrite lookup_insert_eq in Hwf.
      simplify_eq. by apply (maintained_marked _ _ _ Htm Hmd).
  - destruct Hdel as (-> & e & -> & He). split_and!; [|by intros wf; rewrite Ho|done].
    simpl. unfold IsNotFound. by rewrite He, bool_decide_true.
Qed.

(** Removing the last finalizer removes the artifact workflow. *)
Lemma updates_released aws aw m r :
  aws !! wfKey aw = Some aw -> awDeleting aw = true ->
  updates AW_ObjectMeta set_AW_ObjectMeta (storedArtifactWorkflow prepareArtifactWorkflow)
    (set_AW_ObjectMeta aw (set_Finalizers (AW_ObjectMeta aw) [])) aws m r ->
  r = None /\ m = delete (wfKey aw) aws.
Proof.
  intros Hst Hd Hup. unfold updates in Hup. cbv zeta in Hup.
  change (meta_key (AW_ObjectMeta _)) with (wfKey aw) in Hup.
  rewrite Hst, bool_decide_true in Hup by done.
  destruct Hup as (-> & x & md & Hx & Hmd & ->). split; [done|].
  rewrite storedArtifactWorkflow_main in Hx. simplify_eq. simpl in Hmd.
  rewrite (released_maintained _ _ Hmd). unfold released. simpl.
  unfold awDeleting in Hd. by rewrite Hd.
Qed.

Lemma keeps_cleanup (I : Cluster -> Prop) s aw :
  artifactWorkflows s !! wfKey aw = Some aw -> awDeleting aw = true ->
  Finalizers (AW_ObjectMeta aw) = [artifactWorkflowFinalizer] -> I s ->
  (forall s', touches (wfKey aw) s s' ->
     artifactWorkflows s' !! wfKey aw = Some aw \/ artifactWorkflows s' !! wfKey aw = None ->
     (forall wf, workflows s' !! wfKey aw = Some wf ->
        Time_IsZero (DeletionTimestamp (Workflow_ObjectMeta wf)) = false) -> I s') ->
  keeps I (Reconcile (wfKey aw)) s
    (fun s' o => o = Ok (mkResult false) /\ artifactWorkflows s' !! wfKey aw = None /\
       (forall wf, workflows s' !! wfKey aw = Some wf ->
          Time_IsZero (DeletionTimestamp (Workflow_ObjectMeta wf)) = false) /\
       touches (wfKey aw) s s').
Proof.
  intros Hst Hd Hf HI Hmid. unfold Reconcile. split; [done|]. intros s1 r [-> ->]. rewrite Hst.
  simpl. assert (Hd' := Hd). unfold awDeleting in Hd'. rewrite Hd'.
  split; [done|]. intros s2 r2 (m & -> & (Hr & Hm & Hothers)%deletes_workflow).
  simpl. rewrite Hr. simpl. rewrite Hf. simpl.
  split; [by apply Hmid; [split|left|]|].
  intros s3 r3 (m' & -> & (-> & ->)%(updates_released _ aw)); [|done..]. simpl.
  assert (touches (wfKey aw) s (set_artifactWorkflows (set_workflows s m)
            (delete (wfKey aw) (artifactWorkflows s)))) as Ht.
  { split; try done. intros k' Hk'. by apply lookup_delete_ne. }
  split; [apply Hmid; [done| |done]; right|split_and!; try done]; apply lookup_delete_eq.
Qed.

(** The same with the requests that were made. *)
Lemma leads_cleanup s aw t :
  artifactWorkflows s !! wfKey aw = Some aw -> awDeleting aw = true ->
  Finalizers (AW_ObjectMeta aw) = [artifactWorkflowFinalizer] ->
  leads (Reconcile (wfKey aw)) s t
    (fun s' t' o => o = Ok (mkResult false) /\ artifactWorkflows s' !! wfKey aw = None /\
       (forall wf, workflows s' !! wfKey aw = Some wf ->
          Time_IsZero (DeletionTimestamp (Workflow_ObjectMeta wf)) = false) /\
       touches (wfKey aw) s s' /\
       writes t' = writes t ++
         [DeleteWorkflow (wfMeta aw); UpdateArtifactWorkflow (awWithoutFinalizer aw)]).
Proof.
  intros Hst Hd Hf. unfold Reconcile. intros s1 r [-> ->]. rewrite Hst.
  simpl. assert (Hd' := Hd). unfold awDeleting in Hd'. rewrite Hd'.
  intros s2 r2 (m & -> & (Hr & Hm & Hothers)%deletes_workflow).
  simpl. rewrite Hr. simpl. rewrite Hf. simpl.
  intros s3 r3 (m' & -> & (-> & ->)%(updates_released _ aw)); [|done..].
  simpl. split_and!; [done|by rewrite lookup_delete_eq|done| |].
  { split; try done. intros k' Hk'. by apply lookup_delete_ne. }
  rewrite writes_write, writes_write, writes_read by done.
  rewrite <- app_assoc. unfold awWithoutFinalizer. by rewrite Hf.
Qed.

(** C22: reconciling an artifact workflow that is being deleted and has no other
    finalizer succeeds, deletes its Argo workflow before the finalizer goes, and
    leaves no artifact workflow; an Argo workflow that is still there is being
    deleted, and nothing else changes. *)
Theorem aw_cleanup {S : Type} `{HealthyServer S} (s : S) aw :
  artifactWorkflows (view s) !! wfKey aw = Some aw -> awDeleting aw = true ->
  Finalizers (AW_ObjectMeta aw) = [artifactWorkflowFinalizer] ->
  let result := run serve (Reconcile (wfKey aw)) s in
  result.2 = Ok (mkResult false) /\
  artifactWorkflows (view result.1) !! wfKey aw = None /\
  (forall wf, workflows (view result.1) !! wfKey aw = Some wf ->
     Time_IsZero (DeletionTimestamp (Workflow_ObjectMeta wf)) = false) /\
  touches (wfKey aw) (view s) (view result.1) /\
  writes (run_trace serve (Reconcile (wfKey aw)) s) =
    [DeleteWorkflow (wfMeta aw); UpdateArtifactWorkflow (awWithoutFinalizer aw)].
Proof.
  intros Hst Hd Hf. exact (leads_run _ s [] _ (leads_cleanup _ _ [] Hst Hd Hf)).
Qed.

(** ** An Argo workflow without a phase *)

(** While Argo has not given the workflow a phase, reconciling alternates: a
    Pending artifact workflow goes back to the unknown phase, and reconciling it
    again makes it Pending, without end. *)
Theorem aw_phase_alternates {S : Type} `{HealthyServer S} (s : S) aw wf artifactType
  srcSec dstSec :
  artifactWorkflows (view s) !! wfKey aw = Some aw ->
  awDeleting aw = false -> awClaimed aw = true -> awPhase aw = WorkflowPending ->
  workflows (view s) !! wfKey aw = Some wf -> Workflow_Phase wf = "" ->
  artifactTypes (view s) !! typeKey aw = Some artifactType ->
  secretRefIn (view s) aw (AWSpec_SrcSecretRef (AW_Spec aw)) srcSec ->
  secretRefIn (view s) aw (AWSpec_DstSecretRef (AW_Spec aw)) dstSec ->
  let s1 := (run serve (Reconcile (wfKey aw)) s).1 in
  let s2 := (run serve (Reconcile (wfKey aw)) s1).1 in
  (exists aw1, artifactWorkflows (view s1) !! wfKey aw = Some aw1 /\
     awPhase aw1 = WorkflowUnknown) /\
  (exists aw2, artifactWorkflows (view s2) !! wfKey aw = Some aw2 /\
     awPhase aw2 = WorkflowPending) /\
  workflows (view s2) !! wfKey aw = Some wf.
Proof.
  intros Hst Hd Hc Hp Hw Hph Ht Hsrc Hdst s1 s2.
  assert (InProgress (awPhase aw) = true) as Hip by (by rewrite Hp).
  destruct (leads_run _ s [] _ (leads_follow _ _ _ [] Hst Hd Hc Hip Hw)) as (_ & md & Hmd & Hv).
  fold s1 in Hv. rewrite Hph in Hv. set (aw1 := storedAW aw md "") in *.
  assert (wfKey aw1 = wfKey aw) as Hk.
  { unfold wfKey. simpl. by destruct Hmd as (-> & -> & _). }
  assert (artifactWorkflows (view s1) !! wfKey aw = Some aw1) as Hst1
    by (rewrite Hv; apply lookup_insert_eq).
  assert (startable (view s1) aw1 artifactType srcSec dstSec) as Hstart.
  { split.
    - by rewrite Hk.
    - unfold awDeleting in *. simpl. by destruct Hmd as (_ & _ & _ & _ & _ & _ & ->).
    - unfold awClaimed in *. simpl. by destruct Hmd as (_ & _ & _ & _ & _ & -> & _).
    - done.
    - by rewrite Hv.
    - unfold secretRefIn, secretRefKey in *. rewrite Hv. simpl.
      destruct Hmd as (_ & -> & _). done.
    - unfold secretRefIn, secretRefKey in *. rewrite Hv. simpl.
      destruct Hmd as (_ & -> & _). done. }
  destruct (leads_run _ s1 [] _ (leads_start _ _ _ _ _ [] Hstart))
    as (_ & (wf2 & Hwf2 & Hm2) & _ & md2 & _ & Haw2).
  rewrite Hk in *. fold s2 in Hwf2, Haw2.
  assert (workflows (view s1) !! wfKey aw = Some wf) as Hw1 by (by rewrite Hv).
  rewrite Hw1 in Hm2. subst wf2. split_and!; [by exists aw1|by eexists|done].
Qed.

(** ** An Argo workflow of somebody else *)

(** An Argo workflow that already has the name of an artifact workflow is taken
    for its own, whoever owns it and even while it is being deleted: two
    reconciliations of an artifact workflow that was never started give it the phase
    of that Argo workflow, Succeeded included, and start nothing. *)
Theorem aw_adopts_any_workflow {S : Type} `{HealthyServer S} (s : S) aw wf artifactType
  srcSec dstSec :
  startable (view s) aw artifactType srcSec dstSec ->
  workflows (view s) !! wfKey aw = Some wf ->
  let s1 := (run serve (Reconcile (wfKey aw)) s).1 in
  let s2 := (run serve (Reconcile (wfKey aw)) s1).1 in
  exists aw2, artifactWorkflows (view s2) !! wfKey aw = Some aw2 /\
    awPhase aw2 = Workflow_Phase wf /\ workflows (view s2) !! wfKey aw = Some wf.
Proof.
  intros Hst Hw s1 s2.
  destruct (leads_run _ s [] _ (leads_start _ _ _ _ _ [] Hst))
    as (_ & (wf1 & Hwf1 & Hm1) & _ & md & Hmd & Haw1).
  rewrite Hw in Hm1. subst wf1. fold s1 in Hwf1, Haw1.
  set (aw1 := storedAW aw md WorkflowPending) in *.
  assert (wfKey aw1 = wfKey aw) as Hk.
  { unfold wfKey. simpl. by destruct Hmd as (-> & -> & _). }
  destruct Hst as [_ Hd Hc _ _ _ _].
  assert (awDeleting aw1 = false) as Hd1
    by (unfold awDeleting in *; simpl; by destruct Hmd as (_ & _ & _ & _ & _ & _ & ->)).
  assert (awClaimed aw1 = true) as Hc1
    by (unfold awClaimed in *; simpl; by destruct Hmd as (_ & _ & _ & _ & _ & -> & _)).
  rewrite <- Hk in Haw1, Hwf1.
  destruct (leads_run _ s1 [] _ (leads_follow _ _ _ [] Haw1 Hd1 Hc1 eq_refl Hwf1))
    as (_ & md2 & _ & Hv).
  rewrite Hk in Hv, Hwf1. fold s2 in Hv. rewrite Hv. eexists. split_and!.
  - apply lookup_insert_eq.
  - done.
  - done.
Qed.

End one.

(** ** Starting an Argo workflow, whatever is missing *)

Section create.
Context `{ControllerUtil}.

Lemma leads_fetchSecretRef_any s ns ref text t Q :
  (forall t' e, Q s t' (Err e)) -> (forall t' sec, Q s t' (Ok sec)) ->
  leads (fetchSecretRef ns ref text) s t Q.
Proof.
  intros HE HO. unfold fetchSecretRef. destruct (string_nonempty _); [|apply HO].
  intros s' r [-> ->]. destruct (secrets s !! _); simpl; [apply HO|apply HE].
Qed.

(** Creating an Argo workflow, whatever is missing: it fails before or after the Argo
    workflow exists, or the phase becomes Pending. *)
Lemma keeps_create_any (I : Cluster -> Prop) s aw (Q : Cluster -> outcome Result -> Prop) :
  artifactWorkflows s !! wfKey aw = Some aw -> awDeleting aw = false ->
  I s -> (forall o, Q s o) ->
  (forall m, is_Some (m !! wfKey aw) -> (forall k, k <> wfKey aw -> m !! k = workflows s !! k) ->
     (I (set_workflows s m) /\ forall o, Q (set_workflows s m) o)
     /\ forall md, maintained (AW_ObjectMeta aw) md ->
       let s' := set_artifactWorkflows (set_workflows s m)
         (<[wfKey aw := storedAW aw md WorkflowPending]> (artifactWorkflows s)) in
       I s' /\ forall o, Q s' o) ->
  keeps I (createArgoWorkflow aw) s Q.
Proof.
  intros Hst Hd HI Hsame HQ. unfold createArgoWorkflow. split; [done|]. intros s1 r1 [-> ->].
  destruct (artifactTypes s !! _); [|by split]. simpl.
  apply keeps_bind, (keeps_readonly _ _ _ []); [apply readonly_fetchSecretRef|done|].
  apply leads_fetchSecretRef_any; [done|]. intros _ src _.
  apply keeps_bind, (keeps_readonly _ _ _ []); [apply readonly_fetchSecretRef|done|].
  apply leads_fetchSecretRef_any; [done|]. intros _ dst _.
  destruct (SetControllerReference _ _ _) as [e|meta] eqn:Hset; [by split|].
  apply SetControllerReference_frame in Hset as (ref & -> & _); [|done]. simpl bind.
  split; [done|]. intros s2 r2 (m & -> & Hcr). unfold creates_in in Hcr. cbv zeta in Hcr.
  change (meta_key (Workflow_ObjectMeta _)) with (wfKey aw) in Hcr.
  assert (is_Some (m !! wfKey aw) /\ forall k, k <> wfKey aw -> m !! k = workflows s !! k)
    as [Hwf Hothers].
  { destruct (workflows s !! wfKey aw) as [old|] eqn:Hw.
    - destruct Hcr as (-> & _). rewrite Hw. eauto.
    - destruct Hcr as (_ & md & _ & ->). rewrite lookup_insert_eq. split; [by eexists|].
      intros k Hk. by apply lookup_insert_ne. }
  destruct (HQ m Hwf Hothers) as [[HI' Hfail] Hdone].
  destruct (IgnoreAlreadyExists r2); [by split|].
  apply keeps_awStatus; [done..|]. intros md Hmd. destruct (Hdone md Hmd). by split.
Qed.

End create.
