(* ===== verification/ArtifactWorkflowExamples.v ===== *)
(** * Concrete runs of the artifact workflow controller *)

From stdpp Require Import base gmap list strings relations.
From S2P Require Import Prelude GoStd KubeTypes V1alpha1Types Client Cluster Errors.
From S2P Require Import ControllerRuntime ArtifactWorkflowController.
From S2P Require Import ArtifactWorkflowFacts ArtifactWorkflowTheorems.
From S2P Require Import ArtifactWorkflowSystem.

Local Open Scope string_scope.
Local Open Scope list_scope.

#[local] Existing Instance plain_util.

(** ** The objects *)

Definition awMeta (deletion : option Time) : ObjectMeta :=
  mkObjectMeta "order-1" "" "ns" "uid-2" "3" 1%Z 5%Z deletion None ∅ ∅ []
    [artifactWorkflowFinalizer].

Definition exAW (deletion : option Time) (phase : WorkflowPhase) : ArtifactWorkflow :=
  mkArtifactWorkflow emptyTypeMeta (awMeta deletion)
    (mkArtifactWorkflowSpec "oci" [mkArtifactWorkflowParameter "srcType" "oci"]
       (mkLocalObjectReference "credentials") (mkLocalObjectReference ""))
    (mkArtifactWorkflowStatus phase "").

Definition exType : ArtifactType :=
  mkArtifactType emptyTypeMeta (newObjectMeta "" "oci")
    (mkArtifactTypeSpec (mkArtifactTypeRules ["oci"] ["s3"])
       [mkArtifactWorkflowParameter "srcType" "override"]
       (mkLocalObjectReference "oci-template")) mkArtifactTypeStatus.

Definition exSecret : Secret := mkSecret (newObjectMeta "ns" "credentials").

Definition awKey1 : NamespacedName := mkNamespacedName "ns" "order-1".

Definition exCluster (aws : gmap NamespacedName ArtifactWorkflow)
  (wfs : gmap NamespacedName Workflow) : Cluster :=
  mkCluster ∅ ∅ {[mkNamespacedName "ns" "credentials" := exSecret]}
    {[mkNamespacedName "" "oci" := exType]} aws wfs.

Definition exWorkflow (phase : string) : Workflow :=
  let wf := hydrateArgoWorkflow (exAW None "") exType exSecret emptySecret in
  mkWorkflow (Workflow_ObjectMeta wf) (Workflow_Spec wf) phase.

(** An artifact workflow that has just been claimed. *)
Definition cluster0 : Cluster := exCluster {[awKey1 := exAW None ""]} ∅.
(** One in progress whose Argo workflow has a phase. *)
Definition clusterRunning (phase : string) : Cluster :=
  exCluster {[awKey1 := exAW None WorkflowPending]} {[awKey1 := exWorkflow phase]}.
(** One that is being deleted. *)
Definition clusterDeleted : Cluster :=
  exCluster {[awKey1 := exAW (Some 9%Z) WorkflowRunning]} {[awKey1 := exWorkflow "Running"]}.

Definition trace0 : list event := run_trace memory_serve (Reconcile awKey1) cluster0.
Definition outcome0 : outcome Result := (run memory_serve (Reconcile awKey1) cluster0).2.

Lemma exec0 : exec (Reconcile awKey1) trace0 outcome0.
Proof. apply exec_run. Qed.

Lemma aw_reconcile_refines_witness : awReconciled awKey1 trace0 outcome0.
Proof. exact (aw_reconcile_refines awKey1 trace0 outcome0 exec0). Defined.

Lemma pending0_in :
  UpdateArtifactWorkflowStatus (exAW None WorkflowPending) ∈ writes trace0.
Proof. apply (list_elem_of_lookup_2 _ 1). vm_compute. reflexivity. Qed.

Lemma aw_status_justified_witness :
  UpdateArtifactWorkflowStatus (exAW None WorkflowPending) ∈ writes trace0 /\
  exists aw, awDeleting aw = false /\ awClaimed aw = true /\ Completed (awPhase aw) = false.
Proof.
  split; [exact pending0_in|].
  destruct (aw_status_justified awKey1 trace0 outcome0 _ exec0 pending0_in)
    as (aw & t1 & u & Hd & Hc & Hp & _). eauto.
Defined.

(** The workflow that is created: the parameter of the type comes second. *)
Definition created0 : Workflow :=
  match writes trace0 !! 0 with
  | Some (CreateWorkflow wf) => wf
  | _ => exWorkflow ""
  end.

Example created0_parameters :
  WorkflowSpec_Parameters (Workflow_Spec created0) =
  [mkWfParameter "srcType" (Some "oci"); mkWfParameter "srcType" (Some "override")].
Proof. reflexivity. Qed.

Lemma created0_in : CreateWorkflow created0 ∈ writes trace0.
Proof. apply (list_elem_of_lookup_2 _ 0). vm_compute. reflexivity. Qed.


Lemma startable0 : startable cluster0 (exAW None "") exType exSecret emptySecret.
Proof. split; reflexivity. Qed.

Lemma aw_starts_witness :
  (run memory_serve (Reconcile awKey1) cluster0).2 = Ok (mkResult false) /\
  exists aw', artifactWorkflows (run memory_serve (Reconcile awKey1) cluster0).1 !! awKey1 = Some aw'
    /\ awPhase aw' = WorkflowPending.
Proof.
  destruct (aw_starts (H0 := memory_server) cluster0 (exAW None "") exType exSecret emptySecret startable0)
    as (Ho & _ & (aw' & Haw & Hp & _) & _).
  split; [exact Ho|]. exists aw'. split; [exact Haw|exact Hp].
Defined.

Lemma aw_follows_witness :
  exists aw', awPhase aw' = WorkflowFailed /\
    (run memory_serve (Reconcile awKey1) (clusterRunning "Failed")).1 =
    set_artifactWorkflows (clusterRunning "Failed") (<[awKey1 := aw']>
      (artifactWorkflows (clusterRunning "Failed"))).
Proof.
  destruct (aw_follows (H0 := memory_server) (clusterRunning "Failed") (exAW None WorkflowPending)
    (exWorkflow "Failed") eq_refl eq_refl eq_refl eq_refl eq_refl)
    as (_ & aw' & Hp & _ & Hv).
  exists aw'. split; [exact Hp|exact Hv].
Defined.

Lemma aw_cleanup_witness :
  artifactWorkflows (run memory_serve (Reconcile awKey1) clusterDeleted).1 !! awKey1 = None /\
  writes (run_trace memory_serve (Reconcile awKey1) clusterDeleted) =
    [DeleteWorkflow (wfMeta (exAW (Some 9%Z) WorkflowRunning));
     UpdateArtifactWorkflow (awWithoutFinalizer (exAW (Some 9%Z) WorkflowRunning))].
Proof.
  destruct (aw_cleanup (H0 := memory_server) clusterDeleted (exAW (Some 9%Z) WorkflowRunning) eq_refl eq_refl eq_refl)
    as (_ & Hno & _ & _ & Hw).
  split; [exact Hno|exact Hw].
Defined.

Lemma aw_phase_alternates_witness :
  let s1 := (run memory_serve (Reconcile awKey1) (clusterRunning "")).1 in
  let s2 := (run memory_serve (Reconcile awKey1) s1).1 in
  (exists aw1, artifactWorkflows s1 !! awKey1 = Some aw1 /\ awPhase aw1 = WorkflowUnknown) /\
  (exists aw2, artifactWorkflows s2 !! awKey1 = Some aw2 /\ awPhase aw2 = WorkflowPending) /\
  workflows s2 !! awKey1 = Some (exWorkflow "").
Proof.
  exact (aw_phase_alternates (clusterRunning "") (exAW None WorkflowPending) (exWorkflow "")
    exType exSecret emptySecret eq_refl eq_refl eq_refl eq_refl eq_refl eq_refl eq_refl
    eq_refl eq_refl).
Defined.

(** An Argo workflow that somebody else owns and that is being deleted. *)
Definition foreignWorkflow : Workflow :=
  mkWorkflow
    (mkObjectMeta "order-1" "" "ns" "uid-9" "4" 1%Z 5%Z (Some 8%Z) None ∅ ∅
       [mkOwnerReference "arc.bwi.de/v1alpha1" "ArtifactWorkflow" "order-1" "uid-1" (Some true)
          (Some true)] ["argo/artifacts"])
    (mkWorkflowSpec None [] []) "Succeeded".

Definition clusterForeign : Cluster :=
  exCluster {[awKey1 := exAW None ""]} {[awKey1 := foreignWorkflow]}.

Lemma aw_adopts_any_workflow_witness :
  let s1 := (run memory_serve (Reconcile awKey1) clusterForeign).1 in
  let s2 := (run memory_serve (Reconcile awKey1) s1).1 in
  exists aw2, artifactWorkflows s2 !! awKey1 = Some aw2 /\ awPhase aw2 = WorkflowSucceeded.
Proof.
  destruct (aw_adopts_any_workflow (H0 := memory_server) clusterForeign (exAW None "")
              foreignWorkflow exType exSecret emptySecret) as (aw2 & Haw & Hp & _).
  - split; reflexivity.
  - reflexivity.
  - exists aw2. split; [exact Haw|exact Hp].
Defined.
