(* ===== verification/ErrorTracing.v ===== *)
(** * Where the errors of the reconcilers come from

    Every error that [Reconcile] of either controller returns is traced to the call
    that failed, or to the parameters of an artifact; and every error the API server
    answers is returned, but for the ones the code means to tolerate. *)

From stdpp Require Import base gmap list strings.
From S2P Require Import Prelude GoStd KubeTypes V1alpha1Types Client Errors.
From S2P Require Import ControllerRuntime WorkflowParameters OrderController.
From S2P Require Import OrderFetch OrderApply OrderFacts ArtifactWorkflowController.
From S2P Require Import ArtifactWorkflowFacts Cluster.
From S2P Require OrderExamples ArtifactWorkflowExamples.

Local Open Scope string_scope.
Local Open Scope list_scope.

(** ** Errors in traces *)

(** The error a call was answered with. *)
Definition reply_error (c : call) : reply c -> option error :=
  match c return reply c -> option error with
  | GetOrder _ | GetEndpoint _ | GetSecret _ | GetArtifactType _
  | GetArtifactWorkflow _ | GetWorkflow _ | ListOrders _ _ =>
      fun r => match r with inl e => Some e | inr _ => None end
  | _ => fun r => r
  end.

Definition ev_error (e : event) : option error := reply_error (projT1 e) (projT2 e).

(** What a reconciler does with errors: which ones it goes on after, and the text it
    adds to the others. *)
Record policy := mkPolicy {
  tolerates : call -> error -> bool;
  texts : call -> list string;
}.

(** The errors of a trace are all tolerated. *)
Definition quiet (p : policy) (t : list event) : Prop :=
  Forall (fun e => forall err, ev_error e = Some err -> tolerates p (ev_call e) err = true) t.

(** An error is the one that the last call of a trace was answered with, the first
    that is not tolerated, wrapped with the text of the call. *)
Definition traced (p : policy) (t : list event) (e : error) : Prop :=
  exists t0 c r err text, t = t0 ++ [ev c r] /\ quiet p t0
    /\ reply_error c r = Some err /\ tolerates p c err = false
    /\ text ∈ texts p c /\ e = WrapError text err.

(** How a run ends: an error is traced to a call or is one of the code itself, given
    by [own]; other runs only met errors that are tolerated. *)
Definition accounted {A : Type} (p : policy) (own : error -> Prop) (t : list event)
  (o : outcome A) : Prop :=
  match o with
  | Err e => traced p t e \/ (quiet p t /\ own e)
  | _ => quiet p t
  end.

(** The text of a wrapping has no verbs. *)
Definition plain (text : string) : Prop := text <> "" /\ has_verb text = false.

(** ** Programs that account for their errors *)

Section accounts.
Context (p : policy) (own : error -> Prop).

(** [accounts q R]: an error that is not tolerated ends [q] with that error wrapped,
    other failures are the code's own, and the result satisfies [R]. *)
Fixpoint accounts {A : Type} (q : prog A) (R : A -> Prop) : Prop :=
  match q with
  | Ret a => R a
  | Fail e => own e
  | Crash _ => True
  | Call c k => forall r,
      match reply_error c r with
      | Some err =>
          if tolerates p c err then accounts (k r) R
          else exists text, text ∈ texts p c /\ k r = Fail (WrapError text err)
      | None => accounts (k r) R
      end
  end.

Lemma quiet_cons c r t :
  (forall err, reply_error c r = Some err -> tolerates p c err = true) ->
  quiet p t -> quiet p (ev c r :: t).
Proof. intros Hr Ht. by constructor. Qed.

Lemma accounted_cons {A : Type} c r t (o : outcome A) :
  (forall err, reply_error c r = Some err -> tolerates p c err = true) ->
  accounted p own t o -> accounted p own (ev c r :: t) o.
Proof.
  intros Hr. pose proof (quiet_cons c r t Hr) as Hq.
  destruct o as [a|e|m]; simpl; [done| |done].
  intros [(t0 & c' & r' & err & text & -> & H0 & H)|[Ht He]]; [left|right; auto].
  exists (ev c r :: t0), c', r', err, text. split; [done|]. split; [by apply quiet_cons|done].
Qed.

Lemma accounts_exec {A : Type} (q : prog A) R t o :
  accounts q R -> exec q t o -> accounted p own t o.
Proof.
  revert t. induction q as [a|e|m|c k IH]; intros t Ha; simpl.
  1,3: intros [-> ->]; by constructor.
  - intros [-> ->]. right. split; [constructor|done].
  - intros (r & t' & -> & Hex). simpl in Ha. specialize (Ha r).
    destruct (reply_error c r) as [err|] eqn:Hr.
    2: { apply accounted_cons; [by rewrite Hr|]. by eapply IH. }
    destruct (tolerates p c err) eqn:Ht.
    { apply accounted_cons; [by intros err' Herr; rewrite Hr in Herr; simplify_eq|].
      by eapply IH. }
    destruct Ha as (text & Hin & Hk). rewrite Hk in Hex. destruct Hex as [-> ->].
    left. exists [], c, r, err, text. split_and!; try done. constructor.
Qed.

Lemma accounted_mono {A : Type} (own' : error -> Prop) t (o : outcome A) :
  (forall e, own' e -> own e) -> accounted p own' t o -> accounted p own t o.
Proof. intros Ho. destruct o as [a|e|m]; simpl; [done| |done]. intros [?|[? ?]]; auto. Qed.

Lemma accounts_bind {A B : Type} (q : prog A) (f : A -> prog B) R R' :
  accounts q R -> (forall a, R a -> accounts (f a) R') -> accounts (bind q f) R'.
Proof.
  intros Hq Hf. induction q as [a|e|m|c k IH]; simpl in *; auto.
  intros r. specialize (Hq r). destruct (reply_error c r) as [err|]; [|by apply IH].
  destruct (tolerates p c err); [by apply IH|].
  destruct Hq as (text & Hin & ->). by exists text.
Qed.

Lemma accounts_for_each {A St : Type} (l : list A) (body : A -> St -> prog St) st R :
  (forall x st, R st -> accounts (body x st) R) -> R st -> accounts (for_each l body st) R.
Proof.
  intros Hb. revert st. induction l as [|x l IH]; intros st Hst; simpl; [done|].
  eapply accounts_bind; eauto.
Qed.

(** An error that is wrapped with the text of its call. *)
Lemma accounts_wrapped {A : Type} c text err :
  text ∈ texts p c -> text <> "" -> has_verb text = false ->
  exists text', text' ∈ texts p c /\ @Fail A (wrapped err text) = Fail (WrapError text' err).
Proof. intros Hin Hne Hv. exists text. by rewrite wrapped_eq. Qed.

End accounts.

(** ** The policies *)

(** The artifact workflow controller. *)
Definition awPolicy : policy := {|
  tolerates c e :=
    match c with
    | GetArtifactWorkflow _ | DeleteWorkflow _ => IsNotFound e
    | CreateWorkflow _ => IsAlreadyExists e
    | _ => false
    end;
  texts c :=
    match c with
    | GetArtifactWorkflow _ => ["failed to get object"]
    | DeleteWorkflow _ => ["workflow deletion failed"]
    | UpdateArtifactWorkflow _ => ["failed to add finalizer"; "failed to remove finalizer"]
    | GetArtifactType _ => ["failed to retrieve artifact type"]
    | GetSecret _ => ["failed to fetch secret for source"; "failed to fetch secret for destination"]
    | CreateWorkflow _ => ["failed to create argo workflow"]
    | GetWorkflow _ => ["failed to get workflow"]
    | UpdateArtifactWorkflowStatus _ => ["failed to update status"]
    | _ => []
    end;
|}.

(** The order controller; the errors of deletions are ignored altogether when the
    order is being deleted. *)
Definition orderPolicy (deleting : bool) : policy := {|
  tolerates c e :=
    match c with
    | GetOrder _ => IsNotFound e
    | CreateArtifactWorkflow _ => IsAlreadyExists e
    | DeleteArtifactWorkflow _ => deleting || IsNotFound e
    | _ => false
    end;
  texts c :=
    match c with
    | GetOrder _ => ["failed to get object"]
    | GetEndpoint _ =>
        ["failed to fetch endpoint for source"; "failed to fetch endpoint for destination"]
    | GetSecret _ => ["failed to fetch secret for source"; "failed to fetch secret for destination"]
    | CreateArtifactWorkflow _ => ["failed to create artifact workflow"]
    | DeleteArtifactWorkflow _ => ["failed to delete artifact workflow"]
    | GetArtifactWorkflow _ => ["failed to get artifact workflow"]
    | UpdateOrder _ => ["failed to add finalizer"; "failed to remove finalizer"]
    | UpdateOrderStatus _ => ["failed to update order status"; "failed to update status"]
    | _ => []
    end;
|}.

(** The two cases of a call: with an error, which is wrapped, and without. *)
Ltac accounts_call :=
  let r := fresh "r" in
  intros r; cbn [reply_error bind do_call]; destruct r;
  cbn [must check bind IgnoreNotFound IgnoreAlreadyExists tolerates awPolicy orderPolicy];
  try solve [apply accounts_wrapped; [cbn [texts awPolicy orderPolicy]; set_solver|done|done]].

(** ** The reconcilers account for their errors *)

Definition anyResult {A : Type} (_ : A) : Prop := True.
Definition noError (_ : error) : Prop := False.

Section reconcilers.
Context `{GoRuntime} `{Float64} `{ControllerUtil}.

Lemma accounts_fetchSecretRef ns ref text :
  text ∈ ["failed to fetch secret for source"; "failed to fetch secret for destination"] ->
  accounts awPolicy noError (fetchSecretRef ns ref text) anyResult.
Proof.
  intros Hin. unfold fetchSecretRef. destruct (string_nonempty _); [|done].
  accounts_call; [|done].
  apply accounts_wrapped; [done|..]; apply list_elem_of_In in Hin;
    destruct Hin as [<-|[<-|[]]]; done.
Qed.

Lemma accounts_createArgoWorkflow aw : accounts awPolicy noError (createArgoWorkflow aw) anyResult.
Proof.
  unfold createArgoWorkflow. accounts_call.
  eapply accounts_bind; [apply accounts_fetchSecretRef; set_solver|]. intros src _.
  eapply accounts_bind; [apply accounts_fetchSecretRef; set_solver|]. intros dst _.
  destruct (SetControllerReference_fresh "ArtifactWorkflow" (AW_ObjectMeta aw)
              (newObjectMeta (Namespace (AW_ObjectMeta aw)) (Name (AW_ObjectMeta aw))))
    as [meta Hset]; [done..|].
  cbn [Workflow_ObjectMeta hydrateArgoWorkflow]. rewrite Hset. cbn [must bind].
  accounts_call.
  - destruct (IsAlreadyExists _); cbn [check bind]; [by accounts_call|].
    apply accounts_wrapped; [cbn [texts awPolicy]; set_solver|done|done].
  - by accounts_call.
Qed.

Lemma accounts_aw req :
  accounts awPolicy noError (ArtifactWorkflowController.Reconcile req) anyResult.
Proof.
  unfold ArtifactWorkflowController.Reconcile. accounts_call.
  { destruct (IsNotFound _); [done|].
    apply accounts_wrapped; [cbn [texts awPolicy]; set_solver|done|done]. }
  destruct (negb (Time_IsZero _)).
  { unfold ArtifactWorkflowController.reconcileDelete. accounts_call.
    all: try destruct (IsNotFound _); cbn [check bind];
      try destruct (slices_Contains _ _); try done.
    all: try solve [apply accounts_wrapped; [cbn [texts awPolicy]; set_solver|done|done]].
    all: by accounts_call. }
  destruct (negb (slices_Contains _ _)); [by accounts_call|]. cbv zeta.
  destruct (Completed _); [done|]. case_bool_decide; [apply accounts_createArgoWorkflow|].
  destruct (InProgress _); [|done]. unfold checkArgoWorkflow. accounts_call. by accounts_call.
Qed.
(** An error of the order controller's own: the spec of an artifact does not decode. *)
Definition undecodable (order : Order) (e : error) : Prop :=
  exists daw err, artifact daw ∈ OrderSpec_Artifacts (Order_Spec order)
    /\ hydrateArtifactWorkflow daw = Err err
    /\ e = WrapError "failed to hydrate artifact workflow" err.

(** The desired state is made of the artifacts of the order. *)
Definition fromOrder (order : Order) (daws : gmap string desiredAW) : Prop :=
  forall sha daw, daws !! sha = Some daw ->
    objectMeta daw = awObjectMeta order sha
    /\ artifact daw ∈ OrderSpec_Artifacts (Order_Spec order).

Section order.
Context (order : Order).

Lemma accounts_fetchSecret ns ep text :
  text ∈ ["failed to fetch secret for source"; "failed to fetch secret for destination"] ->
  accounts (orderPolicy false) (undecodable order) (fetchSecret ns ep text) anyResult.
Proof.
  intros Hin. unfold fetchSecret. destruct (string_nonempty _); [|done].
  accounts_call; [|done].
  apply accounts_wrapped; [done|..]; apply list_elem_of_In in Hin;
    destruct Hin as [<-|[<-|[]]]; done.
Qed.

Lemma accounts_desiredState :
  accounts (orderPolicy false) (undecodable order) (desiredState order) (fromOrder order).
Proof.
  unfold desiredState.
  enough (forall ias daws, (forall ia, ia ∈ ias -> ia.2 ∈ OrderSpec_Artifacts (Order_Spec order)) ->
            fromOrder order daws ->
            accounts (orderPolicy false) (undecodable order)
              (for_each ias (fetchArtifact order) daws) (fromOrder order)) as Hgo.
  { apply Hgo; [|done]. intros [i a] (j & x & [= -> ->] & Hl)%elem_of_lookup_imap. simpl.
    by eapply list_elem_of_lookup_2. }
  induction ias as [|[i a] ias IH]; intros daws Hin Hd; [done|]. cbn [for_each].
  apply accounts_bind with (R := fromOrder order).
  2: { intros daws' Hd'. apply IH; [|done]. intros ia Hia. apply Hin. by right. }
  unfold fetchArtifact. accounts_call. accounts_call.
  eapply accounts_bind; [apply accounts_fetchSecret; set_solver|]. intros src _.
  eapply accounts_bind; [apply accounts_fetchSecret; set_solver|]. intros dst _.
  intros sha daw. rewrite lookup_insert_Some. intros [[<- <-]|[_ Hl]]; [|by apply Hd].
  split; [done|]. apply (Hin (i, a)). by left.
Qed.

Lemma accounts_createOne daws sha aws :
  fromOrder order daws ->
  accounts (orderPolicy false) (undecodable order) (createOne order daws sha aws) anyResult.
Proof.
  intros Hd. unfold createOne. destruct (daws !! sha) as [daw|] eqn:Hl; [|done].
  destruct (Hd sha daw Hl) as [Hmeta Hin].
  destruct (hydrateArtifactWorkflow daw) as [aw|e|] eqn:Hh; [| |done].
  2: { exists daw, e. split_and!; [done|done|]. by rewrite wrapped_eq. }
  assert (AW_ObjectMeta aw = awObjectMeta order sha) as Haw.
  { rewrite <- Hmeta. unfold hydrateArtifactWorkflow in Hh.
    destruct (dawToParameters daw); simplify_eq/=. done. }
  destruct (SetControllerReference_fresh "Order" (Order_ObjectMeta order) (AW_ObjectMeta aw))
    as [meta Hset]; [by rewrite Haw|by rewrite Haw|].
  rewrite Hset. cbn [must bind]. accounts_call; [|done].
  destruct (IsAlreadyExists _); [done|].
  apply accounts_wrapped; [cbn [texts orderPolicy]; set_solver|done|done].
Qed.

Lemma accounts_applyDesired daws :
  fromOrder order daws ->
  accounts (orderPolicy false) (undecodable order) (applyDesired order daws) anyResult.
Proof.
  intros Hd. unfold applyDesired.
  eapply accounts_bind;
    [apply accounts_for_each; [intros sha aws _; by apply accounts_createOne|done]|].
  intros aws _. eapply accounts_bind; [apply accounts_for_each with (R := anyResult); [|done]|].
  { intros sha aws' _. unfold deleteOne. accounts_call; [|done].
    cbn [orb]. destruct (IsNotFound _); [done|].
    apply accounts_wrapped; [cbn [texts orderPolicy]; set_solver|done|done]. }
  intros aws' _. eapply accounts_bind; [apply accounts_for_each with (R := anyResult); [|done]|].
  { intros [sha daw] [aws'' b] _. unfold syncOne. destruct (slices_Contains _ _); [done|].
    accounts_call. by case_bool_decide. }
  intros [aws'' b] _. destruct (_ || b); [|done]. by accounts_call.
Qed.

Lemma accounts_orderDelete :
  accounts (orderPolicy true) (undecodable order) (OrderController.reconcileDelete order) anyResult.
Proof.
  unfold OrderController.reconcileDelete. destruct (0 <? _)%nat.
  - eapply accounts_bind; [apply accounts_for_each with (R := anyResult); [|done]|].
    { intros sha aws _. by accounts_call. }
    intros aws _. by accounts_call.
  - destruct (slices_Contains _ _); [|done]. by accounts_call.
Qed.

End order.

(** The artifact workflow controller does not panic. *)
Lemma aw_never_panics req t m : ~ exec (ArtifactWorkflowController.Reconcile req) t (Panic m).
Proof.
  intros Hr%Reconcile_awReconciled. inversion Hr as [| |aw t' o Hc]; subst.
  inversion Hc; subst; unfold awClosing in *;
    match goal with He : context [match ?u with _ => _ end] |- _ => by destruct u | _ => done end.
Qed.

(** ** Theorems *)

(** C13: every error that a reconciliation of an order returns is the first answer of
    the API server that is not tolerated, wrapped with the text of its call, or says
    that the spec of one of the order's artifacts does not decode; nothing is called
    after that.  In every other run all errors that were answered are tolerated: not
    found for the order itself, already exists for a creation, not found for a
    deletion, and any error of a deletion when the order is being deleted. *)
Theorem order_errors_traced req t o :
  exec (OrderController.Reconcile req) t o ->
  let read := head t ≫= orderRead in
  accounted (orderPolicy (from_option deleting false read))
    (fun e => exists order, read = Some order /\ undecodable order e) t o.
Proof.
  intros (r & t' & -> & Hex). destruct r as [e|order]; simpl in *.
  - destruct (IsNotFound e) eqn:He; destruct Hex as [-> ->].
    + constructor; [|constructor]. by intros err [= <-].
    + left. exists [], (GetOrder req), (inl e), e, "failed to get object".
      split_and!; [done|constructor|done|done|set_solver|by rewrite wrapped_eq].
  - apply accounted_cons; [done|].
    apply (accounted_mono _ _ (undecodable order)); [by eauto|]. fold (deleting order) in Hex.
    destruct (deleting order) eqn:Hd.
    { eapply accounts_exec; [apply accounts_orderDelete|exact Hex]. }
    apply (fun Ha => accounts_exec _ (undecodable order) _ anyResult _ _ Ha Hex).
    destruct (negb (slices_Contains _ _)); [by accounts_call|].
    eapply accounts_bind; [apply accounts_desiredState|]. intros daws Hdaws.
    by apply accounts_applyDesired.
Qed.

(** C20: every error that a reconciliation of an artifact workflow returns is the first
    answer of the API server that is not tolerated, wrapped with the text of its call;
    nothing is called after that.  In every other run all errors that were answered
    are tolerated: not found for the artifact workflow itself and for the deletion of
    the Argo workflow, already exists for its creation. *)
Theorem aw_errors_traced req t o :
  exec (ArtifactWorkflowController.Reconcile req) t o ->
  match o with
  | Err e => traced awPolicy t e
  | Panic _ => False
  | Ok _ => quiet awPolicy t
  end.
Proof.
  intros Hex. pose proof (accounts_exec _ _ _ _ _ _ (accounts_aw req) Hex) as Ha.
  destruct o as [x|e|m]; simpl in Ha; [done| |].
  - by destruct Ha as [?|[_ []]].
  - by apply aw_never_panics in Hex.
Qed.
End reconcilers.

(** ** Witnesses *)

#[local] Existing Instance plain_runtime.
#[local] Existing Instance plain_float64.
#[local] Existing Instance plain_util.

(** An order whose endpoints do not exist. *)
Definition clusterBare : Cluster :=
  mkCluster (orders OrderExamples.cluster1) ∅ ∅ ∅ ∅ ∅.

Definition traceBare : list event :=
  run_trace memory_serve (OrderController.Reconcile OrderExamples.req1) clusterBare.

Lemma order_errors_traced_witness :
  let e := WrapError "failed to fetch endpoint for source" NotFoundError in
  exec (OrderController.Reconcile OrderExamples.req1) traceBare (Err e) /\
  accounted (A := Result) (orderPolicy false)
    (fun e => exists order, Some OrderExamples.order1 = Some order /\ undecodable order e)
    traceBare (Err e).
Proof.
  assert (exec (OrderController.Reconcile OrderExamples.req1) traceBare
            (Err (WrapError "failed to fetch endpoint for source" NotFoundError))) as Hex.
  { exact (exec_run memory_serve (OrderController.Reconcile OrderExamples.req1) clusterBare). }
  split; [exact Hex|exact (order_errors_traced _ _ _ Hex)].
Defined.

(** An artifact workflow whose type does not exist. *)
Definition clusterUntyped : Cluster :=
  set_artifactWorkflows (mkCluster ∅ ∅ ∅ ∅ ∅ ∅)
    {[ArtifactWorkflowExamples.awKey1 := ArtifactWorkflowExamples.exAW None ""]}.

Definition traceUntyped : list event :=
  run_trace memory_serve (ArtifactWorkflowController.Reconcile ArtifactWorkflowExamples.awKey1)
    clusterUntyped.

Lemma aw_errors_traced_witness :
  let e := WrapError "failed to retrieve artifact type" NotFoundError in
  exec (ArtifactWorkflowController.Reconcile ArtifactWorkflowExamples.awKey1) traceUntyped (Err e)
  /\ traced awPolicy traceUntyped e.
Proof.
  assert (exec (ArtifactWorkflowController.Reconcile ArtifactWorkflowExamples.awKey1) traceUntyped
            (Err (WrapError "failed to retrieve artifact type" NotFoundError))) as Hex.
  { exact (exec_run memory_serve
             (ArtifactWorkflowController.Reconcile ArtifactWorkflowExamples.awKey1) clusterUntyped). }
  split; [exact Hex|exact (aw_errors_traced _ _ _ Hex)].
Defined.
