(* ===== verification/Completion.v ===== *)
(** * Orders complete

    The two controllers, Argo and everybody else together: from the moment a claimed
    order and its inputs are there, in every execution in which the order and its
    artifact workflows keep being reconciled, in any order and any number of times,
    and Argo completes what it was given, the order ends up reporting the phase in
    which Argo finished each of its artifacts.  In between the manager may be stopped
    as often as it likes, between any two calls of a reconciliation, and what it has
    left half done is taken up.

    A reconciliation, or the part of it before it is cut off, is one step here
    (Interleaving has the interleaved calls), the API server is healthy, and nobody
    edits or deletes what belongs to the order.
    The proof follows a measure for each artifact, [stage], that no step decreases
    and that the step the artifact waits for increases. *)

From stdpp Require Import base gmap list strings.
From S2P Require Import Prelude GoStd JsonEncode JsonDecode KubeTypes V1alpha1Types Client.
From S2P Require Import Cluster Errors ControllerRuntime WorkflowParameters OrderController.
From S2P Require Import OrderFetch OrderApply OrderFacts OrderConverge OrderExamples.
From S2P Require Import ArtifactWorkflowController ArtifactWorkflowFacts ArtifactWorkflowSystem.
From S2P Require ArtifactWorkflowExamples.

Local Open Scope string_scope.
Local Open Scope list_scope.

(** ** What single reconciliations of an artifact workflow do *)

Section single.
Context `{ControllerUtil}.
Context (I : Cluster -> Prop).

Lemma keeps_absent s k :
  artifactWorkflows s !! k = None -> I s ->
  keeps I (ArtifactWorkflowController.Reconcile k) s (fun s' _ => s' = s).
Proof. intros Hk HI. split; [done|]. intros s' r [-> ->]. by rewrite Hk. Qed.

Lemma keeps_idle s aw :
  artifactWorkflows s !! wfKey aw = Some aw -> awDeleting aw = false -> awClaimed aw = true ->
  Completed (awPhase aw) = true -> I s ->
  keeps I (ArtifactWorkflowController.Reconcile (wfKey aw)) s (fun s' _ => s' = s).
Proof. intros Hst Hd Hc Hp HI. apply keeps_phase; [done..|]. by rewrite Hp. Qed.

(** The artifact workflow as it is stored when it is claimed. *)
Definition claimedAW (aw : ArtifactWorkflow) (md : ObjectMeta) : ArtifactWorkflow :=
  mkArtifactWorkflow emptyTypeMeta md (AW_Spec aw) (AW_Status aw).

Lemma keeps_claim s aw :
  artifactWorkflows s !! wfKey aw = Some aw -> awDeleting aw = false -> awClaimed aw = false ->
  I s ->
  (forall md, maintained (AW_ObjectMeta (awWithFinalizer aw)) md ->
     I (set_artifactWorkflows s (<[wfKey aw := claimedAW aw md]> (artifactWorkflows s)))) ->
  keeps I (ArtifactWorkflowController.Reconcile (wfKey aw)) s
    (fun s' _ => exists md, maintained (AW_ObjectMeta (awWithFinalizer aw)) md /\
       s' = set_artifactWorkflows s (<[wfKey aw := claimedAW aw md]> (artifactWorkflows s))).
Proof.
  intros Hst Hd Hc HI Hend. unfold ArtifactWorkflowController.Reconcile.
  split; [done|]. intros s1 r [-> ->].
  rewrite Hst. simpl. unfold awDeleting in Hd. unfold awClaimed in Hc. rewrite Hd, Hc. simpl.
  split; [done|]. intros s2 r2 (m & -> & Hup). unfold updates in Hup. cbv zeta in Hup.
  change (meta_key (AW_ObjectMeta _)) with (wfKey aw) in Hup. simpl in Hup.
  rewrite Hst, bool_decide_true in Hup by done.
  destruct Hup as (-> & x & md & Hx & Hmd & ->).
  rewrite storedArtifactWorkflow_main in Hx. simplify_eq. simpl in Hmd |- *.
  rewrite (released_maintained _ _ Hmd), released_live by (by apply negb_false_iff).
  split; [by apply Hend|]. by exists md.
Qed.

End single.

(** ** The system *)

Section completion.
Context `{GoRuntime} `{Float64} `{ControllerUtil}.
Context (order0 : Order) (l : list (nat * OrderArtifact * inputs)).

Definition desired : gmap string desiredAW := desiredFrom order0 l.
Definition orderKey : NamespacedName := meta_key (Order_ObjectMeta order0).

(** The name shared by the artifact workflow and the Argo workflow of a hash. *)
Definition keyOf (sha : string) : NamespacedName := awKey order0 sha.

(** What a step does: a reconciliation, one that is cut off because the manager
    stops, or anything else. *)
Inductive label :=
| OrderReconciled
| AWReconciled (sha : string)
| OrderCutOff
| AWCutOff (sha : string)
| Elsewhere.

(** The phases Argo gives a workflow, and those that are final. *)
Definition argoFinal (p : string) : Prop := p = "Succeeded" \/ p = "Failed" \/ p = "Error".
Definition argoPhase (p : string) : Prop :=
  p = "" \/ p = "Pending" \/ p = "Running" \/ argoFinal p.

(** Argo's progress on a workflow: it has a phase of Argo's, and keeps the one in
    which it completed. *)
Definition progresses (w w' : option Workflow) : Prop :=
  match w, w' with
  | None, None => True
  | Some wf, Some wf' =>
      Workflow_Spec wf' = Workflow_Spec wf /\ argoPhase (Workflow_Phase wf') /\
      (argoFinal (Workflow_Phase wf) -> Workflow_Phase wf' = Workflow_Phase wf)
  | _, _ => False
  end.

(** Everything else leaves the order, its artifact workflows and what exists of
    endpoints, secrets and types alone; Argo makes progress. *)
Record undisturbed (s s' : Cluster) : Prop := {
  und_order : orders s' !! orderKey = orders s !! orderKey;
  und_endpoints : endpoints s ⊆ endpoints s';
  und_secrets : secrets s ⊆ secrets s';
  und_types : artifactTypes s ⊆ artifactTypes s';
  und_aws : forall sha, is_Some (desired !! sha) ->
    artifactWorkflows s' !! keyOf sha = artifactWorkflows s !! keyOf sha;
  und_workflows : forall sha, is_Some (desired !! sha) ->
    progresses (workflows s !! keyOf sha) (workflows s' !! keyOf sha);
}.

Definition calm (s : Cluster) (lb : label) (s' : Cluster) : Prop :=
  match lb with
  | OrderReconciled => exists o, steps (OrderController.Reconcile orderKey) s s' o
  | AWReconciled sha => exists o, steps (ArtifactWorkflowController.Reconcile (keyOf sha)) s s' o
  | OrderCutOff => partial (OrderController.Reconcile orderKey) s s'
  | AWCutOff sha => partial (ArtifactWorkflowController.Reconcile (keyOf sha)) s s'
  | Elsewhere => undisturbed s s'
  end.

(** The start: the order can be reconciled, nothing exists for its artifacts yet, and
    their types do. *)
Record begins (s : Cluster) : Prop := {
  begins_ready : ready s order0 l;
  begins_untracked : forall sha, is_Some (desired !! sha) -> tracked order0 !! sha = None;
  begins_types : forall sha daw, desired !! sha = Some daw ->
    is_Some (artifactTypes s !! namespacedName "" (Artifact_Type (artifact daw)));
  begins_workflows : forall sha, is_Some (desired !! sha) -> workflows s !! keyOf sha = None;
}.

(** The order reports the completion of an artifact: its Argo workflow runs what the
    artifact asks for and has completed, and artifact workflow and status have its
    phase. *)
Definition reported (s0 s : Cluster) (sha : string) (daw : desiredAW) : Prop :=
  exists order st aw wf aw0 artifactType,
    orders s !! orderKey = Some order /\ dom (tracked order) = dom desired
    /\ tracked order !! sha = Some st
    /\ artifactWorkflows s !! keyOf sha = Some aw /\ workflows s !! keyOf sha = Some wf
    /\ argoFinal (Workflow_Phase wf)
    /\ awPhase aw = Workflow_Phase wf /\ OAWS_Phase st = Workflow_Phase wf
    /\ hydrateArtifactWorkflow daw = Ok aw0 /\ AW_Spec aw = AW_Spec aw0
    /\ artifactTypes s0 !! namespacedName "" (Artifact_Type (artifact daw)) = Some artifactType
    /\ Workflow_Spec wf =
       Workflow_Spec (hydrateArgoWorkflow aw0 artifactType (srcSecret daw) (dstSecret daw)).

(** The controller takes the phases for what they are. *)
Lemma argoFinal_Completed p : argoFinal p <-> Completed p = true.
Proof.
  unfold argoFinal, Completed. rewrite !orb_true_iff, !bool_decide_eq_true. tauto.
Qed.

Lemma argoPhase_cases p :
  argoPhase p <-> p = "" \/ InProgress p = true \/ Completed p = true.
Proof.
  unfold argoPhase. rewrite argoFinal_Completed. unfold InProgress.
  rewrite orb_true_iff, !bool_decide_eq_true. tauto.
Qed.

(** ** The measure *)

Definition awStage (aw : ArtifactWorkflow) (w : option Workflow) : nat :=
  if negb (awClaimed aw) then 1
  else match w with
       | None => 2
       | Some wf =>
           if negb (Completed (Workflow_Phase wf)) then 3
           else if Completed (awPhase aw) then 6
           else if InProgress (awPhase aw) then 5 else 4
       end.

(** Does the status of the order have the phase? *)
Definition reports (s : Cluster) (sha : string) (p : WorkflowPhase) : Prop :=
  exists order st, orders s !! orderKey = Some order /\ dom (tracked order) = dom desired
    /\ tracked order !! sha = Some st /\ OAWS_Phase st = p.

(** ** What holds of an artifact on its way *)

Context (s0 : Cluster).

(** The Argo workflow runs what the artifact asks for. *)
Definition runs (daw : desiredAW) (aw : ArtifactWorkflow) (wf : Workflow) : Prop :=
  exists artifactType,
    artifactTypes s0 !! namespacedName "" (Artifact_Type (artifact daw)) = Some artifactType
    /\ Workflow_Spec wf =
       Workflow_Spec (hydrateArgoWorkflow aw artifactType (srcSecret daw) (dstSecret daw)).

Definition awOk (sha : string) (daw : desiredAW) (aw : ArtifactWorkflow) (w : option Workflow) :
  Prop :=
  wfKey aw = keyOf sha /\ awDeleting aw = false
  /\ (exists aw0, hydrateArtifactWorkflow daw = Ok aw0 /\ AW_Spec aw = AW_Spec aw0)
  /\ match w with
     | None => awPhase aw = WorkflowUnknown
     | Some wf =>
         awClaimed aw = true /\ argoPhase (Workflow_Phase wf) /\ runs daw aw wf
         /\ (awPhase aw = WorkflowUnknown \/ InProgress (awPhase aw) = true
             \/ Completed (awPhase aw) = true /\ awPhase aw = Workflow_Phase wf)
     end.

Definition chainOk (s : Cluster) (sha : string) (daw : desiredAW) : Prop :=
  match artifactWorkflows s !! keyOf sha with
  | None => workflows s !! keyOf sha = None
  | Some aw => awOk sha daw aw (workflows s !! keyOf sha)
  end.

(** The inputs of an artifact are where the artifact workflow controller looks. *)
Record supplied (s : Cluster) (daw : desiredAW) : Prop := {
  sup_types : artifactTypes s0 ⊆ artifactTypes s;
  sup_src : secretIn s order0 (srcEndpoint daw) (srcSecret daw);
  sup_dst : secretIn s order0 (dstEndpoint daw) (dstSecret daw);
  sup_type : is_Some (artifactTypes s0 !! namespacedName "" (Artifact_Type (artifact daw)));
}.

Lemma hydrate_spec daw aw :
  hydrateArtifactWorkflow daw = Ok aw ->
  AWSpec_Type (AW_Spec aw) = Artifact_Type (artifact daw)
  /\ AWSpec_SrcSecretRef (AW_Spec aw) = EPSpec_SecretRef (EP_Spec (srcEndpoint daw))
  /\ AWSpec_DstSecretRef (AW_Spec aw) = EPSpec_SecretRef (EP_Spec (dstEndpoint daw)).
Proof.
  unfold hydrateArtifactWorkflow. intros Hh. destruct (dawToParameters daw); simplify_eq/=. done.
Qed.

Lemma supplied_secretRef s sha aw ep sec :
  wfKey aw = keyOf sha -> secretIn s order0 ep sec ->
  secretRefIn s aw (EPSpec_SecretRef (EP_Spec ep)) sec.
Proof.
  intros Hk. unfold secretIn, secretRefIn, hasSecret, secretKey, secretRefKey.
  by injection Hk as -> _.
Qed.

Lemma awOk_startable s sha daw aw w :
  artifactWorkflows s !! keyOf sha = Some aw -> awOk sha daw aw w -> supplied s daw ->
  awClaimed aw = true -> awPhase aw = WorkflowUnknown ->
  exists artifactType,
    artifactTypes s0 !! namespacedName "" (Artifact_Type (artifact daw)) = Some artifactType
    /\ startable s aw artifactType (srcSecret daw) (dstSecret daw).
Proof.
  intros Hst (Hk & Hd & (aw0 & Hh & Hsp) & _) [Ht Hsrc Hdst [ty Hty]] Hc Hp.
  destruct (hydrate_spec _ _ Hh) as (Htype & Hs & Hds).
  exists ty. split; [done|]. split; [by rewrite Hk|done|done|done| | |].
  - unfold typeKey. rewrite Hsp, Htype. by eapply lookup_weaken.
  - rewrite Hsp, Hs. by eapply supplied_secretRef.
  - rewrite Hsp, Hds. by eapply supplied_secretRef.
Qed.

(** An update of phase and metadata keeps it on its way. *)
Lemma awOk_stored sha daw aw w md p wf :
  awOk sha daw aw w -> maintained (AW_ObjectMeta aw) md -> awClaimed aw = true ->
  argoPhase (Workflow_Phase wf) -> runs daw aw wf ->
  p = WorkflowUnknown \/ InProgress p = true \/ Completed p = true /\ p = Workflow_Phase wf ->
  awOk sha daw (storedAW aw md p) (Some wf).
Proof.
  intros (Hk & Hd & Hsp & _) (Hn & Hns & _ & _ & _ & Hf & Hdt) Hc Ha Hr Hp.
  unfold awOk, awClaimed, awDeleting, awPhase, wfKey in *. simpl in *.
  by rewrite Hn, Hns, Hf, Hdt.
Qed.

(** ** A reconciliation of an artifact workflow *)

(** The stage that a reconciliation gets to: some stages wait for something else. *)
Definition due (n : nat) : Prop := n = 1 \/ n = 2 \/ n = 4 \/ n = 5.

Definition nextStage (n : nat) : nat :=
  match n with 1 | 2 | 4 | 5 => S n | _ => n end.

Lemma nextStage_due n : due n -> nextStage n = S n.
Proof. unfold due. intros [->|[->|[->| ->]]]; done. Qed.

(** What a reconciliation does to an artifact on its way: nothing else is touched, the
    stage is [k] at least, and at the end nothing changes. *)
Definition gets (k : nat) (s : Cluster) (sha : string) (daw : desiredAW)
  (aw : ArtifactWorkflow) (s' : Cluster) : Prop :=
  touches (keyOf sha) s s' /\ (awStage aw (workflows s !! keyOf sha) = 6 -> s' = s) /\
  exists aw', artifactWorkflows s' !! keyOf sha = Some aw'
    /\ awOk sha daw aw' (workflows s' !! keyOf sha)
    /\ k <= awStage aw' (workflows s' !! keyOf sha).

(** At every point, and at its end. *)
Definition moves s sha daw aw := gets (awStage aw (workflows s !! keyOf sha)) s sha daw aw.
Definition advances s sha daw aw :=
  gets (nextStage (awStage aw (workflows s !! keyOf sha))) s sha daw aw.

Lemma nextStage_le n : n <= nextStage n.
Proof. unfold nextStage. repeat case_match; lia. Qed.

Lemma advances_moves s sha daw aw s' : advances s sha daw aw s' -> moves s sha daw aw s'.
Proof.
  intros (Ht & He & aw' & Haw' & Hok & Hle). split; [done|]. split; [done|].
  exists aw'. split_and!; [done|done|]. etrans; [apply nextStage_le|exact Hle].
Qed.

Lemma moves_refl s sha daw aw :
  artifactWorkflows s !! keyOf sha = Some aw -> awOk sha daw aw (workflows s !! keyOf sha) ->
  moves s sha daw aw s.
Proof. intros Hst Hok. split; [done|]. split; [done|]. eauto. Qed.

Lemma claim_advances s sha daw aw md :
  artifactWorkflows s !! keyOf sha = Some aw -> awOk sha daw aw (workflows s !! keyOf sha) ->
  awClaimed aw = false -> maintained (AW_ObjectMeta (awWithFinalizer aw)) md ->
  advances s sha daw aw
    (set_artifactWorkflows s (<[wfKey aw := claimedAW aw md]> (artifactWorkflows s))).
Proof.
  intros Hst Hok Hc (Hn & Hns & _ & _ & _ & Hf & Hdt).
  destruct Hok as (Hk & Hd & Hsp & Hw).
  destruct (workflows s !! keyOf sha) as [wf|] eqn:Hwf; [by destruct Hw as [? _]; congruence|].
  rewrite <- Hk in *.
  assert (awClaimed (claimedAW aw md) = true) as Hc'.
  { apply slices_Contains_true. simpl. rewrite Hf. simpl. set_solver. }
  unfold advances, gets. rewrite <- Hk, Hwf.
  assert (awStage aw None = 1) as -> by (unfold awStage; by rewrite Hc).
  split; [apply touches_aw|]. split; [done|].
  exists (claimedAW aw md). simpl. rewrite lookup_insert_eq, Hwf. split; [done|].
  unfold awStage. rewrite Hc'. simpl. split; [|done].
  unfold awOk, awDeleting, awPhase, wfKey in *. simpl in *. by rewrite Hn, Hns, Hdt.
Qed.

(** The Argo workflow is there and right, whoever created it. *)
Lemma started_ok s s' sha daw aw artifactType :
  awOk sha daw aw (workflows s !! keyOf sha) -> awClaimed aw = true ->
  artifactTypes s0 !! namespacedName "" (Artifact_Type (artifact daw)) = Some artifactType ->
  hasWorkflow s s' aw artifactType (srcSecret daw) (dstSecret daw) ->
  exists wf, workflows s' !! wfKey aw = Some wf /\ argoPhase (Workflow_Phase wf)
    /\ runs daw aw wf
    /\ match workflows s !! wfKey aw with
       | Some old => wf = old
       | None => Workflow_Phase wf = ""
       end.
Proof.
  intros (Hk & _ & _ & Hw) Hc Hty (wf & Hwf' & Hhas). rewrite <- Hk in Hw. exists wf.
  destruct (workflows s !! wfKey aw) as [old|].
  - destruct Hw as (_ & ? & ? & _). by subst.
  - destruct Hhas as [Hs ->]. split_and!; [done|by left|by exists artifactType|done].
Qed.

(** Between the creation of the Argo workflow and the update of the phase. *)
Lemma start_moves s s' sha daw aw artifactType :
  awOk sha daw aw (workflows s !! keyOf sha) -> awClaimed aw = true ->
  awPhase aw = WorkflowUnknown ->
  artifactTypes s0 !! namespacedName "" (Artifact_Type (artifact daw)) = Some artifactType ->
  hasWorkflow s s' aw artifactType (srcSecret daw) (dstSecret daw) ->
  touches (wfKey aw) s s' -> artifactWorkflows s' !! wfKey aw = Some aw ->
  moves s sha daw aw s'.
Proof.
  intros Hok Hc Hp Hty Hhas Ht Haw.
  destruct (started_ok _ _ _ _ _ _ Hok Hc Hty Hhas) as (wf1 & Hwf1 & Ha & Hr & Hold).
  destruct Hok as (Hk & Hd & Hsp & Hw). unfold moves, gets. rewrite <- Hk in *. split; [done|].
  unfold awStage. rewrite Hwf1, Hc, Hp. simpl. split.
  { destruct (workflows s !! wfKey aw) as [old|]; [|done]. by destruct (negb _). }
  exists aw. split_and!; [done| |].
  - split_and!; [done..|]. auto.
  - rewrite Hc, Hp. simpl. destruct (workflows s !! wfKey aw) as [old|]; [by subst|].
    destruct (negb _); lia.
Qed.

Lemma start_advances s s' sha daw aw artifactType :
  awOk sha daw aw (workflows s !! keyOf sha) -> awClaimed aw = true ->
  awPhase aw = WorkflowUnknown ->
  artifactTypes s0 !! namespacedName "" (Artifact_Type (artifact daw)) = Some artifactType ->
  hasWorkflow s s' aw artifactType (srcSecret daw) (dstSecret daw) ->
  touches (wfKey aw) s s' ->
  (exists md, maintained (AW_ObjectMeta aw) md /\
     artifactWorkflows s' !! wfKey aw = Some (storedAW aw md WorkflowPending)) ->
  advances s sha daw aw s'.
Proof.
  intros Hok Hc Hp Hty Hhas Ht (md & Hmd & Haw').
  destruct (started_ok _ _ _ _ _ _ Hok Hc Hty Hhas) as (wf1 & Hwf1 & Ha & Hr & Hold).
  assert (awClaimed (storedAW aw md WorkflowPending) = true) as Hc'.
  { unfold awClaimed. simpl. by destruct Hmd as (_ & _ & _ & _ & _ & -> & _). }
  assert (Hok1 := awOk_stored sha daw aw _ md WorkflowPending wf1 Hok Hmd Hc Ha Hr
                    (or_intror (or_introl eq_refl))).
  destruct Hok as (Hk & _). unfold advances, gets. rewrite <- Hk in *. split; [done|].
  rewrite Hwf1. split.
  { unfold awStage. rewrite Hc, Hp. simpl.
    destruct (workflows s !! wfKey aw) as [old|]; [|done]. by destruct (negb _). }
  exists (storedAW aw md WorkflowPending). split; [done|]. split; [done|].
  unfold awStage. rewrite Hc, Hc', Hp. simpl.
  destruct (workflows s !! wfKey aw) as [old|]; subst.
  - destruct (Completed (Workflow_Phase _)); simpl; lia.
  - rewrite Hold. simpl. lia.
Qed.

Lemma follow_advances s sha daw aw wf md :
  artifactWorkflows s !! keyOf sha = Some aw -> workflows s !! keyOf sha = Some wf ->
  awOk sha daw aw (Some wf) -> InProgress (awPhase aw) = true ->
  maintained (AW_ObjectMeta aw) md ->
  advances s sha daw aw (set_artifactWorkflows s
    (<[wfKey aw := storedAW aw md (Workflow_Phase wf)]> (artifactWorkflows s))).
Proof.
  intros Hst Hwf Hok Hp Hmd. assert (Hok' := Hok).
  destruct Hok' as (Hk & Hd & Hsp & Hc & Ha & Hr & _).
  unfold advances, gets. rewrite <- Hk in *.
  assert (awClaimed (storedAW aw md (Workflow_Phase wf)) = true) as Hc'.
  { unfold awClaimed. simpl. by destruct Hmd as (_ & _ & _ & _ & _ & -> & _). }
  assert (Completed (awPhase aw) = false) as Hnc.
  { destruct (Completed (awPhase aw)) eqn:Hco; [|done].
    by rewrite (Completed_not_InProgress _ Hco) in Hp. }
  split; [apply touches_aw|]. rewrite Hwf. split.
  { unfold awStage. rewrite Hc, Hnc, Hp. simpl. by destruct (negb _). }
  eexists. simpl. rewrite lookup_insert_eq, Hwf. split; [done|]. split.
  { eapply awOk_stored; try done. destruct (proj1 (argoPhase_cases _) Ha) as [?|[?|?]]; auto. }
  unfold awStage. rewrite Hc, Hc', Hnc, Hp. simpl.
  destruct (Completed (Workflow_Phase wf)) eqn:Hco; simpl; [|lia].
  unfold awPhase. simpl. rewrite Hco. lia.
Qed.

Lemma idle_advances s sha daw aw wf :
  artifactWorkflows s !! keyOf sha = Some aw -> workflows s !! keyOf sha = Some wf ->
  awOk sha daw aw (Some wf) -> Completed (awPhase aw) = true -> awPhase aw = Workflow_Phase wf ->
  advances s sha daw aw s.
Proof.
  intros Hst Hwf Hok Hp Heq. assert (Hc : awClaimed aw = true) by apply Hok.
  split; [done|]. split; [done|]. exists aw. rewrite Hwf. split_and!; [done|done|].
  unfold awStage. by rewrite Hc, <- Heq, Hp.
Qed.

Lemma keeps_advances s sha daw aw :
  artifactWorkflows s !! keyOf sha = Some aw -> awOk sha daw aw (workflows s !! keyOf sha) ->
  supplied s daw ->
  keeps (moves s sha daw aw) (ArtifactWorkflowController.Reconcile (keyOf sha)) s
    (fun s' _ => advances s sha daw aw s').
Proof.
  intros Hst Hok Hsup. pose proof (moves_refl _ _ _ _ Hst Hok) as Hrefl.
  assert (Hok' := Hok). destruct Hok' as (Hk & Hd & _ & Hw). assert (Hst' := Hst).
  rewrite <- Hk in Hst'.
  replace (ArtifactWorkflowController.Reconcile (keyOf sha)) with
    (ArtifactWorkflowController.Reconcile (wfKey aw)) by (by rewrite Hk).
  destruct (awClaimed aw) eqn:Hc.
  2: { eapply keeps_mono; [|apply keeps_claim; [done..|]].
       - intros s' o (md & Hmd & ->). by apply claim_advances.
       - intros md Hmd. by apply advances_moves, claim_advances. }
  destruct (decide (awPhase aw = WorkflowUnknown)) as [Hp|Hp].
  { destruct (awOk_startable _ _ _ _ _ Hst Hok Hsup Hc Hp) as (ty & Hty & Hstart).
    eapply keeps_mono; [|eapply keeps_start; [done|done|..]].
    - intros s' o (_ & Hhas & Ht & Haw). by eapply start_advances.
    - intros s' Hhas Ht Haw. by eapply start_moves.
    - intros s' Hhas Ht Haw. by eapply advances_moves, start_advances. }
  destruct (workflows s !! keyOf sha) as [wf|] eqn:Hwf; [|done].
  destruct Hw as (_ & _ & _ & [?|[Hi|[Hco Heq]]]); [done|..].
  - eapply keeps_mono; [|apply (keeps_follow _ _ _ wf); [done..|by rewrite Hk|done|]].
    + intros s' o (_ & md & Hmd & ->). by apply follow_advances.
    + intros md Hmd. by apply advances_moves, follow_advances.
  - eapply keeps_mono; [|by apply keeps_idle]. intros s' o ->. by eapply idle_advances.
Qed.

(** ** The invariant *)

Definition sameOrder (order : Order) : Prop :=
  Order_Spec order = Order_Spec order0
  /\ maintained (Order_ObjectMeta order0) (Order_ObjectMeta order).

Lemma sameOrder_key order : sameOrder order -> meta_key (Order_ObjectMeta order) = orderKey.
Proof. intros [_ (Hn & Hns & _)]. unfold orderKey, meta_key. by rewrite Hn, Hns. Qed.

Lemma sameOrder_desired order : sameOrder order -> desiredFrom order l = desired.
Proof. intros [_ Hm]. by apply same_order_desired. Qed.

Lemma sameOrder_awKey order sha : sameOrder order -> awKey order sha = keyOf sha.
Proof. intros [_ Hm]. by apply awKey_maintained. Qed.

Record onItsWay (s : Cluster) : Prop := {
  way_types : artifactTypes s0 ⊆ artifactTypes s;
  way_order : exists order, sameOrder order /\ prepared s order l;
  way_chain : forall sha daw, desired !! sha = Some daw -> chainOk s sha daw;
}.

(** The order stays prepared while its inputs and artifact workflows are there. *)
Lemma prepared_kept s s' order :
  sameOrder order -> prepared s order l ->
  orders s' !! orderKey = orders s !! orderKey ->
  endpoints s ⊆ endpoints s' -> secrets s ⊆ secrets s' ->
  (forall sha, is_Some (desired !! sha) -> is_Some (artifactWorkflows s !! keyOf sha) ->
     is_Some (artifactWorkflows s' !! keyOf sha)) ->
  prepared s' order l.
Proof.
  intros Hsame [Hst Hl Hc [Hfst Hall] Hh Htr] Ho He Hs Haw.
  rewrite (sameOrder_key _ Hsame) in *.
  rewrite (sameOrder_desired _ Hsame) in *. split; try done.
  - by rewrite (sameOrder_key _ Hsame), Ho.
  - split; [done|]. eapply Forall_impl; [exact Hall|]. intros x (Hi1 & Hi2 & Hi3 & Hi4).
    unfold inputsIn, secretIn in *. split_and!; [by eapply lookup_weaken..| |].
    + destruct (hasSecret (in_src x.2)); [by eapply lookup_weaken|done].
    + destruct (hasSecret (in_dst x.2)); [by eapply lookup_weaken|done].
  - by rewrite (sameOrder_desired _ Hsame).
  - rewrite (sameOrder_desired _ Hsame). intros sha Hd Ht.
    rewrite (sameOrder_awKey _ _ Hsame). apply Haw; [done|].
    rewrite <- (sameOrder_awKey _ _ Hsame). auto.
Qed.

(** What was fetched for an artifact is what is there. *)
Lemma ready_supplied s order sha daw :
  sameOrder order -> prepared s order l -> desired !! sha = Some daw ->
  secretIn s order0 (srcEndpoint daw) (srcSecret daw) /\
  secretIn s order0 (dstEndpoint daw) (dstSecret daw).
Proof.
  intros [_ (_ & Hns & _)] Hr (l1 & [[i art] ins] & l2 & Hl & Hx & _)%desiredFrom_lookup.
  destruct (ready_inputs _ _ _ Hr) as [_ Hall].
  rewrite Hl, Forall_app, Forall_cons in Hall. destruct Hall as (_ & (_ & _ & Hi1 & Hi2) & _).
  injection Hx as <- <-. simpl in *. unfold secretIn, secretKey in *. by rewrite Hns in Hi1, Hi2.
Qed.

Lemma way_supplied s sha daw :
  begins s0 -> onItsWay s -> desired !! sha = Some daw -> supplied s daw.
Proof.
  intros Hb [Ht (order & Hsame & Hr) _] Hd.
  destruct (ready_supplied _ _ _ _ Hsame Hr Hd). split; [done|done|done|].
  by eapply begins_types.
Qed.

(** The start is on its way. *)
Lemma begins_way : begins s0 -> onItsWay s0.
Proof.
  intros [Hr Hu Ht Hw]. split; [done| |].
  - exists order0. split; [by split; [|apply maintained_refl]|apply Hr].
  - intros sha daw Hd. unfold chainOk, keyOf.
    rewrite (ready_fresh _ _ _ Hr) by eauto. apply Hw. eauto.
Qed.

(** ** Stages *)

(** At least how far an artifact got: the last stage is that the order reports it. *)
Definition atLeast (s : Cluster) (sha : string) (n : nat) : Prop :=
  match artifactWorkflows s !! keyOf sha with
  | None => n = 0
  | Some aw =>
      n <= awStage aw (workflows s !! keyOf sha)
      \/ n = 7 /\ awStage aw (workflows s !! keyOf sha) = 6 /\ reports s sha (awPhase aw)
  end.

Lemma awStage_pos aw w : 1 <= awStage aw w.
Proof. unfold awStage. repeat case_match; lia. Qed.

Lemma awStage_le aw w : awStage aw w <= 6.
Proof. unfold awStage. repeat case_match; lia. Qed.

(** Stage 6: the artifact workflow has completed. *)
Lemma awStage_completed sha daw aw w :
  awOk sha daw aw w -> 6 <= awStage aw w ->
  exists wf, w = Some wf /\ Completed (Workflow_Phase wf) = true
    /\ awPhase aw = Workflow_Phase wf /\ runs daw aw wf /\ awClaimed aw = true.
Proof.
  intros (_ & _ & _ & Hw) Hs. unfold awStage in Hs.
  destruct (negb _); [lia|]. destruct w as [wf|]; [|lia]. destruct Hw as (Hc & _ & Hr & Hp).
  destruct (Completed (Workflow_Phase wf)) eqn:Hwc; simpl in Hs; [|lia].
  destruct (Completed (awPhase aw)) eqn:Hac; [|destruct (InProgress _); lia].
  exists wf. destruct Hp as [Hp|[Hp|[_ Hp]]]; [by rewrite Hp in Hac| |done].
  by rewrite (Completed_not_InProgress _ Hac) in Hp.
Qed.

(** ** Every step keeps to the way *)

Lemma maintained_trans m1 m2 m3 : maintained m1 m2 -> maintained m2 m3 -> maintained m1 m3.
Proof. unfold maintained. intuition congruence. Qed.

Lemma keyOf_inj sha1 sha2 : keyOf sha1 = keyOf sha2 -> sha1 = sha2.
Proof. apply awKey_inj. Qed.

(** Where nothing of an artifact changes, neither does its stage. *)
Lemma atLeast_same s s' sha n :
  artifactWorkflows s' !! keyOf sha = artifactWorkflows s !! keyOf sha ->
  workflows s' !! keyOf sha = workflows s !! keyOf sha ->
  orders s' !! orderKey = orders s !! orderKey ->
  atLeast s sha n -> atLeast s' sha n.
Proof. intros Ha Hw Ho. unfold atLeast, reports. by rewrite Ha, Hw, Ho. Qed.

Lemma chainOk_same s s' sha daw :
  artifactWorkflows s' !! keyOf sha = artifactWorkflows s !! keyOf sha ->
  workflows s' !! keyOf sha = workflows s !! keyOf sha ->
  chainOk s sha daw -> chainOk s' sha daw.
Proof. intros Ha Hw. unfold chainOk. by rewrite Ha, Hw. Qed.

(** The order tracks its artifacts, once it was reconciled to the end. *)
Definition tracksAll (s : Cluster) : Prop :=
  exists order, orders s !! orderKey = Some order /\ dom (tracked order) = dom desired.

(** What every step keeps. *)
Record proceeds (s s' : Cluster) : Prop := {
  proceeds_way : onItsWay s';
  proceeds_stages : forall sha n, is_Some (desired !! sha) -> atLeast s sha n -> atLeast s' sha n;
  proceeds_tracks : tracksAll s -> tracksAll s';
}.

(** An artifact workflow that was created as ordered starts on its way. *)
Lemma ensured_ok s s' order sha daw :
  sameOrder order -> chainOk s sha daw -> desired !! sha = Some daw ->
  workflows s' = workflows s ->
  ensured order desired sha (artifactWorkflows s !! keyOf sha) (artifactWorkflows s' !! keyOf sha) ->
  chainOk s' sha daw.
Proof.
  intros Hsame Hch Hd Hwf Hen. unfold chainOk in *. rewrite Hwf. unfold ensured in Hen.
  destruct (artifactWorkflows s !! keyOf sha) as [aw|]; [by rewrite Hen|].
  destruct Hen as (aw & -> & daw' & aw0 & Hd' & Hh & Hs & Hstat & Hk & _ & Hdt).
  simplify_eq. rewrite Hch. rewrite (sameOrder_awKey _ _ Hsame) in Hk.
  split_and!; [done| |by exists aw0|]; unfold awDeleting, awPhase.
  - by rewrite Hdt.
  - by rewrite Hstat.
Qed.

(** A reconciliation of the order that was cut off before it wrote the status. *)
Lemma midway_proceeds s s' order :
  onItsWay s -> sameOrder order -> prepared s order l -> midway s order desired s' ->
  proceeds s s'.
Proof.
  intros [Ht _ Hch] Hsame Hp [Ho He Hs Hty Hwf Haw].
  assert (forall sha, is_Some (desired !! sha) ->
    artifactWorkflows s' !! keyOf sha = artifactWorkflows s !! keyOf sha
    \/ artifactWorkflows s !! keyOf sha = None
       /\ ensured order desired sha None (artifactWorkflows s' !! keyOf sha)) as Hcase.
  { intros sha Hd. specialize (Haw sha Hd). rewrite (sameOrder_awKey _ _ Hsame) in Haw.
    destruct Haw as [Haw|[_ Haw]]; [by left|].
    destruct (artifactWorkflows s !! keyOf sha) as [aw|]; [by left|by right]. }
  split; [split| |].
  - by rewrite Hty.
  - exists order. split; [done|]. apply (prepared_kept s); [done|done|by rewrite Ho| | |].
    + by rewrite He.
    + by rewrite Hs.
    + intros sha Hd Hsome. destruct (Hcase sha Hd) as [->|[Hn _]]; [done|].
      rewrite Hn in Hsome. by destruct Hsome.
  - intros sha daw Hd. specialize (Hch sha daw Hd).
    destruct (Hcase sha ltac:(by eexists)) as [Heq|[Hn Hen]].
    + eapply chainOk_same; [exact Heq|by rewrite Hwf|done].
    + apply (ensured_ok s s' order sha daw); [done|done|done|done|]. by rewrite Hn.
  - intros sha n Hd Hn. destruct (Hcase sha Hd) as [Heq|[Hnone Hen]].
    + eapply atLeast_same; [exact Heq|by rewrite Hwf|by rewrite Ho|done].
    + unfold atLeast in *. rewrite Hnone in Hn. subst.
      destruct (artifactWorkflows s' !! keyOf sha); [left; lia|done].
  - unfold tracksAll. by rewrite Ho.
Qed.

(** One that was not: the order tracks its artifacts, and reports the phase of each
    that it tracked before. *)
Lemma settled_proceeds s s' order :
  onItsWay s -> sameOrder order -> prepared s order l -> settled s order desired s' ->
  proceeds s s' /\ tracksAll s' /\
  forall sha daw, desired !! sha = Some daw ->
    exists aw, artifactWorkflows s' !! keyOf sha = Some aw
      /\ (is_Some (tracked order !! sha) -> reports s' sha (awPhase aw)).
Proof.
  intros [Ht _ Hch] Hsame Hp Hset.
  pose proof Hset as Hset'. rewrite <- (sameOrder_desired _ Hsame) in Hset'.
  destruct (settled_ready _ _ _ _ Hp Hset') as (order' & [Hp' _] & Hdom' & Hsp & Hmd).
  rewrite (sameOrder_desired _ Hsame) in Hdom'. clear Hset'.
  destruct Hset as (order1 & Hst1 & _ & _ & Hdom & Hphase & _ & Hnew & Hold & _ & _ & Hty & Hwf & _).
  rewrite (sameOrder_key _ Hsame) in Hst1.
  assert (sameOrder order') as Hsame'.
  { destruct Hsame as [Hsp0 Hmd0]. split; [congruence|]. by eapply maintained_trans. }
  assert (order1 = order') as ->.
  { pose proof (ready_stored _ _ _ Hp') as Hst. rewrite (sameOrder_key _ Hsame') in Hst. congruence. }
  assert (forall sha, is_Some (desired !! sha) -> is_Some (tracked order !! sha) ->
            artifactWorkflows s' !! keyOf sha = artifactWorkflows s !! keyOf sha) as Hkept.
  { intros sha Hd Htr. apply Hold. intros sha' Heq.
    rewrite (sameOrder_awKey _ _ Hsame) in Heq. by apply keyOf_inj in Heq as <-. }
  assert (forall sha daw, desired !! sha = Some daw ->
    exists aw, artifactWorkflows s' !! keyOf sha = Some aw
      /\ (is_Some (tracked order !! sha) -> reports s' sha (awPhase aw))) as Hrep.
  { intros sha daw Hd.
    assert (is_Some (tracked order' !! sha)) as [st Hst].
    { apply elem_of_dom. rewrite Hdom. apply elem_of_dom. by eexists. }
    destruct (Hphase sha st Hst) as (aw & Haw & Hph). rewrite (sameOrder_awKey _ _ Hsame) in Haw.
    exists aw. split; [done|]. intros Htr. exists order', st. split_and!; [done..|].
    symmetry. apply Hph. by left. }
  split; [split; [split| |]|split]; [| | | | | |exact Hrep].
  - by rewrite Hty.
  - by exists order'.
  - intros sha daw Hd. specialize (Hch sha daw Hd).
    destruct (tracked order !! sha) as [st|] eqn:Htr.
    + eapply chainOk_same; [by apply Hkept; eexists|by rewrite Hwf|done].
    + apply (ensured_ok s s' order sha daw); [done|done|done|done|].
      rewrite <- (sameOrder_awKey _ _ Hsame). apply Hnew; [by eexists|done].
  - intros sha n [daw Hd] Hn. destruct (Hrep sha daw Hd) as (aw & Haw & Hph).
    unfold atLeast in *. rewrite Haw, Hwf.
    destruct (tracked order !! sha) as [st|] eqn:Htr.
    + rewrite <- (Hkept sha), Haw in Hn by (by eexists).
      destruct Hn as [Hn|(-> & Hn & _)]; [by left|right]. split_and!; [done|done|].
      apply Hph. by eexists.
    + pose proof (Hnew sha ltac:(by eexists) Htr) as Hen. unfold ensured in Hen.
      rewrite (sameOrder_awKey _ _ Hsame) in Hen.
      destruct (artifactWorkflows s !! keyOf sha) as [aw1|] eqn:Haw1; [|left; lia].
      rewrite Haw in Hen. simplify_eq.
      destruct Hn as [Hn|(_ & _ & order2 & st & Ho2 & _ & Hst2 & _)]; [by left|].
      pose proof (ready_stored _ _ _ Hp) as Hst. rewrite (sameOrder_key _ Hsame) in Hst.
      congruence.
  - intros _. by exists order'.
  - by exists order'.
Qed.

Lemma way_order_kept s :
  onItsWay s ->
  keeps (proceeds s) (OrderController.Reconcile orderKey) s
    (fun s' _ => exists order, sameOrder order /\ orders s !! orderKey = Some order
       /\ prepared s order l /\ settled s order desired s').
Proof.
  intros Hway. assert (Hway' := Hway). destruct Hway' as [_ (order & Hsame & Hp) _].
  rewrite <- (sameOrder_key _ Hsame).
  eapply keeps_mono; [|apply (keeps_Reconcile _ s order l Hp)].
  - intros s' o [_ Hset]. exists order. rewrite (sameOrder_desired _ Hsame) in Hset.
    split_and!; [done|apply (ready_stored _ _ _ Hp)|done|done].
  - rewrite (sameOrder_desired _ Hsame). intros s' Hm. by eapply midway_proceeds.
  - rewrite (sameOrder_desired _ Hsame). intros s' Hs. by eapply settled_proceeds.
Qed.

(** A step of the order controller: the order tracks its artifacts, and if it did so
    before it reports their phases. *)
Lemma way_order_step s s' o :
  onItsWay s -> steps (OrderController.Reconcile orderKey) s s' o ->
  proceeds s s' /\ tracksAll s' /\
  forall sha daw, desired !! sha = Some daw ->
    exists aw, artifactWorkflows s' !! keyOf sha = Some aw
      /\ (tracksAll s -> reports s' sha (awPhase aw)).
Proof.
  intros Hway Hst.
  destruct (leads_steps _ _ _ _ _ _ (keeps_leads _ _ _ [] _ (way_order_kept s Hway)) Hst)
    as (_ & order & Hsame & Ho & Hp & Hset).
  destruct (settled_proceeds _ _ _ Hway Hsame Hp Hset) as (Hpr & Hta & Hrep).
  split_and!; [done|done|]. intros sha daw Hd. destruct (Hrep sha daw Hd) as (aw & Haw & Hph).
  exists aw. split; [done|]. intros (order1 & Ho1 & Hdom). apply Hph.
  rewrite Ho in Ho1. simplify_eq. apply elem_of_dom. rewrite Hdom. apply elem_of_dom. by eexists.
Qed.

(** A step that gets an artifact workflow somewhere. *)
Lemma gets_proceeds k s s' sha daw aw :
  onItsWay s -> desired !! sha = Some daw -> artifactWorkflows s !! keyOf sha = Some aw ->
  awStage aw (workflows s !! keyOf sha) <= k -> gets k s sha daw aw s' ->
  proceeds s s' /\ atLeast s' sha k.
Proof.
  intros [Ht (order & Hsame & Hr) Hch] Hd Haw Hk (Htouch & Hend & aw' & Haw' & Hok' & Hle).
  destruct Htouch as [Hto Hte Hts Htt Hta Htw].
  assert (forall sha', sha' <> sha -> keyOf sha' <> keyOf sha) as Hne
    by (intros sha' Hn Heq; by apply keyOf_inj in Heq).
  split; [split; [split| |]|].
  - by rewrite Htt.
  - exists order. split; [done|].
    eapply prepared_kept; [done|done|by rewrite Hto|by rewrite Hte|by rewrite Hts|].
    intros sha' _ Hsome. destruct (decide (sha' = sha)) as [->|Hn]; [by rewrite Haw'|].
    by rewrite Hta by auto.
  - intros sha' daw' Hd'. destruct (decide (sha' = sha)) as [->|Hn].
    + simplify_eq. unfold chainOk. by rewrite Haw'.
    + eapply chainOk_same; [by apply Hta, Hne|by apply Htw, Hne|by apply Hch].
  - intros sha' n _ Hn. destruct (decide (sha' = sha)) as [->|Hns].
    + unfold atLeast in *. rewrite Haw in Hn.
      destruct Hn as [Hn|(-> & Hn & Hrep)]; [rewrite Haw'; left; lia|].
      rewrite (Hend Hn), Haw. by right.
    + eapply atLeast_same; [by apply Hta, Hne|by apply Htw, Hne|by rewrite Hto|done].
  - unfold tracksAll. by rewrite Hto.
  - unfold atLeast. rewrite Haw'. by left.
Qed.

Lemma proceeds_refl s : onItsWay s -> proceeds s s.
Proof. by split. Qed.

Lemma way_aw_kept s sha daw :
  begins s0 -> onItsWay s -> desired !! sha = Some daw ->
  keeps (proceeds s) (ArtifactWorkflowController.Reconcile (keyOf sha)) s
    (fun s' _ => forall aw, artifactWorkflows s !! keyOf sha = Some aw ->
       atLeast s' sha (nextStage (awStage aw (workflows s !! keyOf sha)))).
Proof.
  intros Hb Hway Hd. pose proof (way_chain _ Hway sha daw Hd) as Hok. unfold chainOk in Hok.
  destruct (artifactWorkflows s !! keyOf sha) as [aw|] eqn:Haw.
  2: { eapply keeps_mono; [|apply keeps_absent; [done|by apply proceeds_refl]]. done. }
  pose proof (way_supplied _ _ _ Hb Hway Hd) as Hsup.
  eapply keeps_weaken; [|eapply keeps_mono; [|by apply keeps_advances]].
  - intros s' Hm. by eapply gets_proceeds; [| |exact Haw| |exact Hm].
  - intros s' o Ha aw1 [= <-]. eapply gets_proceeds; [| |exact Haw| |exact Ha]; try done.
    apply nextStage_le.
Qed.

(** Argo's progress keeps an artifact on its way and does not lower its stage. *)
Lemma progresses_awOk sha daw aw w w' :
  awOk sha daw aw w -> progresses w w' ->
  awOk sha daw aw w' /\ awStage aw w <= awStage aw w' /\ (awStage aw w = 6 -> awStage aw w' = 6).
Proof.
  intros (Hk & Hd & Hsp & Hw) Hp. unfold progresses in Hp.
  destruct w as [wf|], w' as [wf'|]; [|done|done|by split_and!].
  destruct Hp as (Hs & Ha & Hc). destruct Hw as (Hcl & _ & (ty & Hty & Hspec) & Hph).
  split.
  { unfold awOk. split_and!; [done..| |].
    - exists ty. by rewrite Hs.
    - destruct Hph as [?|[?|[Hco Heq]]]; [by auto..|]. right. right. split; [done|].
      rewrite Hc; [done|]. apply argoFinal_Completed. by rewrite <- Heq. }
  unfold awStage. rewrite Hcl. simpl.
  destruct (Completed (Workflow_Phase wf)) eqn:Hco; simpl.
  - rewrite Hc by (by apply argoFinal_Completed). by rewrite Hco.
  - repeat case_match; lia.
Qed.

Lemma way_elsewhere s s' : onItsWay s -> undisturbed s s' -> proceeds s s'.
Proof.
  intros [Ht (order & Hsame & Hr) Hch] [Ho He Hs Hty Ha Hw]. split; [split| |].
  - by etrans.
  - exists order. split; [done|]. eapply prepared_kept; try done. intros sha Hd. by rewrite Ha.
  - intros sha daw Hd. specialize (Hch sha daw Hd). specialize (Hw sha ltac:(by eexists)).
    unfold chainOk in *. rewrite Ha by (by eexists).
    destruct (artifactWorkflows s !! keyOf sha) as [aw|]; [by eapply progresses_awOk|].
    rewrite Hch in Hw. by destruct (workflows s' !! keyOf sha).
  - intros sha n [daw Hd] Hn. specialize (Hch sha daw Hd). specialize (Hw sha ltac:(by eexists)).
    unfold chainOk, atLeast, reports in *. rewrite Ha, Ho by (by eexists).
    destruct (artifactWorkflows s !! keyOf sha) as [aw|]; [|done].
    destruct (progresses_awOk _ _ _ _ _ Hch Hw) as (_ & Hle & H6).
    destruct Hn as [Hn|(-> & Hn & Hrep)]; [left; lia|right; auto].
  - unfold tracksAll. by rewrite Ho.
Qed.

(** No step leaves the way or lowers a stage. *)
Definition labelled (lb : label) : Prop :=
  match lb with AWReconciled sha | AWCutOff sha => is_Some (desired !! sha) | _ => True end.

Lemma way_step s lb s' :
  begins s0 -> onItsWay s -> labelled lb -> calm s lb s' -> proceeds s s'.
Proof.
  intros Hb Hway Hlb Hc. destruct lb as [|sha| |sha|]; cbn [calm labelled] in *.
  - destruct Hc as [o Hc%steps_partial]. exact (keeps_partial _ _ _ _ _ (way_order_kept s Hway) Hc).
  - destruct Hc as [o Hc%steps_partial]. destruct Hlb as [daw Hd].
    exact (keeps_partial _ _ _ _ _ (way_aw_kept s sha daw Hb Hway Hd) Hc).
  - exact (keeps_partial _ _ _ _ _ (way_order_kept s Hway) Hc).
  - destruct Hlb as [daw Hd]. exact (keeps_partial _ _ _ _ _ (way_aw_kept s sha daw Hb Hway Hd) Hc).
  - by apply way_elsewhere.
Qed.

End completion.

(** ** Executions *)

Section execution.
Context `{GoRuntime} `{Float64} `{ControllerUtil}.
Context (order0 : Order) (l : list (nat * OrderArtifact * inputs)).
Context (at_ : nat -> Cluster) (lab : nat -> label).

(** Something happens again and again. *)
Definition always_eventually (P : nat -> Prop) : Prop := forall n, exists m, n <= m /\ P m.

(** An execution from the start: the order and each of its artifact workflows are
    reconciled to the end again and again, next to reconciliations that are cut off at
    any point, and Argo completes what it was given. *)
Record fair_execution : Prop := {
  fair_begins : begins order0 l (at_ 0);
  fair_steps : forall n, calm order0 l (at_ n) (lab n) (at_ (S n));
  fair_labels : forall n, labelled order0 l (lab n);
  fair_order : always_eventually (fun m => lab m = OrderReconciled);
  fair_aws : forall sha, is_Some (desired order0 l !! sha) ->
    always_eventually (fun m => lab m = AWReconciled sha);
  fair_argo : forall sha n, is_Some (desired order0 l !! sha) ->
    is_Some (workflows (at_ n) !! keyOf order0 sha) ->
    exists m wf, n <= m /\ workflows (at_ m) !! keyOf order0 sha = Some wf
      /\ argoFinal (Workflow_Phase wf);
}.

Hypothesis Hfair : fair_execution.

Lemma way_always n : onItsWay order0 l (at_ 0) (at_ n).
Proof.
  induction n as [|n IH]; [by apply begins_way, fair_begins|].
  eapply proceeds_way, way_step;
    [by apply fair_begins|exact IH|by apply fair_labels|by apply fair_steps].
Qed.

Lemma proceeds_always n : proceeds order0 l (at_ 0) (at_ n) (at_ (S n)).
Proof.
  eapply way_step; [by apply fair_begins|apply way_always|by apply fair_labels|by apply fair_steps].
Qed.

Lemma atLeast_later sha k n m :
  is_Some (desired order0 l !! sha) -> n <= m -> atLeast order0 l (at_ n) sha k ->
  atLeast order0 l (at_ m) sha k.
Proof.
  intros Hd Hnm Hn. induction Hnm as [|m _ IH]; [done|].
  by apply (proceeds_stages _ _ _ _ _ (proceeds_always m)).
Qed.

Lemma tracksAll_later n m : n <= m -> tracksAll order0 l (at_ n) -> tracksAll order0 l (at_ m).
Proof.
  intros Hnm Hn. induction Hnm as [|m _ IH]; [done|].
  by apply (proceeds_tracks _ _ _ _ _ (proceeds_always m)).
Qed.

(** A reconciliation of the order after some point. *)
Lemma order_reconciled n :
  exists m, n <= m /\ tracksAll order0 l (at_ (S m)) /\
  forall sha daw, desired order0 l !! sha = Some daw ->
    exists aw, artifactWorkflows (at_ (S m)) !! keyOf order0 sha = Some aw
      /\ (tracksAll order0 l (at_ m) -> reports order0 l (at_ (S m)) sha (awPhase aw)).
Proof.
  destruct (fair_order Hfair n) as (m & Hm & Hlab). exists m. split; [done|].
  pose proof (fair_steps Hfair m) as Hst. rewrite Hlab in Hst. destruct Hst as [o Hst].
  by destruct (way_order_step _ _ _ _ _ _ (way_always m) Hst) as (_ & Hta & Hrep).
Qed.

(** From each stage to the next. *)
Lemma stage_next sha daw k n :
  desired order0 l !! sha = Some daw -> k < 7 -> atLeast order0 l (at_ n) sha k ->
  exists m, n <= m /\ atLeast order0 l (at_ m) sha (S k).
Proof.
  intros Hd Hk Hn. assert (is_Some (desired order0 l !! sha)) as Hds by (by eexists).
  assert (k = 0 \/ k = 6 \/ due k \/ k = 3) as Hcases by (unfold due; lia).
  destruct Hcases as [->|[->|[Hdue| ->]]].
  - destruct (order_reconciled n) as (m & Hm & _ & Hrep). exists (S m). split; [lia|].
    destruct (Hrep sha daw Hd) as (aw & Haw & _). unfold atLeast. rewrite Haw.
    left. apply awStage_pos.
  - destruct (order_reconciled n) as (m1 & Hm1 & Hta & _).
    destruct (order_reconciled (S m1)) as (m & Hm & _ & Hrep).
    exists (S m). split; [lia|]. destruct (Hrep sha daw Hd) as (aw & Haw & Hph).
    pose proof (atLeast_later sha 6 n (S m) Hds ltac:(lia) Hn) as H6.
    unfold atLeast in H6 |- *. rewrite Haw in *. right. split; [done|]. split.
    + pose proof (awStage_le aw (workflows (at_ (S m)) !! keyOf order0 sha)). lia.
    + by apply Hph, (tracksAll_later (S m1)).
  - destruct (fair_aws Hfair sha Hds n) as (m & Hm & Hlab).
    pose proof (atLeast_later _ _ _ _ Hds Hm Hn) as Hkm.
    pose proof (fair_steps Hfair m) as Hst. rewrite Hlab in Hst. destruct Hst as [o Hst].
    destruct (leads_steps _ _ _ _ _ _ (keeps_leads _ _ _ [] _
      (way_aw_kept _ _ _ _ sha daw (fair_begins Hfair) (way_always m) Hd)) Hst) as [_ Hup].
    unfold atLeast in Hkm.
    destruct (artifactWorkflows (at_ m) !! keyOf order0 sha) as [aw|] eqn:Haw;
      [|unfold due in Hdue; lia].
    destruct Hkm as [Hkm|[-> _]]; [|lia].
    destruct (decide (awStage aw (workflows (at_ m) !! keyOf order0 sha) = k)) as [Heq|Hne].
    + exists (S m). split; [lia|]. rewrite <- (nextStage_due k Hdue), <- Heq.
      by apply Hup.
    + exists m. split; [lia|]. unfold atLeast. rewrite Haw. left. lia.
  - unfold atLeast in Hn.
    destruct (artifactWorkflows (at_ n) !! keyOf order0 sha) as [aw|] eqn:Haw; [|done].
    assert (is_Some (workflows (at_ n) !! keyOf order0 sha)) as Hw.
    { unfold awStage in Hn. destruct (negb _); [destruct Hn as [?|[? _]]; lia|].
      destruct (workflows (at_ n) !! _); [by eexists|destruct Hn as [?|[? _]]; lia]. }
    destruct (fair_argo Hfair sha n Hds Hw) as (m & wf & Hm & Hwf & Hco).
    assert (atLeast order0 l (at_ n) sha 3) as Hn3 by (unfold atLeast; by rewrite Haw).
    exists m. split; [done|]. pose proof (atLeast_later _ _ _ _ Hds Hm Hn3) as Hm3.
    unfold atLeast in *. destruct (artifactWorkflows (at_ m) !! _) as [aw'|]; [|done].
    left. destruct Hm3 as [Hm3|[? _]]; [|lia]. rewrite Hwf in *. unfold awStage in *.
    apply argoFinal_Completed in Hco. destruct (negb (awClaimed aw')); [lia|]. rewrite Hco. simpl. repeat case_match; lia.
Qed.

Lemma stage_reached sha daw k :
  desired order0 l !! sha = Some daw -> k <= 7 ->
  exists n, forall m, n <= m -> atLeast order0 l (at_ m) sha k.
Proof.
  intros Hd. assert (is_Some (desired order0 l !! sha)) as Hds by (by eexists).
  induction k as [|k IH]; intros Hk.
  - exists 0. intros m _. unfold atLeast. destruct (artifactWorkflows _ !! _); [left; lia|done].
  - destruct IH as [n Hn]; [lia|].
    destruct (stage_next sha daw k n Hd ltac:(lia) (Hn n ltac:(lia))) as (m & _ & Hm).
    exists m. intros m' Hle. by eapply atLeast_later.
Qed.

(** The last stage is what is to be shown. *)
Lemma last_stage_reported sha daw n :
  desired order0 l !! sha = Some daw -> atLeast order0 l (at_ n) sha 7 ->
  reported order0 l (at_ 0) (at_ n) sha daw.
Proof.
  intros Hd H7. destruct (way_always n) as [_ _ Hch]. specialize (Hch sha daw Hd).
  unfold atLeast, chainOk in *.
  destruct (artifactWorkflows (at_ n) !! keyOf order0 sha) as [aw|] eqn:Haw; [|done].
  destruct H7 as [H7|(_ & H6 & order & st & Ho & Hdom & Htr & Hph)].
  { pose proof (awStage_le aw (workflows (at_ n) !! keyOf order0 sha)). lia. }
  destruct (awStage_completed _ _ _ _ _ _ Hch ltac:(rewrite H6; lia))
    as (wf & Hwf & Hco & Hph' & (ty & Hty & Hspec) & _).
  destruct Hch as (_ & _ & (aw0 & Hh & Hsp) & _).
  exists order, st, aw, wf, aw0, ty. apply argoFinal_Completed in Hco.
  split_and!; try done; [congruence|].
  rewrite Hspec. unfold hydrateArgoWorkflow. by rewrite Hsp.
Qed.

(** Finitely many eventualities hold together. *)
Lemma eventually_all {A : Type} (xs : list A) (P : A -> nat -> Prop) :
  (forall x, x ∈ xs -> exists n, forall m, n <= m -> P x m) ->
  exists n, forall m, n <= m -> forall x, x ∈ xs -> P x m.
Proof.
  induction xs as [|x xs IH]; intros Hxs.
  - exists 0. intros m _ x Hx. by apply elem_of_nil in Hx.
  - destruct IH as [n Hn]; [intros y Hy; apply Hxs; by right|].
    destruct (Hxs x ltac:(by left)) as [n' Hn']. exists (Nat.max n n').
    intros m Hm y [->|Hy]%elem_of_cons; [apply Hn'; lia|apply Hn; [lia|done]].
Qed.

(** C1: a new order completes.  In every execution from a cluster with a claimed
    order, its endpoints, secrets and types, in which the order and each of its
    artifact workflows are reconciled again and again, whatever reconciliations are cut
    off between two calls meanwhile, and Argo completes the workflows it was given,
    from some point on and forever the order tracks exactly its artifacts, each has an
    artifact workflow and an Argo workflow with the parameters, template and volumes of
    the artifact, and the status reports for each the phase in which its Argo workflow
    completed. *)
Theorem order_completes :
  exists n, forall m, n <= m -> forall sha daw,
    desiredFrom order0 l !! sha = Some daw -> reported order0 l (at_ 0) (at_ m) sha daw.
Proof.
  destruct (eventually_all (map_to_list (desired order0 l))
              (fun sd m => atLeast order0 l (at_ m) sd.1 7)) as [n Hn].
  { intros [sha daw] Hin%elem_of_map_to_list. by apply (stage_reached sha daw). }
  exists n. intros m Hm sha daw Hd. apply last_stage_reported; [done|].
  apply (Hn m Hm (sha, daw)). by apply elem_of_map_to_list.
Qed.

End execution.

(** * An execution in which an order completes

    A round-robin schedule of the controllers and Argo against the memory server, for
    the order of OrderExamples with its two artifacts: it gives the witness of
    [order_completes]. *)

#[local] Existing Instance plain_runtime.
#[local] Existing Instance plain_float64.
#[local] Existing Instance plain_util.

(** ** A schedule *)

(** Round robin: one label after the other. *)
Definition roundRobin (cycle : list label) (n : nat) : label :=
  default Elsewhere (cycle !! (n mod length cycle)).

Lemma roundRobin_again cycle lb :
  lb ∈ cycle -> always_eventually (fun m => roundRobin cycle m = lb).
Proof.
  intros [i Hi]%list_elem_of_lookup_1 n. apply lookup_lt_Some in Hi as Hlt.
  exists (i + n * length cycle). split; [nia|].
  unfold roundRobin. rewrite Nat.Div0.mod_add, Nat.mod_small by done. by rewrite Hi.
Qed.

Lemma roundRobin_in cycle n : roundRobin cycle n ∈ cycle \/ roundRobin cycle n = Elsewhere.
Proof.
  unfold roundRobin. destruct (cycle !! _) eqn:Hl; [|by right].
  left. by eapply list_elem_of_lookup_2.
Qed.

Section schedule.
Context (order0 : Order) (l : list (nat * OrderArtifact * inputs)) (start : Cluster).

(** Argo completes everything it has. *)
Definition completed (wf : Workflow) : Workflow :=
  if Completed (Workflow_Phase wf) then wf
  else mkWorkflow (Workflow_ObjectMeta wf) (Workflow_Spec wf) WorkflowSucceeded.

Definition argoCompletes (s : Cluster) : Cluster := set_workflows s (completed <$> workflows s).

(** What is cut off stops within the creations. *)
Definition next (lb : label) (s : Cluster) : Cluster :=
  match lb with
  | OrderReconciled => (run memory_serve (OrderController.Reconcile (orderKey order0)) s).1
  | AWReconciled sha =>
      (run memory_serve (ArtifactWorkflowController.Reconcile (keyOf order0 sha)) s).1
  | OrderCutOff => runFor 8 (OrderController.Reconcile (orderKey order0)) s
  | AWCutOff sha => runFor 4 (ArtifactWorkflowController.Reconcile (keyOf order0 sha)) s
  | Elsewhere => argoCompletes s
  end.

Lemma completed_phase wf : Completed (Workflow_Phase (completed wf)) = true.
Proof. unfold completed. destruct (Completed (Workflow_Phase wf)) eqn:Hc; [exact Hc|reflexivity]. Qed.

Lemma argoCompletes_undisturbed s : undisturbed order0 l s (argoCompletes s).
Proof.
  split; try done. intros sha _. unfold progresses. simpl. rewrite lookup_fmap.
  destruct (workflows s !! _) as [wf|]; simpl; [|done].
  pose proof (completed_phase wf). rewrite argoFinal_Completed, argoPhase_cases.
  unfold completed in *.
  destruct (Completed (Workflow_Phase wf)) eqn:Hc; (split_and!; [done|by right; right|congruence]).
Qed.

Lemma next_calm lb s : calm order0 l s lb (next lb s).
Proof.
  destruct lb as [|sha| |sha|].
  - eexists. exact (run_steps (OrderController.Reconcile (orderKey order0)) (s : Cluster)).
  - eexists. exact (run_steps (ArtifactWorkflowController.Reconcile (keyOf order0 sha)) (s : Cluster)).
  - exact (runFor_partial 8 (OrderController.Reconcile (orderKey order0)) (s : Cluster)).
  - exact (runFor_partial 4 (ArtifactWorkflowController.Reconcile (keyOf order0 sha)) (s : Cluster)).
  - apply argoCompletes_undisturbed.
Qed.

(** The order, Argo, and each artifact workflow in turn; before it succeeds, each
    reconciliation is cut off once. *)
Definition cycle : list label :=
  let shas := (map_to_list (desired order0 l)).*1 in
  [OrderCutOff; OrderReconciled; Elsewhere] ++ map AWCutOff shas ++ map AWReconciled shas.

Definition scheduled (n : nat) : label := roundRobin cycle n.

Fixpoint stateAt (n : nat) : Cluster :=
  match n with
  | 0 => start
  | S n => next (scheduled n) (stateAt n)
  end.

Lemma scheduled_labelled n : labelled order0 l (scheduled n).
Proof.
  destruct (roundRobin_in cycle n) as [Hl|Hl]; fold (scheduled n) in Hl; [|by rewrite Hl].
  unfold cycle in Hl. rewrite !elem_of_app, !elem_of_cons in Hl.
  destruct Hl as [[->|[->|[->|Hl]]]|[Hl|Hl]]; [done..|by apply elem_of_nil in Hl| |].
  all: apply list_elem_of_fmap in Hl as (sha & -> & Hl).
  all: apply list_elem_of_fmap in Hl as ([k v] & -> & Hl).
  all: apply elem_of_map_to_list in Hl; by eexists.
Qed.

Lemma scheduled_way n :
  begins order0 l start -> onItsWay order0 l start (stateAt n).
Proof.
  intros Hb. induction n as [|n IH]; [by apply begins_way|].
  by eapply proceeds_way, way_step; [|exact IH|apply scheduled_labelled|apply next_calm].
Qed.

(** A workflow that is there stays, and Argo completes it at its next turn. *)
Lemma scheduled_workflow sha n m :
  begins order0 l start -> is_Some (desired order0 l !! sha) -> n <= m ->
  is_Some (workflows (stateAt n) !! keyOf order0 sha) ->
  is_Some (workflows (stateAt m) !! keyOf order0 sha).
Proof.
  intros Hb [daw Hd] Hnm Hn. induction Hnm as [|m _ IH]; [done|].
  destruct IH as [wf Hwf].
  pose proof (scheduled_way m Hb) as Hw. pose proof (way_chain _ _ _ _ Hw sha daw Hd) as Hch.
  unfold chainOk in Hch.
  destruct (artifactWorkflows (stateAt m) !! keyOf order0 sha) as [aw|] eqn:Haw; [|congruence].
  destruct (way_step order0 l start (stateAt m) (scheduled m) (stateAt (S m)) Hb Hw
              (scheduled_labelled m) (next_calm _ _)) as [Hw' Hmono _].
  assert (atLeast order0 l (stateAt m) sha 3) as H3.
  { unfold atLeast. rewrite Haw. left. unfold awStage. rewrite Hwf in *.
    destruct Hch as (_ & _ & _ & -> & _). simpl. repeat case_match; lia. }
  specialize (Hmono sha 3 ltac:(by eexists) H3). unfold atLeast, awStage in Hmono.
  destruct (artifactWorkflows (stateAt (S m)) !! _); [|done].
  destruct (workflows (stateAt (S m)) !! _); [by eexists|].
  destruct Hmono as [Hm|[? _]]; [|done]. destruct (negb _); lia.
Qed.

Lemma scheduled_fair : begins order0 l start -> fair_execution order0 l stateAt scheduled.
Proof.
  intros Hb. split.
  - exact Hb.
  - intros n. apply next_calm.
  - apply scheduled_labelled.
  - apply (roundRobin_again cycle). right. by left.
  - intros sha [daw Hd]. apply (roundRobin_again cycle).
    unfold cycle. rewrite !elem_of_app. right. right.
    apply list_elem_of_fmap. exists sha. split; [done|].
    apply list_elem_of_fmap. exists (sha, daw). split; [done|]. by apply elem_of_map_to_list.
  - intros sha n Hd Hn.
    destruct (roundRobin_again cycle Elsewhere ltac:(right; right; by left) n) as (m & Hm & Hlab).
    destruct (scheduled_workflow sha n m Hb Hd Hm Hn) as [wf Hwf].
    exists (S m), (completed wf). split; [lia|]. simpl. fold (scheduled m) in Hlab. rewrite Hlab. simpl.
    rewrite lookup_fmap, Hwf. split; [done|]. apply argoFinal_Completed, completed_phase.
Qed.

End schedule.

(** ** The witness *)

Definition clusterTyped : Cluster :=
  mkCluster (orders cluster1) (endpoints cluster1) (secrets cluster1)
    {[mkNamespacedName "" "oci" := ArtifactWorkflowExamples.exType]}
    (artifactWorkflows cluster1) ∅.

Lemma desired_artifact order l sha daw :
  desiredFrom order l !! sha = Some daw -> artifact daw ∈ map (fun x => x.1.2) l.
Proof.
  intros (l1 & [[i art] ins] & l2 & -> & Hx & _)%desiredFrom_lookup.
  injection Hx as _ <-. apply list_elem_of_fmap. exists (i, art, ins). split; [done|].
  apply elem_of_app. right. by left.
Qed.

Lemma inputs1_types art : art ∈ map (fun x => x.1.2) inputs1 -> Artifact_Type art = "oci".
Proof. simpl. rewrite !elem_of_cons. intros [->|[->|Hin]]; [done..|]. by apply elem_of_nil in Hin. Qed.

Lemma begins1 : begins order1 inputs1 clusterTyped.
Proof.
  assert (desiredFrom order1 inputs1 !! oldSha = None) as Hold by (vm_compute; reflexivity).
  split.
  - destruct ready1 as [[]]. by split; [split|].
  - intros sha [daw Hd]. change (tracked order1) with
      ({[oldSha := mkOrderArtifactWorkflowStatus 0 WorkflowSucceeded ""]}
        : gmap string OrderArtifactWorkflowStatus).
    apply lookup_singleton_None. intros <-. unfold desired in Hd. by rewrite Hold in Hd.
  - intros sha daw Hd%desired_artifact%inputs1_types. rewrite Hd.
    exists ArtifactWorkflowExamples.exType. apply lookup_singleton_eq.
  - done.
Qed.

(** The two artifacts of the order. *)
Example desired1_size : size (desired order1 inputs1) = 2.
Proof. vm_compute. reflexivity. Qed.

Lemma order_completes_witness :
  fair_execution order1 inputs1 (stateAt order1 inputs1 clusterTyped) (scheduled order1 inputs1)
  /\ exists n, forall m, n <= m -> forall sha daw,
       desiredFrom order1 inputs1 !! sha = Some daw ->
       reported order1 inputs1 clusterTyped (stateAt order1 inputs1 clusterTyped m) sha daw.
Proof.
  split; [exact (scheduled_fair order1 inputs1 clusterTyped begins1)|].
  exact (order_completes order1 inputs1 _ _ (scheduled_fair order1 inputs1 clusterTyped begins1)).
Defined.
