(* ===== verification/Cleanup.v ===== *)
(** * Deleted orders disappear

    The counterpart of Completion: from the moment an order is being deleted, in every
    execution in which the order and its artifact workflows keep being reconciled, in
    any order and any number of times, the order disappears with all artifact workflows
    it tracks, and their Argo workflows do as soon as Argo lets go of them.

    As in Completion a reconciliation, whole or cut off between two calls, is one step
    against a healthy API server.  What
    the order controller does not wait for (the artifact workflows it deleted) and the
    artifact workflow controller not either (the Argo workflow) still comes to an end,
    in any order. *)

From stdpp Require Import base gmap sets list strings.
From S2P Require Import Prelude GoStd JsonEncode KubeTypes V1alpha1Types Client Cluster.
From S2P Require Import Errors ControllerRuntime WorkflowParameters OrderController.
From S2P Require Import OrderFacts OrderConverge OrderExamples.
From S2P Require Import ArtifactWorkflowController ArtifactWorkflowFacts.
From S2P Require Import ArtifactWorkflowSystem Completion.
From S2P Require ArtifactWorkflowExamples.

Local Open Scope string_scope.
Local Open Scope list_scope.

(** ** What is being deleted *)

(** An Argo workflow that is gone or being deleted. *)
Definition leaving (w : option Workflow) : Prop :=
  forall wf, w = Some wf -> Time_IsZero (DeletionTimestamp (Workflow_ObjectMeta wf)) = false.

(** The artifact workflow is still there, with the metadata of the client. *)
Definition keptAW (aw : ArtifactWorkflow) (o : option ArtifactWorkflow) : Prop :=
  exists aw', o = Some aw' /\ maintained (AW_ObjectMeta aw) (AW_ObjectMeta aw').

Lemma keptAW_refl aw : keptAW aw (Some aw).
Proof. exists aw. split; [done|apply maintained_refl]. Qed.

(** ** What a deletion of an artifact workflow does *)

Definition dropped (old new : option ArtifactWorkflow) : Prop :=
  match old with
  | None => new = None
  | Some aw =>
      if bool_decide (Finalizers (AW_ObjectMeta aw) = []) then new = None
      else exists t md, Time_IsZero (Some t) = false
             /\ maintained (set_DeletionTimestamp (AW_ObjectMeta aw) (Some t)) md
             /\ new = Some (set_AW_ObjectMeta aw md)
  end.

Lemma deletes_dropped k m m' r :
  deletes_in AW_ObjectMeta set_AW_ObjectMeta k m m' r ->
  dropped (m !! k) (m' !! k) /\ forall k', k' <> k -> m' !! k' = m !! k'.
Proof.
  unfold deletes_in, dropped. destruct (m !! k) as [aw|] eqn:Hk.
  - intros [_ Hd]. case_bool_decide.
    + subst. rewrite lookup_delete_eq. split; [done|]. intros. by apply lookup_delete_ne.
    + destruct Hd as (t & md & Ht & Hmd & ->). rewrite lookup_insert_eq. split; [by eauto|].
      intros. by apply lookup_insert_ne.
  - by intros [-> _].
Qed.

Lemma dropped_deleting old new aw :
  dropped old new -> new = Some aw -> awDeleting aw = true.
Proof.
  unfold dropped. intros Hd ->. destruct old as [aw0|]; [|done]. case_bool_decide; [done|].
  destruct Hd as (t & md & Ht & Hmd & [= ->]). unfold awDeleting. simpl.
  by rewrite (maintained_marked _ _ _ Ht Hmd).
Qed.

(** ** Reconciling a live artifact workflow *)

Section single.
Context `{ControllerUtil}.

Lemma keeps_live (I : Cluster -> Prop) s aw :
  artifactWorkflows s !! wfKey aw = Some aw -> awDeleting aw = false -> awClaimed aw = true ->
  (forall s', touches (wfKey aw) s s' -> keptAW aw (artifactWorkflows s' !! wfKey aw) -> I s') ->
  keeps I (ArtifactWorkflowController.Reconcile (wfKey aw)) s (fun s' _ =>
    touches (wfKey aw) s s' /\ keptAW aw (artifactWorkflows s' !! wfKey aw)).
Proof.
  intros Hst Hd Hc HI.
  assert (forall m md p, maintained (AW_ObjectMeta aw) md ->
    (forall k, k <> wfKey aw -> m !! k = workflows s !! k) ->
    let s' := set_artifactWorkflows (set_workflows s m)
                (<[wfKey aw := storedAW aw md p]> (artifactWorkflows s)) in
    touches (wfKey aw) s s' /\ keptAW aw (artifactWorkflows s' !! wfKey aw)) as Hstored.
  { intros m md p Hmd Hm. split.
    - split; try done. intros k Hk. by apply lookup_insert_ne.
    - eexists. split; [apply lookup_insert_eq|done]. }
  assert (forall m, (forall k, k <> wfKey aw -> m !! k = workflows s !! k) ->
    touches (wfKey aw) s (set_workflows s m)
    /\ keptAW aw (artifactWorkflows (set_workflows s m) !! wfKey aw)) as Hwfs.
  { intros m Hm. split; [by split|]. simpl. rewrite Hst. apply keptAW_refl. }
  assert (touches (wfKey aw) s s /\ keptAW aw (artifactWorkflows s !! wfKey aw)) as Hsame.
  { rewrite Hst. split; [apply touches_refl|apply keptAW_refl]. }
  assert (I s) as Hs by (destruct Hsame; by apply HI).
  apply keeps_phase; [done..|]. destruct (Completed _); [by split|].
  case_bool_decide.
  { apply keeps_create_any; [done..|]. intros m _ Hm.
    split; [split; [by apply HI; apply Hwfs|intros _; by apply Hwfs]|].
    intros md Hmd. destruct (Hstored m md WorkflowPending Hmd Hm). split; [by apply HI|done]. }
  destruct (InProgress _); [|by split]. unfold checkArgoWorkflow. split; [done|]. intros s1 r [-> ->].
  destruct (workflows s !! _) as [wf|]; [|by split]. simpl.
  apply keeps_awStatus; [done..|]. intros md Hmd.
  destruct (Hstored (workflows s) md (Workflow_Phase wf) Hmd ltac:(done)). split; [by apply HI|done].
Qed.

End single.

(** ** The order and its artifact workflows while they go *)

Section cleanup.
Context `{GoRuntime} `{Float64} `{ControllerUtil}.
Context (order0 : Order).

Definition hashes : gset string := dom (tracked order0).

(** An artifact workflow of the order: it carries the finalizer, or it has none and
    there is no Argo workflow (which is created after it was claimed). *)
Definition awWinds (sha : string) (aw : ArtifactWorkflow) (w : option Workflow) : Prop :=
  wfKey aw = keyOf order0 sha
  /\ (Finalizers (AW_ObjectMeta aw) = [artifactWorkflowFinalizer]
      \/ Finalizers (AW_ObjectMeta aw) = [] /\ awDeleting aw = false /\ leaving w).

Definition chainWinds (s : Cluster) (sha : string) : Prop :=
  match artifactWorkflows s !! keyOf order0 sha with
  | None => leaving (workflows s !! keyOf order0 sha)
  | Some aw => awWinds sha aw (workflows s !! keyOf order0 sha)
  end.

(** The start: the order is being deleted and waits for its controller only. *)
Record endsAt (s : Cluster) : Prop := {
  ends_stored : orders s !! orderKey order0 = Some order0;
  ends_deleting : deleting order0 = true;
  ends_finalizer : Finalizers (Order_ObjectMeta order0) = [orderFinalizer];
  ends_chains : forall sha, sha ∈ hashes -> chainWinds s sha;
}.

(** How far the order is (it tracks nothing any more, it is gone), and how far an
    artifact workflow is (it is being deleted, it is gone). *)
Definition orderStage (s : Cluster) : nat :=
  match orders s !! orderKey order0 with
  | None => 2
  | Some order => if bool_decide (tracked order = ∅) then 1 else 0
  end.

Definition chainStage (s : Cluster) (sha : string) : nat :=
  match artifactWorkflows s !! keyOf order0 sha with
  | None => 2
  | Some aw => if awDeleting aw then 1 else 0
  end.

(** The order as it may be found: it tracks what it tracked, or nothing any more, and
    it forgets what it has deleted only. *)
Record winding (s : Cluster) : Prop := {
  winding_chains : forall sha, sha ∈ hashes -> chainWinds s sha;
  winding_order : forall order, orders s !! orderKey order0 = Some order ->
    maintained (Order_ObjectMeta order0) (Order_ObjectMeta order)
    /\ (tracked order = tracked order0 \/ tracked order = ∅);
  winding_dropped : forall sha, 1 <= orderStage s -> sha ∈ hashes -> 1 <= chainStage s sha;
  winding_ends : deleting order0 = true /\ Finalizers (Order_ObjectMeta order0) = [orderFinalizer];
}.

Lemma ends_winding s : endsAt s -> winding s.
Proof.
  intros [Hst Hd Hf Hch]. split; [done| | |done].
  - intros order Ho. rewrite Hst in Ho. simplify_eq. split; [apply maintained_refl|by left].
  - intros sha. unfold orderStage. rewrite Hst. case_bool_decide as He; [|lia].
    unfold hashes. rewrite He. set_solver.
Qed.

(** ** A reconciliation of the order *)

(** The artifact workflows after the deletions for [done]. *)
Definition droppedAll (done : list string) (s : Cluster)
  (m : gmap NamespacedName ArtifactWorkflow) : Prop :=
  (forall k, k ∉ map (keyOf order0) done -> m !! k = artifactWorkflows s !! k) /\
  (forall sha, sha ∈ done ->
     dropped (artifactWorkflows s !! keyOf order0 sha) (m !! keyOf order0 sha)).

Lemma keeps_dropAll (I : Cluster -> Prop) s order keys Q :
  NoDup keys -> (forall sha, awKey order sha = keyOf order0 sha) ->
  (forall done m, (forall sha, sha ∈ done -> sha ∈ keys) -> droppedAll done s m ->
     I (set_artifactWorkflows s m)) ->
  (forall m aws, droppedAll keys s m ->
     (forall sha, aws !! sha = if bool_decide (sha ∈ keys) then None else tracked order !! sha) ->
     Q (set_artifactWorkflows s m) (Ok aws)) ->
  keeps I (for_each keys (deleteTracked order) (tracked order)) s Q.
Proof.
  intros Hnd Hkey HI HQ. apply (keeps_for_each _ (fun done aws s' => exists m,
    s' = set_artifactWorkflows s m /\ droppedAll done s m /\
    (forall sha, aws !! sha = if bool_decide (sha ∈ done) then None else tracked order !! sha)
    /\ forall sha, sha ∈ done -> sha ∈ keys)).
  - exists (artifactWorkflows s). rewrite set_artifactWorkflows_same.
    split_and!; [done|split; [done|set_solver]|done|set_solver].
  - intros done aws s1 (m & -> & Hm & _ & Hsub). exact (HI _ _ Hsub Hm).
  - intros done sha rest aws s1 Hl (m & -> & [Hold Hnew] & Haws & Hsub).
    assert (forall sha', sha' ∈ done ++ [sha] -> sha' ∈ keys) as Hsub' by (rewrite Hl; set_solver).
    assert (I (set_artifactWorkflows s m)) as HIm by (apply (HI done); [done|by split]).
    split; [exact HIm|].
    intros s2 r (m' & -> & Hdel). rewrite set_artifactWorkflows_twice. simpl.
    fold (awKey order sha) in Hdel. rewrite Hkey in Hdel.
    apply deletes_dropped in Hdel as [Hd Hother]. simpl in Hd, Hother.
    assert (sha ∉ done) as Hfresh.
    { rewrite Hl in Hnd. apply NoDup_app in Hnd as (_ & Hdis & _).
      intros Hin. apply (Hdis sha Hin). set_solver. }
    assert (keyOf order0 sha ∉ map (keyOf order0) done) as Hkn.
    { intros (sha' & Heq & Hin)%list_elem_of_fmap. apply keyOf_inj in Heq. by subst. }
    assert (droppedAll (done ++ [sha]) s m') as Hdrop.
    { split.
      - intros k Hk. rewrite map_app in Hk. rewrite Hother, Hold; set_solver.
      - intros sha' [Hin| ->%list_elem_of_singleton]%elem_of_app.
        + rewrite Hother; [by apply Hnew|]. intros Heq%keyOf_inj. by subst.
        + rewrite <- Hold by done. done. }
    split; [exact (HI _ _ Hsub' Hdrop)|].
    eexists. split; [done|]. exists m'. split_and!; [done|done| |done].
    intros sha'. destruct (decide (sha = sha')) as [<-|Hne].
    + by rewrite lookup_delete_eq, bool_decide_true by set_solver.
    + rewrite lookup_delete_ne, Haws by done.
      by rewrite (bool_decide_ext (sha' ∈ done ++ [sha]) (sha' ∈ done)) by set_solver.
  - intros aws s1 (m & -> & Hm & Haws & _). by apply HQ.
Qed.

(** What every step does: stages do not go down, and what is gone stays gone. *)
Record unwinds (s s' : Cluster) : Prop := {
  unwinds_order : orderStage s <= orderStage s';
  unwinds_chains : forall sha, sha ∈ hashes -> chainStage s sha <= chainStage s' sha;
  unwinds_gone : forall sha, sha ∈ hashes -> chainStage s sha = 2 ->
    workflows s !! keyOf order0 sha = None -> workflows s' !! keyOf order0 sha = None;
}.

Lemma unwinds_refl s : unwinds s s.
Proof. by split. Qed.

Lemma chain_same s s' sha :
  artifactWorkflows s' !! keyOf order0 sha = artifactWorkflows s !! keyOf order0 sha ->
  workflows s' !! keyOf order0 sha = workflows s !! keyOf order0 sha ->
  chainWinds s sha -> chainWinds s' sha /\ chainStage s' sha = chainStage s sha.
Proof. unfold chainWinds, chainStage. by intros -> ->. Qed.

Lemma chain_dropped s m sha :
  chainWinds s sha ->
  dropped (artifactWorkflows s !! keyOf order0 sha) (m !! keyOf order0 sha) ->
  let s' := set_artifactWorkflows s m in
  chainWinds s' sha /\ 1 <= chainStage s' sha /\ chainStage s sha <= chainStage s' sha.
Proof.
  intros Hch Hd. unfold chainWinds, chainStage in *. simpl.
  pose proof (fun aw => dropped_deleting _ _ aw Hd) as Hdel.
  destruct (artifactWorkflows s !! _) as [aw|]; simpl in Hd; [|by rewrite Hd; eauto].
  destruct Hch as [Hk Hch]. case_bool_decide as Hf.
  - rewrite Hd. destruct Hch as [Hch|(_ & _ & Hl)]; [by rewrite Hf in Hch|].
    split_and!; [done|lia|case_match; lia].
  - destruct Hch as [Hch|(Hf' & _)]; [|done].
    destruct Hd as (t & md & _ & Hmd & Hnew). rewrite Hnew, (Hdel _ Hnew).
    destruct Hmd as (Hn & Hns & _ & _ & _ & Hfin & _). simpl in *.
    split_and!; [|lia|case_match; lia]. split; [|left; simpl; by rewrite Hfin].
    rewrite <- Hk. unfold wfKey, namespacedName. simpl. by rewrite Hn, Hns.
Qed.

(** What is known of the order when it is found. *)
Lemma winding_found s order :
  winding s -> orders s !! orderKey order0 = Some order ->
  meta_key (Order_ObjectMeta order) = orderKey order0
  /\ (forall sha, awKey order sha = keyOf order0 sha)
  /\ negb (Time_IsZero (DeletionTimestamp (Order_ObjectMeta order))) = true
  /\ Finalizers (Order_ObjectMeta order) = [orderFinalizer].
Proof.
  intros [_ Ho _ [Hd Hf]] Hst. destruct (Ho order Hst) as [(Hn & Hns & _ & _ & _ & Hfin & Hdt) _].
  unfold deleting in Hd. rewrite Hfin, Hdt. split_and!; try done.
  - unfold orderKey, meta_key. by rewrite Hn, Hns.
  - intros sha. unfold keyOf, awKey, awObjectMeta, awName, meta_key. simpl. by rewrite Hn, Hns.
Qed.

(** What holds at every point of a run, and at its end. *)
Definition orderKept (s s' : Cluster) : Prop := winding s' /\ unwinds s s'.
Definition orderProgress (s s' : Cluster) : Prop :=
  orderKept s s' /\ (orderStage s < 2 -> orderStage s < orderStage s').

Lemma orderKept_refl s : winding s -> orderKept s s.
Proof. intros Hw. split; [done|apply unwinds_refl]. Qed.

(** Some of the tracked artifact workflows were deleted. *)
Lemma dropped_kept s done m :
  winding s -> droppedAll done s m -> orderKept s (set_artifactWorkflows s m).
Proof.
  intros Hw [Hold Hdrop]. set (s' := set_artifactWorkflows s m).
  assert (forall sha, sha ∈ hashes -> chainWinds s' sha /\ chainStage s sha <= chainStage s' sha)
    as Hch.
  { intros sha Hin. pose proof (winding_chains _ Hw sha Hin) as Hc.
    destruct (decide (sha ∈ done)) as [Hd|Hd].
    - destruct (chain_dropped s m sha Hc (Hdrop sha Hd)) as (? & _ & ?). done.
    - destruct (chain_same s s' sha) as [? ->]; try done. apply Hold.
      intros (sha' & Heq & Hin')%list_elem_of_fmap. apply keyOf_inj in Heq. by subst. }
  split; [split|split; [done| |done]].
  - intros sha Hin. by apply Hch.
  - apply Hw.
  - intros sha Ho Hin. destruct (Hch sha Hin) as [_ Hle].
    pose proof (winding_dropped _ Hw sha Ho Hin). lia.
  - apply Hw.
  - intros sha Hin. by apply Hch.
Qed.

(** The tracked artifact workflows are deleted and forgotten. *)
Lemma keeps_forget s order :
  winding s -> orders s !! orderKey order0 = Some order -> tracked order <> ∅ ->
  keeps (orderKept s) (OrderController.reconcileDelete order) s (fun s' _ => orderProgress s s').
Proof.
  intros Hw Hst Hne. destruct (winding_found _ _ Hw Hst) as (Hkey & Haw & Hd & Hf).
  destruct (winding_order _ Hw _ Hst) as [Hmeta [Htr|Htr]]; [|done].
  unfold OrderController.reconcileDelete.
  destruct (Nat.ltb_spec 0 (size (tracked order))) as [_|Hz].
  2: { exfalso. apply Hne, map_size_empty_inv. lia. }
  apply keeps_bind, keeps_dropAll; [apply range_NoDup_keys|done| |].
  { intros done m _ Hm. by eapply dropped_kept. }
  intros m aws Hm Haws.
  apply (keeps_single _ _ _ []); [by intros []|by eapply dropped_kept|].
  apply leads_updateStatus.
  { by rewrite Hkey. }
  { unfold released. rewrite Hf. by destruct (negb _). }
  intros t2 md Hmd. rewrite Hkey. enough (orderProgress s (set_orders (set_artifactWorkflows s m)
    (<[orderKey order0 := mkOrder emptyTypeMeta md (Order_Spec order) (mkOrderStatus (Some aws))]>
       (orders s)))) as Hp by (split; [apply Hp|exact Hp]).
  assert (aws = ∅) as ->.
  { apply map_eq. intros sha. rewrite Haws, lookup_empty. case_bool_decide as Hin; [done|].
    rewrite range_keys_elem_of in Hin. by apply eq_None_not_Some. }
  set (s' := set_orders _ _).
  assert (orders s' !! orderKey order0 = Some (mkOrder emptyTypeMeta md (Order_Spec order)
            (mkOrderStatus (Some ∅)))) as Hst' by apply lookup_insert_eq.
  assert (forall sha, sha ∈ hashes -> chainWinds s' sha /\ 1 <= chainStage s' sha
            /\ chainStage s sha <= chainStage s' sha) as Hch.
  { intros sha Hin. apply (chain_dropped s m sha); [by apply winding_chains|].
    apply Hm, range_keys_elem_of. rewrite Htr. by apply elem_of_dom. }
  assert (orderStage s' = 1) as Hs' by (unfold orderStage; by rewrite Hst').
  assert (orderStage s = 0) as Hs by (unfold orderStage; by rewrite Hst, bool_decide_false).
  split; [split; [split|split; [lia| |done]]|lia].
  - intros sha Hin. by apply Hch.
  - intros order' Ho'. rewrite Hst' in Ho'. simplify_eq. split; [|by right].
    by apply (maintained_trans _ (Order_ObjectMeta order)).
  - intros sha _ Hin. by apply Hch.
  - apply Hw.
  - intros sha Hin. by apply Hch.
Qed.

(** The finalizer is removed, and with it the order. *)
Lemma keeps_release s order :
  winding s -> orders s !! orderKey order0 = Some order -> tracked order = ∅ ->
  keeps (orderKept s) (OrderController.reconcileDelete order) s (fun s' _ => orderProgress s s').
Proof.
  intros Hw Hst He. destruct (winding_found _ _ Hw Hst) as (Hkey & Haw & Hd & Hf).
  unfold OrderController.reconcileDelete. rewrite He, map_size_empty, Hf. simpl.
  split; [by apply orderKept_refl|].
  intros s1 r (m & -> & Hup). unfold updates in Hup. cbv zeta in Hup.
  change (meta_key (Order_ObjectMeta (set_Order_ObjectMeta _ _))) with
    (meta_key (Order_ObjectMeta order)) in Hup.
  rewrite Hkey, Hst, bool_decide_true in Hup by done.
  destruct Hup as (-> & x & md & Hx & Hmd & ->). rewrite storedOrder_main in Hx. simplify_eq.
  rewrite (released_maintained _ _ Hmd). unfold released. simpl in *. rewrite Hd. simpl.
  set (s' := set_orders _ _).
  assert (orderStage s' = 2) as Hs' by (unfold orderStage; simpl; by rewrite lookup_delete_eq).
  assert (orderStage s = 1) as Hs by (unfold orderStage; by rewrite Hst, bool_decide_true).
  enough (orderProgress s s') as Hp by (split; [apply Hp|exact Hp]).
  split; [split; [split|split; [lia|done|done]]|lia].
  - intros sha Hin. by apply (winding_chains s).
  - intros order' Ho'. simpl in Ho'. by rewrite lookup_delete_eq in Ho'.
  - intros sha _ Hin. apply (winding_dropped s); [done|lia|done].
  - apply Hw.
Qed.

Lemma keeps_order s :
  winding s ->
  keeps (orderKept s) (OrderController.Reconcile (orderKey order0)) s
    (fun s' _ => orderProgress s s').
Proof.
  intros Hw. unfold OrderController.Reconcile. split; [by apply orderKept_refl|].
  intros s1 r [-> ->].
  destruct (orders s !! orderKey order0) as [order|] eqn:Ho; simpl.
  - destruct (winding_found _ _ Hw Ho) as (_ & _ & -> & _).
    destruct (decide (tracked order = ∅)); [by apply keeps_release|by apply keeps_forget].
  - pose proof (orderKept_refl s Hw). split; [done|]. split; [done|].
    unfold orderStage. rewrite Ho. lia.
Qed.

(** ** A reconciliation of an artifact workflow *)

(** A step that touches the objects of one hash only. *)
Lemma touched_winding s s' sha :
  winding s -> sha ∈ hashes -> touches (keyOf order0 sha) s s' ->
  chainWinds s' sha -> chainStage s sha <= chainStage s' sha -> chainStage s sha < 2 ->
  winding s' /\ unwinds s s'.
Proof.
  intros Hw Hin Ht Hch Hle Hlt.
  assert (orderStage s' = orderStage s) as Hos.
  { unfold orderStage. by rewrite (touches_orders _ _ _ Ht). }
  assert (forall sha', sha' ∈ hashes -> sha' <> sha ->
            chainWinds s' sha' /\ chainStage s' sha' = chainStage s sha'
            /\ workflows s' !! keyOf order0 sha' = workflows s !! keyOf order0 sha') as Hother.
  { intros sha' Hin' Hne.
    assert (keyOf order0 sha' <> keyOf order0 sha) as Hk by (by intros ?%keyOf_inj).
    pose proof (touches_workflows _ _ _ Ht _ Hk) as Hwf.
    destruct (chain_same s s' sha') as [? ?];
      [by apply (touches_aws _ _ _ Ht)|done|by apply winding_chains|].
    done. }
  split; split.
  - intros sha' Hin'. destruct (decide (sha' = sha)) as [->|Hne]; [done|by apply Hother].
  - rewrite (touches_orders _ _ _ Ht). apply Hw.
  - intros sha' Ho Hin'. rewrite Hos in Ho. pose proof (winding_dropped _ Hw sha' Ho Hin').
    destruct (decide (sha' = sha)) as [->|Hne]; [lia|].
    by destruct (Hother sha' Hin' Hne) as (_ & -> & _).
  - apply Hw.
  - lia.
  - intros sha' Hin'. destruct (decide (sha' = sha)) as [->|Hne]; [done|].
    by destruct (Hother sha' Hin' Hne) as (_ & -> & _).
  - intros sha' Hin' H2 Hn. destruct (decide (sha' = sha)) as [->|Hne]; [lia|].
    by destruct (Hother sha' Hin' Hne) as (_ & _ & ->).
Qed.

(** An artifact workflow that is kept, with the finalizer, goes on winding up. *)
Lemma kept_winds sha aw aw' w :
  wfKey aw = keyOf order0 sha -> maintained (AW_ObjectMeta aw) (AW_ObjectMeta aw') ->
  Finalizers (AW_ObjectMeta aw) = [artifactWorkflowFinalizer] ->
  awWinds sha aw' w /\ awDeleting aw' = awDeleting aw.
Proof.
  intros Hk (Hn & Hns & _ & _ & _ & Hfin & Hdt) Hf. unfold awWinds, awDeleting.
  rewrite Hfin, Hdt. split; [|done]. split; [|by left]. rewrite <- Hk. unfold wfKey.
  by rewrite Hn, Hns.
Qed.

Definition awProgress (s : Cluster) (sha : string) (s' : Cluster) : Prop :=
  orderKept s s' /\ (1 <= chainStage s sha -> chainStage s' sha = 2).

Lemma keeps_aw s sha :
  winding s -> sha ∈ hashes ->
  keeps (orderKept s) (ArtifactWorkflowController.Reconcile (keyOf order0 sha)) s
    (fun s' _ => awProgress s sha s').
Proof.
  intros Hw Hin. pose proof (winding_chains _ Hw sha Hin) as Hch. unfold chainWinds in Hch.
  pose proof (orderKept_refl s Hw) as Hrefl.
  destruct (artifactWorkflows s !! keyOf order0 sha) as [aw|] eqn:Haw.
  2: { eapply keeps_mono; [|by apply keeps_absent]. intros s' o ->. split; [done|].
       unfold chainStage. by rewrite Haw. }
  destruct Hch as [Hk Hch].
  assert (chainStage s sha = if awDeleting aw then 1 else 0) as Hstage
    by (unfold chainStage; by rewrite Haw).
  assert (forall s', touches (keyOf order0 sha) s s' -> chainWinds s' sha ->
            chainStage s sha <= chainStage s' sha -> orderKept s s') as Hkept.
  { intros s' Ht Hch' Hle. apply (touched_winding s s' sha); try done. rewrite Hstage.
    destruct (awDeleting aw); lia. }
  rewrite <- Hk in Haw, Hkept |- *.
  destruct (awDeleting aw) eqn:Hd.
  { destruct Hch as [Hf|(_ & ? & _)]; [|done].
    assert (forall s', touches (wfKey aw) s s' ->
      artifactWorkflows s' !! wfKey aw = Some aw \/ artifactWorkflows s' !! wfKey aw = None ->
      leaving (workflows s' !! wfKey aw) -> orderKept s s') as Hmid.
    { intros s' Ht Haw' Hl. apply Hkept; [done|..]; unfold chainWinds, chainStage in *;
        rewrite <- Hk in *; destruct Haw' as [-> | ->]; try done.
      - split; [by rewrite <- Hk|by left].
      - rewrite Hstage. by rewrite Hd.
      - rewrite Hstage. lia. }
    eapply keeps_mono; [|by apply keeps_cleanup]. intros s' o (_ & Hno & Hwf & Ht).
    split; [by apply Hmid; [| right|]|]. intros _. unfold chainStage. by rewrite <- Hk, Hno. }
  destruct Hch as [Hf|(Hf & _ & Hl)].
  - assert (forall s', touches (wfKey aw) s s' -> keptAW aw (artifactWorkflows s' !! wfKey aw) ->
      orderKept s s') as Hmid.
    { intros s' Ht (aw' & Haw' & Hmd). apply Hkept; [done| |rewrite Hstage; lia].
      unfold chainWinds. rewrite <- Hk, Haw'. by apply (kept_winds sha aw). }
    eapply keeps_mono; [|apply keeps_live; [done|done| |exact Hmid]].
    + intros s' o (Ht & Hkeep). split; [by apply Hmid|]. rewrite Hstage. lia.
    + unfold awClaimed. by rewrite Hf.
  - assert (forall md, maintained (AW_ObjectMeta (awWithFinalizer aw)) md ->
      orderKept s (set_artifactWorkflows s
        (<[wfKey aw := claimedAW aw md]> (artifactWorkflows s)))) as Hmid.
    { intros md Hmd. apply Hkept; [apply touches_aw| |rewrite Hstage; lia].
      unfold chainWinds. rewrite <- Hk. cbn [artifactWorkflows set_artifactWorkflows].
      rewrite lookup_insert_eq.
      apply (kept_winds sha (awWithFinalizer aw)); [done|done|]. simpl. by rewrite Hf. }
    eapply keeps_mono; [|apply keeps_claim; [done|done| |done|exact Hmid]].
    + intros s' o (md & Hmd & ->). split; [by apply Hmid|]. rewrite Hstage. lia.
    + unfold awClaimed. by rewrite Hf.
Qed.

(** ** The system *)

(** Everything else leaves the order and its artifact workflows alone; nobody starts
    an Argo workflow under their names or revives one that is being deleted. *)
Record aside (s s' : Cluster) : Prop := {
  aside_order : orders s' !! orderKey order0 = orders s !! orderKey order0;
  aside_aws : forall sha, sha ∈ hashes ->
    artifactWorkflows s' !! keyOf order0 sha = artifactWorkflows s !! keyOf order0 sha;
  aside_workflows : forall sha wf', sha ∈ hashes ->
    workflows s' !! keyOf order0 sha = Some wf' ->
    exists wf, workflows s !! keyOf order0 sha = Some wf
      /\ (Time_IsZero (DeletionTimestamp (Workflow_ObjectMeta wf)) = false ->
          Time_IsZero (DeletionTimestamp (Workflow_ObjectMeta wf')) = false);
}.

Definition quietly (s : Cluster) (lb : label) (s' : Cluster) : Prop :=
  match lb with
  | OrderReconciled => exists o, steps (OrderController.Reconcile (orderKey order0)) s s' o
  | AWReconciled sha =>
      sha ∈ hashes /\
      exists o, steps (ArtifactWorkflowController.Reconcile (keyOf order0 sha)) s s' o
  | OrderCutOff => partial (OrderController.Reconcile (orderKey order0)) s s'
  | AWCutOff sha =>
      sha ∈ hashes /\ partial (ArtifactWorkflowController.Reconcile (keyOf order0 sha)) s s'
  | Elsewhere => aside s s'
  end.

Lemma aside_step s s' : winding s -> aside s s' -> winding s' /\ unwinds s s'.
Proof.
  intros Hw [Ho Haw Hwf].
  assert (forall sha, sha ∈ hashes -> chainStage s' sha = chainStage s sha) as Hcs
    by (intros sha Hin; unfold chainStage; by rewrite Haw).
  assert (orderStage s' = orderStage s) as Hos by (unfold orderStage; by rewrite Ho).
  assert (forall sha, sha ∈ hashes -> leaving (workflows s !! keyOf order0 sha) ->
            leaving (workflows s' !! keyOf order0 sha)) as Hl.
  { intros sha Hin Hl wf' Hwf'. destruct (Hwf sha wf' Hin Hwf') as (wf & Hw0 & Hdt).
    by apply Hdt, Hl. }
  split; split.
  - intros sha Hin. pose proof (winding_chains _ Hw sha Hin) as Hch. unfold chainWinds in *.
    rewrite Haw by done. destruct (artifactWorkflows s !! _) as [aw|]; [|by apply Hl].
    destruct Hch as [Hk [Hf|(Hf & Hd & Hlv)]]; split; [done|by left|done|].
    right. split_and!; [done|done|by apply Hl].
  - rewrite Ho. apply Hw.
  - intros sha Hle Hin. rewrite Hcs by done. apply (winding_dropped _ Hw); [lia|done].
  - apply Hw.
  - lia.
  - intros sha Hin. by rewrite Hcs.
  - intros sha Hin _ Hn. destruct (workflows s' !! _) as [wf'|] eqn:Hwf'; [|done].
    destruct (Hwf sha wf' Hin Hwf') as (wf & Hw0 & _). congruence.
Qed.

Lemma winding_step s lb s' : winding s -> quietly s lb s' -> orderKept s s'.
Proof.
  intros Hw Hst. destruct lb as [|sha| |sha|]; cbn [quietly] in Hst.
  - destruct Hst as [o Hst%steps_partial]. exact (keeps_partial _ _ _ _ _ (keeps_order s Hw) Hst).
  - destruct Hst as [Hin [o Hst%steps_partial]].
    exact (keeps_partial _ _ _ _ _ (keeps_aw s sha Hw Hin) Hst).
  - exact (keeps_partial _ _ _ _ _ (keeps_order s Hw) Hst).
  - destruct Hst as [Hin Hst]. exact (keeps_partial _ _ _ _ _ (keeps_aw s sha Hw Hin) Hst).
  - by apply aside_step.
Qed.

End cleanup.

(** ** Executions *)

Section execution.
Context `{GoRuntime} `{Float64} `{ControllerUtil}.
Context (order0 : Order).
Context (at_ : nat -> Cluster) (lab : nat -> label).

(** An execution from the start: the order and each of its artifact workflows are
    reconciled to the end again and again, next to reconciliations that are cut off at
    any point, and Argo lets go of what is being deleted. *)
Record fair_ending : Prop := {
  ending_begins : endsAt order0 (at_ 0);
  ending_steps : forall n, quietly order0 (at_ n) (lab n) (at_ (S n));
  ending_order : always_eventually (fun m => lab m = OrderReconciled);
  ending_aws : forall sha, sha ∈ hashes order0 ->
    always_eventually (fun m => lab m = AWReconciled sha);
  ending_argo : forall sha n, sha ∈ hashes order0 ->
    leaving (workflows (at_ n) !! keyOf order0 sha) ->
    exists m, n <= m /\ workflows (at_ m) !! keyOf order0 sha = None;
}.

(** Nothing is left of the order. *)
Definition vanished (s : Cluster) : Prop :=
  orders s !! orderKey order0 = None
  /\ forall sha, sha ∈ hashes order0 ->
       artifactWorkflows s !! keyOf order0 sha = None
       /\ workflows s !! keyOf order0 sha = None.

Hypothesis Hfair : fair_ending.

Lemma winding_always n : winding order0 (at_ n).
Proof.
  induction n as [|n IH]; [by apply ends_winding, ending_begins|].
  by destruct (winding_step _ _ _ _ IH (ending_steps Hfair n)).
Qed.

Lemma unwinds_later n m : n <= m -> unwinds order0 (at_ n) (at_ m).
Proof.
  intros Hnm. induction Hnm as [|m _ [Ho Hc Hg]]; [apply unwinds_refl|].
  destruct (winding_step _ _ _ _ (winding_always m) (ending_steps Hfair m)) as [_ [Ho' Hc' Hg']].
  split; [lia| |].
  - intros sha Hin. specialize (Hc sha Hin). specialize (Hc' sha Hin). lia.
  - intros sha Hin H2 Hn. apply Hg'; [done| |by apply Hg].
    specialize (Hc sha Hin). unfold chainStage in *. repeat case_match; lia.
Qed.

Lemma orderStage_le s : orderStage order0 s <= 2.
Proof. unfold orderStage. repeat case_match; lia. Qed.

Lemma chainStage_le s sha : chainStage order0 s sha <= 2.
Proof. unfold chainStage. repeat case_match; lia. Qed.

(** One reconciliation of the order, then another. *)
Lemma order_stage_reached k : k <= 2 -> exists n, k <= orderStage order0 (at_ n).
Proof.
  induction k as [|k IH]; intros Hk; [exists 0; lia|]. destruct IH as [n Hn]; [lia|].
  destruct (ending_order Hfair n) as (m & Hm & Hlab).
  pose proof (unwinds_order _ _ _ (unwinds_later n m Hm)).
  pose proof (ending_steps Hfair m) as Hst. rewrite Hlab in Hst. destruct Hst as [o Hst].
  destruct (leads_steps _ _ _ _ _ _ (keeps_leads _ _ _ [] _
    (keeps_order _ _ (winding_always m))) Hst) as (_ & [_ [Hup _ _]] & Hlt).
  exists (S m). pose proof (orderStage_le (at_ m)).
  destruct (decide (orderStage order0 (at_ m) < 2)) as [Hlt2|Hge]; [specialize (Hlt Hlt2)|]; lia.
Qed.

Lemma chain_stage_reached sha : sha ∈ hashes order0 -> exists n, chainStage order0 (at_ n) sha = 2.
Proof.
  intros Hin. destruct (order_stage_reached 1 ltac:(lia)) as [n Hn].
  destruct (ending_aws Hfair sha Hin n) as (m & Hm & Hlab).
  pose proof (unwinds_order _ _ _ (unwinds_later n m Hm)).
  pose proof (ending_steps Hfair m) as Hst. rewrite Hlab in Hst. destruct Hst as [_ [o Hst]].
  pose proof (winding_dropped _ _ (winding_always m) sha ltac:(lia) Hin) as H1s.
  destruct (leads_steps _ _ _ _ _ _ (keeps_leads _ _ _ [] _
    (keeps_aw _ _ sha (winding_always m) Hin)) Hst) as (_ & _ & Hs2). exists (S m). by apply Hs2.
Qed.

Lemma chain_gone sha :
  sha ∈ hashes order0 ->
  exists n, forall m, n <= m -> artifactWorkflows (at_ m) !! keyOf order0 sha = None
    /\ workflows (at_ m) !! keyOf order0 sha = None.
Proof.
  intros Hin. destruct (chain_stage_reached sha Hin) as [n Hn].
  assert (forall m, n <= m -> chainStage order0 (at_ m) sha = 2) as Hstay.
  { intros m Hm. pose proof (unwinds_chains _ _ _ (unwinds_later n m Hm) sha Hin).
    pose proof (chainStage_le (at_ m) sha). lia. }
  assert (forall m, n <= m -> artifactWorkflows (at_ m) !! keyOf order0 sha = None) as Haw.
  { intros m Hm. specialize (Hstay m Hm). unfold chainStage in Hstay. by repeat case_match. }
  destruct (ending_argo Hfair sha n Hin) as (n' & Hn' & Hno).
  { pose proof (winding_chains _ _ (winding_always n) sha Hin) as Hch. unfold chainWinds in Hch.
    by rewrite Haw in Hch. }
  exists n'. intros m Hm. split; [apply Haw; lia|].
  by apply (unwinds_gone _ _ _ (unwinds_later n' m Hm)); [|apply Hstay|].
Qed.

(** C2: a deleted order disappears.  In every execution from a cluster with an order
    that is being deleted and waits for its controller only, in which the order and
    its artifact workflows are reconciled again and again, whatever reconciliations are
    cut off between two calls meanwhile, and Argo lets go of the workflows that are
    being deleted, from some point on and forever the order, all
    artifact workflows it tracked and all their Argo workflows are gone. *)
Theorem order_vanishes : exists n, forall m, n <= m -> vanished (at_ m).
Proof.
  destruct (order_stage_reached 2 ltac:(lia)) as [n1 Hn1].
  destruct (eventually_all (elements (hashes order0))
    (fun sha m => artifactWorkflows (at_ m) !! keyOf order0 sha = None
       /\ workflows (at_ m) !! keyOf order0 sha = None)) as [n2 Hn2].
  { intros sha Hin%elem_of_elements. by apply chain_gone. }
  exists (Nat.max n1 n2). intros m Hm. split.
  - pose proof (unwinds_order _ _ _ (unwinds_later n1 m ltac:(lia))) as Ho.
    unfold orderStage in *. repeat case_match; [lia..|done].
  - intros sha Hin%elem_of_elements. by apply Hn2; [lia|].
Qed.

End execution.

(** ** A witness

    An order with two artifact workflows: one runs an Argo workflow, which Argo keeps
    until it has cleaned up after it, the other was never claimed.  The order, Argo and
    the artifact workflows take turns, next to reconciliations that are cut off. *)

#[local] Existing Instance plain_runtime.
#[local] Existing Instance plain_float64.
#[local] Existing Instance plain_util.

Definition doomed : Order :=
  exOrder (Some 9%Z) [orderFinalizer] []
    {["1" := mkOrderArtifactWorkflowStatus 0 WorkflowPending "";
      "2" := mkOrderArtifactWorkflowStatus 1 WorkflowUnknown ""]}.

Definition doomedKey (sha : string) : NamespacedName := mkNamespacedName "ns" ("order-" +++ sha).

Definition doomedWorkflow : Workflow :=
  let wf := ArtifactWorkflowExamples.exWorkflow "Running" in
  set_Workflow_ObjectMeta wf (set_Finalizers (Workflow_ObjectMeta wf) ["argo"]).

Definition doomedCluster : Cluster :=
  mkCluster {[mkNamespacedName "ns" "order" := doomed]} ∅ ∅ ∅
    {[doomedKey "1" := ArtifactWorkflowExamples.exAW None WorkflowPending;
      doomedKey "2" := OrderExamples.exWorkflow doomed "2" WorkflowUnknown]}
    {[doomedKey "1" := doomedWorkflow]}.

(** Argo lets go of everything that is being deleted. *)
Definition argoLetsGo (s : Cluster) : Cluster :=
  set_workflows s (filter (fun kw =>
    Time_IsZero (DeletionTimestamp (Workflow_ObjectMeta kw.2)) = true) (workflows s)).

Definition turn (lb : label) (s : Cluster) : Cluster :=
  match lb with
  | OrderReconciled => (run memory_serve (OrderController.Reconcile (orderKey doomed)) s).1
  | AWReconciled sha =>
      (run memory_serve (ArtifactWorkflowController.Reconcile (keyOf doomed sha)) s).1
  | OrderCutOff => runFor 2 (OrderController.Reconcile (orderKey doomed)) s
  | AWCutOff sha => runFor 2 (ArtifactWorkflowController.Reconcile (keyOf doomed sha)) s
  | Elsewhere => argoLetsGo s
  end.

Definition turns : list label :=
  [OrderCutOff; OrderReconciled; Elsewhere; AWCutOff "1"; AWReconciled "1"; AWReconciled "2"].

Fixpoint doomedAt (n : nat) : Cluster :=
  match n with
  | 0 => doomedCluster
  | S n => turn (roundRobin turns n) (doomedAt n)
  end.

Definition nothingLeft (s : Cluster) : Prop :=
  orders s !! orderKey doomed = None /\ artifactWorkflows s = ∅ /\ workflows s = ∅.

Lemma nothing_after_nine : nothingLeft (doomedAt 9).
Proof. split_and!; vm_compute; reflexivity. Qed.

Lemma nothing_stays lb s : nothingLeft s -> turn lb s = s.
Proof.
  destruct s as [os es ss ts aws wfs]. intros (Ho & Haw & Hwf). simpl in Ho, Haw, Hwf. subst.
  destruct lb as [|sha| |sha|]; unfold turn.
  - unfold OrderController.Reconcile. cbn [run bind do_call memory_serve stamping_serve orders].
    rewrite Ho. reflexivity.
  - reflexivity.
  - unfold OrderController.Reconcile. cbn [runFor bind do_call].
    cbn [serve memory_server memory_serve stamping_serve orders]. rewrite Ho. reflexivity.
  - reflexivity.
  - unfold argoLetsGo, set_workflows. cbn [orders workflows]. by rewrite map_filter_empty.
Qed.

Lemma nothing_later n : 9 <= n -> nothingLeft (doomedAt n).
Proof.
  induction 1 as [|n _ IH]; [apply nothing_after_nine|]. cbn [doomedAt]. by rewrite nothing_stays.
Qed.

Lemma letsGo_aside s : aside doomed s (argoLetsGo s).
Proof.
  split; try done. intros sha wf' _ Hwf'. simpl in Hwf'.
  apply map_lookup_filter_Some in Hwf' as [Hwf' _]. eauto.
Qed.

Lemma doomed_hashes sha : sha ∈ hashes doomed <-> sha = "1" \/ sha = "2".
Proof.
  unfold hashes. change (tracked doomed) with
    ({["1" := mkOrderArtifactWorkflowStatus 0 WorkflowPending "";
       "2" := mkOrderArtifactWorkflowStatus 1 WorkflowUnknown ""]}
      : gmap string OrderArtifactWorkflowStatus).
  set_solver.
Qed.

Lemma turns_hashes n :
  match roundRobin turns n with
  | AWReconciled sha | AWCutOff sha => sha ∈ hashes doomed
  | _ => True
  end.
Proof.
  pose proof (roundRobin_in turns n) as Hin. unfold turns in Hin at 2.
  rewrite !elem_of_cons, elem_of_nil in Hin.
  destruct Hin as [[-> |[-> |[-> |[-> |[-> |[-> |[]]]]]]]| ->]; try done; apply doomed_hashes; auto.
Qed.

Lemma turn_quiet n : quietly doomed (doomedAt n) (roundRobin turns n) (doomedAt (S n)).
Proof.
  cbn [doomedAt]. pose proof (turns_hashes n) as Hin.
  set (s := doomedAt n). destruct (roundRobin turns n) as [|sha| |sha|].
  - eexists. exact (run_steps (OrderController.Reconcile (orderKey doomed)) s).
  - split; [exact Hin|].
    eexists. exact (run_steps (ArtifactWorkflowController.Reconcile (keyOf doomed sha)) s).
  - exact (runFor_partial 2 (OrderController.Reconcile (orderKey doomed)) s).
  - split; [exact Hin|].
    exact (runFor_partial 2 (ArtifactWorkflowController.Reconcile (keyOf doomed sha)) s).
  - apply letsGo_aside.
Qed.

Lemma doomed_ends : endsAt doomed doomedCluster.
Proof.
  split; [reflexivity..|]. intros sha [->| ->]%doomed_hashes.
  - split; [reflexivity|]. by left.
  - split; [reflexivity|]. right. split_and!; [reflexivity..|].
    intros wf Hwf. by vm_compute in Hwf.
Qed.

Lemma doomed_fair : fair_ending doomed doomedAt (roundRobin turns).
Proof.
  split.
  - exact doomed_ends.
  - exact turn_quiet.
  - apply roundRobin_again. right. by left.
  - intros sha [->| ->]%doomed_hashes; apply roundRobin_again; unfold turns; set_solver.
  - intros sha n _ _. exists (Nat.max n 9). split; [lia|].
    destruct (nothing_later (Nat.max n 9)) as (_ & _ & ->); [lia|]. apply lookup_empty.
Qed.

Lemma order_vanishes_witness :
  fair_ending doomed doomedAt (roundRobin turns)
  /\ exists n, forall m, n <= m -> vanished doomed (doomedAt m).
Proof. split; [exact doomed_fair|exact (order_vanishes doomed _ _ doomed_fair)]. Defined.
