(* ===== verification/ControllerSetup.v ===== *)
(** * The registration of the controllers

    [SetupWithManager] of both reconcilers tells controller-runtime which kinds to
    watch and how a change is turned into requests.  The handlers are part of
    controller-runtime and a parameter; what is relied on is that the object handler
    enqueues the key of the object, and that the owner handler finds the owner that
    [SetControllerReference] made the controller. *)

From stdpp Require Import base gmap list strings.
From S2P Require Import Prelude GoStd KubeTypes V1alpha1Types Client ControllerRuntime.
From S2P Require Import OrderController OrderFetch OrderApply OrderFacts OrderConverge OrderTheorems.
From S2P Require Import ArtifactWorkflowController ArtifactWorkflowFacts ArtifactWorkflowTheorems.
From S2P Require Import OrderExamples.

Local Open Scope string_scope.
Local Open Scope list_scope.

(** ** Registrations *)

Inductive objectKind := OrderKind | ArtifactWorkflowKind | EndpointKind | WorkflowKind.

#[export] Instance objectKind_eq_dec : EqDecision objectKind.
Proof. solve_decision. Defined.

(** The kind as it stands in an owner reference. *)
Definition kindString (k : objectKind) : string :=
  match k with
  | OrderKind => "Order"
  | ArtifactWorkflowKind => "ArtifactWorkflow"
  | EndpointKind => "Endpoint"
  | WorkflowKind => "Workflow"
  end.

Inductive Predicate := ResourceVersionChanged.

(** What the builder was told: the kind reconciled, the kinds owned, and the endpoint
    watches with their mapping function and predicates. *)
Record Registration := mkRegistration {
  For : objectKind;
  Owns : list objectKind;
  Watches : list ((Endpoint -> prog (list NamespacedName)) * list Predicate);
}.

Definition Order_SetupWithManager : Registration :=
  mkRegistration OrderKind [ArtifactWorkflowKind]
    [(generateReconcileRequestsForEndpoint, [ResourceVersionChanged])].

Definition ArtifactWorkflow_SetupWithManager : Registration :=
  mkRegistration ArtifactWorkflowKind [WorkflowKind] [].

(** ** Requests *)

Class ControllerHandlers `{ControllerUtil} := {
  enqueueObject : ObjectMeta -> list NamespacedName;
  enqueueOwner : string -> ObjectMeta -> list NamespacedName;
  enqueueObject_key m : enqueueObject m = [meta_key m];
  enqueueOwner_controller kind owner m m' m'' :
    OwnerReferences m = [] -> SetControllerReference kind owner m = inr m' ->
    Namespace m'' = Namespace m' -> OwnerReferences m'' = OwnerReferences m' ->
    enqueueOwner kind m'' = [namespacedName (Namespace m'') (Name owner)];
}.

Section Setup.
Context `{GoRuntime} `{Float64} `{ControllerUtil} `{!ControllerHandlers}.

(** The requests of a controller for a change of an object of a kind. *)
Definition requests (r : Registration) (k : objectKind) (m : ObjectMeta)
  : list NamespacedName :=
  (if decide (k = For r) then enqueueObject m else [])
  ++ (if decide (k ∈ Owns r) then enqueueOwner (kindString (For r)) m else []).

(** C23: an artifact workflow created in a reconciliation of an order, and an Argo
    workflow created in one of an artifact workflow, are registered with their
    creator: whenever the object changes later, with whatever status, as long as it
    keeps its namespace and owners, exactly the order, respectively the artifact
    workflow, is enqueued for reconciliation, and by no other controller of the two
    except the one that reconciles the object itself. *)
Theorem created_objects_enqueue_creator :
  (forall req t o aw m,
     exec (OrderController.Reconcile req) t o -> CreateArtifactWorkflow aw ∈ writes t ->
     Namespace m = Namespace (AW_ObjectMeta aw) ->
     OwnerReferences m = OwnerReferences (AW_ObjectMeta aw) ->
     exists order t', t = ev (GetOrder req) (inr order) :: t'
       /\ requests Order_SetupWithManager ArtifactWorkflowKind m
          = [meta_key (Order_ObjectMeta order)]
       /\ requests ArtifactWorkflow_SetupWithManager ArtifactWorkflowKind m = [meta_key m])
  /\ (forall req t o wf m,
     exec (ArtifactWorkflowController.Reconcile req) t o -> CreateWorkflow wf ∈ writes t ->
     Namespace m = Namespace (Workflow_ObjectMeta wf) ->
     OwnerReferences m = OwnerReferences (Workflow_ObjectMeta wf) ->
     exists aw t', t = ev (GetArtifactWorkflow req) (inr aw) :: t'
       /\ requests ArtifactWorkflow_SetupWithManager WorkflowKind m
          = [meta_key (AW_ObjectMeta aw)]
       /\ requests Order_SetupWithManager WorkflowKind m = []).
Proof.
  split.
  - intros req t o aw m Hex Hin Hns Href.
    destruct (order_created _ _ _ _ Hex Hin) as (order & t' & t'' & l & sha & -> & _ & _ & _ & _ & Hcr).
    exists order, t'. split; [done|].
    destruct Hcr as (daw & aw' & meta & Hdaw & Haw & Hset & [= ->]).
    assert (AW_ObjectMeta aw' = awObjectMeta order sha) as Hmeta.
    { unfold WorkflowParameters.hydrateArtifactWorkflow in Haw.
      destruct (WorkflowParameters.dawToParameters daw); simplify_eq/=.
      by apply desiredFrom_meta in Hdaw. }
    rewrite Hmeta in Hset. simpl in Hns, Href.
    split; [|unfold requests; simpl; by rewrite enqueueObject_key].
    unfold requests. simpl.
    rewrite (enqueueOwner_controller _ _ (awObjectMeta order sha) _ m eq_refl Hset Hns Href).
    apply SetControllerReference_frame in Hset as (ref & -> & _); [|done].
    by rewrite Hns.
  - intros req t o wf m Hex Hin Hns Href.
    destruct (argo_created _ _ _ _ Hex Hin)
      as (aw & at_ & src & dst & r & t' & -> & _ & _ & _ & meta & Hset & -> & _).
    eexists aw, _. split; [done|]. simpl in Hns, Href. split; [|done].
    unfold requests. simpl.
    rewrite (enqueueOwner_controller _ _ (wfMeta aw) _ m eq_refl Hset Hns Href).
    apply SetControllerReference_frame in Hset as (ref & -> & _); [|done].
    by rewrite Hns.
Qed.
End Setup.

(** ** An instance and a witness *)

#[local] Existing Instance plain_runtime.
#[local] Existing Instance plain_float64.
#[local] Existing Instance plain_util.

(** The owner handler looks for the controller of the wanted kind. *)
Program Definition plain_handlers : ControllerHandlers := {|
  enqueueObject m := [meta_key m];
  enqueueOwner kind m :=
    map (fun r => namespacedName (Namespace m) (OwnerReference_Name r))
      (List.filter (fun r => String.eqb (OwnerReference_Kind r) kind
                             && default false (OwnerReference_Controller r))
         (OwnerReferences m));
|}.
Next Obligation. done. Qed.
Next Obligation.
  simpl. intros kind owner m m' m'' Hm Hset _ ->.
  unfold plain_SetControllerReference in Hset. case_match; simplify_eq. rewrite Hm. simpl.
  by rewrite String.eqb_refl.
Qed.

(** The key of the order that a trace begins by reading. *)
Definition key_read (t : list event) : option NamespacedName :=
  match t with
  | existT (GetOrder _) (inr order) :: _ => Some (meta_key (Order_ObjectMeta order))
  | _ => None
  end.

Lemma key_read1 : key_read trace1 = Some req1.
Proof. vm_compute. reflexivity. Qed.

Lemma created_objects_enqueue_creator_witness :
  exists order, meta_key (Order_ObjectMeta order) = req1
    /\ requests (H2 := plain_handlers) Order_SetupWithManager
         ArtifactWorkflowKind (AW_ObjectMeta created1) = [meta_key (Order_ObjectMeta order)].
Proof.
  pose proof (created_objects_enqueue_creator (H2 := plain_handlers)) as [H _].
  destruct (H req1 trace1 outcome1 created1 (AW_ObjectMeta created1) exec1 created1_in
              eq_refl eq_refl) as (order & t' & Ht & Hr & _).
  exists order. split; [|exact Hr].
  apply (inj Some). transitivity (key_read trace1); [|exact key_read1].
  rewrite Ht. reflexivity.
Defined.
