(* ===== verification/GoFlag.v ===== *)
(** * The packages flag, strconv and time of Go, as far as a command line needs them

    [FlagSet.Parse] with the error handling ExitOnError, [strconv.ParseBool] and
    [time.ParseDuration].  The variables that flags set are a state; a duration is a
    number of nanoseconds, its fractions computed in IEEE arithmetic as in Go. *)

From stdpp Require Import base gmap list strings.
From Stdlib Require Import ZArith Ascii Floats.SpecFloat.
From S2P Require Import Prelude GoStd.

Local Open Scope string_scope.
Local Open Scope list_scope.
Local Open Scope Z_scope.

(** ** [strconv.ParseBool] *)

Definition ParseBool (s : string) : option bool :=
  if bool_decide (s ∈ ["1"; "t"; "T"; "TRUE"; "true"; "True"]) then Some true
  else if bool_decide (s ∈ ["0"; "f"; "F"; "FALSE"; "false"; "False"]) then Some false
  else None.

Definition FormatBool (b : bool) : string := if b then "true" else "false".

Lemma ParseBool_FormatBool b : ParseBool (FormatBool b) = Some b.
Proof. by destruct b. Qed.

(** ** [time.ParseDuration] *)

Definition isDigit (c : ascii) : bool :=
  (48 <=? Z.of_nat (nat_of_ascii c)) && (Z.of_nat (nat_of_ascii c) <=? 57).
Definition digitValue (c : ascii) : Z := Z.of_nat (nat_of_ascii c) - 48.

(** [leadingInt]: the digits at the front, unless they overflow. *)
Fixpoint leadingInt (x : Z) (s : string) : option (Z * string) :=
  match s with
  | String c rest =>
      if isDigit c then
        if 2 ^ 63 / 10 <? x then None
        else let x := x * 10 + digitValue c in
             if 2 ^ 63 <? x then None else leadingInt x rest
      else Some (x, s)
  | EmptyString => Some (x, s)
  end.

(** [leadingFraction]: the digits of a fraction and their scale; digits that overflow
    are skipped. *)
Fixpoint leadingFraction (x scale : Z) (overflow : bool) (s : string) : Z * Z * string :=
  match s with
  | String c rest =>
      if isDigit c then
        if overflow then leadingFraction x scale true rest
        else if (2 ^ 63 - 1) / 10 <? x then leadingFraction x scale true rest
        else let y := x * 10 + digitValue c in
             if 2 ^ 63 <? y then leadingFraction x scale true rest
             else leadingFraction y (scale * 10) false rest
      else (x, scale, s)
  | EmptyString => (x, scale, s)
  end.

(** The letters of a unit. *)
Fixpoint takeUnit (s : string) : string * string :=
  match s with
  | String c rest =>
      if Ascii.eqb c "."%char || isDigit c then ("", s)
      else let '(u, rest) := takeUnit rest in (String c u, rest)
  | EmptyString => ("", "")
  end.

(** The bytes of the micro sign and of the letter mu before the s. *)
Definition microSign : string := String (ascii_of_nat 194) (String (ascii_of_nat 181) "s").
Definition mu : string := String (ascii_of_nat 206) (String (ascii_of_nat 188) "s").

Definition unitMap (u : string) : option Z :=
  if String.eqb u "ns" then Some 1
  else if String.eqb u "us" || String.eqb u microSign || String.eqb u mu then Some (10 ^ 3)
  else if String.eqb u "ms" then Some (10 ^ 6)
  else if String.eqb u "s" then Some (10 ^ 9)
  else if String.eqb u "m" then Some (60 * 10 ^ 9)
  else if String.eqb u "h" then Some (3600 * 10 ^ 9)
  else None.

(** float64, and its conversion to an integer. *)
Definition float64 (x : Z) : spec_float := binary_normalize 53 1024 x 0 false.
Definition truncate (f : spec_float) : Z :=
  match f with
  | S754_finite sign m e =>
      let v := if 0 <=? e then Zpos m * 2 ^ e else Zpos m / 2 ^ (- e) in
      if sign then - v else v
  | _ => 0
  end.

(** [uint64(float64(f) * (float64(unit) / scale))]. *)
Definition fraction (f unit scale : Z) : Z :=
  truncate (SFmul 53 1024 (float64 f) (SFdiv 53 1024 (float64 unit) (float64 scale))).

(** One number with its unit, at the front of a string that is not empty. *)
Definition parsePart (s : string) : option (Z * string) :=
  match s with
  | EmptyString => None
  | String c _ =>
      if negb (Ascii.eqb c "."%char || isDigit c) then None
      else match leadingInt 0 s with
           | None => None
           | Some (v, s1) =>
               let pre := negb (String.length s1 =? String.length s)%nat in
               let '(f, scale, s2, post) :=
                 match s1 with
                 | String "." s' =>
                     let '(f, scale, s2) := leadingFraction 0 1 false s' in
                     (f, scale, s2, negb (String.length s2 =? String.length s')%nat)
                 | _ => (0, 1, s1, false)
                 end in
               if negb pre && negb post then None
               else let '(u, rest) := takeUnit s2 in
                    if String.eqb u "" then None
                    else match unitMap u with
                         | None => None
                         | Some unit =>
                             if 2 ^ 63 / unit <? v then None
                             else let v := v * unit in
                                  let v := if 0 <? f then v + fraction f unit scale else v in
                                  if 2 ^ 63 <? v then None else Some (v, rest)
                         end
           end
  end.

(** The loop over the parts; each is at least one byte long.  The sum is a uint64. *)
Fixpoint parseParts (fuel : nat) (d : Z) (s : string) : option Z :=
  match s, fuel with
  | EmptyString, _ => Some d
  | _, O => None
  | _, S fuel =>
      match parsePart s with
      | None => None
      | Some (v, rest) =>
          let d := (d + v) mod 2 ^ 64 in
          if 2 ^ 63 <? d then None else parseParts fuel d rest
      end
  end.

Definition ParseDuration (s : string) : option Z :=
  let '(neg, s) :=
    match s with
    | String "-" s' => (true, s')
    | String "+" s' => (false, s')
    | _ => (false, s)
    end in
  if String.eqb s "0" then Some 0
  else if String.eqb s "" then None
  else match parseParts (String.length s) 0 s with
       | None => None
       | Some d =>
           if neg then Some (- d) else if 2 ^ 63 - 1 <? d then None else Some d
       end.

Example duration_seconds : ParseDuration "10s" = Some (10 * 10 ^ 9).
Proof. vm_compute. reflexivity. Qed.
Example duration_mixed : ParseDuration "-1h2m3.5s" = Some (- (3723 * 10 ^ 9 + 5 * 10 ^ 8)).
Proof. vm_compute. reflexivity. Qed.
Example duration_fraction : ParseDuration ".3h" = Some (18 * 60 * 10 ^ 9).
Proof. vm_compute. reflexivity. Qed.
Example duration_unitless : ParseDuration "10" = None.
Proof. vm_compute. reflexivity. Qed.
Example duration_overflow : ParseDuration "9223372036854775808ns" = None.
Proof. vm_compute. reflexivity. Qed.
Example duration_least : ParseDuration "-9223372036854775808ns" = Some (- 2 ^ 63).
Proof. vm_compute. reflexivity. Qed.

(** ** A duration in nanoseconds *)

Definition digit (x : Z) : ascii := ascii_of_nat (48 + Z.to_nat x).

(** The decimal digits of a number before a string. *)
Fixpoint digits (fuel : nat) (x : Z) (rest : string) : string :=
  match fuel with
  | O => rest
  | S fuel =>
      let rest := String (digit (x mod 10)) rest in
      if x <? 10 then rest else digits fuel (x / 10) rest
  end.

(** 19 digits are enough for 2^63. *)
Definition FormatNanoseconds (x : Z) : string :=
  if x <? 0 then String "-" (digits 19 (- x) "ns") else digits 19 x "ns".

Lemma digit_spec x : 0 <= x < 10 -> isDigit (digit x) = true /\ digitValue (digit x) = x.
Proof.
  intros Hx. unfold isDigit, digitValue, digit. rewrite nat_ascii_embedding by lia.
  rewrite andb_true_iff, !Z.leb_le. lia.
Qed.

(** Arithmetic with quotients and remainders. *)
Ltac quotients := Z.to_euclidean_division_equations; lia.

Lemma leadingInt_digits fuel x rest :
  0 <= x <= 2 ^ 63 -> x < 10 ^ Z.of_nat fuel -> (0 < fuel)%nat ->
  leadingInt 0 (digits fuel x rest) = leadingInt x rest.
Proof.
  revert x rest. induction fuel as [|fuel IH]; intros x rest Hx Hf Hpos; [lia|].
  cbn [digits]. destruct (digit_spec (x mod 10)) as [Hd Hv]; [apply Z.mod_pos_bound; lia|].
  destruct (x <? 10) eqn:Hlt.
  - cbn [leadingInt]. rewrite Hd, Hv. apply Z.ltb_lt in Hlt.
    rewrite (Z.mod_small x 10) by lia. change (2 ^ 63 / 10 <? 0) with false. cbv beta iota.
    replace (0 * 10 + x) with x by lia.
    destruct (2 ^ 63 <? x) eqn:Ho; [lia|done].
  - rewrite Nat2Z.inj_succ, Z.pow_succ_r in Hf by lia.
    apply Z.ltb_ge in Hlt.
    rewrite IH; [|quotients|quotients|destruct fuel; [simpl in Hf; lia|lia]].
    cbn [leadingInt]. rewrite Hd, Hv.
    destruct (2 ^ 63 / 10 <? x / 10) eqn:Ho.
    { apply Z.ltb_lt in Ho. quotients. }
    replace (x / 10 * 10 + x mod 10) with x by quotients.
    by destruct (2 ^ 63 <? x) eqn:Ho2; [lia|].
Qed.

Lemma digits_head fuel x rest :
  0 <= x -> (0 < fuel)%nat ->
  exists c s, digits fuel x rest = String c s /\ isDigit c = true
    /\ (String.length rest < String.length (digits fuel x rest))%nat.
Proof.
  revert x rest. induction fuel as [|fuel IH]; intros x rest Hx Hpos; [lia|].
  destruct (digit_spec (x mod 10)) as [Hd _]; [apply Z.mod_pos_bound; lia|].
  cbn [digits]. destruct (x <? 10) eqn:Hlt.
  - eexists _, _. split; [done|]. split; [done|]. simpl. lia.
  - destruct fuel as [|fuel]; [eexists _, _; split; [done|]; split; [done|simpl; lia]|].
    destruct (IH (x / 10) (String (digit (x mod 10)) rest)) as (c & s & -> & Hc & Hlen);
      [quotients|lia|].
    exists c, s. split; [done|]. split; [done|]. simpl in *. lia.
Qed.

Lemma parsePart_digits x :
  0 <= x <= 2 ^ 63 -> parsePart (digits 19 x "ns") = Some (x, "").
Proof.
  intros Hx. destruct (digits_head 19 x "ns") as (c & s & Hs & Hc & Hlen); [lia|lia|].
  unfold parsePart. rewrite Hs. rewrite Hc, orb_true_r. cbn [negb]. rewrite <- Hs.
  rewrite leadingInt_digits by lia. change (leadingInt x "ns") with (Some (x, "ns")). cbv beta iota.
  destruct (String.length "ns" =? _)%nat eqn:Hl; [apply Nat.eqb_eq in Hl; lia|].
  cbn [negb andb]. change (takeUnit "ns") with ("ns", ""). cbv beta iota.
  change (String.eqb "ns" "") with false. change (unitMap "ns") with (Some 1). cbv beta iota.
  rewrite Z.div_1_r, Z.mul_1_r. change (0 <? 0) with false. cbv beta iota.
  by destruct (2 ^ 63 <? x) eqn:Ho; [lia|].
Qed.

Lemma parseParts_digits x :
  0 <= x <= 2 ^ 63 ->
  parseParts (String.length (digits 19 x "ns")) 0 (digits 19 x "ns") = Some x.
Proof.
  intros Hx. pose proof (parsePart_digits x Hx) as Hp.
  destruct (digits_head 19 x "ns") as (c & s & Hs & _); [lia|lia|].
  rewrite Hs in *. cbn [String.length parseParts]. rewrite Hp.
  rewrite Z.add_0_l, Z.mod_small by lia.
  destruct (2 ^ 63 <? x) eqn:Ho; [lia|]. by destruct (String.length s).
Qed.

Lemma ParseDuration_FormatNanoseconds x :
  - 2 ^ 63 <= x < 2 ^ 63 -> ParseDuration (FormatNanoseconds x) = Some x.
Proof.
  intros Hx. unfold ParseDuration, FormatNanoseconds.
  destruct (x <? 0) eqn:Hneg.
  - pose proof (parseParts_digits (- x) ltac:(lia)) as Hp.
    destruct (digits_head 19 (- x) "ns") as (c & s & Hs & Hc & Hlen); [lia|lia|].
    cbv beta iota. rewrite Hs in *.
    destruct (String.eqb_spec (String c s) "0") as [Heq|_].
    { rewrite Heq in Hlen. simpl in Hlen. lia. }
    destruct (String.eqb_spec (String c s) ""); [done|]. rewrite Hp. f_equal. lia.
  - pose proof (parseParts_digits x ltac:(lia)) as Hp.
    destruct (digits_head 19 x "ns") as (c & s & Hs & Hc & Hlen); [lia|lia|].
    rewrite Hs in *.
    assert (match String c s with
            | String "-" s' => (true, s') | String "+" s' => (false, s') | _ => (false, String c s)
            end = (false, String c s)) as ->.
    { destruct c as [[] [] [] [] [] [] [] []]; done. }
    destruct (String.eqb_spec (String c s) "0") as [Heq|_].
    { rewrite Heq in Hlen. simpl in Hlen. lia. }
    destruct (String.eqb_spec (String c s) ""); [done|]. rewrite Hp.
    by destruct (2 ^ 63 - 1 <? x) eqn:Ho; [lia|].
Qed.

(** ** [flag.FlagSet] *)

Section flags.
Context {S : Type}.

(** A flag: whether it is boolean, and how its value sets the variables. *)
Record Flag := mkFlag {
  IsBoolFlag : bool;
  Set_ : string -> S -> option S;
}.

Fixpoint contains (c : ascii) (s : string) : bool :=
  match s with
  | EmptyString => false
  | String c' s => Ascii.eqb c' c || contains c s
  end.

Definition startsWith (c : ascii) (s : string) : bool :=
  match s with
  | EmptyString => false
  | String c' _ => Ascii.eqb c' c
  end.

(** [FlagSet.Var]. *)
Definition Var (name : string) (f : Flag) (fs : gmap string Flag) : outcome (gmap string Flag) :=
  if startsWith "-" name then Panic ("flag " +++ name +++ " begins with -")
  else if contains "=" name then Panic ("flag " +++ name +++ " contains =")
  else match fs !! name with
       | Some _ => Panic ("flag redefined: " +++ name)
       | None => Ok (<[name := f]> fs)
       end.

Definition StringVar (set : S -> string -> S) : Flag := mkFlag false (fun v s => Some (set s v)).
Definition BoolVar (set : S -> bool -> S) : Flag := mkFlag true (fun v s => set s <$> ParseBool v).
Definition DurationVar (set : S -> Z -> S) : Flag :=
  mkFlag false (fun v s => set s <$> ParseDuration v).

(** How parsing ends: with the variables and the arguments that are left, or with the
    exit of the process after a request for help or a failure. *)
Inductive parsed :=
| Parsed (s : S) (args : list string)
| ExitHelp
| ExitFailure.

Definition exits (p : parsed) : option nat :=
  match p with
  | Parsed _ _ => None
  | ExitHelp => Some 0%nat
  | ExitFailure => Some 2%nat
  end.

(** What comes before and after the first equals sign, if there is one. *)
Fixpoint cutEquals (s : string) : string * option string :=
  match s with
  | EmptyString => ("", None)
  | String c rest =>
      if Ascii.eqb c "=" then ("", Some rest)
      else let '(name, value) := cutEquals rest in (String c name, value)
  end.

(** The name of a flag, after one or two minus signs, and its value; [None] for an
    argument that is not a flag, [Some None] for the end of the flags. *)
Definition flagOf (arg : string) : option (option string) :=
  match arg with
  | String "-" (String "-" EmptyString) => Some None
  | String "-" (String "-" name) => Some (Some name)
  | String "-" (String c name) => Some (Some (String c name))
  | _ => None
  end.

(** [FlagSet.Parse] with its loop over [parseOne]. *)
Fixpoint Parse (fs : gmap string Flag) (args : list string) (s : S) : parsed :=
  match args with
  | [] => Parsed s []
  | arg :: rest =>
      match flagOf arg with
      | None => Parsed s args
      | Some None => Parsed s rest
      | Some (Some name) =>
          if String.eqb name "" || startsWith "-" name || startsWith "=" name then ExitFailure
          else
            let '(name, value) := cutEquals name in
            match fs !! name with
            | None =>
                if String.eqb name "help" || String.eqb name "h" then ExitHelp else ExitFailure
            | Some f =>
                if IsBoolFlag f then
                  match Set_ f (default "true" value) s with
                  | Some s => Parse fs rest s
                  | None => ExitFailure
                  end
                else
                  match value, rest with
                  | Some v, _ =>
                      match Set_ f v s with
                      | Some s => Parse fs rest s
                      | None => ExitFailure
                      end
                  | None, v :: rest =>
                      match Set_ f v s with
                      | Some s => Parse fs rest s
                      | None => ExitFailure
                      end
                  | None, [] => ExitFailure
                  end
            end
      end
  end.

(** ** Settings and how they are written *)

(** A flag with a value, written with one or two minus signs, and with an equals sign
    or as two arguments. *)
Record setting := mkSetting {
  name : string;
  value : string;
  twoMinuses : bool;
  twoArguments : bool;
}.

Definition render (x : setting) : list string :=
  let flag := (if twoMinuses x then "--" else "-") +++ name x in
  if twoArguments x then [flag; value x] else [flag +++ "=" +++ value x].

(** A name that a flag can have. *)
Definition flagName (n : string) : Prop :=
  n <> "" /\ startsWith "-" n = false /\ contains "=" n = false.

(** Two arguments only work for a flag that is not boolean. *)
Inductive applies (fs : gmap string Flag) (x : setting) (s s' : S) : Prop :=
| Applies f : fs !! name x = Some f -> flagName (name x) ->
    Set_ f (value x) s = Some s' -> (twoArguments x = true -> IsBoolFlag f = false) ->
    applies fs x s s'.

Inductive applyAll (fs : gmap string Flag) : list setting -> S -> S -> Prop :=
| ApplyNone s : applyAll fs [] s s
| ApplyNext x xs s1 s2 s3 : applies fs x s1 s2 -> applyAll fs xs s2 s3 ->
    applyAll fs (x :: xs) s1 s3.

Lemma cutEquals_plain n : contains "=" n = false -> cutEquals n = (n, None).
Proof.
  induction n as [|c n IH]; simpl; [done|]. intros [Hc Hn]%orb_false_iff.
  by rewrite Hc, IH.
Qed.

Lemma cutEquals_value n v : contains "=" n = false -> cutEquals (n +++ "=" +++ v) = (n, Some v).
Proof.
  induction n as [|c n IH]; [done|]. intros [Hc Hn]%orb_false_iff.
  change (String c n +++ ?r) with (String c (n +++ r)). cbn [cutEquals].
  by rewrite Hc, (IH Hn).
Qed.

Lemma flagOf_name (b : bool) n : flagName n -> forall rest,
  flagOf ((if b then "--" else "-") +++ n +++ rest) = Some (Some (n +++ rest))
  /\ startsWith "-" (n +++ rest) = false
  /\ (startsWith "=" (n +++ rest) = false /\ String.eqb (n +++ rest) "" = false).
Proof.
  intros (Hne & Hm & Hc) rest. destruct n as [|c n]; [done|]. simpl in Hm, Hc.
  apply orb_false_iff in Hc as [Hc _]. split_and!; [|done|done|done].
  destruct b; simpl; [done|]. by destruct c as [[] [] [] [] [] [] [] []].
Qed.

(** A setting is parsed as what it says, whatever follows. *)
Lemma Parse_render fs x rest s s' :
  applies fs x s s' -> Parse fs (render x ++ rest) s = Parse fs rest s'.
Proof.
  intros [f Hf Hn Hset Htwo]. unfold render. destruct (twoArguments x).
  - destruct (flagOf_name (twoMinuses x) (name x) Hn "") as (Ho & Hm & He & H0).
    rewrite append_nil_r in *. cbn [app Parse]. rewrite Ho, Hm, He, H0. cbn [orb].
    rewrite cutEquals_plain by apply Hn. rewrite Hf, Htwo by done. by rewrite Hset.
  - destruct (flagOf_name (twoMinuses x) (name x) Hn ("=" +++ value x)) as (Ho & Hm & He & H0).
    cbn [app Parse]. rewrite append_assoc, Ho, Hm, He, H0. cbn [orb].
    rewrite cutEquals_value by apply Hn. rewrite Hf. simpl default. rewrite Hset.
    by destruct (IsBoolFlag f).
Qed.

Lemma Parse_renders fs xs rest s s' :
  applyAll fs xs s s' -> Parse fs (concat (map render xs) ++ rest) s = Parse fs rest s'.
Proof.
  induction 1 as [|x xs s1 s2 s3 Hx _ IH]; [done|].
  simpl. rewrite <- app_assoc. by rewrite (Parse_render _ _ _ _ _ Hx).
Qed.

End flags.
Arguments Flag : clear implicits.
Arguments parsed : clear implicits.
