(* ===== verification/Manager.v ===== *)
(** * The controller manager (cmd/arc-controller-manager/main.go)

    The flags, serving and the manager itself are in other modules.  [main] is the
    sequence of calls it makes to them after its flags were parsed, each of which
    succeeds or fails: the model runs it against a table of answers and gives the calls
    made and how the process ends.  The TLS options are functions on the configuration,
    as in the source.  [command] is the whole program, with the flags that [main]
    registers and parses before anything else; the packages it imports and zap register
    others on the same command line, which are a parameter ([FlagLibrary]) with the
    variables they set. *)

From stdpp Require Import base list sets strings gmap.
From Stdlib Require Import ZArith Ascii.
From S2P Require Import Prelude GoStd GoFlag.

Local Open Scope string_scope.
Local Open Scope list_scope.

(** ** [path/filepath] on Unix *)

Definition slash : ascii := "/"%char.

Fixpoint splitSlash (s : string) (cur : string) : list string :=
  match s with
  | EmptyString => [cur]
  | String c s =>
      if Ascii.eqb c slash then cur :: splitSlash s ""
      else splitSlash s (cur ++ String c "")
  end.

(** Add an element to the cleaned elements, kept in reverse. *)
Definition cleanStep (rooted : bool) (stack : list string) (e : string) : list string :=
  if String.eqb e "" || String.eqb e "." then stack
  else if String.eqb e ".." then
    match stack with
    | top :: rest => if String.eqb top ".." then e :: stack else rest
    | [] => if rooted then [] else [e]
    end
  else e :: stack.

Definition Clean (p : string) : string :=
  let rooted := match p with String c _ => Ascii.eqb c slash | EmptyString => false end in
  let stack := foldl (cleanStep rooted) [] (splitSlash p "") in
  let path := String.concat "/" (reverse stack) in
  if rooted then "/" ++ path else if String.eqb path "" then "." else path.

Fixpoint Join (elems : list string) : string :=
  match elems with
  | [] => ""
  | e :: rest => if String.eqb e "" then Join rest else Clean (String.concat "/" elems)
  end.

(** ** Options *)

(** The fields of [tls.Config] that the options set; a certificate source is the pair
    of files a watcher reads. *)
Record tlsConfig := mkTlsConfig {
  NextProtos : list string;
  GetCertificate : option (string * string);
}.

Inductive FilterProvider := WithAuthenticationAndAuthorization.

(** [metricsserver.Options]. *)
Record metricsOptions := mkMetricsOptions {
  BindAddress : string;
  SecureServing : bool;
  TLSOpts : list (tlsConfig -> tlsConfig);
  Filter : option FilterProvider;
}.

(** [ctrl.Options]; the scheme is the package's and the logger is left out. *)
Record managerOptions := mkManagerOptions {
  Metrics : metricsOptions;
  HealthProbeBindAddress : string;
  PprofBindAddress : string;
  LeaderElection : bool;
  LeaderElectionID : string;
}.

(** The variables the flags set; a duration is in nanoseconds. *)
Record Flags := mkFlags {
  metricsAddr : string;
  secureMetrics : bool;
  metricsCertPath : string;
  metricsCertName : string;
  metricsCertKey : string;
  enableHTTP2 : bool;
  probeAddr : string;
  pprofAddr : string;
  enableLeaderElection : bool;
  prefixAllocationTimeout : Z;
  volumeBindTimeout : Z;
  virtualIPBindTimeout : Z;
  networkInterfaceBindTimeout : Z;
}.

(** The values of a command line without flags. *)
Definition defaultFlags : Flags :=
  mkFlags "0" true "" "tls.crt" "tls.key" false ":8081" "" false
    (1 * 10 ^ 9) (10 * 10 ^ 9) (10 * 10 ^ 9) (10 * 10 ^ 9).

(** ** The calls of [main] *)

Inductive Step :=
| NewCertWatcher (certFile keyFile : string)
| GetConfigOrDie
| NewManager (opts : managerOptions)
| AddCertWatcher
| AddArgoToScheme
| SetupOrderReconciler
| SetupArtifactWorkflowReconciler
| AddHealthzCheck (name : string)
| AddReadyzCheck (name : string)
| StartManager.

(** A run: the calls made, and the value or the exit code of the process. *)
Definition run (A : Type) : Type := (Step -> bool) -> list Step * (A + nat).

Definition finish {A} (a : A) : run A := fun _ => ([], inl a).

(** A call whose failure ends the process with code 1. *)
Definition attempt (s : Step) : run unit :=
  fun succeeds => ([s], if succeeds s then inl tt else inr 1).

Definition andThen {A B} (m : run A) (f : A -> run B) : run B :=
  fun succeeds =>
    match m succeeds with
    | (t, inl a) => let '(t', r) := f a succeeds in (t ++ t', r)
    | (t, inr code) => (t, inr code)
    end.

Notation "m >> k" := (andThen m (fun _ => k)) (at level 62, right associativity).

Definition disableHTTP2 (c : tlsConfig) : tlsConfig :=
  mkTlsConfig ["http/1.1"] (GetCertificate c).

Definition useWatcher (w : string * string) (c : tlsConfig) : tlsConfig :=
  mkTlsConfig (NextProtos c) (Some w).

(** The options of the metrics server before the certificate watcher is created. *)
Definition metricsServerOptions (f : Flags) : metricsOptions :=
  let tlsOpts := if enableHTTP2 f then [] else [disableHTTP2] in
  mkMetricsOptions (metricsAddr f) (secureMetrics f) tlsOpts
    (if secureMetrics f then Some WithAuthenticationAndAuthorization else None).

Definition addTLSOpt (m : metricsOptions) (o : tlsConfig -> tlsConfig) : metricsOptions :=
  mkMetricsOptions (BindAddress m) (SecureServing m) (TLSOpts m ++ [o]) (Filter m).

Definition newCertWatcher (f : Flags) (m : metricsOptions)
  : run (option (string * string) * metricsOptions) :=
  if string_nonempty (metricsCertPath f) then
    let w := (Join [metricsCertPath f; metricsCertName f],
              Join [metricsCertPath f; metricsCertKey f]) in
    attempt (NewCertWatcher w.1 w.2) >> finish (Some w, addTLSOpt m (useWatcher w))
  else finish (None, m).

Definition addCertWatcher (w : option (string * string)) : run unit :=
  match w with Some _ => attempt AddCertWatcher | None => finish tt end.

Definition main (f : Flags) : run unit :=
  andThen (newCertWatcher f (metricsServerOptions f)) (fun '(watcher, metrics) =>
  attempt GetConfigOrDie >>
  attempt (NewManager (mkManagerOptions metrics (probeAddr f) (pprofAddr f)
                         (enableLeaderElection f) "arc.bwi.de")) >>
  addCertWatcher watcher >>
  attempt AddArgoToScheme >>
  attempt SetupOrderReconciler >>
  attempt SetupArtifactWorkflowReconciler >>
  attempt (AddHealthzCheck "healthz") >>
  attempt (AddReadyzCheck "readyz") >>
  attempt StartManager).

(** The code the process exits with; [main] returning is code 0. *)
Definition exitCode {A} (r : A + nat) : nat := match r with inl _ => 0 | inr c => c end.

(** ** A run of attempts *)

(** The steps up to and including the first that fails. *)
Fixpoint until_failure (succeeds : Step -> bool) (steps : list Step) : list Step :=
  match steps with
  | [] => []
  | s :: rest => if succeeds s then s :: until_failure succeeds rest else [s]
  end.

(** The steps [main] takes when nothing fails. *)
Definition plan (f : Flags) : list Step :=
  let cert := Join [metricsCertPath f; metricsCertName f] in
  let key := Join [metricsCertPath f; metricsCertKey f] in
  let watch := string_nonempty (metricsCertPath f) in
  let metrics := if watch then addTLSOpt (metricsServerOptions f) (useWatcher (cert, key))
                 else metricsServerOptions f in
  (if watch then [NewCertWatcher cert key] else [])
  ++ [GetConfigOrDie;
      NewManager (mkManagerOptions metrics (probeAddr f) (pprofAddr f)
                    (enableLeaderElection f) "arc.bwi.de")]
  ++ (if watch then [AddCertWatcher] else [])
  ++ [AddArgoToScheme; SetupOrderReconciler; SetupArtifactWorkflowReconciler;
      AddHealthzCheck "healthz"; AddReadyzCheck "readyz"; StartManager].

Lemma andThen_attempt s {B} (k : unit -> run B) succeeds :
  andThen (attempt s) k succeeds
  = if succeeds s then (s :: (k tt succeeds).1, (k tt succeeds).2) else ([s], inr 1).
Proof.
  unfold andThen, attempt. destruct (succeeds s); [|done]. by destruct (k tt succeeds).
Qed.

(** The calls of a run that makes [steps] until one fails. *)
Definition follows (m : run unit) (steps : list Step) : Prop :=
  forall succeeds,
    (m succeeds).1 = until_failure succeeds steps
    /\ exitCode (m succeeds).2 = if forallb succeeds steps then 0 else 1.

Lemma follows_attempt s : follows (attempt s) [s].
Proof. intros succeeds. unfold attempt. simpl. by destruct (succeeds s). Qed.

Lemma follows_cons s (k : unit -> run unit) steps :
  follows (k tt) steps -> follows (andThen (attempt s) k) (s :: steps).
Proof.
  intros Hk succeeds. rewrite andThen_attempt. simpl. destruct (Hk succeeds) as [H1 H2].
  destruct (succeeds s); simpl; [|done]. by rewrite H1, H2.
Qed.

Lemma follows_ext m m' steps :
  (forall succeeds, m succeeds = m' succeeds) -> follows m' steps -> follows m steps.
Proof. intros He Hf succeeds. rewrite He. apply Hf. Qed.

Lemma finish_andThen {A B} (a : A) (k : A -> run B) succeeds :
  andThen (finish a) k succeeds = k a succeeds.
Proof. unfold andThen, finish. by destruct (k a succeeds). Qed.

Lemma andThen_assoc {A B C} (m : run A) (f : A -> run B) (g : B -> run C) succeeds :
  andThen (andThen m f) g succeeds = andThen m (fun a => andThen (f a) g) succeeds.
Proof.
  unfold andThen. destruct (m succeeds) as [t [a|code]]; [|done].
  destruct (f a succeeds) as [t' [b|code]]; [|done].
  destruct (g b succeeds) as [t'' r]. by rewrite app_assoc.
Qed.

Lemma andThen_ext {A B} (m : run A) (f g : A -> run B) succeeds :
  (forall a, f a succeeds = g a succeeds) -> andThen m f succeeds = andThen m g succeeds.
Proof. intros He. unfold andThen. destruct (m succeeds) as [t [a|]]; [|done]. by rewrite He. Qed.

#[local] Hint Resolve follows_cons follows_attempt : core.

Lemma main_follows f : follows (main f) (plan f).
Proof.
  unfold main, newCertWatcher, plan. destruct (string_nonempty (metricsCertPath f)).
  - eapply follows_ext; [intros succeeds; apply andThen_assoc|].
    simpl app. apply follows_cons.
    eapply follows_ext; [intros succeeds; apply finish_andThen|]. simpl. auto 10.
  - eapply follows_ext; [intros succeeds; apply finish_andThen|]. simpl. unfold addCertWatcher.
    do 2 apply follows_cons. eapply follows_ext; [intros succeeds; apply finish_andThen|].
    auto 10.
Qed.

Lemma until_failure_prefix succeeds steps : exists rest, until_failure succeeds steps ++ rest = steps.
Proof.
  induction steps as [|s steps [rest IH]]; [by exists []|]. simpl.
  destruct (succeeds s); [exists rest; simpl; by rewrite IH|by exists steps].
Qed.

Lemma until_failure_last succeeds steps s :
  s ∉ steps ->
  s ∈ until_failure succeeds (steps ++ [s]) <-> forallb succeeds steps = true.
Proof.
  induction steps as [|x steps IH]; intros Hs; simpl.
  - split; [done|]. intros _. destruct (succeeds s); by left.
  - apply not_elem_of_cons in Hs as [Hne Hs]. destruct (succeeds x); simpl.
    + rewrite <- (IH Hs), elem_of_cons. naive_solver.
    + rewrite list_elem_of_singleton. split; [done|discriminate].
Qed.

(** ** The properties *)

(** The steps before the start. *)
Definition preparations (f : Flags) : list Step := take (length (plan f) - 1) (plan f).

Lemma plan_start f : plan f = preparations f ++ [StartManager] /\ StartManager ∉ preparations f.
Proof.
  unfold preparations, plan. destruct (string_nonempty (metricsCertPath f)); simpl; split; try done.
  all: rewrite !not_elem_of_cons; split_and!; try done; apply not_elem_of_nil.
Qed.

(** Whatever the flags and whichever calls fail, the manager command makes the
    calls of its plan in order up to the first that fails; it exits with code 1 if one
    failed and with 0 otherwise.  The manager is started exactly when all else
    succeeded: with the Argo types in the scheme, both controllers set up and both
    checks added; a certificate watcher is created and added exactly when a path is
    given. *)
Theorem manager_starts_last f succeeds :
  let '(calls, result) := main f succeeds in
  calls = until_failure succeeds (plan f)
  /\ exitCode result = (if forallb succeeds (plan f) then 0 else 1)
  /\ (StartManager ∈ calls <-> forallb succeeds (preparations f) = true)
  /\ (forall s, s ∈ [AddArgoToScheme; SetupOrderReconciler; SetupArtifactWorkflowReconciler;
                     AddHealthzCheck "healthz"; AddReadyzCheck "readyz"] ->
        s ∈ preparations f)
  /\ (AddCertWatcher ∈ preparations f <-> metricsCertPath f <> "").
Proof.
  destruct (main_follows f succeeds) as [Hc Hx]. destruct (main f succeeds) as [calls result].
  simpl in Hc, Hx. destruct (plan_start f) as [Hp Hn]. split_and!; [done|done|..].
  - rewrite Hc, Hp. by apply until_failure_last.
  - intros s Hs. assert (s ∈ plan f) as Hin.
    { unfold plan. do 3 (apply elem_of_app; right). set_solver. }
    rewrite Hp in Hin. apply elem_of_app in Hin as [?|Hin]; [done|]. set_solver.
  - unfold preparations, plan.
    destruct (metricsCertPath f) as [|c p] eqn:E; simpl; set_solver.
Qed.

(** The configuration after the options of the metrics server were applied. *)
Definition applyOpts (opts : list (tlsConfig -> tlsConfig)) (c : tlsConfig) : tlsConfig :=
  foldl (fun c o => o c) c opts.

(** The manager that is created serves metrics with HTTP/1.1 only unless HTTP/2 is
    enabled, whatever the other flags and whatever the configuration was; it keeps the
    certificates of the configuration unless a path is given, and asks for
    authentication and authorization exactly when metrics are secure. *)
Theorem manager_tls f succeeds opts c :
  NewManager opts ∈ (main f succeeds).1 ->
  let metrics := Metrics opts in
  NextProtos (applyOpts (TLSOpts metrics) c)
    = (if enableHTTP2 f then NextProtos c else ["http/1.1"])
  /\ GetCertificate (applyOpts (TLSOpts metrics) c)
    = (if string_nonempty (metricsCertPath f)
       then Some (Join [metricsCertPath f; metricsCertName f],
                  Join [metricsCertPath f; metricsCertKey f])
       else GetCertificate c)
  /\ SecureServing metrics = secureMetrics f
  /\ (Filter metrics = None <-> secureMetrics f = false).
Proof.
  intros Hin. rewrite (proj1 (main_follows f succeeds)) in Hin.
  destruct (until_failure_prefix succeeds (plan f)) as [rest Hrest].
  assert (NewManager opts ∈ plan f) as Hplan
    by (rewrite <- Hrest; apply elem_of_app; by left).
  clear Hin rest Hrest. rename Hplan into Hin.
  assert (opts = mkManagerOptions
    (if string_nonempty (metricsCertPath f)
     then addTLSOpt (metricsServerOptions f)
            (useWatcher (Join [metricsCertPath f; metricsCertName f],
                         Join [metricsCertPath f; metricsCertKey f]))
     else metricsServerOptions f)
    (probeAddr f) (pprofAddr f) (enableLeaderElection f) "arc.bwi.de") as ->.
  { unfold plan in Hin. destruct (string_nonempty (metricsCertPath f)); simpl in Hin;
      rewrite !elem_of_cons, elem_of_nil in Hin; naive_solver. }
  unfold metricsServerOptions, applyOpts. simpl.
  destruct (string_nonempty (metricsCertPath f)), (enableHTTP2 f), (secureMetrics f); naive_solver.
Qed.

(** ** Examples *)

Example Join_parent : Join ["certs/"; "../tls.crt"] = "tls.crt".
Proof. reflexivity. Qed.

Example Join_rooted : Join ["/etc//arc/."; "tls.key"] = "/etc/arc/tls.key".
Proof. reflexivity. Qed.

Lemma manager_tls_witness :
  exists opts, NewManager opts ∈ (main defaultFlags (fun _ => true)).1
    /\ NextProtos (applyOpts (TLSOpts (Metrics opts)) (mkTlsConfig ["h2"] None)) = ["http/1.1"].
Proof.
  eexists. split; [right; left|].
  refine (proj1 (manager_tls defaultFlags (fun _ => true) _ (mkTlsConfig ["h2"] None) _)).
  right; left.
Defined.

(** * The flags *)

(** ** The variables *)

Definition set_metricsAddr (f : Flags) (v : string) : Flags :=
  mkFlags v (secureMetrics f) (metricsCertPath f) (metricsCertName f) (metricsCertKey f)
    (enableHTTP2 f) (probeAddr f) (pprofAddr f) (enableLeaderElection f)
    (prefixAllocationTimeout f) (volumeBindTimeout f) (virtualIPBindTimeout f)
    (networkInterfaceBindTimeout f).
Definition set_secureMetrics (f : Flags) (v : bool) : Flags :=
  mkFlags (metricsAddr f) v (metricsCertPath f) (metricsCertName f) (metricsCertKey f)
    (enableHTTP2 f) (probeAddr f) (pprofAddr f) (enableLeaderElection f)
    (prefixAllocationTimeout f) (volumeBindTimeout f) (virtualIPBindTimeout f)
    (networkInterfaceBindTimeout f).
Definition set_metricsCertPath (f : Flags) (v : string) : Flags :=
  mkFlags (metricsAddr f) (secureMetrics f) v (metricsCertName f) (metricsCertKey f)
    (enableHTTP2 f) (probeAddr f) (pprofAddr f) (enableLeaderElection f)
    (prefixAllocationTimeout f) (volumeBindTimeout f) (virtualIPBindTimeout f)
    (networkInterfaceBindTimeout f).
Definition set_metricsCertName (f : Flags) (v : string) : Flags :=
  mkFlags (metricsAddr f) (secureMetrics f) (metricsCertPath f) v (metricsCertKey f)
    (enableHTTP2 f) (probeAddr f) (pprofAddr f) (enableLeaderElection f)
    (prefixAllocationTimeout f) (volumeBindTimeout f) (virtualIPBindTimeout f)
    (networkInterfaceBindTimeout f).
Definition set_metricsCertKey (f : Flags) (v : string) : Flags :=
  mkFlags (metricsAddr f) (secureMetrics f) (metricsCertPath f) (metricsCertName f) v
    (enableHTTP2 f) (probeAddr f) (pprofAddr f) (enableLeaderElection f)
    (prefixAllocationTimeout f) (volumeBindTimeout f) (virtualIPBindTimeout f)
    (networkInterfaceBindTimeout f).
Definition set_enableHTTP2 (f : Flags) (v : bool) : Flags :=
  mkFlags (metricsAddr f) (secureMetrics f) (metricsCertPath f) (metricsCertName f)
    (metricsCertKey f) v (probeAddr f) (pprofAddr f) (enableLeaderElection f)
    (prefixAllocationTimeout f) (volumeBindTimeout f) (virtualIPBindTimeout f)
    (networkInterfaceBindTimeout f).
Definition set_probeAddr (f : Flags) (v : string) : Flags :=
  mkFlags (metricsAddr f) (secureMetrics f) (metricsCertPath f) (metricsCertName f)
    (metricsCertKey f) (enableHTTP2 f) v (pprofAddr f) (enableLeaderElection f)
    (prefixAllocationTimeout f) (volumeBindTimeout f) (virtualIPBindTimeout f)
    (networkInterfaceBindTimeout f).
Definition set_pprofAddr (f : Flags) (v : string) : Flags :=
  mkFlags (metricsAddr f) (secureMetrics f) (metricsCertPath f) (metricsCertName f)
    (metricsCertKey f) (enableHTTP2 f) (probeAddr f) v (enableLeaderElection f)
    (prefixAllocationTimeout f) (volumeBindTimeout f) (virtualIPBindTimeout f)
    (networkInterfaceBindTimeout f).
Definition set_enableLeaderElection (f : Flags) (v : bool) : Flags :=
  mkFlags (metricsAddr f) (secureMetrics f) (metricsCertPath f) (metricsCertName f)
    (metricsCertKey f) (enableHTTP2 f) (probeAddr f) (pprofAddr f) v
    (prefixAllocationTimeout f) (volumeBindTimeout f) (virtualIPBindTimeout f)
    (networkInterfaceBindTimeout f).
Definition set_prefixAllocationTimeout (f : Flags) (v : Z) : Flags :=
  mkFlags (metricsAddr f) (secureMetrics f) (metricsCertPath f) (metricsCertName f)
    (metricsCertKey f) (enableHTTP2 f) (probeAddr f) (pprofAddr f) (enableLeaderElection f)
    v (volumeBindTimeout f) (virtualIPBindTimeout f) (networkInterfaceBindTimeout f).
Definition set_volumeBindTimeout (f : Flags) (v : Z) : Flags :=
  mkFlags (metricsAddr f) (secureMetrics f) (metricsCertPath f) (metricsCertName f)
    (metricsCertKey f) (enableHTTP2 f) (probeAddr f) (pprofAddr f) (enableLeaderElection f)
    (prefixAllocationTimeout f) v (virtualIPBindTimeout f) (networkInterfaceBindTimeout f).
Definition set_virtualIPBindTimeout (f : Flags) (v : Z) : Flags :=
  mkFlags (metricsAddr f) (secureMetrics f) (metricsCertPath f) (metricsCertName f)
    (metricsCertKey f) (enableHTTP2 f) (probeAddr f) (pprofAddr f) (enableLeaderElection f)
    (prefixAllocationTimeout f) (volumeBindTimeout f) v (networkInterfaceBindTimeout f).
Definition set_networkInterfaceBindTimeout (f : Flags) (v : Z) : Flags :=
  mkFlags (metricsAddr f) (secureMetrics f) (metricsCertPath f) (metricsCertName f)
    (metricsCertKey f) (enableHTTP2 f) (probeAddr f) (pprofAddr f) (enableLeaderElection f)
    (prefixAllocationTimeout f) (volumeBindTimeout f) (virtualIPBindTimeout f) v.

(** ** Registration *)

(** The flags of other packages: those that are registered when the packages are
    initialised, and those of [zap.Options.BindFlags]. *)
Class FlagLibrary (O : Type) := {
  packageFlags : list (string * Flag O);
  BindFlags : list (string * Flag O);
}.

Section command.
Context {O : Type} `{FlagLibrary O}.

Definition Vars : Type := (Flags * O)%type.

Definition foreign (nf : string * Flag O) : string * Flag Vars :=
  (nf.1, mkFlag (IsBoolFlag nf.2)
           (fun v s => pair s.1 <$> Set_ nf.2 v s.2)).

Definition stringFlag (set : Flags -> string -> Flags) : Flag Vars :=
  StringVar (fun s v => (set s.1 v, s.2)).
Definition boolFlag (set : Flags -> bool -> Flags) : Flag Vars :=
  BoolVar (fun s v => (set s.1 v, s.2)).
Definition durationFlag (set : Flags -> Z -> Flags) : Flag Vars :=
  DurationVar (fun s v => (set s.1 v, s.2)).

Definition managerFlags : list (string * Flag Vars) :=
  [ ("metrics-bind-address", stringFlag set_metricsAddr);
    ("metrics-secure", boolFlag set_secureMetrics);
    ("metrics-cert-path", stringFlag set_metricsCertPath);
    ("metrics-cert-name", stringFlag set_metricsCertName);
    ("metrics-cert-key", stringFlag set_metricsCertKey);
    ("enable-http2", boolFlag set_enableHTTP2);
    ("health-probe-bind-address", stringFlag set_probeAddr);
    ("pprof-bind-address", stringFlag set_pprofAddr);
    ("leader-elect", boolFlag set_enableLeaderElection);
    ("prefix-allocation-timeout", durationFlag set_prefixAllocationTimeout);
    ("volume-bind-timeout", durationFlag set_volumeBindTimeout);
    ("virtual-ip-bind-timeout", durationFlag set_virtualIPBindTimeout);
    ("network-interface-bind-timeout", durationFlag set_networkInterfaceBindTimeout) ].

(** Registering a flag panics when its name is taken. *)
Definition registerAll (l : list (string * Flag Vars)) (fs : outcome (gmap string (Flag Vars))) :
  outcome (gmap string (Flag Vars)) :=
  fold_left (fun fs nf => let? fs := fs in Var nf.1 nf.2 fs) l fs.

Definition CommandLine : outcome (gmap string (Flag Vars)) :=
  registerAll (map foreign BindFlags)
    (registerAll managerFlags (registerAll (map foreign packageFlags) (Ok ∅))).

(** The first part of [main]: register the flags and parse the arguments into the
    variables; [o] are the initial values of the other packages. *)
Definition parseFlags (args : list string) (o : O) : outcome (@parsed Vars) :=
  let? fs := CommandLine in
  Ok (Parse fs args (defaultFlags, o)).

(** The whole command goes on with the values. *)
Definition command (args : list string) (o : O) (succeeds : Step -> bool) :
  outcome (list Step * (unit + nat)) :=
  let? p := parseFlags args o in
  Ok (match p with
      | Parsed (f, _) _ => main f succeeds
      | ExitHelp => ([], inr 0)
      | ExitFailure => ([], inr 2)
      end).

(** ** The flags are registered *)

Lemma registerAll_fails l o : (forall fs, o <> Ok fs) -> forall fs, registerAll l o <> Ok fs.
Proof.
  revert o. induction l as [|nf l IH]; intros o Ho fs; [apply Ho|]. simpl. apply IH.
  intros fs'. by destruct o as [x| |]; [destruct (Ho x)|..].
Qed.

Lemma Var_ok n f (fs fs' : gmap string (Flag Vars)) :
  Var n f fs = Ok fs' -> fs' = <[n := f]> fs /\ fs !! n = None.
Proof.
  unfold Var. destruct (startsWith _ _); [done|]. destruct (contains _ _); [done|].
  destruct (fs !! n) eqn:Hn; [done|]. by intros [= <-].
Qed.

Lemma registerAll_ok l o fs :
  registerAll l o = Ok fs ->
  exists fs0, o = Ok fs0 /\ forall n f, (n, f) ∈ l \/ fs0 !! n = Some f -> fs !! n = Some f.
Proof.
  revert o. induction l as [|[n f] l IH]; intros o Ho.
  - exists fs. split; [done|]. intros n f [Hin|?]; [by apply elem_of_nil in Hin|done].
  - destruct o as [fs0|e|m]; [|by apply registerAll_fails in Ho..].
    destruct (IH _ Ho) as (fs1 & Hv & Hin). simpl in Hv.
    apply Var_ok in Hv as [-> Hnone]. exists fs0. split; [done|].
    intros n' f' Hor. apply Hin. rewrite elem_of_cons in Hor.
    destruct Hor as [[[= -> ->]|Hin']|Hf']; [right; apply lookup_insert_eq|by left|right].
    rewrite lookup_insert_ne; [done|]. intros <-. congruence.
Qed.

Lemma CommandLine_flags fs n f :
  CommandLine = Ok fs ->
  (n, f) ∈ managerFlags \/ (n, f) ∈ map foreign BindFlags \/ (n, f) ∈ map foreign packageFlags ->
  fs !! n = Some f.
Proof.
  intros (fs1 & (fs2 & (fs3 & _ & Hpkg)%registerAll_ok & Harc)%registerAll_ok & Hall)%registerAll_ok.
  intros [Hin|[Hin|Hin]]; apply Hall.
  - right. apply Harc. by left.
  - by left.
  - right. apply Harc. right. apply Hpkg. by left.
Qed.

(** ** Every value can be given *)

(** The settings that give the variables their values. *)
Definition settingsOf (f : Flags) : list setting :=
  let set n v := mkSetting n v true false in
  [ set "metrics-bind-address" (metricsAddr f);
    set "metrics-secure" (FormatBool (secureMetrics f));
    set "metrics-cert-path" (metricsCertPath f);
    set "metrics-cert-name" (metricsCertName f);
    set "metrics-cert-key" (metricsCertKey f);
    set "enable-http2" (FormatBool (enableHTTP2 f));
    set "health-probe-bind-address" (probeAddr f);
    set "pprof-bind-address" (pprofAddr f);
    set "leader-elect" (FormatBool (enableLeaderElection f));
    set "prefix-allocation-timeout" (FormatNanoseconds (prefixAllocationTimeout f));
    set "volume-bind-timeout" (FormatNanoseconds (volumeBindTimeout f));
    set "virtual-ip-bind-timeout" (FormatNanoseconds (virtualIPBindTimeout f));
    set "network-interface-bind-timeout" (FormatNanoseconds (networkInterfaceBindTimeout f)) ].

(** Durations are 64-bit integers. *)
Definition int64 (x : Z) : Prop := (- 2 ^ 63 <= x < 2 ^ 63)%Z.
Definition flagsInRange (f : Flags) : Prop :=
  int64 (prefixAllocationTimeout f) /\ int64 (volumeBindTimeout f)
  /\ int64 (virtualIPBindTimeout f) /\ int64 (networkInterfaceBindTimeout f).

Lemma applies_flag fs n f v s s' :
  CommandLine = Ok fs -> (n, f) ∈ managerFlags -> flagName n -> Set_ f v s = Some s' ->
  applies fs (mkSetting n v true false) s s'.
Proof.
  intros Hfs Hin Hn Hset. apply (Applies _ _ _ _ f); [|done|done|done].
  eapply CommandLine_flags; [done|by left].
Qed.

Lemma settingsOf_apply fs f0 f o :
  CommandLine = Ok fs -> flagsInRange f -> applyAll fs (settingsOf f) (f0, o) (f, o).
Proof.
  intros Hfs (Hr1 & Hr2 & Hr3 & Hr4). unfold settingsOf.
  repeat (eapply ApplyNext;
    [eapply applies_flag;
       [exact Hfs
       |repeat first [apply list_elem_of_here | apply list_elem_of_further]
       |by split_and!
       |cbn [Set_ stringFlag boolFlag durationFlag StringVar BoolVar DurationVar];
        rewrite ?ParseBool_FormatBool, ?ParseDuration_FormatNanoseconds by done;
        reflexivity]
    |]).
  destruct f. apply ApplyNone.
Qed.

Lemma parseFlags_Parse fs args o :
  CommandLine = Ok fs -> parseFlags args o = Ok (Parse fs args (defaultFlags, o)).
Proof. intros Hfs. unfold parseFlags. by rewrite Hfs. Qed.

Lemma command_parsed args o succeeds p :
  parseFlags args o = Ok p ->
  command args o succeeds =
  Ok (match p with
      | Parsed (f, _) _ => main f succeeds
      | ExitHelp => ([], inr 0)
      | ExitFailure => ([], inr 2)
      end).
Proof. intros Hp. unfold command. by rewrite Hp. Qed.

(** No flag follows: nothing, an argument that is not a flag, or the end of flags. *)
Definition noFlags (rest : list string) : Prop :=
  match rest with
  | [] => True
  | arg :: _ => flagOf arg = None \/ flagOf arg = Some None
  end.

(** The arguments that are left for the program. *)
Definition arguments (rest : list string) : list string :=
  match rest with
  | "--" :: rest => rest
  | _ => rest
  end.

Lemma flagOf_end arg : flagOf arg = Some None -> arg = "--".
Proof.
  unfold flagOf. intros Ha. repeat (case_match; try done).
Qed.

Lemma Parse_noFlags (fs : gmap string (Flag Vars)) rest s :
  noFlags rest -> Parse fs rest s = Parsed s (arguments rest).
Proof.
  destruct rest as [|arg rest]; simpl; [done|]. intros [Ha|Ha].
  - rewrite Ha. f_equal. by repeat case_match; subst.
  - by rewrite Ha, (flagOf_end _ Ha).
Qed.

(** An unknown flag. *)
Lemma Parse_unknown (fs : gmap string (Flag Vars)) n rest s :
  flagName n -> fs !! n = None ->
  Parse fs (("-" +++ n) :: rest) s =
  if String.eqb n "help" || String.eqb n "h" then ExitHelp else ExitFailure.
Proof.
  intros Hn Hnone. destruct (flagOf_name false n Hn "") as (Ho & Hm & He & H0).
  rewrite append_nil_r in *. cbn [Parse]. rewrite Ho, Hm, He, H0. cbn [orb].
  rewrite cutEquals_plain by apply Hn. by rewrite Hnone.
Qed.

(** C30: the command line of the controller manager.  When the flags can be registered,
    every in-range value of the thirteen variables can be given, whatever valid settings
    come before (the last one counts): after parsing, the variables have exactly these
    values, and the arguments after the flags are left over.  Without arguments they have
    the defaults of the source.  After valid settings an unregistered flag ends the
    process before any call is made, with code 0 if it is -h or -help and 2 otherwise;
    in every other case the command goes on with the variables as they were parsed. *)
Theorem manager_flags_exact fs f xs s rest o succeeds :
  CommandLine = Ok fs -> flagsInRange f ->
  applyAll fs xs (defaultFlags, o) s -> noFlags rest ->
  let given := concat (map render xs) in
  parseFlags (given ++ concat (map render (settingsOf f)) ++ rest) o
    = Ok (Parsed (f, s.2) (arguments rest))
  /\ parseFlags (given ++ rest) o = Ok (Parsed s (arguments rest))
  /\ parseFlags [] o
     = Ok (Parsed (mkFlags "0" true "" "tls.crt" "tls.key" false ":8081" "" false
                     1000000000 10000000000 10000000000 10000000000, o) [])
  /\ (forall args s' left, parseFlags args o = Ok (Parsed s' left) ->
        command args o succeeds = Ok (main s'.1 succeeds))
  /\ forall n, flagName n -> fs !! n = None ->
       command (given ++ ("-" +++ n) :: rest) o succeeds
       = Ok ([], inr (if String.eqb n "help" || String.eqb n "h" then 0 else 2)).
Proof.
  intros Hfs Hf Hxs Hrest given. unfold given. destruct s as [f0 o0]. split_and!.
  - rewrite (parseFlags_Parse fs _ _ Hfs), (Parse_renders _ _ _ _ _ Hxs).
    rewrite (Parse_renders _ _ _ _ _ (settingsOf_apply fs f0 f o0 Hfs Hf)).
    by rewrite (Parse_noFlags fs rest _ Hrest).
  - rewrite (parseFlags_Parse fs _ _ Hfs), (Parse_renders _ _ _ _ _ Hxs).
    by rewrite (Parse_noFlags fs rest _ Hrest).
  - by rewrite (parseFlags_Parse fs _ _ Hfs).
  - intros args [f1 o1] left Hp. by rewrite (command_parsed _ _ _ _ Hp).
  - intros n Hn Hnone. rewrite (command_parsed _ _ _ _ (parseFlags_Parse fs _ _ Hfs)).
    rewrite (Parse_renders _ _ _ _ _ Hxs), (Parse_unknown _ _ _ _ Hn Hnone).
    by destruct (_ || _).
Qed.

End command.

(** ** Examples and a witness *)

(** A library with the flag of a Kubernetes configuration and one of zap's. *)
#[local] Instance plain_flags : FlagLibrary (string * bool) := {|
  packageFlags := [("kubeconfig", StringVar (fun o v => (v, o.2)))];
  BindFlags := [("zap-devel", BoolVar (fun o v => (o.1, v)))];
|}.

Definition plainLine : gmap string (Flag Vars) :=
  match CommandLine with Ok fs => fs | _ => ∅ end.

(** A boolean flag takes no second argument: the word ends the flags. *)
Example bool_two_arguments :
  match Parse plainLine ["-metrics-secure"; "false"; "--enable-http2"] (defaultFlags, ("", true)) with
  | Parsed (f, _) args => (secureMetrics f, enableHTTP2 f, args)
  | _ => (false, false, [])
  end = (true, false, ["false"; "--enable-http2"]).
Proof. vm_compute. reflexivity. Qed.

Example bad_duration :
  Parse plainLine ["--volume-bind-timeout"; "10"] (defaultFlags, ("", true)) = ExitFailure.
Proof. vm_compute. reflexivity. Qed.

Lemma plainLine_registered : CommandLine = Ok plainLine.
Proof.
  assert (match CommandLine with Ok _ => true | _ => false end = true) as Hok
    by (vm_compute; reflexivity).
  unfold plainLine. by destruct CommandLine.
Qed.

Definition plainSettings : list setting :=
  [mkSetting "zap-devel" "false" true false; mkSetting "leader-elect" "T" false false].

Lemma plainSettings_apply :
  applyAll plainLine plainSettings (defaultFlags, ("", true))
    (set_enableLeaderElection defaultFlags true, ("", false)).
Proof.
  eapply ApplyNext.
  { apply (Applies _ _ _ (defaultFlags, ("", false))
             (foreign ("zap-devel", BoolVar (fun o v => (o.1, v)))).2); [|by split_and!|done|done].
    apply CommandLine_flags; [exact plainLine_registered|]. right. left. by left. }
  eapply ApplyNext; [|apply ApplyNone].
  apply (Applies _ _ _ _ (boolFlag set_enableLeaderElection)); [|by split_and!|done|done].
  apply CommandLine_flags; [exact plainLine_registered|]. left.
  repeat first [apply list_elem_of_here | apply list_elem_of_further].
Qed.

(** All four durations differ from each other. *)
Definition fourTimeouts : Flags :=
  mkFlags ":8443" true "/certs" "a.crt" "a.key" true ":8082" ":6060" true 1 2 3 4.

Lemma manager_flags_exact_witness :
  parseFlags (concat (map render plainSettings) ++ concat (map render (settingsOf fourTimeouts))
              ++ ["serve"]) ("", true)
  = Ok (Parsed (fourTimeouts, ("", false)) ["serve"])
  /\ command (concat (map render plainSettings) ++ ["-help"; "serve"]) ("", true) (fun _ => true)
     = Ok ([], inr 0).
Proof.
  assert (flagsInRange fourTimeouts) as Hf by (split_and!; done).
  destruct (manager_flags_exact plainLine fourTimeouts plainSettings _ ["serve"]
              ("", true) (fun _ => true) plainLine_registered Hf plainSettings_apply
              (or_introl eq_refl)) as (Hall & _ & _ & _ & Hno).
  split; [exact Hall|]. exact (Hno "help" ltac:(by split_and!) ltac:(by vm_compute)).
Defined.

Example plainSettings_line :
  concat (map render plainSettings) = ["--zap-devel=false"; "-leader-elect=T"].
Proof. reflexivity. Qed.
