(* ===== verification/TestSupport.v ===== *)
(** * Test support (pkg/envtest, test/oci)

    The test environment: a control plane with extensions, a client and an API server,
    started in this order and stopped in reverse; the calls to the libraries are steps
    that fail or not.  The OCI registry for tests: an HTTP handler that checks a basic
    authorization header before the handler of go-containerregistry; and the pushing
    of a test manifest. *)

From stdpp Require Import base list sets strings.
From Stdlib Require Import Ascii NArith.
From S2P Require Import Prelude GoStd Manager.

Local Open Scope string_scope.
Local Open Scope list_scope.

(** ** The environment (pkg/envtest/environment.go) *)

(** The calls to the libraries. *)
Inductive envCall :=
| StartWithExtensions
| NewClient
| NewAPIServer (mainPath : string)
| StartAPIServer
| StopAPIServer
| StopWithExtensions.

#[export] Instance envCall_eq_dec : EqDecision envCall.
Proof. solve_decision. Defined.

(** [NewEnvironment] sets the paths; [Start] the rest, of which it matters whether
    there is an API server.  [ext] is never nil. *)
Record Environment := mkEnvironment {
  CRDDirectoryPaths : list string;
  APIServiceDirectoryPaths : list string;
  ErrorIfAPIServicePathIsMissing : bool;
  has_apiServer : bool;
}.

Definition NewEnvironment : Environment :=
  mkEnvironment [Join [".."; ".."; "config"; "crd"; "external"]]
    [Join [".."; ".."; "config"; "apiserver"; "apiservice"; "bases"]] true false.

Definition set_apiServer (e : Environment) : Environment :=
  mkEnvironment (CRDDirectoryPaths e) (APIServiceDirectoryPaths e)
    (ErrorIfAPIServicePathIsMissing e) true.

(** [errors.Join] of the errors that are not nil; none of them is nil. *)
Definition joinErrors (errs : list (option error)) : list error :=
  omap (fun e => e) errs.

Section environment.
Context (answer : envCall -> option error).

(** The calls made and the errors. *)
Definition Stop (e : Environment) : list envCall * list error :=
  let '(calls, err) :=
    if has_apiServer e then ([StopAPIServer], answer StopAPIServer) else ([], None) in
  (calls ++ [StopWithExtensions], joinErrors [err; answer StopWithExtensions]).

(** A failure stops what was started. *)
Definition failedStart (e : Environment) (calls : list envCall) (err : error) :
  list envCall * list error * Environment :=
  let '(stopping, errs) := Stop e in (calls ++ stopping, err :: errs, e).

Definition apiServerMain : string := "go.opendefense.cloud/arc/cmd/arc-apiserver".

Definition Start (e : Environment) : list envCall * list error * Environment :=
  match answer StartWithExtensions with
  | Some err => ([StartWithExtensions], [err], e)
  | None =>
      match answer NewClient with
      | Some err => failedStart e [StartWithExtensions; NewClient] err
      | None =>
          match answer (NewAPIServer apiServerMain) with
          | Some err =>
              failedStart e [StartWithExtensions; NewClient; NewAPIServer apiServerMain] err
          | None =>
              let calls := [StartWithExtensions; NewClient; NewAPIServer apiServerMain;
                            StartAPIServer] in
              match answer StartAPIServer with
              | Some err => failedStart e calls err
              | None => (calls, [], set_apiServer e)
              end
          end
      end
  end.

(** A new environment that fails to start leaves nothing behind: the control plane is
    stopped if it was started, and no API server was started.  One that starts has both
    running, and [Stop] stops the API server before the control plane, whether that
    fails or not. *)
Theorem environment_stops calls errs e :
  Start NewEnvironment = (calls, errs, e) ->
  match errs with
  | [] => calls = [StartWithExtensions; NewClient; NewAPIServer apiServerMain; StartAPIServer]
          /\ (forall c, c ∈ calls -> answer c = None)
          /\ (Stop e).1 = [StopAPIServer; StopWithExtensions]
  | err :: _ =>
      e = NewEnvironment
      /\ (exists c, c ∈ calls /\ answer c = Some err)
      /\ (answer StartWithExtensions = None <-> last calls = Some StopWithExtensions)
      /\ (answer StartAPIServer = None -> StartAPIServer ∉ calls)
      /\ StopAPIServer ∉ calls
  end.
Proof.
  unfold Start, failedStart, Stop. simpl.
  destruct (answer StartWithExtensions) as [e1|] eqn:H1.
  { intros [= <- <- <-]. split_and!; [done|by exists StartWithExtensions; set_solver|done|
      set_solver|set_solver]. }
  destruct (answer NewClient) as [e2|] eqn:H2.
  { intros [= <- <- <-]. split_and!; [done|by exists NewClient; set_solver|done|
      set_solver|set_solver]. }
  destruct (answer (NewAPIServer apiServerMain)) as [e3|] eqn:H3.
  { intros [= <- <- <-]. split_and!; [done|exists (NewAPIServer apiServerMain); set_solver|done|
      set_solver|set_solver]. }
  destruct (answer StartAPIServer) as [e4|] eqn:H4.
  { intros [= <- <- <-]. split_and!; [done|exists StartAPIServer; set_solver|done|done|
      set_solver]. }
  intros [= <- <- <-]. split_and!; [done| |done].
  intros c. rewrite !elem_of_cons, elem_of_nil. intros [->|[->|[->|[->|[]]]]]; done.
Qed.

End environment.

(** ** The registry (test/oci/registry.go) *)

(** [base64.StdEncoding]. *)
Definition alphabet : string := "ABCDEFGHIJKLMNOPQRSTUVWXYZabcdefghijklmnopqrstuvwxyz0123456789+/".

Definition sextet (n : N) : ascii :=
  default "="%char (String.get (N.to_nat (N.land n 63)) alphabet).

Fixpoint EncodeToString (bytes : list ascii) : string :=
  match bytes with
  | [] => ""
  | [a] =>
      let n := N.shiftl (N_of_ascii a) 16 in
      String (sextet (N.shiftr n 18)) (String (sextet (N.shiftr n 12)) "==")
  | [a; b] =>
      let n := N.lor (N.shiftl (N_of_ascii a) 16) (N.shiftl (N_of_ascii b) 8) in
      String (sextet (N.shiftr n 18)) (String (sextet (N.shiftr n 12))
        (String (sextet (N.shiftr n 6)) "="))
  | a :: b :: c :: rest =>
      let n := N.lor (N.shiftl (N_of_ascii a) 16)
                 (N.lor (N.shiftl (N_of_ascii b) 8) (N_of_ascii c)) in
      String (sextet (N.shiftr n 18)) (String (sextet (N.shiftr n 12))
        (String (sextet (N.shiftr n 6)) (String (sextet n) (EncodeToString rest))))
  end.

Example encode_credentials :
  EncodeToString (String.list_ascii_of_string "user:password") = "dXNlcjpwYXNzd29yZA==".
Proof. reflexivity. Qed.

Record Registry := mkRegistry { wantedAuthHeader : string }.

Definition NewRegistry : Registry := mkRegistry "".

Definition WithAuth (r : Registry) (username password : string) : Registry :=
  mkRegistry ("Basic " +++
    EncodeToString (String.list_ascii_of_string (username +++ ":" +++ password))).

(** What was written of a response: the status is the first that was written. *)
Record Response := mkResponse {
  status : option nat;
  header : list (string * string);
  body : string;
}.

Definition setHeader (k v : string) (w : Response) : Response :=
  mkResponse (status w) ((k, v) :: header w) (body w).
Definition WriteHeader (code : nat) (w : Response) : Response :=
  mkResponse (match status w with Some s => Some s | None => Some code end) (header w) (body w).

(** Basic realm and the name of the server in quotes. *)
Definition realm : string :=
  let quote := String (ascii_of_nat 34) "" in "Basic realm=" +++ quote +++ "Test Server" +++ quote.

Section registry.
(** The handler of go-containerregistry, over what it stores: it does not unset a
    status that was written, and what it stores does not depend on the response. *)
Context {Store Request : Type} (authorization : Request -> string).
Context (ServeHTTP : Request -> Response -> Store -> Response * Store).
Hypothesis ServeHTTP_status : forall req w s code,
  status w = Some code -> status (ServeHTTP req w s).1 = Some code.
Hypothesis ServeHTTP_store : forall req w w' s,
  (ServeHTTP req w s).2 = (ServeHTTP req w' s).2.

Definition handle (r : Registry) (req : Request) (w : Response) (s : Store) : Response * Store :=
  let w :=
    if string_nonempty (wantedAuthHeader r)
       && negb (String.eqb (authorization req) (wantedAuthHeader r)) then
      WriteHeader 401 (setHeader "Www-Authenticate" realm w)
    else w in
  ServeHTTP req w s.

(** The check of the header does not stop a request: without the authorization that
    is wanted the response has status 401, but the request is carried out all the
    same. *)
Theorem registry_401_carried_out r req s :
  wantedAuthHeader r <> "" -> authorization req <> wantedAuthHeader r ->
  let empty := mkResponse None [] "" in
  status (handle r req empty s).1 = Some 401
  /\ (handle r req empty s).2 = (ServeHTTP req empty s).2.
Proof.
  intros Hw Ha. unfold handle.
  assert (string_nonempty (wantedAuthHeader r) = true) as ->
    by (by destruct (wantedAuthHeader r)).
  destruct (String.eqb_spec (authorization req) (wantedAuthHeader r)) as [?|_]; [done|].
  simpl. split; [by apply ServeHTTP_status|apply ServeHTTP_store].
Qed.

End registry.

(** ** The test manifest (test/oci/image.go) *)

Inductive pushCall :=
| PushBytes (mediaType layer : string)
| PackManifest (artifactType : string)
| Tag (version : string).

(** [PushTestManifest]: the calls made, and the first error or the descriptor of the
    manifest, by the answers of oras and the media type of layers. *)
Definition PushTestManifest {Descriptor : Type}
  (mediaTypeImageLayer : string) (push : error + Descriptor)
  (pack : list Descriptor -> error + Descriptor) (tag : Descriptor -> option error)
  (version : string) : list pushCall * (error + Descriptor) :=
  let pushing := PushBytes mediaTypeImageLayer "example manifest layer" in
  let packing := PackManifest "application/vnd.example+type" in
  match push with
  | inl err => ([pushing], inl err)
  | inr layerDescriptor =>
      match pack [layerDescriptor] with
      | inl err => ([pushing; packing], inl err)
      | inr desc =>
          ([pushing; packing; Tag version],
           match tag desc with Some err => inl err | None => inr desc end)
      end
  end.
