(* ===== verification/Interleaving.v ===== *)
(** * Both controllers, call by call

    The manager runs the two reconcilers against one API server.  A job is a
    reconciliation under way: the requests it has made with their answers, and the
    rest of its program; the work queue runs at most one job per key and controller.
    Reads are answered by the informer caches, which lag behind the server, each
    kind of object by an amount of its own; writes go to the server.  Between two
    calls of a job anything else may happen: calls of other jobs, changes by users
    and Argo, progress of the caches, a restart that loses all jobs.

    The history of the cluster is kept, oldest first; a cache is a position in it. *)

From stdpp Require Import base gmap list strings relations.
From S2P Require Import Prelude GoStd KubeTypes V1alpha1Types Client Cluster.
From S2P Require Import ControllerRuntime WorkflowParameters OrderController.
From S2P Require Import ArtifactWorkflowController ArtifactWorkflowFacts.

Local Open Scope list_scope.

(** ** The calls a program can make *)

(** [promises p t P]: every call [p] makes, after the trace [t], satisfies [P] with
    the trace before it. *)
Fixpoint promises {A : Type} (p : prog A) (t : list event)
  (P : list event -> call -> Prop) : Prop :=
  match p with
  | Call c k => P t c /\ forall r, promises (k r) (t ++ [ev c r]) P
  | _ => True
  end.

(** [only p P]: every call of [p] satisfies [P]. *)
Fixpoint only {A : Type} (p : prog A) (P : call -> Prop) : Prop :=
  match p with
  | Call c k => P c /\ forall r, only (k r) P
  | _ => True
  end.

Lemma only_promises {A : Type} (p : prog A) (P : call -> Prop)
  (Q : list event -> call -> Prop) (I : list event -> Prop) t :
  only p P -> I t -> (forall t e, I t -> I (t ++ [e])) -> (forall t c, I t -> P c -> Q t c) ->
  promises p t Q.
Proof.
  intros Ho Ht Happ HQ. revert t Ht. induction p as [| | |c k IH]; intros t Ht; simpl; auto.
  destruct Ho as [Hc Hk]. split; auto.
Qed.

(** A program whose calls all satisfy [P], and what comes after it. *)
Lemma promises_bind {A B : Type} (p : prog A) (f : A -> prog B) (P : call -> Prop)
  (Q : list event -> call -> Prop) (I : list event -> Prop) t :
  only p P -> I t -> (forall t e, I t -> I (t ++ [e])) -> (forall t c, I t -> P c -> Q t c) ->
  (forall a t, I t -> promises (f a) t Q) -> promises (bind p f) t Q.
Proof.
  intros Ho Ht Happ HQ Hf. revert t Ht. induction p as [| | |c k IH]; intros t Ht; simpl; auto.
  destruct Ho as [Hc Hk]. split; auto.
Qed.

Lemma only_bind {A B : Type} (p : prog A) (f : A -> prog B) P :
  only p P -> (forall a, only (f a) P) -> only (bind p f) P.
Proof. intros Hp Hf. induction p as [| | |c k IH]; simpl; auto. destruct Hp. auto. Qed.

Lemma only_for_each {A St : Type} (l : list A) (body : A -> St -> prog St) st P :
  (forall x st, only (body x st) P) -> only (for_each l body st) P.
Proof.
  intros Hb. revert st. induction l as [|x l IH]; intros st; simpl; [done|].
  apply only_bind; auto.
Qed.

Lemma only_lift {A : Type} (o : outcome A) P : only (lift o) P.
Proof. by destruct o. Qed.

Lemma only_must {A : Type} text (r : error + A) P : only (must text r) P.
Proof. by destruct r. Qed.

Lemma only_check text r P : only (check text r) P.
Proof. by destruct r. Qed.

#[export] Hint Resolve only_must only_check only_lift : arc.

(** Step through the head of an [only] goal; the calls are left. *)
Ltac only_step :=
  lazymatch goal with
  | |- only (bind (do_call _) _) _ => split; [|intros ?]
  | |- only (bind _ _) _ => apply only_bind; [|intros ?]
  | |- only (do_call _) _ => split; [|done]
  | |- only (for_each _ _ _) _ => apply only_for_each; intros ? ?
  | |- only (must _ _) _ => apply only_must
  | |- only (check _ _) _ => apply only_check
  | |- only (lift _) _ => apply only_lift
  | |- only (Ret _) _ => exact I
  | |- only (Fail _) _ => exact I
  | |- only (Crash _) _ => exact I
  | |- only (match ?x with _ => _ end) _ => destruct x eqn:?
  | |- only (let _ := _ in _) _ => cbv zeta
  end.

(** ** Jobs, caches and history *)

Record job := mkJob { job_trace : list event; job_rest : prog Result }.

(** The informers of the manager's cache. *)
Inductive informer :=
| OrderInformer | EndpointInformer | SecretInformer | ArtifactTypeInformer
| ArtifactWorkflowInformer | WorkflowInformer.

#[export] Instance informer_eq_dec : EqDecision informer.
Proof. solve_decision. Defined.

(** The informer that answers a read. *)
Definition informerOf (c : call) : informer :=
  match c with
  | GetOrder _ | ListOrders _ _ => OrderInformer
  | GetEndpoint _ => EndpointInformer
  | GetSecret _ => SecretInformer
  | GetArtifactType _ => ArtifactTypeInformer
  | GetWorkflow _ => WorkflowInformer
  | _ => ArtifactWorkflowInformer
  end.

Record System := mkSystem {
  history : list Cluster;
  now : Cluster;
  seen : informer -> nat;
  orderJobs : gmap NamespacedName job;
  awJobs : gmap NamespacedName job;
}.

(** All versions of the cluster up to now. *)
Definition versions (y : System) : list Cluster := history y ++ [now y].

Definition record (y : System) (s : Cluster) : System :=
  mkSystem (versions y) s (seen y) (orderJobs y) (awJobs y).
Definition set_seen (y : System) (f : informer -> nat) : System :=
  mkSystem (history y) (now y) f (orderJobs y) (awJobs y).
Definition set_orderJobs (y : System) (js : gmap NamespacedName job) : System :=
  mkSystem (history y) (now y) (seen y) js (awJobs y).
Definition set_awJobs (y : System) (js : gmap NamespacedName job) : System :=
  mkSystem (history y) (now y) (seen y) (orderJobs y) js.

(** A resource version names one stretch of the history of an object: where it was
    stored at two moments, the same object was stored at all moments between. *)
Definition steady {A : Type} (meta : A -> ObjectMeta) (h : list (gmap NamespacedName A)) : Prop :=
  forall i j l k mi mj ml a b, i <= j -> j <= l ->
    h !! i = Some mi -> h !! j = Some mj -> h !! l = Some ml ->
    mi !! k = Some a -> ml !! k = Some b ->
    ResourceVersion (meta a) = ResourceVersion (meta b) -> mj !! k = Some a.

Definition versioned (h : list Cluster) : Prop :=
  steady Order_ObjectMeta (map orders h) /\ steady AW_ObjectMeta (map artifactWorkflows h).

(** ** Answers *)

(** An error that does not say whether the object exists: a fault on the way, a
    timeout, an internal error, a conflict. *)
Definition undecided (e : error) : Prop := IsNotFound e = false /\ IsAlreadyExists e = false.

Definition failure (c : call) (e : error) : reply c :=
  match c return reply c with
  | GetOrder _ | GetEndpoint _ | GetSecret _ | GetArtifactType _
  | GetArtifactWorkflow _ | GetWorkflow _ | ListOrders _ _ => inl e
  | _ => Some e
  end.

(** What a call finds: a read the cache, a write the server.  Either can fail, and
    the answer of a write that was carried out can get lost. *)
Inductive answers (y : System) (c : call) : Cluster -> reply c -> Prop :=
| AnswerRead s r :
    mutating c = false -> versions y !! seen y (informerOf c) = Some s ->
    serves c s s r -> answers y c (now y) r
| AnswerWrite s r : mutating c = true -> serves c (now y) s r -> answers y c s r
| AnswerFailed e : undecided e -> answers y c (now y) (failure c e)
| AnswerLost s r e :
    mutating c = true -> serves c (now y) s r -> undecided e -> answers y c s (failure c e).

(** ** Everybody else *)

(** Owned by an artifact workflow. *)
Definition ownedByAW (wf : Workflow) : Prop :=
  Exists (fun ref => OwnerReference_Kind ref = "ArtifactWorkflow"%string)
    (OwnerReferences (Workflow_ObjectMeta wf)).

Definition wfDeleting (wf : Workflow) : bool :=
  negb (Time_IsZero (DeletionTimestamp (Workflow_ObjectMeta wf))).

(** Users create, edit and delete artifact workflows as they like, the status included
    (an update of the resource takes the whole object), but leave the controller's
    finalizer to the controller; they do what they like with orders, endpoints, types
    and secrets.  Argo and the users change and remove Argo workflows and create
    others, which no artifact workflow owns; a deletion cannot be undone. *)
Inductive outside (s : Cluster) : Cluster -> Prop :=
| UserInputs os es ss ts :
    (forall k o, os !! k = Some o -> meta_key (Order_ObjectMeta o) = k) ->
    outside s (mkCluster os es ss ts (artifactWorkflows s) (workflows s))
| UserCreatesAW aw :
    artifactWorkflows s !! wfKey aw = None ->
    outside s (set_artifactWorkflows s (<[wfKey aw := aw]> (artifactWorkflows s)))
| UserEditsAW aw aw' :
    artifactWorkflows s !! wfKey aw = Some aw -> wfKey aw' = wfKey aw ->
    awDeleting aw' = awDeleting aw ->
    (awClaimed aw = true -> awClaimed aw' = true) ->
    outside s (set_artifactWorkflows s
      (if released (AW_ObjectMeta aw') then delete (wfKey aw) (artifactWorkflows s)
       else <[wfKey aw := aw']> (artifactWorkflows s)))
| UserDeletesAW k m r :
    deletes_in AW_ObjectMeta set_AW_ObjectMeta k (artifactWorkflows s) m r ->
    outside s (set_artifactWorkflows s m)
| ArgoAndOthers m :
    (forall k wf', m !! k = Some wf' -> ownedByAW wf' ->
       exists wf, workflows s !! k = Some wf /\ ownedByAW wf /\
         (wfDeleting wf = true -> wfDeleting wf' = true)) ->
    outside s (set_workflows s m).

(** ** Steps *)

Definition finished (p : prog Result) : bool :=
  match p with
  | Call _ _ => false
  | _ => true
  end.

Section system.
Context `{GoRuntime} `{Float64} `{ControllerUtil}.

(** What the manager does. *)
Inductive managerStep (y : System) : System -> Prop :=
| StartOrder k :
    orderJobs y !! k = None ->
    managerStep y (set_orderJobs y (<[k := mkJob [] (OrderController.Reconcile k)]> (orderJobs y)))
| StartAW k :
    awJobs y !! k = None ->
    managerStep y (set_awJobs y
      (<[k := mkJob [] (ArtifactWorkflowController.Reconcile k)]> (awJobs y)))
| CallOrder k t c p s r :
    orderJobs y !! k = Some (mkJob t (Call c p)) -> answers y c s r ->
    versioned (versions y ++ [s]) ->
    managerStep y (set_orderJobs (record y s) (<[k := mkJob (t ++ [ev c r]) (p r)]> (orderJobs y)))
| CallAW k t c p s r :
    awJobs y !! k = Some (mkJob t (Call c p)) -> answers y c s r ->
    versioned (versions y ++ [s]) ->
    managerStep y (set_awJobs (record y s) (<[k := mkJob (t ++ [ev c r]) (p r)]> (awJobs y)))
| DoneOrder k j :
    orderJobs y !! k = Some j -> finished (job_rest j) = true ->
    managerStep y (set_orderJobs y (delete k (orderJobs y)))
| DoneAW k j :
    awJobs y !! k = Some j -> finished (job_rest j) = true ->
    managerStep y (set_awJobs y (delete k (awJobs y)))
| RestartManager : managerStep y (set_awJobs (set_orderJobs y ∅) ∅)
| CacheProgress i n :
    seen y i <= n -> n < length (versions y) ->
    managerStep y (set_seen y (fun i' => if decide (i' = i) then n else seen y i')).

Inductive step (y : System) : System -> Prop :=
| Manager y' : managerStep y y' -> step y y'
| Elsewhere s :
    outside (now y) s -> versioned (versions y ++ [s]) -> step y (record y s).

(** A manager that just started on a cluster without artifact workflows and without
    Argo workflows that belong to one. *)
Record fresh (y : System) : Prop := {
  fresh_history : history y = [];
  fresh_seen : forall i, seen y i = 0;
  fresh_orderJobs : orderJobs y = ∅;
  fresh_awJobs : awJobs y = ∅;
  fresh_orders : forall k o, orders (now y) !! k = Some o -> meta_key (Order_ObjectMeta o) = k;
  fresh_aws : artifactWorkflows (now y) = ∅;
  fresh_workflows : forall k wf, workflows (now y) !! k = Some wf -> ~ ownedByAW wf;
}.

(** The states the system can get into. *)
Definition reachable (y : System) : Prop := exists y0, fresh y0 /\ rtc step y0 y.

End system.
