(* ===== verification/InterleavingFacts.v ===== *)
(** * What the calls of the two controllers can be, and what a call does

    [orderCalls] and [awCalls] say of every call of a job what it is, given the
    answers the job has had; the lemmas on [updates], [creates_in] and [deletes_in]
    say what an answered write did to the stored objects, given that resource
    versions are [steady]. *)

From stdpp Require Import base gmap list strings relations.
From S2P Require Import Prelude GoStd KubeTypes V1alpha1Types Client Cluster Errors.
From S2P Require Import ControllerRuntime WorkflowParameters OrderController.
From S2P Require Import ArtifactWorkflowController ArtifactWorkflowFacts Interleaving.

Local Open Scope list_scope.

(** ** The object a job works on: what its first call read *)

Definition readOrder (t : list event) : option Order :=
  match t with
  | existT (GetOrder _) (inr o) :: _ => Some o
  | _ => None
  end.

Definition readAW (t : list event) : option ArtifactWorkflow :=
  match t with
  | existT (GetArtifactWorkflow _) (inr aw) :: _ => Some aw
  | _ => None
  end.

Lemma readOrder_app t e : t <> [] -> readOrder (t ++ [e]) = readOrder t.
Proof. by destruct t. Qed.

Lemma readAW_app t e : t <> [] -> readAW (t ++ [e]) = readAW t.
Proof. by destruct t. Qed.

(** The job asked for the Argo workflow to be deleted, and it was or was not there. *)
Definition cleanedUp (aw : ArtifactWorkflow) (t : list event) : Prop :=
  exists r, ev (DeleteWorkflow (wfMeta aw)) r ∈ t /\ IgnoreNotFound r = None.

Section calls.
Context `{GoRuntime} `{Float64} `{ControllerUtil}.

(** ** The calls of an order job *)

Definition orderCall (order : Order) (c : call) : Prop :=
  match c with
  | GetEndpoint _ | GetSecret _ | GetArtifactWorkflow _ | DeleteArtifactWorkflow _ => True
  | CreateArtifactWorkflow aw => awPhase aw = WorkflowUnknown
  | UpdateOrder o => exists fs, o = set_Order_ObjectMeta order
                                      (set_Finalizers (Order_ObjectMeta order) fs)
                     /\ forall f, f <> orderFinalizer ->
                          (f ∈ fs <-> f ∈ Finalizers (Order_ObjectMeta order))
  | UpdateOrderStatus o => exists aws, o = set_Order_ArtifactWorkflows order aws
  | _ => False
  end.

Definition orderCalls (k : NamespacedName) (t : list event) (c : call) : Prop :=
  match t with
  | [] => c = GetOrder k
  | _ => exists order, readOrder t = Some order /\ orderCall order c
  end.

Lemma only_deleteTracked order sha aws : only (deleteTracked order sha aws) (orderCall order).
Proof. unfold deleteTracked. by repeat only_step. Qed.

Lemma without_finalizer_spec (fs : list string) x f :
  f <> x -> (f ∈ slices_DeleteFunc fs (fun f => bool_decide (f = x)) <-> f ∈ fs).
Proof.
  intros Hf. rewrite slices_DeleteFunc_elem, bool_decide_false by done. naive_solver.
Qed.

Lemma only_orderDelete order : only (OrderController.reconcileDelete order) (orderCall order).
Proof.
  unfold OrderController.reconcileDelete. repeat only_step; simpl; eauto; try apply only_deleteTracked.
  eexists. split; [done|]. intros f Hf. by apply without_finalizer_spec.
Qed.

Lemma only_fetchSecret order ns ep text : only (fetchSecret ns ep text) (orderCall order).
Proof. unfold fetchSecret. by repeat only_step. Qed.

Lemma only_fetchArtifact order ia daws : only (fetchArtifact order ia daws) (orderCall order).
Proof.
  unfold fetchArtifact. destruct ia as [i art]. repeat only_step; try done.
  all: apply only_fetchSecret.
Qed.

Lemma hydrate_unknown daw aw :
  hydrateArtifactWorkflow daw = Ok aw -> awPhase aw = WorkflowUnknown.
Proof.
  unfold hydrateArtifactWorkflow. intros Hh. destruct (dawToParameters daw); simpl in Hh;
    by simplify_eq.
Qed.

Lemma only_createOne order daws sha aws : only (createOne order daws sha aws) (orderCall order).
Proof.
  unfold createOne. destruct (daws !! sha) as [daw|]; [|done].
  destruct (hydrateArtifactWorkflow daw) as [aw|e|m] eqn:Hh; [|done..].
  repeat only_step; try done. by apply hydrate_unknown in Hh.
Qed.

Lemma only_applyDesired order daws : only (applyDesired order daws) (orderCall order).
Proof.
  unfold applyDesired. repeat only_step; try done.
  - apply only_createOne.
  - unfold deleteOne. by repeat only_step.
  - unfold syncOne. by repeat only_step.
  - simpl. eauto.
Qed.

(** Every call of a reconciliation of an order. *)
Lemma order_promises k : promises (OrderController.Reconcile k) [] (orderCalls k).
Proof.
  split; [done|]. intros [e|order]; [simpl; by destruct (IsNotFound e)|].
  cbn [bind]. apply (only_promises _ (orderCall order) _ (fun t => readOrder t = Some order /\ t <> [])).
  - repeat only_step; simpl.
    + apply only_orderDelete.
    + eexists. split; [done|]. intros f Hf. set_solver.
    + unfold desiredState. apply only_for_each. intros. apply only_fetchArtifact.
    + apply only_applyDesired.
  - done.
  - intros t e [Ht Hne]. rewrite readOrder_app by done. by destruct t.
  - intros t c [Ht Hne] Hc. unfold orderCalls. destruct t; [done|]. by exists order.
Qed.

(** ** The calls of an artifact workflow job *)

Definition awCall (aw : ArtifactWorkflow) (t : list event) (c : call) : Prop :=
  match c with
  | GetArtifactType _ | GetSecret _ | GetWorkflow _ => True
  | DeleteWorkflow md => md = wfMeta aw /\ awDeleting aw = true
  | UpdateArtifactWorkflow aw' =>
      (awDeleting aw = true /\ aw' = awWithoutFinalizer aw /\ cleanedUp aw t) \/
      (awDeleting aw = false /\ aw' = awWithFinalizer aw)
  | CreateWorkflow wf =>
      awDeleting aw = false /\ awClaimed aw = true /\ awPhase aw = WorkflowUnknown /\
      meta_key (Workflow_ObjectMeta wf) = wfKey aw
  | UpdateArtifactWorkflowStatus aw' =>
      awDeleting aw = false /\ awClaimed aw = true /\ Completed (awPhase aw) = false /\
      exists p, aw' = set_AW_Phase aw p /\
        ((p = WorkflowPending /\ exists wf r, ev (CreateWorkflow wf) r ∈ t /\
            meta_key (Workflow_ObjectMeta wf) = wfKey aw /\ IgnoreAlreadyExists r = None) \/
         exists wf, ev (GetWorkflow (wfKey aw)) (inr wf) ∈ t /\ Workflow_Phase wf = p)
  | _ => False
  end.

Definition awCalls (k : NamespacedName) (t : list event) (c : call) : Prop :=
  match t with
  | [] => c = GetArtifactWorkflow k
  | _ => exists aw, readAW t = Some aw /\ awCall aw t c
  end.

Lemma createArgoWorkflow_promises aw k t :
  t <> [] -> readAW t = Some aw -> awDeleting aw = false -> awClaimed aw = true ->
  awPhase aw = WorkflowUnknown -> promises (createArgoWorkflow aw) t (awCalls k).
Proof.
  intros Ht Hr Hd Hc Hp.
  set (I := fun t : list event => t <> [] /\ readAW t = Some aw).
  assert (forall t e, I t -> I (t ++ [e])) as Happ.
  { intros t' e [Hne Hr']. split; [by destruct t'|]. by rewrite readAW_app. }
  assert (forall t c, I t -> awCall aw t c -> awCalls k t c) as Hcalls.
  { intros t' c [Hne Hr'] Hcall. unfold awCalls. destruct t'; [done|]. by exists aw. }
  set (P := fun c => forall t, awCall aw t c).
  assert (forall t c, I t -> P c -> awCalls k t c) as HP by (intros; apply Hcalls; auto).
  assert (forall ns ref text, only (fetchSecretRef ns ref text) P) as Hsec
    by (intros; unfold fetchSecretRef; by repeat only_step).
  unfold createArgoWorkflow. split; [by apply Hcalls|]. intros r1. cbn [bind].
  apply (promises_bind _ _ P _ I); [apply only_must|by apply Happ|done..|].
  intros at_ t1 Ht1. apply (promises_bind _ _ P _ I); [apply Hsec|done..|].
  intros src t2 Ht2. apply (promises_bind _ _ P _ I); [apply Hsec|done..|].
  intros dst t3 Ht3. cbv zeta. simpl Workflow_ObjectMeta.
  destruct (SetControllerReference _ _ _) as [e|meta] eqn:Hset; [done|].
  apply SetControllerReference_frame in Hset as (ref & -> & _); [|done]. simpl.
  split; [by apply Hcalls|]. intros u. destruct (IgnoreAlreadyExists u) eqn:Hu; [done|]. simpl.
  split; [|by intros [e|]]. apply Hcalls; [by apply Happ|].
  unfold awCall. rewrite Hp. split_and!; [done..|]. eexists. split; [done|]. left.
  split; [done|]. eexists _, u. split; [apply elem_of_app; right; apply list_elem_of_here|]. done.
Qed.

(** Every call of a reconciliation of an artifact workflow. *)
Lemma aw_promises k : promises (ArtifactWorkflowController.Reconcile k) [] (awCalls k).
Proof.
  split; [done|]. intros [e|aw]; [simpl; by destruct (IsNotFound e)|].
  cbn [bind app]. destruct (negb (Time_IsZero _)) eqn:Hd.
  { split; [by exists aw|]. intros r. simpl. destruct (IgnoreNotFound r) eqn:Hr; [done|].
    simpl. destruct (slices_Contains _ _); [|done]. split; [|by intros [e|]].
    exists aw. split; [done|]. left. split_and!; [done|done|]. exists r. split; [|done]. set_solver. }
  destruct (slices_Contains _ _) eqn:Hc; simpl negb; cbv iota.
  2: { split; [|by intros [e|]]. exists aw. split; [done|]. by right. }
  destruct (Completed _) eqn:Hcomp; [done|].
  case_bool_decide as Hu; [by apply createArgoWorkflow_promises|].
  destruct (InProgress _); [|done].
  split; [by exists aw|]. intros [e|wf]; [done|]. split; [|by intros [e|]].
  exists aw. split; [done|]. split_and!; [done..|]. eexists. split; [done|]. right.
  exists wf. split; [|done]. set_solver.
Qed.

End calls.

(** ** What a write did *)

Section writes.
Context {A : Type} (meta : A -> ObjectMeta) (set_meta : A -> ObjectMeta -> A).

(** The change an update makes, if it makes one: it replaces or releases the version
    that it was made from. *)
Lemma updates_inv stored new m m' r :
  updates meta set_meta stored new m m' r ->
  m' = m \/
  exists old x md, m !! meta_key (meta new) = Some old /\
    ResourceVersion (meta new) = ResourceVersion (meta old) /\
    stored new old = Ok x /\ maintained (meta x) md /\
    m' = if released md then delete (meta_key (meta new)) m
         else <[meta_key (meta new) := set_meta x md]> m.
Proof.
  unfold updates. cbv zeta. destruct (m !! _) as [old|]; [|by intros [-> _]; left].
  case_bool_decide; [|by intros [-> _]; left].
  intros (_ & x & md & Hx & Hmd & Hm). right. by exists old, x, md.
Qed.

Lemma creates_inv new m m' r :
  creates_in meta set_meta new m m' r ->
  m' = m \/
  m !! meta_key (meta new) = None /\
  exists md, maintained (meta new) md /\ m' = <[meta_key (meta new) := set_meta new md]> m.
Proof.
  unfold creates_in. cbv zeta. destruct (m !! _); [by intros [-> _]; left|].
  intros (_ & md & Hmd & Hm). right. eauto.
Qed.

Lemma deletes_inv k m m' r :
  deletes_in meta set_meta k m m' r ->
  (m !! k = None /\ m' = m) \/
  exists old, m !! k = Some old /\
    ((Finalizers (meta old) = [] /\ m' = delete k m) \/
     exists md, maintained (set_DeletionTimestamp (meta old) (DeletionTimestamp md)) md /\
       Time_IsZero (DeletionTimestamp md) = false /\ m' = <[k := set_meta old md]> m).
Proof.
  unfold deletes_in. destruct (m !! k) as [old|]; [|by intros [-> _]; left].
  intros [_ Hd]. right. exists old. split; [done|]. case_bool_decide; [by left|]. right.
  destruct Hd as (t & md & Ht & Hmd & ->). exists md. split_and!; [|by eapply maintained_marked|done].
  destruct Hmd as (? & ? & ? & ? & ? & ? & Hdt). by split_and!.
Qed.

(** A deletion that was not refused for another reason leaves nothing, or an object
    that is being deleted. *)
Lemma deletes_gone k m m' r :
  deletes_in meta set_meta k m m' r ->
  (forall a md, meta (set_meta a md) = md) -> forall a, m' !! k = Some a -> Time_IsZero (DeletionTimestamp (meta a)) = false.
Proof.
  intros Hd Hset a Ha. apply deletes_inv in Hd as [[Hn ->]|(old & Ho & [[_ ->]|(md & _ & Ht & ->)])].
  - by rewrite Hn in Ha.
  - by rewrite lookup_delete_eq in Ha.
  - rewrite lookup_insert_eq in Ha. simplify_eq. by rewrite Hset.
Qed.

(** Objects are stored under their own names. *)
Definition keyed (m : gmap NamespacedName A) : Prop :=
  forall k a, m !! k = Some a -> meta_key (meta a) = k.

Lemma keyed_insert k a m : keyed m -> meta_key (meta a) = k -> keyed (<[k := a]> m).
Proof. intros Hm Ha k' a' [[<- <-]|[_ Hl]]%lookup_insert_Some; [done|by apply Hm]. Qed.

Lemma keyed_delete k m : keyed m -> keyed (delete k m).
Proof. intros Hm k' a' [_ Hl]%lookup_delete_Some. by apply Hm. Qed.

Lemma maintained_key m1 m2 : maintained m1 m2 -> meta_key m2 = meta_key m1.
Proof. intros (Hn & Hns & _). unfold meta_key. by rewrite Hn, Hns. Qed.

Context (meta_set : forall a md, meta (set_meta a md) = md).

Lemma updates_keyed stored new m m' r :
  (forall old x, stored new old = Ok x -> meta x = meta new) ->
  keyed m -> updates meta set_meta stored new m m' r -> keyed m'.
Proof.
  intros Hst Hm [->|(old & x & md & _ & _ & Hx & Hmd & ->)]%updates_inv; [done|].
  case_match; [by apply keyed_delete|]. apply keyed_insert; [done|].
  rewrite meta_set, (maintained_key _ _ Hmd). by rewrite (Hst _ _ Hx).
Qed.

Lemma creates_keyed new m m' r :
  keyed m -> creates_in meta set_meta new m m' r -> keyed m'.
Proof.
  intros Hm [->|(_ & md & Hmd & ->)]%creates_inv; [done|]. apply keyed_insert; [done|].
  by rewrite meta_set, (maintained_key _ _ Hmd).
Qed.

Lemma deletes_keyed k m m' r :
  keyed m -> deletes_in meta set_meta k m m' r -> keyed m'.
Proof.
  intros Hm [[_ ->]|(old & Ho & [[_ ->]|(md & Hmd & _ & ->)])]%deletes_inv;
    [done|by apply keyed_delete|].
  apply keyed_insert; [done|]. rewrite meta_set, (maintained_key _ _ Hmd). by apply (Hm k old).
Qed.

End writes.
