(* ===== verification/InterleavingInvariant.v ===== *)
(** * The invariant of the two controllers

    What holds between the stored objects, the caches and the jobs in every state
    the system can get into; proved by one lemma per kind of step. *)

From stdpp Require Import base gmap list strings relations.
From S2P Require Import Prelude GoStd KubeTypes V1alpha1Types Client Cluster Errors.
From S2P Require Import ControllerRuntime WorkflowParameters OrderController.
From S2P Require Import ArtifactWorkflowController ArtifactWorkflowFacts Interleaving.
From S2P Require Import InterleavingFacts.

Local Open Scope list_scope.

(** An artifact workflow of that name is stored and carries the finalizer. *)
Definition claimedAt (s : Cluster) (k : NamespacedName) : Prop :=
  exists aw, artifactWorkflows s !! k = Some aw /\ awClaimed aw = true.

(** An Argo workflow of that name runs for an artifact workflow and is not being
    deleted. *)
Definition runsAt (s : Cluster) (k : NamespacedName) : Prop :=
  exists wf, workflows s !! k = Some wf /\ ownedByAW wf /\ wfDeleting wf = false.

Definition keyedCluster (s : Cluster) : Prop :=
  keyed Order_ObjectMeta (orders s) /\ keyed AW_ObjectMeta (artifactWorkflows s).

(** A job still has to do what its program promises, on an order it has read. *)
Record orderJobOk (y : System) (k : NamespacedName) (j : job) : Prop := {
  oj_calls : promises (job_rest j) (job_trace j) (orderCalls k);
  oj_read : forall o, readOrder (job_trace j) = Some o ->
    exists s, s ∈ versions y /\ orders s !! k = Some o;
}.

(** The artifact workflow a job has read is no later than the cache; while the job
    takes it for live and claimed it is claimed; and once the job has cleaned up no
    Argo workflow runs for it. *)
Record awJobOk (y : System) (k : NamespacedName) (j : job) : Prop := {
  aj_calls : promises (job_rest j) (job_trace j) (awCalls k);
  aj_read : forall aw, readAW (job_trace j) = Some aw ->
    exists i s, i <= seen y ArtifactWorkflowInformer /\ versions y !! i = Some s /\
      artifactWorkflows s !! k = Some aw;
  aj_claimed : forall aw, readAW (job_trace j) = Some aw ->
    awDeleting aw = false -> awClaimed aw = true -> claimedAt (now y) k;
  aj_cleaned : forall aw, readAW (job_trace j) = Some aw ->
    awDeleting aw = true -> cleanedUp aw (job_trace j) -> ~ runsAt (now y) k;
}.

Record invariant (y : System) : Prop := {
  inv_keyed : forall s, s ∈ versions y -> keyedCluster s;
  inv_versioned : versioned (versions y);
  inv_seen : forall i, seen y i < length (versions y);
  inv_runs : forall k, runsAt (now y) k -> claimedAt (now y) k;
  inv_cached : forall i s k aw, seen y ArtifactWorkflowInformer <= i ->
    versions y !! i = Some s -> artifactWorkflows s !! k = Some aw ->
    awDeleting aw = false -> awClaimed aw = true -> claimedAt (now y) k;
  inv_orderJob : forall k j, orderJobs y !! k = Some j -> orderJobOk y k j;
  inv_awJob : forall k j, awJobs y !! k = Some j -> awJobOk y k j;
}.

(** ** The history grows *)

Lemma now_versions y : now y ∈ versions y.
Proof. unfold versions. set_solver. Qed.

Lemma versions_last y : versions y !! (length (versions y) - 1) = Some (now y).
Proof.
  unfold versions. rewrite length_app. simpl.
  replace (length (history y) + 1 - 1) with (length (history y)) by lia.
  by rewrite lookup_app_r, Nat.sub_diag by lia.
Qed.

Lemma versions_record y s : versions (record y s) = versions y ++ [s].
Proof. done. Qed.

Lemma lookup_record y s i s' :
  versions (record y s) !! i = Some s' ->
  versions y !! i = Some s' \/ (i = length (versions y) /\ s' = s).
Proof.
  rewrite versions_record. intros [Hl|[Hi Hl]]%lookup_app_Some; [by left|right].
  apply list_lookup_singleton_Some in Hl as [Hz <-]. split; [lia|done].
Qed.

Lemma seen_cached y i :
  (forall i, seen y i < length (versions y)) -> is_Some (versions y !! seen y i).
Proof. intros Hs. apply lookup_lt_is_Some. apply Hs. Qed.

(** What has to be shown of the next version. *)
Lemma record_inv y s :
  invariant y -> keyedCluster s -> versioned (versions y ++ [s]) ->
  (forall k, runsAt s k -> claimedAt s k) ->
  (forall i s' k aw, seen y ArtifactWorkflowInformer <= i -> versions y !! i = Some s' ->
     artifactWorkflows s' !! k = Some aw -> awDeleting aw = false -> awClaimed aw = true ->
     claimedAt s k) ->
  (forall k j aw, awJobs y !! k = Some j -> readAW (job_trace j) = Some aw ->
     awDeleting aw = false -> awClaimed aw = true -> claimedAt s k) ->
  (forall k j aw, awJobs y !! k = Some j -> readAW (job_trace j) = Some aw ->
     awDeleting aw = true -> cleanedUp aw (job_trace j) -> ~ runsAt s k) ->
  invariant (record y s).
Proof.
  intros Hinv Hk Hv Hruns Hcached Hcl Hdone. split.
  - rewrite versions_record. intros s' [Hs| ->%list_elem_of_singleton]%elem_of_app; [|done].
    by apply (inv_keyed y).
  - done.
  - intros i. rewrite versions_record, length_app. pose proof (inv_seen y Hinv i). simpl. lia.
  - done.
  - intros i s' k aw Hi [Hs|[-> ->]]%lookup_record Haw Hd Hc; [by eapply Hcached|]. by exists aw.
  - intros k j Hj. destruct (inv_orderJob y Hinv k j Hj) as [Hcalls Hread]. split; [done|].
    intros o (s' & Hs & Ho)%Hread. exists s'. rewrite versions_record. set_solver.
  - intros k j Hj. destruct (inv_awJob y Hinv k j Hj) as [Hcalls Hread _ _]. split; [done|..].
    + intros aw (i & s' & Hi & Hs & Haw)%Hread. exists i, s'. split_and!; [done| |done].
      rewrite versions_record. by apply lookup_app_l_Some.
    + intros aw. by apply (Hcl k j).
    + intros aw. by apply (Hdone k j).
Qed.

(** The ordinary case: no finalizer is lost, and no Argo workflow is started except
    for one that a job takes for live. *)
Lemma keeps_inv y s :
  invariant y -> keyedCluster s -> versioned (versions y ++ [s]) ->
  (forall k, claimedAt (now y) k -> claimedAt s k) ->
  (forall k, runsAt s k -> runsAt (now y) k \/
     (claimedAt s k /\ forall j aw, awJobs y !! k = Some j ->
        readAW (job_trace j) = Some aw -> awDeleting aw = false)) ->
  invariant (record y s).
Proof.
  intros Hinv Hk Hv Hcl Hruns. apply record_inv; [done..| | | |].
  - intros k [Hr|[Hc _]]%Hruns; [|done]. by apply Hcl, (inv_runs y).
  - intros i s' k aw Hi Hs Haw Hd Hc. apply Hcl. by apply (inv_cached y Hinv i s' k aw).
  - intros k j aw Hj Hr Hd Hc. apply Hcl. by apply (aj_claimed y k j (inv_awJob y Hinv k j Hj) aw).
  - intros k j aw Hj Hr Hd Hcu [Hrun|[_ Hl]]%Hruns.
    + by apply (aj_cleaned y k j (inv_awJob y Hinv k j Hj) aw).
    + by rewrite (Hl j aw Hj Hr) in Hd.
Qed.

(** Nothing happened to artifact workflows and Argo workflows. *)
Lemma keeps_orders y s :
  invariant y -> keyed Order_ObjectMeta (orders s) -> versioned (versions y ++ [s]) ->
  artifactWorkflows s = artifactWorkflows (now y) -> workflows s = workflows (now y) ->
  invariant (record y s).
Proof.
  intros Hinv Hk Hv Haw Hwf. apply keeps_inv; [done| |done| |].
  - split; [done|]. rewrite Haw. apply (inv_keyed y Hinv _ (now_versions y)).
  - intros k. unfold claimedAt. by rewrite Haw.
  - intros k. unfold runsAt. rewrite Hwf. by left.
Qed.

(** ** Changes of artifact workflows and Argo workflows *)

Lemma set_AW_meta aw md : AW_ObjectMeta (set_AW_ObjectMeta aw md) = md.
Proof. by destruct aw. Qed.

Lemma set_Order_meta o md : Order_ObjectMeta (set_Order_ObjectMeta o md) = md.
Proof. by destruct o. Qed.

Lemma claimedAt_insert s k aw k' :
  (claimedAt s k -> awClaimed aw = true) -> claimedAt s k' ->
  claimedAt (set_artifactWorkflows s (<[k := aw]> (artifactWorkflows s))) k'.
Proof.
  intros Hc (x & Hx & Hcx). destruct (decide (k = k')) as [<-|Hne].
  - exists aw. simpl. rewrite lookup_insert_eq. split; [done|]. apply Hc. by exists x.
  - exists x. simpl. by rewrite lookup_insert_ne.
Qed.

Lemma claimedAt_delete s k k' :
  ~ claimedAt s k -> claimedAt s k' ->
  claimedAt (set_artifactWorkflows s (delete k (artifactWorkflows s))) k'.
Proof.
  intros Hc (x & Hx & Hcx). destruct (decide (k = k')) as [<-|Hne].
  - destruct Hc. by exists x.
  - exists x. simpl. by rewrite lookup_delete_ne.
Qed.

(** A change of artifact workflows alone that loses no finalizer. *)
Lemma keeps_aws y m :
  invariant y -> keyed AW_ObjectMeta m ->
  versioned (versions y ++ [set_artifactWorkflows (now y) m]) ->
  (forall k, claimedAt (now y) k -> claimedAt (set_artifactWorkflows (now y) m) k) ->
  invariant (record y (set_artifactWorkflows (now y) m)).
Proof.
  intros Hinv Hk Hv Hcl. apply keeps_inv; [done| |done|done|by left].
  split; [|done]. apply (inv_keyed y Hinv _ (now_versions y)).
Qed.

(** A change of Argo workflows alone. *)
Lemma keeps_workflows y m :
  invariant y -> versioned (versions y ++ [set_workflows (now y) m]) ->
  (forall k, runsAt (set_workflows (now y) m) k -> runsAt (now y) k \/
     (claimedAt (now y) k /\ forall j aw, awJobs y !! k = Some j ->
        readAW (job_trace j) = Some aw -> awDeleting aw = false)) ->
  invariant (record y (set_workflows (now y) m)).
Proof.
  intros Hinv Hv Hr. apply keeps_inv; [done| |done|done|done].
  apply (inv_keyed y Hinv _ (now_versions y)).
Qed.

Lemma creates_aw_inv y aw m r :
  invariant y ->
  creates_in AW_ObjectMeta set_AW_ObjectMeta aw (artifactWorkflows (now y)) m r ->
  versioned (versions y ++ [set_artifactWorkflows (now y) m]) ->
  invariant (record y (set_artifactWorkflows (now y) m)).
Proof.
  intros Hinv Hc Hv.
  destruct (inv_keyed y Hinv _ (now_versions y)) as [_ Hk].
  apply keeps_aws; [done|by eapply creates_keyed, Hc; [apply set_AW_meta|]|done|].
  intros k. apply creates_inv in Hc as [->|(Hn & md & _ & ->)]; [by destruct (now y)|].
  apply claimedAt_insert. intros (x & Hx & _). by rewrite Hn in Hx.
Qed.

Lemma deletes_aw_inv y k m r :
  invariant y ->
  deletes_in AW_ObjectMeta set_AW_ObjectMeta k (artifactWorkflows (now y)) m r ->
  versioned (versions y ++ [set_artifactWorkflows (now y) m]) ->
  invariant (record y (set_artifactWorkflows (now y) m)).
Proof.
  intros Hinv Hd Hv.
  destruct (inv_keyed y Hinv _ (now_versions y)) as [_ Hk].
  apply keeps_aws; [done|by eapply deletes_keyed, Hd; [apply set_AW_meta|]|done|].
  intros k'. apply deletes_inv in Hd as [[_ ->]|(old & Ho & [[Hf ->]|(md & Hmd & _ & ->)])].
  - by destruct (now y).
  - apply claimedAt_delete. intros (x & Hx & Hc). rewrite Ho in Hx. simplify_eq.
    unfold awClaimed in Hc. by rewrite Hf in Hc.
  - apply claimedAt_insert. intros (x & Hx & Hc). rewrite Ho in Hx. simplify_eq.
    unfold awClaimed in *. rewrite set_AW_meta.
    by destruct Hmd as (_ & _ & _ & _ & _ & -> & _).
Qed.

(** ** Users and Argo *)

Lemma released_claimed aw : released (AW_ObjectMeta aw) = true -> awClaimed aw = false.
Proof.
  unfold released, awClaimed. intros [_ Hf%bool_decide_eq_true]%andb_true_iff. by rewrite Hf.
Qed.

Lemma outside_inv y s :
  invariant y -> outside (now y) s -> versioned (versions y ++ [s]) -> invariant (record y s).
Proof.
  intros Hinv Ho Hv. destruct (inv_keyed y Hinv _ (now_versions y)) as [Hko Hkaw].
  destruct Ho as [os es ss ts Hos|aw Hn|aw aw' Hst Hk Hd Hc|k m r Hdel|m Hm].
  - by apply keeps_orders.
  - apply keeps_aws; [done|by apply keyed_insert|done|].
    intros k. apply claimedAt_insert. intros (x & Hx & _). by rewrite Hn in Hx.
  - apply keeps_aws; [done| |done|].
    + case_match; [by apply keyed_delete|by apply keyed_insert].
    + intros k. case_match eqn:Hrel.
      * apply released_claimed in Hrel. apply claimedAt_delete.
        intros (x & Hx & Hcx). rewrite Hst in Hx. simplify_eq. rewrite Hc in Hrel; done.
      * apply claimedAt_insert. intros (x & Hx & Hcx). rewrite Hst in Hx. simplify_eq. by apply Hc.
  - by eapply deletes_aw_inv.
  - apply keeps_workflows; [done|done|]. intros k (wf' & Hwf' & Hown & Hlive). left.
    destruct (Hm k wf' Hwf' Hown) as (wf & Hwf & Hown' & Hdel). exists wf. split_and!; [done..|].
    destruct (wfDeleting wf) eqn:Hdw; [|done]. rewrite Hdel in Hlive; done.
Qed.

(** ** Calls *)

(** A call that changes nothing leaves the state as it is; another one is served. *)
Lemma answers_cases y c s r :
  answers y c s r -> s = now y \/ exists r', mutating c = true /\ serves c (now y) s r'.
Proof. intros [s' r' _ _ _|s' r' Hm Hs|e _|s' r' e Hm Hs _]; eauto. Qed.

(** The answer of a read comes from the cache. *)
Lemma answers_read y c s r :
  answers y c s r -> mutating c = false ->
  (exists s', versions y !! seen y (informerOf c) = Some s' /\ serves c s' s' r) \/
  exists e, undecided e /\ r = failure c e.
Proof.
  intros [s' r' _ Hs Hr|s' r' Hm _|e He|s' r' e Hm _ _] Hread; eauto; by rewrite Hm in Hread.
Qed.

(** The answer of a write that does not hide what happened. *)
Lemma answers_write y c s r :
  answers y c s r -> mutating c = true ->
  serves c (now y) s r \/ exists e, undecided e /\ r = failure c e.
Proof.
  intros [s' r' Hm _ _|s' r' _ Hs|e He|s' r' e _ _ He] Hw; eauto; by rewrite Hm in Hw.
Qed.

Lemma record_same y :
  invariant y -> versioned (versions y ++ [now y]) -> invariant (record y (now y)).
Proof.
  intros Hinv Hv. apply keeps_inv; [done|by apply (inv_keyed y), now_versions|done|done|by left].
Qed.

Section calls.
Context `{GoRuntime} `{Float64} `{ControllerUtil}.

Lemma orders_updated_inv y prepare o m r :
  (forall new old x, storedOrder prepare new old = Ok x ->
     Order_ObjectMeta x = Order_ObjectMeta new) ->
  invariant y -> versioned (versions y ++ [set_orders (now y) m]) ->
  updates Order_ObjectMeta set_Order_ObjectMeta (storedOrder prepare) o (orders (now y)) m r ->
  invariant (record y (set_orders (now y) m)).
Proof.
  intros Hst Hinv Hv Hup. apply keeps_orders; [done| |done|done|done].
  eapply updates_keyed, Hup; [apply set_Order_meta|apply Hst|].
  apply (inv_keyed y Hinv _ (now_versions y)).
Qed.

(** A call of an order job keeps the invariant of everything but its own job. *)
Lemma order_call_inv y k t c p s r :
  invariant y -> orderJobs y !! k = Some (mkJob t (Call c p)) -> answers y c s r ->
  versioned (versions y ++ [s]) -> invariant (record y s).
Proof.
  intros Hinv Hj Ha Hv. destruct (oj_calls y k _ (inv_orderJob y Hinv k _ Hj)) as [Hcall _].
  destruct (answers_cases _ _ _ _ Ha) as [->|(r' & Hm & Hs)]; [by apply record_same|].
  simpl in Hcall. unfold orderCalls in Hcall. destruct t; [by subst|].
  destruct Hcall as (order & _ & Hcall).
  destruct c; try done; simpl in Hs; destruct Hs as (m & -> & Hs).
  - by eapply creates_aw_inv.
  - eapply orders_updated_inv, Hs; [|done|done]. intros new old x. rewrite storedOrder_main.
    intros [= <-]. done.
  - eapply orders_updated_inv, Hs; [|done|done]. intros new old x. rewrite storedOrder_status.
    intros [= <-]. done.
  - by eapply deletes_aw_inv.
Qed.

(** An update that was made from the version a job has read replaces exactly that
    version, and it has been there ever since. *)
Lemma read_since y k aw i s old :
  invariant y -> versions y !! i = Some s -> artifactWorkflows s !! k = Some aw ->
  artifactWorkflows (now y) !! k = Some old ->
  ResourceVersion (AW_ObjectMeta aw) = ResourceVersion (AW_ObjectMeta old) ->
  forall j s', i <= j -> versions y !! j = Some s' -> artifactWorkflows s' !! k = Some aw.
Proof.
  intros Hinv Hs Haw Hold Hrv j s' Hij Hs'.
  destruct (inv_versioned y Hinv) as [_ Hst].
  pose proof (lookup_lt_Some _ _ _ Hs') as Hlt.
  apply (Hst i j (length (versions y) - 1) k (artifactWorkflows s) (artifactWorkflows s')
           (artifactWorkflows (now y)) aw old); try done; try lia.
  all: rewrite list_lookup_fmap; simplify_option_eq; try done.
  by rewrite versions_last.
Qed.

Lemma read_stored y k aw i s old :
  invariant y -> versions y !! i = Some s -> artifactWorkflows s !! k = Some aw ->
  artifactWorkflows (now y) !! k = Some old ->
  ResourceVersion (AW_ObjectMeta aw) = ResourceVersion (AW_ObjectMeta old) -> old = aw.
Proof.
  intros Hinv Hs Haw Hold Hrv.
  pose proof (lookup_lt_Some _ _ _ Hs) as Hlt.
  assert (artifactWorkflows (now y) !! k = Some aw) as Hl; [|congruence].
  apply (read_since y k aw i s old) with (j := length (versions y) - 1); try done; [lia|].
  apply versions_last.
Qed.

(** The key of what a job has read. *)
Lemma read_key y k aw i s :
  invariant y -> versions y !! i = Some s -> artifactWorkflows s !! k = Some aw -> wfKey aw = k.
Proof.
  intros Hinv Hs Haw. destruct (inv_keyed y Hinv s) as [_ Hk]; [|by apply Hk].
  by eapply list_elem_of_lookup_2.
Qed.

Lemma create_workflow_inv y k j aw wf m r :
  invariant y -> awJobs y !! k = Some j -> readAW (job_trace j) = Some aw ->
  awDeleting aw = false -> awClaimed aw = true -> meta_key (Workflow_ObjectMeta wf) = k ->
  creates_in Workflow_ObjectMeta set_Workflow_ObjectMeta wf (workflows (now y)) m r ->
  versioned (versions y ++ [set_workflows (now y) m]) ->
  invariant (record y (set_workflows (now y) m)).
Proof.
  intros Hinv Hj Hr Hd Hc Hk Hcr Hv. apply keeps_workflows; [done|done|].
  intros k' (wf' & Hwf' & Ho & Hl). simpl in Hwf'.
  apply creates_inv in Hcr as [->|(Hn & md & _ & ->)]; [left; by exists wf'|].
  rewrite Hk in Hwf'. apply lookup_insert_Some in Hwf' as [[<- _]|[_ Hwf']]; [right|left; by exists wf'].
  split; [by apply (aj_claimed y k j (inv_awJob y Hinv k j Hj) aw)|].
  intros j' aw' Hj' Hr'. congruence.
Qed.

Lemma delete_workflow_inv y k m r :
  invariant y ->
  deletes_in Workflow_ObjectMeta set_Workflow_ObjectMeta k (workflows (now y)) m r ->
  versioned (versions y ++ [set_workflows (now y) m]) ->
  invariant (record y (set_workflows (now y) m)).
Proof.
  intros Hinv Hdel Hv. apply keeps_workflows; [done|done|].
  intros k' (wf' & Hwf' & Ho & Hl). left. simpl in Hwf'.
  apply deletes_inv in Hdel as [[_ ->]|(old & Hold & [[_ ->]|(md & _ & Ht & ->)])];
    [by exists wf'| |].
  - apply lookup_delete_Some in Hwf' as [_ Hwf']. by exists wf'.
  - apply lookup_insert_Some in Hwf' as [[_ <-]|[_ Hwf']]; [|by exists wf'].
    unfold wfDeleting in Hl. simpl in Hl. by rewrite Ht in Hl.
Qed.

(** The requests that keep the finalizer. *)
Lemma aw_updated_inv y k i s aw aw' prepare m r :
  (forall new old x, storedArtifactWorkflow prepare new old = Ok x ->
     AW_ObjectMeta x = AW_ObjectMeta new) ->
  invariant y -> versions y !! i = Some s -> artifactWorkflows s !! k = Some aw ->
  meta_key (AW_ObjectMeta aw') = k ->
  (awClaimed aw = true -> awClaimed aw' = true) ->
  ResourceVersion (AW_ObjectMeta aw') = ResourceVersion (AW_ObjectMeta aw) ->
  updates AW_ObjectMeta set_AW_ObjectMeta (storedArtifactWorkflow prepare) aw'
    (artifactWorkflows (now y)) m r ->
  versioned (versions y ++ [set_artifactWorkflows (now y) m]) ->
  invariant (record y (set_artifactWorkflows (now y) m)).
Proof.
  intros Hst Hinv Hs Haw Hk Hc Hrv Hup Hv. apply keeps_aws; [done| |done|].
  { eapply updates_keyed, Hup; [apply set_AW_meta|apply Hst|].
    apply (inv_keyed y Hinv _ (now_versions y)). }
  apply updates_inv in Hup as [->|(old & x & md & Hold & Hrv' & Hx & Hmd & ->)];
    [by destruct (now y)|].
  rewrite Hk in *. rewrite (Hst _ _ _ Hx) in Hmd.
  assert (old = aw) as -> by (eapply read_stored; [done..|congruence]).
  assert (awClaimed aw = true -> awClaimed (set_AW_ObjectMeta x md) = true) as Hc'.
  { intros Ha. specialize (Hc Ha). unfold awClaimed in *. rewrite set_AW_meta.
    by destruct Hmd as (_ & _ & _ & _ & _ & -> & _). }
  intros k'. case_match eqn:Hrel.
  - apply claimedAt_delete. intros (z & Hz & Hcz). rewrite Hold in Hz. simplify_eq.
    rewrite <- (set_AW_meta x md) in Hrel. apply released_claimed in Hrel.
    by rewrite (Hc' Hcz) in Hrel.
  - apply claimedAt_insert. intros (z & Hz & Hcz). rewrite Hold in Hz. simplify_eq. auto.
Qed.

(** The request that gives the finalizer up.  It is served only if nothing happened
    since the job read the artifact workflow as being deleted; so the cache is up to
    date, no Argo workflow runs, and nobody takes the artifact workflow for live. *)
Lemma aw_released_inv y k j aw i s m r :
  invariant y -> awJobs y !! k = Some j -> readAW (job_trace j) = Some aw ->
  i <= seen y ArtifactWorkflowInformer -> versions y !! i = Some s ->
  artifactWorkflows s !! k = Some aw -> awDeleting aw = true -> cleanedUp aw (job_trace j) ->
  updates AW_ObjectMeta set_AW_ObjectMeta (storedArtifactWorkflow prepareArtifactWorkflow)
    (awWithoutFinalizer aw) (artifactWorkflows (now y)) m r ->
  versioned (versions y ++ [set_artifactWorkflows (now y) m]) ->
  invariant (record y (set_artifactWorkflows (now y) m)).
Proof.
  intros Hinv Hj Hr Hi Hs Haw Hd Hcu Hup Hv.
  pose proof (aj_cleaned y k j (inv_awJob y Hinv k j Hj) aw Hr Hd Hcu) as Hnorun.
  assert (keyed AW_ObjectMeta m) as Hkm.
  { eapply updates_keyed, Hup; [apply set_AW_meta| |].
    - intros old x. rewrite storedArtifactWorkflow_main. by intros [= <-].
    - apply (inv_keyed y Hinv _ (now_versions y)). }
  apply updates_inv in Hup as [->|(old & x & md & Hold & Hrv & _ & _ & Hm)].
  { replace (set_artifactWorkflows (now y) (artifactWorkflows (now y))) with (now y) in *
      by (by destruct (now y)). by apply record_same. }
  replace (meta_key (AW_ObjectMeta (awWithoutFinalizer aw))) with k in *
    by (symmetry; exact (read_key y k aw i s Hinv Hs Haw)).
  pose proof (read_since y k aw i s old Hinv Hs Haw Hold Hrv) as Hsince.
  assert (forall k', k' <> k -> m !! k' = artifactWorkflows (now y) !! k') as Hothers.
  { intros k' Hne. rewrite Hm. case_match; by rewrite ?lookup_delete_ne, ?lookup_insert_ne. }
  assert (forall k', k' <> k -> claimedAt (now y) k' ->
            claimedAt (set_artifactWorkflows (now y) m) k') as Hkeep.
  { intros k' Hne (z & Hz & Hcz). exists z. split; [|done]. simpl. by rewrite Hothers. }
  apply record_inv; [done|split; [apply (inv_keyed y Hinv _ (now_versions y))|done]|done|..].
  - intros k' Hrun. destruct (decide (k' = k)) as [->|Hne]; [done|].
    by apply Hkeep, (inv_runs y).
  - intros l s' k' z Hl Hs' Hz Hdz Hcz. destruct (decide (k' = k)) as [->|Hne].
    + rewrite (Hsince l s') in Hz by (done || lia). simplify_eq. congruence.
    + by apply Hkeep, (inv_cached y Hinv l s' k' z).
  - intros k' j' z Hj' Hz Hdz Hcz. destruct (decide (k' = k)) as [->|Hne]; [congruence|].
    by apply Hkeep, (aj_claimed y k' j' (inv_awJob y Hinv k' j' Hj') z).
  - intros k' j' z Hj' Hz Hdz Hcz. by apply (aj_cleaned y k' j' (inv_awJob y Hinv k' j' Hj') z).
Qed.

(** A call of an artifact workflow job keeps the invariant of everything but its own
    job. *)
Lemma aw_call_inv y k t c p s r :
  invariant y -> awJobs y !! k = Some (mkJob t (Call c p)) -> answers y c s r ->
  versioned (versions y ++ [s]) -> invariant (record y s).
Proof.
  intros Hinv Hj Ha Hv. pose proof (inv_awJob y Hinv k _ Hj) as Hok.
  destruct (aj_calls y k _ Hok) as [Hcall _].
  destruct (answers_cases _ _ _ _ Ha) as [->|(r' & Hm & Hs)]; [by apply record_same|].
  simpl in Hcall. unfold awCalls in Hcall. destruct t as [|e t]; [by subst|].
  destruct Hcall as (aw & Hr & Hcall).
  destruct (aj_read y k _ Hok aw Hr) as (i & s0 & Hi & Hs0 & Haw).
  pose proof (read_key y k aw i s0 Hinv Hs0 Haw) as Hkey.
  destruct c; try done; simpl in Hs; destruct Hs as (m & -> & Hs).
  - destruct Hcall as (Hd & Hc & _ & Hk). rewrite Hkey in Hk. by eapply create_workflow_inv.
  - destruct Hcall as [(Hd & -> & Hcu)|(Hd & ->)].
    + by eapply aw_released_inv.
    + eapply (aw_updated_inv y k i s0 aw (awWithFinalizer aw)), Hv; try done.
      * intros new old x. rewrite storedArtifactWorkflow_main. by intros [= <-].
      * unfold awClaimed, awWithFinalizer. rewrite set_AW_meta. simpl.
        rewrite !slices_Contains_true. set_solver.
  - destruct Hcall as (Hd & Hc & _ & ph & -> & _).
    eapply (aw_updated_inv y k i s0 aw (set_AW_Phase aw ph)), Hv; try done.
    intros new old x. rewrite storedArtifactWorkflow_status. by intros [= <-].
  - by eapply delete_workflow_inv.
Qed.

(** ** The job itself *)

Lemma awJob_mono y y' k j :
  awJobOk y k j -> versions y' = versions y -> now y' = now y ->
  seen y ArtifactWorkflowInformer <= seen y' ArtifactWorkflowInformer -> awJobOk y' k j.
Proof.
  intros [Hc Hr Hcl Hcu] Hv Hn Hs. split; [done|..].
  - intros aw (i & s & Hi & Hl & Haw)%Hr. exists i, s. rewrite Hv. split_and!; [lia|done|done].
  - rewrite Hn. done.
  - rewrite Hn. done.
Qed.

Lemma orderJob_mono y y' k j :
  orderJobOk y k j -> versions y' = versions y -> orderJobOk y' k j.
Proof. intros [Hc Hr] Hv. split; [done|]. by rewrite Hv. Qed.

(** A change of the jobs and of the caches' progress. *)
Lemma jobs_inv y y' :
  invariant y -> versions y' = versions y -> now y' = now y ->
  (forall i, seen y i <= seen y' i) -> (forall i, seen y' i < length (versions y)) ->
  (forall k j, orderJobs y' !! k = Some j -> orderJobOk y k j) ->
  (forall k j, awJobs y' !! k = Some j -> awJobOk y k j) -> invariant y'.
Proof.
  intros [Hk Hv Hs Hr Hc _ _] Hvs Hn Hle Hlt Ho Ha. split; rewrite ?Hvs, ?Hn; try done.
  - intros i s k aw Hi. apply Hc. pose proof (Hle ArtifactWorkflowInformer). lia.
  - intros k j Hj. by eapply orderJob_mono; [apply Ho|].
  - intros k j Hj. by eapply awJob_mono; [apply Ha|..].
Qed.

Lemma order_job_next y k t c p s r :
  invariant y -> orderJobs y !! k = Some (mkJob t (Call c p)) -> answers y c s r ->
  orderJobOk (record y s) k (mkJob (t ++ [ev c r]) (p r)).
Proof.
  intros Hinv Hj Ha. destruct (inv_orderJob y Hinv k _ Hj) as [Hc Hr]. simpl in *.
  destruct Hc as [Hcall Hc]. split; [by apply Hc|]. simpl. intros o.
  destruct t as [|e t].
  - simpl in Hcall. subst c. intros Ho.
    destruct (answers_read _ _ _ _ Ha eq_refl) as [(s' & Hs' & _ & Hrs)|(e & _ & ->)]; [|done].
    subst r. exists s'. split.
    + rewrite versions_record. apply elem_of_app. left. by eapply list_elem_of_lookup_2.
    + simpl in Ho. destruct (orders s' !! k); simpl in Ho; by simplify_eq.
  - rewrite readOrder_app by done. intros (s' & Hs' & Ho)%Hr. exists s'.
    rewrite versions_record. split; [set_solver|done].
Qed.

Definition deleteAnswer (e : event) : option (option error) :=
  match e with
  | existT (DeleteWorkflow _) r => Some r
  | _ => None
  end.

(** The last event of a trace that shows that the Argo workflow was cleaned up. *)
Lemma cleanedUp_app aw t c r :
  cleanedUp aw (t ++ [ev c r]) ->
  cleanedUp aw t \/ exists r', ev (DeleteWorkflow (wfMeta aw)) r' = ev c r /\ IgnoreNotFound r' = None.
Proof.
  intros (r' & [Hin|Hin%list_elem_of_singleton]%elem_of_app & Hr'); [left|right]; by exists r'.
Qed.

(** A deletion that is answered well leaves no Argo workflow running. *)
Lemma deleted_not_running y md s r :
  answers y (DeleteWorkflow md) s r -> IgnoreNotFound r = None -> ~ runsAt s (meta_key md).
Proof.
  intros Ha Hr. destruct (answers_write _ _ _ _ Ha eq_refl) as [(m & -> & Hd)|(e & [He _] & ->)].
  - intros (wf & Hwf & _ & Hl). simpl in Hwf. unfold wfDeleting in Hl.
    rewrite (deletes_gone _ _ _ _ _ _ Hd) with (a := wf) in Hl; [done|done|done].
  - simpl in Hr. by rewrite He in Hr.
Qed.

Lemma aw_job_next y k t c p s r :
  invariant y -> awJobs y !! k = Some (mkJob t (Call c p)) -> answers y c s r ->
  invariant (record y s) ->
  awJobOk (record y s) k (mkJob (t ++ [ev c r]) (p r)).
Proof.
  intros Hinv Hj Ha Hinv'. pose proof (inv_awJob y Hinv k _ Hj) as [[Hcall Hc] Hr Hcl Hcu].
  pose proof (inv_awJob _ Hinv' k _ Hj) as [_ Hr' Hcl' Hcu']. simpl in *.
  destruct t as [|e t].
  - simpl in Hcall. subst c.
    assert (forall aw, readAW [ev (GetArtifactWorkflow k) r] = Some aw ->
              exists s', versions y !! seen y ArtifactWorkflowInformer = Some s' /\
                artifactWorkflows s' !! k = Some aw) as Hread.
    { intros aw Haw.
      destruct (answers_read _ _ _ _ Ha eq_refl) as [(s' & Hs' & _ & Hrs)|(e & _ & ->)]; [|done].
      subst r. exists s'. split; [done|]. simpl in Haw.
      destruct (artifactWorkflows s' !! k); simpl in Haw; by simplify_eq. }
    split; [by apply Hc|..]; simpl app; simpl job_trace.
    + intros aw (s' & Hs' & Haw)%Hread. exists (seen y ArtifactWorkflowInformer), s'.
      split_and!; [done| |done]. rewrite versions_record. by apply lookup_app_l_Some.
    + intros aw (s' & Hs' & Haw)%Hread Hd Hcla.
      apply (inv_cached _ Hinv' (seen y ArtifactWorkflowInformer) s' k aw); try done.
      rewrite versions_record. by apply lookup_app_l_Some.
    + intros aw _ _ (r' & Hin%list_elem_of_singleton & _). done.
  - split; simpl job_trace; rewrite ?readAW_app by done; [by apply Hc|done|done|].
    intros aw Haw Hd Hcla. apply (cleanedUp_app _ (e :: t)) in Hcla as [Hcla|(r' & Heq & Hr2)].
    + by apply (Hcu' aw).
    + pose proof (f_equal ev_call Heq) as Hceq. simpl in Hceq. subst c.
      assert (r' = r) as -> by (apply (f_equal deleteAnswer) in Heq; by simplify_eq).
      destruct (Hr aw Haw) as (i & s' & _ & Hs' & Haw').
      pose proof (read_key y k aw i s' Hinv Hs' Haw') as Hk.
      rewrite <- Hk. by eapply (deleted_not_running y (wfMeta aw)).
Qed.


(** ** Every step *)

Lemma manager_inv y y' : invariant y -> managerStep y y' -> invariant y'.
Proof.
  intros Hinv Hstep.
  pose proof (inv_seen y Hinv) as Hs. pose proof (inv_orderJob y Hinv) as Ho.
  pose proof (inv_awJob y Hinv) as Ha.
  destruct Hstep as [k Hn|k Hn|k t c p s r Hj Hans Hv|k t c p s r Hj Hans Hv
    |k j Hj Hf|k j Hj Hf| |i n Hle Hlt].
  - apply (jobs_inv y); try done. simpl.
    intros k' j [[<- <-]|[_ Hj]]%lookup_insert_Some; [|by apply Ho].
    split; [apply order_promises|done].
  - apply (jobs_inv y); try done. simpl.
    intros k' j [[<- <-]|[_ Hj]]%lookup_insert_Some; [|by apply Ha].
    split; [apply aw_promises|done..].
  - pose proof (order_call_inv _ _ _ _ _ _ _ Hinv Hj Hans Hv) as Hinv'.
    apply (jobs_inv (record y s)); try done; simpl; [apply (inv_seen _ Hinv')| |apply (inv_awJob _ Hinv')].
    intros k' j [[<- <-]|[_ Hj']]%lookup_insert_Some; [|by apply (inv_orderJob _ Hinv')].
    by apply (order_job_next y k t c p s r).
  - pose proof (aw_call_inv _ _ _ _ _ _ _ Hinv Hj Hans Hv) as Hinv'.
    apply (jobs_inv (record y s)); try done; simpl;
      [apply (inv_seen _ Hinv')|apply (inv_orderJob _ Hinv')|].
    intros k' j [[<- <-]|[_ Hj']]%lookup_insert_Some; [|by apply (inv_awJob _ Hinv')].
    by apply (aw_job_next y k t c p s r).
  - apply (jobs_inv y); try done. simpl. intros k' j' [_ Hj']%lookup_delete_Some. by apply Ho.
  - apply (jobs_inv y); try done. simpl. intros k' j' [_ Hj']%lookup_delete_Some. by apply Ha.
  - by apply (jobs_inv y).
  - apply (jobs_inv y); try done; intros i'; simpl; case_decide; subst; auto.
Qed.

Lemma step_inv y y' : invariant y -> step y y' -> invariant y'.
Proof.
  intros Hinv [y'' Hm|s Ho Hv]; [by eapply manager_inv|by apply outside_inv].
Qed.

Lemma fresh_inv y : fresh y -> invariant y.
Proof.
  intros [Hh Hs Ho Ha Hk Haw Hwf]. split; unfold versions; rewrite ?Hh; simpl.
  - intros s ->%list_elem_of_singleton. split; [exact Hk|]. by rewrite Haw.
  - split; intros i j l k mi mj ml a b Hij Hjl [-> <-]%list_lookup_singleton_Some
      [-> <-]%list_lookup_singleton_Some [-> <-]%list_lookup_singleton_Some; done.
  - intros i. rewrite Hs. lia.
  - intros k (wf & Hl & Hown & _). by apply Hwf in Hl.
  - intros i s k aw _ [-> <-]%list_lookup_singleton_Some. by rewrite Haw.
  - by rewrite Ho.
  - by rewrite Ha.
Qed.

Lemma reachable_inv y : reachable y -> invariant y.
Proof.
  intros (y0 & Hf%fresh_inv & Hr). induction Hr as [|y0 y1 y Hstep _ IH]; [done|].
  by eapply IH, step_inv.
Qed.

End calls.
