(* ===== verification/InterleavingTheorems.v ===== *)
(** * The two controllers together: what holds whatever the interleaving

    Theorems about every state that [Interleaving] can reach: no Argo workflow
    outlives its artifact workflow's finalizer, completion is final, and the
    controllers never overwrite what users wrote. *)

From stdpp Require Import base gmap list strings relations.
From S2P Require Import Prelude GoStd JsonEncode JsonDecode KubeTypes V1alpha1Types Client.
From S2P Require Import Cluster Errors ControllerRuntime WorkflowParameters OrderController.
From S2P Require Import OrderExamples ArtifactWorkflowController ArtifactWorkflowFacts.
From S2P Require Import Interleaving InterleavingFacts InterleavingInvariant.

Local Open Scope list_scope.

(** ** Updates replace the version that was read *)

(** In a steady history a stored object with the resource version of an earlier one
    is that one. *)
Lemma steady_same {A : Type} (meta : A -> ObjectMeta) h i l k mi ml a b :
  steady meta h -> i <= l -> h !! i = Some mi -> h !! l = Some ml ->
  mi !! k = Some a -> ml !! k = Some b ->
  ResourceVersion (meta a) = ResourceVersion (meta b) -> b = a.
Proof.
  intros Hst Hil Hi Hl Ha Hb Hrv.
  pose proof (Hst i l l k mi ml ml a b Hil (le_n l) Hi Hl Hl Ha Hb Hrv). congruence.
Qed.

Lemma steady_now {A : Type} (meta : A -> ObjectMeta) (f : Cluster -> gmap NamespacedName A)
  y s k a b :
  steady meta (map f (versions y)) -> s ∈ versions y -> f s !! k = Some a ->
  f (now y) !! k = Some b -> ResourceVersion (meta a) = ResourceVersion (meta b) -> b = a.
Proof.
  intros Hst [i Hi]%list_elem_of_lookup Ha Hb Hrv.
  pose proof (lookup_lt_Some _ _ _ Hi) as Hlt.
  apply (steady_same meta _ i (length (versions y) - 1) k (f s) (f (now y)) a b Hst); try done.
  - lia.
  - by rewrite list_lookup_fmap, Hi.
  - by rewrite list_lookup_fmap, versions_last.
Qed.

(** ** What the controllers leave alone *)

(** The metadata users own: everything but the controller's own finalizer. *)
Definition keepsMeta (finalizer : string) (m m' : ObjectMeta) : Prop :=
  Labels m' = Labels m /\ Annotations m' = Annotations m /\
  OwnerReferences m' = OwnerReferences m /\
  forall f, f <> finalizer -> (f ∈ Finalizers m' <-> f ∈ Finalizers m).

Lemma keepsMeta_refl f m : keepsMeta f m m.
Proof. by split_and!. Qed.

Lemma keepsMeta_maintained f m m' md : keepsMeta f m m' -> maintained m' md -> keepsMeta f m md.
Proof.
  unfold keepsMeta. intros (Hl & Ha & Ho & Hf) (_ & _ & -> & -> & -> & -> & _). by split_and!.
Qed.

(** What a call of a controller does not change: the inputs, the specification and
    the users' metadata of every order and artifact workflow; no order is created,
    and one that goes away was being deleted. *)
Record keepsUsers (s s' : Cluster) : Prop := {
  ku_endpoints : endpoints s' = endpoints s;
  ku_secrets : secrets s' = secrets s;
  ku_types : artifactTypes s' = artifactTypes s;
  ku_order : forall k o, orders s !! k = Some o ->
    match orders s' !! k with
    | Some o' => Order_Spec o' = Order_Spec o /\
                 DeletionTimestamp (Order_ObjectMeta o') = DeletionTimestamp (Order_ObjectMeta o) /\
                 keepsMeta orderFinalizer (Order_ObjectMeta o) (Order_ObjectMeta o')
    | None => Time_IsZero (DeletionTimestamp (Order_ObjectMeta o)) = false
    end;
  ku_no_order : forall k, orders s !! k = None -> orders s' !! k = None;
  ku_aw : forall k aw aw', artifactWorkflows s !! k = Some aw ->
    artifactWorkflows s' !! k = Some aw' ->
    AW_Spec aw' = AW_Spec aw /\
    keepsMeta artifactWorkflowFinalizer (AW_ObjectMeta aw) (AW_ObjectMeta aw');
}.

Lemma keepsUsers_refl s : keepsUsers s s.
Proof.
  split; try done.
  - intros k o Ho. rewrite Ho. split_and!; [done|done|apply keepsMeta_refl].
  - intros k aw aw' Ha Ha'. rewrite Ha in Ha'. simplify_eq. split; [done|apply keepsMeta_refl].
Qed.

(** Only artifact workflows, or only Argo workflows, changed. *)
Lemma keepsUsers_aws s m :
  (forall k aw aw', artifactWorkflows s !! k = Some aw -> m !! k = Some aw' ->
     AW_Spec aw' = AW_Spec aw /\
     keepsMeta artifactWorkflowFinalizer (AW_ObjectMeta aw) (AW_ObjectMeta aw')) ->
  keepsUsers s (set_artifactWorkflows s m).
Proof. intros Hm. destruct (keepsUsers_refl s). by split. Qed.

Lemma keepsUsers_workflows s m : keepsUsers s (set_workflows s m).
Proof. destruct (keepsUsers_refl s). by split. Qed.

Lemma keepsUsers_creates s aw m r :
  creates_in AW_ObjectMeta set_AW_ObjectMeta aw (artifactWorkflows s) m r ->
  keepsUsers s (set_artifactWorkflows s m).
Proof.
  intros [->|(Hn & md & _ & ->)]%creates_inv; apply keepsUsers_aws.
  - intros k x x' Hx Hx'. rewrite Hx in Hx'. simplify_eq. split; [done|apply keepsMeta_refl].
  - intros k x x' Hx [[<- _]|[_ Hx']]%lookup_insert_Some; [by rewrite Hn in Hx|].
    rewrite Hx in Hx'. simplify_eq. split; [done|apply keepsMeta_refl].
Qed.

Lemma keepsUsers_deletes s k m r :
  deletes_in AW_ObjectMeta set_AW_ObjectMeta k (artifactWorkflows s) m r ->
  keepsUsers s (set_artifactWorkflows s m).
Proof.
  intros Hd. apply keepsUsers_aws. intros k' x x' Hx Hx'.
  apply deletes_inv in Hd as [[_ ->]|(old & Ho & [[_ ->]|(md & Hmd & _ & ->)])].
  - rewrite Hx in Hx'. simplify_eq. split; [done|apply keepsMeta_refl].
  - apply lookup_delete_Some in Hx' as [_ Hx']. rewrite Hx in Hx'. simplify_eq.
    split; [done|apply keepsMeta_refl].
  - apply lookup_insert_Some in Hx' as [[<- <-]|[_ Hx']]; rewrite Hx in *; simplify_eq.
    + rewrite set_AW_meta. split; [done|]. by eapply keepsMeta_maintained, Hmd.
    + split; [done|apply keepsMeta_refl].
Qed.

(** An update of an artifact workflow from the version that was read. *)
Lemma keepsUsers_aw_update y s0 k aw aw' prepare m r :
  (forall new old x, storedArtifactWorkflow prepare new old = Ok x ->
     AW_ObjectMeta x = AW_ObjectMeta new /\ (AW_Spec x = AW_Spec new \/ AW_Spec x = AW_Spec old)) ->
  invariant y -> s0 ∈ versions y -> artifactWorkflows s0 !! k = Some aw ->
  meta_key (AW_ObjectMeta aw') = k -> AW_Spec aw' = AW_Spec aw ->
  ResourceVersion (AW_ObjectMeta aw') = ResourceVersion (AW_ObjectMeta aw) ->
  keepsMeta artifactWorkflowFinalizer (AW_ObjectMeta aw) (AW_ObjectMeta aw') ->
  updates AW_ObjectMeta set_AW_ObjectMeta (storedArtifactWorkflow prepare) aw'
    (artifactWorkflows (now y)) m r ->
  keepsUsers (now y) (set_artifactWorkflows (now y) m).
Proof.
  intros Hst Hinv Hs0 Haw Hk Hsp Hrv Hmeta Hup. apply keepsUsers_aws. intros k' z z' Hz Hz'.
  apply updates_inv in Hup as [->|(old & x & md & Hold & Hrv' & Hx & Hmd & ->)].
  { rewrite Hz in Hz'. simplify_eq. split; [done|apply keepsMeta_refl]. }
  rewrite Hk in *. destruct (Hst _ _ _ Hx) as [Hm Hs].
  assert (old = aw) as ->.
  { eapply (steady_now AW_ObjectMeta artifactWorkflows y s0 k); try done; [|congruence].
    apply (inv_versioned y Hinv). }
  destruct (decide (k' = k)) as [->|Hne].
  - rewrite Hold in Hz. simplify_eq. case_match; [by rewrite lookup_delete_eq in Hz'|].
    rewrite lookup_insert_eq in Hz'. simplify_eq. rewrite set_AW_meta. split.
    + simpl. by destruct Hs as [->| ->].
    + eapply keepsMeta_maintained, Hmd. by rewrite Hm.
  - assert (artifactWorkflows (now y) !! k' = Some z') as Hzz
      by (by case_match; rewrite ?lookup_delete_ne, ?lookup_insert_ne in Hz').
    rewrite Hz in Hzz. simplify_eq. split; [done|apply keepsMeta_refl].
Qed.

(** The same of an order, which can be released. *)
Lemma keepsUsers_order_update y s0 k o o' prepare m r :
  (forall new old x, storedOrder prepare new old = Ok x ->
     Order_ObjectMeta x = Order_ObjectMeta new /\
     (Order_Spec x = Order_Spec new \/ Order_Spec x = Order_Spec old)) ->
  invariant y -> s0 ∈ versions y -> orders s0 !! k = Some o ->
  meta_key (Order_ObjectMeta o') = k -> Order_Spec o' = Order_Spec o ->
  ResourceVersion (Order_ObjectMeta o') = ResourceVersion (Order_ObjectMeta o) ->
  DeletionTimestamp (Order_ObjectMeta o') = DeletionTimestamp (Order_ObjectMeta o) ->
  keepsMeta orderFinalizer (Order_ObjectMeta o) (Order_ObjectMeta o') ->
  updates Order_ObjectMeta set_Order_ObjectMeta (storedOrder prepare) o' (orders (now y)) m r ->
  keepsUsers (now y) (set_orders (now y) m).
Proof.
  intros Hst Hinv Hs0 Ho Hk Hsp Hrv Hdt Hmeta Hup.
  destruct (keepsUsers_refl (now y)) as [He Hs Ht Hor Hno Haw].
  apply updates_inv in Hup as [->|(old & x & md & Hold & Hrv' & Hx & Hmd & ->)];
    [by destruct (now y)|].
  rewrite Hk in *. destruct (Hst _ _ _ Hx) as [Hm Hsx].
  assert (old = o) as ->.
  { eapply (steady_now Order_ObjectMeta orders y s0 k); try done; [|congruence].
    apply (inv_versioned y Hinv). }
  rewrite Hm in Hmd. split; try done; simpl.
  - intros k' z Hz. destruct (decide (k' = k)) as [->|Hne].
    + rewrite Hold in Hz. simplify_eq. destruct (released md) eqn:Hrel.
      * rewrite lookup_delete_eq. unfold released in Hrel.
        destruct Hmd as (_ & _ & _ & _ & _ & _ & Hdm). rewrite Hdm, Hdt in Hrel.
        by destruct (Time_IsZero _).
      * rewrite lookup_insert_eq, set_Order_meta. split_and!.
        -- simpl. by destruct Hsx as [->| ->].
        -- destruct Hmd as (_ & _ & _ & _ & _ & _ & ->). done.
        -- by eapply keepsMeta_maintained, Hmd.
    + specialize (Hor k' z Hz). destruct (released md); by rewrite ?lookup_delete_ne, ?lookup_insert_ne.
  - intros k' Hn. destruct (decide (k' = k)) as [->|Hne]; [by rewrite Hold in Hn|].
    destruct (released md); by rewrite ?lookup_delete_ne, ?lookup_insert_ne.
Qed.

Section theorems.
Context `{GoRuntime} `{Float64} `{ControllerUtil}.

Lemma order_call_keeps y k t c p s r :
  invariant y -> orderJobs y !! k = Some (mkJob t (Call c p)) -> answers y c s r ->
  keepsUsers (now y) s.
Proof.
  intros Hinv Hj Ha. destruct (inv_orderJob y Hinv k _ Hj) as [[Hcall _] Hread].
  destruct (answers_cases _ _ _ _ Ha) as [->|(r' & Hm & Hs)]; [apply keepsUsers_refl|].
  simpl in Hcall, Hread. unfold orderCalls in Hcall. destruct t; [by subst|].
  destruct Hcall as (order & Hr & Hcall). destruct (Hread order Hr) as (s0 & Hs0 & Ho).
  assert (meta_key (Order_ObjectMeta order) = k) as Hk by (by apply (inv_keyed y Hinv s0)).
  destruct c; try done; simpl in Hs; destruct Hs as (m & -> & Hs).
  - by eapply keepsUsers_creates.
  - destruct Hcall as (fs & -> & Hfs). eapply keepsUsers_order_update, Hs; try done.
    intros new old x. rewrite storedOrder_main. intros [= <-]. auto.
  - destruct Hcall as (aws & ->). eapply keepsUsers_order_update, Hs; try done.
    intros new old x. rewrite storedOrder_status. intros [= <-]. auto.
  - by eapply keepsUsers_deletes.
Qed.

Lemma aw_call_keeps y k t c p s r :
  invariant y -> awJobs y !! k = Some (mkJob t (Call c p)) -> answers y c s r ->
  keepsUsers (now y) s.
Proof.
  intros Hinv Hj Ha. destruct (inv_awJob y Hinv k _ Hj) as [[Hcall _] Hread _ _].
  destruct (answers_cases _ _ _ _ Ha) as [->|(r' & Hm & Hs)]; [apply keepsUsers_refl|].
  simpl in Hcall, Hread. unfold awCalls in Hcall. destruct t; [by subst|].
  destruct Hcall as (aw & Hr & Hcall). destruct (Hread aw Hr) as (i & s0 & _ & Hs0 & Haw).
  pose proof (read_key y k aw i s0 Hinv Hs0 Haw) as Hk.
  apply list_elem_of_lookup_2 in Hs0.
  destruct c; try done; simpl in Hs; destruct Hs as (m & -> & Hs);
    try apply keepsUsers_workflows.
  - destruct Hcall as [(_ & -> & _)|(_ & ->)]; eapply keepsUsers_aw_update, Hs; try done.
    1,3: intros new old x; rewrite storedArtifactWorkflow_main; intros [= <-]; auto.
    + split_and!; [done..|]. intros f Hf. by apply without_finalizer_spec.
    + split_and!; [done..|]. intros f Hf. simpl. set_solver.
  - destruct Hcall as (_ & _ & _ & ph & -> & _). eapply keepsUsers_aw_update, Hs; try done.
    intros new old x. rewrite storedArtifactWorkflow_status. intros [= <-]. auto.
Qed.

(** C7: whatever the interleaving, the staleness of the caches and the faults, a step
    of the manager never changes an endpoint, a secret or an artifact type, nor the
    spec, the labels, the annotations, the owners or a foreign finalizer of an order
    or an artifact workflow; it creates no order, and an order that goes away with
    one was being deleted.  So the controllers never undo an edit they have not
    seen. *)
Theorem manager_keeps_users y y' :
  reachable y -> managerStep y y' -> keepsUsers (now y) (now y').
Proof.
  intros Hinv%reachable_inv [| |k t c p s r Hj Ha Hv|k t c p s r Hj Ha Hv| | | |];
    try apply keepsUsers_refl.
  - by eapply order_call_keeps.
  - by eapply aw_call_keeps.
Qed.

(** ** No orphans *)

(** C5: in every state the two controllers, users and Argo can reach, with requests
    interleaved call by call, caches that lag behind, faults, lost answers and
    restarts, an Argo workflow that was started for an artifact workflow and is not
    being deleted still has an artifact workflow of its name, which carries the
    controller's finalizer, so that deleting it deletes the Argo workflow first. *)
Theorem no_orphans y k wf :
  reachable y -> workflows (now y) !! k = Some wf -> ownedByAW wf -> wfDeleting wf = false ->
  exists aw, artifactWorkflows (now y) !! k = Some aw /\ wfKey aw = k /\ awClaimed aw = true.
Proof.
  intros Hinv%reachable_inv Hwf Ho Hl.
  destruct (inv_runs y Hinv k) as (aw & Haw & Hc); [by exists wf|].
  exists aw. split_and!; [done| |done].
  by apply (inv_keyed y Hinv (now y) (now_versions y)).
Qed.

(** ** Completion is final *)

Definition keepsCompletion (s s' : Cluster) : Prop :=
  forall k aw aw', artifactWorkflows s !! k = Some aw -> Completed (awPhase aw) = true ->
    artifactWorkflows s' !! k = Some aw' -> awPhase aw' = awPhase aw.

Lemma keepsCompletion_same s s' :
  artifactWorkflows s' = artifactWorkflows s -> keepsCompletion s s'.
Proof. intros Haw k aw aw' Ha _ Ha'. rewrite Haw in Ha'. congruence. Qed.

Lemma keepsCompletion_insert s k x :
  (forall aw, artifactWorkflows s !! k = Some aw -> Completed (awPhase aw) = true ->
     awPhase x = awPhase aw) ->
  keepsCompletion s (set_artifactWorkflows s (<[k := x]> (artifactWorkflows s))).
Proof.
  intros Hx k' aw aw' Ha Hc Ha'. simpl in Ha'.
  apply lookup_insert_Some in Ha' as [[<- <-]|[_ Ha']]; [by apply Hx|congruence].
Qed.

Lemma keepsCompletion_delete s k :
  keepsCompletion s (set_artifactWorkflows s (delete k (artifactWorkflows s))).
Proof.
  intros k' aw aw' Ha Hc Ha'. simpl in Ha'. apply lookup_delete_Some in Ha' as [_ Ha']. congruence.
Qed.

Lemma keepsCompletion_creates s aw m r :
  creates_in AW_ObjectMeta set_AW_ObjectMeta aw (artifactWorkflows s) m r ->
  keepsCompletion s (set_artifactWorkflows s m).
Proof.
  intros [->|(Hn & md & _ & ->)]%creates_inv; [by apply keepsCompletion_same|].
  apply keepsCompletion_insert. intros x Hx. by rewrite Hn in Hx.
Qed.

Lemma keepsCompletion_deletes s k m r :
  deletes_in AW_ObjectMeta set_AW_ObjectMeta k (artifactWorkflows s) m r ->
  keepsCompletion s (set_artifactWorkflows s m).
Proof.
  intros [[_ ->]|(old & Ho & [[_ ->]|(md & _ & _ & ->)])]%deletes_inv;
    [by apply keepsCompletion_same|apply keepsCompletion_delete|].
  apply keepsCompletion_insert. intros x Hx. rewrite Ho in Hx. by simplify_eq.
Qed.

(** An update that was made from an artifact workflow that has not completed, or that
    keeps the phase, is only served if that is still the stored one. *)
Lemma keepsCompletion_update y s0 k aw aw' prepare m r :
  (forall new old x, storedArtifactWorkflow prepare new old = Ok x -> awPhase x = awPhase new) ->
  invariant y -> s0 ∈ versions y -> artifactWorkflows s0 !! k = Some aw ->
  meta_key (AW_ObjectMeta aw') = k ->
  ResourceVersion (AW_ObjectMeta aw') = ResourceVersion (AW_ObjectMeta aw) ->
  (Completed (awPhase aw) = true -> awPhase aw' = awPhase aw) ->
  updates AW_ObjectMeta set_AW_ObjectMeta (storedArtifactWorkflow prepare) aw'
    (artifactWorkflows (now y)) m r ->
  keepsCompletion (now y) (set_artifactWorkflows (now y) m).
Proof.
  intros Hst Hinv Hs0 Haw Hk Hrv Hph Hup.
  apply updates_inv in Hup as [->|(old & x & md & Hold & Hrv' & Hx & Hmd & ->)];
    [by apply keepsCompletion_same|].
  rewrite Hk in *. assert (old = aw) as ->.
  { eapply (steady_now AW_ObjectMeta artifactWorkflows y s0 k); try done; [|congruence].
    apply (inv_versioned y Hinv). }
  destruct (released md); [apply keepsCompletion_delete|]. apply keepsCompletion_insert.
  intros z Hz Hc. rewrite Hold in Hz. simplify_eq. rewrite <- (Hph Hc). by apply Hst in Hx.
Qed.

Lemma aw_call_completion y k t c p s r :
  invariant y -> awJobs y !! k = Some (mkJob t (Call c p)) -> answers y c s r ->
  keepsCompletion (now y) s.
Proof.
  intros Hinv Hj Ha. destruct (inv_awJob y Hinv k _ Hj) as [[Hcall _] Hread _ _].
  destruct (answers_cases _ _ _ _ Ha) as [->|(r' & Hm & Hs)]; [by apply keepsCompletion_same|].
  simpl in Hcall, Hread. unfold awCalls in Hcall. destruct t; [by subst|].
  destruct Hcall as (aw & Hr & Hcall). destruct (Hread aw Hr) as (i & s0 & _ & Hs0 & Haw).
  pose proof (read_key y k aw i s0 Hinv Hs0 Haw) as Hk.
  apply list_elem_of_lookup_2 in Hs0.
  destruct c; try done; simpl in Hs; destruct Hs as (m & -> & Hs);
    try by apply keepsCompletion_same.
  - destruct Hcall as [(_ & -> & _)|(_ & ->)]; eapply keepsCompletion_update, Hs; try done.
    all: intros new old x; rewrite storedArtifactWorkflow_main; by intros [= <-].
  - destruct Hcall as (_ & _ & Hnc & ph & -> & _). eapply keepsCompletion_update, Hs; try done.
    + intros new old x. rewrite storedArtifactWorkflow_status. by intros [= <-].
    + by rewrite Hnc.
Qed.

Lemma order_call_completion y k t c p s r :
  invariant y -> orderJobs y !! k = Some (mkJob t (Call c p)) -> answers y c s r ->
  keepsCompletion (now y) s.
Proof.
  intros Hinv Hj Ha. destruct (inv_orderJob y Hinv k _ Hj) as [[Hcall _] _].
  destruct (answers_cases _ _ _ _ Ha) as [->|(r' & Hm & Hs)]; [by apply keepsCompletion_same|].
  simpl in Hcall. unfold orderCalls in Hcall. destruct t; [by subst|].
  destruct Hcall as (order & _ & Hcall).
  destruct c; try done; simpl in Hs; destruct Hs as (m & -> & Hs);
    try by apply keepsCompletion_same.
  - by eapply keepsCompletion_creates.
  - by eapply keepsCompletion_deletes.
Qed.

(** Everybody else changes the phase of a completed artifact workflow only by editing
    it. *)
Lemma outside_completion s s' k aw aw' :
  outside s s' -> artifactWorkflows s !! k = Some aw -> Completed (awPhase aw) = true ->
  artifactWorkflows s' !! k = Some aw' ->
  awPhase aw' = awPhase aw \/
  s' = set_artifactWorkflows s (<[k := aw']> (artifactWorkflows s)).
Proof.
  intros Ho Haw Hc Haw'.
  assert (forall s', keepsCompletion s s' -> artifactWorkflows s' !! k = Some aw' ->
            awPhase aw' = awPhase aw) as Hkeep by (intros s1 Hk Hl; by eapply Hk).
  destruct Ho as [os es ss ts _|x Hn|x x' Hst Hk _ _|k' m r Hd|m _].
  - left. eapply Hkeep, Haw'. by apply keepsCompletion_same.
  - left. eapply Hkeep, Haw'. apply keepsCompletion_insert. intros y Hy. by rewrite Hn in Hy.
  - destruct (released _).
    + left. eapply Hkeep, Haw'. apply keepsCompletion_delete.
    + destruct (decide (wfKey x = k)) as [<-|Hne].
      * right. simpl in Haw'. rewrite lookup_insert_eq in Haw'. by simplify_eq.
      * left. simpl in Haw'. rewrite lookup_insert_ne in Haw' by done. congruence.
  - left. eapply Hkeep, Haw'. by eapply keepsCompletion_deletes.
  - left. eapply Hkeep, Haw'. by apply keepsCompletion_same.
Qed.

(** C6: completion is final also with interleaved calls and stale caches: in a reachable
    state no step of the manager changes the phase of an artifact workflow that has
    completed, as long as it exists; and no step of the users or Argo does, except an
    edit of that artifact workflow itself, which changes nothing else.  (The API server
    takes the status of such an edit: see C28.) *)
Theorem completion_final_interleaved y k aw :
  reachable y -> artifactWorkflows (now y) !! k = Some aw -> Completed (awPhase aw) = true ->
  (forall y' aw', managerStep y y' -> artifactWorkflows (now y') !! k = Some aw' ->
     awPhase aw' = awPhase aw) /\
  (forall s aw', outside (now y) s -> artifactWorkflows s !! k = Some aw' ->
     awPhase aw' = awPhase aw \/
     s = set_artifactWorkflows (now y) (<[k := aw']> (artifactWorkflows (now y)))).
Proof.
  intros Hinv%reachable_inv Haw Hc. split.
  - intros y' aw' Hstep. enough (keepsCompletion (now y) (now y')) as Hk by (by eapply Hk).
    destruct Hstep as [| |k' t c p s r Hj Ha Hv|k' t c p s r Hj Ha Hv| | | |];
      try by apply keepsCompletion_same.
    + by eapply order_call_completion.
    + by eapply aw_call_completion.
  - intros s aw' Ho. by apply outside_completion.
Qed.

End theorems.

(** * A concrete run of the two controllers

    A scheduler that carries out a list of steps, against the memory server with
    fresh resource versions: from an order to a running Argo workflow and on to its
    completion.  It gives the witnesses of the theorems. *)

Local Open Scope string_scope.

#[local] Existing Instance plain_runtime.
#[local] Existing Instance plain_float64.
#[local] Existing Instance plain_util.

(** ** Checking resource versions *)

#[local] Instance ArtifactWorkflow_eq_dec : EqDecision ArtifactWorkflow.
Proof.
  assert (EqDecision ArtifactWorkflowStatus)
    by (unfold EqDecision, WorkflowPhase in *; solve_decision).
  solve_decision.
Defined.

#[local] Instance Order_eq_dec : EqDecision Order.
Proof.
  assert (EqDecision OrderStatus) by solve_decision.
  assert (EqDecision OrderDefaults) by solve_decision.
  assert (EqDecision OrderArtifact) by solve_decision.
  assert (EqDecision OrderSpec) by solve_decision.
  solve_decision.
Defined.

Section steadyb.
Context {A : Type} `{EqDecision A} (meta : A -> ObjectMeta).

Definition steadyAt (mi mj ml : gmap NamespacedName A) : bool :=
  forallb (fun ka => match ml !! ka.1 with
                     | Some b =>
                         negb (bool_decide (ResourceVersion (meta ka.2) = ResourceVersion (meta b)))
                         || bool_decide (mj !! ka.1 = Some ka.2)
                     | None => true
                     end) (map_to_list mi).

Definition steadyb (h : list (gmap NamespacedName A)) : bool :=
  let n := length h in
  forallb (fun i => forallb (fun j => forallb (fun l =>
    match h !! i, h !! j, h !! l with
    | Some mi, Some mj, Some ml => steadyAt mi mj ml
    | _, _, _ => true
    end) (seq j (n - j))) (seq i (n - i))) (seq 0 n).

Lemma steadyb_spec h : steadyb h = true -> steady meta h.
Proof.
  unfold steadyb. intros Hb i j l k mi mj ml a b Hij Hjl Hi Hj Hl Ha Hbk Hrv.
  apply lookup_lt_Some in Hi as Hil. apply lookup_lt_Some in Hl as Hll.
  rewrite forallb_forall in Hb. specialize (Hb i). rewrite in_seq, forallb_forall in Hb.
  specialize (Hb ltac:(lia) j). rewrite in_seq, forallb_forall in Hb.
  specialize (Hb ltac:(lia) l). rewrite in_seq, Hi, Hj, Hl in Hb.
  specialize (Hb ltac:(lia)). unfold steadyAt in Hb. rewrite forallb_forall in Hb.
  specialize (Hb (k, a)). rewrite <- list_elem_of_In, elem_of_map_to_list in Hb.
  specialize (Hb Ha). simpl in Hb. rewrite Hbk, bool_decide_true in Hb by done.
  by apply bool_decide_eq_true in Hb.
Qed.

End steadyb.

Definition versionedb (h : list Cluster) : bool :=
  steadyb Order_ObjectMeta (map orders h) && steadyb AW_ObjectMeta (map artifactWorkflows h).

Lemma versionedb_spec h : versionedb h = true -> versioned h.
Proof. intros [Ho Ha]%andb_true_iff. split; by apply steadyb_spec. Qed.

(** ** The scheduler *)

(** Every write gives the object a version of its own. *)
Definition stampWith (y : System) (m : ObjectMeta) : ObjectMeta :=
  mkObjectMeta (Name m) (GenerateName m) (Namespace m) (UID m)
    (Itoa (length (versions y))) (Generation m) (CreationTimestamp m) (DeletionTimestamp m)
    (DeletionGracePeriodSeconds m) (Labels m) (Annotations m) (OwnerReferences m) (Finalizers m).

Inductive action :=
| ActStartOrder (k : NamespacedName)
| ActStartAW (k : NamespacedName)
| ActCallOrder (k : NamespacedName)
| ActCallAW (k : NamespacedName)
| ActDoneOrder (k : NamespacedName)
| ActDoneAW (k : NamespacedName)
| ActCatchUp (i : informer)
| ActArgoPhase (k : NamespacedName) (p : string).

(** The answer to a call: a read from the cache, a write from the server. *)
Definition answerTo (y : System) (c : call) : option (Cluster * reply c) :=
  if mutating c then Some (stamping_serve (stampWith y) c (now y))
  else match versions y !! seen y (informerOf c) with
       | Some s => Some (now y, (memory_serve c s).2)
       | None => None
       end.

(** A call of a job: the answer, the next version and the rest of the job. *)
Definition actCall (y : System) (j : option job) : option (Cluster * job) :=
  match j with
  | Some (mkJob t (Call c p)) =>
      match answerTo y c with
      | Some (s, r) =>
          if versionedb (versions y ++ [s]) then Some (s, mkJob (t ++ [ev c r]) (p r)) else None
      | None => None
      end
  | _ => None
  end.

Definition act (y : System) (a : action) : option System :=
  match a with
  | ActStartOrder k =>
      match orderJobs y !! k with
      | None => Some (set_orderJobs y
          (<[k := mkJob [] (OrderController.Reconcile k)]> (orderJobs y)))
      | Some _ => None
      end
  | ActStartAW k =>
      match awJobs y !! k with
      | None => Some (set_awJobs y
          (<[k := mkJob [] (ArtifactWorkflowController.Reconcile k)]> (awJobs y)))
      | Some _ => None
      end
  | ActCallOrder k =>
      match actCall y (orderJobs y !! k) with
      | Some (s, j) => Some (set_orderJobs (record y s) (<[k := j]> (orderJobs y)))
      | None => None
      end
  | ActCallAW k =>
      match actCall y (awJobs y !! k) with
      | Some (s, j) => Some (set_awJobs (record y s) (<[k := j]> (awJobs y)))
      | None => None
      end
  | ActDoneOrder k =>
      match orderJobs y !! k with
      | Some j => if finished (job_rest j) then Some (set_orderJobs y (delete k (orderJobs y)))
                  else None
      | None => None
      end
  | ActDoneAW k =>
      match awJobs y !! k with
      | Some j => if finished (job_rest j) then Some (set_awJobs y (delete k (awJobs y))) else None
      | None => None
      end
  | ActCatchUp i =>
      let n := length (versions y) - 1 in
      if (seen y i <=? n)%nat && (n <? length (versions y))%nat then
        Some (set_seen y (fun i' => if decide (i' = i) then n else seen y i'))
      else None
  | ActArgoPhase k p =>
      match workflows (now y) !! k with
      | Some wf =>
          let s := set_workflows (now y)
            (<[k := mkWorkflow (Workflow_ObjectMeta wf) (Workflow_Spec wf) p]> (workflows (now y))) in
          if versionedb (versions y ++ [s]) then Some (record y s) else None
      | None => None
      end
  end.

Fixpoint acts (y : System) (l : list action) : option System :=
  match l with
  | [] => Some y
  | a :: l => match act y a with
              | Some y' => acts y' l
              | None => None
              end
  end.

Lemma stampWith_maintained y m : maintained m (stampWith y m).
Proof. by split_and!. Qed.

Lemma answerTo_answers y c s r : answerTo y c = Some (s, r) -> answers y c s r.
Proof.
  unfold answerTo. destruct (mutating c) eqn:Hm.
  - intros Heq. injection Heq as Heq.
    pose proof (stamping_serves (stampWith y) c (now y) (stampWith_maintained y)) as Hs.
    rewrite Heq in Hs. by apply AnswerWrite.
  - destruct (versions y !! _) as [s0|] eqn:Hl; [|done]. intros Heq. injection Heq as <- <-.
    apply (AnswerRead _ _ s0); [done|done|].
    assert ((memory_serve c s0).1 = s0) as Hsame by (destruct c; done).
    pose proof (stamping_serves (fun m => m) c s0 maintained_refl) as Hs.
    change (stamping_serve (fun m => m) c s0) with (memory_serve c s0) in Hs.
    by rewrite Hsame in Hs.
Qed.

Lemma actCall_call y j s j' :
  actCall y j = Some (s, j') ->
  exists t c p r, j = Some (mkJob t (Call c p)) /\ answers y c s r /\
    versioned (versions y ++ [s]) /\ j' = mkJob (t ++ [ev c r]) (p r).
Proof.
  unfold actCall. destruct j as [[t [| | |c p]]|]; try done.
  destruct (answerTo y c) as [[s0 r]|] eqn:Ha; [|done].
  destruct (versionedb _) eqn:Hv; [|done]. intros [= <- <-].
  exists t, c, p, r. split_and!; [done|by apply answerTo_answers|by apply versionedb_spec|done].
Qed.

(** An action is a step of the manager, or Argo's, which leaves artifact workflows
    alone. *)
Lemma act_cases y a y' :
  act y a = Some y' ->
  managerStep y y' \/
  exists s, outside (now y) s /\ versioned (versions y ++ [s]) /\ y' = record y s /\
    artifactWorkflows s = artifactWorkflows (now y).
Proof.
  destruct a as [k|k|k|k|k|k|i|k p]; simpl.
  - destruct (orderJobs y !! k) eqn:Hj; [done|]. intros [= <-]. left. by apply StartOrder.
  - destruct (awJobs y !! k) eqn:Hj; [done|]. intros [= <-]. left. by apply StartAW.
  - destruct (actCall _ _) as [[s j]|] eqn:Hc; [|done]. intros [= <-].
    apply actCall_call in Hc as (t & c & p & r & Hj & Ha & Hv & ->).
    left. by eapply CallOrder.
  - destruct (actCall _ _) as [[s j]|] eqn:Hc; [|done]. intros [= <-].
    apply actCall_call in Hc as (t & c & p & r & Hj & Ha & Hv & ->).
    left. by eapply CallAW.
  - destruct (orderJobs y !! k) as [j|] eqn:Hj; [|done].
    destruct (finished _) eqn:Hf; [|done]. intros [= <-]. left. by apply DoneOrder with j.
  - destruct (awJobs y !! k) as [j|] eqn:Hj; [|done].
    destruct (finished _) eqn:Hf; [|done]. intros [= <-]. left. by apply DoneAW with j.
  - destruct (_ && _) eqn:Hle; [|done]. apply andb_true_iff in Hle as [Hle Hlt].
    intros [= <-]. left. apply CacheProgress; [by apply Nat.leb_le|by apply Nat.ltb_lt].
  - destruct (workflows (now y) !! k) as [wf|] eqn:Hwf; [|done].
    destruct (versionedb _) eqn:Hv; [|done]. intros [= <-].
    right. eexists. split_and!; [|by apply versionedb_spec|done|done]. apply ArgoAndOthers.
    intros k' wf' [[<- <-]|[Hne Hl]]%lookup_insert_Some Ho; [by exists wf|by exists wf'].
Qed.

Lemma act_step y a y' : act y a = Some y' -> step y y'.
Proof.
  intros [Hm|(s & Ho & Hv & -> & _)]%act_cases; [by apply Manager|by apply Elsewhere].
Qed.

Lemma acts_steps y l y' : acts y l = Some y' -> rtc step y y'.
Proof.
  revert y. induction l as [|a l IH]; intros y; simpl; [intros [= <-]; apply rtc_refl|].
  destruct (act y a) as [y1|] eqn:Ha; [|done]. intros Hl.
  eapply rtc_l; [by eapply act_step|by apply IH].
Qed.

(** ** From an order to an Argo workflow *)

Definition exType : ArtifactType :=
  mkArtifactType emptyTypeMeta (newObjectMeta "" "oci")
    (mkArtifactTypeSpec (mkArtifactTypeRules [] []) [] (ref "oci-template")) mkArtifactTypeStatus.

Definition newOrder : Order := exOrder None [] [exArtifact "one"] ∅.

Definition start : System :=
  mkSystem []
    (mkCluster {[req1 := newOrder]}
       {[mkNamespacedName "ns" "src" := exSource; mkNamespacedName "ns" "dst" := exTarget]}
       {[mkNamespacedName "ns" "credentials" := exSecret]}
       {[mkNamespacedName "" "oci" := exType]} ∅ ∅)
    (fun _ => 0) ∅ ∅.

Lemma start_fresh : fresh start.
Proof.
  split; try done. intros k o Ho. simpl in Ho. by apply lookup_singleton_Some in Ho as [<- <-].
Qed.

Definition sha1 : string :=
  shaOf (hashData newOrder (exArtifact "one") exSource exTarget exSecret emptySecret).
Definition awK : NamespacedName := mkNamespacedName "ns" ("order-" +++ sha1).

(** The order is claimed. *)
Definition claimOrder : list action :=
  [ActStartOrder req1; ActCallOrder req1; ActCallOrder req1; ActDoneOrder req1;
   ActCatchUp OrderInformer].
(** Its artifact workflow is created and its status written. *)
Definition createAW : list action :=
  ActStartOrder req1 :: repeat (ActCallOrder req1) 6 ++ [ActDoneOrder req1].
(** The artifact workflow is claimed while the cache of the orders is behind. *)
Definition claimAW : list action :=
  [ActCatchUp ArtifactWorkflowInformer; ActStartAW awK; ActCallAW awK; ActCallAW awK;
   ActDoneAW awK; ActCatchUp ArtifactWorkflowInformer].
(** Its Argo workflow is created; its status is not written yet. *)
Definition startWorkflow : list action := ActStartAW awK :: repeat (ActCallAW awK) 4.

Definition schedule1 : list action := claimOrder ++ createAW ++ claimAW ++ startWorkflow.
Definition running1 : System := default start (acts start schedule1).

Lemma schedule_reaches l y : acts start l = Some y -> reachable y.
Proof. intros Hl. exists start. split; [apply start_fresh|by eapply acts_steps]. Qed.

(** A schedule that runs to its end. *)
Definition happens (o : option System) : bool :=
  match o with
  | Some _ => true
  | None => false
  end.

Lemma happens_default o y : happens o = true -> o = Some (default y o).
Proof. by destruct o. Qed.

Lemma running1_reachable : reachable running1.
Proof. apply (schedule_reaches schedule1), happens_default. vm_compute. reflexivity. Qed.

(** The Argo workflow of a name. *)
Definition wfAt (y : System) (k : NamespacedName) : Workflow :=
  default (mkWorkflow (newObjectMeta "" "") (mkWorkflowSpec None [] []) "") (workflows (now y) !! k).

Lemma no_orphans_witness :
  workflows (now running1) !! awK = Some (wfAt running1 awK) /\
  exists aw, artifactWorkflows (now running1) !! awK = Some aw /\ awClaimed aw = true.
Proof.
  assert (workflows (now running1) !! awK = Some (wfAt running1 awK)) as Hwf
    by (vm_compute; reflexivity).
  split; [exact Hwf|].
  destruct (no_orphans running1 awK (wfAt running1 awK) running1_reachable Hwf)
    as (aw & Haw & _ & Hc).
  - apply Exists_exists.
    exists (default (mkOwnerReference "" "" "" "" None None)
              (OwnerReferences (Workflow_ObjectMeta (wfAt running1 awK)) !! 0)).
    split; [apply (list_elem_of_lookup_2 _ 0); vm_compute; reflexivity|vm_compute; reflexivity].
  - vm_compute. reflexivity.
  - eauto.
Defined.

(** The write of the status that is still missing. *)
Definition pending1 : System := default start (act running1 (ActCallAW awK)).

Lemma act_callAW y k y' : act y (ActCallAW k) = Some y' -> managerStep y y'.
Proof.
  simpl. destruct (actCall _ _) as [[s j]|] eqn:Hc; [|done]. intros [= <-].
  apply actCall_call in Hc as (t & c & p & r & Hj & Ha & Hv & ->). by eapply CallAW.
Qed.

Lemma pending1_step : managerStep running1 pending1.
Proof. apply (act_callAW _ awK), happens_default. vm_compute. reflexivity. Qed.

Lemma manager_keeps_users_witness :
  awPhase (default (exWorkflow newOrder "" "") (artifactWorkflows (now pending1) !! awK))
    = WorkflowPending /\ keepsUsers (now running1) (now pending1).
Proof.
  split; [vm_compute; reflexivity|].
  exact (manager_keeps_users running1 pending1 running1_reachable pending1_step).
Defined.

(** Argo completes, and the controller sees it. *)
Definition schedule2 : list action :=
  schedule1 ++ [ActCallAW awK; ActDoneAW awK; ActArgoPhase awK "Succeeded";
    ActCatchUp ArtifactWorkflowInformer; ActCatchUp WorkflowInformer;
    ActStartAW awK; ActCallAW awK; ActCallAW awK; ActCallAW awK; ActDoneAW awK].
Definition done2 : System := default start (acts start schedule2).

Lemma done2_reachable : reachable done2.
Proof. apply (schedule_reaches schedule2), happens_default. vm_compute. reflexivity. Qed.

Definition awAt (y : System) : ArtifactWorkflow :=
  default (exWorkflow newOrder "" "") (artifactWorkflows (now y) !! awK).

(** The next reconciliation starts. *)
Definition next2 : System :=
  set_awJobs done2 (<[awK := mkJob [] (ArtifactWorkflowController.Reconcile awK)]> (awJobs done2)).

Lemma completion_final_interleaved_witness :
  awPhase (awAt done2) = WorkflowSucceeded /\ awPhase (awAt next2) = awPhase (awAt done2).
Proof.
  assert (awPhase (awAt done2) = WorkflowSucceeded) as Hp by (vm_compute; reflexivity).
  split; [exact Hp|].
  assert (artifactWorkflows (now done2) !! awK = Some (awAt done2)) as Hl
    by (vm_compute; reflexivity).
  assert (Completed (awPhase (awAt done2)) = true) as Hc by (by rewrite Hp).
  refine (proj1 (completion_final_interleaved done2 awK (awAt done2) done2_reachable Hl Hc)
            next2 (awAt next2) _ _).
  - apply StartAW. vm_compute. reflexivity.
  - vm_compute. reflexivity.
Defined.
