(* ===== verification/InterleavingPhases.v ===== *)
(** * Where the phases of artifact workflows come from

    In the system of both controllers, call by call: a phase that nobody else wrote is
    one that an Argo workflow of the name had at some time.  The history of the cluster
    is part of the state; what everybody else did is recorded next to it. *)

From stdpp Require Import base gmap list strings relations.
From S2P Require Import Prelude GoStd KubeTypes V1alpha1Types Client Cluster Errors.
From S2P Require Import ControllerRuntime WorkflowParameters OrderController OrderExamples.
From S2P Require Import ArtifactWorkflowController ArtifactWorkflowFacts Interleaving.
From S2P Require Import InterleavingFacts InterleavingInvariant InterleavingTheorems.

Local Open Scope list_scope.

(** ** Executions with the steps of everybody else *)

Section phases.
Context `{GoRuntime} `{Float64} `{ControllerUtil}.

(** [happened os y]: the system can get into [y] with the changes [os] of everybody
    else, each the cluster before and after it. *)
Inductive happened : list (Cluster * Cluster) -> System -> Prop :=
| HappenedNothing y : fresh y -> happened [] y
| HappenedManager os y y' : happened os y -> managerStep y y' -> happened os y'
| HappenedElsewhere os y s :
    happened os y -> outside (now y) s -> versioned (versions y ++ [s]) ->
    happened (os ++ [(now y, s)]) (record y s).

Lemma happened_reachable os y : happened os y -> reachable y.
Proof.
  induction 1 as [y Hf|os y y' _ (y0 & Hf & Hr) Hm|os y s _ (y0 & Hf & Hr) Ho Hv].
  - by exists y.
  - exists y0. split; [done|]. eapply rtc_r; [exact Hr|by apply Manager].
  - exists y0. split; [done|]. eapply rtc_r; [exact Hr|by apply Elsewhere].
Qed.

Lemma reachable_happened y : reachable y -> exists os, happened os y.
Proof.
  intros (y0 & Hf & Hr). assert (exists os, happened os y0) as Hh
    by (exists []; by constructor). clear Hf.
  induction Hr as [y|y y1 y2 [y' Hm|s Ho Hv] _ IH]; [done|..]; apply IH; destruct Hh as [os Hh].
  - exists os. by eapply HappenedManager.
  - eexists. by apply HappenedElsewhere.
Qed.

(** A change gives an artifact workflow a phase that it did not have. *)
Definition setsPhase (s s' : Cluster) (k : NamespacedName) (p : WorkflowPhase) : Prop :=
  exists aw', artifactWorkflows s' !! k = Some aw' /\ awPhase aw' = p /\
    forall aw, artifactWorkflows s !! k = Some aw -> awPhase aw <> p.

(** Some version of the cluster had an Argo workflow that explains the phase. *)
Definition explains (vs : list Cluster) (k : NamespacedName) (p : WorkflowPhase) : Prop :=
  exists s wf, s ∈ vs /\ workflows s !! k = Some wf /\
    (p = WorkflowPending \/ p = Workflow_Phase wf).

Definition justified (os : list (Cluster * Cluster)) (vs : list Cluster) (k : NamespacedName)
  (p : WorkflowPhase) : Prop :=
  p = WorkflowUnknown \/ (exists s s', (s, s') ∈ os /\ setsPhase s s' k p) \/ explains vs k p.

Lemma justified_mono os os' vs vs' k p :
  os ⊆ os' -> vs ⊆ vs' -> justified os vs k p -> justified os' vs' k p.
Proof.
  intros Ho Hv [Hp|[(s & s' & Hin & Hs)|(s & wf & Hs & Hwf & Hp)]].
  - by left.
  - right. left. exists s, s'. split; [by apply Ho|done].
  - right. right. exists s, wf. split; [by apply Hv|done].
Qed.

(** ** What a job has been answered *)

(** The answers on Argo workflows are about versions of the cluster. *)
Definition eventTrue (vs : list Cluster) (e : event) : Prop :=
  match e with
  | existT (GetWorkflow k) (inr wf) => exists s, s ∈ vs /\ workflows s !! k = Some wf
  | existT (CreateWorkflow wf) r =>
      IgnoreAlreadyExists r = None ->
      exists s, s ∈ vs /\ is_Some (workflows s !! meta_key (Workflow_ObjectMeta wf))
  | _ => True
  end.

Lemma eventTrue_mono vs vs' e : vs ⊆ vs' -> eventTrue vs e -> eventTrue vs' e.
Proof.
  intros Hv. destruct e as [c r]. destruct c; try done; simpl.
  - destruct r as [|wf]; [done|]. intros (s & Hs & Hwf). exists s. split; [by apply Hv|done].
  - intros He Hr. destruct (He Hr) as (s & Hs & Hwf). exists s. split; [by apply Hv|done].
Qed.

Lemma answers_true y c s r : answers y c s r -> eventTrue (versions (record y s)) (ev c r).
Proof.
  intros Ha. rewrite versions_record. destruct c; try done; simpl.
  - destruct r as [|wf]; [done|].
    destruct (answers_read _ _ _ _ Ha eq_refl) as [(s' & Hs' & _ & Hrs)|(e & _ & [=])].
    exists s'. split.
    + apply elem_of_app. left. by eapply list_elem_of_lookup_2.
    + simpl in Hrs. destruct (workflows s' !! _); simpl in Hrs; by simplify_eq.
  - intros Hr. exists s. split; [set_solver|].
    destruct (answers_write _ _ _ _ Ha eq_refl) as [(m & -> & Hc)|(e & [_ He] & ->)].
    + simpl. unfold creates_in in Hc. cbv zeta in Hc. destruct (workflows (now y) !! _) eqn:Hw.
      * destruct Hc as [-> _]. rewrite Hw. by eexists.
      * destruct Hc as (_ & md & _ & ->). rewrite lookup_insert_eq. by eexists.
    + simpl in Hr. by rewrite He in Hr.
Qed.

(** ** The invariant *)

Record phasesInv (os : list (Cluster * Cluster)) (y : System) : Prop := {
  pi_jobs : forall k j, awJobs y !! k = Some j -> Forall (eventTrue (versions y)) (job_trace j);
  pi_phases : forall k aw, artifactWorkflows (now y) !! k = Some aw ->
    justified os (versions y) k (awPhase aw);
}.

(** A change that gives phases for a reason. *)
Lemma phasesInv_record os os' y s :
  phasesInv os y -> os ⊆ os' ->
  (forall k aw', artifactWorkflows s !! k = Some aw' ->
     justified os' (versions (record y s)) k (awPhase aw') \/
     exists aw, artifactWorkflows (now y) !! k = Some aw /\ awPhase aw' = awPhase aw) ->
  phasesInv os' (record y s).
Proof.
  intros [Hj Hp] Ho Hs.
  assert (versions y ⊆ versions (record y s)) as Hv by (rewrite versions_record; set_solver).
  split.
  - intros k j Hl. eapply Forall_impl; [by eapply Hj|]. intros e. by apply eventTrue_mono.
  - intros k aw' Haw'. destruct (Hs k aw' Haw') as [?|(aw & Haw & ->)]; [done|].
    eapply justified_mono; [exact Ho|exact Hv|]. by apply Hp.
Qed.

(** Nothing happens to phases. *)
Definition samePhases (s s' : Cluster) : Prop :=
  forall k aw', artifactWorkflows s' !! k = Some aw' ->
    awPhase aw' = WorkflowUnknown \/
    exists aw, artifactWorkflows s !! k = Some aw /\ awPhase aw' = awPhase aw.

Lemma phasesInv_same os y s :
  phasesInv os y -> samePhases (now y) s -> phasesInv os (record y s).
Proof.
  intros Hi Hs. apply (phasesInv_record os); [done|done|]. intros k aw' Haw'.
  destruct (Hs k aw' Haw') as [->|?]; [by left; left|by right].
Qed.

Lemma samePhases_eq s s' : artifactWorkflows s' = artifactWorkflows s -> samePhases s s'.
Proof. intros Heq k aw' Haw'. right. exists aw'. by rewrite <- Heq. Qed.

Lemma samePhases_insert s k x :
  awPhase x = WorkflowUnknown \/
    (exists aw, artifactWorkflows s !! k = Some aw /\ awPhase x = awPhase aw) ->
  samePhases s (set_artifactWorkflows s (<[k := x]> (artifactWorkflows s))).
Proof.
  intros Hx k' aw' Hl. simpl in Hl.
  apply lookup_insert_Some in Hl as [[<- <-]|[_ Hl]]; [done|]. right. by exists aw'.
Qed.

Lemma samePhases_delete s k :
  samePhases s (set_artifactWorkflows s (delete k (artifactWorkflows s))).
Proof.
  intros k' aw' Hl. simpl in Hl. apply lookup_delete_Some in Hl as [_ Hl]. right. by exists aw'.
Qed.

Lemma samePhases_deletes s k m r :
  deletes_in AW_ObjectMeta set_AW_ObjectMeta k (artifactWorkflows s) m r ->
  samePhases s (set_artifactWorkflows s m).
Proof.
  intros [[_ ->]|(old & Ho & [[_ ->]|(md & _ & _ & ->)])]%deletes_inv.
  - by apply samePhases_eq.
  - apply samePhases_delete.
  - apply samePhases_insert. right. by exists old.
Qed.

Lemma samePhases_creates s aw m r :
  awPhase aw = WorkflowUnknown ->
  creates_in AW_ObjectMeta set_AW_ObjectMeta aw (artifactWorkflows s) m r ->
  samePhases s (set_artifactWorkflows s m).
Proof.
  intros Hp [->|(_ & md & _ & ->)]%creates_inv; [by apply samePhases_eq|].
  apply samePhases_insert. by left.
Qed.

(** An update that is served replaces the version that the job has read. *)
Lemma update_phases y k i s aw aw' prepare m r :
  (forall new old x, storedArtifactWorkflow prepare new old = Ok x -> awPhase x = awPhase new) ->
  invariant y -> versions y !! i = Some s -> artifactWorkflows s !! k = Some aw ->
  meta_key (AW_ObjectMeta aw') = k ->
  ResourceVersion (AW_ObjectMeta aw') = ResourceVersion (AW_ObjectMeta aw) ->
  updates AW_ObjectMeta set_AW_ObjectMeta (storedArtifactWorkflow prepare) aw'
    (artifactWorkflows (now y)) m r ->
  forall k' x, m !! k' = Some x ->
    artifactWorkflows (now y) !! k' = Some x \/
    k' = k /\ awPhase x = awPhase aw' /\ artifactWorkflows (now y) !! k = Some aw.
Proof.
  intros Hst Hinv Hs Haw Hk Hrv [->|(old & x & md & Hold & Hrv' & Hx & Hmd & ->)]%updates_inv
    k' z Hz; [by left|].
  rewrite Hk in *.
  assert (old = aw) as -> by (eapply read_stored; [done..|congruence]).
  destruct (released md).
  - apply lookup_delete_Some in Hz as [_ Hz]. by left.
  - apply lookup_insert_Some in Hz as [[<- <-]|[_ Hz]]; [right|by left].
    split_and!; [done| |done]. by apply Hst in Hx.
Qed.

(** ** Every step *)

Lemma order_call_phases os y k t c p s r :
  invariant y -> phasesInv os y -> orderJobs y !! k = Some (mkJob t (Call c p)) ->
  answers y c s r -> phasesInv os (record y s).
Proof.
  intros Hinv Hi Hj Ha. apply phasesInv_same; [done|].
  destruct (inv_orderJob y Hinv k _ Hj) as [[Hcall _] _].
  destruct (answers_cases _ _ _ _ Ha) as [->|(r' & Hm & Hs)]; [by apply samePhases_eq|].
  simpl in Hcall. unfold orderCalls in Hcall. destruct t; [by subst|].
  destruct Hcall as (order & _ & Hcall).
  destruct c; try done; simpl in Hs; destruct Hs as (m & -> & Hs);
    try by apply samePhases_eq.
  - by eapply samePhases_creates.
  - by eapply samePhases_deletes.
Qed.

(** The phase that a job writes is explained by what it was answered. *)
Lemma status_explained vs aw p t :
  Forall (eventTrue vs) t ->
  (p = WorkflowPending /\ exists wf r, ev (CreateWorkflow wf) r ∈ t /\
     meta_key (Workflow_ObjectMeta wf) = wfKey aw /\ IgnoreAlreadyExists r = None) \/
  (exists wf, ev (GetWorkflow (wfKey aw)) (inr wf) ∈ t /\ Workflow_Phase wf = p) ->
  explains vs (wfKey aw) p.
Proof.
  rewrite Forall_forall. intros Ht [(-> & wf & r & Hin & Hk & Hr)|(wf & Hin & Hp)].
  - destruct (Ht _ Hin Hr) as (s & Hs & [wf' Hwf']). rewrite Hk in Hwf'.
    exists s, wf'. split_and!; [done|done|by left].
  - destruct (Ht _ Hin) as (s & Hs & Hwf). exists s, wf. split_and!; [done|done|by right].
Qed.

Lemma aw_call_phases os y k t c p s r :
  invariant y -> phasesInv os y -> awJobs y !! k = Some (mkJob t (Call c p)) ->
  answers y c s r -> phasesInv os (record y s).
Proof.
  intros Hinv Hi Hj Ha. destruct (inv_awJob y Hinv k _ Hj) as [[Hcall _] Hread _ _].
  destruct (answers_cases _ _ _ _ Ha) as [->|(r' & Hm & Hs)];
    [by apply phasesInv_same, samePhases_eq|].
  simpl in Hcall, Hread. unfold awCalls in Hcall. destruct t as [|e t]; [by subst|].
  destruct Hcall as (aw & Hr & Hcall). destruct (Hread aw Hr) as (i & s0 & _ & Hs0 & Haw).
  pose proof (read_key y k aw i s0 Hinv Hs0 Haw) as Hk.
  destruct c; try done; simpl in Hs; destruct Hs as (m & -> & Hs);
    try by apply phasesInv_same, samePhases_eq.
  - assert (forall aw', awPhase aw' = awPhase aw -> meta_key (AW_ObjectMeta aw') = k ->
      ResourceVersion (AW_ObjectMeta aw') = ResourceVersion (AW_ObjectMeta aw) ->
      updates AW_ObjectMeta set_AW_ObjectMeta (storedArtifactWorkflow prepareArtifactWorkflow)
        aw' (artifactWorkflows (now y)) m r' ->
      samePhases (now y) (set_artifactWorkflows (now y) m)) as Hsame.
    { intros aw' Hp Hk' Hrv Hup k' x Hx. right.
      destruct (update_phases y k i s0 aw aw' _ m r' ltac:(intros new old z;
        rewrite storedArtifactWorkflow_main; by intros [= <-]) Hinv Hs0 Haw Hk' Hrv Hup k' x Hx)
        as [?|(-> & Hpx & Hst)]; [by exists x|]. exists aw. by rewrite Hpx. }
    apply phasesInv_same; [done|].
    destruct Hcall as [(_ & -> & _)|(_ & ->)]; by eapply Hsame, Hs.
  - destruct Hcall as (_ & _ & _ & ph & -> & Hwhy).
    apply (phasesInv_record os); [done|done|]. intros k' x Hx.
    destruct (update_phases y k i s0 aw (set_AW_Phase aw ph) _ m r' ltac:(intros new old z;
      rewrite storedArtifactWorkflow_status; by intros [= <-]) Hinv Hs0 Haw Hk eq_refl Hs k' x Hx)
      as [?|(-> & Hpx & Hst)]; [right; by exists x|]. left. rewrite Hpx. right. right.
    rewrite <- Hk at 1. simpl. apply (status_explained _ aw ph (e :: t)); [|done].
    eapply Forall_impl; [exact (pi_jobs os y Hi k _ Hj)|]. intros e'. apply eventTrue_mono.
    rewrite versions_record. set_solver.
Qed.

Lemma outside_phases os y s :
  phasesInv os y -> phasesInv (os ++ [(now y, s)]) (record y s).
Proof.
  intros Hi. apply (phasesInv_record os); [done|set_solver|]. intros k aw' Haw'.
  destruct (artifactWorkflows (now y) !! k) as [aw|] eqn:Haw.
  - destruct (decide ((awPhase aw' : string) = awPhase aw)) as [Hp|Hp]; [right; by exists aw|].
    left. right. left. exists (now y), s. split; [set_solver|]. exists aw'. split_and!; [done..|].
    intros aw0 Haw0. rewrite Haw in Haw0. simplify_eq. intros Heq. by rewrite Heq in Hp.
  - left. right. left. exists (now y), s. split; [set_solver|]. exists aw'. split_and!; [done..|].
    intros aw0 Haw0. by rewrite Haw in Haw0.
Qed.

(** Changes of the jobs alone. *)
Lemma phasesInv_jobs os y y' :
  phasesInv os y -> versions y' = versions y -> now y' = now y ->
  (forall k j, awJobs y' !! k = Some j -> Forall (eventTrue (versions y)) (job_trace j)) ->
  phasesInv os y'.
Proof. intros [_ Hp] Hv Hn Hj. split; by rewrite Hv, ?Hn. Qed.

Lemma manager_phases os y y' :
  invariant y -> phasesInv os y -> managerStep y y' -> phasesInv os y'.
Proof.
  intros Hinv Hi Hstep. pose proof (pi_jobs os y Hi) as Hjobs.
  destruct Hstep as [k Hn|k Hn|k t c p s r Hj Ha Hv|k t c p s r Hj Ha Hv|k j Hj Hf|k j Hj Hf
    | |i n Hle Hlt]; try (by apply (phasesInv_jobs os y)).
  - apply (phasesInv_jobs os y); [done..|]. simpl.
    intros k' j [[<- <-]|[_ Hj]]%lookup_insert_Some; [by constructor|by eapply Hjobs].
  - pose proof (order_call_phases os y k t c p s r Hinv Hi Hj Ha) as Hi'.
    by apply (phasesInv_jobs os (record y s)); [| | |apply (pi_jobs _ _ Hi')].
  - pose proof (aw_call_phases os y k t c p s r Hinv Hi Hj Ha) as Hi'.
    apply (phasesInv_jobs os (record y s)); [done..|]. simpl.
    intros k' j [[<- <-]|[_ Hl]]%lookup_insert_Some; [|by eapply (pi_jobs _ _ Hi')].
    simpl. apply Forall_app. split; [exact (pi_jobs _ _ Hi' k _ Hj)|].
    constructor; [by apply answers_true|constructor].
  - apply (phasesInv_jobs os y); [done..|]. simpl.
    intros k' j' [_ Hj']%lookup_delete_Some. by eapply Hjobs.
Qed.

Lemma happened_phases os y : happened os y -> phasesInv os y.
Proof.
  induction 1 as [y Hf|os y y' Hh IH Hm|os y s Hh IH Ho Hv].
  - destruct Hf as [Hh Hs Ho Ha Hk Haw Hwf]. split.
    + by rewrite Ha.
    + by rewrite Haw.
  - eapply manager_phases, Hm; [|done]. by eapply reachable_inv, happened_reachable.
  - by apply outside_phases.
Qed.

(** C21: in every state the two controllers, the users and Argo can reach, with requests
    interleaved call by call, caches that lag behind, faults, lost answers and restarts,
    and with Argo workflows removed and artifact workflows edited by others at any time,
    the phase of an artifact workflow is justified: it is unknown; or somebody else
    wrote it into that artifact workflow; or there was an Argo workflow of its name that
    had the phase, or, if the phase is Pending, just existed.  So a completed phase that
    nobody else wrote is the one in which an Argo workflow of the name completed. *)
Theorem phases_truthful os y k aw :
  happened os y -> artifactWorkflows (now y) !! k = Some aw ->
  awPhase aw = WorkflowUnknown
  \/ (exists s s', (s, s') ∈ os /\ setsPhase s s' k (awPhase aw))
  \/ exists s wf, s ∈ versions y /\ workflows s !! k = Some wf
       /\ (awPhase aw = WorkflowPending \/ awPhase aw = Workflow_Phase wf).
Proof. intros Hh. apply (pi_phases os y (happened_phases os y Hh)). Qed.

End phases.

(** ** A witness

    The run of InterleavingTheorems, in which nobody else touches artifact workflows. *)

#[local] Existing Instance plain_runtime.
#[local] Existing Instance plain_float64.
#[local] Existing Instance plain_util.

Definition handsOff (os : list (Cluster * Cluster)) : Prop :=
  Forall (fun ss => artifactWorkflows ss.2 = artifactWorkflows ss.1) os.

Lemma acts_happened os y l y' :
  handsOff os -> happened os y -> acts y l = Some y' ->
  exists os', handsOff os' /\ happened os' y'.
Proof.
  revert os y. induction l as [|a l IH]; intros os y Ho Hh; simpl; [intros [= <-]; by exists os|].
  destruct (act y a) as [y1|] eqn:Ha; [|done].
  apply act_cases in Ha as [Hm|(s & Hs & Hv & -> & Haw)].
  - eapply IH; [exact Ho|]. by eapply HappenedManager.
  - eapply IH; [|by apply HappenedElsewhere]. apply Forall_app. by repeat constructor.
Qed.

Lemma phases_truthful_witness :
  awPhase (awAt done2) = WorkflowSucceeded /\
  exists s wf, s ∈ versions done2 /\ workflows s !! awK = Some wf
    /\ Workflow_Phase wf = WorkflowSucceeded.
Proof.
  assert (awPhase (awAt done2) = WorkflowSucceeded) as Hp by (vm_compute; reflexivity).
  assert (artifactWorkflows (now done2) !! awK = Some (awAt done2)) as Haw
    by (vm_compute; reflexivity).
  assert (acts start schedule2 = Some done2) as Hacts
    by (apply happens_default; vm_compute; reflexivity).
  split; [exact Hp|].
  destruct (acts_happened [] start schedule2 done2 ltac:(constructor)
              (HappenedNothing start start_fresh) Hacts) as (os & Ho & Hh).
  destruct (phases_truthful os done2 awK (awAt done2) Hh Haw)
    as [Hu|[(s & s' & Hin & aw' & Haw' & Hp' & Hnew)|(s & wf & Hs & Hwf & Hwhy)]].
  - exfalso. rewrite Hp in Hu. discriminate Hu.
  - exfalso. unfold handsOff in Ho. rewrite Forall_forall in Ho. specialize (Ho _ Hin).
    simpl in Ho. rewrite Ho in Haw'. exact (Hnew aw' Haw' Hp').
  - exists s, wf. split; [exact Hs|]. split; [exact Hwf|].
    destruct Hwhy as [Hw|Hw]; rewrite Hp in Hw; [discriminate Hw|by rewrite <- Hw].
Defined.
